(* ===== verification/_CoqProject ===== *)
-Q . S2P
Prelude.v
Ids.v
Errors.v
State.v
Snapshot.v
PersistedDelay.v
CommandKinds.v
Transition.v
Command.v
Scheduler.v
SchedulerCommands.v
SchedulerEvents.v
SchedulerRestore.v
SchedulerInv.v
SchedulerPlans.v
SchedulerHandlers.v
SchedulerAcks.v
SchedulerOps.v
SchedulerAdmission.v
SchedulerWf.v
SchedulerRestoreWf.v
SchedulerReach.v
SchedulerTrace.v
SchedulerDurable.v
SchedulerProperties.v
SchedulerProgress.v
SchedulerFindings.v
Bytes.v
ConcreteDigests.v
Utf8.v
Paths.v
RootBinding.v
Layout.v
JournalTags.v
Journal.v
JournalCodec.v
Replay.v
PayloadTypes.v
MetadataExpansion.v
Payload.v
PayloadCodec.v
OptionMaps.v
PayloadExact.v
PayloadProperties.v
Verification.v
JournalAppender.v
JournalDurable.v
JournalRecovery.v
JournalRun.v
JournalProperties.v
JournalStateTypes.v
JournalState.v
JournalStateLogic.v
JournalStateAtomic.v
JournalStatePrefix.v
PieceEvidence.v
JournalStateInv.v
JournalStateKeeps.v
JournalStateTerminal.v
JournalStateExample.v
JournalStateProperties.v
Rate.v
RateRun.v
RateConformance.v
RateFair.v
Budget.v
Queue.v
Buffer.v
BufferPool.v
Bencode.v
BencodeExact.v
Torrent.v
TorrentExample.v
TorrentFiles.v
TorrentIdentity.v
TorrentRewrite.v
Resume.v
SocketAddr.v
Magnet.v
