(* ===== verification/Prelude.v ===== *)
(** * A verification of the ariax download manager

    Ariax is a download manager in Rust.  Its core crate decides, without any
    I/O, what happens to every download: the request scheduler owns the tasks,
    the queues and the correlation ids, answers commands, task events and
    admission requests, and returns ordered effects (persist, start, cancel,
    schedule, publish) for the drivers around it to carry out.  This
    development models that core and proves what the drivers rely on.

    ** Files and the code they model (all under [src/crates/ariax-core/src])

    - [Prelude] (this file): results and their monad, machine integers,
      functional record update, coded enumerations, ordered maps and vectors.
    - [Ids] ([ids.rs]), [Errors] ([error.rs]), [State] ([state.rs]),
      [Snapshot] ([snapshot.rs]), [PersistedDelay] ([persisted_delay.rs]): the
      data of the core with its parsers, validators and projections.
    - [CommandKinds] and [Command] ([command.rs]): the vocabulary of commands,
      events, effects, barriers and outcomes.
    - [Transition] ([transition.rs]): actions, reasons and the transition
      contract, the table of every state and action.
    - [Scheduler], [SchedulerCommands], [SchedulerEvents], [SchedulerRestore]
      ([scheduler.rs]): the scheduler's state, its atomic commit, every command
      and event handler, admission, and recovery from a batch.

    A Rust struct is a record with prefixed fields ([t_state] for the field
    [state] of [ScheduledTask]), an enumeration is an inductive type in a module
    of its name, a [BTreeMap] is a [gmap] iterated in key order, and
    [Result<T, E>] is [result E T].  Handlers that take [&mut self] are functions
    in the state monad [Sched]; the state of a failed handler is what the source
    leaves behind.  Integers are [N] with their bounds written where the source
    checks or wraps them.  Instants are numbers passed as arguments, as in the
    [.._at] functions; [MonotonicInstant::now] is the environment's.  SHA-256 is
    a parameter.

    ** Proofs

    - [SchedulerInv]: the task invariant.  [SchedulerPlans]: what a plan handed
      to the commit satisfies.  [SchedulerHandlers], [SchedulerAcks],
      [SchedulerOps], [SchedulerAdmission]: every handler fails without a write,
      answers inertly, or commits a plan of that kind.
    - [SchedulerWf]: commits preserve the invariant of the whole scheduler.
      [SchedulerRestoreWf]: recovery establishes it, and the initial effects are
      those of the restored tasks.
    - [SchedulerReach], [SchedulerTrace]: operations as one step function, runs
      and their logs, and the invariants that relate a state to its log.
    - [SchedulerProperties]: the guarantees of every run, with concrete runs as
      witnesses.

    The data files state their own theorems (parsers invert printers,
    validators decide their specification, delays recover conservatively).

    ** Bounds

    Every definition is total and executable; recursion is structural, so there
    is no fuel.  Commits carry at most eight effects, as in the source.

    ** Not modelled

    [Display] implementations, [estimated_clone_bytes] of the scheduler (a
    memory estimate), and the crates around the core: storage, runtime, engine,
    configuration, BitTorrent and the binary. *)

From stdpp Require Export base tactics list strings gmap sorting.
From Stdlib Require Export NArith Lia.

#[global] Open Scope N_scope.

(** ** Results

    [result E A] is Rust's [Result<A, E>]; the [?] operator is monadic bind. *)

Inductive result (E A : Type) : Type :=
| Ok (a : A)
| Err (e : E).
Arguments Ok {E A} a.
Arguments Err {E A} e.

#[global] Instance result_ret {E} : MRet (result E) := fun A a => Ok a.
#[global] Instance result_bind {E} : MBind (result E) := fun A B f m =>
  match m with Ok a => f a | Err e => Err e end.
#[global] Instance result_fmap {E} : FMap (result E) := fun A B f m =>
  match m with Ok a => Ok (f a) | Err e => Err e end.
#[global] Instance result_eq_dec {E A} `{EqDecision E, EqDecision A} : EqDecision (result E A).
Proof. solve_decision. Defined.

(** [Option::ok_or] and [Result::map_err]. *)
Definition ok_or {E A} (o : option A) (e : E) : result E A :=
  match o with Some a => Ok a | None => Err e end.
Definition map_err {E F A} (f : E -> F) (r : result E A) : result F A :=
  match r with Ok a => Ok a | Err e => Err (f e) end.

Definition is_ok {E A} (r : result E A) : bool :=
  match r with Ok _ => true | Err _ => false end.

Lemma ok_or_Ok {E A} (o : option A) (e : E) a : ok_or o e = Ok a <-> o = Some a.
Proof. destruct o; simpl; naive_solver. Qed.
Lemma ok_or_Err {E A} (o : option A) (e e' : E) : ok_or o e = Err e' <-> o = None /\ e' = e.
Proof. destruct o; simpl; naive_solver. Qed.
Lemma bind_Ok {E A B} (m : result E A) (f : A -> result E B) b :
  m ≫= f = Ok b <-> exists a, m = Ok a /\ f a = Ok b.
Proof. destruct m; simpl; naive_solver. Qed.
Lemma fmap_Ok {E A B} (m : result E A) (f : A -> B) b :
  f <$> m = Ok b <-> exists a, m = Ok a /\ b = f a.
Proof. destruct m; simpl; naive_solver. Qed.
Lemma map_err_Ok {E F A} (f : E -> F) (r : result E A) a : map_err f r = Ok a <-> r = Ok a.
Proof. destruct r; simpl; naive_solver. Qed.

(** ** Boolean equality notations, as Rust writes them *)

Declare Scope rust_scope.
Notation "x == y" := (bool_decide (x = y)) (at level 70, no associativity) : rust_scope.
Notation "x != y" := (negb (bool_decide (x = y))) (at level 70, no associativity) : rust_scope.
#[global] Open Scope rust_scope.

Definition is_some {A} (o : option A) : bool :=
  match o with Some _ => true | None => false end.
Definition is_none {A} (o : option A) : bool := negb (is_some o).

Lemma is_some_true {A} (o : option A) : is_some o = true <-> is_Some o.
Proof. destruct o; simpl; split; [eauto|done|done|by intros [? ?]]. Qed.
Lemma is_some_false {A} (o : option A) : is_some o = false <-> o = None.
Proof. destruct o; simpl; naive_solver. Qed.

(** ** Machine integers

    A [u64], [u32] or [usize] (64-bit) is an [N] below the bound; checked and
    saturating operations test the bound explicitly. *)

Definition U64_MAX : N := 2 ^ 64 - 1.
Definition U32_MAX : N := 2 ^ 32 - 1.
Definition USIZE_MAX : N := U64_MAX.
Definition I64_MAX : N := 2 ^ 63 - 1.

Definition u64_checked_add (a b : N) : option N :=
  if a + b <=? U64_MAX then Some (a + b) else None.
Definition u32_checked_add (a b : N) : option N :=
  if a + b <=? U32_MAX then Some (a + b) else None.
Definition u64_saturating_add (a b : N) : N := N.min (a + b) U64_MAX.
Definition usize_saturating_sub (a b : N) : N := a - b.
Definition u64_wrapping_add (a b : N) : N := (a + b) mod 2 ^ 64.
Definition u64_wrapping_sub (a b : N) : N := (a + (2 ^ 64 - b mod 2 ^ 64)) mod 2 ^ 64.
Lemma u64_wrapping_add_small a b : a + b <= U64_MAX -> u64_wrapping_add a b = a + b.
Proof. intros H. apply N.mod_small. unfold U64_MAX in H. lia. Qed.
Lemma u64_wrapping_sub_small a b : b <= a -> a <= U64_MAX -> u64_wrapping_sub a b = a - b.
Proof.
  intros Hb Ha. unfold u64_wrapping_sub, U64_MAX in *. rewrite (N.mod_small b) by lia.
  symmetry. apply (N.mod_unique _ _ 1); lia.
Qed.

Lemma u64_checked_add_Some a b c :
  u64_checked_add a b = Some c <-> c = a + b /\ a + b <= U64_MAX.
Proof.
  unfold u64_checked_add. destruct (N.leb_spec (a + b) U64_MAX); split; intros.
  - split; congruence.
  - naive_solver.
  - discriminate.
  - lia.
Qed.

Lemma u64_checked_add_fits a b : a + b <= U64_MAX -> u64_checked_add a b = Some (a + b).
Proof. intros. by apply u64_checked_add_Some. Qed.

(** ** Record update: [r <| f := v |>]

    [eta] lists a record's fields; [derive_setter] abstracts one of them. *)

Class Settable (R : Type) := eta : R -> R.
Class Setter {R T : Type} (proj : R -> T) := set : (T -> T) -> R -> R.
Arguments set {R T} proj {Setter} _ _.
#[global] Hint Mode Setter - - ! : typeclass_instances.

Ltac derive_setter :=
  lazymatch goal with
  | |- @Setter ?R ?T ?proj =>
      intros g r;
      let inst := constr:(_ : Settable R) in
      let e := eval hnf in (inst r) in
      lazymatch eval pattern (proj r) in e with
      | ?body _ => let s := eval cbv beta in (body (g (proj r))) in exact s
      end
  end.

Notation "r <| f := v |>" := (set f (fun _ => v) r)
  (at level 12, f constr at level 9, v constr at level 200, left associativity,
   format "r  <| f  :=  v |>") : rust_scope.

(** ** Enumerations with codes

    The closed vocabularies of the source each have a [code] function and an
    [ALL_...] constant.  [Coded A] packs the two with the fact that a code
    identifies its constructor, which gives decidable equality, countability
    and completeness of the [ALL_...] list. *)

Definition find_code {A} (code : A -> string) (c : string) (l : list A) : option A :=
  head (filter (fun x => code x = c) l).

Class Coded (A : Type) := {
  code_of : A -> string;
  all_of : list A;
  find_code_of : forall x, find_code code_of (code_of x) all_of = Some x;
}.

Section coded.
Context `{Coded A}.

Lemma code_of_inj x y : code_of x = code_of y -> x = y.
Proof. intros E. pose proof (find_code_of x) as Hx. rewrite E, find_code_of in Hx. congruence. Qed.

Definition coded_eq_dec : EqDecision A.
Proof.
  refine (fun x y => cast_if (decide (code_of x = code_of y)));
    [by apply code_of_inj | congruence].
Defined.

Definition coded_countable `{EqDecision A} : Countable A :=
  inj_countable code_of (fun c => find_code code_of c all_of) find_code_of.

Lemma all_of_complete x : x ∈ all_of.
Proof.
  pose proof (find_code_of x) as Hx. unfold find_code in Hx.
  apply head_Some_elem_of in Hx. by apply list_elem_of_filter in Hx as [_ Hx].
Qed.
End coded.

(** ** Ordered maps

    A [BTreeMap<u64, V>] is a [gmap N V]; iteration is in key order. *)

Definition key_le {V} (p q : N * V) : Prop := p.1 <= q.1.
#[global] Instance key_le_dec {V} : RelDecision (@key_le V).
Proof. intros p q. unfold key_le. apply _. Defined.

Definition btree_entries {V} (m : gmap N V) : list (N * V) := merge_sort key_le (map_to_list m).
Definition btree_keys {V} (m : gmap N V) : list N := (btree_entries m).*1.
Definition btree_values {V} (m : gmap N V) : list V := (btree_entries m).*2.

Section btree.
Context {V : Type}.
Implicit Types (m : gmap N V) (k : N) (v : V).

#[local] Instance key_le_total : Total (@key_le V).
Proof. intros p q. unfold key_le. lia. Qed.
#[local] Instance key_le_trans : Transitive (@key_le V).
Proof. intros p q r. unfold key_le. lia. Qed.

Lemma btree_entries_perm m : btree_entries m ≡ₚ map_to_list m.
Proof. apply merge_sort_Permutation. Qed.

Lemma btree_entries_sorted m : StronglySorted key_le (btree_entries m).
Proof. apply (StronglySorted_merge_sort key_le). Qed.

Lemma elem_of_btree_entries m k v : (k, v) ∈ btree_entries m <-> m !! k = Some v.
Proof. rewrite btree_entries_perm. apply elem_of_map_to_list. Qed.

Lemma elem_of_btree_keys m k : k ∈ btree_keys m <-> is_Some (m !! k).
Proof.
  unfold btree_keys. rewrite list_elem_of_fmap. split.
  - intros [[k' v] [-> Hin]]. apply elem_of_btree_entries in Hin. by exists v.
  - intros [v Hv]. exists (k, v). by rewrite elem_of_btree_entries.
Qed.

Lemma elem_of_btree_values m v : v ∈ btree_values m <-> exists k, m !! k = Some v.
Proof.
  unfold btree_values. rewrite list_elem_of_fmap. split.
  - intros [[k v'] [-> Hin]]. apply elem_of_btree_entries in Hin. by exists k.
  - intros [k Hv]. exists (k, v). by rewrite elem_of_btree_entries.
Qed.

Lemma length_btree_values m : length (btree_values m) = size m.
Proof. unfold btree_values. rewrite length_fmap, btree_entries_perm. apply length_map_to_list. Qed.
End btree.

(** ** Vectors

    [Vec::insert], [Vec::remove] and [Iterator::position] on lists of ids. *)

Definition vec_insert {A} (n : nat) (x : A) (l : list A) : list A := take n l ++ x :: drop n l.
Definition vec_remove {A} (n : nat) (l : list A) : list A := delete n l.
Fixpoint position (x : N) (l : list N) : option nat :=
  match l with
  | [] => None
  | y :: l' => if x =? y then Some O else S <$> position x l'
  end.
Definition vec_len {A} (l : list A) : N := N.of_nat (length l).
Definition contains `{EqDecision A} (l : list A) (x : A) : bool := bool_decide (x ∈ l).

Lemma vec_insert_perm {A} n (x : A) l : vec_insert n x l ≡ₚ x :: l.
Proof. unfold vec_insert. rewrite <- Permutation_middle. by rewrite take_drop. Qed.

Lemma position_Some x l n :
  position x l = Some n ->
  exists l1 l2, l = l1 ++ x :: l2 /\ length l1 = n /\ x ∉ l1.
Proof.
  revert n. induction l as [|y l IH]; intros n; cbn [position]; [done|].
  destruct (N.eqb_spec x y) as [->|Hne].
  - intros [= <-]. exists [], l. split_and!; [done..|apply not_elem_of_nil].
  - intros (m & Hm & ->)%fmap_Some. destruct (IH m Hm) as (l1 & l2 & -> & <- & Hn).
    exists (y :: l1), l2. split_and!; [done..|]. rewrite elem_of_cons. naive_solver.
Qed.

Lemma position_elem_of x l : x ∈ l -> is_Some (position x l).
Proof.
  induction l as [|y l IH]; [by intros ?%elem_of_nil|]. cbn [position].
  destruct (N.eqb_spec x y); [eauto|]. intros [?|Hx]%elem_of_cons; [done|].
  apply fmap_is_Some. auto.
Qed.

Lemma position_None x l : position x l = None <-> x ∉ l.
Proof.
  split.
  - intros Hp Hx. destruct (position_elem_of x l Hx). congruence.
  - intros Hx. destruct (position x l) as [n|] eqn:E; [|done].
    apply position_Some in E as (l1 & l2 & -> & _ & _). set_solver.
Qed.

Lemma vec_remove_perm x l n : position x l = Some n -> l ≡ₚ x :: vec_remove n l.
Proof.
  intros (l1 & l2 & -> & <- & _)%position_Some. unfold vec_remove.
  rewrite delete_middle. by rewrite Permutation_middle.
Qed.

Lemma contains_true `{EqDecision A} (l : list A) x : contains l x = true <-> x ∈ l.
Proof. unfold contains. apply bool_decide_eq_true. Qed.
Lemma contains_false `{EqDecision A} (l : list A) x : contains l x = false <-> x ∉ l.
Proof. unfold contains. apply bool_decide_eq_false. Qed.

Lemma NoDup_vec_remove x l n :
  NoDup l -> position x l = Some n -> NoDup (vec_remove n l) /\ x ∉ vec_remove n l.
Proof. intros Hd Hp. rewrite (vec_remove_perm _ _ _ Hp), NoDup_cons in Hd. tauto. Qed.

Lemma NoDup_vec_insert {A} (x : A) l n : NoDup l -> x ∉ l -> NoDup (vec_insert n x l).
Proof. intros. rewrite vec_insert_perm. by constructor. Qed.

Lemma elem_of_vec_insert {A} (x y : A) l n : y ∈ vec_insert n x l <-> y = x \/ y ∈ l.
Proof. by rewrite vec_insert_perm, elem_of_cons. Qed.

Lemma elem_of_vec_remove x y l n :
  NoDup l -> position x l = Some n -> y ∈ vec_remove n l <-> y <> x /\ y ∈ l.
Proof.
  intros Hd Hp. pose proof (NoDup_vec_remove _ _ _ Hd Hp) as [_ Hx].
  assert (y ∈ l <-> y = x \/ y ∈ vec_remove n l) as ->
    by by rewrite (vec_remove_perm _ _ _ Hp) at 1; rewrite elem_of_cons.
  naive_solver.
Qed.

(** ** Proof automation *)

Create HintDb ariax discriminated.

(** Splits the [?]-chains and conditionals a hypothesis went through. *)
Ltac step_in H :=
  match type of H with
  | context [match ?x with _ => _ end] =>
      let E := fresh "E" in destruct x eqn:E; try discriminate H
  end.

(** Turns boolean tests in the context into propositions. *)
Ltac bool_to_prop :=
  repeat match goal with
  | H : andb _ _ = true |- _ => apply andb_true_iff in H as [? ?]
  | H : orb _ _ = false |- _ => apply orb_false_iff in H as [? ?]
  | H : negb _ = true |- _ => apply negb_true_iff in H
  | H : negb _ = false |- _ => apply negb_false_iff in H
  | H : bool_decide _ = true |- _ => apply bool_decide_eq_true in H
  | H : bool_decide _ = false |- _ => apply bool_decide_eq_false in H
  | H : is_some _ = true |- _ => apply is_some_true in H
  | H : is_some _ = false |- _ => apply is_some_false in H
  | H : contains _ _ = true |- _ => apply contains_true in H
  | H : contains _ _ = false |- _ => apply contains_false in H
  end.

(** ** Sums *)

Definition sum_of {A} (f : A -> N) (l : list A) : N := foldr (fun x n => f x + n) 0 l.
Lemma sum_of_cons {A} (f : A -> N) (x : A) (l : list A) : sum_of f (x :: l) = (f x + sum_of f l)%N.
Proof. done. Qed.
Lemma sum_of_perm {A} (f : A -> N) (l k : list A) : l ≡ₚ k -> sum_of f l = sum_of f k.
Proof. unfold sum_of. induction 1; cbn in *; lia. Qed.
Lemma sum_of_delete {A} (f : A -> N) (l : list A) i x :
  l !! i = Some x -> sum_of f l = (f x + sum_of f (delete i l))%N.
Proof. intros Hi. by rewrite (sum_of_perm f _ _ (delete_Permutation _ _ _ Hi)). Qed.
Lemma sum_of_app {A} (f : A -> N) (l k : list A) : sum_of f (l ++ k) = sum_of f l + sum_of f k.
Proof. induction l as [|x l IH]; [done|]. cbn [app]. rewrite !sum_of_cons, IH. lia. Qed.
Lemma sum_of_insert {A} (f : A -> N) (l : list A) i x y :
  l !! i = Some x -> sum_of f (<[i := y]> l) + f x = sum_of f l + f y.
Proof.
  revert i. induction l as [|z l IH]; intros [|i]; cbn [insert list_insert lookup list_lookup]; try done.
  - intros [= ->]. change (sum_of f (y :: l) + f x = sum_of f (x :: l) + f y). rewrite !sum_of_cons. lia.
  - intros Hi. specialize (IH _ Hi). change (sum_of f (z :: <[i := y]> l) + f x = sum_of f (z :: l) + f y).
    rewrite !sum_of_cons. lia.
Qed.
