(* ===== verification/Ids.v ===== *)
(** * Identifiers

    Model of [crates/ariax-core/src/ids.rs]: the nonzero process-local
    identifiers, the aria2-compatible GID with its sixteen-digit wire form, GID
    lookup prefixes and their resolution, and task generations.  Text is a Rocq
    [string], one character per byte. *)

From S2P Require Import Prelude.
From Stdlib Require Import Ascii String.
Open Scope list_scope.

(** ** Nonzero identifiers *)

(** [NonZeroU64::new]. *)
Definition NonZeroU64_new (value : N) : option N :=
  if value =? 0 then None else Some value.

(** The identifiers of the [nonzero_id!] macro are their numeric value. *)
Notation TaskId := N (only parsing).
Notation TransferAttemptId := N (only parsing).
Notation LeaseId := N (only parsing).
Notation OptionPatchId := N (only parsing).
Notation RetryTimerId := N (only parsing).
Notation SlowReadmissionId := N (only parsing).
Notation NoSpaceProbeId := N (only parsing).
Notation HostKeyResolutionId := N (only parsing).
Notation StoppedResultDeletionId := N (only parsing).
Notation UriId := N (only parsing).
Notation Gid := N (only parsing).

Definition nonzero_id_new (value : N) : option N := NonZeroU64_new value.

Definition RetryTimerId_new : N -> option RetryTimerId := nonzero_id_new.
Definition SlowReadmissionId_new : N -> option SlowReadmissionId := nonzero_id_new.
Definition NoSpaceProbeId_new : N -> option NoSpaceProbeId := nonzero_id_new.
Definition HostKeyResolutionId_new : N -> option HostKeyResolutionId := nonzero_id_new.
Definition StoppedResultDeletionId_new : N -> option StoppedResultDeletionId := nonzero_id_new.

Definition Gid_new (value : N) : option Gid := NonZeroU64_new value.

(** ** Hexadecimal text *)

Definition is_ascii_hexdigit (c : ascii) : bool :=
  let b := N_of_ascii c in
  ((48 <=? b) && (b <=? 57)) || ((65 <=? b) && (b <=? 70)) || ((97 <=? b) && (b <=? 102)).

Definition hex_value (c : ascii) : option N :=
  let b := N_of_ascii c in
  if (48 <=? b) && (b <=? 57) then Some (b - 48)
  else if (65 <=? b) && (b <=? 70) then Some (b - 55)
  else if (97 <=? b) && (b <=? 102) then Some (b - 87)
  else None.

Definition hex_char (d : N) : ascii :=
  if d <? 10 then ascii_of_N (48 + d) else ascii_of_N (87 + d).

(** [str::to_ascii_lowercase] on one byte. *)
Definition ascii_lower (c : ascii) : ascii :=
  let b := N_of_ascii c in
  if (65 <=? b) && (b <=? 90) then ascii_of_N (b + 32) else c.

Definition text (s : string) : list ascii := list_ascii_of_string s.
Definition untext (l : list ascii) : string := string_of_list_ascii l.
Definition str_len (s : string) : N := N.of_nat (String.length s).
Definition lowercase (s : string) : string := untext (ascii_lower <$> text s).

(** The digit loop of [u64::from_str_radix(_, 16)]: overflow is an error. *)
Fixpoint radix16_digits (acc : N) (cs : list ascii) : option N :=
  match cs with
  | [] => Some acc
  | c :: cs' =>
      match hex_value c with
      | None => None
      | Some d => if acc * 16 + d <=? U64_MAX then radix16_digits (acc * 16 + d) cs' else None
      end
  end.

(** An empty input is an error, and a sign is only a prefix of digits. *)
Definition u64_from_str_radix16 (s : string) : option N :=
  match text s with
  | [] => None
  | c :: cs =>
      if Ascii.eqb c "+"%char
      then match cs with [] => None | _ => radix16_digits 0 cs end
      else radix16_digits 0 (c :: cs)
  end.

(** The digits of [{:x}], most significant first; sixteen suffice for a [u64]. *)
Fixpoint hex_digits (fuel : nat) (n : N) : list N :=
  match fuel with
  | O => []
  | S f => if n <? 16 then [n] else hex_digits f (n / 16) ++ [n mod 16]
  end.

(** [{:0width$x}] pads with zeros on the left. *)
Definition format_hex (width : nat) (n : N) : string :=
  let ds := hex_digits 16 n in
  untext (hex_char <$> (replicate (width - List.length ds) 0 ++ ds)).

(** ** GIDs *)

Module ParseGidError.
Inductive ParseGidError : Set := InvalidLength | InvalidHex | Zero.
End ParseGidError.
Notation ParseGidError := ParseGidError.ParseGidError.

Definition Gid_to_string (gid : Gid) : string := format_hex 16 gid.

Definition Gid_from_str (input : string) : result ParseGidError Gid :=
  if str_len input != 16 then Err ParseGidError.InvalidLength
  else if negb (forallb is_ascii_hexdigit (text input)) then Err ParseGidError.InvalidHex
  else
    value ← ok_or (u64_from_str_radix16 input) ParseGidError.InvalidHex;
    ok_or (Gid_new value) ParseGidError.Zero.

(** ** Prefixes *)

Record GidPrefix : Set := { gp_value : N; gp_digits : N }.

Module ParseGidPrefixError.
Inductive ParseGidPrefixError : Set := InvalidLength | InvalidHex | Zero.
End ParseGidPrefixError.
Notation ParseGidPrefixError := ParseGidPrefixError.ParseGidPrefixError.

Definition GidPrefix_matches (self : GidPrefix) (gid : Gid) : bool :=
  let shift := (16 - gp_digits self) * 4 in
  N.shiftr gid shift =? gp_value self.

Definition GidPrefix_to_string (self : GidPrefix) : string :=
  format_hex (N.to_nat (gp_digits self)) (gp_value self).

Definition GidPrefix_from_str (input : string) : result ParseGidPrefixError GidPrefix :=
  if (str_len input =? 0) || (16 <? str_len input) then Err ParseGidPrefixError.InvalidLength
  else if negb (forallb is_ascii_hexdigit (text input)) then Err ParseGidPrefixError.InvalidHex
  else
    value ← ok_or (u64_from_str_radix16 input) ParseGidPrefixError.InvalidHex;
    if value =? 0 then Err ParseGidPrefixError.Zero
    else Ok {| gp_value := value; gp_digits := str_len input |}.

Module GidLookupError.
Inductive GidLookupError : Set := NotFound | Ambiguous.
End GidLookupError.
Notation GidLookupError := GidLookupError.GidLookupError.

(** The scan keeps the first match and stops at a second, different one. *)
Fixpoint resolve_gid_prefix_loop (prefix : GidPrefix) (matched : option Gid) (gids : list Gid)
    : result GidLookupError Gid :=
  match gids with
  | [] => ok_or matched GidLookupError.NotFound
  | gid :: rest =>
      if negb (GidPrefix_matches prefix gid) then resolve_gid_prefix_loop prefix matched rest
      else match matched with
           | None => resolve_gid_prefix_loop prefix (Some gid) rest
           | Some existing =>
               if existing == gid then resolve_gid_prefix_loop prefix matched rest
               else Err GidLookupError.Ambiguous
           end
  end.

Definition resolve_gid_prefix (prefix : GidPrefix) (gids : list Gid) : result GidLookupError Gid :=
  resolve_gid_prefix_loop prefix None gids.

(** ** Generations *)

Notation Generation := N (only parsing).
Definition Generation_INITIAL : Generation := 0.
Definition Generation_checked_next (self : Generation) : option Generation :=
  u64_checked_add self 1.

(** ** Host-key identities

    Fixed-width byte arrays; the SHA-256 digest is external code and is a
    parameter of the functions that use it. *)
Notation HostKeyChallengeId := (list N) (only parsing).
Notation HostKeyFingerprint := (list N) (only parsing).

(** ** Facts about digits and text *)

Fixpoint fixed_digits (w : nat) (n : N) : list N :=
  match w with O => [] | S w' => fixed_digits w' (n / 16) ++ [n mod 16] end.

Definition digits_value (ds : list N) : N := foldl (fun a d => a * 16 + d) 0 ds.

Lemma text_untext l : text (untext l) = l.
Proof. apply list_ascii_of_string_of_list_ascii. Qed.
Lemma untext_text s : untext (text s) = s.
Proof. apply string_of_list_ascii_of_string. Qed.
Lemma untext_inj l1 l2 : untext l1 = untext l2 <-> l1 = l2.
Proof. split; [intros E; by rewrite <- (text_untext l1), E, text_untext|by intros ->]. Qed.
Lemma str_len_text s : str_len s = N.of_nat (List.length (text s)).
Proof. unfold str_len. f_equal. induction s; simpl; congruence. Qed.
Lemma str_len_untext l : str_len (untext l) = N.of_nat (List.length l).
Proof. by rewrite str_len_text, text_untext. Qed.
#[export] Hint Rewrite text_untext untext_text str_len_untext : ariax.

Lemma digits_value_snoc ds d : digits_value (ds ++ [d]) = digits_value ds * 16 + d.
Proof. unfold digits_value. by rewrite foldl_app. Qed.

Lemma length_fixed_digits w n : List.length (fixed_digits w n) = w.
Proof. revert n. induction w; intros n; simpl; [done|]. rewrite length_app, IHw. simpl. lia. Qed.

Lemma fixed_digits_bound w n : Forall (fun d => d < 16) (fixed_digits w n).
Proof.
  revert n. induction w; intros n; simpl; [constructor|].
  apply Forall_app. split; [done|]. constructor; [|constructor]. by apply N.mod_lt.
Qed.

Lemma fixed_digits_value w n : n < 16 ^ N.of_nat w -> digits_value (fixed_digits w n) = n.
Proof.
  revert n. induction w as [|w IH]; intros n Hn.
  - simpl in *. unfold digits_value. simpl. lia.
  - rewrite Nat2N.inj_succ, N.pow_succ_r' in Hn. cbn [fixed_digits].
    rewrite digits_value_snoc, IH.
    + pose proof (N.div_mod n 16). lia.
    + apply N.Div0.div_lt_upper_bound. lia.
Qed.

Lemma fixed_digits_of_value ds :
  Forall (fun d => d < 16) ds -> fixed_digits (List.length ds) (digits_value ds) = ds.
Proof.
  induction ds as [|d ds IH] using rev_ind; intros Hb; [done|].
  apply Forall_app in Hb as [Hb Hd]. rewrite Forall_singleton in Hd. cbv beta in Hd.
  rewrite length_app, digits_value_snoc. simpl. rewrite Nat.add_1_r. cbn [fixed_digits].
  rewrite N.div_add_l, (N.div_small d), N.add_0_r, IH by first [lia|done].
  do 2 f_equal. rewrite N.add_comm, N.Div0.mod_add. by apply N.mod_small.
Qed.

Lemma digits_value_bound ds :
  Forall (fun d => d < 16) ds -> digits_value ds < 16 ^ N.of_nat (List.length ds).
Proof.
  induction ds as [|d ds IH] using rev_ind; intros Hb; [by vm_compute|].
  apply Forall_app in Hb as [Hb Hd]. rewrite Forall_singleton in Hd. cbv beta in Hd. specialize (IH Hb).
  rewrite length_app, digits_value_snoc. simpl. rewrite Nat.add_1_r, Nat2N.inj_succ, N.pow_succ_r'. lia.
Qed.

Lemma fixed_digits_0 w : fixed_digits w 0 = replicate w 0.
Proof.
  induction w as [|w IH]; [done|]. cbn [fixed_digits].
  rewrite N.div_0_l, N.mod_0_l, IH by lia. by rewrite <- replicate_S_end.
Qed.

(** Zero padding makes the digits of [{:0w$x}] the [w] low-order digits. *)
Lemma padded_hex_digits f w n :
  (0 < w)%nat -> n < 16 ^ N.of_nat f -> n < 16 ^ N.of_nat w ->
  replicate (w - List.length (hex_digits f n)) 0 ++ hex_digits f n = fixed_digits w n.
Proof.
  revert w n. induction f as [|f IH]; intros w n Hw Hf Hn.
  - simpl in Hf. assert (n = 0) as -> by lia. simpl. rewrite fixed_digits_0, app_nil_r. f_equal. lia.
  - destruct w as [|w]; [lia|]. cbn [hex_digits fixed_digits].
    rewrite Nat2N.inj_succ, N.pow_succ_r' in Hf, Hn.
    destruct (N.ltb_spec n 16) as [Hlt|Hge].
    + simpl. rewrite N.div_small, N.mod_small, fixed_digits_0 by lia. by rewrite Nat.sub_0_r.
    + assert (0 < w)%nat. { destruct w; [simpl in Hn; lia|lia]. }
      rewrite length_app. simpl. replace (S w - (_ + 1))%nat with (w - List.length (hex_digits f (n / 16)))%nat by lia.
      rewrite app_assoc, IH; [done|done|apply N.Div0.div_lt_upper_bound; lia..].
Qed.

Lemma format_hex_fixed w n :
  (0 < w)%nat -> n <= U64_MAX -> n < 16 ^ N.of_nat w ->
  format_hex w n = untext (hex_char <$> fixed_digits w n).
Proof.
  intros Hw Hm Hn. unfold format_hex. rewrite padded_hex_digits; [done..| |done].
  unfold U64_MAX in Hm. apply N.le_lt_trans with (2 ^ 64 - 1); [done|by vm_compute].
Qed.

Definition below (k : nat) : list N := N.of_nat <$> seq 0 k.
Lemma below_spec k n : n < N.of_nat k -> n ∈ below k.
Proof.
  intros Hn. unfold below. apply list_elem_of_fmap. exists (N.to_nat n).
  split; [lia|]. apply elem_of_seq. lia.
Qed.
Lemma forall_below (k : nat) (P : N -> bool) :
  forallb P (below k) = true -> forall n, n < N.of_nat k -> P n = true.
Proof.
  intros Hf n Hn. apply below_spec in Hn. rewrite forallb_forall in Hf.
  apply Hf. by apply list_elem_of_In.
Qed.

Lemma hex_char_value d : d < 16 -> hex_value (hex_char d) = Some d /\ is_ascii_hexdigit (hex_char d) = true.
Proof.
  intros Hd.
  pose proof (forall_below 16 (fun d => (hex_value (hex_char d) == Some d) && is_ascii_hexdigit (hex_char d))
    ltac:(by vm_compute) d Hd) as H. by apply andb_true_iff in H as [?%bool_decide_eq_true ?].
Qed.

Lemma hex_value_char c :
  is_ascii_hexdigit c = true -> exists d, hex_value c = Some d /\ d < 16 /\ hex_char d = ascii_lower c.
Proof.
  pose proof (forall_below 256 (fun b => let c := ascii_of_N b in
    implb (is_ascii_hexdigit c)
      match hex_value c with Some d => (d <? 16) && (hex_char d == ascii_lower c) | None => false end)
    ltac:(by vm_compute) _ (N_ascii_bounded c)) as H.
  cbv beta zeta in H. rewrite ascii_N_embedding in H. intros Hx. rewrite Hx in H.
  destruct (hex_value c) as [d|]; [|done]. simpl in H.
  apply andb_true_iff in H as [?%N.ltb_lt ?%bool_decide_eq_true]. by exists d.
Qed.

Lemma hex_plus c : is_ascii_hexdigit c = true -> Ascii.eqb c "+"%char = false.
Proof. intros Hc. destruct (Ascii.eqb_spec c "+"%char) as [->|]; done. Qed.

(** Characters that are all digits decode to the value of their digits. *)
Lemma hex_text_digits cs :
  forallb is_ascii_hexdigit cs = true ->
  exists ds, List.length ds = List.length cs /\ Forall (fun d => d < 16) ds /\
             hex_value <$> cs = Some <$> ds /\ hex_char <$> ds = ascii_lower <$> cs.
Proof.
  induction cs as [|c cs IH]; cbn [forallb]; [by exists []|].
  intros [Hc Hcs]%andb_true_iff. destruct (IH Hcs) as (ds & ? & ? & E1 & E2).
  apply hex_value_char in Hc as (d & E & Hd & Hl). exists (d :: ds).
  split_and!; [simpl; lia|by constructor|by rewrite !fmap_cons, E, E1|by rewrite !fmap_cons, Hl, E2].
Qed.

Lemma radix16_digits_value cs ds acc :
  hex_value <$> cs = Some <$> ds -> foldl (fun a d => a * 16 + d) acc ds <= U64_MAX ->
  radix16_digits acc cs = Some (foldl (fun a d => a * 16 + d) acc ds).
Proof.
  revert ds acc. induction cs as [|c cs IH]; intros [|d ds] acc E Hm; [done..|].
  rewrite !fmap_cons in E. injection E as E1 E2. cbn [radix16_digits foldl] in *. rewrite E1. assert (forall a, a <= foldl (fun a d => a * 16 + d) a ds) as Hmono.
  { clear. induction ds as [|d ds IH]; simpl; intros a; [lia|]. specialize (IH (a * 16 + d)). lia. }
  specialize (Hmono (acc * 16 + d)). destruct (N.leb_spec (acc * 16 + d) U64_MAX); [auto|lia].
Qed.

Lemma u64_from_str_radix16_digits s ds :
  text s <> [] -> (List.length (text s) <= 16)%nat -> forallb is_ascii_hexdigit (text s) = true ->
  hex_value <$> text s = Some <$> ds -> Forall (fun d => d < 16) ds ->
  u64_from_str_radix16 s = Some (digits_value ds).
Proof.
  intros Hne Hlen Hhex E Hb. unfold u64_from_str_radix16.
  destruct (text s) as [|c cs] eqn:Es; [done|]. simpl in Hhex. apply andb_true_iff in Hhex as [Hc _].
  rewrite (hex_plus c Hc). apply radix16_digits_value; [done|].
  pose proof (digits_value_bound ds Hb) as Hv. apply (f_equal List.length) in E. rewrite !length_fmap in E.
  fold (digits_value ds). apply N.lt_le_pred in Hv. etrans; [exact Hv|].
  change U64_MAX with (N.pred (16 ^ 16)). apply N.pred_le_mono, N.pow_le_mono_r; [done|].
  rewrite <- E. lia.
Qed.

Lemma ascii_lower_hex c : is_ascii_hexdigit (ascii_lower c) = is_ascii_hexdigit c.
Proof.
  pose proof (forall_below 256 (fun b => let c := ascii_of_N b in
    Bool.eqb (is_ascii_hexdigit (ascii_lower c)) (is_ascii_hexdigit c))
    ltac:(by vm_compute) _ (N_ascii_bounded c)) as H.
  cbv beta zeta in H. rewrite ascii_N_embedding in H. by apply Bool.eqb_prop.
Qed.

Lemma hex_char_lower d : d < 16 -> ascii_lower (hex_char d) = hex_char d.
Proof.
  intros Hd. pose proof (forall_below 16 (fun d => bool_decide (ascii_lower (hex_char d) = hex_char d))
    ltac:(by vm_compute) d Hd) as H. by apply bool_decide_eq_true in H.
Qed.

Lemma hex_char_inj d1 d2 : d1 < 16 -> d2 < 16 -> hex_char d1 = hex_char d2 -> d1 = d2.
Proof.
  intros H1 H2 E. destruct (hex_char_value d1 H1) as [E1 _], (hex_char_value d2 H2) as [E2 _].
  rewrite E in E1. congruence.
Qed.

Lemma hex_chars_inj ds1 ds2 :
  Forall (fun d => d < 16) ds1 -> Forall (fun d => d < 16) ds2 ->
  hex_char <$> ds1 = hex_char <$> ds2 -> ds1 = ds2.
Proof.
  intros H1. revert ds2. induction H1 as [|d1 ds1 Hd1 H1 IH]; intros [|d2 ds2] H2 E; [done..|].
  rewrite !fmap_cons in E. injection E as E1 E2. inversion H2; subst.
  f_equal; [by apply hex_char_inj|auto].
Qed.

(** Text of up to sixteen digits parses to the value of its digits, and those
    digits print as the lowercase text. *)
Lemma hex_text_parse s :
  text s <> [] -> (List.length (text s) <= 16)%nat -> forallb is_ascii_hexdigit (text s) = true ->
  exists ds, List.length ds = List.length (text s) /\ Forall (fun d => d < 16) ds /\
             u64_from_str_radix16 s = Some (digits_value ds) /\
             untext (hex_char <$> ds) = lowercase s.
Proof.
  intros Hne Hlen Hhex. destruct (hex_text_digits _ Hhex) as (ds & ? & ? & E & El).
  exists ds. split_and!; [done..|by eapply u64_from_str_radix16_digits|].
  unfold lowercase. by rewrite El.
Qed.

Lemma digits_value_u64 ds :
  (List.length ds <= 16)%nat -> Forall (fun d => d < 16) ds -> digits_value ds <= U64_MAX.
Proof.
  intros Hl Hb. apply digits_value_bound in Hb. apply N.lt_le_pred in Hb. etrans; [exact Hb|].
  change U64_MAX with (N.pred (16 ^ 16)). apply N.pred_le_mono, N.pow_le_mono_r; [done|]. lia.
Qed.

Lemma u64_lt_pow16 g : g <= U64_MAX -> g < 16 ^ N.of_nat 16.
Proof. intros H. eapply N.le_lt_trans; [exact H|]. by vm_compute. Qed.

Lemma Gid_to_string_fixed g :
  g <= U64_MAX -> Gid_to_string g = untext (hex_char <$> fixed_digits 16 g).
Proof. intros H. apply format_hex_fixed; [lia|done|by apply u64_lt_pow16]. Qed.

Lemma hexdigits_of_chars ds :
  Forall (fun d => d < 16) ds -> forallb is_ascii_hexdigit (hex_char <$> ds) = true.
Proof.
  induction 1 as [|d ds Hd Hds IH]; [done|]. rewrite fmap_cons. cbn [forallb].
  rewrite IH. by destruct (hex_char_value d Hd) as [_ ->].
Qed.

Lemma lowercase_hexdigits s :
  forallb is_ascii_hexdigit (text (lowercase s)) = forallb is_ascii_hexdigit (text s).
Proof.
  unfold lowercase. rewrite text_untext. induction (text s) as [|c cs IH]; [done|].
  rewrite fmap_cons. cbn [forallb]. by rewrite ascii_lower_hex, IH.
Qed.

Lemma length_lowercase s : str_len (lowercase s) = str_len s.
Proof. unfold lowercase. by rewrite str_len_untext, length_fmap, str_len_text. Qed.

(** ** Correctness of the codec *)

Lemma Gid_from_str_complete s g :
  0 < g -> g <= U64_MAX -> lowercase s = Gid_to_string g -> Gid_from_str s = Ok g.
Proof.
  intros Hz Hm E. unfold Gid_from_str. rewrite Gid_to_string_fixed in E by done.
  assert (str_len s = 16) as Hl.
  { rewrite <- length_lowercase, E, str_len_untext, length_fmap, length_fixed_digits. done. }
  rewrite bool_decide_eq_true_2 by done. simpl.
  assert (forallb is_ascii_hexdigit (text s) = true) as Hh.
  { rewrite <- lowercase_hexdigits, E, text_untext. apply hexdigits_of_chars, fixed_digits_bound. }
  rewrite Hh. simpl. rewrite str_len_text in Hl.
  destruct (hex_text_parse s) as (ds & Hlen & Hb & -> & El); [by intros E'; rewrite E' in Hl|lia|done|].
  rewrite E in El. apply untext_inj, hex_chars_inj in El as ->; [|done|apply fixed_digits_bound].
  rewrite fixed_digits_value by by apply u64_lt_pow16. simpl. unfold Gid_new, NonZeroU64_new.
  destruct (N.eqb_spec g 0); [lia|done].
Qed.

Lemma lowercase_gid g : g <= U64_MAX -> lowercase (Gid_to_string g) = Gid_to_string g.
Proof.
  intros Hg. rewrite Gid_to_string_fixed by done. unfold lowercase. rewrite text_untext. f_equal.
  rewrite <- list_fmap_compose. apply list_fmap_ext. intros i d Hd. simpl.
  pose proof (fixed_digits_bound 16 g) as Hb. rewrite Forall_lookup in Hb. specialize (Hb _ _ Hd).
  by apply hex_char_lower.
Qed.

Lemma Gid_from_str_sound s g :
  Gid_from_str s = Ok g -> 0 < g /\ g <= U64_MAX /\ lowercase s = Gid_to_string g.
Proof.
  unfold Gid_from_str.
  destruct (bool_decide (str_len s = 16)) eqn:Hl; [|done]. apply bool_decide_eq_true in Hl.
  rewrite str_len_text in Hl. simpl. destruct (forallb _ _) eqn:Hh; [|done]. simpl.
  destruct (hex_text_parse s) as (ds & Hlen & Hb & -> & <-); [by intros E; rewrite E in Hl|lia|done|].
  simpl. unfold Gid_new, NonZeroU64_new. destruct (N.eqb_spec (digits_value ds) 0); [done|]. simpl.
  intros [= <-]. assert (List.length ds = 16)%nat as E16 by lia.
  pose proof (digits_value_u64 ds ltac:(lia) Hb). split_and!; [lia|done|].
  rewrite Gid_to_string_fixed, <- E16, fixed_digits_of_value by done. done.
Qed.

(** C37: the parser accepts exactly the sixteen-digit texts, in either case, of
    the nonzero 64-bit values, and printing the parsed GID gives the lowercase
    text back. *)
Theorem gid_parse_print_iff s g :
  Gid_from_str s = Ok g <->
  0 < g /\ g <= U64_MAX /\ lowercase s = Gid_to_string g.
Proof.
  split; [apply Gid_from_str_sound|]. intros (? & ? & ?). by apply Gid_from_str_complete.
Qed.

(** The [d] leading wire digits of a GID are the digits of its high part. *)
Lemma take_fixed_digits k d n :
  take d (fixed_digits (d + k) n) = fixed_digits d (n / 16 ^ N.of_nat k).
Proof.
  revert n. induction k as [|k IH]; intros n.
  - rewrite Nat.add_0_r, N.div_1_r. apply take_ge. by rewrite length_fixed_digits.
  - rewrite Nat.add_succ_r. cbn [fixed_digits]. rewrite take_app_le by (rewrite length_fixed_digits; lia).
    rewrite IH. f_equal. rewrite Nat2N.inj_succ, N.pow_succ_r', N.Div0.div_div. done.
Qed.

Lemma prefix_text s1 s2 :
  String.prefix s1 s2 = true <-> text s1 = take (List.length (text s1)) (text s2).
Proof.
  revert s2. induction s1 as [|c s1 IH]; intros s2; [by destruct s2|].
  destruct s2 as [|c' s2]; [done|]. simpl. destruct (ascii_dec c c') as [->|Hne].
  - rewrite IH. unfold text. split; [by intros <-|by intros [= <-]].
  - split; [done|]. by intros [= ??].
Qed.

Lemma GidPrefix_from_str_Ok s p :
  GidPrefix_from_str s = Ok p ->
  exists ds, gp_digits p = N.of_nat (List.length ds) /\ (1 <= List.length ds <= 16)%nat /\
             Forall (fun d => d < 16) ds /\ gp_value p = digits_value ds /\
             lowercase s = untext (hex_char <$> ds) /\ gp_value p <> 0.
Proof.
  unfold GidPrefix_from_str. destruct (_ || _) eqn:Hl; [done|].
  apply orb_false_iff in Hl as [Hl1%N.eqb_neq Hl2%N.ltb_ge]. rewrite str_len_text in Hl1, Hl2.
  destruct (forallb _ _) eqn:Hh; [|done]. simpl.
  destruct (hex_text_parse s) as (ds & Hlen & Hb & -> & El); [by intros E; rewrite E in Hl1|lia|done|].
  simpl. destruct (N.eqb_spec (digits_value ds) 0); [done|]. intros [= <-].
  exists ds. simpl. rewrite str_len_text. split_and!; [by f_equal|lia..|done|done|done|done].
Qed.

(** a parsed prefix matches a GID exactly when its lowercase text is a
    textual prefix of the GID's wire form. *)
Theorem gid_prefix_matches_wire_prefix s p g :
  GidPrefix_from_str s = Ok p -> g <= U64_MAX ->
  GidPrefix_matches p g = String.prefix (lowercase s) (Gid_to_string g).
Proof.
  intros (ds & Hd & Hlen & Hb & Hv & El & _)%GidPrefix_from_str_Ok Hg.
  apply eq_true_iff_eq. rewrite prefix_text, El, Gid_to_string_fixed, !text_untext, length_fmap by done.
  unfold GidPrefix_matches. rewrite N.eqb_eq, N.shiftr_div_pow2, Hd, Hv.
  set (d := List.length ds) in *. set (k := (16 - d)%nat).
  replace (2 ^ ((16 - N.of_nat d) * 4)) with (16 ^ N.of_nat k).
  2: { rewrite N.mul_comm, N.pow_mul_r. change (2 ^ 4) with 16. f_equal. lia. }
  rewrite <- fmap_take. replace (fixed_digits 16 g) with (fixed_digits (d + k) g) by (f_equal; lia).
  rewrite take_fixed_digits.
  assert (g / 16 ^ N.of_nat k < 16 ^ N.of_nat d) as Hlt.
  { apply N.Div0.div_lt_upper_bound. rewrite <- N.pow_add_r.
    replace (N.of_nat k + N.of_nat d) with (N.of_nat 16) by lia. by apply u64_lt_pow16. }
  split.
  - intros ->. unfold d. by rewrite fixed_digits_of_value.
  - intros E. apply hex_chars_inj in E; [|done|apply fixed_digits_bound].
    rewrite E. symmetry. by apply fixed_digits_value.
Qed.

Example gid_prefix_matches_wire_prefix_witness :
  GidPrefix_from_str "Ab" = Ok {| gp_value := 171; gp_digits := 2 |} /\
  GidPrefix_matches {| gp_value := 171; gp_digits := 2 |} 0xab00000000000001
    = String.prefix (lowercase "Ab") (Gid_to_string 0xab00000000000001).
Proof.
  split; [reflexivity|]. apply gid_prefix_matches_wire_prefix; [reflexivity|by vm_compute].
Defined.

Lemma resolve_loop_spec p m gids :
  (forall g, m = Some g -> GidPrefix_matches p g = true) ->
  match resolve_gid_prefix_loop p m gids with
  | Ok g => (m = Some g \/ g ∈ gids) /\ GidPrefix_matches p g = true /\
            forall g', (m = Some g' \/ g' ∈ gids) -> GidPrefix_matches p g' = true -> g' = g
  | Err GidLookupError.NotFound => m = None /\ forall g, g ∈ gids -> GidPrefix_matches p g = false
  | Err GidLookupError.Ambiguous =>
      exists g1 g2, g1 <> g2 /\ (m = Some g1 \/ g1 ∈ gids) /\ (m = Some g2 \/ g2 ∈ gids) /\
        GidPrefix_matches p g1 = true /\ GidPrefix_matches p g2 = true
  end.
Proof.
  revert m. induction gids as [|g gids IH]; intros m Hm; cbn [resolve_gid_prefix_loop].
  - destruct m as [g|]; simpl.
    + split_and!; [by left|by apply Hm|]. intros g' [[= ->]|Hin%elem_of_nil] _; done.
    + split; [done|]. by intros g' ?%elem_of_nil.
  - destruct (GidPrefix_matches p g) eqn:Eg; simpl.
    + destruct m as [e|]; [destruct (bool_decide_reflect (e = g)) as [->|Hne]|].
      * specialize (IH (Some g) Hm). destruct (resolve_gid_prefix_loop _ _ _) as [r|[]]; set_solver.
      * exists e, g. split_and!; set_solver.
      * specialize (IH (Some g) ltac:(naive_solver)).
        destruct (resolve_gid_prefix_loop _ _ _) as [r|[]]; set_solver.
    + specialize (IH m Hm). destruct (resolve_gid_prefix_loop _ _ _) as [r|[]]; [|set_solver..].
      destruct IH as (? & ? & Hu). split_and!; [set_solver..|]. intros g' Hg' Eg'.
      apply Hu; [|done]. destruct Hg' as [|[->|]%elem_of_cons]; [by left|congruence|by right].
Qed.

(** prefix resolution finds the single GID the prefix denotes: it succeeds
    exactly with the unique matching GID, reports [NotFound] exactly when no GID
    matches, and [Ambiguous] exactly when two different GIDs do, however often
    a GID is repeated in the scan. *)
Theorem resolve_gid_prefix_spec p gids :
  (forall g, resolve_gid_prefix p gids = Ok g <->
     g ∈ gids /\ GidPrefix_matches p g = true /\
     forall g', g' ∈ gids -> GidPrefix_matches p g' = true -> g' = g) /\
  (resolve_gid_prefix p gids = Err GidLookupError.NotFound <->
     forall g, g ∈ gids -> GidPrefix_matches p g = false) /\
  (resolve_gid_prefix p gids = Err GidLookupError.Ambiguous <->
     exists g1 g2, g1 ∈ gids /\ g2 ∈ gids /\ g1 <> g2 /\
       GidPrefix_matches p g1 = true /\ GidPrefix_matches p g2 = true).
Proof.
  pose proof (resolve_loop_spec p None gids ltac:(done)) as H. fold (resolve_gid_prefix p gids) in H.
  destruct (resolve_gid_prefix p gids) as [r|[]].
  - destruct H as ([|Hr] & Er & Hu); [done|].
    assert (forall g, g ∈ gids -> GidPrefix_matches p g = true -> g = r) as Hu' by naive_solver.
    split_and!; [intros g; split; [naive_solver|]|split; [done|]|split; [done|]].
    + intros (? & ? & Hg). f_equal. symmetry. auto.
    + intros Hn. rewrite Hn in Er by done. done.
    + intros (g1 & g2 & ? & ? & Hne & ? & ?). destruct Hne. by rewrite (Hu' g1), (Hu' g2).
  - destruct H as [_ Hn]. split_and!; [intros g; split; [done|]|done|split; [done|]].
    + intros (? & Hg & _). rewrite Hn in Hg by done. done.
    + intros (g1 & _ & ? & _ & _ & Hg & _). rewrite Hn in Hg by done. done.
  - destruct H as (g1 & g2 & Hne & [|H1] & [|H2] & E1 & E2); [done..|].
    split_and!; [intros g; split; [done|]|split; [done|]|split; [by exists g1, g2|done]].
    + intros (_ & _ & Hu). destruct Hne. by rewrite (Hu g1), (Hu g2).
    + intros Hn. rewrite Hn in E1 by done. done.
Qed.
