(* ===== verification/Errors.v ===== *)
(** * Public errors

    Model of [crates/ariax-core/src/error.rs]: the stable error categories with
    their journal numbers and codes, and the bounded public error message. *)

From S2P Require Import Prelude.
From Stdlib Require Import Ascii String.
Open Scope list_scope.

(** ** Error kinds *)

Module ErrorKind.
Inductive ErrorKind : Set :=
| Config
| UnsupportedOption
| OptionPatchRejected
| InvalidGid
| GidAmbiguous
| GidNotFound
| GidCollision
| InvalidPath
| PathEscape
| Network
| Timeout
| Retryable
| InvalidRange
| StaleValidator
| ChecksumMismatch
| HostKeyApprovalRequired
| StaleChallenge
| Disk
| NoSpace
| Permission
| JournalCorrupt
| DirtyCheckpoint
| NeedsCredentials
| SlowConsumer
| ResponseTooLarge
| ResourceLimit
| BackendUnavailable
| Cancelled
| InternalInvariant.
End ErrorKind.
Notation ErrorKind := ErrorKind.ErrorKind.

Definition ErrorKind_code (self : ErrorKind) : string :=
  match self with
  | ErrorKind.Config => "Config"
  | ErrorKind.UnsupportedOption => "UnsupportedOption"
  | ErrorKind.OptionPatchRejected => "OptionPatchRejected"
  | ErrorKind.InvalidGid => "InvalidGid"
  | ErrorKind.GidAmbiguous => "GidAmbiguous"
  | ErrorKind.GidNotFound => "GidNotFound"
  | ErrorKind.GidCollision => "GidCollision"
  | ErrorKind.InvalidPath => "InvalidPath"
  | ErrorKind.PathEscape => "PathEscape"
  | ErrorKind.Network => "Network"
  | ErrorKind.Timeout => "Timeout"
  | ErrorKind.Retryable => "Retryable"
  | ErrorKind.InvalidRange => "InvalidRange"
  | ErrorKind.StaleValidator => "StaleValidator"
  | ErrorKind.ChecksumMismatch => "ChecksumMismatch"
  | ErrorKind.HostKeyApprovalRequired => "HostKeyApprovalRequired"
  | ErrorKind.StaleChallenge => "StaleChallenge"
  | ErrorKind.Disk => "Disk"
  | ErrorKind.NoSpace => "NoSpace"
  | ErrorKind.Permission => "Permission"
  | ErrorKind.JournalCorrupt => "JournalCorrupt"
  | ErrorKind.DirtyCheckpoint => "DirtyCheckpoint"
  | ErrorKind.NeedsCredentials => "NeedsCredentials"
  | ErrorKind.SlowConsumer => "SlowConsumer"
  | ErrorKind.ResponseTooLarge => "ResponseTooLarge"
  | ErrorKind.ResourceLimit => "ResourceLimit"
  | ErrorKind.BackendUnavailable => "BackendUnavailable"
  | ErrorKind.Cancelled => "Cancelled"
  | ErrorKind.InternalInvariant => "InternalInvariant"
  end.

Definition ALL_ERROR_KINDS : list ErrorKind :=
  [ ErrorKind.Config;
    ErrorKind.UnsupportedOption;
    ErrorKind.OptionPatchRejected;
    ErrorKind.InvalidGid;
    ErrorKind.GidAmbiguous;
    ErrorKind.GidNotFound;
    ErrorKind.GidCollision;
    ErrorKind.InvalidPath;
    ErrorKind.PathEscape;
    ErrorKind.Network;
    ErrorKind.Timeout;
    ErrorKind.Retryable;
    ErrorKind.InvalidRange;
    ErrorKind.StaleValidator;
    ErrorKind.ChecksumMismatch;
    ErrorKind.HostKeyApprovalRequired;
    ErrorKind.StaleChallenge;
    ErrorKind.Disk;
    ErrorKind.NoSpace;
    ErrorKind.Permission;
    ErrorKind.JournalCorrupt;
    ErrorKind.DirtyCheckpoint;
    ErrorKind.NeedsCredentials;
    ErrorKind.SlowConsumer;
    ErrorKind.ResponseTooLarge;
    ErrorKind.ResourceLimit;
    ErrorKind.BackendUnavailable;
    ErrorKind.Cancelled;
    ErrorKind.InternalInvariant ].

#[global] Instance ErrorKind_coded : Coded ErrorKind.
Proof. refine {| code_of := ErrorKind_code; all_of := ALL_ERROR_KINDS |}. by intros []. Defined.
#[global] Instance ErrorKind_eq_dec : EqDecision ErrorKind := coded_eq_dec.
#[global] Instance ErrorKind_countable : Countable ErrorKind := coded_countable.

(** [self as u8]: the explicit discriminants. *)
Definition ErrorKind_number (self : ErrorKind) : N :=
  match self with
  | ErrorKind.Config => 1
  | ErrorKind.UnsupportedOption => 2
  | ErrorKind.OptionPatchRejected => 3
  | ErrorKind.InvalidGid => 4
  | ErrorKind.GidAmbiguous => 5
  | ErrorKind.GidNotFound => 6
  | ErrorKind.GidCollision => 7
  | ErrorKind.InvalidPath => 8
  | ErrorKind.PathEscape => 9
  | ErrorKind.Network => 10
  | ErrorKind.Timeout => 11
  | ErrorKind.Retryable => 12
  | ErrorKind.InvalidRange => 13
  | ErrorKind.StaleValidator => 14
  | ErrorKind.ChecksumMismatch => 15
  | ErrorKind.HostKeyApprovalRequired => 16
  | ErrorKind.StaleChallenge => 17
  | ErrorKind.Disk => 18
  | ErrorKind.NoSpace => 19
  | ErrorKind.Permission => 20
  | ErrorKind.JournalCorrupt => 21
  | ErrorKind.DirtyCheckpoint => 22
  | ErrorKind.NeedsCredentials => 23
  | ErrorKind.SlowConsumer => 24
  | ErrorKind.ResponseTooLarge => 25
  | ErrorKind.ResourceLimit => 26
  | ErrorKind.BackendUnavailable => 27
  | ErrorKind.Cancelled => 28
  | ErrorKind.InternalInvariant => 29
  end.

(** [TryFrom<u8>]: the first kind with that number. *)
Definition ErrorKind_try_from (value : N) : option ErrorKind :=
  head (filter (fun kind => ErrorKind_number kind = value) ALL_ERROR_KINDS).

Module RetryClass.
Inductive RetryClass : Set := Never | SameSource | AnotherSource | RestartGeneration | UserAction.
End RetryClass.
Notation RetryClass := RetryClass.RetryClass.
#[global] Instance RetryClass_eq_dec : EqDecision RetryClass.
Proof. solve_decision. Defined.

Module OptionPatchRejectReason.
Inductive OptionPatchRejectReason : Set :=
| InvalidValue
| Unsupported
| NotRuntimeMutable
| RequiresNewGeneration
| RequiresExplicitBtRestart
| UnsafeCompatRequired.
End OptionPatchRejectReason.
Notation OptionPatchRejectReason := OptionPatchRejectReason.OptionPatchRejectReason.

Definition OptionPatchRejectReason_code (self : OptionPatchRejectReason) : string :=
  match self with
  | OptionPatchRejectReason.InvalidValue => "invalid_value"
  | OptionPatchRejectReason.Unsupported => "unsupported"
  | OptionPatchRejectReason.NotRuntimeMutable => "not_runtime_mutable"
  | OptionPatchRejectReason.RequiresNewGeneration => "requires_new_generation"
  | OptionPatchRejectReason.RequiresExplicitBtRestart => "requires_explicit_bt_restart"
  | OptionPatchRejectReason.UnsafeCompatRequired => "unsafe_compat_required"
  end.

Definition ALL_OPTION_PATCH_REJECT_REASONS : list OptionPatchRejectReason :=
  [ OptionPatchRejectReason.InvalidValue;
    OptionPatchRejectReason.Unsupported;
    OptionPatchRejectReason.NotRuntimeMutable;
    OptionPatchRejectReason.RequiresNewGeneration;
    OptionPatchRejectReason.RequiresExplicitBtRestart;
    OptionPatchRejectReason.UnsafeCompatRequired ].

#[global] Instance OptionPatchRejectReason_coded : Coded OptionPatchRejectReason.
Proof. refine {| code_of := OptionPatchRejectReason_code; all_of := ALL_OPTION_PATCH_REJECT_REASONS |}. by intros []. Defined.
#[global] Instance OptionPatchRejectReason_eq_dec : EqDecision OptionPatchRejectReason := coded_eq_dec.
#[global] Instance OptionPatchRejectReason_countable : Countable OptionPatchRejectReason := coded_countable.

(** ** Bounded public errors *)

Definition MAX_PUBLIC_ERROR_MESSAGE_BYTES : nat := 4096.

Record PublicError : Set := mkPublicError {
  pe_kind : ErrorKind;
  pe_safe_message : string;
  pe_diagnostic_id : option N;
  pe_retry : RetryClass;
}.
#[global] Instance PublicError_eq_dec : EqDecision PublicError.
Proof. solve_decision. Defined.

(** [str::is_char_boundary]: the ends of the text, and every byte that is not
    a UTF-8 continuation byte. *)
Definition is_char_boundary (s : string) (index : nat) : bool :=
  match index with
  | O => true
  | _ =>
      match String.get index s with
      | None => Nat.eqb index (String.length s)
      | Some c => let b := N_of_ascii c in negb ((128 <=? b) && (b <? 192))
      end
  end.

(** The [while] loop of [PublicError::new]: step back to a boundary. *)
Fixpoint floor_char_boundary (s : string) (end_ : nat) : nat :=
  if is_char_boundary s end_ then end_
  else match end_ with O => O | S e => floor_char_boundary s e end.

Definition truncate (s : string) (end_ : nat) : string := String.substring 0 end_ s.

Definition PublicError_new (kind : ErrorKind) (safe_message : string) (retry : RetryClass) : PublicError :=
  let safe_message :=
    if Nat.ltb MAX_PUBLIC_ERROR_MESSAGE_BYTES (String.length safe_message)
    then truncate safe_message (floor_char_boundary safe_message MAX_PUBLIC_ERROR_MESSAGE_BYTES)
    else safe_message in
  {| pe_kind := kind; pe_safe_message := safe_message;
     pe_diagnostic_id := None; pe_retry := retry |}.

Definition PublicError_with_diagnostic_id (self : PublicError) (diagnostic_id : N) : PublicError :=
  {| pe_kind := pe_kind self; pe_safe_message := pe_safe_message self;
     pe_diagnostic_id := Some diagnostic_id; pe_retry := pe_retry self |}.

(** ** Facts *)

(** The journal number of a kind decodes to that kind, and nothing else does. *)
Lemma ErrorKind_try_from_number n k : ErrorKind_try_from n = Some k <-> ErrorKind_number k = n.
Proof.
  split.
  - unfold ErrorKind_try_from. intros H%head_Some_elem_of. by apply list_elem_of_filter in H as [? _].
  - intros <-. by destruct k.
Qed.

Lemma is_char_boundary_length s : is_char_boundary s (String.length s) = true.
Proof.
  unfold is_char_boundary. destruct (String.length s) eqn:E; [done|]. rewrite <- E.
  assert (String.get (String.length s) s = None) as ->; [|apply Nat.eqb_refl].
  clear. induction s; simpl; auto.
Qed.

Lemma floor_char_boundary_spec s e :
  (floor_char_boundary s e <= e)%nat /\ is_char_boundary s (floor_char_boundary s e) = true /\
  forall k, (floor_char_boundary s e < k <= e)%nat -> is_char_boundary s k = false.
Proof.
  induction e as [|e (IH1 & IH2 & IH3)]; cbn [floor_char_boundary].
  - split_and!; [by destruct (is_char_boundary s 0)|done|intros k; destruct (is_char_boundary s 0); lia].
  - destruct (is_char_boundary s (S e)) eqn:E.
    + split_and!; [lia|done|lia].
    + split_and!; [lia|done|]. intros k Hk. destruct (decide (k = S e)) as [->|]; [done|]. apply IH3. lia.
Qed.

Lemma length_substring s n : (n <= String.length s)%nat -> String.length (String.substring 0 n s) = n.
Proof. revert n. induction s as [|c s IH]; intros [|n]; simpl; intros; try lia. rewrite IH; lia. Qed.

Lemma substring_full s : String.substring 0 (String.length s) s = s.
Proof. induction s as [|c s IH]; simpl; [done|by rewrite IH]. Qed.

(** a public error keeps the longest prefix of its message that fits in
    4096 bytes and ends on a character boundary; a message that fits is kept
    unchanged. *)
Theorem public_error_message_bounded kind msg retry :
  let m := pe_safe_message (PublicError_new kind msg retry) in
  let n := String.length m in
  (n <= MAX_PUBLIC_ERROR_MESSAGE_BYTES)%nat /\
  m = String.substring 0 n msg /\
  is_char_boundary msg n = true /\
  (forall k, (n < k <= String.length msg)%nat -> (k <= MAX_PUBLIC_ERROR_MESSAGE_BYTES)%nat ->
     is_char_boundary msg k = false) /\
  ((String.length msg <= MAX_PUBLIC_ERROR_MESSAGE_BYTES)%nat -> m = msg).
Proof.
  unfold PublicError_new. cbn [pe_safe_message]. generalize MAX_PUBLIC_ERROR_MESSAGE_BYTES as M. intros M.
  destruct (Nat.ltb_spec M (String.length msg)) as [Hlt|Hge]; cbv zeta.
  - destruct (floor_char_boundary_spec msg M) as (H1 & H2 & H3). unfold truncate.
    rewrite length_substring by lia. split_and!; [lia|done|done|intros; apply H3; lia|lia].
  - rewrite substring_full. split_and!; [done|done|apply is_char_boundary_length|lia|done].
Qed.
