(* ===== verification/State.v ===== *)
(** * Task states, admission conditions and the wire projection

    Model of [crates/ariax-core/src/state.rs]. *)

From S2P Require Import Prelude Ids.
From Stdlib Require Import Ascii String.
Open Scope list_scope.

Definition MAX_CONDITION_DESCRIPTION_BYTES : N := 4096.
Definition MAX_REDACTED_PATH_BYTES : N := 4096.

(** ** Monotonic time

    [std::time::Instant] is a clock reading in nanoseconds from an arbitrary
    epoch.  The platform representation holds 64-bit signed seconds, so the
    largest reading is [INSTANT_MAX]; [checked_add] fails beyond it. *)
Notation MonotonicInstant := N (only parsing).
Notation Duration := N (only parsing).
Definition INSTANT_MAX : N := (I64_MAX + 1) * 1000000000 - 1.
Definition Duration_from_millis (ms : N) : Duration := ms * 1000000.
Definition MonotonicInstant_checked_add (self : MonotonicInstant) (duration : Duration)
    : option MonotonicInstant :=
  if self + duration <=? INSTANT_MAX then Some (self + duration) else None.
Definition MonotonicInstant_duration_since (self earlier : MonotonicInstant) : Duration :=
  self - earlier.

(** ** Task states *)

Module TaskState.
Inductive TaskState : Set :=
| Accepted
| Waiting
| WaitingSlow
| Allocating
| Active
| RetryWait
| Paused
| PausedSlow
| PausedHostKey
| PausedRestarting
| Verifying
| Seeding
| Complete
| Error
| Removed
| StoppedResult.
End TaskState.
Notation TaskState := TaskState.TaskState.

Definition TaskState_code (self : TaskState) : string :=
  match self with
  | TaskState.Accepted => "accepted"
  | TaskState.Waiting => "waiting"
  | TaskState.WaitingSlow => "waiting_slow"
  | TaskState.Allocating => "allocating"
  | TaskState.Active => "active"
  | TaskState.RetryWait => "retry_wait"
  | TaskState.Paused => "paused"
  | TaskState.PausedSlow => "paused_slow"
  | TaskState.PausedHostKey => "paused_host_key"
  | TaskState.PausedRestarting => "paused_restarting"
  | TaskState.Verifying => "verifying"
  | TaskState.Seeding => "seeding"
  | TaskState.Complete => "complete"
  | TaskState.Error => "error"
  | TaskState.Removed => "removed"
  | TaskState.StoppedResult => "stopped_result"
  end.

Definition ALL_TASK_STATES : list TaskState :=
  [ TaskState.Accepted;
    TaskState.Waiting;
    TaskState.WaitingSlow;
    TaskState.Allocating;
    TaskState.Active;
    TaskState.RetryWait;
    TaskState.Paused;
    TaskState.PausedSlow;
    TaskState.PausedHostKey;
    TaskState.PausedRestarting;
    TaskState.Verifying;
    TaskState.Seeding;
    TaskState.Complete;
    TaskState.Error;
    TaskState.Removed;
    TaskState.StoppedResult ].

#[global] Instance TaskState_coded : Coded TaskState.
Proof. refine {| code_of := TaskState_code; all_of := ALL_TASK_STATES |}. by intros []. Defined.
#[global] Instance TaskState_eq_dec : EqDecision TaskState := coded_eq_dec.
#[global] Instance TaskState_countable : Countable TaskState := coded_countable.


Definition TaskState_is_terminal (self : TaskState) : bool :=
  match self with
  | TaskState.Complete | TaskState.Error | TaskState.Removed | TaskState.StoppedResult => true
  | _ => false
  end.

Definition TaskState_is_terminal_pending (self : TaskState) : bool :=
  match self with
  | TaskState.Complete | TaskState.Error | TaskState.Removed => true
  | _ => false
  end.

Definition TaskState_is_retained_result (self : TaskState) : bool :=
  match self with TaskState.StoppedResult => true | _ => false end.

(** ** aria2 statuses *)

Module Aria2Status.
Inductive Aria2Status : Set :=
| Active
| Waiting
| Paused
| Error
| Complete
| Removed.
End Aria2Status.
Notation Aria2Status := Aria2Status.Aria2Status.

Definition Aria2Status_code (self : Aria2Status) : string :=
  match self with
  | Aria2Status.Active => "active"
  | Aria2Status.Waiting => "waiting"
  | Aria2Status.Paused => "paused"
  | Aria2Status.Error => "error"
  | Aria2Status.Complete => "complete"
  | Aria2Status.Removed => "removed"
  end.

Definition ALL_ARIA2_STATUSES : list Aria2Status :=
  [ Aria2Status.Active;
    Aria2Status.Waiting;
    Aria2Status.Paused;
    Aria2Status.Error;
    Aria2Status.Complete;
    Aria2Status.Removed ].

#[global] Instance Aria2Status_coded : Coded Aria2Status.
Proof. refine {| code_of := Aria2Status_code; all_of := ALL_ARIA2_STATUSES |}. by intros []. Defined.
#[global] Instance Aria2Status_eq_dec : EqDecision Aria2Status := coded_eq_dec.
#[global] Instance Aria2Status_countable : Countable Aria2Status := coded_countable.


Definition Aria2Status_is_terminal (self : Aria2Status) : bool :=
  match self with
  | Aria2Status.Error | Aria2Status.Complete | Aria2Status.Removed => true
  | _ => false
  end.

(** ** Admission conditions *)

Module CredentialKind.
Inductive CredentialKind : Set :=
| SourceUri
| HttpAuthentication
| ProxyAuthentication
| FtpAuthentication
| SftpAuthentication
| PrivateKeyPassphrase.
End CredentialKind.
Notation CredentialKind := CredentialKind.CredentialKind.
#[global] Instance CredentialKind_eq_dec : EqDecision CredentialKind.
Proof. solve_decision. Defined.

Record CredentialRequirementKey : Set := mkCredentialRequirementKey {
  crk_kind : CredentialKind;
  crk_source : option UriId;
}.
#[global] Instance CredentialRequirementKey_eq_dec : EqDecision CredentialRequirementKey.
Proof. solve_decision. Defined.

Record CredentialRequirement : Set := mkCredentialRequirement {
  cr_kind : CredentialKind;
  cr_source : option UriId;
  cr_safe_description : string;
}.
#[global] Instance CredentialRequirement_eq_dec : EqDecision CredentialRequirement.
Proof. solve_decision. Defined.

Module TaskConditionsError.
Inductive TaskConditionsError : Set := CredentialDescriptionTooLong | RedactedPathTooLong.
End TaskConditionsError.
Notation TaskConditionsError := TaskConditionsError.TaskConditionsError.

Definition CredentialRequirement_key (self : CredentialRequirement) : CredentialRequirementKey :=
  {| crk_kind := cr_kind self; crk_source := cr_source self |}.

Definition CredentialRequirement_validate (self : CredentialRequirement) : result TaskConditionsError unit :=
  if MAX_CONDITION_DESCRIPTION_BYTES <? str_len (cr_safe_description self)
  then Err TaskConditionsError.CredentialDescriptionTooLong
  else Ok tt.

Record NoSpaceCondition : Set := mkNoSpaceCondition {
  ns_redacted_path : string;
  ns_retry_at : option MonotonicInstant;
}.
#[global] Instance NoSpaceCondition_eq_dec : EqDecision NoSpaceCondition.
Proof. solve_decision. Defined.

Definition NoSpaceCondition_validate (self : NoSpaceCondition) : result TaskConditionsError unit :=
  if MAX_REDACTED_PATH_BYTES <? str_len (ns_redacted_path self)
  then Err TaskConditionsError.RedactedPathTooLong
  else Ok tt.

Record TaskConditions : Set := mkTaskConditions {
  tc_needs_credentials : option CredentialRequirement;
  tc_no_space : option NoSpaceCondition;
}.
#[global] Instance TaskConditions_eq_dec : EqDecision TaskConditions.
Proof. solve_decision. Defined.
Definition TaskConditions_default : TaskConditions :=
  {| tc_needs_credentials := None; tc_no_space := None |}.

Record TaskConditionsSnapshot : Set := mkTaskConditionsSnapshot {
  tcs_needs_credentials : bool;
  tcs_no_space : bool;
}.
#[global] Instance TaskConditionsSnapshot_eq_dec : EqDecision TaskConditionsSnapshot.
Proof. solve_decision. Defined.

Definition TaskConditions_blocks_admission (self : TaskConditions) : bool :=
  is_some (tc_needs_credentials self) || is_some (tc_no_space self).

Definition TaskConditions_snapshot (self : TaskConditions) : TaskConditionsSnapshot :=
  {| tcs_needs_credentials := is_some (tc_needs_credentials self);
     tcs_no_space := is_some (tc_no_space self) |}.

Definition TaskConditions_validate (self : TaskConditions) : result TaskConditionsError unit :=
  match tc_needs_credentials self with
  | Some requirement => CredentialRequirement_validate requirement
  | None => Ok tt
  end ;;
  match tc_no_space self with
  | Some condition => NoSpaceCondition_validate condition
  | None => Ok tt
  end ;;
  Ok tt.

(** ** Wire projection *)

Module WireProjectionError.
Inductive WireProjectionError : Set :=
| InvalidConditionState
| TerminalNotPersisted
| TerminalPendingRetention
| MissingStoppedStatus
| InvalidStoppedStatus.
End WireProjectionError.
Notation WireProjectionError := WireProjectionError.WireProjectionError.

Record WireProjection : Set := mkWireProjection {
  wp_conditions : TaskConditionsSnapshot;
  wp_desired_paused : bool;
  wp_retry_wait_holds_slot : bool;
  wp_stopped_status : option Aria2Status;
  wp_terminal_persisted : bool;
}.

(** The states that may retain an admission condition. *)
Definition retains_conditions (state : TaskState) : bool :=
  match state with
  | TaskState.Waiting | TaskState.WaitingSlow | TaskState.RetryWait
  | TaskState.Paused | TaskState.PausedSlow => true
  | _ => false
  end.

Definition WireProjection_terminal (self : WireProjection) (state : TaskState)
    : result WireProjectionError (option Aria2Status) :=
  match state with
  | TaskState.Complete => Ok (Some Aria2Status.Complete)
  | TaskState.Error => Ok (Some Aria2Status.Error)
  | TaskState.Removed => Ok (Some Aria2Status.Removed)
  | TaskState.StoppedResult =>
      status ← ok_or (wp_stopped_status self) WireProjectionError.MissingStoppedStatus;
      if negb (Aria2Status_is_terminal status) then Err WireProjectionError.InvalidStoppedStatus
      else Ok (Some status)
  | _ => Ok None
  end.

(** The last arm is the source's [unreachable!]: terminal states have returned. *)
Definition WireProjection_live (self : WireProjection) (state : TaskState) : Aria2Status :=
  match state with
  | TaskState.Accepted | TaskState.Waiting | TaskState.WaitingSlow
  | TaskState.Allocating | TaskState.PausedRestarting => Aria2Status.Waiting
  | TaskState.Active | TaskState.Verifying | TaskState.Seeding => Aria2Status.Active
  | TaskState.RetryWait =>
      if wp_retry_wait_holds_slot self then Aria2Status.Active else Aria2Status.Waiting
  | TaskState.Paused | TaskState.PausedSlow | TaskState.PausedHostKey => Aria2Status.Paused
  | TaskState.Complete | TaskState.Error | TaskState.Removed
  | TaskState.StoppedResult => Aria2Status.Error
  end.

Definition WireProjection_project (self : WireProjection) (state : TaskState)
    : result WireProjectionError Aria2Status :=
  if (tcs_no_space (wp_conditions self) || tcs_needs_credentials (wp_conditions self))
     && negb (retains_conditions state)
  then Err WireProjectionError.InvalidConditionState
  else
    terminal ← WireProjection_terminal self state;
    match terminal with
    | Some status =>
        if negb (wp_terminal_persisted self) then Err WireProjectionError.TerminalNotPersisted
        else Ok status
    | None =>
        if tcs_no_space (wp_conditions self) then Ok Aria2Status.Paused
        else if tcs_needs_credentials (wp_conditions self) then
          Ok (if wp_desired_paused self then Aria2Status.Paused else Aria2Status.Waiting)
        else Ok (WireProjection_live self state)
    end.

(** ** Facts *)

(** the projection never leaks terminal visibility early: a terminal wire
    status comes only from a terminal state whose result is persisted, a
    nonterminal state projects to a nonterminal status, a task without disk
    space is shown [paused], and one that waits for credentials is shown
    according to the user's pause intent. *)
Theorem wire_projection_sound p st status :
  WireProjection_project p st = Ok status ->
  Aria2Status_is_terminal status = TaskState_is_terminal st /\
  (TaskState_is_terminal st = true -> wp_terminal_persisted p = true) /\
  (tcs_no_space (wp_conditions p) = true -> status = Aria2Status.Paused) /\
  (tcs_no_space (wp_conditions p) = false -> tcs_needs_credentials (wp_conditions p) = true ->
     status = if wp_desired_paused p then Aria2Status.Paused else Aria2Status.Waiting).
Proof.
  destruct p as [[nc ns] dp rh [ss|] tp], st, nc, ns, dp, rh, tp;
    try destruct ss; vm_compute; first [discriminate | intros [= <-]; split_and!; congruence].
Qed.

Definition retained_retry_projection : WireProjection :=
  {| wp_conditions := TaskConditions_snapshot TaskConditions_default; wp_desired_paused := false;
     wp_retry_wait_holds_slot := true; wp_stopped_status := None; wp_terminal_persisted := false |}.

Example wire_projection_sound_witness :
  WireProjection_project retained_retry_projection TaskState.RetryWait = Ok Aria2Status.Active /\
  Aria2Status_is_terminal Aria2Status.Active = TaskState_is_terminal TaskState.RetryWait.
Proof.
  split; [reflexivity|].
  eapply (wire_projection_sound retained_retry_projection TaskState.RetryWait). reflexivity.
Defined.

Lemma TaskConditions_blocks_snapshot c :
  TaskConditions_blocks_admission c =
  tcs_no_space (TaskConditions_snapshot c) || tcs_needs_credentials (TaskConditions_snapshot c).
Proof. unfold TaskConditions_blocks_admission. simpl. apply orb_comm. Qed.
