(* ===== verification/Snapshot.v ===== *)
(** * Host-key challenges and task snapshots

    Model of [crates/ariax-core/src/snapshot.rs].  SHA-256 is external code: it
    is the parameter [sha256] of the challenge constructor. *)

From S2P Require Import Prelude Ids Errors State.
From Stdlib Require Import Ascii String.
Open Scope list_scope.

Definition MAX_PRESENTED_HOST_KEY_BYTES : N := 16 * 1024.
Definition MAX_HOST_KEY_CANONICAL_HOST_BYTES : N := 253.
Definition MAX_HOST_KEY_ALGORITHM_BYTES : N := 64.

Record HostKeyChallenge : Set := mkHostKeyChallenge {
  hk_id : HostKeyChallengeId;
  hk_canonical_host : string;
  hk_port : N;
  hk_algorithm : string;
  hk_fingerprint_sha256 : HostKeyFingerprint;
}.
#[global] Instance HostKeyChallenge_eq_dec : EqDecision HostKeyChallenge.
Proof. solve_decision. Defined.

Record PresentedHostKeyChallenge : Set := mkPresentedHostKeyChallenge {
  ph_summary : HostKeyChallenge;
  ph_presented_public_key : list N;
}.
#[global] Instance PresentedHostKeyChallenge_eq_dec : EqDecision PresentedHostKeyChallenge.
Proof. solve_decision. Defined.

Module PresentedHostKeyChallengeError.
Inductive PresentedHostKeyChallengeError : Set :=
| EmptyKey
| KeyTooLarge
| EmptyCanonicalHost
| CanonicalHostTooLong
| InvalidPort
| EmptyAlgorithm
| AlgorithmTooLong
| FingerprintMismatch.
End PresentedHostKeyChallengeError.
Notation PresentedHostKeyChallengeError :=
  PresentedHostKeyChallengeError.PresentedHostKeyChallengeError.

Section presented.
Variable sha256 : list N -> HostKeyFingerprint.

(** [HostKeyFingerprint::for_presented_key]. *)
Definition HostKeyFingerprint_for_presented_key (presented_public_key : list N) : HostKeyFingerprint :=
  sha256 presented_public_key.

Definition PresentedHostKeyChallenge_new (summary : HostKeyChallenge) (presented_public_key : list N)
    : result PresentedHostKeyChallengeError PresentedHostKeyChallenge :=
  if vec_len presented_public_key =? 0 then Err PresentedHostKeyChallengeError.EmptyKey
  else if MAX_PRESENTED_HOST_KEY_BYTES <? vec_len presented_public_key
    then Err PresentedHostKeyChallengeError.KeyTooLarge
  else if str_len (hk_canonical_host summary) =? 0
    then Err PresentedHostKeyChallengeError.EmptyCanonicalHost
  else if MAX_HOST_KEY_CANONICAL_HOST_BYTES <? str_len (hk_canonical_host summary)
    then Err PresentedHostKeyChallengeError.CanonicalHostTooLong
  else if hk_port summary =? 0 then Err PresentedHostKeyChallengeError.InvalidPort
  else if str_len (hk_algorithm summary) =? 0 then Err PresentedHostKeyChallengeError.EmptyAlgorithm
  else if MAX_HOST_KEY_ALGORITHM_BYTES <? str_len (hk_algorithm summary)
    then Err PresentedHostKeyChallengeError.AlgorithmTooLong
  else if hk_fingerprint_sha256 summary != HostKeyFingerprint_for_presented_key presented_public_key
    then Err PresentedHostKeyChallengeError.FingerprintMismatch
  else Ok {| ph_summary := summary; ph_presented_public_key := presented_public_key |}.

End presented.

(** ** Snapshots *)

Record TaskSnapshot : Set := mkTaskSnapshot {
  sn_gid : Gid;
  sn_state : TaskState;
  sn_generation : Generation;
  sn_total_length : option N;
  sn_completed_length : N;
  sn_durable_length : N;
  sn_current_speed : N;
  sn_average_speed : N;
  sn_active_leases : N;
  sn_retry_wait_leases : N;
  sn_retry_wait_until : option MonotonicInstant;
  sn_last_progress_at : option MonotonicInstant;
  sn_conditions : TaskConditionsSnapshot;
  sn_desired_paused : bool;
  sn_retry_wait_holds_slot : bool;
  sn_stopped_status : option Aria2Status;
  sn_host_key_challenge : option HostKeyChallenge;
  sn_error : option PublicError;
  sn_terminal_persisted : bool;
}.
#[global] Instance TaskSnapshot_eq_dec : EqDecision TaskSnapshot.
Proof. solve_decision. Defined.

Definition TaskSnapshot_wire_status (self : TaskSnapshot) : result WireProjectionError Aria2Status :=
  status ← WireProjection_project
    {| wp_conditions := sn_conditions self;
       wp_desired_paused := sn_desired_paused self;
       wp_retry_wait_holds_slot := sn_retry_wait_holds_slot self;
       wp_stopped_status := sn_stopped_status self;
       wp_terminal_persisted := sn_terminal_persisted self |} (sn_state self);
  if TaskState_is_terminal_pending (sn_state self)
  then Err WireProjectionError.TerminalPendingRetention
  else Ok status.

(** The checks are made in this order; each has its own diagnostic. *)
Definition TaskSnapshot_validate (self : TaskSnapshot) : result string unit :=
  if sn_completed_length self <? sn_durable_length self
  then Err "durable length exceeds completed length"%string
  else if match sn_total_length self with
          | Some total_length => total_length <? sn_completed_length self
          | None => false
          end
  then Err "completed length exceeds total length"%string
  else if (sn_state self == TaskState.PausedHostKey) && is_none (sn_host_key_challenge self)
  then Err "paused host-key state has no challenge"%string
  else if (sn_state self != TaskState.PausedHostKey) && is_some (sn_host_key_challenge self)
  then Err "host-key challenge is visible outside paused host-key state"%string
  else if ((sn_state self == TaskState.Error)
           || ((sn_state self == TaskState.StoppedResult)
               && (sn_stopped_status self == Some Aria2Status.Error)))
          && is_none (sn_error self)
  then Err "error terminal result has no public error"%string
  else if (sn_state self != TaskState.StoppedResult) && is_some (sn_stopped_status self)
  then Err "retained terminal status is visible outside stopped-result state"%string
  else if TaskState_is_terminal_pending (sn_state self)
  then Err (if sn_terminal_persisted self
            then "terminal-pending snapshot must be retained before publication"
            else "terminal snapshot is not persistence-acknowledged")%string
  else if negb (Bool.eqb (TaskState_is_retained_result (sn_state self)) (sn_terminal_persisted self))
  then Err (if TaskState_is_retained_result (sn_state self)
            then "stopped-result snapshot is not persistence-acknowledged"
            else "nonterminal snapshot claims terminal persistence")%string
  else
    _ ← map_err (fun _ => "snapshot state cannot be projected to a wire status"%string)
          (TaskSnapshot_wire_status self);
    Ok tt.

(** [usize] estimate of the heap bytes a clone copies. *)
Definition usize_saturating_add (a b : N) : N := N.min (a + b) USIZE_MAX.
Definition usize_saturating_mul (a b : N) : N := N.min (a * b) USIZE_MAX.

Definition TaskSnapshot_estimated_clone_bytes (self : TaskSnapshot) : N :=
  let error := from_option (fun error => usize_saturating_add (str_len (pe_safe_message error)) 64) 0
                 (sn_error self) in
  let host_key := from_option (fun challenge =>
      usize_saturating_add
        (usize_saturating_add (str_len (hk_canonical_host challenge)) (str_len (hk_algorithm challenge)))
        128) 0 (sn_host_key_challenge self) in
  usize_saturating_add error host_key.

(** ** Facts *)

(** The conditions of publication, as one predicate. *)
Record publishable (sn : TaskSnapshot) : Prop := {
  pub_durable : sn_durable_length sn <= sn_completed_length sn;
  pub_total : forall total, sn_total_length sn = Some total -> sn_completed_length sn <= total;
  pub_host_key : sn_state sn = TaskState.PausedHostKey <-> is_Some (sn_host_key_challenge sn);
  pub_error : sn_state sn = TaskState.StoppedResult -> sn_stopped_status sn = Some Aria2Status.Error ->
    is_Some (sn_error sn);
  pub_stopped : sn_state sn = TaskState.StoppedResult ->
    exists status, sn_stopped_status sn = Some status /\ Aria2Status_is_terminal status = true;
  pub_no_stopped : sn_state sn <> TaskState.StoppedResult -> sn_stopped_status sn = None;
  pub_pending : TaskState_is_terminal_pending (sn_state sn) = false;
  pub_persisted : sn_terminal_persisted sn = TaskState_is_retained_result (sn_state sn);
  pub_conditions : tcs_no_space (sn_conditions sn) || tcs_needs_credentials (sn_conditions sn) = true ->
    retains_conditions (sn_state sn) = true;
}.

Lemma is_none_true {A} (o : option A) : is_none o = true <-> o = None.
Proof. destruct o; simpl; naive_solver. Qed.

Definition stopped_status_ok (sn : TaskSnapshot) : bool :=
  match sn_stopped_status sn with Some status => Aria2Status_is_terminal status | None => false end.

Lemma wire_status_is_ok sn :
  is_ok (TaskSnapshot_wire_status sn) =
  negb ((tcs_no_space (sn_conditions sn) || tcs_needs_credentials (sn_conditions sn))
        && negb (retains_conditions (sn_state sn))) &&
  negb (TaskState_is_terminal_pending (sn_state sn)) &&
  (negb (TaskState_is_retained_result (sn_state sn))
   || (stopped_status_ok sn && sn_terminal_persisted sn)).
Proof.
  unfold TaskSnapshot_wire_status, WireProjection_project, WireProjection_terminal, stopped_status_ok.
  cbn [wp_conditions wp_stopped_status wp_terminal_persisted wp_desired_paused].
  destruct (tcs_no_space _), (tcs_needs_credentials _), (sn_state sn); try reflexivity;
    cbn; destruct (sn_terminal_persisted sn); try reflexivity;
    destruct (sn_stopped_status sn) as [[]|]; reflexivity.
Qed.

Lemma validate_tail sn :
  (_ ← map_err (fun _ => "snapshot state cannot be projected to a wire status"%string)
          (TaskSnapshot_wire_status sn); Ok tt) = Ok tt <->
  is_ok (TaskSnapshot_wire_status sn) = true.
Proof. by destruct (TaskSnapshot_wire_status sn). Qed.

Lemma snapshot_validate_publishable sn : TaskSnapshot_validate sn = Ok tt -> publishable sn.
Proof.
  unfold TaskSnapshot_validate.
  intros H.
  destruct (N.ltb_spec (sn_completed_length sn) (sn_durable_length sn)); [discriminate H|].
  destruct (match sn_total_length sn with Some _ => _ | None => _ end) eqn:Et; [discriminate H|].
  repeat match type of H with
  | (if ?b then Err _ else _) = _ => let E := fresh "E" in destruct b eqn:E; [discriminate H|]
  end.
  rewrite validate_tail, wire_status_is_ok in H. unfold stopped_status_ok in H.
  apply andb_true_iff in H as [[Hc _]%andb_true_iff Hs].
  constructor; try done.
  + intros total Htot. rewrite Htot in Et. by apply N.ltb_ge.
  + destruct (sn_state sn), (sn_host_key_challenge sn); cbn in E, E0; split; intros Hx;
    try discriminate; try (by destruct Hx); eauto.
  + intros Est Estop. rewrite Est, Estop in E1. cbn in E1. destruct (sn_error sn); [eauto|done].
  + intros Est. rewrite Est in Hs. cbn in Hs. apply andb_true_iff in Hs as [Hs _].
    destruct (sn_stopped_status sn); [eauto|done].
  + intros Hne. rewrite bool_decide_eq_false_2 in E2 by done. cbn in E2. by apply is_some_false.
  + by apply negb_false_iff, Bool.eqb_prop in E4.
  + intros Hb. rewrite Hb in Hc. by destruct (retains_conditions _).
Qed.

Lemma publishable_snapshot_validate sn : publishable sn -> TaskSnapshot_validate sn = Ok tt.
Proof.
  unfold TaskSnapshot_validate.
  intros [Hd Ht Hh He Hs Hn Hp Hr Hc].
  destruct (N.ltb_spec (sn_completed_length sn) (sn_durable_length sn)); [lia|].
  destruct (match sn_total_length sn with Some _ => _ | None => _ end) eqn:Et.
  { destruct (sn_total_length sn) eqn:E; [|done]. apply N.ltb_lt in Et. specialize (Ht _ eq_refl). lia. }
  destruct ((_ == _) && is_none _) eqn:E1.
  { bool_to_prop. apply Hh in H0 as [? E]. by rewrite E in H1. }
  destruct ((_ != _) && is_some _) eqn:E2.
  { bool_to_prop. by apply Hh in H1. }
  destruct (((_ == _) || _) && _) eqn:E3.
  { apply andb_true_iff in E3 as [[E3%bool_decide_eq_true|E3]%orb_true_iff E4].
    - rewrite E3 in Hp. done.
    - bool_to_prop. destruct (He H0 H1) as [? E]. by rewrite E in E4. }
  destruct ((sn_state sn != TaskState.StoppedResult) && is_some (sn_stopped_status sn)) eqn:E4.
  { bool_to_prop. rewrite (Hn H0) in H1. by destruct H1. }
  rewrite Hp, Hr. rewrite Bool.eqb_reflx. cbn [negb].
  rewrite validate_tail, wire_status_is_ok. unfold stopped_status_ok. rewrite Hp, Hr.
  destruct (tcs_no_space _ || tcs_needs_credentials _); [rewrite Hc by done|]; cbn;
    (destruct (sn_state sn); try reflexivity; destruct (Hs eq_refl) as (? & -> & ->); reflexivity).
Qed.

(** C38: snapshot validation accepts exactly the publishable snapshots: progress
    is consistent, the host-key challenge is visible exactly in
    [PausedHostKey], a stopped result carries its terminal status and error and
    is persistence-acknowledged, no terminal-pending state is published, and
    admission conditions occur only on states that may retain them. *)
Theorem snapshot_validate_iff sn : TaskSnapshot_validate sn = Ok tt <-> publishable sn.
Proof. split; [apply snapshot_validate_publishable|apply publishable_snapshot_validate]. Qed.

(** The parameter is the only trust anchor: a constructed challenge shows the
    digest of the key it carries. *)
Lemma presented_challenge_fingerprint sha256 summary key ch :
  PresentedHostKeyChallenge_new sha256 summary key = Ok ch ->
  ph_summary ch = summary /\ ph_presented_public_key ch = key /\
  hk_fingerprint_sha256 summary = sha256 key.
Proof.
  unfold PresentedHostKeyChallenge_new. intros H.
  repeat match type of H with
  | (if ?b then Err _ else _) = _ => let E := fresh "E" in destruct b eqn:E; [discriminate H|]
  end.
  injection H as <-. by bool_to_prop.
Qed.
