(* ===== verification/PersistedDelay.v ===== *)
(** * Persisted delays

    Model of [crates/ariax-core/src/persisted_delay.rs]: the wall-clock decision
    that survives a restart and its conversion into a fresh monotonic wait. *)

From S2P Require Import Prelude State.

Definition MAX_PERSISTED_MILLISECONDS : N := I64_MAX.

Module PersistedDelayError.
Inductive PersistedDelayError : Set :=
| ScheduledAtOutOfRange
| ZeroDelay
| DelayOutOfRange
| MonotonicDeadlineOutOfRange.
End PersistedDelayError.
Notation PersistedDelayError := PersistedDelayError.PersistedDelayError.

Module RecoveredWallClock.
Inductive RecoveredWallClock : Set :=
| WithinDelay
| BeforeScheduled
| Expired.
End RecoveredWallClock.
Notation RecoveredWallClock := RecoveredWallClock.RecoveredWallClock.

Record PersistedDelayDecision : Set := mkPersistedDelayDecision {
  pd_scheduled_at_unix_ms : N;
  pd_delay_ms : N;
}.

Record RecoveredDelayDecision : Set := mkRecoveredDelayDecision {
  rd_clock : RecoveredWallClock;
  rd_deadline : MonotonicInstant;
  rd_remaining_ms : N;
  rd_recovered_wait_elapsed_ms : N;
}.

Definition PersistedDelayDecision_new (scheduled_at_unix_ms delay_ms : N)
    : result PersistedDelayError PersistedDelayDecision :=
  if MAX_PERSISTED_MILLISECONDS <? scheduled_at_unix_ms
  then Err PersistedDelayError.ScheduledAtOutOfRange
  else if delay_ms =? 0 then Err PersistedDelayError.ZeroDelay
  else if MAX_PERSISTED_MILLISECONDS <? delay_ms then Err PersistedDelayError.DelayOutOfRange
  else Ok {| pd_scheduled_at_unix_ms := scheduled_at_unix_ms; pd_delay_ms := delay_ms |}.

Definition PersistedDelayDecision_recover (self : PersistedDelayDecision)
    (now_wall_unix_ms : N) (now_monotonic : MonotonicInstant) (max_wait_ms : N)
    : result PersistedDelayError RecoveredDelayDecision :=
  let '(clock, recovered_wait_elapsed_ms, remaining_ms) :=
    if now_wall_unix_ms <? pd_scheduled_at_unix_ms self
    then (RecoveredWallClock.BeforeScheduled, 0, pd_delay_ms self)
    else
      let wall_elapsed_ms := now_wall_unix_ms - pd_scheduled_at_unix_ms self in
      let recovered_wait_elapsed_ms := N.min wall_elapsed_ms (pd_delay_ms self) in
      let remaining_ms := pd_delay_ms self - recovered_wait_elapsed_ms in
      let clock := if remaining_ms =? 0 then RecoveredWallClock.Expired
                   else RecoveredWallClock.WithinDelay in
      (clock, recovered_wait_elapsed_ms, remaining_ms) in
  let remaining_ms := N.min remaining_ms max_wait_ms in
  deadline ← ok_or (MonotonicInstant_checked_add now_monotonic (Duration_from_millis remaining_ms))
               PersistedDelayError.MonotonicDeadlineOutOfRange;
  Ok {| rd_clock := clock; rd_deadline := deadline; rd_remaining_ms := remaining_ms;
        rd_recovered_wait_elapsed_ms := recovered_wait_elapsed_ms |}.

Definition RecoveredDelayDecision_is_expired (self : RecoveredDelayDecision) : bool :=
  rd_remaining_ms self =? 0.

Definition RecoveredDelayDecision_retry_budget_elapsed_ms (self : RecoveredDelayDecision)
    (elapsed_before_wait_ms max_elapsed_ms : N) : N :=
  let elapsed := u64_saturating_add elapsed_before_wait_ms (rd_recovered_wait_elapsed_ms self) in
  if max_elapsed_ms <? elapsed then max_elapsed_ms else elapsed.

(** ** Facts *)

Lemma PersistedDelayDecision_new_Ok at_ms delay d :
  PersistedDelayDecision_new at_ms delay = Ok d <->
  at_ms <= I64_MAX /\ 0 < delay <= I64_MAX /\
  d = {| pd_scheduled_at_unix_ms := at_ms; pd_delay_ms := delay |}.
Proof.
  unfold PersistedDelayDecision_new, MAX_PERSISTED_MILLISECONDS.
  destruct (N.ltb_spec I64_MAX at_ms); [split; [done|lia]|].
  destruct (N.eqb_spec delay 0); [split; [done|lia]|].
  destruct (N.ltb_spec I64_MAX delay); [split; [done|lia]|].
  split; [intros [= <-]; split_and!; [lia..|done] | by intros (_ & _ & ->)].
Qed.

(** C39: the recovered wait is conservative.  The wait never exceeds the
    configured maximum or the persisted delay; the deadline is the current
    monotonic reading plus exactly that wait; elapsed and (unclamped) remaining
    time always sum to the persisted delay; the wait is zero exactly when the
    wall clock has moved the whole delay past the scheduling time, and a wall
    clock before the scheduling time credits no elapsed time at all. *)
Theorem recover_conservative at_ms delay d now_wall now_mono max_wait r :
  0 < max_wait ->
  PersistedDelayDecision_new at_ms delay = Ok d ->
  PersistedDelayDecision_recover d now_wall now_mono max_wait = Ok r ->
  rd_remaining_ms r = N.min (delay - rd_recovered_wait_elapsed_ms r) max_wait /\
  rd_deadline r = now_mono + rd_remaining_ms r * 1000000 /\
  rd_deadline r <= INSTANT_MAX /\
  rd_recovered_wait_elapsed_ms r = N.min (now_wall - at_ms) delay /\
  (RecoveredDelayDecision_is_expired r = true <-> at_ms + delay <= now_wall) /\
  (rd_clock r = RecoveredWallClock.Expired <-> at_ms + delay <= now_wall) /\
  (rd_clock r = RecoveredWallClock.BeforeScheduled <-> now_wall < at_ms).
Proof.
  intros Hmax (Hat & Hdelay & ->)%PersistedDelayDecision_new_Ok.
  unfold PersistedDelayDecision_recover, RecoveredDelayDecision_is_expired, MonotonicInstant_checked_add,
    Duration_from_millis; cbn [pd_scheduled_at_unix_ms pd_delay_ms].
  destruct (N.ltb_spec now_wall at_ms) as [Hlt|Hge].
  - destruct (N.leb_spec (now_mono + N.min delay max_wait * 1000000) INSTANT_MAX); [|done].
    intros [= <-]; cbn. rewrite N.eqb_eq. split_and!; try split; try done; lia.
  - set (el := N.min (now_wall - at_ms) delay) in *.
    destruct (N.leb_spec (now_mono + N.min (delay - el) max_wait * 1000000) INSTANT_MAX); [|done].
    intros [= <-]; cbn. rewrite N.eqb_eq.
    destruct (N.eqb_spec (delay - el) 0); split_and!; try split; try done; subst el; lia.
Qed.

Lemma recover_conservative_witness :
  exists d r, PersistedDelayDecision_new 1000 5000 = Ok d /\
    PersistedDelayDecision_recover d 3000 7 10000 = Ok r /\ rd_remaining_ms r = 3000 /\
    RecoveredDelayDecision_is_expired r = false.
Proof.
  eexists _, _. split; [reflexivity|]. split; [reflexivity|].
  match goal with |- rd_remaining_ms ?r = _ /\ _ =>
    destruct (recover_conservative 1000 5000 _ 3000 7 10000 r eq_refl eq_refl eq_refl) as (H & _)
  end.
  split; [exact H|reflexivity].
Defined.

Lemma retry_budget_bounded r before max :
  RecoveredDelayDecision_retry_budget_elapsed_ms r before max =
  N.min (N.min (before + rd_recovered_wait_elapsed_ms r) U64_MAX) max.
Proof.
  unfold RecoveredDelayDecision_retry_budget_elapsed_ms, u64_saturating_add.
  destruct (N.ltb_spec max (N.min (before + rd_recovered_wait_elapsed_ms r) U64_MAX)); lia.
Qed.
