(* ===== verification/CommandKinds.v ===== *)
(** * Command, event and effect vocabularies

    The closed vocabularies of [crates/ariax-core/src/command.rs]: the kinds of
    scheduler commands, task events and transition effects, and the small
    enumerations their payloads use. *)

From S2P Require Import Prelude Ids State.
From Stdlib Require Import Ascii String.
Open Scope list_scope.

(** ** Queue classes and slot ownership *)

Module QueueClass.
Inductive QueueClass : Set :=
| Waiting
| Demoted
| Paused
| Active
| Stopped.
End QueueClass.
Notation QueueClass := QueueClass.QueueClass.

Definition QueueClass_code (self : QueueClass) : string :=
  match self with
  | QueueClass.Waiting => "waiting"
  | QueueClass.Demoted => "demoted"
  | QueueClass.Paused => "paused"
  | QueueClass.Active => "active"
  | QueueClass.Stopped => "stopped"
  end.

Definition ALL_QUEUE_CLASSES : list QueueClass :=
  [ QueueClass.Waiting;
    QueueClass.Demoted;
    QueueClass.Paused;
    QueueClass.Active;
    QueueClass.Stopped ].

#[global] Instance QueueClass_coded : Coded QueueClass.
Proof. refine {| code_of := QueueClass_code; all_of := ALL_QUEUE_CLASSES |}. by intros []. Defined.
#[global] Instance QueueClass_eq_dec : EqDecision QueueClass := coded_eq_dec.
#[global] Instance QueueClass_countable : Countable QueueClass := coded_countable.

Module SlotOwnership.
Inductive SlotOwnership : Set :=
| None
| Reserved
| Active
| RetryRetained.
End SlotOwnership.
Notation SlotOwnership := SlotOwnership.SlotOwnership.

Definition SlotOwnership_code (self : SlotOwnership) : string :=
  match self with
  | SlotOwnership.None => "none"
  | SlotOwnership.Reserved => "reserved"
  | SlotOwnership.Active => "active"
  | SlotOwnership.RetryRetained => "retry_retained"
  end.

Definition ALL_SLOT_OWNERSHIP : list SlotOwnership :=
  [ SlotOwnership.None;
    SlotOwnership.Reserved;
    SlotOwnership.Active;
    SlotOwnership.RetryRetained ].

#[global] Instance SlotOwnership_coded : Coded SlotOwnership.
Proof. refine {| code_of := SlotOwnership_code; all_of := ALL_SLOT_OWNERSHIP |}. by intros []. Defined.
#[global] Instance SlotOwnership_eq_dec : EqDecision SlotOwnership := coded_eq_dec.
#[global] Instance SlotOwnership_countable : Countable SlotOwnership := coded_countable.

Definition SlotOwnership_owns_slot (self : SlotOwnership) : bool :=
  match self with SlotOwnership.None => false | _ => true end.

(** ** Drain targets *)

Module DrainTarget.
Inductive DrainTarget : Set :=
| Paused
| PausedSlow
| Waiting
| WaitingSlow
| PausedRestarting
| Error
| Removed.
End DrainTarget.
Notation DrainTarget := DrainTarget.DrainTarget.

Definition DrainTarget_code (self : DrainTarget) : string :=
  match self with
  | DrainTarget.Paused => "paused"
  | DrainTarget.PausedSlow => "paused_slow"
  | DrainTarget.Waiting => "waiting"
  | DrainTarget.WaitingSlow => "waiting_slow"
  | DrainTarget.PausedRestarting => "paused_restarting"
  | DrainTarget.Error => "error"
  | DrainTarget.Removed => "removed"
  end.

Definition ALL_DRAIN_TARGETS : list DrainTarget :=
  [ DrainTarget.Paused;
    DrainTarget.PausedSlow;
    DrainTarget.Waiting;
    DrainTarget.WaitingSlow;
    DrainTarget.PausedRestarting;
    DrainTarget.Error;
    DrainTarget.Removed ].

#[global] Instance DrainTarget_coded : Coded DrainTarget.
Proof. refine {| code_of := DrainTarget_code; all_of := ALL_DRAIN_TARGETS |}. by intros []. Defined.
#[global] Instance DrainTarget_eq_dec : EqDecision DrainTarget := coded_eq_dec.
#[global] Instance DrainTarget_countable : Countable DrainTarget := coded_countable.

Definition DrainTarget_state (self : DrainTarget) : TaskState :=
  match self with
  | DrainTarget.Paused => TaskState.Paused
  | DrainTarget.PausedSlow => TaskState.PausedSlow
  | DrainTarget.Waiting => TaskState.Waiting
  | DrainTarget.WaitingSlow => TaskState.WaitingSlow
  | DrainTarget.PausedRestarting => TaskState.PausedRestarting
  | DrainTarget.Error => TaskState.Error
  | DrainTarget.Removed => TaskState.Removed
  end.

(** ** Command kinds *)

Module SchedulerCommandHandling.
Inductive SchedulerCommandHandling : Set :=
| StateMatrix
| QueueOperation
| BatchOperation.
End SchedulerCommandHandling.
Notation SchedulerCommandHandling := SchedulerCommandHandling.SchedulerCommandHandling.

Definition SchedulerCommandHandling_code (self : SchedulerCommandHandling) : string :=
  match self with
  | SchedulerCommandHandling.StateMatrix => "state_matrix"
  | SchedulerCommandHandling.QueueOperation => "queue_operation"
  | SchedulerCommandHandling.BatchOperation => "batch_operation"
  end.

Definition ALL_SCHEDULER_COMMAND_HANDLINGS : list SchedulerCommandHandling :=
  [ SchedulerCommandHandling.StateMatrix;
    SchedulerCommandHandling.QueueOperation;
    SchedulerCommandHandling.BatchOperation ].

#[global] Instance SchedulerCommandHandling_coded : Coded SchedulerCommandHandling.
Proof. refine {| code_of := SchedulerCommandHandling_code; all_of := ALL_SCHEDULER_COMMAND_HANDLINGS |}. by intros []. Defined.
#[global] Instance SchedulerCommandHandling_eq_dec : EqDecision SchedulerCommandHandling := coded_eq_dec.
#[global] Instance SchedulerCommandHandling_countable : Countable SchedulerCommandHandling := coded_countable.

Module SchedulerCommandKind.
Inductive SchedulerCommandKind : Set :=
| AddValidatedTask
| Pause
| Resume
| ApproveHostKey
| ApplyOptionPatch
| BeginSourceReplacement
| CommitSourceReplacement
| Remove
| RemoveStoppedResult
| ChangePosition
| OrderlyShutdown.
End SchedulerCommandKind.
Notation SchedulerCommandKind := SchedulerCommandKind.SchedulerCommandKind.

Definition SchedulerCommandKind_code (self : SchedulerCommandKind) : string :=
  match self with
  | SchedulerCommandKind.AddValidatedTask => "add_validated_task"
  | SchedulerCommandKind.Pause => "pause"
  | SchedulerCommandKind.Resume => "resume"
  | SchedulerCommandKind.ApproveHostKey => "approve_host_key"
  | SchedulerCommandKind.ApplyOptionPatch => "apply_option_patch"
  | SchedulerCommandKind.BeginSourceReplacement => "begin_source_replacement"
  | SchedulerCommandKind.CommitSourceReplacement => "commit_source_replacement"
  | SchedulerCommandKind.Remove => "remove"
  | SchedulerCommandKind.RemoveStoppedResult => "remove_stopped_result"
  | SchedulerCommandKind.ChangePosition => "change_position"
  | SchedulerCommandKind.OrderlyShutdown => "orderly_shutdown"
  end.

Definition ALL_SCHEDULER_COMMAND_KINDS : list SchedulerCommandKind :=
  [ SchedulerCommandKind.AddValidatedTask;
    SchedulerCommandKind.Pause;
    SchedulerCommandKind.Resume;
    SchedulerCommandKind.ApproveHostKey;
    SchedulerCommandKind.ApplyOptionPatch;
    SchedulerCommandKind.BeginSourceReplacement;
    SchedulerCommandKind.CommitSourceReplacement;
    SchedulerCommandKind.Remove;
    SchedulerCommandKind.RemoveStoppedResult;
    SchedulerCommandKind.ChangePosition;
    SchedulerCommandKind.OrderlyShutdown ].

#[global] Instance SchedulerCommandKind_coded : Coded SchedulerCommandKind.
Proof. refine {| code_of := SchedulerCommandKind_code; all_of := ALL_SCHEDULER_COMMAND_KINDS |}. by intros []. Defined.
#[global] Instance SchedulerCommandKind_eq_dec : EqDecision SchedulerCommandKind := coded_eq_dec.
#[global] Instance SchedulerCommandKind_countable : Countable SchedulerCommandKind := coded_countable.

Definition SchedulerCommandKind_handling (self : SchedulerCommandKind) : SchedulerCommandHandling :=
  match self with
  | SchedulerCommandKind.ChangePosition => SchedulerCommandHandling.QueueOperation
  | SchedulerCommandKind.OrderlyShutdown => SchedulerCommandHandling.BatchOperation
  | SchedulerCommandKind.AddValidatedTask
  | SchedulerCommandKind.Pause
  | SchedulerCommandKind.Resume
  | SchedulerCommandKind.ApproveHostKey
  | SchedulerCommandKind.ApplyOptionPatch
  | SchedulerCommandKind.BeginSourceReplacement
  | SchedulerCommandKind.CommitSourceReplacement
  | SchedulerCommandKind.Remove
  | SchedulerCommandKind.RemoveStoppedResult => SchedulerCommandHandling.StateMatrix
  end.

(** ** Event kinds *)

Module NoSpaceProbeOrigin.
Inductive NoSpaceProbeOrigin : Set :=
| ExplicitResume
| AutomaticRetry.
End NoSpaceProbeOrigin.
Notation NoSpaceProbeOrigin := NoSpaceProbeOrigin.NoSpaceProbeOrigin.

Definition NoSpaceProbeOrigin_code (self : NoSpaceProbeOrigin) : string :=
  match self with
  | NoSpaceProbeOrigin.ExplicitResume => "explicit_resume"
  | NoSpaceProbeOrigin.AutomaticRetry => "automatic_retry"
  end.

Definition ALL_NO_SPACE_PROBE_ORIGINS : list NoSpaceProbeOrigin :=
  [ NoSpaceProbeOrigin.ExplicitResume;
    NoSpaceProbeOrigin.AutomaticRetry ].

#[global] Instance NoSpaceProbeOrigin_coded : Coded NoSpaceProbeOrigin.
Proof. refine {| code_of := NoSpaceProbeOrigin_code; all_of := ALL_NO_SPACE_PROBE_ORIGINS |}. by intros []. Defined.
#[global] Instance NoSpaceProbeOrigin_eq_dec : EqDecision NoSpaceProbeOrigin := coded_eq_dec.
#[global] Instance NoSpaceProbeOrigin_countable : Countable NoSpaceProbeOrigin := coded_countable.

Module TaskEventKind.
Inductive TaskEventKind : Set :=
| GenerationPersisted
| OptionPatchPersisted
| OptionPatchPersistenceFailed
| OptionPatchApplied
| OptionPatchApplicationFailed
| AllocationSucceeded
| AllocationRetryable
| ActiveHostKeyChallenge
| AllocationHostKeyChallenge
| AllocationFailed
| RetryReady
| ActiveRetryIdle
| ActiveRepresentationRestart
| DataComplete
| BitTorrentPayloadComplete
| NoSpace
| TerminalFailure
| SlowDemoted
| SlowPaused
| SlowReadmit
| VerificationSucceeded
| VerificationRecoverable
| VerificationFailed
| SeedingComplete
| SeedingFailed
| CancellationDrained
| NoSpaceProbeCompleted
| TerminalPersisted
| HostKeyResolutionPersisted
| HostKeyResolutionFailed
| StoppedResultDeleted
| StoppedResultDeletionFailed.
End TaskEventKind.
Notation TaskEventKind := TaskEventKind.TaskEventKind.

Definition TaskEventKind_code (self : TaskEventKind) : string :=
  match self with
  | TaskEventKind.GenerationPersisted => "generation_persisted"
  | TaskEventKind.OptionPatchPersisted => "option_patch_persisted"
  | TaskEventKind.OptionPatchPersistenceFailed => "option_patch_persistence_failed"
  | TaskEventKind.OptionPatchApplied => "option_patch_applied"
  | TaskEventKind.OptionPatchApplicationFailed => "option_patch_application_failed"
  | TaskEventKind.AllocationSucceeded => "allocation_succeeded"
  | TaskEventKind.AllocationRetryable => "allocation_retryable"
  | TaskEventKind.ActiveHostKeyChallenge => "active_host_key_challenge"
  | TaskEventKind.AllocationHostKeyChallenge => "allocation_host_key_challenge"
  | TaskEventKind.AllocationFailed => "allocation_failed"
  | TaskEventKind.RetryReady => "retry_ready"
  | TaskEventKind.ActiveRetryIdle => "active_retry_idle"
  | TaskEventKind.ActiveRepresentationRestart => "active_representation_restart"
  | TaskEventKind.DataComplete => "data_complete"
  | TaskEventKind.BitTorrentPayloadComplete => "bt_payload_complete"
  | TaskEventKind.NoSpace => "no_space"
  | TaskEventKind.TerminalFailure => "terminal_failure"
  | TaskEventKind.SlowDemoted => "slow_demoted"
  | TaskEventKind.SlowPaused => "slow_paused"
  | TaskEventKind.SlowReadmit => "slow_readmit"
  | TaskEventKind.VerificationSucceeded => "verification_succeeded"
  | TaskEventKind.VerificationRecoverable => "verification_recoverable"
  | TaskEventKind.VerificationFailed => "verification_failed"
  | TaskEventKind.SeedingComplete => "seeding_complete"
  | TaskEventKind.SeedingFailed => "seeding_failed"
  | TaskEventKind.CancellationDrained => "cancellation_drained"
  | TaskEventKind.NoSpaceProbeCompleted => "no_space_probe_completed"
  | TaskEventKind.TerminalPersisted => "terminal_persisted"
  | TaskEventKind.HostKeyResolutionPersisted => "host_key_resolution_persisted"
  | TaskEventKind.HostKeyResolutionFailed => "host_key_resolution_failed"
  | TaskEventKind.StoppedResultDeleted => "stopped_result_deleted"
  | TaskEventKind.StoppedResultDeletionFailed => "stopped_result_deletion_failed"
  end.

Definition ALL_TASK_EVENT_KINDS : list TaskEventKind :=
  [ TaskEventKind.GenerationPersisted;
    TaskEventKind.OptionPatchPersisted;
    TaskEventKind.OptionPatchPersistenceFailed;
    TaskEventKind.OptionPatchApplied;
    TaskEventKind.OptionPatchApplicationFailed;
    TaskEventKind.AllocationSucceeded;
    TaskEventKind.AllocationRetryable;
    TaskEventKind.ActiveHostKeyChallenge;
    TaskEventKind.AllocationHostKeyChallenge;
    TaskEventKind.AllocationFailed;
    TaskEventKind.RetryReady;
    TaskEventKind.ActiveRetryIdle;
    TaskEventKind.ActiveRepresentationRestart;
    TaskEventKind.DataComplete;
    TaskEventKind.BitTorrentPayloadComplete;
    TaskEventKind.NoSpace;
    TaskEventKind.TerminalFailure;
    TaskEventKind.SlowDemoted;
    TaskEventKind.SlowPaused;
    TaskEventKind.SlowReadmit;
    TaskEventKind.VerificationSucceeded;
    TaskEventKind.VerificationRecoverable;
    TaskEventKind.VerificationFailed;
    TaskEventKind.SeedingComplete;
    TaskEventKind.SeedingFailed;
    TaskEventKind.CancellationDrained;
    TaskEventKind.NoSpaceProbeCompleted;
    TaskEventKind.TerminalPersisted;
    TaskEventKind.HostKeyResolutionPersisted;
    TaskEventKind.HostKeyResolutionFailed;
    TaskEventKind.StoppedResultDeleted;
    TaskEventKind.StoppedResultDeletionFailed ].

#[global] Instance TaskEventKind_coded : Coded TaskEventKind.
Proof. refine {| code_of := TaskEventKind_code; all_of := ALL_TASK_EVENT_KINDS |}. by intros []. Defined.
#[global] Instance TaskEventKind_eq_dec : EqDecision TaskEventKind := coded_eq_dec.
#[global] Instance TaskEventKind_countable : Countable TaskEventKind := coded_countable.

(** ** Effect kinds *)

Module TransitionEffectKind.
Inductive TransitionEffectKind : Set :=
| PersistTask
| PersistQueueTransition
| StageOptionPatch
| ApplyOptionPatch
| PersistGenerationStarted
| StartAllocation
| CancelGeneration
| ReleaseSlot
| ScheduleRetry
| CancelRetry
| ScheduleSlowReadmission
| CancelSlowReadmission
| ProbeNoSpace
| PersistConditions
| PersistHostKeyChallenge
| PersistHostKeyPinAndClearChallenge
| PersistHostKeyChallengeRejected
| PersistTerminal
| DeleteStoppedTaskMetadata
| PublishSnapshot.
End TransitionEffectKind.
Notation TransitionEffectKind := TransitionEffectKind.TransitionEffectKind.

Definition TransitionEffectKind_code (self : TransitionEffectKind) : string :=
  match self with
  | TransitionEffectKind.PersistTask => "persist_task"
  | TransitionEffectKind.PersistQueueTransition => "persist_queue_transition"
  | TransitionEffectKind.StageOptionPatch => "stage_option_patch"
  | TransitionEffectKind.ApplyOptionPatch => "apply_option_patch"
  | TransitionEffectKind.PersistGenerationStarted => "persist_generation_started"
  | TransitionEffectKind.StartAllocation => "start_allocation"
  | TransitionEffectKind.CancelGeneration => "cancel_generation"
  | TransitionEffectKind.ReleaseSlot => "release_slot"
  | TransitionEffectKind.ScheduleRetry => "schedule_retry"
  | TransitionEffectKind.CancelRetry => "cancel_retry"
  | TransitionEffectKind.ScheduleSlowReadmission => "schedule_slow_readmission"
  | TransitionEffectKind.CancelSlowReadmission => "cancel_slow_readmission"
  | TransitionEffectKind.ProbeNoSpace => "probe_no_space"
  | TransitionEffectKind.PersistConditions => "persist_conditions"
  | TransitionEffectKind.PersistHostKeyChallenge => "persist_host_key_challenge"
  | TransitionEffectKind.PersistHostKeyPinAndClearChallenge => "persist_host_key_pin_and_clear_challenge"
  | TransitionEffectKind.PersistHostKeyChallengeRejected => "persist_host_key_challenge_rejected"
  | TransitionEffectKind.PersistTerminal => "persist_terminal"
  | TransitionEffectKind.DeleteStoppedTaskMetadata => "delete_stopped_task_metadata"
  | TransitionEffectKind.PublishSnapshot => "publish_snapshot"
  end.

Definition ALL_TRANSITION_EFFECT_KINDS : list TransitionEffectKind :=
  [ TransitionEffectKind.PersistTask;
    TransitionEffectKind.PersistQueueTransition;
    TransitionEffectKind.StageOptionPatch;
    TransitionEffectKind.ApplyOptionPatch;
    TransitionEffectKind.PersistGenerationStarted;
    TransitionEffectKind.StartAllocation;
    TransitionEffectKind.CancelGeneration;
    TransitionEffectKind.ReleaseSlot;
    TransitionEffectKind.ScheduleRetry;
    TransitionEffectKind.CancelRetry;
    TransitionEffectKind.ScheduleSlowReadmission;
    TransitionEffectKind.CancelSlowReadmission;
    TransitionEffectKind.ProbeNoSpace;
    TransitionEffectKind.PersistConditions;
    TransitionEffectKind.PersistHostKeyChallenge;
    TransitionEffectKind.PersistHostKeyPinAndClearChallenge;
    TransitionEffectKind.PersistHostKeyChallengeRejected;
    TransitionEffectKind.PersistTerminal;
    TransitionEffectKind.DeleteStoppedTaskMetadata;
    TransitionEffectKind.PublishSnapshot ].

#[global] Instance TransitionEffectKind_coded : Coded TransitionEffectKind.
Proof. refine {| code_of := TransitionEffectKind_code; all_of := ALL_TRANSITION_EFFECT_KINDS |}. by intros []. Defined.
#[global] Instance TransitionEffectKind_eq_dec : EqDecision TransitionEffectKind := coded_eq_dec.
#[global] Instance TransitionEffectKind_countable : Countable TransitionEffectKind := coded_countable.

