(* ===== verification/Transition.v ===== *)
(** * The task-state transition contract

    Model of [crates/ariax-core/src/transition.rs]: the scheduler's semantic
    actions, the command or event each one comes from, and the total
    state/action matrix [transition_contract]. *)

From S2P Require Import Prelude Ids State CommandKinds.
From Stdlib Require Import Ascii String.
Open Scope list_scope.

(** ** Reasons and actions *)

Module StateReason.
Inductive StateReason : Set :=
| ValidationSucceeded
| ValidationFailed
| UserPause
| UserResume
| UserRemove
| SchedulerAdmission
| AdmissionBlocked
| PlanningFailed
| OptionPatch
| OptionPatchApplicationFailed
| CredentialsSatisfied
| CredentialUpdateFailed
| NoSpaceProbeRequested
| NoSpaceProbeSucceeded
| NoSpaceProbeFailed
| GenerationPersistenceSucceeded
| AllocationSucceeded
| AllocationRetryableFailure
| HostKeyChallenge
| HostKeyApprovalRequired
| AllocationTerminalFailure
| LeaseRetry
| RepresentationRestart
| PayloadReceived
| BitTorrentSeeding
| SlowSlotDemotion
| SlowSlotPause
| NoSpace
| TerminalWorkFailure
| RetryReadmission
| RetryExhausted
| SlowReadmission
| HostKeyApproved
| HostKeyResolutionFailed
| OptionPatchPersistenceSucceeded
| OptionPatchPersistenceFailed
| CancellationDrained
| RestartQuiesced
| SourceReplacement
| RestartApplicationSucceeded
| RestartApplicationFailed
| VerificationSucceeded
| VerificationRecoverableFailure
| VerificationTerminalFailure
| SeedingStopped
| BitTorrentFailure
| TerminalPersistenceSucceeded
| StoppedResultRemovalRequested
| StoppedResultRemovalFailed
| StoppedResultRemoved
| OrderlyShutdown
| DuplicateEventIgnored
| StaleEventIgnored
| Idempotent
| Conflict.
End StateReason.
Notation StateReason := StateReason.StateReason.

Definition StateReason_code (self : StateReason) : string :=
  match self with
  | StateReason.ValidationSucceeded => "validation_succeeded"
  | StateReason.ValidationFailed => "validation_failed"
  | StateReason.UserPause => "user_pause"
  | StateReason.UserResume => "user_resume"
  | StateReason.UserRemove => "user_remove"
  | StateReason.SchedulerAdmission => "scheduler_admission"
  | StateReason.AdmissionBlocked => "admission_blocked"
  | StateReason.PlanningFailed => "planning_failed"
  | StateReason.OptionPatch => "option_patch"
  | StateReason.OptionPatchApplicationFailed => "option_patch_application_failed"
  | StateReason.CredentialsSatisfied => "credentials_satisfied"
  | StateReason.CredentialUpdateFailed => "credential_update_failed"
  | StateReason.NoSpaceProbeRequested => "no_space_probe_requested"
  | StateReason.NoSpaceProbeSucceeded => "no_space_probe_succeeded"
  | StateReason.NoSpaceProbeFailed => "no_space_probe_failed"
  | StateReason.GenerationPersistenceSucceeded => "generation_persistence_succeeded"
  | StateReason.AllocationSucceeded => "allocation_succeeded"
  | StateReason.AllocationRetryableFailure => "allocation_retryable_failure"
  | StateReason.HostKeyChallenge => "host_key_challenge"
  | StateReason.HostKeyApprovalRequired => "host_key_approval_required"
  | StateReason.AllocationTerminalFailure => "allocation_terminal_failure"
  | StateReason.LeaseRetry => "lease_retry"
  | StateReason.RepresentationRestart => "representation_restart"
  | StateReason.PayloadReceived => "payload_received"
  | StateReason.BitTorrentSeeding => "bit_torrent_seeding"
  | StateReason.SlowSlotDemotion => "slow_slot_demotion"
  | StateReason.SlowSlotPause => "slow_slot_pause"
  | StateReason.NoSpace => "no_space"
  | StateReason.TerminalWorkFailure => "terminal_work_failure"
  | StateReason.RetryReadmission => "retry_readmission"
  | StateReason.RetryExhausted => "retry_exhausted"
  | StateReason.SlowReadmission => "slow_readmission"
  | StateReason.HostKeyApproved => "host_key_approved"
  | StateReason.HostKeyResolutionFailed => "host_key_resolution_failed"
  | StateReason.OptionPatchPersistenceSucceeded => "option_patch_persistence_succeeded"
  | StateReason.OptionPatchPersistenceFailed => "option_patch_persistence_failed"
  | StateReason.CancellationDrained => "cancellation_drained"
  | StateReason.RestartQuiesced => "restart_quiesced"
  | StateReason.SourceReplacement => "source_replacement"
  | StateReason.RestartApplicationSucceeded => "restart_application_succeeded"
  | StateReason.RestartApplicationFailed => "restart_application_failed"
  | StateReason.VerificationSucceeded => "verification_succeeded"
  | StateReason.VerificationRecoverableFailure => "verification_recoverable_failure"
  | StateReason.VerificationTerminalFailure => "verification_terminal_failure"
  | StateReason.SeedingStopped => "seeding_stopped"
  | StateReason.BitTorrentFailure => "bit_torrent_failure"
  | StateReason.TerminalPersistenceSucceeded => "terminal_persistence_succeeded"
  | StateReason.StoppedResultRemovalRequested => "stopped_result_removal_requested"
  | StateReason.StoppedResultRemovalFailed => "stopped_result_removal_failed"
  | StateReason.StoppedResultRemoved => "stopped_result_removed"
  | StateReason.OrderlyShutdown => "orderly_shutdown"
  | StateReason.DuplicateEventIgnored => "duplicate_event_ignored"
  | StateReason.StaleEventIgnored => "stale_event_ignored"
  | StateReason.Idempotent => "idempotent"
  | StateReason.Conflict => "conflict"
  end.

Definition ALL_STATE_REASONS : list StateReason :=
  [ StateReason.ValidationSucceeded;
    StateReason.ValidationFailed;
    StateReason.UserPause;
    StateReason.UserResume;
    StateReason.UserRemove;
    StateReason.SchedulerAdmission;
    StateReason.AdmissionBlocked;
    StateReason.PlanningFailed;
    StateReason.OptionPatch;
    StateReason.OptionPatchApplicationFailed;
    StateReason.CredentialsSatisfied;
    StateReason.CredentialUpdateFailed;
    StateReason.NoSpaceProbeRequested;
    StateReason.NoSpaceProbeSucceeded;
    StateReason.NoSpaceProbeFailed;
    StateReason.GenerationPersistenceSucceeded;
    StateReason.AllocationSucceeded;
    StateReason.AllocationRetryableFailure;
    StateReason.HostKeyChallenge;
    StateReason.HostKeyApprovalRequired;
    StateReason.AllocationTerminalFailure;
    StateReason.LeaseRetry;
    StateReason.RepresentationRestart;
    StateReason.PayloadReceived;
    StateReason.BitTorrentSeeding;
    StateReason.SlowSlotDemotion;
    StateReason.SlowSlotPause;
    StateReason.NoSpace;
    StateReason.TerminalWorkFailure;
    StateReason.RetryReadmission;
    StateReason.RetryExhausted;
    StateReason.SlowReadmission;
    StateReason.HostKeyApproved;
    StateReason.HostKeyResolutionFailed;
    StateReason.OptionPatchPersistenceSucceeded;
    StateReason.OptionPatchPersistenceFailed;
    StateReason.CancellationDrained;
    StateReason.RestartQuiesced;
    StateReason.SourceReplacement;
    StateReason.RestartApplicationSucceeded;
    StateReason.RestartApplicationFailed;
    StateReason.VerificationSucceeded;
    StateReason.VerificationRecoverableFailure;
    StateReason.VerificationTerminalFailure;
    StateReason.SeedingStopped;
    StateReason.BitTorrentFailure;
    StateReason.TerminalPersistenceSucceeded;
    StateReason.StoppedResultRemovalRequested;
    StateReason.StoppedResultRemovalFailed;
    StateReason.StoppedResultRemoved;
    StateReason.OrderlyShutdown;
    StateReason.DuplicateEventIgnored;
    StateReason.StaleEventIgnored;
    StateReason.Idempotent;
    StateReason.Conflict ].

#[global] Instance StateReason_coded : Coded StateReason.
Proof. refine {| code_of := StateReason_code; all_of := ALL_STATE_REASONS |}. by intros []. Defined.
#[global] Instance StateReason_eq_dec : EqDecision StateReason := coded_eq_dec.
#[global] Instance StateReason_countable : Countable StateReason := coded_countable.

Module SchedulerAction.
Inductive SchedulerAction : Set :=
| ValidationSucceeded
| ValidationSucceededPaused
| ValidationFailed
| Pause
| PauseDeferred
| Resume
| ResumeDeferred
| Remove
| RemoveDeferred
| SchedulerAdmission
| AdmissionBlocked
| PlanningFailed
| InPlaceOptionPatchAccepted
| InPlaceOptionPatchApplied
| InPlaceOptionPatchApplicationFailed
| CredentialsSatisfied
| CredentialSatisfactionFailed
| ExplicitNoSpaceProbeRequested
| WaitingNoSpaceProbeSucceeded
| WaitingNoSpaceProbeFailed
| PausedNoSpaceResumeProbeSucceeded
| PausedNoSpaceResumeProbeFailed
| PausedNoSpacePausePreservingProbeSucceeded
| PausedNoSpacePausePreservingProbeFailed
| GenerationPersistenceSucceeded
| AllocationSucceeded
| AllocationRetryableFailure
| ActiveHostKeyChallengeRequired
| HostKeyChallengeRequired
| AllocationTerminalFailure
| ActiveRestartOptionPatchAccepted
| SourceReplacementRequested
| SourceReplacementCommitted
| ActiveRestartOptionPatchPersisted
| ActiveRestartOptionPatchPersistenceFailed
| LeaseRetryableWithRunnableWork
| LeaseRetryableWithoutRunnableWork
| RepresentationRestart
| AllRequiredDataReceived
| BitTorrentPayloadComplete
| SlowSlotDemote
| SlowSlotPause
| MidTransferNoSpace
| TerminalWorkFailure
| RetryReadmissionSucceeded
| RetryReadmissionBlocked
| RetryExhausted
| SlowReadmissionSucceeded
| SlowReadmissionBlocked
| ApproveHostKey
| ApplyMatchingHostKeyOption
| HostKeyResolutionSucceeded
| HostKeyResolutionSucceededPreservingPause
| HostKeyResolutionFailed
| CancellationDrainSucceeded
| RestartQuiesced
| RestartApplicationScheduled
| RestartApplicationSucceeded
| RestartApplicationFailed
| DeferredPauseCompleted
| DeferredResumeCompleted
| DeferredRemoveCompleted
| VerificationSucceeded
| VerificationRecoverableFailure
| VerificationTerminalFailure
| SeedingStopped
| BitTorrentFailure
| TerminalPersistenceSucceeded
| RemoveStoppedResult
| StoppedResultDeletionSucceeded
| StoppedResultDeletionFailed
| OrderlyShutdown
| DuplicateEventIgnored
| StaleEventIgnored.
End SchedulerAction.
Notation SchedulerAction := SchedulerAction.SchedulerAction.

Definition SchedulerAction_code (self : SchedulerAction) : string :=
  match self with
  | SchedulerAction.ValidationSucceeded => "validation_succeeded"
  | SchedulerAction.ValidationSucceededPaused => "validation_succeeded_paused"
  | SchedulerAction.ValidationFailed => "validation_failed"
  | SchedulerAction.Pause => "pause"
  | SchedulerAction.PauseDeferred => "pause_deferred"
  | SchedulerAction.Resume => "resume"
  | SchedulerAction.ResumeDeferred => "resume_deferred"
  | SchedulerAction.Remove => "remove"
  | SchedulerAction.RemoveDeferred => "remove_deferred"
  | SchedulerAction.SchedulerAdmission => "scheduler_admission"
  | SchedulerAction.AdmissionBlocked => "admission_blocked"
  | SchedulerAction.PlanningFailed => "planning_failed"
  | SchedulerAction.InPlaceOptionPatchAccepted => "in_place_option_patch_accepted"
  | SchedulerAction.InPlaceOptionPatchApplied => "in_place_option_patch_applied"
  | SchedulerAction.InPlaceOptionPatchApplicationFailed => "in_place_option_patch_application_failed"
  | SchedulerAction.CredentialsSatisfied => "credentials_satisfied"
  | SchedulerAction.CredentialSatisfactionFailed => "credential_satisfaction_failed"
  | SchedulerAction.ExplicitNoSpaceProbeRequested => "explicit_no_space_probe_requested"
  | SchedulerAction.WaitingNoSpaceProbeSucceeded => "waiting_no_space_probe_succeeded"
  | SchedulerAction.WaitingNoSpaceProbeFailed => "waiting_no_space_probe_failed"
  | SchedulerAction.PausedNoSpaceResumeProbeSucceeded => "paused_no_space_resume_probe_succeeded"
  | SchedulerAction.PausedNoSpaceResumeProbeFailed => "paused_no_space_resume_probe_failed"
  | SchedulerAction.PausedNoSpacePausePreservingProbeSucceeded => "paused_no_space_pause_preserving_probe_succeeded"
  | SchedulerAction.PausedNoSpacePausePreservingProbeFailed => "paused_no_space_pause_preserving_probe_failed"
  | SchedulerAction.GenerationPersistenceSucceeded => "generation_persistence_succeeded"
  | SchedulerAction.AllocationSucceeded => "allocation_succeeded"
  | SchedulerAction.AllocationRetryableFailure => "allocation_retryable_failure"
  | SchedulerAction.ActiveHostKeyChallengeRequired => "active_host_key_challenge_required"
  | SchedulerAction.HostKeyChallengeRequired => "host_key_challenge_required"
  | SchedulerAction.AllocationTerminalFailure => "allocation_terminal_failure"
  | SchedulerAction.ActiveRestartOptionPatchAccepted => "active_restart_option_patch_accepted"
  | SchedulerAction.SourceReplacementRequested => "source_replacement_requested"
  | SchedulerAction.SourceReplacementCommitted => "source_replacement_committed"
  | SchedulerAction.ActiveRestartOptionPatchPersisted => "active_restart_option_patch_persisted"
  | SchedulerAction.ActiveRestartOptionPatchPersistenceFailed => "active_restart_option_patch_persistence_failed"
  | SchedulerAction.LeaseRetryableWithRunnableWork => "lease_retryable_with_runnable_work"
  | SchedulerAction.LeaseRetryableWithoutRunnableWork => "lease_retryable_without_runnable_work"
  | SchedulerAction.RepresentationRestart => "representation_restart"
  | SchedulerAction.AllRequiredDataReceived => "all_required_data_received"
  | SchedulerAction.BitTorrentPayloadComplete => "bit_torrent_payload_complete"
  | SchedulerAction.SlowSlotDemote => "slow_slot_demote"
  | SchedulerAction.SlowSlotPause => "slow_slot_pause"
  | SchedulerAction.MidTransferNoSpace => "mid_transfer_no_space"
  | SchedulerAction.TerminalWorkFailure => "terminal_work_failure"
  | SchedulerAction.RetryReadmissionSucceeded => "retry_readmission_succeeded"
  | SchedulerAction.RetryReadmissionBlocked => "retry_readmission_blocked"
  | SchedulerAction.RetryExhausted => "retry_exhausted"
  | SchedulerAction.SlowReadmissionSucceeded => "slow_readmission_succeeded"
  | SchedulerAction.SlowReadmissionBlocked => "slow_readmission_blocked"
  | SchedulerAction.ApproveHostKey => "approve_host_key"
  | SchedulerAction.ApplyMatchingHostKeyOption => "apply_matching_host_key_option"
  | SchedulerAction.HostKeyResolutionSucceeded => "host_key_resolution_succeeded"
  | SchedulerAction.HostKeyResolutionSucceededPreservingPause => "host_key_resolution_succeeded_preserving_pause"
  | SchedulerAction.HostKeyResolutionFailed => "host_key_resolution_failed"
  | SchedulerAction.CancellationDrainSucceeded => "cancellation_drain_succeeded"
  | SchedulerAction.RestartQuiesced => "restart_quiesced"
  | SchedulerAction.RestartApplicationScheduled => "restart_application_scheduled"
  | SchedulerAction.RestartApplicationSucceeded => "restart_application_succeeded"
  | SchedulerAction.RestartApplicationFailed => "restart_application_failed"
  | SchedulerAction.DeferredPauseCompleted => "deferred_pause_completed"
  | SchedulerAction.DeferredResumeCompleted => "deferred_resume_completed"
  | SchedulerAction.DeferredRemoveCompleted => "deferred_remove_completed"
  | SchedulerAction.VerificationSucceeded => "verification_succeeded"
  | SchedulerAction.VerificationRecoverableFailure => "verification_recoverable_failure"
  | SchedulerAction.VerificationTerminalFailure => "verification_terminal_failure"
  | SchedulerAction.SeedingStopped => "seeding_stopped"
  | SchedulerAction.BitTorrentFailure => "bit_torrent_failure"
  | SchedulerAction.TerminalPersistenceSucceeded => "terminal_persistence_succeeded"
  | SchedulerAction.RemoveStoppedResult => "remove_stopped_result"
  | SchedulerAction.StoppedResultDeletionSucceeded => "stopped_result_deletion_succeeded"
  | SchedulerAction.StoppedResultDeletionFailed => "stopped_result_deletion_failed"
  | SchedulerAction.OrderlyShutdown => "orderly_shutdown"
  | SchedulerAction.DuplicateEventIgnored => "duplicate_event_ignored"
  | SchedulerAction.StaleEventIgnored => "stale_event_ignored"
  end.

Definition ALL_SCHEDULER_ACTIONS : list SchedulerAction :=
  [ SchedulerAction.ValidationSucceeded;
    SchedulerAction.ValidationSucceededPaused;
    SchedulerAction.ValidationFailed;
    SchedulerAction.Pause;
    SchedulerAction.PauseDeferred;
    SchedulerAction.Resume;
    SchedulerAction.ResumeDeferred;
    SchedulerAction.Remove;
    SchedulerAction.RemoveDeferred;
    SchedulerAction.SchedulerAdmission;
    SchedulerAction.AdmissionBlocked;
    SchedulerAction.PlanningFailed;
    SchedulerAction.InPlaceOptionPatchAccepted;
    SchedulerAction.InPlaceOptionPatchApplied;
    SchedulerAction.InPlaceOptionPatchApplicationFailed;
    SchedulerAction.CredentialsSatisfied;
    SchedulerAction.CredentialSatisfactionFailed;
    SchedulerAction.ExplicitNoSpaceProbeRequested;
    SchedulerAction.WaitingNoSpaceProbeSucceeded;
    SchedulerAction.WaitingNoSpaceProbeFailed;
    SchedulerAction.PausedNoSpaceResumeProbeSucceeded;
    SchedulerAction.PausedNoSpaceResumeProbeFailed;
    SchedulerAction.PausedNoSpacePausePreservingProbeSucceeded;
    SchedulerAction.PausedNoSpacePausePreservingProbeFailed;
    SchedulerAction.GenerationPersistenceSucceeded;
    SchedulerAction.AllocationSucceeded;
    SchedulerAction.AllocationRetryableFailure;
    SchedulerAction.ActiveHostKeyChallengeRequired;
    SchedulerAction.HostKeyChallengeRequired;
    SchedulerAction.AllocationTerminalFailure;
    SchedulerAction.ActiveRestartOptionPatchAccepted;
    SchedulerAction.SourceReplacementRequested;
    SchedulerAction.SourceReplacementCommitted;
    SchedulerAction.ActiveRestartOptionPatchPersisted;
    SchedulerAction.ActiveRestartOptionPatchPersistenceFailed;
    SchedulerAction.LeaseRetryableWithRunnableWork;
    SchedulerAction.LeaseRetryableWithoutRunnableWork;
    SchedulerAction.RepresentationRestart;
    SchedulerAction.AllRequiredDataReceived;
    SchedulerAction.BitTorrentPayloadComplete;
    SchedulerAction.SlowSlotDemote;
    SchedulerAction.SlowSlotPause;
    SchedulerAction.MidTransferNoSpace;
    SchedulerAction.TerminalWorkFailure;
    SchedulerAction.RetryReadmissionSucceeded;
    SchedulerAction.RetryReadmissionBlocked;
    SchedulerAction.RetryExhausted;
    SchedulerAction.SlowReadmissionSucceeded;
    SchedulerAction.SlowReadmissionBlocked;
    SchedulerAction.ApproveHostKey;
    SchedulerAction.ApplyMatchingHostKeyOption;
    SchedulerAction.HostKeyResolutionSucceeded;
    SchedulerAction.HostKeyResolutionSucceededPreservingPause;
    SchedulerAction.HostKeyResolutionFailed;
    SchedulerAction.CancellationDrainSucceeded;
    SchedulerAction.RestartQuiesced;
    SchedulerAction.RestartApplicationScheduled;
    SchedulerAction.RestartApplicationSucceeded;
    SchedulerAction.RestartApplicationFailed;
    SchedulerAction.DeferredPauseCompleted;
    SchedulerAction.DeferredResumeCompleted;
    SchedulerAction.DeferredRemoveCompleted;
    SchedulerAction.VerificationSucceeded;
    SchedulerAction.VerificationRecoverableFailure;
    SchedulerAction.VerificationTerminalFailure;
    SchedulerAction.SeedingStopped;
    SchedulerAction.BitTorrentFailure;
    SchedulerAction.TerminalPersistenceSucceeded;
    SchedulerAction.RemoveStoppedResult;
    SchedulerAction.StoppedResultDeletionSucceeded;
    SchedulerAction.StoppedResultDeletionFailed;
    SchedulerAction.OrderlyShutdown;
    SchedulerAction.DuplicateEventIgnored;
    SchedulerAction.StaleEventIgnored ].

#[global] Instance SchedulerAction_coded : Coded SchedulerAction.
Proof. refine {| code_of := SchedulerAction_code; all_of := ALL_SCHEDULER_ACTIONS |}. by intros []. Defined.
#[global] Instance SchedulerAction_eq_dec : EqDecision SchedulerAction := coded_eq_dec.
#[global] Instance SchedulerAction_countable : Countable SchedulerAction := coded_countable.

(** One published state change, and the deletion of a retained result. *)
Record StateTransition : Set := mkStateTransition {
  st_task : TaskId;
  st_gid : Gid;
  st_generation : Generation;
  st_from : TaskState;
  st_to : TaskState;
  st_reason : StateReason;
  st_at : MonotonicInstant;
}.
#[global] Instance StateTransition_eq_dec : EqDecision StateTransition.
Proof. solve_decision. Defined.

Record TaskDeletion : Set := mkTaskDeletion {
  td_task : TaskId;
  td_gid : Gid;
  td_generation : Generation;
  td_from : TaskState;
  td_reason : StateReason;
  td_at : MonotonicInstant;
}.
#[global] Instance TaskDeletion_eq_dec : EqDecision TaskDeletion.
Proof. solve_decision. Defined.

(** ** Sources of actions *)

Module SchedulerActionSource.
Inductive SchedulerActionSource : Set :=
| Command (kind : SchedulerCommandKind)
| TaskEvent (kind : TaskEventKind)
| AnyTaskEvent
| Internal.
End SchedulerActionSource.
Notation SchedulerActionSource := SchedulerActionSource.SchedulerActionSource.
#[global] Instance SchedulerActionSource_eq_dec : EqDecision SchedulerActionSource.
Proof. solve_decision. Defined.

Definition SchedulerActionSource_kind_code (self : SchedulerActionSource) : string :=
  match self with
  | SchedulerActionSource.Command _ => "command"
  | SchedulerActionSource.TaskEvent _ => "task_event"
  | SchedulerActionSource.AnyTaskEvent => "any_task_event"
  | SchedulerActionSource.Internal => "internal"
  end.

Definition SchedulerActionSource_input_code (self : SchedulerActionSource) : option string :=
  match self with
  | SchedulerActionSource.Command kind => Some (SchedulerCommandKind_code kind)
  | SchedulerActionSource.TaskEvent kind => Some (TaskEventKind_code kind)
  | SchedulerActionSource.AnyTaskEvent | SchedulerActionSource.Internal => None
  end.

Definition SchedulerActionSource_matches_command (self : SchedulerActionSource)
    (command : SchedulerCommandKind) : bool :=
  match self with SchedulerActionSource.Command actual => actual == command | _ => false end.

Definition SchedulerActionSource_matches_task_event (self : SchedulerActionSource)
    (event : TaskEventKind) : bool :=
  match self with SchedulerActionSource.TaskEvent actual => actual == event | _ => false end.

Definition SchedulerAction_source (self : SchedulerAction) : SchedulerActionSource :=
  match self with
  | SchedulerAction.ValidationSucceeded
  | SchedulerAction.ValidationSucceededPaused =>
      SchedulerActionSource.Command SchedulerCommandKind.AddValidatedTask
  | SchedulerAction.Pause
  | SchedulerAction.PauseDeferred =>
      SchedulerActionSource.Command SchedulerCommandKind.Pause
  | SchedulerAction.Resume
  | SchedulerAction.ResumeDeferred
  | SchedulerAction.ExplicitNoSpaceProbeRequested =>
      SchedulerActionSource.Command SchedulerCommandKind.Resume
  | SchedulerAction.Remove
  | SchedulerAction.RemoveDeferred =>
      SchedulerActionSource.Command SchedulerCommandKind.Remove
  | SchedulerAction.InPlaceOptionPatchAccepted
  | SchedulerAction.ActiveRestartOptionPatchAccepted
  | SchedulerAction.ApplyMatchingHostKeyOption =>
      SchedulerActionSource.Command SchedulerCommandKind.ApplyOptionPatch
  | SchedulerAction.SourceReplacementRequested =>
      SchedulerActionSource.Command SchedulerCommandKind.BeginSourceReplacement
  | SchedulerAction.SourceReplacementCommitted =>
      SchedulerActionSource.Command SchedulerCommandKind.CommitSourceReplacement
  | SchedulerAction.InPlaceOptionPatchApplied =>
      SchedulerActionSource.TaskEvent TaskEventKind.OptionPatchApplied
  | SchedulerAction.InPlaceOptionPatchApplicationFailed =>
      SchedulerActionSource.TaskEvent TaskEventKind.OptionPatchApplicationFailed
  | SchedulerAction.CredentialsSatisfied =>
      SchedulerActionSource.TaskEvent TaskEventKind.OptionPatchApplied
  | SchedulerAction.CredentialSatisfactionFailed =>
      SchedulerActionSource.TaskEvent TaskEventKind.OptionPatchApplicationFailed
  | SchedulerAction.ApproveHostKey =>
      SchedulerActionSource.Command SchedulerCommandKind.ApproveHostKey
  | SchedulerAction.RemoveStoppedResult =>
      SchedulerActionSource.Command SchedulerCommandKind.RemoveStoppedResult
  | SchedulerAction.OrderlyShutdown =>
      SchedulerActionSource.Command SchedulerCommandKind.OrderlyShutdown
  | SchedulerAction.WaitingNoSpaceProbeSucceeded
  | SchedulerAction.WaitingNoSpaceProbeFailed
  | SchedulerAction.PausedNoSpaceResumeProbeSucceeded
  | SchedulerAction.PausedNoSpaceResumeProbeFailed
  | SchedulerAction.PausedNoSpacePausePreservingProbeSucceeded
  | SchedulerAction.PausedNoSpacePausePreservingProbeFailed =>
      SchedulerActionSource.TaskEvent TaskEventKind.NoSpaceProbeCompleted
  | SchedulerAction.GenerationPersistenceSucceeded =>
      SchedulerActionSource.TaskEvent TaskEventKind.GenerationPersisted
  | SchedulerAction.ActiveRestartOptionPatchPersisted =>
      SchedulerActionSource.TaskEvent TaskEventKind.OptionPatchPersisted
  | SchedulerAction.ActiveRestartOptionPatchPersistenceFailed =>
      SchedulerActionSource.TaskEvent TaskEventKind.OptionPatchPersistenceFailed
  | SchedulerAction.RestartApplicationSucceeded =>
      SchedulerActionSource.TaskEvent TaskEventKind.OptionPatchApplied
  | SchedulerAction.RestartApplicationFailed =>
      SchedulerActionSource.TaskEvent TaskEventKind.OptionPatchApplicationFailed
  | SchedulerAction.AllocationSucceeded =>
      SchedulerActionSource.TaskEvent TaskEventKind.AllocationSucceeded
  | SchedulerAction.AllocationRetryableFailure =>
      SchedulerActionSource.TaskEvent TaskEventKind.AllocationRetryable
  | SchedulerAction.ActiveHostKeyChallengeRequired =>
      SchedulerActionSource.TaskEvent TaskEventKind.ActiveHostKeyChallenge
  | SchedulerAction.HostKeyChallengeRequired =>
      SchedulerActionSource.TaskEvent TaskEventKind.AllocationHostKeyChallenge
  | SchedulerAction.AllocationTerminalFailure =>
      SchedulerActionSource.TaskEvent TaskEventKind.AllocationFailed
  | SchedulerAction.LeaseRetryableWithoutRunnableWork =>
      SchedulerActionSource.TaskEvent TaskEventKind.ActiveRetryIdle
  | SchedulerAction.RepresentationRestart =>
      SchedulerActionSource.TaskEvent TaskEventKind.ActiveRepresentationRestart
  | SchedulerAction.AllRequiredDataReceived =>
      SchedulerActionSource.TaskEvent TaskEventKind.DataComplete
  | SchedulerAction.BitTorrentPayloadComplete =>
      SchedulerActionSource.TaskEvent TaskEventKind.BitTorrentPayloadComplete
  | SchedulerAction.SlowSlotDemote =>
      SchedulerActionSource.TaskEvent TaskEventKind.SlowDemoted
  | SchedulerAction.SlowSlotPause =>
      SchedulerActionSource.TaskEvent TaskEventKind.SlowPaused
  | SchedulerAction.MidTransferNoSpace =>
      SchedulerActionSource.TaskEvent TaskEventKind.NoSpace
  | SchedulerAction.TerminalWorkFailure =>
      SchedulerActionSource.TaskEvent TaskEventKind.TerminalFailure
  | SchedulerAction.RetryReadmissionSucceeded
  | SchedulerAction.RetryReadmissionBlocked =>
      SchedulerActionSource.TaskEvent TaskEventKind.RetryReady
  | SchedulerAction.SlowReadmissionSucceeded
  | SchedulerAction.SlowReadmissionBlocked =>
      SchedulerActionSource.TaskEvent TaskEventKind.SlowReadmit
  | SchedulerAction.CancellationDrainSucceeded
  | SchedulerAction.RestartQuiesced =>
      SchedulerActionSource.TaskEvent TaskEventKind.CancellationDrained
  | SchedulerAction.VerificationSucceeded =>
      SchedulerActionSource.TaskEvent TaskEventKind.VerificationSucceeded
  | SchedulerAction.VerificationRecoverableFailure =>
      SchedulerActionSource.TaskEvent TaskEventKind.VerificationRecoverable
  | SchedulerAction.VerificationTerminalFailure =>
      SchedulerActionSource.TaskEvent TaskEventKind.VerificationFailed
  | SchedulerAction.SeedingStopped =>
      SchedulerActionSource.TaskEvent TaskEventKind.SeedingComplete
  | SchedulerAction.BitTorrentFailure =>
      SchedulerActionSource.TaskEvent TaskEventKind.SeedingFailed
  | SchedulerAction.TerminalPersistenceSucceeded =>
      SchedulerActionSource.TaskEvent TaskEventKind.TerminalPersisted
  | SchedulerAction.HostKeyResolutionSucceeded
  | SchedulerAction.HostKeyResolutionSucceededPreservingPause =>
      SchedulerActionSource.TaskEvent TaskEventKind.HostKeyResolutionPersisted
  | SchedulerAction.HostKeyResolutionFailed =>
      SchedulerActionSource.TaskEvent TaskEventKind.HostKeyResolutionFailed
  | SchedulerAction.StoppedResultDeletionSucceeded =>
      SchedulerActionSource.TaskEvent TaskEventKind.StoppedResultDeleted
  | SchedulerAction.StoppedResultDeletionFailed =>
      SchedulerActionSource.TaskEvent TaskEventKind.StoppedResultDeletionFailed
  | SchedulerAction.DuplicateEventIgnored
  | SchedulerAction.StaleEventIgnored =>
      SchedulerActionSource.AnyTaskEvent
  | SchedulerAction.ValidationFailed
  | SchedulerAction.SchedulerAdmission
  | SchedulerAction.AdmissionBlocked
  | SchedulerAction.PlanningFailed
  | SchedulerAction.LeaseRetryableWithRunnableWork
  | SchedulerAction.RetryExhausted
  | SchedulerAction.RestartApplicationScheduled
  | SchedulerAction.DeferredPauseCompleted
  | SchedulerAction.DeferredResumeCompleted
  | SchedulerAction.DeferredRemoveCompleted =>
      SchedulerActionSource.Internal
  end.

(** Selection of the action from validated context. *)
Definition SchedulerAction_for_validated_add (desired_paused : bool) : SchedulerAction :=
  if desired_paused then SchedulerAction.ValidationSucceededPaused
  else SchedulerAction.ValidationSucceeded.

Definition SchedulerAction_for_resume (state : TaskState) (conditions : TaskConditionsSnapshot)
    : SchedulerAction :=
  if tcs_no_space conditions &&
     match state with
     | TaskState.Waiting | TaskState.WaitingSlow | TaskState.RetryWait
     | TaskState.Paused | TaskState.PausedSlow => true
     | _ => false
     end
  then SchedulerAction.ExplicitNoSpaceProbeRequested
  else SchedulerAction.Resume.

Definition SchedulerAction_for_host_key_resolution (desired_paused : bool) : SchedulerAction :=
  if desired_paused then SchedulerAction.HostKeyResolutionSucceededPreservingPause
  else SchedulerAction.HostKeyResolutionSucceeded.

Definition SchedulerAction_for_no_space_probe_result (state : TaskState) (origin : NoSpaceProbeOrigin)
    (desired_paused ready : bool) : option SchedulerAction :=
  match state, origin, desired_paused, ready with
  | (TaskState.Waiting | TaskState.WaitingSlow | TaskState.RetryWait), _, _, true =>
      Some SchedulerAction.WaitingNoSpaceProbeSucceeded
  | (TaskState.Waiting | TaskState.WaitingSlow | TaskState.RetryWait), _, _, false =>
      Some SchedulerAction.WaitingNoSpaceProbeFailed
  | TaskState.Paused, _, false, true => Some SchedulerAction.PausedNoSpaceResumeProbeSucceeded
  | TaskState.Paused, _, false, false => Some SchedulerAction.PausedNoSpaceResumeProbeFailed
  | (TaskState.Paused | TaskState.PausedSlow), _, true, true =>
      Some SchedulerAction.PausedNoSpacePausePreservingProbeSucceeded
  | (TaskState.Paused | TaskState.PausedSlow), _, true, false =>
      Some SchedulerAction.PausedNoSpacePausePreservingProbeFailed
  | _, _, _, _ => None
  end.

(** ** Event disposition *)

Module SchedulerActionSourceError.
Inductive SchedulerActionSourceError : Set :=
| EventActionMismatch (event : TaskEventKind) (action : SchedulerAction).
End SchedulerActionSourceError.
Notation SchedulerActionSourceError := SchedulerActionSourceError.SchedulerActionSourceError.

Module EventDisposition.
Inductive EventDisposition : Set :=
| Fresh
| Duplicate
| Stale.
End EventDisposition.
Notation EventDisposition := EventDisposition.EventDisposition.

Definition EventDisposition_code (self : EventDisposition) : string :=
  match self with
  | EventDisposition.Fresh => "fresh"
  | EventDisposition.Duplicate => "duplicate"
  | EventDisposition.Stale => "stale"
  end.

Definition ALL_EVENT_DISPOSITIONS : list EventDisposition :=
  [ EventDisposition.Fresh;
    EventDisposition.Duplicate;
    EventDisposition.Stale ].

#[global] Instance EventDisposition_coded : Coded EventDisposition.
Proof. refine {| code_of := EventDisposition_code; all_of := ALL_EVENT_DISPOSITIONS |}. by intros []. Defined.
#[global] Instance EventDisposition_eq_dec : EqDecision EventDisposition := coded_eq_dec.
#[global] Instance EventDisposition_countable : Countable EventDisposition := coded_countable.

Definition EventDisposition_resolve (self : EventDisposition) (event : TaskEventKind)
    (fresh : SchedulerAction) : result SchedulerActionSourceError SchedulerAction :=
  if negb (SchedulerActionSource_matches_task_event (SchedulerAction_source fresh) event)
  then Err (SchedulerActionSourceError.EventActionMismatch event fresh)
  else Ok (match self with
           | EventDisposition.Fresh => fresh
           | EventDisposition.Duplicate => SchedulerAction.DuplicateEventIgnored
           | EventDisposition.Stale => SchedulerAction.StaleEventIgnored
           end).

(** ** Contracts *)

Module TransitionContractKind.
Inductive TransitionContractKind : Set :=
| Transition
| Stay
| Conditional
| Delete
| NoOp
| Ignore
| Conflict.
End TransitionContractKind.
Notation TransitionContractKind := TransitionContractKind.TransitionContractKind.

Definition TransitionContractKind_code (self : TransitionContractKind) : string :=
  match self with
  | TransitionContractKind.Transition => "transition"
  | TransitionContractKind.Stay => "stay"
  | TransitionContractKind.Conditional => "conditional"
  | TransitionContractKind.Delete => "delete"
  | TransitionContractKind.NoOp => "no_op"
  | TransitionContractKind.Ignore => "ignore"
  | TransitionContractKind.Conflict => "conflict"
  end.

Definition ALL_TRANSITION_CONTRACT_KINDS : list TransitionContractKind :=
  [ TransitionContractKind.Transition;
    TransitionContractKind.Stay;
    TransitionContractKind.Conditional;
    TransitionContractKind.Delete;
    TransitionContractKind.NoOp;
    TransitionContractKind.Ignore;
    TransitionContractKind.Conflict ].

#[global] Instance TransitionContractKind_coded : Coded TransitionContractKind.
Proof. refine {| code_of := TransitionContractKind_code; all_of := ALL_TRANSITION_CONTRACT_KINDS |}. by intros []. Defined.
#[global] Instance TransitionContractKind_eq_dec : EqDecision TransitionContractKind := coded_eq_dec.
#[global] Instance TransitionContractKind_countable : Countable TransitionContractKind := coded_countable.

Definition TransitionContractKind_accepts (self : TransitionContractKind) : bool :=
  match self with TransitionContractKind.Conflict => false | _ => true end.

Module TransitionRejection.
Inductive TransitionRejection : Set :=
| Conflict
| HostKeyApprovalRequired.
End TransitionRejection.
Notation TransitionRejection := TransitionRejection.TransitionRejection.

Definition TransitionRejection_code (self : TransitionRejection) : string :=
  match self with
  | TransitionRejection.Conflict => "conflict"
  | TransitionRejection.HostKeyApprovalRequired => "host_key_approval_required"
  end.

Definition ALL_TRANSITION_REJECTIONS : list TransitionRejection :=
  [ TransitionRejection.Conflict;
    TransitionRejection.HostKeyApprovalRequired ].

#[global] Instance TransitionRejection_coded : Coded TransitionRejection.
Proof. refine {| code_of := TransitionRejection_code; all_of := ALL_TRANSITION_REJECTIONS |}. by intros []. Defined.
#[global] Instance TransitionRejection_eq_dec : EqDecision TransitionRejection := coded_eq_dec.
#[global] Instance TransitionRejection_countable : Countable TransitionRejection := coded_countable.

Record TransitionContract : Set := mkTransitionContract {
  ct_kind : TransitionContractKind;
  ct_reason : StateReason;
  ct_targets : list TaskState;
  ct_rejection : option TransitionRejection;
}.
#[global] Instance TransitionContract_eq_dec : EqDecision TransitionContract.
Proof. solve_decision. Defined.

Definition TransitionContract_accepts (self : TransitionContract) : bool :=
  TransitionContractKind_accepts (ct_kind self).

Definition NO_TARGETS : list TaskState := [].
Definition ACCEPTED_TARGET : list TaskState := [TaskState.Accepted].
Definition WAITING_TARGET : list TaskState := [TaskState.Waiting].
Definition WAITING_SLOW_TARGET : list TaskState := [TaskState.WaitingSlow].
Definition ALLOCATING_TARGET : list TaskState := [TaskState.Allocating].
Definition ACTIVE_TARGET : list TaskState := [TaskState.Active].
Definition RETRY_WAIT_TARGET : list TaskState := [TaskState.RetryWait].
Definition PAUSED_TARGET : list TaskState := [TaskState.Paused].
Definition PAUSED_SLOW_TARGET : list TaskState := [TaskState.PausedSlow].
Definition PAUSED_HOST_KEY_TARGET : list TaskState := [TaskState.PausedHostKey].
Definition PAUSED_RESTARTING_TARGET : list TaskState := [TaskState.PausedRestarting].
Definition VERIFYING_TARGET : list TaskState := [TaskState.Verifying].
Definition SEEDING_TARGET : list TaskState := [TaskState.Seeding].
Definition COMPLETE_TARGET : list TaskState := [TaskState.Complete].
Definition ERROR_TARGET : list TaskState := [TaskState.Error].
Definition REMOVED_TARGET : list TaskState := [TaskState.Removed].
Definition STOPPED_RESULT_TARGET : list TaskState := [TaskState.StoppedResult].
Definition SHUTDOWN_RECOVERY_TARGETS : list TaskState := [TaskState.Waiting; TaskState.Paused; TaskState.StoppedResult].

Definition state_target (state : TaskState) : list TaskState :=
  match state with
  | TaskState.Accepted => ACCEPTED_TARGET
  | TaskState.Waiting => WAITING_TARGET
  | TaskState.WaitingSlow => WAITING_SLOW_TARGET
  | TaskState.Allocating => ALLOCATING_TARGET
  | TaskState.Active => ACTIVE_TARGET
  | TaskState.RetryWait => RETRY_WAIT_TARGET
  | TaskState.Paused => PAUSED_TARGET
  | TaskState.PausedSlow => PAUSED_SLOW_TARGET
  | TaskState.PausedHostKey => PAUSED_HOST_KEY_TARGET
  | TaskState.PausedRestarting => PAUSED_RESTARTING_TARGET
  | TaskState.Verifying => VERIFYING_TARGET
  | TaskState.Seeding => SEEDING_TARGET
  | TaskState.Complete => COMPLETE_TARGET
  | TaskState.Error => ERROR_TARGET
  | TaskState.Removed => REMOVED_TARGET
  | TaskState.StoppedResult => STOPPED_RESULT_TARGET
  end.

Definition transition (reason : StateReason) (targets : list TaskState) : TransitionContract :=
  {| ct_kind := TransitionContractKind.Transition; ct_reason := reason;
     ct_targets := targets; ct_rejection := None |}.
Definition stay (state : TaskState) (reason : StateReason) : TransitionContract :=
  {| ct_kind := TransitionContractKind.Stay; ct_reason := reason;
     ct_targets := state_target state; ct_rejection := None |}.
Definition conditional (reason : StateReason) (targets : list TaskState) : TransitionContract :=
  {| ct_kind := TransitionContractKind.Conditional; ct_reason := reason;
     ct_targets := targets; ct_rejection := None |}.
Definition delete_contract (reason : StateReason) : TransitionContract :=
  {| ct_kind := TransitionContractKind.Delete; ct_reason := reason;
     ct_targets := NO_TARGETS; ct_rejection := None |}.
Definition no_op (state : TaskState) : TransitionContract :=
  {| ct_kind := TransitionContractKind.NoOp; ct_reason := StateReason.Idempotent;
     ct_targets := state_target state; ct_rejection := None |}.
Definition ignore (state : TaskState) (reason : StateReason) : TransitionContract :=
  {| ct_kind := TransitionContractKind.Ignore; ct_reason := reason;
     ct_targets := state_target state; ct_rejection := None |}.
Definition conflict : TransitionContract :=
  {| ct_kind := TransitionContractKind.Conflict; ct_reason := StateReason.Conflict;
     ct_targets := NO_TARGETS; ct_rejection := Some TransitionRejection.Conflict |}.
Definition rejected (reason : StateReason) (rejection : TransitionRejection) : TransitionContract :=
  {| ct_kind := TransitionContractKind.Conflict; ct_reason := reason;
     ct_targets := NO_TARGETS; ct_rejection := Some rejection |}.

(** The normative contract of every task state and semantic action. *)
Definition transition_contract (state : TaskState) (action : SchedulerAction) : TransitionContract :=
  match action with
  | SchedulerAction.ValidationSucceeded =>
      match state with
      | TaskState.Accepted => transition StateReason.ValidationSucceeded WAITING_TARGET
      | _ => conflict
      end
  | SchedulerAction.ValidationSucceededPaused =>
      match state with
      | TaskState.Accepted => transition StateReason.ValidationSucceeded PAUSED_TARGET
      | _ => conflict
      end
  | SchedulerAction.ValidationFailed =>
      match state with
      | TaskState.Accepted => transition StateReason.ValidationFailed ERROR_TARGET
      | _ => conflict
      end
  | SchedulerAction.Pause =>
      match state with
      | TaskState.Accepted | TaskState.Waiting | TaskState.WaitingSlow | TaskState.Allocating
      | TaskState.Active | TaskState.RetryWait | TaskState.PausedRestarting
      | TaskState.Verifying | TaskState.Seeding => transition StateReason.UserPause PAUSED_TARGET
      | TaskState.Paused | TaskState.PausedSlow | TaskState.PausedHostKey => 
          stay state StateReason.UserPause
      | TaskState.Complete | TaskState.Error | TaskState.Removed | TaskState.StoppedResult => 
          conflict
      end
  | SchedulerAction.PauseDeferred =>
      match state with
      | TaskState.Waiting | TaskState.WaitingSlow | TaskState.Allocating | TaskState.Active
      | TaskState.RetryWait | TaskState.Paused | TaskState.PausedSlow | TaskState.PausedHostKey
      | TaskState.PausedRestarting | TaskState.Verifying | TaskState.Seeding => 
          stay state StateReason.UserPause
      | TaskState.Accepted | TaskState.Complete | TaskState.Error | TaskState.Removed
      | TaskState.StoppedResult => conflict
      end
  | SchedulerAction.Resume =>
      match state with
      | TaskState.Accepted | TaskState.Waiting | TaskState.Allocating | TaskState.Active
      | TaskState.RetryWait | TaskState.PausedRestarting | TaskState.Verifying
      | TaskState.Seeding => no_op state
      | TaskState.WaitingSlow | TaskState.Paused | TaskState.PausedSlow => 
          transition StateReason.UserResume WAITING_TARGET
      | TaskState.PausedHostKey => 
          rejected StateReason.HostKeyApprovalRequired TransitionRejection.HostKeyApprovalRequired
      | TaskState.Complete | TaskState.Error | TaskState.Removed | TaskState.StoppedResult => 
          conflict
      end
  | SchedulerAction.ResumeDeferred =>
      match state with
      | TaskState.Waiting | TaskState.WaitingSlow | TaskState.Allocating | TaskState.Active
      | TaskState.RetryWait | TaskState.Paused | TaskState.PausedSlow | TaskState.PausedHostKey
      | TaskState.PausedRestarting | TaskState.Verifying | TaskState.Seeding => 
          stay state StateReason.UserResume
      | TaskState.Accepted | TaskState.Complete | TaskState.Error | TaskState.Removed
      | TaskState.StoppedResult => conflict
      end
  | SchedulerAction.Remove =>
      match state with
      | TaskState.Accepted | TaskState.Waiting | TaskState.WaitingSlow | TaskState.Allocating
      | TaskState.Active | TaskState.RetryWait | TaskState.Paused | TaskState.PausedSlow
      | TaskState.PausedHostKey | TaskState.PausedRestarting | TaskState.Verifying
      | TaskState.Seeding => transition StateReason.UserRemove REMOVED_TARGET
      | TaskState.Removed => no_op state
      | TaskState.Complete | TaskState.Error | TaskState.StoppedResult => conflict
      end
  | SchedulerAction.RemoveDeferred =>
      match state with
      | TaskState.Accepted | TaskState.Waiting | TaskState.WaitingSlow | TaskState.Allocating
      | TaskState.Active | TaskState.RetryWait | TaskState.Paused | TaskState.PausedSlow
      | TaskState.PausedHostKey | TaskState.PausedRestarting | TaskState.Verifying
      | TaskState.Seeding => stay state StateReason.UserRemove
      | TaskState.Complete | TaskState.Error | TaskState.Removed | TaskState.StoppedResult => 
          conflict
      end
  | SchedulerAction.SchedulerAdmission =>
      match state with
      | TaskState.Waiting => transition StateReason.SchedulerAdmission ALLOCATING_TARGET
      | _ => conflict
      end
  | SchedulerAction.AdmissionBlocked =>
      match state with
      | TaskState.Waiting => stay state StateReason.AdmissionBlocked
      | _ => conflict
      end
  | SchedulerAction.PlanningFailed =>
      match state with
      | TaskState.Waiting => transition StateReason.PlanningFailed ERROR_TARGET
      | _ => conflict
      end
  | SchedulerAction.InPlaceOptionPatchAccepted =>
      match state with
      | TaskState.Waiting | TaskState.WaitingSlow | TaskState.Allocating | TaskState.Active
      | TaskState.RetryWait | TaskState.Paused | TaskState.PausedSlow | TaskState.PausedHostKey
      | TaskState.PausedRestarting | TaskState.Verifying | TaskState.Seeding => 
          stay state StateReason.OptionPatch
      | _ => conflict
      end
  | SchedulerAction.InPlaceOptionPatchApplied =>
      match state with
      | TaskState.Waiting | TaskState.WaitingSlow | TaskState.Allocating | TaskState.Active
      | TaskState.RetryWait | TaskState.Paused | TaskState.PausedSlow | TaskState.PausedHostKey
      | TaskState.PausedRestarting | TaskState.Verifying | TaskState.Seeding => 
          stay state StateReason.OptionPatch
      | _ => conflict
      end
  | SchedulerAction.InPlaceOptionPatchApplicationFailed =>
      match state with
      | TaskState.Waiting | TaskState.WaitingSlow | TaskState.Allocating | TaskState.Active
      | TaskState.RetryWait | TaskState.Paused | TaskState.PausedSlow | TaskState.PausedHostKey
      | TaskState.PausedRestarting | TaskState.Verifying | TaskState.Seeding => 
          stay state StateReason.OptionPatchApplicationFailed
      | _ => conflict
      end
  | SchedulerAction.CredentialsSatisfied =>
      match state with
      | TaskState.Waiting | TaskState.WaitingSlow | TaskState.RetryWait | TaskState.Paused
      | TaskState.PausedSlow => stay state StateReason.CredentialsSatisfied
      | _ => conflict
      end
  | SchedulerAction.CredentialSatisfactionFailed =>
      match state with
      | TaskState.Waiting | TaskState.WaitingSlow | TaskState.RetryWait | TaskState.Paused
      | TaskState.PausedSlow => stay state StateReason.CredentialUpdateFailed
      | _ => conflict
      end
  | SchedulerAction.ExplicitNoSpaceProbeRequested =>
      match state with
      | TaskState.Waiting | TaskState.RetryWait | TaskState.Paused => 
          stay state StateReason.NoSpaceProbeRequested
      | TaskState.WaitingSlow | TaskState.PausedSlow => 
          transition StateReason.NoSpaceProbeRequested WAITING_TARGET
      | _ => conflict
      end
  | SchedulerAction.WaitingNoSpaceProbeSucceeded =>
      match state with
      | TaskState.Waiting | TaskState.WaitingSlow | TaskState.RetryWait => 
          stay state StateReason.NoSpaceProbeSucceeded
      | _ => conflict
      end
  | SchedulerAction.WaitingNoSpaceProbeFailed =>
      match state with
      | TaskState.Waiting | TaskState.WaitingSlow | TaskState.RetryWait => 
          stay state StateReason.NoSpaceProbeFailed
      | _ => conflict
      end
  | SchedulerAction.PausedNoSpaceResumeProbeSucceeded =>
      match state with
      | TaskState.Paused => transition StateReason.NoSpaceProbeSucceeded WAITING_TARGET
      | _ => conflict
      end
  | SchedulerAction.PausedNoSpaceResumeProbeFailed =>
      match state with
      | TaskState.Paused => transition StateReason.NoSpaceProbeFailed WAITING_TARGET
      | _ => conflict
      end
  | SchedulerAction.PausedNoSpacePausePreservingProbeSucceeded =>
      match state with
      | TaskState.Paused | TaskState.PausedSlow => stay state StateReason.NoSpaceProbeSucceeded
      | _ => conflict
      end
  | SchedulerAction.PausedNoSpacePausePreservingProbeFailed =>
      match state with
      | TaskState.Paused | TaskState.PausedSlow => stay state StateReason.NoSpaceProbeFailed
      | _ => conflict
      end
  | SchedulerAction.GenerationPersistenceSucceeded =>
      match state with
      | TaskState.Allocating => stay state StateReason.GenerationPersistenceSucceeded
      | _ => conflict
      end
  | SchedulerAction.AllocationSucceeded =>
      match state with
      | TaskState.Allocating => transition StateReason.AllocationSucceeded ACTIVE_TARGET
      | _ => conflict
      end
  | SchedulerAction.AllocationRetryableFailure =>
      match state with
      | TaskState.Allocating => transition StateReason.AllocationRetryableFailure RETRY_WAIT_TARGET
      | _ => conflict
      end
  | SchedulerAction.ActiveHostKeyChallengeRequired =>
      match state with
      | TaskState.Active => transition StateReason.HostKeyChallenge PAUSED_HOST_KEY_TARGET
      | _ => conflict
      end
  | SchedulerAction.HostKeyChallengeRequired =>
      match state with
      | TaskState.Allocating => transition StateReason.HostKeyChallenge PAUSED_HOST_KEY_TARGET
      | _ => conflict
      end
  | SchedulerAction.AllocationTerminalFailure =>
      match state with
      | TaskState.Allocating => transition StateReason.AllocationTerminalFailure ERROR_TARGET
      | _ => conflict
      end
  | SchedulerAction.ActiveRestartOptionPatchAccepted =>
      match state with
      | TaskState.Allocating | TaskState.Active | TaskState.Verifying => 
          stay state StateReason.OptionPatch
      | _ => conflict
      end
  | SchedulerAction.SourceReplacementRequested =>
      match state with
      | TaskState.Allocating | TaskState.Active | TaskState.Verifying | TaskState.RetryWait => 
          transition StateReason.SourceReplacement PAUSED_RESTARTING_TARGET
      | TaskState.Waiting | TaskState.Paused => stay state StateReason.SourceReplacement
      | _ => conflict
      end
  | SchedulerAction.SourceReplacementCommitted =>
      match state with
      | TaskState.PausedRestarting => transition StateReason.SourceReplacement WAITING_TARGET
      | TaskState.Waiting | TaskState.Paused => stay state StateReason.SourceReplacement
      | _ => conflict
      end
  | SchedulerAction.ActiveRestartOptionPatchPersisted =>
      match state with
      | TaskState.Allocating | TaskState.Active | TaskState.Verifying => 
          transition StateReason.OptionPatchPersistenceSucceeded PAUSED_RESTARTING_TARGET
      | _ => conflict
      end
  | SchedulerAction.ActiveRestartOptionPatchPersistenceFailed =>
      match state with
      | TaskState.Allocating | TaskState.Active | TaskState.Verifying => 
          stay state StateReason.OptionPatchPersistenceFailed
      | _ => conflict
      end
  | SchedulerAction.LeaseRetryableWithRunnableWork =>
      match state with
      | TaskState.Active => stay state StateReason.LeaseRetry
      | _ => conflict
      end
  | SchedulerAction.LeaseRetryableWithoutRunnableWork =>
      match state with
      | TaskState.Active => transition StateReason.LeaseRetry RETRY_WAIT_TARGET
      | _ => conflict
      end
  | SchedulerAction.RepresentationRestart =>
      match state with
      | TaskState.Active => transition StateReason.RepresentationRestart ALLOCATING_TARGET
      | _ => conflict
      end
  | SchedulerAction.AllRequiredDataReceived =>
      match state with
      | TaskState.Active => transition StateReason.PayloadReceived VERIFYING_TARGET
      | _ => conflict
      end
  | SchedulerAction.BitTorrentPayloadComplete =>
      match state with
      | TaskState.Active => transition StateReason.BitTorrentSeeding SEEDING_TARGET
      | _ => conflict
      end
  | SchedulerAction.SlowSlotDemote =>
      match state with
      | TaskState.Active => transition StateReason.SlowSlotDemotion WAITING_SLOW_TARGET
      | TaskState.WaitingSlow => no_op state
      | _ => conflict
      end
  | SchedulerAction.SlowSlotPause =>
      match state with
      | TaskState.Active => transition StateReason.SlowSlotPause PAUSED_SLOW_TARGET
      | TaskState.PausedSlow => no_op state
      | _ => conflict
      end
  | SchedulerAction.MidTransferNoSpace =>
      match state with
      | TaskState.Active => transition StateReason.NoSpace WAITING_TARGET
      | _ => conflict
      end
  | SchedulerAction.TerminalWorkFailure =>
      match state with
      | TaskState.Active => transition StateReason.TerminalWorkFailure ERROR_TARGET
      | _ => conflict
      end
  | SchedulerAction.RetryReadmissionSucceeded =>
      match state with
      | TaskState.RetryWait => transition StateReason.RetryReadmission ALLOCATING_TARGET
      | _ => conflict
      end
  | SchedulerAction.RetryReadmissionBlocked =>
      match state with
      | TaskState.RetryWait => stay state StateReason.AdmissionBlocked
      | _ => conflict
      end
  | SchedulerAction.RetryExhausted =>
      match state with
      | TaskState.RetryWait => transition StateReason.RetryExhausted ERROR_TARGET
      | _ => conflict
      end
  | SchedulerAction.SlowReadmissionSucceeded =>
      match state with
      | TaskState.WaitingSlow => transition StateReason.SlowReadmission ALLOCATING_TARGET
      | _ => conflict
      end
  | SchedulerAction.SlowReadmissionBlocked =>
      match state with
      | TaskState.WaitingSlow => stay state StateReason.AdmissionBlocked
      | _ => conflict
      end
  | SchedulerAction.ApproveHostKey =>
      match state with
      | TaskState.PausedHostKey => stay state StateReason.HostKeyApproved
      | _ => conflict
      end
  | SchedulerAction.ApplyMatchingHostKeyOption =>
      match state with
      | TaskState.PausedHostKey => stay state StateReason.OptionPatch
      | _ => conflict
      end
  | SchedulerAction.HostKeyResolutionSucceeded =>
      match state with
      | TaskState.PausedHostKey => transition StateReason.HostKeyApproved WAITING_TARGET
      | _ => conflict
      end
  | SchedulerAction.HostKeyResolutionSucceededPreservingPause =>
      match state with
      | TaskState.PausedHostKey => transition StateReason.HostKeyApproved PAUSED_TARGET
      | _ => conflict
      end
  | SchedulerAction.HostKeyResolutionFailed =>
      match state with
      | TaskState.PausedHostKey => stay state StateReason.HostKeyResolutionFailed
      | _ => conflict
      end
  | SchedulerAction.CancellationDrainSucceeded =>
      match state with
      | TaskState.Waiting | TaskState.WaitingSlow | TaskState.Paused | TaskState.PausedSlow
      | TaskState.Error | TaskState.Removed => stay state StateReason.CancellationDrained
      | _ => conflict
      end
  | SchedulerAction.RestartQuiesced =>
      match state with
      | TaskState.PausedRestarting => stay state StateReason.RestartQuiesced
      | _ => conflict
      end
  | SchedulerAction.RestartApplicationScheduled =>
      match state with
      | TaskState.Waiting => stay state StateReason.OptionPatch
      | _ => conflict
      end
  | SchedulerAction.RestartApplicationSucceeded =>
      match state with
      | TaskState.PausedRestarting => 
          transition StateReason.RestartApplicationSucceeded WAITING_TARGET
      | TaskState.Waiting => stay state StateReason.RestartApplicationSucceeded
      | _ => conflict
      end
  | SchedulerAction.RestartApplicationFailed =>
      match state with
      | TaskState.PausedRestarting | TaskState.Waiting => 
          transition StateReason.RestartApplicationFailed ERROR_TARGET
      | _ => conflict
      end
  | SchedulerAction.DeferredPauseCompleted =>
      match state with
      | TaskState.Accepted | TaskState.Waiting | TaskState.WaitingSlow | TaskState.Allocating
      | TaskState.Active | TaskState.RetryWait | TaskState.PausedRestarting
      | TaskState.Verifying | TaskState.Seeding => transition StateReason.UserPause PAUSED_TARGET
      | TaskState.Paused | TaskState.PausedSlow => stay state StateReason.UserPause
      | TaskState.PausedHostKey | TaskState.Complete | TaskState.Error | TaskState.Removed
      | TaskState.StoppedResult => conflict
      end
  | SchedulerAction.DeferredResumeCompleted =>
      match state with
      | TaskState.Paused | TaskState.PausedSlow => transition StateReason.UserResume WAITING_TARGET
      | _ => conflict
      end
  | SchedulerAction.DeferredRemoveCompleted =>
      match state with
      | TaskState.Accepted | TaskState.Waiting | TaskState.WaitingSlow | TaskState.Allocating
      | TaskState.Active | TaskState.RetryWait | TaskState.Paused | TaskState.PausedSlow
      | TaskState.PausedHostKey | TaskState.PausedRestarting | TaskState.Verifying
      | TaskState.Seeding => transition StateReason.UserRemove REMOVED_TARGET
      | TaskState.Complete | TaskState.Error | TaskState.Removed | TaskState.StoppedResult => 
          conflict
      end
  | SchedulerAction.VerificationSucceeded =>
      match state with
      | TaskState.Verifying => transition StateReason.VerificationSucceeded COMPLETE_TARGET
      | _ => conflict
      end
  | SchedulerAction.VerificationRecoverableFailure =>
      match state with
      | TaskState.Verifying => transition StateReason.VerificationRecoverableFailure WAITING_TARGET
      | _ => conflict
      end
  | SchedulerAction.VerificationTerminalFailure =>
      match state with
      | TaskState.Verifying => transition StateReason.VerificationTerminalFailure ERROR_TARGET
      | _ => conflict
      end
  | SchedulerAction.SeedingStopped =>
      match state with
      | TaskState.Seeding => transition StateReason.SeedingStopped COMPLETE_TARGET
      | _ => conflict
      end
  | SchedulerAction.BitTorrentFailure =>
      match state with
      | TaskState.Seeding => transition StateReason.BitTorrentFailure ERROR_TARGET
      | _ => conflict
      end
  | SchedulerAction.TerminalPersistenceSucceeded =>
      match state with
      | TaskState.Complete | TaskState.Error | TaskState.Removed => 
          transition StateReason.TerminalPersistenceSucceeded STOPPED_RESULT_TARGET
      | TaskState.StoppedResult => no_op state
      | _ => conflict
      end
  | SchedulerAction.RemoveStoppedResult =>
      match state with
      | TaskState.StoppedResult => stay state StateReason.StoppedResultRemovalRequested
      | _ => conflict
      end
  | SchedulerAction.StoppedResultDeletionSucceeded =>
      match state with
      | TaskState.StoppedResult => delete_contract StateReason.StoppedResultRemoved
      | _ => conflict
      end
  | SchedulerAction.StoppedResultDeletionFailed =>
      match state with
      | TaskState.StoppedResult => stay state StateReason.StoppedResultRemovalFailed
      | _ => conflict
      end
  | SchedulerAction.OrderlyShutdown =>
      match state with
      | TaskState.Accepted | TaskState.Waiting | TaskState.WaitingSlow | TaskState.Allocating
      | TaskState.Active | TaskState.RetryWait | TaskState.Paused | TaskState.PausedSlow
      | TaskState.PausedHostKey | TaskState.PausedRestarting | TaskState.Verifying
      | TaskState.Seeding => conditional StateReason.OrderlyShutdown SHUTDOWN_RECOVERY_TARGETS
      | TaskState.Complete | TaskState.Error | TaskState.Removed | TaskState.StoppedResult => 
          no_op state
      end
  | SchedulerAction.DuplicateEventIgnored =>
      ignore state StateReason.DuplicateEventIgnored
  | SchedulerAction.StaleEventIgnored =>
      ignore state StateReason.StaleEventIgnored
  end.

(** ** Reasoning over the whole table *)

Lemma contract_forall (P : TaskState -> SchedulerAction -> bool) :
  forallb (fun state => forallb (P state) ALL_SCHEDULER_ACTIONS) ALL_TASK_STATES = true ->
  forall state action, P state action = true.
Proof.
  intros H state action. pose proof (all_of_complete state) as Hs. pose proof (all_of_complete action) as Ha.
  unfold all_of, TaskState_coded, SchedulerAction_coded in Hs, Ha. apply list_elem_of_In in Hs, Ha.
  rewrite forallb_forall in H. specialize (H state Hs). rewrite forallb_forall in H. by apply H.
Qed.

(** Whether a contract moves a task to one of its targets. *)
Definition moves (kind : TransitionContractKind) : bool :=
  match kind with
  | TransitionContractKind.Transition | TransitionContractKind.Stay => true
  | _ => false
  end.
