(* ===== verification/Command.v ===== *)
(** * Commands, events, effects and outcomes

    Model of the payload-carrying types of [crates/ariax-core/src/command.rs]. *)

From S2P Require Import Prelude Ids Errors State Snapshot PersistedDelay CommandKinds Transition.
From Stdlib Require Import Ascii String.
Open Scope list_scope.

Definition MAX_SCHEDULER_EFFECTS : N := 8.
Definition MAX_SCHEDULER_TASKS : N := 100000.

(** ** Configuration *)

Module SlowReadmissionPolicy.
Inductive SlowReadmissionPolicy : Set := Front | OriginalPosition | Back.
End SlowReadmissionPolicy.
Notation SlowReadmissionPolicy := SlowReadmissionPolicy.SlowReadmissionPolicy.
#[global] Instance SlowReadmissionPolicy_eq_dec : EqDecision SlowReadmissionPolicy.
Proof. solve_decision. Defined.

(** [NonZeroUsize] fields are [N]; [SchedulerConfig_new] takes them nonzero. *)
Record SchedulerConfig : Set := mkSchedulerConfig {
  sc_max_tasks : N;
  sc_max_active_tasks : N;
  sc_retry_wait_holds_slot : bool;
  sc_slow_readmission_policy : SlowReadmissionPolicy;
}.
#[global] Instance SchedulerConfig_eq_dec : EqDecision SchedulerConfig.
Proof. solve_decision. Defined.
#[global] Instance SchedulerConfig_eta : Settable SchedulerConfig := fun c =>
  mkSchedulerConfig (sc_max_tasks c) (sc_max_active_tasks c) (sc_retry_wait_holds_slot c)
    (sc_slow_readmission_policy c).
#[global] Instance sc_retry_wait_holds_slot_set : Setter sc_retry_wait_holds_slot.
Proof. derive_setter. Defined.
#[global] Instance sc_slow_readmission_policy_set : Setter sc_slow_readmission_policy.
Proof. derive_setter. Defined.

Module SchedulerConfigError.
Inductive SchedulerConfigError : Set :=
| TaskLimitExceedsPersistenceLimit
| ActiveLimitExceedsTaskLimit.
End SchedulerConfigError.
Notation SchedulerConfigError := SchedulerConfigError.SchedulerConfigError.

Definition SchedulerConfig_new (max_tasks max_active_tasks : N) (retry_wait_holds_slot : bool)
    : result SchedulerConfigError SchedulerConfig :=
  if MAX_SCHEDULER_TASKS <? max_tasks
  then Err SchedulerConfigError.TaskLimitExceedsPersistenceLimit
  else if max_tasks <? max_active_tasks
  then Err SchedulerConfigError.ActiveLimitExceedsTaskLimit
  else Ok {| sc_max_tasks := max_tasks; sc_max_active_tasks := max_active_tasks;
             sc_retry_wait_holds_slot := retry_wait_holds_slot;
             sc_slow_readmission_policy := SlowReadmissionPolicy.OriginalPosition |}.

(** ** Queue orders and slow-slot metadata *)

Record QueueOrder : Set := mkQueueOrder {
  qo_class : QueueClass;
  qo_order : list Gid;
}.
#[global] Instance QueueOrder_eq_dec : EqDecision QueueOrder.
Proof. solve_decision. Defined.

Record SlowReadmissionDecision : Set := mkSlowReadmissionDecision {
  sd_readmit_at : MonotonicInstant;
  sd_scheduled_at_ms : N;
  sd_delay_ms : N;
}.
#[global] Instance SlowReadmissionDecision_eq_dec : EqDecision SlowReadmissionDecision.
Proof. solve_decision. Defined.

Record SlowSlotPersistence : Set := mkSlowSlotPersistence {
  ss_original_position : N;
  ss_demotion_count : N;
  ss_decision : SlowReadmissionDecision;
}.
#[global] Instance SlowSlotPersistence_eq_dec : EqDecision SlowSlotPersistence.
Proof. solve_decision. Defined.

(** ** Barriers *)

Module PendingBarrier.
Inductive PendingBarrier : Set :=
| GenerationPersistence (generation : Generation)
| CancellationDrain (generation : Generation) (target : DrainTarget) (force : bool)
| TerminalPersistence (generation : Generation) (status : Aria2Status)
| OptionPatchPersistence (generation : Generation) (patch_id : OptionPatchId)
| OptionPatchApplication (generation : Generation) (patch_id : OptionPatchId)
| HostKeyResolution (generation : Generation) (resolution_id : HostKeyResolutionId)
    (challenge : HostKeyChallengeId)
| StoppedResultDeletion (generation : Generation) (deletion_id : StoppedResultDeletionId).
End PendingBarrier.
Notation PendingBarrier := PendingBarrier.PendingBarrier.

#[global] Instance PendingBarrier_eq_dec : EqDecision PendingBarrier.
Proof. solve_decision. Defined.

Definition PendingBarrier_code (self : PendingBarrier) : string :=
  match self with
  | PendingBarrier.GenerationPersistence _ => "generation_persistence"
  | PendingBarrier.CancellationDrain _ _ _ => "cancellation_drain"
  | PendingBarrier.TerminalPersistence _ _ => "terminal_persistence"
  | PendingBarrier.OptionPatchPersistence _ _ => "option_patch_persistence"
  | PendingBarrier.OptionPatchApplication _ _ => "option_patch_application"
  | PendingBarrier.HostKeyResolution _ _ _ => "host_key_resolution"
  | PendingBarrier.StoppedResultDeletion _ _ => "stopped_result_deletion"
  end.

(** ** Commands *)

Module ValidatedOptionPatchKind.
Inductive ValidatedOptionPatchKind : Set :=
| InPlace
| ActiveRestart
| MatchingHostKey (challenge : HostKeyChallengeId) (fingerprint_sha256 : HostKeyFingerprint).
End ValidatedOptionPatchKind.
Notation ValidatedOptionPatchKind := ValidatedOptionPatchKind.ValidatedOptionPatchKind.

Definition ValidatedOptionPatchKind_code (self : ValidatedOptionPatchKind) : string :=
  match self with
  | ValidatedOptionPatchKind.InPlace => "in_place"
  | ValidatedOptionPatchKind.ActiveRestart => "active_restart"
  | ValidatedOptionPatchKind.MatchingHostKey _ _ => "matching_host_key"
  end.

Module SchedulerCommand.
Inductive SchedulerCommand : Set :=
| AddValidatedTask (task_id : TaskId) (gid : Gid) (desired_paused : bool)
    (conditions : TaskConditions)
| AddValidatedTaskAt (task_id : TaskId) (gid : Gid) (desired_paused : bool)
    (conditions : TaskConditions) (position : N)
| Pause (gid : Gid) (force : bool)
| Resume (gid : Gid)
| ApproveHostKey (gid : Gid) (challenge : HostKeyChallengeId)
    (fingerprint_sha256 : HostKeyFingerprint)
| ApplyOptionPatch (gid : Gid) (patch_id : OptionPatchId) (kind : ValidatedOptionPatchKind)
    (satisfies_credentials : option CredentialRequirementKey)
| BeginSourceReplacement (gid : Gid)
| CommitSourceReplacement (gid : Gid) (satisfies_credentials : option CredentialRequirementKey)
| Remove (gid : Gid) (force : bool)
| RemoveStoppedResult (gid : Gid)
| ChangePosition (gid : Gid) (position : N)
| OrderlyShutdown.
End SchedulerCommand.
Notation SchedulerCommand := SchedulerCommand.SchedulerCommand.

Definition SchedulerCommand_kind (self : SchedulerCommand) : SchedulerCommandKind :=
  match self with
  | SchedulerCommand.AddValidatedTask _ _ _ _ => SchedulerCommandKind.AddValidatedTask
  | SchedulerCommand.AddValidatedTaskAt _ _ _ _ _ => SchedulerCommandKind.AddValidatedTask
  | SchedulerCommand.Pause _ _ => SchedulerCommandKind.Pause
  | SchedulerCommand.Resume _ => SchedulerCommandKind.Resume
  | SchedulerCommand.ApproveHostKey _ _ _ => SchedulerCommandKind.ApproveHostKey
  | SchedulerCommand.ApplyOptionPatch _ _ _ _ => SchedulerCommandKind.ApplyOptionPatch
  | SchedulerCommand.BeginSourceReplacement _ => SchedulerCommandKind.BeginSourceReplacement
  | SchedulerCommand.CommitSourceReplacement _ _ => SchedulerCommandKind.CommitSourceReplacement
  | SchedulerCommand.Remove _ _ => SchedulerCommandKind.Remove
  | SchedulerCommand.RemoveStoppedResult _ => SchedulerCommandKind.RemoveStoppedResult
  | SchedulerCommand.ChangePosition _ _ => SchedulerCommandKind.ChangePosition
  | SchedulerCommand.OrderlyShutdown => SchedulerCommandKind.OrderlyShutdown
  end.

Definition SchedulerCommand_code (self : SchedulerCommand) : string :=
  SchedulerCommandKind_code (SchedulerCommand_kind self).

(** ** Events *)

Module TaskEventToken.
Inductive TaskEventToken : Set :=
| RetryTimer (id : RetryTimerId)
| SlowReadmission (id : SlowReadmissionId)
| NoSpaceProbe (id : NoSpaceProbeId)
| OptionPatch (id : OptionPatchId)
| HostKeyResolution (id : HostKeyResolutionId)
| StoppedResultDeletion (id : StoppedResultDeletionId).
End TaskEventToken.
Notation TaskEventToken := TaskEventToken.TaskEventToken.

Module TaskEvent.
Inductive TaskEvent : Set :=
| GenerationPersisted (gid : Gid) (generation : Generation)
| OptionPatchPersisted (gid : Gid) (generation : Generation) (patch_id : OptionPatchId)
| OptionPatchPersistenceFailed (gid : Gid) (generation : Generation) (patch_id : OptionPatchId)
| OptionPatchApplied (gid : Gid) (generation : Generation) (patch_id : OptionPatchId)
| OptionPatchApplicationFailed (gid : Gid) (generation : Generation) (patch_id : OptionPatchId)
    (error : PublicError)
| AllocationSucceeded (gid : Gid) (generation : Generation)
| AllocationRetryable (gid : Gid) (generation : Generation) (retry_at : MonotonicInstant)
| ActiveHostKeyChallenge (gid : Gid) (generation : Generation)
    (challenge : PresentedHostKeyChallenge)
| AllocationHostKeyChallenge (gid : Gid) (generation : Generation)
    (challenge : PresentedHostKeyChallenge)
| AllocationFailed (gid : Gid) (generation : Generation) (error : PublicError)
| RetryReady (gid : Gid) (generation : Generation) (retry_timer_id : RetryTimerId)
| ActiveRetryIdle (gid : Gid) (generation : Generation) (retry_at : MonotonicInstant)
| ActiveRepresentationRestart (gid : Gid) (generation : Generation)
| DataComplete (gid : Gid) (generation : Generation) (seed : bool)
| NoSpace (gid : Gid) (generation : Generation) (condition : NoSpaceCondition)
| TerminalFailure (gid : Gid) (generation : Generation) (error : PublicError)
| SlowDemoted (gid : Gid) (generation : Generation) (decision : SlowReadmissionDecision)
| SlowPaused (gid : Gid) (generation : Generation)
| SlowReadmit (gid : Gid) (generation : Generation) (readmission_id : SlowReadmissionId)
| VerificationSucceeded (gid : Gid) (generation : Generation)
| VerificationRecoverable (gid : Gid) (generation : Generation)
| VerificationFailed (gid : Gid) (generation : Generation) (error : PublicError)
| SeedingComplete (gid : Gid) (generation : Generation)
| SeedingFailed (gid : Gid) (generation : Generation) (error : PublicError)
| CancellationDrained (gid : Gid) (generation : Generation)
| NoSpaceProbeCompleted (gid : Gid) (generation : Generation) (probe_id : NoSpaceProbeId)
    (origin : NoSpaceProbeOrigin) (ready : bool) (next_retry_at : option MonotonicInstant)
| TerminalPersisted (gid : Gid) (generation : Generation) (status : Aria2Status)
| HostKeyResolutionPersisted (gid : Gid) (generation : Generation)
    (resolution_id : HostKeyResolutionId)
| HostKeyResolutionFailed (gid : Gid) (generation : Generation)
    (resolution_id : HostKeyResolutionId)
| StoppedResultDeleted (gid : Gid) (generation : Generation) (deletion_id : StoppedResultDeletionId)
| StoppedResultDeletionFailed (gid : Gid) (generation : Generation)
    (deletion_id : StoppedResultDeletionId).
End TaskEvent.
Notation TaskEvent := TaskEvent.TaskEvent.

Record TaskEventEnvelope : Set := mkTaskEventEnvelope {
  te_task_id : TaskId;
  te_event : TaskEvent;
}.
Definition TaskEvent_for_task (self : TaskEvent) (task_id : TaskId) : TaskEventEnvelope :=
  {| te_task_id := task_id; te_event := self |}.

Definition TaskEvent_gid (self : TaskEvent) : Gid :=
  match self with
  | TaskEvent.GenerationPersisted gid _ => gid
  | TaskEvent.OptionPatchPersisted gid _ _ => gid
  | TaskEvent.OptionPatchPersistenceFailed gid _ _ => gid
  | TaskEvent.OptionPatchApplied gid _ _ => gid
  | TaskEvent.OptionPatchApplicationFailed gid _ _ _ => gid
  | TaskEvent.AllocationSucceeded gid _ => gid
  | TaskEvent.AllocationRetryable gid _ _ => gid
  | TaskEvent.ActiveHostKeyChallenge gid _ _ => gid
  | TaskEvent.AllocationHostKeyChallenge gid _ _ => gid
  | TaskEvent.AllocationFailed gid _ _ => gid
  | TaskEvent.RetryReady gid _ _ => gid
  | TaskEvent.ActiveRetryIdle gid _ _ => gid
  | TaskEvent.ActiveRepresentationRestart gid _ => gid
  | TaskEvent.DataComplete gid _ _ => gid
  | TaskEvent.NoSpace gid _ _ => gid
  | TaskEvent.TerminalFailure gid _ _ => gid
  | TaskEvent.SlowDemoted gid _ _ => gid
  | TaskEvent.SlowPaused gid _ => gid
  | TaskEvent.SlowReadmit gid _ _ => gid
  | TaskEvent.VerificationSucceeded gid _ => gid
  | TaskEvent.VerificationRecoverable gid _ => gid
  | TaskEvent.VerificationFailed gid _ _ => gid
  | TaskEvent.SeedingComplete gid _ => gid
  | TaskEvent.SeedingFailed gid _ _ => gid
  | TaskEvent.CancellationDrained gid _ => gid
  | TaskEvent.NoSpaceProbeCompleted gid _ _ _ _ _ => gid
  | TaskEvent.TerminalPersisted gid _ _ => gid
  | TaskEvent.HostKeyResolutionPersisted gid _ _ => gid
  | TaskEvent.HostKeyResolutionFailed gid _ _ => gid
  | TaskEvent.StoppedResultDeleted gid _ _ => gid
  | TaskEvent.StoppedResultDeletionFailed gid _ _ => gid
  end.

Definition TaskEvent_generation (self : TaskEvent) : Generation :=
  match self with
  | TaskEvent.GenerationPersisted _ generation => generation
  | TaskEvent.OptionPatchPersisted _ generation _ => generation
  | TaskEvent.OptionPatchPersistenceFailed _ generation _ => generation
  | TaskEvent.OptionPatchApplied _ generation _ => generation
  | TaskEvent.OptionPatchApplicationFailed _ generation _ _ => generation
  | TaskEvent.AllocationSucceeded _ generation => generation
  | TaskEvent.AllocationRetryable _ generation _ => generation
  | TaskEvent.ActiveHostKeyChallenge _ generation _ => generation
  | TaskEvent.AllocationHostKeyChallenge _ generation _ => generation
  | TaskEvent.AllocationFailed _ generation _ => generation
  | TaskEvent.RetryReady _ generation _ => generation
  | TaskEvent.ActiveRetryIdle _ generation _ => generation
  | TaskEvent.ActiveRepresentationRestart _ generation => generation
  | TaskEvent.DataComplete _ generation _ => generation
  | TaskEvent.NoSpace _ generation _ => generation
  | TaskEvent.TerminalFailure _ generation _ => generation
  | TaskEvent.SlowDemoted _ generation _ => generation
  | TaskEvent.SlowPaused _ generation => generation
  | TaskEvent.SlowReadmit _ generation _ => generation
  | TaskEvent.VerificationSucceeded _ generation => generation
  | TaskEvent.VerificationRecoverable _ generation => generation
  | TaskEvent.VerificationFailed _ generation _ => generation
  | TaskEvent.SeedingComplete _ generation => generation
  | TaskEvent.SeedingFailed _ generation _ => generation
  | TaskEvent.CancellationDrained _ generation => generation
  | TaskEvent.NoSpaceProbeCompleted _ generation _ _ _ _ => generation
  | TaskEvent.TerminalPersisted _ generation _ => generation
  | TaskEvent.HostKeyResolutionPersisted _ generation _ => generation
  | TaskEvent.HostKeyResolutionFailed _ generation _ => generation
  | TaskEvent.StoppedResultDeleted _ generation _ => generation
  | TaskEvent.StoppedResultDeletionFailed _ generation _ => generation
  end.

Definition TaskEvent_kind (self : TaskEvent) : TaskEventKind :=
  match self with
  | TaskEvent.GenerationPersisted _ _ => TaskEventKind.GenerationPersisted
  | TaskEvent.OptionPatchPersisted _ _ _ => TaskEventKind.OptionPatchPersisted
  | TaskEvent.OptionPatchPersistenceFailed _ _ _ => TaskEventKind.OptionPatchPersistenceFailed
  | TaskEvent.OptionPatchApplied _ _ _ => TaskEventKind.OptionPatchApplied
  | TaskEvent.OptionPatchApplicationFailed _ _ _ _ => TaskEventKind.OptionPatchApplicationFailed
  | TaskEvent.AllocationSucceeded _ _ => TaskEventKind.AllocationSucceeded
  | TaskEvent.AllocationRetryable _ _ _ => TaskEventKind.AllocationRetryable
  | TaskEvent.ActiveHostKeyChallenge _ _ _ => TaskEventKind.ActiveHostKeyChallenge
  | TaskEvent.AllocationHostKeyChallenge _ _ _ => TaskEventKind.AllocationHostKeyChallenge
  | TaskEvent.AllocationFailed _ _ _ => TaskEventKind.AllocationFailed
  | TaskEvent.RetryReady _ _ _ => TaskEventKind.RetryReady
  | TaskEvent.ActiveRetryIdle _ _ _ => TaskEventKind.ActiveRetryIdle
  | TaskEvent.ActiveRepresentationRestart _ _ => TaskEventKind.ActiveRepresentationRestart
  | TaskEvent.DataComplete _ _ seed => if seed then TaskEventKind.BitTorrentPayloadComplete else TaskEventKind.DataComplete
  | TaskEvent.NoSpace _ _ _ => TaskEventKind.NoSpace
  | TaskEvent.TerminalFailure _ _ _ => TaskEventKind.TerminalFailure
  | TaskEvent.SlowDemoted _ _ _ => TaskEventKind.SlowDemoted
  | TaskEvent.SlowPaused _ _ => TaskEventKind.SlowPaused
  | TaskEvent.SlowReadmit _ _ _ => TaskEventKind.SlowReadmit
  | TaskEvent.VerificationSucceeded _ _ => TaskEventKind.VerificationSucceeded
  | TaskEvent.VerificationRecoverable _ _ => TaskEventKind.VerificationRecoverable
  | TaskEvent.VerificationFailed _ _ _ => TaskEventKind.VerificationFailed
  | TaskEvent.SeedingComplete _ _ => TaskEventKind.SeedingComplete
  | TaskEvent.SeedingFailed _ _ _ => TaskEventKind.SeedingFailed
  | TaskEvent.CancellationDrained _ _ => TaskEventKind.CancellationDrained
  | TaskEvent.NoSpaceProbeCompleted _ _ _ _ _ _ => TaskEventKind.NoSpaceProbeCompleted
  | TaskEvent.TerminalPersisted _ _ _ => TaskEventKind.TerminalPersisted
  | TaskEvent.HostKeyResolutionPersisted _ _ _ => TaskEventKind.HostKeyResolutionPersisted
  | TaskEvent.HostKeyResolutionFailed _ _ _ => TaskEventKind.HostKeyResolutionFailed
  | TaskEvent.StoppedResultDeleted _ _ _ => TaskEventKind.StoppedResultDeleted
  | TaskEvent.StoppedResultDeletionFailed _ _ _ => TaskEventKind.StoppedResultDeletionFailed
  end.

Definition TaskEvent_code (self : TaskEvent) : string := TaskEventKind_code (TaskEvent_kind self).

Definition TaskEvent_token (self : TaskEvent) : option TaskEventToken :=
  match self with
  | TaskEvent.OptionPatchPersisted _ _ patch_id => Some (TaskEventToken.OptionPatch patch_id)
  | TaskEvent.OptionPatchPersistenceFailed _ _ patch_id => Some (TaskEventToken.OptionPatch patch_id)
  | TaskEvent.OptionPatchApplied _ _ patch_id => Some (TaskEventToken.OptionPatch patch_id)
  | TaskEvent.OptionPatchApplicationFailed _ _ patch_id _ => Some (TaskEventToken.OptionPatch patch_id)
  | TaskEvent.RetryReady _ _ retry_timer_id => Some (TaskEventToken.RetryTimer retry_timer_id)
  | TaskEvent.SlowReadmit _ _ readmission_id => Some (TaskEventToken.SlowReadmission readmission_id)
  | TaskEvent.NoSpaceProbeCompleted _ _ probe_id _ _ _ => Some (TaskEventToken.NoSpaceProbe probe_id)
  | TaskEvent.HostKeyResolutionPersisted _ _ resolution_id => Some (TaskEventToken.HostKeyResolution resolution_id)
  | TaskEvent.HostKeyResolutionFailed _ _ resolution_id => Some (TaskEventToken.HostKeyResolution resolution_id)
  | TaskEvent.StoppedResultDeleted _ _ deletion_id => Some (TaskEventToken.StoppedResultDeletion deletion_id)
  | TaskEvent.StoppedResultDeletionFailed _ _ deletion_id => Some (TaskEventToken.StoppedResultDeletion deletion_id)
  | _ => None
  end.

(** ** Effects *)

Module TransitionEffect.
Inductive TransitionEffect : Set :=
| PersistTask (task_id : TaskId) (gid : Gid) (queue : QueueClass) (position : N)
    (desired_paused : bool) (slow_demotion_count : N) (conditions : TaskConditions)
| PersistQueueTransition (task_id : TaskId) (gid : Gid) (from : option QueueClass)
    (to : option QueueClass) (desired_paused : bool) (slow_demotion_count : N)
    (slow_slot : option SlowSlotPersistence) (orders : list QueueOrder)
| StageOptionPatch (task_id : TaskId) (gid : Gid) (patch_id : OptionPatchId)
    (satisfies_credentials : option CredentialRequirementKey)
| ApplyOptionPatch (task_id : TaskId) (gid : Gid) (patch_id : OptionPatchId)
    (satisfies_credentials : option CredentialRequirementKey)
| PersistGenerationStarted (task_id : TaskId) (gid : Gid) (generation : Generation)
| StartAllocation (task_id : TaskId) (gid : Gid) (generation : Generation)
| CancelGeneration (task_id : TaskId) (gid : Gid) (generation : Generation) (force : bool)
| ReleaseSlot (task_id : TaskId) (gid : Gid) (ownership : SlotOwnership)
| ScheduleRetry (task_id : TaskId) (gid : Gid) (generation : Generation)
    (retry_timer_id : RetryTimerId) (at_ : MonotonicInstant)
| CancelRetry (task_id : TaskId) (gid : Gid) (generation : Generation)
    (retry_timer_id : RetryTimerId)
| ScheduleSlowReadmission (task_id : TaskId) (gid : Gid) (generation : Generation)
    (readmission_id : SlowReadmissionId) (at_ : MonotonicInstant)
| CancelSlowReadmission (task_id : TaskId) (gid : Gid) (generation : Generation)
    (readmission_id : SlowReadmissionId)
| ProbeNoSpace (task_id : TaskId) (gid : Gid) (generation : Generation) (probe_id : NoSpaceProbeId)
    (origin : NoSpaceProbeOrigin) (at_ : MonotonicInstant)
| PersistConditions (task_id : TaskId) (gid : Gid) (conditions : TaskConditions)
| PersistHostKeyChallenge (task_id : TaskId) (gid : Gid) (challenge : PresentedHostKeyChallenge)
| PersistHostKeyPinAndClearChallenge (task_id : TaskId) (gid : Gid)
    (resolution_id : HostKeyResolutionId) (challenge : HostKeyChallengeId)
    (fingerprint_sha256 : HostKeyFingerprint) (presented_public_key : list N)
    (option_patch : option OptionPatchId)
| PersistHostKeyChallengeRejected (task_id : TaskId) (gid : Gid) (challenge : HostKeyChallengeId)
| PersistTerminal (task_id : TaskId) (gid : Gid) (generation : Generation) (status : Aria2Status)
    (error : option PublicError) (from : QueueClass) (to : QueueClass) (desired_paused : bool)
    (slow_demotion_count : N) (slow_slot : option SlowSlotPersistence) (orders : list QueueOrder)
| DeleteStoppedTaskMetadata (task_id : TaskId) (gid : Gid) (deletion_id : StoppedResultDeletionId)
    (remaining_order : list Gid)
| PublishSnapshot (task_id : TaskId) (snapshot : TaskSnapshot).
End TransitionEffect.
Notation TransitionEffect := TransitionEffect.TransitionEffect.

Definition TransitionEffect_kind (self : TransitionEffect) : TransitionEffectKind :=
  match self with
  | TransitionEffect.PersistTask _ _ _ _ _ _ _ => TransitionEffectKind.PersistTask
  | TransitionEffect.PersistQueueTransition _ _ _ _ _ _ _ _ => TransitionEffectKind.PersistQueueTransition
  | TransitionEffect.StageOptionPatch _ _ _ _ => TransitionEffectKind.StageOptionPatch
  | TransitionEffect.ApplyOptionPatch _ _ _ _ => TransitionEffectKind.ApplyOptionPatch
  | TransitionEffect.PersistGenerationStarted _ _ _ => TransitionEffectKind.PersistGenerationStarted
  | TransitionEffect.StartAllocation _ _ _ => TransitionEffectKind.StartAllocation
  | TransitionEffect.CancelGeneration _ _ _ _ => TransitionEffectKind.CancelGeneration
  | TransitionEffect.ReleaseSlot _ _ _ => TransitionEffectKind.ReleaseSlot
  | TransitionEffect.ScheduleRetry _ _ _ _ _ => TransitionEffectKind.ScheduleRetry
  | TransitionEffect.CancelRetry _ _ _ _ => TransitionEffectKind.CancelRetry
  | TransitionEffect.ScheduleSlowReadmission _ _ _ _ _ => TransitionEffectKind.ScheduleSlowReadmission
  | TransitionEffect.CancelSlowReadmission _ _ _ _ => TransitionEffectKind.CancelSlowReadmission
  | TransitionEffect.ProbeNoSpace _ _ _ _ _ _ => TransitionEffectKind.ProbeNoSpace
  | TransitionEffect.PersistConditions _ _ _ => TransitionEffectKind.PersistConditions
  | TransitionEffect.PersistHostKeyChallenge _ _ _ => TransitionEffectKind.PersistHostKeyChallenge
  | TransitionEffect.PersistHostKeyPinAndClearChallenge _ _ _ _ _ _ _ => TransitionEffectKind.PersistHostKeyPinAndClearChallenge
  | TransitionEffect.PersistHostKeyChallengeRejected _ _ _ => TransitionEffectKind.PersistHostKeyChallengeRejected
  | TransitionEffect.PersistTerminal _ _ _ _ _ _ _ _ _ _ _ => TransitionEffectKind.PersistTerminal
  | TransitionEffect.DeleteStoppedTaskMetadata _ _ _ _ => TransitionEffectKind.DeleteStoppedTaskMetadata
  | TransitionEffect.PublishSnapshot _ _ => TransitionEffectKind.PublishSnapshot
  end.

Definition TransitionEffect_task_id (self : TransitionEffect) : TaskId :=
  match self with
  | TransitionEffect.PersistTask task_id _ _ _ _ _ _ => task_id
  | TransitionEffect.PersistQueueTransition task_id _ _ _ _ _ _ _ => task_id
  | TransitionEffect.StageOptionPatch task_id _ _ _ => task_id
  | TransitionEffect.ApplyOptionPatch task_id _ _ _ => task_id
  | TransitionEffect.PersistGenerationStarted task_id _ _ => task_id
  | TransitionEffect.StartAllocation task_id _ _ => task_id
  | TransitionEffect.CancelGeneration task_id _ _ _ => task_id
  | TransitionEffect.ReleaseSlot task_id _ _ => task_id
  | TransitionEffect.ScheduleRetry task_id _ _ _ _ => task_id
  | TransitionEffect.CancelRetry task_id _ _ _ => task_id
  | TransitionEffect.ScheduleSlowReadmission task_id _ _ _ _ => task_id
  | TransitionEffect.CancelSlowReadmission task_id _ _ _ => task_id
  | TransitionEffect.ProbeNoSpace task_id _ _ _ _ _ => task_id
  | TransitionEffect.PersistConditions task_id _ _ => task_id
  | TransitionEffect.PersistHostKeyChallenge task_id _ _ => task_id
  | TransitionEffect.PersistHostKeyPinAndClearChallenge task_id _ _ _ _ _ _ => task_id
  | TransitionEffect.PersistHostKeyChallengeRejected task_id _ _ => task_id
  | TransitionEffect.PersistTerminal task_id _ _ _ _ _ _ _ _ _ _ => task_id
  | TransitionEffect.DeleteStoppedTaskMetadata task_id _ _ _ => task_id
  | TransitionEffect.PublishSnapshot task_id _ => task_id
  end.

Definition TransitionEffect_gid (self : TransitionEffect) : Gid :=
  match self with
  | TransitionEffect.PersistTask _ gid _ _ _ _ _ => gid
  | TransitionEffect.PersistQueueTransition _ gid _ _ _ _ _ _ => gid
  | TransitionEffect.StageOptionPatch _ gid _ _ => gid
  | TransitionEffect.ApplyOptionPatch _ gid _ _ => gid
  | TransitionEffect.PersistGenerationStarted _ gid _ => gid
  | TransitionEffect.StartAllocation _ gid _ => gid
  | TransitionEffect.CancelGeneration _ gid _ _ => gid
  | TransitionEffect.ReleaseSlot _ gid _ => gid
  | TransitionEffect.ScheduleRetry _ gid _ _ _ => gid
  | TransitionEffect.CancelRetry _ gid _ _ => gid
  | TransitionEffect.ScheduleSlowReadmission _ gid _ _ _ => gid
  | TransitionEffect.CancelSlowReadmission _ gid _ _ => gid
  | TransitionEffect.ProbeNoSpace _ gid _ _ _ _ => gid
  | TransitionEffect.PersistConditions _ gid _ => gid
  | TransitionEffect.PersistHostKeyChallenge _ gid _ => gid
  | TransitionEffect.PersistHostKeyPinAndClearChallenge _ gid _ _ _ _ _ => gid
  | TransitionEffect.PersistHostKeyChallengeRejected _ gid _ => gid
  | TransitionEffect.PersistTerminal _ gid _ _ _ _ _ _ _ _ _ => gid
  | TransitionEffect.DeleteStoppedTaskMetadata _ gid _ _ => gid
  | TransitionEffect.PublishSnapshot _ snapshot => sn_gid snapshot
  end.

Definition TransitionEffect_generation (self : TransitionEffect) : option Generation :=
  match self with
  | TransitionEffect.PersistTask _ _ _ _ _ _ _ => None
  | TransitionEffect.PersistQueueTransition _ _ _ _ _ _ _ _ => None
  | TransitionEffect.StageOptionPatch _ _ _ _ => None
  | TransitionEffect.ApplyOptionPatch _ _ _ _ => None
  | TransitionEffect.PersistGenerationStarted _ _ generation => Some generation
  | TransitionEffect.StartAllocation _ _ generation => Some generation
  | TransitionEffect.CancelGeneration _ _ generation _ => Some generation
  | TransitionEffect.ReleaseSlot _ _ _ => None
  | TransitionEffect.ScheduleRetry _ _ generation _ _ => Some generation
  | TransitionEffect.CancelRetry _ _ generation _ => Some generation
  | TransitionEffect.ScheduleSlowReadmission _ _ generation _ _ => Some generation
  | TransitionEffect.CancelSlowReadmission _ _ generation _ => Some generation
  | TransitionEffect.ProbeNoSpace _ _ generation _ _ _ => Some generation
  | TransitionEffect.PersistConditions _ _ _ => None
  | TransitionEffect.PersistHostKeyChallenge _ _ _ => None
  | TransitionEffect.PersistHostKeyPinAndClearChallenge _ _ _ _ _ _ _ => None
  | TransitionEffect.PersistHostKeyChallengeRejected _ _ _ => None
  | TransitionEffect.PersistTerminal _ _ generation _ _ _ _ _ _ _ _ => Some generation
  | TransitionEffect.DeleteStoppedTaskMetadata _ _ _ _ => None
  | TransitionEffect.PublishSnapshot _ snapshot => Some (sn_generation snapshot)
  end.

Definition TransitionEffect_token (self : TransitionEffect) : option TaskEventToken :=
  match self with
  | TransitionEffect.PersistTask _ _ _ _ _ _ _ => None
  | TransitionEffect.PersistQueueTransition _ _ _ _ _ _ _ _ => None
  | TransitionEffect.StageOptionPatch _ _ patch_id _ => Some (TaskEventToken.OptionPatch patch_id)
  | TransitionEffect.ApplyOptionPatch _ _ patch_id _ => Some (TaskEventToken.OptionPatch patch_id)
  | TransitionEffect.PersistGenerationStarted _ _ _ => None
  | TransitionEffect.StartAllocation _ _ _ => None
  | TransitionEffect.CancelGeneration _ _ _ _ => None
  | TransitionEffect.ReleaseSlot _ _ _ => None
  | TransitionEffect.ScheduleRetry _ _ _ retry_timer_id _ => Some (TaskEventToken.RetryTimer retry_timer_id)
  | TransitionEffect.CancelRetry _ _ _ retry_timer_id => Some (TaskEventToken.RetryTimer retry_timer_id)
  | TransitionEffect.ScheduleSlowReadmission _ _ _ readmission_id _ => Some (TaskEventToken.SlowReadmission readmission_id)
  | TransitionEffect.CancelSlowReadmission _ _ _ readmission_id => Some (TaskEventToken.SlowReadmission readmission_id)
  | TransitionEffect.ProbeNoSpace _ _ _ probe_id _ _ => Some (TaskEventToken.NoSpaceProbe probe_id)
  | TransitionEffect.PersistConditions _ _ _ => None
  | TransitionEffect.PersistHostKeyChallenge _ _ _ => None
  | TransitionEffect.PersistHostKeyPinAndClearChallenge _ _ resolution_id _ _ _ _ => Some (TaskEventToken.HostKeyResolution resolution_id)
  | TransitionEffect.PersistHostKeyChallengeRejected _ _ _ => None
  | TransitionEffect.PersistTerminal _ _ _ _ _ _ _ _ _ _ _ => None
  | TransitionEffect.DeleteStoppedTaskMetadata _ _ deletion_id _ => Some (TaskEventToken.StoppedResultDeletion deletion_id)
  | TransitionEffect.PublishSnapshot _ _ => None
  end.

Record TransitionEffectIdentity : Set := mkTransitionEffectIdentity {
  ei_task_id : TaskId;
  ei_gid : Gid;
  ei_kind : TransitionEffectKind;
  ei_generation : option Generation;
  ei_token : option TaskEventToken;
}.

Definition TransitionEffect_identity (self : TransitionEffect) : TransitionEffectIdentity :=
  {| ei_task_id := TransitionEffect_task_id self; ei_gid := TransitionEffect_gid self;
     ei_kind := TransitionEffect_kind self; ei_generation := TransitionEffect_generation self;
     ei_token := TransitionEffect_token self |}.

(** ** Errors and outcomes *)

Module SchedulerError.
Inductive SchedulerError : Set :=
| TaskLimitReached
| GidCollision
| TaskIdCollision
| OptionPatchIdCollision
| TaskNotFound
| ActiveLimitReached
| NoEligibleTask
| InvalidPosition (position : N) (queue_len : N)
| StaleGeneration (expected : Generation) (actual : Generation)
| Conflict (state : TaskState) (operation : string)
| PendingBarrier (barrier : PendingBarrier) (operation : string)
| GenerationExhausted
| HostKeyApprovalRequired
| StaleChallenge
| StaleCredentialRequirement
| InvalidTaskConditions
| InvalidSlowReadmissionDecision
| InvalidTerminalAcknowledgement
| ShutdownBatchRequired
| EffectLimitExceeded
| InternalInvariant.
End SchedulerError.
Notation SchedulerError := SchedulerError.SchedulerError.

Record SchedulerOutcome : Set := mkSchedulerOutcome {
  o_transition : option StateTransition;
  o_deletion : option TaskDeletion;
  o_effects : list TransitionEffect;
}.
Definition SchedulerOutcome_default : SchedulerOutcome :=
  {| o_transition := None; o_deletion := None; o_effects := [] |}.

Definition SchedulerOutcome_checked (transition : option StateTransition)
    (deletion : option TaskDeletion) (effects : list TransitionEffect)
    : result SchedulerError SchedulerOutcome :=
  if MAX_SCHEDULER_EFFECTS <? vec_len effects then Err SchedulerError.EffectLimitExceeded
  else Ok {| o_transition := transition; o_deletion := deletion; o_effects := effects |}.

Definition SchedulerOutcome_is_noop (self : SchedulerOutcome) : bool :=
  is_none (o_transition self) && is_none (o_deletion self) &&
  match o_effects self with [] => true | _ => false end.
