(* ===== verification/Scheduler.v ===== *)
(** * Scheduler state and shared planning steps

    Model of the data types of [crates/ariax-core/src/scheduler.rs] and of the
    steps every handler shares: target selection, queue updates, slot release,
    timer cancellation, cancellation and terminal barriers, admission planning
    and the atomic commit [finish_action].

    A method that takes [&mut self] is a computation of the monad [Sched]: it
    maps the scheduler to the scheduler it leaves behind, also when it fails,
    and a result.  A method that takes [&self] is a function of the scheduler.
    A helper that takes [&mut ScheduledTask] or [&mut Vec<TransitionEffect>]
    returns the updated values. *)

From S2P Require Import Prelude Ids Errors State Snapshot PersistedDelay CommandKinds Transition Command.
From Stdlib Require Import Ascii String.
Open Scope list_scope.

(** ** Tasks *)

Module PendingOptionPatchMode.
Inductive PendingOptionPatchMode : Set := InPlace | ActiveRestart | MatchingHostKey.
End PendingOptionPatchMode.
Notation PendingOptionPatchMode := PendingOptionPatchMode.PendingOptionPatchMode.
#[global] Instance PendingOptionPatchMode_eq_dec : EqDecision PendingOptionPatchMode.
Proof. solve_decision. Defined.

Module PendingUserControl.
Inductive PendingUserControl : Set := Pause (force : bool) | Resume | Remove (force : bool).
End PendingUserControl.
Notation PendingUserControl := PendingUserControl.PendingUserControl.
#[global] Instance PendingUserControl_eq_dec : EqDecision PendingUserControl.
Proof. solve_decision. Defined.

#[projections(primitive)] Record ScheduledTask : Set := mkScheduledTask {
  t_task_id : TaskId;
  t_gid : Gid;
  t_state : TaskState;
  t_generation : Generation;
  t_generation_started : bool;
  t_desired_paused : bool;
  t_conditions : TaskConditions;
  t_slot : SlotOwnership;
  t_pending_barrier : option PendingBarrier;
  t_retry_timer : option (RetryTimerId * MonotonicInstant);
  t_retry_ready : bool;
  t_slow_readmission : option (SlowReadmissionId * MonotonicInstant);
  t_slow_readmission_ready : bool;
  t_pending_slow_readmission : option SlowReadmissionDecision;
  t_slow_demotion_count : N;
  t_slow_slot : option SlowSlotPersistence;
  t_slow_remaining_position : N;
  t_no_space_probe : option (NoSpaceProbeId * NoSpaceProbeOrigin);
  t_pending_option_patch : option OptionPatchId;
  t_pending_option_patch_mode : option PendingOptionPatchMode;
  t_pending_credential_requirement : option CredentialRequirementKey;
  t_pending_user_control : option PendingUserControl;
  t_pending_source_replacement : bool;
  t_host_key_challenge : option PresentedHostKeyChallenge;
  t_error : option PublicError;
  t_stopped_status : option Aria2Status;
  t_terminal_persisted : bool;
  t_seen_events : gset TaskEventKind;
  t_last_retry_timer : option RetryTimerId;
  t_last_slow_readmission : option SlowReadmissionId;
  t_last_no_space_probe : option NoSpaceProbeId;
  t_highest_option_patch_id : option OptionPatchId;
  t_last_option_patch_persistence : option OptionPatchId;
  t_last_option_patch_application : option OptionPatchId;
  t_last_host_key_resolution : option HostKeyResolutionId;
  t_last_stopped_deletion : option StoppedResultDeletionId;
}.
#[global] Instance ScheduledTask_eq_dec : EqDecision ScheduledTask.
Proof. solve_decision. Defined.
#[global] Instance ScheduledTask_eta : Settable ScheduledTask := fun r => mkScheduledTask
  (t_task_id r) (t_gid r) (t_state r) (t_generation r) (t_generation_started r)
  (t_desired_paused r) (t_conditions r) (t_slot r) (t_pending_barrier r) (t_retry_timer r)
  (t_retry_ready r) (t_slow_readmission r) (t_slow_readmission_ready r)
  (t_pending_slow_readmission r) (t_slow_demotion_count r) (t_slow_slot r)
  (t_slow_remaining_position r) (t_no_space_probe r) (t_pending_option_patch r)
  (t_pending_option_patch_mode r) (t_pending_credential_requirement r) (t_pending_user_control r)
  (t_pending_source_replacement r) (t_host_key_challenge r) (t_error r) (t_stopped_status r)
  (t_terminal_persisted r) (t_seen_events r) (t_last_retry_timer r) (t_last_slow_readmission r)
  (t_last_no_space_probe r) (t_highest_option_patch_id r) (t_last_option_patch_persistence r)
  (t_last_option_patch_application r) (t_last_host_key_resolution r) (t_last_stopped_deletion r).
#[global] Instance t_task_id_set : Setter t_task_id. Proof. derive_setter. Defined.
#[global] Instance t_gid_set : Setter t_gid. Proof. derive_setter. Defined.
#[global] Instance t_state_set : Setter t_state. Proof. derive_setter. Defined.
#[global] Instance t_generation_set : Setter t_generation. Proof. derive_setter. Defined.
#[global] Instance t_generation_started_set : Setter t_generation_started. Proof. derive_setter. Defined.
#[global] Instance t_desired_paused_set : Setter t_desired_paused. Proof. derive_setter. Defined.
#[global] Instance t_conditions_set : Setter t_conditions. Proof. derive_setter. Defined.
#[global] Instance t_slot_set : Setter t_slot. Proof. derive_setter. Defined.
#[global] Instance t_pending_barrier_set : Setter t_pending_barrier. Proof. derive_setter. Defined.
#[global] Instance t_retry_timer_set : Setter t_retry_timer. Proof. derive_setter. Defined.
#[global] Instance t_retry_ready_set : Setter t_retry_ready. Proof. derive_setter. Defined.
#[global] Instance t_slow_readmission_set : Setter t_slow_readmission. Proof. derive_setter. Defined.
#[global] Instance t_slow_readmission_ready_set : Setter t_slow_readmission_ready. Proof. derive_setter. Defined.
#[global] Instance t_pending_slow_readmission_set : Setter t_pending_slow_readmission. Proof. derive_setter. Defined.
#[global] Instance t_slow_demotion_count_set : Setter t_slow_demotion_count. Proof. derive_setter. Defined.
#[global] Instance t_slow_slot_set : Setter t_slow_slot. Proof. derive_setter. Defined.
#[global] Instance t_slow_remaining_position_set : Setter t_slow_remaining_position. Proof. derive_setter. Defined.
#[global] Instance t_no_space_probe_set : Setter t_no_space_probe. Proof. derive_setter. Defined.
#[global] Instance t_pending_option_patch_set : Setter t_pending_option_patch. Proof. derive_setter. Defined.
#[global] Instance t_pending_option_patch_mode_set : Setter t_pending_option_patch_mode. Proof. derive_setter. Defined.
#[global] Instance t_pending_credential_requirement_set : Setter t_pending_credential_requirement. Proof. derive_setter. Defined.
#[global] Instance t_pending_user_control_set : Setter t_pending_user_control. Proof. derive_setter. Defined.
#[global] Instance t_pending_source_replacement_set : Setter t_pending_source_replacement. Proof. derive_setter. Defined.
#[global] Instance t_host_key_challenge_set : Setter t_host_key_challenge. Proof. derive_setter. Defined.
#[global] Instance t_error_set : Setter t_error. Proof. derive_setter. Defined.
#[global] Instance t_stopped_status_set : Setter t_stopped_status. Proof. derive_setter. Defined.
#[global] Instance t_terminal_persisted_set : Setter t_terminal_persisted. Proof. derive_setter. Defined.
#[global] Instance t_seen_events_set : Setter t_seen_events. Proof. derive_setter. Defined.
#[global] Instance t_last_retry_timer_set : Setter t_last_retry_timer. Proof. derive_setter. Defined.
#[global] Instance t_last_slow_readmission_set : Setter t_last_slow_readmission. Proof. derive_setter. Defined.
#[global] Instance t_last_no_space_probe_set : Setter t_last_no_space_probe. Proof. derive_setter. Defined.
#[global] Instance t_highest_option_patch_id_set : Setter t_highest_option_patch_id. Proof. derive_setter. Defined.
#[global] Instance t_last_option_patch_persistence_set : Setter t_last_option_patch_persistence. Proof. derive_setter. Defined.
#[global] Instance t_last_option_patch_application_set : Setter t_last_option_patch_application. Proof. derive_setter. Defined.
#[global] Instance t_last_host_key_resolution_set : Setter t_last_host_key_resolution. Proof. derive_setter. Defined.
#[global] Instance t_last_stopped_deletion_set : Setter t_last_stopped_deletion. Proof. derive_setter. Defined.

(** Evaluates reads of ScheduledTask fields through updates. *)
Ltac eval_task a :=
  eval cbn [set t_task_id t_task_id_set t_gid t_gid_set t_state t_state_set
      t_generation t_generation_set t_generation_started t_generation_started_set t_desired_paused
      t_desired_paused_set t_conditions t_conditions_set t_slot t_slot_set t_pending_barrier
      t_pending_barrier_set t_retry_timer t_retry_timer_set t_retry_ready t_retry_ready_set
      t_slow_readmission t_slow_readmission_set t_slow_readmission_ready
      t_slow_readmission_ready_set t_pending_slow_readmission t_pending_slow_readmission_set
      t_slow_demotion_count t_slow_demotion_count_set t_slow_slot t_slow_slot_set
      t_slow_remaining_position t_slow_remaining_position_set t_no_space_probe
      t_no_space_probe_set t_pending_option_patch t_pending_option_patch_set
      t_pending_option_patch_mode t_pending_option_patch_mode_set t_pending_credential_requirement
      t_pending_credential_requirement_set t_pending_user_control t_pending_user_control_set
      t_pending_source_replacement t_pending_source_replacement_set t_host_key_challenge
      t_host_key_challenge_set t_error t_error_set t_stopped_status t_stopped_status_set
      t_terminal_persisted t_terminal_persisted_set t_seen_events t_seen_events_set
      t_last_retry_timer t_last_retry_timer_set t_last_slow_readmission
      t_last_slow_readmission_set t_last_no_space_probe t_last_no_space_probe_set
      t_highest_option_patch_id t_highest_option_patch_id_set t_last_option_patch_persistence
      t_last_option_patch_persistence_set t_last_option_patch_application
      t_last_option_patch_application_set t_last_host_key_resolution
      t_last_host_key_resolution_set t_last_stopped_deletion t_last_stopped_deletion_set] in a.
Ltac simpl_task :=
  repeat match goal with
  | |- context [?p (@set ScheduledTask ?T ?q ?i ?h ?r)] =>
      let _ := constr:(_ : Setter p) in
      let b := eval_task (p (@set ScheduledTask T q i h r)) in
      change (p (@set ScheduledTask T q i h r)) with b
  | H : context [?p (@set ScheduledTask ?T ?q ?i ?h ?r)] |- _ =>
      let _ := constr:(_ : Setter p) in
      let b := eval_task (p (@set ScheduledTask T q i h r)) in
      change (p (@set ScheduledTask T q i h r)) with b in H
  end.

#[global] Instance TaskConditions_eta : Settable TaskConditions := fun r =>
  mkTaskConditions (tc_needs_credentials r) (tc_no_space r).
#[global] Instance tc_needs_credentials_set : Setter tc_needs_credentials. Proof. derive_setter. Defined.
#[global] Instance tc_no_space_set : Setter tc_no_space. Proof. derive_setter. Defined.
#[global] Instance NoSpaceCondition_eta : Settable NoSpaceCondition := fun r =>
  mkNoSpaceCondition (ns_redacted_path r) (ns_retry_at r).
#[global] Instance ns_retry_at_set : Setter ns_retry_at. Proof. derive_setter. Defined.

Record SchedulerTaskView : Set := mkSchedulerTaskView {
  v_task_id : TaskId;
  v_gid : Gid;
  v_state : TaskState;
  v_generation : Generation;
  v_queue : option QueueClass;
  v_slot : SlotOwnership;
  v_desired_paused : bool;
  v_conditions : TaskConditionsSnapshot;
  v_pending_barrier : option PendingBarrier;
  v_retry_timer : option RetryTimerId;
  v_slow_readmission : option SlowReadmissionId;
  v_slow_demotion_count : N;
  v_slow_slot : option SlowSlotPersistence;
  v_no_space_probe : option NoSpaceProbeId;
  v_pending_option_patch : option OptionPatchId;
  v_pending_option_patch_mode : option PendingOptionPatchMode;
  v_pending_credential_requirement : option CredentialRequirementKey;
  v_pending_user_control : option PendingUserControl;
  v_pending_source_replacement : bool;
}.
#[global] Instance SchedulerTaskView_eq_dec : EqDecision SchedulerTaskView.
Proof. solve_decision. Defined.

Definition ScheduledTask_new (task_id : TaskId) (gid : Gid) (desired_paused : bool)
    (conditions : TaskConditions) : ScheduledTask :=
  {| t_task_id := task_id;
     t_gid := gid;
     t_state := TaskState.Accepted;
     t_generation := Generation_INITIAL;
     t_generation_started := false;
     t_desired_paused := desired_paused;
     t_conditions := conditions;
     t_slot := SlotOwnership.None;
     t_pending_barrier := None;
     t_retry_timer := None;
     t_retry_ready := false;
     t_slow_readmission := None;
     t_slow_readmission_ready := false;
     t_pending_slow_readmission := None;
     t_slow_demotion_count := 0;
     t_slow_slot := None;
     t_slow_remaining_position := 0;
     t_no_space_probe := None;
     t_pending_option_patch := None;
     t_pending_option_patch_mode := None;
     t_pending_credential_requirement := None;
     t_pending_user_control := None;
     t_pending_source_replacement := false;
     t_host_key_challenge := None;
     t_error := None;
     t_stopped_status := None;
     t_terminal_persisted := false;
     t_seen_events := ∅;
     t_last_retry_timer := None;
     t_last_slow_readmission := None;
     t_last_no_space_probe := None;
     t_highest_option_patch_id := None;
     t_last_option_patch_persistence := None;
     t_last_option_patch_application := None;
     t_last_host_key_resolution := None;
     t_last_stopped_deletion := None |}.

Definition ScheduledTask_queue_class (self : ScheduledTask) : option QueueClass :=
  match t_state self with
  | TaskState.Accepted | TaskState.Waiting => Some QueueClass.Waiting
  | TaskState.WaitingSlow => Some QueueClass.Demoted
  | TaskState.Allocating | TaskState.Active | TaskState.Verifying | TaskState.Seeding =>
      Some QueueClass.Active
  | TaskState.RetryWait =>
      Some (if SlotOwnership_owns_slot (t_slot self) then QueueClass.Active else QueueClass.Waiting)
  | TaskState.Paused | TaskState.PausedSlow | TaskState.PausedHostKey => Some QueueClass.Paused
  | TaskState.PausedRestarting =>
      Some (if SlotOwnership_owns_slot (t_slot self) then QueueClass.Active else QueueClass.Waiting)
  | TaskState.Complete | TaskState.Error | TaskState.Removed =>
      match t_pending_barrier self with
      | Some (PendingBarrier.TerminalPersistence _ _) => Some QueueClass.Stopped
      | _ => if SlotOwnership_owns_slot (t_slot self) then Some QueueClass.Active else None
      end
  | TaskState.StoppedResult => Some QueueClass.Stopped
  end.

Definition ScheduledTask_snapshot (self : ScheduledTask) (retry_wait_holds_slot : bool)
    : result SchedulerError TaskSnapshot :=
  let snapshot :=
    {| sn_gid := t_gid self;
       sn_state := t_state self;
       sn_generation := t_generation self;
       sn_total_length := None;
       sn_completed_length := 0;
       sn_durable_length := 0;
       sn_current_speed := 0;
       sn_average_speed := 0;
       sn_active_leases := 0;
       sn_retry_wait_leases := 0;
       sn_retry_wait_until := snd <$> t_retry_timer self;
       sn_last_progress_at := None;
       sn_conditions := TaskConditions_snapshot (t_conditions self);
       sn_desired_paused := t_desired_paused self;
       sn_retry_wait_holds_slot :=
         retry_wait_holds_slot && (t_slot self == SlotOwnership.RetryRetained);
       sn_stopped_status := t_stopped_status self;
       sn_host_key_challenge := ph_summary <$> t_host_key_challenge self;
       sn_error := t_error self;
       sn_terminal_persisted := t_terminal_persisted self |} in
  _ ← map_err (fun _ => SchedulerError.InternalInvariant) (TaskSnapshot_validate snapshot);
  Ok snapshot.

Definition ScheduledTask_view (self : ScheduledTask) : SchedulerTaskView :=
  {| v_task_id := t_task_id self;
     v_gid := t_gid self;
     v_state := t_state self;
     v_generation := t_generation self;
     v_queue := ScheduledTask_queue_class self;
     v_slot := t_slot self;
     v_desired_paused := t_desired_paused self;
     v_conditions := TaskConditions_snapshot (t_conditions self);
     v_pending_barrier := t_pending_barrier self;
     v_retry_timer := fst <$> t_retry_timer self;
     v_slow_readmission := fst <$> t_slow_readmission self;
     v_slow_demotion_count := t_slow_demotion_count self;
     v_slow_slot := t_slow_slot self;
     v_no_space_probe := fst <$> t_no_space_probe self;
     v_pending_option_patch := t_pending_option_patch self;
     v_pending_option_patch_mode := t_pending_option_patch_mode self;
     v_pending_credential_requirement := t_pending_credential_requirement self;
     v_pending_user_control := t_pending_user_control self;
     v_pending_source_replacement := t_pending_source_replacement self |}.

Definition ScheduledTask_clear_generation_event_history (self : ScheduledTask) : ScheduledTask :=
  self <| t_seen_events := ∅ |>
       <| t_last_retry_timer := None |>
       <| t_last_slow_readmission := None |>
       <| t_last_no_space_probe := None |>
       <| t_last_option_patch_persistence := None |>
       <| t_last_option_patch_application := None |>
       <| t_last_host_key_resolution := None |>
       <| t_slow_slot := None |>.

(** ** Queues and identifier counters *)

Record SchedulerQueues : Set := mkSchedulerQueues {
  q_waiting : list Gid;
  q_demoted : list Gid;
  q_paused : list Gid;
  q_active : list Gid;
  q_stopped : list Gid;
}.
#[global] Instance SchedulerQueues_eq_dec : EqDecision SchedulerQueues.
Proof. solve_decision. Defined.
#[global] Instance SchedulerQueues_eta : Settable SchedulerQueues := fun r => mkSchedulerQueues
  (q_waiting r) (q_demoted r) (q_paused r) (q_active r) (q_stopped r).
#[global] Instance q_waiting_set : Setter q_waiting. Proof. derive_setter. Defined.
#[global] Instance q_demoted_set : Setter q_demoted. Proof. derive_setter. Defined.
#[global] Instance q_paused_set : Setter q_paused. Proof. derive_setter. Defined.
#[global] Instance q_active_set : Setter q_active. Proof. derive_setter. Defined.
#[global] Instance q_stopped_set : Setter q_stopped. Proof. derive_setter. Defined.
Definition SchedulerQueues_default : SchedulerQueues := mkSchedulerQueues [] [] [] [] [].

Definition SchedulerQueues_get (self : SchedulerQueues) (class : QueueClass) : list Gid :=
  match class with
  | QueueClass.Waiting => q_waiting self
  | QueueClass.Demoted => q_demoted self
  | QueueClass.Paused => q_paused self
  | QueueClass.Active => q_active self
  | QueueClass.Stopped => q_stopped self
  end.

(** [*self.get_mut(class) = order]. *)
Definition SchedulerQueues_put (self : SchedulerQueues) (class : QueueClass) (order : list Gid)
    : SchedulerQueues :=
  match class with
  | QueueClass.Waiting => self <| q_waiting := order |>
  | QueueClass.Demoted => self <| q_demoted := order |>
  | QueueClass.Paused => self <| q_paused := order |>
  | QueueClass.Active => self <| q_active := order |>
  | QueueClass.Stopped => self <| q_stopped := order |>
  end.

Record IdCounters : Set := mkIdCounters {
  ic_retry_timer : N;
  ic_slow_readmission : N;
  ic_no_space_probe : N;
  ic_host_key_resolution : N;
  ic_stopped_deletion : N;
}.
#[global] Instance IdCounters_eq_dec : EqDecision IdCounters.
Proof. solve_decision. Defined.
#[global] Instance IdCounters_eta : Settable IdCounters := fun r => mkIdCounters
  (ic_retry_timer r) (ic_slow_readmission r) (ic_no_space_probe r) (ic_host_key_resolution r)
  (ic_stopped_deletion r).
#[global] Instance ic_retry_timer_set : Setter ic_retry_timer. Proof. derive_setter. Defined.
#[global] Instance ic_slow_readmission_set : Setter ic_slow_readmission. Proof. derive_setter. Defined.
#[global] Instance ic_no_space_probe_set : Setter ic_no_space_probe. Proof. derive_setter. Defined.
#[global] Instance ic_host_key_resolution_set : Setter ic_host_key_resolution. Proof. derive_setter. Defined.
#[global] Instance ic_stopped_deletion_set : Setter ic_stopped_deletion. Proof. derive_setter. Defined.
Definition IdCounters_default : IdCounters := mkIdCounters 1 1 1 1 1.

(** [constructor] is [NonZeroU64]-backed; the counter wraps to zero, which is
    no identifier, when the id space is used up. *)
Definition next_id (next : N) (constructor : N -> option N) : result SchedulerError (N * N) :=
  value ← ok_or (constructor next) SchedulerError.InternalInvariant;
  Ok (value, default 0 (u64_checked_add next 1)).

Definition IdCounters_retry_timer (self : IdCounters) : result SchedulerError (RetryTimerId * IdCounters) :=
  r ← next_id (ic_retry_timer self) RetryTimerId_new;
  Ok (r.1, self <| ic_retry_timer := r.2 |>).
Definition IdCounters_slow_readmission (self : IdCounters) : result SchedulerError (SlowReadmissionId * IdCounters) :=
  r ← next_id (ic_slow_readmission self) SlowReadmissionId_new;
  Ok (r.1, self <| ic_slow_readmission := r.2 |>).
Definition IdCounters_no_space_probe (self : IdCounters) : result SchedulerError (NoSpaceProbeId * IdCounters) :=
  r ← next_id (ic_no_space_probe self) NoSpaceProbeId_new;
  Ok (r.1, self <| ic_no_space_probe := r.2 |>).
Definition IdCounters_host_key_resolution (self : IdCounters) : result SchedulerError (HostKeyResolutionId * IdCounters) :=
  r ← next_id (ic_host_key_resolution self) HostKeyResolutionId_new;
  Ok (r.1, self <| ic_host_key_resolution := r.2 |>).
Definition IdCounters_stopped_deletion (self : IdCounters) : result SchedulerError (StoppedResultDeletionId * IdCounters) :=
  r ← next_id (ic_stopped_deletion self) StoppedResultDeletionId_new;
  Ok (r.1, self <| ic_stopped_deletion := r.2 |>).

(** ** The scheduler *)

#[projections(primitive)] Record RequestScheduler : Set := mkRequestScheduler {
  rs_config : SchedulerConfig;
  rs_tasks : gmap Gid ScheduledTask;
  rs_task_ids : gmap TaskId Gid;
  rs_highest_task_id : option TaskId;
  rs_queues : SchedulerQueues;
  rs_published_snapshots : gmap Gid TaskSnapshot;
  rs_ids : IdCounters;
}.
#[global] Instance RequestScheduler_eq_dec : EqDecision RequestScheduler.
Proof. solve_decision. Defined.
#[global] Instance RequestScheduler_eta : Settable RequestScheduler := fun r =>
  mkRequestScheduler (rs_config r) (rs_tasks r) (rs_task_ids r) (rs_highest_task_id r)
    (rs_queues r) (rs_published_snapshots r) (rs_ids r).
#[global] Instance rs_config_set : Setter rs_config. Proof. derive_setter. Defined.
#[global] Instance rs_tasks_set : Setter rs_tasks. Proof. derive_setter. Defined.
#[global] Instance rs_task_ids_set : Setter rs_task_ids. Proof. derive_setter. Defined.
#[global] Instance rs_highest_task_id_set : Setter rs_highest_task_id. Proof. derive_setter. Defined.
#[global] Instance rs_queues_set : Setter rs_queues. Proof. derive_setter. Defined.
#[global] Instance rs_published_snapshots_set : Setter rs_published_snapshots. Proof. derive_setter. Defined.
#[global] Instance rs_ids_set : Setter rs_ids. Proof. derive_setter. Defined.

(** Evaluates reads of RequestScheduler fields through updates. *)
Ltac eval_sched a :=
  eval cbn [set rs_config rs_config_set rs_tasks rs_tasks_set rs_task_ids
      rs_task_ids_set rs_highest_task_id rs_highest_task_id_set rs_queues rs_queues_set
      rs_published_snapshots rs_published_snapshots_set rs_ids rs_ids_set] in a.
Ltac simpl_sched :=
  repeat match goal with
  | |- context [?p (@set RequestScheduler ?T ?q ?i ?h ?r)] =>
      let _ := constr:(_ : Setter p) in
      let b := eval_sched (p (@set RequestScheduler T q i h r)) in
      change (p (@set RequestScheduler T q i h r)) with b
  | H : context [?p (@set RequestScheduler ?T ?q ?i ?h ?r)] |- _ =>
      let _ := constr:(_ : Setter p) in
      let b := eval_sched (p (@set RequestScheduler T q i h r)) in
      change (p (@set RequestScheduler T q i h r)) with b in H
  end.

Definition RequestScheduler_new (config : SchedulerConfig) : RequestScheduler :=
  {| rs_config := config;
     rs_tasks := ∅;
     rs_task_ids := ∅;
     rs_highest_task_id := None;
     rs_queues := SchedulerQueues_default;
     rs_published_snapshots := ∅;
     rs_ids := IdCounters_default |}.

Definition configure_queue_policies (self : RequestScheduler) (retry_wait_holds_slot : bool)
    (slow_readmission_policy : SlowReadmissionPolicy) : RequestScheduler :=
  self <| rs_config := (rs_config self)
            <| sc_retry_wait_holds_slot := retry_wait_holds_slot |>
            <| sc_slow_readmission_policy := slow_readmission_policy |> |>.

(** Read-only accessors. *)
Definition RequestScheduler_len (self : RequestScheduler) : N := N.of_nat (size (rs_tasks self)).
Definition RequestScheduler_is_empty (self : RequestScheduler) : bool :=
  RequestScheduler_len self =? 0.

Definition presented_host_key (self : RequestScheduler) (gid : Gid) : option PresentedHostKeyChallenge :=
  task ← rs_tasks self !! gid; t_host_key_challenge task.

Definition RequestScheduler_task (self : RequestScheduler) (gid : Gid) : option SchedulerTaskView :=
  ScheduledTask_view <$> rs_tasks self !! gid.

Definition credential_requirement_key (self : RequestScheduler) (gid : Gid)
    : option CredentialRequirementKey :=
  task ← rs_tasks self !! gid;
  CredentialRequirement_key <$> tc_needs_credentials (t_conditions task).

Definition RequestScheduler_snapshot (self : RequestScheduler) (gid : Gid)
    : result SchedulerError TaskSnapshot :=
  ok_or (rs_published_snapshots self !! gid) SchedulerError.TaskNotFound.

Definition queue_snapshot (self : RequestScheduler) (class : QueueClass) : list Gid :=
  SchedulerQueues_get (rs_queues self) class.

Definition owns_slot (task : ScheduledTask) : bool := SlotOwnership_owns_slot (t_slot task).

Definition active_slot_count (self : RequestScheduler) : N :=
  vec_len (filter (fun task => owns_slot task = true) (btree_values (rs_tasks self))).

(** ** The scheduler monad *)

Definition Sched (A : Type) : Type := RequestScheduler -> RequestScheduler * result SchedulerError A.
#[global] Instance sched_ret : MRet Sched := fun A a self => (self, Ok a).
#[global] Instance sched_bind : MBind Sched := fun A B f m self =>
  match m self with
  | (self', Ok a) => f a self'
  | (self', Err e) => (self', Err e)
  end.
Definition get_self : Sched RequestScheduler := fun self => (self, Ok self).
Definition modify (f : RequestScheduler -> RequestScheduler) : Sched unit :=
  fun self => (f self, Ok tt).
Definition throw {A} (e : SchedulerError) : Sched A := fun self => (self, Err e).
Definition lift {A} (r : result SchedulerError A) : Sched A := fun self => (self, r).

(** [x ←? r; k] is [let x = r?; k] for a step [r] that does not change the scheduler. *)
Notation "x ←? r ; k" := (mbind (M:=Sched) (fun x => k) (lift r))
  (at level 20, r at level 100, k at level 200, only parsing) : rust_scope.
Notation "' x ←? r ; k" := (mbind (M:=Sched) (fun x => k) (lift r))
  (at level 20, r at level 100, k at level 200, x strict pattern, only parsing) : rust_scope.

(** ** Target selection and pending barriers *)

Definition task_clone (self : RequestScheduler) (gid : Gid) : result SchedulerError ScheduledTask :=
  ok_or (rs_tasks self !! gid) SchedulerError.TaskNotFound.

Definition reject_pending (task : ScheduledTask) (operation : string) : result SchedulerError unit :=
  match t_pending_barrier task with
  | Some barrier => Err (SchedulerError.PendingBarrier barrier operation)
  | None => Ok tt
  end.

Definition defers_user_control (barrier : PendingBarrier) : bool :=
  match barrier with
  | PendingBarrier.OptionPatchPersistence _ _
  | PendingBarrier.OptionPatchApplication _ _
  | PendingBarrier.HostKeyResolution _ _ _ => true
  | _ => false
  end.

Definition stopped_deletion_barrier (task : ScheduledTask) : option PendingBarrier :=
  match t_pending_barrier task with
  | Some (PendingBarrier.StoppedResultDeletion generation deletion_id) =>
      Some (PendingBarrier.StoppedResultDeletion generation deletion_id)
  | _ => None
  end.

Definition pending_stopped_deletion (self : RequestScheduler) : option PendingBarrier :=
  head (omap stopped_deletion_barrier (btree_values (rs_tasks self))).

Definition target_for_action (task : ScheduledTask) (action : SchedulerAction)
    : result SchedulerError (option TaskState) :=
  let contract := transition_contract (t_state task) action in
  match ct_kind contract with
  | TransitionContractKind.Transition | TransitionContractKind.Stay =>
      ok_or (Some <$> head (ct_targets contract)) SchedulerError.InternalInvariant
  | TransitionContractKind.Delete => Ok None
  | TransitionContractKind.NoOp | TransitionContractKind.Ignore => Ok (Some (t_state task))
  | TransitionContractKind.Conditional => Err SchedulerError.ShutdownBatchRequired
  | TransitionContractKind.Conflict =>
      Err (match ct_rejection contract with
           | Some TransitionRejection.HostKeyApprovalRequired =>
               SchedulerError.HostKeyApprovalRequired
           | Some TransitionRejection.Conflict | None =>
               SchedulerError.Conflict (t_state task) (SchedulerAction_code action)
           end)
  end.

(** [Self::target_for_action(task, action)?.ok_or(InternalInvariant)?]. *)
Definition target_state (task : ScheduledTask) (action : SchedulerAction)
    : result SchedulerError TaskState :=
  target ← target_for_action task action;
  ok_or target SchedulerError.InternalInvariant.

(** ** Queue updates *)

Record QueueUpdate : Set := mkQueueUpdate {
  qu_class : QueueClass;
  qu_order : list Gid;
}.

Definition queue_memberships (self : RequestScheduler) (gid : Gid) : list QueueClass :=
  filter (fun class => gid ∈ SchedulerQueues_get (rs_queues self) class)
    [QueueClass.Waiting; QueueClass.Demoted; QueueClass.Paused; QueueClass.Active; QueueClass.Stopped].

Definition queue_updates (self : RequestScheduler) (gid : Gid)
    (old_class new_class : option QueueClass) : result SchedulerError (list QueueUpdate) :=
  let memberships := queue_memberships self gid in
  if match old_class with
     | Some class => memberships != [class]
     | None => memberships != []
     end
  then Err SchedulerError.InternalInvariant
  else if old_class == new_class then Ok []
  else
    updates ← match old_class with
      | Some class =>
          let order := SchedulerQueues_get (rs_queues self) class in
          position ← ok_or (position gid order) SchedulerError.InternalInvariant;
          Ok [mkQueueUpdate class (vec_remove position order)]
      | None => Ok []
      end;
    match new_class with
    | Some class =>
        order ← (if old_class == Some class
          then ok_or (qu_order <$> head (filter (fun update => qu_class update = class) updates))
                 SchedulerError.InternalInvariant
          else Ok (SchedulerQueues_get (rs_queues self) class));
        if contains order gid then Err SchedulerError.InternalInvariant
        else Ok (updates ++ [mkQueueUpdate class (order ++ [gid])])
    | None => Ok updates
    end.

Definition apply_queue_updates (queues : SchedulerQueues) (updates : list QueueUpdate) : SchedulerQueues :=
  fold_left (fun queues update => SchedulerQueues_put queues (qu_class update) (qu_order update))
    updates queues.

Definition queue_orders (updates : list QueueUpdate) : list QueueOrder :=
  (fun update => mkQueueOrder (qu_class update) (qu_order update)) <$> updates.

(** ** The atomic commit

    [finish_action] checks the plan of one action against the contract and the
    queues, completes its effects, and only then writes the scheduler. *)

(** Moves a new task from the end of its queue to its requested position. *)
Fixpoint place_in_update (gid : Gid) (queue : QueueClass) (pos : N) (updates : list QueueUpdate)
    : result SchedulerError (list QueueUpdate) :=
  match updates with
  | [] => Err SchedulerError.InternalInvariant
  | update :: rest =>
      if qu_class update == queue then
        let order := take (pred (List.length (qu_order update))) (qu_order update) in
        if (last (qu_order update) != Some gid) || (vec_len order <? pos)
        then Err SchedulerError.InternalInvariant
        else Ok (mkQueueUpdate (qu_class update) (vec_insert (N.to_nat pos) gid order) :: rest)
      else
        rest' ← place_in_update gid queue pos rest;
        Ok (update :: rest')
  end.

Fixpoint place_new_task (gid : Gid) (effects : list TransitionEffect) (updates : list QueueUpdate)
    : result SchedulerError (list QueueUpdate) :=
  match effects with
  | [] => Ok updates
  | TransitionEffect.PersistTask _ _ queue pos _ _ _ :: rest =>
      updates' ← place_in_update gid queue pos updates;
      place_new_task gid rest updates'
  | _ :: rest => place_new_task gid rest updates
  end.

(** The durability request of the action: terminal persistence, or the queue
    transition when the membership, pause intent or slow-slot data changed. *)
Definition terminal_persistence (original : ScheduledTask) (updated : option ScheduledTask)
    : option (Generation * Aria2Status * option PublicError) :=
  task ← updated;
  match t_pending_barrier task with
  | Some (PendingBarrier.TerminalPersistence generation status) =>
      if t_pending_barrier original != t_pending_barrier task
      then Some (generation, status, t_error task)
      else None
  | _ => None
  end.

Definition persist_effects (self : RequestScheduler) (original : ScheduledTask)
    (updated : option ScheduledTask) (original_present : bool) (action : SchedulerAction)
    (old_class new_class : option QueueClass) (updates : list QueueUpdate)
    (effects : list TransitionEffect) : result SchedulerError (list TransitionEffect) :=
  let desired_paused := from_option t_desired_paused (t_desired_paused original) updated in
  let desired_changed :=
    from_option (fun task => negb (Bool.eqb (t_desired_paused task) (t_desired_paused original))) false updated in
  let slow_changed :=
    from_option (fun task => (t_slow_demotion_count task != t_slow_demotion_count original)
                             || (t_slow_slot task != t_slow_slot original)) false updated in
  let slow_demotion_count := from_option t_slow_demotion_count (t_slow_demotion_count original) updated in
  let slow_slot := task ← updated; t_slow_slot task in
  match terminal_persistence original updated with
  | Some (generation, status, error) =>
      from ← ok_or old_class SchedulerError.InternalInvariant;
      to ← ok_or new_class SchedulerError.InternalInvariant;
      if (to != QueueClass.Stopped) || match updates with [] => true | _ => false end
      then Err SchedulerError.InternalInvariant
      else Ok (effects ++ [TransitionEffect.PersistTerminal (t_task_id original) (t_gid original)
             generation status error from to desired_paused slow_demotion_count slow_slot
             (queue_orders updates)])
  | None =>
      if original_present && is_some updated &&
         (match updates with [] => false | _ => true end || desired_changed || slow_changed)
      then
        orders ← match updates with
          | [] =>
              class ← ok_or (class ← old_class; if new_class == Some class then Some class else None)
                        SchedulerError.InternalInvariant;
              Ok [mkQueueOrder class (SchedulerQueues_get (rs_queues self) class)]
          | _ => Ok (queue_orders updates)
          end;
        let queue_effect := TransitionEffect.PersistQueueTransition (t_task_id original)
              (t_gid original) old_class new_class desired_paused slow_demotion_count slow_slot orders in
        Ok (match action with
            | SchedulerAction.ExplicitNoSpaceProbeRequested
            | SchedulerAction.HostKeyChallengeRequired
            | SchedulerAction.ActiveHostKeyChallengeRequired => queue_effect :: effects
            | _ => effects ++ [queue_effect]
            end)
      else Ok effects
  end.

(** The published transition or deletion the contract prescribes. *)
Definition contract_outcome (contract : TransitionContract) (original : ScheduledTask)
    (updated : option ScheduledTask) (at_ : MonotonicInstant)
    : result SchedulerError (option StateTransition * option TaskDeletion) :=
  match ct_kind contract with
  | TransitionContractKind.Transition | TransitionContractKind.Stay =>
      task ← ok_or updated SchedulerError.InternalInvariant;
      if negb (contains (ct_targets contract) (t_state task))
      then Err SchedulerError.InternalInvariant
      else Ok (Some {| st_task := t_task_id task; st_gid := t_gid task;
                       st_generation := t_generation task; st_from := t_state original;
                       st_to := t_state task; st_reason := ct_reason contract; st_at := at_ |},
               None)
  | TransitionContractKind.Delete =>
      if is_some updated then Err SchedulerError.InternalInvariant
      else Ok (None,
               Some {| td_task := t_task_id original; td_gid := t_gid original;
                       td_generation := t_generation original; td_from := t_state original;
                       td_reason := ct_reason contract; td_at := at_ |})
  | TransitionContractKind.NoOp | TransitionContractKind.Ignore => Err SchedulerError.InternalInvariant
  | TransitionContractKind.Conditional => Err SchedulerError.ShutdownBatchRequired
  | TransitionContractKind.Conflict => Err SchedulerError.InternalInvariant
  end.

(** The writes, in the order of the source. *)
Definition commit_action (original : ScheduledTask) (updated : option ScheduledTask)
    (updates : list QueueUpdate) (published_snapshot : option TaskSnapshot) (ids : IdCounters)
    (self : RequestScheduler) : RequestScheduler :=
  let self := self <| rs_queues := apply_queue_updates (rs_queues self) updates |> in
  let self := match updated with
    | Some task =>
        self <| rs_task_ids := <[t_task_id task := t_gid task]> (rs_task_ids self) |>
             <| rs_tasks := <[t_gid task := task]> (rs_tasks self) |>
    | None =>
        self <| rs_tasks := delete (t_gid original) (rs_tasks self) |>
             <| rs_task_ids := delete (t_task_id original) (rs_task_ids self) |>
             <| rs_published_snapshots := delete (t_gid original) (rs_published_snapshots self) |>
    end in
  let self := match published_snapshot with
    | Some snapshot =>
        self <| rs_published_snapshots :=
                  <[t_gid original := snapshot]> (rs_published_snapshots self) |>
    | None => self
    end in
  self <| rs_ids := ids |>.

(** Everything [finish_action] computes before it writes. *)
Definition plan_action (self : RequestScheduler) (original : ScheduledTask)
    (updated : option ScheduledTask) (original_present : bool) (action : SchedulerAction)
    (at_ : MonotonicInstant) (effects : list TransitionEffect) (publish : bool)
    : result SchedulerError (list QueueUpdate * option TaskSnapshot * SchedulerOutcome) :=
  let contract := transition_contract (t_state original) action in
  if negb (TransitionContract_accepts contract)
  then _ ← target_for_action original action; Err SchedulerError.InternalInvariant
  else
    let old_class := if original_present then ScheduledTask_queue_class original else None in
    let new_class := task ← updated; ScheduledTask_queue_class task in
    updates ← queue_updates self (t_gid original) old_class new_class;
    updates ← (if negb original_present then place_new_task (t_gid original) effects updates
               else Ok updates);
    _ ← (if (action != SchedulerAction.StoppedResultDeletionSucceeded)
            && existsb (fun update => qu_class update == QueueClass.Stopped) updates
         then match pending_stopped_deletion self with
              | Some barrier => Err (SchedulerError.PendingBarrier barrier (SchedulerAction_code action))
              | None => Ok tt
              end
         else Ok tt);
    effects ← persist_effects self original updated original_present action old_class new_class
                updates effects;
    published_snapshot ← (if publish
      then task ← ok_or updated SchedulerError.InternalInvariant;
           snapshot ← ScheduledTask_snapshot task (sc_retry_wait_holds_slot (rs_config self));
           Ok (Some snapshot)
      else Ok None);
    let effects := match published_snapshot with
      | Some snapshot => effects ++ [TransitionEffect.PublishSnapshot (t_task_id original) snapshot]
      | None => effects
      end in
    outcome ← contract_outcome contract original updated at_;
    outcome ← SchedulerOutcome_checked outcome.1 outcome.2 effects;
    Ok (updates, published_snapshot, outcome).

Definition finish_action (original : ScheduledTask) (updated : option ScheduledTask)
    (original_present : bool) (action : SchedulerAction) (at_ : MonotonicInstant)
    (effects : list TransitionEffect) (publish : bool) (ids : IdCounters) : Sched SchedulerOutcome :=
  self ← get_self;
  '(updates, published_snapshot, outcome) ←?
    plan_action self original updated original_present action at_ effects publish;
  _ ← modify (commit_action original updated updates published_snapshot ids);
  mret outcome.

Definition ignored_outcome (task : ScheduledTask) (action : SchedulerAction) (at_ : MonotonicInstant)
    : result SchedulerError SchedulerOutcome :=
  let contract := transition_contract (t_state task) action in
  if ct_kind contract != TransitionContractKind.Ignore then Err SchedulerError.InternalInvariant
  else SchedulerOutcome_checked
    (Some {| st_task := t_task_id task; st_gid := t_gid task; st_generation := t_generation task;
             st_from := t_state task; st_to := t_state task; st_reason := ct_reason contract;
             st_at := at_ |}) None [].

Definition queue_effects_for_reorder (gid : Gid) (class : QueueClass) (pos : N)
    : Sched SchedulerOutcome :=
  self ← get_self;
  let current := SchedulerQueues_get (rs_queues self) class in
  let queue_len := vec_len current in
  if queue_len <=? pos then throw (SchedulerError.InvalidPosition pos queue_len)
  else
    old_position ←? ok_or (position gid current) SchedulerError.InternalInvariant;
    if N.of_nat old_position =? pos then mret SchedulerOutcome_default
    else
      let order := vec_insert (N.to_nat pos) gid (vec_remove old_position current) in
      task ←? ok_or (rs_tasks self !! gid) SchedulerError.TaskNotFound;
      outcome ←? SchedulerOutcome_checked None None
        [TransitionEffect.PersistQueueTransition (t_task_id task) gid (Some class) (Some class)
           (t_desired_paused task) (t_slow_demotion_count task) (t_slow_slot task)
           [mkQueueOrder class order]];
      _ ← modify (fun self => self <| rs_queues := SchedulerQueues_put (rs_queues self) class order |>);
      mret outcome.

(** ** Shared steps of the handlers *)

Definition release_slot (task : ScheduledTask) (effects : list TransitionEffect)
    : ScheduledTask * list TransitionEffect :=
  if owns_slot task then
    (task <| t_slot := SlotOwnership.None |>,
     effects ++ [TransitionEffect.ReleaseSlot (t_task_id task) (t_gid task) (t_slot task)])
  else (task, effects).

Definition cancel_timers (task : ScheduledTask) (effects : list TransitionEffect)
    : ScheduledTask * list TransitionEffect :=
  let '(task, effects) := match t_retry_timer task with
    | Some (retry_timer_id, _) =>
        (task <| t_retry_timer := None |>,
         effects ++ [TransitionEffect.CancelRetry (t_task_id task) (t_gid task) (t_generation task)
                       retry_timer_id])
    | None => (task, effects)
    end in
  let task := task <| t_retry_ready := false |> in
  let '(task, effects) := match t_slow_readmission task with
    | Some (readmission_id, _) =>
        (task <| t_slow_readmission := None |>,
         effects ++ [TransitionEffect.CancelSlowReadmission (t_task_id task) (t_gid task)
                       (t_generation task) readmission_id])
    | None => (task, effects)
    end in
  (task <| t_slow_readmission_ready := false |>
        <| t_pending_slow_readmission := None |>
        <| t_slow_slot := None |>, effects).

Definition schedule_no_space_probe (task : ScheduledTask) (origin : NoSpaceProbeOrigin)
    (at_ : MonotonicInstant) (effects : list TransitionEffect) (ids : IdCounters)
    : result SchedulerError (ScheduledTask * list TransitionEffect * IdCounters) :=
  if is_some (t_no_space_probe task) then Ok (task, effects, ids)
  else if is_none (tc_no_space (t_conditions task)) then Err SchedulerError.InternalInvariant
  else
    '(probe_id, ids) ← IdCounters_no_space_probe ids;
    Ok (task <| t_no_space_probe := Some (probe_id, origin) |>,
        effects ++ [TransitionEffect.ProbeNoSpace (t_task_id task) (t_gid task) (t_generation task)
                      probe_id origin at_],
        ids).

Definition begin_cancellation (task : ScheduledTask) (target : DrainTarget) (force : bool)
    (effects : list TransitionEffect) (operation : string)
    : result SchedulerError (ScheduledTask * list TransitionEffect) :=
  let cancel force := TransitionEffect.CancelGeneration (t_task_id task) (t_gid task)
                        (t_generation task) force in
  match t_pending_barrier task with
  | None | Some (PendingBarrier.GenerationPersistence _) =>
      Ok (task <| t_pending_barrier :=
             Some (PendingBarrier.CancellationDrain (t_generation task) target force) |>,
          effects ++ [cancel force])
  | Some (PendingBarrier.CancellationDrain generation existing_target existing_force) =>
      if generation =? t_generation task then
        Ok (task <| t_pending_barrier :=
               Some (PendingBarrier.CancellationDrain generation target (existing_force || force)) |>,
            if force && negb existing_force then effects ++ [cancel true] else effects)
      else Err (SchedulerError.PendingBarrier
                  (PendingBarrier.CancellationDrain generation existing_target existing_force) operation)
  | Some barrier => Err (SchedulerError.PendingBarrier barrier operation)
  end.

Definition begin_terminal (task : ScheduledTask) (status : Aria2Status) (error : option PublicError)
    : result SchedulerError ScheduledTask :=
  if negb (Aria2Status_is_terminal status) || ((status == Aria2Status.Error) && is_none error)
  then Err SchedulerError.InternalInvariant
  else Ok (task <| t_error := error |>
                <| t_stopped_status := None |>
                <| t_terminal_persisted := false |>
                <| t_pending_barrier :=
                     Some (PendingBarrier.TerminalPersistence (t_generation task) status) |>).

(** [if let Some(challenge) = task.host_key_challenge.take() { effects.push(rejected) }]. *)
Definition reject_challenge (gid : Gid) (task : ScheduledTask) (effects : list TransitionEffect)
    : ScheduledTask * list TransitionEffect :=
  match t_host_key_challenge task with
  | Some challenge =>
      (task <| t_host_key_challenge := None |>,
       effects ++ [TransitionEffect.PersistHostKeyChallengeRejected (t_task_id task) gid
                     (hk_id (ph_summary challenge))])
  | None => (task, effects)
  end.

Definition complete_pending_user_control (original updated : ScheduledTask)
    (effects : list TransitionEffect)
    : result SchedulerError (option SchedulerAction * ScheduledTask * list TransitionEffect) :=
  match t_pending_user_control updated with
  | None => Ok (None, updated, effects)
  | Some control =>
      let updated := updated <| t_pending_user_control := None |> in
      match control with
      | PendingUserControl.Pause force =>
          let action := SchedulerAction.DeferredPauseCompleted in
          state ← target_state original action;
          let updated := updated <| t_state := state |> <| t_desired_paused := true |> in
          '(updated, effects) ← (if owns_slot updated
            then begin_cancellation updated DrainTarget.Paused force effects "deferred_pause"
            else Ok (updated, effects));
          Ok (Some action, updated, effects)
      | PendingUserControl.Resume =>
          let action := SchedulerAction.DeferredResumeCompleted in
          state ← target_state original action;
          let updated := updated <| t_state := state |> <| t_desired_paused := false |>
                                 <| t_slow_demotion_count := 0 |> in
          let '(updated, effects) := cancel_timers updated effects in
          Ok (Some action, updated, effects)
      | PendingUserControl.Remove force =>
          let action := SchedulerAction.DeferredRemoveCompleted in
          state ← target_state original action;
          let updated := updated <| t_state := state |> in
          let '(updated, effects) := cancel_timers updated effects in
          let updated := updated <| t_no_space_probe := None |> in
          let '(updated, effects) := reject_challenge (t_gid updated) updated effects in
          let updated := updated <| t_pending_option_patch := None |>
                                 <| t_pending_option_patch_mode := None |>
                                 <| t_pending_credential_requirement := None |> in
          '(updated, effects) ← (if owns_slot updated
            then begin_cancellation updated DrainTarget.Removed force effects "deferred_remove"
            else updated ← begin_terminal updated Aria2Status.Removed None; Ok (updated, effects));
          Ok (Some action, updated, effects)
      end
  end.

Definition plan_admission (self : RequestScheduler) (task : ScheduledTask) (action : SchedulerAction)
    (effects : list TransitionEffect) : result SchedulerError (ScheduledTask * list TransitionEffect) :=
  _ ← reject_pending task (SchedulerAction_code action);
  if t_desired_paused task || TaskConditions_blocks_admission (t_conditions task)
  then Err SchedulerError.NoEligibleTask
  else if negb (owns_slot task) && (sc_max_active_tasks (rs_config self) <=? active_slot_count self)
  then Err SchedulerError.ActiveLimitReached
  else
    target ← target_state task action;
    if target != TaskState.Allocating then Err SchedulerError.InternalInvariant
    else
      generation ← (if t_generation_started task
        then ok_or (Generation_checked_next (t_generation task)) SchedulerError.GenerationExhausted
        else Ok (t_generation task));
      let task := if generation != t_generation task
        then ScheduledTask_clear_generation_event_history (task <| t_generation := generation |>)
        else task in
      let task := task
        <| t_generation_started := true |>
        <| t_state := target |>
        <| t_slot := SlotOwnership.Reserved |>
        <| t_retry_ready := false |>
        <| t_slow_readmission_ready := false |>
        <| t_pending_barrier := Some (PendingBarrier.GenerationPersistence generation) |> in
      Ok (task,
          effects ++ [TransitionEffect.PersistGenerationStarted (t_task_id task) (t_gid task) generation]).
