(* ===== verification/SchedulerCommands.v ===== *)
(** * Scheduler commands and admission

    Model of [RequestScheduler::execute_command_at], of the command handlers it
    dispatches to, and of [admit_next_at]
    ([crates/ariax-core/src/scheduler.rs]). *)

From S2P Require Import Prelude Ids Errors State Snapshot PersistedDelay CommandKinds Transition Command.
From S2P Require Import Scheduler.
From Stdlib Require Import Ascii String.
Open Scope list_scope.

Definition add_validated_task (task_id : TaskId) (gid : Gid) (desired_paused : bool)
    (conditions : TaskConditions) (pos : option N) (at_ : MonotonicInstant) : Sched SchedulerOutcome :=
  self ← get_self;
  _ ←? map_err (fun _ => SchedulerError.InvalidTaskConditions) (TaskConditions_validate conditions);
  if sc_max_tasks (rs_config self) <=? RequestScheduler_len self
  then throw SchedulerError.TaskLimitReached
  else if is_some (rs_tasks self !! gid) then throw SchedulerError.GidCollision
  else if is_some (rs_task_ids self !! task_id) then throw SchedulerError.TaskIdCollision
  else if from_option (fun highest_task_id => task_id <=? highest_task_id) false (rs_highest_task_id self)
  then throw SchedulerError.TaskIdCollision
  else
    let original := ScheduledTask_new task_id gid desired_paused conditions in
    let action := SchedulerAction_for_validated_add desired_paused in
    state ←? target_state original action;
    let updated := original <| t_state := state |> in
    queue ←? ok_or (ScheduledTask_queue_class updated) SchedulerError.InternalInvariant;
    let effects := [TransitionEffect.PersistTask task_id gid queue
      (N.min (default USIZE_MAX pos) (vec_len (SchedulerQueues_get (rs_queues self) queue)))
      desired_paused 0 conditions] in
    outcome ← finish_action original (Some updated) false action at_ effects true (rs_ids self);
    _ ← modify (fun self => self <| rs_highest_task_id := Some task_id |>);
    mret outcome.

Definition is_pending_remove (task : ScheduledTask) : bool :=
  match t_pending_user_control task with Some (PendingUserControl.Remove _) => true | _ => false end.

Definition is_host_key_resolution (barrier : PendingBarrier) : bool :=
  match barrier with PendingBarrier.HostKeyResolution _ _ _ => true | _ => false end.

Definition is_cancellation_drain (barrier : option PendingBarrier) : bool :=
  match barrier with Some (PendingBarrier.CancellationDrain _ _ _) => true | _ => false end.

(** The states whose generation is in flight. *)
Definition is_live_state (state : TaskState) : bool :=
  match state with
  | TaskState.Allocating | TaskState.Active | TaskState.PausedRestarting
  | TaskState.Verifying | TaskState.Seeding => true
  | _ => false
  end.

Definition is_slow_state (state : TaskState) : bool :=
  match state with TaskState.WaitingSlow | TaskState.PausedSlow => true | _ => false end.

(** [original.pending_barrier] when it defers user control. *)
Definition deferring_barrier (task : ScheduledTask) : option PendingBarrier :=
  barrier ← t_pending_barrier task;
  if defers_user_control barrier then Some barrier else None.

Definition pause (gid : Gid) (force : bool) (at_ : MonotonicInstant) : Sched SchedulerOutcome :=
  self ← get_self;
  original ←? task_clone self gid;
  match deferring_barrier original with
  | Some barrier =>
      if is_pending_remove original
      then throw (SchedulerError.PendingBarrier barrier "pause_after_remove")
      else
        let action := SchedulerAction.PauseDeferred in
        let updated := original <| t_desired_paused := true |> in
        let '(updated, effects) := cancel_timers updated [] in
        let updated :=
          if negb (is_host_key_resolution barrier) then
            let force := force || match t_pending_user_control original with
                                  | Some (PendingUserControl.Pause true) => true
                                  | _ => false
                                  end in
            updated <| t_pending_user_control := Some (PendingUserControl.Pause force) |>
          else updated in
        finish_action original (Some updated) true action at_ effects true (rs_ids self)
  | None =>
      let action := SchedulerAction.Pause in
      if ct_kind (transition_contract (t_state original) action) == TransitionContractKind.NoOp
      then mret SchedulerOutcome_default
      else
        target ←? target_state original action;
        let updated := original <| t_desired_paused := true |> in
        let '(updated, effects) := cancel_timers updated [] in
        '(updated, effects) ←?
          (if is_live_state (t_state original) || is_cancellation_drain (t_pending_barrier original)
           then begin_cancellation updated DrainTarget.Paused force effects "pause"
           else if t_state original == TaskState.RetryWait then Ok (release_slot updated effects)
           else match t_pending_barrier original with
                | Some barrier =>
                    if negb ((t_state original == TaskState.PausedHostKey)
                             && is_host_key_resolution barrier)
                    then Err (SchedulerError.PendingBarrier barrier "pause")
                    else Ok (updated, effects)
                | None => Ok (updated, effects)
                end);
        let updated := updated <| t_state := target |> in
        finish_action original (Some updated) true action at_ effects true (rs_ids self)
  end.

(** [if let Some((id, _)) = task.slow_readmission.take() { effects.push(cancel) }]. *)
Definition cancel_slow_readmission (gid : Gid) (task : ScheduledTask) (effects : list TransitionEffect)
    : ScheduledTask * list TransitionEffect :=
  match t_slow_readmission task with
  | Some (readmission_id, _) =>
      (task <| t_slow_readmission := None |>,
       effects ++ [TransitionEffect.CancelSlowReadmission (t_task_id task) gid
                     (t_generation task) readmission_id])
  | None => (task, effects)
  end.

(** The deferred branch of [resume]. *)
Definition resume_deferred (self : RequestScheduler) (gid : Gid) (original : ScheduledTask)
    (barrier : PendingBarrier) (at_ : MonotonicInstant) : Sched SchedulerOutcome :=
  if is_pending_remove original
  then throw (SchedulerError.PendingBarrier barrier "resume_after_remove")
  else if negb (t_desired_paused original) &&
          negb match t_pending_user_control original with
               | Some (PendingUserControl.Pause _) => true
               | _ => false
               end
  then mret SchedulerOutcome_default
  else
    let action := SchedulerAction.ResumeDeferred in
    let updated := original <| t_desired_paused := false |> in
    let updated := if is_slow_state (t_state original)
                   then updated <| t_slow_demotion_count := 0 |> else updated in
    let '(updated, effects) := cancel_slow_readmission gid updated [] in
    let updated := updated
      <| t_slow_readmission_ready := false |>
      <| t_slow_slot := None |>
      <| t_pending_user_control :=
           if is_host_key_resolution barrier then None
           else match t_state original with
                | TaskState.Paused | TaskState.PausedSlow => Some PendingUserControl.Resume
                | _ => None
                end |> in
    finish_action original (Some updated) true action at_ effects true (rs_ids self).

(** The branch of [resume] that requests a readiness probe. *)
Definition resume_probe (self : RequestScheduler) (gid : Gid) (original : ScheduledTask)
    (action : SchedulerAction) (target : TaskState) (at_ : MonotonicInstant) : Sched SchedulerOutcome :=
  if is_some (t_no_space_probe original) && negb (t_desired_paused original)
     && negb (is_slow_state (t_state original))
  then mret SchedulerOutcome_default
  else
    let updated := original <| t_desired_paused := false |> <| t_state := target |> in
    let '(updated, effects) :=
      if is_slow_state (t_state original) then
        let updated := updated <| t_slow_demotion_count := 0 |> in
        let '(updated, effects) := cancel_slow_readmission gid updated [] in
        (updated <| t_slow_readmission_ready := false |>
                 <| t_pending_slow_readmission := None |>
                 <| t_slow_slot := None |>, effects)
      else (updated, []) in
    '(updated, effects, ids) ←?
      schedule_no_space_probe updated NoSpaceProbeOrigin.ExplicitResume at_ effects (rs_ids self);
    finish_action original (Some updated) true action at_ effects true ids.

Definition resume (gid : Gid) (at_ : MonotonicInstant) : Sched SchedulerOutcome :=
  self ← get_self;
  original ←? task_clone self gid;
  if t_pending_source_replacement original
  then throw (SchedulerError.Conflict (t_state original) "source_replacement_pending")
  else match deferring_barrier original with
  | Some barrier => resume_deferred self gid original barrier at_
  | None =>
      _ ←? reject_pending original "resume";
      let action := SchedulerAction_for_resume (t_state original)
                      (TaskConditions_snapshot (t_conditions original)) in
      if ct_kind (transition_contract (t_state original) action) == TransitionContractKind.NoOp
      then mret SchedulerOutcome_default
      else
        target ←? target_state original action;
        if action == SchedulerAction.ExplicitNoSpaceProbeRequested
        then resume_probe self gid original action target at_
        else
          let updated := original <| t_desired_paused := false |> in
          let updated := if is_slow_state (t_state original)
                         then updated <| t_slow_demotion_count := 0 |> else updated in
          let '(updated, effects) := cancel_slow_readmission gid updated [] in
          let updated := updated <| t_slow_readmission_ready := false |>
                                 <| t_slow_slot := None |>
                                 <| t_state := target |> in
          finish_action original (Some updated) true action at_ effects true (rs_ids self)
  end.

(** The challenge the caller names must be the one on display. *)
Definition matching_challenge (original : ScheduledTask) (challenge : HostKeyChallengeId)
    (fingerprint_sha256 : HostKeyFingerprint) : result SchedulerError PresentedHostKeyChallenge :=
  presented ← ok_or (t_host_key_challenge original) SchedulerError.StaleChallenge;
  if (hk_id (ph_summary presented) != challenge)
     || (hk_fingerprint_sha256 (ph_summary presented) != fingerprint_sha256)
  then Err SchedulerError.StaleChallenge
  else Ok presented.

Definition approve_host_key (gid : Gid) (challenge : HostKeyChallengeId)
    (fingerprint_sha256 : HostKeyFingerprint) (at_ : MonotonicInstant) : Sched SchedulerOutcome :=
  self ← get_self;
  original ←? task_clone self gid;
  _ ←? reject_pending original "approve_host_key";
  presented ←? matching_challenge original challenge fingerprint_sha256;
  let action := SchedulerAction.ApproveHostKey in
  target ←? target_state original action;
  '(resolution_id, ids) ←? IdCounters_host_key_resolution (rs_ids self);
  let updated := original
    <| t_state := target |>
    <| t_pending_barrier :=
         Some (PendingBarrier.HostKeyResolution (t_generation original) resolution_id challenge) |> in
  let effects := [TransitionEffect.PersistHostKeyPinAndClearChallenge (t_task_id updated) gid
    resolution_id challenge fingerprint_sha256 (ph_presented_public_key presented) None] in
  finish_action original (Some updated) true action at_ effects false ids.

Definition begin_source_replacement (gid : Gid) (at_ : MonotonicInstant) : Sched SchedulerOutcome :=
  self ← get_self;
  original ←? task_clone self gid;
  _ ←? reject_pending original "begin_source_replacement";
  if t_pending_source_replacement original || is_some (t_pending_option_patch original)
  then throw (SchedulerError.Conflict (t_state original) "source_replacement_pending")
  else
    let action := SchedulerAction.SourceReplacementRequested in
    target ←? target_state original action;
    let updated := original <| t_state := target |> <| t_pending_source_replacement := true |> in
    let '(updated, effects) := cancel_timers updated [] in
    '(updated, effects) ←?
      (if owns_slot updated
       then begin_cancellation updated DrainTarget.PausedRestarting false effects "source_replacement"
       else Ok (updated, effects));
    finish_action original (Some updated) true action at_ effects true (rs_ids self).

Definition required_credentials (task : ScheduledTask) : option CredentialRequirementKey :=
  CredentialRequirement_key <$> tc_needs_credentials (t_conditions task).

Definition commit_source_replacement (gid : Gid)
    (satisfies_credentials : option CredentialRequirementKey) (at_ : MonotonicInstant)
    : Sched SchedulerOutcome :=
  self ← get_self;
  original ←? task_clone self gid;
  _ ←? reject_pending original "commit_source_replacement";
  if from_option (fun key => negb match crk_kind key with
                                  | CredentialKind.SourceUri | CredentialKind.HttpAuthentication => true
                                  | _ => false
                                  end) false satisfies_credentials
     || (is_some satisfies_credentials && (required_credentials original != satisfies_credentials))
  then throw SchedulerError.StaleCredentialRequirement
  else if negb (t_pending_source_replacement original) || owns_slot original
  then throw (SchedulerError.Conflict (t_state original) "source_replacement_not_quiesced")
  else
    let action := SchedulerAction.SourceReplacementCommitted in
    target ←? target_state original action;
    let updated := original <| t_state := target |> <| t_pending_source_replacement := false |> in
    let updated := if is_some satisfies_credentials
      then updated <| t_conditions := (t_conditions updated) <| tc_needs_credentials := None |> |>
      else updated in
    queue ←? ok_or (ScheduledTask_queue_class original) SchedulerError.InternalInvariant;
    if ScheduledTask_queue_class updated != Some queue then throw SchedulerError.InternalInvariant
    else
      let effects := [TransitionEffect.PersistQueueTransition (t_task_id original) gid (Some queue)
        (Some queue) (t_desired_paused updated) (t_slow_demotion_count updated) (t_slow_slot updated)
        [mkQueueOrder queue (SchedulerQueues_get (rs_queues self) queue)]] in
      finish_action original (Some updated) true action at_ effects true (rs_ids self).

(** The credential a patch claims to satisfy must be the one the task needs. *)
Definition check_patch_credentials (original : ScheduledTask) (kind : ValidatedOptionPatchKind)
    (satisfies_credentials : option CredentialRequirementKey) : result SchedulerError unit :=
  match satisfies_credentials with
  | Some expected =>
      if required_credentials original != Some expected
      then Err SchedulerError.StaleCredentialRequirement
      else match kind with
           | ValidatedOptionPatchKind.MatchingHostKey _ _ =>
               Err (SchedulerError.Conflict (t_state original) "credential_satisfying_host_key_patch")
           | _ => Ok tt
           end
  | None => Ok tt
  end.

Definition option_patch_action (original : ScheduledTask) (kind : ValidatedOptionPatchKind)
    : result SchedulerError SchedulerAction :=
  match kind with
  | ValidatedOptionPatchKind.InPlace => Ok SchedulerAction.InPlaceOptionPatchAccepted
  | ValidatedOptionPatchKind.ActiveRestart =>
      match t_state original with
      | TaskState.Allocating | TaskState.Active | TaskState.Verifying =>
          Ok SchedulerAction.ActiveRestartOptionPatchAccepted
      | _ => Ok SchedulerAction.InPlaceOptionPatchAccepted
      end
  | ValidatedOptionPatchKind.MatchingHostKey challenge fingerprint_sha256 =>
      _ ← matching_challenge original challenge fingerprint_sha256;
      Ok SchedulerAction.ApplyMatchingHostKeyOption
  end.

(** The task and effects of an accepted patch. *)
Definition plan_option_patch (original updated : ScheduledTask) (gid : Gid) (patch_id : OptionPatchId)
    (kind : ValidatedOptionPatchKind) (action : SchedulerAction)
    (satisfies_credentials : option CredentialRequirementKey) (ids : IdCounters)
    : result SchedulerError (ScheduledTask * list TransitionEffect * IdCounters) :=
  let in_place :=
    Ok (updated <| t_pending_option_patch := Some patch_id |>
                <| t_pending_option_patch_mode := Some PendingOptionPatchMode.InPlace |>
                <| t_pending_credential_requirement := satisfies_credentials |>
                <| t_pending_barrier :=
                     Some (PendingBarrier.OptionPatchApplication (t_generation updated) patch_id) |>,
        [TransitionEffect.ApplyOptionPatch (t_task_id updated) gid patch_id satisfies_credentials], ids) in
  match kind with
  | ValidatedOptionPatchKind.InPlace =>
      if action == SchedulerAction.InPlaceOptionPatchAccepted then in_place
      else Err SchedulerError.InternalInvariant
  | ValidatedOptionPatchKind.ActiveRestart =>
      if action == SchedulerAction.InPlaceOptionPatchAccepted then in_place
      else
        Ok (updated <| t_pending_option_patch := Some patch_id |>
                    <| t_pending_option_patch_mode := Some PendingOptionPatchMode.ActiveRestart |>
                    <| t_pending_credential_requirement := satisfies_credentials |>
                    <| t_pending_barrier :=
                         Some (PendingBarrier.OptionPatchPersistence (t_generation updated) patch_id) |>,
            [TransitionEffect.StageOptionPatch (t_task_id updated) gid patch_id satisfies_credentials],
            ids)
  | ValidatedOptionPatchKind.MatchingHostKey challenge fingerprint_sha256 =>
      presented ← ok_or (t_host_key_challenge original) SchedulerError.StaleChallenge;
      '(resolution_id, ids) ← IdCounters_host_key_resolution ids;
      Ok (updated <| t_pending_option_patch := Some patch_id |>
                  <| t_pending_option_patch_mode := Some PendingOptionPatchMode.MatchingHostKey |>
                  <| t_pending_barrier :=
                       Some (PendingBarrier.HostKeyResolution (t_generation updated) resolution_id
                               challenge) |>,
          [TransitionEffect.PersistHostKeyPinAndClearChallenge (t_task_id updated) gid resolution_id
             challenge fingerprint_sha256 (ph_presented_public_key presented) (Some patch_id)],
          ids)
  end.

Definition apply_option_patch (gid : Gid) (patch_id : OptionPatchId) (kind : ValidatedOptionPatchKind)
    (satisfies_credentials : option CredentialRequirementKey) (at_ : MonotonicInstant)
    : Sched SchedulerOutcome :=
  self ← get_self;
  original ←? task_clone self gid;
  _ ←? reject_pending original "apply_option_patch";
  if t_pending_source_replacement original
  then throw (SchedulerError.Conflict (t_state original) "source_replacement_pending")
  else if from_option (fun highest => patch_id <=? highest) false (t_highest_option_patch_id original)
  then throw SchedulerError.OptionPatchIdCollision
  else
    _ ←? check_patch_credentials original kind satisfies_credentials;
    action ←? option_patch_action original kind;
    target ←? target_state original action;
    let updated := original <| t_state := target |> <| t_highest_option_patch_id := Some patch_id |> in
    '(updated, effects, ids) ←?
      plan_option_patch original updated gid patch_id kind action satisfies_credentials (rs_ids self);
    finish_action original (Some updated) true action at_ effects false ids.

Definition remove (gid : Gid) (force : bool) (at_ : MonotonicInstant) : Sched SchedulerOutcome :=
  self ← get_self;
  original ←? task_clone self gid;
  match deferring_barrier original with
  | Some _ =>
      let action := SchedulerAction.RemoveDeferred in
      let '(updated, effects) := cancel_timers original [] in
      let force := force || match t_pending_user_control original with
                            | Some (PendingUserControl.Remove true) => true
                            | _ => false
                            end in
      let updated := updated <| t_no_space_probe := None |>
                             <| t_pending_user_control := Some (PendingUserControl.Remove force) |> in
      finish_action original (Some updated) true action at_ effects false (rs_ids self)
  | None =>
      let action := SchedulerAction.Remove in
      if ct_kind (transition_contract (t_state original) action) == TransitionContractKind.NoOp
      then mret SchedulerOutcome_default
      else
        target ←? target_state original action;
        let '(updated, effects) := cancel_timers original [] in
        let updated := updated <| t_no_space_probe := None |> in
        let '(updated, effects) := reject_challenge gid updated effects in
        let updated := updated <| t_pending_option_patch := None |>
                               <| t_pending_option_patch_mode := None |>
                               <| t_pending_credential_requirement := None |>
                               <| t_pending_user_control := None |>
                               <| t_state := target |> in
        '(updated, effects) ←?
          (if is_live_state (t_state original) || is_cancellation_drain (t_pending_barrier original)
           then begin_cancellation updated DrainTarget.Removed force effects "remove"
           else match t_pending_barrier original with
                | Some barrier => Err (SchedulerError.PendingBarrier barrier "remove")
                | None =>
                    let '(updated, effects) := release_slot updated effects in
                    updated ← begin_terminal updated Aria2Status.Removed None;
                    Ok (updated, effects)
                end);
        finish_action original (Some updated) true action at_ effects false (rs_ids self)
  end.

Definition remove_stopped_result (gid : Gid) (at_ : MonotonicInstant) : Sched SchedulerOutcome :=
  self ← get_self;
  original ←? task_clone self gid;
  _ ←? reject_pending original "remove_stopped_result";
  match pending_stopped_deletion self with
  | Some barrier => throw (SchedulerError.PendingBarrier barrier "remove_stopped_result")
  | None =>
      let action := SchedulerAction.RemoveStoppedResult in
      target ←? target_state original action;
      '(deletion_id, ids) ←? IdCounters_stopped_deletion (rs_ids self);
      let updated := original
        <| t_state := target |>
        <| t_pending_barrier :=
             Some (PendingBarrier.StoppedResultDeletion (t_generation original) deletion_id) |> in
      let order := SchedulerQueues_get (rs_queues self) QueueClass.Stopped in
      position ←? ok_or (position gid order) SchedulerError.InternalInvariant;
      let effects := [TransitionEffect.DeleteStoppedTaskMetadata (t_task_id updated) gid deletion_id
                        (vec_remove position order)] in
      finish_action original (Some updated) true action at_ effects false ids
  end.

Definition change_position (gid : Gid) (pos : N) : Sched SchedulerOutcome :=
  self ← get_self;
  task ←? task_clone self gid;
  _ ←? reject_pending task "change_position";
  class ←? ok_or (ScheduledTask_queue_class task)
            (SchedulerError.Conflict (t_state task) "change_position");
  match (if class == QueueClass.Stopped then pending_stopped_deletion self else None) with
  | Some barrier => throw (SchedulerError.PendingBarrier barrier "change_position")
  | None => queue_effects_for_reorder gid class pos
  end.

Definition execute_command_at (command : SchedulerCommand) (at_ : MonotonicInstant)
    : Sched SchedulerOutcome :=
  match command with
  | SchedulerCommand.AddValidatedTask task_id gid desired_paused conditions =>
      add_validated_task task_id gid desired_paused conditions None at_
  | SchedulerCommand.AddValidatedTaskAt task_id gid desired_paused conditions pos =>
      add_validated_task task_id gid desired_paused conditions (Some pos) at_
  | SchedulerCommand.Pause gid force => pause gid force at_
  | SchedulerCommand.Resume gid => resume gid at_
  | SchedulerCommand.BeginSourceReplacement gid => begin_source_replacement gid at_
  | SchedulerCommand.CommitSourceReplacement gid satisfies_credentials =>
      commit_source_replacement gid satisfies_credentials at_
  | SchedulerCommand.ApproveHostKey gid challenge fingerprint_sha256 =>
      approve_host_key gid challenge fingerprint_sha256 at_
  | SchedulerCommand.ApplyOptionPatch gid patch_id kind satisfies_credentials =>
      apply_option_patch gid patch_id kind satisfies_credentials at_
  | SchedulerCommand.Remove gid force => remove gid force at_
  | SchedulerCommand.RemoveStoppedResult gid => remove_stopped_result gid at_
  | SchedulerCommand.ChangePosition gid pos => change_position gid pos
  | SchedulerCommand.OrderlyShutdown => throw SchedulerError.ShutdownBatchRequired
  end.

(** ** Admission *)

(** The tests [admit_next_at] makes on a queued task. *)
Definition admissible (task : ScheduledTask) : bool :=
  is_none (t_pending_barrier task) && negb (t_desired_paused task)
  && negb (TaskConditions_blocks_admission (t_conditions task)).

Definition is_pending_restart_patch (task : ScheduledTask) : bool :=
  (t_state task == TaskState.Waiting) && is_none (t_pending_barrier task)
  && negb (t_desired_paused task) && is_some (t_pending_option_patch task)
  && (t_pending_option_patch_mode task == Some PendingOptionPatchMode.ActiveRestart).

Definition is_retained_retry (task : ScheduledTask) : bool :=
  (t_state task == TaskState.RetryWait) && t_retry_ready task
  && (t_slot task == SlotOwnership.RetryRetained) && admissible task.

Definition is_waiting_candidate (task : ScheduledTask) : bool :=
  negb (t_pending_source_replacement task)
  && ((t_state task == TaskState.Waiting)
      || ((t_state task == TaskState.RetryWait) && t_retry_ready task))
  && admissible task.

Definition is_demoted_candidate (task : ScheduledTask) : bool :=
  (t_state task == TaskState.WaitingSlow) && t_slow_readmission_ready task && admissible task.

(** [queue.iter().copied().find(|gid| self.tasks.get(gid).is_some_and(test))]. *)
Definition find_task (self : RequestScheduler) (class : QueueClass) (test : ScheduledTask -> bool)
    : option Gid :=
  head (filter (fun gid => from_option test false (rs_tasks self !! gid) = true)
          (SchedulerQueues_get (rs_queues self) class)).

Definition option_or {A} (a b : option A) : option A :=
  match a with Some _ => a | None => b end.

Definition admission_choice (self : RequestScheduler) : option Gid :=
  let demoted := find_task self QueueClass.Demoted is_demoted_candidate in
  let preferred_demoted :=
    gid ← demoted;
    if match sc_slow_readmission_policy (rs_config self) with
       | SlowReadmissionPolicy.Front => true
       | SlowReadmissionPolicy.OriginalPosition =>
           from_option (fun task => t_slow_remaining_position task =? 0) false (rs_tasks self !! gid)
       | SlowReadmissionPolicy.Back => false
       end
    then Some gid else None in
  option_or (find_task self QueueClass.Waiting is_pending_restart_patch)
    (option_or (find_task self QueueClass.Active is_retained_retry)
      (option_or preferred_demoted
        (option_or (find_task self QueueClass.Waiting is_waiting_candidate) demoted))).

Definition blocked_by_slots (self : RequestScheduler) : bool :=
  existsb (fun task => negb (owns_slot task) && admissible task
             && ((t_state task == TaskState.Waiting)
                 || ((t_state task == TaskState.RetryWait) && t_retry_ready task)
                 || ((t_state task == TaskState.WaitingSlow) && t_slow_readmission_ready task)))
    (btree_values (rs_tasks self))
  && (sc_max_active_tasks (rs_config self) <=? active_slot_count self).

(** After an ordinary admission every ready demoted task moves up one position. *)
Definition advance_slow_position (task : ScheduledTask) : ScheduledTask :=
  if t_slow_readmission_ready task
  then task <| t_slow_remaining_position := usize_saturating_sub (t_slow_remaining_position task) 1 |>
  else task.

Definition admit_next_at (at_ : MonotonicInstant) : Sched SchedulerOutcome :=
  self ← get_self;
  gid ←? ok_or (admission_choice self)
          (if blocked_by_slots self then SchedulerError.ActiveLimitReached
           else SchedulerError.NoEligibleTask);
  original ←? task_clone self gid;
  if (t_state original == TaskState.Waiting)
     && (t_pending_option_patch_mode original == Some PendingOptionPatchMode.ActiveRestart)
  then
    patch_id ←? ok_or (t_pending_option_patch original) SchedulerError.InternalInvariant;
    let action := SchedulerAction.RestartApplicationScheduled in
    let updated := original <| t_pending_barrier :=
      Some (PendingBarrier.OptionPatchApplication (t_generation original) patch_id) |> in
    let effects := [TransitionEffect.ApplyOptionPatch (t_task_id updated) (t_gid updated) patch_id
                      (t_pending_credential_requirement updated)] in
    finish_action original (Some updated) true action at_ effects false (rs_ids self)
  else
    action ←? match t_state original with
      | TaskState.Waiting => Ok SchedulerAction.SchedulerAdmission
      | TaskState.RetryWait => Ok SchedulerAction.RetryReadmissionSucceeded
      | TaskState.WaitingSlow => Ok SchedulerAction.SlowReadmissionSucceeded
      | _ => Err SchedulerError.InternalInvariant
      end;
    '(updated, effects) ←? plan_admission self original action [];
    let ordinary := t_state original != TaskState.WaitingSlow in
    result ← finish_action original (Some updated) true action at_ effects true (rs_ids self);
    _ ← modify (fun self =>
          if ordinary then self <| rs_tasks := advance_slow_position <$> rs_tasks self |> else self);
    mret result.
