(* ===== verification/SchedulerEvents.v ===== *)
(** * Scheduler events

    Model of [RequestScheduler::handle_event_at] and of the event handlers it
    dispatches to ([crates/ariax-core/src/scheduler.rs]). *)

From S2P Require Import Prelude Ids Errors State Snapshot PersistedDelay CommandKinds Transition Command.
From S2P Require Import Scheduler SchedulerCommands.
From Stdlib Require Import Ascii String.
Open Scope list_scope.

(** ** Dispositions *)

Definition generation_disposition (expected actual : Generation)
    : result SchedulerError EventDisposition :=
  if actual <? expected then Ok EventDisposition.Stale
  else if expected <? actual then Err (SchedulerError.StaleGeneration expected actual)
  else Ok EventDisposition.Fresh.

Definition token_disposition (expected last : option N) (actual : N) : EventDisposition :=
  if expected == Some actual then EventDisposition.Fresh
  else if last == Some actual then EventDisposition.Duplicate
  else EventDisposition.Stale.

Definition ignored_for_disposition (task : ScheduledTask) (disposition : EventDisposition)
    (at_ : MonotonicInstant) : result SchedulerError SchedulerOutcome :=
  match disposition with
  | EventDisposition.Fresh => Err SchedulerError.InternalInvariant
  | EventDisposition.Duplicate => ignored_outcome task SchedulerAction.DuplicateEventIgnored at_
  | EventDisposition.Stale => ignored_outcome task SchedulerAction.StaleEventIgnored at_
  end.

Definition stale_if_rejected_event (task : ScheduledTask) (action : SchedulerAction)
    (at_ : MonotonicInstant) : result SchedulerError (option SchedulerOutcome) :=
  if TransitionContract_accepts (transition_contract (t_state task) action) then Ok None
  else Some <$> ignored_for_disposition task EventDisposition.Stale at_.

(** [if let Some(outcome) = Self::stale_if_rejected_event(..)? { return Ok(outcome); } k]. *)
Definition unless_stale (original : ScheduledTask) (action : SchedulerAction) (at_ : MonotonicInstant)
    (k : Sched SchedulerOutcome) : Sched SchedulerOutcome :=
  stale ←? stale_if_rejected_event original action at_;
  match stale with
  | Some outcome => mret outcome
  | None => k
  end.

Definition mark_non_token_event (task : ScheduledTask) (kind : TaskEventKind) : ScheduledTask :=
  task <| t_seen_events := {[ kind ]} ∪ t_seen_events task |>.

(** ** Persistence acknowledgements *)

Definition generation_persisted (original : ScheduledTask) (generation : Generation)
    (at_ : MonotonicInstant) : Sched SchedulerOutcome :=
  self ← get_self;
  let action := SchedulerAction.GenerationPersistenceSucceeded in
  let matches := match t_pending_barrier original with
    | Some (PendingBarrier.GenerationPersistence expected) => expected =? generation
    | _ => false
    end in
  if negb matches then lift (ignored_for_disposition original EventDisposition.Stale at_)
  else unless_stale original action at_ (
    let updated := original <| t_pending_barrier := None |> <| t_slot := SlotOwnership.Active |> in
    let updated := mark_non_token_event updated TaskEventKind.GenerationPersisted in
    let effects := [TransitionEffect.StartAllocation (t_task_id updated) (t_gid updated) generation] in
    finish_action original (Some updated) true action at_ effects true (rs_ids self)).

Definition option_patch_persistence_completed (original : ScheduledTask) (patch_id : OptionPatchId)
    (succeeded : bool) (at_ : MonotonicInstant) : Sched SchedulerOutcome :=
  self ← get_self;
  let expected := match t_pending_barrier original with
    | Some (PendingBarrier.OptionPatchPersistence generation patch_id) =>
        if generation =? t_generation original then Some patch_id else None
    | _ => None
    end in
  let disposition := token_disposition expected (t_last_option_patch_persistence original) patch_id in
  if disposition != EventDisposition.Fresh
  then lift (ignored_for_disposition original disposition at_)
  else if t_pending_option_patch original != Some patch_id then throw SchedulerError.InternalInvariant
  else if t_pending_option_patch_mode original != Some PendingOptionPatchMode.ActiveRestart
  then throw SchedulerError.InternalInvariant
  else
    let updated := original <| t_pending_barrier := None |>
                            <| t_last_option_patch_persistence := Some patch_id |> in
    let updated := if negb succeeded
      then updated <| t_pending_option_patch := None |>
                   <| t_pending_option_patch_mode := None |>
                   <| t_pending_credential_requirement := None |>
      else updated in
    let finish updated action effects :=
      let publish := match action with
        | SchedulerAction.DeferredRemoveCompleted => false
        | SchedulerAction.DeferredPauseCompleted | SchedulerAction.DeferredResumeCompleted => true
        | _ => succeeded
        end in
      finish_action original (Some updated) true action at_ effects publish (rs_ids self) in
    '(control, updated, effects) ←? complete_pending_user_control original updated [];
    match control with
    | Some action => finish updated action effects
    | None =>
        let action := if succeeded then SchedulerAction.ActiveRestartOptionPatchPersisted
                      else SchedulerAction.ActiveRestartOptionPatchPersistenceFailed in
        unless_stale original action at_ (
          state ←? target_state original action;
          let updated := updated <| t_state := state |> in
          '(updated, effects) ←?
            (if succeeded
             then begin_cancellation updated DrainTarget.PausedRestarting false effects
                    "option_patch_persisted"
             else Ok (updated, effects));
          finish updated action effects)
    end.

Definition option_patch_applied_action (mode : PendingOptionPatchMode)
    (credential_requirement : option CredentialRequirementKey) (succeeded : bool)
    : result SchedulerError SchedulerAction :=
  match mode, credential_requirement, succeeded with
  | PendingOptionPatchMode.ActiveRestart, _, true => Ok SchedulerAction.RestartApplicationSucceeded
  | PendingOptionPatchMode.ActiveRestart, _, false => Err SchedulerError.InternalInvariant
  | PendingOptionPatchMode.InPlace, Some _, true => Ok SchedulerAction.CredentialsSatisfied
  | PendingOptionPatchMode.InPlace, Some _, false => Ok SchedulerAction.CredentialSatisfactionFailed
  | PendingOptionPatchMode.InPlace, None, true => Ok SchedulerAction.InPlaceOptionPatchApplied
  | PendingOptionPatchMode.InPlace, None, false => Ok SchedulerAction.InPlaceOptionPatchApplicationFailed
  | PendingOptionPatchMode.MatchingHostKey, _, _ => Err SchedulerError.InternalInvariant
  end.

(** The task after a patch acknowledgement, before the state is chosen. *)
Definition clear_option_patch (original : ScheduledTask) (patch_id : OptionPatchId) (succeeded : bool)
    : ScheduledTask :=
  let updated := original
    <| t_pending_barrier := None |>
    <| t_pending_option_patch := None |>
    <| t_pending_option_patch_mode := None |>
    <| t_pending_credential_requirement := None |>
    <| t_last_option_patch_application := Some patch_id |> in
  if succeeded && is_some (t_pending_credential_requirement original)
  then updated <| t_conditions := (t_conditions updated) <| tc_needs_credentials := None |> |>
  else updated.

Definition option_patch_application_completed (original : ScheduledTask) (patch_id : OptionPatchId)
    (error : option PublicError) (at_ : MonotonicInstant) : Sched SchedulerOutcome :=
  self ← get_self;
  let expected := match t_pending_barrier original with
    | Some (PendingBarrier.OptionPatchApplication generation patch_id) =>
        if generation =? t_generation original then Some patch_id else None
    | _ => None
    end in
  let disposition := token_disposition expected (t_last_option_patch_application original) patch_id in
  if disposition != EventDisposition.Fresh
  then lift (ignored_for_disposition original disposition at_)
  else if t_pending_option_patch original != Some patch_id then throw SchedulerError.InternalInvariant
  else
    mode ←? ok_or (t_pending_option_patch_mode original) SchedulerError.InternalInvariant;
    if mode == PendingOptionPatchMode.MatchingHostKey then throw SchedulerError.InternalInvariant
    else
      let succeeded := is_none error in
      let credential_requirement := t_pending_credential_requirement original in
      if is_some credential_requirement && (required_credentials original != credential_requirement)
      then throw SchedulerError.StaleCredentialRequirement
      else
        let updated := clear_option_patch original patch_id succeeded in
        let finish updated action effects :=
          let publish := match action with
            | SchedulerAction.DeferredPauseCompleted | SchedulerAction.DeferredResumeCompleted
            | SchedulerAction.RestartApplicationSucceeded | SchedulerAction.CredentialsSatisfied => true
            | _ => false
            end in
          finish_action original (Some updated) true action at_ effects publish (rs_ids self) in
        if is_pending_remove updated then
          '(control, updated, effects) ←? complete_pending_user_control original updated [];
          action ←? ok_or control SchedulerError.InternalInvariant;
          finish updated action effects
        else if (mode == PendingOptionPatchMode.ActiveRestart) && negb succeeded then
          let action := SchedulerAction.RestartApplicationFailed in
          unless_stale original action at_ (
            let updated := updated <| t_pending_user_control := None |> in
            state ←? target_state original action;
            let updated := updated <| t_state := state |> in
            error ←? ok_or error SchedulerError.InternalInvariant;
            updated ←? begin_terminal updated Aria2Status.Error (Some error);
            finish updated action [])
        else
          '(control, updated, effects) ←? complete_pending_user_control original updated [];
          match control with
          | Some action => finish updated action effects
          | None =>
              action ←? option_patch_applied_action mode credential_requirement succeeded;
              unless_stale original action at_ (
                state ←? target_state original action;
                finish (updated <| t_state := state |>) action effects)
          end.

Definition host_key_resolution_completed (original : ScheduledTask) (resolution_id : HostKeyResolutionId)
    (succeeded : bool) (at_ : MonotonicInstant) : Sched SchedulerOutcome :=
  self ← get_self;
  let '(expected, challenge) := match t_pending_barrier original with
    | Some (PendingBarrier.HostKeyResolution generation resolution_id challenge) =>
        if generation =? t_generation original then (Some resolution_id, Some challenge) else (None, None)
    | _ => (None, None)
    end in
  let disposition := token_disposition expected (t_last_host_key_resolution original) resolution_id in
  if disposition != EventDisposition.Fresh
  then lift (ignored_for_disposition original disposition at_)
  else if ((fun value => hk_id (ph_summary value)) <$> t_host_key_challenge original) != challenge
  then throw SchedulerError.InternalInvariant
  else if is_some (t_pending_option_patch original)
          && (t_pending_option_patch_mode original != Some PendingOptionPatchMode.MatchingHostKey)
  then throw SchedulerError.InternalInvariant
  else
    let updated := original
      <| t_pending_barrier := None |>
      <| t_pending_option_patch := None |>
      <| t_pending_option_patch_mode := None |>
      <| t_last_host_key_resolution := Some resolution_id |> in
    let updated := if succeeded then updated <| t_host_key_challenge := None |> else updated in
    let finish updated action effects :=
      finish_action original (Some updated) true action at_ effects
        (succeeded && (action != SchedulerAction.DeferredRemoveCompleted)) (rs_ids self) in
    if is_pending_remove updated then
      '(control, updated, effects) ←? complete_pending_user_control original updated [];
      action ←? ok_or control SchedulerError.InternalInvariant;
      finish updated action effects
    else
      let action := if succeeded then SchedulerAction_for_host_key_resolution (t_desired_paused original)
                    else SchedulerAction.HostKeyResolutionFailed in
      unless_stale original action at_ (
        state ←? target_state original action;
        finish (updated <| t_state := state |>) action []).

(** ** Allocation and active work *)

Definition allocation_succeeded (original : ScheduledTask) (at_ : MonotonicInstant)
    : Sched SchedulerOutcome :=
  self ← get_self;
  let action := SchedulerAction.AllocationSucceeded in
  unless_stale original action at_ (
    state ←? target_state original action;
    let updated := mark_non_token_event (original <| t_state := state |>)
                     TaskEventKind.AllocationSucceeded in
    finish_action original (Some updated) true action at_ [] true (rs_ids self)).

Definition allocation_retryable (original : ScheduledTask) (retry_at at_ : MonotonicInstant)
    : Sched SchedulerOutcome :=
  self ← get_self;
  let action := SchedulerAction.AllocationRetryableFailure in
  unless_stale original action at_ (
    '(retry_timer_id, ids) ←? IdCounters_retry_timer (rs_ids self);
    state ←? target_state original action;
    let updated := original <| t_state := state |>
                            <| t_retry_timer := Some (retry_timer_id, retry_at) |>
                            <| t_retry_ready := false |> in
    let '(updated, effects) :=
      if sc_retry_wait_holds_slot (rs_config self)
      then (updated <| t_slot := SlotOwnership.RetryRetained |>, [])
      else release_slot updated [] in
    let effects := effects ++ [TransitionEffect.ScheduleRetry (t_task_id updated) (t_gid updated)
                                 (t_generation updated) retry_timer_id retry_at] in
    let updated := mark_non_token_event updated TaskEventKind.AllocationRetryable in
    finish_action original (Some updated) true action at_ effects true ids).

Definition allocation_host_key_challenge (original : ScheduledTask)
    (challenge : PresentedHostKeyChallenge) (active : bool) (at_ : MonotonicInstant)
    : Sched SchedulerOutcome :=
  self ← get_self;
  let action := if active then SchedulerAction.ActiveHostKeyChallengeRequired
                else SchedulerAction.HostKeyChallengeRequired in
  unless_stale original action at_ (
    state ←? target_state original action;
    let updated := original <| t_state := state |> <| t_host_key_challenge := Some challenge |> in
    let effects := [TransitionEffect.PersistHostKeyChallenge (t_task_id updated) (t_gid updated) challenge] in
    let '(updated, effects) := release_slot updated effects in
    let updated := mark_non_token_event updated
      (if active then TaskEventKind.ActiveHostKeyChallenge
       else TaskEventKind.AllocationHostKeyChallenge) in
    finish_action original (Some updated) true action at_ effects true (rs_ids self)).

Definition allocation_failed (original : ScheduledTask) (error : PublicError) (at_ : MonotonicInstant)
    : Sched SchedulerOutcome :=
  self ← get_self;
  let action := SchedulerAction.AllocationTerminalFailure in
  unless_stale original action at_ (
    state ←? target_state original action;
    let '(updated, effects) := release_slot (original <| t_state := state |>) [] in
    updated ←? begin_terminal updated Aria2Status.Error (Some error);
    let updated := mark_non_token_event updated TaskEventKind.AllocationFailed in
    finish_action original (Some updated) true action at_ effects false (rs_ids self)).

Definition retry_ready (original : ScheduledTask) (retry_timer_id : RetryTimerId)
    (at_ : MonotonicInstant) : Sched SchedulerOutcome :=
  self ← get_self;
  let disposition := token_disposition (fst <$> t_retry_timer original) (t_last_retry_timer original)
                       retry_timer_id in
  if disposition != EventDisposition.Fresh
  then lift (ignored_for_disposition original disposition at_)
  else
    let can_admit := owns_slot original
      || (active_slot_count self <? sc_max_active_tasks (rs_config self)) in
    let action :=
      if can_admit && negb (t_desired_paused original)
         && negb (TaskConditions_blocks_admission (t_conditions original))
      then SchedulerAction.RetryReadmissionSucceeded
      else SchedulerAction.RetryReadmissionBlocked in
    unless_stale original action at_ (
      let updated := original <| t_retry_timer := None |>
                              <| t_last_retry_timer := Some retry_timer_id |>
                              <| t_retry_ready := true |> in
      '(updated, effects) ←?
        (if action == SchedulerAction.RetryReadmissionSucceeded
         then plan_admission self updated action []
         else Ok (updated, []));
      finish_action original (Some updated) true action at_ effects true (rs_ids self)).

Definition active_retry_idle (original : ScheduledTask) (retry_at at_ : MonotonicInstant)
    : Sched SchedulerOutcome :=
  self ← get_self;
  let action := SchedulerAction.LeaseRetryableWithoutRunnableWork in
  unless_stale original action at_ (
    '(retry_timer_id, ids) ←? IdCounters_retry_timer (rs_ids self);
    state ←? target_state original action;
    let updated := original <| t_state := state |>
                            <| t_retry_timer := Some (retry_timer_id, retry_at) |>
                            <| t_retry_ready := false |> in
    let '(updated, effects) :=
      if sc_retry_wait_holds_slot (rs_config self)
      then (updated <| t_slot := SlotOwnership.RetryRetained |>, [])
      else release_slot updated [] in
    let effects := effects ++ [TransitionEffect.ScheduleRetry (t_task_id updated) (t_gid updated)
                                 (t_generation updated) retry_timer_id retry_at] in
    let updated := mark_non_token_event updated TaskEventKind.ActiveRetryIdle in
    finish_action original (Some updated) true action at_ effects true ids).

Definition active_representation_restart (original : ScheduledTask) (at_ : MonotonicInstant)
    : Sched SchedulerOutcome :=
  self ← get_self;
  let action := SchedulerAction.RepresentationRestart in
  unless_stale original action at_ (
    '(updated, effects) ←? plan_admission self original action [];
    let updated := mark_non_token_event updated TaskEventKind.ActiveRepresentationRestart in
    finish_action original (Some updated) true action at_ effects true (rs_ids self)).

Definition data_complete (original : ScheduledTask) (seed : bool) (at_ : MonotonicInstant)
    : Sched SchedulerOutcome :=
  self ← get_self;
  let action := if seed then SchedulerAction.BitTorrentPayloadComplete
                else SchedulerAction.AllRequiredDataReceived in
  unless_stale original action at_ (
    state ←? target_state original action;
    let updated := mark_non_token_event (original <| t_state := state |>)
      (if seed then TaskEventKind.BitTorrentPayloadComplete else TaskEventKind.DataComplete) in
    finish_action original (Some updated) true action at_ [] true (rs_ids self)).

Definition no_space (original : ScheduledTask) (condition : NoSpaceCondition) (at_ : MonotonicInstant)
    : Sched SchedulerOutcome :=
  self ← get_self;
  _ ←? map_err (fun _ => SchedulerError.InvalidTaskConditions) (NoSpaceCondition_validate condition);
  let action := SchedulerAction.MidTransferNoSpace in
  unless_stale original action at_ (
    state ←? target_state original action;
    let updated := original <| t_state := state |> in
    let updated := updated <| t_conditions := (t_conditions updated) <| tc_no_space := Some condition |> |> in
    let effects := [TransitionEffect.PersistConditions (t_task_id updated) (t_gid updated)
                      (t_conditions updated)] in
    '(updated, effects) ←? begin_cancellation updated DrainTarget.Waiting false effects "no_space";
    let updated := mark_non_token_event updated TaskEventKind.NoSpace in
    finish_action original (Some updated) true action at_ effects true (rs_ids self)).

Definition terminal_failure (original : ScheduledTask) (error : PublicError) (at_ : MonotonicInstant)
    : Sched SchedulerOutcome :=
  self ← get_self;
  let action := SchedulerAction.TerminalWorkFailure in
  unless_stale original action at_ (
    state ←? target_state original action;
    let updated := original <| t_state := state |> <| t_error := Some error |> in
    '(updated, effects) ←? begin_cancellation updated DrainTarget.Error false [] "terminal_failure";
    let updated := mark_non_token_event updated TaskEventKind.TerminalFailure in
    finish_action original (Some updated) true action at_ effects false (rs_ids self)).

(** ** Slow slots *)

Definition slow_demoted (original : ScheduledTask) (decision : SlowReadmissionDecision)
    (at_ : MonotonicInstant) : Sched SchedulerOutcome :=
  self ← get_self;
  if (sd_delay_ms decision =? 0) || (MAX_PERSISTED_MILLISECONDS <? sd_scheduled_at_ms decision)
  then throw SchedulerError.InvalidSlowReadmissionDecision
  else
    let action := SchedulerAction.SlowSlotDemote in
    unless_stale original action at_ (
      state ←? target_state original action;
      let updated := original <| t_state := state |>
                              <| t_pending_slow_readmission := Some decision |> in
      position ←? ok_or (position (t_gid original) (SchedulerQueues_get (rs_queues self) QueueClass.Active))
                 SchedulerError.InternalInvariant;
      let original_position := N.of_nat position in
      demotion_count ←? ok_or (u32_checked_add (t_slow_demotion_count original) 1)
                       SchedulerError.InternalInvariant;
      let updated := updated
        <| t_slow_demotion_count := demotion_count |>
        <| t_slow_slot := Some (mkSlowSlotPersistence original_position demotion_count decision) |>
        <| t_slow_remaining_position := original_position |> in
      '(updated, effects) ←? begin_cancellation updated DrainTarget.WaitingSlow false [] "slow_demoted";
      let updated := mark_non_token_event updated TaskEventKind.SlowDemoted in
      finish_action original (Some updated) true action at_ effects true (rs_ids self)).

Definition slow_paused (original : ScheduledTask) (at_ : MonotonicInstant) : Sched SchedulerOutcome :=
  self ← get_self;
  let action := SchedulerAction.SlowSlotPause in
  unless_stale original action at_ (
    state ←? target_state original action;
    let updated := original <| t_state := state |> <| t_desired_paused := true |> in
    '(updated, effects) ←? begin_cancellation updated DrainTarget.PausedSlow false [] "slow_paused";
    let updated := mark_non_token_event updated TaskEventKind.SlowPaused in
    finish_action original (Some updated) true action at_ effects true (rs_ids self)).

(** A waiting task that the readmission policy puts before [original]. *)
Definition waiting_first (self : RequestScheduler) (original : ScheduledTask) : bool :=
  existsb (fun gid => from_option (fun task =>
      admissible task && ((t_state task == TaskState.Waiting)
        || ((t_state task == TaskState.RetryWait) && t_retry_ready task))) false (rs_tasks self !! gid))
    (SchedulerQueues_get (rs_queues self) QueueClass.Waiting)
  && match sc_slow_readmission_policy (rs_config self) with
     | SlowReadmissionPolicy.Front => false
     | SlowReadmissionPolicy.OriginalPosition => negb (t_slow_remaining_position original =? 0)
     | SlowReadmissionPolicy.Back => true
     end.

Definition slow_readmit (original : ScheduledTask) (readmission_id : SlowReadmissionId)
    (at_ : MonotonicInstant) : Sched SchedulerOutcome :=
  self ← get_self;
  let disposition := token_disposition (fst <$> t_slow_readmission original)
                       (t_last_slow_readmission original) readmission_id in
  if disposition != EventDisposition.Fresh
  then lift (ignored_for_disposition original disposition at_)
  else
    let can_admit := negb (waiting_first self original)
      && (active_slot_count self <? sc_max_active_tasks (rs_config self))
      && negb (t_desired_paused original)
      && negb (TaskConditions_blocks_admission (t_conditions original)) in
    let action := if can_admit then SchedulerAction.SlowReadmissionSucceeded
                  else SchedulerAction.SlowReadmissionBlocked in
    unless_stale original action at_ (
      let updated := original <| t_slow_readmission := None |>
                              <| t_last_slow_readmission := Some readmission_id |>
                              <| t_slow_readmission_ready := true |> in
      '(updated, effects) ←?
        (if action == SchedulerAction.SlowReadmissionSucceeded
         then plan_admission self updated action []
         else Ok (updated, []));
      finish_action original (Some updated) true action at_ effects true (rs_ids self)).

(** ** Verification and seeding *)

Definition verification_succeeded (original : ScheduledTask) (at_ : MonotonicInstant)
    : Sched SchedulerOutcome :=
  self ← get_self;
  let action := SchedulerAction.VerificationSucceeded in
  unless_stale original action at_ (
    state ←? target_state original action;
    let '(updated, effects) := release_slot (original <| t_state := state |>) [] in
    updated ←? begin_terminal updated Aria2Status.Complete None;
    let updated := mark_non_token_event updated TaskEventKind.VerificationSucceeded in
    finish_action original (Some updated) true action at_ effects false (rs_ids self)).

Definition verification_recoverable (original : ScheduledTask) (at_ : MonotonicInstant)
    : Sched SchedulerOutcome :=
  self ← get_self;
  let action := SchedulerAction.VerificationRecoverableFailure in
  unless_stale original action at_ (
    state ←? target_state original action;
    let '(updated, effects) := release_slot (original <| t_state := state |>) [] in
    let updated := mark_non_token_event updated TaskEventKind.VerificationRecoverable in
    finish_action original (Some updated) true action at_ effects true (rs_ids self)).

Definition verification_failed (original : ScheduledTask) (error : PublicError) (at_ : MonotonicInstant)
    : Sched SchedulerOutcome :=
  self ← get_self;
  let action := SchedulerAction.VerificationTerminalFailure in
  unless_stale original action at_ (
    state ←? target_state original action;
    let '(updated, effects) := release_slot (original <| t_state := state |>) [] in
    updated ←? begin_terminal updated Aria2Status.Error (Some error);
    let updated := mark_non_token_event updated TaskEventKind.VerificationFailed in
    finish_action original (Some updated) true action at_ effects false (rs_ids self)).

Definition seeding_complete (original : ScheduledTask) (at_ : MonotonicInstant)
    : Sched SchedulerOutcome :=
  self ← get_self;
  let action := SchedulerAction.SeedingStopped in
  unless_stale original action at_ (
    state ←? target_state original action;
    let '(updated, effects) := release_slot (original <| t_state := state |>) [] in
    updated ←? begin_terminal updated Aria2Status.Complete None;
    let updated := mark_non_token_event updated TaskEventKind.SeedingComplete in
    finish_action original (Some updated) true action at_ effects false (rs_ids self)).

Definition seeding_failed (original : ScheduledTask) (error : PublicError) (at_ : MonotonicInstant)
    : Sched SchedulerOutcome :=
  self ← get_self;
  let action := SchedulerAction.BitTorrentFailure in
  unless_stale original action at_ (
    state ←? target_state original action;
    let '(updated, effects) := release_slot (original <| t_state := state |>) [] in
    updated ←? begin_terminal updated Aria2Status.Error (Some error);
    let updated := mark_non_token_event updated TaskEventKind.SeedingFailed in
    finish_action original (Some updated) true action at_ effects false (rs_ids self)).

(** ** Cancellation, probes and terminal acknowledgements *)

(** What a drained cancellation does for each target: the task, its effects,
    the identifiers and whether a snapshot is published. *)
Definition drain_target_plan (original updated : ScheduledTask) (target : DrainTarget)
    (action : SchedulerAction) (effects : list TransitionEffect) (ids : IdCounters)
    : result SchedulerError (ScheduledTask * list TransitionEffect * IdCounters * bool) :=
  match target with
  | DrainTarget.PausedRestarting =>
      if t_pending_source_replacement updated then Ok (updated, effects, ids, true)
      else
        patch_id ← ok_or (t_pending_option_patch updated) SchedulerError.InternalInvariant;
        if t_pending_option_patch_mode updated != Some PendingOptionPatchMode.ActiveRestart
        then Err SchedulerError.InternalInvariant
        else
          state ← target_state original action;
          let updated := updated
            <| t_state := state |>
            <| t_pending_barrier :=
                 Some (PendingBarrier.OptionPatchApplication (t_generation updated) patch_id) |> in
          Ok (updated,
              effects ++ [TransitionEffect.ApplyOptionPatch (t_task_id updated) (t_gid updated) patch_id
                            (t_pending_credential_requirement updated)],
              ids, false)
  | DrainTarget.WaitingSlow =>
      match t_pending_slow_readmission updated with
      | Some decision =>
          let updated := updated <| t_pending_slow_readmission := None |> in
          '(readmission_id, ids) ← IdCounters_slow_readmission ids;
          Ok (updated <| t_slow_readmission := Some (readmission_id, sd_readmit_at decision) |>,
              effects ++ [TransitionEffect.ScheduleSlowReadmission (t_task_id updated) (t_gid updated)
                            (t_generation updated) readmission_id (sd_readmit_at decision)],
              ids, true)
      | None => Ok (updated, effects, ids, true)
      end
  | DrainTarget.Error =>
      error ← ok_or (t_error updated) SchedulerError.InternalInvariant;
      updated ← begin_terminal updated Aria2Status.Error (Some error);
      Ok (updated, effects, ids, false)
  | DrainTarget.Removed =>
      updated ← begin_terminal updated Aria2Status.Removed None;
      Ok (updated, effects, ids, false)
  | DrainTarget.Paused | DrainTarget.PausedSlow | DrainTarget.Waiting => Ok (updated, effects, ids, true)
  end.

(** The automatic readiness probe of a task that drained without space. *)
Definition automatic_probe_at (updated : ScheduledTask) : option MonotonicInstant :=
  match t_state updated with
  | TaskState.Waiting | TaskState.WaitingSlow | TaskState.RetryWait
  | TaskState.Paused | TaskState.PausedSlow =>
      condition ← tc_no_space (t_conditions updated); ns_retry_at condition
  | _ => None
  end.

Definition cancellation_drained (original : ScheduledTask) (generation : Generation)
    (at_ : MonotonicInstant) : Sched SchedulerOutcome :=
  self ← get_self;
  match (match t_pending_barrier original with
         | Some (PendingBarrier.CancellationDrain expected target _) =>
             if expected =? generation then Some target else None
         | _ => None
         end) with
  | None => lift (ignored_for_disposition original EventDisposition.Stale at_)
  | Some target =>
      let action := if target == DrainTarget.PausedRestarting then SchedulerAction.RestartQuiesced
                    else SchedulerAction.CancellationDrainSucceeded in
      unless_stale original action at_ (
        if (target != DrainTarget.PausedRestarting) && (t_state original != DrainTarget_state target)
        then throw SchedulerError.InternalInvariant
        else
          let '(updated, effects) := release_slot (original <| t_pending_barrier := None |>) [] in
          '(updated, effects, ids, publish) ←?
            drain_target_plan original updated target action effects (rs_ids self);
          '(updated, effects, ids) ←?
            match automatic_probe_at updated with
            | Some probe_at =>
                schedule_no_space_probe updated NoSpaceProbeOrigin.AutomaticRetry probe_at effects ids
            | None => Ok (updated, effects, ids)
            end;
          let updated := mark_non_token_event updated TaskEventKind.CancellationDrained in
          finish_action original (Some updated) true action at_ effects publish ids)
  end.

Definition no_space_probe_completed (original : ScheduledTask) (probe_id : NoSpaceProbeId)
    (origin : NoSpaceProbeOrigin) (ready : bool) (next_retry_at : option MonotonicInstant)
    (at_ : MonotonicInstant) : Sched SchedulerOutcome :=
  self ← get_self;
  let disposition := token_disposition (fst <$> t_no_space_probe original)
                       (t_last_no_space_probe original) probe_id in
  if (disposition != EventDisposition.Fresh) || ((snd <$> t_no_space_probe original) != Some origin)
  then lift (ignored_for_disposition original
               (if disposition == EventDisposition.Duplicate then EventDisposition.Duplicate
                else EventDisposition.Stale) at_)
  else
    action ←? ok_or (SchedulerAction_for_no_space_probe_result (t_state original) origin
                       (t_desired_paused original) ready)
               (SchedulerError.Conflict (t_state original) "no_space_probe_completed");
    unless_stale original action at_ (
      let updated := original <| t_no_space_probe := None |>
                              <| t_last_no_space_probe := Some probe_id |> in
      conditions ←?
        (if ready then Ok ((t_conditions updated) <| tc_no_space := None |>)
         else match tc_no_space (t_conditions updated) with
              | Some condition =>
                  Ok ((t_conditions updated)
                        <| tc_no_space := Some (condition <| ns_retry_at := next_retry_at |>) |>)
              | None => Err SchedulerError.InternalInvariant
              end);
      let updated := updated <| t_conditions := conditions |> in
      state ←? target_state original action;
      let updated := updated <| t_state := state |> in
      let effects := [TransitionEffect.PersistConditions (t_task_id updated) (t_gid updated)
                        (t_conditions updated)] in
      '(updated, effects, ids) ←?
        match (if ready then None else next_retry_at) with
        | Some probe_at =>
            schedule_no_space_probe updated NoSpaceProbeOrigin.AutomaticRetry probe_at effects
              (rs_ids self)
        | None => Ok (updated, effects, rs_ids self)
        end;
      finish_action original (Some updated) true action at_ effects true ids).

Definition terminal_persisted (original : ScheduledTask) (generation : Generation)
    (status : Aria2Status) (at_ : MonotonicInstant) : Sched SchedulerOutcome :=
  self ← get_self;
  let matches := match t_pending_barrier original with
    | Some (PendingBarrier.TerminalPersistence expected_generation expected_status) =>
        (expected_generation =? generation) && (expected_status == status)
    | _ => false
    end in
  if negb matches then
    if (t_state original == TaskState.StoppedResult) && (t_stopped_status original == Some status)
       && t_terminal_persisted original
    then lift (ignored_for_disposition original EventDisposition.Duplicate at_)
    else throw SchedulerError.InvalidTerminalAcknowledgement
  else
    let action := SchedulerAction.TerminalPersistenceSucceeded in
    unless_stale original action at_ (
      state ←? target_state original action;
      let updated := original <| t_pending_barrier := None |>
                              <| t_state := state |>
                              <| t_stopped_status := Some status |>
                              <| t_terminal_persisted := true |> in
      let updated := mark_non_token_event updated TaskEventKind.TerminalPersisted in
      finish_action original (Some updated) true action at_ [] true (rs_ids self)).

Definition stopped_result_deletion_completed (original : ScheduledTask)
    (deletion_id : StoppedResultDeletionId) (succeeded : bool) (at_ : MonotonicInstant)
    : Sched SchedulerOutcome :=
  self ← get_self;
  let expected := match t_pending_barrier original with
    | Some (PendingBarrier.StoppedResultDeletion generation deletion_id) =>
        if generation =? t_generation original then Some deletion_id else None
    | _ => None
    end in
  let disposition := token_disposition expected (t_last_stopped_deletion original) deletion_id in
  if disposition != EventDisposition.Fresh
  then lift (ignored_for_disposition original disposition at_)
  else
    let action := if succeeded then SchedulerAction.StoppedResultDeletionSucceeded
                  else SchedulerAction.StoppedResultDeletionFailed in
    unless_stale original action at_ (
      if succeeded then
        finish_action original None true action at_ [] false (rs_ids self)
      else
        let updated := original <| t_pending_barrier := None |>
                                <| t_last_stopped_deletion := Some deletion_id |> in
        finish_action original (Some updated) true action at_ [] false (rs_ids self)).

(** ** Dispatch *)

Definition barrier_accepts_event (barrier : option PendingBarrier) (kind : TaskEventKind) : bool :=
  match barrier with
  | Some (PendingBarrier.GenerationPersistence _) => kind == TaskEventKind.GenerationPersisted
  | Some (PendingBarrier.OptionPatchPersistence _ _) =>
      match kind with
      | TaskEventKind.OptionPatchPersisted | TaskEventKind.OptionPatchPersistenceFailed => true
      | _ => false
      end
  | Some (PendingBarrier.OptionPatchApplication _ _) =>
      match kind with
      | TaskEventKind.OptionPatchApplied | TaskEventKind.OptionPatchApplicationFailed => true
      | _ => false
      end
  | Some (PendingBarrier.HostKeyResolution _ _ _) =>
      match kind with
      | TaskEventKind.HostKeyResolutionPersisted | TaskEventKind.HostKeyResolutionFailed => true
      | _ => false
      end
  | Some (PendingBarrier.TerminalPersistence _ _) => kind == TaskEventKind.TerminalPersisted
  | Some (PendingBarrier.StoppedResultDeletion _ _) =>
      match kind with
      | TaskEventKind.StoppedResultDeleted | TaskEventKind.StoppedResultDeletionFailed => true
      | _ => false
      end
  | Some (PendingBarrier.CancellationDrain _ _ _) | None => true
  end.

(** The handler of a fresh, admitted event. *)
Definition dispatch_event (original : ScheduledTask) (event : TaskEvent) (at_ : MonotonicInstant)
    : Sched SchedulerOutcome :=
  match event with
  | TaskEvent.GenerationPersisted _ generation => generation_persisted original generation at_
  | TaskEvent.OptionPatchPersisted _ _ patch_id =>
      option_patch_persistence_completed original patch_id true at_
  | TaskEvent.OptionPatchPersistenceFailed _ _ patch_id =>
      option_patch_persistence_completed original patch_id false at_
  | TaskEvent.OptionPatchApplied _ _ patch_id =>
      option_patch_application_completed original patch_id None at_
  | TaskEvent.OptionPatchApplicationFailed _ _ patch_id error =>
      option_patch_application_completed original patch_id (Some error) at_
  | TaskEvent.AllocationSucceeded _ _ => allocation_succeeded original at_
  | TaskEvent.AllocationRetryable _ _ retry_at => allocation_retryable original retry_at at_
  | TaskEvent.AllocationHostKeyChallenge _ _ challenge =>
      allocation_host_key_challenge original challenge false at_
  | TaskEvent.ActiveHostKeyChallenge _ _ challenge =>
      allocation_host_key_challenge original challenge true at_
  | TaskEvent.AllocationFailed _ _ error => allocation_failed original error at_
  | TaskEvent.RetryReady _ _ retry_timer_id => retry_ready original retry_timer_id at_
  | TaskEvent.ActiveRetryIdle _ _ retry_at => active_retry_idle original retry_at at_
  | TaskEvent.ActiveRepresentationRestart _ _ => active_representation_restart original at_
  | TaskEvent.DataComplete _ _ seed => data_complete original seed at_
  | TaskEvent.NoSpace _ _ condition => no_space original condition at_
  | TaskEvent.TerminalFailure _ _ error => terminal_failure original error at_
  | TaskEvent.SlowDemoted _ _ decision => slow_demoted original decision at_
  | TaskEvent.SlowPaused _ _ => slow_paused original at_
  | TaskEvent.SlowReadmit _ _ readmission_id => slow_readmit original readmission_id at_
  | TaskEvent.VerificationSucceeded _ _ => verification_succeeded original at_
  | TaskEvent.VerificationRecoverable _ _ => verification_recoverable original at_
  | TaskEvent.VerificationFailed _ _ error => verification_failed original error at_
  | TaskEvent.SeedingComplete _ _ => seeding_complete original at_
  | TaskEvent.SeedingFailed _ _ error => seeding_failed original error at_
  | TaskEvent.CancellationDrained _ generation => cancellation_drained original generation at_
  | TaskEvent.NoSpaceProbeCompleted _ _ probe_id origin ready next_retry_at =>
      no_space_probe_completed original probe_id origin ready next_retry_at at_
  | TaskEvent.TerminalPersisted _ generation status => terminal_persisted original generation status at_
  | TaskEvent.HostKeyResolutionPersisted _ _ resolution_id =>
      host_key_resolution_completed original resolution_id true at_
  | TaskEvent.HostKeyResolutionFailed _ _ resolution_id =>
      host_key_resolution_completed original resolution_id false at_
  | TaskEvent.StoppedResultDeleted _ _ deletion_id =>
      stopped_result_deletion_completed original deletion_id true at_
  | TaskEvent.StoppedResultDeletionFailed _ _ deletion_id =>
      stopped_result_deletion_completed original deletion_id false at_
  end.

Definition handle_event_at (envelope : TaskEventEnvelope) (at_ : MonotonicInstant)
    : Sched SchedulerOutcome :=
  self ← get_self;
  let task_id := te_task_id envelope in
  let event := te_event envelope in
  let gid := TaskEvent_gid event in
  let kind := TaskEvent_kind event in
  original ←? task_clone self gid;
  if t_task_id original != task_id
  then lift (ignored_for_disposition original EventDisposition.Stale at_)
  else
    disposition ←? generation_disposition (t_generation original) (TaskEvent_generation event);
    if disposition != EventDisposition.Fresh
    then lift (ignored_for_disposition original disposition at_)
    else if is_none (TaskEvent_token event) && (kind != TaskEventKind.TerminalPersisted)
            && bool_decide (kind ∈ t_seen_events original)
    then lift (ignored_for_disposition original EventDisposition.Duplicate at_)
    else if negb (barrier_accepts_event (t_pending_barrier original) kind) then
      barrier ←? ok_or (t_pending_barrier original) SchedulerError.InternalInvariant;
      throw (SchedulerError.PendingBarrier barrier (TaskEventKind_code kind))
    else
      _ ←? match event with
        | TaskEvent.NoSpace _ _ condition =>
            map_err (fun _ => SchedulerError.InvalidTaskConditions) (NoSpaceCondition_validate condition)
        | _ => Ok tt
        end;
      dispatch_event original event at_.
