(* ===== verification/SchedulerRestore.v ===== *)
(** * Scheduler recovery

    Model of [RequestScheduler::restore], [validate_recovered_task] and
    [SchedulerRestorePlan] ([crates/ariax-core/src/scheduler.rs]). *)

From S2P Require Import Prelude Ids Errors State Snapshot PersistedDelay CommandKinds Transition Command.
From S2P Require Import Scheduler.
From Stdlib Require Import Ascii String.
Open Scope list_scope.

(** ** Recovery input and errors *)

Record RecoveredSchedulerTask : Set := mkRecoveredSchedulerTask {
  r_task_id : TaskId;
  r_gid : Gid;
  r_state : TaskState;
  r_generation : Generation;
  r_generation_started : bool;
  r_desired_paused : bool;
  r_conditions : TaskConditions;
  r_slow_demotion_count : N;
  r_slow_slot : option SlowSlotPersistence;
  r_retry_at : option MonotonicInstant;
  r_host_key_challenge : option PresentedHostKeyChallenge;
  r_error : option PublicError;
  r_stopped_status : option Aria2Status;
}.
#[global] Instance RecoveredSchedulerTask_eq_dec : EqDecision RecoveredSchedulerTask.
Proof. solve_decision. Defined.

Record SchedulerRestoreBatch : Set := mkSchedulerRestoreBatch {
  rb_tasks : list RecoveredSchedulerTask;
  rb_queues : list QueueOrder;
}.

Module SchedulerRestoreError.
Inductive SchedulerRestoreError : Set :=
| TaskLimitReached
| DuplicateTaskId (task_id : TaskId)
| DuplicateGid (gid : Gid)
| MissingQueue (class : QueueClass)
| DuplicateQueue (class : QueueClass)
| DuplicateQueueMember (gid : Gid)
| UnknownQueueTask (gid : Gid)
| MissingQueueTask (gid : Gid)
| QueueClassMismatch (gid : Gid) (expected actual : QueueClass)
| InvalidState (gid : Gid) (state : TaskState)
| InvalidConditions (gid : Gid)
| InvalidRetryWait (gid : Gid)
| InvalidSlowState (gid : Gid)
| InvalidHostKeyState (gid : Gid)
| InvalidStoppedResult (gid : Gid)
| UnexpectedTaskMetadata (gid : Gid)
| InvalidSnapshot (gid : Gid)
| CorrelationIdExhausted.
End SchedulerRestoreError.
Notation SchedulerRestoreError := SchedulerRestoreError.SchedulerRestoreError.

(** ** The restore plan *)

Record SchedulerRestorePlan : Set := mkSchedulerRestorePlan {
  rp_effects : list TransitionEffect;
  rp_initial_effect_count : N;
  rp_bound_scheduler : RequestScheduler;
}.

Definition SchedulerRestorePlan_is_bound_to (self : SchedulerRestorePlan) (scheduler : RequestScheduler)
    : bool :=
  (vec_len (rp_effects self) =? rp_initial_effect_count self) && (rp_bound_scheduler self == scheduler).

Definition SchedulerRestorePlan_is_empty (self : SchedulerRestorePlan) : bool :=
  match rp_effects self with [] => true | _ => false end.

Definition SchedulerRestorePlan_remaining (self : SchedulerRestorePlan) : N := vec_len (rp_effects self).

Definition SchedulerRestorePlan_next_batch (self : SchedulerRestorePlan)
    : list TransitionEffect * SchedulerRestorePlan :=
  let count := N.to_nat (N.min (vec_len (rp_effects self)) MAX_SCHEDULER_EFFECTS) in
  (take count (rp_effects self),
   {| rp_effects := drop count (rp_effects self);
      rp_initial_effect_count := rp_initial_effect_count self;
      rp_bound_scheduler := rp_bound_scheduler self |}).

(** ** Validation of one recovered task *)

Definition validate_slow_state (task : RecoveredSchedulerTask) (max_tasks : N)
    : result SchedulerRestoreError unit :=
  if r_state task == TaskState.WaitingSlow then
    slow_slot ← ok_or (r_slow_slot task) (SchedulerRestoreError.InvalidSlowState (r_gid task));
    if (r_slow_demotion_count task =? 0)
       || negb (ss_demotion_count slow_slot =? r_slow_demotion_count task)
       || (max_tasks <=? ss_original_position slow_slot)
       || (sd_delay_ms (ss_decision slow_slot) =? 0)
       || (MAX_PERSISTED_MILLISECONDS <? sd_scheduled_at_ms (ss_decision slow_slot))
    then Err (SchedulerRestoreError.InvalidSlowState (r_gid task))
    else Ok tt
  else if is_some (r_slow_slot task) then Err (SchedulerRestoreError.InvalidSlowState (r_gid task))
  else Ok tt.

Definition validate_stopped_result (task : RecoveredSchedulerTask) : result SchedulerRestoreError unit :=
  if r_state task == TaskState.StoppedResult then
    status ← ok_or (r_stopped_status task) (SchedulerRestoreError.InvalidStoppedResult (r_gid task));
    if negb (Aria2Status_is_terminal status)
       || negb (Bool.eqb (status == Aria2Status.Error) (is_some (r_error task)))
    then Err (SchedulerRestoreError.InvalidStoppedResult (r_gid task))
    else Ok tt
  else if is_some (r_stopped_status task) || is_some (r_error task)
  then Err (SchedulerRestoreError.UnexpectedTaskMetadata (r_gid task))
  else Ok tt.

Definition validate_recovered_task (task : RecoveredSchedulerTask) (max_tasks : N)
    : result SchedulerRestoreError unit :=
  if negb match r_state task with
          | TaskState.Waiting | TaskState.WaitingSlow | TaskState.RetryWait | TaskState.Paused
          | TaskState.PausedSlow | TaskState.PausedHostKey | TaskState.StoppedResult => true
          | _ => false
          end
  then Err (SchedulerRestoreError.InvalidState (r_gid task) (r_state task))
  else if negb (Bool.eqb (r_state task == TaskState.RetryWait) (is_some (r_retry_at task)))
  then Err (SchedulerRestoreError.InvalidRetryWait (r_gid task))
  else
    _ ← validate_slow_state task max_tasks;
    if negb (Bool.eqb (r_state task == TaskState.PausedHostKey) (is_some (r_host_key_challenge task)))
    then Err (SchedulerRestoreError.InvalidHostKeyState (r_gid task))
    else validate_stopped_result task.

(** ** Queues *)

Fixpoint insert_members (class : QueueClass) (gids : list Gid) (memberships : gmap Gid QueueClass)
    : result SchedulerRestoreError (gmap Gid QueueClass) :=
  match gids with
  | [] => Ok memberships
  | gid :: gids' =>
      if is_some (memberships !! gid) then Err (SchedulerRestoreError.DuplicateQueueMember gid)
      else insert_members class gids' (<[gid := class]> memberships)
  end.

Fixpoint restore_queues (max_tasks : N) (orders : list QueueOrder)
    (queues : SchedulerQueues) (seen_classes : gset QueueClass) (memberships : gmap Gid QueueClass)
    : result SchedulerRestoreError (SchedulerQueues * gset QueueClass * gmap Gid QueueClass) :=
  match orders with
  | [] => Ok (queues, seen_classes, memberships)
  | order :: orders' =>
      if bool_decide (qo_class order ∈ seen_classes)
      then Err (SchedulerRestoreError.DuplicateQueue (qo_class order))
      else if max_tasks <? vec_len (qo_order order) then Err SchedulerRestoreError.TaskLimitReached
      else
        memberships ← insert_members (qo_class order) (qo_order order) memberships;
        restore_queues max_tasks orders' (SchedulerQueues_put queues (qo_class order) (qo_order order))
          ({[ qo_class order ]} ∪ seen_classes) memberships
  end.

Definition missing_class (seen_classes : gset QueueClass) : option QueueClass :=
  head (filter (fun class => class ∉ seen_classes) ALL_QUEUE_CLASSES).

(** ** Tasks *)

Definition exhausted {A} (r : result SchedulerError A) : result SchedulerRestoreError A :=
  map_err (fun _ => SchedulerRestoreError.CorrelationIdExhausted) r.

Definition recovered_task (recovered : RecoveredSchedulerTask) : ScheduledTask :=
  ScheduledTask_new (r_task_id recovered) (r_gid recovered) (r_desired_paused recovered)
      (r_conditions recovered)
    <| t_state := r_state recovered |>
    <| t_generation := r_generation recovered |>
    <| t_generation_started := r_generation_started recovered |>
    <| t_slow_demotion_count := r_slow_demotion_count recovered |>
    <| t_slow_slot := r_slow_slot recovered |>
    <| t_slow_remaining_position := from_option ss_original_position 0 (r_slow_slot recovered) |>
    <| t_host_key_challenge := r_host_key_challenge recovered |>
    <| t_error := r_error recovered |>
    <| t_stopped_status := r_stopped_status recovered |>
    <| t_terminal_persisted := r_state recovered == TaskState.StoppedResult |>.

(** The timer of a recovered wait, and its effect. *)
Definition recovered_timer (recovered : RecoveredSchedulerTask) (task : ScheduledTask) (ids : IdCounters)
    : result SchedulerRestoreError (ScheduledTask * list TransitionEffect * IdCounters) :=
  match r_state recovered with
  | TaskState.RetryWait =>
      at_ ← ok_or (r_retry_at recovered) (SchedulerRestoreError.InvalidRetryWait (r_gid recovered));
      '(retry_timer_id, ids) ← exhausted (IdCounters_retry_timer ids);
      Ok (task <| t_retry_timer := Some (retry_timer_id, at_) |>,
          [TransitionEffect.ScheduleRetry (r_task_id recovered) (r_gid recovered)
             (r_generation recovered) retry_timer_id at_], ids)
  | TaskState.WaitingSlow =>
      slow_slot ← ok_or (r_slow_slot recovered) (SchedulerRestoreError.InvalidSlowState (r_gid recovered));
      '(readmission_id, ids) ← exhausted (IdCounters_slow_readmission ids);
      Ok (task <| t_slow_readmission := Some (readmission_id, sd_readmit_at (ss_decision slow_slot)) |>,
          [TransitionEffect.ScheduleSlowReadmission (r_task_id recovered) (r_gid recovered)
             (r_generation recovered) readmission_id (sd_readmit_at (ss_decision slow_slot))], ids)
  | _ => Ok (task, [], ids)
  end.

Definition recovered_probe (recovered : RecoveredSchedulerTask) (task : ScheduledTask) (ids : IdCounters)
    : result SchedulerRestoreError (ScheduledTask * list TransitionEffect * IdCounters) :=
  match (condition ← tc_no_space (t_conditions task); ns_retry_at condition) with
  | Some at_ =>
      '(probe_id, ids) ← exhausted (IdCounters_no_space_probe ids);
      Ok (task <| t_no_space_probe := Some (probe_id, NoSpaceProbeOrigin.AutomaticRetry) |>,
          [TransitionEffect.ProbeNoSpace (r_task_id recovered) (r_gid recovered)
             (r_generation recovered) probe_id NoSpaceProbeOrigin.AutomaticRetry at_], ids)
  | None => Ok (task, [], ids)
  end.

(** [timer_effects.entry(gid).or_default().push(..)] for each effect. *)
Definition push_timer_effects (gid : Gid) (effects : list TransitionEffect)
    (timer_effects : gmap Gid (list TransitionEffect)) : gmap Gid (list TransitionEffect) :=
  match effects with
  | [] => timer_effects
  | _ => <[gid := default [] (timer_effects !! gid) ++ effects]> timer_effects
  end.

Definition restore_task (recovered : RecoveredSchedulerTask) (scheduler : RequestScheduler)
    (timer_effects : gmap Gid (list TransitionEffect))
    : result SchedulerRestoreError (RequestScheduler * gmap Gid (list TransitionEffect)) :=
  if is_some (rs_tasks scheduler !! r_gid recovered)
  then Err (SchedulerRestoreError.DuplicateGid (r_gid recovered))
  else if is_some (rs_task_ids scheduler !! r_task_id recovered)
  then Err (SchedulerRestoreError.DuplicateTaskId (r_task_id recovered))
  else
    _ ← map_err (fun _ => SchedulerRestoreError.InvalidConditions (r_gid recovered))
          (TaskConditions_validate (r_conditions recovered));
    _ ← validate_recovered_task recovered (sc_max_tasks (rs_config scheduler));
    '(task, timer, ids) ← recovered_timer recovered (recovered_task recovered) (rs_ids scheduler);
    '(task, probe, ids) ← recovered_probe recovered task ids;
    Ok (scheduler
          <| rs_ids := ids |>
          <| rs_highest_task_id :=
               Some (from_option (fun current => N.max current (r_task_id recovered))
                       (r_task_id recovered) (rs_highest_task_id scheduler)) |>
          <| rs_task_ids := <[r_task_id recovered := r_gid recovered]> (rs_task_ids scheduler) |>
          <| rs_tasks := <[r_gid recovered := task]> (rs_tasks scheduler) |>,
        push_timer_effects (r_gid recovered) probe
          (push_timer_effects (r_gid recovered) timer timer_effects)).

Fixpoint restore_tasks (tasks : list RecoveredSchedulerTask) (scheduler : RequestScheduler)
    (timer_effects : gmap Gid (list TransitionEffect))
    : result SchedulerRestoreError (RequestScheduler * gmap Gid (list TransitionEffect)) :=
  match tasks with
  | [] => Ok (scheduler, timer_effects)
  | recovered :: tasks' =>
      '(scheduler, timer_effects) ← restore_task recovered scheduler timer_effects;
      restore_tasks tasks' scheduler timer_effects
  end.

(** ** Membership *)

Definition check_counts (scheduler : RequestScheduler) (memberships : gmap Gid QueueClass)
    : result SchedulerRestoreError unit :=
  if N.of_nat (size memberships) != N.of_nat (size (rs_tasks scheduler)) then
    match head (filter (fun gid => memberships !! gid = None) (btree_keys (rs_tasks scheduler))) with
    | Some gid => Err (SchedulerRestoreError.MissingQueueTask gid)
    | None =>
        match head (filter (fun gid => rs_tasks scheduler !! gid = None) (btree_keys memberships)) with
        | Some gid => Err (SchedulerRestoreError.UnknownQueueTask gid)
        | None => Err SchedulerRestoreError.TaskLimitReached
        end
    end
  else Ok tt.

Fixpoint check_memberships (scheduler : RequestScheduler) (entries : list (Gid * QueueClass))
    : result SchedulerRestoreError unit :=
  match entries with
  | [] => Ok tt
  | (gid, actual) :: entries' =>
      task ← ok_or (rs_tasks scheduler !! gid) (SchedulerRestoreError.UnknownQueueTask gid);
      expected ← ok_or (ScheduledTask_queue_class task)
                   (SchedulerRestoreError.InvalidState gid (t_state task));
      if expected != actual
      then Err (SchedulerRestoreError.QueueClassMismatch gid expected actual)
      else check_memberships scheduler entries'
  end.

(** ** Initial effects *)

Fixpoint publish_restored (gids : list Gid) (scheduler : RequestScheduler)
    (timer_effects : gmap Gid (list TransitionEffect)) (effects : list TransitionEffect)
    : result SchedulerRestoreError
        (RequestScheduler * gmap Gid (list TransitionEffect) * list TransitionEffect) :=
  match gids with
  | [] => Ok (scheduler, timer_effects, effects)
  | gid :: gids' =>
      let effects := effects ++ default [] (timer_effects !! gid) in
      let timer_effects := delete gid timer_effects in
      task ← ok_or (rs_tasks scheduler !! gid) (SchedulerRestoreError.UnknownQueueTask gid);
      snapshot ← map_err (fun _ => SchedulerRestoreError.InvalidSnapshot gid)
        (ScheduledTask_snapshot task (sc_retry_wait_holds_slot (rs_config scheduler)));
      publish_restored gids'
        (scheduler <| rs_published_snapshots := <[gid := snapshot]> (rs_published_snapshots scheduler) |>)
        timer_effects (effects ++ [TransitionEffect.PublishSnapshot (t_task_id task) snapshot])
  end.

(** The gids of every queue, in class order. *)
Definition queued_gids (queues : SchedulerQueues) : list Gid :=
  List.concat (SchedulerQueues_get queues <$> ALL_QUEUE_CLASSES).

Definition RequestScheduler_restore (config : SchedulerConfig) (batch : SchedulerRestoreBatch)
    : result SchedulerRestoreError (RequestScheduler * SchedulerRestorePlan) :=
  if sc_max_tasks config <? vec_len (rb_tasks batch) then Err SchedulerRestoreError.TaskLimitReached
  else
    '(queues, seen_classes, memberships) ←
      restore_queues (sc_max_tasks config) (rb_queues batch) SchedulerQueues_default ∅ ∅;
    match missing_class seen_classes with
    | Some class => Err (SchedulerRestoreError.MissingQueue class)
    | None =>
        '(scheduler, timer_effects) ← restore_tasks (rb_tasks batch) (RequestScheduler_new config) ∅;
        _ ← check_counts scheduler memberships;
        _ ← check_memberships scheduler (btree_entries memberships);
        let scheduler := scheduler <| rs_queues := queues |> in
        '(scheduler, _, effects) ←
          publish_restored (queued_gids queues) scheduler timer_effects [];
        Ok (scheduler,
            {| rp_effects := effects;
               rp_initial_effect_count := vec_len effects;
               rp_bound_scheduler := scheduler |})
    end.
