(* ===== verification/SchedulerInv.v ===== *)
(** * The task invariant

    What holds of every task of a reachable scheduler: which barriers and slots
    go with which states, and which metadata a state carries. *)

From S2P Require Import Prelude Ids Errors State Snapshot PersistedDelay CommandKinds Transition Command.
From S2P Require Import Scheduler SchedulerCommands SchedulerEvents.
From Stdlib Require Import Ascii String.
Open Scope list_scope.

Definition is_staged (t : ScheduledTask) : Prop :=
  t_pending_option_patch_mode t = Some PendingOptionPatchMode.ActiveRestart.

Definition unblocked (t : ScheduledTask) : Prop :=
  TaskConditions_blocks_admission (t_conditions t) = false.

(** Slot and metadata of each state. *)
Definition state_inv (t : ScheduledTask) : Prop :=
  match t_state t with
  | TaskState.Accepted => False
  | TaskState.Allocating | TaskState.Active | TaskState.Verifying | TaskState.Seeding =>
      owns_slot t = true /\ unblocked t /\
      (is_staged t -> exists generation patch_id, t_pending_barrier t =
         Some (PendingBarrier.OptionPatchPersistence generation patch_id))
  | TaskState.Waiting | TaskState.Paused | TaskState.PausedSlow =>
      owns_slot t = true -> is_cancellation_drain (t_pending_barrier t) = true
  | TaskState.WaitingSlow =>
      (owns_slot t = true -> is_cancellation_drain (t_pending_barrier t) = true) /\ ~ is_staged t
  | TaskState.RetryWait => ~ is_staged t /\ (owns_slot t = true -> t_slot t = SlotOwnership.RetryRetained)
  | TaskState.PausedHostKey => owns_slot t = false /\ ~ is_staged t
  | TaskState.PausedRestarting =>
      unblocked t /\ (owns_slot t = true -> is_cancellation_drain (t_pending_barrier t) = true) /\
      (t_pending_source_replacement t = true \/ is_staged t /\ t_pending_barrier t <> None)
  | TaskState.Complete =>
      t_pending_barrier t = Some (PendingBarrier.TerminalPersistence (t_generation t) Aria2Status.Complete)
  | TaskState.Error =>
      is_Some (t_error t) /\
      (t_pending_barrier t = Some (PendingBarrier.TerminalPersistence (t_generation t) Aria2Status.Error) \/
       exists force, t_pending_barrier t =
         Some (PendingBarrier.CancellationDrain (t_generation t) DrainTarget.Error force))
  | TaskState.Removed =>
      t_pending_barrier t = Some (PendingBarrier.TerminalPersistence (t_generation t) Aria2Status.Removed) \/
      exists force, t_pending_barrier t =
        Some (PendingBarrier.CancellationDrain (t_generation t) DrainTarget.Removed force)
  | TaskState.StoppedResult =>
      owns_slot t = false /\
      exists status, t_stopped_status t = Some status /\ Aria2Status_is_terminal status = true /\
        (status = Aria2Status.Error -> is_Some (t_error t))
  end.

(** What each barrier waits for.  A drain waits in the state of its target,
    except that a pause retargets the drain of a slow pause. *)
Definition barrier_inv (t : ScheduledTask) : Prop :=
  match t_pending_barrier t with
  | None =>
      t_pending_user_control t = None /\
      (t_pending_option_patch_mode t = None \/ is_staged t)
  | Some (PendingBarrier.GenerationPersistence generation) =>
      generation = t_generation t /\ t_state t = TaskState.Allocating /\
      t_slot t = SlotOwnership.Reserved /\
      t_pending_user_control t = None /\ t_pending_option_patch_mode t = None
  | Some (PendingBarrier.CancellationDrain generation target _) =>
      generation = t_generation t /\
      (t_state t = DrainTarget_state target \/ t_state t = TaskState.PausedSlow /\ target = DrainTarget.Paused) /\
      (target = DrainTarget.Paused -> t_desired_paused t = true) /\
      t_pending_user_control t = None /\
      (t_pending_option_patch_mode t = None \/ is_staged t)
  | Some (PendingBarrier.TerminalPersistence generation status) =>
      generation = t_generation t /\ owns_slot t = false /\
      TaskState_is_terminal_pending (t_state t) = true /\ t_pending_user_control t = None /\
      (t_pending_option_patch_mode t = None \/ is_staged t) /\
      (status = Aria2Status.Error -> is_Some (t_error t)) /\ Aria2Status_is_terminal status = true
  | Some (PendingBarrier.OptionPatchPersistence generation patch_id) =>
      generation = t_generation t /\ t_pending_option_patch t = Some patch_id /\ is_staged t /\
      (t_state t = TaskState.Allocating \/ t_state t = TaskState.Active \/ t_state t = TaskState.Verifying) /\
      t_pending_user_control t <> Some PendingUserControl.Resume
  | Some (PendingBarrier.OptionPatchApplication generation patch_id) =>
      generation = t_generation t /\ t_pending_option_patch t = Some patch_id /\
      t_pending_option_patch_mode t <> None /\
      t_pending_option_patch_mode t <> Some PendingOptionPatchMode.MatchingHostKey /\
      (is_staged t -> (t_state t = TaskState.PausedRestarting /\ owns_slot t = false) \/
                      t_state t = TaskState.Waiting) /\
      TaskState_is_terminal (t_state t) = false /\
      (t_pending_user_control t = Some PendingUserControl.Resume ->
       t_state t = TaskState.Paused \/ t_state t = TaskState.PausedSlow) /\
      (t_pending_credential_requirement t = None \/
       required_credentials t = t_pending_credential_requirement t)
  | Some (PendingBarrier.HostKeyResolution generation _ challenge) =>
      generation = t_generation t /\ t_state t = TaskState.PausedHostKey /\
      (fun presented => hk_id (ph_summary presented)) <$> t_host_key_challenge t = Some challenge /\
      (t_pending_option_patch_mode t = None \/
       t_pending_option_patch_mode t = Some PendingOptionPatchMode.MatchingHostKey) /\
      (t_pending_user_control t = None \/ is_pending_remove t = true)
  | Some (PendingBarrier.StoppedResultDeletion generation _) =>
      generation = t_generation t /\ t_state t = TaskState.StoppedResult /\
      t_pending_user_control t = None /\
      (t_pending_option_patch_mode t = None \/ is_staged t)
  end.

Record task_inv (t : ScheduledTask) : Prop := {
  ti_state : state_inv t;
  ti_barrier : barrier_inv t;
  ti_challenge : is_Some (t_host_key_challenge t) <-> t_state t = TaskState.PausedHostKey;
  ti_stopped : is_Some (t_stopped_status t) -> t_state t = TaskState.StoppedResult;
  ti_persisted : t_terminal_persisted t = TaskState_is_retained_result (t_state t);
  ti_mode : is_Some (t_pending_option_patch_mode t) <-> is_Some (t_pending_option_patch t);
  ti_staged : is_staged t -> unblocked t /\ t_pending_credential_requirement t = None;
  ti_probe : is_Some (t_no_space_probe t) -> is_Some (tc_no_space (t_conditions t));
  ti_conditions : ~ unblocked t -> retains_conditions (t_state t) = true \/ t_state t = TaskState.Removed;
}.

(** A snapshot that validates carries conditions only where they are retained. *)
Definition conditions_ok (t : ScheduledTask) : Prop :=
  ~ unblocked t -> retains_conditions (t_state t) = true.

(** ** Reasoning about the invariant *)

(** Fixes the state of [o] to those the contract accepts, and evaluates the
    target states. *)
Ltac eval_targets o Es :=
  repeat match goal with
  | H : TransitionContract_accepts _ = true |- _ =>
      first [discriminate H | rewrite Es in H; first [discriminate H | clear H] | clear H]
  | H : target_state o _ = Ok _ |- _ =>
      unfold target_state, target_for_action in H; rewrite Es in H; cbn in H;
      first [discriminate H | injection H as <-]
  end.
Ltac split_state o := let Es := fresh "Es" in destruct (t_state o) eqn:Es; eval_targets o Es.

(** Evaluates the invariant at a known state and barrier. *)
Ltac eval_tests :=
  cbn [TaskState_is_retained_result TaskState_is_terminal_pending TaskState_is_terminal retains_conditions
       is_cancellation_drain SlotOwnership_owns_slot DrainTarget_state Aria2Status_is_terminal] in *.
Ltac eval_inv :=
  unfold state_inv, barrier_inv, conditions_ok, is_staged, unblocked, owns_slot, is_pending_remove,
    required_credentials, mark_non_token_event in *;
  simpl_task.

Lemma implied_false b : (b = true -> false = true) -> b = false.
Proof. destruct b; [intros H; discriminate (H eq_refl)|done]. Qed.

(** The barrier of [o], with the invariant [Hinv] evaluated at it. *)
Ltac clean_inv o :=
  repeat match goal with
  | H : barrier_accepts_event _ _ = true |- _ => first [discriminate H | clear H]
  | E : t_state o = _, H : context [t_state o] |- _ => lazymatch H with E => fail | _ => rewrite E in H end
  | E : t_pending_barrier o = _, H : context [t_pending_barrier o] |- _ =>
      lazymatch H with E => fail | _ => rewrite E in H end
  end;
  eval_tests;
  repeat match goal with
  | H : _ /\ _ |- _ => destruct H
  | H : _ = DrainTarget_state ?target \/ _ |- _ => destruct H as [H|[H ?]]; [|try discriminate H]
  | H : _ = DrainTarget_state ?target |- _ => destruct target; try discriminate H; clear H
  | H : ?x = ?x |- _ => clear H
  | H : ?x = ?x -> _ |- _ => specialize (H eq_refl)
  | H : False |- _ => destruct H
  end; try discriminate; subst.
Ltac split_inv o Hinv :=
  let Hs := fresh "Hs" in let Hb := fresh "Hb" in
  destruct Hinv as [Hs Hb ? ? ? ? ? ? ?]; unfold state_inv in Hs; unfold barrier_inv in Hb;
  let Eb := fresh "Eb" in
  destruct (t_pending_barrier o) as [[]|] eqn:Eb; clean_inv o.
Ltac known_inv o Hinv :=
  let Hs := fresh "Hs" in let Hb := fresh "Hb" in
  destruct Hinv as [Hs Hb ? ? ? ? ? ? ?]; unfold state_inv in Hs; unfold barrier_inv in Hb; clean_inv o.

(** Re-establishes the invariant field by field. *)
Ltac known_fields :=
  repeat match goal with
  | E : t_state ?o = _ |- context [t_state ?o] => rewrite E
  | E : t_pending_barrier ?o = _ |- context [t_pending_barrier ?o] => rewrite E
  end.
Lemma published_unblocked b : (true = true -> b <> false -> false = true) -> b = false.
Proof. destruct b; [|done]. intros H. discriminate (H eq_refl). done. Qed.

Ltac solve_inv :=
  let Hok := fresh "Hok" in
  intros Hok; constructor; eval_inv; known_fields; eval_tests; try apply published_unblocked in Hok;
  split_and?; first [congruence | naive_solver].
