(* ===== verification/SchedulerPlans.v ===== *)
(** * Plans: what a handler asks the commit to do

    Every handler ends in one of three ways: it fails and leaves the scheduler
    as it was, it answers with an inert outcome, or it hands one plan to
    [finish_action].  [handled] states this, [plan_ok] what every plan
    satisfies; the theorems on the scheduler follow from the two. *)

From S2P Require Import Prelude Ids Errors State Snapshot PersistedDelay CommandKinds Transition Command.
From S2P Require Import Scheduler SchedulerCommands SchedulerEvents SchedulerInv.
From Stdlib Require Import Ascii String.
Open Scope list_scope.

(** ** Plans *)

Record Plan : Set := mkPlan {
  p_original : ScheduledTask;
  p_updated : option ScheduledTask;
  p_present : bool;
  p_action : SchedulerAction;
  p_effects : list TransitionEffect;
  p_publish : bool;
  p_ids : IdCounters;
}.

Definition run_plan (p : Plan) (at_ : MonotonicInstant) : Sched SchedulerOutcome :=
  finish_action (p_original p) (p_updated p) (p_present p) (p_action p) at_ (p_effects p)
    (p_publish p) (p_ids p).

Lemma finish_action_eq original updated present action at_ effects publish ids s :
  finish_action original updated present action at_ effects publish ids s =
  match plan_action s original updated present action at_ effects publish with
  | Ok (updates, published, outcome) =>
      (commit_action original updated updates published ids s, Ok outcome)
  | Err e => (s, Err e)
  end.
Proof.
  unfold finish_action, get_self, lift, mbind, sched_bind.
  by destruct (plan_action _ _ _ _ _ _ _ _) as [[[??]?]|].
Qed.

Definition ignored_reason (reason : StateReason) : bool :=
  match reason with
  | StateReason.DuplicateEventIgnored | StateReason.StaleEventIgnored => true
  | _ => false
  end.

(** No deletion, no effect, no state change. *)
Definition inert (o : SchedulerOutcome) : Prop :=
  o_deletion o = None /\ o_effects o = [] /\
  match o_transition o with
  | Some tr => st_to tr = st_from tr /\ ignored_reason (st_reason tr) = true
  | None => True
  end.

Inductive handled (s : RequestScheduler) (P : Plan -> Prop) (at_ : MonotonicInstant)
    : RequestScheduler * result SchedulerError SchedulerOutcome -> Prop :=
| handled_err e : handled s P at_ (s, Err e)
| handled_inert o : inert o -> handled s P at_ (s, Ok o)
| handled_plan p : P p -> handled s P at_ (run_plan p at_ s).

Section handled.
Context (s : RequestScheduler) (P : Plan -> Prop) (at_ : MonotonicInstant).
Notation H := (handled s P at_).

Lemma handled_get (k : RequestScheduler -> Sched SchedulerOutcome) :
  H (k s s) -> H ((self ← get_self; k self) s).
Proof. done. Qed.

Lemma handled_lift {A} (r : result SchedulerError A) (k : A -> Sched SchedulerOutcome) :
  (forall x, r = Ok x -> H (k x s)) -> H ((x ←? r; k x) s).
Proof. intros Hk. unfold lift, mbind, sched_bind. destruct r; [auto|constructor]. Qed.

Lemma handled_lift_inert (r : result SchedulerError SchedulerOutcome) :
  (forall o, r = Ok o -> inert o) -> H (lift r s).
Proof. intros Hr. unfold lift. destruct r; constructor; auto. Qed.

Lemma handled_throw e : H (throw e s).
Proof. constructor. Qed.

Lemma handled_default : H ((mret SchedulerOutcome_default : Sched _) s).
Proof. by constructor. Qed.

Lemma ignored_outcome_inert task action o :
  ignored_outcome task action at_ = Ok o -> ignored_reason (ct_reason (transition_contract (t_state task) action)) = true -> inert o.
Proof.
  unfold ignored_outcome, SchedulerOutcome_checked.
  case_bool_decide; cbn; [|done]. by intros [= <-] ?.
Qed.

Lemma ignored_for_disposition_inert task d o :
  ignored_for_disposition task d at_ = Ok o -> inert o.
Proof. destruct d; cbn [ignored_for_disposition]; [done|..]; intros E; by eapply ignored_outcome_inert. Qed.

Lemma handled_ignored task d : H (lift (ignored_for_disposition task d at_) s).
Proof. apply handled_lift_inert. intros o. apply ignored_for_disposition_inert. Qed.

Lemma handled_unless_stale task action (k : Sched SchedulerOutcome) :
  (TransitionContract_accepts (transition_contract (t_state task) action) = true -> H (k s)) ->
  H (unless_stale task action at_ k s).
Proof.
  intros Hk. unfold unless_stale, stale_if_rejected_event, lift, mbind, sched_bind.
  destruct (TransitionContract_accepts _); [by apply Hk|].
  destruct (ignored_for_disposition task EventDisposition.Stale at_) as [o|e] eqn:E; constructor.
  by eapply ignored_for_disposition_inert.
Qed.

Lemma handled_finish original updated present action effects publish ids :
  P (mkPlan original updated present action effects publish ids) ->
  H (finish_action original updated present action at_ effects publish ids s).
Proof. intros HP. by apply (handled_plan _ _ _ (mkPlan original updated present action effects publish ids)). Qed.
End handled.

(** ** What every plan satisfies *)

(** An effect that neither starts a generation, nor changes the durable queues,
    nor makes anything visible. *)
Definition plain_kind (kind : TransitionEffectKind) : bool :=
  match kind with
  | TransitionEffectKind.PersistTask | TransitionEffectKind.PersistGenerationStarted
  | TransitionEffectKind.StartAllocation | TransitionEffectKind.PersistTerminal
  | TransitionEffectKind.PublishSnapshot | TransitionEffectKind.PersistQueueTransition
  | TransitionEffectKind.DeleteStoppedTaskMetadata => false
  | _ => true
  end.

Definition plain_effect (task : ScheduledTask) (e : TransitionEffect) : Prop :=
  TransitionEffect_task_id e = t_task_id task /\ TransitionEffect_gid e = t_gid task /\
  plain_kind (TransitionEffect_kind e) = true.

(** The counters only move forward: each is unchanged, larger, or used up
    (zero). *)
Definition counter_le (a b : N) : Prop := b = a \/ (a <> 0 /\ (a < b \/ b = 0)).

Record ids_le (a b : IdCounters) : Prop := mk_ids_le {
  ids_retry_timer : counter_le (ic_retry_timer a) (ic_retry_timer b);
  ids_slow_readmission : counter_le (ic_slow_readmission a) (ic_slow_readmission b);
  ids_no_space_probe : counter_le (ic_no_space_probe a) (ic_no_space_probe b);
  ids_host_key_resolution : counter_le (ic_host_key_resolution a) (ic_host_key_resolution b);
  ids_stopped_deletion : counter_le (ic_stopped_deletion a) (ic_stopped_deletion b);
}.

(** An update inside the current generation: it keeps the identity and the
    generation, gains no slot and raises neither a generation barrier nor a
    deletion barrier. *)
Record frame (o u : ScheduledTask) : Prop := mk_frame {
  fr_task_id : t_task_id u = t_task_id o;
  fr_gid : t_gid u = t_gid o;
  fr_generation : t_generation u = t_generation o;
  fr_started : t_generation_started u = t_generation_started o;
  fr_slot : owns_slot u = true -> owns_slot o = true;
  fr_barrier : forall g, t_pending_barrier u = Some (PendingBarrier.GenerationPersistence g) ->
                         t_pending_barrier o = Some (PendingBarrier.GenerationPersistence g);
  fr_deletion : forall g d, t_pending_barrier u = Some (PendingBarrier.StoppedResultDeletion g d) ->
                            t_pending_barrier o = Some (PendingBarrier.StoppedResultDeletion g d);
}.

(** Five kinds of task update: work inside the current generation, the same
    with the current queue written again, the request to delete a retained
    result, admission of a generation, and the start of a persisted
    generation. *)
Inductive task_step (s : RequestScheduler) (orig u : ScheduledTask) : list TransitionEffect -> Prop :=
| step_plain eff :
    Forall (plain_effect orig) eff -> frame orig u -> task_step s orig u eff
| step_requeue class :
    frame orig u -> ScheduledTask_queue_class u = ScheduledTask_queue_class orig ->
    task_step s orig u [TransitionEffect.PersistQueueTransition (t_task_id orig) (t_gid orig) (Some class)
      (Some class) (t_desired_paused u) (t_slow_demotion_count u) (t_slow_slot u)
      [mkQueueOrder class (SchedulerQueues_get (rs_queues s) class)]]
| step_deletion d n :
    t_pending_barrier orig = None -> pending_stopped_deletion s = None ->
    position (t_gid orig) (SchedulerQueues_get (rs_queues s) QueueClass.Stopped) = Some n ->
    t_pending_barrier u = Some (PendingBarrier.StoppedResultDeletion (t_generation orig) d) ->
    t_slot u = t_slot orig -> t_generation u = t_generation orig ->
    t_generation_started u = t_generation_started orig ->
    ScheduledTask_queue_class u = ScheduledTask_queue_class orig ->
    task_step s orig u [TransitionEffect.DeleteStoppedTaskMetadata (t_task_id orig) (t_gid orig) d
      (vec_remove n (SchedulerQueues_get (rs_queues s) QueueClass.Stopped))]
| step_admit g :
    t_pending_barrier orig = None ->
    t_desired_paused orig = false ->
    TaskConditions_blocks_admission (t_conditions orig) = false ->
    owns_slot orig = true \/ active_slot_count s < sc_max_active_tasks (rs_config s) ->
    (if t_generation_started orig then Generation_checked_next (t_generation orig) = Some g
     else g = t_generation orig) ->
    t_state u = TaskState.Allocating ->
    t_slot u = SlotOwnership.Reserved ->
    t_generation u = g ->
    t_generation_started u = true ->
    t_pending_barrier u = Some (PendingBarrier.GenerationPersistence g) ->
    task_step s orig u [TransitionEffect.PersistGenerationStarted (t_task_id orig) (t_gid orig) g]
| step_start :
    t_pending_barrier orig = Some (PendingBarrier.GenerationPersistence (t_generation orig)) ->
    t_state orig = TaskState.Allocating ->
    t_pending_barrier u = None ->
    t_slot u = SlotOwnership.Active ->
    t_generation u = t_generation orig ->
    t_generation_started u = t_generation_started orig ->
    task_step s orig u
      [TransitionEffect.StartAllocation (t_task_id orig) (t_gid orig) (t_generation orig)].

(** What a plan answers: a command, an event for a task, or the admission of
    the next task. *)
Inductive Input : Set :=
| FromCommand (kind : SchedulerCommandKind)
| FromEvent (task_id : TaskId) (event : TaskEvent)
| FromAdmission.

(** The actions an input may carry out: those the action table attributes to
    it, the control a barrier deferred, and the three admissions. *)
Definition allows (i : Input) (action : SchedulerAction) : bool :=
  match i with
  | FromCommand kind => SchedulerActionSource_matches_command (SchedulerAction_source action) kind
  | FromEvent _ event =>
      SchedulerActionSource_matches_task_event (SchedulerAction_source action) (TaskEvent_kind event)
      || match action with
         | SchedulerAction.DeferredPauseCompleted | SchedulerAction.DeferredResumeCompleted
         | SchedulerAction.DeferredRemoveCompleted => true
         | _ => false
         end
  | FromAdmission =>
      match action with
      | SchedulerAction.SchedulerAdmission | SchedulerAction.RetryReadmissionSucceeded
      | SchedulerAction.SlowReadmissionSucceeded | SchedulerAction.RestartApplicationScheduled => true
      | _ => false
      end
  end.

(** The task an event is about, at its current generation. *)
Definition input_for (i : Input) (o : ScheduledTask) : Prop :=
  match i with
  | FromEvent task_id event =>
      t_task_id o = task_id /\ t_gid o = TaskEvent_gid event /\ t_generation o = TaskEvent_generation event
  | _ => True
  end.

(** The actions on a retained result, which stay invisible. *)
Definition quiet_action (action : SchedulerAction) : bool :=
  match action with
  | SchedulerAction.RemoveStoppedResult | SchedulerAction.StoppedResultDeletionFailed => true
  | _ => false
  end.

Record plan_ok (i : Input) (s : RequestScheduler) (p : Plan) : Prop := {
  pk_present : p_present p = true;
  pk_lookup : rs_tasks s !! t_gid (p_original p) = Some (p_original p);
  pk_input : input_for i (p_original p);
  pk_action : allows i (p_action p) = true;
  pk_length : (List.length (p_effects p) <= 6)%nat;
  pk_ids : ids_le (rs_ids s) (p_ids p);
  pk_updated : match p_updated p with
    | Some u => t_gid u = t_gid (p_original p) /\ t_task_id u = t_task_id (p_original p) /\
                task_step s (p_original p) u (p_effects p) /\
                ((p_publish p = true -> conditions_ok u) -> task_inv u)
    | None => p_effects p = [] /\ p_action p = SchedulerAction.StoppedResultDeletionSucceeded /\
              exists g d, t_pending_barrier (p_original p) = Some (PendingBarrier.StoppedResultDeletion g d)
    end;
  pk_start : forall e, e ∈ p_effects p -> TransitionEffect_kind e = TransitionEffectKind.StartAllocation ->
    p_action p = SchedulerAction.GenerationPersistenceSucceeded;
  pk_terminal : p_action p = SchedulerAction.TerminalPersistenceSucceeded ->
    exists u task_id gid status, p_updated p = Some u /\
      i = FromEvent task_id (TaskEvent.TerminalPersisted gid (t_generation (p_original p)) status) /\
      t_pending_barrier (p_original p) =
        Some (PendingBarrier.TerminalPersistence (t_generation (p_original p)) status) /\
      t_stopped_status u = Some status;
  pk_quiet : quiet_action (p_action p) = true -> p_publish p = false;
}.

(** ** Specifications of the shared steps *)

Lemma ids_le_refl a : ids_le a a.
Proof. by constructor; left. Qed.
Lemma counter_le_trans a b c : counter_le a b -> counter_le b c -> counter_le a c.
Proof. unfold counter_le. lia. Qed.
Lemma ids_le_trans a b c : ids_le a b -> ids_le b c -> ids_le a c.
Proof. intros [] []. constructor; by eapply counter_le_trans. Qed.

Lemma next_id_Ok next v next' :
  next_id next nonzero_id_new = Ok (v, next') ->
  v = next /\ next <> 0 /\ (next < next' \/ next' = 0).
Proof.
  unfold next_id, nonzero_id_new, NonZeroU64_new. intros H. destruct (N.eqb_spec next 0); [done|].
  injection H as <- <-. split_and!; [done..|].
  unfold u64_checked_add. destruct (N.leb_spec (next + 1) U64_MAX); cbn; lia.
Qed.

Ltac id_counter :=
  match goal with
  | |- ?f ?ids = _ -> _ => unfold f
  end;
  let E := fresh "E" in
  match goal with
  | |- context [next_id ?n ?c] =>
      change c with nonzero_id_new; destruct (next_id n nonzero_id_new) as [[v' n']|] eqn:E; [|done]
  end;
  apply next_id_Ok in E as (-> & ? & ?); intros [= <- <-]; split_and!; try done;
  constructor; unfold counter_le; cbn; auto.

Lemma IdCounters_retry_timer_Ok ids v ids' :
  IdCounters_retry_timer ids = Ok (v, ids') -> v = ic_retry_timer ids /\ v <> 0 /\ ids_le ids ids'.
Proof. id_counter. Qed.
Lemma IdCounters_slow_readmission_Ok ids v ids' :
  IdCounters_slow_readmission ids = Ok (v, ids') ->
  v = ic_slow_readmission ids /\ v <> 0 /\ ids_le ids ids'.
Proof. id_counter. Qed.
Lemma IdCounters_no_space_probe_Ok ids v ids' :
  IdCounters_no_space_probe ids = Ok (v, ids') ->
  v = ic_no_space_probe ids /\ v <> 0 /\ ids_le ids ids'.
Proof. id_counter. Qed.
Lemma IdCounters_host_key_resolution_Ok ids v ids' :
  IdCounters_host_key_resolution ids = Ok (v, ids') ->
  v = ic_host_key_resolution ids /\ v <> 0 /\ ids_le ids ids'.
Proof. id_counter. Qed.
Lemma IdCounters_stopped_deletion_Ok ids v ids' :
  IdCounters_stopped_deletion ids = Ok (v, ids') ->
  v = ic_stopped_deletion ids /\ v <> 0 /\ ids_le ids ids'.
Proof. id_counter. Qed.

Definition release_effects (u : ScheduledTask) : list TransitionEffect :=
  if owns_slot u then [TransitionEffect.ReleaseSlot (t_task_id u) (t_gid u) (t_slot u)] else [].

Lemma release_slot_eq u eff :
  release_slot u eff = (u <| t_slot := SlotOwnership.None |>, eff ++ release_effects u).
Proof.
  unfold release_slot, release_effects. destruct (owns_slot u) eqn:E; [done|].
  rewrite app_nil_r. destruct u as [? ? ? ? ? ? ? slot]. by destruct slot.
Qed.

Definition timer_cancellations (u : ScheduledTask) : list TransitionEffect :=
  match t_retry_timer u with
  | Some (id, _) => [TransitionEffect.CancelRetry (t_task_id u) (t_gid u) (t_generation u) id]
  | None => []
  end ++
  match t_slow_readmission u with
  | Some (id, _) => [TransitionEffect.CancelSlowReadmission (t_task_id u) (t_gid u) (t_generation u) id]
  | None => []
  end.

Definition without_timers (u : ScheduledTask) : ScheduledTask :=
  u <| t_retry_timer := None |> <| t_retry_ready := false |> <| t_slow_readmission := None |>
    <| t_slow_readmission_ready := false |> <| t_pending_slow_readmission := None |>
    <| t_slow_slot := None |>.

Lemma cancel_timers_eq u eff : cancel_timers u eff = (without_timers u, eff ++ timer_cancellations u).
Proof.
  destruct u as [? ? ? ? ? ? ? ? ? [[]|] ? [[]|]]; unfold timer_cancellations; cbn [app t_retry_timer t_slow_readmission];
    rewrite ?app_nil_r; try reflexivity.
  unfold cancel_timers. simpl_task. cbn [t_retry_timer]. simpl_task. cbn [t_slow_readmission].
  by rewrite <- app_assoc.
Qed.

Definition challenge_rejections (gid : Gid) (u : ScheduledTask) : list TransitionEffect :=
  match t_host_key_challenge u with
  | Some c => [TransitionEffect.PersistHostKeyChallengeRejected (t_task_id u) gid (hk_id (ph_summary c))]
  | None => []
  end.

Lemma reject_challenge_eq gid u eff :
  reject_challenge gid u eff = (u <| t_host_key_challenge := None |>, eff ++ challenge_rejections gid u).
Proof.
  unfold reject_challenge, challenge_rejections.
  destruct u as [? ? ? ? ? ? ? ? ? ? ? ? ? ? ? ? ? ? ? ? ? ? ? [?|]]; cbn; by rewrite ?app_nil_r.
Qed.

Definition readmission_cancellations (gid : Gid) (u : ScheduledTask) : list TransitionEffect :=
  match t_slow_readmission u with
  | Some (id, _) => [TransitionEffect.CancelSlowReadmission (t_task_id u) gid (t_generation u) id]
  | None => []
  end.

Lemma cancel_slow_readmission_eq gid u eff :
  cancel_slow_readmission gid u eff =
  (u <| t_slow_readmission := None |>, eff ++ readmission_cancellations gid u).
Proof.
  unfold cancel_slow_readmission, readmission_cancellations.
  destruct u as [? ? ? ? ? ? ? ? ? ? ? [[]|]]; cbn; by rewrite ?app_nil_r.
Qed.

Lemma begin_cancellation_Ok u target force eff op u' eff' :
  begin_cancellation u target force eff op = Ok (u', eff') ->
  exists force' cancels,
    u' = u <| t_pending_barrier :=
               Some (PendingBarrier.CancellationDrain (t_generation u) target force') |> /\
    eff' = eff ++ cancels /\ (List.length cancels <= 1)%nat /\ Forall (plain_effect u) cancels.
Proof.
  unfold begin_cancellation. intros H.
  assert (Hp : forall b, plain_effect u (TransitionEffect.CancelGeneration (t_task_id u) (t_gid u) (t_generation u) b))
    by done.
  destruct (t_pending_barrier u) as [[g|g t f|g st|g i|g i|g i c|g i]|]; try discriminate H.
  - injection H as <- <-. eexists _, [_]. split_and!; eauto.
  - destruct (N.eqb_spec g (t_generation u)) as [->|]; [|discriminate H].
    injection H as <- <-. destruct (force && negb f).
    + eexists _, [_]. split_and!; eauto.
    + eexists _, []. rewrite app_nil_r. split_and!; eauto.
  - injection H as <- <-. eexists _, [_]. split_and!; eauto.
Qed.

Lemma begin_terminal_Ok u status error u' :
  begin_terminal u status error = Ok u' ->
  u' = u <| t_error := error |> <| t_stopped_status := None |> <| t_terminal_persisted := false |>
         <| t_pending_barrier := Some (PendingBarrier.TerminalPersistence (t_generation u) status) |> /\
  Aria2Status_is_terminal status = true /\ (status = Aria2Status.Error -> is_Some error).
Proof.
  unfold begin_terminal. destruct (_ || _) eqn:E; [done|]. intros [= <-]. bool_to_prop.
  split_and!; [done..|]. intros ->. destruct error; [eauto|done].
Qed.

Lemma schedule_no_space_probe_Ok u origin at_ eff ids u' eff' ids' :
  schedule_no_space_probe u origin at_ eff ids = Ok (u', eff', ids') ->
  (u' = u /\ eff' = eff /\ ids' = ids /\ is_Some (t_no_space_probe u)) \/
  (t_no_space_probe u = None /\ is_Some (tc_no_space (t_conditions u)) /\
   u' = u <| t_no_space_probe := Some (ic_no_space_probe ids, origin) |> /\
   eff' = eff ++ [TransitionEffect.ProbeNoSpace (t_task_id u) (t_gid u) (t_generation u)
                    (ic_no_space_probe ids) origin at_] /\ ic_no_space_probe ids <> 0 /\
   IdCounters_no_space_probe ids = Ok (ic_no_space_probe ids, ids')).
Proof.
  unfold schedule_no_space_probe. destruct (t_no_space_probe u) as [?|] eqn:Ep; cbn [is_some].
  - intros [= <- <- <-]. left. eauto.
  - destruct (tc_no_space (t_conditions u)) eqn:Ec; cbn; [|done].
    destruct (IdCounters_no_space_probe ids) as [[v i]|] eqn:E; cbn; [|done].
    intros [= <- <- <-]. right. pose proof (IdCounters_no_space_probe_Ok _ _ _ E) as (-> & ? & ?).
    split_and!; eauto.
Qed.

#[global] Instance frame_refl : Reflexive frame.
Proof. by constructor. Qed.
#[global] Instance frame_trans : Transitive frame.
Proof. intros o u v [] []. constructor; (congruence || auto). Qed.

Lemma plain_frame o u eff : frame o u -> Forall (plain_effect u) eff -> Forall (plain_effect o) eff.
Proof.
  intros [Ht Hg] H. eapply Forall_impl; [exact H|]. unfold plain_effect. by rewrite Ht, Hg.
Qed.

Lemma plain_release u : Forall (plain_effect u) (release_effects u).
Proof. unfold release_effects. destruct (owns_slot u); by repeat constructor. Qed.
Lemma plain_timers u : Forall (plain_effect u) (timer_cancellations u).
Proof.
  unfold timer_cancellations. apply Forall_app. split.
  - destruct (t_retry_timer u) as [[]|]; by repeat constructor.
  - destruct (t_slow_readmission u) as [[]|]; by repeat constructor.
Qed.
Lemma plain_rejections u : Forall (plain_effect u) (challenge_rejections (t_gid u) u).
Proof. unfold challenge_rejections. destruct (t_host_key_challenge u); by repeat constructor. Qed.
Lemma plain_readmissions u : Forall (plain_effect u) (readmission_cancellations (t_gid u) u).
Proof. unfold readmission_cancellations. destruct (t_slow_readmission u) as [[]|]; by repeat constructor. Qed.

Lemma length_release u : (List.length (release_effects u) <= 1)%nat.
Proof. unfold release_effects. destruct (owns_slot u); cbn; lia. Qed.
Lemma length_timers u : (List.length (timer_cancellations u) <= 2)%nat.
Proof.
  unfold timer_cancellations. rewrite length_app.
  destruct (t_retry_timer u) as [[]|], (t_slow_readmission u) as [[]|]; cbn; lia.
Qed.
Lemma length_rejections gid u : (List.length (challenge_rejections gid u) <= 1)%nat.
Proof. unfold challenge_rejections. destruct (t_host_key_challenge u); cbn; lia. Qed.
Lemma length_readmissions gid u : (List.length (readmission_cancellations gid u) <= 1)%nat.
Proof. unfold readmission_cancellations. destruct (t_slow_readmission u) as [[]|]; cbn; lia. Qed.

#[export] Hint Resolve plain_release plain_timers plain_rejections plain_readmissions : ariax.
#[export] Hint Resolve ids_le_refl ids_le_trans : ariax.

(** A composition of field updates is a [frame]. *)
Ltac frame_fields :=
  solve [ constructor; unfold without_timers, mark_non_token_event, owns_slot; simpl_task;
          first [ done | congruence | by intros ? [=] | by intros ? ? [=] | intros; assumption ] ].
Ltac frame_tac :=
  match goal with
  | |- frame ?o ?o => reflexivity
  | H : frame ?o ?u |- frame ?o ?u => exact H
  | H : frame ?o ?u |- frame ?o _ => etrans; [exact H|]; frame_fields
  | _ => frame_fields
  end.

(** [eff'] extends [eff] by at most [n] plain effects of the task. *)
Definition adds (n : nat) (o : ScheduledTask) (eff eff' : list TransitionEffect) : Prop :=
  exists l, eff' = eff ++ l /\ (List.length l <= n)%nat /\ Forall (plain_effect o) l.

Lemma adds_nil n o eff : adds n o eff eff.
Proof. exists []. rewrite app_nil_r. split_and!; [done|cbn; lia|done]. Qed.

Lemma adds_app n o l eff :
  (List.length l <= n)%nat -> Forall (plain_effect o) l -> adds n o eff (eff ++ l).
Proof. intros. by exists l. Qed.

Lemma adds_trans n m o eff1 eff2 eff3 :
  adds n o eff1 eff2 -> adds m o eff2 eff3 -> adds (n + m) o eff1 eff3.
Proof.
  intros (l & -> & Hl & ?) (l' & -> & Hl' & ?). exists (l ++ l'). rewrite app_assoc, length_app, Forall_app.
  split_and!; [done|lia|done..].
Qed.

Lemma adds_le n m o eff eff' : adds n o eff eff' -> (n <= m)%nat -> adds m o eff eff'.
Proof. intros (l & -> & ? & ?) ?. exists l. split_and!; [done|lia|done]. Qed.

Lemma adds_frame n o u eff eff' : adds n u eff eff' -> frame o u -> adds n o eff eff'.
Proof. intros (l & -> & ? & ?) ?. exists l. split_and!; [done..|]. by eapply plain_frame. Qed.

Lemma adds_release o u eff : frame o u -> adds 1 o eff (eff ++ release_effects u).
Proof. intros. eapply adds_frame; [|done]. apply adds_app; [apply length_release|auto with ariax]. Qed.
Lemma adds_timers o u eff : frame o u -> adds 2 o eff (eff ++ timer_cancellations u).
Proof. intros. eapply adds_frame; [|done]. apply adds_app; [apply length_timers|auto with ariax]. Qed.
Lemma adds_rejections gid o u eff :
  gid = t_gid u -> frame o u -> adds 1 o eff (eff ++ challenge_rejections gid u).
Proof. intros -> ?. eapply adds_frame; [|done]. apply adds_app; [apply length_rejections|auto with ariax]. Qed.
Lemma adds_readmissions gid o u eff :
  gid = t_gid u -> frame o u -> adds 1 o eff (eff ++ readmission_cancellations gid u).
Proof. intros -> ?. eapply adds_frame; [|done]. apply adds_app; [apply length_readmissions|auto with ariax]. Qed.
Lemma adds_one o e eff : plain_effect o e -> adds 1 o eff (eff ++ [e]).
Proof. intros. apply adds_app; [done|]. by apply Forall_singleton. Qed.

Lemma begin_cancellation_adds o u target force eff op u' eff' :
  begin_cancellation u target force eff op = Ok (u', eff') -> frame o u ->
  adds 1 o eff eff' /\
  exists force', u' = u <| t_pending_barrier :=
    Some (PendingBarrier.CancellationDrain (t_generation u) target force') |>.
Proof.
  intros (f & l & -> & -> & ? & ?)%begin_cancellation_Ok Hf. split; [|by eexists].
  eapply adds_frame; [|exact Hf]. by apply adds_app.
Qed.

Lemma begin_terminal_frame o u status error u' :
  begin_terminal u status error = Ok u' -> frame o u -> frame o u'.
Proof. intros (-> & _)%begin_terminal_Ok Hf. etrans; [exact Hf|]. frame_tac. Qed.

Lemma complete_pending_user_control_adds o u eff control u' eff' :
  complete_pending_user_control o u eff = Ok (control, u', eff') -> frame u u' /\ adds 4 u eff eff'.
Proof.
  unfold complete_pending_user_control. destruct (t_pending_user_control u) as [[force| |force]|].
  - destruct (target_state _ _) as [st|]; cbn [mbind result_bind]; [|done].
    set (v := u <| t_pending_user_control := None |> <| t_state := st |> <| t_desired_paused := true |>).
    assert (frame u v) by (subst v; frame_tac). clearbody v.
    destruct (owns_slot v); cbn [mbind result_bind].
    + destruct (begin_cancellation _ _ _ _ _) as [[w e]|] eqn:E; cbn; [|done]. intros [= <- <- <-].
      apply (begin_cancellation_adds u) in E as (? & ? & ->); [|done]. split; [frame_tac|]. eapply adds_le; [eassumption|lia].
    + intros [= <- <- <-]. split; [done|apply adds_nil].
  - destruct (target_state _ _) as [st|]; cbn [mbind result_bind]; [|done]. rewrite cancel_timers_eq.
    intros [= <- <- <-]. split; [frame_tac|]. eapply adds_le; [apply adds_timers; frame_tac|lia].
  - destruct (target_state _ _) as [st|]; cbn [mbind result_bind]; [|done].
    rewrite cancel_timers_eq, reject_challenge_eq.
    match goal with |- context [owns_slot ?w] => set (v := w) end.
    assert (frame u v) by (subst v; frame_tac). clearbody v.
    match goal with |- context [begin_cancellation v _ _ ?e _] => set (e' := e) end.
    assert (adds 3 u eff e').
    { apply (adds_trans 2 1 _ _ _ _ (adds_timers _ _ _ ltac:(frame_tac))).
      apply adds_rejections; [done|frame_tac]. }
    destruct (owns_slot v); cbn [mbind result_bind].
    + destruct (begin_cancellation _ _ _ _ _) as [[w e]|] eqn:E; cbn; [|done]. intros [= <- <- <-].
      apply (begin_cancellation_adds u) in E as (? & ? & ->); [|done]. split; [frame_tac|].
      by apply (adds_trans 3 1 _ _ e').
    + destruct (begin_terminal _ _ _) as [w|] eqn:E; cbn; [|done]. intros [= <- <- <-].
      split; [by eapply begin_terminal_frame|]. eapply adds_le; [eassumption|lia].
  - intros [= <- <- <-]. split; [done|apply adds_nil].
Qed.

(** The deferred control that [complete_pending_user_control] carries out. *)
Inductive control_completed (o u : ScheduledTask) : option SchedulerAction -> ScheduledTask -> Prop :=
| completed_none :
    t_pending_user_control u = None -> control_completed o u None u
| completed_pause force st :
    t_pending_user_control u = Some (PendingUserControl.Pause force) ->
    target_state o SchedulerAction.DeferredPauseCompleted = Ok st -> owns_slot u = false ->
    control_completed o u (Some SchedulerAction.DeferredPauseCompleted)
      (u <| t_pending_user_control := None |> <| t_state := st |> <| t_desired_paused := true |>)
| completed_pause_drain force st force' :
    t_pending_user_control u = Some (PendingUserControl.Pause force) ->
    target_state o SchedulerAction.DeferredPauseCompleted = Ok st -> owns_slot u = true ->
    control_completed o u (Some SchedulerAction.DeferredPauseCompleted)
      (u <| t_pending_user_control := None |> <| t_state := st |> <| t_desired_paused := true |>
         <| t_pending_barrier :=
              Some (PendingBarrier.CancellationDrain (t_generation u) DrainTarget.Paused force') |>)
| completed_resume st :
    t_pending_user_control u = Some PendingUserControl.Resume ->
    target_state o SchedulerAction.DeferredResumeCompleted = Ok st ->
    control_completed o u (Some SchedulerAction.DeferredResumeCompleted)
      (without_timers (u <| t_pending_user_control := None |> <| t_state := st |>
                         <| t_desired_paused := false |> <| t_slow_demotion_count := 0 |>))
| completed_remove force st u' :
    t_pending_user_control u = Some (PendingUserControl.Remove force) ->
    target_state o SchedulerAction.DeferredRemoveCompleted = Ok st ->
    u' = without_timers (u <| t_pending_user_control := None |> <| t_state := st |>)
           <| t_no_space_probe := None |> <| t_host_key_challenge := None |>
           <| t_pending_option_patch := None |> <| t_pending_option_patch_mode := None |>
           <| t_pending_credential_requirement := None |> ->
    owns_slot u = false ->
    control_completed o u (Some SchedulerAction.DeferredRemoveCompleted)
      (u' <| t_error := None |> <| t_stopped_status := None |> <| t_terminal_persisted := false |>
          <| t_pending_barrier :=
               Some (PendingBarrier.TerminalPersistence (t_generation u) Aria2Status.Removed) |>)
| completed_remove_drain force st u' force' :
    t_pending_user_control u = Some (PendingUserControl.Remove force) ->
    target_state o SchedulerAction.DeferredRemoveCompleted = Ok st ->
    u' = without_timers (u <| t_pending_user_control := None |> <| t_state := st |>)
           <| t_no_space_probe := None |> <| t_host_key_challenge := None |>
           <| t_pending_option_patch := None |> <| t_pending_option_patch_mode := None |>
           <| t_pending_credential_requirement := None |> ->
    owns_slot u = true ->
    control_completed o u (Some SchedulerAction.DeferredRemoveCompleted)
      (u' <| t_pending_barrier :=
               Some (PendingBarrier.CancellationDrain (t_generation u) DrainTarget.Removed force') |>).

Lemma complete_pending_user_control_Ok o u eff control u' eff' :
  complete_pending_user_control o u eff = Ok (control, u', eff') -> control_completed o u control u'.
Proof.
  unfold complete_pending_user_control. destruct (t_pending_user_control u) as [[force| |force]|] eqn:Ec.
  - destruct (target_state _ _) as [st|] eqn:Et; cbn [mbind result_bind]; [|done]. unfold owns_slot. simpl_task.
    destruct (SlotOwnership_owns_slot (t_slot u)) eqn:Eo.
    + destruct (begin_cancellation _ _ _ _ _) as [[w e]|] eqn:E; cbn [mbind result_bind]; [|done].
      intros [= <- <- <-]. apply begin_cancellation_Ok in E as (? & ? & -> & _).
      by eapply (completed_pause_drain o u).
    + intros [= <- <- <-]. by eapply (completed_pause o u).
  - destruct (target_state _ _) as [st|] eqn:Et; cbn [mbind result_bind]; [|done]. rewrite cancel_timers_eq.
    intros [= <- <- <-]. by eapply (completed_resume o u).
  - destruct (target_state _ _) as [st|] eqn:Et; cbn [mbind result_bind]; [|done].
    rewrite cancel_timers_eq, reject_challenge_eq. unfold owns_slot. simpl_task.
    destruct (SlotOwnership_owns_slot (t_slot (without_timers _))) eqn:Eo.
    + destruct (begin_cancellation _ _ _ _ _) as [[w e]|] eqn:E; cbn [mbind result_bind]; [|done].
      intros [= <- <- <-]. apply begin_cancellation_Ok in E as (? & ? & -> & _).
      by eapply (completed_remove_drain o u).
    + destruct (begin_terminal _ _ _) as [w|] eqn:E; cbn [mbind result_bind]; [|done]. intros [= <- <- <-].
      apply begin_terminal_Ok in E as (-> & _). by eapply (completed_remove o u).
  - intros [= <- <- <-]. by constructor.
Qed.

(** The probe that a drained or re-checked task may schedule. *)
Lemma maybe_probe_Ok o u (probe_at : option MonotonicInstant) origin eff ids u' eff' ids' :
  match probe_at with
  | Some at_ => schedule_no_space_probe u origin at_ eff ids
  | None => Ok (u, eff, ids)
  end = Ok (u', eff', ids') -> frame o u ->
  ids_le ids ids' /\ adds 1 o eff eff' /\
  exists probe, u' = u <| t_no_space_probe := probe |> /\
    (is_Some probe -> is_Some (t_no_space_probe u) \/ is_Some (tc_no_space (t_conditions u))).
Proof.
  intros E Hf. destruct probe_at as [at_|].
  - apply schedule_no_space_probe_Ok in E as [(-> & -> & -> & ?)|(? & ? & -> & -> & ? & E)].
    + split_and!; [apply ids_le_refl|apply adds_nil|]. exists (t_no_space_probe u). auto.
    + apply IdCounters_no_space_probe_Ok in E as (_ & _ & ?).
      split_and!; [done|eapply adds_frame; [by apply adds_one|done]|]. eexists. auto.
  - injection E as <- <- <-. split_and!; [apply ids_le_refl|apply adds_nil|].
    exists (t_no_space_probe u). auto.
Qed.

(** What a drained cancellation does for each target. *)
Lemma drain_target_plan_Ok o u target action eff ids u' eff' ids' publish :
  drain_target_plan o u target action eff ids = Ok (u', eff', ids', publish) -> frame o u ->
  ids_le ids ids' /\ adds 1 o eff eff' /\
  match target with
  | DrainTarget.PausedRestarting =>
      (u' = u /\ t_pending_source_replacement u = true /\ publish = true) \/
      exists patch_id st, t_pending_option_patch u = Some patch_id /\ is_staged u /\
        target_state o action = Ok st /\ publish = false /\
        u' = u <| t_state := st |> <| t_pending_barrier :=
               Some (PendingBarrier.OptionPatchApplication (t_generation u) patch_id) |>
  | DrainTarget.WaitingSlow =>
      publish = true /\ exists decision readmission,
        u' = u <| t_pending_slow_readmission := decision |> <| t_slow_readmission := readmission |>
  | DrainTarget.Error =>
      publish = false /\ exists error, t_error u = Some error /\
        begin_terminal u Aria2Status.Error (Some error) = Ok u'
  | DrainTarget.Removed => publish = false /\ begin_terminal u Aria2Status.Removed None = Ok u'
  | DrainTarget.Paused | DrainTarget.PausedSlow | DrainTarget.Waiting => u' = u /\ publish = true
  end.
Proof.
  intros E Hf. destruct target; unfold drain_target_plan in E.
  1-3: injection E as <- <- <- <-; split_and!; auto using adds_nil with ariax.
  - destruct (t_pending_slow_readmission u) as [decision|].
    + destruct (IdCounters_slow_readmission ids) as [[v i]|] eqn:Ei; [|done].
      apply IdCounters_slow_readmission_Ok in Ei as (-> & _ & ?). cbn [mbind result_bind] in E.
      injection E as <- <- <- <-. split_and!; [done|eapply adds_frame; [by apply adds_one|done]|done|]. eauto.
    + injection E as <- <- <- <-. split_and!; auto using adds_nil with ariax.
      by exists (t_pending_slow_readmission u), (t_slow_readmission u).
  - destruct (t_pending_source_replacement u) eqn:Er.
    { injection E as <- <- <- <-. split_and!; auto using adds_nil with ariax. }
    destruct (t_pending_option_patch u) as [patch_id|]; [|done]. cbn [ok_or mbind result_bind] in E.
    case_bool_decide; [|done]. destruct (target_state o action) as [st|]; [|done]. cbn [mbind result_bind negb] in E.
    injection E as <- <- <- <-. split_and!; [auto with ariax|eapply adds_frame; [by apply adds_one|done]|].
    right. by exists patch_id, st.
  - destruct (t_error u) as [error|]; [|done]. cbn [ok_or mbind result_bind] in E.
    destruct (begin_terminal u _ _) as [w|] eqn:Et; [|done]. injection E as <- <- <- <-.
    split_and!; eauto using adds_nil with ariax.
  - destruct (begin_terminal u _ _) as [w|] eqn:Et; [|done]. injection E as <- <- <- <-.
    split_and!; eauto using adds_nil with ariax.
Qed.

(** Walks a handler to its leaves. *)
Ltac handle_step :=
  match goal with
  | |- context [cancel_timers _ _] => rewrite cancel_timers_eq
  | |- context [release_slot _ _] => rewrite release_slot_eq
  | |- context [reject_challenge _ _ _] => rewrite reject_challenge_eq
  | |- context [cancel_slow_readmission _ _ _] => rewrite cancel_slow_readmission_eq
  | |- handled _ _ _ (mbind _ get_self _) => apply handled_get
  | |- handled _ _ _ (mbind _ (lift _) _) => apply handled_lift; intros ? ?
  | |- handled _ _ _ (throw _ _) => apply handled_throw
  | |- handled _ _ _ (mret SchedulerOutcome_default _) => apply handled_default
  | |- handled _ _ _ (lift (ignored_for_disposition _ _ _) _) => apply handled_ignored
  | |- handled _ _ _ (unless_stale _ _ _ _ _) => apply handled_unless_stale; intros ?
  | |- handled _ _ _ (finish_action _ _ _ _ _ _ _ _ _) => apply handled_finish
  | |- handled _ _ _ ((match (if ?b then _ else _) with _ => _ end) _) =>
      let E := fresh "E" in destruct b eqn:E
  | |- handled _ _ _ ((if ?b then _ else _) _) => let E := fresh "E" in destruct b eqn:E
  | |- handled _ _ _ ((match ?x with _ => _ end) _) => is_var x; destruct x
  | |- handled _ _ _ ((match ?x with _ => _ end) _) => let E := fresh "E" in destruct x eqn:E
  | |- handled _ _ _ ?m => progress cbv beta zeta
  end.
Ltac handle := repeat handle_step.

(** ** Admission *)

(** The task that [plan_admission] leaves. *)
Definition admitted (u : ScheduledTask) (g : Generation) : ScheduledTask :=
  (if g != t_generation u
   then ScheduledTask_clear_generation_event_history (u <| t_generation := g |>)
   else u)
    <| t_generation_started := true |> <| t_state := TaskState.Allocating |>
    <| t_slot := SlotOwnership.Reserved |> <| t_retry_ready := false |>
    <| t_slow_readmission_ready := false |>
    <| t_pending_barrier := Some (PendingBarrier.GenerationPersistence g) |>.

Lemma plan_admission_Ok s u action eff u' eff' :
  plan_admission s u action eff = Ok (u', eff') ->
  exists g, u' = admitted u g /\
    eff' = eff ++ [TransitionEffect.PersistGenerationStarted (t_task_id u) (t_gid u) g] /\
    t_pending_barrier u = None /\ t_desired_paused u = false /\
    TaskConditions_blocks_admission (t_conditions u) = false /\
    (owns_slot u = true \/ active_slot_count s < sc_max_active_tasks (rs_config s)) /\
    (if t_generation_started u then Generation_checked_next (t_generation u) = Some g
     else g = t_generation u).
Proof.
  unfold plan_admission, reject_pending. destruct (t_pending_barrier u) eqn:Eb; [done|].
  cbn [mbind result_bind].
  destruct (t_desired_paused u || _) eqn:Ed; [done|]. apply orb_false_iff in Ed as [??].
  destruct (negb (owns_slot u) && _) eqn:Es; [done|].
  destruct (target_state u action) as [target|]; [|done]. cbn [mbind result_bind].
  case_bool_decide; cbn [negb]; [subst target|done].
  assert (Hslot : owns_slot u = true \/ active_slot_count s < sc_max_active_tasks (rs_config s)).
  { apply andb_false_iff in Es as [?%negb_false_iff|?%N.leb_gt]; auto. }
  destruct (t_generation_started u).
  - destruct (Generation_checked_next _) as [g|] eqn:Eg; cbn [ok_or mbind result_bind]; [|done].
    intros [= <- <-]. exists g. unfold admitted. simpl_task. split_and!; try done. by case_bool_decide.
  - cbn [ok_or mbind result_bind]. intros [= <- <-]. exists (t_generation u). unfold admitted.
    rewrite bool_decide_eq_true_2 by done. by split_and!.
Qed.

(** The admission leaves every other field as it was. *)
Record admitted_frame (u u' : ScheduledTask) : Prop := {
  af_task_id : t_task_id u' = t_task_id u;
  af_gid : t_gid u' = t_gid u;
  af_desired_paused : t_desired_paused u' = t_desired_paused u;
  af_conditions : t_conditions u' = t_conditions u;
  af_no_space_probe : t_no_space_probe u' = t_no_space_probe u;
  af_pending_option_patch : t_pending_option_patch u' = t_pending_option_patch u;
  af_pending_option_patch_mode : t_pending_option_patch_mode u' = t_pending_option_patch_mode u;
  af_pending_user_control : t_pending_user_control u' = t_pending_user_control u;
  af_pending_source_replacement : t_pending_source_replacement u' = t_pending_source_replacement u;
  af_host_key_challenge : t_host_key_challenge u' = t_host_key_challenge u;
  af_error : t_error u' = t_error u;
  af_stopped_status : t_stopped_status u' = t_stopped_status u;
  af_terminal_persisted : t_terminal_persisted u' = t_terminal_persisted u;
}.

Lemma admitted_frames u g : admitted_frame u (admitted u g).
Proof.
  unfold admitted, ScheduledTask_clear_generation_event_history.
  case_bool_decide; cbn [negb]; constructor; by simpl_task.
Qed.

Lemma generation_admitted u g : t_generation (admitted u g) = g.
Proof.
  unfold admitted, ScheduledTask_clear_generation_event_history.
  case_bool_decide; cbn [negb]; by simpl_task.
Qed.

Lemma step_admitted s o u g :
  t_task_id u = t_task_id o -> t_gid u = t_gid o -> t_pending_barrier u = t_pending_barrier o ->
  t_desired_paused u = t_desired_paused o -> t_conditions u = t_conditions o ->
  t_slot u = t_slot o -> t_generation u = t_generation o ->
  t_generation_started u = t_generation_started o ->
  t_pending_barrier u = None -> t_desired_paused u = false ->
  TaskConditions_blocks_admission (t_conditions u) = false ->
  (owns_slot u = true \/ active_slot_count s < sc_max_active_tasks (rs_config s)) ->
  (if t_generation_started u then Generation_checked_next (t_generation u) = Some g
   else g = t_generation u) ->
  task_step s o (admitted u g)
    [TransitionEffect.PersistGenerationStarted (t_task_id u) (t_gid u) g].
Proof.
  intros Hi Hg Hb Hd Hc Hs Hn Hst. unfold owns_slot. rewrite Hi, Hg, Hb, Hd, Hc, Hs, Hn, Hst. intros.
  by apply step_admit; try (unfold admitted; by simpl_task); [apply generation_admitted].
Qed.
