(* ===== verification/SchedulerHandlers.v ===== *)
(** * Every handler plans well

    For each event and command handler: it fails without a write, answers
    inertly, or runs a plan that satisfies [plan_ok]. *)

From S2P Require Import Prelude Ids Errors State Snapshot PersistedDelay CommandKinds Transition Command.
From S2P Require Import Scheduler SchedulerCommands SchedulerEvents SchedulerInv SchedulerPlans.
From Stdlib Require Import Ascii String.
Open Scope list_scope.

(** ** Leaf tactics *)

(** Bounds the effects collected on the way to a leaf. *)
Ltac adds_tac :=
  match goal with
  | |- adds _ _ ?e ?e => apply (adds_nil 0)
  | H : adds _ ?o _ ?e |- adds _ ?o _ ?e => eapply adds_trans; [|exact H]; adds_tac
  | |- adds _ _ _ (_ ++ release_effects _) =>
      eapply adds_trans; [ | apply adds_release; frame_tac ]; [ adds_tac | .. ]
  | |- adds _ _ _ (_ ++ timer_cancellations _) =>
      eapply adds_trans; [ | apply adds_timers; frame_tac ]; [ adds_tac | .. ]
  | |- adds _ _ _ (_ ++ challenge_rejections _ _) =>
      eapply adds_trans; [ | apply adds_rejections; [|frame_tac] ]; [ adds_tac | .. ]
  | |- adds _ _ _ (_ ++ readmission_cancellations _ _) =>
      eapply adds_trans; [ | apply adds_readmissions; [|frame_tac] ]; [ adds_tac | .. ]
  | |- adds _ _ _ (_ ++ [_]) => eapply adds_trans; [ | apply adds_one ]; [ adds_tac | .. ]
  | |- adds _ _ [] [?e] => change [e] with ([] ++ [e]); adds_tac
  end.

Lemma plan_ok_step i s o u action eff publish ids :
  rs_tasks s !! t_gid o = Some o -> input_for i o -> allows i action = true ->
  (action = SchedulerAction.TerminalPersistenceSucceeded -> exists task_id gid status,
     i = FromEvent task_id (TaskEvent.TerminalPersisted gid (t_generation o) status) /\
     t_pending_barrier o = Some (PendingBarrier.TerminalPersistence (t_generation o) status) /\
     t_stopped_status u = Some status) ->
  (quiet_action action = true -> publish = false) ->
  ids_le (rs_ids s) ids -> t_gid u = t_gid o -> t_task_id u = t_task_id o ->
  task_step s o u eff -> (List.length eff <= 6)%nat ->
  (forall e, e ∈ eff -> TransitionEffect_kind e <> TransitionEffectKind.StartAllocation) ->
  ((publish = true -> conditions_ok u) -> task_inv u) ->
  plan_ok i s (mkPlan o (Some u) true action eff publish ids).
Proof.
  intros Hl Hin Ha Ht Hq Hi Hg Htid Hs Hlen Hne Hinv.
  constructor; cbn [p_original p_updated p_present p_effects p_action p_ids]; try done.
  - intros e He Ek. by destruct (Hne e He).
  - intros Ea. destruct (Ht Ea) as (? & ? & ? & ? & ? & ?). by eexists _, _, _, _.
Qed.

Lemma plan_ok_plain i s o u action eff publish ids n :
  rs_tasks s !! t_gid o = Some o -> input_for i o -> allows i action = true ->
  (action = SchedulerAction.TerminalPersistenceSucceeded -> exists task_id gid status,
     i = FromEvent task_id (TaskEvent.TerminalPersisted gid (t_generation o) status) /\
     t_pending_barrier o = Some (PendingBarrier.TerminalPersistence (t_generation o) status) /\
     t_stopped_status u = Some status) ->
  (quiet_action action = true -> publish = false) ->
  ids_le (rs_ids s) ids -> frame o u -> adds n o [] eff -> (n <= 6)%nat ->
  ((publish = true -> conditions_ok u) -> task_inv u) ->
  plan_ok i s (mkPlan o (Some u) true action eff publish ids).
Proof.
  intros Hl Hin Ha Ht Hq Hi Hf (l & -> & Hn & Hp) ? Hinv. cbn [app].
  apply plan_ok_step; try done; [apply Hf..|by apply step_plain|lia|].
  rewrite Forall_forall in Hp. intros e He Ek. destruct (Hp e He) as (_ & _ & Hk). by rewrite Ek in Hk.
Qed.

Lemma Ok_pair_inj {E A B} (a a' : A) (b b' : B) : (Ok (a, b) : result E _) = Ok (a', b') -> a = a' /\ b = b'.
Proof. by intros [= -> ->]. Qed.
Lemma Ok_triple_inj {E A B C} (a a' : A) (b b' : B) (c c' : C) :
  (Ok (a, b, c) : result E _) = Ok (a', b', c') -> a = a' /\ b = b' /\ c = c'.
Proof. by intros [= -> -> ->]. Qed.

(** Turns the equations of the shared steps into [frame] and [adds] facts. *)
Ltac use_steps o :=
  repeat match goal with
  | H : Ok (_, _, _) = Ok (_, _, _) |- _ => apply Ok_triple_inj in H as (<- & <- & <-)
  | H : Ok (_, _) = Ok (_, _) |- _ => apply Ok_pair_inj in H as [<- <-]
  | H : begin_cancellation _ _ _ _ _ = Ok (_, _) |- _ =>
      apply (begin_cancellation_adds o) in H as (? & ? & ->); [|frame_tac]
  | H : mbind _ (begin_terminal ?u ?status ?error) = Ok _ |- _ =>
      let E := fresh "E" in
      destruct (begin_terminal u status error) eqn:E; cbn [mbind result_bind] in H; [|discriminate H]
  | H : begin_terminal _ _ _ = Ok _ |- _ => apply begin_terminal_Ok in H as (-> & _ & _)
  | H : IdCounters_retry_timer _ = Ok (_, _) |- _ => apply IdCounters_retry_timer_Ok in H as (? & ? & ?)
  | H : IdCounters_slow_readmission _ = Ok (_, _) |- _ =>
      apply IdCounters_slow_readmission_Ok in H as (? & ? & ?)
  | H : IdCounters_host_key_resolution _ = Ok (_, _) |- _ =>
      apply IdCounters_host_key_resolution_Ok in H as (? & ? & ?)
  | H : IdCounters_stopped_deletion _ = Ok (_, _) |- _ =>
      apply IdCounters_stopped_deletion_Ok in H as (? & ? & ?)
  end.

(** Splits on the deferred control that was carried out. *)
Ltac use_control o :=
  match goal with
  | H : complete_pending_user_control ?o ?u ?e = Ok (?c, ?u', ?e') |- _ =>
      let A := fresh "A" in let F := fresh "F" in
      pose proof (complete_pending_user_control_adds _ _ _ _ _ _ H) as [_ A];
      assert (F : frame o u) by frame_tac; apply (adds_frame _ o) in A; [clear F|exact F];
      apply complete_pending_user_control_Ok in H; inversion H; subst; clear H; unfold without_timers
  end.

Ltac allowed :=
  unfold allows; try match goal with H : TaskEvent_kind _ = _ |- _ => rewrite H end; reflexivity.

(** Drops what only concerned the plan. *)
Ltac clear_plan :=
  repeat match goal with
  | H : input_for _ _ |- _ => clear H
  | H : TaskEvent_kind _ = _ |- _ => clear H
  | H : adds _ _ _ _ |- _ => clear H
  | H : ids_le _ _ |- _ => clear H
  | H : rs_tasks _ !! _ = _ |- _ => clear H
  end.

Ltac plain_leaf :=
  eapply plan_ok_plain;
    [ eassumption
    | first [eassumption | exact I]
    | allowed
    | first [discriminate | idtac]
    | first [discriminate | reflexivity]
    | solve [eauto with ariax]
    | frame_tac
    | adds_tac; first [ done | by simpl_task | idtac ]
    | cbn; lia
    | clear_plan ].

(** An admission plan. *)
Lemma admitted_inv u g :
  unblocked u -> t_pending_user_control u = None -> t_pending_option_patch_mode u = None ->
  t_pending_option_patch u = None -> t_host_key_challenge u = None -> t_stopped_status u = None ->
  t_terminal_persisted u = false -> (is_Some (t_no_space_probe u) -> is_Some (tc_no_space (t_conditions u))) ->
  task_inv (admitted u g).
Proof.
  intros Hu Hc Hm Hp Hh Hs Ht Hn. destruct (admitted_frames u g) as [_ _ _ Ec En Ep Em Euc _ Eh Ee Est Et].
  assert (t_state (admitted u g) = TaskState.Allocating) as Es by (unfold admitted; by simpl_task).
  assert (t_slot (admitted u g) = SlotOwnership.Reserved) as El by (unfold admitted; by simpl_task).
  assert (t_pending_barrier (admitted u g) = Some (PendingBarrier.GenerationPersistence g)) as Eb
    by (unfold admitted; by simpl_task).
  constructor; eval_inv; rewrite ?Es, ?El, ?Eb, ?Ec, ?En, ?Ep, ?Em, ?Euc, ?Eh, ?Est, ?Et, ?generation_admitted,
    ?Hm, ?Hp, ?Hh, ?Hs; eval_tests; done.
Qed.

Lemma plan_ok_admit i s o u action eff publish ids w :
  rs_tasks s !! t_gid o = Some o -> input_for i o -> allows i action = true ->
  action <> SchedulerAction.TerminalPersistenceSucceeded -> quiet_action action = false ->
  ids_le (rs_ids s) ids -> task_inv o ->
  plan_admission s u action [] = Ok (w, eff) ->
  t_task_id u = t_task_id o -> t_gid u = t_gid o -> t_pending_barrier u = t_pending_barrier o ->
  t_desired_paused u = t_desired_paused o -> t_conditions u = t_conditions o ->
  t_slot u = t_slot o -> t_generation u = t_generation o ->
  t_generation_started u = t_generation_started o ->
  t_pending_option_patch_mode o = None -> t_host_key_challenge o = None ->
  t_state o <> TaskState.StoppedResult ->
  t_pending_user_control u = t_pending_user_control o -> t_pending_option_patch_mode u = None ->
  t_pending_option_patch u = t_pending_option_patch o -> t_host_key_challenge u = None ->
  t_stopped_status u = t_stopped_status o -> t_terminal_persisted u = t_terminal_persisted o ->
  t_no_space_probe u = t_no_space_probe o ->
  plan_ok i s (mkPlan o (Some w) true action eff publish ids).
Proof.
  intros Hl Hin Ha Hnt Hq Hi Hinv (g & -> & -> & Hb & Hd & Hc & Hs & Hg)%plan_admission_Ok.
  intros Ei Eg Eb Ed Ec Es En Est Hmode Hch Hns Eu Em Ep Eh Ess Etp Enp.
  pose proof (admitted_frames u g) as [].
  constructor; cbn [p_original p_updated p_present p_effects p_ids p_action p_publish app List.length]; try done.
  - lia.
  - split_and!; [congruence..|by apply step_admitted|]. intros _.
    destruct Hinv as [_ Hbi ? Hst Hp Hm ? ? ?]. unfold barrier_inv in Hbi.
    replace (t_pending_barrier o) with (None : option PendingBarrier) in Hbi by congruence.
    destruct Hbi. apply admitted_inv; try congruence.
    + destruct (t_pending_option_patch o); [|congruence]. destruct Hm as [_ Hm].
      destruct (Hm (mk_is_Some _ _ eq_refl)). congruence.
    + destruct (t_stopped_status o); [|congruence]. exfalso. eauto.
    + rewrite Etp, Hp. by destruct (t_state o).
    + by rewrite Enp, Ec.
  - by intros e ->%list_elem_of_singleton.
  - by rewrite Hq.
Qed.

Lemma task_inv_mark w k : task_inv w -> task_inv (mark_non_token_event w k).
Proof. intros []. by constructor. Qed.

Lemma plan_ok_mark i s o w k action eff publish ids :
  action <> SchedulerAction.TerminalPersistenceSucceeded ->
  plan_ok i s (mkPlan o (Some w) true action eff publish ids) ->
  plan_ok i s (mkPlan o (Some (mark_non_token_event w k)) true action eff publish ids).
Proof.
  intros Hne [Hp Hl Hin Ha Hn Hi (Hg & Ht & Hs & Hv) Hst _ Hq]. constructor; try done. cbn in *. split_and!; try done.
  - destruct Hs as [eff Hf []|class [] ?|d n|g|];
      [apply step_plain; by try constructor|by apply (step_requeue s o (mark_non_token_event w k) class); [constructor|]|by eapply step_deletion
      |by eapply step_admit|by apply step_start].
  - intros Hpub. apply task_inv_mark. auto.
Qed.

Lemma no_challenge o : task_inv o -> t_state o <> TaskState.PausedHostKey -> t_host_key_challenge o = None.
Proof. intros Hinv Hne. apply eq_None_not_Some. by rewrite (ti_challenge _ Hinv). Qed.

Lemma plan_ok_start i s o u publish ids :
  rs_tasks s !! t_gid o = Some o -> input_for i o ->
  allows i SchedulerAction.GenerationPersistenceSucceeded = true -> ids_le (rs_ids s) ids ->
  t_pending_barrier o = Some (PendingBarrier.GenerationPersistence (t_generation o)) ->
  t_state o = TaskState.Allocating -> t_gid u = t_gid o -> t_task_id u = t_task_id o ->
  t_pending_barrier u = None -> t_slot u = SlotOwnership.Active ->
  t_generation u = t_generation o -> t_generation_started u = t_generation_started o ->
  ((publish = true -> conditions_ok u) -> task_inv u) ->
  plan_ok i s (mkPlan o (Some u) true SchedulerAction.GenerationPersistenceSucceeded
    [TransitionEffect.StartAllocation (t_task_id o) (t_gid o) (t_generation o)] publish ids).
Proof. intros. constructor; try done; [cbn; lia|]. cbn. split_and!; try done. by apply step_start. Qed.

(** Decides the comparisons of two known actions. *)
Ltac eval_actions :=
  repeat match goal with
  | H : context [bool_decide (?a = ?b :> SchedulerAction)] |- _ =>
      let v := eval vm_compute in (bool_decide (a = b :> SchedulerAction)) in
      change (bool_decide (a = b :> SchedulerAction)) with v in H; cbn [negb andb orb] in H
  end;
  repeat match goal with H : Ok _ = Ok _ |- _ => injection H as <- <- end.

Ltac admit_leaf :=
  eapply plan_ok_admit;
    [ eassumption | first [eassumption | exact I] | allowed | discriminate | reflexivity
    | solve [eauto with ariax] | eassumption | eassumption
    | simpl_task; first [ done | congruence | by apply no_challenge; [|congruence]
                        | match goal with H : _ \/ is_staged _ |- _ => by destruct H; [|naive_solver] end ] .. ].

Lemma token_fresh expected last id :
  (token_disposition expected last id != EventDisposition.Fresh) = false -> expected = Some id.
Proof. unfold token_disposition. by repeat case_bool_decide. Qed.

(** A task whose option patch was acknowledged loses at most a credential requirement. *)
Lemma clear_option_patch_eq o id succeeded : exists c,
  clear_option_patch o id succeeded =
    o <| t_pending_barrier := None |> <| t_pending_option_patch := None |>
      <| t_pending_option_patch_mode := None |> <| t_pending_credential_requirement := None |>
      <| t_last_option_patch_application := Some id |> <| t_conditions := c |> /\
  (is_Some (tc_no_space (t_conditions o)) -> is_Some (tc_no_space c)) /\
  (TaskConditions_blocks_admission (t_conditions o) = false -> TaskConditions_blocks_admission c = false).
Proof.
  unfold clear_option_patch. destruct (succeeded && _).
  - eexists. split_and!; [reflexivity|done|]. simpl_task. unfold TaskConditions_blocks_admission. cbn.
    by intros [_ ->]%orb_false_iff.
  - by exists (t_conditions o).
Qed.

(** A leaf whose barrier is still unknown, and one whose barrier is known. *)
Ltac event_leaf o Hinv := split_state o; split_inv o Hinv; use_steps o; plain_leaf; solve_inv.
Ltac known_leaf o Hinv := split_state o; known_inv o Hinv; use_steps o; plain_leaf; solve_inv.

(** ** Event handlers *)

Section events.
Context (s : RequestScheduler) (o : ScheduledTask) (at_ : MonotonicInstant).
Context (task_id : TaskId) (event : TaskEvent).
Context (Hl : rs_tasks s !! t_gid o = Some o) (Hinv : task_inv o).
Context (Hin : input_for (FromEvent task_id event) o).
Notation H := (handled s (plan_ok (FromEvent task_id event) s) at_).
(** The handler [r] of an event of the given kind that the barrier accepts. *)
Notation on kind r :=
  (TaskEvent_kind event = kind -> barrier_accepts_event (t_pending_barrier o) kind = true -> H r).

Lemma allocation_succeeded_handled :
  on TaskEventKind.AllocationSucceeded (allocation_succeeded o at_ s).
Proof. intros. unfold allocation_succeeded. handle; event_leaf o Hinv. Qed.

Lemma allocation_retryable_handled retry_at :
  on TaskEventKind.AllocationRetryable (allocation_retryable o retry_at at_ s).
Proof. intros. unfold allocation_retryable. handle; event_leaf o Hinv. Qed.

Lemma allocation_host_key_challenge_handled challenge (active : bool) :
  on (if active then TaskEventKind.ActiveHostKeyChallenge else TaskEventKind.AllocationHostKeyChallenge)
    (allocation_host_key_challenge o challenge active at_ s).
Proof. intros. unfold allocation_host_key_challenge. destruct active; handle; event_leaf o Hinv. Qed.

Lemma allocation_failed_handled error :
  on TaskEventKind.AllocationFailed (allocation_failed o error at_ s).
Proof. intros. unfold allocation_failed. handle; event_leaf o Hinv. Qed.

Lemma active_retry_idle_handled retry_at :
  on TaskEventKind.ActiveRetryIdle (active_retry_idle o retry_at at_ s).
Proof. intros. unfold active_retry_idle. handle; event_leaf o Hinv. Qed.

Lemma data_complete_handled (seed : bool) :
  on (if seed then TaskEventKind.BitTorrentPayloadComplete else TaskEventKind.DataComplete)
    (data_complete o seed at_ s).
Proof. intros. unfold data_complete. destruct seed; handle; event_leaf o Hinv. Qed.

Lemma no_space_handled condition : on TaskEventKind.NoSpace (no_space o condition at_ s).
Proof. intros. unfold no_space. handle; event_leaf o Hinv. Qed.

Lemma terminal_failure_handled error :
  on TaskEventKind.TerminalFailure (terminal_failure o error at_ s).
Proof. intros. unfold terminal_failure. handle; event_leaf o Hinv. Qed.

Lemma slow_demoted_handled decision :
  on TaskEventKind.SlowDemoted (slow_demoted o decision at_ s).
Proof. intros. unfold slow_demoted. handle; event_leaf o Hinv. Qed.

Lemma slow_paused_handled : on TaskEventKind.SlowPaused (slow_paused o at_ s).
Proof. intros. unfold slow_paused. handle; event_leaf o Hinv. Qed.

Lemma verification_succeeded_handled :
  on TaskEventKind.VerificationSucceeded (verification_succeeded o at_ s).
Proof. intros. unfold verification_succeeded. handle; event_leaf o Hinv. Qed.

Lemma verification_recoverable_handled :
  on TaskEventKind.VerificationRecoverable (verification_recoverable o at_ s).
Proof. intros. unfold verification_recoverable. handle; event_leaf o Hinv. Qed.

Lemma verification_failed_handled error :
  on TaskEventKind.VerificationFailed (verification_failed o error at_ s).
Proof. intros. unfold verification_failed. handle; event_leaf o Hinv. Qed.

Lemma seeding_complete_handled : on TaskEventKind.SeedingComplete (seeding_complete o at_ s).
Proof. intros. unfold seeding_complete. handle; event_leaf o Hinv. Qed.

Lemma seeding_failed_handled error :
  on TaskEventKind.SeedingFailed (seeding_failed o error at_ s).
Proof. intros. unfold seeding_failed. handle; event_leaf o Hinv. Qed.

Lemma active_representation_restart_handled :
  on TaskEventKind.ActiveRepresentationRestart (active_representation_restart o at_ s).
Proof.
  intros. unfold active_representation_restart. handle. split_state o. split_inv o Hinv.
  apply plan_ok_mark; [done|]. admit_leaf.
Qed.

Lemma retry_ready_handled id : on TaskEventKind.RetryReady (retry_ready o id at_ s).
Proof.
  intros. unfold retry_ready. apply handled_get. cbv beta zeta.
  match goal with |- context [if ?b then SchedulerAction.RetryReadmissionSucceeded else _] => destruct b end;
    handle; eval_actions.
  - split_state o; split_inv o Hinv; admit_leaf.
  - event_leaf o Hinv.
Qed.

Lemma slow_readmit_handled id : on TaskEventKind.SlowReadmit (slow_readmit o id at_ s).
Proof.
  intros. unfold slow_readmit. apply handled_get. cbv beta zeta.
  match goal with |- context [if ?b then SchedulerAction.SlowReadmissionSucceeded else _] => destruct b end;
    handle; eval_actions.
  - split_state o; split_inv o Hinv; admit_leaf.
  - event_leaf o Hinv.
Qed.

Lemma generation_persisted_handled generation :
  on TaskEventKind.GenerationPersisted (generation_persisted o generation at_ s).
Proof.
  intros. unfold generation_persisted. handle. split_state o; split_inv o Hinv.
  apply negb_false_iff, N.eqb_eq in E as <-. apply (plan_ok_start _ s o);
    try (unfold mark_non_token_event; simpl_task; done); eauto with ariax; [allowed|]. solve_inv.
Qed.

Lemma terminal_persisted_handled gid generation status :
  event = TaskEvent.TerminalPersisted gid generation status ->
  barrier_accepts_event (t_pending_barrier o) TaskEventKind.TerminalPersisted = true ->
  H (terminal_persisted o generation status at_ s).
Proof.
  intros Hev. pose proof Hin as (_ & _ & Hg). rewrite Hev in Hg. cbn in Hg. subst generation. intros.
  assert (TaskEvent_kind event = TaskEventKind.TerminalPersisted) by by rewrite Hev.
  unfold terminal_persisted. handle.
  split_state o; split_inv o Hinv; try discriminate E;
    apply negb_false_iff, andb_true_iff in E as [_ <-%bool_decide_eq_true];
    (plain_leaf; [by eauto 7|intros ?; constructor; eval_inv; eval_tests; eauto 6; naive_solver]).
Qed.

Lemma stopped_result_deletion_completed_handled id (succeeded : bool) :
  on (if succeeded then TaskEventKind.StoppedResultDeleted else TaskEventKind.StoppedResultDeletionFailed)
    (stopped_result_deletion_completed o id succeeded at_ s).
Proof.
  intros. unfold stopped_result_deletion_completed. destruct succeeded; handle.
  - constructor; cbn [p_original p_updated p_present p_effects p_action p_ids]; try done;
      [allowed|cbn; lia|auto with ariax| |by intros ? ?%elem_of_nil].
    split_and!; try done. destruct (t_pending_barrier o) as [[]|]; eauto;
      unfold token_disposition in E; by destruct (t_last_stopped_deletion o == Some id).
  - event_leaf o Hinv.
Qed.
End events.
