(* ===== verification/SchedulerAcks.v ===== *)
(** * Acknowledgement handlers plan well

    The handlers of option patch, host key, cancellation, probe and terminal
    acknowledgements, and the event dispatch over all handlers. *)

From S2P Require Import Prelude Ids Errors State Snapshot PersistedDelay CommandKinds Transition Command.
From S2P Require Import Scheduler SchedulerCommands SchedulerEvents SchedulerInv SchedulerPlans.
From S2P Require Import SchedulerHandlers.
From Stdlib Require Import Ascii String.
Open Scope list_scope.

Section acks.
Context (s : RequestScheduler) (o : ScheduledTask) (at_ : MonotonicInstant).
Context (task_id : TaskId) (event : TaskEvent).
Context (Hl : rs_tasks s !! t_gid o = Some o) (Hinv : task_inv o).
Context (Hin : input_for (FromEvent task_id event) o).
Notation H := (handled s (plan_ok (FromEvent task_id event) s) at_).

Lemma option_patch_persistence_completed_handled id (succeeded : bool) :
  TaskEvent_kind event = (if succeeded then TaskEventKind.OptionPatchPersisted
                          else TaskEventKind.OptionPatchPersistenceFailed) ->
  H (option_patch_persistence_completed o id succeeded at_ s).
Proof.
  intros Hkind. unfold option_patch_persistence_completed.
  destruct (t_pending_barrier o) as [[]|] eqn:Eb; try solve [handle; apply token_fresh in E; discriminate E].
  assert (t_state o = TaskState.Allocating \/ t_state o = TaskState.Active \/ t_state o = TaskState.Verifying)
    as Hst by (pose proof (ti_barrier _ Hinv) as Hb; unfold barrier_inv in Hb; rewrite Eb in Hb; tauto).
  destruct succeeded; cbn [negb]; handle; use_control o; clear E;
    destruct Hst as [Es|[Es|Es]]; eval_targets o Es; known_inv o Hinv; use_steps o; plain_leaf; solve_inv.
Qed.


Lemma option_patch_application_completed_handled id error :
  TaskEvent_kind event = match error with
                         | None => TaskEventKind.OptionPatchApplied
                         | Some _ => TaskEventKind.OptionPatchApplicationFailed
                         end ->
  H (option_patch_application_completed o id error at_ s).
Proof.
  intros Hkind. unfold option_patch_application_completed.
  destruct (t_pending_barrier o) as [[]|] eqn:Eb; try solve [handle; apply token_fresh in E; discriminate E].
  edestruct clear_option_patch_eq as (c & -> & Hns & Hun). handle; clear E.
  - unfold is_pending_remove in E3. use_control o; try discriminate H1; injection H1 as <-; simpl_task;
    rewrite H2 in E3; try discriminate E3; clear E0 E1 E2 E3 H x; known_leaf o Hinv.
  - destruct error; [|by rewrite andb_false_r in E4].
    apply andb_true_iff in E4 as [->%bool_decide_eq_true _]. apply ok_or_Ok in H. clear E0 E1 E2 E3.
    split_state o; known_inv o Hinv; try apply implied_false in Hs; use_steps o; plain_leaf; solve_inv.
  - clear E0 E1 E2 E3. use_control o; known_leaf o Hinv.
  - clear E0 E2. use_control o; apply ok_or_Ok in H.
    destruct x, (t_pending_credential_requirement o) eqn:?, error; cbn in H1;
      try discriminate; injection H1 as <-; clear E1 E3 E4; known_leaf o Hinv.
Qed.


Lemma host_key_resolution_completed_handled id (succeeded : bool) :
  TaskEvent_kind event = (if succeeded then TaskEventKind.HostKeyResolutionPersisted
                          else TaskEventKind.HostKeyResolutionFailed) ->
  H (host_key_resolution_completed o id succeeded at_ s).
Proof.
  intros Hkind. unfold host_key_resolution_completed.
  destruct (t_pending_barrier o) as [[]|] eqn:Eb; try solve [handle; apply token_fresh in E; discriminate E].
  assert (t_state o = TaskState.PausedHostKey /\ (t_pending_user_control o = None \/ is_pending_remove o = true))
    as [Es Hu] by (pose proof (ti_barrier _ Hinv) as Hb; unfold barrier_inv in Hb; rewrite Eb in Hb; tauto).
  destruct (generation =? t_generation o) eqn:Eg; [|handle; apply token_fresh in E; discriminate E].
  destruct succeeded; cbn [andb]; handle; clear E E1;
    (change (is_pending_remove _) with (is_pending_remove o) in E2;
     destruct Hu as [Hu|Hu]; [unfold is_pending_remove in E2; rewrite Hu in E2; try discriminate E2|try congruence]).
  2, 4: try solve [try destruct (t_desired_paused o);
      eval_targets o Es; known_inv o Hinv; use_steps o; plain_leaf; solve_inv].
  all: unfold is_pending_remove in Hu; use_control o; try discriminate H0; injection H0 as <-; simpl_task;
      rewrite H1 in Hu; try discriminate Hu; eval_targets o Es; known_inv o Hinv; use_steps o; plain_leaf; solve_inv.
Qed.

Lemma cancellation_drained_handled generation :
  TaskEvent_kind event = TaskEventKind.CancellationDrained -> H (cancellation_drained o generation at_ s).
Proof.
  intros Hkind. unfold cancellation_drained.
  destruct (t_pending_barrier o) as [[]|] eqn:Eb; try solve [handle].
  assert (t_state o = DrainTarget_state target \/ t_state o = TaskState.PausedSlow /\ target = DrainTarget.Paused)
    as Hst by (pose proof (ti_barrier _ Hinv) as Hb; unfold barrier_inv in Hb; rewrite Eb in Hb; tauto).
  destruct (generation0 =? generation); [|handle]. handle.
  destruct Hst as [Es|[Es ->]]; [|rewrite Es in E; discriminate E]. clear E H.
  apply (drain_target_plan_Ok o) in H0 as (Hi & Ha & Hd); [|frame_tac].
  destruct target; cbn in Es; repeat match goal with
    | H : _ /\ _ |- _ => destruct H
    | H : _ \/ _ |- _ => destruct H
    | H : exists _, _ |- _ => destruct H
    end; use_steps o; subst;
    apply (maybe_probe_Ok o) in H1 as (? & ? & probe & -> & ?); try frame_tac;
    eval_targets o Es; known_inv o Hinv; plain_leaf; solve_inv.
Qed.

Lemma no_space_probe_completed_handled id origin ready next_retry_at :
  TaskEvent_kind event = TaskEventKind.NoSpaceProbeCompleted ->
  barrier_accepts_event (t_pending_barrier o) TaskEventKind.NoSpaceProbeCompleted = true ->
  H (no_space_probe_completed o id origin ready next_retry_at at_ s).
Proof.
  intros Hkind ?. unfold no_space_probe_completed. handle. clear E.
  assert (TaskConditions_blocks_admission (t_conditions o) = false -> TaskConditions_blocks_admission x0 = false) as Hc.
  { unfold TaskConditions_blocks_admission. intros [Hn ?]%orb_false_iff.
    destruct ready, (tc_no_space (t_conditions o)) eqn:Ens; try discriminate; simpl_task; rewrite ?Ens in H2;
      try discriminate H2; injection H2 as <-; cbn; by rewrite Hn. }
  apply (maybe_probe_Ok o) in H4 as (? & ? & probe & -> & ?); [|frame_tac].
  apply ok_or_Ok in H0. clear H2.
  destruct (t_state o) eqn:Es; destruct (t_desired_paused o) eqn:Ed, ready, origin; try discriminate H0;
    injection H0 as <-; eval_targets o Es; split_inv o Hinv; try congruence; plain_leaf; solve_inv.
Qed.
End acks.
