(* ===== verification/SchedulerOps.v ===== *)
(** * Every operation plans well

    The event dispatch and the command handlers: each fails without a write,
    answers inertly, or runs a plan that satisfies [plan_ok]. *)

From S2P Require Import Prelude Ids Errors State Snapshot PersistedDelay CommandKinds Transition Command.
From S2P Require Import Scheduler SchedulerCommands SchedulerEvents SchedulerInv SchedulerPlans.
From S2P Require Import SchedulerHandlers SchedulerAcks.
From Stdlib Require Import Ascii String.
Open Scope list_scope.

(** The tasks are keyed by their identifiers and satisfy the task invariant. *)
Definition tasks_ok (s : RequestScheduler) : Prop :=
  forall gid t, rs_tasks s !! gid = Some t -> t_gid t = gid /\ task_inv t.

Lemma task_clone_Ok s gid o :
  tasks_ok s -> task_clone s gid = Ok o -> t_gid o = gid /\ rs_tasks s !! t_gid o = Some o /\ task_inv o.
Proof.
  unfold task_clone. intros Hk. destruct (rs_tasks s !! gid) as [t|] eqn:E; cbn; [|done]. intros [= ->].
  destruct (Hk _ _ E) as [<- ?]. done.
Qed.

(** Names the task a command is about. *)
Ltac clone_task :=
  apply handled_get, handled_lift;
  let o := fresh "o" in let Hl := fresh "Hl" in let Hinv := fresh "Hinv" in
  intros o (<- & Hl & Hinv)%task_clone_Ok; [|done].

(** Evaluates the tests on a known state. *)
Ltac eval_guards o :=
  repeat match goal with
  | E : t_state o = _, H : _ = Ok (_, _) |- _ => rewrite E in H
  end;
  repeat match goal with
  | H : context [bool_decide (?a = ?b :> TaskState)] |- _ =>
      let v := eval vm_compute in (bool_decide (a = b)) in
      change (bool_decide (a = b :> TaskState)) with v in H
  end;
  cbn [is_live_state is_cancellation_drain is_host_key_resolution is_slow_state orb andb negb] in *;
  try discriminate.

Lemma without_credentials_unblocked c :
  TaskConditions_blocks_admission c = false ->
  TaskConditions_blocks_admission (c <| tc_needs_credentials := None |>) = false.
Proof. unfold TaskConditions_blocks_admission. cbn. by intros [_ ->]%orb_false_iff. Qed.

Lemma check_patch_credentials_Ok o kind c x :
  check_patch_credentials o kind c = Ok x -> c = None \/ required_credentials o = c.
Proof. unfold check_patch_credentials. destruct c; [|auto]. case_bool_decide; [auto|done]. Qed.

Lemma unblocked_credentials o :
  TaskConditions_blocks_admission (t_conditions o) = false -> required_credentials o = None.
Proof.
  unfold TaskConditions_blocks_admission, required_credentials. intros [H _]%orb_false_iff.
  by destruct (tc_needs_credentials _).
Qed.

Section ops.
Context (s : RequestScheduler) (at_ : MonotonicInstant) (Hk : tasks_ok s).
Notation on_event task_id event := (handled s (plan_ok (FromEvent task_id event) s) at_).
Notation on_command kind := (handled s (plan_ok (FromCommand kind) s) at_).

Lemma dispatch_event_handled o task_id event :
  rs_tasks s !! t_gid o = Some o -> task_inv o -> input_for (FromEvent task_id event) o ->
  barrier_accepts_event (t_pending_barrier o) (TaskEvent_kind event) = true ->
  on_event task_id event (dispatch_event o event at_ s).
Proof.
  intros Hl Hinv Hin Ha. destruct event; cbn [dispatch_event TaskEvent_kind] in *;
    [ apply generation_persisted_handled | apply option_patch_persistence_completed_handled
    | apply option_patch_persistence_completed_handled | apply option_patch_application_completed_handled
    | apply option_patch_application_completed_handled | apply allocation_succeeded_handled
    | apply allocation_retryable_handled | apply allocation_host_key_challenge_handled
    | apply allocation_host_key_challenge_handled | apply allocation_failed_handled
    | apply retry_ready_handled | apply active_retry_idle_handled
    | apply active_representation_restart_handled | apply data_complete_handled
    | apply no_space_handled | apply terminal_failure_handled | apply slow_demoted_handled
    | apply slow_paused_handled | apply slow_readmit_handled | apply verification_succeeded_handled
    | apply verification_recoverable_handled | apply verification_failed_handled
    | apply seeding_complete_handled | apply seeding_failed_handled | apply cancellation_drained_handled
    | apply no_space_probe_completed_handled | eapply terminal_persisted_handled
    | apply host_key_resolution_completed_handled | apply host_key_resolution_completed_handled
    | apply stopped_result_deletion_completed_handled | apply stopped_result_deletion_completed_handled ];
    first [assumption | reflexivity | idtac].
Qed.

Lemma generation_disposition_Ok expected actual d :
  generation_disposition expected actual = Ok d -> (d != EventDisposition.Fresh) = false -> expected = actual.
Proof.
  unfold generation_disposition. destruct (N.ltb_spec actual expected); [by intros [= <-]|].
  destruct (N.ltb_spec expected actual); [done|]. lia.
Qed.

Lemma handle_event_at_handled envelope :
  on_event (te_task_id envelope) (te_event envelope) (handle_event_at envelope at_ s).
Proof.
  unfold handle_event_at. apply handled_get, handled_lift. intros o (Eg & Hl & Hinv)%task_clone_Ok; [|done].
  cbv zeta. handle_step; [apply handled_ignored|]. apply handled_lift. intros d Hd.
  handle_step; [apply handled_ignored|]. apply (generation_disposition_Ok _ _ _ Hd) in E0.
  apply negb_false_iff, bool_decide_eq_true in E.
  handle_step; [apply handled_ignored|].
  handle_step; [apply handled_lift; intros; apply handled_throw|].
  apply handled_lift. intros _ _. apply dispatch_event_handled; [done..|]. by apply negb_false_iff.
Qed.

Lemma pause_handled gid force : on_command SchedulerCommandKind.Pause (pause gid force at_ s).
Proof.
  unfold pause. clone_task. unfold deferring_barrier.
  destruct (t_pending_barrier o) as [[]|] eqn:Eb; cbn [mbind option_bind defers_user_control]; handle;
    cbn [is_host_key_resolution negb];
    split_state o; eval_guards o; known_inv o Hinv; use_steps o;
    unfold without_timers; plain_leaf; solve_inv.
Qed.

Lemma approve_host_key_handled gid c f : on_command SchedulerCommandKind.ApproveHostKey (approve_host_key gid c f at_ s).
Proof.
  unfold approve_host_key, reject_pending, matching_challenge. clone_task.
  destruct (t_pending_barrier o) eqn:Eb; [by handle|].
  destruct (t_host_key_challenge o) eqn:Ec; [|by handle]. cbn [ok_or mbind result_bind].
  destruct (_ || _) eqn:E; [by handle|]. apply orb_false_iff in E as [E _].
  apply negb_false_iff, bool_decide_eq_true in E.
  handle. split_state o; known_inv o Hinv; use_steps o; plain_leaf.
  intros ?; constructor; eval_inv; known_fields; eval_tests; rewrite ?Ec; split_and?; eauto;
    first [congruence | naive_solver].
Qed.

Lemma begin_source_replacement_handled gid : on_command SchedulerCommandKind.BeginSourceReplacement (begin_source_replacement gid at_ s).
Proof.
  unfold begin_source_replacement, reject_pending. clone_task.
  destruct (t_pending_barrier o) eqn:Eb; [by handle|]. handle. apply orb_false_iff in E as [E E'].
  destruct (owns_slot (without_timers _)) eqn:Eo; split_state o; known_inv o Hinv; use_steps o;
    unfold without_timers in *; plain_leaf; solve_inv.
Qed.

Lemma remove_stopped_result_handled gid : on_command SchedulerCommandKind.RemoveStoppedResult (remove_stopped_result gid at_ s).
Proof.
  unfold remove_stopped_result, reject_pending. clone_task.
  destruct (t_pending_barrier o) eqn:Eb; [by handle|].
  destruct (pending_stopped_deletion s) eqn:Ed; [by handle|]. handle. apply ok_or_Ok in H2.
  split_state o; known_inv o Hinv; use_steps o. apply plan_ok_step; try done; try by simpl_task.
  - simpl_task. apply step_deletion; try done. by unfold ScheduledTask_queue_class; simpl_task; rewrite Es.
  - cbn; lia.
  - by intros e ->%list_elem_of_singleton.
Qed.

Lemma commit_source_replacement_handled gid c : on_command SchedulerCommandKind.CommitSourceReplacement (commit_source_replacement gid c at_ s).
Proof.
  unfold commit_source_replacement, reject_pending. clone_task.
  destruct (t_pending_barrier o) eqn:Eb; [by handle|]. handle. clear E E1.
  apply orb_false_iff in E0 as [E E'].
  pose proof (without_credentials_unblocked (t_conditions o)) as Hun.
  destruct c; cbn [is_some]; split_state o; known_inv o Hinv; use_steps o;
    (apply plan_ok_step;
      [eassumption|exact I|allowed|discriminate|discriminate|by eauto with ariax|by simpl_task|by simpl_task
      |apply step_requeue; [frame_tac
        |unfold ScheduledTask_queue_class; simpl_task; fold (owns_slot o); by rewrite Es, ?E']
      |cbn; lia|by intros e ->%list_elem_of_singleton|solve_inv]).
Qed.

Lemma remove_handled gid force : on_command SchedulerCommandKind.Remove (remove gid force at_ s).
Proof.
  unfold remove. clone_task. unfold deferring_barrier.
  destruct (t_pending_barrier o) as [[]|] eqn:Eb; cbn [mbind option_bind defers_user_control]; handle;
    split_state o; eval_guards o; known_inv o Hinv; use_steps o; unfold without_timers in *; plain_leaf; solve_inv.
Qed.

Lemma apply_option_patch_handled gid patch_id kind c : on_command SchedulerCommandKind.ApplyOptionPatch (apply_option_patch gid patch_id kind c at_ s).
Proof.
  unfold apply_option_patch, reject_pending. clone_task.
  destruct (t_pending_barrier o) eqn:Eb; [by handle|]. handle. clear E0.
  apply check_patch_credentials_Ok in H0. pose proof (unblocked_credentials o) as Hcr.
  destruct kind; unfold option_patch_action, plan_option_patch, matching_challenge in *.
  - injection H1 as <-. eval_actions. split_state o; known_inv o Hinv; use_steps o; plain_leaf; solve_inv.
  - split_state o; injection H1 as <-; eval_actions; eval_targets o Es; known_inv o Hinv;
      use_steps o; plain_leaf; solve_inv.
  - destruct (t_host_key_challenge o) eqn:Ec; [|discriminate H1]. cbn [ok_or mbind result_bind] in *.
    destruct (_ || _) eqn:E0; [discriminate H1|]. apply orb_false_iff in E0 as [E0 _].
    apply negb_false_iff, bool_decide_eq_true in E0. cbn [mbind result_bind] in H1. injection H1 as <-.
    destruct (IdCounters_host_key_resolution _) as [[]|] eqn:Ei; [|discriminate H3]. cbn [mbind result_bind] in H3.
    split_state o; known_inv o Hinv; use_steps o; plain_leaf; rewrite ?Ec.
    intros ?; constructor; eval_inv; known_fields; eval_tests; rewrite ?Ec; split_and?; eauto;
      first [congruence | naive_solver].
Qed.

Lemma resume_deferred_handled o barrier :
  rs_tasks s !! t_gid o = Some o -> task_inv o -> deferring_barrier o = Some barrier ->
  on_command SchedulerCommandKind.Resume (resume_deferred s (t_gid o) o barrier at_ s).
Proof.
  unfold resume_deferred, deferring_barrier. intros Hl Hinv Hb.
  destruct (t_pending_barrier o) as [[]|] eqn:Eb; cbn in Hb; try discriminate Hb; injection Hb as <-;
    destruct (t_state o) eqn:Es; cbn [is_slow_state is_host_key_resolution]; handle;
    clear E0; unfold is_pending_remove in E; known_inv o Hinv; plain_leaf; solve_inv.
Qed.

Lemma resume_probe_handled o action target :
  rs_tasks s !! t_gid o = Some o -> task_inv o -> t_pending_barrier o = None ->
  action = SchedulerAction.ExplicitNoSpaceProbeRequested -> target_state o action = Ok target ->
  on_command SchedulerCommandKind.Resume (resume_probe s (t_gid o) o action target at_ s).
Proof.
  unfold resume_probe. intros Hl Hinv Eb -> Ht. split_state o; cbn [is_slow_state]; handle;
    match goal with H : schedule_no_space_probe _ _ ?at' _ _ = _ |- _ =>
      apply (maybe_probe_Ok o _ (Some at')) in H as (? & ? & probe & -> & ?); [|frame_tac] end;
    known_inv o Hinv; plain_leaf; solve_inv.
Qed.

Lemma resume_handled gid : on_command SchedulerCommandKind.Resume (resume gid at_ s).
Proof.
  unfold resume, reject_pending. clone_task.
  destruct (t_pending_source_replacement o) eqn:E; [apply handled_throw|].
  destruct (deferring_barrier o) eqn:Ed; [by apply resume_deferred_handled|]. clear Ed.
  destruct (t_pending_barrier o) eqn:Eb; [by handle|].
  apply handled_lift. intros _ _. cbv beta zeta.
  destruct (ct_kind _ == _) eqn:E0; [apply handled_default|].
  apply handled_lift. intros target Ht. destruct (_ == SchedulerAction.ExplicitNoSpaceProbeRequested) eqn:E1.
  { apply resume_probe_handled; try done. by apply bool_decide_eq_true in E1. }
  clear E0. assert (SchedulerAction_for_resume (t_state o) (TaskConditions_snapshot (t_conditions o)) = SchedulerAction.Resume) as Ea.
  { unfold SchedulerAction_for_resume in *. by destruct (_ && _). }
  rewrite Ea in *. split_state o; cbn [is_slow_state]; handle; known_inv o Hinv; plain_leaf; solve_inv.
Qed.
End ops.
