(* ===== verification/SchedulerAdmission.v ===== *)
(** * Admission

    Which task [admit_next_at] chooses, and that its plan satisfies [plan_ok]. *)

From S2P Require Import Prelude Ids Errors State Snapshot PersistedDelay CommandKinds Transition Command.
From S2P Require Import Scheduler SchedulerCommands SchedulerEvents SchedulerInv SchedulerPlans.
From S2P Require Import SchedulerHandlers SchedulerAcks SchedulerOps.
From Stdlib Require Import Ascii String.
Open Scope list_scope.

Lemma find_task_Some s class test gid :
  find_task s class test = Some gid ->
  gid ∈ SchedulerQueues_get (rs_queues s) class /\ exists t, rs_tasks s !! gid = Some t /\ test t = true.
Proof.
  unfold find_task. intros H%head_Some_elem_of%list_elem_of_filter. destruct H as [Ht Hin]. split; [done|].
  destruct (rs_tasks s !! gid) as [t|]; [|done]. eauto.
Qed.

(** The task that is admitted next passes one of the four tests. *)
Lemma admission_choice_Some s gid :
  admission_choice s = Some gid ->
  exists t, rs_tasks s !! gid = Some t /\
    is_pending_restart_patch t || is_retained_retry t || is_waiting_candidate t || is_demoted_candidate t = true.
Proof.
  unfold admission_choice. intros H.
  destruct (find_task s QueueClass.Waiting is_pending_restart_patch) eqn:E1; cbn [option_or] in H.
  { injection H as ->. apply find_task_Some in E1 as (_ & t & ? & Ht). exists t. by rewrite Ht. }
  destruct (find_task s QueueClass.Active is_retained_retry) eqn:E2; cbn [option_or] in H.
  { injection H as ->. apply find_task_Some in E2 as (_ & t & ? & Ht). exists t. by rewrite Ht, orb_true_r. }
  destruct (find_task s QueueClass.Demoted is_demoted_candidate) as [d|] eqn:E3; cbn [mbind option_bind] in H.
  - apply find_task_Some in E3 as (_ & t3 & ? & Ht3).
    match type of H with option_or (if ?b then _ else _) _ = _ => destruct b end; cbn [option_or] in H.
    { injection H as ->. exists t3. by rewrite Ht3, orb_true_r. }
    destruct (find_task s QueueClass.Waiting is_waiting_candidate) eqn:E4; cbn [option_or] in H; injection H as ->.
    + apply find_task_Some in E4 as (_ & t & ? & Ht). exists t. by rewrite Ht, orb_true_r.
    + exists t3. by rewrite Ht3, orb_true_r.
  - cbn [option_or] in H. destruct (find_task s QueueClass.Waiting is_waiting_candidate) eqn:E4; [|done].
    injection H as ->. apply find_task_Some in E4 as (_ & t & ? & Ht). exists t. by rewrite Ht, orb_true_r.
Qed.

Lemma admission_choice_unblocked s gid t :
  admission_choice s = Some gid -> rs_tasks s !! gid = Some t ->
  t_pending_barrier t = None /\ t_desired_paused t = false.
Proof.
  intros (t' & Ht' & H)%admission_choice_Some Ht. replace t' with t in H by congruence.
  unfold is_pending_restart_patch, is_retained_retry, is_waiting_candidate, is_demoted_candidate, admissible in H.
  destruct (t_pending_barrier t), (t_desired_paused t); cbn in H; rewrite ?andb_false_r in H; done.
Qed.

(** What [admit_next_at] does after an ordinary admission. *)
Definition advanced (ordinary : bool) (r : RequestScheduler * result SchedulerError SchedulerOutcome)
    : RequestScheduler * result SchedulerError SchedulerOutcome :=
  match r with
  | (s, Ok out) => (if ordinary then s <| rs_tasks := advance_slow_position <$> rs_tasks s |> else s, Ok out)
  | (s, Err e) => (s, Err e)
  end.

Lemma advanced_false r : advanced false r = r.
Proof. by destruct r as [? []]. Qed.

Lemma admission_plan s o action w eff :
  allows FromAdmission action = true ->
  rs_tasks s !! t_gid o = Some o -> task_inv o ->
  (t_state o == TaskState.Waiting)
    && (t_pending_option_patch_mode o == Some PendingOptionPatchMode.ActiveRestart) = false ->
  t_state o = TaskState.Waiting \/ t_state o = TaskState.RetryWait \/ t_state o = TaskState.WaitingSlow ->
  plan_admission s o action [] = Ok (w, eff) ->
  plan_ok FromAdmission s (mkPlan o (Some w) true action eff true (rs_ids s)).
Proof.
  intros Ha Hl Hinv Hp Hst H. pose proof H as (g & _ & _ & Eb & _)%plan_admission_Ok.
  assert (t_pending_option_patch_mode o = None) as Hm.
  { destruct Hinv as [Hs Hb _ _ _ _ _ _ _]. unfold state_inv in Hs. unfold barrier_inv in Hb. rewrite Eb in Hb.
    destruct Hb as [_ [?|Hsg]]; [done|]. destruct Hst as [Es|[Es|Es]]; rewrite Es in Hs, Hp; try tauto.
    unfold is_staged in Hsg. by rewrite Hsg in Hp. }
  eapply plan_ok_admit; eauto with ariax; try (by destruct Hst as [->|[->| ->]]); try exact I;
    try (by intros ->); try (by destruct action).
  all: apply no_challenge; [done|]; by destruct Hst as [->|[->| ->]].
Qed.

Lemma restart_patch_plan s o patch_id :
  rs_tasks s !! t_gid o = Some o -> task_inv o -> t_state o = TaskState.Waiting -> t_pending_barrier o = None ->
  t_pending_option_patch o = Some patch_id -> is_staged o ->
  plan_ok FromAdmission s (mkPlan o
    (Some (o <| t_pending_barrier := Some (PendingBarrier.OptionPatchApplication (t_generation o) patch_id) |>))
    true SchedulerAction.RestartApplicationScheduled
    [TransitionEffect.ApplyOptionPatch (t_task_id o) (t_gid o) patch_id (t_pending_credential_requirement o)]
    false (rs_ids s)).
Proof. intros Hl Hinv Es Eb Ep Em. known_inv o Hinv; plain_leaf; solve_inv. Qed.

Lemma admit_next_cases s at_ :
  tasks_ok s ->
  (exists e, admit_next_at at_ s = (s, Err e)) \/
  exists p ordinary, plan_ok FromAdmission s p /\ admit_next_at at_ s = advanced ordinary (run_plan p at_ s).
Proof.
  intros Hk. unfold admit_next_at, get_self, lift, mbind, sched_bind.
  destruct (ok_or (admission_choice s) _) as [gid|e] eqn:Ec; [|eauto]. apply ok_or_Ok in Ec.
  destruct (task_clone s gid) as [o|e] eqn:Eo; [|eauto]. apply task_clone_Ok in Eo as (<- & Hl & Hinv); [|done].
  pose proof (admission_choice_unblocked _ _ _ Ec Hl) as [Eb _]. destruct (_ && _) eqn:Ep.
  - destruct (ok_or (t_pending_option_patch o) _) as [patch_id|e] eqn:Epatch; [|eauto]. apply ok_or_Ok in Epatch.
    apply andb_true_iff in Ep as [Es%bool_decide_eq_true Em%bool_decide_eq_true]. right.
    eexists _, false. split; [by apply (restart_patch_plan s o patch_id)|]. by rewrite advanced_false.
  - destruct (match t_state o with TaskState.Waiting => _ | _ => _ end) as [action|e] eqn:Eact; [|eauto].
    assert (t_state o = TaskState.Waiting \/ t_state o = TaskState.RetryWait \/ t_state o = TaskState.WaitingSlow)
      as Hst by (destruct (t_state o); try discriminate Eact; auto).
    destruct (plan_admission s o action []) as [[w eff]|e] eqn:Ea; [|eauto]. right.
    exists (mkPlan o (Some w) true action eff true (rs_ids s)), (t_state o != TaskState.WaitingSlow).
    assert (allows FromAdmission action = true) by (by destruct (t_state o); try discriminate Eact; injection Eact as <-).
    split; [by apply admission_plan|]. unfold run_plan. cbn [p_original p_updated p_present p_action p_effects
      p_publish p_ids]. by destruct (finish_action _ _ _ _ _ _ _ _ _) as [s' []].
Qed.
