(* ===== verification/SchedulerWf.v ===== *)
(** * Well-formed schedulers

    What relates the scheduler's maps and queues to each other, and that a
    committed plan preserves it. *)

From S2P Require Import Prelude Ids Errors State Snapshot PersistedDelay CommandKinds Transition Command.
From S2P Require Import Scheduler SchedulerCommands SchedulerEvents SchedulerInv SchedulerPlans.
From S2P Require Import SchedulerHandlers SchedulerAcks SchedulerOps SchedulerAdmission.
From Stdlib Require Import Ascii String.
Open Scope list_scope.

(** ** Queues *)

Lemma queues_get_put q class order class' :
  SchedulerQueues_get (SchedulerQueues_put q class order) class' =
  if class' == class then order else SchedulerQueues_get q class'.
Proof. by destruct class, class'. Qed.

Definition queues_nodup (q : SchedulerQueues) : Prop := forall class, NoDup (SchedulerQueues_get q class).

(** [q'] is [q] with [gid] moved to the queue [class], if any. *)
Definition moved (q q' : SchedulerQueues) (gid : Gid) (class : option QueueClass) : Prop :=
  forall c, NoDup (SchedulerQueues_get q' c) /\
    forall g, g ∈ SchedulerQueues_get q' c <->
      (g <> gid /\ g ∈ SchedulerQueues_get q c) \/ (g = gid /\ class = Some c).

Lemma queue_memberships_spec s gid l :
  queue_memberships s gid = l ->
  forall c, gid ∈ SchedulerQueues_get (rs_queues s) c <-> c ∈ l.
Proof.
  intros <- c. unfold queue_memberships. rewrite list_elem_of_filter.
  split; [|tauto]. intros ?. split; [done|]. destruct c; set_solver.
Qed.

Lemma NoDup_push {A} (x : A) l : NoDup l -> x ∉ l -> NoDup (l ++ [x]).
Proof. intros. rewrite <- Permutation_cons_append. by constructor. Qed.

Lemma elem_of_push {A} (x y : A) l : y ∈ l ++ [x] <-> y ∈ l \/ y = x.
Proof. by rewrite elem_of_app, list_elem_of_singleton. Qed.

(** Appending to a queue that does not hold [gid] moves it there from nowhere. *)
Lemma moved_push q gid class :
  queues_nodup q -> (forall c, gid ∉ SchedulerQueues_get q c) ->
  moved q (SchedulerQueues_put q class (SchedulerQueues_get q class ++ [gid])) gid (Some class).
Proof.
  intros Hnd Hnin c. rewrite queues_get_put. specialize (Hnin c).
  case_bool_decide; subst; (split; [by try apply NoDup_push|]); intros g; rewrite ?elem_of_push;
    destruct (decide (g = gid)) as [->|]; naive_solver.
Qed.

Lemma moved_remove q gid class n :
  queues_nodup q -> (forall c, gid ∈ SchedulerQueues_get q c <-> Some class = Some c) ->
  position gid (SchedulerQueues_get q class) = Some n ->
  moved q (SchedulerQueues_put q class (vec_remove n (SchedulerQueues_get q class))) gid None.
Proof.
  intros Hnd Hold Hp c. rewrite queues_get_put. specialize (Hold c).
  case_bool_decide; subst; (split; [try done; by eapply NoDup_vec_remove|]); intros g;
    rewrite ?(elem_of_vec_remove gid) by done; destruct (decide (g = gid)) as [->|]; naive_solver.
Qed.

Lemma moved_trans q1 q2 q3 gid c1 c2 : moved q1 q2 gid c1 -> moved q2 q3 gid c2 -> moved q1 q3 gid c2.
Proof. intros H12 H23 c. destruct (H12 c), (H23 c). split; [done|]. naive_solver. Qed.

Lemma moved_none q q' gid : moved q q' gid None -> queues_nodup q' /\ forall c, gid ∉ SchedulerQueues_get q' c.
Proof. intros H. split; intros c; destruct (H c); naive_solver. Qed.

Lemma moved_same q gid old :
  queues_nodup q -> (forall c, gid ∈ SchedulerQueues_get q c <-> old = Some c) -> moved q q gid old.
Proof.
  intros Hnd Hold c. split; [done|]. specialize (Hold c). intros g.
  destruct (decide (g = gid)) as [->|]; naive_solver.
Qed.

Lemma queue_updates_old s gid old new ups :
  queue_updates s gid old new = Ok ups -> forall c, gid ∈ SchedulerQueues_get (rs_queues s) c <-> old = Some c.
Proof.
  unfold queue_updates. intros H c.
  destruct old as [class|]; case_bool_decide as Hm; try done;
    rewrite (queue_memberships_spec _ _ _ Hm); set_solver.
Qed.

Lemma queue_updates_moved s gid old new ups :
  queues_nodup (rs_queues s) -> queue_updates s gid old new = Ok ups ->
  moved (rs_queues s) (apply_queue_updates (rs_queues s) ups) gid new.
Proof.
  intros Hnd H. pose proof (queue_updates_old _ _ _ _ _ H) as Hold. unfold queue_updates in H.
  destruct old as [class|]; case_bool_decide as Hm; try done; clear Hm; cbn [negb] in H;
    case_bool_decide as Hon; cbn [mbind result_bind] in H.
  - injection H as <-. rewrite <- Hon. by apply moved_same.
  - destruct (position gid _) as [n|] eqn:Ep; [|done]. cbn [ok_or mbind result_bind] in H.
    pose proof (moved_remove _ _ _ _ Hnd Hold Ep) as Hr. destruct new as [class'|].
    + case_bool_decide as Hc; [congruence|]. cbn [mbind result_bind] in H.
      destruct (contains _ _); [done|]. injection H as <-.
      eapply moved_trans; [exact Hr|]. apply moved_none in Hr as [Hr1 Hr2].
      pose proof (moved_push _ _ class' Hr1 Hr2) as Hp. rewrite queues_get_put in Hp.
      rewrite bool_decide_eq_false_2 in Hp by congruence. exact Hp.
    + by injection H as <-.
  - injection H as <-. rewrite <- Hon. by apply moved_same.
  - destruct new as [class'|]; [|done]. case_bool_decide; [done|]. cbn [mbind result_bind] in H.
    destruct (contains _ _); [done|]. injection H as <-. apply moved_push; [done|]. naive_solver.
Qed.

(** A new task is inserted at its requested position. *)
Lemma place_in_update_new s gid class pos ups ups' :
  queue_updates s gid None (Some class) = Ok ups -> place_in_update gid class pos ups = Ok ups' ->
  ups' = [mkQueueUpdate class (vec_insert (N.to_nat pos) gid (SchedulerQueues_get (rs_queues s) class))].
Proof.
  unfold queue_updates. intros H Hp. destruct (negb _); [done|]. case_bool_decide; [done|]. cbn [mbind result_bind] in H.
  destruct (contains _ _); [done|].
  injection H as <-. cbn [app place_in_update qu_class qu_order] in Hp. rewrite bool_decide_eq_true_2 in Hp by done.
  rewrite <- removelast_firstn_len, removelast_last in Hp. destruct (_ || _); [done|]. by injection Hp as <-.
Qed.

Lemma place_in_update_moved s gid class pos ups ups' :
  queues_nodup (rs_queues s) -> queue_updates s gid None (Some class) = Ok ups ->
  place_in_update gid class pos ups = Ok ups' ->
  moved (rs_queues s) (apply_queue_updates (rs_queues s) ups') gid (Some class).
Proof.
  intros Hnd H ->%(place_in_update_new s); [|done]. pose proof (queue_updates_old _ _ _ _ _ H) as Hold. intros c.
  unfold apply_queue_updates. cbn [fold_left qu_class qu_order].
  rewrite queues_get_put. specialize (Hold c). case_bool_decide; subst.
  - split; [apply NoDup_vec_insert; [done|naive_solver]|]. intros g. rewrite elem_of_vec_insert.
    destruct (decide (g = gid)) as [->|]; naive_solver.
  - split; [done|]. intros g. destruct (decide (g = gid)) as [->|]; naive_solver.
Qed.

(** ** Counting slots *)

Definition slots (m : gmap Gid ScheduledTask) : nat :=
  List.length (filter (fun task => owns_slot task = true) (map_to_list m).*2).

Lemma active_slot_count_slots s : active_slot_count s = N.of_nat (slots (rs_tasks s)).
Proof. unfold active_slot_count, slots, btree_values, vec_len. by rewrite btree_entries_perm. Qed.

Lemma slots_insert m gid u :
  m !! gid = None -> slots (<[gid := u]> m) = (slots m + if owns_slot u then 1 else 0)%nat.
Proof.
  intros Hn. unfold slots. rewrite map_to_list_insert by done. cbn [fmap list_fmap snd]. rewrite filter_cons.
  case_decide as Ho; [rewrite Ho|apply not_true_is_false in Ho; rewrite Ho]; cbn; lia.
Qed.

Lemma slots_update m gid o u :
  m !! gid = Some o ->
  (slots (<[gid := u]> m) + (if owns_slot o then 1 else 0) = slots m + if owns_slot u then 1 else 0)%nat.
Proof.
  intros Hl. rewrite <- (insert_delete_eq m gid u). rewrite <- (insert_delete_id m gid o) at 2 by done.
  rewrite !slots_insert by apply lookup_delete_eq. lia.
Qed.

Lemma slots_delete m gid : (slots (delete gid m) <= slots m)%nat.
Proof.
  destruct (m !! gid) as [o|] eqn:E; [|by rewrite delete_id].
  rewrite <- (insert_delete_id m gid o) at 2 by done. rewrite slots_insert by apply lookup_delete_eq. lia.
Qed.

Lemma slots_fmap f m : (forall t, owns_slot (f t) = owns_slot t) -> slots (f <$> m) = slots m.
Proof.
  intros Hf. unfold slots. rewrite map_to_list_fmap.
  induction (map_to_list m) as [|[k t] l IH]; [done|].
  rewrite !fmap_cons, !filter_cons. cbn [snd prod_map]. rewrite Hf. case_decide; cbn; congruence.
Qed.

(** ** Well-formedness *)

Record wf (s : RequestScheduler) : Prop := {
  wf_tasks : tasks_ok s;
  wf_task_ids : forall id gid, rs_task_ids s !! id = Some gid <->
    exists t, rs_tasks s !! gid = Some t /\ t_task_id t = id;
  wf_highest : forall gid t, rs_tasks s !! gid = Some t ->
    exists highest, rs_highest_task_id s = Some highest /\ t_task_id t <= highest;
  wf_nodup : queues_nodup (rs_queues s);
  wf_members : forall class gid, gid ∈ SchedulerQueues_get (rs_queues s) class <->
    exists t, rs_tasks s !! gid = Some t /\ ScheduledTask_queue_class t = Some class;
  wf_published : forall gid, is_Some (rs_published_snapshots s !! gid) <-> is_Some (rs_tasks s !! gid);
  wf_snapshots : forall gid sn, rs_published_snapshots s !! gid = Some sn ->
    sn_gid sn = gid /\ publishable sn;
  wf_capacity : RequestScheduler_len s <= sc_max_tasks (rs_config s);
  wf_slots : active_slot_count s <= sc_max_active_tasks (rs_config s);
}.

Lemma wf_new config : wf (RequestScheduler_new config).
Proof.
  constructor; unfold tasks_ok, RequestScheduler_len; rewrite ?active_slot_count_slots; cbn.
  - intros gid t. by rewrite lookup_empty.
  - intros id gid. rewrite !lookup_empty. naive_solver.
  - intros gid t. by rewrite lookup_empty.
  - intros class. by destruct class; constructor.
  - intros class gid. rewrite lookup_empty. destruct class; cbn; set_solver.
  - intros gid. by rewrite !lookup_empty.
  - intros gid sn. by rewrite lookup_empty.
  - rewrite map_size_empty. lia.
  - unfold slots. rewrite map_to_list_empty. cbn. lia.
Qed.

(** ** Pending deletions *)

Definition deleting (t : ScheduledTask) : Prop :=
  exists g d, t_pending_barrier t = Some (PendingBarrier.StoppedResultDeletion g d).

Lemma pending_deletion_iff s :
  pending_stopped_deletion s = None <-> forall gid t, rs_tasks s !! gid = Some t -> ~ deleting t.
Proof.
  unfold pending_stopped_deletion. split.
  - intros Hp gid t Ht (g & d & Hb). destruct (omap stopped_deletion_barrier _) as [|b l] eqn:E; [|done].
    apply (not_elem_of_nil (PendingBarrier.StoppedResultDeletion g d)). rewrite <- E. apply list_elem_of_omap.
    exists t. split; [apply elem_of_btree_values; eauto|]. unfold stopped_deletion_barrier. by rewrite Hb.
  - intros Hn. destruct (omap stopped_deletion_barrier _) as [|b l] eqn:E; [done|]. exfalso.
    assert (b ∈ omap stopped_deletion_barrier (btree_values (rs_tasks s))) as Hin by (rewrite E; left).
    apply list_elem_of_omap in Hin as (t & (gid & Ht)%elem_of_btree_values & Hb). apply (Hn gid t Ht).
    unfold stopped_deletion_barrier in Hb. unfold deleting. destruct (t_pending_barrier t) as [[]|]; try done. eauto.
Qed.

Lemma pending_deletion_none s gid t :
  pending_stopped_deletion s = None -> rs_tasks s !! gid = Some t -> ~ deleting t.
Proof. intros H. by apply pending_deletion_iff. Qed.

(** ** A committed plan *)

Lemma ScheduledTask_snapshot_Ok t holds sn :
  ScheduledTask_snapshot t holds = Ok sn ->
  publishable sn /\ sn_gid sn = t_gid t /\ sn_state sn = t_state t /\ sn_generation sn = t_generation t /\
  sn_desired_paused sn = t_desired_paused t /\ sn_stopped_status sn = t_stopped_status t /\
  sn_error sn = t_error t /\ conditions_ok t.
Proof.
  unfold ScheduledTask_snapshot. intros H.
  match type of H with context [TaskSnapshot_validate ?x] => destruct (TaskSnapshot_validate x) as [[]|] eqn:E end;
    [|done]. cbn [map_err mbind result_bind] in H. injection H as <-.
  apply snapshot_validate_publishable in E. split_and!; try done.
  intros Hb. apply (pub_conditions _ E). cbn. unfold unblocked, TaskConditions_blocks_admission in Hb.
  destruct (is_some (tc_no_space _)), (is_some (tc_needs_credentials _)); done.
Qed.

(** What [plan_action] has checked when it succeeds. *)
Record planned (s : RequestScheduler) (o : ScheduledTask) (u : option ScheduledTask) (present : bool)
    (action : SchedulerAction) (at_ : MonotonicInstant) (eff : list TransitionEffect) (publish : bool)
    (ups : list QueueUpdate) (pub : option TaskSnapshot) (out : SchedulerOutcome) : Prop := {
  pl_accepts : TransitionContract_accepts (transition_contract (t_state o) action) = true;
  pl_updates : exists ups0,
    queue_updates s (t_gid o) (if present then ScheduledTask_queue_class o else None)
      (task ← u; ScheduledTask_queue_class task) = Ok ups0 /\
    (if present then ups = ups0 else place_new_task (t_gid o) eff ups0 = Ok ups);
  pl_guard : action = SchedulerAction.StoppedResultDeletionSucceeded \/
    (forall update, update ∈ ups -> qu_class update <> QueueClass.Stopped) \/ pending_stopped_deletion s = None;
  pl_published : if publish then exists t sn, u = Some t /\ pub = Some sn /\
      ScheduledTask_snapshot t (sc_retry_wait_holds_slot (rs_config s)) = Ok sn
    else pub = None;
  pl_outcome : contract_outcome (transition_contract (t_state o) action) o u at_ =
    Ok (o_transition out, o_deletion out);
  pl_effects : exists eff1,
    persist_effects s o u present action (if present then ScheduledTask_queue_class o else None)
      (task ← u; ScheduledTask_queue_class task) ups eff = Ok eff1 /\
    o_effects out = eff1 ++ match pub with
      | Some sn => [TransitionEffect.PublishSnapshot (t_task_id o) sn] | None => [] end;
  pl_bound : vec_len (o_effects out) <= MAX_SCHEDULER_EFFECTS;
}.

Lemma plan_action_Ok s o u present action at_ eff publish ups pub out :
  plan_action s o u present action at_ eff publish = Ok (ups, pub, out) ->
  planned s o u present action at_ eff publish ups pub out.
Proof.
  unfold plan_action. intros H. destruct (TransitionContract_accepts _) eqn:Ea; cbn [negb] in H.
  2: { by destruct (target_for_action _ _). }
  apply bind_Ok in H as (ups0 & Eu & H). apply bind_Ok in H as (ups1 & Eups & H).
  apply bind_Ok in H as ([] & Eg & H). apply bind_Ok in H as (eff1 & Ee & H).
  apply bind_Ok in H as (pub1 & Epub & H). apply bind_Ok in H as ([tr del] & Ec & H).
  apply bind_Ok in H as (out1 & Eo & H). injection H as <- <- <-. cbn [fst snd] in Eo.
  unfold SchedulerOutcome_checked in Eo. destruct (N.ltb_spec MAX_SCHEDULER_EFFECTS (vec_len
    match pub1 with
    | Some snapshot => eff1 ++ [TransitionEffect.PublishSnapshot (t_task_id o) snapshot]
    | None => eff1
    end)) as [|Hlen]; [done|]. injection Eo as <-. constructor; cbn [o_effects o_transition o_deletion].
  - done.
  - exists ups0. split; [done|]. destruct present; cbn [negb] in Eups; [by injection Eups as <-|done].
  - case_bool_decide as E; [by left|right]. destruct (existsb _ ups1) eqn:Ex; cbn [negb andb] in Eg.
    + right. by destruct (pending_stopped_deletion s).
    + left. intros update Hin Hc. apply not_true_iff_false in Ex. apply Ex, existsb_exists. exists update.
      split; [by apply list_elem_of_In|]. by apply bool_decide_eq_true.
  - destruct publish; [|by injection Epub as <-]. apply bind_Ok in Epub as (t & Et & Epub).
    apply ok_or_Ok in Et. apply bind_Ok in Epub as (sn & Es & Epub). injection Epub as <-. eauto.
  - done.
  - exists eff1. split; [done|]. destruct pub1; [done|by rewrite app_nil_r].
  - done.
Qed.

Section commit_fields.
Context (s : RequestScheduler) (o : ScheduledTask) (ups : list QueueUpdate) (pub : option TaskSnapshot).
Context (ids : IdCounters).

Lemma commit_config u : rs_config (commit_action o u ups pub ids s) = rs_config s.
Proof. destruct u, pub; reflexivity. Qed.
Lemma commit_highest u : rs_highest_task_id (commit_action o u ups pub ids s) = rs_highest_task_id s.
Proof. destruct u, pub; reflexivity. Qed.
Lemma commit_queues u :
  rs_queues (commit_action o u ups pub ids s) = apply_queue_updates (rs_queues s) ups.
Proof. destruct u, pub; reflexivity. Qed.
Lemma commit_ids u : rs_ids (commit_action o u ups pub ids s) = ids.
Proof. destruct u, pub; reflexivity. Qed.
Lemma commit_tasks u :
  rs_tasks (commit_action o u ups pub ids s) =
  match u with Some t => <[t_gid t := t]> (rs_tasks s) | None => delete (t_gid o) (rs_tasks s) end.
Proof. destruct u, pub; reflexivity. Qed.
Lemma commit_task_ids u :
  rs_task_ids (commit_action o u ups pub ids s) =
  match u with
  | Some t => <[t_task_id t := t_gid t]> (rs_task_ids s)
  | None => delete (t_task_id o) (rs_task_ids s)
  end.
Proof. destruct u, pub; reflexivity. Qed.
Lemma commit_published u :
  rs_published_snapshots (commit_action o u ups pub ids s) =
  let base := match u with
    | Some _ => rs_published_snapshots s
    | None => delete (t_gid o) (rs_published_snapshots s)
    end in
  match pub with Some sn => <[t_gid o := sn]> base | None => base end.
Proof. destruct u, pub; reflexivity. Qed.
End commit_fields.

(** The members of the queues after a task moved. *)
Lemma moved_members (m m' : gmap Gid ScheduledTask) q q' gid class :
  (forall c g, g ∈ SchedulerQueues_get q c <->
     exists t, m !! g = Some t /\ ScheduledTask_queue_class t = Some c) ->
  moved q q' gid class -> (forall g, g <> gid -> m' !! g = m !! g) ->
  class = (t ← m' !! gid; ScheduledTask_queue_class t) ->
  forall c g, g ∈ SchedulerQueues_get q' c <->
    exists t, m' !! g = Some t /\ ScheduledTask_queue_class t = Some c.
Proof.
  intros Hm Hmv Hne -> c g. destruct (Hmv c) as [_ ->]. destruct (decide (g = gid)) as [->|Hg].
  - rewrite <- bind_Some. naive_solver.
  - rewrite Hm, (Hne g Hg). naive_solver.
Qed.

Lemma task_ids_inj s gid gid' t t' :
  wf s -> rs_tasks s !! gid = Some t -> rs_tasks s !! gid' = Some t' -> t_task_id t = t_task_id t' -> gid = gid'.
Proof.
  intros Hw Ht Ht' E. assert (rs_task_ids s !! t_task_id t = Some gid) by (apply (wf_task_ids _ Hw); eauto).
  assert (rs_task_ids s !! t_task_id t = Some gid') by (apply (wf_task_ids _ Hw); eauto). congruence.
Qed.

Section commit_wf.
Context (s : RequestScheduler) (o : ScheduledTask) (ups : list QueueUpdate) (pub : option TaskSnapshot)
  (ids : IdCounters).
Context (Hw : wf s) (Hl : rs_tasks s !! t_gid o = Some o).

Lemma commit_update_wf u :
  t_gid u = t_gid o -> t_task_id u = t_task_id o -> task_inv u ->
  (owns_slot u = true -> owns_slot o = true \/ active_slot_count s < sc_max_active_tasks (rs_config s)) ->
  moved (rs_queues s) (apply_queue_updates (rs_queues s) ups) (t_gid o) (ScheduledTask_queue_class u) ->
  (forall sn, pub = Some sn -> publishable sn /\ sn_gid sn = t_gid u) ->
  wf (commit_action o (Some u) ups pub ids s).
Proof.
  intros Eg Ei Hu Hslot Hm Hpub.
  constructor; unfold tasks_ok, RequestScheduler_len; rewrite ?active_slot_count_slots, ?commit_config,
    ?commit_highest, ?commit_queues, ?commit_tasks, ?commit_task_ids, ?commit_published; rewrite ?Eg, ?Ei.
  - intros gid t. rewrite lookup_insert_Some. intros [[<- <-]|[_ ?]]; [done|by apply (wf_tasks _ Hw)].
  - intros id gid. rewrite lookup_insert_Some, (wf_task_ids _ Hw). split.
    + intros [[<- <-]|[Hne (t & Ht & <-)]]; [exists u; by rewrite lookup_insert_eq|].
      exists t. rewrite lookup_insert_ne; [done|]. intros <-. congruence.
    + intros (t & [[<- <-]|[Hne Ht]]%lookup_insert_Some & <-); [by left|]. right.
      split; [|by eauto]. intros E. apply Hne. by eapply task_ids_inj.
  - intros gid t. rewrite lookup_insert_Some. intros [[<- <-]|[_ ?]]; [rewrite Ei|]; by eapply (wf_highest _ Hw).
  - intros class. apply Hm.
  - eapply moved_members; [apply (wf_members _ Hw)|exact Hm|intros; by apply lookup_insert_ne|].
    by rewrite lookup_insert_eq.
  - intros gid. destruct (decide (gid = t_gid o)) as [->|].
    + rewrite lookup_insert_eq. destruct pub; [by rewrite lookup_insert_eq|].
      rewrite (wf_published _ Hw), Hl. done.
    + rewrite lookup_insert_ne by done. destruct pub; [rewrite lookup_insert_ne by done|]; apply (wf_published _ Hw).
  - intros gid sn. destruct pub as [sn'|]; [|apply (wf_snapshots _ Hw)]. rewrite lookup_insert_Some.
    intros [[<- <-]|[_ ?]]; [|by apply (wf_snapshots _ Hw)]. destruct (Hpub _ eq_refl). split; congruence.
  - rewrite map_size_insert_Some by (by eexists). apply (wf_capacity _ Hw).
  - pose proof (wf_slots _ Hw). rewrite active_slot_count_slots in *.
    pose proof (slots_update (rs_tasks s) _ _ u Hl). destruct (owns_slot u), (owns_slot o); lia.
Qed.

Lemma commit_delete_wf :
  moved (rs_queues s) (apply_queue_updates (rs_queues s) ups) (t_gid o) None -> pub = None ->
  wf (commit_action o None ups pub ids s).
Proof.
  intros Hm ->.
  constructor; unfold tasks_ok, RequestScheduler_len; rewrite ?active_slot_count_slots, ?commit_config,
    ?commit_highest, ?commit_queues, ?commit_tasks, ?commit_task_ids, ?commit_published.
  - intros gid t [_ ?]%lookup_delete_Some. by apply (wf_tasks _ Hw).
  - intros id gid. rewrite lookup_delete_Some, (wf_task_ids _ Hw). split.
    + intros [Hne (t & Ht & <-)]. exists t. rewrite lookup_delete_ne; [done|]. intros <-. congruence.
    + intros (t & [Hne Ht]%lookup_delete_Some & <-). split; [|by eauto]. intros E. apply Hne. by eapply task_ids_inj.
  - intros gid t [_ ?]%lookup_delete_Some. by eapply (wf_highest _ Hw).
  - intros class. apply Hm.
  - eapply moved_members; [apply (wf_members _ Hw)|exact Hm|intros; by rewrite lookup_delete_ne|].
    by rewrite lookup_delete_eq.
  - intros gid. destruct (decide (gid = t_gid o)) as [->|]; [by rewrite !lookup_delete_eq|].
    rewrite !lookup_delete_ne by done. apply (wf_published _ Hw).
  - intros gid sn [_ ?]%lookup_delete_Some. by apply (wf_snapshots _ Hw).
  - pose proof (wf_capacity _ Hw). unfold RequestScheduler_len in *.
    rewrite map_size_delete_Some by (by eexists). lia.
  - pose proof (wf_slots _ Hw). rewrite active_slot_count_slots in *.
    pose proof (slots_delete (rs_tasks s) (t_gid o)). lia.
Qed.
End commit_wf.

Lemma plan_slot i s p u :
  wf s -> plan_ok i s p -> p_updated p = Some u -> owns_slot u = true ->
  owns_slot (p_original p) = true \/ active_slot_count s < sc_max_active_tasks (rs_config s).
Proof.
  intros Hw Hok E Ho. pose proof (pk_lookup _ _ _ Hok) as Hl. pose proof (pk_updated _ _ _ Hok) as Hu. rewrite E in Hu. destruct Hu as (_ & _ & Hs & _).
  destruct Hs as [eff Hp Hf|class Hf|d n ? ? ? ? Es|g|Hb]; [left; by apply Hf..| |done|]; left.
  { unfold owns_slot in *. congruence. }
  destruct (wf_tasks _ Hw _ _ Hl) as [_ Hi]. pose proof (ti_barrier _ Hi) as Hbi. unfold barrier_inv in Hbi.
  rewrite Hb in Hbi. unfold owns_slot. destruct Hbi as (_ & _ & -> & _). done.
Qed.

Lemma run_plan_wf i s p at_ :
  wf s -> plan_ok i s p -> wf (run_plan p at_ s).1.
Proof.
  intros Hw Hok. unfold run_plan. rewrite finish_action_eq.
  destruct (plan_action _ _ _ _ _ _ _ _) as [[[ups pub] out]|] eqn:E; [|done]. cbn [fst].
  apply plan_action_Ok in E as [_ (ups0 & Eu & Eups) _ Hpub _ _ _]. rewrite (pk_present _ _ _ Hok) in *. subst ups0.
  apply queue_updates_moved in Eu; [|apply Hw]. pose proof (pk_updated _ _ _ Hok) as Hu.
  pose proof (pk_lookup _ _ _ Hok) as Hl. destruct (p_updated p) as [u|] eqn:Ep.
  - destruct Hu as (Eg & Ei & Hs & Hinv).
    assert (forall sn, pub = Some sn -> publishable sn /\ sn_gid sn = t_gid u) as Hsn.
    { intros sn ->. destruct (p_publish p); [|done]. destruct Hpub as (t & sn' & [= <-] & [= <-] & Hsn).
      apply ScheduledTask_snapshot_Ok in Hsn. tauto. }
    apply commit_update_wf; try done.
    + apply Hinv. intros Epub. rewrite Epub in Hpub. destruct Hpub as (t & sn & [= <-] & _ & Hsn').
      apply ScheduledTask_snapshot_Ok in Hsn'. tauto.
    + by eapply plan_slot.
  - apply commit_delete_wf; try done. destruct (p_publish p); [|done]. by destruct Hpub as (? & ? & [=] & _).
Qed.

Lemma handled_wf i s at_ r : wf s -> handled s (plan_ok i s) at_ r -> wf r.1.
Proof. intros Hw [| |p]; [done..|]. by eapply run_plan_wf. Qed.

(** ** The other operations *)

Lemma advance_slow_fields t :
  t_gid (advance_slow_position t) = t_gid t /\ t_task_id (advance_slow_position t) = t_task_id t /\
  ScheduledTask_queue_class (advance_slow_position t) = ScheduledTask_queue_class t /\
  owns_slot (advance_slow_position t) = owns_slot t /\ (task_inv t -> task_inv (advance_slow_position t)).
Proof.
  unfold advance_slow_position. destruct (t_slow_readmission_ready t); [|done].
  split_and!; try done. intros []. by constructor.
Qed.

Lemma advance_wf s : wf s -> wf (s <| rs_tasks := advance_slow_position <$> rs_tasks s |>).
Proof.
  intros Hw. constructor; unfold tasks_ok, RequestScheduler_len; rewrite ?active_slot_count_slots; simpl_sched.
  - intros gid t. rewrite lookup_fmap. intros (t' & Ht & ->)%fmap_Some.
    destruct (wf_tasks _ Hw _ _ Ht), (advance_slow_fields t') as (-> & _ & _ & _ & ?). auto.
  - intros id gid. rewrite (wf_task_ids _ Hw). setoid_rewrite lookup_fmap. setoid_rewrite fmap_Some. split.
    + intros (t & ? & <-). exists (advance_slow_position t). split; [eauto|]. apply advance_slow_fields.
    + intros (? & (t & ? & ->) & <-). exists t. split; [done|]. symmetry. apply advance_slow_fields.
  - intros gid t. rewrite lookup_fmap. intros (t' & Ht & ->)%fmap_Some.
    destruct (advance_slow_fields t') as (_ & -> & _). by eapply (wf_highest _ Hw).
  - apply Hw.
  - intros class gid. rewrite (wf_members _ Hw), lookup_fmap. setoid_rewrite fmap_Some. split.
    + intros (t & ? & <-). exists (advance_slow_position t). split; [eauto|]. apply advance_slow_fields.
    + intros (? & (t & ? & ->) & <-). exists t. split; [done|]. symmetry. apply advance_slow_fields.
  - intros gid. rewrite lookup_fmap, fmap_is_Some. apply (wf_published _ Hw).
  - apply (wf_snapshots _ Hw).
  - rewrite map_size_fmap. apply (wf_capacity _ Hw).
  - rewrite slots_fmap by (intros; apply advance_slow_fields).
    pose proof (wf_slots _ Hw). by rewrite active_slot_count_slots in *.
Qed.

Lemma advanced_wf ordinary r : wf r.1 -> wf (advanced ordinary r).1.
Proof. destruct r as [s []], ordinary; try done. apply advance_wf. Qed.

Lemma admit_next_wf s at_ : wf s -> wf (admit_next_at at_ s).1.
Proof.
  intros Hw. destruct (admit_next_cases s at_) as [[e ->]|(p & ordinary & Hp & ->)]; [apply Hw|done|].
  apply advanced_wf. by eapply run_plan_wf.
Qed.

Lemma reorder_wf s gid class pos :
  wf s -> wf (queue_effects_for_reorder gid class pos s).1.
Proof.
  intros Hw. unfold queue_effects_for_reorder, get_self, lift, throw, modify, mret, sched_ret, mbind, sched_bind.
  destruct (_ <=? pos); [done|]. destruct (position gid _) as [n|] eqn:Ep; [|done]. cbn [ok_or].
  destruct (_ =? pos); [done|]. destruct (rs_tasks s !! gid) as [t|]; [|done]. cbn [ok_or].
  destruct (SchedulerOutcome_checked _ _ _); [|done]. cbn [fst].
  destruct (NoDup_vec_remove _ _ _ (wf_nodup _ Hw class) Ep) as [Hnd Hnin].
  destruct Hw as [? ? ? Hq Hm ? ? ? ?]. constructor; try done; simpl_sched.
  - intros c. rewrite queues_get_put. case_bool_decide; [by apply NoDup_vec_insert|done].
  - intros c g. rewrite <- Hm, queues_get_put. case_bool_decide; [subst c|done].
    rewrite elem_of_vec_insert, (elem_of_vec_remove gid) by done.
    assert (gid ∈ SchedulerQueues_get (rs_queues s) class).
    { apply dec_stable. intros Hn%position_None. congruence. }
    destruct (decide (g = gid)) as [->|]; naive_solver.
Qed.

Lemma change_position_wf s gid pos : wf s -> wf (change_position gid pos s).1.
Proof.
  intros Hw. unfold change_position, get_self, lift, throw, mbind, sched_bind.
  destruct (task_clone s gid) as [t|]; [|done]. destruct (reject_pending _ _); [|done].
  destruct (ok_or _ _) as [class|]; [|done]. destruct (if class == QueueClass.Stopped then _ else _); [done|].
  by apply reorder_wf.
Qed.

(** ** New tasks *)

Definition new_task (task_id : TaskId) (gid : Gid) (desired_paused : bool) (conditions : TaskConditions)
    : ScheduledTask :=
  ScheduledTask_new task_id gid desired_paused conditions
    <| t_state := if desired_paused then TaskState.Paused else TaskState.Waiting |>.

Definition new_class (desired_paused : bool) : QueueClass :=
  if desired_paused then QueueClass.Paused else QueueClass.Waiting.

Definition new_action (desired_paused : bool) : SchedulerAction :=
  SchedulerAction_for_validated_add desired_paused.

Lemma new_task_inv task_id gid paused conditions : task_inv (new_task task_id gid paused conditions).
Proof.
  unfold new_task. constructor; eval_inv; destruct paused; cbn; try done; try naive_solver.
  all: split; [intros [? [=]]|intros [=]].
Qed.

(** Adding a task fails without a write, or commits a new task under fresh
    identifiers. *)
Lemma add_validated_task_cases s task_id gid paused conditions pos at_ :
  (exists e, add_validated_task task_id gid paused conditions pos at_ s = (s, Err e)) \/
  exists ups pub out, let o := ScheduledTask_new task_id gid paused conditions in
    let u := new_task task_id gid paused conditions in
    let eff := [TransitionEffect.PersistTask task_id gid (new_class paused)
      (N.min (default USIZE_MAX pos) (vec_len (SchedulerQueues_get (rs_queues s) (new_class paused))))
      paused 0 conditions] in
    rs_tasks s !! gid = None /\ rs_task_ids s !! task_id = None /\
    (forall highest, rs_highest_task_id s = Some highest -> highest < task_id) /\
    RequestScheduler_len s < sc_max_tasks (rs_config s) /\
    TaskConditions_validate conditions = Ok tt /\
    planned s o (Some u) false (new_action paused) at_ eff true ups pub out /\
    add_validated_task task_id gid paused conditions pos at_ s =
      (commit_action o (Some u) ups pub (rs_ids s) s <| rs_highest_task_id := Some task_id |>, Ok out).
Proof.
  unfold add_validated_task, get_self, lift, throw, modify, mret, sched_ret, mbind, sched_bind.
  destruct (TaskConditions_validate conditions) as [[]|] eqn:Ev; cbn [map_err]; [|eauto].
  destruct (N.leb_spec (sc_max_tasks (rs_config s)) (RequestScheduler_len s)); [eauto|].
  destruct (rs_tasks s !! gid) eqn:Eg; cbn [is_some]; [eauto|].
  destruct (rs_task_ids s !! task_id) eqn:Ei; cbn [is_some]; [eauto|].
  destruct (from_option _ _ _) eqn:Eh; [eauto|].
  assert (forall highest, rs_highest_task_id s = Some highest -> highest < task_id).
  { intros h Eh'. rewrite Eh' in Eh. by apply N.leb_gt. }
  replace (target_state (ScheduledTask_new task_id gid paused conditions)
             (SchedulerAction_for_validated_add paused))
    with (Ok (if paused then TaskState.Paused else TaskState.Waiting) : result SchedulerError _)
    by by destruct paused.
  change (ScheduledTask_new task_id gid paused conditions
            <| t_state := if paused then TaskState.Paused else TaskState.Waiting |>)
    with (new_task task_id gid paused conditions).
  replace (ScheduledTask_queue_class (new_task task_id gid paused conditions))
    with (Some (new_class paused)) by by destruct paused.
  cbn [ok_or]. rewrite finish_action_eq.
  destruct (plan_action _ _ _ _ _ _ _ _) as [[[ups pub] out]|] eqn:Ep; [|eauto]. right.
  exists ups, pub, out. split_and!; try done. by apply plan_action_Ok in Ep.
Qed.

Lemma commit_new_wf s o u ups sn ids :
  wf s -> rs_tasks s !! t_gid o = None -> t_gid u = t_gid o -> t_task_id u = t_task_id o ->
  rs_task_ids s !! t_task_id o = None ->
  (forall highest, rs_highest_task_id s = Some highest -> highest < t_task_id o) ->
  RequestScheduler_len s < sc_max_tasks (rs_config s) ->
  task_inv u -> owns_slot u = false ->
  moved (rs_queues s) (apply_queue_updates (rs_queues s) ups) (t_gid o) (ScheduledTask_queue_class u) ->
  publishable sn -> sn_gid sn = t_gid u ->
  wf (commit_action o (Some u) ups (Some sn) ids s <| rs_highest_task_id := Some (t_task_id o) |>).
Proof.
  intros Hw Hn Eg Ei Hid Hh Hlen Hu Hslot Hm Hpub Esn.
  constructor; unfold tasks_ok, RequestScheduler_len; rewrite ?active_slot_count_slots; simpl_sched;
    rewrite ?commit_config, ?commit_queues, ?commit_tasks, ?commit_task_ids, ?commit_published; rewrite ?Eg, ?Ei.
  - intros gid t. rewrite lookup_insert_Some. intros [[<- <-]|[_ ?]]; [done|by apply (wf_tasks _ Hw)].
  - intros id gid. rewrite lookup_insert_Some, (wf_task_ids _ Hw). split.
    + intros [[<- <-]|[Hne (t & Ht & <-)]]; [exists u; by rewrite lookup_insert_eq|].
      exists t. rewrite lookup_insert_ne; [done|]. intros <-. congruence.
    + intros (t & [[<- <-]|[Hne Ht]]%lookup_insert_Some & <-); [by left|]. right.
      split; [|by eauto]. intros E. rewrite E in Hid.
      assert (rs_task_ids s !! t_task_id t = Some gid) by (apply (wf_task_ids _ Hw); eauto). congruence.
  - intros gid t. rewrite lookup_insert_Some. intros [[<- <-]|[_ Ht]]; [eexists; split; [done|lia]|].
    destruct (wf_highest _ Hw _ _ Ht) as (h & Eh & ?). specialize (Hh _ Eh). eexists. split; [done|lia].
  - intros class. apply Hm.
  - eapply moved_members; [apply (wf_members _ Hw)|exact Hm|intros; by apply lookup_insert_ne|].
    by rewrite lookup_insert_eq.
  - intros gid. destruct (decide (gid = t_gid o)) as [->|]; [by rewrite !lookup_insert_eq|].
    rewrite !lookup_insert_ne by done. apply (wf_published _ Hw).
  - intros gid sn'. rewrite lookup_insert_Some. intros [[<- <-]|[_ ?]]; [split; congruence|].
    by apply (wf_snapshots _ Hw).
  - rewrite map_size_insert_None by done. unfold RequestScheduler_len in Hlen. lia.
  - pose proof (wf_slots _ Hw). rewrite active_slot_count_slots in *. rewrite slots_insert by done.
    rewrite Hslot. lia.
Qed.

Lemma add_validated_task_wf s task_id gid paused conditions pos at_ :
  wf s -> wf (add_validated_task task_id gid paused conditions pos at_ s).1.
Proof.
  intros Hw. destruct (add_validated_task_cases s task_id gid paused conditions pos at_)
    as [[e ->]|(ups & pub & out & Hn & Hid & Hh & Hlen & _ & [_ (ups0 & Eu & Ep) _ Hpub _ _ _] & ->)]; [done|].
  destruct Hpub as (t & sn & [= <-] & -> & Hsn). apply ScheduledTask_snapshot_Ok in Hsn as (Hpub & Esn & _).
  apply (commit_new_wf s (ScheduledTask_new task_id gid paused conditions)); try done.
  - apply new_task_inv.
  - cbn [place_new_task] in Ep. apply bind_Ok in Ep as (ups1 & Ep & [= <-]).
    replace (ScheduledTask_queue_class (new_task task_id gid paused conditions)) with (Some (new_class paused))
      by by destruct paused. eapply place_in_update_moved; [apply Hw| |exact Ep].
    by destruct paused.
Qed.
