(* ===== verification/SchedulerRestoreWf.v ===== *)
(** * Recovery yields a well-formed scheduler

    What [RequestScheduler::restore] guarantees when it accepts a batch: the
    restored scheduler satisfies the invariant of the running one, and the
    initial effects are exactly the timers, probes and snapshots of its tasks. *)

From S2P Require Import Prelude Ids Errors State Snapshot PersistedDelay CommandKinds Transition Command.
From S2P Require Import Scheduler SchedulerCommands SchedulerEvents SchedulerRestore SchedulerInv.
From S2P Require Import SchedulerPlans SchedulerHandlers SchedulerOps SchedulerWf.
From Stdlib Require Import Ascii String.
Open Scope list_scope.

(** ** Queues *)

Lemma insert_members_Ok class gids m m' :
  insert_members class gids m = Ok m' ->
  NoDup gids /\ (forall g, g ∈ gids -> m !! g = None) /\
  forall g c, m' !! g = Some c <-> (g ∈ gids /\ c = class) \/ m !! g = Some c.
Proof.
  revert m. induction gids as [|gid gids IH]; intros m H; cbn [insert_members] in H.
  { injection H as <-. split_and!; [constructor|set_solver|set_solver]. }
  destruct (m !! gid) eqn:E; cbn [is_some] in H; [done|]. apply IH in H as (Hnd & Hnone & Hm').
  assert (gid ∉ gids) by (intros Hin; specialize (Hnone _ Hin); by rewrite lookup_insert_eq in Hnone).
  split_and!.
  - by constructor.
  - intros g [->|Hin]%elem_of_cons; [done|]. specialize (Hnone _ Hin).
    by apply lookup_insert_None in Hnone as [? _].
  - intros g c. rewrite Hm', elem_of_cons, lookup_insert_Some. destruct (decide (g = gid)) as [->|]; naive_solver.
Qed.

(** The queues read so far agree with the memberships collected so far. *)
Record queues_read (queues : SchedulerQueues) (seen : gset QueueClass) (m : gmap Gid QueueClass) : Prop := {
  qr_nodup : queues_nodup queues;
  qr_members : forall class gid, gid ∈ SchedulerQueues_get queues class <-> m !! gid = Some class;
  qr_unseen : forall class, class ∉ seen -> SchedulerQueues_get queues class = [];
}.

Lemma restore_queues_Ok max orders q seen m q' seen' m' :
  queues_read q seen m -> restore_queues max orders q seen m = Ok (q', seen', m') -> queues_read q' seen' m'.
Proof.
  revert q seen m. induction orders as [|order orders IH]; intros q seen m Hq H; cbn [restore_queues] in H.
  { by injection H as <- <- <-. }
  case_bool_decide as Hs; [done|]. destruct (_ <? _); [done|].
  apply bind_Ok in H as (m1 & (Hnd & Hnone & Hm1)%insert_members_Ok & H). eapply IH; [|exact H].
  destruct Hq as [Hqn Hqm Hqu]. constructor.
  - intros class. rewrite queues_get_put. case_bool_decide; [done|apply Hqn].
  - intros class gid. rewrite queues_get_put, Hm1. case_bool_decide as Ec; [subst class|rewrite Hqm; naive_solver].
    split; [auto|]. intros [[? _]|Hm]; [done|]. apply Hqm in Hm. rewrite (Hqu _ Hs) in Hm. set_solver.
  - intros class Hc. rewrite queues_get_put. case_bool_decide; [set_solver|apply Hqu; set_solver].
Qed.

Lemma queues_read_empty : queues_read SchedulerQueues_default ∅ ∅.
Proof.
  constructor.
  - intros class. by destruct class; constructor.
  - intros class gid. rewrite lookup_empty. destruct class; cbn; set_solver.
  - by intros [].
Qed.

(** ** Tasks *)

(** The timers and the probe a restored task waits for, as effects. *)
Definition timer_effects_of (t : ScheduledTask) : list TransitionEffect :=
  match t_retry_timer t with
  | Some (id, at_) => [TransitionEffect.ScheduleRetry (t_task_id t) (t_gid t) (t_generation t) id at_]
  | None => []
  end ++
  match t_slow_readmission t with
  | Some (id, at_) => [TransitionEffect.ScheduleSlowReadmission (t_task_id t) (t_gid t) (t_generation t) id at_]
  | None => []
  end ++
  match t_no_space_probe t, (condition ← tc_no_space (t_conditions t); ns_retry_at condition) with
  | Some (id, origin), Some at_ =>
      [TransitionEffect.ProbeNoSpace (t_task_id t) (t_gid t) (t_generation t) id origin at_]
  | _, _ => []
  end.

(** What holds of a task as soon as it is read. *)
Record task_read (t : ScheduledTask) : Prop := {
  tr_inv : conditions_ok t -> task_inv t;
  tr_slot : t_slot t = SlotOwnership.None;
  tr_barrier : t_pending_barrier t = None;
}.

Lemma validate_recovered_task_read r max :
  validate_recovered_task r max = Ok tt -> task_read (recovered_task r).
Proof.
  unfold validate_recovered_task. intros H. destruct (negb _) eqn:Es in H; [done|].
  destruct (negb (Bool.eqb (r_state r == TaskState.RetryWait) _)) eqn:Er; [done|].
  apply bind_Ok in H as ([] & _ & H). destruct (negb (Bool.eqb _ _)) eqn:Eh in H; [done|].
  apply negb_false_iff, eqb_prop in Eh. unfold validate_stopped_result in H.
  split; [|done..]. intros Hok. unfold recovered_task in *.
  constructor; eval_inv; destruct (r_state r) eqn:E; try discriminate Es; cbn in H, Eh |- *; eval_tests.
  all: try (destruct (r_host_key_challenge r); try discriminate Eh; naive_solver).
  all: try (destruct (r_stopped_status r), (r_error r); cbn in H; try discriminate H; naive_solver).
  all: try (intros ?; left; by apply Hok).
  split; [done|]. destruct (r_stopped_status r) as [status|]; [|done]. cbn in H. exists status.
  destruct (Aria2Status_is_terminal status), (r_error r), (decide (status = Aria2Status.Error)) as [->|];
    try discriminate H; split_and!; try done; eauto.
Qed.

(** The task that [restore_task] inserts, and the effects recorded for it. *)
Lemma recovered_timers_Ok r ids t1 eff1 ids1 t2 eff2 ids2 max :
  validate_recovered_task r max = Ok tt ->
  recovered_timer r (recovered_task r) ids = Ok (t1, eff1, ids1) ->
  recovered_probe r t1 ids1 = Ok (t2, eff2, ids2) ->
  task_read t2 /\ t_gid t2 = r_gid r /\ t_task_id t2 = r_task_id r /\ eff1 ++ eff2 = timer_effects_of t2 /\
  ids_le ids ids2.
Proof.
  intros [Hinv _ _]%validate_recovered_task_read H1 H2. unfold recovered_timer in H1.
  assert (exists rt sr, t1 = recovered_task r <| t_retry_timer := rt |> <| t_slow_readmission := sr |> /\
    eff1 = match rt with
           | Some (id, at_) => [TransitionEffect.ScheduleRetry (r_task_id r) (r_gid r) (r_generation r) id at_]
           | None => [] end ++
           match sr with
           | Some (id, at_) =>
               [TransitionEffect.ScheduleSlowReadmission (r_task_id r) (r_gid r) (r_generation r) id at_]
           | None => [] end /\ ids_le ids ids1) as (rt & sr & -> & -> & Hi).
  { destruct (r_state r); try (injection H1 as <- <- <-; exists None, None; eauto with ariax).
    - apply bind_Ok in H1 as (at_ & _ & H1). apply bind_Ok in H1 as ([id ids'] & E & H1).
      apply map_err_Ok, IdCounters_slow_readmission_Ok in E as (? & ? & ?). injection H1 as <- <- <-.
      exists None, (Some (id, sd_readmit_at (ss_decision at_))). eauto with ariax.
    - apply bind_Ok in H1 as (at_ & _ & H1). apply bind_Ok in H1 as ([id ids'] & E & H1).
      apply map_err_Ok, IdCounters_retry_timer_Ok in E as (? & ? & ?). injection H1 as <- <- <-.
      exists (Some (id, at_)), None. eauto with ariax. }
  clear H1. unfold recovered_probe in H2. change (t_conditions (_ <| t_slow_readmission := sr |>))
    with (r_conditions r) in H2.
  destruct (condition ← tc_no_space (r_conditions r); ns_retry_at condition) as [at_|] eqn:Ec.
  - apply bind_Ok in H2 as ([id ids'] & E & H2). apply map_err_Ok, IdCounters_no_space_probe_Ok in E as (? & ? & ?).
    injection H2 as <- <- <-. split_and!; try done; [split; [|done..]| |by eapply ids_le_trans].
    + intros Hok. destruct (Hinv Hok). constructor; try done. intros _. cbn.
      by destruct (tc_no_space (r_conditions r)).
    + unfold timer_effects_of. simpl_task. unfold recovered_task; simpl_task. cbn [ScheduledTask_new t_conditions].
      rewrite Ec. by rewrite app_assoc.
  - injection H2 as <- <- <-. split_and!; try done.
    + split; [|done..]. intros Hok. by destruct (Hinv Hok).
    + unfold timer_effects_of. simpl_task. by rewrite !app_nil_r.
Qed.

(** What holds of the scheduler after [n] tasks were read. *)
Record tasks_read (config : SchedulerConfig) (n : nat) (s : RequestScheduler)
    (effects : gmap Gid (list TransitionEffect)) : Prop := {
  rd_config : rs_config s = config;
  rd_published : rs_published_snapshots s = ∅;
  rd_size : size (rs_tasks s) = n;
  rd_tasks : forall gid t, rs_tasks s !! gid = Some t ->
    t_gid t = gid /\ task_read t /\ default [] (effects !! gid) = timer_effects_of t;
  rd_effects : forall gid, rs_tasks s !! gid = None -> effects !! gid = None;
  rd_task_ids : forall id gid, rs_task_ids s !! id = Some gid <->
    exists t, rs_tasks s !! gid = Some t /\ t_task_id t = id;
  rd_highest : forall gid t, rs_tasks s !! gid = Some t ->
    exists highest, rs_highest_task_id s = Some highest /\ t_task_id t <= highest;
}.

Lemma push_timer_effects_lookup gid eff m g :
  default [] (push_timer_effects gid eff m !! g) =
  default [] (m !! g) ++ if decide (g = gid) then eff else [].
Proof.
  unfold push_timer_effects. destruct eff as [|e eff].
  - destruct (decide _); by rewrite app_nil_r.
  - destruct (decide (g = gid)) as [->|]; [by rewrite lookup_insert_eq|].
    by rewrite lookup_insert_ne, app_nil_r.
Qed.

Lemma push_timer_effects_None gid eff m g :
  g <> gid -> m !! g = None -> push_timer_effects gid eff m !! g = None.
Proof. intros Hne Hm. unfold push_timer_effects. destruct eff; [done|]. by rewrite lookup_insert_ne. Qed.

Lemma restore_task_Ok config n r s effects s' effects' :
  tasks_read config n s effects -> restore_task r s effects = Ok (s', effects') ->
  tasks_read config (S n) s' effects' /\ ids_le (rs_ids s) (rs_ids s').
Proof.
  intros [Hc Hp Hn Ht He Hid Hh] H. unfold restore_task in H.
  destruct (rs_tasks s !! r_gid r) eqn:Eg; cbn [is_some] in H; [done|].
  destruct (rs_task_ids s !! r_task_id r) eqn:Ei; cbn [is_some] in H; [done|].
  apply bind_Ok in H as ([] & _ & H). apply bind_Ok in H as ([] & Ev & H).
  apply bind_Ok in H as ([[t1 timer] ids1] & E1 & H). apply bind_Ok in H as ([[t2 probe] ids2] & E2 & H).
  destruct (recovered_timers_Ok _ _ _ _ _ _ _ _ _ Ev E1 E2) as (Hread & Hg & Hi & Heff & Hids).
  injection H as <- <-. split; [|done]. constructor; simpl_sched; try done.
  - by rewrite map_size_insert_None, Hn.
  - intros gid t. rewrite lookup_insert_Some. intros [[<- <-]|[Hne Hgt]]; rewrite !push_timer_effects_lookup.
    + rewrite !decide_True, (He _ Eg) by done. by split_and!.
    + rewrite !decide_False, !app_nil_r by done. by apply Ht.
  - intros gid [Hgn Hne]%lookup_insert_None. by apply push_timer_effects_None, push_timer_effects_None, He.
  - intros id gid. rewrite lookup_insert_Some, Hid. split.
    + intros [[<- <-]|[Hne (t & Hgt & <-)]]; [exists t2; by rewrite lookup_insert_eq|].
      exists t. rewrite lookup_insert_ne; [done|]. congruence.
    + intros (t & [[<- <-]|[Hne Hgt]]%lookup_insert_Some & <-); [by left|]. right. split; [|by eauto].
      intros E. rewrite E in Ei. assert (rs_task_ids s !! t_task_id t = Some gid) by (apply Hid; eauto). congruence.
  - intros gid t. rewrite lookup_insert_Some. intros [[<- <-]|[Hne Hgt]].
    + eexists. split; [done|]. rewrite Hi. destruct (rs_highest_task_id s); cbn; lia.
    + destruct (Hh _ _ Hgt) as (h & -> & ?). eexists. split; [done|]. cbn. lia.
Qed.

Lemma restore_tasks_Ok config tasks n s effects s' effects' :
  tasks_read config n s effects -> restore_tasks tasks s effects = Ok (s', effects') ->
  tasks_read config (n + List.length tasks) s' effects'.
Proof.
  revert n s effects. induction tasks as [|r tasks IH]; intros n s effects Hr H; cbn [restore_tasks] in H.
  { injection H as <- <-. by rewrite Nat.add_0_r. }
  apply bind_Ok in H as ([s1 effects1] & [Hr1 _]%(restore_task_Ok _ _ _ _ _ _ _ Hr) & H).
  apply (IH _ _ _ Hr1) in H. cbn [List.length]. by rewrite <- Nat.add_succ_comm.
Qed.

Lemma tasks_read_new config : tasks_read config 0 (RequestScheduler_new config) ∅.
Proof. by constructor; cbn; intros; rewrite ?lookup_empty in *; naive_solver. Qed.

(** ** Membership *)

Lemma check_memberships_Ok s entries gid class :
  check_memberships s entries = Ok tt -> (gid, class) ∈ entries ->
  exists t, rs_tasks s !! gid = Some t /\ ScheduledTask_queue_class t = Some class.
Proof.
  induction entries as [|[g c] entries IH]; intros H; [by intros ?%not_elem_of_nil|].
  cbn [check_memberships] in H. apply bind_Ok in H as (t & Et%ok_or_Ok & H).
  apply bind_Ok in H as (expected & Ec%ok_or_Ok & H). destruct (negb _) eqn:E; [done|].
  apply negb_false_iff, bool_decide_eq_true in E as ->.
  intros [[= -> ->]|Hin]%elem_of_cons; [by exists t|by apply IH].
Qed.

(** As many memberships as tasks, each naming a task: every task has one. *)
Lemma memberships_complete s m gid t :
  check_counts s m = Ok tt -> check_memberships s (btree_entries m) = Ok tt ->
  rs_tasks s !! gid = Some t ->
  exists c, m !! gid = Some c /\ ScheduledTask_queue_class t = Some c.
Proof.
  intros Hc Hm Ht.
  assert (Hsub : dom m ⊆ dom (rs_tasks s)).
  { intros g [c Hg]%elem_of_dom. apply elem_of_dom. apply elem_of_btree_entries in Hg.
    destruct (check_memberships_Ok _ _ _ _ Hm Hg) as (t' & ? & _). by exists t'. }
  assert (Hsize : size m = size (rs_tasks s)).
  { unfold check_counts in Hc. case_bool_decide as E; [lia|]. cbn [negb] in Hc.
    by destruct (head _); [|destruct (head _)]. }
  assert (dom m = dom (rs_tasks s)) as Hd.
  { apply set_subseteq_size_eq; [done|]. rewrite !size_dom. lia. }
  assert (is_Some (m !! gid)) as [c Hg] by (apply elem_of_dom; rewrite Hd; apply elem_of_dom; eauto).
  apply elem_of_btree_entries in Hg as Hg'. destruct (check_memberships_Ok _ _ _ _ Hm Hg') as (t' & ? & ?).
  exists c. split; congruence.
Qed.

(** ** Publication *)

(** The initial effects of one restored task: its timers, then its snapshot. *)
Definition restored_effects (s : RequestScheduler) (gid : Gid) : list TransitionEffect :=
  match rs_tasks s !! gid, rs_published_snapshots s !! gid with
  | Some t, Some sn => timer_effects_of t ++ [TransitionEffect.PublishSnapshot (t_task_id t) sn]
  | _, _ => []
  end.

Lemma publish_restored_Ok gids s timers effects s' timers' effects' :
  NoDup gids -> (forall gid, gid ∈ gids -> rs_published_snapshots s !! gid = None) ->
  (forall gid t, gid ∈ gids -> rs_tasks s !! gid = Some t ->
     t_gid t = gid /\ default [] (timers !! gid) = timer_effects_of t) ->
  publish_restored gids s timers effects = Ok (s', timers', effects') ->
  s' = s <| rs_published_snapshots := rs_published_snapshots s' |> /\
  (forall gid, gid ∉ gids -> rs_published_snapshots s' !! gid = rs_published_snapshots s !! gid /\
                             timers' !! gid = timers !! gid) /\
  (forall gid, gid ∈ gids -> timers' !! gid = None /\ exists t sn, rs_tasks s !! gid = Some t /\
     rs_published_snapshots s' !! gid = Some sn /\
     ScheduledTask_snapshot t (sc_retry_wait_holds_slot (rs_config s)) = Ok sn) /\
  effects' = effects ++ List.concat (restored_effects s' <$> gids).
Proof.
  revert s timers effects. induction gids as [|gid gids IH]; intros s timers effects Hnd Hp Ht H.
  { cbn [publish_restored] in H. injection H as <- <- <-. split_and!; [done|done|set_solver|].
    by rewrite app_nil_r. }
  cbn [publish_restored] in H. apply bind_Ok in H as (t & Et%ok_or_Ok & H).
  apply bind_Ok in H as (sn & Esn%map_err_Ok & H). apply NoDup_cons in Hnd as [Hni Hnd].
  apply IH in H as (Es & Hout & Hin & ->); [|done| |].
  2: { intros g Hg. simpl_sched. rewrite lookup_insert_ne by (by intros ->). apply Hp. by right. }
  2: { intros g t' Hg. simpl_sched. intros Hg'. destruct (Ht g t' (list_elem_of_further _ _ _ Hg) Hg').
       rewrite lookup_delete_ne; [done|]. by intros ->. }
  destruct (Hout gid Hni) as [Hpub Htim]. simpl_sched. rewrite lookup_insert_eq in Hpub.
  rewrite lookup_delete_eq in Htim. split_and!.
  - rewrite Es. reflexivity.
  - intros g [Hne Hg]%not_elem_of_cons. destruct (Hout g Hg) as [-> ->]. simpl_sched.
    by rewrite lookup_insert_ne, lookup_delete_ne.
  - intros g [->|Hg]%elem_of_cons; [by eauto 6|]. by apply Hin.
  - destruct (Ht gid t (list_elem_of_here _ _) Et) as [_ ->]. rewrite fmap_cons. cbn [List.concat].
    unfold restored_effects at 2. rewrite Hpub. replace (rs_tasks s') with (rs_tasks s) by (by rewrite Es).
    rewrite Et. by rewrite <- !app_assoc.
Qed.

(** ** The queued tasks *)

Lemma elem_of_queued_gids q gid : gid ∈ queued_gids q <-> exists class, gid ∈ SchedulerQueues_get q class.
Proof.
  unfold queued_gids. cbn. rewrite !elem_of_app. split.
  - intros [?|[?|[?|[?|[?|?%not_elem_of_nil]]]]]; [by eexists QueueClass.Waiting|by eexists QueueClass.Demoted
      |by eexists QueueClass.Paused|by eexists QueueClass.Active|by eexists QueueClass.Stopped|done].
  - intros [[] ?]; auto 7.
Qed.

Lemma NoDup_queued_gids q seen m : queues_read q seen m -> NoDup (queued_gids q).
Proof.
  intros [Hn Hm _]. unfold queued_gids.
  assert (Hd : forall c c' g, g ∈ SchedulerQueues_get q c -> g ∈ SchedulerQueues_get q c' -> c = c').
  { intros c c' g. rewrite !Hm. congruence. }
  assert (Hg : forall classes, NoDup classes -> NoDup (List.concat (SchedulerQueues_get q <$> classes)) /\
    forall g, g ∈ List.concat (SchedulerQueues_get q <$> classes) ->
              exists c, c ∈ classes /\ g ∈ SchedulerQueues_get q c).
  { induction classes as [|c classes IH]; intros Hc; [split; [constructor|by intros g ?%not_elem_of_nil]|].
    apply NoDup_cons in Hc as [Hc [IH1 IH2]%IH]. rewrite fmap_cons. cbn [List.concat]. split.
    - apply NoDup_app. split_and!; [apply Hn| |done]. intros g Hg (c' & Hc' & Hg')%IH2.
      by rewrite (Hd _ _ _ Hg Hg') in Hc.
    - intros g [Hg|(c' & ? & ?)%IH2]%elem_of_app; [exists c|exists c']; split; set_solver. }
  apply Hg. apply (bool_decide_eq_true_1 _). reflexivity.
Qed.

Lemma slots_idle m : (forall gid t, m !! gid = Some t -> t_slot t = SlotOwnership.None) -> slots m = 0%nat.
Proof.
  unfold slots. intros Hs. setoid_rewrite <- elem_of_map_to_list in Hs.
  induction (map_to_list m) as [|[gid t] l IH]; [done|]. cbn [fmap list_fmap snd]. rewrite filter_cons_False.
  - apply IH. intros g u ?. apply (Hs g). by right.
  - unfold owns_slot. rewrite (Hs gid t (list_elem_of_here _ _)). done.
Qed.

(** ** The checkpoint *)

(** The record that recovers a task. *)
Definition recovered_of (t : ScheduledTask) : RecoveredSchedulerTask :=
  mkRecoveredSchedulerTask (t_task_id t) (t_gid t) (t_state t) (t_generation t) (t_generation_started t)
    (t_desired_paused t) (t_conditions t) (t_slow_demotion_count t) (t_slow_slot t) (snd <$> t_retry_timer t)
    (t_host_key_challenge t) (t_error t) (t_stopped_status t).

Lemma restore_queues_orders max orders q seen m q' seen' m' :
  restore_queues max orders q seen m = Ok (q', seen', m') ->
  (forall class, class ∈ seen -> SchedulerQueues_get q' class = SchedulerQueues_get q class) /\
  forall order, order ∈ orders -> SchedulerQueues_get q' (qo_class order) = qo_order order.
Proof.
  revert q seen m. induction orders as [|order orders IH]; intros q seen m H; cbn [restore_queues] in H.
  { injection H as <- <- <-. split; [done|]. by intros order ?%not_elem_of_nil. }
  case_bool_decide as Hs; [done|]. destruct (_ <? _); [done|]. apply bind_Ok in H as (m1 & _ & [Hseen Hin]%IH).
  split.
  - intros class Hc. rewrite Hseen by set_solver. rewrite queues_get_put, bool_decide_false; [done|]. by intros ->.
  - intros o [->|?]%elem_of_cons; [|auto]. rewrite Hseen by set_solver. by rewrite queues_get_put, bool_decide_true.
Qed.

Lemma validate_recovered_retry r max :
  validate_recovered_task r max = Ok tt -> r_state r <> TaskState.RetryWait -> r_retry_at r = None.
Proof.
  unfold validate_recovered_task. intros H Hne. destruct (negb _) in H; [done|].
  rewrite (bool_decide_false _ Hne) in H. by destruct (r_retry_at r).
Qed.

Lemma recovered_roundtrip r ids t1 eff1 ids1 t2 eff2 ids2 max :
  validate_recovered_task r max = Ok tt ->
  recovered_timer r (recovered_task r) ids = Ok (t1, eff1, ids1) ->
  recovered_probe r t1 ids1 = Ok (t2, eff2, ids2) -> recovered_of t2 = r.
Proof.
  intros Hv H1 H2. pose proof (validate_recovered_retry _ _ Hv) as Hr.
  assert (recovered_of t1 = r) as <-.
  { assert (forall rt sr, snd <$> rt = r_retry_at r -> recovered_of (recovered_task r
      <| t_retry_timer := rt |> <| t_slow_readmission := sr |>) = r) as Hof.
    { intros rt sr E. destruct r. unfold recovered_of, recovered_task. simpl_task. cbn in E. by rewrite E. }
    unfold recovered_timer in H1. destruct (r_state r) eqn:Es;
      try (injection H1 as <- <- <-; apply (Hof None None); by rewrite Hr).
    - apply bind_Ok in H1 as (at_ & _ & H1). apply bind_Ok in H1 as ([id ids'] & E & H1). injection H1 as <- <- <-.
      apply (Hof None (Some _)). by rewrite Hr.
    - apply bind_Ok in H1 as (at_ & Eat%ok_or_Ok & H1). apply bind_Ok in H1 as ([id ids'] & E & H1).
      injection H1 as <- <- <-. by apply (Hof (Some _) None). }
  unfold recovered_probe in H2. destruct (condition ← _; _) in H2.
  - by apply bind_Ok in H2 as ([id ids'] & E & [= <- <- <-]).
  - by injection H2 as <- <- <-.
Qed.

Lemma restore_tasks_recovered tasks s effects s' effects' :
  restore_tasks tasks s effects = Ok (s', effects') ->
  (forall gid t, rs_tasks s !! gid = Some t -> rs_tasks s' !! gid = Some t) /\
  forall r, r ∈ tasks -> exists t, rs_tasks s' !! r_gid r = Some t /\ recovered_of t = r.
Proof.
  revert s effects. induction tasks as [|r tasks IH]; intros s effects H; cbn [restore_tasks] in H.
  { injection H as <- <-. split; [done|]. by intros r ?%not_elem_of_nil. }
  apply bind_Ok in H as ([s1 effects1] & H1 & [Hold Hin]%IH). unfold restore_task in H1.
  destruct (rs_tasks s !! r_gid r) eqn:Eg; cbn [is_some] in H1; [done|].
  destruct (rs_task_ids s !! r_task_id r); cbn [is_some] in H1; [done|].
  apply bind_Ok in H1 as ([] & _ & H1). apply bind_Ok in H1 as ([] & Ev & H1).
  apply bind_Ok in H1 as ([[t1 timer] ids1] & E1 & H1). apply bind_Ok in H1 as ([[t2 probe] ids2] & E2 & H1).
  injection H1 as <- <-. split.
  - intros gid t Ht. apply Hold. simpl_sched. rewrite lookup_insert_ne; [done|]. congruence.
  - intros r' [->|?]%elem_of_cons; [|auto]. exists t2. split; [|by eapply recovered_roundtrip].
    apply Hold. simpl_sched. by rewrite lookup_insert_eq.
Qed.

(** ** The restored scheduler *)

Section restored.
Context (config : SchedulerConfig) (batch : SchedulerRestoreBatch).
Context (q : SchedulerQueues) (seen : gset QueueClass) (m : gmap Gid QueueClass).
Context (s1 s : RequestScheduler) (timers timers' : gmap Gid (list TransitionEffect)) (effects : list TransitionEffect).
Hypothesis Hq : queues_read q seen m.
Hypothesis Hs1 : tasks_read config (List.length (rb_tasks batch)) s1 timers.
Hypothesis Hcount : check_counts s1 m = Ok tt.
Hypothesis Hmem : check_memberships s1 (btree_entries m) = Ok tt.
Hypothesis Hlimit : vec_len (rb_tasks batch) <= sc_max_tasks config.
Hypothesis Hpub : publish_restored (queued_gids q) (s1 <| rs_queues := q |>) timers [] = Ok (s, timers', effects).

(** Publication changes the published snapshots only. *)
Lemma restored_published :
  s = s1 <| rs_queues := q |> <| rs_published_snapshots := rs_published_snapshots s |> /\
  (forall gid, gid ∉ queued_gids q -> rs_published_snapshots s !! gid = None) /\
  (forall gid, gid ∈ queued_gids q -> exists t sn, rs_tasks s1 !! gid = Some t /\
     rs_published_snapshots s !! gid = Some sn /\ ScheduledTask_snapshot t (sc_retry_wait_holds_slot config) = Ok sn) /\
  effects = List.concat (restored_effects s <$> queued_gids q).
Proof.
  pose proof (rd_published _ _ _ _ Hs1) as Hp. pose proof Hpub as H.
  apply publish_restored_Ok in H as (Es & Hout & Hin & Heff); simpl_sched; cycle 1.
  { by eapply NoDup_queued_gids. }
  { intros gid _. by rewrite Hp. }
  { intros gid t _ Hgt. by destruct (rd_tasks _ _ _ _ Hs1 _ _ Hgt) as (? & _ & ?). }
  split_and!; [done| | |done].
  - intros gid Hg. destruct (Hout _ Hg) as [-> _]. by rewrite Hp.
  - intros gid Hg. destruct (Hin _ Hg) as (_ & t & sn & ? & ? & Hsn). rewrite (rd_config _ _ _ _ Hs1) in Hsn. eauto.
Qed.

Lemma restored_tasks : rs_tasks s = rs_tasks s1.
Proof. destruct restored_published as [-> _]. done. Qed.
Lemma restored_queues : rs_queues s = q.
Proof. destruct restored_published as [-> _]. done. Qed.

Lemma restored_queued gid : gid ∈ queued_gids q <-> is_Some (rs_tasks s1 !! gid).
Proof.
  rewrite elem_of_queued_gids. setoid_rewrite (qr_members _ _ _ Hq). split.
  - intros [c Hc]. apply elem_of_btree_entries, (check_memberships_Ok _ _ _ _ Hmem) in Hc as (t & ? & _). by exists t.
  - intros [t Hgt]. destruct (memberships_complete _ _ _ _ Hcount Hmem Hgt) as (c & ? & _). by exists c.
Qed.

Lemma restored_snapshot gid t :
  rs_tasks s1 !! gid = Some t -> exists sn,
    rs_published_snapshots s !! gid = Some sn /\ sn_gid sn = gid /\ publishable sn /\ conditions_ok t.
Proof.
  intros Hgt. destruct restored_published as (_ & _ & Hin & _), (rd_tasks _ _ _ _ Hs1 _ _ Hgt) as (Eg & _).
  destruct (Hin gid) as (t' & sn & Et & Esn & Hsn); [apply restored_queued; eauto|]. assert (t' = t) as -> by congruence.
  apply ScheduledTask_snapshot_Ok in Hsn as (? & ? & _ & _ & _ & _ & _ & ?). exists sn. split_and!; try done; congruence.
Qed.

Lemma restored_no_snapshot gid sn : rs_published_snapshots s !! gid = Some sn -> is_Some (rs_tasks s1 !! gid).
Proof.
  intros Hsn. apply restored_queued. destruct (decide (gid ∈ queued_gids q)) as [|Hnq]; [done|].
  destruct restored_published as (_ & Hout & _). by rewrite (Hout _ Hnq) in Hsn.
Qed.

Lemma restored_wf : wf s.
Proof.
  destruct Hs1 as [Hc Hp Hn Ht He Hid Hh]. pose proof restored_tasks as Etasks. pose proof restored_queues as Eq.
  assert (rs_task_ids s = rs_task_ids s1) as Eids by by destruct restored_published as [-> _].
  assert (rs_highest_task_id s = rs_highest_task_id s1) as Ehigh by by destruct restored_published as [-> _].
  assert (rs_config s = config) as Ec by by destruct restored_published as [-> _].
  constructor; unfold tasks_ok, RequestScheduler_len; rewrite ?active_slot_count_slots, ?Etasks, ?Eids, ?Ehigh, ?Eq, ?Ec.
  - intros gid t Hgt. destruct (restored_snapshot _ _ Hgt) as (sn & _ & _ & _ & ?), (Ht _ _ Hgt) as (? & [] & _). auto.
  - done.
  - done.
  - apply (qr_nodup _ _ _ Hq).
  - intros class gid. rewrite (qr_members _ _ _ Hq). split.
    + by intros Hm%elem_of_btree_entries%(check_memberships_Ok _ _ _ _ Hmem).
    + intros (t & Hgt & Hcl). destruct (memberships_complete _ _ _ _ Hcount Hmem Hgt) as (c & ? & ?). congruence.
  - intros gid. split; [intros [sn Hsn]; by eapply restored_no_snapshot|].
    intros [t Hgt]. destruct (restored_snapshot _ _ Hgt) as (sn & ? & _). by exists sn.
  - intros gid sn Hsn. destruct (restored_no_snapshot _ _ Hsn) as [t Hgt].
    destruct (restored_snapshot _ _ Hgt) as (sn' & ? & ? & ? & _). by simplify_eq.
  - rewrite Hn. exact Hlimit.
  - rewrite slots_idle; [lia|]. intros gid t Hgt. by destruct (Ht _ _ Hgt) as (_ & [] & _).
Qed.
End restored.

(** Everything a successful recovery has established. *)
Record restored (config : SchedulerConfig) (batch : SchedulerRestoreBatch) (s : RequestScheduler)
    (plan : SchedulerRestorePlan) : Prop := {
  re_wf : wf s;
  re_config : rs_config s = config;
  re_size : size (rs_tasks s) = List.length (rb_tasks batch);
  re_tasks : forall r, r ∈ rb_tasks batch -> exists t, rs_tasks s !! r_gid r = Some t /\ recovered_of t = r;
  re_queues : forall order, order ∈ rb_queues batch ->
    SchedulerQueues_get (rs_queues s) (qo_class order) = qo_order order;
  re_effects : rp_effects plan = List.concat (restored_effects s <$> queued_gids (rs_queues s));
  re_bound : SchedulerRestorePlan_is_bound_to plan s = true;
  re_idle : forall gid t, rs_tasks s !! gid = Some t -> task_read t;
}.

Lemma restore_Ok config batch s plan :
  RequestScheduler_restore config batch = Ok (s, plan) -> restored config batch s plan.
Proof.
  unfold RequestScheduler_restore. destruct (N.ltb_spec (sc_max_tasks config) (vec_len (rb_tasks batch))); [done|].
  intros Hr. apply bind_Ok in Hr as ([[q seen] m] & Hq & Hr). destruct (restore_queues_orders _ _ _ _ _ _ _ _ Hq) as [_ Ho].
  apply (restore_queues_Ok _ _ _ _ _ _ _ _ queues_read_empty) in Hq. destruct (missing_class seen); [done|].
  apply bind_Ok in Hr as ([s1 timers] & Hs1 & Hr). destruct (restore_tasks_recovered _ _ _ _ _ Hs1) as [_ Hrec].
  apply (restore_tasks_Ok config _ _ _ _ _ _ (tasks_read_new config)) in Hs1. cbn [Nat.add] in Hs1.
  apply bind_Ok in Hr as ([] & Hcount & Hr). apply bind_Ok in Hr as ([] & Hmem & Hr).
  apply bind_Ok in Hr as ([[s2 timers'] effects] & Hpub & Hr). injection Hr as <- <-.
  pose proof (restored_published config batch q seen m s1 s2 timers timers' effects Hq Hs1 Hpub) as (Es & _ & _ & Heff).
  constructor.
  - by eapply restored_wf.
  - rewrite Es. apply Hs1.
  - rewrite Es. apply Hs1.
  - rewrite Es. exact Hrec.
  - rewrite Es. exact Ho.
  - cbn [rp_effects]. rewrite Heff. replace (rs_queues s2) with q by (by rewrite Es). done.
  - unfold SchedulerRestorePlan_is_bound_to. cbn. by rewrite N.eqb_refl, bool_decide_true.
  - rewrite Es. intros gid t Hgt. by destruct (rd_tasks _ _ _ _ Hs1 _ _ Hgt) as (_ & ? & _).
Qed.

(** A checkpoint that is accepted names no task twice. *)
Lemma restore_tasks_nodup_from tasks s effects s' effects' :
  restore_tasks tasks s effects = Ok (s', effects') ->
  NoDup tasks /\ forall r, r ∈ tasks -> rs_tasks s !! r_gid r = None.
Proof.
  revert s effects. induction tasks as [|r tasks IH]; intros s effects H; cbn [restore_tasks] in H.
  { split; [constructor|]. by intros r ?%not_elem_of_nil. }
  apply bind_Ok in H as ([s1 effects1] & H1 & [Hnd Hnone]%IH). unfold restore_task in H1.
  destruct (rs_tasks s !! r_gid r) eqn:Eg; cbn [is_some] in H1; [done|].
  destruct (rs_task_ids s !! r_task_id r); cbn [is_some] in H1; [done|].
  apply bind_Ok in H1 as ([] & _ & H1). apply bind_Ok in H1 as ([] & _ & H1).
  apply bind_Ok in H1 as ([[t1 timer] ids1] & _ & H1). apply bind_Ok in H1 as ([[t2 probe] ids2] & _ & H1).
  injection H1 as <- <-. simpl_sched. setoid_rewrite lookup_insert_None in Hnone. split.
  - constructor; [|done]. intros Hin. by destruct (Hnone _ Hin).
  - intros r' [->|Hin]%elem_of_cons; [done|]. by destruct (Hnone _ Hin).
Qed.

Lemma restore_tasks_nodup config batch s plan :
  RequestScheduler_restore config batch = Ok (s, plan) -> NoDup (rb_tasks batch).
Proof.
  unfold RequestScheduler_restore. destruct (_ <? _); [done|]. intros Hr.
  apply bind_Ok in Hr as ([[q seen] m] & _ & Hr). destruct (missing_class seen); [done|].
  by apply bind_Ok in Hr as ([s1 timers] & [Hnd _]%restore_tasks_nodup_from & _).
Qed.
