(* ===== verification/SchedulerReach.v ===== *)
(** * Runs of the scheduler

    The operations of the scheduler as one step function, what one step can
    do, and the runs that start from an empty scheduler. *)

From S2P Require Import Prelude Ids Errors State Snapshot PersistedDelay CommandKinds Transition Command.
From S2P Require Import Scheduler SchedulerCommands SchedulerEvents SchedulerInv SchedulerPlans.
From S2P Require Import SchedulerHandlers SchedulerAcks SchedulerOps SchedulerAdmission SchedulerWf.
From Stdlib Require Import Ascii String.
Open Scope list_scope.

Inductive SchedulerOp : Set :=
| OpCommand (command : SchedulerCommand) (at_ : MonotonicInstant)
| OpEvent (envelope : TaskEventEnvelope) (at_ : MonotonicInstant)
| OpAdmit (at_ : MonotonicInstant)
| OpConfigure (retry_wait_holds_slot : bool) (policy : SlowReadmissionPolicy).

Definition run_op (op : SchedulerOp) : Sched SchedulerOutcome :=
  match op with
  | OpCommand command at_ => execute_command_at command at_
  | OpEvent envelope at_ => handle_event_at envelope at_
  | OpAdmit at_ => admit_next_at at_
  | OpConfigure holds policy => fun self => (configure_queue_policies self holds policy, Ok SchedulerOutcome_default)
  end.

Definition op_at (op : SchedulerOp) : MonotonicInstant :=
  match op with
  | OpCommand _ at_ | OpEvent _ at_ | OpAdmit at_ => at_
  | OpConfigure _ _ => 0
  end.

Definition op_input (op : SchedulerOp) : Input :=
  match op with
  | OpCommand command _ => FromCommand (SchedulerCommand_kind command)
  | OpEvent envelope _ => FromEvent (te_task_id envelope) (te_event envelope)
  | OpAdmit _ | OpConfigure _ _ => FromAdmission
  end.

(** An ordinary admission moves the demoted tasks that are ready up by one. *)
Definition advance_tasks (ordinary : bool) (s : RequestScheduler) : RequestScheduler :=
  if ordinary then s <| rs_tasks := advance_slow_position <$> rs_tasks s |> else s.

(** ** What one step does *)

(** A reordering of one queue, written in full. *)
Record reordered (s : RequestScheduler) (class : QueueClass) (order : list Gid) (out : SchedulerOutcome) : Prop := {
  ro_transition : o_transition out = None;
  ro_deletion : o_deletion out = None;
  ro_effects : exists gid t, rs_tasks s !! gid = Some t /\ o_effects out =
    [TransitionEffect.PersistQueueTransition (t_task_id t) gid (Some class) (Some class) (t_desired_paused t)
       (t_slow_demotion_count t) (t_slow_slot t) [mkQueueOrder class order]];
  ro_guard : class = QueueClass.Stopped -> pending_stopped_deletion s = None;
}.

Inductive op_step (s : RequestScheduler) (op : SchedulerOp)
    : RequestScheduler * result SchedulerError SchedulerOutcome -> Prop :=
| op_err e : op_step s op (s, Err e)
| op_inert out : inert out -> op_step s op (s, Ok out)
| op_plan p ordinary :
    plan_ok (op_input op) s p -> op_step s op (advanced ordinary (run_plan p (op_at op) s))
| op_add task_id gid paused conditions pos ups pub out :
    let o := ScheduledTask_new task_id gid paused conditions in
    let u := new_task task_id gid paused conditions in
    allows (op_input op) (new_action paused) = true ->
    rs_tasks s !! gid = None -> rs_task_ids s !! task_id = None ->
    (forall highest, rs_highest_task_id s = Some highest -> highest < task_id) ->
    planned s o (Some u) false (new_action paused) (op_at op)
      [TransitionEffect.PersistTask task_id gid (new_class paused) pos paused 0 conditions] true ups pub out ->
    op_step s op
      (commit_action o (Some u) ups pub (rs_ids s) s <| rs_highest_task_id := Some task_id |>, Ok out)
| op_reorder class order out :
    reordered s class order out ->
    op_step s op (s <| rs_queues := SchedulerQueues_put (rs_queues s) class order |>, Ok out)
| op_configure c :
    op_step s op (s <| rs_config := c |>, Ok SchedulerOutcome_default).

Lemma handled_op s op r : handled s (plan_ok (op_input op) s) (op_at op) r -> op_step s op r.
Proof.
  intros [e|out|p]; [apply op_err|by apply op_inert|]. rewrite <- advanced_false. by apply op_plan.
Qed.

Lemma reorder_op s op gid class pos :
  (class = QueueClass.Stopped -> pending_stopped_deletion s = None) ->
  op_step s op (queue_effects_for_reorder gid class pos s).
Proof.
  intros Hg. unfold queue_effects_for_reorder, get_self, lift, throw, modify, mret, sched_ret, mbind, sched_bind.
  destruct (_ <=? pos); [constructor|]. destruct (position gid _) as [n|]; [|constructor]. cbn [ok_or].
  destruct (_ =? pos); [by constructor|]. destruct (rs_tasks s !! gid) as [t|] eqn:Et; [|constructor]. cbn [ok_or].
  unfold SchedulerOutcome_checked. destruct (_ <? _); [constructor|]. eapply op_reorder.
  constructor; try done. by eexists gid, t.
Qed.

Lemma change_position_op s op gid pos : op_step s op (change_position gid pos s).
Proof.
  unfold change_position, get_self, lift, throw, mbind, sched_bind.
  destruct (task_clone s gid) as [t|]; [|constructor]. destruct (reject_pending _ _); [|constructor].
  destruct (ok_or _ _) as [class|]; [|constructor].
  destruct (if class == QueueClass.Stopped then _ else _) eqn:E; [constructor|]. apply reorder_op.
  intros ->. by rewrite bool_decide_true in E.
Qed.

Lemma add_validated_task_op s op task_id gid paused conditions pos :
  allows (op_input op) (new_action paused) = true ->
  op_step s op (add_validated_task task_id gid paused conditions pos (op_at op) s).
Proof.
  intros Ha. destruct (add_validated_task_cases s task_id gid paused conditions pos (op_at op))
    as [[e ->]|(ups & pub & out & ? & ? & ? & _ & _ & ? & ->)]; [constructor|]. by eapply op_add.
Qed.

Lemma run_op_step s op : tasks_ok s -> op_step s op (run_op op s).
Proof.
  intros Hk. destruct op as [command at_|envelope at_|at_|holds policy]; cbn [run_op].
  - destruct command; cbn [execute_command_at];
      [ apply (add_validated_task_op s (OpCommand _ at_)); by destruct desired_paused
      | apply (add_validated_task_op s (OpCommand _ at_)); by destruct desired_paused
      | apply handled_op, pause_handled | apply handled_op, resume_handled
      | apply handled_op, approve_host_key_handled | apply handled_op, apply_option_patch_handled
      | apply handled_op, begin_source_replacement_handled | apply handled_op, commit_source_replacement_handled
      | apply handled_op, remove_handled | apply handled_op, remove_stopped_result_handled
      | apply change_position_op | apply op_err ]; done.
  - by apply handled_op, handle_event_at_handled.
  - destruct (admit_next_cases s at_ Hk) as [[e ->]|(p & ordinary & ? & ->)]; [constructor|].
    by apply (op_plan s (OpAdmit at_)).
  - apply op_configure.
Qed.

(** The same, with the successful plans committed. *)
Inductive op_result (s : RequestScheduler) (op : SchedulerOp)
    : RequestScheduler -> result SchedulerError SchedulerOutcome -> Prop :=
| res_err e : op_result s op s (Err e)
| res_inert out : inert out -> op_result s op s (Ok out)
| res_plan p ups pub out ordinary :
    plan_ok (op_input op) s p ->
    planned s (p_original p) (p_updated p) true (p_action p) (op_at op) (p_effects p) (p_publish p) ups pub out ->
    op_result s op
      (advance_tasks ordinary (commit_action (p_original p) (p_updated p) ups pub (p_ids p) s)) (Ok out)
| res_add task_id gid paused conditions pos ups sn out :
    let o := ScheduledTask_new task_id gid paused conditions in
    let u := new_task task_id gid paused conditions in
    allows (op_input op) (new_action paused) = true ->
    rs_tasks s !! gid = None -> rs_task_ids s !! task_id = None ->
    (forall highest, rs_highest_task_id s = Some highest -> highest < task_id) ->
    planned s o (Some u) false (new_action paused) (op_at op)
      [TransitionEffect.PersistTask task_id gid (new_class paused) pos paused 0 conditions] true ups (Some sn) out ->
    op_result s op
      (commit_action o (Some u) ups (Some sn) (rs_ids s) s <| rs_highest_task_id := Some task_id |>) (Ok out)
| res_reorder class order out :
    reordered s class order out ->
    op_result s op (s <| rs_queues := SchedulerQueues_put (rs_queues s) class order |>) (Ok out)
| res_configure c :
    op_result s op (s <| rs_config := c |>) (Ok SchedulerOutcome_default).

Lemma op_step_result s op r : op_step s op r -> op_result s op r.1 r.2.
Proof.
  intros [e|out|p ordinary Hp|task_id gid paused conditions pos ups pub out o u ? ? ? ? Hpl|class order out|c];
    try by econstructor.
  - unfold run_plan. rewrite finish_action_eq, (pk_present _ _ _ Hp).
    destruct (plan_action _ _ _ _ _ _ _ _) as [[[ups pub] out]|e] eqn:E; [|by constructor].
    cbn [advanced fst snd]. apply plan_action_Ok in E.
    replace (if ordinary then _ else _) with
      (advance_tasks ordinary (commit_action (p_original p) (p_updated p) ups pub (p_ids p) s)) by done.
    by apply res_plan.
  - destruct (pl_published _ _ _ _ _ _ _ _ _ _ _ Hpl) as (? & sn & _ & -> & _).
    by eapply res_add.
Qed.

Lemma run_op_result s op s' r : wf s -> run_op op s = (s', r) -> op_result s op s' r.
Proof. intros Hw E. pose proof (op_step_result _ _ _ (run_op_step s op (wf_tasks _ Hw))) as H. by rewrite E in H. Qed.

(** ** The invariant of runs *)

Lemma run_op_wf op s : wf s -> wf (run_op op s).1.
Proof.
  intros Hw. pose proof (wf_tasks _ Hw) as Hk. destruct op as [command at_|envelope at_|at_|holds policy]; cbn [run_op].
  - destruct command; cbn [execute_command_at];
      [ by apply add_validated_task_wf | by apply add_validated_task_wf
      | by eapply handled_wf, pause_handled | by eapply handled_wf, resume_handled
      | by eapply handled_wf, approve_host_key_handled | by eapply handled_wf, apply_option_patch_handled
      | by eapply handled_wf, begin_source_replacement_handled
      | by eapply handled_wf, commit_source_replacement_handled
      | by eapply handled_wf, remove_handled | by eapply handled_wf, remove_stopped_result_handled
      | by apply change_position_wf | done ].
  - by eapply handled_wf, handle_event_at_handled.
  - by apply admit_next_wf.
  - by destruct Hw.
Qed.

(** The states and answers of a sequence of operations. *)
Fixpoint run_ops (ops : list SchedulerOp) (s : RequestScheduler)
    : RequestScheduler * list (SchedulerOp * result SchedulerError SchedulerOutcome) :=
  match ops with
  | [] => (s, [])
  | op :: ops =>
      let '(s1, r) := run_op op s in
      let '(s2, log) := run_ops ops s1 in
      (s2, (op, r) :: log)
  end.

Lemma run_ops_wf ops s : wf s -> wf (run_ops ops s).1.
Proof.
  revert s. induction ops as [|op ops IH]; intros s Hw; [done|]. cbn [run_ops].
  pose proof (run_op_wf op s Hw) as Hw1. destruct (run_op op s) as [s1 r]. specialize (IH s1 Hw1).
  by destruct (run_ops ops s1).
Qed.
