(* ===== verification/SchedulerTrace.v ===== *)
(** * Traces of the scheduler

    Runs of the scheduler from a fresh or a recovered state, the abstract life
    cycle they refine, and the ordering of the effects they ask for. *)

From S2P Require Import Prelude Ids Errors State Snapshot PersistedDelay CommandKinds Transition Command.
From S2P Require Import Scheduler SchedulerCommands SchedulerEvents SchedulerRestore SchedulerInv.
From S2P Require Import SchedulerPlans SchedulerHandlers SchedulerOps SchedulerAdmission SchedulerWf.
From S2P Require Import SchedulerRestoreWf SchedulerReach.
From Stdlib Require Import Ascii String.
Open Scope list_scope.

(** ** Traces *)

Inductive started : RequestScheduler -> Prop :=
| started_new config : started (RequestScheduler_new config)
| started_restored config batch s plan :
    RequestScheduler_restore config batch = Ok (s, plan) -> started s.

Definition Log : Set := list (SchedulerOp * result SchedulerError SchedulerOutcome).

(** [trace s log]: the operations of [log] lead to [s]. *)
Inductive trace : RequestScheduler -> Log -> Prop :=
| trace_start s : started s -> trace s []
| trace_step s log op s' r : trace s log -> run_op op s = (s', r) -> trace s' (log ++ [(op, r)]).

Lemma started_wf s : started s -> wf s.
Proof. intros [config|config batch s' plan H]; [apply wf_new|]. by apply restore_Ok in H as []. Qed.

Lemma trace_wf s log : trace s log -> wf s.
Proof. induction 1 as [s H|s log op s' r _ IH E]; [by apply started_wf|]. apply (run_op_wf op) in IH. by rewrite E in IH. Qed.

Lemma trace_op s log op s' r : trace s log -> run_op op s = (s', r) -> op_result s op s' r.
Proof. intros Ht. apply run_op_result. by eapply trace_wf. Qed.

(** The effects asked for so far. *)
Definition asked (log : Log) (e : TransitionEffect) : Prop :=
  exists op out, (op, Ok out) ∈ log /\ e ∈ o_effects out.

Lemma asked_snoc log op r e :
  asked (log ++ [(op, r)]) e <-> asked log e \/ exists out, r = Ok out /\ e ∈ o_effects out.
Proof.
  unfold asked. split.
  - intros (op' & out & [?|[= -> <-]%list_elem_of_singleton]%elem_of_app & ?); [left; eauto|right; eauto].
  - intros [(op' & out & ? & ?)|(out & -> & ?)]; eexists _, _; rewrite elem_of_app, list_elem_of_singleton; eauto.
Qed.

(** The effects of a committed plan. *)
Lemma persist_effects_Ok s o u present action old new ups eff eff' :
  persist_effects s o u present action old new ups eff = Ok eff' ->
  eff' = eff \/ exists e, eff' ≡ₚ e :: eff /\
    ((exists from to desired count slot orders, e = TransitionEffect.PersistQueueTransition (t_task_id o) (t_gid o)
        from to desired count slot orders) \/
     exists generation status error from to desired count slot orders,
       e = TransitionEffect.PersistTerminal (t_task_id o) (t_gid o) generation status error from to desired count
             slot orders).
Proof.
  unfold persist_effects. intros H. destruct (terminal_persistence o u) as [[[g st] er]|].
  - apply bind_Ok in H as (from & _ & H). apply bind_Ok in H as (to & _ & H). destruct (_ || _); [done|].
    injection H as <-. right. eexists. split; [symmetry; apply Permutation_cons_append|]. right. by do 9 eexists.
  - destruct (_ && _); [|by left; congruence]. apply bind_Ok in H as (orders & _ & H). injection H as <-. right.
    eexists. split; [|left; by do 6 eexists].
    destruct action; try reflexivity; symmetry; apply Permutation_cons_append.
Qed.

Lemma planned_effect s o u present action at_ eff publish ups pub out e :
  planned s o u present action at_ eff publish ups pub out -> e ∈ o_effects out ->
  e ∈ eff \/ TransitionEffect_kind e = TransitionEffectKind.PersistQueueTransition \/
  TransitionEffect_kind e = TransitionEffectKind.PersistTerminal \/
  exists sn, pub = Some sn /\ e = TransitionEffect.PublishSnapshot (t_task_id o) sn.
Proof.
  intros Hp. destruct (pl_effects _ _ _ _ _ _ _ _ _ _ _ Hp) as (eff1 & He & ->). rewrite elem_of_app.
  intros [Hin|Hin]; [|destruct pub; set_solver].
  apply persist_effects_Ok in He as [->|(e' & Hperm & He)]; [by left|]. rewrite Hperm in Hin.
  apply elem_of_cons in Hin as [->|Hin]; [|by left]. right.
  destruct He as [(? & ? & ? & ? & ? & ? & ->)|(? & ? & ? & ? & ? & ? & ? & ? & ? & ->)]; auto.
Qed.

(** ** The life cycle

    Abstractly the scheduler is a map from tasks to states; the transition
    contract says which moves an input may make. *)

Definition lifecycle (s : RequestScheduler) : gmap Gid TaskState := t_state <$> rs_tasks s.

Inductive life_step (op : SchedulerOp) (m : gmap Gid TaskState)
    : SchedulerOutcome -> gmap Gid TaskState -> Prop :=
| life_quiet out :
    o_deletion out = None ->
    (forall tr, o_transition out = Some tr -> st_to tr = st_from tr /\ ignored_reason (st_reason tr) = true) ->
    life_step op m out m
| life_move out tr action :
    let contract := transition_contract (st_from tr) action in
    (m !! st_gid tr = Some (st_from tr) \/ m !! st_gid tr = None /\ st_from tr = TaskState.Accepted) ->
    allows (op_input op) action = true -> moves (ct_kind contract) = true ->
    st_to tr ∈ ct_targets contract -> st_reason tr = ct_reason contract ->
    o_transition out = Some tr -> o_deletion out = None ->
    life_step op m out (<[st_gid tr := st_to tr]> m)
| life_delete out del action :
    let contract := transition_contract (td_from del) action in
    m !! td_gid del = Some (td_from del) ->
    allows (op_input op) action = true -> ct_kind contract = TransitionContractKind.Delete ->
    td_reason del = ct_reason contract ->
    o_transition out = None -> o_deletion out = Some del ->
    life_step op m out (delete (td_gid del) m).

Lemma contract_outcome_Ok contract o u at_ tr del :
  contract_outcome contract o u at_ = Ok (tr, del) ->
  (moves (ct_kind contract) = true /\ exists t, u = Some t /\ t_state t ∈ ct_targets contract /\ del = None /\
     tr = Some (mkStateTransition (t_task_id t) (t_gid t) (t_generation t) (t_state o) (t_state t)
                  (ct_reason contract) at_)) \/
  (ct_kind contract = TransitionContractKind.Delete /\ u = None /\ tr = None /\
     del = Some (mkTaskDeletion (t_task_id o) (t_gid o) (t_generation o) (t_state o) (ct_reason contract) at_)).
Proof.
  unfold contract_outcome. intros H. destruct (ct_kind contract); try discriminate H.
  1, 2: left; split; [done|]; apply bind_Ok in H as (t & ->%ok_or_Ok & H); destruct (negb _) eqn:E; [done|];
    apply negb_false_iff, contains_true in E; injection H as <- <-; by eexists.
  right. destruct u; cbn [is_some] in H; [done|]. by injection H as <- <-.
Qed.

Lemma lifecycle_advance ordinary s : lifecycle (advance_tasks ordinary s) = lifecycle s.
Proof.
  destruct ordinary; [|done]. unfold lifecycle. cbn [advance_tasks]. simpl_sched. rewrite <- map_fmap_compose.
  apply map_fmap_ext. intros gid t _. unfold compose, advance_slow_position. by destruct (t_slow_readmission_ready t).
Qed.

Lemma lifecycle_commit o u ups pub ids s :
  lifecycle (commit_action o u ups pub ids s) =
  match u with Some t => <[t_gid t := t_state t]> (lifecycle s) | None => delete (t_gid o) (lifecycle s) end.
Proof. unfold lifecycle. rewrite commit_tasks. destruct u; [apply fmap_insert|apply fmap_delete]. Qed.

Lemma op_result_life s op s' out :
  wf s -> op_result s op s' (Ok out) -> life_step op (lifecycle s) out (lifecycle s').
Proof.
  intros Hw H. inversion H as [|? (Hd & _ & Ht) | p ups pub ? ordinary Hok Hpl
    | task_id gid paused conditions pos ups sn ? o u Ha Hn _ _ Hpl | class order ? [Ht Hd _ _] | c]; subst.
  - apply life_quiet; [done|]. intros tr E. by rewrite E in Ht.
  - rewrite lifecycle_advance, lifecycle_commit. pose proof (pk_lookup _ _ _ Hok) as Hl.
    assert (lifecycle s !! t_gid (p_original p) = Some (t_state (p_original p))) as Hm
      by (unfold lifecycle; by rewrite lookup_fmap, Hl).
    destruct (contract_outcome_Ok _ _ _ _ _ _ (pl_outcome _ _ _ _ _ _ _ _ _ _ _ Hpl))
      as [(Hk & t & Eu & Hin & Hdel & Htr)|(Hk & Eu & Htr & Hdel)]; rewrite Eu.
    + pose proof (pk_updated _ _ _ Hok) as Hu. rewrite Eu in Hu. destruct Hu as (Eg & _).
      eapply (life_move _ _ _ (mkStateTransition _ _ _ _ _ _ _)); eauto; try apply Hok; try done. cbn. rewrite Eg. by left.
    + eapply (life_delete _ _ _ (mkTaskDeletion _ _ _ _ _ _)); eauto; try apply Hok; done.
  - replace (lifecycle (_ <| rs_highest_task_id := _ |>)) with (lifecycle (commit_action o (Some u) ups (Some sn)
      (rs_ids s) s)) by done. rewrite lifecycle_commit.
    destruct (contract_outcome_Ok _ _ _ _ _ _ (pl_outcome _ _ _ _ _ _ _ _ _ _ _ Hpl))
      as [(Hk & t & [= <-] & Hin & Hdel & Htr)|(Hk & [=] & _)].
    eapply (life_move _ _ _ (mkStateTransition _ _ _ _ _ _ _)); eauto; try done. right. split; [|done].
    unfold lifecycle. rewrite lookup_fmap. change (t_gid u) with gid. cbn [st_gid]. by rewrite Hn.
  - change (lifecycle (s <| rs_queues := _ |>)) with (lifecycle s). apply life_quiet; congruence.
  - by apply life_quiet.
Qed.

(** ** What a step does to one task *)

Definition adv (ordinary : bool) (t : ScheduledTask) : ScheduledTask :=
  if ordinary then advance_slow_position t else t.

Lemma advance_tasks_lookup ordinary s gid :
  rs_tasks (advance_tasks ordinary s) !! gid = adv ordinary <$> rs_tasks s !! gid.
Proof.
  destruct ordinary; cbn [advance_tasks adv]; simpl_sched; [by rewrite lookup_fmap|]. by destruct (rs_tasks s !! gid).
Qed.

Lemma adv_fields b t :
  t_task_id (adv b t) = t_task_id t /\ t_gid (adv b t) = t_gid t /\ t_generation (adv b t) = t_generation t /\
  t_generation_started (adv b t) = t_generation_started t /\ t_pending_barrier (adv b t) = t_pending_barrier t /\
  t_state (adv b t) = t_state t /\ t_stopped_status (adv b t) = t_stopped_status t.
Proof. destruct b; [|done]. unfold adv, advance_slow_position. by destruct (t_slow_readmission_ready t). Qed.

Inductive task_result (s : RequestScheduler) (op : SchedulerOp) (gid : Gid) (highest : option TaskId)
    : result SchedulerError SchedulerOutcome -> ScheduledTask -> Prop :=
| task_same r b t : rs_tasks s !! gid = Some t -> task_result s op gid highest r (adv b t)
| task_planned p u ups pub out b :
    plan_ok (op_input op) s p ->
    planned s (p_original p) (Some u) true (p_action p) (op_at op) (p_effects p) (p_publish p) ups pub out ->
    p_updated p = Some u -> t_gid (p_original p) = gid ->
    task_result s op gid highest (Ok out) (adv b u)
| task_new task_id paused conditions out :
    rs_tasks s !! gid = None -> highest = Some task_id ->
    (forall h, rs_highest_task_id s = Some h -> h < task_id) ->
    task_result s op gid highest (Ok out) (new_task task_id gid paused conditions).

Lemma op_task s op s' r gid t' :
  op_result s op s' r -> rs_tasks s' !! gid = Some t' -> task_result s op gid (rs_highest_task_id s') r t'.
Proof.
  intros [e|out Hi|p ups pub out b Hok Hpl|id g paused conditions pos ups sn out o u Ha Hn Hi Hh Hpl|class order out|c].
  - intros Ht. by apply (task_same _ _ _ _ _ false).
  - intros Ht. by apply (task_same _ _ _ _ _ false).
  - rewrite advance_tasks_lookup, commit_tasks. pose proof (pk_updated _ _ _ Hok) as Hu.
    intros (t0 & Ht & ->)%fmap_Some. destruct (p_updated p) as [u|] eqn:Eu.
    + destruct Hu as (Eg & _). rewrite Eg in Ht. apply lookup_insert_Some in Ht as [[Eg' <-]|[_ Ht]].
      * by eapply task_planned.
      * by apply task_same.
    + apply lookup_delete_Some in Ht as [_ Ht]. by apply task_same.
  - simpl_sched. rewrite commit_tasks. change (t_gid u) with g.
    intros [[<- <-]|[_ Ht]]%lookup_insert_Some; [by apply task_new|by apply (task_same _ _ _ _ _ false)].
  - simpl_sched. intros Ht. by apply (task_same _ _ _ _ _ false).
  - simpl_sched. intros Ht. by apply (task_same _ _ _ _ _ false).
Qed.

Lemma op_highest s op s' r :
  op_result s op s' r -> rs_highest_task_id s' = rs_highest_task_id s \/
  exists id, rs_highest_task_id s' = Some id /\ forall h, rs_highest_task_id s = Some h -> h < id.
Proof.
  intros [| |p ups pub out b| | |]; simpl_sched; try by left.
  - left. by destruct b; cbn [advance_tasks]; simpl_sched; rewrite commit_highest.
  - right. by eexists.
Qed.

Lemma planned_incl s o u present action at_ eff publish ups pub out e :
  planned s o u present action at_ eff publish ups pub out -> e ∈ eff -> e ∈ o_effects out.
Proof.
  intros Hp Hin. destruct (pl_effects _ _ _ _ _ _ _ _ _ _ _ Hp) as (eff1 & He & ->). rewrite elem_of_app. left.
  apply persist_effects_Ok in He as [->|(e' & Hperm & _)]; [done|]. rewrite Hperm. by right.
Qed.

(** An effect that starts or announces a generation belongs to a plan. *)
Lemma op_generation_effect s op s' out e :
  op_result s op s' (Ok out) -> e ∈ o_effects out ->
  TransitionEffect_kind e = TransitionEffectKind.StartAllocation \/
  TransitionEffect_kind e = TransitionEffectKind.PersistGenerationStarted ->
  exists p u b, plan_ok (op_input op) s p /\ p_updated p = Some u /\ e ∈ p_effects p /\
    rs_tasks s' !! t_gid (p_original p) = Some (adv b u).
Proof.
  intros H He Hk. inversion H as [|? (_ & Hi & _) | p ups pub ? b Hok Hpl
    | task_id gid paused conditions pos ups sn ? o u _ _ _ _ Hpl | class order ? [_ _ (g & t & _ & Hq) _] | c]; subst.
  - rewrite Hi in He. set_solver.
  - destruct (planned_effect _ _ _ _ _ _ _ _ _ _ _ _ Hpl He) as [Hin|[Hn|[Hn|(sn & _ & ->)]]];
      [|destruct Hk; congruence..|by destruct Hk]. pose proof (pk_updated _ _ _ Hok) as Hu. destruct (p_updated p) as [u|] eqn:Eu.
    + exists p, u, b. split_and!; try done. rewrite advance_tasks_lookup, commit_tasks.
      destruct Hu as (-> & _). by rewrite lookup_insert_eq.
    + destruct Hu as [Hnil _]. rewrite Hnil in Hin. set_solver.
  - destruct (planned_effect _ _ _ _ _ _ _ _ _ _ _ _ Hpl He) as [->%list_elem_of_singleton|[Hn|[Hn|(sn' & _ & ->)]]];
      [by destruct Hk|destruct Hk; congruence..|by destruct Hk].
  - rewrite Hq in He. apply list_elem_of_singleton in He as ->. by destruct Hk.
  - cbn in He. set_solver.
Qed.

(** ** Generations are persisted before they start *)

Record starts_ok (s : RequestScheduler) (log : Log) : Prop := {
  so_barrier : forall gid t g, rs_tasks s !! gid = Some t ->
    t_pending_barrier t = Some (PendingBarrier.GenerationPersistence g) ->
    asked log (TransitionEffect.PersistGenerationStarted (t_task_id t) gid g) /\ t_generation_started t = true;
  so_highest : forall id gid g, asked log (TransitionEffect.StartAllocation id gid g) ->
    exists h, rs_highest_task_id s = Some h /\ id <= h;
  so_started : forall id gid g gid' t, asked log (TransitionEffect.StartAllocation id gid g) ->
    rs_tasks s !! gid' = Some t -> t_task_id t = id ->
    g <= t_generation t /\ t_generation_started t = true /\
    (t_pending_barrier t = Some (PendingBarrier.GenerationPersistence (t_generation t)) -> g < t_generation t);
}.

Lemma start_plan i s p u id gid g :
  plan_ok i s p -> p_updated p = Some u -> TransitionEffect.StartAllocation id gid g ∈ p_effects p ->
  id = t_task_id (p_original p) /\ gid = t_gid (p_original p) /\ g = t_generation (p_original p) /\
  t_pending_barrier (p_original p) = Some (PendingBarrier.GenerationPersistence g) /\
  t_pending_barrier u = None /\ t_generation u = g /\
  t_generation_started u = t_generation_started (p_original p).
Proof.
  intros Hok Eu Hin. pose proof (pk_updated _ _ _ Hok) as Hu. rewrite Eu in Hu. destruct Hu as (_ & _ & Hs & _).
  destruct Hs as [eff Hf _| | |g'|]; try by apply list_elem_of_singleton in Hin.
  - rewrite Forall_forall in Hf. destruct (Hf _ Hin) as (_ & _ & [=]).
  - apply list_elem_of_singleton in Hin as [= -> -> ->]. done.
Qed.

Lemma started_idle s gid t : started s -> rs_tasks s !! gid = Some t -> t_slot t = SlotOwnership.None.
Proof.
  intros [config|config batch s' plan H] Ht.
  { cbn in Ht. by rewrite lookup_empty in Ht. }
  pose proof (re_idle _ _ _ _ (restore_Ok _ _ _ _ H)) as Hr. by destruct (Hr _ _ Ht).
Qed.

Lemma starts_ok_start s : started s -> starts_ok s [].
Proof.
  intros Hs. constructor.
  - intros gid t g Ht Eb. pose proof (started_idle _ _ _ Hs Ht) as Hslot.
    destruct (wf_tasks _ (started_wf _ Hs) _ _ Ht) as [_ Hi]. pose proof (ti_barrier _ Hi) as Hb.
    unfold barrier_inv in Hb. rewrite Eb in Hb. destruct Hb as (_ & _ & Hr & _). congruence.
  - intros id gid g (? & ? & ?%not_elem_of_nil & _). done.
  - intros id gid g gid' t (? & ? & ?%not_elem_of_nil & _). done.
Qed.

Lemma starts_ok_barrier s log op s' r gid t g :
  wf s -> starts_ok s log -> op_result s op s' r -> rs_tasks s' !! gid = Some t ->
  t_pending_barrier t = Some (PendingBarrier.GenerationPersistence g) ->
  asked (log ++ [(op, r)]) (TransitionEffect.PersistGenerationStarted (t_task_id t) gid g) /\
  t_generation_started t = true.
Proof.
  intros Hw Hso H Ht. rewrite asked_snoc.
  destruct (op_task _ _ _ _ _ _ H Ht) as [r b t0 Ht0|p u ups pub out b Hok Hpl Eu Eg|id paused conditions out]; [| |done].
  - destruct (adv_fields b t0) as (-> & _ & _ & -> & -> & _). intros Eb.
    destruct (so_barrier _ _ Hso _ _ _ Ht0 Eb). auto.
  - destruct (adv_fields b u) as (-> & _ & _ & -> & -> & _). intros Eb.
    pose proof (pk_updated _ _ _ Hok) as Hu. rewrite Eu in Hu. destruct Hu as (_ & -> & Hs & _). subst gid.
    destruct Hs as [eff _ Hf|class Hf|d n|g' Hb Hd Hc Hsl Hg Hst Hres Hgen Hstart Hbar|];
      [| |congruence| |congruence].
    + destruct (so_barrier _ _ Hso _ _ g (pk_lookup _ _ _ Hok)); [by apply Hf|]. rewrite (fr_started _ _ Hf). auto.
    + destruct (so_barrier _ _ Hso _ _ g (pk_lookup _ _ _ Hok)); [by apply Hf|]. rewrite (fr_started _ _ Hf). auto.
    + split; [|done]. right. exists out. split; [done|]. eapply planned_incl; [exact Hpl|].
      assert (g' = g) as -> by congruence. by left.
Qed.

Lemma starts_ok_planned s log p u i id gid g :
  starts_ok s log -> plan_ok i s p -> p_updated p = Some u ->
  asked log (TransitionEffect.StartAllocation id gid g) -> t_task_id (p_original p) = id ->
  g <= t_generation u /\ t_generation_started u = true /\
  (t_pending_barrier u = Some (PendingBarrier.GenerationPersistence (t_generation u)) -> g < t_generation u).
Proof.
  intros Hso Hok Eu Ha Eid. destruct (so_started _ _ Hso _ _ _ _ _ Ha (pk_lookup _ _ _ Hok) Eid) as (Hle & Hst & Hlt).
  pose proof (pk_updated _ _ _ Hok) as Hu. rewrite Eu in Hu. destruct Hu as (_ & _ & Hs & _).
  destruct Hs as [eff _ Hf|class Hf|d n ? ? ? ? ? Hgen Hs
    |g' Hb Hd Hc Hsl Hg Hst' Hres Hgen Hstart Hbar|? ? ? ? Hgen Hs].
  - rewrite (fr_generation _ _ Hf), (fr_started _ _ Hf). split_and!; try done. intros Eb. by apply Hlt, (fr_barrier _ _ Hf).
  - rewrite (fr_generation _ _ Hf), (fr_started _ _ Hf). split_and!; try done. intros Eb. by apply Hlt, (fr_barrier _ _ Hf).
  - rewrite Hgen, Hs. split_and!; try done. congruence.
  - rewrite Hst in Hg. unfold Generation_checked_next in Hg. apply u64_checked_add_Some in Hg. split_and!; try done; lia.
  - rewrite Hgen, Hs. split_and!; try done. congruence.
Qed.

Lemma starts_ok_step s log op s' r :
  wf s -> wf s' -> starts_ok s log -> op_result s op s' r -> starts_ok s' (log ++ [(op, r)]).
Proof.
  intros Hw Hw' Hso H. constructor.
  - intros gid t g Ht Eb. by apply (starts_ok_barrier s log op s' r gid t g).
  - intros id gid g [Ha|(out & -> & Hin)]%asked_snoc.
    + destruct (so_highest _ _ Hso _ _ _ Ha) as (h & Eh & ?).
      destruct (op_highest _ _ _ _ H) as [->|(id' & -> & Hlt)]; [eauto|]. specialize (Hlt _ Eh). eexists. split; [done|lia].
    + destruct (op_generation_effect _ _ _ _ _ H Hin) as (p & u & b & Hok & Eu & Hp & Ht); [by left|].
      destruct (start_plan _ _ _ _ _ _ _ Hok Eu Hp) as (-> & _).
      destruct (wf_highest _ Hw' _ _ Ht) as (h & ? & Hh). exists h. split; [done|].
      destruct (adv_fields b u) as (E & _). rewrite E in Hh.
      pose proof (pk_updated _ _ _ Hok) as Hu. rewrite Eu in Hu. by destruct Hu as (_ & <- & _).
  - intros id gid g gid' t [Ha|(out & -> & Hin)]%asked_snoc Ht Eid.
    + destruct (op_task _ _ _ _ _ _ H Ht) as [r b t0 Ht0|p u ups pub out b Hok Hpl Eu Eg|id' paused conditions out _ _ Hh].
      * destruct (adv_fields b t0) as (E & _ & -> & -> & -> & _). rewrite E in Eid. by eapply (so_started _ _ Hso).
      * destruct (adv_fields b u) as (E & _ & -> & -> & -> & _). rewrite E in Eid. eapply starts_ok_planned; eauto.
        pose proof (pk_updated _ _ _ Hok) as Hu. rewrite Eu in Hu. by destruct Hu as (_ & <- & _).
      * destruct (so_highest _ _ Hso _ _ _ Ha) as (h & Eh & ?). specialize (Hh _ Eh). cbn in Eid. lia.
    + destruct (op_generation_effect _ _ _ _ _ H Hin) as (p & u & b & Hok & Eu & Hp & Ht'); [by left|].
      destruct (start_plan _ _ _ _ _ _ _ Hok Eu Hp) as (-> & -> & -> & Hb & Hb' & Hg & Hst).
      pose proof (pk_updated _ _ _ Hok) as Hu. rewrite Eu in Hu. destruct Hu as (_ & Eidu & _).
      assert (gid' = t_gid (p_original p)) as ->.
      { eapply (task_ids_inj s'); eauto. by destruct (adv_fields b u) as (-> & _); congruence. }
      replace t with (adv b u) by congruence. destruct (adv_fields b u) as (_ & _ & -> & -> & -> & _).
      destruct (so_barrier _ _ Hso _ _ _ (pk_lookup _ _ _ Hok) Hb) as [_ Hbegun].
      rewrite Hg, Hb', Hst. split_and!; [lia|done|done].
Qed.

Lemma trace_starts s log : trace s log -> starts_ok s log.
Proof.
  induction 1 as [s H|s log op s' r Ht IH E]; [by apply starts_ok_start|].
  apply starts_ok_step with s; [by eapply trace_wf| |done|by eapply trace_op].
  eapply trace_wf. by eapply trace_step.
Qed.

(** A prefix of a log is a log of the same run. *)
Lemma trace_prefix s log l1 op r l2 :
  trace s log -> log = l1 ++ (op, r) :: l2 ->
  exists s1 s2, trace s1 l1 /\ run_op op s1 = (s2, r).
Proof.
  intros Ht. revert l2. induction Ht as [s H|s log op' s' r' Ht IH E]; intros l2 El; [by destruct l1|].
  destruct l2 as [|x l2] using rev_ind.
  - apply app_inj_tail in El as [-> [= -> ->]]. eauto.
  - rewrite app_comm_cons, app_assoc in El. apply app_inj_tail in El as [-> _]. by eapply IH.
Qed.

(** ** Stopped results are persisted before they become visible *)

(** The log asked to persist the terminal status of this generation. *)
Definition asked_terminal (log : Log) (id : TaskId) (gid : Gid) (g : Generation) (status : Aria2Status) : Prop :=
  exists error from to desired count slot orders,
    asked log (TransitionEffect.PersistTerminal id gid g status error from to desired count slot orders).

Definition terminals_ok (s : RequestScheduler) (log : Log) : Prop :=
  forall gid t g status, rs_tasks s !! gid = Some t ->
    t_pending_barrier t = Some (PendingBarrier.TerminalPersistence g status) ->
    asked_terminal log (t_task_id t) gid g status.

Lemma planned_terminal s o u present action at_ eff publish ups pub out g status :
  planned s o (Some u) present action at_ eff publish ups pub out ->
  t_pending_barrier u = Some (PendingBarrier.TerminalPersistence g status) ->
  t_pending_barrier o <> t_pending_barrier u ->
  exists error from to desired count slot orders, TransitionEffect.PersistTerminal (t_task_id o) (t_gid o) g status
    error from to desired count slot orders ∈ o_effects out.
Proof.
  intros Hp Eb Hne. destruct (pl_effects _ _ _ _ _ _ _ _ _ _ _ Hp) as (eff1 & He & ->).
  unfold persist_effects, terminal_persistence in He. cbn [mbind option_bind] in He. rewrite Eb in He, Hne.
  rewrite bool_decide_false in He by done. cbn [negb] in He. apply bind_Ok in He as (from & _ & He).
  apply bind_Ok in He as (to & _ & He). destruct (_ || _); [done|]. injection He as <-.
  do 7 eexists. rewrite !elem_of_app, list_elem_of_singleton. eauto.
Qed.

Lemma terminals_ok_step s log op s' r :
  terminals_ok s log -> op_result s op s' r -> terminals_ok s' (log ++ [(op, r)]).
Proof.
  intros Hto H gid t g status Ht Eb.
  assert (Hold : forall id gid, asked_terminal log id gid g status -> asked_terminal (log ++ [(op, r)]) id gid g status).
  { intros id gid' (? & ? & ? & ? & ? & ? & ? & ?). do 7 eexists. apply asked_snoc. eauto. }
  destruct (op_task _ _ _ _ _ _ H Ht) as [r b t0 Ht0|p u ups pub out b Hok Hpl Eu Eg|id paused conditions out]; [| |done].
  - destruct (adv_fields b t0) as (E & _ & _ & _ & E' & _). rewrite E. rewrite E' in Eb. eauto.
  - destruct (adv_fields b u) as (E & _ & _ & _ & E' & _). rewrite E. rewrite E' in Eb.
    pose proof (pk_updated _ _ _ Hok) as Hu. rewrite Eu in Hu. destruct Hu as (_ & -> & _ & _). subst gid.
    destruct (decide (t_pending_barrier (p_original p) = t_pending_barrier u)) as [Ebo|Hne].
    + apply Hold. eapply Hto; [apply Hok|congruence].
    + destruct (planned_terminal _ _ _ _ _ _ _ _ _ _ _ _ _ Hpl Eb Hne) as (? & ? & ? & ? & ? & ? & ? & ?).
      do 7 eexists. apply asked_snoc. eauto.
Qed.

Lemma trace_terminals s log : trace s log -> terminals_ok s log.
Proof.
  induction 1 as [s H|s log op s' r Ht IH E].
  - intros gid t g status Ht Eb. destruct H as [config|config batch s' plan H].
    { cbn in Ht. by rewrite lookup_empty in Ht. }
    pose proof (re_idle _ _ _ _ (restore_Ok _ _ _ _ H)) as Hr. by rewrite (tr_barrier _ (Hr _ _ Ht)) in Eb.
  - eapply terminals_ok_step; [done|by eapply trace_op].
Qed.

Lemma stopped_target state action :
  moves (ct_kind (transition_contract state action)) = true ->
  TaskState.StoppedResult ∈ ct_targets (transition_contract state action) ->
  action = SchedulerAction.TerminalPersistenceSucceeded \/ quiet_action action = true.
Proof.
  pose proof (contract_forall (fun state action =>
    implb (moves (ct_kind (transition_contract state action))
           && bool_decide (TaskState.StoppedResult ∈ ct_targets (transition_contract state action)))
      ((action == SchedulerAction.TerminalPersistenceSucceeded) || quiet_action action)) eq_refl state action) as H.
  cbv beta in H. intros Hm Hin. rewrite Hm, bool_decide_true in H by done. cbn in H.
  apply orb_true_iff in H as [H|H]; [left; by apply bool_decide_eq_true in H|by right].
Qed.

(** A snapshot is published only by a plan or a new task. *)
Lemma op_publish s op s' out id sn :
  op_result s op s' (Ok out) -> TransitionEffect.PublishSnapshot id sn ∈ o_effects out ->
  sn_state sn = TaskState.StoppedResult ->
  exists p u, plan_ok (op_input op) s p /\ p_updated p = Some u /\
    p_action p = SchedulerAction.TerminalPersistenceSucceeded /\ id = t_task_id (p_original p) /\
    sn_gid sn = t_gid (p_original p) /\ sn_stopped_status sn = t_stopped_status u.
Proof.
  intros H He Hst. inversion H as [|? (_ & Hi & _) | p ups pub ? b Hok Hpl
    | task_id gid paused conditions pos ups sn' ? o u _ _ _ _ Hpl | class order ? [_ _ (g & t & _ & Hq) _] | c]; subst.
  - rewrite Hi in He. set_solver.
  - destruct (planned_effect _ _ _ _ _ _ _ _ _ _ _ _ Hpl He) as [Hin|[Hn|[Hn|(sn' & -> & [= -> <-])]]]; [|done..|].
    { exfalso. pose proof (pk_updated _ _ _ Hok) as Hu. destruct (p_updated p) as [u|].
      - destruct Hu as (_ & _ & Hs & _). destruct Hs as [eff Hf _| | |g|]; try by apply list_elem_of_singleton in Hin.
        rewrite Forall_forall in Hf. by destruct (Hf _ Hin) as (_ & _ & [=]).
      - destruct Hu as [Hnil _]. rewrite Hnil in Hin. set_solver. }
    pose proof (pl_published _ _ _ _ _ _ _ _ _ _ _ Hpl) as Hpub. destruct (p_publish p) eqn:Ep; [|done].
    destruct Hpub as (u & sn' & Eu & [= <-] & Hsn). apply ScheduledTask_snapshot_Ok in Hsn as (_ & Hg & Hs & _ & _ & Hss & _).
    pose proof (pk_updated _ _ _ Hok) as Hu. rewrite Eu in Hu. destruct Hu as (Eg & _).
    exists p, u. split_and!; try done; [|congruence].
    destruct (contract_outcome_Ok _ _ _ _ _ _ (pl_outcome _ _ _ _ _ _ _ _ _ _ _ Hpl))
      as [(Hk & t & Et & Hin & _)|(_ & ? & _)]; [|congruence]. assert (t = u) as -> by congruence.
    rewrite <- Hs, Hst in Hin. destruct (stopped_target _ _ Hk Hin) as [?|Hquiet]; [done|].
    by rewrite (pk_quiet _ _ _ Hok Hquiet) in Ep.
  - destruct (planned_effect _ _ _ _ _ _ _ _ _ _ _ _ Hpl He)
      as [?%list_elem_of_singleton|[Hn|[Hn|(sn0 & [= ->] & [= -> <-])]]]; [done..|].
    destruct (pl_published _ _ _ _ _ _ _ _ _ _ _ Hpl) as (u0 & sn1 & [= <-] & [= <-] & Hsn).
    apply ScheduledTask_snapshot_Ok in Hsn as (_ & _ & Hs & _). rewrite Hs in Hst. by destruct paused.
  - rewrite Hq in He. by apply list_elem_of_singleton in He.
  - cbn in He. set_solver.
Qed.
