(* ===== verification/SchedulerDurable.v ===== *)
(** * The durable side of the scheduler

    What a store holds when it carries out the persistence effects a run asks
    for, in the order the run asks for them, and that this is at every moment
    the queues, the pause intents and the slow-slot data in memory. *)

From S2P Require Import Prelude Ids Errors State Snapshot PersistedDelay CommandKinds Transition Command.
From S2P Require Import Scheduler SchedulerCommands SchedulerEvents SchedulerRestore SchedulerInv.
From S2P Require Import SchedulerPlans SchedulerHandlers SchedulerOps SchedulerAdmission SchedulerWf.
From S2P Require Import SchedulerRestoreWf SchedulerReach SchedulerTrace.
From Stdlib Require Import Ascii String.
Open Scope list_scope.

(** ** The store *)

Record DurableTask : Set := mkDurableTask {
  dt_desired_paused : bool;
  dt_slow_demotion_count : N;
  dt_slow_slot : option SlowSlotPersistence;
}.

(** The queues, one row per task, and the order the Stopped queue gets when
    the requested deletion succeeds. *)
Record Durable : Set := mkDurable {
  du_queues : SchedulerQueues;
  du_tasks : gmap Gid DurableTask;
  du_deletion : option (list Gid);
}.

Definition write_orders (queues : SchedulerQueues) (orders : list QueueOrder) : SchedulerQueues :=
  fold_left (fun queues order => SchedulerQueues_put queues (qo_class order) (qo_order order)) orders queues.

Definition write_row (d : Durable) (gid : Gid) (desired : bool) (count : N) (slot : option SlowSlotPersistence)
    (queues : SchedulerQueues) : Durable :=
  mkDurable queues (<[gid := mkDurableTask desired count slot]> (du_tasks d)) (du_deletion d).

Definition persist_effect (d : Durable) (e : TransitionEffect) : Durable :=
  match e with
  | TransitionEffect.PersistTask _ gid class pos desired count _ =>
      write_row d gid desired count None
        (SchedulerQueues_put (du_queues d) class
           (vec_insert (N.to_nat pos) gid (SchedulerQueues_get (du_queues d) class)))
  | TransitionEffect.PersistQueueTransition _ gid _ _ desired count slot orders
  | TransitionEffect.PersistTerminal _ gid _ _ _ _ _ desired count slot orders =>
      write_row d gid desired count slot (write_orders (du_queues d) orders)
  | TransitionEffect.DeleteStoppedTaskMetadata _ _ _ remaining =>
      mkDurable (du_queues d) (du_tasks d) (Some remaining)
  | _ => d
  end.

Definition persist_effects_of (effects : list TransitionEffect) (d : Durable) : Durable :=
  fold_left persist_effect effects d.

(** A deletion takes effect when the scheduler reports it, in answer to the
    acknowledgement of the store. *)
Definition persist_deletion (d : Durable) (deletion : TaskDeletion) : Durable :=
  mkDurable (SchedulerQueues_put (du_queues d) QueueClass.Stopped (default [] (du_deletion d)))
    (delete (td_gid deletion) (du_tasks d)) None.

Definition persist_outcome (d : Durable) (out : SchedulerOutcome) : Durable :=
  persist_effects_of (o_effects out)
    (match o_deletion out with Some deletion => persist_deletion d deletion | None => d end).

Definition persist_log (log : Log) (d : Durable) : Durable :=
  fold_left (fun d entry => match entry.2 with Ok out => persist_outcome d out | Err _ => d end) log d.

(** ** What memory says the store holds *)

Definition task_row (t : ScheduledTask) : DurableTask :=
  mkDurableTask (t_desired_paused t) (t_slow_demotion_count t) (t_slow_slot t).

Definition durable_of (s : RequestScheduler) : Durable := mkDurable (rs_queues s) (task_row <$> rs_tasks s) None.

Notation stopped_queue s := (SchedulerQueues_get (rs_queues s) QueueClass.Stopped).

Record persisted (s : RequestScheduler) (d : Durable) : Prop := {
  ps_queues : du_queues d = rs_queues s;
  ps_tasks : du_tasks d = task_row <$> rs_tasks s;
  ps_deletion : forall gid t, rs_tasks s !! gid = Some t -> deleting t ->
    exists n, position gid (stopped_queue s) = Some n /\ du_deletion d = Some (vec_remove n (stopped_queue s));
}.

(** ** Effects on the store *)

Lemma durable_eta d : d = mkDurable (du_queues d) (du_tasks d) (du_deletion d).
Proof. by destruct d. Qed.

Lemma queues_put_get q class : SchedulerQueues_put q class (SchedulerQueues_get q class) = q.
Proof. by destruct q, class. Qed.

Lemma write_queue_orders q ups : write_orders q (queue_orders ups) = apply_queue_updates q ups.
Proof. revert q. induction ups as [|up ups IH]; intros q; [done|]. apply IH. Qed.

Lemma persist_effects_app l1 l2 d :
  persist_effects_of (l1 ++ l2) d = persist_effects_of l2 (persist_effects_of l1 d).
Proof. apply fold_left_app. Qed.

Lemma persist_plain o eff d : Forall (plain_effect o) eff -> persist_effects_of eff d = d.
Proof.
  intros H. revert d. induction H as [|e eff (_ & _ & Hk) _ IH]; intros d; [done|]. cbn. rewrite IH. by destruct e.
Qed.

Lemma persist_published d id pub :
  persist_effects_of match pub with Some sn => [TransitionEffect.PublishSnapshot id sn] | None => [] end d = d.
Proof. by destruct pub. Qed.

Lemma row_eq o u :
  negb (Bool.eqb (t_desired_paused u) (t_desired_paused o)) = false ->
  (t_slow_demotion_count u != t_slow_demotion_count o) || (t_slow_slot u != t_slow_slot o) = false ->
  task_row u = task_row o.
Proof.
  intros E1%negb_false_iff%eqb_prop [E2%negb_false_iff%bool_decide_eq_true E3%negb_false_iff%bool_decide_eq_true]%orb_false_iff.
  unfold task_row. congruence.
Qed.

(** The queue transition or the terminal request of a plan writes the queues
    and the row of its task; a plan without one changes neither. *)
Lemma persist_effects_write s o u action old new ups eff eff1 :
  persist_effects s o (Some u) true action old new ups eff = Ok eff1 ->
  (eff1 = eff /\ ups = [] /\ task_row u = task_row o) \/
  exists e, (eff1 = eff ++ [e] \/ eff1 = [e] ++ eff) /\ forall d, du_queues d = rs_queues s ->
    persist_effect d e =
      mkDurable (apply_queue_updates (rs_queues s) ups) (<[t_gid o := task_row u]> (du_tasks d)) (du_deletion d).
Proof.
  unfold persist_effects. intros H. destruct (terminal_persistence o (Some u)) as [[[g st] er]|].
  - apply bind_Ok in H as (from & _ & H). apply bind_Ok in H as (to & _ & H). destruct (_ || _); [done|].
    injection H as <-. right. eexists. split; [by left|]. intros d Ed. cbn. by rewrite Ed, write_queue_orders.
  - cbn [is_some from_option andb mbind option_bind] in H. destruct (_ || _) eqn:E in H.
    + apply bind_Ok in H as (orders & Eo & H). injection H as <-. right. eexists. split.
      { destruct action; (by left) || (by right). }
      intros d Ed. cbn. rewrite Ed. unfold write_row. f_equal. destruct ups as [|up ups].
      * apply bind_Ok in Eo as (class & _ & Eo). injection Eo as <-. apply queues_put_get.
      * injection Eo as <-. apply (write_queue_orders _ (up :: ups)).
    + left. injection H as <-. apply orb_false_iff in E as [[Eu Ed]%orb_false_iff Es]. split_and!; [done| |by apply row_eq].
      by destruct ups.
Qed.

Lemma queue_updates_same s gid class ups : queue_updates s gid class class = Ok ups -> ups = [].
Proof. unfold queue_updates. destruct (match class with Some _ => _ | None => _ end); [done|]. rewrite bool_decide_true by done. congruence. Qed.

(** What the update of a task asks the store about deletions. *)
Inductive deletion_step (s : RequestScheduler) (o u : ScheduledTask) : option (list Gid) -> option (list Gid) -> Prop :=
| deletion_kept d : (deleting u -> deleting o) -> deletion_step s o u d d
| deletion_asked d n :
    pending_stopped_deletion s = None -> position (t_gid o) (stopped_queue s) = Some n ->
    ScheduledTask_queue_class u = ScheduledTask_queue_class o ->
    deletion_step s o u d (Some (vec_remove n (stopped_queue s))).

(** The own effects of an update leave the queues alone, and write at most the
    new row of its task. *)
Lemma step_persists s o u eff d :
  task_step s o u eff ->
  (ScheduledTask_queue_class u = ScheduledTask_queue_class o -> du_queues d = rs_queues s) ->
  exists rows deletion, persist_effects_of eff d = mkDurable (du_queues d) rows deletion /\
    (rows = du_tasks d \/ rows = <[t_gid o := task_row u]> (du_tasks d)) /\
    deletion_step s o u (du_deletion d) deletion.
Proof.
  unfold deleting. intros Hs Hq.
  destruct Hs as [eff Hp Hf|class Hf Hc|i n Hb Hpd Hn Hb' _ _ _ Hc|g|]; eexists _, _; (split; [|split]).
  - rewrite (persist_plain o eff d Hp). apply durable_eta.
  - by left.
  - apply deletion_kept. intros (g & i & Hd). exists g, i. by apply Hf.
  - cbn. unfold write_row. by rewrite (Hq Hc), queues_put_get.
  - by right.
  - apply deletion_kept. intros (g & i & Hd). exists g, i. by apply Hf.
  - reflexivity.
  - by left.
  - by apply deletion_asked.
  - apply durable_eta.
  - by left.
  - apply deletion_kept. intros (g' & i & Hd). congruence.
  - apply durable_eta.
  - by left.
  - apply deletion_kept. intros (g' & i & Hd). congruence.
Qed.

Lemma planned_persists s o u action at_ eff publish ups pub out d :
  planned s o (Some u) true action at_ eff publish ups pub out -> task_step s o u eff ->
  du_queues d = rs_queues s -> du_tasks d !! t_gid o = Some (task_row o) ->
  exists deletion,
    persist_effects_of (o_effects out) d =
      mkDurable (apply_queue_updates (rs_queues s) ups) (<[t_gid o := task_row u]> (du_tasks d)) deletion /\
    deletion_step s o u (du_deletion d) deletion.
Proof.
  intros Hpl Hs Hq Hrow. destruct (pl_effects _ _ _ _ _ _ _ _ _ _ _ Hpl) as (eff1 & He & ->).
  rewrite persist_effects_app, persist_published.
  destruct (pl_updates _ _ _ _ _ _ _ _ _ _ _ Hpl) as (ups0 & Hups & ->). cbn [mbind option_bind] in Hups.
  apply persist_effects_write in He as [(-> & -> & Er)|(e & He & Hw)].
  - destruct (step_persists _ _ _ _ d Hs (fun _ => Hq)) as (rows & deletion & -> & Hrows & Hd). exists deletion.
    split; [|done]. cbn. rewrite Hq. f_equal. destruct Hrows as [->| ->]; [|done]. rewrite Er. symmetry. by apply insert_id.
  - destruct He as [-> | ->]; rewrite persist_effects_app.
    + destruct (step_persists _ _ _ _ d Hs (fun _ => Hq)) as (rows & deletion & -> & Hrows & Hd). exists deletion.
      split; [|done]. cbn. rewrite Hw by done. cbn. f_equal. destruct Hrows as [->| ->]; [done|]. apply insert_insert_eq.
    + change (persist_effects_of [e] d) with (persist_effect d e). rewrite Hw by done.
      destruct (step_persists s o u eff (mkDurable (apply_queue_updates (rs_queues s) ups0)
        (<[t_gid o:=task_row u]> (du_tasks d)) (du_deletion d)) Hs) as (rows & deletion & E & Hrows & Hd).
      { intros Hc. rewrite Hc in Hups. apply queue_updates_same in Hups as ->. done. }
      exists deletion. rewrite E. split; [|done]. cbn in *. f_equal.
      destruct Hrows as [->| ->]; [done|]. apply insert_insert_eq.
Qed.

(** ** The Stopped queue *)

Lemma apply_updates_other ups q class :
  (forall update, update ∈ ups -> qu_class update <> class) ->
  SchedulerQueues_get (apply_queue_updates q ups) class = SchedulerQueues_get q class.
Proof.
  revert q. induction ups as [|up ups IH]; intros q Hne; [done|].
  change (apply_queue_updates q (up :: ups)) with
    (apply_queue_updates (SchedulerQueues_put q (qu_class up) (qu_order up)) ups).
  rewrite IH, queues_get_put by (intros; apply Hne; by right). rewrite bool_decide_false; [done|].
  intros E. by apply (Hne up (list_elem_of_here _ _)).
Qed.

(** Two requests for the same remaining order are the same request. *)
Lemma deletion_unique l x y n m :
  NoDup l -> position x l = Some n -> position y l = Some m -> vec_remove n l = vec_remove m l -> x = y.
Proof.
  intros Hd Hx Hy E. destruct (decide (x = y)) as [|Hne]; [done|]. exfalso.
  destruct (NoDup_vec_remove _ _ _ Hd Hx) as [_ Hnx]. apply Hnx. rewrite E.
  rewrite (elem_of_vec_remove y) by done. split; [done|]. rewrite (vec_remove_perm _ _ _ Hx). by left.
Qed.

Lemma move_not_deletion st :
  moves (ct_kind (transition_contract st SchedulerAction.StoppedResultDeletionSucceeded)) = false.
Proof. by destruct st. Qed.

(** ** Steps *)

Lemma task_row_adv b t : task_row (adv b t) = task_row t.
Proof. destruct b; [|done]. unfold adv, advance_slow_position. by destruct (t_slow_readmission_ready t). Qed.

Lemma deleting_adv b t : deleting (adv b t) <-> deleting t.
Proof. unfold deleting. by destruct (adv_fields b t) as (_ & _ & _ & _ & -> & _). Qed.

Lemma advance_tasks_fmap b s : rs_tasks (advance_tasks b s) = adv b <$> rs_tasks s.
Proof. apply map_eq. intros gid. by rewrite advance_tasks_lookup, lookup_fmap. Qed.

Lemma advance_tasks_queues b s : rs_queues (advance_tasks b s) = rs_queues s.
Proof. by destruct b. Qed.

(** The admission bookkeeping of the demoted tasks is not durable. *)
Lemma persisted_advance b s d : persisted s d -> persisted (advance_tasks b s) d.
Proof.
  intros [Hq Ht Hd]. constructor; rewrite ?advance_tasks_queues; [done| |].
  - rewrite Ht, advance_tasks_fmap, <- map_fmap_compose. apply map_fmap_ext. intros gid t _. symmetry. apply task_row_adv.
  - intros gid t. rewrite advance_tasks_lookup. intros (t0 & Ht0 & ->)%fmap_Some. rewrite deleting_adv. by apply Hd.
Qed.

Lemma persisted_update s o u action at_ eff publish ups pub out ids d :
  persisted s d -> rs_tasks s !! t_gid o = Some o -> t_gid u = t_gid o -> task_step s o u eff ->
  planned s o (Some u) true action at_ eff publish ups pub out ->
  persisted (commit_action o (Some u) ups pub ids s) (persist_outcome d out).
Proof.
  intros [Hq Ht Hdel] Hl Eg Hs Hpl.
  destruct (contract_outcome_Ok _ _ _ _ _ _ (pl_outcome _ _ _ _ _ _ _ _ _ _ _ Hpl)) as [(Hk & _ & _ & _ & Ed & _)|(_ & [=] & _)].
  destruct (planned_persists _ _ _ _ _ _ _ _ _ _ d Hpl Hs Hq) as (deletion & E & Hd); [by rewrite Ht, lookup_fmap, Hl|].
  unfold persist_outcome. rewrite Ed, E. constructor; cbn [du_queues du_tasks du_deletion]; rewrite ?commit_queues, ?commit_tasks.
  - done.
  - by rewrite Ht, fmap_insert, Eg.
  - rewrite Eg. intros gid t Hgt Hdt.
    assert (SchedulerQueues_get (apply_queue_updates (rs_queues s) ups) QueueClass.Stopped = stopped_queue s \/
            pending_stopped_deletion s = None) as Hst.
    { destruct (pl_guard _ _ _ _ _ _ _ _ _ _ _ Hpl) as [->|[Hg|Hg]]; [|left; by apply apply_updates_other|by right].
      by rewrite move_not_deletion in Hk. }
    inversion Hd as [dd Hkept|dd n Hnone Hn Hc]; subst.
    + assert (exists t0, rs_tasks s !! gid = Some t0 /\ deleting t0) as (t0 & Ht0 & Hdt0).
      { apply lookup_insert_Some in Hgt as [[<- <-]|[_ Hgt]]; eauto. }
      destruct Hst as [->|Hnone]; [eauto|]. by destruct (pending_deletion_none _ _ _ Hnone Ht0).
    + destruct (pl_updates _ _ _ _ _ _ _ _ _ _ _ Hpl) as (ups0 & Hups & ->). cbn [mbind option_bind] in Hups.
      rewrite Hc in Hups. apply queue_updates_same in Hups as ->. apply lookup_insert_Some in Hgt as [[<- <-]|[_ Hgt]].
      * by exists n.
      * by destruct (pending_deletion_none _ _ _ Hnone Hgt).
Qed.

Lemma persisted_delete s o action at_ publish ups pub out ids d :
  wf s -> persisted s d -> rs_tasks s !! t_gid o = Some o -> deleting o ->
  planned s o None true action at_ [] publish ups pub out ->
  persisted (commit_action o None ups pub ids s) (persist_outcome d out).
Proof.
  intros Hw [Hq Ht Hdel] Hl Hdo Hpl. destruct (Hdel _ _ Hl Hdo) as (n & Hn & Ed).
  destruct (contract_outcome_Ok _ _ _ _ _ _ (pl_outcome _ _ _ _ _ _ _ _ _ _ _ Hpl)) as [(_ & t & [=] & _)|(_ & _ & _ & Edel)].
  destruct (pl_effects _ _ _ _ _ _ _ _ _ _ _ Hpl) as (eff1 & He & Hout). cbn in He. injection He as <-.
  unfold persist_outcome. rewrite Hout, Edel, persist_effects_app, persist_published. cbn [persist_effects_of fold_left].
  destruct (pl_updates _ _ _ _ _ _ _ _ _ _ _ Hpl) as (ups0 & Hups & ->). cbn [mbind option_bind] in Hups.
  assert (ScheduledTask_queue_class o = Some QueueClass.Stopped) as Hc.
  { apply (queue_updates_old _ _ _ _ _ Hups). rewrite (vec_remove_perm _ _ _ Hn). by left. }
  rewrite Hc in Hups. assert (ups0 = [mkQueueUpdate QueueClass.Stopped (vec_remove n (stopped_queue s))]) as ->.
  { unfold queue_updates in Hups. destruct (negb _); [done|]. case_bool_decide; [done|]. rewrite Hn in Hups.
    by injection Hups as <-. }
  constructor; unfold persist_deletion; cbn [du_queues du_tasks du_deletion td_gid]; rewrite ?commit_queues, ?commit_tasks.
  - by rewrite Hq, Ed.
  - by rewrite Ht, fmap_delete.
  - intros gid t [Hne Hgt]%lookup_delete_Some Hdt. destruct (Hdel _ _ Hgt Hdt) as (m & Hm & Em). exfalso. apply Hne.
    eapply deletion_unique; [apply (wf_nodup _ Hw QueueClass.Stopped)|done|done|congruence].
Qed.

Lemma persisted_add s task_id gid paused conditions pos at_ ups sn out d :
  let o := ScheduledTask_new task_id gid paused conditions in
  let u := new_task task_id gid paused conditions in
  persisted s d ->
  planned s o (Some u) false (new_action paused) at_
    [TransitionEffect.PersistTask task_id gid (new_class paused) pos paused 0 conditions] true ups (Some sn) out ->
  persisted (commit_action o (Some u) ups (Some sn) (rs_ids s) s <| rs_highest_task_id := Some task_id |>)
    (persist_outcome d out).
Proof.
  intros o u [Hq Ht Hdel] Hpl.
  destruct (contract_outcome_Ok _ _ _ _ _ _ (pl_outcome _ _ _ _ _ _ _ _ _ _ _ Hpl)) as [(Hk & _ & _ & _ & Ed & _)|(_ & [=] & _)].
  destruct (pl_effects _ _ _ _ _ _ _ _ _ _ _ Hpl) as (eff1 & He & Hout). cbn in He. injection He as <-.
  unfold persist_outcome. rewrite Hout, Ed, persist_effects_app.
  destruct (pl_updates _ _ _ _ _ _ _ _ _ _ _ Hpl) as (ups0 & Hups & Hplace). cbn [mbind option_bind] in Hups.
  replace (ScheduledTask_queue_class u) with (Some (new_class paused)) in Hups by by destruct paused.
  cbn [place_new_task] in Hplace. apply bind_Ok in Hplace as (ups1 & Hplace & Heq). injection Heq as <-.
  apply (place_in_update_new s) in Hplace as ->; [|done]. constructor; simpl_sched; rewrite ?commit_queues, ?commit_tasks.
  - cbn. by rewrite Hq.
  - cbn. by rewrite Ht, fmap_insert.
  - intros g t Hgt Hdt. rewrite apply_updates_other; cycle 1.
    { intros update ->%list_elem_of_singleton. by destruct paused. }
    apply lookup_insert_Some in Hgt as [[<- <-]|[_ Hgt]]; [by destruct Hdt as (? & ? & [=])|eauto].
Qed.

Lemma persisted_reorder s class order out d :
  persisted s d -> reordered s class order out ->
  persisted (s <| rs_queues := SchedulerQueues_put (rs_queues s) class order |>) (persist_outcome d out).
Proof.
  intros [Hq Ht Hdel] [_ Ed (gid & t & Hgt & He) Hg]. unfold persist_outcome. rewrite He, Ed. constructor; simpl_sched.
  - cbn. by rewrite Hq.
  - cbn. rewrite Ht. apply insert_id. by rewrite lookup_fmap, Hgt.
  - intros g u Hu Hdu. rewrite queues_get_put. case_bool_decide as E; [|eauto].
    by destruct (pending_deletion_none _ _ _ (Hg (eq_sym E)) Hu).
Qed.

Lemma persisted_step s op s' r d :
  wf s -> persisted s d -> op_result s op s' r ->
  persisted s' (match r with Ok out => persist_outcome d out | Err _ => d end).
Proof.
  intros Hw Hp H. destruct H as [e|out (Ed & Ee & _)|p ups pub out b Hok Hpl
    |id g paused conditions pos ups sn out o u _ _ _ _ Hpl|class order out|c].
  - done.
  - unfold persist_outcome. by rewrite Ed, Ee.
  - apply persisted_advance. pose proof (pk_updated _ _ _ Hok) as Hu. pose proof (pk_lookup _ _ _ Hok) as Hl.
    destruct (p_updated p) as [u|].
    + destruct Hu as (Eg & _ & Hs & _). by eapply persisted_update.
    + destruct Hu as (Ee & _ & Hd). rewrite Ee in Hpl. by eapply persisted_delete.
  - by eapply persisted_add.
  - by apply persisted_reorder.
  - by destruct Hp.
Qed.

Lemma persisted_started s : started s -> persisted s (durable_of s).
Proof.
  intros [config|config batch s' plan H]; constructor; try done.
  intros gid t Ht (g & d & Eb). pose proof (re_idle _ _ _ _ (restore_Ok _ _ _ _ H)) as Hr. by rewrite (tr_barrier _ (Hr _ _ Ht)) in Eb.
Qed.

Lemma persisted_run ops s d :
  wf s -> persisted s d -> persisted (run_ops ops s).1 (persist_log (run_ops ops s).2 d).
Proof.
  revert s d. induction ops as [|op ops IH]; intros s d Hw Hp; [done|]. cbn [run_ops].
  pose proof (run_op_wf op s Hw) as Hw1. destruct (run_op op s) as [s1 r] eqn:E.
  apply run_op_result in E; [|done]. apply (persisted_step _ _ _ _ d) in E; [|done|done]. specialize (IH s1 _ Hw1 E).
  destruct (run_ops ops s1) as [s2 l]. exact IH.
Qed.
