(* ===== verification/SchedulerProperties.v ===== *)
(** * Guarantees of the scheduler

    The properties of every run of the scheduler, from a fresh or a recovered
    state, each with a concrete run that exercises it. *)

From S2P Require Import Prelude Ids Errors State Snapshot PersistedDelay CommandKinds Transition Command.
From S2P Require Import Scheduler SchedulerCommands SchedulerEvents SchedulerRestore SchedulerInv.
From S2P Require Import SchedulerPlans SchedulerHandlers SchedulerOps SchedulerAdmission SchedulerWf.
From S2P Require Import SchedulerRestoreWf SchedulerReach SchedulerTrace SchedulerDurable.
From Stdlib Require Import Ascii String.
Open Scope list_scope.

(** ** Concrete runs *)

Lemma run_ops_trace_from ops s log :
  trace s log -> trace (run_ops ops s).1 (log ++ (run_ops ops s).2).
Proof.
  revert s log. induction ops as [|op ops IH]; intros s log Ht; cbn [run_ops].
  { by rewrite app_nil_r. }
  destruct (run_op op s) as [s1 r] eqn:E. specialize (IH s1 (log ++ [(op, r)]) (trace_step _ _ _ _ _ Ht E)).
  destruct (run_ops ops s1) as [s2 l]. cbn [fst snd] in *. by rewrite <- app_assoc in IH.
Qed.

Lemma run_ops_trace ops s : started s -> trace (run_ops ops s).1 (run_ops ops s).2.
Proof. intros Hs. apply (run_ops_trace_from ops s []). by constructor. Qed.

Definition demo_config : SchedulerConfig := mkSchedulerConfig 10 2 false SlowReadmissionPolicy.OriginalPosition.
Definition demo_event (event : TaskEvent) : SchedulerOp := OpEvent (TaskEvent_for_task event 1) 0.

(** One download from its admission to its retained result. *)
Definition demo_download : list SchedulerOp :=
  [ OpCommand (SchedulerCommand.AddValidatedTask 1 16 false TaskConditions_default) 0;
    OpAdmit 0;
    demo_event (TaskEvent.GenerationPersisted 16 0);
    demo_event (TaskEvent.AllocationSucceeded 16 0);
    demo_event (TaskEvent.DataComplete 16 0 false);
    demo_event (TaskEvent.VerificationSucceeded 16 0);
    demo_event (TaskEvent.TerminalPersisted 16 0 Aria2Status.Complete) ].

Definition demo_run := run_ops demo_download (RequestScheduler_new demo_config).

(** The outcome of its last step, and the snapshot that step publishes. *)
Definition demo_outcome : SchedulerOutcome :=
  match demo_run.2 !! 6%nat with Some (_, Ok out) => out | _ => SchedulerOutcome_default end.
Definition demo_snapshot : TaskSnapshot :=
  match o_effects demo_outcome with
  | [TransitionEffect.PublishSnapshot _ sn] => sn
  | _ => mkTaskSnapshot 0 TaskState.Accepted 0 None 0 0 0 0 0 0 None None
           (TaskConditions_snapshot TaskConditions_default) false false None None None false
  end.

Example demo_completes :
  option_map t_state (rs_tasks demo_run.1 !! 16) = Some TaskState.StoppedResult.
Proof. vm_compute. reflexivity. Qed.

Lemma demo_trace : trace demo_run.1 demo_run.2.
Proof. apply run_ops_trace. constructor. Qed.

(** ** The invariant *)

(** C1: every scheduler a run reaches, from a fresh or a recovered state and
    under any commands, events and admissions, is well formed: each task is
    keyed by its GID and satisfies the task invariant, task ids are unique and
    never reused, each task is in exactly the queue of its class and once, each
    task and no other GID has a published snapshot that validates, and neither
    the task limit nor the active slot limit is exceeded. *)
Theorem scheduler_run_wf s log : trace s log -> wf s.
Proof. apply trace_wf. Qed.

Lemma scheduler_run_wf_witness : trace demo_run.1 demo_run.2 /\ wf demo_run.1.
Proof. split; [apply demo_trace|]. apply (scheduler_run_wf demo_run.1 demo_run.2). apply demo_trace. Defined.

(** ** The contract *)

(** C2: the scheduler refines the transition contract.  An operation that fails
    leaves the whole scheduler unchanged.  One that succeeds either changes no
    task state (a no-op, a reordering or an ignored event) or makes exactly one
    move that the contract accepts for an action its input may carry out, and
    reports that move: the task, the old and the new state and the reason of
    the contract, or the deletion. *)
Theorem scheduler_refines_contract s log op :
  trace s log ->
  match run_op op s with
  | (s', Err _) => s' = s
  | (s', Ok out) => life_step op (lifecycle s) out (lifecycle s')
  end.
Proof.
  intros Ht. destruct (run_op op s) as [s' r] eqn:E. pose proof (trace_op _ _ _ _ _ Ht E) as H.
  destruct r as [out|e]; [|by inversion H]. apply op_result_life; [by eapply trace_wf|done].
Qed.

Lemma scheduler_refines_contract_witness :
  match run_op (OpCommand (SchedulerCommand.RemoveStoppedResult 16) 0) demo_run.1 with
  | (s', Err _) => s' = demo_run.1
  | (s', Ok out) => life_step (OpCommand (SchedulerCommand.RemoveStoppedResult 16) 0)
      (lifecycle demo_run.1) out (lifecycle s')
  end.
Proof. apply (scheduler_refines_contract demo_run.1 demo_run.2). apply demo_trace. Defined.

(** ** Ordering of effects *)

(** C3: no worker starts before its generation is durable.  Whenever a run asks
    to start an allocation, it does so in answer to the acknowledgement that
    this generation of this task was persisted, it asked earlier to persist the
    start of this generation, and it never asked before to start the same
    generation of the same task. *)
Theorem allocation_starts_after_persistence s log l1 op out l2 id gid g :
  trace s log -> log = l1 ++ (op, Ok out) :: l2 ->
  TransitionEffect.StartAllocation id gid g ∈ o_effects out ->
  (exists at_, op = OpEvent (TaskEvent_for_task (TaskEvent.GenerationPersisted gid g) id) at_) /\
  asked l1 (TransitionEffect.PersistGenerationStarted id gid g) /\
  forall gid', ~ asked l1 (TransitionEffect.StartAllocation id gid' g).
Proof.
  intros Ht El Hin. destruct (trace_prefix _ _ _ _ _ _ Ht El) as (s1 & s2 & Ht1 & E).
  destruct (op_generation_effect _ _ _ _ _ (trace_op _ _ _ _ _ Ht1 E) Hin) as (p & u & b & Hok & Eu & Hp & _); [by left|].
  pose proof (pk_start _ _ _ Hok _ Hp eq_refl) as Ea. pose proof (pk_action _ _ _ Hok) as Hal. rewrite Ea in Hal.
  pose proof (trace_starts _ _ Ht1) as Hso. pose proof (pk_lookup _ _ _ Hok) as Hl.
  destruct (start_plan _ _ _ _ _ _ _ Hok Eu Hp) as (-> & -> & -> & Hb & _). split_and!.
  - pose proof (pk_input _ _ _ Hok) as Hi. destruct op as [command at_|[tid event] at_| |]; try discriminate Hal.
    cbn in Hi, Hal. destruct Hi as (<- & Eg & Egen). destruct event; try discriminate Hal;
      try (destruct seed; discriminate Hal). cbn in Eg, Egen. subst. by exists at_.
  - by destruct (so_barrier _ _ Hso _ _ _ Hl Hb).
  - intros gid' Ha. destruct (so_started _ _ Hso _ _ _ _ _ Ha Hl eq_refl) as (_ & _ & Hlt). specialize (Hlt Hb). lia.
Qed.

Lemma allocation_starts_after_persistence_witness :
  asked (take 2 demo_run.2) (TransitionEffect.PersistGenerationStarted 1 16 0).
Proof.
  eapply (allocation_starts_after_persistence demo_run.1 demo_run.2 (take 2 demo_run.2) _ _ (drop 3 demo_run.2)
    1 16 0 demo_trace); [vm_compute; reflexivity|]. vm_compute. left.
Defined.

(** C4: no result becomes visible before it is durable.  Whenever a run
    publishes a stopped result, it does so in answer to the acknowledgement of
    this terminal status for this task and generation, and it asked earlier to
    persist exactly that. *)
Theorem stopped_result_visible_after_persistence s log l1 op out l2 id sn :
  trace s log -> log = l1 ++ (op, Ok out) :: l2 ->
  TransitionEffect.PublishSnapshot id sn ∈ o_effects out -> sn_state sn = TaskState.StoppedResult ->
  exists g status at_, op = OpEvent (TaskEvent_for_task (TaskEvent.TerminalPersisted (sn_gid sn) g status) id) at_ /\
    sn_stopped_status sn = Some status /\ asked_terminal l1 id (sn_gid sn) g status.
Proof.
  intros Ht El Hin Hst. destruct (trace_prefix _ _ _ _ _ _ Ht El) as (s1 & s2 & Ht1 & E).
  destruct (op_publish _ _ _ _ _ _ (trace_op _ _ _ _ _ Ht1 E) Hin Hst) as (p & u & Hok & Eu & Ea & -> & -> & ->).
  destruct (pk_terminal _ _ _ Hok Ea) as (u' & tid & gid & status & Eu' & Ei & Eb & Hs).
  assert (u' = u) as -> by congruence. pose proof (pk_input _ _ _ Hok) as Hi. rewrite Ei in Hi. destruct Hi as (Et & Eg & _).
  cbn in Eg. exists (t_generation (p_original p)), status. destruct op as [command at_|[tid' event] at_| |]; try done.
  cbn in Ei. injection Ei as -> ->. exists at_. split_and!; [by subst|done|].
  apply (trace_terminals _ _ Ht1); [apply Hok|done].
Qed.

Lemma stopped_result_visible_after_persistence_witness : exists g status,
  asked_terminal (take 6 demo_run.2) 1 16 g status.
Proof.
  destruct (stopped_result_visible_after_persistence demo_run.1 demo_run.2 (take 6 demo_run.2)
    (demo_event (TaskEvent.TerminalPersisted 16 0 Aria2Status.Complete)) demo_outcome (drop 7 demo_run.2)
    1 demo_snapshot demo_trace) as (g & status & at_ & _ & _ & Ha);
    [vm_compute; reflexivity|vm_compute; left|vm_compute; reflexivity|].
  exists g, status. exact Ha.
Defined.

(** ** Durability *)

(** C5: the store never falls behind memory.  A store that starts from the state
    of the scheduler and carries out the persistence effects of a run in order
    holds, after every run, exactly the queues in memory with their order, and
    the pause intent, demotion count and slow-slot data of exactly the tasks in
    memory.  A deletion counts from the moment the scheduler reports it. *)
Theorem durable_store_matches_memory s ops :
  started s ->
  let run := run_ops ops s in
  let store := persist_log run.2 (durable_of s) in
  du_queues store = rs_queues run.1 /\ du_tasks store = task_row <$> rs_tasks run.1.
Proof.
  intros Hs. pose proof (persisted_run ops s _ (started_wf _ Hs) (persisted_started _ Hs)) as [Hq Ht _]. done.
Qed.

(** Two downloads, one completed and then deleted while the other pauses. *)
Definition demo_deletion : list SchedulerOp :=
  demo_download ++
  [ OpCommand (SchedulerCommand.AddValidatedTask 2 17 false TaskConditions_default) 0;
    OpCommand (SchedulerCommand.RemoveStoppedResult 16) 0;
    OpCommand (SchedulerCommand.Pause 17 false) 0;
    demo_event (TaskEvent.StoppedResultDeleted 16 0 1) ].

Lemma durable_store_matches_memory_witness :
  let run := run_ops demo_deletion (RequestScheduler_new demo_config) in
  rs_queues run.1 = mkSchedulerQueues [] [] [17] [] [] /\
  du_queues (persist_log run.2 (durable_of (RequestScheduler_new demo_config))) = mkSchedulerQueues [] [] [17] [] [].
Proof.
  destruct (durable_store_matches_memory (RequestScheduler_new demo_config) demo_deletion (started_new _)) as [E _].
  intros run. unfold run. rewrite E. vm_compute. by split.
Defined.

(** ** Recovery *)

(** C6: recovery is exact.  A scheduler recovered from a checkpoint is well
    formed, holds exactly the tasks of the checkpoint with every recovered
    field, has the checkpoint's queues in their order, holds no slot and no
    barrier, and its initial effects are, queue by queue, the timers of each
    task followed by its snapshot. *)
Theorem restore_exact config batch s plan :
  RequestScheduler_restore config batch = Ok (s, plan) ->
  wf s /\
  (recovered_of <$> btree_values (rs_tasks s)) ≡ₚ rb_tasks batch /\
  (forall order, order ∈ rb_queues batch -> SchedulerQueues_get (rs_queues s) (qo_class order) = qo_order order) /\
  (forall gid t, rs_tasks s !! gid = Some t -> t_slot t = SlotOwnership.None /\ t_pending_barrier t = None) /\
  rp_effects plan = List.concat (restored_effects s <$> queued_gids (rs_queues s)) /\
  SchedulerRestorePlan_is_bound_to plan s = true.
Proof.
  intros H. pose proof (restore_tasks_nodup _ _ _ _ H) as Hnd. apply restore_Ok in H as [Hw _ Hn Ht Hq He Hb Hi].
  split_and!; try done; [|intros gid t Hgt; by destruct (Hi _ _ Hgt)].
  symmetry. apply submseteq_length_Permutation.
  - apply NoDup_submseteq; [done|]. intros r Hr. destruct (Ht _ Hr) as (t & Hgt & <-). apply list_elem_of_fmap_2.
    apply elem_of_btree_values. eauto.
  - by rewrite length_fmap, length_btree_values, Hn.
Qed.

Definition demo_recovered : RecoveredSchedulerTask :=
  mkRecoveredSchedulerTask 7 16 TaskState.RetryWait 3 true false TaskConditions_default 0 None (Some 500) None None None.
Definition demo_batch : SchedulerRestoreBatch :=
  mkSchedulerRestoreBatch [demo_recovered]
    [ mkQueueOrder QueueClass.Waiting [16]; mkQueueOrder QueueClass.Demoted []; mkQueueOrder QueueClass.Paused [];
      mkQueueOrder QueueClass.Active []; mkQueueOrder QueueClass.Stopped [] ].
Definition demo_restored : RequestScheduler * SchedulerRestorePlan :=
  match RequestScheduler_restore demo_config demo_batch with
  | Ok r => r
  | Err _ => (RequestScheduler_new demo_config, mkSchedulerRestorePlan [] 0 (RequestScheduler_new demo_config))
  end.

Lemma restore_exact_witness :
  wf demo_restored.1 /\ (recovered_of <$> btree_values (rs_tasks demo_restored.1)) ≡ₚ [demo_recovered].
Proof.
  destruct (restore_exact demo_config demo_batch demo_restored.1 demo_restored.2) as (? & ? & _);
    [vm_compute; reflexivity|]. by split.
Defined.

(** The batches a dispatcher takes from a plan, [n] of them. *)
Fixpoint drain_plan (n : nat) (plan : SchedulerRestorePlan) : list (list TransitionEffect) * SchedulerRestorePlan :=
  match n with
  | O => ([], plan)
  | S n =>
      let '(batch, plan) := SchedulerRestorePlan_next_batch plan in
      let '(batches, plan) := drain_plan n plan in
      (batch :: batches, plan)
  end.

(** a restore plan drains.  Taking batches until the plan is empty delivers
    its effects once each and in order, in batches no larger than an outcome,
    and an eighth of the effects (rounded up) is the number of batches that
    empties it. *)
Theorem restore_plan_drains plan n :
  let '(batches, rest) := drain_plan n plan in
  List.concat batches ++ rp_effects rest = rp_effects plan /\
  (forall batch, batch ∈ batches -> vec_len batch <= MAX_SCHEDULER_EFFECTS) /\
  SchedulerRestorePlan_is_empty rest = (SchedulerRestorePlan_remaining plan <=? MAX_SCHEDULER_EFFECTS * N.of_nat n).
Proof.
  revert plan. induction n as [|n IH]; intros plan; cbn [drain_plan].
  { split_and!; [done|by intros ? ?%not_elem_of_nil|]. unfold SchedulerRestorePlan_remaining, vec_len.
    destruct plan as [[|e eff] count s]; [done|]. cbn. symmetry. apply N.leb_gt. lia. }
  destruct (SchedulerRestorePlan_next_batch plan) as [batch plan1] eqn:E. specialize (IH plan1).
  destruct (drain_plan n plan1) as [batches rest]. destruct IH as (Hc & Hb & He).
  unfold SchedulerRestorePlan_next_batch in E. injection E as <- <-. cbn [rp_effects] in Hc. split_and!.
  - cbn [List.concat]. rewrite <- app_assoc, Hc. apply take_drop.
  - intros batch [->|?]%elem_of_cons; [|by apply Hb]. unfold vec_len. rewrite length_take. lia.
  - rewrite He. unfold SchedulerRestorePlan_remaining, vec_len. cbn [rp_effects]. rewrite length_drop.
    unfold vec_len. apply eq_true_iff_eq. rewrite !N.leb_le. change MAX_SCHEDULER_EFFECTS with 8. lia.
Qed.

(** ** Stale events *)

(** C9: only the current generation of a task can move it.  An event that
    changes the scheduler at all addresses an existing task by its GID and its
    task id and carries that task's current generation, and it changes no
    other task. *)
Theorem event_effective_only_at_current_generation s log envelope at_ s' r :
  trace s log -> run_op (OpEvent envelope at_) s = (s', r) -> s' <> s ->
  exists o, rs_tasks s !! TaskEvent_gid (te_event envelope) = Some o /\ t_task_id o = te_task_id envelope /\
    t_generation o = TaskEvent_generation (te_event envelope) /\
    forall gid, gid <> TaskEvent_gid (te_event envelope) -> rs_tasks s' !! gid = rs_tasks s !! gid.
Proof.
  intros Ht E Hne. cbn [run_op] in E.
  pose proof (handle_event_at_handled s at_ (wf_tasks _ (trace_wf _ _ Ht)) envelope) as Hh. rewrite E in Hh.
  inversion Hh as [|out _|p Hok Er]; subst; [done..|]. pose proof (pk_input _ _ _ Hok) as (Ei & Eg & Egen).
  exists (p_original p). rewrite <- Eg. split_and!; [apply Hok|done|done|]. intros gid Hg.
  unfold run_plan in Er. rewrite finish_action_eq in Er. destruct (plan_action _ _ _ _ _ _ _ _) as [[[ups pub] out]|e].
  - injection Er as <- <-. rewrite commit_tasks. pose proof (pk_updated _ _ _ Hok) as Hu.
    destruct (p_updated p); [destruct Hu as (-> & _); by rewrite lookup_insert_ne|by rewrite lookup_delete_ne].
  - injection Er as <- <-. done.
Qed.

Lemma event_effective_only_at_current_generation_witness :
  exists o, rs_tasks (run_ops (take 2 demo_download) (RequestScheduler_new demo_config)).1 !! 16 = Some o /\
    t_generation o = 0.
Proof.
  destruct (event_effective_only_at_current_generation
    (run_ops (take 2 demo_download) (RequestScheduler_new demo_config)).1
    (run_ops (take 2 demo_download) (RequestScheduler_new demo_config)).2
    (TaskEvent_for_task (TaskEvent.GenerationPersisted 16 0) 1) 0 _ _ (run_ops_trace _ _ (started_new demo_config)) eq_refl)
    as (o & Ho & _ & Eg & _); [|by exists o].
  apply (bool_decide_eq_false_1 _). vm_compute. reflexivity.
Defined.
