(* ===== verification/SchedulerProgress.v ===== *)
(** * Progress of the scheduler

    When an action that the contract accepts is certain to commit, and with it
    when an admission and the steps of a download are certain to succeed. *)

From S2P Require Import Prelude Ids Errors State Snapshot PersistedDelay CommandKinds Transition Command.
From S2P Require Import Scheduler SchedulerCommands SchedulerEvents SchedulerRestore SchedulerInv.
From S2P Require Import SchedulerPlans SchedulerHandlers SchedulerAcks SchedulerOps SchedulerAdmission SchedulerWf.
From S2P Require Import SchedulerRestoreWf SchedulerReach SchedulerTrace SchedulerProperties.
From Stdlib Require Import Ascii String.
Open Scope list_scope.

(** ** Commits *)

(** A task that satisfies its invariant has a snapshot that validates, unless
    its result waits to be persisted. *)
Lemma snapshot_progress t holds :
  task_inv t -> TaskState_is_terminal_pending (t_state t) = false -> conditions_ok t ->
  exists sn, ScheduledTask_snapshot t holds = Ok sn.
Proof.
  intros Hinv Hp Hc. unfold ScheduledTask_snapshot.
  match goal with |- context [TaskSnapshot_validate ?x] => assert (publishable x) as Hpub end.
  { destruct Hinv as [Hst _ Hch Hss Hper _ _ _ _]. constructor; cbn [sn_durable_length sn_completed_length sn_total_length
      sn_state sn_host_key_challenge sn_error sn_stopped_status sn_terminal_persisted sn_conditions]; try done.
    - rewrite <- Hch. destruct (t_host_key_challenge t); cbn; split; (by intros [? ?]) || done.
    - intros Es Estat. unfold state_inv in Hst. rewrite Es in Hst. destruct Hst as (_ & status & E & _ & Herr).
      apply Herr. congruence.
    - intros Es. unfold state_inv in Hst. rewrite Es in Hst. destruct Hst as (_ & status & E & ? & _). eauto.
    - intros Hne. apply eq_None_not_Some. by intros ?%Hss.
    - intros Hb. apply Hc. unfold unblocked, TaskConditions_blocks_admission. cbn in Hb.
      destruct (is_some (tc_no_space _)), (is_some (tc_needs_credentials _)); done. }
  rewrite (publishable_snapshot_validate _ Hpub). by eexists.
Qed.

Lemma queue_memberships_class s gid t class :
  wf s -> rs_tasks s !! gid = Some t -> ScheduledTask_queue_class t = Some class ->
  queue_memberships s gid = [class].
Proof.
  intros Hw Ht Hc. assert (forall c, gid ∈ SchedulerQueues_get (rs_queues s) c <-> c = class) as Hm.
  { intros c. rewrite (wf_members _ Hw). split; [intros (t' & ? & ?); congruence|intros ->; eauto]. }
  unfold queue_memberships. rewrite (list_filter_iff _ (fun c => c = class) _ Hm). by destruct class.
Qed.

(** A move between two queues is always possible. *)
Lemma queue_updates_progress s gid t class class' :
  wf s -> rs_tasks s !! gid = Some t -> ScheduledTask_queue_class t = Some class ->
  exists ups, queue_updates s gid (Some class) (Some class') = Ok ups /\
    (class = class' <-> ups = []) /\
    forall update, update ∈ ups -> qu_class update = class \/ qu_class update = class'.
Proof.
  intros Hw Ht Hc. unfold queue_updates. rewrite (queue_memberships_class _ _ _ _ Hw Ht Hc), bool_decide_true by done.
  cbn [negb]. case_bool_decide as E; [injection E as <-; exists []; set_solver|].
  destruct (position gid (SchedulerQueues_get (rs_queues s) class)) as [n|] eqn:Ep; cycle 1.
  { apply position_None in Ep. destruct Ep. apply (wf_members _ Hw). eauto. }
  cbn [ok_or mbind result_bind]. destruct (contains _ gid) eqn:Ec.
  { apply contains_true, (wf_members _ Hw) in Ec as (t' & ? & ?). congruence. }
  eexists. split; [done|]. split; [naive_solver|]. intros update. cbn [app]. rewrite !elem_of_cons. set_solver.
Qed.

Record commits (s : RequestScheduler) (o u : ScheduledTask) (action : SchedulerAction) (eff : list TransitionEffect)
    (publish : bool) (class class' : QueueClass) : Prop := {
  cm_lookup : rs_tasks s !! t_gid o = Some o;
  cm_accepts : moves (ct_kind (transition_contract (t_state o) action)) = true;
  cm_target : t_state u ∈ ct_targets (transition_contract (t_state o) action);
  cm_class : ScheduledTask_queue_class o = Some class;
  cm_class' : ScheduledTask_queue_class u = Some class';
  cm_stopped : class = class' \/ pending_stopped_deletion s = None \/ class <> QueueClass.Stopped /\ class' <> QueueClass.Stopped;
  cm_terminal : terminal_persistence o (Some u) = None \/ class' = QueueClass.Stopped /\ class <> class';
  cm_snapshot : publish = true ->
    task_inv u /\ TaskState_is_terminal_pending (t_state u) = false /\ conditions_ok u;
  cm_length : (List.length eff <= 6)%nat;
}.

Section commits.
Context (s : RequestScheduler) (o u : ScheduledTask) (action : SchedulerAction) (eff : list TransitionEffect).
Context (publish : bool) (class class' : QueueClass).
Hypothesis Hw : wf s.
Hypothesis Hc : commits s o u action eff publish class class'.

Lemma commits_persist ups :
  (class = class' <-> ups = []) ->
  exists eff1, persist_effects s o (Some u) true action (Some class) (Some class') ups eff = Ok eff1 /\
    (List.length eff1 <= 7)%nat.
Proof.
  destruct Hc as [_ _ _ _ _ _ Ht _ Hlen]. intros Hups. unfold persist_effects.
  destruct (terminal_persistence o (Some u)) as [[[g st] er]|].
  - destruct Ht as [[=]|[-> Hne]]. cbn [ok_or mbind result_bind]. rewrite bool_decide_true by done.
    destruct ups as [|up ups]; [naive_solver|]. cbn [negb orb]. eexists. split; [done|]. rewrite length_app. cbn. lia.
  - cbn [is_some andb]. destruct (_ || _); [|eexists; split; [done|lia]].
    assert (exists orders, (match ups with
      | [] => class ← ok_or (class ← Some class; if Some class' == Some class then Some class else None)
                        SchedulerError.InternalInvariant;
              Ok [mkQueueOrder class (SchedulerQueues_get (rs_queues s) class)]
      | _ => Ok (queue_orders ups) end) = Ok orders) as [orders ->].
    { destruct ups; [|eauto]. destruct Hups as [_ ->]; [|done]. cbn [mbind option_bind]. rewrite bool_decide_true by done. eauto. }
    cbn [mbind result_bind]. eexists. split; [done|].
    destruct action; rewrite ?length_app; cbn [List.length]; lia.
Qed.

Lemma commits_plan at_ :
  exists ups pub out, plan_action s o (Some u) true action at_ eff publish = Ok (ups, pub, out).
Proof.
  destruct (queue_updates_progress s (t_gid o) o class class' Hw (cm_lookup _ _ _ _ _ _ _ _ Hc) (cm_class _ _ _ _ _ _ _ _ Hc))
    as (ups & Eups & Hups & Hcl).
  destruct (commits_persist ups Hups) as (eff1 & Eeff & Hlen). destruct Hc as [Hl Ha Htg Eo Eu Hst Hterm Hsn _].
  unfold plan_action. cbn [mbind option_bind]. rewrite Eo, Eu.
  assert (TransitionContract_accepts (transition_contract (t_state o) action) = true) as ->.
  { unfold TransitionContract_accepts. by destruct (ct_kind _). }
  cbn [negb]. rewrite Eups. cbn [mbind result_bind].
  assert (exists pub, (if publish then task ← ok_or (Some u) SchedulerError.InternalInvariant;
    snapshot ← ScheduledTask_snapshot task (sc_retry_wait_holds_slot (rs_config s)); Ok (Some snapshot)
    else Ok None) = Ok pub) as [pub Epub].
  { destruct publish; [|eauto]. destruct (Hsn eq_refl) as (? & ? & ?). cbn [ok_or mbind result_bind].
    destruct (snapshot_progress u (sc_retry_wait_holds_slot (rs_config s))) as [sn ->]; eauto. }
  rewrite Epub. assert (exists x, contract_outcome (transition_contract (t_state o) action) o (Some u) at_ = Ok x) as [x Ex].
  { unfold contract_outcome. apply contains_true in Htg. destruct (ct_kind _); try discriminate Ha; cbn [ok_or mbind result_bind];
      rewrite Htg; eauto. }
  rewrite Ex, Eeff. assert ((if (action != SchedulerAction.StoppedResultDeletionSucceeded)
    && existsb (fun update => qu_class update == QueueClass.Stopped) ups
    then match pending_stopped_deletion s with
         | Some barrier => Err (SchedulerError.PendingBarrier barrier (SchedulerAction_code action))
         | None => Ok tt end else Ok tt) = Ok tt) as ->.
  { destruct (existsb _ ups) eqn:E; [|by rewrite andb_false_r]. apply existsb_exists in E as (up & Hin%list_elem_of_In & E).
    apply bool_decide_eq_true in E. apply Hcl in Hin as Hin'. destruct Hst as [->|[->|[? ?]]]; [|by destruct (_ && _)|naive_solver].
    apply proj1 in Hups. rewrite Hups in Hin by done. by apply not_elem_of_nil in Hin. }
  cbn [mbind result_bind]. unfold SchedulerOutcome_checked. destruct (N.ltb_spec MAX_SCHEDULER_EFFECTS (vec_len
    match pub with Some sn => eff1 ++ [TransitionEffect.PublishSnapshot (t_task_id o) sn] | None => eff1 end)) as [Hlt|];
    [|by do 3 eexists].
  exfalso. unfold vec_len in Hlt. change MAX_SCHEDULER_EFFECTS with 8 in Hlt. destruct pub; rewrite ?length_app in Hlt; cbn in Hlt; lia.
Qed.

Lemma commits_finish at_ ids :
  exists ups pub out, finish_action o (Some u) true action at_ eff publish ids s =
    (commit_action o (Some u) ups pub ids s, Ok out).
Proof. destruct (commits_plan at_) as (ups & pub & out & E). rewrite finish_action_eq, E. by do 3 eexists. Qed.
End commits.

(** ** Admission *)

(** The tasks an admission may pick. *)
Definition eligible (t : ScheduledTask) : bool :=
  is_pending_restart_patch t || is_retained_retry t || is_waiting_candidate t || is_demoted_candidate t.

Lemma find_task_None s class test gid t :
  find_task s class test = None -> gid ∈ SchedulerQueues_get (rs_queues s) class ->
  rs_tasks s !! gid = Some t -> test t = false.
Proof.
  unfold find_task. intros H Hin Ht. destruct (filter _ _) as [|g l] eqn:E; [|done].
  destruct (test t) eqn:Et; [|done]. exfalso. apply (not_elem_of_nil gid). rewrite <- E.
  apply list_elem_of_filter. by rewrite Ht.
Qed.

Lemma option_or_None {A} (a b : option A) : option_or a b = None <-> a = None /\ b = None.
Proof. destruct a; naive_solver. Qed.

(** No queue hides a task from the admission. *)
Lemma admission_choice_None s gid t :
  wf s -> admission_choice s = None -> rs_tasks s !! gid = Some t -> eligible t = false.
Proof.
  intros Hw H Ht. unfold admission_choice in H. apply option_or_None in H as [E1 H]. apply option_or_None in H as [E2 H].
  apply option_or_None in H as [_ H]. apply option_or_None in H as [E4 E3].
  assert (forall class test, find_task s class test = None -> ScheduledTask_queue_class t = Some class -> test t = false)
    as Hf by (intros class test E Hc; eapply find_task_None; eauto; apply (wf_members _ Hw); eauto).
  pose proof (wf_tasks _ Hw _ _ Ht) as [_ Hinv]. pose proof (ti_state _ Hinv) as Hst. unfold state_inv in Hst.
  pose proof (Hf _ _ E1) as F1. pose proof (Hf _ _ E2) as F2. pose proof (Hf _ _ E3) as F3. pose proof (Hf _ _ E4) as F4.
  clear Hf E1 E2 E3 E4. unfold eligible, ScheduledTask_queue_class in *. fold (owns_slot t) in F1, F2, F3, F4.
  unfold is_pending_restart_patch, is_retained_retry, is_waiting_candidate, is_demoted_candidate in *.
  destruct (t_state t); try (cbn in *; rewrite ?andb_false_r in *; cbn; done).
  - rewrite F1, F4 by done. done.
  - rewrite F3 by done. cbn. by rewrite andb_false_r.
  - destruct (owns_slot t) eqn:Eo.
    + destruct Hst as [_ Hst]. rewrite (Hst eq_refl) in *. specialize (F2 eq_refl). cbn in F2 |- *.
      destruct (t_retry_ready t), (admissible t); try discriminate F2; cbn; by rewrite ?andb_false_r.
    + rewrite F4 by done. unfold owns_slot in Eo. destruct (t_slot t); try discriminate Eo. cbn. by rewrite !andb_false_r.
Qed.

(** What a successful admission does to the task it picked. *)
Definition admits (o u : ScheduledTask) : Prop :=
  (t_state u = TaskState.Allocating /\ t_slot u = SlotOwnership.Reserved /\
   t_pending_barrier u = Some (PendingBarrier.GenerationPersistence (t_generation u))) \/
  exists patch_id, t_pending_option_patch o = Some patch_id /\
    t_pending_barrier u = Some (PendingBarrier.OptionPatchApplication (t_generation o) patch_id).

Section admission.
Context (s : RequestScheduler) (o : ScheduledTask) (at_ : MonotonicInstant).
Hypothesis Hw : wf s.
Hypothesis Hl : rs_tasks s !! t_gid o = Some o.
Hypothesis He : eligible o = true.
Hypothesis Hfree : active_slot_count s < sc_max_active_tasks (rs_config s).
Hypothesis Hgen : t_generation o < U64_MAX.

Lemma eligible_state :
  t_state o = TaskState.Waiting \/ t_state o = TaskState.RetryWait \/ t_state o = TaskState.WaitingSlow.
Proof.
  unfold eligible, is_pending_restart_patch, is_retained_retry, is_waiting_candidate, is_demoted_candidate in He.
  destruct (t_state o); auto; cbn in He; by rewrite ?andb_false_r in He.
Qed.

Lemma eligible_unblocked :
  t_pending_barrier o = None /\ t_desired_paused o = false /\ TaskConditions_blocks_admission (t_conditions o) = false.
Proof.
  destruct (wf_tasks _ Hw _ _ Hl) as [_ Hinv]. pose proof (ti_staged _ Hinv) as Hs. unfold is_staged, unblocked in Hs.
  unfold eligible, is_pending_restart_patch, is_retained_retry, is_waiting_candidate, is_demoted_candidate, admissible in He.
  destruct (t_pending_barrier o), (t_desired_paused o), (TaskConditions_blocks_admission (t_conditions o)) eqn:Eb;
    cbn in He; rewrite ?andb_false_r in He; try done. cbn in He.
  rewrite !orb_false_r in He. apply andb_true_iff in He as [_ Em%bool_decide_eq_true]. by destruct (Hs Em).
Qed.

Lemma eligible_restart patch_id :
  t_state o = TaskState.Waiting -> t_pending_option_patch o = Some patch_id ->
  let u := o <| t_pending_barrier := Some (PendingBarrier.OptionPatchApplication (t_generation o) patch_id) |> in
  commits s o u SchedulerAction.RestartApplicationScheduled
    [TransitionEffect.ApplyOptionPatch (t_task_id u) (t_gid u) patch_id (t_pending_credential_requirement u)]
    false QueueClass.Waiting QueueClass.Waiting.
Proof.
  intros Es Ep u. constructor; try done; try (unfold u; simpl_task; by rewrite Es).
  - unfold u. simpl_task. rewrite Es. cbn. left.
  - unfold ScheduledTask_queue_class. by rewrite Es.
  - unfold ScheduledTask_queue_class, u. simpl_task. by rewrite Es.
  - by left.
  - by left.
  - cbn. lia.
Qed.

Definition admission_action (t : ScheduledTask) : SchedulerAction :=
  match t_state t with
  | TaskState.RetryWait => SchedulerAction.RetryReadmissionSucceeded
  | TaskState.WaitingSlow => SchedulerAction.SlowReadmissionSucceeded
  | _ => SchedulerAction.SchedulerAdmission
  end.

Lemma eligible_plan :
  exists g, plan_admission s o (admission_action o) [] =
    Ok (admitted o g, [TransitionEffect.PersistGenerationStarted (t_task_id o) (t_gid o) g]).
Proof.
  destruct eligible_unblocked as (Eb & Ed & Ec). pose proof eligible_state as Hst.
  assert (exists r, plan_admission s o (admission_action o) [] = Ok r) as [[w eff] E].
  { unfold plan_admission, reject_pending, admission_action. rewrite Eb, Ed, Ec. cbn [mbind result_bind orb].
    apply N.leb_gt in Hfree. rewrite Hfree, andb_false_r.
    assert (is_Some (Generation_checked_next (t_generation o))) as [g Eg].
    { unfold Generation_checked_next, u64_checked_add. destruct (N.leb_spec (t_generation o + 1) U64_MAX); [eauto|lia]. }
    unfold target_state, target_for_action. destruct Hst as [-> | [-> | ->]]; cbn [ok_or mbind result_bind];
      cbn; rewrite Eg; destruct (t_generation_started o); cbn; eauto. }
  pose proof E as (g & -> & -> & _)%plan_admission_Ok. eauto.
Qed.

Lemma eligible_admission g :
  (t_state o == TaskState.Waiting)
    && (t_pending_option_patch_mode o == Some PendingOptionPatchMode.ActiveRestart) = false ->
  plan_admission s o (admission_action o) [] =
    Ok (admitted o g, [TransitionEffect.PersistGenerationStarted (t_task_id o) (t_gid o) g]) ->
  exists class, commits s o (admitted o g) (admission_action o)
    [TransitionEffect.PersistGenerationStarted (t_task_id o) (t_gid o) g] true class QueueClass.Active.
Proof.
  intros Hp E. destruct (wf_tasks _ Hw _ _ Hl) as [_ Hinv]. pose proof eligible_state as Hst.
  assert (t_state (admitted o g) = TaskState.Allocating) as Ea by (unfold admitted; by simpl_task).
  assert (task_inv (admitted o g)) as Hu.
  { apply admission_plan in E; [|unfold admission_action; by destruct Hst as [->|[->| ->]]|done..].
    apply (pk_updated _ _ _ E). intros _. unfold conditions_ok, unblocked.
    rewrite (af_conditions _ _ (admitted_frames o g)). by destruct eligible_unblocked as (_ & _ & ->). }
  assert (exists class, ScheduledTask_queue_class o = Some class /\ class <> QueueClass.Stopped) as (class & Ecl & Hne).
  { unfold ScheduledTask_queue_class. destruct Hst as [->|[->| ->]]; eauto. by destruct (SlotOwnership_owns_slot _); eauto. }
  exists class. constructor; try done; unfold admission_action.
  - by destruct Hst as [->|[->| ->]].
  - rewrite Ea. destruct Hst as [->|[->| ->]]; cbn; left.
  - by right; right.
  - left. unfold terminal_persistence, admitted. cbn [mbind option_bind]. by simpl_task.
  - intros _. rewrite Ea. split_and!; [done..|]. intros Hb. destruct Hb. unfold unblocked.
    rewrite (af_conditions _ _ (admitted_frames o g)). by destruct eligible_unblocked as (_ & _ & ->).
  - cbn. lia.
Qed.

Lemma admission_progress :
  admission_choice s = Some (t_gid o) ->
  exists s' out u, admit_next_at at_ s = (s', Ok out) /\ rs_tasks s' !! t_gid o = Some u /\ admits o u.
Proof.
  intros Ec. pose proof eligible_state as Hst. destruct (wf_tasks _ Hw _ _ Hl) as [_ Hinv].
  unfold admit_next_at, get_self, lift, mbind, sched_bind. rewrite Ec. cbn [ok_or]. unfold task_clone. rewrite Hl. cbn [ok_or].
  destruct (_ && _) eqn:Ep.
  - apply andb_true_iff in Ep as [Es%bool_decide_eq_true Em%bool_decide_eq_true].
    destruct (ti_mode _ Hinv) as [[patch_id Epatch] _]; [by rewrite Em|]. rewrite Epatch. cbn [ok_or].
    destruct (commits_finish _ _ _ _ _ _ _ _ Hw (eligible_restart _ Es Epatch) at_ (rs_ids s)) as (ups & pub & out & E).
    rewrite E. eexists _, _, _. split; [done|]. rewrite commit_tasks. simpl_task. rewrite lookup_insert_eq.
    split; [done|]. right. by exists patch_id.
  - destruct eligible_plan as [g Eg]. destruct (eligible_admission g Ep Eg) as (class & Hc).
    replace (match t_state o with TaskState.Waiting => _ | _ => _ end)
      with (Ok (admission_action o) : result SchedulerError _)
      by (unfold admission_action; by destruct Hst as [->|[->| ->]]).
    rewrite Eg. destruct (commits_finish _ _ _ _ _ _ _ _ Hw Hc at_ (rs_ids s)) as (ups & pub & out & E). rewrite E.
    eexists _, _, (adv (t_state o != TaskState.WaitingSlow) (admitted o g)). split; [done|]. cbn [modify].
    unfold modify. cbn [fst]. pose proof (advance_tasks_lookup (t_state o != TaskState.WaitingSlow)
      (commit_action o (Some (admitted o g)) ups pub (rs_ids s) s) (t_gid o)) as Hadv.
    rewrite commit_tasks, (af_gid _ _ (admitted_frames o g)), lookup_insert_eq in Hadv. split; [exact Hadv|]. left.
    destruct (adv_fields (t_state o != TaskState.WaitingSlow) (admitted o g)) as (_ & _ & -> & _ & -> & -> & _).
    rewrite generation_admitted. split_and!; [unfold admitted; by simpl_task| |unfold admitted; by simpl_task].
    unfold adv, advance_slow_position.
    destruct (_ != _), (t_slow_readmission_ready (admitted o g)); unfold admitted; by simpl_task.
Qed.
End admission.

(** ** Events *)





Section download.
Context (o : ScheduledTask).
Hypothesis Hinv : task_inv o.
Hypothesis Hbar : t_pending_barrier o = Some (PendingBarrier.GenerationPersistence (t_generation o)).
Hypothesis Hseen : t_seen_events o = ∅.








End download.

(** ** Guarantees *)

(** C7: admission is work conserving.  While a slot is free and no generation
    counter is used up, an admission succeeds if and only if some task is
    eligible, in whatever queue it waits, and it then moves one eligible task
    to its next barrier: the persistence of a generation that reserves a slot,
    or the application of a pending patch.  Otherwise it changes nothing and
    reports that no task is eligible. *)
Theorem admission_work_conserving s log at_ :
  trace s log -> active_slot_count s < sc_max_active_tasks (rs_config s) ->
  (forall gid t, rs_tasks s !! gid = Some t -> t_generation t < U64_MAX) ->
  match run_op (OpAdmit at_) s with
  | (s', Ok out) => exists gid o u, rs_tasks s !! gid = Some o /\ eligible o = true /\
      rs_tasks s' !! gid = Some u /\ admits o u
  | (s', Err e) => s' = s /\ e = SchedulerError.NoEligibleTask /\
      forall gid t, rs_tasks s !! gid = Some t -> eligible t = false
  end.
Proof.
  intros Hw%trace_wf Hfree Hgen. cbn [run_op]. destruct (admission_choice s) as [gid|] eqn:Ec.
  - destruct (admission_choice_Some _ _ Ec) as (o & Hl & He). destruct (wf_tasks _ Hw _ _ Hl) as [Eg _]. rewrite <- Eg in Ec, Hl.
    destruct (admission_progress s o at_ Hw Hl He Hfree (Hgen _ _ Hl) Ec) as (s' & out & u & -> & Hu & Ha).
    by exists (t_gid o), o, u.
  - unfold admit_next_at, get_self, lift, mbind, sched_bind. rewrite Ec. unfold blocked_by_slots.
    apply N.leb_gt in Hfree. rewrite Hfree, andb_false_r. cbn [ok_or]. split_and!; try done.
    intros gid t Ht. by eapply admission_choice_None.
Qed.

Lemma admission_work_conserving_witness :
  let s := (run_ops (take 1 demo_download) (RequestScheduler_new demo_config)).1 in
  match run_op (OpAdmit 0) s with
  | (s', Ok out) => exists gid o u, rs_tasks s !! gid = Some o /\ eligible o = true /\
      rs_tasks s' !! gid = Some u /\ admits o u
  | (s', Err e) => s' = s /\ e = SchedulerError.NoEligibleTask /\
      forall gid t, rs_tasks s !! gid = Some t -> eligible t = false
  end.
Proof.
  intros s. apply (admission_work_conserving s (run_ops (take 1 demo_download) (RequestScheduler_new demo_config)).2).
  - apply run_ops_trace. constructor.
  - vm_compute. reflexivity.
  - intros gid t. unfold s. replace (rs_tasks _) with ({[16 := new_task 1 16 false TaskConditions_default]} : gmap Gid ScheduledTask)
      by (vm_compute; reflexivity). intros [_ <-]%lookup_singleton_Some. vm_compute. reflexivity.
Defined.



