(* ===== verification/SchedulerFindings.v ===== *)
(** * Runs that get stuck

    Concrete runs in which the scheduler accepts every step and then rejects,
    or ignores, the acknowledgement a task waits for.  Each is evaluated. *)

From S2P Require Import Prelude Ids Errors State Snapshot PersistedDelay CommandKinds Transition Command.
From S2P Require Import Scheduler SchedulerCommands SchedulerEvents SchedulerReach SchedulerTrace SchedulerProperties.
From Stdlib Require Import Ascii String.
Open Scope list_scope.

Definition run_demo (ops : list SchedulerOp) : RequestScheduler := (run_ops ops (RequestScheduler_new demo_config)).1.
Definition demo_command (command : SchedulerCommand) : SchedulerOp := OpCommand command 0.

(** Whether every step so far was accepted. *)
Definition all_accepted (ops : list SchedulerOp) : bool :=
  forallb (fun entry => is_ok entry.2) (run_ops ops (RequestScheduler_new demo_config)).2.

(** The state and the barrier the task is left in. *)
Definition left_in (ops : list SchedulerOp) : option (TaskState * option PendingBarrier) :=
  (fun t => (t_state t, t_pending_barrier t)) <$> rs_tasks (run_demo ops) !! 16.

(** The answer to one more event of the task, and whether nothing changed. *)
Definition answer (ops : list SchedulerOp) (event : TaskEvent) (at_ : MonotonicInstant)
    : result SchedulerError SchedulerOutcome * bool :=
  let '(s, r) := run_op (OpEvent (TaskEvent_for_task event 1) at_) (run_demo ops) in
  (r, bool_decide (s = run_demo ops)).

Definition admitted_download : list SchedulerOp :=
  [ demo_command (SchedulerCommand.AddValidatedTask 1 16 false TaskConditions_default);
    OpAdmit 0;
    demo_event (TaskEvent.GenerationPersisted 16 0);
    demo_event (TaskEvent.AllocationSucceeded 16 0) ].

(** ** Removal of a task that waits for credentials *)




(** ** A pause after a pause for slowness *)

Definition paused_while_slow : list SchedulerOp :=
  admitted_download ++
  [ demo_event (TaskEvent.SlowPaused 16 0);
    demo_command (SchedulerCommand.Pause 16 false) ].

(** a user pause after a slow pause strands the task.  The contract keeps
    the state, but the pending drain is retargeted, so the acknowledgement of
    the drain no longer matches the state and is rejected; the slot stays
    taken. *)
Theorem pause_of_slow_pause_strands_slot at_ :
  all_accepted paused_while_slow = true /\
  left_in paused_while_slow =
    Some (TaskState.PausedSlow, Some (PendingBarrier.CancellationDrain 0 DrainTarget.Paused false)) /\
  active_slot_count (run_demo paused_while_slow) = 1 /\
  answer paused_while_slow (TaskEvent.CancellationDrained 16 0) at_ = (Err SchedulerError.InternalInvariant, true).
Proof. split_and!; vm_compute; reflexivity. Qed.

(** ** Removal of a quiesced source replacement *)

Definition removed_while_quiesced : list SchedulerOp :=
  admitted_download ++
  [ demo_command (SchedulerCommand.BeginSourceReplacement 16);
    demo_event (TaskEvent.CancellationDrained 16 0);
    demo_command (SchedulerCommand.Remove 16 false) ].

(** removing a task whose source replacement is quiesced strands it.  The
    removal waits for a second drain of the same generation, and the
    acknowledgement of that drain is ignored as a duplicate. *)
Theorem removal_of_quiesced_replacement_strands_it at_ :
  all_accepted removed_while_quiesced = true /\
  left_in removed_while_quiesced =
    Some (TaskState.Removed, Some (PendingBarrier.CancellationDrain 0 DrainTarget.Removed false)) /\
  exists out, answer removed_while_quiesced (TaskEvent.CancellationDrained 16 0) at_ = (Ok out, true) /\
    st_reason <$> o_transition out = Some StateReason.DuplicateEventIgnored.
Proof. split_and!; [vm_compute; reflexivity..|]. eexists. split; vm_compute; reflexivity. Qed.

(** ** Removal of a source replacement that began while waiting to retry *)

Definition removed_while_waiting_to_retry : list SchedulerOp :=
  [ demo_command (SchedulerCommand.AddValidatedTask 1 16 false TaskConditions_default);
    OpAdmit 0;
    demo_event (TaskEvent.GenerationPersisted 16 0);
    demo_event (TaskEvent.AllocationRetryable 16 0 5);
    demo_command (SchedulerCommand.BeginSourceReplacement 16);
    demo_command (SchedulerCommand.Remove 16 false) ].

(** so does removing one that began while the task waited to retry without
    a slot: the drain that the removal waits for cannot be acknowledged. *)
Theorem removal_of_slotless_replacement_strands_it at_ :
  all_accepted removed_while_waiting_to_retry = true /\
  left_in removed_while_waiting_to_retry =
    Some (TaskState.Removed, Some (PendingBarrier.CancellationDrain 0 DrainTarget.Removed false)) /\
  answer removed_while_waiting_to_retry (TaskEvent.CancellationDrained 16 0) at_ =
    (Err SchedulerError.InternalInvariant, true).
Proof. split_and!; vm_compute; reflexivity. Qed.

(** ** A deferred pause that is taken back *)

Definition resumed_without_timer : list SchedulerOp :=
  [ demo_command (SchedulerCommand.AddValidatedTask 1 16 false TaskConditions_default);
    OpAdmit 0;
    demo_event (TaskEvent.GenerationPersisted 16 0);
    demo_event (TaskEvent.AllocationRetryable 16 0 5);
    demo_command (SchedulerCommand.ApplyOptionPatch 16 1 ValidatedOptionPatchKind.InPlace None);
    demo_command (SchedulerCommand.Pause 16 false);
    demo_command (SchedulerCommand.Resume 16);
    demo_event (TaskEvent.OptionPatchApplied 16 0 1) ].

(** a pause that is deferred behind an option patch and then taken back
    loses the retry timer: the task waits to retry, unpaused, with no timer and
    not ready, and admission never finds it. *)
Theorem withdrawn_pause_loses_retry_timer at_ :
  all_accepted resumed_without_timer = true /\
  (fun t => (t_state t, t_desired_paused t, t_pending_barrier t)) <$>
    rs_tasks (run_demo resumed_without_timer) !! 16 = Some (TaskState.RetryWait, false, None) /\
  (fun t => (t_retry_timer t, t_retry_ready t)) <$>
    rs_tasks (run_demo resumed_without_timer) !! 16 = Some (None, false) /\
  (run_op (OpAdmit at_) (run_demo resumed_without_timer)).2 = Err SchedulerError.NoEligibleTask.
Proof. split_and!; vm_compute; reflexivity. Qed.

(** ** A pause of a host-key wait during a patch *)

Definition demo_challenge : PresentedHostKeyChallenge :=
  {| ph_summary := mkHostKeyChallenge [] "host"%string 22 "ssh-ed25519"%string []; ph_presented_public_key := [1] |}.

Definition paused_while_patching_host_key : list SchedulerOp :=
  [ demo_command (SchedulerCommand.AddValidatedTask 1 16 false TaskConditions_default);
    OpAdmit 0;
    demo_event (TaskEvent.GenerationPersisted 16 0);
    demo_event (TaskEvent.AllocationHostKeyChallenge 16 0 demo_challenge);
    demo_command (SchedulerCommand.ApplyOptionPatch 16 1 ValidatedOptionPatchKind.InPlace None);
    demo_command (SchedulerCommand.Pause 16 false) ].

(** a pause deferred behind a patch of a task that waits for a host key
    makes the patch acknowledgement a conflict. *)
Theorem pause_during_host_key_patch_strands_it at_ :
  all_accepted paused_while_patching_host_key = true /\
  left_in paused_while_patching_host_key =
    Some (TaskState.PausedHostKey, Some (PendingBarrier.OptionPatchApplication 0 1)) /\
  answer paused_while_patching_host_key (TaskEvent.OptionPatchApplied 16 0 1) at_ =
    (Err (SchedulerError.Conflict TaskState.PausedHostKey "deferred_pause_completed"%string), true).
Proof. split_and!; vm_compute; reflexivity. Qed.
