(* ===== verification/Bytes.v ===== *)
(** * Byte strings and little-endian integers

    What the storage crate uses of the Rust standard library on bytes: fixed
    slices, [to_le_bytes]/[from_le_bytes], and the two external digests as an
    operational class.  A byte string is a [list byte]; lengths and offsets are
    [usize] values, kept in [N]. *)

From S2P Require Import Prelude.
From Stdlib Require Import Init.Byte Strings.Byte.
From Stdlib Require String.
Open Scope list_scope.

Notation bytes := (list byte).

#[global] Instance byte_eq_dec : EqDecision byte := byte_eq_dec.

(** A Rust byte-string literal. *)
Definition ascii_bytes (s : string) : bytes := String.list_byte_of_string s.

(** [b as u64] and [n as u8]. *)
Definition byte_val (b : byte) : N := Byte.to_N b.
Definition byte_of (n : N) : byte := default x00 (Byte.of_N (n mod 256)).

(** [slice::len]. *)
Definition blen {A} (l : list A) : N := N.of_nat (length l).

(** [&input[offset .. offset + len]] and [&input[offset ..]]. *)
Definition slice {A} (offset len : N) (l : list A) : list A :=
  take (N.to_nat len) (drop (N.to_nat offset) l).
Definition skip {A} (offset : N) (l : list A) : list A := drop (N.to_nat offset) l.
Definition upto {A} (len : N) (l : list A) : list A := take (N.to_nat len) l.

(** [to_le_bytes] at a width of [w] bytes, and [from_le_bytes]. *)
Fixpoint le_bytes (w : nat) (n : N) : bytes :=
  match w with
  | O => []
  | S w => byte_of n :: le_bytes w (n / 256)
  end.
Fixpoint le_val (l : bytes) : N :=
  match l with
  | [] => 0
  | b :: l => byte_val b + 256 * le_val l
  end.

Definition u16_le (n : N) : bytes := le_bytes 2 n.
Definition u32_le (n : N) : bytes := le_bytes 4 n.
Definition u64_le (n : N) : bytes := le_bytes 8 n.

Definition U16_MAX : N := 2 ^ 16 - 1.

(** The digests of the [crc32c] and [sha2] crates.  An incremental digest is
    the digest of the concatenated updates. *)
Class Digests := {
  crc32c : bytes -> N;
  sha256 : bytes -> bytes;
}.

(** What their signatures say: a [u32] and a 32-byte array. *)
Class DigestLaws `{Digests} : Prop := {
  crc32c_u32 : forall b, crc32c b <= U32_MAX;
  sha256_len : forall b, length (sha256 b) = 32%nat;
}.

(** Two given inputs are a collision of the hash. *)
Definition collide `{Digests} (x y : bytes) : Prop := x <> y /\ sha256 x = sha256 y.

(** ** Bytes *)

Lemma byte_val_lt b : byte_val b < 256.
Proof. pose proof (Byte.to_N_bounded b). unfold byte_val. lia. Qed.

Lemma byte_of_val b : byte_of (byte_val b) = b.
Proof.
  unfold byte_of. rewrite N.mod_small by apply byte_val_lt.
  unfold byte_val. by rewrite Byte.of_to_N.
Qed.

Lemma byte_val_of n : byte_val (byte_of n) = n mod 256.
Proof.
  unfold byte_of, byte_val.
  pose proof (N.mod_lt n 256 ltac:(done)) as Hlt.
  destruct (Byte.of_N (n mod 256)) as [b|] eqn:E; simpl.
  - by apply Byte.to_of_N.
  - apply Byte.of_N_None_iff in E. lia.
Qed.

Lemma byte_val_inj a b : byte_val a = byte_val b -> a = b.
Proof. intros E. rewrite <- (byte_of_val a), <- (byte_of_val b). by rewrite E. Qed.

#[global] Instance byte_countable : Countable byte := inj_countable' byte_val byte_of byte_of_val.

(** ** Lengths: the [len] database *)

Create HintDb len discriminated.

Lemma blen_app {A} (x y : list A) : blen (x ++ y) = blen x + blen y.
Proof. unfold blen. rewrite length_app. lia. Qed.
Lemma blen_nil {A} : blen (@nil A) = 0.
Proof. done. Qed.
Lemma blen_cons {A} (x : A) l : blen (x :: l) = 1 + blen l.
Proof. unfold blen. simpl. lia. Qed.
Lemma blen_skip {A} n (l : list A) : blen (skip n l) = blen l - n.
Proof. unfold blen, skip. rewrite length_drop. lia. Qed.
Lemma blen_upto {A} n (l : list A) : blen (upto n l) = N.min n (blen l).
Proof. unfold blen, upto. rewrite length_take. lia. Qed.
Lemma blen_slice {A} o n (l : list A) : blen (slice o n l) = N.min n (blen l - o).
Proof. unfold blen, slice. rewrite length_take, length_drop. lia. Qed.
Lemma length_le_bytes w n : length (le_bytes w n) = w.
Proof. revert n. induction w; intros; simpl; auto. Qed.
Lemma blen_le_bytes w n : blen (le_bytes w n) = N.of_nat w.
Proof. unfold blen. by rewrite length_le_bytes. Qed.
Lemma blen_u16 n : blen (u16_le n) = 2.
Proof. apply blen_le_bytes. Qed.
Lemma blen_u32 n : blen (u32_le n) = 4.
Proof. apply blen_le_bytes. Qed.
Lemma blen_u64 n : blen (u64_le n) = 8.
Proof. apply blen_le_bytes. Qed.
Lemma blen_fmap {A B} (f : A -> B) l : blen (f <$> l) = blen l.
Proof. unfold blen. by rewrite length_fmap. Qed.
Lemma blen_0 {A} (l : list A) : blen l = 0 <-> l = [].
Proof. unfold blen. destruct l; simpl; [done|]. split; [lia|done]. Qed.

#[export] Hint Rewrite @blen_app @blen_nil @blen_cons @blen_skip @blen_upto @blen_slice
  blen_u16 blen_u32 blen_u64 blen_le_bytes @blen_fmap : len.

(** Solves goals about lengths. *)
Ltac len := autorewrite with len in *; lia.

(** ** Slices of concatenations *)

Lemma skip_0 {A} (l : list A) : skip 0 l = l.
Proof. done. Qed.

Lemma skip_skip {A} a b (l : list A) : skip a (skip b l) = skip (b + a) l.
Proof. unfold skip. rewrite drop_drop. f_equal. lia. Qed.

Lemma slice_skip {A} a o n (l : list A) : slice o n (skip a l) = slice (a + o) n l.
Proof. unfold slice, skip. rewrite drop_drop. do 2 f_equal. lia. Qed.

Lemma upto_slice {A} n (l : list A) : upto n l = slice 0 n l.
Proof. done. Qed.

Lemma upto_skip {A} n (l : list A) : upto n l ++ skip n l = l.
Proof. unfold upto, skip. apply take_drop. Qed.

Lemma upto_all {A} n (l : list A) : blen l <= n -> upto n l = l.
Proof. unfold upto, blen. intros. apply take_ge. lia. Qed.

Lemma skip_all {A} n (l : list A) : blen l <= n -> skip n l = [].
Proof. unfold skip, blen. intros. apply drop_ge. lia. Qed.

Lemma upto_app {A} n (x y : list A) : blen x = n -> upto n (x ++ y) = x.
Proof. unfold upto, blen. intros <-. rewrite Nat2N.id. apply take_app_length. Qed.

Lemma skip_app {A} n (x y : list A) : blen x = n -> skip n (x ++ y) = y.
Proof. unfold skip, blen. intros <-. rewrite Nat2N.id. apply drop_app_length. Qed.

Lemma skip_app_ge {A} n (x y : list A) : blen x <= n -> skip n (x ++ y) = skip (n - blen x) y.
Proof. unfold skip, blen. intros. rewrite drop_app_ge by lia. f_equal. lia. Qed.

Lemma upto_app_le {A} n (x y : list A) : n <= blen x -> upto n (x ++ y) = upto n x.
Proof. unfold upto, blen. intros. by rewrite take_app_le by lia. Qed.

Lemma upto_app_ge {A} n (x y : list A) :
  blen x <= n -> upto n (x ++ y) = x ++ upto (n - blen x) y.
Proof. unfold upto, blen. intros. rewrite take_app_ge by lia. do 2 f_equal. lia. Qed.

Lemma upto_upto {A} n m (l : list A) : upto n (upto m l) = upto (N.min n m) l.
Proof. unfold upto. rewrite take_take. f_equal. lia. Qed.

Lemma slice_app_skip {A} o n (x y : list A) :
  blen x <= o -> slice o n (x ++ y) = slice (o - blen x) n y.
Proof. unfold slice, blen. intros. rewrite drop_app_ge by lia. do 2 f_equal. lia. Qed.

Lemma slice_app_here {A} n (x y : list A) : blen x = n -> slice 0 n (x ++ y) = x.
Proof. apply upto_app. Qed.

Lemma slice_app_l {A} o n (x y : list A) :
  o + n <= blen x -> slice o n (x ++ y) = slice o n x.
Proof.
  unfold slice, blen. intros. rewrite drop_app_le by lia.
  rewrite take_app_le; [done|]. rewrite length_drop. lia.
Qed.

Lemma slice_all {A} n (l : list A) : blen l = n -> slice 0 n l = l.
Proof. intros. rewrite <- upto_slice. apply upto_all. lia. Qed.

Lemma slice_upto {A} o n m (l : list A) : o + n <= m -> slice o n (upto m l) = slice o n l.
Proof.
  unfold slice, upto. intros. rewrite skipn_firstn_comm, take_take. f_equal. lia.
Qed.

Lemma slice_split {A} o a b (l : list A) :
  slice o (a + b) l = slice o a l ++ slice (o + a) b l.
Proof.
  unfold slice. rewrite !N2Nat.inj_add, <- drop_drop. symmetry.
  rewrite <- (take_drop (N.to_nat a) (take (N.to_nat a + N.to_nat b) _)).
  rewrite take_take, Nat.min_l by lia. f_equal.
  rewrite skipn_firstn_comm. f_equal. lia.
Qed.

(** Splits the rest of an input at its next field. *)
Lemma skip_field {A} o n (x l rest : list A) :
  slice o n l = x -> skip (o + n) l = rest -> skip o l = x ++ rest.
Proof.
  intros <- <-. unfold slice, skip. rewrite N2Nat.inj_add, <- drop_drop. symmetry.
  apply take_drop.
Qed.

Lemma slice_app_next {A} o n k o' (x y : list A) :
  blen x = k -> k <= o -> o - k = o' -> slice o n (x ++ y) = slice o' n y.
Proof. intros <- ? <-. by apply slice_app_skip. Qed.

(** The length of one piece: by the database, a hypothesis, or evaluation. *)
Ltac piece_len := autorewrite with len; first [eassumption | reflexivity].

(** Reads one field of a concatenation of fixed-width pieces. *)
Ltac field_step :=
  match goal with
  | |- context [slice 0 ?n (?x ++ ?y)] =>
      rewrite (slice_app_here n x y) by piece_len
  | |- context [slice ?o ?n (?x ++ ?y)] =>
      let k := open_constr:(_ : N) in
      let E := fresh "E" in
      assert (blen x = k) as E by piece_len;
      let k := lazymatch type of E with _ = ?k => k end in
      let o' := eval vm_compute in (o - k) in
      rewrite (slice_app_next o n k o' x y E) by (vm_compute; congruence);
      clear E
  | |- context [slice 0 ?n ?x] => rewrite (slice_all n x) by piece_len
  end.

(** ** Little-endian round trips *)

Lemma le_val_bound l : le_val l < 256 ^ blen l.
Proof.
  induction l as [|b l IH]; [done|]. cbn [le_val].
  rewrite blen_cons, N.pow_add_r, N.pow_1_r.
  pose proof (byte_val_lt b). nia.
Qed.

Lemma le_val_le_bytes w n : n < 256 ^ N.of_nat w -> le_val (le_bytes w n) = n.
Proof.
  revert n. induction w as [|w IH]; intros n Hn; cbn [le_bytes le_val].
  - change (256 ^ N.of_nat 0) with 1 in Hn. lia.
  - rewrite Nat2N.inj_succ, N.pow_succ_r' in Hn.
    rewrite IH by (apply N.Div0.div_lt_upper_bound; lia).
    rewrite byte_val_of. pose proof (N.div_mod' n 256). lia.
Qed.

Lemma le_bytes_le_val w l : length l = w -> le_bytes w (le_val l) = l.
Proof.
  revert w. induction l as [|b l IH]; intros w <-; [done|]. cbn [length le_bytes le_val].
  pose proof (byte_val_lt b) as Hb. f_equal.
  - apply byte_val_inj. rewrite byte_val_of.
    rewrite N.mul_comm, N.Div0.mod_add. by apply N.mod_small.
  - rewrite N.mul_comm, N.div_add by done. rewrite N.div_small by done. by apply IH.
Qed.

Lemma le_val_u16 n : n <= U16_MAX -> le_val (u16_le n) = n.
Proof. intros. apply le_val_le_bytes. unfold U16_MAX in *. simpl in *. lia. Qed.
Lemma le_val_u32 n : n <= U32_MAX -> le_val (u32_le n) = n.
Proof. intros. apply le_val_le_bytes. unfold U32_MAX in *. simpl in *. lia. Qed.
Lemma le_val_u64 n : n <= U64_MAX -> le_val (u64_le n) = n.
Proof. intros. apply le_val_le_bytes. unfold U64_MAX in *. simpl in *. lia. Qed.

Lemma u16_le_val l : blen l = 2 -> u16_le (le_val l) = l.
Proof. unfold blen. intros. apply le_bytes_le_val. lia. Qed.
Lemma u32_le_val l : blen l = 4 -> u32_le (le_val l) = l.
Proof. unfold blen. intros. apply le_bytes_le_val. lia. Qed.
Lemma u64_le_val l : blen l = 8 -> u64_le (le_val l) = l.
Proof. unfold blen. intros. apply le_bytes_le_val. lia. Qed.

Lemma le_val_u16_bound l : blen l <= 2 -> le_val l <= U16_MAX.
Proof.
  intros Hl. pose proof (le_val_bound l).
  assert (256 ^ blen l <= 256 ^ 2) by (apply N.pow_le_mono_r; lia).
  unfold U16_MAX. simpl in *. lia.
Qed.
Lemma le_val_u32_bound l : blen l <= 4 -> le_val l <= U32_MAX.
Proof.
  intros Hl. pose proof (le_val_bound l).
  assert (256 ^ blen l <= 256 ^ 4) by (apply N.pow_le_mono_r; lia).
  unfold U32_MAX. simpl in *. lia.
Qed.
Lemma le_val_u64_bound l : blen l <= 8 -> le_val l <= U64_MAX.
Proof.
  intros Hl. pose proof (le_val_bound l).
  assert (256 ^ blen l <= 256 ^ 8) by (apply N.pow_le_mono_r; lia).
  unfold U64_MAX. simpl in *. lia.
Qed.

Lemma filter_all {A} (P : A -> Prop) `{forall x, Decision (P x)} l : Forall P l -> filter P l = l.
Proof. induction 1 as [|x l Hx Hl IH]; [done|]. by rewrite filter_cons_True, IH. Qed.
