(* ===== verification/ConcreteDigests.v ===== *)
(** * Concrete digests

    Functions that satisfy [DigestLaws], on which the examples of the storage
    theorems are evaluated: CRC-32C computed bit by bit, and a 32-byte
    stand-in for SHA-256 made of the length of its input and its CRC. *)

From S2P Require Import Prelude Bytes.
From Stdlib Require Import Init.Byte Strings.Byte.
Open Scope list_scope.

(** One bit of the reflected Castagnoli polynomial. *)
Definition crc_bit (crc : N) : N :=
  if N.testbit crc 0 then N.lxor (N.shiftr crc 1) 0x82F63B78 else N.shiftr crc 1.

Definition crc_byte (crc : N) (b : byte) : N :=
  Nat.iter 8 crc_bit (N.lxor crc (byte_val b)).

Definition crc32c_bits (b : bytes) : N :=
  N.land (N.lxor (foldl crc_byte U32_MAX b) U32_MAX) U32_MAX.

Lemma crc32c_bits_u32 b : crc32c_bits b <= U32_MAX.
Proof.
  unfold crc32c_bits. set (n := N.lxor _ _).
  replace (N.land n U32_MAX) with (n mod 2 ^ 32) by (symmetry; apply (N.land_ones n 32)).
  pose proof (N.mod_lt n (2 ^ 32) ltac:(done)). unfold U32_MAX. lia.
Qed.

(** The check value of the CRC-32C parameters. *)
Lemma crc32c_bits_check : crc32c_bits (ascii_bytes "123456789") = 0xE3069283.
Proof. vm_compute. reflexivity. Qed.

Definition toy_sha256 (b : bytes) : bytes :=
  x01 :: u64_le (blen b) ++ u32_le (crc32c_bits b) ++ repeat x5a 19.

Definition concrete_digests : Digests := {| crc32c := crc32c_bits; sha256 := toy_sha256 |}.

Lemma concrete_digest_laws : @DigestLaws concrete_digests.
Proof.
  split; [apply crc32c_bits_u32|]. by intros b.
Qed.
