(* ===== verification/Utf8.v ===== *)
(** * UTF-8 text

    What the storage crate uses of [str]: a Rust string is a byte string that
    [str::from_utf8] accepts, and [chars] lists its code points.  Searching and
    splitting at ASCII characters works on the bytes, none of which is ASCII
    inside a longer sequence. *)

From S2P Require Import Prelude Bytes.
From Stdlib Require Import Init.Byte Strings.Byte.
Open Scope list_scope.

Notation str := (list byte) (only parsing).

Definition between (lo hi n : N) : bool := (lo <=? n) && (n <=? hi).
Definition continuation (n : N) : bool := between 0x80 0xBF n.

(** The sequences of two, three and four bytes that [from_utf8] accepts: no
    overlong form, no surrogate, nothing beyond U+10FFFF. *)
Definition utf8_2 (a b : N) : bool := between 0xC2 0xDF a && continuation b.
Definition utf8_3 (a b c : N) : bool :=
  ((a =? 0xE0) && between 0xA0 0xBF b
   || (between 0xE1 0xEC a || between 0xEE 0xEF a) && continuation b
   || (a =? 0xED) && between 0x80 0x9F b) && continuation c.
Definition utf8_4 (a b c d : N) : bool :=
  ((a =? 0xF0) && between 0x90 0xBF b
   || between 0xF1 0xF3 a && continuation b
   || (a =? 0xF4) && between 0x80 0x8F b) && continuation c && continuation d.

(** The code points of a byte string, [None] where it is not UTF-8. *)
Fixpoint utf8_chars (l : bytes) : option (list N) :=
  match l with
  | [] => Some []
  | a :: l1 =>
    let a := byte_val a in
    if a <? 0x80 then cons a <$> utf8_chars l1
    else match l1 with
    | [] => None
    | b :: l2 =>
      let b := byte_val b in
      if utf8_2 a b then cons ((a - 0xC0) * 64 + (b - 0x80)) <$> utf8_chars l2
      else match l2 with
      | [] => None
      | c :: l3 =>
        let c := byte_val c in
        if utf8_3 a b c
        then cons ((a - 0xE0) * 4096 + (b - 0x80) * 64 + (c - 0x80)) <$> utf8_chars l3
        else match l3 with
        | [] => None
        | d :: l4 =>
          let d := byte_val d in
          if utf8_4 a b c d
          then cons ((a - 0xF0) * 262144 + (b - 0x80) * 4096 + (c - 0x80) * 64 + (d - 0x80))
                 <$> utf8_chars l4
          else None
        end
      end
    end
  end.

Definition is_utf8 (l : bytes) : bool := is_some (utf8_chars l).
Definition from_utf8 (l : bytes) : option str := if is_utf8 l then Some l else None.
Definition chars (s : str) : list N := default [] (utf8_chars s).

(** ** Splitting and joining at ASCII separators *)

(** [str::split]: the pieces between separators, at least one. *)
Fixpoint split (sep : byte -> bool) (s : str) : list str :=
  match s with
  | [] => [[]]
  | b :: s =>
    if sep b then [] :: split sep s
    else match split sep s with
         | [] => [[b]]
         | piece :: pieces => (b :: piece) :: pieces
         end
  end.

(** [slice::join]. *)
Fixpoint join (sep : str) (l : list str) : str :=
  match l with
  | [] => []
  | [s] => s
  | s :: l => s ++ sep ++ join sep l
  end.

Definition is_ascii_lowercase (b : byte) : bool := between 97 122 (byte_val b).
Definition is_ascii_uppercase (b : byte) : bool := between 65 90 (byte_val b).
Definition is_ascii_alphabetic (b : byte) : bool := is_ascii_lowercase b || is_ascii_uppercase b.
Definition is_ascii_digit (b : byte) : bool := between 48 57 (byte_val b).
Definition is_ascii_alphanumeric (b : byte) : bool := is_ascii_alphabetic b || is_ascii_digit b.
Definition ascii_uppercase (b : byte) : byte :=
  if is_ascii_lowercase b then byte_of (byte_val b - 32) else b.

(** The order of [str]: bytes compared lexicographically. *)
Fixpoint str_compare (x y : str) : comparison :=
  match x, y with
  | [], [] => Eq
  | [], _ :: _ => Lt
  | _ :: _, [] => Gt
  | a :: x, b :: y =>
    match byte_val a ?= byte_val b with Eq => str_compare x y | c => c end
  end.
Definition str_lt (x y : str) : Prop := str_compare x y = Lt.
#[global] Instance str_lt_dec : RelDecision str_lt.
Proof. intros x y. unfold str_lt. apply _. Defined.

(** ** Lemmas *)

Lemma from_utf8_Some l s : from_utf8 l = Some s <-> s = l /\ is_utf8 l = true.
Proof. unfold from_utf8. destruct (is_utf8 l); naive_solver. Qed.

Lemma str_compare_refl x : str_compare x x = Eq.
Proof. induction x as [|a x IH]; simpl; [done|]. by rewrite N.compare_refl. Qed.

Lemma str_compare_eq x y : str_compare x y = Eq <-> x = y.
Proof.
  split; [|intros ->; apply str_compare_refl]. revert y.
  induction x as [|a x IH]; intros [|b y]; simpl; try done.
  destruct (N.compare_spec (byte_val a) (byte_val b)) as [E%byte_val_inj|?|?]; [|done|done].
  intros H%IH. by subst.
Qed.

Lemma str_compare_antisym x y : str_compare y x = CompOpp (str_compare x y).
Proof.
  revert y. induction x as [|a x IH]; intros [|b y]; simpl; try done.
  rewrite (N.compare_antisym (byte_val a)). destruct (byte_val a ?= byte_val b); simpl; auto.
Qed.

#[global] Instance str_lt_irrefl : Irreflexive str_lt.
Proof. intros x. unfold complement, str_lt. by rewrite str_compare_refl. Qed.

#[global] Instance str_lt_trans : Transitive str_lt.
Proof.
  intros x y z. unfold str_lt. revert y z.
  induction x as [|a x IH]; intros [|b y] [|c z]; simpl; try done.
  destruct (N.compare_spec (byte_val a) (byte_val b)) as [->|?|?]; [|intros _|done].
  - destruct (byte_val b ?= byte_val c); [apply IH|done|done].
  - destruct (N.compare_spec (byte_val b) (byte_val c)) as [<-|?|?]; [..|done];
      rewrite (proj2 (N.compare_lt_iff _ _)); (done || lia).
Qed.

Lemma split_nonempty sep s : split sep s <> [].
Proof. destruct s as [|b s]; simpl; [done|]. destruct (sep b); [done|]. by destruct (split sep s). Qed.

(** A piece holds no separator. *)
Lemma split_pieces sep s : Forall (Forall (fun b => sep b = false)) (split sep s).
Proof.
  induction s as [|b s IH]; simpl; [by repeat constructor|].
  destruct (sep b) eqn:E; [by constructor|].
  destruct (split sep s) as [|p ps]; [by repeat constructor|].
  inversion_clear IH. constructor; [by constructor|done].
Qed.

Lemma split_clean sep s : Forall (fun b => sep b = false) s -> split sep s = [s].
Proof. induction 1 as [|b s Hb Hs IH]; simpl; [done|]. by rewrite Hb, IH. Qed.

Lemma split_app sep x b y :
  Forall (fun b => sep b = false) x -> sep b = true ->
  split sep (x ++ b :: y) = x :: split sep y.
Proof.
  intros Hx Hb. induction Hx as [|a x Ha Hx IH]; simpl; [by rewrite Hb|]. by rewrite Ha, IH.
Qed.

(** Splitting inverts joining clean pieces. *)
Lemma split_join sep b l :
  sep b = true -> l <> [] -> Forall (Forall (fun b => sep b = false)) l ->
  split sep (join [b] l) = l.
Proof.
  intros Hb Hl HF. induction HF as [|s l Hs HF IH]; [done|].
  destruct l as [|s' l]; [by apply split_clean|].
  change (join [b] (s :: s' :: l)) with (s ++ [b] ++ join [b] (s' :: l)).
  cbn [app]. rewrite split_app by done. by rewrite IH.
Qed.

Lemma join_cons sep s l : l <> [] -> join sep (s :: l) = s ++ sep ++ join sep l.
Proof. by destruct l. Qed.
