(* ===== verification/Paths.v ===== *)
(** * Safe relative paths

    Model of [crates/ariax-storage/src/path.rs]: the lexical policy for paths
    that come from metadata or from the user, before any file is opened.

    The normalization form C of the [unicode-normalization] crate and the
    lowercase mapping of the Unicode tables are operations of the class
    [Unicode]. *)

From S2P Require Import Prelude Bytes Utf8.
From Stdlib Require Import Init.Byte Strings.Byte.
Open Scope list_scope.

Definition MAX_SAFE_RELATIVE_BYTES : N := 64 * 1024.

Class Unicode := {
  nfc : str -> str;
  to_lowercase : str -> str;
}.

(** Normalization is idempotent and never drops a whole string. *)
Class UnicodeLaws `{Unicode} : Prop := {
  nfc_idem : forall s, nfc (nfc s) = nfc s;
  nfc_nonempty : forall s, nfc s = [] -> s = [];
}.

Module PathPlatform.
Inductive PathPlatform : Set := Unix | Windows.
End PathPlatform.
Notation PathPlatform := PathPlatform.PathPlatform.
#[global] Instance PathPlatform_eq_dec : EqDecision PathPlatform.
Proof. solve_decision. Defined.

Definition PathPlatform_number (self : PathPlatform) : N :=
  match self with PathPlatform.Unix => 1 | PathPlatform.Windows => 2 end.

Record SafeRelativePath : Set := mkSafeRelativePath {
  srp_components : list str;
  srp_encoded_len : N;
}.
#[global] Instance SafeRelativePath_eq_dec : EqDecision SafeRelativePath.
Proof. solve_decision. Defined.

Definition slash : byte := x2f.
Definition backslash : byte := x5c.
Definition canonical_string (self : SafeRelativePath) : str := join [slash] (srp_components self).

Module PathValidationError.
Inductive PathValidationError : Set :=
| EmptyPath
| AbsolutePath
| WindowsPrefix
| NonUtf8Input
| EmptyComponent
| DotComponent
| SeparatorInComponent
| ColonInComponent
| ControlCharacter
| BidirectionalControl
| ReservedWindowsName
| TrailingWindowsDotOrSpace
| TooLong.
End PathValidationError.
Notation PathValidationError := PathValidationError.PathValidationError.
#[global] Instance PathValidationError_eq_dec : EqDecision PathValidationError.
Proof. solve_decision. Defined.

(** [char::is_control]: the general category Cc. *)
Definition is_control (c : N) : bool := (c <=? 0x1F) || between 0x7F 0x9F c.
Definition is_bidirectional_control (c : N) : bool :=
  between 0x202A 0x202E c || between 0x2066 0x2069 c.

Definition is_separator (b : byte) : bool := (b == slash) || (b == backslash).

Definition numbered_reserved_name (stem prefix : str) : bool :=
  (upto (blen prefix) stem == prefix)
  && contains (ascii_bytes <$> ["1"; "2"; "3"; "4"; "5"; "6"; "7"; "8"; "9"]%string
               ++ ["¹"; "²"; "³"]%string) (skip (blen prefix) stem).

(** [to_uppercase] is compared with names in A-Z only.  No character outside
    ASCII has an uppercase form made of their letters, and the superscripts have
    none, so the ASCII mapping decides the comparison. *)
Definition is_reserved_windows_name (component : str) : bool :=
  let stem := ascii_uppercase <$> default component (head (split (fun b => b == x2e) component)) in
  contains (ascii_bytes <$> ["CON"; "PRN"; "AUX"; "NUL"]%string) stem
  || numbered_reserved_name stem (ascii_bytes "COM")
  || numbered_reserved_name stem (ascii_bytes "LPT").

Definition validate_component (component : str) (platform : PathPlatform)
    : result PathValidationError unit :=
  if (component == ascii_bytes ".") || (component == ascii_bytes "..")
  then Err PathValidationError.DotComponent
  else if existsb is_separator component then Err PathValidationError.SeparatorInComponent
  else if existsb (fun b => b == x3a) component then Err PathValidationError.ColonInComponent
  else if existsb is_control (chars component) then Err PathValidationError.ControlCharacter
  else if existsb is_bidirectional_control (chars component)
  then Err PathValidationError.BidirectionalControl
  else if is_reserved_windows_name component then Err PathValidationError.ReservedWindowsName
  else if (platform == PathPlatform.Windows)
          && ((last component == Some x2e) || (last component == Some x20))
  then Err PathValidationError.TrailingWindowsDotOrSpace
  else Ok tt.

Definition reject_absolute_or_prefixed (value : str) : result PathValidationError unit :=
  if head value == Some slash then Err PathValidationError.AbsolutePath
  else if head value == Some backslash then Err PathValidationError.WindowsPrefix
  else match value with
  | a :: b :: _ => if is_ascii_alphabetic a && (b == x3a)
                   then Err PathValidationError.WindowsPrefix else Ok tt
  | _ => Ok tt
  end.

Section paths.
Context `{Unicode}.

Definition collision_key (self : SafeRelativePath) (platform : PathPlatform) : str :=
  let path := canonical_string self in
  match platform with
  | PathPlatform.Unix => path
  | PathPlatform.Windows => to_lowercase path
  end.

(** The loop of [build_components]. *)
Fixpoint build_loop (platform : PathPlatform) (components normalized : list str) (encoded_len : N)
    : result PathValidationError (list str * N) :=
  match components with
  | [] => Ok (normalized, encoded_len)
  | component :: components =>
    if blen component =? 0 then Err PathValidationError.EmptyComponent
    else
      let component := nfc component in
      _ ← validate_component component platform;
      encoded_len ←
        (if blen normalized =? 0 then Ok encoded_len
         else ok_or (u64_checked_add encoded_len 1) PathValidationError.TooLong);
      encoded_len ← ok_or (u64_checked_add encoded_len (blen component)) PathValidationError.TooLong;
      if MAX_SAFE_RELATIVE_BYTES <? encoded_len then Err PathValidationError.TooLong
      else build_loop platform components (normalized ++ [component]) encoded_len
  end.

Definition build_components (components : list str) (platform : PathPlatform)
    : result PathValidationError SafeRelativePath :=
  '(normalized, encoded_len) ← build_loop platform components [] 0;
  if blen normalized =? 0 then Err PathValidationError.EmptyPath
  else Ok {| srp_components := normalized; srp_encoded_len := encoded_len |}.

Definition from_metadata_components (components : list str) (platform : PathPlatform)
    : result PathValidationError SafeRelativePath := build_components components platform.

Definition from_user_path (value : str) (platform : PathPlatform)
    : result PathValidationError SafeRelativePath :=
  _ ← reject_absolute_or_prefixed value;
  let components := filter (fun component => component <> []) (split is_separator value) in
  build_components components platform.

(** [dir] is the raw bytes of a path option. *)
Definition combine (dir : option bytes) (out : option str) (metadata_components : list str)
    (platform : PathPlatform) : result PathValidationError SafeRelativePath :=
  dir_components ←
    match dir with
    | Some dir =>
      dir ← ok_or (from_utf8 dir) PathValidationError.NonUtf8Input;
      path ← from_user_path dir platform;
      Ok (srp_components path)
    | None => Ok []
    end;
  rest ←
    match out with
    | Some out => srp_components <$> from_user_path out platform
    | None => srp_components <$> from_metadata_components metadata_components platform
    end;
  build_components (dir_components ++ rest) platform.

(** ** What a safe path is *)

(** A component names an entry of its directory, and only that. *)
Record component_safe (platform : PathPlatform) (c : str) : Prop := {
  cs_nonempty : c <> [];
  cs_normal : nfc c = c;
  cs_valid : validate_component c platform = Ok tt;
}.

Record path_safe (platform : PathPlatform) (p : SafeRelativePath) : Prop := {
  ps_nonempty : srp_components p <> [];
  ps_components : Forall (component_safe platform) (srp_components p);
  ps_len : srp_encoded_len p = blen (canonical_string p);
  ps_bound : blen (canonical_string p) <= MAX_SAFE_RELATIVE_BYTES;
}.
End paths.

(** The file a path names, read component by component below a directory given
    by its own components: [.] stays, [..] goes up. *)
Definition resolve (root : list str) (components : list str) : list str :=
  foldl (fun dir c =>
    if c == ascii_bytes "." then dir
    else if c == ascii_bytes ".." then take (length dir - 1) dir
    else dir ++ [c]) root components.

(** ** The policy is what the functions enforce *)

Section path_lemmas.
Context `{UnicodeLaws}.

Lemma join_snoc_len l c :
  blen (join [slash] (l ++ [c]))
  = blen (join [slash] l) + (if blen l =? 0 then 0 else 1) + blen c.
Proof.
  induction l as [|x l IH]; [cbn [app join]; change (blen (@nil str) =? 0) with true; len|].
  rewrite (proj2 (N.eqb_neq (blen (x :: l)) 0)) by len.
  destruct l as [|y l]; [cbn [app join]; autorewrite with len; lia|].
  change ((x :: y :: l) ++ [c]) with (x :: ((y :: l) ++ [c])).
  rewrite (join_cons _ x (_ ++ _)), (join_cons _ x (y :: l)) by done. rewrite !blen_app, IH.
  rewrite (proj2 (N.eqb_neq (blen (y :: l)) 0)) by len. lia.
Qed.

Lemma join_app_len l l' : blen (join [slash] l) <= blen (join [slash] (l ++ l')).
Proof.
  induction l' as [|c l' IH] using rev_ind; [by rewrite app_nil_r|].
  rewrite app_assoc, join_snoc_len. lia.
Qed.

Definition accepts_component (platform : PathPlatform) (c : str) : Prop :=
  c <> [] /\ validate_component (nfc c) platform = Ok tt.

Lemma build_loop_sound platform cs : forall norm n len,
  build_loop platform cs norm (blen (join [slash] norm)) = Ok (n, len) ->
  n = norm ++ (nfc <$> cs) /\ Forall (accepts_component platform) cs /\ len = blen (join [slash] n)
  /\ (cs <> [] -> len <= MAX_SAFE_RELATIVE_BYTES).
Proof.
  induction cs as [|c cs IH]; intros norm n len; cbn [build_loop].
  { intros [= <- <-]. by rewrite app_nil_r. }
  destruct (N.eqb_spec (blen c) 0) as [|Hc]; [done|]. cbv zeta.
  intros (? & Hv & (len1 & H1 & (len2 & [-> ?]%ok_or_Ok%u64_checked_add_Some & E)%bind_Ok)%bind_Ok)%bind_Ok.
  assert (len1 + blen (nfc c) = blen (join [slash] (norm ++ [nfc c]))) as El.
  { rewrite join_snoc_len. destruct (blen norm =? 0); [injection H1 as <-; lia|].
    apply ok_or_Ok, u64_checked_add_Some in H1 as [-> _]. lia. }
  destruct (N.ltb_spec MAX_SAFE_RELATIVE_BYTES (len1 + blen (nfc c))) as [|Hle]; [done|].
  rewrite El in E, Hle. destruct (IH _ _ _ E) as (-> & HF & -> & Hb).
  rewrite <- app_assoc in Hb |- *. split_and!; [done| |done|].
  - constructor; [|done]. split; [by intros ->|]. by destruct (validate_component _ _) as [[]|].
  - intros _. destruct cs; [by rewrite app_nil_r|]. by apply Hb.
Qed.

Lemma build_loop_complete platform cs : forall norm,
  Forall (accepts_component platform) cs ->
  blen (join [slash] (norm ++ (nfc <$> cs))) <= MAX_SAFE_RELATIVE_BYTES ->
  build_loop platform cs norm (blen (join [slash] norm))
  = Ok (norm ++ (nfc <$> cs), blen (join [slash] (norm ++ (nfc <$> cs)))).
Proof.
  induction cs as [|c cs IH]; intros norm HF Hlen; cbn [build_loop].
  { by rewrite app_nil_r. }
  apply Forall_cons in HF as [[Hc Hv] HF]. rewrite (proj2 (N.eqb_neq _ _)) by by rewrite blen_0.
  cbv zeta. rewrite Hv. cbn [mbind result_bind].
  assert (norm ++ (nfc <$> c :: cs) = (norm ++ [nfc c]) ++ (nfc <$> cs)) as Ea
    by by rewrite <- app_assoc.
  rewrite Ea in Hlen |- *.
  pose proof (join_app_len (norm ++ [nfc c]) (nfc <$> cs)) as Hle.
  pose proof (join_snoc_len norm (nfc c)) as El. unfold MAX_SAFE_RELATIVE_BYTES in *.
  destruct (blen norm =? 0); cbn [mbind result_bind].
  - rewrite u64_checked_add_fits by (unfold U64_MAX; lia). cbn [ok_or mbind result_bind].
    rewrite (proj2 (N.ltb_ge _ _)) by lia.
    replace (blen (join [slash] norm) + blen (nfc c)) with (blen (join [slash] (norm ++ [nfc c]))) by lia.
    by apply IH.
  - rewrite u64_checked_add_fits by (unfold U64_MAX; lia). cbn [ok_or mbind result_bind].
    rewrite u64_checked_add_fits by (unfold U64_MAX; lia). cbn [ok_or mbind result_bind].
    rewrite (proj2 (N.ltb_ge _ _)) by lia. rewrite <- El. by apply IH.
Qed.

Lemma accepts_safe platform c : accepts_component platform c -> component_safe platform (nfc c).
Proof.
  intros [Hc Hv]. split; [|by apply nfc_idem|done]. intros E. by apply Hc, nfc_nonempty.
Qed.

Lemma safe_accepts platform c : component_safe platform c -> accepts_component platform c /\ nfc c = c.
Proof. intros [? E ?]. unfold accepts_component. by rewrite E. Qed.

Lemma build_components_Ok platform cs p :
  build_components cs platform = Ok p <->
  srp_components p = nfc <$> cs /\ Forall (accepts_component platform) cs /\ path_safe platform p.
Proof.
  unfold build_components. split.
  - intros ([n len] & E & Hp)%bind_Ok. change 0 with (blen (join [slash] [])) in E.
    apply build_loop_sound in E as (-> & HF & -> & Hb). cbn [app] in *.
    destruct (N.eqb_spec (blen (nfc <$> cs)) 0) as [|Hne]; [done|]. injection Hp as <-.
    rewrite blen_0 in Hne. split; [done|]. split; [done|]. split; cbn [srp_components srp_encoded_len].
    + done.
    + apply Forall_fmap. by eapply Forall_impl; [|intros ?; apply accepts_safe].
    + done.
    + apply Hb. by intros ->.
  - intros (Ec & HF & [Hne _ El Hb]). change 0 with (blen (join [slash] [])) at 1.
    rewrite build_loop_complete; cbn [app]; [|done|by rewrite <- Ec].
    cbn [mbind result_bind]. rewrite <- Ec, (proj2 (N.eqb_neq _ _)) by by rewrite blen_0.
    destruct p as [cs' len]. cbn [srp_components srp_encoded_len] in *. by rewrite El.
Qed.

(** Building from a safe path's own components gives the path back. *)
Lemma build_safe platform p : path_safe platform p -> build_components (srp_components p) platform = Ok p.
Proof.
  intros Hp. apply build_components_Ok. pose proof (ps_components _ _ Hp) as HF.
  split_and!; [|by eapply Forall_impl; [|intros ? [? _]%safe_accepts]|done].
  induction HF as [|c cs Hc HF IH]; [done|]. cbn. by rewrite <- IH, (cs_normal _ _ Hc).
Qed.

Lemma component_clean platform c :
  component_safe platform c ->
  Forall (fun b => is_separator b = false) c /\ c <> ascii_bytes "." /\ c <> ascii_bytes ".."
  /\ Forall (fun b => b <> x3a) c.
Proof.
  intros [_ _ Hv]. unfold validate_component in Hv.
  repeat (step_in Hv). bool_to_prop. split_and!; try done; apply Forall_forall; intros b Hb.
  - apply not_true_iff_false. intros Hs. apply not_true_iff_false in E0. apply E0, existsb_exists.
    exists b. by rewrite <- list_elem_of_In.
  - intros ->. apply not_true_iff_false in E1. apply E1, existsb_exists. exists x3a.
    by rewrite <- list_elem_of_In.
Qed.

(** The canonical text of a safe path is relative and has no drive prefix. *)
Lemma canonical_relative platform p :
  path_safe platform p -> reject_absolute_or_prefixed (canonical_string p) = Ok tt.
Proof.
  intros [Hne HF _ _]. unfold canonical_string. destruct (srp_components p) as [|c cs]; [done|].
  apply Forall_cons in HF as [Hc _]. pose proof (cs_nonempty _ _ Hc) as Hn.
  apply component_clean in Hc as (Hsep & _ & _ & Hcol). destruct c as [|a c]; [done|].
  apply Forall_cons in Hsep as [Ha _]. apply Forall_cons in Hcol as [_ Hcol].
  assert (exists t, join [slash] ((a :: c) :: cs) = a :: t
    /\ match t with b :: _ => b <> x3a | [] => True end) as (t & -> & Ht).
  { destruct cs as [|d cs]; [|rewrite join_cons by done; cbn [app]]; eexists; (split; [reflexivity|]);
      destruct c as [|b c]; cbn [app]; try done; by apply Forall_cons in Hcol as [? _]. }
  unfold reject_absolute_or_prefixed, is_separator in *. bool_to_prop. cbn [head].
  rewrite !bool_decide_eq_false_2 by congruence. destruct t as [|b t]; [done|].
  rewrite (bool_decide_eq_false_2 (b = x3a)) by done. by rewrite andb_false_r.
Qed.
End path_lemmas.

Section path_properties.
Context `{UnicodeLaws}.

Lemma from_user_path_safe value platform p :
  from_user_path value platform = Ok p -> path_safe platform p.
Proof. unfold from_user_path. intros (? & _ & E)%bind_Ok. by apply build_components_Ok in E as (_ & _ & ?). Qed.

Lemma from_user_path_canonical platform p :
  path_safe platform p -> from_user_path (canonical_string p) platform = Ok p.
Proof.
  intros Hp. unfold from_user_path. rewrite (canonical_relative _ _ Hp). cbn [mbind result_bind].
  pose proof (ps_components _ _ Hp) as HF. unfold canonical_string.
  rewrite split_join; [|done|by apply Hp|].
  2: { eapply Forall_impl; [exact HF|]. intros c Hc. by apply component_clean in Hc as [? _]. }
  rewrite filter_all; [by apply build_safe|]. cbv zeta.
  eapply Forall_impl; [exact HF|]. intros c Hc. apply Hc.
Qed.

Lemma combine_safe dir out components platform p :
  combine dir out components platform = Ok p -> path_safe platform p.
Proof.
  unfold combine. intros (? & _ & (? & _ & E)%bind_Ok)%bind_Ok.
  by apply build_components_Ok in E as (_ & _ & ?).
Qed.

Lemma resolve_safe platform cs root :
  Forall (component_safe platform) cs -> resolve root cs = root ++ cs.
Proof.
  intros HF. revert root. induction HF as [|c cs Hc HF IH]; intros root; [by rewrite app_nil_r|].
  apply component_clean in Hc as (_ & Hd & Hdd & _). unfold resolve in *. cbn [foldl].
  rewrite !bool_decide_eq_false_2 by done. rewrite IH. by rewrite <- app_assoc.
Qed.

(** C26: Path confinement.  Whatever text or components a task's output path is
    made of, a path that is accepted names a file strictly below the download
    root: resolving it component by component never leaves the root, and no
    component is empty or holds a separator.  Its text is at most 64 KiB. *)
Theorem combined_path_confined dir out components platform p root :
  combine dir out components platform = Ok p ->
  resolve root (srp_components p) = root ++ srp_components p /\ srp_components p <> []
  /\ Forall (fun c => c <> [] /\ Forall (fun b => is_separator b = false) c) (srp_components p)
  /\ srp_encoded_len p = blen (canonical_string p)
  /\ blen (canonical_string p) <= MAX_SAFE_RELATIVE_BYTES.
Proof.
  intros [Hne HF El Hb]%combine_safe. split_and!; try done.
  - by apply (resolve_safe platform).
  - eapply Forall_impl; [exact HF|]. intros c Hc. split; [apply Hc|].
    by apply component_clean in Hc as [? _].
Qed.

(** The canonical text of an accepted path is accepted as it is and names
    the same path, so a persisted path is checked by parsing it again. *)
Theorem safe_path_roundtrip value platform p :
  from_user_path value platform = Ok p -> from_user_path (canonical_string p) platform = Ok p.
Proof. intros Hp. by eapply from_user_path_canonical, from_user_path_safe. Qed.
End path_properties.

(** Text for which normalization and case mapping do nothing. *)
Definition plain_unicode : Unicode := {| nfc := fun s => s; to_lowercase := fun s => s |}.
#[local] Existing Instance plain_unicode.
#[local] Instance plain_unicode_laws : UnicodeLaws.
Proof. by split. Qed.

Lemma combined_path_confined_witness :
  resolve [ascii_bytes "srv"] [ascii_bytes "iso"; ascii_bytes "a.bin"]
  = [ascii_bytes "srv"; ascii_bytes "iso"; ascii_bytes "a.bin"].
Proof.
  destruct (combined_path_confined (Some (ascii_bytes "iso/")) (Some (ascii_bytes "a.bin")) []
    PathPlatform.Unix (mkSafeRelativePath [ascii_bytes "iso"; ascii_bytes "a.bin"] 9)
    [ascii_bytes "srv"]) as [E _]; [vm_compute; reflexivity|exact E].
Defined.

Lemma safe_path_roundtrip_witness :
  from_user_path (ascii_bytes "iso/a.bin") PathPlatform.Windows
  = Ok (mkSafeRelativePath [ascii_bytes "iso"; ascii_bytes "a.bin"] 9).
Proof.
  apply (safe_path_roundtrip (ascii_bytes "iso\\a.bin") PathPlatform.Windows
    (mkSafeRelativePath [ascii_bytes "iso"; ascii_bytes "a.bin"] 9)). vm_compute; reflexivity.
Defined.
