(* ===== verification/RootBinding.v ===== *)
(** * Root bindings

    Model of [crates/ariax-storage/src/root_binding.rs]: the native path of a
    download root, the identities of the opened root and files, and the hash
    that binds them. *)

From S2P Require Import Prelude Bytes Utf8 ConcreteDigests Paths.
From Stdlib Require Import Init.Byte Strings.Byte.
Open Scope list_scope.

Definition MAX_PLATFORM_PATH_BYTES : N := 64 * 1024.
Definition MAX_IDENTITY_BYTES : N := 256.
Definition ROOT_BINDING_HASH_DOMAIN : bytes := ascii_bytes "ariax/root-binding/v1" ++ [x00].

Notation FileId := N (only parsing).

Module RootBindingError.
Inductive RootBindingError : Set :=
| UnsupportedPlatform
| EmptyPlatformPath
| PlatformPathTooLong
| InvalidPlatformPath
| EmptyRootIdentity
| EmptyFileIdentity
| IdentityTooLong
| DuplicateFileIdentity (file : FileId).
End RootBindingError.
Notation RootBindingError := RootBindingError.RootBindingError.

Record PlatformPath : Set := mkPlatformPath {
  pp_platform : PathPlatform;
  pp_bytes : bytes;
}.
#[global] Instance PlatformPath_eq_dec : EqDecision PlatformPath.
Proof. solve_decision. Defined.

(** [chunks_exact(2)] as little-endian [u16] units. *)
Fixpoint u16_units (b : bytes) : list N :=
  match b with
  | x :: y :: b => le_val [x; y] :: u16_units b
  | _ => []
  end.

Definition PlatformPath_from_native_bytes (platform : PathPlatform) (b : bytes)
    : result RootBindingError PlatformPath :=
  if blen b =? 0 then Err RootBindingError.EmptyPlatformPath
  else if MAX_PLATFORM_PATH_BYTES <? blen b then Err RootBindingError.PlatformPathTooLong
  else
    let invalid := match platform with
      | PathPlatform.Unix => contains b x00
      | PathPlatform.Windows => (blen b mod 2 != 0) || existsb (fun u => u =? 0) (u16_units b)
      end in
    if invalid then Err RootBindingError.InvalidPlatformPath
    else Ok {| pp_platform := platform; pp_bytes := b |}.

(** [RootIdentity] and [FileIdentity] of the [identity_type!] macro. *)
Definition identity_new (empty_error : RootBindingError) (b : bytes) : result RootBindingError bytes :=
  if blen b =? 0 then Err empty_error
  else if MAX_IDENTITY_BYTES <? blen b then Err RootBindingError.IdentityTooLong
  else Ok b.
Definition RootIdentity_new := identity_new RootBindingError.EmptyRootIdentity.
Definition FileIdentity_new := identity_new RootBindingError.EmptyFileIdentity.

Record RootBinding : Set := mkRootBinding {
  rb_path : PlatformPath;
  rb_root_identity : bytes;
  rb_file_identities : gmap FileId bytes;
  rb_hash : bytes;
}.

(** The loop of [RootBinding::new] over the identities. *)
Fixpoint insert_identities (l : list (FileId * bytes)) (identities : gmap FileId bytes)
    : result RootBindingError (gmap FileId bytes) :=
  match l with
  | [] => Ok identities
  | (file, identity) :: l =>
    if is_some (identities !! file) then Err (RootBindingError.DuplicateFileIdentity file)
    else insert_identities l (<[file := identity]> identities)
  end.

(** [update_bytes]: [len() as u32] before the bytes. *)
Definition sized (b : bytes) : bytes := u32_le (blen b) ++ b.

(** What [calculate_hash] feeds to the digest. *)
Definition binding_preimage (path : PlatformPath) (root_identity : bytes)
    (files : gmap FileId bytes) : bytes :=
  ROOT_BINDING_HASH_DOMAIN ++ [byte_of (PathPlatform_number (pp_platform path))]
  ++ sized (pp_bytes path) ++ sized root_identity ++ u32_le (blen (btree_entries files))
  ++ concat ((fun '(file, identity) => u32_le file ++ sized identity) <$> btree_entries files).

Section binding.
Context `{Digests}.

Definition calculate_hash (path : PlatformPath) (root_identity : bytes)
    (files : gmap FileId bytes) : bytes := sha256 (binding_preimage path root_identity files).

Definition RootBinding_new (path : PlatformPath) (root_identity : bytes)
    (file_identities : list (FileId * bytes)) : result RootBindingError RootBinding :=
  identities ← insert_identities file_identities ∅;
  Ok {| rb_path := path; rb_root_identity := root_identity; rb_file_identities := identities;
        rb_hash := calculate_hash path root_identity identities |}.
End binding.

(** ** Injectivity of the hash input *)

(** The range of the Rust types the fields have. *)
Record binding_typed (path : PlatformPath) (root_identity : bytes) (files : gmap FileId bytes)
    : Prop := {
  bt_path : PlatformPath_from_native_bytes (pp_platform path) (pp_bytes path) = Ok path;
  bt_root : RootIdentity_new root_identity = Ok root_identity;
  bt_files : forall f i, files !! f = Some i -> f <= U32_MAX /\ FileIdentity_new i = Ok i;
}.

Lemma u32_le_inj m n : m <= U32_MAX -> n <= U32_MAX -> u32_le m = u32_le n -> m = n.
Proof. intros Hm Hn E. by rewrite <- (le_val_u32 m Hm), E, le_val_u32. Qed.
Lemma u64_le_inj m n : m <= U64_MAX -> n <= U64_MAX -> u64_le m = u64_le n -> m = n.
Proof. intros Hm Hn E. by rewrite <- (le_val_u64 m Hm), E, le_val_u64. Qed.

Lemma app_inj_len {A} (x x' y y' : list A) : blen x = blen x' -> x ++ y = x' ++ y' -> x = x' /\ y = y'.
Proof. unfold blen. intros Hl E. apply app_inj_1; [lia|done]. Qed.

Lemma sized_inj x x' y y' :
  blen x <= U32_MAX -> blen x' <= U32_MAX -> sized x ++ y = sized x' ++ y' -> x = x' /\ y = y'.
Proof.
  intros Hx Hx' E. unfold sized in E. rewrite <- !app_assoc in E.
  apply app_inj_len in E as [El E]; [|by rewrite !blen_u32].
  apply u32_le_inj in El; [|done..]. by apply app_inj_len in E.
Qed.

Lemma identity_new_Ok e b b' : identity_new e b = Ok b' -> b' = b /\ b <> [] /\ blen b <= MAX_IDENTITY_BYTES.
Proof.
  unfold identity_new. destruct (N.eqb_spec (blen b) 0) as [|Hb]; [done|].
  destruct (N.ltb_spec MAX_IDENTITY_BYTES (blen b)); [done|]. intros [= <-]. by rewrite blen_0 in Hb.
Qed.

Lemma entries_inj (l l' : list (FileId * bytes)) :
  (forall f i, (f, i) ∈ l ++ l' -> f <= U32_MAX /\ blen i <= U32_MAX) ->
  let enc := fun '(file, identity) => u32_le file ++ sized identity in
  concat (enc <$> l) = concat (enc <$> l') -> l = l'.
Proof.
  intros Hall enc. revert l' Hall. induction l as [|[f i] l IH]; intros [|[f' i'] l'] Hall E.
  - done.
  - by apply (f_equal blen) in E.
  - by apply (f_equal blen) in E.
  - rewrite !fmap_cons in E. cbn [concat] in E. unfold enc at 1 3 in E. rewrite <- !app_assoc in E.
    destruct (Hall f i) as [Hf Hi]; [set_solver|]. destruct (Hall f' i') as [Hf' Hi']; [set_solver|].
    apply app_inj_len in E as [Ef E]; [|by rewrite !blen_u32].
    apply u32_le_inj in Ef as ->; [|done..].
    apply sized_inj in E as [-> E]; [|done..]. f_equal. apply IH; [|done].
    intros g j Hj. apply Hall. set_solver.
Qed.

Lemma btree_entries_inj {V} (m m' : gmap N V) : btree_entries m = btree_entries m' -> m = m'.
Proof.
  intros E. apply map_to_list_inj. by rewrite <- !btree_entries_perm, E.
Qed.

Lemma binding_preimage_inj path root files path' root' files' :
  binding_typed path root files -> binding_typed path' root' files' ->
  binding_preimage path root files = binding_preimage path' root' files' ->
  path = path' /\ root = root' /\ files = files'.
Proof.
  intros [Hp Hr Hf] [Hp' Hr' Hf'] E. unfold binding_preimage in E.
  assert (forall p, PlatformPath_from_native_bytes (pp_platform p) (pp_bytes p) = Ok p ->
    blen (pp_bytes p) <= U32_MAX) as Hlen.
  { intros p. unfold PlatformPath_from_native_bytes, MAX_PLATFORM_PATH_BYTES, U32_MAX.
    destruct (_ =? 0); [done|]. destruct (N.ltb_spec (64 * 1024) (blen (pp_bytes p))); [done|]. lia. }
  apply identity_new_Ok in Hr as (_ & _ & Hr). apply identity_new_Ok in Hr' as (_ & _ & Hr').
  unfold MAX_IDENTITY_BYTES in *.
  apply app_inj_len in E as [_ E]; [|done]. apply app_inj_len in E as [Epl E]; [|done].
  apply sized_inj in E as [Epb E]; [|by apply Hlen..].
  apply sized_inj in E as [Er E]; [|unfold U32_MAX; lia..].
  apply app_inj_len in E as [_ E]; [|by rewrite !blen_u32].
  apply entries_inj in E as Ef%btree_entries_inj.
  - split_and!; [|done|done]. destruct path as [[] b], path' as [[] b']; simpl in *; by subst.
  - intros f i. rewrite elem_of_app, !elem_of_btree_entries.
    intros [Hi|Hi]; [apply Hf in Hi|apply Hf' in Hi]; destruct Hi as [? (_ & _ & ?)%identity_new_Ok];
      unfold MAX_IDENTITY_BYTES, U32_MAX in *; (split; [done|lia]).
Qed.

(** The root-binding hash identifies the binding: two bindings with the same
    hash have the same root path, root identity and file identities, unless their
    own hash inputs are different and collide under SHA-256. *)
Theorem root_binding_hash_identifies `{Digests} path root ids path' root' ids' b b' :
  RootBinding_new path root ids = Ok b -> RootBinding_new path' root' ids' = Ok b' ->
  binding_typed path root (rb_file_identities b) ->
  binding_typed path' root' (rb_file_identities b') ->
  rb_hash b = rb_hash b' ->
  b = b' \/ collide (binding_preimage path root (rb_file_identities b))
              (binding_preimage path' root' (rb_file_identities b')).
Proof.
  unfold RootBinding_new. intros (m & _ & [= <-])%bind_Ok (m' & _ & [= <-])%bind_Ok.
  cbn [rb_file_identities rb_hash]. intros Ht Ht' Eh.
  destruct (decide (binding_preimage path root m = binding_preimage path' root' m')) as [E|Hne].
  - left. by destruct (binding_preimage_inj _ _ _ _ _ _ Ht Ht' E) as (-> & -> & ->).
  - by right.
Qed.

#[local] Existing Instance concrete_digests.

Definition example_path : PlatformPath := mkPlatformPath PathPlatform.Unix (ascii_bytes "/srv").
Definition example_binding : RootBinding :=
  mkRootBinding example_path (ascii_bytes "root") {[0 := ascii_bytes "file"]}
    (calculate_hash example_path (ascii_bytes "root") {[0 := ascii_bytes "file"]}).

Lemma root_binding_hash_identifies_witness :
  RootBinding_new example_path (ascii_bytes "root") [(0, ascii_bytes "file")] = Ok example_binding
  /\ (example_binding = example_binding \/
      let b := binding_preimage example_path (ascii_bytes "root") {[0 := ascii_bytes "file"]} in collide b b).
Proof.
  assert (binding_typed example_path (ascii_bytes "root") {[0 := ascii_bytes "file"]}) as Ht.
  { split; [reflexivity..|]. intros f i [<- <-]%lookup_singleton_Some. split; [vm_compute; congruence|reflexivity]. }
  split; [reflexivity|].
  by apply (root_binding_hash_identifies example_path (ascii_bytes "root") [(0, ascii_bytes "file")]
    example_path (ascii_bytes "root") [(0, ascii_bytes "file")]).
Defined.
