(* ===== verification/Layout.v ===== *)
(** * File layouts

    Model of [crates/ariax-storage/src/layout.rs]: the placement of a task's
    files in one global byte range, its admission checks and hash, and the
    mapping of global spans to spans of one file. *)

From S2P Require Import Prelude Bytes Utf8 ConcreteDigests Paths RootBinding.
From Stdlib Require Import Init.Byte Strings.Byte.
Open Scope list_scope.

Definition MAX_LAYOUT_ENTRIES : N := 262144.
Definition MAX_LAYOUT_BYTES : N := 64 * 1024 * 1024.
Definition LAYOUT_HASH_DOMAIN : bytes := ascii_bytes "ariax/layout/v1" ++ [x00].

Record FileEntry : Set := mkFileEntry {
  fe_id : FileId;
  fe_safe_path : SafeRelativePath;
  fe_identity : option bytes;
  fe_length : N;
  fe_global_start : N;
  fe_global_end : N;
  fe_selected : bool;
}.

Record FileLayout : Set := mkFileLayout {
  fl_task : N;
  fl_generation : N;
  fl_root_binding : RootBinding;
  fl_files : list FileEntry;
  fl_total_length : option N;
  fl_piece_length : N;
  fl_layout_hash : bytes;
  fl_canonical_bytes : N;
}.

Module LayoutError.
Inductive LayoutError : Set :=
| EmptyLayout
| TooManyFiles
| ZeroPieceLength
| NonCanonicalFileId
| NonContiguousFile
| FileEndOverflow
| FileEndMismatch
| TotalLengthMismatch
| UnknownLengthShape
| SelectedFileMissingIdentity
| UnselectedFileHasIdentity
| RootBindingMismatch
| PathCollision
| CanonicalLayoutTooLarge.
End LayoutError.
Notation LayoutError := LayoutError.LayoutError.

(** What [calculate_layout_hash] feeds to the digest. *)
Definition entry_preimage (file : FileEntry) : bytes :=
  u32_le (fe_id file) ++ u64_le (fe_global_start file) ++ u64_le (fe_global_end file)
  ++ u64_le (fe_length file) ++ [if fe_selected file then x01 else x00]
  ++ sized (canonical_string (fe_safe_path file)).
Definition layout_preimage (files : list FileEntry) (total_length : option N) (piece_length : N)
    : bytes :=
  LAYOUT_HASH_DOMAIN
  ++ match total_length with Some total => [x01] ++ u64_le total | None => [x00] end
  ++ u64_le piece_length ++ u32_le (blen files) ++ concat (entry_preimage <$> files).

(** [canonical_size]. *)
Definition canonical_size (files : list FileEntry) : result LayoutError N :=
  foldl (fun total file =>
    total ← total;
    let identity_len := default 0 (blen <$> fe_identity file) in
    ok_or (u64_checked_add total
             (4 + 8 + 8 + 8 + 1 + 4 + srp_encoded_len (fe_safe_path file) + 4 + identity_len))
      LayoutError.CanonicalLayoutTooLarge) (Ok 0) files.

Section layout.
Context `{Unicode}.

(** The checks of one file against its selection. *)
Definition validate_identity (root_binding : RootBinding) (file : FileEntry) (selected_count : N)
    : result LayoutError N :=
  match fe_selected file, fe_identity file with
  | true, Some identity =>
    if rb_file_identities root_binding !! fe_id file != Some identity
    then Err LayoutError.RootBindingMismatch else Ok (selected_count + 1)
  | true, None => Err LayoutError.SelectedFileMissingIdentity
  | false, Some _ => Err LayoutError.UnselectedFileHasIdentity
  | false, None =>
    if is_some (rb_file_identities root_binding !! fe_id file)
    then Err LayoutError.RootBindingMismatch else Ok selected_count
  end.

(** The loop of [validate_layout]: the expected start, the collision keys seen
    and the number of selected files. *)
Fixpoint validate_files (root_binding : RootBinding) (platform : PathPlatform) (files : list FileEntry)
    (index expected_start : N) (paths : gset str) (selected_count : N)
    : result LayoutError (N * N) :=
  match files with
  | [] => Ok (expected_start, selected_count)
  | file :: files =>
    if fe_id file != index then Err LayoutError.NonCanonicalFileId
    else if fe_global_start file != expected_start then Err LayoutError.NonContiguousFile
    else
      expected_end ← ok_or (u64_checked_add (fe_global_start file) (fe_length file))
                       LayoutError.FileEndOverflow;
      if fe_global_end file != expected_end then Err LayoutError.FileEndMismatch
      else
        let key := collision_key (fe_safe_path file) platform in
        if bool_decide (key ∈ paths) then Err LayoutError.PathCollision
        else
          selected_count ← validate_identity root_binding file selected_count;
          validate_files root_binding platform files (index + 1) (fe_global_end file)
            ({[key]} ∪ paths) selected_count
  end.

Definition unknown_length_shape (files : list FileEntry) : bool :=
  match files with
  | [file] => (fe_length file =? 0) && (fe_global_start file =? 0) && (fe_global_end file =? 0)
              && fe_selected file
  | _ => false
  end.

Definition validate_layout (root_binding : RootBinding) (files : list FileEntry)
    (total_length : option N) (piece_length : N) : result LayoutError unit :=
  if blen files =? 0 then Err LayoutError.EmptyLayout
  else if MAX_LAYOUT_ENTRIES <? blen files then Err LayoutError.TooManyFiles
  else if piece_length =? 0 then Err LayoutError.ZeroPieceLength
  else if is_none total_length && negb (unknown_length_shape files)
  then Err LayoutError.UnknownLengthShape
  else
    '(expected_start, selected_count) ←
      validate_files root_binding (pp_platform (rb_path root_binding)) files 0 0 ∅ 0;
    if N.of_nat (size (rb_file_identities root_binding)) != selected_count
    then Err LayoutError.RootBindingMismatch
    else if default false ((fun total => total != expected_start) <$> total_length)
    then Err LayoutError.TotalLengthMismatch
    else Ok tt.

Context `{Digests}.

Definition calculate_layout_hash (files : list FileEntry) (total_length : option N)
    (piece_length : N) : bytes := sha256 (layout_preimage files total_length piece_length).

Definition FileLayout_new (task generation : N) (root_binding : RootBinding)
    (files : list FileEntry) (total_length : option N) (piece_length : N)
    : result LayoutError FileLayout :=
  _ ← validate_layout root_binding files total_length piece_length;
  canonical_bytes ← canonical_size files;
  if MAX_LAYOUT_BYTES <? canonical_bytes then Err LayoutError.CanonicalLayoutTooLarge
  else Ok {|
    fl_task := task; fl_generation := generation; fl_root_binding := root_binding;
    fl_files := files; fl_total_length := total_length; fl_piece_length := piece_length;
    fl_layout_hash := calculate_layout_hash files total_length piece_length;
    fl_canonical_bytes := canonical_bytes;
  |}.
End layout.

(** ** The offset mapper *)

Record GlobalSpan : Set := mkGlobalSpan { gs_offset : N; gs_len : N }.
Record FileSpan : Set := mkFileSpan { fs_file : FileId; fs_file_offset : N; fs_len : N }.
Record GlobalOffsetMapper : Set := mkGlobalOffsetMapper {
  gm_files : list FileEntry;
  gm_total_length : N;
}.

Module MapSpanError.
Inductive MapSpanError : Set :=
| UnknownTotalLength
| EmptySpan
| Overflow
| OutsideLayout
| CrossFileSpan
| UnselectedFile.
End MapSpanError.
Notation MapSpanError := MapSpanError.MapSpanError.

Definition GlobalOffsetMapper_new (layout : FileLayout) : result MapSpanError GlobalOffsetMapper :=
  total_length ← ok_or (fl_total_length layout) MapSpanError.UnknownTotalLength;
  Ok {| gm_files := fl_files layout; gm_total_length := total_length |}.

Definition GlobalOffsetMapper_map (self : GlobalOffsetMapper) (span : GlobalSpan)
    : result MapSpanError FileSpan :=
  if gs_len span =? 0 then Err MapSpanError.EmptySpan
  else
    end_ ← ok_or (u64_checked_add (gs_offset span) (gs_len span)) MapSpanError.Overflow;
    if gm_total_length self <? end_ then Err MapSpanError.OutsideLayout
    else
      file ← ok_or (List.find (fun file => (fe_global_start file <=? gs_offset span)
                                           && (gs_offset span <? fe_global_end file)) (gm_files self))
               MapSpanError.OutsideLayout;
      if fe_global_end file <? end_ then Err MapSpanError.CrossFileSpan
      else if negb (fe_selected file) then Err MapSpanError.UnselectedFile
      else Ok {| fs_file := fe_id file; fs_file_offset := gs_offset span - fe_global_start file;
                 fs_len := gs_len span |}.

(** ** Well-formed layouts *)

(** Files numbered from [index] that fill the range from [start] on. *)
Fixpoint placed (index start : N) (files : list FileEntry) : Prop :=
  match files with
  | [] => True
  | file :: files =>
    fe_id file = index /\ fe_global_start file = start
    /\ fe_global_end file = start + fe_length file /\ fe_global_end file <= U64_MAX
    /\ placed (index + 1) (fe_global_end file) files
  end.

Definition end_of (start : N) (files : list FileEntry) : N :=
  foldl (fun _ file => fe_global_end file) start files.

Definition selected_bound (rb : RootBinding) (file : FileEntry) : Prop :=
  if fe_selected file
  then is_Some (fe_identity file) /\ rb_file_identities rb !! fe_id file = fe_identity file
  else fe_identity file = None /\ rb_file_identities rb !! fe_id file = None.

Section layout_lemmas.
Context `{Unicode}.

Lemma validate_files_Ok rb platform files : forall index start paths n end_ count,
  validate_files rb platform files index start paths n = Ok (end_, count) ->
  placed index start files /\ end_ = end_of start files
  /\ NoDup ((fun f => collision_key (fe_safe_path f) platform) <$> files)
  /\ Forall (fun f => collision_key (fe_safe_path f) platform ∉ paths) files
  /\ Forall (selected_bound rb) files /\ count = n + blen (filter fe_selected files).
Proof.
  induction files as [|f files IH]; intros index start paths n end_ count; cbn [validate_files].
  { intros [= <- <-]. rewrite filter_nil, blen_nil, N.add_0_r. split_and!; try done; constructor. }
  destruct (bool_decide_reflect (fe_id f = index)) as [Hi|]; [|done].
  destruct (bool_decide_reflect (fe_global_start f = start)) as [Hs|]; [|done]. cbn [negb].
  intros (e & [-> He]%ok_or_Ok%u64_checked_add_Some & E)%bind_Ok.
  destruct (bool_decide_reflect (fe_global_end f = fe_global_start f + fe_length f)) as [Hend|]; [|done].
  cbn [negb] in E. case_bool_decide as Hkey; [done|].
  apply bind_Ok in E as (n' & Hid & E).
  apply IH in E as (Hpl & -> & Hnd & Hout & Hsel & ->).
  assert (selected_bound rb f /\ n' = n + blen (filter fe_selected [f])) as [Hb ->].
  { unfold validate_identity in Hid. unfold selected_bound.
    destruct (fe_selected f) eqn:Es, (fe_identity f); try done.
    - case_bool_decide; [|done]. injection Hid as <-.
      rewrite filter_cons_True by (by rewrite Es). split; [by eauto|]. done.
    - destruct (_ !! _); [done|]. injection Hid as <-.
      rewrite filter_cons_False by (rewrite Es; intros []). split; [done|]. rewrite filter_nil, blen_nil. lia. }
  split_and!.
  - cbn [placed]. rewrite <- Hs. split_and!; try done; congruence.
  - done.
  - cbn. constructor; [|done]. intros (g & Eg & Hg)%list_elem_of_fmap.
    rewrite Forall_forall in Hout. apply (Hout g Hg). rewrite <- Eg. set_solver.
  - constructor; [done|]. eapply Forall_impl; [exact Hout|]. set_solver.
  - by constructor.
  - change (f :: files) with ([f] ++ files). rewrite filter_app, blen_app. lia.
Qed.

Lemma placed_lookup files : forall index start i f,
  placed index start files -> files !! i = Some f ->
  fe_id f = index + N.of_nat i /\ fe_global_end f = fe_global_start f + fe_length f
  /\ start <= fe_global_start f /\ fe_global_end f <= end_of start files
  /\ fe_global_end f <= U64_MAX.
Proof.
  induction files as [|g files IH]; intros index start i f Hp Hi; [done|].
  destruct Hp as (Hid & Hs & He & Hm & Hp).
  assert (fe_global_end g <= end_of (fe_global_end g) files) as Hmono.
  { clear -Hp. revert index Hp. generalize (fe_global_end g) as s. induction files as [|h files IH];
      intros s index Hp; cbn; [lia|]. destruct Hp as (_ & Hs & He & _ & Hp).
    specialize (IH _ _ Hp). unfold end_of in *. lia. }
  destruct i as [|i]; cbn in Hi.
  - injection Hi as ->. unfold end_of in *. cbn [foldl]. split_and!; try done; lia.
  - destruct (IH _ _ _ _ Hp Hi) as (-> & ? & ? & ? & ?). unfold end_of in *. cbn [foldl].
    split_and!; try done; lia.
Qed.

(** Every offset of the range lies in exactly one file. *)
Lemma placed_covers files : forall index start off,
  placed index start files -> start <= off < end_of start files ->
  exists i f, files !! i = Some f /\ fe_global_start f <= off < fe_global_end f.
Proof.
  induction files as [|g files IH]; intros index start off Hp Ho; [cbn in Ho; lia|].
  destruct Hp as (_ & Hs & He & _ & Hp). destruct (decide (off < fe_global_end g)).
  - exists O, g. split; [done|lia].
  - destruct (IH _ _ off Hp) as (i & f & Hi & Hf); [unfold end_of in *; cbn in Ho; lia|].
    by exists (S i), f.
Qed.

Lemma placed_disjoint files : forall index start i j f g off,
  placed index start files -> files !! i = Some f -> files !! j = Some g ->
  fe_global_start f <= off < fe_global_end f -> fe_global_start g <= off < fe_global_end g ->
  i = j.
Proof.
  induction files as [|h files IH]; intros index start i j f g off Hp Hi Hj Hf Hg; [done|].
  destruct Hp as (_ & Hs & He & _ & Hp). destruct i as [|i], j as [|j]; cbn in Hi, Hj; simplify_eq.
  - done.
  - pose proof (placed_lookup _ _ _ _ _ Hp Hj). lia.
  - pose proof (placed_lookup _ _ _ _ _ Hp Hi). lia.
  - f_equal. by eapply IH.
Qed.
End layout_lemmas.

Section layout_properties.
Context `{Unicode, Digests}.

Lemma FileLayout_new_Ok task generation rb files total piece layout :
  FileLayout_new task generation rb files total piece = Ok layout ->
  fl_files layout = files /\ fl_total_length layout = total /\ fl_piece_length layout = piece
  /\ fl_layout_hash layout = calculate_layout_hash files total piece
  /\ placed 0 0 files /\ (forall n, total = Some n -> n = end_of 0 files)
  /\ NoDup ((fun f => collision_key (fe_safe_path f) (pp_platform (rb_path rb))) <$> files)
  /\ Forall (selected_bound rb) files /\ files <> [] /\ blen files <= MAX_LAYOUT_ENTRIES.
Proof.
  unfold FileLayout_new, validate_layout. intros (? & E & E')%bind_Ok.
  apply bind_Ok in E' as (size & _ & E'). destruct (_ <? size); [done|]. injection E' as <-.
  destruct (N.eqb_spec (blen files) 0) as [|Hne]; [done|]. rewrite blen_0 in Hne.
  destruct (N.ltb_spec MAX_LAYOUT_ENTRIES (blen files)); [done|].
  destruct (piece =? 0); [done|]. destruct (_ && _); [done|].
  apply bind_Ok in E as ([end_ count] & Hv & E).
  apply validate_files_Ok in Hv as (Hp & -> & Hnd & _ & Hsel & _).
  repeat step_in E. split_and!; try done. intros n ->. cbn in E1. by bool_to_prop.
Qed.

(** C24: An admitted layout partitions its range: every offset below the total
    length lies in exactly one file, files are numbered by position and stay
    inside the range, no two paths collide on the platform of the root, and the
    selected files are exactly those with a bound identity. *)
Theorem layout_partitions_range task generation rb files total piece layout :
  FileLayout_new task generation rb files (Some total) piece = Ok layout ->
  (forall off, off < total ->
     exists i f, files !! i = Some f /\ fe_global_start f <= off < fe_global_end f
       /\ forall j g, files !! j = Some g -> fe_global_start g <= off < fe_global_end g -> j = i)
  /\ (forall i f, files !! i = Some f -> fe_id f = N.of_nat i
        /\ fe_global_end f = fe_global_start f + fe_length f /\ fe_global_end f <= total)
  /\ NoDup ((fun f => collision_key (fe_safe_path f) (pp_platform (rb_path rb))) <$> files)
  /\ Forall (selected_bound rb) files.
Proof.
  intros (_ & _ & _ & _ & Hp & Ht & Hnd & Hsel & _)%FileLayout_new_Ok.
  rewrite (Ht _ eq_refl). split_and!; [..|done|done].
  - intros off Ho. destruct (placed_covers files 0 0 off Hp) as (i & f & Hi & Hf); [lia|].
    exists i, f. split_and!; [done|lia|lia|]. intros j g Hj Hg.
    by apply (placed_disjoint files 0 0 j i g f off).
  - intros i f Hi. pose proof (placed_lookup files 0 0 i f Hp Hi). split_and!; tauto || lia.
Qed.

(** C25: The offset mapper is exact: it maps a span exactly when the span is not
    empty and lies inside one selected file, and the result names that file and
    the offset from its start.  The mapping therefore loses nothing: the global
    offset is the file's start plus the file offset. *)
Theorem map_span_exact task generation rb files total piece layout mapper span fs :
  FileLayout_new task generation rb files total piece = Ok layout ->
  GlobalOffsetMapper_new layout = Ok mapper ->
  GlobalOffsetMapper_map mapper span = Ok fs
  <-> exists f, files !! N.to_nat (fs_file fs) = Some f /\ fe_selected f = true
      /\ 0 < fs_len fs /\ fs_len fs = gs_len span
      /\ gs_offset span = fe_global_start f + fs_file_offset fs
      /\ fs_file_offset fs + fs_len fs <= fe_length f.
Proof.
  intros (Ef & Et & _ & _ & Hp & Ht & _)%FileLayout_new_Ok Hm.
  unfold GlobalOffsetMapper_new in Hm. rewrite Et, Ef in Hm.
  apply bind_Ok in Hm as (n & Hn%ok_or_Ok & [= <-]). specialize (Ht _ Hn) as ->.
  unfold GlobalOffsetMapper_map. cbn [gm_files gm_total_length]. split.
  - destruct (N.eqb_spec (gs_len span) 0) as [|Hz]; [done|].
    intros (e & [-> He]%ok_or_Ok%u64_checked_add_Some & E)%bind_Ok.
    destruct (_ <? _); [done|]. apply bind_Ok in E as (f & Hf%ok_or_Ok & E).
    apply find_some in Hf as [Hin [Hb%N.leb_le Hb'%N.ltb_lt]%andb_true_iff].
    apply list_elem_of_In, list_elem_of_lookup in Hin as [i Hi].
    pose proof (placed_lookup _ _ _ _ _ Hp Hi) as (Hid & Hend & _ & _ & _).
    destruct (N.ltb_spec (fe_global_end f) (gs_offset span + gs_len span)); [done|].
    destruct (fe_selected f) eqn:Es; [|done]. injection E as <-. cbn [fs_file fs_file_offset fs_len].
    exists f. rewrite Hid, N.add_0_l, Nat2N.id. split_and!; try done; lia.
  - intros (f & Hi & Hs & Hpos & El & Eo & Hle).
    pose proof (placed_lookup _ _ _ _ _ Hp Hi) as (Hid & Hend & _ & Hle' & Hmax).
    rewrite (proj2 (N.eqb_neq _ _)) by lia. rewrite u64_checked_add_fits by lia.
    cbn [ok_or mbind result_bind]. rewrite (proj2 (N.ltb_ge _ _)) by lia.
    destruct (List.find _ files) as [g|] eqn:Hg; cbn [ok_or mbind result_bind].
    2: { eapply find_none in Hg; [|by apply list_elem_of_In, (list_elem_of_lookup_2 _ _ _ Hi)].
         apply andb_false_iff in Hg as [Hg%N.leb_gt|Hg%N.ltb_ge]; lia. }
    apply find_some in Hg as [Hin [Hb%N.leb_le Hb'%N.ltb_lt]%andb_true_iff].
    apply list_elem_of_In, list_elem_of_lookup in Hin as [j Hj].
    assert (j = N.to_nat (fs_file fs)) as ->
      by (eapply (placed_disjoint files 0 0 _ _ g f (gs_offset span)); try done; lia).
    assert (g = f) as -> by congruence. rewrite (proj2 (N.ltb_ge _ _)) by lia. rewrite Hs.
    cbn [negb]. destruct fs as [file off len]. cbn [fs_file fs_file_offset fs_len] in *.
    do 2 f_equal; lia.
Qed.

(** What the layout hash covers of a file: everything but its identity. *)
Definition entry_view (f : FileEntry) : N * N * N * N * bool * str :=
  (fe_id f, fe_global_start f, fe_global_end f, fe_length f, fe_selected f,
   canonical_string (fe_safe_path f)).

Record entry_typed (f : FileEntry) : Prop := {
  et_id : fe_id f <= U32_MAX;
  et_start : fe_global_start f <= U64_MAX;
  et_end : fe_global_end f <= U64_MAX;
  et_length : fe_length f <= U64_MAX;
  et_path : blen (canonical_string (fe_safe_path f)) <= U32_MAX;
}.

Lemma entry_preimage_inj f g x y :
  entry_typed f -> entry_typed g -> entry_preimage f ++ x = entry_preimage g ++ y ->
  entry_view f = entry_view g /\ x = y.
Proof.
  intros [F1 F2 F3 F4 F5] [G1 G2 G3 G4 G5] E. unfold entry_preimage in E. rewrite <- !app_assoc in E.
  apply app_inj_len in E as [E1 E]; [|by rewrite !blen_u32]. apply u32_le_inj in E1; [|done..].
  apply app_inj_len in E as [E2 E]; [|by rewrite !blen_u64]. apply u64_le_inj in E2; [|done..].
  apply app_inj_len in E as [E3 E]; [|by rewrite !blen_u64]. apply u64_le_inj in E3; [|done..].
  apply app_inj_len in E as [E4 E]; [|by rewrite !blen_u64]. apply u64_le_inj in E4; [|done..].
  apply app_inj_len in E as [E5 E]; [|done]. apply sized_inj in E as [E6 ->]; [|done..].
  split; [|done]. unfold entry_view. destruct (fe_selected f), (fe_selected g); congruence.
Qed.

Lemma entries_preimage_inj files files' :
  Forall entry_typed files -> Forall entry_typed files' ->
  concat (entry_preimage <$> files) = concat (entry_preimage <$> files') ->
  entry_view <$> files = entry_view <$> files'.
Proof.
  intros HF. revert files'. induction HF as [|f files Hf HF IH]; intros files' HF' E.
  - destruct files'; [done|]. by apply (f_equal blen) in E.
  - destruct files' as [|g files']; [by apply (f_equal blen) in E|].
    apply Forall_cons in HF' as [Hg HF']. 
    change (entry_preimage f ++ concat (entry_preimage <$> files)
            = entry_preimage g ++ concat (entry_preimage <$> files')) in E.
    apply entry_preimage_inj in E as [Ev E]; [|done..]. rewrite !fmap_cons, Ev. f_equal. by apply IH.
Qed.

Lemma placed_typed files :
  placed 0 0 files -> blen files <= MAX_LAYOUT_ENTRIES ->
  Forall (fun f => blen (canonical_string (fe_safe_path f)) <= U32_MAX) files ->
  Forall entry_typed files.
Proof.
  intros Hp Hl HF. apply Forall_lookup. intros i f Hi.
  pose proof (placed_lookup _ _ _ _ _ Hp Hi). apply lookup_lt_Some in Hi as Hlt.
  rewrite Forall_lookup in HF. specialize (HF _ _ Hi).
  unfold blen, MAX_LAYOUT_ENTRIES in Hl. split; unfold U32_MAX in *; lia.
Qed.

Lemma placed_end_max files n : placed 0 0 files -> n = end_of 0 files -> n <= U64_MAX.
Proof.
  intros Hfs ->. destruct files as [|f files _] using rev_ind; [vm_compute; congruence|].
  unfold end_of. rewrite foldl_app. cbn [foldl].
  pose proof (placed_lookup (files ++ [f]) 0 0 (length files) f Hfs) as Hlast.
  rewrite lookup_app_r, Nat.sub_diag in Hlast by lia. by destruct (Hlast eq_refl) as (_ & _ & _ & _ & ?).
Qed.

(** The lengths are at the front of the hash input. *)
Lemma layout_preimage_inj files total piece files' total' piece' :
  (forall n, total = Some n -> n <= U64_MAX) -> (forall n, total' = Some n -> n <= U64_MAX) ->
  piece <= U64_MAX -> piece' <= U64_MAX ->
  layout_preimage files total piece = layout_preimage files' total' piece' ->
  total = total' /\ piece = piece'
  /\ concat (entry_preimage <$> files) = concat (entry_preimage <$> files').
Proof.
  intros Ht Ht' Hpc Hpc' E. unfold layout_preimage in E. apply app_inj_len in E as [_ E]; [|done].
  destruct total as [n|], total' as [n'|]; rewrite <- ?app_assoc in E;
    (apply app_inj_len in E as [Etag E]; [|done]); try discriminate Etag.
  - apply app_inj_len in E as [E1 E]; [|by rewrite !blen_u64]. apply u64_le_inj in E1 as ->; [|by auto..].
    apply app_inj_len in E as [E2 E]; [|by rewrite !blen_u64]. apply u64_le_inj in E2 as ->; [|done..].
    by apply app_inj_len in E as [_ E]; [|by rewrite !blen_u32].
  - apply app_inj_len in E as [E2 E]; [|by rewrite !blen_u64]. apply u64_le_inj in E2 as ->; [|done..].
    by apply app_inj_len in E as [_ E]; [|by rewrite !blen_u32].
Qed.

(** Layouts with the same hash have the same lengths. *)
Lemma layout_hash_lengths t g rb files total piece l t' g' rb' files' total' piece' l' :
  FileLayout_new t g rb files total piece = Ok l ->
  FileLayout_new t' g' rb' files' total' piece' = Ok l' ->
  piece <= U64_MAX -> piece' <= U64_MAX -> fl_layout_hash l = fl_layout_hash l' ->
  (total = total' /\ piece = piece')
  \/ collide (layout_preimage files total piece) (layout_preimage files' total' piece').
Proof.
  intros (_ & _ & _ & Eh & Hp & Ht & _)%FileLayout_new_Ok.
  intros (_ & _ & _ & Eh' & Hp' & Ht' & _)%FileLayout_new_Ok Hpc Hpc' Hhash. rewrite Eh, Eh' in Hhash.
  destruct (decide (layout_preimage files total piece = layout_preimage files' total' piece'))
    as [E|Hne]; [|by right].
  left. apply layout_preimage_inj in E as (-> & -> & _); eauto using placed_end_max.
Qed.

(** C36: The layout hash identifies the layout: two admitted layouts with the same
    hash have the same total and piece lengths and the same files, with equal
    ids, ranges, selections and paths, unless their own hash inputs are different
    and collide under SHA-256. *)
Theorem layout_hash_identifies t g rb files total piece l t' g' rb' files' total' piece' l' :
  FileLayout_new t g rb files total piece = Ok l ->
  FileLayout_new t' g' rb' files' total' piece' = Ok l' ->
  piece <= U64_MAX -> piece' <= U64_MAX ->
  Forall (fun f => blen (canonical_string (fe_safe_path f)) <= U32_MAX) (files ++ files') ->
  fl_layout_hash l = fl_layout_hash l' ->
  (total = total' /\ piece = piece' /\ entry_view <$> files = entry_view <$> files')
  \/ collide (layout_preimage files total piece) (layout_preimage files' total' piece').
Proof.
  intros (_ & _ & _ & Eh & Hp & Ht & _ & _ & _ & Hl)%FileLayout_new_Ok.
  intros (_ & _ & _ & Eh' & Hp' & Ht' & _ & _ & _ & Hl')%FileLayout_new_Ok Hpc Hpc' HF Hhash.
  rewrite Eh, Eh' in Hhash. apply Forall_app in HF as [HF HF'].
  destruct (decide (layout_preimage files total piece = layout_preimage files' total' piece'))
    as [E|Hne].
  2: by right.
  left. apply placed_typed in HF; [|done..]. apply placed_typed in HF'; [|done..].
  apply layout_preimage_inj in E as (-> & -> & E); eauto using placed_end_max.
  split_and!; auto using entries_preimage_inj.
Qed.
End layout_properties.

(** A layout of two files, of which the first is selected. *)
#[local] Existing Instance concrete_digests.
#[local] Existing Instance plain_unicode.

Definition example_file (id len start : N) (name : string) (identity : option bytes) : FileEntry :=
  mkFileEntry id (mkSafeRelativePath [ascii_bytes name] (blen (ascii_bytes name))) identity len start
    (start + len) (is_some identity).
Definition example_files : list FileEntry :=
  [example_file 0 10 0 "a" (Some (ascii_bytes "file")); example_file 1 0 10 "b" None;
   example_file 2 5 10 "c" None].
Definition example_layout : FileLayout :=
  mkFileLayout 1 0 example_binding example_files (Some 15) 4
    (calculate_layout_hash example_files (Some 15) 4) 118.

Lemma example_layout_new : FileLayout_new 1 0 example_binding example_files (Some 15) 4 = Ok example_layout.
Proof. vm_compute. reflexivity. Qed.

Lemma layout_partitions_range_witness :
  exists i f, example_files !! i = Some f /\ fe_global_start f <= 12 < fe_global_end f.
Proof.
  destruct (layout_partitions_range 1 0 example_binding example_files 15 4 example_layout
    example_layout_new) as [Hc _].
  destruct (Hc 12) as (i & f & Hi & Hf & _); [lia|by exists i, f].
Defined.

Lemma map_span_exact_witness :
  exists f, example_files !! 0%nat = Some f /\ fe_selected f = true /\ 3 + 4 <= fe_length f.
Proof.
  destruct (proj1 (map_span_exact 1 0 example_binding example_files (Some 15) 4 example_layout
    (mkGlobalOffsetMapper example_files 15) (mkGlobalSpan 3 4) (mkFileSpan 0 3 4)
    example_layout_new eq_refl)) as (f & Hi & Hs & _ & _ & _ & Hl); [vm_compute; reflexivity|].
  exists f. auto.
Defined.

Lemma layout_hash_identifies_witness :
  (Some 15 = Some 15 /\ 4 = 4 /\ entry_view <$> example_files = entry_view <$> example_files)
  \/ let b := layout_preimage example_files (Some 15) 4 in collide b b.
Proof.
  apply (layout_hash_identifies 1 0 example_binding example_files (Some 15) 4 example_layout
    1 0 example_binding example_files (Some 15) 4 example_layout example_layout_new example_layout_new);
    [vm_compute; congruence..| |reflexivity].
  repeat constructor; vm_compute; congruence.
Defined.
