(* ===== verification/JournalTags.v ===== *)
(** * Journal tags

    Model of [crates/ariax-storage/src/journal_tags.rs]: the closed vocabularies
    of one-byte tags in journal payloads.  [JournalTag] is what the
    [journal_tag_enum!] macro gives each of them. *)

From S2P Require Import Prelude.
From Stdlib Require Import String.
Open Scope list_scope.

Record UnknownJournalTag : Set := mkUnknownJournalTag {
  ujt_vocabulary : string;
  ujt_value : N;
}.
#[global] Instance UnknownJournalTag_eq_dec : EqDecision UnknownJournalTag.
Proof. solve_decision. Defined.

(** [number], [code], [vocabulary] and the [ALL_] constant; a number identifies
    its tag and fits a byte. *)
Class JournalTag (A : Type) := {
  tag_number : A -> N;
  tag_code : A -> string;
  tag_vocabulary : string;
  tag_all : list A;
  tag_find : forall x, head (filter (fun y => tag_number y = tag_number x) tag_all) = Some x;
  tag_byte : forall x, tag_number x < 256;
}.

(** [TryFrom<u8>]: the tag with that number. *)
Definition tag_try_from {A} `{JournalTag A} (value : N) : result UnknownJournalTag A :=
  ok_or (head (filter (fun tag => tag_number tag = value) tag_all))
    {| ujt_vocabulary := tag_vocabulary; ujt_value := value |}.

Lemma tag_try_from_Ok {A} `{JournalTag A} value (tag : A) :
  tag_try_from value = Ok tag <-> tag_number tag = value.
Proof.
  unfold tag_try_from. rewrite ok_or_Ok. split.
  - intros E%head_Some_elem_of. by apply list_elem_of_filter in E as [? _].
  - intros <-. apply tag_find.
Qed.

(** Data and journal flush policy selected when the task was created. *)
Module DurabilityMode.
Inductive DurabilityMode : Set :=
| Fast
| Balanced
| Strict.
End DurabilityMode.
Notation DurabilityMode := DurabilityMode.DurabilityMode.

Definition DurabilityMode_number (self : DurabilityMode) : N :=
  match self with
  | DurabilityMode.Fast => 1
  | DurabilityMode.Balanced => 2
  | DurabilityMode.Strict => 3
  end.
Definition DurabilityMode_code (self : DurabilityMode) : string :=
  (match self with
  | DurabilityMode.Fast => "fast"
  | DurabilityMode.Balanced => "balanced"
  | DurabilityMode.Strict => "strict"
  end)%string.
Definition ALL_DURABILITY_MODES : list DurabilityMode :=
  [DurabilityMode.Fast;
   DurabilityMode.Balanced;
   DurabilityMode.Strict].
#[global] Instance DurabilityMode_tag : JournalTag DurabilityMode.
Proof.
  refine {| tag_number := DurabilityMode_number; tag_code := DurabilityMode_code;
            tag_vocabulary := "durability"%string; tag_all := ALL_DURABILITY_MODES |};
    by intros [].
Defined.
#[global] Instance DurabilityMode_eq_dec : EqDecision DurabilityMode.
Proof. solve_decision. Defined.

(** Which generation slot an option snapshot occupies. *)
Module OptionsSnapshotScope.
Inductive OptionsSnapshotScope : Set :=
| CurrentGeneration
| NextAdmission.
End OptionsSnapshotScope.
Notation OptionsSnapshotScope := OptionsSnapshotScope.OptionsSnapshotScope.

Definition OptionsSnapshotScope_number (self : OptionsSnapshotScope) : N :=
  match self with
  | OptionsSnapshotScope.CurrentGeneration => 1
  | OptionsSnapshotScope.NextAdmission => 2
  end.
Definition OptionsSnapshotScope_code (self : OptionsSnapshotScope) : string :=
  (match self with
  | OptionsSnapshotScope.CurrentGeneration => "current_generation"
  | OptionsSnapshotScope.NextAdmission => "next_admission"
  end)%string.
Definition ALL_OPTIONS_SNAPSHOT_SCOPES : list OptionsSnapshotScope :=
  [OptionsSnapshotScope.CurrentGeneration;
   OptionsSnapshotScope.NextAdmission].
#[global] Instance OptionsSnapshotScope_tag : JournalTag OptionsSnapshotScope.
Proof.
  refine {| tag_number := OptionsSnapshotScope_number; tag_code := OptionsSnapshotScope_code;
            tag_vocabulary := "options_snapshot_scope"%string; tag_all := ALL_OPTIONS_SNAPSHOT_SCOPES |};
    by intros [].
Defined.
#[global] Instance OptionsSnapshotScope_eq_dec : EqDecision OptionsSnapshotScope.
Proof. solve_decision. Defined.

(** Why one admission advanced the task generation. *)
Module GenerationStartReason.
Inductive GenerationStartReason : Set :=
| OptionPatch
| RetryReadmission
| RepresentationRestart
| BackendFailover
| RootRebind
| RecoveryRepair
| ExplicitRestart.
End GenerationStartReason.
Notation GenerationStartReason := GenerationStartReason.GenerationStartReason.

Definition GenerationStartReason_number (self : GenerationStartReason) : N :=
  match self with
  | GenerationStartReason.OptionPatch => 1
  | GenerationStartReason.RetryReadmission => 2
  | GenerationStartReason.RepresentationRestart => 3
  | GenerationStartReason.BackendFailover => 4
  | GenerationStartReason.RootRebind => 5
  | GenerationStartReason.RecoveryRepair => 6
  | GenerationStartReason.ExplicitRestart => 7
  end.
Definition GenerationStartReason_code (self : GenerationStartReason) : string :=
  (match self with
  | GenerationStartReason.OptionPatch => "option_patch"
  | GenerationStartReason.RetryReadmission => "retry_readmission"
  | GenerationStartReason.RepresentationRestart => "representation_restart"
  | GenerationStartReason.BackendFailover => "backend_failover"
  | GenerationStartReason.RootRebind => "root_rebind"
  | GenerationStartReason.RecoveryRepair => "recovery_repair"
  | GenerationStartReason.ExplicitRestart => "explicit_restart"
  end)%string.
Definition ALL_GENERATION_START_REASONS : list GenerationStartReason :=
  [GenerationStartReason.OptionPatch;
   GenerationStartReason.RetryReadmission;
   GenerationStartReason.RepresentationRestart;
   GenerationStartReason.BackendFailover;
   GenerationStartReason.RootRebind;
   GenerationStartReason.RecoveryRepair;
   GenerationStartReason.ExplicitRestart].
#[global] Instance GenerationStartReason_tag : JournalTag GenerationStartReason.
Proof.
  refine {| tag_number := GenerationStartReason_number; tag_code := GenerationStartReason_code;
            tag_vocabulary := "generation_start_reason"%string; tag_all := ALL_GENERATION_START_REASONS |};
    by intros [].
Defined.
#[global] Instance GenerationStartReason_eq_dec : EqDecision GenerationStartReason.
Proof. solve_decision. Defined.

(** Why provisional bytes for one lease were made untrusted. *)
Module LeaseAbortReason.
Inductive LeaseAbortReason : Set :=
| Cancelled
| Redirect
| ShortBody
| OversizedBody
| InvalidRange
| StaleValidator
| DigestMismatch
| StorageRejected
| OverlapLost
| OverlapUncertain
| Retry
| GenerationDrain.
End LeaseAbortReason.
Notation LeaseAbortReason := LeaseAbortReason.LeaseAbortReason.

Definition LeaseAbortReason_number (self : LeaseAbortReason) : N :=
  match self with
  | LeaseAbortReason.Cancelled => 1
  | LeaseAbortReason.Redirect => 2
  | LeaseAbortReason.ShortBody => 3
  | LeaseAbortReason.OversizedBody => 4
  | LeaseAbortReason.InvalidRange => 5
  | LeaseAbortReason.StaleValidator => 6
  | LeaseAbortReason.DigestMismatch => 7
  | LeaseAbortReason.StorageRejected => 8
  | LeaseAbortReason.OverlapLost => 9
  | LeaseAbortReason.OverlapUncertain => 10
  | LeaseAbortReason.Retry => 11
  | LeaseAbortReason.GenerationDrain => 12
  end.
Definition LeaseAbortReason_code (self : LeaseAbortReason) : string :=
  (match self with
  | LeaseAbortReason.Cancelled => "cancelled"
  | LeaseAbortReason.Redirect => "redirect"
  | LeaseAbortReason.ShortBody => "short_body"
  | LeaseAbortReason.OversizedBody => "oversized_body"
  | LeaseAbortReason.InvalidRange => "invalid_range"
  | LeaseAbortReason.StaleValidator => "stale_validator"
  | LeaseAbortReason.DigestMismatch => "digest_mismatch"
  | LeaseAbortReason.StorageRejected => "storage_rejected"
  | LeaseAbortReason.OverlapLost => "overlap_lost"
  | LeaseAbortReason.OverlapUncertain => "overlap_uncertain"
  | LeaseAbortReason.Retry => "retry"
  | LeaseAbortReason.GenerationDrain => "generation_drain"
  end)%string.
Definition ALL_LEASE_ABORT_REASONS : list LeaseAbortReason :=
  [LeaseAbortReason.Cancelled;
   LeaseAbortReason.Redirect;
   LeaseAbortReason.ShortBody;
   LeaseAbortReason.OversizedBody;
   LeaseAbortReason.InvalidRange;
   LeaseAbortReason.StaleValidator;
   LeaseAbortReason.DigestMismatch;
   LeaseAbortReason.StorageRejected;
   LeaseAbortReason.OverlapLost;
   LeaseAbortReason.OverlapUncertain;
   LeaseAbortReason.Retry;
   LeaseAbortReason.GenerationDrain].
#[global] Instance LeaseAbortReason_tag : JournalTag LeaseAbortReason.
Proof.
  refine {| tag_number := LeaseAbortReason_number; tag_code := LeaseAbortReason_code;
            tag_vocabulary := "lease_abort_reason"%string; tag_all := ALL_LEASE_ABORT_REASONS |};
    by intros [].
Defined.
#[global] Instance LeaseAbortReason_eq_dec : EqDecision LeaseAbortReason.
Proof. solve_decision. Defined.

(** Evidence for the data-before-journal barrier of a durable piece. *)
Module DataBarrierKind.
Inductive DataBarrierKind : Set :=
| BalancedGroup
| StrictPiece
| FastFinalization
| RecoveryReadback.
End DataBarrierKind.
Notation DataBarrierKind := DataBarrierKind.DataBarrierKind.

Definition DataBarrierKind_number (self : DataBarrierKind) : N :=
  match self with
  | DataBarrierKind.BalancedGroup => 1
  | DataBarrierKind.StrictPiece => 2
  | DataBarrierKind.FastFinalization => 3
  | DataBarrierKind.RecoveryReadback => 4
  end.
Definition DataBarrierKind_code (self : DataBarrierKind) : string :=
  (match self with
  | DataBarrierKind.BalancedGroup => "balanced_group"
  | DataBarrierKind.StrictPiece => "strict_piece"
  | DataBarrierKind.FastFinalization => "fast_finalization"
  | DataBarrierKind.RecoveryReadback => "recovery_readback"
  end)%string.
Definition ALL_DATA_BARRIER_KINDS : list DataBarrierKind :=
  [DataBarrierKind.BalancedGroup;
   DataBarrierKind.StrictPiece;
   DataBarrierKind.FastFinalization;
   DataBarrierKind.RecoveryReadback].
#[global] Instance DataBarrierKind_tag : JournalTag DataBarrierKind.
Proof.
  refine {| tag_number := DataBarrierKind_number; tag_code := DataBarrierKind_code;
            tag_vocabulary := "data_barrier"%string; tag_all := ALL_DATA_BARRIER_KINDS |};
    by intros [].
Defined.
#[global] Instance DataBarrierKind_eq_dec : EqDecision DataBarrierKind.
Proof. solve_decision. Defined.

(** Stable owner of a persisted retry decision. *)
Module RetryScope.
Inductive RetryScope : Set :=
| Task
| Uri
| Span
| Piece.
End RetryScope.
Notation RetryScope := RetryScope.RetryScope.

Definition RetryScope_number (self : RetryScope) : N :=
  match self with
  | RetryScope.Task => 1
  | RetryScope.Uri => 2
  | RetryScope.Span => 3
  | RetryScope.Piece => 4
  end.
Definition RetryScope_code (self : RetryScope) : string :=
  (match self with
  | RetryScope.Task => "task"
  | RetryScope.Uri => "uri"
  | RetryScope.Span => "span"
  | RetryScope.Piece => "piece"
  end)%string.
Definition ALL_RETRY_SCOPES : list RetryScope :=
  [RetryScope.Task;
   RetryScope.Uri;
   RetryScope.Span;
   RetryScope.Piece].
#[global] Instance RetryScope_tag : JournalTag RetryScope.
Proof.
  refine {| tag_number := RetryScope_number; tag_code := RetryScope_code;
            tag_vocabulary := "retry_scope"%string; tag_all := ALL_RETRY_SCOPES |};
    by intros [].
Defined.
#[global] Instance RetryScope_eq_dec : EqDecision RetryScope.
Proof. solve_decision. Defined.

(** How the persisted retry delay was selected. *)
Module RetryReason.
Inductive RetryReason : Set :=
| Backoff
| RetryAfter
| PolicyClamp.
End RetryReason.
Notation RetryReason := RetryReason.RetryReason.

Definition RetryReason_number (self : RetryReason) : N :=
  match self with
  | RetryReason.Backoff => 1
  | RetryReason.RetryAfter => 2
  | RetryReason.PolicyClamp => 3
  end.
Definition RetryReason_code (self : RetryReason) : string :=
  (match self with
  | RetryReason.Backoff => "backoff"
  | RetryReason.RetryAfter => "retry_after"
  | RetryReason.PolicyClamp => "policy_clamp"
  end)%string.
Definition ALL_RETRY_REASONS : list RetryReason :=
  [RetryReason.Backoff;
   RetryReason.RetryAfter;
   RetryReason.PolicyClamp].
#[global] Instance RetryReason_tag : JournalTag RetryReason.
Proof.
  refine {| tag_number := RetryReason_number; tag_code := RetryReason_code;
            tag_vocabulary := "retry_reason"%string; tag_all := ALL_RETRY_REASONS |};
    by intros [].
Defined.
#[global] Instance RetryReason_eq_dec : EqDecision RetryReason.
Proof. solve_decision. Defined.

(** Why a task-local pause checkpoint was written. *)
Module TaskPauseReason.
Inductive TaskPauseReason : Set :=
| User
| NoSpace
| SlowSlot
| HostKeyApproval
| Restarting
| RecoveryHold.
End TaskPauseReason.
Notation TaskPauseReason := TaskPauseReason.TaskPauseReason.

Definition TaskPauseReason_number (self : TaskPauseReason) : N :=
  match self with
  | TaskPauseReason.User => 1
  | TaskPauseReason.NoSpace => 2
  | TaskPauseReason.SlowSlot => 3
  | TaskPauseReason.HostKeyApproval => 4
  | TaskPauseReason.Restarting => 5
  | TaskPauseReason.RecoveryHold => 6
  end.
Definition TaskPauseReason_code (self : TaskPauseReason) : string :=
  (match self with
  | TaskPauseReason.User => "user"
  | TaskPauseReason.NoSpace => "no_space"
  | TaskPauseReason.SlowSlot => "slow_slot"
  | TaskPauseReason.HostKeyApproval => "host_key_approval"
  | TaskPauseReason.Restarting => "restarting"
  | TaskPauseReason.RecoveryHold => "recovery_hold"
  end)%string.
Definition ALL_TASK_PAUSE_REASONS : list TaskPauseReason :=
  [TaskPauseReason.User;
   TaskPauseReason.NoSpace;
   TaskPauseReason.SlowSlot;
   TaskPauseReason.HostKeyApproval;
   TaskPauseReason.Restarting;
   TaskPauseReason.RecoveryHold].
#[global] Instance TaskPauseReason_tag : JournalTag TaskPauseReason.
Proof.
  refine {| tag_number := TaskPauseReason_number; tag_code := TaskPauseReason_code;
            tag_vocabulary := "task_pause_reason"%string; tag_all := ALL_TASK_PAUSE_REASONS |};
    by intros [].
Defined.
#[global] Instance TaskPauseReason_eq_dec : EqDecision TaskPauseReason.
Proof. solve_decision. Defined.

(** Why the task was terminally removed from the scheduler. *)
Module TaskRemoveReason.
Inductive TaskRemoveReason : Set :=
| User
| SessionCleanup
| Replaced.
End TaskRemoveReason.
Notation TaskRemoveReason := TaskRemoveReason.TaskRemoveReason.

Definition TaskRemoveReason_number (self : TaskRemoveReason) : N :=
  match self with
  | TaskRemoveReason.User => 1
  | TaskRemoveReason.SessionCleanup => 2
  | TaskRemoveReason.Replaced => 3
  end.
Definition TaskRemoveReason_code (self : TaskRemoveReason) : string :=
  (match self with
  | TaskRemoveReason.User => "user"
  | TaskRemoveReason.SessionCleanup => "session_cleanup"
  | TaskRemoveReason.Replaced => "replaced"
  end)%string.
Definition ALL_TASK_REMOVE_REASONS : list TaskRemoveReason :=
  [TaskRemoveReason.User;
   TaskRemoveReason.SessionCleanup;
   TaskRemoveReason.Replaced].
#[global] Instance TaskRemoveReason_tag : JournalTag TaskRemoveReason.
Proof.
  refine {| tag_number := TaskRemoveReason_number; tag_code := TaskRemoveReason_code;
            tag_vocabulary := "task_remove_reason"%string; tag_all := ALL_TASK_REMOVE_REASONS |};
    by intros [].
Defined.
#[global] Instance TaskRemoveReason_eq_dec : EqDecision TaskRemoveReason.
Proof. solve_decision. Defined.

