(* ===== verification/Journal.v ===== *)
(** * Journal framing

    Model of [crates/ariax-storage/src/journal.rs]: segment headers, committed
    records, the segment encoder with its rotation, and the replay of an ordered
    list of segments up to the first invalid byte.

    Memory is not bounded in the model, so the [AllocationFailed] branches of
    [try_reserve] do not occur.  The replay loop over one segment is fuelled by
    the segment's length; every record takes at least [RECORD_OVERHEAD] bytes. *)

From S2P Require Import Prelude Bytes Ids.
From Stdlib Require Import Init.Byte Strings.Byte.
Open Scope list_scope.

Definition HEADER_MAGIC : bytes := ascii_bytes "ARXJ".
Definition RECORD_MAGIC : bytes := ascii_bytes "ARXR".
Definition COMMIT_MAGIC : bytes := ascii_bytes "CMIT".
Definition JOURNAL_FORMAT_VERSION : N := 1.
Definition JOURNAL_ENDIANNESS_ASSERTION : N := 1.
Definition SEGMENT_HEADER_LEN : N := 104.
Definition RECORD_PREFIX_LEN : N := 28.
Definition RECORD_OVERHEAD : N := 36.
Definition MAX_RECORD_PAYLOAD : N := 16 * 1024 * 1024.
Definition SEGMENT_HASH_DOMAIN : bytes := ascii_bytes "ariax/segment/v1" ++ [x00].
Definition HEADER_CRC_OFFSET : N := SEGMENT_HEADER_LEN - 4.

(** ** Identifiers and hashes

    A [JournalId] is sixteen bytes, a [SegmentHash] thirty-two. *)

Notation JournalId := bytes (only parsing).
Notation SegmentHash := bytes (only parsing).

Definition all_zero (b : bytes) : bool := forallb (fun x => x == x00) b.
Definition JournalId_new (b : bytes) : option JournalId :=
  if all_zero b then None else Some b.
Definition SegmentHash_ZERO : SegmentHash := repeat x00 32.

(** ** Record types *)

Module RecordType.
Inductive RecordType : Set :=
| TaskCreated
| OptionsSnapshot
| LayoutCommitted
| GenerationStarted
| LeaseStarted
| PieceStarted
| PieceWritten
| LeaseCommitted
| LeaseAborted
| PieceVerified
| PieceFailed
| PieceDurable
| RetryState
| TaskPaused
| TaskComplete
| TaskError
| TaskRemoved
| CleanShutdown
| CheckpointStart
| CheckpointEnd
| LayoutChunk
| FinalizeIntent
| FinalizeDone
| PieceStateChunk
| HttpStrongValidator
| HttpRangeIdentity
| VerificationManifest
| VerificationManifestChunk
| ProtocolValidator
| WholeFileVerified
| HostKeyState
| MetadataComplete.
End RecordType.
Notation RecordType := RecordType.RecordType.

Definition RecordType_code (self : RecordType) : string :=
  match self with
  | RecordType.TaskCreated => "task_created"
  | RecordType.OptionsSnapshot => "options_snapshot"
  | RecordType.LayoutCommitted => "layout_committed"
  | RecordType.GenerationStarted => "generation_started"
  | RecordType.LeaseStarted => "lease_started"
  | RecordType.PieceStarted => "piece_started"
  | RecordType.PieceWritten => "piece_written"
  | RecordType.LeaseCommitted => "lease_committed"
  | RecordType.LeaseAborted => "lease_aborted"
  | RecordType.PieceVerified => "piece_verified"
  | RecordType.PieceFailed => "piece_failed"
  | RecordType.PieceDurable => "piece_durable"
  | RecordType.RetryState => "retry_state"
  | RecordType.TaskPaused => "task_paused"
  | RecordType.TaskComplete => "task_complete"
  | RecordType.TaskError => "task_error"
  | RecordType.TaskRemoved => "task_removed"
  | RecordType.CleanShutdown => "clean_shutdown"
  | RecordType.CheckpointStart => "checkpoint_start"
  | RecordType.CheckpointEnd => "checkpoint_end"
  | RecordType.LayoutChunk => "layout_chunk"
  | RecordType.FinalizeIntent => "finalize_intent"
  | RecordType.FinalizeDone => "finalize_done"
  | RecordType.PieceStateChunk => "piece_state_chunk"
  | RecordType.HttpStrongValidator => "http_strong_validator"
  | RecordType.HttpRangeIdentity => "http_range_identity"
  | RecordType.VerificationManifest => "verification_manifest"
  | RecordType.VerificationManifestChunk => "verification_manifest_chunk"
  | RecordType.ProtocolValidator => "protocol_validator"
  | RecordType.WholeFileVerified => "whole_file_verified"
  | RecordType.HostKeyState => "host_key_state"
  | RecordType.MetadataComplete => "metadata_complete"
  end.

Definition ALL_RECORD_TYPES : list RecordType :=
  [ RecordType.TaskCreated;
    RecordType.OptionsSnapshot;
    RecordType.LayoutCommitted;
    RecordType.GenerationStarted;
    RecordType.LeaseStarted;
    RecordType.PieceStarted;
    RecordType.PieceWritten;
    RecordType.LeaseCommitted;
    RecordType.LeaseAborted;
    RecordType.PieceVerified;
    RecordType.PieceFailed;
    RecordType.PieceDurable;
    RecordType.RetryState;
    RecordType.TaskPaused;
    RecordType.TaskComplete;
    RecordType.TaskError;
    RecordType.TaskRemoved;
    RecordType.CleanShutdown;
    RecordType.CheckpointStart;
    RecordType.CheckpointEnd;
    RecordType.LayoutChunk;
    RecordType.FinalizeIntent;
    RecordType.FinalizeDone;
    RecordType.PieceStateChunk;
    RecordType.HttpStrongValidator;
    RecordType.HttpRangeIdentity;
    RecordType.VerificationManifest;
    RecordType.VerificationManifestChunk;
    RecordType.ProtocolValidator;
    RecordType.WholeFileVerified;
    RecordType.HostKeyState;
    RecordType.MetadataComplete ].

#[global] Instance RecordType_coded : Coded RecordType.
Proof. refine {| code_of := RecordType_code; all_of := ALL_RECORD_TYPES |}. by intros []. Defined.
#[global] Instance RecordType_eq_dec : EqDecision RecordType := coded_eq_dec.

(** [record_type as u16] and [RecordType::try_from]. *)
Definition RecordType_as_u16 (self : RecordType) : N :=
  match self with
  | RecordType.TaskCreated => 1
  | RecordType.OptionsSnapshot => 2
  | RecordType.LayoutCommitted => 3
  | RecordType.GenerationStarted => 4
  | RecordType.LeaseStarted => 5
  | RecordType.PieceStarted => 6
  | RecordType.PieceWritten => 7
  | RecordType.LeaseCommitted => 8
  | RecordType.LeaseAborted => 9
  | RecordType.PieceVerified => 10
  | RecordType.PieceFailed => 11
  | RecordType.PieceDurable => 12
  | RecordType.RetryState => 13
  | RecordType.TaskPaused => 14
  | RecordType.TaskComplete => 15
  | RecordType.TaskError => 16
  | RecordType.TaskRemoved => 17
  | RecordType.CleanShutdown => 18
  | RecordType.CheckpointStart => 19
  | RecordType.CheckpointEnd => 20
  | RecordType.LayoutChunk => 21
  | RecordType.FinalizeIntent => 22
  | RecordType.FinalizeDone => 23
  | RecordType.PieceStateChunk => 24
  | RecordType.HttpStrongValidator => 25
  | RecordType.HttpRangeIdentity => 26
  | RecordType.VerificationManifest => 27
  | RecordType.VerificationManifestChunk => 28
  | RecordType.ProtocolValidator => 29
  | RecordType.WholeFileVerified => 30
  | RecordType.HostKeyState => 31
  | RecordType.MetadataComplete => 32
  end.

Definition RecordType_try_from (value : N) : option RecordType :=
  match value with
  | 1 => Some RecordType.TaskCreated
  | 2 => Some RecordType.OptionsSnapshot
  | 3 => Some RecordType.LayoutCommitted
  | 4 => Some RecordType.GenerationStarted
  | 5 => Some RecordType.LeaseStarted
  | 6 => Some RecordType.PieceStarted
  | 7 => Some RecordType.PieceWritten
  | 8 => Some RecordType.LeaseCommitted
  | 9 => Some RecordType.LeaseAborted
  | 10 => Some RecordType.PieceVerified
  | 11 => Some RecordType.PieceFailed
  | 12 => Some RecordType.PieceDurable
  | 13 => Some RecordType.RetryState
  | 14 => Some RecordType.TaskPaused
  | 15 => Some RecordType.TaskComplete
  | 16 => Some RecordType.TaskError
  | 17 => Some RecordType.TaskRemoved
  | 18 => Some RecordType.CleanShutdown
  | 19 => Some RecordType.CheckpointStart
  | 20 => Some RecordType.CheckpointEnd
  | 21 => Some RecordType.LayoutChunk
  | 22 => Some RecordType.FinalizeIntent
  | 23 => Some RecordType.FinalizeDone
  | 24 => Some RecordType.PieceStateChunk
  | 25 => Some RecordType.HttpStrongValidator
  | 26 => Some RecordType.HttpRangeIdentity
  | 27 => Some RecordType.VerificationManifest
  | 28 => Some RecordType.VerificationManifestChunk
  | 29 => Some RecordType.ProtocolValidator
  | 30 => Some RecordType.WholeFileVerified
  | 31 => Some RecordType.HostKeyState
  | 32 => Some RecordType.MetadataComplete
  | _ => None
  end.

(** ** Segment headers *)

Module HeaderDecodeError.
Inductive HeaderDecodeError : Set :=
| Truncated
| InvalidMagic
| BadCrc
| UnsupportedVersion
| InvalidEndianness
| UnknownFlags
| ZeroGid
| ZeroJournalId
| InvalidFirstSequence
| UnexpectedPreviousLink
| MissingPreviousLink.
End HeaderDecodeError.
Notation HeaderDecodeError := HeaderDecodeError.HeaderDecodeError.

Definition HeaderDecodeError_code (self : HeaderDecodeError) : string :=
  match self with
  | HeaderDecodeError.Truncated => "truncated"
  | HeaderDecodeError.InvalidMagic => "invalid_magic"
  | HeaderDecodeError.BadCrc => "bad_crc"
  | HeaderDecodeError.UnsupportedVersion => "unsupported_version"
  | HeaderDecodeError.InvalidEndianness => "invalid_endianness"
  | HeaderDecodeError.UnknownFlags => "unknown_flags"
  | HeaderDecodeError.ZeroGid => "zero_gid"
  | HeaderDecodeError.ZeroJournalId => "zero_journal_id"
  | HeaderDecodeError.InvalidFirstSequence => "invalid_first_sequence"
  | HeaderDecodeError.UnexpectedPreviousLink => "unexpected_previous_link"
  | HeaderDecodeError.MissingPreviousLink => "missing_previous_link"
  end.

Definition ALL_HEADER_DECODE_ERRORS : list HeaderDecodeError :=
  [ HeaderDecodeError.Truncated;
    HeaderDecodeError.InvalidMagic;
    HeaderDecodeError.BadCrc;
    HeaderDecodeError.UnsupportedVersion;
    HeaderDecodeError.InvalidEndianness;
    HeaderDecodeError.UnknownFlags;
    HeaderDecodeError.ZeroGid;
    HeaderDecodeError.ZeroJournalId;
    HeaderDecodeError.InvalidFirstSequence;
    HeaderDecodeError.UnexpectedPreviousLink;
    HeaderDecodeError.MissingPreviousLink ].

#[global] Instance HeaderDecodeError_coded : Coded HeaderDecodeError.
Proof. refine {| code_of := HeaderDecodeError_code; all_of := ALL_HEADER_DECODE_ERRORS |}. by intros []. Defined.
#[global] Instance HeaderDecodeError_eq_dec : EqDecision HeaderDecodeError := coded_eq_dec.

Record SegmentHeader : Set := mkSegmentHeader {
  sh_task_gid : Gid;
  sh_journal_id : JournalId;
  sh_segment_index : N;
  sh_first_sequence : N;
  sh_starting_generation : Generation;
  sh_previous_segment_last_sequence : N;
  sh_previous_segment_hash : SegmentHash;
  sh_created_at_unix_ms : N;
}.
#[global] Instance SegmentHeader_eq_dec : EqDecision SegmentHeader.
Proof. solve_decision. Defined.

Definition SegmentHeader_first (task_gid : Gid) (journal_id : JournalId)
    (starting_generation : Generation) (created_at_unix_ms : N) : SegmentHeader := {|
  sh_task_gid := task_gid;
  sh_journal_id := journal_id;
  sh_segment_index := 0;
  sh_first_sequence := 1;
  sh_starting_generation := starting_generation;
  sh_previous_segment_last_sequence := 0;
  sh_previous_segment_hash := SegmentHash_ZERO;
  sh_created_at_unix_ms := created_at_unix_ms;
|}.

Module JournalEncodeError.
Inductive JournalEncodeError : Set :=
| GenerationBeforeSegment
| PayloadTooLarge (length : N)
| AllocationFailed
| SequenceExhausted
| SegmentIndexExhausted
| CannotRotateEmptySegment.
End JournalEncodeError.
Notation JournalEncodeError := JournalEncodeError.JournalEncodeError.
#[global] Instance JournalEncodeError_eq_dec : EqDecision JournalEncodeError.
Proof. solve_decision. Defined.

(** The tail shared by [successor] and [recovery_successor]. *)
Definition next_header (self : SegmentHeader) (previous_segment_last_sequence : N)
    (previous_segment_hash : SegmentHash) (starting_generation : Generation)
    (created_at_unix_ms : N) : result JournalEncodeError SegmentHeader :=
  segment_index ← ok_or (u32_checked_add (sh_segment_index self) 1)
    JournalEncodeError.SegmentIndexExhausted;
  first_sequence ← ok_or (u64_checked_add previous_segment_last_sequence 1)
    JournalEncodeError.SequenceExhausted;
  Ok {|
    sh_task_gid := sh_task_gid self;
    sh_journal_id := sh_journal_id self;
    sh_segment_index := segment_index;
    sh_first_sequence := first_sequence;
    sh_starting_generation := starting_generation;
    sh_previous_segment_last_sequence := previous_segment_last_sequence;
    sh_previous_segment_hash := previous_segment_hash;
    sh_created_at_unix_ms := created_at_unix_ms;
  |}.

Definition successor (self : SegmentHeader) (previous_segment_last_sequence : N)
    (previous_segment_hash : SegmentHash) (starting_generation : Generation)
    (created_at_unix_ms : N) : result JournalEncodeError SegmentHeader :=
  if previous_segment_last_sequence <? sh_first_sequence self
  then Err JournalEncodeError.CannotRotateEmptySegment
  else next_header self previous_segment_last_sequence previous_segment_hash
         starting_generation created_at_unix_ms.

Definition recovery_successor (self : SegmentHeader) (previous_segment_last_sequence : N)
    (previous_segment_hash : SegmentHash) (starting_generation : Generation)
    (created_at_unix_ms : N) : result JournalEncodeError SegmentHeader :=
  if (previous_segment_last_sequence <? sh_first_sequence self)
     && ((sh_segment_index self =? 0)
         || (u64_checked_add previous_segment_last_sequence 1
             != Some (sh_first_sequence self)))
  then Err JournalEncodeError.CannotRotateEmptySegment
  else next_header self previous_segment_last_sequence previous_segment_hash
         starting_generation created_at_unix_ms.

(** Reads of fixed fields; every caller has checked the length. *)
Definition read_u16 (input : bytes) (offset : N) : N := le_val (slice offset 2 input).
Definition read_u32 (input : bytes) (offset : N) : N := le_val (slice offset 4 input).
Definition read_u64 (input : bytes) (offset : N) : N := le_val (slice offset 8 input).
Definition read_array_16 (input : bytes) (offset : N) : bytes := slice offset 16 input.
Definition read_array_32 (input : bytes) (offset : N) : bytes := slice offset 32 input.

(** ** Replay outcomes *)

Module RecordStopReason.
Inductive RecordStopReason : Set :=
| TruncatedFraming
| InvalidMagic
| PayloadTooLarge
| UnknownRecordType
| UnknownFlags
| SequenceGap (expected actual : N)
| GenerationBeforeSegment
| LengthOverflow
| TruncatedRecord
| BadCrc
| MissingCommit.
End RecordStopReason.
Notation RecordStopReason := RecordStopReason.RecordStopReason.
#[global] Instance RecordStopReason_eq_dec : EqDecision RecordStopReason.
Proof. solve_decision. Defined.

Definition RecordStopReason_code (self : RecordStopReason) : string :=
  match self with
  | RecordStopReason.TruncatedFraming => "truncated_framing"
  | RecordStopReason.InvalidMagic => "invalid_magic"
  | RecordStopReason.PayloadTooLarge => "payload_too_large"
  | RecordStopReason.UnknownRecordType => "unknown_record_type"
  | RecordStopReason.UnknownFlags => "unknown_flags"
  | RecordStopReason.SequenceGap _ _ => "sequence_gap"
  | RecordStopReason.GenerationBeforeSegment => "generation_before_segment"
  | RecordStopReason.LengthOverflow => "length_overflow"
  | RecordStopReason.TruncatedRecord => "truncated_record"
  | RecordStopReason.BadCrc => "bad_crc"
  | RecordStopReason.MissingCommit => "missing_commit"
  end.

Record ReplayLimits : Set := mkReplayLimits {
  rl_max_segments : N;
  rl_max_records : N;
  rl_max_payload_bytes : N;
}.

Definition ReplayLimits_default : ReplayLimits := {|
  rl_max_segments := 1024;
  rl_max_records := 262144;
  rl_max_payload_bytes := 64 * 1024 * 1024;
|}.

Module ReplayResource.
Inductive ReplayResource : Set :=
| Segments
| Records
| PayloadBytes.
End ReplayResource.
Notation ReplayResource := ReplayResource.ReplayResource.
#[global] Instance ReplayResource_eq_dec : EqDecision ReplayResource.
Proof. solve_decision. Defined.

Module ReplayStop.
Inductive ReplayStop : Set :=
| CleanEnd
| NoSegments
| Header (input_index : N) (error : HeaderDecodeError)
| SegmentIndex (expected actual : N)
| TaskMismatch
| JournalMismatch
| FirstSequenceMismatch (expected actual : N)
| PreviousSequenceMismatch
| PreviousHashMismatch
| Record (segment_index : N) (offset : N) (reason : RecordStopReason)
| ResourceLimit (resource : ReplayResource).
End ReplayStop.
Notation ReplayStop := ReplayStop.ReplayStop.
#[global] Instance ReplayStop_eq_dec : EqDecision ReplayStop.
Proof. solve_decision. Defined.

Record JournalRecord : Set := mkJournalRecord {
  jr_record_type : RecordType;
  jr_generation : Generation;
  jr_sequence : N;
  jr_payload : bytes;
}.
#[global] Instance JournalRecord_eq_dec : EqDecision JournalRecord.
Proof. solve_decision. Defined.

Record JournalReplay : Set := mkJournalReplay {
  rp_records : list JournalRecord;
  rp_last_sequence : N;
  rp_valid_segment_prefixes : list N;
  rp_payload_bytes : N;
  rp_stop : ReplayStop;
}.
#[global] Instance JournalReplay_eq_dec : EqDecision JournalReplay.
Proof. solve_decision. Defined.
#[global] Instance JournalReplay_eta : Settable JournalReplay := fun r => mkJournalReplay
  (rp_records r) (rp_last_sequence r) (rp_valid_segment_prefixes r) (rp_payload_bytes r)
  (rp_stop r).
#[global] Instance rp_records_set : Setter rp_records. Proof. derive_setter. Defined.
#[global] Instance rp_last_sequence_set : Setter rp_last_sequence. Proof. derive_setter. Defined.
#[global] Instance rp_valid_segment_prefixes_set : Setter rp_valid_segment_prefixes.
Proof. derive_setter. Defined.
#[global] Instance rp_payload_bytes_set : Setter rp_payload_bytes. Proof. derive_setter. Defined.
#[global] Instance rp_stop_set : Setter rp_stop. Proof. derive_setter. Defined.

(** A loop either goes on with its state or returns the replay. *)
Inductive flow (S : Type) : Type :=
| Continue (state : S)
| Return (replay : JournalReplay).
Arguments Continue {S} state.
Arguments Return {S} replay.

(** What the loop over segments carries from one segment to the next. *)
Record ReplayCursor : Set := mkReplayCursor {
  rc_input_index : N;
  rc_expected_gid : option Gid;
  rc_expected_journal : option JournalId;
  rc_expected_index : N;
  rc_expected_sequence : N;
  rc_previous_hash : SegmentHash;
}.

#[global] Instance ReplayCursor_eta : Settable ReplayCursor := fun r => mkReplayCursor
  (rc_input_index r) (rc_expected_gid r) (rc_expected_journal r) (rc_expected_index r)
  (rc_expected_sequence r) (rc_previous_hash r).
#[global] Instance rc_expected_index_set : Setter rc_expected_index. Proof. derive_setter. Defined.
#[global] Instance rc_expected_sequence_set : Setter rc_expected_sequence.
Proof. derive_setter. Defined.

Section journal.
Context `{Digests}.

(** The bytes [0 .. HEADER_CRC_OFFSET] of the header, and the whole header. *)
Definition header_fields (self : SegmentHeader) : bytes :=
  HEADER_MAGIC
  ++ u16_le JOURNAL_FORMAT_VERSION
  ++ [byte_of JOURNAL_ENDIANNESS_ASSERTION]
  ++ [x00]
  ++ u64_le (sh_task_gid self)
  ++ sh_journal_id self
  ++ u32_le (sh_segment_index self)
  ++ u64_le (sh_first_sequence self)
  ++ u64_le (sh_starting_generation self)
  ++ u64_le (sh_previous_segment_last_sequence self)
  ++ sh_previous_segment_hash self
  ++ u64_le (sh_created_at_unix_ms self).

Definition SegmentHeader_encode (self : SegmentHeader) : bytes :=
  header_fields self ++ u32_le (crc32c (header_fields self)).

(** The link checks that end [decode]. *)
Definition check_links (header : SegmentHeader) : result HeaderDecodeError SegmentHeader :=
  if sh_segment_index header =? 0 then
    if sh_first_sequence header != 1 then Err HeaderDecodeError.InvalidFirstSequence
    else if (sh_previous_segment_last_sequence header != 0)
            || (sh_previous_segment_hash header != SegmentHash_ZERO)
    then Err HeaderDecodeError.UnexpectedPreviousLink
    else Ok header
  else
    if (sh_previous_segment_last_sequence header == 0)
       || (sh_previous_segment_hash header == SegmentHash_ZERO)
    then Err HeaderDecodeError.MissingPreviousLink
    else if u64_checked_add (sh_previous_segment_last_sequence header) 1
            != Some (sh_first_sequence header)
    then Err HeaderDecodeError.InvalidFirstSequence
    else Ok header.

Definition SegmentHeader_decode (input : bytes) : result HeaderDecodeError SegmentHeader :=
  if blen input <? SEGMENT_HEADER_LEN then Err HeaderDecodeError.Truncated
  else if upto 4 input != HEADER_MAGIC then Err HeaderDecodeError.InvalidMagic
  else if crc32c (upto HEADER_CRC_OFFSET input) != read_u32 input HEADER_CRC_OFFSET
  then Err HeaderDecodeError.BadCrc
  else if read_u16 input 4 != JOURNAL_FORMAT_VERSION
  then Err HeaderDecodeError.UnsupportedVersion
  else if slice 6 1 input != [byte_of JOURNAL_ENDIANNESS_ASSERTION]
  then Err HeaderDecodeError.InvalidEndianness
  else if slice 7 1 input != [x00] then Err HeaderDecodeError.UnknownFlags
  else
    task_gid ← ok_or (Gid_new (read_u64 input 8)) HeaderDecodeError.ZeroGid;
    journal_id ← ok_or (JournalId_new (read_array_16 input 16)) HeaderDecodeError.ZeroJournalId;
    check_links {|
      sh_task_gid := task_gid;
      sh_journal_id := journal_id;
      sh_segment_index := read_u32 input 32;
      sh_first_sequence := read_u64 input 36;
      sh_starting_generation := read_u64 input 44;
      sh_previous_segment_last_sequence := read_u64 input 52;
      sh_previous_segment_hash := read_array_32 input 60;
      sh_created_at_unix_ms := read_u64 input 92;
    |}.

(** ** Records *)

(** The bytes of a record its CRC covers. *)
Definition record_fields (record_type : RecordType) (generation : Generation) (sequence : N)
    (payload : bytes) : bytes :=
  RECORD_MAGIC
  ++ u32_le (blen payload)
  ++ u16_le (RecordType_as_u16 record_type)
  ++ u16_le 0
  ++ u64_le generation
  ++ u64_le sequence
  ++ payload.

Definition encode_record (record_type : RecordType) (generation : Generation) (sequence : N)
    (payload : bytes) : result JournalEncodeError bytes :=
  if U32_MAX <? blen payload then Err (JournalEncodeError.PayloadTooLarge (blen payload))
  else
    _ ← ok_or (total ← u64_checked_add RECORD_PREFIX_LEN (blen payload); u64_checked_add total 8)
          JournalEncodeError.AllocationFailed;
    let output := record_fields record_type generation sequence payload in
    Ok (output ++ u32_le (crc32c output) ++ COMMIT_MAGIC).

Definition hash_segment (b : bytes) : SegmentHash :=
  sha256 (SEGMENT_HASH_DOMAIN ++ u64_le (blen b) ++ b).

(** ** The segment encoder *)

Record EncodedSegment : Set := mkEncodedSegment {
  es_header : SegmentHeader;
  es_bytes : bytes;
  es_last_sequence : N;
  es_hash : SegmentHash;
}.

Record SegmentEncoder : Set := mkSegmentEncoder {
  se_header : SegmentHeader;
  se_bytes : bytes;
  se_next_sequence : N;
}.

Definition from_header (header : SegmentHeader) : SegmentEncoder := {|
  se_header := header;
  se_bytes := SegmentHeader_encode header;
  se_next_sequence := sh_first_sequence header;
|}.

Definition SegmentEncoder_first (task_gid : Gid) (journal_id : JournalId)
    (starting_generation : Generation) (created_at_unix_ms : N) : SegmentEncoder :=
  from_header (SegmentHeader_first task_gid journal_id starting_generation created_at_unix_ms).

(** [append] returns the encoder it leaves and the sequence it assigned. *)
Definition append (self : SegmentEncoder) (record_type : RecordType) (generation : Generation)
    (payload : bytes) : result JournalEncodeError (SegmentEncoder * N) :=
  if generation <? sh_starting_generation (se_header self)
  then Err JournalEncodeError.GenerationBeforeSegment
  else if MAX_RECORD_PAYLOAD <? blen payload
  then Err (JournalEncodeError.PayloadTooLarge (blen payload))
  else
    let sequence := se_next_sequence self in
    next_sequence ← ok_or (u64_checked_add sequence 1) JournalEncodeError.SequenceExhausted;
    record ← encode_record record_type generation sequence payload;
    Ok ({| se_header := se_header self;
           se_bytes := se_bytes self ++ record;
           se_next_sequence := next_sequence |}, sequence).

Definition finish (self : SegmentEncoder) : EncodedSegment := {|
  es_header := se_header self;
  es_bytes := se_bytes self;
  es_last_sequence := se_next_sequence self - 1;
  es_hash := hash_segment (se_bytes self);
|}.

Definition rotate (self : EncodedSegment) (starting_generation : Generation)
    (created_at_unix_ms : N) : result JournalEncodeError SegmentEncoder :=
  header ← successor (es_header self) (es_last_sequence self) (es_hash self)
             starting_generation created_at_unix_ms;
  Ok (from_header header).

(** ** Decoding one record *)

Record DecodedRecord : Set := mkDecodedRecord {
  dr_record_type : RecordType;
  dr_generation : Generation;
  dr_sequence : N;
  dr_payload : bytes;
  dr_consumed : N;
}.

Definition decode_record (input : bytes) (expected_sequence : N)
    (starting_generation : Generation) : result RecordStopReason DecodedRecord :=
  if blen input <? RECORD_PREFIX_LEN then Err RecordStopReason.TruncatedFraming
  else if upto 4 input != RECORD_MAGIC then Err RecordStopReason.InvalidMagic
  else
    let payload_len := read_u32 input 4 in
    if MAX_RECORD_PAYLOAD <? payload_len then Err RecordStopReason.PayloadTooLarge
    else
      record_type ← ok_or (RecordType_try_from (read_u16 input 8))
        RecordStopReason.UnknownRecordType;
      if read_u16 input 10 != 0 then Err RecordStopReason.UnknownFlags
      else
        let generation := read_u64 input 12 in
        if generation <? starting_generation
        then Err RecordStopReason.GenerationBeforeSegment
        else
          let sequence := read_u64 input 20 in
          if sequence != expected_sequence
          then Err (RecordStopReason.SequenceGap expected_sequence sequence)
          else
            crc_offset ← ok_or (u64_checked_add RECORD_PREFIX_LEN payload_len)
              RecordStopReason.LengthOverflow;
            commit_offset ← ok_or (u64_checked_add crc_offset 4) RecordStopReason.LengthOverflow;
            total ← ok_or (u64_checked_add commit_offset 4) RecordStopReason.LengthOverflow;
            if blen input <? commit_offset then Err RecordStopReason.TruncatedRecord
            else if blen input <? total then Err RecordStopReason.MissingCommit
            else if crc32c (upto crc_offset input) != read_u32 input crc_offset
            then Err RecordStopReason.BadCrc
            else if slice commit_offset 4 input != COMMIT_MAGIC
            then Err RecordStopReason.MissingCommit
            else Ok {|
              dr_record_type := record_type;
              dr_generation := generation;
              dr_sequence := sequence;
              dr_payload := slice RECORD_PREFIX_LEN payload_len input;
              dr_consumed := total;
            |}.

Definition validate_record (input : bytes) (expected_sequence : N)
    (starting_generation : Generation) : result RecordStopReason N :=
  dr_consumed <$> decode_record input expected_sequence starting_generation.

(** ** Replay *)

Definition replay_new : JournalReplay := {|
  rp_records := [];
  rp_last_sequence := 0;
  rp_valid_segment_prefixes := [];
  rp_payload_bytes := 0;
  rp_stop := ReplayStop.NoSegments;
|}.

Definition push_prefix (offset : N) (replay : JournalReplay) : JournalReplay :=
  replay <| rp_valid_segment_prefixes := rp_valid_segment_prefixes replay ++ [offset] |>.

Definition stopped (offset : N) (stop : ReplayStop) (replay : JournalReplay) : JournalReplay :=
  push_prefix offset replay <| rp_stop := stop |>.

(** The [while offset < bytes.len()] loop; its state is the replay, the next
    sequence and the offset. *)
Fixpoint replay_segment (fuel : nat) (limits : ReplayLimits) (header : SegmentHeader)
    (b : bytes) (replay : JournalReplay) (expected_sequence offset : N)
    : flow (JournalReplay * N * N) :=
  match fuel with
  | O => Continue (replay, expected_sequence, offset)
  | S fuel =>
    if blen b <=? offset then Continue (replay, expected_sequence, offset)
    else if rl_max_records limits <=? blen (rp_records replay)
    then Return (stopped offset (ReplayStop.ResourceLimit ReplayResource.Records) replay)
    else
      match decode_record (skip offset b) expected_sequence (sh_starting_generation header) with
      | Err reason =>
        Return (stopped offset (ReplayStop.Record (sh_segment_index header) offset reason) replay)
      | Ok decoded =>
        match u64_checked_add (rp_payload_bytes replay) (blen (dr_payload decoded)) with
        | None =>
          Return (stopped offset (ReplayStop.ResourceLimit ReplayResource.PayloadBytes) replay)
        | Some total =>
          if rl_max_payload_bytes limits <? total
          then
            Return (stopped offset (ReplayStop.ResourceLimit ReplayResource.PayloadBytes) replay)
          else
            let record := {|
              jr_record_type := dr_record_type decoded;
              jr_generation := dr_generation decoded;
              jr_sequence := dr_sequence decoded;
              jr_payload := dr_payload decoded;
            |} in
            let replay := replay <| rp_payload_bytes := total |>
                                 <| rp_last_sequence := dr_sequence decoded |> in
            match u64_checked_add expected_sequence 1 with
            | None =>
              Return (stopped (offset + dr_consumed decoded)
                        (ReplayStop.ResourceLimit ReplayResource.Records) replay)
            | Some sequence =>
              replay_segment fuel limits header b
                (replay <| rp_records := rp_records replay ++ [record] |>)
                sequence (offset + dr_consumed decoded)
            end
        end
      end
  end.

Definition cursor_new : ReplayCursor := {|
  rc_input_index := 0;
  rc_expected_gid := None;
  rc_expected_journal := None;
  rc_expected_index := 0;
  rc_expected_sequence := 1;
  rc_previous_hash := SegmentHash_ZERO;
|}.

(** The checks of a decoded header against the segments before it. *)
Definition header_stop (cursor : ReplayCursor) (replay : JournalReplay) (header : SegmentHeader)
    : option ReplayStop :=
  if sh_segment_index header != rc_expected_index cursor
  then Some (ReplayStop.SegmentIndex (rc_expected_index cursor) (sh_segment_index header))
  else if match rc_expected_gid cursor with Some gid => gid != sh_task_gid header | None => false end
  then Some ReplayStop.TaskMismatch
  else if match rc_expected_journal cursor with
          | Some journal => journal != sh_journal_id header | None => false end
  then Some ReplayStop.JournalMismatch
  else if sh_first_sequence header != rc_expected_sequence cursor
  then Some (ReplayStop.FirstSequenceMismatch (rc_expected_sequence cursor)
               (sh_first_sequence header))
  else if 0 <? rc_expected_index cursor then
    if sh_previous_segment_last_sequence header != rp_last_sequence replay
    then Some ReplayStop.PreviousSequenceMismatch
    else if sh_previous_segment_hash header != rc_previous_hash cursor
    then Some ReplayStop.PreviousHashMismatch
    else None
  else None.

(** One iteration of [for (input_index, bytes) in segments]. *)
Definition replay_step (limits : ReplayLimits) (cursor : ReplayCursor) (replay : JournalReplay)
    (b : bytes) : flow (ReplayCursor * JournalReplay) :=
  if rl_max_segments limits <=? rc_input_index cursor
  then Return (replay <| rp_stop := ReplayStop.ResourceLimit ReplayResource.Segments |>)
  else
    match SegmentHeader_decode b with
    | Err error => Return (replay <| rp_stop := ReplayStop.Header (rc_input_index cursor) error |>)
    | Ok header =>
      match header_stop cursor replay header with
      | Some stop => Return (replay <| rp_stop := stop |>)
      | None =>
        match replay_segment (length b) limits header b replay (rc_expected_sequence cursor)
                SEGMENT_HEADER_LEN with
        | Return replay => Return replay
        | Continue (replay, expected_sequence, offset) =>
          let replay := push_prefix offset replay in
          match u32_checked_add (rc_expected_index cursor) 1 with
          | None => Return (replay <| rp_stop := ReplayStop.ResourceLimit ReplayResource.Segments |>)
          | Some index =>
            Continue ({|
              rc_input_index := rc_input_index cursor + 1;
              rc_expected_gid := Some (default (sh_task_gid header) (rc_expected_gid cursor));
              rc_expected_journal :=
                Some (default (sh_journal_id header) (rc_expected_journal cursor));
              rc_expected_index := index;
              rc_expected_sequence := expected_sequence;
              rc_previous_hash := hash_segment b;
            |}, replay)
          end
        end
      end
    end.

Fixpoint replay_loop (limits : ReplayLimits) (cursor : ReplayCursor) (replay : JournalReplay)
    (segments : list bytes) : JournalReplay :=
  match segments with
  | [] => replay <| rp_stop := ReplayStop.CleanEnd |>
  | b :: segments =>
    match replay_step limits cursor replay b with
    | Return replay => replay
    | Continue (cursor, replay) => replay_loop limits cursor replay segments
    end
  end.

Definition replay_ordered_segments (segments : list bytes) (limits : ReplayLimits)
    : JournalReplay :=
  match segments with
  | [] => replay_new
  | _ => replay_loop limits cursor_new replay_new segments
  end.
End journal.
