(* ===== verification/JournalCodec.v ===== *)
(** * Segment headers and records: round trips and canonicity

    The lemmas on [Journal]'s codecs: a well-formed header or a writable record
    decodes to itself whatever follows it, and whatever decodes is, byte for
    byte, the encoding of what was decoded. *)

From S2P Require Import Prelude Bytes Ids Journal.
From Stdlib Require Import Init.Byte Strings.Byte.
Open Scope list_scope.

(** ** Record types *)

Lemma RecordType_try_from_as t : RecordType_try_from (RecordType_as_u16 t) = Some t.
Proof. by destruct t. Qed.

Lemma RecordType_try_from_Some n t : RecordType_try_from n = Some t -> n = RecordType_as_u16 t.
Proof.
  intros E. destruct n as [|p]; [discriminate E|].
  do 6 try (destruct p as [p|p|]; try discriminate E); by injection E as <-.
Qed.

Lemma RecordType_as_u16_bound t : RecordType_as_u16 t <= U16_MAX.
Proof. by destruct t. Qed.

(** ** Headers *)

(** The link a header states, as its index requires it. *)
Definition linked (h : SegmentHeader) : Prop :=
  if sh_segment_index h =? 0
  then sh_first_sequence h = 1 /\ sh_previous_segment_last_sequence h = 0
       /\ sh_previous_segment_hash h = SegmentHash_ZERO
  else sh_previous_segment_last_sequence h <> 0
       /\ sh_previous_segment_hash h <> SegmentHash_ZERO
       /\ sh_first_sequence h = sh_previous_segment_last_sequence h + 1.

Record header_wf (h : SegmentHeader) : Prop := {
  hw_gid : sh_task_gid h <> 0 /\ sh_task_gid h <= U64_MAX;
  hw_journal : blen (sh_journal_id h) = 16 /\ all_zero (sh_journal_id h) = false;
  hw_index : sh_segment_index h <= U32_MAX;
  hw_first : sh_first_sequence h <= U64_MAX;
  hw_generation : sh_starting_generation h <= U64_MAX;
  hw_last : sh_previous_segment_last_sequence h <= U64_MAX;
  hw_hash : blen (sh_previous_segment_hash h) = 32;
  hw_created : sh_created_at_unix_ms h <= U64_MAX;
  hw_linked : linked h;
}.

Lemma check_links_Ok h h' :
  sh_first_sequence h <= U64_MAX -> check_links h = Ok h' <-> h' = h /\ linked h.
Proof.
  intros Hf. unfold check_links, linked.
  destruct (sh_segment_index h =? 0).
  - repeat case_bool_decide; simpl; split; intros; simplify_eq; intuition congruence.
  - assert (u64_checked_add (sh_previous_segment_last_sequence h) 1 = Some (sh_first_sequence h)
            <-> sh_first_sequence h = sh_previous_segment_last_sequence h + 1) as Hs
      by (rewrite u64_checked_add_Some; lia).
    repeat case_bool_decide; simpl; split; intros; simplify_eq; intuition congruence.
Qed.

Lemma check_links_id h h' : check_links h = Ok h' -> h' = h.
Proof.
  unfold check_links. intros. repeat step_in H; by injection H as <-.
Qed.

Lemma Gid_new_Some n g : Gid_new n = Some g <-> g = n /\ n <> 0.
Proof. unfold Gid_new, NonZeroU64_new. destruct (N.eqb_spec n 0); naive_solver. Qed.

Lemma JournalId_new_Some b j : JournalId_new b = Some j <-> j = b /\ all_zero b = false.
Proof. unfold JournalId_new. destruct (all_zero b); naive_solver. Qed.

(** Bounds of the fixed reads. *)
Ltac read_bound :=
  lazymatch goal with
  | |- read_u64 _ _ <= _ => apply le_val_u64_bound; len
  | |- read_u32 _ _ <= _ => apply le_val_u32_bound; len
  | |- blen _ = _ => unfold read_array_16, read_array_32; len
  | |- _ => assumption
  end.

Section codec.
Context `{DigestLaws}.

Lemma blen_header_fields h : header_wf h -> blen (header_fields h) = 100.
Proof.
  intros [_ [Hj _] _ _ _ _ Hh _ _]. unfold header_fields. autorewrite with len.
  rewrite Hj, Hh. done.
Qed.

Lemma blen_header_encode h : header_wf h -> blen (SegmentHeader_encode h) = SEGMENT_HEADER_LEN.
Proof.
  intros. unfold SegmentHeader_encode. rewrite blen_app, blen_header_fields, blen_u32 by done.
  done.
Qed.

Lemma header_magic_len : blen HEADER_MAGIC = 4.
Proof. done. Qed.
Lemma record_magic_len : blen RECORD_MAGIC = 4.
Proof. done. Qed.
Lemma commit_magic_len : blen COMMIT_MAGIC = 4.
Proof. done. Qed.

(** A well-formed header decodes to itself, whatever follows it. *)
Lemma header_decode_encode h rest :
  header_wf h -> SegmentHeader_decode (SegmentHeader_encode h ++ rest) = Ok h.
Proof.
  intros Hwf. pose proof (blen_header_fields _ Hwf) as Hlen.
  pose proof Hwf as [[Hg0 Hg] [Hj0 Hj] Hi Hf Hgen Hl Hh Hc Hlinks].
  pose proof header_magic_len as Hmagic.
  unfold SegmentHeader_decode. change HEADER_CRC_OFFSET with 100.
  rewrite (proj2 (N.ltb_ge _ _))
    by (rewrite blen_app, blen_header_encode by done; unfold SEGMENT_HEADER_LEN; lia).
  unfold SegmentHeader_encode. rewrite <- app_assoc, (upto_app 100) by done.
  unfold read_u16, read_u32, read_u64, read_array_16, read_array_32.
  rewrite (slice_app_next 100 4 100 0), slice_app_here by done.
  rewrite le_val_u32 by apply crc32c_u32.
  rewrite (bool_decide_eq_true_2 (crc32c _ = _)) by done.
  unfold header_fields. rewrite <- !app_assoc.
  rewrite upto_slice. repeat field_step.
  rewrite !le_val_u64, le_val_u16, le_val_u32, !bool_decide_eq_true_2 by done. cbn [negb].
  rewrite (proj2 (Gid_new_Some _ _)) by done. cbn [ok_or mbind result_bind].
  rewrite (proj2 (JournalId_new_Some _ _)) by done. cbn [ok_or mbind result_bind].
  apply check_links_Ok; [done|]. split; [by destruct h|done].
Qed.

(** Whatever decodes is the encoding of a well-formed header. *)
Lemma header_encode_decode input h :
  SegmentHeader_decode input = Ok h ->
  header_wf h /\ input = SegmentHeader_encode h ++ skip SEGMENT_HEADER_LEN input.
Proof.
  unfold SegmentHeader_decode. intros Hd.
  destruct (N.ltb_spec (blen input) SEGMENT_HEADER_LEN) as [|Hlen]; [done|].
  unfold SEGMENT_HEADER_LEN in Hlen. change HEADER_CRC_OFFSET with 100 in Hd.
  repeat step_in Hd. bool_to_prop.
  apply bind_Ok in Hd as (g & (-> & Hg)%ok_or_Ok%Gid_new_Some & Hd).
  apply bind_Ok in Hd as (j & (-> & Hj)%ok_or_Ok%JournalId_new_Some & Hd).
  pose proof (check_links_id _ _ Hd) as ->.
  apply check_links_Ok in Hd as [_ Hl]; [|apply le_val_u64_bound; len].
  set (h := {| sh_task_gid := _ |}) in *.
  assert (header_wf h) as Hwf.
  { split; subst h; cbn [sh_task_gid sh_journal_id sh_segment_index sh_first_sequence
      sh_starting_generation sh_previous_segment_last_sequence sh_previous_segment_hash
      sh_created_at_unix_ms]; split_and?; read_bound. }
  split; [done|].
  assert (input = header_fields h ++ skip 100 input) as Hfields.
  { unfold header_fields. rewrite <- !app_assoc, <- E1, <- E2, <- E3, <- E.
    change (skip 0 input = upto 4 input ++ u16_le (read_u16 input 4) ++ slice 6 1 input
      ++ slice 7 1 input ++ u64_le (read_u64 input 8) ++ slice 16 16 input
      ++ u32_le (read_u32 input 32) ++ u64_le (read_u64 input 36) ++ u64_le (read_u64 input 44)
      ++ u64_le (read_u64 input 52) ++ slice 60 32 input ++ u64_le (read_u64 input 92)
      ++ skip 100 input).
    unfold read_u16, read_u32, read_u64. rewrite !u64_le_val, u32_le_val, u16_le_val by len.
    repeat (eapply skip_field; [reflexivity|]). reflexivity. }
  assert (upto 100 input = header_fields h) as Hup
    by (rewrite Hfields; apply upto_app, blen_header_fields; done).
  unfold SegmentHeader_encode. rewrite <- app_assoc. rewrite Hfields at 1. f_equal.
  rewrite <- Hup, E0. apply (skip_field 100 4); [|done].
  symmetry. apply u32_le_val. len.
Qed.

(** ** Records *)

(** The bytes of a committed record. *)
Definition record_bytes (r : JournalRecord) : bytes :=
  let fields := record_fields (jr_record_type r) (jr_generation r) (jr_sequence r)
                  (jr_payload r) in
  fields ++ u32_le (crc32c fields) ++ COMMIT_MAGIC.

(** What [append] guarantees of the record it writes in a segment that starts
    at generation [start]. *)
Record record_wf (start : Generation) (r : JournalRecord) : Prop := {
  rw_payload : blen (jr_payload r) <= MAX_RECORD_PAYLOAD;
  rw_start : start <= jr_generation r;
  rw_generation : jr_generation r <= U64_MAX;
  rw_sequence : jr_sequence r <= U64_MAX;
}.

Lemma blen_record_fields t g q p : blen (record_fields t g q p) = 28 + blen p.
Proof.
  unfold record_fields. pose proof record_magic_len as Hm. autorewrite with len. rewrite Hm. lia.
Qed.

Lemma blen_record_bytes r : blen (record_bytes r) = RECORD_OVERHEAD + blen (jr_payload r).
Proof.
  unfold record_bytes, RECORD_OVERHEAD. rewrite !blen_app, blen_record_fields, blen_u32.
  change (blen COMMIT_MAGIC) with 4. lia.
Qed.

Lemma max_payload_u32 : MAX_RECORD_PAYLOAD <= U32_MAX.
Proof. done. Qed.

Lemma encode_record_Ok t g q p :
  blen p <= MAX_RECORD_PAYLOAD ->
  encode_record t g q p = Ok (record_bytes (mkJournalRecord t g q p)).
Proof.
  intros Hp. unfold encode_record. pose proof max_payload_u32.
  rewrite (proj2 (N.ltb_ge _ _)) by lia.
  rewrite (u64_checked_add_fits RECORD_PREFIX_LEN); cbn [mbind option_bind].
  - rewrite u64_checked_add_fits; [done|].
    unfold RECORD_PREFIX_LEN, MAX_RECORD_PAYLOAD, U64_MAX in *. lia.
  - unfold RECORD_PREFIX_LEN, MAX_RECORD_PAYLOAD, U64_MAX in *. lia.
Qed.

(** The first [RECORD_PREFIX_LEN] bytes of a record. *)
Definition record_prefix (r : JournalRecord) : bytes :=
  RECORD_MAGIC ++ u32_le (blen (jr_payload r)) ++ u16_le (RecordType_as_u16 (jr_record_type r))
  ++ u16_le 0 ++ u64_le (jr_generation r) ++ u64_le (jr_sequence r).

Lemma blen_record_prefix r : blen (record_prefix r) = 28.
Proof. unfold record_prefix. autorewrite with len. done. Qed.

Lemma record_bytes_prefix r :
  record_bytes r = record_prefix r ++ jr_payload r
    ++ u32_le (crc32c (record_prefix r ++ jr_payload r)) ++ COMMIT_MAGIC.
Proof.
  unfold record_bytes, record_prefix.
  assert (record_fields (jr_record_type r) (jr_generation r) (jr_sequence r) (jr_payload r)
          = record_prefix r ++ jr_payload r) as ->.
  { unfold record_fields, record_prefix. by rewrite <- !app_assoc. }
  unfold record_prefix. by rewrite <- !app_assoc.
Qed.

(** The framing checks pass on the prefix of a written record; what is left is
    the length, the checksum and the commit marker. *)
Lemma decode_record_prefix start r input :
  record_wf start r -> 28 <= blen input -> upto 28 input = record_prefix r ->
  let crc_offset := 28 + blen (jr_payload r) in
  decode_record input (jr_sequence r) start =
    if blen input <? crc_offset + 4 then Err RecordStopReason.TruncatedRecord
    else if blen input <? crc_offset + 8 then Err RecordStopReason.MissingCommit
    else if crc32c (upto crc_offset input) != read_u32 input crc_offset
    then Err RecordStopReason.BadCrc
    else if slice (crc_offset + 4) 4 input != COMMIT_MAGIC
    then Err RecordStopReason.MissingCommit
    else Ok {|
      dr_record_type := jr_record_type r;
      dr_generation := jr_generation r;
      dr_sequence := jr_sequence r;
      dr_payload := slice 28 (blen (jr_payload r)) input;
      dr_consumed := crc_offset + 8;
    |}.
Proof.
  intros [Hp Hs Hg Hq] Hlen Hup crc_offset. unfold decode_record.
  change RECORD_PREFIX_LEN with 28.
  rewrite (proj2 (N.ltb_ge _ 28)) by done. pose proof max_payload_u32.
  assert (forall o n, o + n <= 28 -> slice o n input = slice o n (record_prefix r)) as Hr
    by (intros; rewrite <- Hup; by rewrite slice_upto).
  rewrite upto_slice. unfold read_u16, read_u64.
  rewrite (Hr 0 4), (Hr 8 2), (Hr 10 2), (Hr 12 8), (Hr 20 8) by done.
  assert (read_u32 input 4 = blen (jr_payload r)) as ->.
  { unfold read_u32. rewrite Hr by done. unfold record_prefix. repeat field_step.
    apply le_val_u32. lia. }
  unfold record_prefix. repeat field_step.
  rewrite !le_val_u64, !le_val_u16 by (try apply RecordType_as_u16_bound; done).
  rewrite (proj2 (N.ltb_ge MAX_RECORD_PAYLOAD _)), RecordType_try_from_as by done.
  rewrite !bool_decide_eq_true_2 by done. cbn [negb ok_or mbind result_bind].
  rewrite (proj2 (N.ltb_ge _ start)) by done.
  unfold MAX_RECORD_PAYLOAD in Hp.
  rewrite (u64_checked_add_fits 28) by (unfold U64_MAX; lia). cbn [ok_or mbind result_bind].
  rewrite (u64_checked_add_fits (28 + _)) by (unfold U64_MAX; lia). cbn [ok_or mbind result_bind].
  rewrite (u64_checked_add_fits (28 + _ + _)) by (unfold U64_MAX; lia).
  cbn [ok_or mbind result_bind]. subst crc_offset.
  replace (28 + blen (jr_payload r) + 4 + 4) with (28 + blen (jr_payload r) + 8) by lia.
  done.
Qed.

(** A written record decodes to itself, whatever follows it. *)
Lemma record_decode_encode start r rest :
  record_wf start r ->
  decode_record (record_bytes r ++ rest) (jr_sequence r) start = Ok {|
    dr_record_type := jr_record_type r;
    dr_generation := jr_generation r;
    dr_sequence := jr_sequence r;
    dr_payload := jr_payload r;
    dr_consumed := blen (record_bytes r);
  |}.
Proof.
  intros Hwf. pose proof (blen_record_bytes r) as Hb. unfold RECORD_OVERHEAD in Hb.
  pose proof (blen_record_prefix r) as Hp. rewrite Hb.
  rewrite (decode_record_prefix start r) by
    (first [done | rewrite record_bytes_prefix, <- app_assoc; by apply upto_app
           | rewrite blen_app; lia]).
  rewrite !(proj2 (N.ltb_ge _ _)) by (rewrite blen_app; lia).
  rewrite record_bytes_prefix, <- !app_assoc. cbv zeta.
  rewrite (app_assoc (record_prefix r)). set (body := record_prefix r ++ jr_payload r).
  assert (blen body = 28 + blen (jr_payload r)) as Hbody by (subst body; len).
  rewrite (upto_app _ body) by done.
  rewrite (slice_app_next _ _ _ 4 body _ Hbody) by lia.
  unfold read_u32. rewrite (slice_app_next _ _ _ 0 body _ Hbody) by lia.
  field_step. rewrite le_val_u32 by apply crc32c_u32.
  rewrite bool_decide_eq_true_2 by done. cbn [negb].
  rewrite (slice_app_next _ _ 4 0) by (try apply blen_u32; lia).
  rewrite slice_app_here, bool_decide_eq_true_2 by done. cbn [negb].
  do 2 f_equal; [|lia]. subst body. rewrite <- app_assoc.
  rewrite (slice_app_next _ _ 28 0), slice_app_here by done. done.
Qed.

(** Why replay stops at a record of which only the first [k] bytes are there. *)
Definition torn_reason (r : JournalRecord) (k : N) : RecordStopReason :=
  if k <? RECORD_PREFIX_LEN then RecordStopReason.TruncatedFraming
  else if k <? RECORD_PREFIX_LEN + blen (jr_payload r) + 4
  then RecordStopReason.TruncatedRecord
  else RecordStopReason.MissingCommit.

Lemma record_decode_torn start r k :
  record_wf start r -> k < blen (record_bytes r) ->
  decode_record (upto k (record_bytes r)) (jr_sequence r) start = Err (torn_reason r k).
Proof.
  intros Hwf Hk. pose proof (blen_record_bytes r) as Hb. unfold RECORD_OVERHEAD in Hb.
  unfold torn_reason. change RECORD_PREFIX_LEN with 28.
  assert (blen (upto k (record_bytes r)) = k) as Hlen by len.
  destruct (N.ltb_spec k 28).
  { unfold decode_record. rewrite Hlen. by rewrite (proj2 (N.ltb_lt k _)). }
  rewrite (decode_record_prefix start r) by
    (first [done | rewrite Hlen; done
      | rewrite upto_upto, N.min_l, record_bytes_prefix by done; apply upto_app, blen_record_prefix]).
  cbv zeta. rewrite Hlen. destruct (N.ltb_spec k (28 + blen (jr_payload r) + 4)); [done|].
  by rewrite (proj2 (N.ltb_lt k _)) by lia.
Qed.

(** Whatever decodes is the encoding of a record the encoder can write. *)
Lemma record_encode_decode input sequence start d :
  decode_record input sequence start = Ok d ->
  let r := {| jr_record_type := dr_record_type d; jr_generation := dr_generation d;
              jr_sequence := dr_sequence d; jr_payload := dr_payload d |} in
  record_wf start r /\ dr_sequence d = sequence /\ dr_consumed d = blen (record_bytes r)
  /\ input = record_bytes r ++ skip (dr_consumed d) input.
Proof.
  unfold decode_record. intros Hd.
  destruct (N.ltb_spec (blen input) RECORD_PREFIX_LEN) as [|Hlen]; [done|].
  change RECORD_PREFIX_LEN with 28 in *.
  destruct (bool_decide_reflect (upto 4 input = RECORD_MAGIC)) as [Hm|]; [|done].
  cbn [negb] in Hd. destruct (N.ltb_spec MAX_RECORD_PAYLOAD (read_u32 input 4)); [done|].
  apply bind_Ok in Hd as (t & Ht%ok_or_Ok%RecordType_try_from_Some & Hd).
  destruct (bool_decide_reflect (read_u16 input 10 = 0)) as [Hflags|]; [|done]. cbn [negb] in Hd.
  destruct (N.ltb_spec (read_u64 input 12) start); [done|].
  destruct (bool_decide_reflect (read_u64 input 20 = sequence)) as [Hseq|]; [|done].
  cbn [negb] in Hd.
  apply bind_Ok in Hd as (crc & Hc%ok_or_Ok & Hd). apply u64_checked_add_Some in Hc as [-> _].
  apply bind_Ok in Hd as (commit & Hc%ok_or_Ok & Hd). apply u64_checked_add_Some in Hc as [-> _].
  apply bind_Ok in Hd as (total & Hc%ok_or_Ok & Hd). apply u64_checked_add_Some in Hc as [-> _].
  destruct (N.ltb_spec (blen input) (28 + read_u32 input 4 + 4)); [done|].
  destruct (N.ltb_spec (blen input) (28 + read_u32 input 4 + 4 + 4)); [done|].
  repeat step_in Hd. bool_to_prop. injection Hd as <-.
  cbn [dr_record_type dr_generation dr_sequence dr_payload dr_consumed].
  set (r := {| jr_record_type := t |}).
  assert (blen (jr_payload r) = read_u32 input 4) as Hplen by (subst r; simpl; len).
  split_and!; [|done|rewrite blen_record_bytes, Hplen; unfold RECORD_OVERHEAD; lia|].
  { split; subst r; cbn [jr_payload jr_generation jr_sequence];
      [rewrite blen_slice; lia|done|apply le_val_u64_bound; len..]. }
  assert (input = (record_prefix r ++ jr_payload r) ++ skip (28 + read_u32 input 4) input) as Hbody.
  { unfold record_prefix. rewrite Hplen. subst r.
    cbn [jr_record_type jr_generation jr_sequence jr_payload].
    rewrite <- Ht, <- Hflags, <- Hm, <- !app_assoc, <- (skip_0 input) at 1.
    unfold read_u16, read_u64. unfold read_u32 at 1.
    rewrite !u64_le_val, u32_le_val, !u16_le_val by len.
    repeat (eapply skip_field; [reflexivity|]). done. }
  assert (upto (28 + read_u32 input 4) input = record_prefix r ++ jr_payload r) as Hup
    by (rewrite Hbody at 2; apply upto_app; rewrite blen_app, blen_record_prefix; lia).
  rewrite record_bytes_prefix, <- Hup, <- !app_assoc, app_assoc, <- Hup.
  etransitivity; [symmetry; apply upto_skip|]. f_equal.
  eapply skip_field; [|eapply skip_field; [eassumption|f_equal; lia]].
  rewrite E. symmetry. apply u32_le_val. len.
Qed.
End codec.
