(* ===== verification/Replay.v ===== *)
(** * Replay of journal segments

    What [Journal.replay_ordered_segments] does on the segments a writer
    produced, on those segments torn at any byte, and on arbitrary bytes. *)

From S2P Require Import Prelude Bytes Ids Journal JournalCodec.
From Stdlib Require Import Init.Byte Strings.Byte.
Open Scope list_scope.

(** ** Segments as data *)

(** The records of a segment carry consecutive sequences from [n] on. *)
Fixpoint numbered (n : N) (rs : list JournalRecord) : Prop :=
  match rs with
  | [] => True
  | r :: rs => jr_sequence r = n /\ numbered (n + 1) rs
  end.

Definition payload_total (rs : list JournalRecord) : N :=
  foldr (fun r n => blen (jr_payload r) + n) 0 rs.

Lemma numbered_app n rs rs' :
  numbered n (rs ++ rs') <-> numbered n rs /\ numbered (n + blen rs) rs'.
Proof.
  revert n. induction rs as [|r rs IH]; intros n; cbn [numbered app].
  - rewrite blen_nil, N.add_0_r. tauto.
  - rewrite IH, blen_cons, N.add_assoc. tauto.
Qed.

Lemma payload_total_app rs rs' :
  payload_total (rs ++ rs') = payload_total rs + payload_total rs'.
Proof. induction rs as [|r rs IH]; simpl; [done|]. rewrite IH. lia. Qed.

(** What replay has collected once [rs] was added to it. *)
Definition replay_add (rs : list JournalRecord) (rp : JournalReplay) : JournalReplay := {|
  rp_records := rp_records rp ++ rs;
  rp_last_sequence := default (rp_last_sequence rp) (jr_sequence <$> last rs);
  rp_valid_segment_prefixes := rp_valid_segment_prefixes rp;
  rp_payload_bytes := rp_payload_bytes rp + payload_total rs;
  rp_stop := rp_stop rp;
|}.

Lemma replay_add_nil rp : replay_add [] rp = rp.
Proof. destruct rp. unfold replay_add. simpl. by rewrite app_nil_r, N.add_0_r. Qed.

Lemma replay_add_app rs rs' rp : replay_add (rs ++ rs') rp = replay_add rs' (replay_add rs rp).
Proof.
  unfold replay_add. simpl. rewrite app_assoc, payload_total_app, N.add_assoc. f_equal.
  rewrite last_app. by destruct (last rs').
Qed.

(** The budgets that let replay take [rs] on top of what it holds. *)
Record fits (limits : ReplayLimits) (rs : list JournalRecord) (rp : JournalReplay) : Prop := {
  ft_records : blen (rp_records rp) + blen rs <= rl_max_records limits;
  ft_payload : rp_payload_bytes rp + payload_total rs <= rl_max_payload_bytes limits;
  ft_usize : rl_max_payload_bytes limits <= USIZE_MAX;
}.

Section replay.
Context `{DigestLaws}.

Definition records_bytes (rs : list JournalRecord) : bytes := concat (record_bytes <$> rs).
Definition segment_bytes (s : SegmentHeader * list JournalRecord) : bytes :=
  SegmentHeader_encode s.1 ++ records_bytes s.2.

Record segment_wf (s : SegmentHeader * list JournalRecord) : Prop := {
  sw_header : header_wf s.1;
  sw_records : Forall (record_wf (sh_starting_generation s.1)) s.2;
  sw_numbered : numbered (sh_first_sequence s.1) s.2;
  sw_bound : sh_first_sequence s.1 + blen s.2 <= U64_MAX;
}.

Lemma blen_record_pos r : 0 < blen (record_bytes r).
Proof. rewrite blen_record_bytes. unfold RECORD_OVERHEAD. lia. Qed.

Lemma records_bytes_app rs rs' : records_bytes (rs ++ rs') = records_bytes rs ++ records_bytes rs'.
Proof. unfold records_bytes. by rewrite fmap_app, concat_app. Qed.

Lemma records_bytes_cons r rs : records_bytes (r :: rs) = record_bytes r ++ records_bytes rs.
Proof. done. Qed.

Lemma length_records_bytes rs : (length rs <= length (records_bytes rs))%nat.
Proof.
  induction rs as [|r rs IH]; [done|]. rewrite records_bytes_cons, length_app. simpl.
  pose proof (blen_record_pos r). unfold blen in *. lia.
Qed.

(** One iteration of the loop over a written record. *)
Lemma replay_segment_record fuel limits h b rp n off r :
  record_wf (sh_starting_generation h) r -> jr_sequence r = n -> n + 1 <= U64_MAX ->
  fits limits [r] rp ->
  (exists rest, skip off b = record_bytes r ++ rest) ->
  replay_segment (S fuel) limits h b rp n off
  = replay_segment fuel limits h b (replay_add [r] rp) (n + 1) (off + blen (record_bytes r)).
Proof.
  intros Hwf <- Hn [Hr Hp Hu] [rest Hb]. cbn [replay_segment].
  assert (off < blen b) as Hoff.
  { assert (0 < blen (skip off b)) by (rewrite Hb, blen_app; pose proof (blen_record_pos r); lia).
    rewrite blen_skip in *. lia. }
  rewrite (proj2 (N.leb_gt _ off)) by done.
  rewrite blen_cons, blen_nil in Hr. simpl in Hp.
  rewrite (proj2 (N.leb_gt (rl_max_records limits) _)) by lia.
  rewrite Hb, record_decode_encode by done.
  cbn [dr_payload dr_record_type dr_generation dr_sequence dr_consumed].
  unfold USIZE_MAX in Hu. rewrite u64_checked_add_fits by lia.
  rewrite (proj2 (N.ltb_ge _ _)) by lia.
  rewrite u64_checked_add_fits by done. destruct r, rp. unfold replay_add. simpl.
  by rewrite N.add_0_r.
Qed.

(** The loop over written records, followed by anything. *)
Lemma replay_segment_records rs : forall fuel limits h b rp n off,
  Forall (record_wf (sh_starting_generation h)) rs -> numbered n rs -> n + blen rs <= U64_MAX ->
  fits limits rs rp ->
  (exists rest, skip off b = records_bytes rs ++ rest) ->
  replay_segment (length rs + fuel) limits h b rp n off
  = replay_segment fuel limits h b (replay_add rs rp) (n + blen rs)
      (off + blen (records_bytes rs)).
Proof.
  induction rs as [|r rs IH]; intros fuel limits h b rp n off Hwf Hnum Hn [Hr Hp Hu] [rest Hb].
  - by rewrite replay_add_nil, !N.add_0_r.
  - apply Forall_cons in Hwf as [Hwr Hwf]. destruct Hnum as [Hq Hnum].
    rewrite blen_cons in Hn, Hr. cbn [payload_total foldr] in Hp.
    fold (payload_total rs) in Hp.
    rewrite records_bytes_cons, <- app_assoc in Hb.
    cbn [length Nat.add]. rewrite (replay_segment_record _ _ _ _ _ _ _ r); [|done|done|lia| |].
    + rewrite IH; [|done|done|lia| |].
      * change (r :: rs) with ([r] ++ rs). rewrite replay_add_app. f_equal.
        -- rewrite blen_app, blen_cons, blen_nil. lia.
        -- rewrite records_bytes_app, blen_app, <- N.add_assoc. do 2 f_equal.
           unfold records_bytes. simpl. by rewrite app_nil_r.
      * split; simpl; [rewrite blen_app, blen_cons, blen_nil; lia|lia|done].
      * exists rest. rewrite <- skip_skip, Hb. by apply skip_app.
    + split; simpl; [rewrite blen_cons, blen_nil; lia|lia|done].
    + eauto.
Qed.

(** ** One segment *)

Lemma blen_segment_bytes s :
  header_wf s.1 -> blen (segment_bytes s) = SEGMENT_HEADER_LEN + blen (records_bytes s.2).
Proof. intros. unfold segment_bytes. rewrite blen_app, blen_header_encode by done. done. Qed.

Lemma skip_header h b : header_wf h -> skip SEGMENT_HEADER_LEN (SegmentHeader_encode h ++ b) = b.
Proof. intros. apply skip_app. by apply blen_header_encode. Qed.

(** The loop over a segment reaches what follows its written records with fuel
    to spare. *)
Lemma replay_segment_reach limits s tail rp :
  segment_wf s -> fits limits s.2 rp ->
  let b := segment_bytes s ++ tail in
  exists fuel, (length tail < fuel)%nat /\
    replay_segment (length b) limits s.1 b rp (sh_first_sequence s.1) SEGMENT_HEADER_LEN
    = replay_segment fuel limits s.1 b (replay_add s.2 rp) (sh_first_sequence s.1 + blen s.2)
        (blen (segment_bytes s)).
Proof.
  intros [Hh Hr Hn Hb] Hfit b.
  pose proof (length_records_bytes s.2) as Hl. pose proof (blen_header_encode _ Hh) as Hhl.
  exists (length b - length s.2)%nat. split.
  - subst b. unfold segment_bytes. rewrite !length_app. unfold blen, SEGMENT_HEADER_LEN in Hhl. lia.
  - replace (length b) with (length s.2 + (length b - length s.2))%nat at 1.
    + rewrite replay_segment_records; [|done..|].
      * by rewrite blen_segment_bytes.
      * exists tail. subst b. unfold segment_bytes. rewrite <- app_assoc. by apply skip_header.
    + subst b. unfold segment_bytes. rewrite !length_app. lia.
Qed.

(** A header that continues the replay. *)
Definition accepts (limits : ReplayLimits) (c : ReplayCursor) (rp : JournalReplay)
    (h : SegmentHeader) : Prop :=
  rc_input_index c < rl_max_segments limits /\ rc_expected_sequence c = sh_first_sequence h
  /\ header_stop c rp h = None.

(** The cursor after a segment with header [h] and bytes [b] that held [n] records. *)
Definition cursor_next (c : ReplayCursor) (h : SegmentHeader) (n : N) (b : bytes)
    : ReplayCursor := {|
  rc_input_index := rc_input_index c + 1;
  rc_expected_gid := Some (default (sh_task_gid h) (rc_expected_gid c));
  rc_expected_journal := Some (default (sh_journal_id h) (rc_expected_journal c));
  rc_expected_index := rc_expected_index c + 1;
  rc_expected_sequence := sh_first_sequence h + n;
  rc_previous_hash := hash_segment b;
|}.

Definition replay_seg (s : SegmentHeader * list JournalRecord) (rp : JournalReplay)
    : JournalReplay := push_prefix (blen (segment_bytes s)) (replay_add s.2 rp).

(** A segment that starts with written records: the loop reaches what follows. *)
Lemma replay_step_reach limits c rp s tail :
  segment_wf s -> accepts limits c rp s.1 -> fits limits s.2 rp ->
  let b := segment_bytes s ++ tail in
  exists fuel, (length tail < fuel)%nat /\
    replay_step limits c rp b =
      match replay_segment fuel limits s.1 b (replay_add s.2 rp)
              (sh_first_sequence s.1 + blen s.2) (blen (segment_bytes s)) with
      | Return replay => Return replay
      | Continue (replay, expected_sequence, offset) =>
        match u32_checked_add (rc_expected_index c) 1 with
        | None => Return (push_prefix offset replay
                    <| rp_stop := ReplayStop.ResourceLimit ReplayResource.Segments |>)
        | Some index =>
          Continue (cursor_next c s.1 0 b <| rc_expected_index := index |>
                      <| rc_expected_sequence := expected_sequence |>, push_prefix offset replay)
        end
      end.
Proof.
  intros Hs (Hi & Hseq & Hstop) Hfit b.
  destruct (replay_segment_reach limits s tail rp Hs Hfit) as (fuel & Hfuel & E).
  exists fuel. split; [done|]. unfold replay_step.
  rewrite (proj2 (N.leb_gt _ _)) by done.
  assert (SegmentHeader_decode b = Ok s.1) as ->.
  { subst b. unfold segment_bytes. rewrite <- app_assoc. apply header_decode_encode, Hs. }
  subst b. cbv beta iota. rewrite Hstop, Hseq, E. done.
Qed.

(** A whole written segment. *)
Lemma replay_step_segment limits c rp s :
  segment_wf s -> accepts limits c rp s.1 -> fits limits s.2 rp ->
  rc_expected_index c + 1 <= U32_MAX ->
  replay_step limits c rp (segment_bytes s)
  = Continue (cursor_next c s.1 (blen s.2) (segment_bytes s), replay_seg s rp).
Proof.
  intros Hs Hacc Hfit Hidx.
  destruct (replay_step_reach limits c rp s [] Hs Hacc Hfit) as (fuel & Hfuel & E).
  rewrite app_nil_r in E. rewrite E. destruct fuel as [|fuel]; [simpl in Hfuel; lia|].
  cbn [replay_segment]. rewrite (proj2 (N.leb_le _ _)) by done.
  unfold u32_checked_add. by rewrite (proj2 (N.leb_le _ _)) by done.
Qed.

(** A written segment cut inside a record. *)
Lemma replay_step_torn limits c rp s r k :
  segment_wf s -> accepts limits c rp s.1 -> fits limits s.2 rp ->
  blen (rp_records rp) + blen s.2 < rl_max_records limits ->
  record_wf (sh_starting_generation s.1) r -> jr_sequence r = sh_first_sequence s.1 + blen s.2 ->
  0 < k < blen (record_bytes r) ->
  replay_step limits c rp (segment_bytes s ++ upto k (record_bytes r))
  = Return (stopped (blen (segment_bytes s))
      (ReplayStop.Record (sh_segment_index s.1) (blen (segment_bytes s)) (torn_reason r k))
      (replay_add s.2 rp)).
Proof.
  intros Hs Hacc Hfit Hmax Hr Hq [Hk0 Hk].
  destruct (replay_step_reach limits c rp s (upto k (record_bytes r)) Hs Hacc Hfit)
    as (fuel & Hfuel & E).
  rewrite E. destruct fuel as [|fuel]; [lia|]. cbn [replay_segment].
  rewrite (proj2 (N.leb_gt _ _)) by len.
  rewrite (proj2 (N.leb_gt _ _)) by (simpl; len).
  rewrite skip_app by done. by rewrite <- Hq, record_decode_torn by done.
Qed.

(** A segment cut inside its header. *)
Lemma replay_step_short limits c rp b :
  rc_input_index c < rl_max_segments limits -> blen b < SEGMENT_HEADER_LEN ->
  replay_step limits c rp b
  = Return (rp <| rp_stop := ReplayStop.Header (rc_input_index c) HeaderDecodeError.Truncated |>).
Proof.
  intros Hi Hb. unfold replay_step, SegmentHeader_decode.
  by rewrite (proj2 (N.leb_gt _ _)), (proj2 (N.ltb_lt _ _)) by done.
Qed.

(** ** Chains of segments *)

(** The header continues what the cursor has seen. *)
Definition follows (c : ReplayCursor) (h : SegmentHeader) : Prop :=
  sh_segment_index h = rc_expected_index c
  /\ default (sh_task_gid h) (rc_expected_gid c) = sh_task_gid h
  /\ default (sh_journal_id h) (rc_expected_journal c) = sh_journal_id h
  /\ sh_first_sequence h = rc_expected_sequence c
  /\ (0 < rc_expected_index c ->
      sh_previous_segment_last_sequence h = rc_expected_sequence c - 1
      /\ sh_previous_segment_hash h = rc_previous_hash c).

Lemma header_stop_None c rp h :
  rp_last_sequence rp = rc_expected_sequence c - 1 ->
  header_stop c rp h = None <-> follows c h.
Proof.
  intros Hl. unfold header_stop, follows. rewrite Hl.
  destruct (rc_expected_gid c), (rc_expected_journal c), (N.ltb_spec 0 (rc_expected_index c));
    simpl; repeat case_bool_decide; simpl;
    (split; [intros; simplify_eq; intuition (congruence || lia)
            |intros (? & ? & ? & ? & ?); try done; exfalso; intuition congruence]).
Qed.

Definition after (c : ReplayCursor) (s : SegmentHeader * list JournalRecord) : ReplayCursor :=
  cursor_next c s.1 (blen s.2) (segment_bytes s).

Fixpoint chain (c : ReplayCursor) (l : list (SegmentHeader * list JournalRecord)) : Prop :=
  match l with
  | [] => True
  | s :: l => segment_wf s /\ follows c s.1 /\ chain (after c s) l
  end.

Definition cursor_after (c : ReplayCursor) (l : list (SegmentHeader * list JournalRecord))
    : ReplayCursor := foldl after c l.
Definition replay_segs (l : list (SegmentHeader * list JournalRecord)) (rp : JournalReplay)
    : JournalReplay := foldl (fun rp s => replay_seg s rp) rp l.
Definition log_of (l : list (SegmentHeader * list JournalRecord)) : list JournalRecord :=
  concat l.*2.

Lemma log_of_cons s l : log_of (s :: l) = s.2 ++ log_of l.
Proof. done. Qed.
Lemma log_of_app l l' : log_of (l ++ l') = log_of l ++ log_of l'.
Proof. unfold log_of. by rewrite fmap_app, concat_app. Qed.

Lemma chain_app c l l' : chain c (l ++ l') <-> chain c l /\ chain (cursor_after c l) l'.
Proof.
  revert c. induction l as [|s l IH]; intros c; simpl; [tauto|]. rewrite IH. tauto.
Qed.

Lemma cursor_after_index c l :
  rc_expected_index (cursor_after c l) = rc_expected_index c + blen l.
Proof.
  revert c. induction l as [|s l IH]; intros c; cbn [cursor_after foldl];
    [rewrite blen_nil; lia|]. fold (cursor_after (after c s) l). rewrite IH, blen_cons.
  simpl. lia.
Qed.

Lemma cursor_after_input c l :
  rc_input_index (cursor_after c l) = rc_input_index c + blen l.
Proof.
  revert c. induction l as [|s l IH]; intros c; cbn [cursor_after foldl];
    [rewrite blen_nil; lia|]. fold (cursor_after (after c s) l). rewrite IH, blen_cons.
  simpl. lia.
Qed.

Lemma cursor_after_sequence c l :
  chain c l -> rc_expected_sequence (cursor_after c l) = rc_expected_sequence c + blen (log_of l).
Proof.
  revert c. induction l as [|s l IH]; intros c; cbn [cursor_after foldl].
  - intros _. unfold log_of. simpl. rewrite blen_nil. lia.
  - intros (_ & (_ & _ & _ & Hf & _) & Hc). fold (cursor_after (after c s) l).
    rewrite IH, log_of_cons, blen_app by done. simpl. rewrite Hf. lia.
Qed.

Lemma replay_segs_records l rp : rp_records (replay_segs l rp) = rp_records rp ++ log_of l.
Proof.
  revert rp. induction l as [|s l IH]; intros rp; simpl.
  - unfold log_of. simpl. by rewrite app_nil_r.
  - rewrite IH, log_of_cons. simpl. by rewrite app_assoc.
Qed.

Lemma replay_segs_payload l rp :
  rp_payload_bytes (replay_segs l rp) = rp_payload_bytes rp + payload_total (log_of l).
Proof.
  revert rp. induction l as [|s l IH]; intros rp; cbn [replay_segs foldl];
    [unfold log_of; simpl; lia|].
  fold (replay_segs l (replay_seg s rp)). rewrite IH, log_of_cons, payload_total_app. simpl. lia.
Qed.

Lemma replay_segs_prefixes l rp :
  rp_valid_segment_prefixes (replay_segs l rp)
  = rp_valid_segment_prefixes rp ++ (blen ∘ segment_bytes <$> l).
Proof.
  revert rp. induction l as [|s l IH]; intros rp; simpl; [by rewrite app_nil_r|].
  rewrite IH. simpl. by rewrite <- app_assoc.
Qed.

Lemma numbered_last n rs r : numbered n rs -> last rs = Some r -> jr_sequence r + 1 = n + blen rs.
Proof.
  intros Hn Hr. apply last_Some in Hr as [l ->]. apply numbered_app in Hn as [_ [Hn _]].
  rewrite blen_app, blen_cons, blen_nil. lia.
Qed.

(** The last sequence replay remembers is one before the next one expected. *)
Lemma replay_seg_last c s rp :
  segment_wf s -> follows c s.1 -> 0 < rc_expected_sequence c ->
  rp_last_sequence rp = rc_expected_sequence c - 1 ->
  rp_last_sequence (replay_seg s rp) = rc_expected_sequence (after c s) - 1
  /\ 0 < rc_expected_sequence (after c s).
Proof.
  intros [_ _ Hn _] (_ & _ & _ & Hf & _) Hpos Hl. simpl. rewrite Hf in *.
  destruct (last s.2) as [r|] eqn:E; simpl.
  - pose proof (numbered_last _ _ _ Hn E). lia.
  - apply last_None in E. rewrite E, blen_nil, Hl. lia.
Qed.

Lemma replay_loop_chain limits l rest : forall c rp,
  chain c l -> 0 < rc_expected_sequence c ->
  rp_last_sequence rp = rc_expected_sequence c - 1 ->
  rc_input_index c + blen l <= rl_max_segments limits ->
  rc_expected_index c + blen l <= U32_MAX ->
  fits limits (log_of l) rp ->
  replay_loop limits c rp ((segment_bytes <$> l) ++ rest)
  = replay_loop limits (cursor_after c l) (replay_segs l rp) rest
  /\ rp_last_sequence (replay_segs l rp) = rc_expected_sequence (cursor_after c l) - 1.
Proof.
  induction l as [|s l IH]; intros c rp Hc Hpos Hl Hi Hx [Hr Hp Hu]; [done|].
  destruct Hc as (Hs & Hf & Hc). rewrite blen_cons in Hi, Hx.
  rewrite log_of_cons, blen_app in Hr. rewrite log_of_cons, payload_total_app in Hp.
  destruct (replay_seg_last c s rp Hs Hf Hpos Hl) as [Hl' Hpos'].
  cbn [fmap list_fmap app replay_loop].
  rewrite replay_step_segment; [|done| |split; lia|lia].
  - apply IH; [done..| | |]; [simpl; lia|simpl; lia|].
    split; simpl; [rewrite blen_app; lia|lia|done].
  - split_and!; [lia|by symmetry; apply Hf|by apply header_stop_None].
Qed.

(** ** Arbitrary bytes *)

(** The budgets replay never exceeds. *)
Record within (limits : ReplayLimits) (rp : JournalReplay) : Prop := {
  wi_records : blen (rp_records rp) <= rl_max_records limits;
  wi_payload : rp_payload_bytes rp = payload_total (rp_records rp);
  wi_bytes : rp_payload_bytes rp <= rl_max_payload_bytes limits;
}.

Lemma stopped_seg s stop rp :
  stopped (blen (segment_bytes s)) stop (replay_add s.2 rp)
  = replay_seg s rp <| rp_stop := stop |>.
Proof. done. Qed.

(** The loop over a segment took [rs] from offset [off] on and ended with [res];
    with fuel for every byte it ends at the end of the segment. *)
Definition took (limits : ReplayLimits) (h : SegmentHeader) (b : bytes) (fuel : nat)
    (rp : JournalReplay) (n off : N) (rs : list JournalRecord)
    (res : flow (JournalReplay * N * N)) : Prop :=
  let off' := off + blen (records_bytes rs) in
  Forall (record_wf (sh_starting_generation h)) rs /\ numbered n rs
  /\ skip off b = records_bytes rs ++ skip off' b /\ off' <= blen b
  /\ within limits (replay_add rs rp)
  /\ match res with
     | Continue st => st = (replay_add rs rp, n + blen rs, off')
                      /\ (blen b - off <= N.of_nat fuel -> off' = blen b)
     | Return rp' => exists stop, stop <> ReplayStop.CleanEnd
                                  /\ rp' = stopped off' stop (replay_add rs rp)
     end.

Lemma took_stop limits h b fuel rp n off stop :
  within limits rp -> off <= blen b -> stop <> ReplayStop.CleanEnd ->
  took limits h b fuel rp n off [] (Return (stopped off stop rp)).
Proof.
  intros. unfold took. rewrite replay_add_nil. simpl. rewrite !N.add_0_r.
  split_and!; eauto using Forall_nil_2.
Qed.

Lemma took_end limits h b fuel rp n off :
  within limits rp -> off <= blen b -> (blen b - off <= N.of_nat fuel -> off = blen b) ->
  took limits h b fuel rp n off [] (Continue (rp, n, off)).
Proof.
  intros. unfold took. rewrite replay_add_nil. simpl. rewrite !N.add_0_r.
  split_and!; eauto using Forall_nil_2.
Qed.

Lemma took_cons limits h b fuel rp n off r rs res :
  record_wf (sh_starting_generation h) r -> jr_sequence r = n ->
  skip off b = record_bytes r ++ skip (off + blen (record_bytes r)) b ->
  took limits h b fuel (replay_add [r] rp) (n + 1) (off + blen (record_bytes r)) rs res ->
  took limits h b (S fuel) rp n off (r :: rs) res.
Proof.
  intros Hr Hn Hb (Hrs & Hnum & Hskip & Hle & Hw & Hres). unfold took. cbv zeta in *.
  rewrite records_bytes_cons, blen_app, blen_cons, N.add_assoc.
  change (r :: rs) with ([r] ++ rs). rewrite replay_add_app.
  replace (n + (1 + blen rs)) with (n + 1 + blen rs) by lia.
  split_and!; [by constructor|done|by rewrite <- app_assoc, <- Hskip|done|done|].
  destruct res as [st|rp']; [|done]. destruct Hres as [-> Hend]. split; [done|].
  intros Hf. apply Hend. pose proof (blen_record_pos r). lia.
Qed.

(** The loop over one segment takes a run of well-formed records and stops at
    the first byte that does not start one. *)
Lemma replay_segment_sound limits h b : rl_max_records limits < U64_MAX ->
  forall fuel rp n off,
  n = blen (rp_records rp) + 1 -> within limits rp -> off <= blen b ->
  exists rs, took limits h b fuel rp n off rs (replay_segment fuel limits h b rp n off).
Proof.
  intros Hmax. induction fuel as [|fuel IH]; intros rp n off Hn Hw Hoff; cbn [replay_segment].
  { exists []. apply took_end; [done..|lia]. }
  destruct (N.leb_spec (blen b) off); [exists []; apply took_end; [done..|lia]|].
  destruct (N.leb_spec (rl_max_records limits) (blen (rp_records rp)));
    [exists []; by apply took_stop|].
  destruct (decode_record _ _ _) as [d|reason] eqn:Hd; [|exists []; by apply took_stop].
  destruct (u64_checked_add (rp_payload_bytes rp) _) as [total|] eqn:Ht;
    [|exists []; by apply took_stop].
  destruct (N.ltb_spec (rl_max_payload_bytes limits) total); [exists []; by apply took_stop|].
  apply u64_checked_add_Some in Ht as [-> _]. rewrite u64_checked_add_fits by lia.
  apply record_encode_decode in Hd as (Hr & Hq & Hc & Hb).
  set (r := {| jr_record_type := _ |}) in *. rewrite Hc in *.
  rewrite skip_skip in Hb.
  assert (blen (skip off b) = blen b - off) as Hlen by apply blen_skip.
  rewrite Hb, blen_app in Hlen.
  destruct (IH (replay_add [r] rp) (n + 1) (off + blen (record_bytes r))) as [rs Hrs].
  - simpl. rewrite blen_app, blen_cons, blen_nil. lia.
  - destruct Hw as [Hw1 Hw2 Hw3].
    split; simpl; rewrite ?blen_app, ?blen_cons, ?blen_nil, ?payload_total_app; simpl; lia.
  - lia.
  - exists (r :: rs). apply took_cons; [done..|].
    replace (rp <| rp_payload_bytes := _ |> <| rp_last_sequence := _ |> <| rp_records := _ |>)
      with (replay_add [r] rp); [done|].
    destruct rp. unfold replay_add. simpl. by rewrite N.add_0_r.
Qed.

(** The cursor agrees with what was collected. *)
Definition in_step (c : ReplayCursor) (rp : JournalReplay) : Prop :=
  rc_expected_sequence c = blen (rp_records rp) + 1
  /\ rp_last_sequence rp = rc_expected_sequence c - 1.

(** One iteration over arbitrary bytes: either nothing of the segment is taken,
    or a well-formed segment that starts it. *)
Definition stepped (limits : ReplayLimits) (c : ReplayCursor) (rp : JournalReplay) (b : bytes)
    (res : flow (ReplayCursor * JournalReplay)) : Prop :=
  (exists stop, stop <> ReplayStop.CleanEnd /\ res = Return (rp <| rp_stop := stop |>))
  \/ exists s tail, segment_wf s /\ follows c s.1 /\ b = segment_bytes s ++ tail
     /\ within limits (replay_seg s rp) /\ rc_input_index c < rl_max_segments limits
     /\ ((exists stop, stop <> ReplayStop.CleanEnd
                       /\ res = Return (replay_seg s rp <| rp_stop := stop |>))
         \/ tail = [] /\ res = Continue (after c s, replay_seg s rp)).

Lemma replay_step_sound limits c rp b :
  rl_max_records limits < U64_MAX -> in_step c rp -> within limits rp ->
  stepped limits c rp b (replay_step limits c rp b).
Proof.
  intros Hmax [Hseq Hlast] Hw. unfold replay_step, stepped.
  destruct (N.leb_spec (rl_max_segments limits) (rc_input_index c)) as [|Hidx]; [by left; eexists; split; [|done]|].
  destruct (SegmentHeader_decode b) as [h|e] eqn:Hd; [|by left; eexists; split; [|done]].
  apply header_encode_decode in Hd as [Hh Hb].
  destruct (header_stop c rp h) as [stop|] eqn:Hs.
  { left. exists stop. split; [|done]. unfold header_stop in Hs.
    repeat case_match; by simplify_eq. }
  apply (header_stop_None _ _ _ Hlast) in Hs.
  assert (blen b = SEGMENT_HEADER_LEN + blen (skip SEGMENT_HEADER_LEN b)) as Hlen
    by (rewrite Hb at 1; rewrite blen_app, blen_header_encode by done; done).
  destruct (replay_segment_sound limits h b Hmax (length b) rp (rc_expected_sequence c)
    SEGMENT_HEADER_LEN Hseq Hw) as [rs (Hrs & Hnum & Hskip & Hle & Hw' & Hres)]; [lia|].
  right. exists (h, rs), (skip (blen (segment_bytes (h, rs))) b).
  assert (segment_wf (h, rs)) as Hswf.
  { pose proof Hs as (_ & _ & _ & Hf & _). destruct Hw' as [Hw1 _ _]. simpl in Hw1.
    rewrite blen_app in Hw1. split; simpl; [done..|by rewrite Hf|rewrite Hf; lia]. }
  pose proof (blen_segment_bytes (h, rs) Hh) as Hsl. simpl in Hsl.
  assert (within limits (replay_seg (h, rs) rp)) as Hwseg by (destruct Hw'; by split).
  assert (b = segment_bytes (h, rs) ++ skip (blen (segment_bytes (h, rs))) b) as Hpre.
  { rewrite Hb at 1. rewrite Hsl, Hskip. unfold segment_bytes. by rewrite <- app_assoc. }
  refine (conj Hswf (conj Hs (conj Hpre (conj Hwseg (conj Hidx _))))).
  rewrite <- Hsl in Hres. destruct (replay_segment _ _ _ _ _ _ _) as [st|rp'].
  - destruct Hres as [-> Hend].
    assert (skip (blen (segment_bytes (h, rs))) b = []) as Htail
      by (apply skip_all; rewrite Hend; [done|unfold blen; lia]).
    rewrite Htail, app_nil_r in Hpre.
    unfold u32_checked_add. destruct (N.leb_spec (rc_expected_index c + 1) U32_MAX).
    + right. split; [done|]. pose proof Hs as (_ & _ & _ & Hf & _).
      unfold after, cursor_next, replay_seg. cbn [fst snd]. by rewrite <- Hpre, Hf.
    + by left; eexists; split; [|done].
  - destruct Hres as (stop & Hne & ->). left. by exists stop.
Qed.

(** The segments [l] are the valid prefix of the inputs [segs]: every one but the
    last is a whole input, the last one starts an input. *)
Fixpoint begins (l : list (SegmentHeader * list JournalRecord)) (segs : list bytes) : Prop :=
  match l, segs with
  | [], _ => True
  | [s], b :: _ => segment_bytes s `prefix_of` b
  | s :: l, b :: segs => b = segment_bytes s /\ begins l segs
  | _, [] => False
  end.

Lemma begins_cons s l b segs : b = segment_bytes s -> begins l segs -> begins (s :: l) (b :: segs).
Proof. intros -> Hl. destruct l; [by exists []; rewrite app_nil_r|done]. Qed.

Lemma after_in_step c s rp :
  segment_wf s -> follows c s.1 -> in_step c rp -> in_step (after c s) (replay_seg s rp).
Proof.
  intros Hs Hf [Hseq Hlast].
  destruct (replay_seg_last c s rp Hs Hf) as [Hl _]; [lia|done|].
  split; [|done]. pose proof Hf as (_ & _ & _ & Hfirst & _). simpl.
  rewrite blen_app, Hfirst, Hseq. lia.
Qed.

Lemma chain_in_step l : forall c rp,
  chain c l -> in_step c rp -> in_step (cursor_after c l) (replay_segs l rp).
Proof.
  induction l as [|s l IH]; intros c rp Hc Hi; [done|]. destruct Hc as (Hs & Hf & Hc).
  apply (IH (after c s) (replay_seg s rp)); [done|]. by apply after_in_step.
Qed.

(** The last sequence of a replayed journal is its length. *)
Lemma replay_segs_last l :
  chain cursor_new l -> rp_last_sequence (replay_segs l replay_new) = blen (log_of l).
Proof.
  intros Hc. destruct (chain_in_step l cursor_new replay_new Hc) as [Hs Hl]; [done|].
  rewrite Hl, Hs, replay_segs_records. cbn [replay_new rp_records app]. lia.
Qed.

Lemma replay_loop_sound limits : rl_max_records limits < U64_MAX -> forall segs c rp,
  in_step c rp -> within limits rp -> rc_input_index c <= rl_max_segments limits ->
  exists l stop, replay_loop limits c rp segs = replay_segs l rp <| rp_stop := stop |>
    /\ chain c l /\ within limits (replay_segs l rp) /\ begins l segs
    /\ rc_input_index c + blen l <= rl_max_segments limits
    /\ (stop = ReplayStop.CleanEnd -> segs = segment_bytes <$> l).
Proof.
  intros Hmax. induction segs as [|b segs IH]; intros c rp Hstep Hw Hidx; cbn [replay_loop].
  { exists [], ReplayStop.CleanEnd. rewrite blen_nil, N.add_0_r. by split_and!. }
  destruct (replay_step_sound limits c rp b Hmax Hstep Hw)
    as [(stop & Hne & ->)|(s & tail & Hs & Hf & Hb & Hws & Hi & Hres)].
  { exists [], stop. rewrite blen_nil, N.add_0_r. by split_and!. }
  destruct Hres as [(stop & Hne & ->)|[-> ->]].
  - exists [s], stop. rewrite blen_cons, blen_nil.
    refine (conj eq_refl (conj (conj Hs (conj Hf I)) (conj Hws (conj _ (conj _ _))))); [|lia|done].
    exists tail. done.
  - destruct (IH (after c s) (replay_seg s rp)) as (l & stop & E & Hc & Hwl & Hbl & Hil & Hend);
      [by apply after_in_step|done|simpl; lia|].
    rewrite app_nil_r in Hb. exists (s :: l), stop. rewrite blen_cons. simpl in Hil.
    refine (conj E (conj (conj Hs (conj Hf Hc)) (conj Hwl (conj _ (conj _ _))))).
    + by apply begins_cons.
    + lia.
    + intros Hstop. by rewrite fmap_cons, <- (Hend Hstop), Hb.
Qed.
End replay.
