(* ===== verification/PayloadTypes.v ===== *)
(** * Values of journal payloads

    Model of the value types of [crates/ariax-storage/src/journal_payload.rs]
    and [verification.rs] (protocol validators): hashes, spans, digests, option
    maps, relative paths, layout entries and evidence runs, each with the checks
    of its constructor, and the errors of the payload codec.

    A [Box<str>] is a UTF-8 byte string; a [BTreeMap] of options is the list of
    its entries in key order. *)

From S2P Require Import Prelude Bytes Utf8 Paths RootBinding Layout Journal JournalTags.
From Stdlib Require Import Init.Byte Strings.Byte.
Open Scope list_scope.

Definition MAX_DIGEST_ALGORITHM_BYTES : N := 32.
Definition MAX_DIGEST_VALUE_BYTES : N := 64.
Definition MAX_OPTION_MAP_ENTRIES : N := 4096.
Definition MAX_OPTION_KEY_BYTES : N := 256.
Definition MAX_OPTION_VALUE_BYTES : N := 64 * 1024.
Definition MAX_OPTION_MAP_BYTES : N := 4 * 1024 * 1024.
Definition MAX_HTTP_STRONG_ETAG_BYTES : N := 8 * 1024.
Definition MAX_PIECE_STATE_COVERED_PIECES : N := 131072.
Definition MAX_PIECE_STATE_BITMAP_BYTES : N := (MAX_PIECE_STATE_COVERED_PIECES + 7) / 8.
Definition OPTIONS_SNAPSHOT_HASH_DOMAIN : bytes := ascii_bytes "ariax/options-snapshot/v1" ++ [x00].
Definition HTTP_STRONG_VALIDATOR_HASH_DOMAIN : bytes :=
  ascii_bytes "ariax/http-strong-validator/v1" ++ [x00].
Definition HTTP_RANGE_IDENTITY_HASH_DOMAIN : bytes :=
  ascii_bytes "ariax/http-shared-range-digest/v1" ++ [x00].
Definition MAX_VERIFICATION_MANIFEST_BYTES : N := 64 * 1024 * 1024.
Definition VERIFICATION_MANIFEST_PART_BYTES : N := 64 * 1024.

(** ** Errors *)

Module PayloadCodecError.
Inductive PayloadCodecError : Set :=
| PayloadTooLarge
| Truncated
| TrailingBytes
| InvalidPresence (value : N)
| InvalidBoolean (value : N)
| ZeroId
| ZeroCheckpointId
| ZeroHash
| ZeroSpanLength
| SpanOverflow
| InvalidDigestAlgorithm
| InvalidDigestLength
| InvalidUtf8
| InvalidTag (tag : UnknownJournalTag)
| InvalidErrorKind (value : N)
| InvalidOptionKey
| OptionKeyTooLong
| OptionValueTooLong
| TooManyOptions
| DuplicateOptionKey
| NonCanonicalOptionOrder
| OptionMapTooLarge
| FieldTooLong
| InvalidPlatformTag (value : N)
| InvalidPlatformPath
| InvalidRootIdentity
| RelativePathTooLong
| InvalidRelativePath
| InvalidFileId
| TooManyLayoutEntries
| InvalidLayoutEntry
| InvalidFileIdentity
| NonCanonicalLayoutOrder
| ZeroPieceLength
| InvalidFileCount
| InvalidChunk
| InvalidFinalization
| InvalidBitmap
| TooManyEvidenceRuns
| InvalidEvidenceRun
| ZeroCreatorVersion
| ZeroAttempt
| ZeroSourceSequence
| ZeroStateRecordCount
| InvalidHttpStrongValidator
| InvalidHttpRangeIdentity
| InvalidVerificationManifest
| InvalidProtocolValidator
| InvalidHostKeyState
| AllocationFailed.
End PayloadCodecError.
Notation PayloadCodecError := PayloadCodecError.PayloadCodecError.
#[global] Instance PayloadCodecError_eq_dec : EqDecision PayloadCodecError.
Proof. solve_decision. Defined.

(** ** Identifiers, hashes and spans *)

Notation PersistedId := N (only parsing).
Notation CheckpointId := bytes (only parsing).
Notation JournalHash := bytes (only parsing).

Definition PersistedId_new (value : N) : option PersistedId :=
  if value =? 0 then None else Some value.
Definition CheckpointId_new (b : bytes) : option CheckpointId := if all_zero b then None else Some b.
Definition JournalHash_new (b : bytes) : option JournalHash := if all_zero b then None else Some b.

Record PersistedSpan : Set := mkPersistedSpan { sp_offset : N; sp_len : N }.
#[global] Instance PersistedSpan_eq_dec : EqDecision PersistedSpan.
Proof. solve_decision. Defined.

Definition PersistedSpan_new (offset len : N) : result PayloadCodecError PersistedSpan :=
  if len =? 0 then Err PayloadCodecError.ZeroSpanLength
  else
    _ ← ok_or (u64_checked_add offset len) PayloadCodecError.SpanOverflow;
    Ok {| sp_offset := offset; sp_len := len |}.

(** ** Digests *)

Module JournalDigestAlgorithm.
Inductive JournalDigestAlgorithm : Set := Md5 | Sha1 | Sha256 | Sha512.
End JournalDigestAlgorithm.
Notation JournalDigestAlgorithm := JournalDigestAlgorithm.JournalDigestAlgorithm.
#[global] Instance JournalDigestAlgorithm_eq_dec : EqDecision JournalDigestAlgorithm.
Proof. solve_decision. Defined.

Definition digest_code (self : JournalDigestAlgorithm) : str :=
  ascii_bytes (match self with
  | JournalDigestAlgorithm.Md5 => "md5"
  | JournalDigestAlgorithm.Sha1 => "sha-1"
  | JournalDigestAlgorithm.Sha256 => "sha-256"
  | JournalDigestAlgorithm.Sha512 => "sha-512"
  end)%string.
Definition digest_value_len (self : JournalDigestAlgorithm) : N :=
  match self with
  | JournalDigestAlgorithm.Md5 => 16
  | JournalDigestAlgorithm.Sha1 => 20
  | JournalDigestAlgorithm.Sha256 => 32
  | JournalDigestAlgorithm.Sha512 => 64
  end.
Definition digest_algorithm_try_from (value : str) : result PayloadCodecError JournalDigestAlgorithm :=
  if value == digest_code JournalDigestAlgorithm.Md5 then Ok JournalDigestAlgorithm.Md5
  else if value == digest_code JournalDigestAlgorithm.Sha1 then Ok JournalDigestAlgorithm.Sha1
  else if value == digest_code JournalDigestAlgorithm.Sha256 then Ok JournalDigestAlgorithm.Sha256
  else if value == digest_code JournalDigestAlgorithm.Sha512 then Ok JournalDigestAlgorithm.Sha512
  else Err PayloadCodecError.InvalidDigestAlgorithm.

Record JournalDigest : Set := mkJournalDigest {
  jd_algorithm : JournalDigestAlgorithm;
  jd_value : bytes;
}.
#[global] Instance JournalDigest_eq_dec : EqDecision JournalDigest.
Proof. solve_decision. Defined.

Definition JournalDigest_new (algorithm : JournalDigestAlgorithm) (value : bytes)
    : result PayloadCodecError JournalDigest :=
  if blen value != digest_value_len algorithm then Err PayloadCodecError.InvalidDigestLength
  else Ok {| jd_algorithm := algorithm; jd_value := value |}.

(** ** Option maps *)

Definition validate_option_key (key : str) : result PayloadCodecError unit :=
  if (blen key =? 0)
     || negb (forallb (fun b => is_ascii_lowercase b || is_ascii_digit b || (b == x2d)) key)
     || negb (default false (is_ascii_alphanumeric <$> head key))
     || negb (default false (is_ascii_alphanumeric <$> last key))
  then Err PayloadCodecError.InvalidOptionKey
  else if MAX_OPTION_KEY_BYTES <? blen key then Err PayloadCodecError.OptionKeyTooLong
  else Ok tt.

Record SanitizedOptionMap : Set := mkSanitizedOptionMap {
  om_entries : list (str * str);
  om_canonical_bytes : N;
}.
#[global] Instance SanitizedOptionMap_eq_dec : EqDecision SanitizedOptionMap.
Proof. solve_decision. Defined.

(** [BTreeMap::insert]; [None] when the key was there. *)
Fixpoint btree_insert (key value : str) (l : list (str * str)) : option (list (str * str)) :=
  match l with
  | [] => Some [(key, value)]
  | (k, v) :: l' =>
    match str_compare key k with
    | Lt => Some ((key, value) :: l)
    | Eq => None
    | Gt => cons (k, v) <$> btree_insert key value l'
    end
  end.

(** The loop of [SanitizedOptionMap::new]. *)
Fixpoint option_map_loop (entries : list (str * str)) (canonical_bytes : N)
    (output : list (str * str)) : result PayloadCodecError (list (str * str) * N) :=
  match entries with
  | [] => Ok (output, canonical_bytes)
  | (key, value) :: entries =>
    _ ← validate_option_key key;
    if MAX_OPTION_VALUE_BYTES <? blen value then Err PayloadCodecError.OptionValueTooLong
    else
      canonical_bytes ←
        ok_or (total ← u64_checked_add canonical_bytes 8; total ← u64_checked_add total (blen key);
               u64_checked_add total (blen value)) PayloadCodecError.OptionMapTooLarge;
      if MAX_OPTION_MAP_BYTES <? canonical_bytes then Err PayloadCodecError.OptionMapTooLarge
      else
        output ← ok_or (btree_insert key value output) PayloadCodecError.DuplicateOptionKey;
        if MAX_OPTION_MAP_ENTRIES <? blen output then Err PayloadCodecError.TooManyOptions
        else option_map_loop entries canonical_bytes output
  end.

Definition SanitizedOptionMap_new (entries : list (str * str))
    : result PayloadCodecError SanitizedOptionMap :=
  '(output, canonical_bytes) ← option_map_loop entries 4 [];
  Ok {| om_entries := output; om_canonical_bytes := canonical_bytes |}.

(** ** Paths and layout entries *)

Notation JournalRelativePath := (list byte) (only parsing).

Record JournalFileLayoutEntry : Set := mkJournalFileLayoutEntry {
  le_file_id : FileId;
  le_global_start : N;
  le_global_end : N;
  le_length : N;
  le_selected : bool;
  le_safe_relative_path : JournalRelativePath;
  le_file_identity : bytes;
}.
#[global] Instance JournalFileLayoutEntry_eq_dec : EqDecision JournalFileLayoutEntry.
Proof. solve_decision. Defined.

Definition JournalFileLayoutEntry_new (file_id : FileId) (global_start global_end length : N)
    (selected : bool) (safe_relative_path : JournalRelativePath) (file_identity : bytes)
    : result PayloadCodecError JournalFileLayoutEntry :=
  if u64_checked_add global_start length != Some global_end
  then Err PayloadCodecError.InvalidLayoutEntry
  else if (MAX_IDENTITY_BYTES <? blen file_identity)
          || (selected != negb (blen file_identity =? 0))
  then Err PayloadCodecError.InvalidFileIdentity
  else Ok {|
    le_file_id := file_id; le_global_start := global_start; le_global_end := global_end;
    le_length := length; le_selected := selected; le_safe_relative_path := safe_relative_path;
    le_file_identity := file_identity;
  |}.

(** ** Evidence runs *)

Record DurableEvidenceRun : Set := mkDurableEvidenceRun {
  er_first_piece_delta : N;
  er_piece_count : N;
  er_validator_set_fingerprint : JournalHash;
  er_digest_algorithm : option JournalDigestAlgorithm;
  er_digest_value_len : N;
  er_digest_values : bytes;
}.
#[global] Instance DurableEvidenceRun_eq_dec : EqDecision DurableEvidenceRun.
Proof. solve_decision. Defined.

(** The product of a [u32] and a digest length fits a 64-bit [usize]. *)
Definition DurableEvidenceRun_new (first_piece_delta piece_count : N)
    (validator_set_fingerprint : JournalHash) (digest_algorithm : option JournalDigestAlgorithm)
    (digest_values : bytes) : result PayloadCodecError DurableEvidenceRun :=
  if piece_count =? 0 then Err PayloadCodecError.InvalidEvidenceRun
  else
    digest_value_len ←
      match digest_algorithm with
      | Some algorithm =>
        if blen digest_values != piece_count * digest_value_len algorithm
        then Err PayloadCodecError.InvalidEvidenceRun else Ok (digest_value_len algorithm)
      | None => if blen digest_values =? 0 then Ok 0 else Err PayloadCodecError.InvalidEvidenceRun
      end;
    Ok {|
      er_first_piece_delta := first_piece_delta; er_piece_count := piece_count;
      er_validator_set_fingerprint := validator_set_fingerprint;
      er_digest_algorithm := digest_algorithm; er_digest_value_len := digest_value_len;
      er_digest_values := digest_values;
    |}.

Section types.
Context `{Unicode, Digests}.

Definition JournalRelativePath_new (value : str) : result PayloadCodecError JournalRelativePath :=
  if MAX_SAFE_RELATIVE_BYTES <? blen value then Err PayloadCodecError.RelativePathTooLong
  else
    safe ← map_err (fun _ => PayloadCodecError.InvalidRelativePath)
             (from_user_path value PathPlatform.Unix);
    if canonical_string safe != value then Err PayloadCodecError.InvalidRelativePath
    else Ok value.

(** The digests below are taken as they are: [JournalHash::new] on a SHA-256
    output is followed by [expect]. *)
Definition snapshot_hash (self : SanitizedOptionMap) : JournalHash :=
  sha256 (OPTIONS_SNAPSHOT_HASH_DOMAIN ++ u32_le (blen (om_entries self))
          ++ concat ((fun '(key, value) => sized key ++ sized value) <$> om_entries self)).

Definition validate_http_strong_etag (etag : bytes) : result PayloadCodecError unit :=
  if (blen etag <? 2) || (MAX_HTTP_STRONG_ETAG_BYTES <? blen etag)
     || (head etag != Some x22) || (last etag != Some x22)
     || negb (forallb (fun b => let b := byte_val b in
                                (b =? 0x21) || between 0x23 0x7e b || (0x80 <=? b))
                (slice 1 (blen etag - 2) etag))
  then Err PayloadCodecError.InvalidHttpStrongValidator
  else Ok tt.

Definition calculate_http_strong_validator_fingerprint (etag : bytes) (total_length : N)
    : result PayloadCodecError JournalHash :=
  _ ← validate_http_strong_etag etag;
  if U32_MAX <? blen etag then Err PayloadCodecError.InvalidHttpStrongValidator
  else Ok (sha256 (HTTP_STRONG_VALIDATOR_HASH_DOMAIN ++ u64_le total_length ++ u32_le (blen etag)
                   ++ etag)).

Definition calculate_http_range_identity_fingerprint (representation_digest : JournalDigest)
    (total_length : N) : result PayloadCodecError JournalHash :=
  if (jd_algorithm representation_digest != JournalDigestAlgorithm.Sha256)
     || (blen (jd_value representation_digest) != digest_value_len JournalDigestAlgorithm.Sha256)
  then Err PayloadCodecError.InvalidHttpRangeIdentity
  else Ok (sha256 (HTTP_RANGE_IDENTITY_HASH_DOMAIN ++ u64_le total_length
                   ++ jd_value representation_digest)).
End types.

(** ** Protocol validators *)

Record ProtocolValidator : Set := mkProtocolValidator {
  pv_protocol : N;
  pv_source : JournalHash;
  pv_total_length : N;
  pv_modified_unix_seconds : option N;
  pv_host_key : option JournalHash;
}.
#[global] Instance ProtocolValidator_eq_dec : EqDecision ProtocolValidator.
Proof. solve_decision. Defined.

Definition ProtocolValidator_validate (self : ProtocolValidator) : bool :=
  between 1 3 (pv_protocol self) && ((pv_protocol self == 3) == is_some (pv_host_key self)).
Definition ProtocolValidator_permits_resume (self previous : ProtocolValidator) (has_checksum : bool)
    : bool :=
  (self == previous) && (is_some (pv_modified_unix_seconds self) || has_checksum).
Definition ProtocolValidator_fingerprint `{Digests} (self : ProtocolValidator) : JournalHash :=
  sha256 (ascii_bytes "ariax/protocol-validator/v1" ++ [x00] ++ [byte_of (pv_protocol self)]
          ++ pv_source self ++ u64_le (pv_total_length self)
          ++ [if is_some (pv_modified_unix_seconds self) then x01 else x00]
          ++ u64_le (default 0 (pv_modified_unix_seconds self))
          ++ default (repeat x00 32) (pv_host_key self)).
