(* ===== verification/MetadataExpansion.v ===== *)
(** * Metadata expansions

    Model of [crates/ariax-storage/src/metadata_expansion.rs]: the parent and
    children of a followed metadata document, with their canonical text and its
    parser, and what they use of decimal and hexadecimal text. *)

From S2P Require Import Prelude Bytes Ids Utf8 Journal PayloadTypes.
From Stdlib Require Import Init.Byte Strings.Byte.
From Stdlib Require String.
Open Scope list_scope.

Definition SESSION_MAX_IMPORT_TASKS : N := 1000.

(** ** Numbers as text *)

Definition digit_byte (d : N) : byte := byte_of (if d <? 10 then 48 + d else 87 + d).

(** [to_string] of a [u64]; twenty digits suffice. *)
Fixpoint decimal_digits (fuel : nat) (n : N) : list N :=
  match fuel with
  | O => []
  | S fuel => if n <? 10 then [n] else decimal_digits fuel (n / 10) ++ [n mod 10]
  end.
Definition u64_to_string (n : N) : str := digit_byte <$> decimal_digits 20 n.

(** [u64::from_str]: an optional plus sign, digits, no overflow. *)
Fixpoint decimal_loop (acc : N) (s : str) : option N :=
  match s with
  | [] => Some acc
  | b :: s =>
    if is_ascii_digit b
    then let n := acc * 10 + (byte_val b - 48) in
         if n <=? U64_MAX then decimal_loop n s else None
    else None
  end.
Definition u64_from_str (s : str) : option N :=
  match s with
  | [] => None
  | b :: s' =>
    if b == x2b then match s' with [] => None | _ => decimal_loop 0 s' end
    else decimal_loop 0 s
  end.

(** [{byte:02x}] of every byte. *)
Definition hex_byte (b : byte) : str :=
  [digit_byte (byte_val b / 16); digit_byte (byte_val b mod 16)].
Definition hash_to_string (h : bytes) : str := concat (hex_byte <$> h).

Definition hex_digit (b : byte) : option N :=
  if is_ascii_digit b then Some (byte_val b - 48)
  else if between 65 70 (byte_val b) then Some (byte_val b - 55)
  else if between 97 102 (byte_val b) then Some (byte_val b - 87)
  else None.

(** [u8::from_str_radix(_, 16)] of two characters: the first may be a plus. *)
Definition u8_from_hex (a b : byte) : option N :=
  if a == x2b then hex_digit b
  else h ← hex_digit a; l ← hex_digit b; Some (h * 16 + l).

Fixpoint parse_hex_pairs (s : str) : option bytes :=
  match s with
  | [] => Some []
  | a :: b :: s => n ← u8_from_hex a b; rest ← parse_hex_pairs s; Some (byte_of n :: rest)
  | _ => None
  end.

Definition is_ascii (s : str) : bool := forallb (fun b => byte_val b <? 128) s.

Definition parse_hash (text : str) : option JournalHash :=
  if (blen text != 64) || negb (is_ascii text) then None
  else b ← parse_hex_pairs text; JournalHash_new b.

(** [Gid]'s [Display] and [FromStr] on bytes. *)
Definition gid_text (g : Gid) : str := ascii_bytes (Gid_to_string g).
Definition gid_parse (s : str) : option Gid :=
  match Gid_from_str (String.string_of_list_byte s) with Ok g => Some g | Err _ => None end.

(** ** Expansions *)

Record MetadataParent : Set := mkMetadataParent {
  mp_gid : Gid;
  mp_generation : N;
  mp_snapshot_hash : JournalHash;
  mp_document_hash : JournalHash;
  mp_document_bytes : N;
  mp_retained : bool;
}.
#[global] Instance MetadataParent_eq_dec : EqDecision MetadataParent.
Proof. solve_decision. Defined.

Record MetadataExpansion : Set := mkMetadataExpansion {
  me_parent : MetadataParent;
  me_children : list Gid;
}.
#[global] Instance MetadataExpansion_eq_dec : EqDecision MetadataExpansion.
Proof. solve_decision. Defined.

Definition MetadataExpansion_validate (self : MetadataExpansion) : bool :=
  negb (blen (me_children self) =? 0)
  && (blen (me_children self) <=? SESSION_MAX_IMPORT_TASKS)
  && (mp_document_bytes (me_parent self) <=? 256 * 1024 * 1024)
  && negb (contains (me_children self) (mp_gid (me_parent self)))
  && (N.of_nat (size (list_to_set (C := gset N) (me_children self))) =? blen (me_children self)).

Definition bar : byte := x7c.
Definition comma : byte := x2c.

Definition MetadataExpansion_canonical (self : MetadataExpansion) : str :=
  let p := me_parent self in
  join [bar] [ascii_bytes "1"; gid_text (mp_gid p); u64_to_string (mp_generation p);
              hash_to_string (mp_snapshot_hash p); hash_to_string (mp_document_hash p);
              u64_to_string (mp_document_bytes p);
              (if mp_retained p then ascii_bytes "1" else ascii_bytes "0");
              join [comma] (gid_text <$> me_children self)].

(** The eight fields are taken in order; any failure gives [None]. *)
Definition MetadataExpansion_parse (value : str) : option MetadataExpansion :=
  if 64 * 1024 <? blen value then None
  else match split (fun b => b == bar) value with
  | [version; gid; generation; snapshot; document; document_bytes; retained; children] =>
    if version != ascii_bytes "1" then None
    else
      gid ← gid_parse gid;
      generation ← u64_from_str generation;
      snapshot_hash ← parse_hash snapshot;
      document_hash ← parse_hash document;
      document_bytes ← u64_from_str document_bytes;
      retained ← (if retained == ascii_bytes "0" then Some false
                  else if retained == ascii_bytes "1" then Some true else None);
      children ← mapM gid_parse (upto (SESSION_MAX_IMPORT_TASKS + 1)
                                   (split (fun b => b == comma) children));
      let value := {|
        me_parent := {|
          mp_gid := gid; mp_generation := generation; mp_snapshot_hash := snapshot_hash;
          mp_document_hash := document_hash; mp_document_bytes := document_bytes;
          mp_retained := retained;
        |};
        me_children := children;
      |} in
      if MetadataExpansion_validate value then Some value else None
  | _ => None
  end.

Definition METADATA_EXPANSION_OPTION : str := ascii_bytes "metadata-expansion".

Definition with_options (self : MetadataExpansion) (options : SanitizedOptionMap)
    : result PayloadCodecError SanitizedOptionMap :=
  SanitizedOptionMap_new
    (filter (fun e => e.1 <> METADATA_EXPANSION_OPTION) (om_entries options)
     ++ [(METADATA_EXPANSION_OPTION, MetadataExpansion_canonical self)]).

(** ** Printing and parsing *)

Lemma digit_byte_val d : d < 16 -> byte_val (digit_byte d) = if d <? 10 then 48 + d else 87 + d.
Proof.
  intros Hd. unfold digit_byte. rewrite byte_val_of. apply N.mod_small. destruct (d <? 10); lia.
Qed.

Lemma digit_byte_decimal d :
  d < 10 -> is_ascii_digit (digit_byte d) = true /\ byte_val (digit_byte d) - 48 = d.
Proof.
  intros Hd. unfold is_ascii_digit, between. rewrite digit_byte_val by lia.
  rewrite (proj2 (N.ltb_lt d 10)) by lia. rewrite andb_true_iff, !N.leb_le. lia.
Qed.

Lemma hex_digit_byte d : d < 16 -> hex_digit (digit_byte d) = Some d.
Proof.
  intros Hd. unfold hex_digit, is_ascii_digit, between. rewrite digit_byte_val by done.
  destruct (N.ltb_spec d 10).
  - rewrite (proj2 (andb_true_iff _ _)) by (rewrite !N.leb_le; lia). f_equal. lia.
  - rewrite (proj2 (andb_false_iff _ _)) by (right; apply N.leb_gt; lia).
    rewrite (proj2 (andb_false_iff _ _)) by (right; apply N.leb_gt; lia).
    rewrite (proj2 (andb_true_iff _ _)) by (rewrite !N.leb_le; lia). f_equal. lia.
Qed.

Lemma decimal_digits_bound fuel n : Forall (fun d => d < 10) (decimal_digits fuel n).
Proof.
  revert n. induction fuel as [|fuel IH]; intros n; cbn [decimal_digits]; [constructor|].
  destruct (N.ltb_spec n 10); [by repeat constructor|].
  apply Forall_app. split; [done|]. repeat constructor. by apply N.mod_lt.
Qed.

Lemma decimal_digits_value fuel n :
  n < 10 ^ N.of_nat fuel -> foldl (fun acc d => acc * 10 + d) 0 (decimal_digits fuel n) = n.
Proof.
  revert n. induction fuel as [|fuel IH]; intros n Hn; cbn [decimal_digits].
  { change (10 ^ N.of_nat 0) with 1 in Hn. cbn [foldl]. lia. }
  destruct (N.ltb_spec n 10); [done|]. rewrite foldl_app. cbn [foldl].
  rewrite Nat2N.inj_succ, N.pow_succ_r' in Hn.
  rewrite IH by (apply N.Div0.div_lt_upper_bound; lia). pose proof (N.div_mod' n 10). lia.
Qed.

Lemma decimal_digits_length fuel n : (length (decimal_digits fuel n) <= fuel)%nat.
Proof.
  revert n. induction fuel as [|fuel IH]; intros n; cbn [decimal_digits]; [done|].
  destruct (n <? 10); [simpl; lia|]. rewrite length_app. simpl. specialize (IH (n / 10)). lia.
Qed.

Lemma decimal_digits_nonempty fuel n : decimal_digits (S fuel) n <> [].
Proof. cbn [decimal_digits]. destruct (n <? 10); [done|]. by destruct (decimal_digits fuel _). Qed.

Lemma decimal_loop_digits ds : forall acc,
  Forall (fun d => d < 10) ds -> foldl (fun acc d => acc * 10 + d) acc ds <= U64_MAX ->
  decimal_loop acc (digit_byte <$> ds) = Some (foldl (fun acc d => acc * 10 + d) acc ds).
Proof.
  induction ds as [|d ds IH]; intros acc HF Hm; [done|]. apply Forall_cons in HF as [Hd HF].
  rewrite fmap_cons. cbn [decimal_loop foldl] in *. destruct (digit_byte_decimal d Hd) as [-> ->].
  assert (forall l a, a <= foldl (fun acc d => acc * 10 + d) a l) as Hmono.
  { induction l as [|x l IHl]; intros a; cbn [foldl]; [lia|]. specialize (IHl (a * 10 + x)). lia. }
  specialize (Hmono ds (acc * 10 + d)). rewrite (proj2 (N.leb_le _ _)) by lia. by apply IH.
Qed.

Lemma u64_from_to_string n : n <= U64_MAX -> u64_from_str (u64_to_string n) = Some n.
Proof.
  intros Hn. assert (n < 10 ^ N.of_nat 20) as Hlt.
  { eapply N.le_lt_trans; [exact Hn|]. by vm_compute. }
  pose proof (decimal_digits_value 20 n Hlt) as Hv. pose proof (decimal_digits_bound 20 n) as HF.
  unfold u64_from_str, u64_to_string. destruct (decimal_digits 20 n) as [|d ds] eqn:E.
  { by apply decimal_digits_nonempty in E. }
  rewrite fmap_cons. pose proof HF as [Hd _]%Forall_cons.
  rewrite bool_decide_eq_false_2.
  - rewrite <- fmap_cons, decimal_loop_digits by (done || by rewrite Hv). by rewrite Hv.
  - intros Ep. destruct (digit_byte_decimal d Hd) as [Hdig _]. by rewrite Ep in Hdig.
Qed.

Lemma hex_byte_parse b : 
  u8_from_hex (digit_byte (byte_val b / 16)) (digit_byte (byte_val b mod 16)) = Some (byte_val b).
Proof.
  pose proof (byte_val_lt b) as Hb. unfold u8_from_hex.
  assert (byte_val b / 16 < 16) as Hh by (apply N.Div0.div_lt_upper_bound; lia).
  assert (byte_val b mod 16 < 16) as Hl by by apply N.mod_lt.
  rewrite bool_decide_eq_false_2.
  - rewrite !hex_digit_byte by done. cbn [mbind option_bind]. f_equal. pose proof (N.div_mod' (byte_val b) 16). lia.
  - intros E. apply (f_equal byte_val) in E. rewrite digit_byte_val in E by done.
    change (byte_val x2b) with 43 in E. revert E. generalize (byte_val b / 16). intros h E.
    destruct (h <? 10); lia.
Qed.

Lemma parse_hex_pairs_hash h : parse_hex_pairs (hash_to_string h) = Some h.
Proof.
  induction h as [|b h IH]; [done|]. unfold hash_to_string in *. rewrite fmap_cons. cbn [concat].
  transitivity (n ← u8_from_hex (digit_byte (byte_val b / 16)) (digit_byte (byte_val b mod 16));
                rest ← parse_hex_pairs (concat (hex_byte <$> h)); Some (byte_of n :: rest)); [done|].
  rewrite hex_byte_parse, IH. cbn. by rewrite byte_of_val.
Qed.

(** Every character of a printed number is a digit or a letter. *)
Definition word (s : str) : Prop := Forall (fun b => is_ascii_alphanumeric b = true) s.

Lemma word_digit d : d < 16 -> is_ascii_alphanumeric (digit_byte d) = true.
Proof.
  intros Hd. pose proof (forall_below 16 (fun d => is_ascii_alphanumeric (digit_byte d))
    ltac:(by vm_compute) d Hd) as H. done.
Qed.

Lemma word_decimal n : word (u64_to_string n).
Proof.
  apply Forall_fmap. eapply Forall_impl; [apply decimal_digits_bound|].
  intros d Hd. apply word_digit. cbv beta in Hd. lia.
Qed.

Lemma word_hash h : word (hash_to_string h).
Proof.
  induction h as [|b h IH]; [constructor|]. unfold hash_to_string. rewrite fmap_cons. cbn [concat].
  pose proof (byte_val_lt b). repeat constructor; [apply word_digit..|exact IH].
  - apply N.Div0.div_lt_upper_bound. lia.
  - by apply N.mod_lt.
Qed.

Lemma blen_hash_to_string h : blen (hash_to_string h) = 2 * blen h.
Proof.
  induction h as [|b h IH]; [done|]. unfold hash_to_string in *. rewrite fmap_cons. cbn [concat].
  rewrite blen_app, IH, blen_cons. change (blen (hex_byte b)) with 2. lia.
Qed.

Lemma word_ascii s : word s -> is_ascii s = true.
Proof.
  induction 1 as [|b s Hb Hs IH]; [done|]. unfold is_ascii in *. cbn [forallb].
  rewrite IH, andb_true_r. apply N.ltb_lt.
  unfold is_ascii_alphanumeric, is_ascii_alphabetic, is_ascii_lowercase, is_ascii_uppercase,
    is_ascii_digit, between in Hb.
  apply not_false_iff_true in Hb. destruct (N.lt_ge_cases (byte_val b) 128) as [?|Hge]; [done|].
  exfalso. apply Hb. rewrite !(proj2 (andb_false_iff _ _)); [done|right; apply N.leb_gt; lia..].
Qed.

Lemma parse_hash_to_string h :
  blen h = 32 -> all_zero h = false -> parse_hash (hash_to_string h) = Some h.
Proof.
  intros Hl Hz. unfold parse_hash. rewrite (bool_decide_eq_true_2 (blen _ = 64))
    by (rewrite blen_hash_to_string; lia).
  rewrite word_ascii by apply word_hash. cbn [negb orb]. rewrite parse_hex_pairs_hash. cbn.
  unfold JournalHash_new. by rewrite Hz.
Qed.

Lemma ascii_bytes_untext l : ascii_bytes (untext l) = Ascii.byte_of_ascii <$> l.
Proof.
  unfold ascii_bytes, untext, String.list_byte_of_string.
  by rewrite String.list_ascii_of_string_of_list_ascii.
Qed.

Lemma gid_text_digits g :
  g <= U64_MAX -> gid_text g = (fun d => Ascii.byte_of_ascii (hex_char d)) <$> fixed_digits 16 g.
Proof.
  intros Hg. unfold gid_text. rewrite Gid_to_string_fixed by done.
  by rewrite ascii_bytes_untext, <- list_fmap_compose.
Qed.

Lemma word_gid g : g <= U64_MAX -> word (gid_text g).
Proof.
  intros Hg. rewrite gid_text_digits by done. apply Forall_fmap.
  eapply Forall_impl; [apply fixed_digits_bound|]. intros d Hd.
  by apply (forall_below 16 (fun d => is_ascii_alphanumeric (Ascii.byte_of_ascii (hex_char d)))
    ltac:(by vm_compute)).
Qed.

Lemma blen_gid_text g : g <= U64_MAX -> blen (gid_text g) = 16.
Proof. intros Hg. rewrite gid_text_digits, blen_fmap by done. unfold blen. by rewrite length_fixed_digits. Qed.

Lemma gid_parse_text g : 0 < g -> g <= U64_MAX -> gid_parse (gid_text g) = Some g.
Proof.
  intros Hz Hg. unfold gid_parse, gid_text, ascii_bytes. rewrite String.string_of_list_byte_of_string.
  rewrite (Gid_from_str_complete _ g); [done..|]. by apply lowercase_gid.
Qed.

(** The range of the Rust types of the fields. *)
Definition hash_typed (h : JournalHash) : Prop := blen h = 32 /\ all_zero h = false.
Definition id_typed (n : N) : Prop := 0 < n /\ n <= U64_MAX.
Record expansion_typed (e : MetadataExpansion) : Prop := {
  xt_gid : id_typed (mp_gid (me_parent e));
  xt_generation : mp_generation (me_parent e) <= U64_MAX;
  xt_snapshot : hash_typed (mp_snapshot_hash (me_parent e));
  xt_document : hash_typed (mp_document_hash (me_parent e));
  xt_bytes : mp_document_bytes (me_parent e) <= U64_MAX;
  xt_children : Forall id_typed (me_children e);
}.

Lemma word_free (sep : byte) s :
  is_ascii_alphanumeric sep = false -> word s -> Forall (fun b => (b == sep) = false) s.
Proof.
  intros Hs Hw. eapply Forall_impl; [exact Hw|]. intros b Hb. cbv beta in Hb.
  apply bool_decide_eq_false. congruence.
Qed.

Lemma join_free (P : byte -> Prop) sep l : Forall P sep -> Forall (Forall P) l -> Forall P (join sep l).
Proof.
  intros Hs HF. induction HF as [|s l Hw HF IH]; [constructor|].
  destruct l as [|t l]; [done|]. rewrite join_cons by done. rewrite !Forall_app. auto.
Qed.

Lemma join_bound sep k l : Forall (fun s => blen s <= k) l -> blen (join sep l) <= (k + blen sep) * blen l.
Proof.
  induction 1 as [|s l Hs HF IH]; [apply N.le_0_l|].
  destruct l as [|t l]; [cbn [join]; autorewrite with len; lia|].
  rewrite join_cons by done. rewrite !blen_app, (blen_cons s). nia.
Qed.

Lemma children_words cs : Forall id_typed cs -> Forall word (gid_text <$> cs).
Proof. intros HF. apply Forall_fmap. eapply Forall_impl; [exact HF|]. intros g [_ Hg]. by apply word_gid. Qed.

Lemma children_parse cs : Forall id_typed cs -> mapM gid_parse (gid_text <$> cs) = Some cs.
Proof.
  intros HF. apply mapM_Some, Forall2_fmap_l, Forall2_same_length_lookup_2; [done|].
  intros i g g' Hg Hg'. assert (g = g') as <- by congruence.
  rewrite Forall_lookup in HF. destruct (HF _ _ Hg). by apply gid_parse_text.
Qed.

Lemma validate_facts e :
  MetadataExpansion_validate e = true ->
  me_children e <> [] /\ blen (me_children e) <= SESSION_MAX_IMPORT_TASKS.
Proof.
  unfold MetadataExpansion_validate. rewrite !andb_true_iff. intros [[[[Hn Hm] _] _] _].
  apply N.leb_le in Hm. split; [|done]. intros E. by rewrite E in Hn.
Qed.

(** The pieces of the canonical text are words, but for the commas of the last. *)
Definition canonical_parts (e : MetadataExpansion) : list str :=
  let p := me_parent e in
  [ascii_bytes "1"; gid_text (mp_gid p); u64_to_string (mp_generation p);
   hash_to_string (mp_snapshot_hash p); hash_to_string (mp_document_hash p);
   u64_to_string (mp_document_bytes p); (if mp_retained p then ascii_bytes "1" else ascii_bytes "0");
   join [comma] (gid_text <$> me_children e)].

Lemma canonical_pieces (P : byte -> Prop) e :
  expansion_typed e -> P comma -> (forall s, word s -> Forall P s) ->
  Forall (Forall P) (canonical_parts e).
Proof.
  intros [[_ Hg] _ _ _ _ Hc] Hcomma Hw. unfold canonical_parts.
  apply Forall_cons; split; [by apply Hw; repeat constructor|].
  apply Forall_cons; split; [by apply Hw, word_gid|].
  apply Forall_cons; split; [apply Hw, word_decimal|].
  apply Forall_cons; split; [apply Hw, word_hash|].
  apply Forall_cons; split; [apply Hw, word_hash|].
  apply Forall_cons; split; [apply Hw, word_decimal|].
  apply Forall_cons; split; [apply Hw; destruct (mp_retained _); by repeat constructor|].
  apply Forall_cons; split; [|by apply Forall_nil].
  apply join_free; [by repeat constructor|].
  eapply Forall_impl; [by apply children_words|exact Hw].
Qed.

Lemma canonical_length e :
  expansion_typed e -> blen (me_children e) <= SESSION_MAX_IMPORT_TASKS ->
  blen (MetadataExpansion_canonical e) <= 64 * 1024.
Proof.
  intros [[_ Hg] _ [Hs _] [Hd _] _ Hc] Hn. unfold MetadataExpansion_canonical.
  assert (forall n, blen (u64_to_string n) <= 20) as Hu.
  { intros n. unfold u64_to_string. rewrite blen_fmap. unfold blen.
    pose proof (decimal_digits_length 20 n). lia. }
  pose proof (join_bound [comma] 16 (gid_text <$> me_children e)) as Hj.
  rewrite blen_fmap in Hj. change (blen [comma]) with 1 in Hj. unfold SESSION_MAX_IMPORT_TASKS in Hn.
  assert (blen (join [comma] (gid_text <$> me_children e)) <= 17000).
  { etrans; [apply Hj|lia]. apply Forall_fmap. eapply Forall_impl; [exact Hc|].
    intros g [_ Hg']. change (blen (gid_text g) <= 16). by rewrite blen_gid_text. }
  cbn [join]. rewrite !blen_app, !blen_hash_to_string, blen_gid_text, Hs, Hd by done.
  pose proof (Hu (mp_generation (me_parent e))). pose proof (Hu (mp_document_bytes (me_parent e))).
  change (blen [bar]) with 1. change (blen (ascii_bytes "1")) with 1.
  destruct (mp_retained (me_parent e)); change (blen (ascii_bytes "0")) with 1;
    change (blen (ascii_bytes "1")) with 1; lia.
Qed.

Lemma parse_canonical e :
  expansion_typed e -> MetadataExpansion_validate e = true ->
  MetadataExpansion_parse (MetadataExpansion_canonical e) = Some e.
Proof.
  intros Ht Hv. destruct (validate_facts e Hv) as [Hne Hm].
  unfold MetadataExpansion_parse. rewrite (proj2 (N.ltb_ge _ _)) by by apply canonical_length.
  unfold MetadataExpansion_canonical. rewrite split_join;
    [|done|done|apply (canonical_pieces _ e Ht); [done|intros s; by apply word_free]].
  destruct Ht as [[Hg0 Hg] Hgen [Hs Hs'] [Hd Hd'] Hb Hc].
  rewrite bool_decide_eq_true_2 by done. cbn [negb].
  rewrite gid_parse_text, !u64_from_to_string, !parse_hash_to_string by done.
  rewrite split_join; [|done|by destruct (me_children e)|].
  2: { eapply Forall_impl; [by apply children_words|]. intros s. by apply word_free. }
  rewrite upto_all, children_parse; [|done|rewrite blen_fmap; lia].
  cbn [mbind option_bind]. destruct e as [[g gen s d n r] cs]. cbn [me_parent me_children mp_gid
    mp_generation mp_snapshot_hash mp_document_hash mp_document_bytes mp_retained] in *.
  destruct r; [rewrite (bool_decide_eq_false_2 (ascii_bytes "1" = ascii_bytes "0")) by done|];
    rewrite bool_decide_eq_true_2 by done; cbn [mbind option_bind]; by rewrite Hv.
Qed.

(** ** What parsing accepts *)

Lemma decimal_loop_bound s : forall acc n, acc <= U64_MAX -> decimal_loop acc s = Some n -> n <= U64_MAX.
Proof.
  induction s as [|b s IH]; intros acc n Ha; cbn [decimal_loop]; [by intros [= <-]|].
  destruct (is_ascii_digit b); [|done]. cbv zeta.
  destruct (N.leb_spec (acc * 10 + (byte_val b - 48)) U64_MAX) as [Hle|]; [|done]. by apply IH.
Qed.

Lemma u64_from_str_bound s n : u64_from_str s = Some n -> n <= U64_MAX.
Proof.
  unfold u64_from_str. destruct s as [|b s]; [done|]. case_bool_decide; [destruct s; [done|]|];
    apply decimal_loop_bound; vm_compute; congruence.
Qed.

Lemma parse_hex_pairs_len s h : parse_hex_pairs s = Some h -> blen s = 2 * blen h.
Proof.
  remember (length s) as n eqn:Hn. revert s h Hn.
  induction (lt_wf n) as [n _ IH]; intros [|a [|b s]] h -> H; [by injection H as <-|done|].
  cbn [parse_hex_pairs] in H. apply bind_Some in H as (v & _ & H).
  apply bind_Some in H as (r & Hr & [= <-]).
  apply (IH (length s)) in Hr; [|cbn [length]; lia|done]. autorewrite with len. lia.
Qed.

Lemma parse_hash_typed s h : parse_hash s = Some h -> hash_typed h.
Proof.
  unfold parse_hash. case_bool_decide as Hl; [|done]. destruct (is_ascii s); [|done]. cbn [negb orb].
  intros (b & Hb%parse_hex_pairs_len & H)%bind_Some. unfold JournalHash_new in H.
  destruct (all_zero b) eqn:Ez; [done|]. injection H as <-. split; [lia|done].
Qed.

Lemma gid_parse_typed s g : gid_parse s = Some g -> id_typed g.
Proof.
  unfold gid_parse. destruct (Gid_from_str _) eqn:E; [|done]. intros [= <-].
  apply Gid_from_str_sound in E as (? & ? & _). by split.
Qed.

Lemma parse_typed s e :
  MetadataExpansion_parse s = Some e ->
  expansion_typed e /\ MetadataExpansion_validate e = true.
Proof.
  unfold MetadataExpansion_parse. destruct (_ <? _); [done|].
  destruct (split _ s) as [|? [|? [|? [|? [|? [|? [|? [|? [|? ?]]]]]]]]]; try done.
  destruct (bool_decide _); [|done]. cbn [negb].
  intros (g & Hg & H)%bind_Some. apply bind_Some in H as (gen & Hgen & H).
  apply bind_Some in H as (sh & Hs & H). apply bind_Some in H as (dh & Hd & H).
  apply bind_Some in H as (n & Hn & H). apply bind_Some in H as (r & _ & H).
  apply bind_Some in H as (cs & Hc & H).
  destruct (MetadataExpansion_validate _) eqn:Hv; [|done]. injection H as <-. split; [|done].
  split; cbn [me_parent me_children mp_gid mp_generation mp_snapshot_hash mp_document_hash
    mp_document_bytes]; eauto using gid_parse_typed, u64_from_str_bound, parse_hash_typed.
  apply mapM_Some in Hc. clear -Hc. induction Hc as [|s g ss gs Hg Hc IH]; constructor; [|done].
  by apply gid_parse_typed in Hg.
Qed.

Lemma is_ascii_Forall s : is_ascii s = true <-> Forall (fun b => (byte_val b <? 128) = true) s.
Proof.
  unfold is_ascii. induction s as [|b s IH]; cbn [forallb]; [by split|].
  rewrite andb_true_iff, Forall_cons, IH. done.
Qed.

Lemma ascii_utf8 s : is_ascii s = true -> is_utf8 s = true.
Proof.
  rewrite is_ascii_Forall. unfold is_utf8. rewrite is_some_true.
  induction 1 as [|b s Hb HF [cs IH]]; [by eexists|]. cbn [utf8_chars].
  change 128 with 0x80 in Hb. rewrite Hb, IH. by eexists.
Qed.

Lemma canonical_utf8 e : expansion_typed e -> is_utf8 (MetadataExpansion_canonical e) = true.
Proof.
  intros He. apply ascii_utf8, is_ascii_Forall. apply join_free; [by repeat constructor|].
  apply (canonical_pieces _ e He); [done|]. intros s Hs. by apply is_ascii_Forall, word_ascii.
Qed.
