(* ===== verification/Payload.v ===== *)
(** * Journal payloads

    Model of the payload codec of
    [crates/ariax-storage/src/journal_payload.rs]: the thirty-two payloads, their
    encoder, decoder and validation.

    [PayloadEncoder] is a function on the output so far.  [PayloadDecoder] holds
    an input and an offset and only ever looks at [input[offset..]], which is the
    state of the model; offsets stay below the length of the input plus a [u32],
    so [checked_add] on them cannot fail.  Memory is not bounded, so the
    [AllocationFailed] branches do not occur. *)

From S2P Require Import Prelude Bytes Ids Errors Snapshot Utf8 Paths RootBinding Layout Journal JournalTags PayloadTypes MetadataExpansion.
From Stdlib Require Import Init.Byte Strings.Byte.
From Stdlib Require String.
Open Scope list_scope.

Notation PieceId := N (only parsing).

Module HostKeyDecision.
Inductive HostKeyDecision : Set := Pending | Approved | Rejected.
End HostKeyDecision.
Notation HostKeyDecision := HostKeyDecision.HostKeyDecision.
#[global] Instance HostKeyDecision_eq_dec : EqDecision HostKeyDecision.
Proof. solve_decision. Defined.

Record JournalHostKeyState : Set := mkJournalHostKeyState {
  hs_challenge : PresentedHostKeyChallenge;
  hs_decision : HostKeyDecision;
  hs_created_ms : N;
}.
#[global] Instance JournalHostKeyState_eq_dec : EqDecision JournalHostKeyState.
Proof. solve_decision. Defined.

Module JournalPayload.
Inductive JournalPayload : Set :=
| TaskCreated (durability : DurabilityMode) (creator_version : N)
| OptionsSnapshot (scope : OptionsSnapshotScope) (patch_id : option OptionPatchId)
    (snapshot_hash : JournalHash) (options : SanitizedOptionMap)
| LayoutCommitted (layout_hash root_binding_hash : JournalHash) (root_display : PlatformPath)
    (root_identity : bytes) (total_length : option N) (piece_length total_file_count chunk_count : N)
    (inline_files : list JournalFileLayoutEntry)
| GenerationStarted (previous_generation : Generation) (reason : GenerationStartReason)
    (next_snapshot_hash : JournalHash) (patch_id : option OptionPatchId)
| LeaseStarted (transfer_attempt_id : TransferAttemptId) (lease_id : LeaseId) (span : PersistedSpan)
    (validator_fingerprint : JournalHash)
| PieceStarted (lease_id : LeaseId) (piece_id : PieceId) (piece_span : PersistedSpan)
| PieceWritten (lease_id : LeaseId) (piece_id : PieceId) (written_span : PersistedSpan)
| LeaseCommitted (lease_id : LeaseId) (span : PersistedSpan) (validator_fingerprint : JournalHash)
    (response_digest : option JournalDigest)
| LeaseAborted (lease_id : LeaseId) (reason : LeaseAbortReason)
| PieceVerified (piece_id : PieceId) (piece_span : PersistedSpan) (contributors_hash : JournalHash)
    (digest : JournalDigest)
| PieceFailed (lease_id : option LeaseId) (piece_id : PieceId) (piece_span : PersistedSpan)
    (error_class : ErrorKind) (attempt : N)
| PieceDurable (piece_id : PieceId) (piece_span : PersistedSpan)
    (contributors_hash validator_set_fingerprint : JournalHash) (digest : option JournalDigest)
    (data_barrier : DataBarrierKind)
| RetryState (scope : RetryScope) (scope_id : PersistedId)
    (attempt elapsed_before_wait_ms scheduled_at_unix_ms delay_ms : N)
    (error_class : ErrorKind) (retry_reason : RetryReason)
| TaskPaused (reason : TaskPauseReason)
| TaskComplete (layout_hash : JournalHash) (final_length : N) (final_digest : option JournalDigest)
    (completed_at_unix_ms : N)
| TaskError (error_class : ErrorKind) (retriable : bool) (diagnostic_id : N)
| TaskRemoved (reason : TaskRemoveReason)
| CleanShutdown (checkpoint_sequence shutdown_at_unix_ms : N)
| CheckpointStart (checkpoint_id : CheckpointId) (source_last_sequence : N)
    (source_segment_hash : JournalHash) (state_record_count created_at_unix_ms : N)
| CheckpointEnd (checkpoint_id : CheckpointId) (state_record_count : N) (state_hash : JournalHash)
| LayoutChunk (layout_hash root_binding_hash : JournalHash) (chunk_index chunk_count : N)
    (files : list JournalFileLayoutEntry)
| FinalizeIntent (layout_hash root_binding_hash : JournalHash) (file_id : FileId)
    (temp_relative_path final_relative_path : JournalRelativePath) (final_length : N)
    (file_identity : bytes)
| FinalizeDone (layout_hash root_binding_hash : JournalHash) (file_id : FileId)
    (final_relative_path : JournalRelativePath)
| PieceStateChunk (layout_hash root_binding_hash : JournalHash) (chunk_index chunk_count : N)
    (first_piece_id : PieceId) (covered_piece_count : N) (durable_bitmap : bytes)
    (evidence_runs : list DurableEvidenceRun)
| HttpStrongValidator (resource_fingerprint validator_fingerprint : JournalHash) (total_length : N)
    (etag : bytes)
| HttpRangeIdentity (identity_fingerprint : JournalHash) (total_length : N)
    (representation_digest : JournalDigest)
| VerificationManifest (fingerprint : JournalHash) (total_bytes chunk_count : N) (part : bytes)
| VerificationManifestChunk (fingerprint : JournalHash) (chunk_index chunk_count : N) (part : bytes)
| ProtocolValidator (validator : PayloadTypes.ProtocolValidator)
| WholeFileVerified (fingerprint : JournalHash) (digests : list JournalDigest)
| HostKeyState (state : JournalHostKeyState)
| MetadataComplete (expansion : MetadataExpansion) (completed_at_unix_ms : N).
End JournalPayload.
Notation JournalPayload := JournalPayload.JournalPayload.
#[global] Instance JournalPayload_eq_dec : EqDecision JournalPayload.
Proof. solve_decision. Defined.

Definition record_type (self : JournalPayload) : RecordType :=
  match self with
  | JournalPayload.TaskCreated _ _ => RecordType.TaskCreated
  | JournalPayload.OptionsSnapshot _ _ _ _ => RecordType.OptionsSnapshot
  | JournalPayload.LayoutCommitted _ _ _ _ _ _ _ _ _ => RecordType.LayoutCommitted
  | JournalPayload.GenerationStarted _ _ _ _ => RecordType.GenerationStarted
  | JournalPayload.LeaseStarted _ _ _ _ => RecordType.LeaseStarted
  | JournalPayload.PieceStarted _ _ _ => RecordType.PieceStarted
  | JournalPayload.PieceWritten _ _ _ => RecordType.PieceWritten
  | JournalPayload.LeaseCommitted _ _ _ _ => RecordType.LeaseCommitted
  | JournalPayload.LeaseAborted _ _ => RecordType.LeaseAborted
  | JournalPayload.PieceVerified _ _ _ _ => RecordType.PieceVerified
  | JournalPayload.PieceFailed _ _ _ _ _ => RecordType.PieceFailed
  | JournalPayload.PieceDurable _ _ _ _ _ _ => RecordType.PieceDurable
  | JournalPayload.RetryState _ _ _ _ _ _ _ _ => RecordType.RetryState
  | JournalPayload.TaskPaused _ => RecordType.TaskPaused
  | JournalPayload.TaskComplete _ _ _ _ => RecordType.TaskComplete
  | JournalPayload.TaskError _ _ _ => RecordType.TaskError
  | JournalPayload.TaskRemoved _ => RecordType.TaskRemoved
  | JournalPayload.CleanShutdown _ _ => RecordType.CleanShutdown
  | JournalPayload.CheckpointStart _ _ _ _ _ => RecordType.CheckpointStart
  | JournalPayload.CheckpointEnd _ _ _ => RecordType.CheckpointEnd
  | JournalPayload.LayoutChunk _ _ _ _ _ => RecordType.LayoutChunk
  | JournalPayload.FinalizeIntent _ _ _ _ _ _ _ => RecordType.FinalizeIntent
  | JournalPayload.FinalizeDone _ _ _ _ => RecordType.FinalizeDone
  | JournalPayload.PieceStateChunk _ _ _ _ _ _ _ _ => RecordType.PieceStateChunk
  | JournalPayload.HttpStrongValidator _ _ _ _ => RecordType.HttpStrongValidator
  | JournalPayload.HttpRangeIdentity _ _ _ => RecordType.HttpRangeIdentity
  | JournalPayload.VerificationManifest _ _ _ _ => RecordType.VerificationManifest
  | JournalPayload.VerificationManifestChunk _ _ _ _ => RecordType.VerificationManifestChunk
  | JournalPayload.ProtocolValidator _ => RecordType.ProtocolValidator
  | JournalPayload.WholeFileVerified _ _ => RecordType.WholeFileVerified
  | JournalPayload.HostKeyState _ => RecordType.HostKeyState
  | JournalPayload.MetadataComplete _ _ => RecordType.MetadataComplete
  end.

(** ** The encoder *)

Definition Encoder : Type := bytes -> result PayloadCodecError bytes.

(** [e?; k] on the growing output. *)
Definition enc_seq (e k : Encoder) : Encoder := fun output => output ← e output; k output.
Notation "e ;; k" := (enc_seq e k) (at level 100, k at level 200, right associativity) : rust_scope.

Definition enc_done : Encoder := fun output => Ok output.
Definition enc_fail (error : PayloadCodecError) : Encoder := fun _ => Err error.
Definition enc_each {A} (f : A -> Encoder) (l : list A) : Encoder :=
  foldr (fun x k => f x ;; k) enc_done l.

Definition enc_fixed (value : bytes) : Encoder := fun output => Ok (output ++ value).
Definition enc_u8 (value : N) : Encoder := enc_fixed [byte_of value].
Definition enc_boolean (value : bool) : Encoder := enc_u8 (if value then 1 else 0).
Definition enc_u16 (value : N) : Encoder := enc_fixed (u16_le value).
Definition enc_u32 (value : N) : Encoder := enc_fixed (u32_le value).
Definition enc_u64 (value : N) : Encoder := enc_fixed (u64_le value).
Definition enc_hash (value : JournalHash) : Encoder := enc_fixed value.
Definition enc_span (value : PersistedSpan) : Encoder :=
  enc_u64 (sp_offset value) ;; enc_u64 (sp_len value).
Definition enc_optional_id (value : option N) : Encoder :=
  match value with
  | Some value => if value =? 0 then enc_fail PayloadCodecError.ZeroId else enc_u8 1 ;; enc_u64 value
  | None => enc_u8 0
  end.
Definition enc_optional_u64 (value : option N) : Encoder :=
  match value with
  | Some value => enc_u8 1 ;; enc_u64 value
  | None => enc_u8 0
  end.
Definition enc_bytes (value : bytes) : Encoder :=
  if U32_MAX <? blen value then enc_fail PayloadCodecError.PayloadTooLarge
  else enc_u32 (blen value) ;; enc_fixed value.
Definition enc_digest (value : JournalDigest) : Encoder :=
  enc_bytes (digest_code (jd_algorithm value)) ;; enc_bytes (jd_value value).
Definition enc_optional_digest (value : option JournalDigest) : Encoder :=
  match value with
  | Some value => enc_u8 1 ;; enc_digest value
  | None => enc_u8 0
  end.
(** [u32::try_from(len)] with the error of the field. *)
Definition enc_count (error : PayloadCodecError) (count : N) : Encoder :=
  if U32_MAX <? count then enc_fail error else enc_u32 count.
Definition enc_option_map (value : SanitizedOptionMap) : Encoder :=
  enc_count PayloadCodecError.TooManyOptions (blen (om_entries value)) ;;
  enc_each (fun '(key, value) => enc_bytes key ;; enc_bytes value) (om_entries value).
Definition enc_platform_path (value : PlatformPath) : Encoder :=
  enc_u8 (PathPlatform_number (pp_platform value)) ;; enc_bytes (pp_bytes value).
Definition enc_file_entries (values : list JournalFileLayoutEntry) : Encoder :=
  enc_each (fun value =>
    enc_u64 (le_file_id value) ;; enc_u64 (le_global_start value) ;;
    enc_u64 (le_global_end value) ;; enc_u64 (le_length value) ;;
    enc_boolean (le_selected value) ;; enc_bytes (le_safe_relative_path value) ;;
    enc_bytes (le_file_identity value)) values.
Definition enc_evidence_runs (values : list DurableEvidenceRun) : Encoder :=
  enc_each (fun value =>
    enc_u32 (er_first_piece_delta value) ;; enc_u32 (er_piece_count value) ;;
    enc_hash (er_validator_set_fingerprint value) ;;
    match er_digest_algorithm value with
    | Some algorithm => enc_bytes (digest_code algorithm)
    | None => enc_bytes []
    end ;;
    enc_u16 (er_digest_value_len value) ;; enc_bytes (er_digest_values value)) values.

(** The [match] of [encode]: the fields of each payload in order. *)
Definition enc_payload (self : JournalPayload) : Encoder :=
  match self with
  | JournalPayload.TaskCreated durability creator_version =>
    enc_u8 (tag_number durability) ;; enc_u16 creator_version
  | JournalPayload.OptionsSnapshot scope patch_id snapshot_hash options =>
    enc_u8 (tag_number scope) ;; enc_optional_id patch_id ;; enc_hash snapshot_hash ;;
    enc_option_map options
  | JournalPayload.LayoutCommitted layout_hash root_binding_hash root_display root_identity
      total_length piece_length total_file_count chunk_count inline_files =>
    enc_hash layout_hash ;; enc_hash root_binding_hash ;; enc_platform_path root_display ;;
    enc_bytes root_identity ;; enc_optional_u64 total_length ;; enc_u64 piece_length ;;
    enc_u32 total_file_count ;; enc_u32 chunk_count ;;
    enc_count PayloadCodecError.TooManyLayoutEntries (blen inline_files) ;;
    enc_file_entries inline_files
  | JournalPayload.GenerationStarted previous_generation reason next_snapshot_hash patch_id =>
    enc_u64 previous_generation ;; enc_u8 (tag_number reason) ;; enc_hash next_snapshot_hash ;;
    enc_optional_id patch_id
  | JournalPayload.LeaseStarted transfer_attempt_id lease_id span validator_fingerprint =>
    enc_u64 transfer_attempt_id ;; enc_u64 lease_id ;; enc_span span ;; enc_hash validator_fingerprint
  | JournalPayload.PieceStarted lease_id piece_id piece_span =>
    enc_u64 lease_id ;; enc_u64 piece_id ;; enc_span piece_span
  | JournalPayload.PieceWritten lease_id piece_id written_span =>
    enc_u64 lease_id ;; enc_u64 piece_id ;; enc_span written_span
  | JournalPayload.LeaseCommitted lease_id span validator_fingerprint response_digest =>
    enc_u64 lease_id ;; enc_span span ;; enc_hash validator_fingerprint ;;
    enc_optional_digest response_digest
  | JournalPayload.LeaseAborted lease_id reason => enc_u64 lease_id ;; enc_u8 (tag_number reason)
  | JournalPayload.PieceVerified piece_id piece_span contributors_hash digest =>
    enc_u64 piece_id ;; enc_span piece_span ;; enc_hash contributors_hash ;; enc_digest digest
  | JournalPayload.PieceFailed lease_id piece_id piece_span error_class attempt =>
    enc_optional_id lease_id ;; enc_u64 piece_id ;; enc_span piece_span ;;
    enc_u8 (ErrorKind_number error_class) ;; enc_u32 attempt
  | JournalPayload.PieceDurable piece_id piece_span contributors_hash validator_set_fingerprint
      digest data_barrier =>
    enc_u64 piece_id ;; enc_span piece_span ;; enc_hash contributors_hash ;;
    enc_hash validator_set_fingerprint ;; enc_optional_digest digest ;;
    enc_u8 (tag_number data_barrier)
  | JournalPayload.RetryState scope scope_id attempt elapsed_before_wait_ms scheduled_at_unix_ms
      delay_ms error_class retry_reason =>
    enc_u8 (tag_number scope) ;; enc_u64 scope_id ;; enc_u32 attempt ;;
    enc_u64 elapsed_before_wait_ms ;; enc_u64 scheduled_at_unix_ms ;; enc_u64 delay_ms ;;
    enc_u8 (ErrorKind_number error_class) ;; enc_u8 (tag_number retry_reason)
  | JournalPayload.TaskPaused reason => enc_u8 (tag_number reason)
  | JournalPayload.TaskComplete layout_hash final_length final_digest completed_at_unix_ms =>
    enc_hash layout_hash ;; enc_u64 final_length ;; enc_optional_digest final_digest ;;
    enc_u64 completed_at_unix_ms
  | JournalPayload.TaskError error_class retriable diagnostic_id =>
    enc_u8 (ErrorKind_number error_class) ;; enc_boolean retriable ;; enc_u64 diagnostic_id
  | JournalPayload.TaskRemoved reason => enc_u8 (tag_number reason)
  | JournalPayload.CleanShutdown checkpoint_sequence shutdown_at_unix_ms =>
    enc_u64 checkpoint_sequence ;; enc_u64 shutdown_at_unix_ms
  | JournalPayload.CheckpointStart checkpoint_id source_last_sequence source_segment_hash
      state_record_count created_at_unix_ms =>
    enc_fixed checkpoint_id ;; enc_u64 source_last_sequence ;; enc_hash source_segment_hash ;;
    enc_u32 state_record_count ;; enc_u64 created_at_unix_ms
  | JournalPayload.CheckpointEnd checkpoint_id state_record_count state_hash =>
    enc_fixed checkpoint_id ;; enc_u32 state_record_count ;; enc_hash state_hash
  | JournalPayload.LayoutChunk layout_hash root_binding_hash chunk_index chunk_count files =>
    enc_hash layout_hash ;; enc_hash root_binding_hash ;; enc_u32 chunk_index ;;
    enc_u32 chunk_count ;; enc_count PayloadCodecError.TooManyLayoutEntries (blen files) ;;
    enc_file_entries files
  | JournalPayload.FinalizeIntent layout_hash root_binding_hash file_id temp_relative_path
      final_relative_path final_length file_identity =>
    enc_hash layout_hash ;; enc_hash root_binding_hash ;; enc_u64 file_id ;;
    enc_bytes temp_relative_path ;; enc_bytes final_relative_path ;; enc_u64 final_length ;;
    enc_bytes file_identity
  | JournalPayload.FinalizeDone layout_hash root_binding_hash file_id final_relative_path =>
    enc_hash layout_hash ;; enc_hash root_binding_hash ;; enc_u64 file_id ;;
    enc_bytes final_relative_path
  | JournalPayload.PieceStateChunk layout_hash root_binding_hash chunk_index chunk_count
      first_piece_id covered_piece_count durable_bitmap evidence_runs =>
    enc_hash layout_hash ;; enc_hash root_binding_hash ;; enc_u32 chunk_index ;;
    enc_u32 chunk_count ;; enc_u64 first_piece_id ;; enc_u32 covered_piece_count ;;
    enc_bytes durable_bitmap ;;
    enc_count PayloadCodecError.TooManyEvidenceRuns (blen evidence_runs) ;;
    enc_evidence_runs evidence_runs
  | JournalPayload.HttpStrongValidator resource_fingerprint validator_fingerprint total_length etag =>
    enc_hash resource_fingerprint ;; enc_hash validator_fingerprint ;; enc_u64 total_length ;;
    enc_bytes etag
  | JournalPayload.HttpRangeIdentity identity_fingerprint total_length representation_digest =>
    enc_hash identity_fingerprint ;; enc_u64 total_length ;; enc_digest representation_digest
  | JournalPayload.VerificationManifest fingerprint total_bytes chunk_count part =>
    enc_hash fingerprint ;; enc_u32 total_bytes ;; enc_u32 chunk_count ;; enc_bytes part
  | JournalPayload.VerificationManifestChunk fingerprint chunk_index chunk_count part =>
    enc_hash fingerprint ;; enc_u32 chunk_index ;; enc_u32 chunk_count ;; enc_bytes part
  | JournalPayload.ProtocolValidator validator =>
    enc_u8 (pv_protocol validator) ;; enc_hash (pv_source validator) ;;
    enc_u64 (pv_total_length validator) ;; enc_optional_u64 (pv_modified_unix_seconds validator) ;;
    enc_u8 (if is_some (pv_host_key validator) then 1 else 0) ;;
    match pv_host_key validator with Some key => enc_hash key | None => enc_done end
  | JournalPayload.MetadataComplete expansion completed_at_unix_ms =>
    (if MetadataExpansion_validate expansion then enc_done
     else enc_fail PayloadCodecError.InvalidVerificationManifest) ;;
    enc_bytes (MetadataExpansion_canonical expansion) ;; enc_u64 completed_at_unix_ms
  | JournalPayload.HostKeyState state =>
    let key := ph_summary (hs_challenge state) in
    enc_u8 (match hs_decision state with
            | HostKeyDecision.Pending => 0
            | HostKeyDecision.Approved => 1
            | HostKeyDecision.Rejected => 2
            end) ;;
    enc_fixed (byte_of <$> hk_id key) ;; enc_bytes (ascii_bytes (hk_canonical_host key)) ;;
    enc_u16 (hk_port key) ;; enc_bytes (ascii_bytes (hk_algorithm key)) ;;
    enc_fixed (byte_of <$> hk_fingerprint_sha256 key) ;;
    enc_bytes (byte_of <$> ph_presented_public_key (hs_challenge state)) ;;
    enc_u64 (hs_created_ms state)
  | JournalPayload.WholeFileVerified fingerprint digests =>
    enc_hash fingerprint ;; enc_u8 (blen digests) ;; enc_each enc_digest digests
  end.

(** ** Validation *)

(** [div_ceil]. *)
Definition div_ceil (a b : N) : N := (a + b - 1) / b.

(** A bit of a bitmap whose length covers it. *)
Definition bitmap_byte (bitmap : bytes) (index : N) : N :=
  byte_val (default x00 (bitmap !! N.to_nat (index / 8))).
Definition bitmap_get (bitmap : bytes) (index : N) : bool :=
  negb (N.land (bitmap_byte bitmap index) (N.shiftl 1 (index mod 8)) =? 0).
Definition bitmap_set (bitmap : bytes) (index : N) : bytes :=
  <[N.to_nat (index / 8) :=
      byte_of (N.lor (bitmap_byte bitmap index) (N.shiftl 1 (index mod 8)))]> bitmap.

Definition same_evidence_class (left right : DurableEvidenceRun) : bool :=
  (er_validator_set_fingerprint left == er_validator_set_fingerprint right)
  && (er_digest_algorithm left == er_digest_algorithm right)
  && (er_digest_value_len left == er_digest_value_len right).

(** [for piece in start..end]. *)
Fixpoint account_pieces (count : nat) (durable_bitmap accounted : bytes) (piece : N)
    : result PayloadCodecError bytes :=
  match count with
  | O => Ok accounted
  | S count =>
    if negb (bitmap_get durable_bitmap piece) || bitmap_get accounted piece
    then Err PayloadCodecError.InvalidEvidenceRun
    else account_pieces count durable_bitmap (bitmap_set accounted piece) (piece + 1)
  end.

(** [for run in evidence_runs]; the sums of two [u32] fit a [usize]. *)
Fixpoint account_runs (runs : list DurableEvidenceRun) (covered : N) (durable_bitmap accounted : bytes)
    (previous_end : N) (previous : option DurableEvidenceRun) : result PayloadCodecError bytes :=
  match runs with
  | [] => Ok accounted
  | run :: runs =>
    let start := er_first_piece_delta run in
    let end_ := start + er_piece_count run in
    if (start <? previous_end) || (covered <? end_) then Err PayloadCodecError.InvalidEvidenceRun
    else if (start =? previous_end)
            && default false ((fun previous => same_evidence_class previous run) <$> previous)
    then Err PayloadCodecError.InvalidEvidenceRun
    else
      accounted ← account_pieces (N.to_nat (er_piece_count run)) durable_bitmap accounted start;
      account_runs runs covered durable_bitmap accounted end_ (Some run)
  end.

Definition validate_piece_state_chunk (chunk_index chunk_count first_piece_id covered : N)
    (durable_bitmap : bytes) (evidence_runs : list DurableEvidenceRun)
    : result PayloadCodecError unit :=
  if (chunk_count =? 0) || (chunk_count <=? chunk_index) then Err PayloadCodecError.InvalidChunk
  else if (covered =? 0) || (MAX_PIECE_STATE_COVERED_PIECES <? covered)
  then Err PayloadCodecError.InvalidBitmap
  else if is_none (u64_checked_add first_piece_id (covered - 1))
  then Err PayloadCodecError.InvalidBitmap
  else
    let expected_bytes := div_ceil covered 8 in
    if (blen durable_bitmap != expected_bytes) || negb (bitmap_get durable_bitmap 0)
    then Err PayloadCodecError.InvalidBitmap
    else if negb (covered mod 8 =? 0)
            && negb (N.land (bitmap_byte durable_bitmap (8 * (expected_bytes - 1)))
                       (N.lxor 255 (N.shiftl 1 (covered mod 8) - 1)) =? 0)
    then Err PayloadCodecError.InvalidBitmap
    else if covered <? blen evidence_runs then Err PayloadCodecError.TooManyEvidenceRuns
    else
      accounted ← account_runs evidence_runs covered durable_bitmap
                    (repeat x00 (N.to_nat expected_bytes)) 0 None;
      if accounted != durable_bitmap then Err PayloadCodecError.InvalidEvidenceRun else Ok tt.

(** [entries.windows(2)]. *)
Fixpoint layout_windows (entries : list JournalFileLayoutEntry) : bool :=
  match entries with
  | a :: ((b :: _) as rest) =>
    (u32_checked_add (le_file_id a) 1 == Some (le_file_id b))
    && (le_global_end a == le_global_start b) && layout_windows rest
  | _ => true
  end.

Definition validate_layout_entries (entries : list JournalFileLayoutEntry) (require_origin : bool)
    : result PayloadCodecError unit :=
  if MAX_LAYOUT_ENTRIES <? blen entries then Err PayloadCodecError.TooManyLayoutEntries
  else if require_origin
          && match entries with
             | [] => true
             | entry :: _ => (le_file_id entry != 0) || (le_global_start entry != 0)
             end
  then Err PayloadCodecError.NonCanonicalLayoutOrder
  else if negb (layout_windows entries) then Err PayloadCodecError.NonCanonicalLayoutOrder
  else Ok tt.

Definition validate_layout_chunk (chunk_index chunk_count : N) (files : list JournalFileLayoutEntry)
    : result PayloadCodecError unit :=
  if (chunk_count <=? 1) || (chunk_index =? 0) || (chunk_count <=? chunk_index) || (blen files =? 0)
  then Err PayloadCodecError.InvalidChunk
  else
    _ ← validate_layout_entries files false;
    if default true ((fun file => le_file_id file =? 0) <$> head files)
    then Err PayloadCodecError.NonCanonicalLayoutOrder else Ok tt.

Section payload.
Context `{Unicode, Digests}.

(** [for entry in inline_files]: the path is canonical for the root's platform. *)
Fixpoint validate_entry_paths (platform : PathPlatform) (entries : list JournalFileLayoutEntry)
    : result PayloadCodecError unit :=
  match entries with
  | [] => Ok tt
  | entry :: entries =>
    safe ← map_err (fun _ => PayloadCodecError.InvalidRelativePath)
             (from_user_path (le_safe_relative_path entry) platform);
    if canonical_string safe != le_safe_relative_path entry
    then Err PayloadCodecError.InvalidRelativePath
    else validate_entry_paths platform entries
  end.

Definition validate_layout_committed (root_display : PlatformPath) (root_identity : bytes)
    (total_length : option N) (piece_length total_file_count chunk_count : N)
    (inline_files : list JournalFileLayoutEntry) : result PayloadCodecError unit :=
  if (blen root_identity =? 0) || (MAX_IDENTITY_BYTES <? blen root_identity)
  then Err PayloadCodecError.InvalidRootIdentity
  else if piece_length =? 0 then Err PayloadCodecError.ZeroPieceLength
  else if (total_file_count =? 0) || (MAX_LAYOUT_ENTRIES <? total_file_count)
  then Err PayloadCodecError.InvalidFileCount
  else if (chunk_count =? 0) || (blen inline_files =? 0) || (total_file_count <? blen inline_files)
          || ((chunk_count =? 1) && negb (blen inline_files =? total_file_count))
          || ((1 <? chunk_count) && (blen inline_files =? total_file_count))
  then Err PayloadCodecError.InvalidChunk
  else
    _ ← validate_layout_entries inline_files true;
    _ ← validate_entry_paths (pp_platform root_display) inline_files;
    if (chunk_count =? 1)
       && default false ((fun length =>
            default true ((fun entry => negb (le_global_end entry =? length)) <$> last inline_files))
            <$> total_length)
    then Err PayloadCodecError.InvalidFileCount else Ok tt.

Definition validate_payload (payload : JournalPayload) : result PayloadCodecError unit :=
  match payload with
  | JournalPayload.VerificationManifest _ total chunk_count part =>
    if (total =? 0) || (MAX_VERIFICATION_MANIFEST_BYTES <? total)
       || negb (chunk_count =? div_ceil total VERIFICATION_MANIFEST_PART_BYTES)
       || negb (blen part =? N.min total VERIFICATION_MANIFEST_PART_BYTES)
    then Err PayloadCodecError.InvalidVerificationManifest else Ok tt
  | JournalPayload.VerificationManifestChunk _ chunk_index chunk_count part =>
    if (chunk_index =? 0) || (chunk_count <=? chunk_index)
       || (MAX_VERIFICATION_MANIFEST_BYTES / VERIFICATION_MANIFEST_PART_BYTES <? chunk_count)
       || (blen part =? 0) || (VERIFICATION_MANIFEST_PART_BYTES <? blen part)
    then Err PayloadCodecError.InvalidVerificationManifest else Ok tt
  | JournalPayload.ProtocolValidator validator =>
    if negb (ProtocolValidator_validate validator)
    then Err PayloadCodecError.InvalidProtocolValidator else Ok tt
  | JournalPayload.WholeFileVerified _ digests =>
    if 2 <? blen digests then Err PayloadCodecError.InvalidVerificationManifest else Ok tt
  | JournalPayload.TaskCreated _ creator_version =>
    if creator_version =? 0 then Err PayloadCodecError.ZeroCreatorVersion else Ok tt
  | JournalPayload.PieceFailed _ _ _ _ attempt
  | JournalPayload.RetryState _ _ attempt _ _ _ _ _ =>
    if attempt =? 0 then Err PayloadCodecError.ZeroAttempt else Ok tt
  | JournalPayload.CheckpointStart _ source_last_sequence _ state_record_count _ =>
    if source_last_sequence =? 0 then Err PayloadCodecError.ZeroSourceSequence
    else if state_record_count =? 0 then Err PayloadCodecError.ZeroStateRecordCount else Ok tt
  | JournalPayload.CheckpointEnd _ state_record_count _ =>
    if state_record_count =? 0 then Err PayloadCodecError.ZeroStateRecordCount else Ok tt
  | JournalPayload.LayoutCommitted _ _ root_display root_identity total_length piece_length
      total_file_count chunk_count inline_files =>
    validate_layout_committed root_display root_identity total_length piece_length
      total_file_count chunk_count inline_files
  | JournalPayload.LayoutChunk _ _ chunk_index chunk_count files =>
    validate_layout_chunk chunk_index chunk_count files
  | JournalPayload.FinalizeIntent _ _ _ temp_relative_path final_relative_path _ file_identity =>
    if (temp_relative_path == final_relative_path) || (blen file_identity =? 0)
       || (MAX_IDENTITY_BYTES <? blen file_identity)
    then Err PayloadCodecError.InvalidFinalization else Ok tt
  | JournalPayload.PieceStateChunk _ _ chunk_index chunk_count first_piece_id covered_piece_count
      durable_bitmap evidence_runs =>
    validate_piece_state_chunk chunk_index chunk_count first_piece_id covered_piece_count
      durable_bitmap evidence_runs
  | JournalPayload.HttpStrongValidator _ validator_fingerprint total_length etag =>
    calculated ← calculate_http_strong_validator_fingerprint etag total_length;
    if calculated != validator_fingerprint
    then Err PayloadCodecError.InvalidHttpStrongValidator else Ok tt
  | JournalPayload.HttpRangeIdentity identity_fingerprint total_length representation_digest =>
    calculated ← calculate_http_range_identity_fingerprint representation_digest total_length;
    if calculated != identity_fingerprint
    then Err PayloadCodecError.InvalidHttpRangeIdentity else Ok tt
  | _ => Ok tt
  end.

Definition JournalPayload_encode (self : JournalPayload) : result PayloadCodecError bytes :=
  _ ← validate_payload self;
  output ← enc_payload self [];
  if MAX_RECORD_PAYLOAD <? blen output then Err PayloadCodecError.PayloadTooLarge else Ok output.
End payload.

(** ** The decoder *)

Definition Decoder (A : Type) : Type := bytes -> result PayloadCodecError (A * bytes).
#[global] Instance Decoder_ret : MRet Decoder := fun A a input => Ok (a, input).
#[global] Instance Decoder_bind : MBind Decoder := fun A B f d input =>
  match d input with Ok (a, rest) => f a rest | Err e => Err e end.

Definition lift {A} (r : result PayloadCodecError A) : Decoder A :=
  fun input => a ← r; Ok (a, input).
Definition fail {A} (error : PayloadCodecError) : Decoder A := fun _ => Err error.
Definition remaining : Decoder N := fun input => Ok (blen input, input).

Definition dec_take (length : N) : Decoder bytes := fun input =>
  if blen input <? length then Err PayloadCodecError.Truncated
  else Ok (upto length input, skip length input).

Definition dec_u8 : Decoder N := b ← dec_take 1; mret (le_val b).
Definition dec_u16 : Decoder N := b ← dec_take 2; mret (le_val b).
Definition dec_u32 : Decoder N := b ← dec_take 4; mret (le_val b).
Definition dec_u64 : Decoder N := b ← dec_take 8; mret (le_val b).

Definition dec_boolean : Decoder bool :=
  value ← dec_u8;
  if value =? 0 then mret false else if value =? 1 then mret true
  else fail (PayloadCodecError.InvalidBoolean value).

Definition dec_required_id : Decoder N :=
  value ← dec_u64; if value =? 0 then fail PayloadCodecError.ZeroId else mret value.

(** The presence byte before an optional field. *)
Definition dec_optional {A} (d : Decoder A) : Decoder (option A) :=
  value ← dec_u8;
  if value =? 0 then mret None else if value =? 1 then x ← d; mret (Some x)
  else fail (PayloadCodecError.InvalidPresence value).
Definition dec_optional_id : Decoder (option N) := dec_optional dec_required_id.
Definition dec_optional_u64 : Decoder (option N) := dec_optional dec_u64.

Definition dec_hash : Decoder JournalHash :=
  b ← dec_take 32; lift (ok_or (JournalHash_new b) PayloadCodecError.ZeroHash).
Definition dec_checkpoint_id : Decoder CheckpointId :=
  b ← dec_take 16; lift (ok_or (CheckpointId_new b) PayloadCodecError.ZeroCheckpointId).
Definition dec_span : Decoder PersistedSpan :=
  offset ← dec_u64; len ← dec_u64; lift (PersistedSpan_new offset len).

Definition dec_bytes_with_error (maximum : N) (too_long : PayloadCodecError) : Decoder bytes :=
  length ← dec_u32; if maximum <? length then fail too_long else dec_take length.
Definition dec_bytes (maximum : N) : Decoder bytes :=
  dec_bytes_with_error maximum PayloadCodecError.FieldTooLong.
Definition dec_utf8 (b : bytes) : Decoder str :=
  lift (ok_or (from_utf8 b) PayloadCodecError.InvalidUtf8).

Definition dec_digest : Decoder JournalDigest :=
  algorithm ← dec_bytes_with_error MAX_DIGEST_ALGORITHM_BYTES PayloadCodecError.InvalidDigestAlgorithm;
  algorithm ← dec_utf8 algorithm;
  algorithm ← lift (digest_algorithm_try_from algorithm);
  value ← dec_bytes_with_error MAX_DIGEST_VALUE_BYTES PayloadCodecError.InvalidDigestLength;
  lift (JournalDigest_new algorithm value).
Definition dec_optional_digest : Decoder (option JournalDigest) := dec_optional dec_digest.

Definition dec_error_kind : Decoder ErrorKind :=
  value ← dec_u8; lift (ok_or (ErrorKind_try_from value) (PayloadCodecError.InvalidErrorKind value)).
Definition dec_tag {A} `{JournalTag A} : Decoder A :=
  value ← dec_u8; lift (map_err PayloadCodecError.InvalidTag (tag_try_from value)).

(** [for _ in 0..count]. *)
Fixpoint dec_repeat {A} (count : nat) (d : Decoder A) : Decoder (list A) :=
  match count with
  | O => mret []
  | S count => x ← d; l ← dec_repeat count d; mret (x :: l)
  end.

(** A count whose entries take at least [minimum] bytes each. *)
Definition dec_room (count minimum : N) : Decoder unit :=
  left ← remaining; if left <? count * minimum then fail PayloadCodecError.Truncated else mret tt.

(** The loop of [option_map]; [start] is what remained where the map began. *)
Fixpoint dec_options (count : nat) (start : N) (previous : option str) (entries : list (str * str))
    : Decoder (list (str * str)) :=
  match count with
  | O => mret entries
  | S count =>
    key ← dec_bytes_with_error MAX_OPTION_KEY_BYTES PayloadCodecError.OptionKeyTooLong;
    key ← dec_utf8 key;
    _ ← lift (validate_option_key key);
    if default false ((fun value => negb (bool_decide (str_lt value key))) <$> previous)
    then fail (if previous == Some key then PayloadCodecError.DuplicateOptionKey
               else PayloadCodecError.NonCanonicalOptionOrder)
    else
      value ← dec_bytes_with_error MAX_OPTION_VALUE_BYTES PayloadCodecError.OptionValueTooLong;
      value ← dec_utf8 value;
      left ← remaining;
      if MAX_OPTION_MAP_BYTES <? start - left then fail PayloadCodecError.OptionMapTooLarge
      else dec_options count start (Some key) (entries ++ [(key, value)])
  end.
Definition dec_option_map : Decoder SanitizedOptionMap :=
  start ← remaining;
  count ← dec_u32;
  if MAX_OPTION_MAP_ENTRIES <? count then fail PayloadCodecError.TooManyOptions
  else
    _ ← dec_room count 8;
    entries ← dec_options (N.to_nat count) start None [];
    lift (SanitizedOptionMap_new entries).

Definition dec_platform_path : Decoder PlatformPath :=
  value ← dec_u8;
  platform ← (if value =? 1 then mret PathPlatform.Unix
              else if value =? 2 then mret PathPlatform.Windows
              else fail (PayloadCodecError.InvalidPlatformTag value));
  b ← dec_bytes_with_error MAX_PLATFORM_PATH_BYTES PayloadCodecError.InvalidPlatformPath;
  lift (map_err (fun _ => PayloadCodecError.InvalidPlatformPath)
          (PlatformPath_from_native_bytes platform b)).

Definition dec_file_id : Decoder FileId :=
  value ← dec_u64;
  if U32_MAX <? value then fail PayloadCodecError.InvalidFileId else mret value.

Definition dec_evidence_run : Decoder DurableEvidenceRun :=
  first_piece_delta ← dec_u32;
  piece_count ← dec_u32;
  validator_set_fingerprint ← dec_hash;
  algorithm ← dec_bytes_with_error MAX_DIGEST_ALGORITHM_BYTES PayloadCodecError.InvalidDigestAlgorithm;
  digest_algorithm ←
    (if blen algorithm =? 0 then mret None
     else algorithm ← dec_utf8 algorithm; algorithm ← lift (digest_algorithm_try_from algorithm);
          mret (Some algorithm));
  encoded_digest_value_len ← dec_u16;
  digest_values ← dec_bytes_with_error MAX_RECORD_PAYLOAD PayloadCodecError.InvalidEvidenceRun;
  run ← lift (DurableEvidenceRun_new first_piece_delta piece_count validator_set_fingerprint
                digest_algorithm digest_values);
  if negb (er_digest_value_len run =? encoded_digest_value_len)
  then fail PayloadCodecError.InvalidEvidenceRun else mret run.
Definition dec_evidence_runs (count : N) : Decoder (list DurableEvidenceRun) :=
  if MAX_PIECE_STATE_COVERED_PIECES <? count then fail PayloadCodecError.TooManyEvidenceRuns
  else _ ← dec_room count 50; dec_repeat (N.to_nat count) dec_evidence_run.

Definition dec_decision : Decoder HostKeyDecision :=
  value ← dec_u8;
  if value =? 0 then mret HostKeyDecision.Pending
  else if value =? 1 then mret HostKeyDecision.Approved
  else if value =? 2 then mret HostKeyDecision.Rejected
  else fail PayloadCodecError.InvalidHostKeyState.

Section decoder.
Context `{Unicode, Digests}.

Definition dec_relative_path : Decoder JournalRelativePath :=
  b ← dec_bytes_with_error MAX_SAFE_RELATIVE_BYTES PayloadCodecError.RelativePathTooLong;
  value ← dec_utf8 b;
  lift (JournalRelativePath_new value).

Definition dec_file_entry : Decoder JournalFileLayoutEntry :=
  file_id ← dec_file_id;
  global_start ← dec_u64;
  global_end ← dec_u64;
  length ← dec_u64;
  selected ← dec_boolean;
  safe_relative_path ← dec_relative_path;
  file_identity ← dec_bytes_with_error MAX_IDENTITY_BYTES PayloadCodecError.InvalidFileIdentity;
  lift (JournalFileLayoutEntry_new file_id global_start global_end length selected
          safe_relative_path file_identity).
Definition dec_file_entries (count : N) : Decoder (list JournalFileLayoutEntry) :=
  if MAX_LAYOUT_ENTRIES <? count then fail PayloadCodecError.TooManyLayoutEntries
  else _ ← dec_room count 42; dec_repeat (N.to_nat count) dec_file_entry.

(** The digest of a presented key as ariax-core takes it. *)
Definition key_digest (key : list N) : HostKeyFingerprint := byte_val <$> sha256 (byte_of <$> key).

Definition dec_host_key_state : Decoder JournalHostKeyState :=
  decision ← dec_decision;
  id ← dec_take 16;
  canonical_host ← dec_bytes MAX_HOST_KEY_CANONICAL_HOST_BYTES;
  canonical_host ← dec_utf8 canonical_host;
  port ← dec_u16;
  algorithm ← dec_bytes MAX_HOST_KEY_ALGORITHM_BYTES;
  algorithm ← dec_utf8 algorithm;
  fingerprint_sha256 ← dec_take 32;
  public_key ← dec_bytes MAX_PRESENTED_HOST_KEY_BYTES;
  challenge ← lift (map_err (fun _ => PayloadCodecError.InvalidHostKeyState)
    (PresentedHostKeyChallenge_new key_digest {|
       hk_id := byte_val <$> id;
       hk_canonical_host := String.string_of_list_byte canonical_host;
       hk_port := port;
       hk_algorithm := String.string_of_list_byte algorithm;
       hk_fingerprint_sha256 := byte_val <$> fingerprint_sha256;
     |} (byte_val <$> public_key)));
  created_ms ← dec_u64;
  mret {| hs_challenge := challenge; hs_decision := decision; hs_created_ms := created_ms |}.

Definition dec_protocol_validator : Decoder ProtocolValidator :=
  protocol ← dec_u8;
  source ← dec_hash;
  total_length ← dec_u64;
  modified_unix_seconds ← dec_optional_u64;
  host_key ← dec_optional dec_hash;
  mret {| pv_protocol := protocol; pv_source := source; pv_total_length := total_length;
          pv_modified_unix_seconds := modified_unix_seconds; pv_host_key := host_key |}.

Definition dec_whole_file_verified : Decoder JournalPayload :=
  fingerprint ← dec_hash;
  count ← dec_u8;
  if 2 <? count then fail PayloadCodecError.InvalidVerificationManifest
  else
    digests ← dec_repeat (N.to_nat count) dec_digest;
    mret (JournalPayload.WholeFileVerified fingerprint digests).

Definition dec_metadata_complete : Decoder JournalPayload :=
  b ← dec_bytes (64 * 1024);
  expansion ← lift (ok_or (from_utf8 b ≫= MetadataExpansion_parse)
                      PayloadCodecError.InvalidVerificationManifest);
  completed_at_unix_ms ← dec_u64;
  mret (JournalPayload.MetadataComplete expansion completed_at_unix_ms).

(** The [match] of [decode]. *)
Definition dec_payload (type : RecordType) : Decoder JournalPayload :=
  match type with
  | RecordType.TaskCreated => d ← dec_tag; v ← dec_u16; mret (JournalPayload.TaskCreated d v)
  | RecordType.OptionsSnapshot =>
    scope ← dec_tag; patch ← dec_optional_id; hash ← dec_hash; options ← dec_option_map;
    mret (JournalPayload.OptionsSnapshot scope patch hash options)
  | RecordType.LayoutCommitted =>
    layout ← dec_hash; binding ← dec_hash; root ← dec_platform_path;
    identity ← dec_bytes MAX_IDENTITY_BYTES; total ← dec_optional_u64; piece ← dec_u64;
    total_files ← dec_u32; chunks ← dec_u32; count ← dec_u32; files ← dec_file_entries count;
    mret (JournalPayload.LayoutCommitted layout binding root identity total piece total_files chunks
            files)
  | RecordType.GenerationStarted =>
    previous ← dec_u64; reason ← dec_tag; hash ← dec_hash; patch ← dec_optional_id;
    mret (JournalPayload.GenerationStarted previous reason hash patch)
  | RecordType.LeaseStarted =>
    attempt ← dec_required_id; lease ← dec_required_id; span ← dec_span; validator ← dec_hash;
    mret (JournalPayload.LeaseStarted attempt lease span validator)
  | RecordType.PieceStarted =>
    lease ← dec_required_id; piece ← dec_u64; span ← dec_span;
    mret (JournalPayload.PieceStarted lease piece span)
  | RecordType.PieceWritten =>
    lease ← dec_required_id; piece ← dec_u64; span ← dec_span;
    mret (JournalPayload.PieceWritten lease piece span)
  | RecordType.LeaseCommitted =>
    lease ← dec_required_id; span ← dec_span; validator ← dec_hash; digest ← dec_optional_digest;
    mret (JournalPayload.LeaseCommitted lease span validator digest)
  | RecordType.LeaseAborted =>
    lease ← dec_required_id; reason ← dec_tag; mret (JournalPayload.LeaseAborted lease reason)
  | RecordType.PieceVerified =>
    piece ← dec_u64; span ← dec_span; contributors ← dec_hash; digest ← dec_digest;
    mret (JournalPayload.PieceVerified piece span contributors digest)
  | RecordType.PieceFailed =>
    lease ← dec_optional_id; piece ← dec_u64; span ← dec_span; error ← dec_error_kind;
    attempt ← dec_u32; mret (JournalPayload.PieceFailed lease piece span error attempt)
  | RecordType.PieceDurable =>
    piece ← dec_u64; span ← dec_span; contributors ← dec_hash; validators ← dec_hash;
    digest ← dec_optional_digest; barrier ← dec_tag;
    mret (JournalPayload.PieceDurable piece span contributors validators digest barrier)
  | RecordType.RetryState =>
    scope ← dec_tag; id ← dec_required_id; attempt ← dec_u32; elapsed ← dec_u64;
    scheduled ← dec_u64; delay ← dec_u64; error ← dec_error_kind; reason ← dec_tag;
    mret (JournalPayload.RetryState scope id attempt elapsed scheduled delay error reason)
  | RecordType.TaskPaused => reason ← dec_tag; mret (JournalPayload.TaskPaused reason)
  | RecordType.TaskComplete =>
    layout ← dec_hash; length ← dec_u64; digest ← dec_optional_digest; completed ← dec_u64;
    mret (JournalPayload.TaskComplete layout length digest completed)
  | RecordType.TaskError =>
    error ← dec_error_kind; retriable ← dec_boolean; diagnostic ← dec_u64;
    mret (JournalPayload.TaskError error retriable diagnostic)
  | RecordType.TaskRemoved => reason ← dec_tag; mret (JournalPayload.TaskRemoved reason)
  | RecordType.CleanShutdown =>
    sequence ← dec_u64; at_ ← dec_u64; mret (JournalPayload.CleanShutdown sequence at_)
  | RecordType.CheckpointStart =>
    id ← dec_checkpoint_id; sequence ← dec_u64; hash ← dec_hash; count ← dec_u32;
    created ← dec_u64; mret (JournalPayload.CheckpointStart id sequence hash count created)
  | RecordType.CheckpointEnd =>
    id ← dec_checkpoint_id; count ← dec_u32; hash ← dec_hash;
    mret (JournalPayload.CheckpointEnd id count hash)
  | RecordType.LayoutChunk =>
    layout ← dec_hash; binding ← dec_hash; index ← dec_u32; chunks ← dec_u32; count ← dec_u32;
    files ← dec_file_entries count;
    mret (JournalPayload.LayoutChunk layout binding index chunks files)
  | RecordType.FinalizeIntent =>
    layout ← dec_hash; binding ← dec_hash; file ← dec_file_id; temp ← dec_relative_path;
    final ← dec_relative_path; length ← dec_u64; identity ← dec_bytes MAX_IDENTITY_BYTES;
    mret (JournalPayload.FinalizeIntent layout binding file temp final length identity)
  | RecordType.FinalizeDone =>
    layout ← dec_hash; binding ← dec_hash; file ← dec_file_id; final ← dec_relative_path;
    mret (JournalPayload.FinalizeDone layout binding file final)
  | RecordType.PieceStateChunk =>
    layout ← dec_hash; binding ← dec_hash; index ← dec_u32; chunks ← dec_u32; first ← dec_u64;
    covered ← dec_u32; bitmap ← dec_bytes MAX_PIECE_STATE_BITMAP_BYTES; count ← dec_u32;
    runs ← dec_evidence_runs count;
    mret (JournalPayload.PieceStateChunk layout binding index chunks first covered bitmap runs)
  | RecordType.HttpStrongValidator =>
    resource ← dec_hash; validator ← dec_hash; total ← dec_u64;
    etag ← dec_bytes MAX_HTTP_STRONG_ETAG_BYTES;
    mret (JournalPayload.HttpStrongValidator resource validator total etag)
  | RecordType.HttpRangeIdentity =>
    identity ← dec_hash; total ← dec_u64; digest ← dec_digest;
    mret (JournalPayload.HttpRangeIdentity identity total digest)
  | RecordType.VerificationManifest =>
    fingerprint ← dec_hash; total ← dec_u32; chunks ← dec_u32;
    part ← dec_bytes VERIFICATION_MANIFEST_PART_BYTES;
    mret (JournalPayload.VerificationManifest fingerprint total chunks part)
  | RecordType.VerificationManifestChunk =>
    fingerprint ← dec_hash; index ← dec_u32; chunks ← dec_u32;
    part ← dec_bytes VERIFICATION_MANIFEST_PART_BYTES;
    mret (JournalPayload.VerificationManifestChunk fingerprint index chunks part)
  | RecordType.ProtocolValidator =>
    validator ← dec_protocol_validator; mret (JournalPayload.ProtocolValidator validator)
  | RecordType.MetadataComplete => dec_metadata_complete
  | RecordType.HostKeyState =>
    state ← dec_host_key_state; mret (JournalPayload.HostKeyState state)
  | RecordType.WholeFileVerified => dec_whole_file_verified
  end.

Definition JournalPayload_decode (type : RecordType) (input : bytes)
    : result PayloadCodecError JournalPayload :=
  if MAX_RECORD_PAYLOAD <? blen input then Err PayloadCodecError.PayloadTooLarge
  else
    '(payload, rest) ← dec_payload type input;
    if negb (blen rest =? 0) then Err PayloadCodecError.TrailingBytes
    else
      _ ← validate_payload payload;
      Ok payload.

Definition decode_payload (self : JournalRecord) : result PayloadCodecError JournalPayload :=
  JournalPayload_decode (jr_record_type self) (jr_payload self).

(** [append_to]. *)
Inductive AppendPayloadError : Set :=
| Codec (error : PayloadCodecError)
| Journal (error : JournalEncodeError).
Definition append_to (self : JournalPayload) (encoder : SegmentEncoder) (generation : Generation)
    : result AppendPayloadError (SegmentEncoder * N) :=
  payload ← map_err Codec (JournalPayload_encode self);
  map_err Journal (append encoder (record_type self) generation payload).
End decoder.
