(* ===== verification/PayloadCodec.v ===== *)
(** * The payload codec is exact

    Each field decoder reads exactly the encodings of the values of its Rust
    type ([Codec]); each encoder writes them ([writes]).  Together they give the
    round trips of every payload. *)

From S2P Require Import Prelude Bytes Ids Errors Snapshot Utf8 Paths RootBinding Layout Journal JournalTags PayloadTypes MetadataExpansion Payload.
From Stdlib Require Import Init.Byte Strings.Byte.
From Stdlib Require String.
Open Scope list_scope.

(** ** Codecs *)

(** A decoder that accepts exactly the inputs that begin with the encoding of a
    valid value, and returns that value and what follows. *)
Class Codec {A} (d : Decoder A) := {
  codec_enc : A -> bytes;
  codec_valid : A -> Prop;
  codec_iff : forall input x rest,
    d input = Ok (x, rest) <-> codec_valid x /\ input = codec_enc x ++ rest;
}.
Arguments codec_enc {A} d {_} _.
Arguments codec_valid {A} d {_} _.

Lemma dec_bind_Ok {A B} (d : Decoder A) (k : A -> Decoder B) input y rest :
  (d ≫= k) input = Ok (y, rest) <-> exists x mid, d input = Ok (x, mid) /\ k x mid = Ok (y, rest).
Proof. unfold mbind, Decoder_bind. destruct (d input) as [[x mid]|e]; naive_solver. Qed.

Lemma dec_bind_inv {A B} (d : Decoder A) `{!Codec d} (k : A -> Decoder B) input y rest :
  (d ≫= k) input = Ok (y, rest) ->
  exists x mid, codec_valid d x /\ input = codec_enc d x ++ mid /\ k x mid = Ok (y, rest).
Proof. intros (x & mid & [Hv ->]%codec_iff & Hk)%dec_bind_Ok. eauto 10. Qed.

Lemma dec_run {A B} (d : Decoder A) `{!Codec d} (k : A -> Decoder B) x rest :
  codec_valid d x -> (d ≫= k) (codec_enc d x ++ rest) = k x rest.
Proof.
  intros Hv. unfold mbind, Decoder_bind.
  by rewrite (proj2 (codec_iff (codec_enc d x ++ rest) x rest) (conj Hv eq_refl)).
Qed.

Lemma lift_bind_Ok {A B} (r : result PayloadCodecError A) (k : A -> Decoder B) input y rest :
  (lift r ≫= k) input = Ok (y, rest) <-> exists x, r = Ok x /\ k x input = Ok (y, rest).
Proof. unfold mbind, Decoder_bind, lift. destruct r; simpl; naive_solver. Qed.

Lemma lift_Ok {A} (r : result PayloadCodecError A) input y rest :
  lift r input = Ok (y, rest) <-> r = Ok y /\ input = rest.
Proof. unfold lift. destruct r; simpl; naive_solver. Qed.

Lemma mret_Ok {A} (x : A) input y rest :
  (mret x : Decoder A) input = Ok (y, rest) <-> x = y /\ input = rest.
Proof. unfold mret, Decoder_ret. naive_solver. Qed.

Lemma lift_run {A B} (r : result PayloadCodecError A) (k : A -> Decoder B) x input :
  r = Ok x -> (lift r ≫= k) input = k x input.
Proof. by intros ->. Qed.

(** Reads the next field, which is at the head of the input. *)
Ltac read_field :=
  lazymatch goal with
  | |- (mbind ?k (lift ?r)) ?input = _ => refine (eq_trans (lift_run r k _ _ _) _)
  | |- (mbind ?k ?d) ?input = _ => refine (eq_trans (dec_run d k _ _ _) _)
  end; cbv beta.
Ltac split_field H :=
  lazymatch type of H with
  | (mbind ?k (lift ?r)) ?input = _ =>
      let x := fresh "x" in let Hr := fresh "Hr" in
      apply lift_bind_Ok in H as (x & Hr & H)
  | (mbind ?k ?d) ?input = _ =>
      let x := fresh "x" in let mid := fresh "mid" in let Hv := fresh "Hv" in
      let E := fresh "E" in let H' := fresh in
      destruct (dec_bind_inv d k _ _ _ H) as (x & mid & Hv & E & H'); clear H; rename H' into H;
      try subst input
  end; cbv beta in H.

(** ** Fixed-width fields *)

#[global] Instance take_codec n : Codec (dec_take n).
Proof.
  refine {| codec_enc := fun x : bytes => x; codec_valid := fun x : bytes => blen x = n |}.
  intros input x rest. unfold dec_take. destruct (N.ltb_spec (blen input) n) as [Hn|Hn].
  - split; [done|]. intros [<- ->]. rewrite blen_app in Hn. lia.
  - split; [intros [= <- <-]|intros [Hx ->]].
    + split; [len|]. by rewrite upto_skip.
    + by rewrite upto_app, skip_app.
Defined.

(** A little-endian integer of [w] bytes. *)
Definition le_codec (w : nat) : Codec (b ← dec_take (N.of_nat w); mret (le_val b)).
Proof.
  refine {| codec_enc := le_bytes w; codec_valid := fun n => n < 256 ^ N.of_nat w |}.
  intros input n rest. split.
  - intros H. split_field H. apply mret_Ok in H as [<- <-]. cbn [codec_valid codec_enc take_codec] in *.
    split; [|by rewrite le_bytes_le_val by (unfold blen in Hv; lia)].
    rewrite <- Hv. apply le_val_bound.
  - intros [Hn ->]. refine (eq_trans (dec_run (dec_take (N.of_nat w)) _ _ _ _) _);
      [by cbn; rewrite blen_le_bytes|]. cbv beta. by rewrite le_val_le_bytes.
Defined.

#[global] Instance u8_codec : Codec dec_u8 := le_codec 1.
#[global] Instance u16_codec : Codec dec_u16 := le_codec 2.
#[global] Instance u32_codec : Codec dec_u32 := le_codec 4.
#[global] Instance u64_codec : Codec dec_u64 := le_codec 8.

Lemma u32_valid n : n <= U32_MAX <-> codec_valid dec_u32 n.
Proof. cbn [codec_valid u32_codec le_codec]. change (256 ^ N.of_nat 4) with (U32_MAX + 1). lia. Qed.
Lemma u64_valid n : n <= U64_MAX <-> codec_valid dec_u64 n.
Proof. cbn [codec_valid u64_codec le_codec]. change (256 ^ N.of_nat 8) with (U64_MAX + 1). lia. Qed.
Lemma u16_valid n : n <= U16_MAX <-> codec_valid dec_u16 n.
Proof. cbn [codec_valid u16_codec le_codec]. change (256 ^ N.of_nat 2) with (U16_MAX + 1). lia. Qed.
Lemma u8_valid n : n < 256 <-> codec_valid dec_u8 n.
Proof. done. Qed.

(** ** Checked fields *)

(** A field whose raw value a constructor checks: [g] recovers it. *)
Definition checked_codec {A B} (d : Decoder A) `{!Codec d} (f : A -> result PayloadCodecError B)
    (g : B -> A) (P : B -> Prop)
    (Hf : forall x y, codec_valid d x -> f x = Ok y <-> x = g y /\ P y)
    : Codec (x ← d; lift (f x)).
Proof.
  refine {| codec_enc := fun y => codec_enc d (g y);
            codec_valid := fun y => codec_valid d (g y) /\ P y |}.
  intros input y rest. split.
  - intros H. split_field H. apply lift_Ok in H as [H <-]. apply Hf in H as [-> HP]; [|done]. done.
  - intros [[Hv HP] ->]. read_field; [done|]. apply lift_Ok. split; [|done]. by apply Hf.
Defined.

#[global] Instance hash_codec : Codec dec_hash.
Proof.
  refine (checked_codec (dec_take 32) _ (fun h => h) (fun h => all_zero h = false) _).
  intros x y _. rewrite ok_or_Ok. unfold JournalHash_new.
  destruct (all_zero x) eqn:E; (split; [intros [=]; by subst|intros [-> ?]; congruence]).
Defined.

#[global] Instance checkpoint_id_codec : Codec dec_checkpoint_id.
Proof.
  refine (checked_codec (dec_take 16) _ (fun h => h) (fun h => all_zero h = false) _).
  intros x y _. rewrite ok_or_Ok. unfold CheckpointId_new.
  destruct (all_zero x) eqn:E; (split; [intros [=]; by subst|intros [-> ?]; congruence]).
Defined.

#[global] Instance tag_codec {A} `{JournalTag A} : Codec (dec_tag (A := A)).
Proof.
  refine (checked_codec dec_u8 _ tag_number (fun _ => True) _).
  intros x y _. rewrite map_err_Ok, tag_try_from_Ok. naive_solver.
Defined.

#[global] Instance error_kind_codec : Codec dec_error_kind.
Proof.
  refine (checked_codec dec_u8 _ ErrorKind_number (fun _ => True) _).
  intros x y _. rewrite ok_or_Ok, ErrorKind_try_from_number. naive_solver.
Defined.

#[global] Instance required_id_codec : Codec dec_required_id.
Proof.
  refine {| codec_enc := u64_le; codec_valid := id_typed |}. intros input n rest. split.
  - intros H. unfold dec_required_id in H. split_field H. apply u64_valid in Hv.
    destruct (N.eqb_spec x 0); [done|]. apply mret_Ok in H as [<- <-]. split; [|done].
    split; [lia|done].
  - intros [[Hz Hn] ->]. unfold dec_required_id. read_field; [by apply u64_valid|].
    by rewrite (proj2 (N.eqb_neq _ _)) by lia.
Defined.

#[global] Instance file_id_codec : Codec dec_file_id.
Proof.
  refine {| codec_enc := u64_le; codec_valid := fun n => n <= U32_MAX |}. intros input n rest. split.
  - intros H. unfold dec_file_id in H. split_field H.
    destruct (N.ltb_spec U32_MAX x); [done|]. by apply mret_Ok in H as [<- <-].
  - intros [Hn ->]. unfold dec_file_id. read_field.
    + apply u64_valid. unfold U32_MAX, U64_MAX in *. lia.
    + by rewrite (proj2 (N.ltb_ge _ _)).
Defined.

#[global] Instance boolean_codec : Codec dec_boolean.
Proof.
  refine {| codec_enc := fun b : bool => le_bytes 1 (if b then 1 else 0); codec_valid := fun _ => True |}.
  intros input b rest. split.
  - intros H. unfold dec_boolean in H. split_field H.
    destruct (N.eqb_spec x 0) as [->|]; [by apply mret_Ok in H as [<- <-]|].
    destruct (N.eqb_spec x 1) as [->|]; [by apply mret_Ok in H as [<- <-]|done].
  - intros [_ ->]. unfold dec_boolean. read_field; [by destruct b|]. by destruct b.
Defined.

#[global] Instance optional_codec {A} (d : Decoder A) `{!Codec d} : Codec (dec_optional d).
Proof.
  refine {| codec_enc := fun o => match o with Some x => le_bytes 1 1 ++ codec_enc d x
                                              | None => le_bytes 1 0 end;
            codec_valid := fun o => match o with Some x => codec_valid d x | None => True end |}.
  intros input o rest. split.
  - intros H. unfold dec_optional in H. split_field H.
    destruct (N.eqb_spec x 0) as [->|]; [by apply mret_Ok in H as [<- <-]|].
    destruct (N.eqb_spec x 1) as [->|]; [|done]. split_field H. by apply mret_Ok in H as [<- <-].
  - intros [Hv ->]. unfold dec_optional. destruct o as [x|].
    + rewrite <- app_assoc. read_field; [done|]. cbn [N.eqb Pos.eqb]. by read_field.
    + by read_field.
Defined.
#[global] Instance optional_id_codec : Codec dec_optional_id := optional_codec dec_required_id.
#[global] Instance optional_u64_codec : Codec dec_optional_u64 := optional_codec dec_u64.

Definition span_typed (s : PersistedSpan) : Prop :=
  0 < sp_len s /\ sp_offset s + sp_len s <= U64_MAX.

Lemma PersistedSpan_new_Ok o l s :
  PersistedSpan_new o l = Ok s <-> s = mkPersistedSpan o l /\ span_typed s.
Proof.
  unfold PersistedSpan_new, span_typed. destruct (N.eqb_spec l 0) as [->|Hl].
  - split; [done|]. intros [-> [Hz _]]. cbn [sp_len] in Hz. lia.
  - rewrite bind_Ok. split.
    + intros (? & [_ ?]%ok_or_Ok%u64_checked_add_Some & [= <-]). cbn. split; [done|]. lia.
    + intros [-> [_ Ho]]. eexists. rewrite ok_or_Ok, u64_checked_add_Some. eauto.
Qed.

#[global] Instance span_codec : Codec dec_span.
Proof.
  refine {| codec_enc := fun s => u64_le (sp_offset s) ++ u64_le (sp_len s); codec_valid := span_typed |}.
  intros input s rest. split.
  - intros H. unfold dec_span in H. split_field H. split_field H.
    apply lift_Ok in H as [[-> Hs]%PersistedSpan_new_Ok <-]. split; [done|]. by rewrite <- app_assoc.
  - intros [Hs ->]. unfold dec_span. rewrite <- app_assoc. destruct s as [o l].
    pose proof Hs as [Hz Ho]. cbn [sp_offset sp_len] in *.
    read_field; [apply u64_valid; lia|]. read_field; [apply u64_valid; lia|].
    apply lift_Ok. split; [|done]. by apply PersistedSpan_new_Ok.
Defined.

(** ** Sized fields *)

#[global] Instance bytes_codec maximum e : Codec (dec_bytes_with_error maximum e).
Proof.
  refine {| codec_enc := sized; codec_valid := fun b => blen b <= N.min maximum U32_MAX |}.
  intros input b rest. split.
  - intros H. unfold dec_bytes_with_error in H. split_field H. apply u32_valid in Hv.
    destruct (N.ltb_spec maximum x); [done|]. apply (codec_iff (d := dec_take x)) in H as [Hb ->].
    cbn [codec_valid codec_enc take_codec] in *. subst x. split; [lia|].
    unfold sized. by rewrite <- app_assoc.
  - intros [Hb ->]. unfold dec_bytes_with_error, sized. rewrite <- app_assoc.
    read_field; [apply u32_valid; lia|]. rewrite (proj2 (N.ltb_ge _ _)) by lia.
    by apply (codec_iff (d := dec_take (blen b))).
Defined.
#[global] Instance plain_bytes_codec maximum : Codec (dec_bytes maximum) :=
  bytes_codec maximum PayloadCodecError.FieldTooLong.

Lemma dec_utf8_Ok b input s rest :
  dec_utf8 b input = Ok (s, rest) <-> s = b /\ is_utf8 b = true /\ input = rest.
Proof. unfold dec_utf8. rewrite lift_Ok, ok_or_Ok, from_utf8_Some. naive_solver. Qed.

Lemma digest_algorithm_Ok v a : digest_algorithm_try_from v = Ok a <-> v = digest_code a.
Proof.
  unfold digest_algorithm_try_from. split.
  - intros H. repeat case_bool_decide; simplify_eq; done.
  - intros ->. by destruct a.
Qed.

Lemma digest_code_ok a : is_utf8 (digest_code a) = true /\ blen (digest_code a) <= 32.
Proof. destruct a; split; vm_compute; congruence. Qed.

Definition digest_typed (d : JournalDigest) : Prop :=
  blen (jd_value d) = digest_value_len (jd_algorithm d).

Lemma JournalDigest_new_Ok a v d : JournalDigest_new a v = Ok d <-> d = mkJournalDigest a v /\ digest_typed d.
Proof.
  unfold JournalDigest_new, digest_typed. case_bool_decide; simpl; naive_solver.
Qed.

#[global] Instance digest_codec : Codec dec_digest.
Proof.
  refine {| codec_enc := fun d => sized (digest_code (jd_algorithm d)) ++ sized (jd_value d);
            codec_valid := digest_typed |}.
  intros input d rest. split.
  - intros H. unfold dec_digest in H. split_field H.
    apply dec_bind_Ok in H as (s & mid' & (-> & _ & ->)%dec_utf8_Ok & H). split_field H. split_field H.
    apply digest_algorithm_Ok in Hr as ->.
    apply lift_Ok in H as [[-> Hd]%JournalDigest_new_Ok <-]. split; [done|]. by rewrite <- app_assoc.
  - intros [Hd ->]. unfold dec_digest. rewrite <- app_assoc. destruct d as [a v].
    cbn [jd_algorithm jd_value] in *. destruct (digest_code_ok a) as [Hu Hl].
    read_field; [cbn; unfold MAX_DIGEST_ALGORITHM_BYTES, U32_MAX; lia|].
    apply dec_bind_Ok. exists (digest_code a). eexists. split; [by apply dec_utf8_Ok|].
    read_field; [by apply digest_algorithm_Ok|]. read_field.
    + cbn. unfold digest_typed in Hd. cbn in Hd. rewrite Hd. by destruct a; vm_compute.
    + apply lift_Ok. split; [|done]. by apply JournalDigest_new_Ok.
Defined.
#[global] Instance optional_digest_codec : Codec dec_optional_digest := optional_codec dec_digest.

#[global] Instance platform_path_codec : Codec dec_platform_path.
Proof.
  refine {| codec_enc := fun p => le_bytes 1 (PathPlatform_number (pp_platform p)) ++ sized (pp_bytes p);
            codec_valid := fun p => PlatformPath_from_native_bytes (pp_platform p) (pp_bytes p) = Ok p |}.
  assert (forall pl b p, PlatformPath_from_native_bytes pl b = Ok p ->
    p = mkPlatformPath pl b /\ blen b <= MAX_PLATFORM_PATH_BYTES) as Hnew.
  { intros pl b p. unfold PlatformPath_from_native_bytes. destruct (_ =? 0); [done|].
    destruct (N.ltb_spec MAX_PLATFORM_PATH_BYTES (blen b)); [done|]. cbv zeta.
    destruct (match pl with PathPlatform.Unix => _ | PathPlatform.Windows => _ end); [done|].
    by intros [= <-]. }
  intros input p rest. split.
  - intros H. unfold dec_platform_path in H. split_field H. apply dec_bind_Ok in H as (pl & mid' & Hpl & H).
    assert (x = PathPlatform_number pl /\ mid = mid') as [-> <-].
    { destruct (N.eqb_spec x 1) as [->|]; [by apply mret_Ok in Hpl as [<- <-]|].
      destruct (N.eqb_spec x 2) as [->|]; [by apply mret_Ok in Hpl as [<- <-]|done]. }
    split_field H. apply lift_Ok in H as [Hp%map_err_Ok <-].
    destruct (Hnew _ _ _ Hp) as [-> _]. split; [done|]. by rewrite <- app_assoc.
  - intros [Hp ->]. destruct (Hnew _ _ _ Hp) as [_ Hl]. destruct p as [pl b].
    cbn [pp_platform pp_bytes] in *. unfold dec_platform_path. rewrite <- app_assoc.
    read_field; [by destruct pl|]. apply dec_bind_Ok. exists pl. eexists. split; [by destruct pl|].
    read_field; [cbn; unfold MAX_PLATFORM_PATH_BYTES, U32_MAX in *; lia|].
    apply lift_Ok. split; [|done]. by apply map_err_Ok.
Defined.

(** ** Repetition *)

#[global] Instance repeat_codec {A} (d : Decoder A) `{!Codec d} n : Codec (dec_repeat n d).
Proof.
  refine {| codec_enc := fun l => concat (codec_enc d <$> l);
            codec_valid := fun l => length l = n /\ Forall (codec_valid d) l |}.
  induction n as [|n IH]; intros input l rest; cbn [dec_repeat].
  - rewrite mret_Ok. split; [by intros [<- ->]|]. intros [[Hl _] ->]. by destruct l.
  - split.
    + intros H. split_field H. apply dec_bind_Ok in H as (l' & mid' & [[Hl HF] ->]%IH & H).
      apply mret_Ok in H as [<- <-]. rewrite fmap_cons. cbn [concat length].
      rewrite <- app_assoc. auto.
    + intros [[Hl HF] ->]. destruct l as [|x l]; [done|]. apply Forall_cons in HF as [Hx HF].
      rewrite fmap_cons. cbn [concat]. rewrite <- app_assoc. read_field; [done|].
      apply dec_bind_Ok. exists l, rest. split; [|done]. apply IH. split; [|done].
      split; [by injection Hl|done].
Defined.

Lemma dec_room_Ok {B} count minimum (k : unit -> Decoder B) input y rest :
  (dec_room count minimum ≫= k) input = Ok (y, rest)
  <-> count * minimum <= blen input /\ k tt input = Ok (y, rest).
Proof.
  unfold dec_room, mbind, Decoder_bind, remaining. destruct (N.ltb_spec (blen input) (count * minimum)).
  - split; [done|]. intros [? _]. lia.
  - split; [by split|by intros [_ ?]].
Qed.

Lemma remaining_bind {B} (k : N -> Decoder B) input : (remaining ≫= k) input = k (blen input) input.
Proof. done. Qed.

Lemma concat_min_len {A} (f : A -> bytes) l k : Forall (fun x => k <= blen (f x)) l -> blen l * k <= blen (concat (f <$> l)).
Proof.
  induction 1 as [|x l Hx HF IH]; [apply N.le_0_l|]. rewrite fmap_cons. cbn [concat].
  rewrite blen_app, blen_cons. lia.
Qed.

(** A counted list: the count bounds the list and leaves room for it. *)
Lemma counted_iff {A} (d : Decoder A) `{!Codec d} count maximum minimum e input l rest :
  (forall x, codec_valid d x -> minimum <= blen (codec_enc d x)) ->
  (if maximum <? count then fail e else _ ← dec_room count minimum; dec_repeat (N.to_nat count) d) input
    = Ok (l, rest)
  <-> (blen l = count /\ count <= maximum /\ Forall (codec_valid d) l)
      /\ input = concat (codec_enc d <$> l) ++ rest.
Proof.
  intros Hmin. destruct (N.ltb_spec maximum count) as [Hm|Hm].
  { split; [done|]. intros [(_ & ? & _) _]. lia. }
  rewrite dec_room_Ok. rewrite (codec_iff (d := dec_repeat (N.to_nat count) d)).
  cbn [codec_valid codec_enc repeat_codec]. unfold blen. split.
  - intros [_ [[Hl HF] ->]]. split_and!; [lia|lia|done|done].
  - intros [(Hl & _ & HF) ->]. split; [|split_and!; [lia|done|done]].
    rewrite <- Hl. etrans; [apply (concat_min_len (codec_enc d) l minimum)|rewrite length_app; unfold blen; lia].
    eapply Forall_impl; [exact HF|]. intros x. apply Hmin.
Qed.

(** ** Evidence runs *)

Record run_typed (r : DurableEvidenceRun) : Prop := {
  rt_delta : er_first_piece_delta r <= U32_MAX;
  rt_count : er_piece_count r <= U32_MAX;
  rt_hash : hash_typed (er_validator_set_fingerprint r);
  rt_new : DurableEvidenceRun_new (er_first_piece_delta r) (er_piece_count r)
             (er_validator_set_fingerprint r) (er_digest_algorithm r) (er_digest_values r) = Ok r;
}.

Lemma DurableEvidenceRun_new_Ok delta count h a v r :
  DurableEvidenceRun_new delta count h a v = Ok r ->
  r = mkDurableEvidenceRun delta count h a (default 0 (digest_value_len <$> a)) v /\ 0 < count
  /\ blen v = count * default 0 (digest_value_len <$> a).
Proof.
  unfold DurableEvidenceRun_new. destruct (N.eqb_spec count 0); [done|].
  intros (vl & Hn & [= <-])%bind_Ok. destruct a as [a|]; cbn [fmap option_fmap option_map default] in *.
  - case_bool_decide as Hl; [|done]. injection Hn as <-. split_and!; [done|lia|done].
  - destruct (N.eqb_spec (blen v) 0) as [Hl|]; [|done]. injection Hn as <-.
    split_and!; [done|lia|]. rewrite Hl. lia.
Qed.

Definition run_bytes (r : DurableEvidenceRun) : bytes :=
  u32_le (er_first_piece_delta r) ++ u32_le (er_piece_count r) ++ er_validator_set_fingerprint r
  ++ sized (match er_digest_algorithm r with Some a => digest_code a | None => [] end)
  ++ u16_le (er_digest_value_len r) ++ sized (er_digest_values r).

Lemma dec_algorithm_Ok b input a rest :
  (if blen b =? 0 then mret None
   else s ← dec_utf8 b; a ← lift (digest_algorithm_try_from s); mret (Some a)) input = Ok (a, rest)
  <-> b = match a with Some a => digest_code a | None => [] end /\ input = rest.
Proof.
  destruct (N.eqb_spec (blen b) 0) as [Hb|Hb]; rewrite blen_0 in Hb.
  - rewrite mret_Ok. split; [intros [<- ->]; done|]. intros [-> ->]. by destruct a as [[]|].
  - split.
    + intros (s & m & (-> & _ & ->)%dec_utf8_Ok & H)%dec_bind_Ok. split_field H.
      apply digest_algorithm_Ok in Hr as ->. by apply mret_Ok in H as [<- <-].
    + intros [-> ->]. destruct a as [a|]; [|done]. apply dec_bind_Ok.
      exists (digest_code a), rest. split; [apply dec_utf8_Ok; by destruct (digest_code_ok a)|].
      read_field; [by apply digest_algorithm_Ok|done].
Qed.

#[global] Instance evidence_run_codec : Codec dec_evidence_run.
Proof.
  refine {| codec_enc := run_bytes;
            codec_valid := fun r => run_typed r /\ blen (er_digest_values r) <= MAX_RECORD_PAYLOAD |}.
  intros input r rest. split.
  - intros H. unfold dec_evidence_run in H. do 4 split_field H.
    apply dec_bind_Ok in H as (a & mid' & (-> & ->)%dec_algorithm_Ok & H).
    do 3 split_field H. destruct (N.eqb_spec (er_digest_value_len x4) x2) as [<-|]; [|done].
    apply mret_Ok in H as [<- <-]. apply u32_valid in Hv, Hv0.
    pose proof Hr as (-> & _ & _)%DurableEvidenceRun_new_Ok.
    split; [split; [by split|cbn in Hv4; cbn; lia]|]. unfold run_bytes. cbn [er_first_piece_delta
      er_piece_count er_validator_set_fingerprint er_digest_algorithm er_digest_value_len
      er_digest_values]. by rewrite <- !app_assoc.
  - intros [[[H1 H2 H3 H4] H5] ->]. pose proof H4 as (Er & Hc & Hl)%DurableEvidenceRun_new_Ok.
    unfold dec_evidence_run, run_bytes. rewrite <- !app_assoc.
    assert (blen (match er_digest_algorithm r with Some a => digest_code a | None => [] end) <= 32)
      as Ha by (destruct (er_digest_algorithm r) as [a|]; [apply digest_code_ok|vm_compute; congruence]).
    read_field; [by apply u32_valid|]. read_field; [by apply u32_valid|]. read_field; [done|].
    read_field; [cbn; unfold MAX_DIGEST_ALGORITHM_BYTES, U32_MAX; lia|].
    apply dec_bind_Ok. exists (er_digest_algorithm r). eexists. split; [by apply dec_algorithm_Ok|].
    read_field; [rewrite Er; destruct (er_digest_algorithm r) as [[]|]; vm_compute; congruence|].
    read_field; [cbn; unfold MAX_RECORD_PAYLOAD, U32_MAX in *; lia|].
    read_field; [exact H4|]. by rewrite N.eqb_refl.
Defined.

Lemma run_min r : codec_valid dec_evidence_run r -> 50 <= blen (codec_enc dec_evidence_run r).
Proof.
  intros [[_ _ [Hh _] _] _]. cbn [codec_enc evidence_run_codec]. unfold run_bytes, sized. len.
Qed.

#[global] Instance evidence_runs_codec count : Codec (dec_evidence_runs count).
Proof.
  refine {| codec_enc := fun l => concat (run_bytes <$> l);
            codec_valid := fun l => blen l = count /\ count <= MAX_PIECE_STATE_COVERED_PIECES
              /\ Forall (codec_valid dec_evidence_run) l |}.
  intros input l rest.
  refine (counted_iff dec_evidence_run count MAX_PIECE_STATE_COVERED_PIECES 50 _ input l rest _).
  apply run_min.
Defined.

(** ** Layout entries *)

Section entries.
Context `{Unicode}.

Definition path_typed (p : JournalRelativePath) : Prop :=
  JournalRelativePath_new p = Ok p /\ is_utf8 p = true.

Lemma JournalRelativePath_new_Ok v p :
  JournalRelativePath_new v = Ok p -> p = v /\ 0 < blen v <= MAX_SAFE_RELATIVE_BYTES.
Proof.
  unfold JournalRelativePath_new. destruct (N.ltb_spec MAX_SAFE_RELATIVE_BYTES (blen v)); [done|].
  intros (s & Hs%map_err_Ok & E)%bind_Ok. case_bool_decide; [|done]. injection E as <-.
  split; [done|]. split; [|done]. destruct v; [|rewrite blen_cons; lia]. exfalso.
  unfold from_user_path in Hs. cbn in Hs. done.
Qed.

#[global] Instance relative_path_codec : Codec dec_relative_path.
Proof.
  refine {| codec_enc := sized; codec_valid := path_typed |}. intros input p rest. split.
  - intros H1. unfold dec_relative_path in H1. split_field H1.
    apply dec_bind_Ok in H1 as (s & mid' & (-> & Hu & ->)%dec_utf8_Ok & H1).
    apply lift_Ok in H1 as [H1 <-]. by pose proof H1 as [-> _]%JournalRelativePath_new_Ok.
  - intros [[Hp Hu] ->]. pose proof Hp as [_ Hl]%JournalRelativePath_new_Ok. unfold dec_relative_path.
    read_field; [cbn; unfold MAX_SAFE_RELATIVE_BYTES, U32_MAX in *; lia|].
    apply dec_bind_Ok. exists p, rest. split; [by apply dec_utf8_Ok|]. by apply lift_Ok.
Defined.

Record entry_typed (e : JournalFileLayoutEntry) : Prop := {
  en_id : le_file_id e <= U32_MAX;
  en_start : le_global_start e <= U64_MAX;
  en_end : le_global_end e <= U64_MAX;
  en_length : le_length e <= U64_MAX;
  en_path : path_typed (le_safe_relative_path e);
  en_new : JournalFileLayoutEntry_new (le_file_id e) (le_global_start e) (le_global_end e) (le_length e)
             (le_selected e) (le_safe_relative_path e) (le_file_identity e) = Ok e;
}.

Lemma JournalFileLayoutEntry_new_Ok id s e l sel p i r :
  JournalFileLayoutEntry_new id s e l sel p i = Ok r ->
  r = mkJournalFileLayoutEntry id s e l sel p i /\ blen i <= MAX_IDENTITY_BYTES.
Proof.
  unfold JournalFileLayoutEntry_new. case_bool_decide; [|done]. cbn [negb].
  destruct (N.ltb_spec MAX_IDENTITY_BYTES (blen i)); [done|]. cbn [orb].
  destruct (negb _); [done|]. by intros [= <-].
Qed.

Definition entry_bytes (e : JournalFileLayoutEntry) : bytes :=
  u64_le (le_file_id e) ++ u64_le (le_global_start e) ++ u64_le (le_global_end e)
  ++ u64_le (le_length e) ++ le_bytes 1 (if le_selected e then 1 else 0)
  ++ sized (le_safe_relative_path e) ++ sized (le_file_identity e).

#[global] Instance file_entry_codec : Codec dec_file_entry.
Proof.
  refine {| codec_enc := entry_bytes; codec_valid := entry_typed |}. intros input e rest. split.
  - intros H1. unfold dec_file_entry in H1. do 7 split_field H1. apply lift_Ok in H1 as [H1 <-].
    pose proof H1 as [-> _]%JournalFileLayoutEntry_new_Ok. apply u64_valid in Hv0, Hv1, Hv2.
    split; [by split|]. unfold entry_bytes. cbn [le_file_id le_global_start le_global_end le_length
      le_selected le_safe_relative_path le_file_identity]. by rewrite <- !app_assoc.
  - intros [[E1 E2 E3 E4 E5 E6] ->]. pose proof E6 as [_ Hl]%JournalFileLayoutEntry_new_Ok.
    unfold dec_file_entry, entry_bytes. rewrite <- !app_assoc.
    read_field; [done|]. do 3 (read_field; [by apply u64_valid|]). read_field; [done|].
    read_field; [done|]. read_field; [cbn; unfold MAX_IDENTITY_BYTES, U32_MAX in *; lia|].
    by apply lift_Ok.
Defined.

Lemma entry_min e : codec_valid dec_file_entry e -> 42 <= blen (codec_enc dec_file_entry e).
Proof.
  intros [_ _ _ _ [Hp _] _]. apply JournalRelativePath_new_Ok in Hp as [_ Hl].
  cbn [codec_enc file_entry_codec]. unfold entry_bytes, sized. len.
Qed.

#[global] Instance file_entries_codec count : Codec (dec_file_entries count).
Proof.
  refine {| codec_enc := fun l => concat (entry_bytes <$> l);
            codec_valid := fun l => blen l = count /\ count <= MAX_LAYOUT_ENTRIES
              /\ Forall entry_typed l |}.
  intros input l rest. refine (counted_iff dec_file_entry count MAX_LAYOUT_ENTRIES 42 _ input l rest _).
  apply entry_min.
Defined.
End entries.
