(* ===== verification/OptionMaps.v ===== *)
(** * Option maps

    [SanitizedOptionMap::new] builds the sorted map of its entries, and the
    option-map field of a payload decodes exactly to it. *)

From S2P Require Import Prelude Bytes Utf8 Journal PayloadTypes MetadataExpansion Payload PayloadCodec RootBinding.
From Stdlib Require Import Init.Byte Strings.Byte.
Open Scope list_scope.

Definition key_lt (a b : str * str) : Prop := str_lt a.1 b.1.
#[global] Instance key_lt_trans : Transitive key_lt.
Proof. intros a b c. unfold key_lt. by transitivity b.1. Qed.
#[global] Instance key_lt_irrefl : Irreflexive key_lt.
Proof. intros a. unfold complement, key_lt. apply (irreflexivity str_lt). Qed.

(** Encoded length of the entries. *)
Definition entry_len (e : str * str) : N := 8 + blen e.1 + blen e.2.
Definition entries_len (l : list (str * str)) : N := foldr (fun e n => entry_len e + n) 0 l.

Lemma entries_len_app l l' : entries_len (l ++ l') = entries_len l + entries_len l'.
Proof. unfold entries_len. induction l as [|e l IH]; cbn [foldr app]; [done|]. rewrite IH. lia. Qed.

Lemma entries_len_perm l l' : l ≡ₚ l' -> entries_len l = entries_len l'.
Proof. induction 1; cbn [entries_len foldr]; unfold entries_len in *; lia. Qed.

Definition entry_ok (e : str * str) : Prop :=
  validate_option_key e.1 = Ok tt /\ blen e.2 <= MAX_OPTION_VALUE_BYTES.
Definition entry_utf8 (e : str * str) : Prop := is_utf8 e.1 = true /\ is_utf8 e.2 = true.

(** The invariant of the type. *)
Record option_map_typed (m : SanitizedOptionMap) : Prop := {
  ot_sorted : StronglySorted key_lt (om_entries m);
  ot_ok : Forall entry_ok (om_entries m);
  ot_utf8 : Forall entry_utf8 (om_entries m);
  ot_count : blen (om_entries m) <= MAX_OPTION_MAP_ENTRIES;
  ot_bytes : om_canonical_bytes m = 4 + entries_len (om_entries m);
  ot_size : om_canonical_bytes m <= MAX_OPTION_MAP_BYTES;
}.

(** ** Building a map *)

Lemma btree_insert_Some k v l l' :
  StronglySorted key_lt l -> btree_insert k v l = Some l' ->
  StronglySorted key_lt l' /\ l' ≡ₚ (k, v) :: l.
Proof.
  intros Hs. revert l'. induction Hs as [|[k' v'] l Hs IH HF]; intros l'; cbn [btree_insert].
  { intros [= <-]. split; [by repeat constructor|done]. }
  destruct (str_compare k k') eqn:E; [done|..].
  - intros [= <-]. split; [|done]. constructor; [by constructor|]. constructor; [exact E|].
    eapply Forall_impl; [exact HF|]. intros e He. by transitivity (k', v').
  - intros (l'' & Hl & ->)%fmap_Some. destruct (IH _ Hl) as [Hs' Hp]. split.
    + constructor; [done|]. rewrite Hp. constructor; [|done]. unfold key_lt, str_lt. cbn [fst].
      by rewrite str_compare_antisym, E.
    + rewrite Hp. constructor.
Qed.

Lemma btree_insert_None k v l : btree_insert k v l = None -> k ∈ l.*1.
Proof.
  induction l as [|[k' v'] l IH]; cbn [btree_insert]; [done|].
  destruct (str_compare k k') eqn:E; [|done|].
  - intros _. apply str_compare_eq in E as ->. by left.
  - intros Hn%fmap_None. right. auto.
Qed.

Lemma option_map_loop_sound es : forall n out out' n',
  StronglySorted key_lt out -> n = 4 + entries_len out ->
  option_map_loop es n out = Ok (out', n') ->
  StronglySorted key_lt out' /\ out' ≡ₚ out ++ es /\ n' = 4 + entries_len out' /\ Forall entry_ok es
  /\ (es <> [] -> n' <= MAX_OPTION_MAP_BYTES /\ blen out' <= MAX_OPTION_MAP_ENTRIES).
Proof.
  induction es as [|[k v] es IH]; intros n out out' n' Hs Hn; cbn [option_map_loop].
  { intros [= <- <-]. by rewrite app_nil_r. }
  intros ([] & Hk & E)%bind_Ok. destruct (N.ltb_spec MAX_OPTION_VALUE_BYTES (blen v)); [done|].
  apply bind_Ok in E as (c & Hc%ok_or_Ok & E).
  destruct (N.ltb_spec MAX_OPTION_MAP_BYTES c) as [|Hcm]; [done|].
  apply bind_Ok in E as (out1 & Hins%ok_or_Ok & E).
  destruct (N.ltb_spec MAX_OPTION_MAP_ENTRIES (blen out1)) as [|Hcnt]; [done|].
  destruct (btree_insert_Some _ _ _ _ Hs Hins) as [Hs1 Hp1].
  assert (c = 4 + entries_len out1) as Hc1.
  { rewrite (entries_len_perm _ _ Hp1). cbn [entries_len foldr]. fold (entries_len out).
    apply bind_Some in Hc as (t & [-> _]%u64_checked_add_Some & Hc).
    apply bind_Some in Hc as (t' & [-> _]%u64_checked_add_Some & [-> _]%u64_checked_add_Some).
    unfold entry_len. cbn [fst snd]. lia. }
  destruct (IH _ _ _ _ Hs1 Hc1 E) as (Hs' & Hp' & Hn' & Hok & Hb). split_and!; try done.
  - rewrite Hp', Hp1. by rewrite <- Permutation_middle.
  - by constructor.
  - intros _. destruct es; [|by apply Hb]. cbn [option_map_loop] in E. injection E as <- <-. done.
Qed.

Lemma option_map_loop_complete es : forall n out,
  StronglySorted key_lt out -> n = 4 + entries_len out -> NoDup (out.*1 ++ es.*1) -> Forall entry_ok es ->
  4 + entries_len (out ++ es) <= MAX_OPTION_MAP_BYTES -> blen (out ++ es) <= MAX_OPTION_MAP_ENTRIES ->
  is_Some (match option_map_loop es n out with Ok r => Some r | Err _ => None end).
Proof.
  induction es as [|[k v] es IH]; intros n out Hs Hn Hd Hok Hb Hc; cbn [option_map_loop]; [eauto|].
  apply Forall_cons in Hok as [[Hk Hv] Hok]. cbn [fst snd] in Hk, Hv. rewrite Hk. cbn [mbind result_bind].
  rewrite (proj2 (N.ltb_ge _ _)) by done. rewrite entries_len_app in Hb. cbn [entries_len foldr] in Hb.
  fold (entries_len es) in Hb. unfold entry_len in Hb. cbn [fst snd] in Hb.
  rewrite blen_app, blen_cons in Hc. unfold MAX_OPTION_MAP_BYTES in *.
  rewrite u64_checked_add_fits by (unfold U64_MAX; lia). cbn [mbind option_bind].
  rewrite u64_checked_add_fits by (unfold U64_MAX; lia). cbn [mbind option_bind].
  rewrite u64_checked_add_fits by (unfold U64_MAX; lia). cbn [ok_or mbind result_bind].
  rewrite (proj2 (N.ltb_ge _ _)) by lia.
  destruct (btree_insert k v out) as [out1|] eqn:Hins; cbn [ok_or mbind result_bind].
  2: { exfalso. apply btree_insert_None in Hins. apply NoDup_app in Hd as (_ & Hd & _).
       apply (Hd k Hins). by left. }
  destruct (btree_insert_Some _ _ _ _ Hs Hins) as [Hs1 Hp1].
  assert (blen out1 = 1 + blen out) as Hl1 by (unfold blen; rewrite Hp1; simpl; lia).
  rewrite (proj2 (N.ltb_ge _ _)) by lia.
  assert (entries_len out1 = 8 + blen k + blen v + entries_len out) as Hel
    by (rewrite (entries_len_perm _ _ Hp1); cbn [entries_len foldr]; fold (entries_len out);
        unfold entry_len; cbn [fst snd]; lia).
  apply IH; [done|lia| |done|rewrite entries_len_app; lia|rewrite blen_app; lia].
  rewrite Hp1. cbn. rewrite fmap_cons in Hd. by rewrite <- Permutation_middle in Hd.
Qed.

Lemma sorted_keys_NoDup l : StronglySorted key_lt l -> NoDup l.*1.
Proof.
  induction 1 as [|e l Hs IH HF]; [constructor|]. rewrite fmap_cons. constructor; [|done].
  intros (e' & E & He')%list_elem_of_fmap. rewrite Forall_forall in HF. specialize (HF _ He').
  unfold key_lt in HF. rewrite E in HF. by apply (irreflexivity str_lt) in HF.
Qed.

Lemma sorted_unique l l' :
  StronglySorted key_lt l -> StronglySorted key_lt l' -> l ≡ₚ l' -> l = l'.
Proof.
  intros Hs Hs' Hp. apply (StronglySorted_unique_strong key_lt); [|done..].
  intros a b _ _ Hab Hba. exfalso. apply (irreflexivity key_lt a). by transitivity b.
Qed.

(** Every map that is built satisfies the invariant and holds its entries. *)
Lemma option_map_new_typed es m :
  Forall entry_utf8 es -> SanitizedOptionMap_new es = Ok m ->
  option_map_typed m /\ om_entries m ≡ₚ es.
Proof.
  intros Hu. unfold SanitizedOptionMap_new. intros ([out n] & E & [= <-])%bind_Ok.
  apply option_map_loop_sound in E as (Hs & Hp & Hn & Hok & Hb); [|constructor|done].
  cbn [app] in Hp. cbn [om_entries]. split; [|done].
  assert (n <= MAX_OPTION_MAP_BYTES /\ blen out <= MAX_OPTION_MAP_ENTRIES) as [Hb1 Hb2].
  { destruct es as [|e es]; [|by apply Hb]. apply Permutation_nil_r in Hp as ->. subst n. vm_compute.
    split; congruence. }
  split; cbn [om_entries om_canonical_bytes]; try done; by rewrite Hp.
Qed.

(** The entries of a map build the same map. *)
Lemma option_map_new_entries m :
  option_map_typed m -> SanitizedOptionMap_new (om_entries m) = Ok m.
Proof.
  intros [Hs Hok Hu Hc Hb Hz]. unfold SanitizedOptionMap_new.
  destruct (option_map_loop_complete (om_entries m) 4 []) as [[out n] E];
    [constructor|done|by apply sorted_keys_NoDup|done|cbn [app]; lia|done|].
  destruct (option_map_loop _ _ _) as [[out' n']|] eqn:E'; [|done]. injection E as -> ->.
  apply option_map_loop_sound in E' as (Hs' & Hp & -> & _); [|constructor|done].
  cbn [app] in Hp. apply sorted_unique in Hp as ->; [|done..]. cbn.
  destruct m as [es c]. cbn in *. by rewrite Hb.
Qed.

(** ** The option-map field *)

Definition option_bytes (e : str * str) : bytes := sized e.1 ++ sized e.2.

Lemma blen_options l : blen (concat (option_bytes <$> l)) = entries_len l.
Proof.
  induction l as [|e l IH]; [done|]. rewrite fmap_cons. cbn [concat entries_len foldr].
  fold (entries_len l). rewrite blen_app, IH. unfold option_bytes, entry_len, sized. len.
Qed.

(** Keys after the previous one, in increasing order. *)
Definition follows_key (previous : option str) (l : list (str * str)) : Prop :=
  StronglySorted key_lt l /\ Forall (fun e => default True ((fun p => str_lt p e.1) <$> previous)) l.

Lemma follows_cons previous k v l :
  follows_key previous ((k, v) :: l)
  <-> default True ((fun p => str_lt p k) <$> previous) /\ follows_key (Some k) l.
Proof.
  unfold follows_key. rewrite Forall_cons. split.
  - intros [Hs [Hk HF]]. inversion_clear Hs. split_and!; done.
  - intros [Hk [Hs HF]]. split_and!; [by constructor|done|].
    eapply Forall_impl; [exact HF|]. intros e He. destruct previous as [p|]; [|done].
    cbn in *. by transitivity k.
Qed.

Lemma key_len k : validate_option_key k = Ok tt -> blen k <= MAX_OPTION_KEY_BYTES.
Proof.
  unfold validate_option_key. destruct (_ || _); [done|].
  by destruct (N.ltb_spec MAX_OPTION_KEY_BYTES (blen k)).
Qed.

Lemma dec_options_iff n start : forall previous acc input es rest,
  blen input <= start ->
  dec_options n start previous acc input = Ok (es, rest) <->
  exists new, es = acc ++ new /\ length new = n /\ follows_key previous new /\ Forall entry_ok new
    /\ Forall entry_utf8 new /\ input = concat (option_bytes <$> new) ++ rest
    /\ (new <> [] -> start - blen rest <= MAX_OPTION_MAP_BYTES).
Proof.
  induction n as [|n IH]; intros previous acc input es rest Hst; cbn [dec_options].
  { rewrite mret_Ok. split.
    - intros [-> ->]. exists []. rewrite app_nil_r. split_and!; try done; repeat constructor.
    - intros (new & -> & Hl & _ & _ & _ & -> & _). destruct new; [|done]. by rewrite app_nil_r. }
  split.
  - intros H. split_field H. apply dec_bind_Ok in H as (k & m & (-> & Hku & ->)%dec_utf8_Ok & H).
    split_field H. destruct x0. destruct (default false _) eqn:Hprev; [done|]. split_field H.
    apply dec_bind_Ok in H as (v & m' & (-> & Hvu & ->)%dec_utf8_Ok & H). rewrite remaining_bind in H.
    destruct (N.ltb_spec MAX_OPTION_MAP_BYTES (start - blen m')) as [|Hm]; [done|].
    cbn [codec_enc bytes_codec] in Hst. rewrite !blen_app in Hst.
    apply IH in H as (new & -> & Hl & Hf & Hok & Hu & -> & Hb); [|lia].
    exists ((x, x0) :: new). rewrite <- app_assoc. cbn [app length].
    refine (conj eq_refl (conj _ (conj _ (conj _ (conj _ (conj _ _)))))).
    + lia.
    + apply follows_cons. split; [|done]. destruct previous as [p|]; [|done]. cbn in *.
      by bool_to_prop.
    + constructor; [|done]. split; [done|]. cbn in Hv0. cbn. lia.
    + by constructor.
    + rewrite fmap_cons. cbn [concat]. change (option_bytes (x, x0)) with (sized x ++ sized x0).
      by rewrite <- !app_assoc.
    + intros _. destruct new; [done|by apply Hb].
  - intros (new & -> & Hl & Hf & Hok & Hu & -> & Hb). destruct new as [|[k v] new]; [done|].
    apply follows_cons in Hf as [Hk Hf]. apply Forall_cons in Hok as [[Hko Hvl] Hok].
    apply Forall_cons in Hu as [[Hku Hvu] Hu]. cbn [fst snd] in *. specialize (Hb ltac:(done)).
    rewrite fmap_cons in Hst |- *. cbn [concat] in Hst |- *.
    change (option_bytes (k, v)) with (sized k ++ sized v) in *. rewrite <- !app_assoc in Hst |- *. pose proof (key_len _ Hko) as Hkl.
    read_field; [cbn; unfold MAX_OPTION_KEY_BYTES, U32_MAX in *; lia|].
    apply dec_bind_Ok. exists k. eexists. split; [by apply dec_utf8_Ok|].
    read_field; [exact Hko|]. 
    assert (default false ((fun value => negb (bool_decide (str_lt value k))) <$> previous) = false)
      as -> by (destruct previous as [p|]; [|done]; cbn in *; by rewrite bool_decide_eq_true_2).
    read_field; [cbn; unfold MAX_OPTION_VALUE_BYTES, U32_MAX in *; lia|].
    apply dec_bind_Ok. exists v. eexists. split; [by apply dec_utf8_Ok|]. rewrite remaining_bind.
    rewrite !blen_app in Hst. rewrite (proj2 (N.ltb_ge _ _)) by (rewrite blen_app; lia).
    apply IH; [rewrite blen_app; lia|]. exists new. rewrite <- app_assoc. cbn [app].
    split_and!; try done. by injection Hl.
Qed.

#[global] Instance option_map_codec : Codec dec_option_map.
Proof.
  refine {| codec_enc := fun m => u32_le (blen (om_entries m)) ++ concat (option_bytes <$> om_entries m);
            codec_valid := option_map_typed |}.
  intros input m rest. unfold dec_option_map. rewrite remaining_bind. split.
  - intros H. split_field H. destruct (N.ltb_spec MAX_OPTION_MAP_ENTRIES x); [done|].
    apply dec_room_Ok in H as [_ H]. apply dec_bind_Ok in H as (es & mid' & Hes & H).
    apply dec_options_iff in Hes as (new & -> & Hl & [Hs _] & _ & Hu & -> & _);
      [|cbn [codec_enc u32_codec le_codec]; len]. cbn [app] in H.
    apply lift_Ok in H as [H <-]. apply option_map_new_typed in H as [Ht Hp]; [|done].
    apply sorted_unique in Hp; [|apply Ht|done]. split; [done|]. rewrite Hp, <- app_assoc.
    by replace (blen new) with x by (unfold blen; lia).
  - intros [Ht ->]. pose proof Ht as [Hs Hok Hu Hc Hb Hz]. rewrite <- app_assoc.
    unfold MAX_OPTION_MAP_ENTRIES, MAX_OPTION_MAP_BYTES in *.
    read_field; [apply u32_valid; unfold U32_MAX; lia|]. rewrite (proj2 (N.ltb_ge _ _)) by done.
    apply dec_room_Ok. split.
    { rewrite blen_app. etrans; [apply (concat_min_len option_bytes (om_entries m) 8)|lia].
      apply Forall_forall. intros e _. unfold option_bytes, sized. len. }
    apply dec_bind_Ok. exists (om_entries m), rest. split.
    + apply dec_options_iff; [cbn [codec_enc u32_codec le_codec]; len|]. exists (om_entries m).
      refine (conj eq_refl (conj _ (conj (conj Hs _) (conj Hok (conj Hu (conj eq_refl _)))))).
      * unfold blen. lia.
      * by apply Forall_forall.
      * intros _. cbn [codec_enc u32_codec le_codec]. rewrite !blen_app, blen_options.
        rewrite blen_u32. unfold MAX_OPTION_MAP_BYTES. lia.
    + apply lift_Ok. split; [|done]. by apply option_map_new_entries.
Defined.
