(* ===== verification/PayloadExact.v ===== *)
(** * Round trips of journal payloads

    Every payload of its Rust type that validates is encoded and decoded back;
    every accepted payload is the encoding of what it decodes to, except for the
    free text of a metadata expansion. *)

From S2P Require Import Prelude Bytes Ids Errors Snapshot Utf8 ConcreteDigests Paths RootBinding Layout Journal JournalTags PayloadTypes MetadataExpansion Payload PayloadCodec OptionMaps.
From Stdlib Require Import Init.Byte Strings.Byte.
From Stdlib Require String.
Open Scope list_scope.

(** ** Encoders *)

Definition writes (e : Encoder) (b : bytes) : Prop := forall output, e output = Ok (output ++ b).

Lemma writes_fixed b : writes (enc_fixed b) b.
Proof. done. Qed.
Lemma writes_u8 n : writes (enc_u8 n) (le_bytes 1 n).
Proof. done. Qed.
Lemma writes_u16 n : writes (enc_u16 n) (u16_le n).
Proof. done. Qed.
Lemma writes_u32 n : writes (enc_u32 n) (u32_le n).
Proof. done. Qed.
Lemma writes_u64 n : writes (enc_u64 n) (u64_le n).
Proof. done. Qed.
Lemma writes_hash h : writes (enc_hash h) h.
Proof. done. Qed.
Lemma writes_boolean v : writes (enc_boolean v) (le_bytes 1 (if v then 1 else 0)).
Proof. done. Qed.
Lemma writes_done : writes enc_done [].
Proof. intros output. unfold enc_done. by rewrite app_nil_r. Qed.

Lemma writes_seq e k b c : writes e b -> writes k c -> writes (e ;; k) (b ++ c).
Proof. intros He Hk output. unfold enc_seq. rewrite He. cbn. rewrite Hk. by rewrite app_assoc. Qed.

Lemma writes_span s : writes (enc_span s) (u64_le (sp_offset s) ++ u64_le (sp_len s)).
Proof. by apply writes_seq. Qed.

Lemma writes_bytes b : blen b <= U32_MAX -> writes (enc_bytes b) (sized b).
Proof.
  intros Hb. unfold enc_bytes. rewrite (proj2 (N.ltb_ge _ _)) by done. by apply writes_seq.
Qed.

Lemma writes_count e n : n <= U32_MAX -> writes (enc_count e n) (u32_le n).
Proof. intros Hn. unfold enc_count. by rewrite (proj2 (N.ltb_ge _ _)). Qed.

Lemma writes_optional_id o :
  match o with Some n => id_typed n | None => True end ->
  writes (enc_optional_id o) (codec_enc dec_optional_id o).
Proof.
  intros Ho. destruct o as [n|]; [|done]. destruct Ho as [Hn _]. unfold enc_optional_id.
  rewrite (proj2 (N.eqb_neq _ _)) by lia. by apply writes_seq.
Qed.

Lemma writes_optional_u64 o : writes (enc_optional_u64 o) (codec_enc dec_optional_u64 o).
Proof. destruct o as [n|]; [|done]. by apply writes_seq. Qed.

Lemma writes_digest d : digest_typed d -> writes (enc_digest d) (codec_enc dec_digest d).
Proof.
  intros Hd. apply writes_seq; apply writes_bytes; unfold U32_MAX.
  - destruct (digest_code_ok (jd_algorithm d)). lia.
  - rewrite Hd. by destruct (jd_algorithm d).
Qed.

Lemma writes_optional_digest o :
  match o with Some d => digest_typed d | None => True end ->
  writes (enc_optional_digest o) (codec_enc dec_optional_digest o).
Proof. intros Ho. destruct o as [d|]; [|done]. apply writes_seq; [done|]. by apply writes_digest. Qed.

Lemma writes_each {A} (f : A -> Encoder) (g : A -> bytes) l :
  Forall (fun x => writes (f x) (g x)) l -> writes (enc_each f l) (concat (g <$> l)).
Proof.
  induction 1 as [|x l Hx HF IH]; [apply writes_done|]. rewrite fmap_cons. cbn [concat].
  by apply writes_seq.
Qed.

Lemma writes_option_map m :
  option_map_typed m -> writes (enc_option_map m) (codec_enc dec_option_map m).
Proof.
  intros [_ Hok _ Hc _ _]. apply writes_seq.
  - apply writes_count. unfold MAX_OPTION_MAP_ENTRIES, U32_MAX in *. lia.
  - apply writes_each. eapply Forall_impl; [exact Hok|]. intros [k v] [Hk%key_len Hv]. cbn [fst snd] in *.
    unfold MAX_OPTION_KEY_BYTES, MAX_OPTION_VALUE_BYTES in *.
    apply writes_seq; apply writes_bytes; unfold U32_MAX; cbn [fst snd]; lia.
Qed.

Lemma writes_platform_path p :
  blen (pp_bytes p) <= U32_MAX -> writes (enc_platform_path p) (codec_enc dec_platform_path p).
Proof. intros Hp. apply writes_seq; [done|]. by apply writes_bytes. Qed.

Lemma platform_path_len p :
  PlatformPath_from_native_bytes (pp_platform p) (pp_bytes p) = Ok p -> blen (pp_bytes p) <= U32_MAX.
Proof.
  unfold PlatformPath_from_native_bytes, MAX_PLATFORM_PATH_BYTES, U32_MAX.
  destruct (_ =? 0); [done|]. destruct (N.ltb_spec (64 * 1024) (blen (pp_bytes p))); [done|]. lia.
Qed.

Lemma writes_evidence_runs l :
  Forall (codec_valid dec_evidence_run) l ->
  writes (enc_evidence_runs l) (concat (run_bytes <$> l)).
Proof.
  intros HF. apply writes_each. eapply Forall_impl; [exact HF|]. intros r [_ Hl].
  unfold MAX_RECORD_PAYLOAD in Hl.
  apply writes_seq; [done|]. apply writes_seq; [done|]. apply writes_seq; [done|].
  apply writes_seq; [|apply writes_seq; [done|apply writes_bytes; unfold U32_MAX; lia]].
  destruct (er_digest_algorithm r) as [a|]; apply writes_bytes; [|vm_compute; congruence].
  destruct (digest_code_ok a). unfold U32_MAX. lia.
Qed.

Section exact.
Context `{Unicode, DigestLaws}.

Lemma writes_path p : path_typed p -> writes (enc_bytes p) (sized p).
Proof.
  intros [[_ Hp]%JournalRelativePath_new_Ok _]. apply writes_bytes.
  unfold MAX_SAFE_RELATIVE_BYTES, U32_MAX in *. lia.
Qed.

Lemma writes_file_entries l :
  Forall entry_typed l -> writes (enc_file_entries l) (concat (entry_bytes <$> l)).
Proof.
  intros HF. apply writes_each. eapply Forall_impl; [exact HF|].
  intros e [_ _ _ _ Hp [_ Hl]%JournalFileLayoutEntry_new_Ok].
  do 5 (apply writes_seq; [done|]). apply writes_seq; [by apply writes_path|].
  apply writes_bytes. unfold MAX_IDENTITY_BYTES, U32_MAX in *. lia.
Qed.

(** ** Host-key states and protocol validators *)

Definition octets (l : list N) : Prop := Forall (fun n => n < 256) l.

Lemma octets_roundtrip l : octets l -> byte_val <$> (byte_of <$> l) = l.
Proof.
  induction 1 as [|n l Hn HF IH]; [done|]. cbn. rewrite IH, byte_val_of, N.mod_small; done.
Qed.
Lemma bytes_roundtrip (b : bytes) : byte_of <$> (byte_val <$> b) = b.
Proof. induction b as [|x b IH]; [done|]. cbn. by rewrite IH, byte_of_val. Qed.
Lemma bytes_octets (b : bytes) : octets (byte_val <$> b).
Proof. apply Forall_fmap, Forall_forall. intros x _. apply byte_val_lt. Qed.

Lemma str_len_bytes b : str_len (String.string_of_list_byte b) = blen b.
Proof.
  unfold str_len, blen, String.string_of_list_byte. f_equal.
  induction b as [|x b IH]; cbn; [done|]. by rewrite IH.
Qed.
Lemma ascii_of_bytes b : ascii_bytes (String.string_of_list_byte b) = b.
Proof. apply String.list_byte_of_string_of_list_byte. Qed.
Lemma bytes_of_ascii s : String.string_of_list_byte (ascii_bytes s) = s.
Proof. apply String.string_of_list_byte_of_string. Qed.

Record host_key_typed (s : JournalHostKeyState) : Prop := {
  hk_new : PresentedHostKeyChallenge_new key_digest (ph_summary (hs_challenge s))
             (ph_presented_public_key (hs_challenge s)) = Ok (hs_challenge s);
  hk_id_len : blen (hk_id (ph_summary (hs_challenge s))) = 16;
  hk_id_octets : octets (hk_id (ph_summary (hs_challenge s)));
  hk_port_u16 : hk_port (ph_summary (hs_challenge s)) <= U16_MAX;
  hk_host_utf8 : is_utf8 (ascii_bytes (hk_canonical_host (ph_summary (hs_challenge s)))) = true;
  hk_algorithm_utf8 : is_utf8 (ascii_bytes (hk_algorithm (ph_summary (hs_challenge s)))) = true;
  hk_key_octets : octets (ph_presented_public_key (hs_challenge s));
  hk_created_u64 : hs_created_ms s <= U64_MAX;
}.

Lemma PresentedHostKeyChallenge_new_Ok sha s k c :
  PresentedHostKeyChallenge_new sha s k = Ok c ->
  c = mkPresentedHostKeyChallenge s k /\ vec_len k <= MAX_PRESENTED_HOST_KEY_BYTES
  /\ str_len (hk_canonical_host s) <= MAX_HOST_KEY_CANONICAL_HOST_BYTES
  /\ str_len (hk_algorithm s) <= MAX_HOST_KEY_ALGORITHM_BYTES
  /\ hk_fingerprint_sha256 s = sha k.
Proof.
  unfold PresentedHostKeyChallenge_new. destruct (vec_len k =? 0); [done|].
  destruct (N.ltb_spec MAX_PRESENTED_HOST_KEY_BYTES (vec_len k)); [done|].
  destruct (str_len (hk_canonical_host s) =? 0); [done|].
  destruct (N.ltb_spec MAX_HOST_KEY_CANONICAL_HOST_BYTES (str_len (hk_canonical_host s))); [done|].
  destruct (hk_port s =? 0); [done|]. destruct (str_len (hk_algorithm s) =? 0); [done|].
  destruct (N.ltb_spec MAX_HOST_KEY_ALGORITHM_BYTES (str_len (hk_algorithm s))); [done|].
  case_bool_decide as Hf; [|done]. cbn [negb]. by intros [= <-].
Qed.

Definition decision_number (d : HostKeyDecision) : N :=
  match d with
  | HostKeyDecision.Pending => 0
  | HostKeyDecision.Approved => 1
  | HostKeyDecision.Rejected => 2
  end.

#[global] Instance decision_codec : Codec dec_decision.
Proof.
  refine {| codec_enc := fun d => le_bytes 1 (decision_number d); codec_valid := fun _ => True |}.
  intros input d rest. split.
  - intros E. unfold dec_decision in E. split_field E.
    destruct (N.eqb_spec x 0) as [->|]; [by apply mret_Ok in E as [<- <-]|].
    destruct (N.eqb_spec x 1) as [->|]; [by apply mret_Ok in E as [<- <-]|].
    destruct (N.eqb_spec x 2) as [->|]; [by apply mret_Ok in E as [<- <-]|done].
  - intros [_ ->]. unfold dec_decision. read_field; [by destruct d|]. by destruct d.
Defined.

Definition host_key_bytes (s : JournalHostKeyState) : bytes :=
  let key := ph_summary (hs_challenge s) in
  le_bytes 1 (decision_number (hs_decision s)) ++ (byte_of <$> hk_id key)
  ++ sized (ascii_bytes (hk_canonical_host key)) ++ u16_le (hk_port key)
  ++ sized (ascii_bytes (hk_algorithm key)) ++ (byte_of <$> hk_fingerprint_sha256 key)
  ++ sized (byte_of <$> ph_presented_public_key (hs_challenge s)) ++ u64_le (hs_created_ms s).

Lemma key_digest_octets k : octets (key_digest k) /\ blen (key_digest k) = 32.
Proof.
  split; [apply bytes_octets|]. unfold key_digest. rewrite blen_fmap. unfold blen.
  by rewrite sha256_len.
Qed.

#[global] Instance host_key_codec : Codec dec_host_key_state.
Proof.
  refine {| codec_enc := host_key_bytes; codec_valid := host_key_typed |}.
  intros input s rest. split.
  - intros E. unfold dec_host_key_state in E. do 3 split_field E.
    apply dec_bind_Ok in E as (h & m & (-> & Hu1 & ->)%dec_utf8_Ok & E). do 2 split_field E.
    apply dec_bind_Ok in E as (al & m' & (-> & Hu2 & ->)%dec_utf8_Ok & E). do 4 split_field E.
    apply mret_Ok in E as [<- <-]. apply map_err_Ok in Hr.
    pose proof Hr as (-> & _)%PresentedHostKeyChallenge_new_Ok. apply u16_valid in Hv2. apply u64_valid in Hv6.
    split.
    + split; cbn [hs_challenge hs_created_ms ph_summary ph_presented_public_key hk_id hk_port
        hk_canonical_host hk_algorithm]; rewrite ?ascii_of_bytes, ?blen_fmap;
        first [done | apply bytes_octets].
    + unfold host_key_bytes. cbn [hs_challenge hs_created_ms hs_decision ph_summary
        ph_presented_public_key hk_id hk_port hk_canonical_host hk_algorithm hk_fingerprint_sha256].
      rewrite !ascii_of_bytes, !bytes_roundtrip. by rewrite <- !app_assoc.
  - intros [Hs ->]. pose proof Hs as [Hn Hil Hio Hp Hh Ha Hk Hc].
    pose proof Hn as (_ & Hkl & Hhl & Hal & Hf)%PresentedHostKeyChallenge_new_Ok.
    destruct (key_digest_octets (ph_presented_public_key (hs_challenge s))) as [Hfo Hfl].
    rewrite <- Hf in Hfo, Hfl.
    rewrite <- (bytes_of_ascii (hk_canonical_host _)), str_len_bytes in Hhl.
    rewrite <- (bytes_of_ascii (hk_algorithm _)), str_len_bytes in Hal.
    unfold MAX_PRESENTED_HOST_KEY_BYTES, MAX_HOST_KEY_CANONICAL_HOST_BYTES,
      MAX_HOST_KEY_ALGORITHM_BYTES in *.
    unfold dec_host_key_state, host_key_bytes. cbv zeta. rewrite <- !app_assoc.
    read_field; [done|]. read_field; [cbn; by rewrite blen_fmap|].
    read_field; [cbn; unfold MAX_HOST_KEY_CANONICAL_HOST_BYTES, U32_MAX; lia|].
    apply dec_bind_Ok. eexists _, _. split; [by apply dec_utf8_Ok|]. read_field; [by apply u16_valid|].
    read_field; [cbn; unfold MAX_HOST_KEY_ALGORITHM_BYTES, U32_MAX; lia|].
    apply dec_bind_Ok. eexists _, _. split; [by apply dec_utf8_Ok|].
    read_field; [cbn; by rewrite blen_fmap|].
    read_field; [cbn; rewrite blen_fmap; unfold blen, vec_len, MAX_PRESENTED_HOST_KEY_BYTES, U32_MAX in *; lia|].
    rewrite !octets_roundtrip, !bytes_of_ascii by done.
    read_field; [apply map_err_Ok|read_field; [by apply u64_valid|]].
    + destruct s as [[[] ?] ? ?]. exact Hn.
    + by destruct s as [[[] ?] ? ?].
Defined.

Lemma writes_host_key s :
  host_key_typed s -> writes (enc_payload (JournalPayload.HostKeyState s)) (host_key_bytes s).
Proof.
  intros [Hn _ _ _ _ _ _ _]. apply PresentedHostKeyChallenge_new_Ok in Hn as (_ & Hkl & Hhl & Hal & _).
  rewrite <- (bytes_of_ascii (hk_canonical_host _)), str_len_bytes in Hhl.
  rewrite <- (bytes_of_ascii (hk_algorithm _)), str_len_bytes in Hal.
  unfold MAX_PRESENTED_HOST_KEY_BYTES, MAX_HOST_KEY_CANONICAL_HOST_BYTES,
    MAX_HOST_KEY_ALGORITHM_BYTES, vec_len in *.
  do 2 (apply writes_seq; [done|]). apply writes_seq; [apply writes_bytes; unfold U32_MAX; lia|].
  apply writes_seq; [done|]. apply writes_seq; [apply writes_bytes; unfold U32_MAX; lia|].
  apply writes_seq; [done|]. apply writes_seq; [|done]. apply writes_bytes.
  rewrite blen_fmap. unfold blen, U32_MAX. lia.
Qed.

Record validator_typed (v : ProtocolValidator) : Prop := {
  vt_protocol : pv_protocol v < 256;
  vt_source : hash_typed (pv_source v);
  vt_total : pv_total_length v <= U64_MAX;
  vt_modified : match pv_modified_unix_seconds v with Some n => n <= U64_MAX | None => True end;
  vt_host : match pv_host_key v with Some h => hash_typed h | None => True end;
}.

Lemma opt_u64_valid o :
  match o with Some n => n <= U64_MAX | None => True end <-> codec_valid dec_optional_u64 o.
Proof. destruct o as [n|]; [|done]. apply u64_valid. Qed.

Definition validator_bytes (v : ProtocolValidator) : bytes :=
  le_bytes 1 (pv_protocol v) ++ pv_source v ++ u64_le (pv_total_length v)
  ++ codec_enc dec_optional_u64 (pv_modified_unix_seconds v)
  ++ codec_enc (dec_optional dec_hash) (pv_host_key v).

#[global] Instance validator_codec : Codec dec_protocol_validator.
Proof.
  refine {| codec_enc := validator_bytes; codec_valid := validator_typed |}.
  intros input v rest. split.
  - intros E. unfold dec_protocol_validator in E. do 5 split_field E. apply mret_Ok in E as [<- <-].
    apply u8_valid in Hv. apply u64_valid in Hv1. apply opt_u64_valid in Hv2. split; [by split|].
    unfold validator_bytes. cbn [pv_protocol pv_source pv_total_length pv_modified_unix_seconds
      pv_host_key]. by rewrite <- !app_assoc.
  - intros [[V1 V2 V3 V4 V5] ->]. unfold dec_protocol_validator, validator_bytes.
    rewrite <- !app_assoc. read_field; [done|]. read_field; [done|]. read_field; [by apply u64_valid|].
    read_field; [by apply opt_u64_valid|]. read_field; [done|]. by destruct v.
Defined.

Lemma writes_validator v :
  writes (enc_payload (JournalPayload.ProtocolValidator v)) (validator_bytes v).
Proof.
  do 3 (apply writes_seq; [done|]). apply writes_seq; [apply writes_optional_u64|].
  destruct (pv_host_key v) as [k|]; [by apply writes_seq|done].
Qed.

(** ** Payloads *)

Definition opt {A} (P : A -> Prop) (o : option A) : Prop :=
  match o with Some x => P x | None => True end.
Definition u64_typed (n : N) : Prop := n <= U64_MAX.
Definition u32_typed (n : N) : Prop := n <= U32_MAX.
Definition checkpoint_typed (id : CheckpointId) : Prop := blen id = 16 /\ all_zero id = false.

(** The invariants of the Rust types of the fields. *)
Definition payload_typed (p : JournalPayload) : Prop :=
  match p with
  | JournalPayload.TaskCreated _ version => version <= U16_MAX
  | JournalPayload.OptionsSnapshot _ patch hash options =>
    opt id_typed patch /\ hash_typed hash /\ option_map_typed options
  | JournalPayload.LayoutCommitted layout binding root _ total piece count chunks files =>
    hash_typed layout /\ hash_typed binding
    /\ PlatformPath_from_native_bytes (pp_platform root) (pp_bytes root) = Ok root
    /\ opt u64_typed total /\ u64_typed piece /\ u32_typed count /\ u32_typed chunks
    /\ Forall entry_typed files
  | JournalPayload.GenerationStarted previous _ hash patch =>
    u64_typed previous /\ hash_typed hash /\ opt id_typed patch
  | JournalPayload.LeaseStarted attempt lease span validator =>
    id_typed attempt /\ id_typed lease /\ span_typed span /\ hash_typed validator
  | JournalPayload.PieceStarted lease piece span | JournalPayload.PieceWritten lease piece span =>
    id_typed lease /\ u64_typed piece /\ span_typed span
  | JournalPayload.LeaseCommitted lease span validator digest =>
    id_typed lease /\ span_typed span /\ hash_typed validator /\ opt digest_typed digest
  | JournalPayload.LeaseAborted lease _ => id_typed lease
  | JournalPayload.PieceVerified piece span contributors digest =>
    u64_typed piece /\ span_typed span /\ hash_typed contributors /\ digest_typed digest
  | JournalPayload.PieceFailed lease piece span _ attempt =>
    opt id_typed lease /\ u64_typed piece /\ span_typed span /\ u32_typed attempt
  | JournalPayload.PieceDurable piece span contributors validators digest _ =>
    u64_typed piece /\ span_typed span /\ hash_typed contributors /\ hash_typed validators
    /\ opt digest_typed digest
  | JournalPayload.RetryState _ id attempt elapsed scheduled delay _ _ =>
    id_typed id /\ u32_typed attempt /\ u64_typed elapsed /\ u64_typed scheduled /\ u64_typed delay
  | JournalPayload.TaskPaused _ | JournalPayload.TaskRemoved _ => True
  | JournalPayload.TaskComplete layout length digest completed =>
    hash_typed layout /\ u64_typed length /\ opt digest_typed digest /\ u64_typed completed
  | JournalPayload.TaskError _ _ diagnostic => u64_typed diagnostic
  | JournalPayload.CleanShutdown sequence at_ => u64_typed sequence /\ u64_typed at_
  | JournalPayload.CheckpointStart id sequence hash count created =>
    checkpoint_typed id /\ u64_typed sequence /\ hash_typed hash
    /\ u32_typed count /\ u64_typed created
  | JournalPayload.CheckpointEnd id count hash =>
    checkpoint_typed id /\ u32_typed count /\ hash_typed hash
  | JournalPayload.LayoutChunk layout binding index chunks files =>
    hash_typed layout /\ hash_typed binding /\ u32_typed index /\ u32_typed chunks
    /\ Forall entry_typed files
  | JournalPayload.FinalizeIntent layout binding file temp final length _ =>
    hash_typed layout /\ hash_typed binding /\ u32_typed file /\ path_typed temp
    /\ path_typed final /\ u64_typed length
  | JournalPayload.FinalizeDone layout binding file final =>
    hash_typed layout /\ hash_typed binding /\ u32_typed file /\ path_typed final
  | JournalPayload.PieceStateChunk layout binding index chunks first covered _ runs =>
    hash_typed layout /\ hash_typed binding /\ u32_typed index /\ u32_typed chunks
    /\ u64_typed first /\ u32_typed covered /\ Forall run_typed runs
  | JournalPayload.HttpStrongValidator resource validator total _ =>
    hash_typed resource /\ hash_typed validator /\ u64_typed total
  | JournalPayload.HttpRangeIdentity identity total digest =>
    hash_typed identity /\ u64_typed total /\ digest_typed digest
  | JournalPayload.VerificationManifest fingerprint a b _
  | JournalPayload.VerificationManifestChunk fingerprint a b _ =>
    hash_typed fingerprint /\ u32_typed a /\ u32_typed b
  | JournalPayload.ProtocolValidator validator => validator_typed validator
  | JournalPayload.WholeFileVerified fingerprint digests =>
    hash_typed fingerprint /\ Forall digest_typed digests
  | JournalPayload.HostKeyState state => host_key_typed state
  | JournalPayload.MetadataComplete expansion completed =>
    expansion_typed expansion /\ u64_typed completed
  end.

(** The limits the decoder puts on fields of arbitrary bytes and lists. *)
Definition payload_limits (p : JournalPayload) : Prop :=
  match p with
  | JournalPayload.LayoutCommitted _ _ _ identity _ _ _ _ files =>
    blen identity <= MAX_IDENTITY_BYTES /\ blen files <= MAX_LAYOUT_ENTRIES
  | JournalPayload.LayoutChunk _ _ _ _ files => blen files <= MAX_LAYOUT_ENTRIES
  | JournalPayload.FinalizeIntent _ _ _ _ _ _ identity => blen identity <= MAX_IDENTITY_BYTES
  | JournalPayload.PieceStateChunk _ _ _ _ _ _ bitmap runs =>
    blen bitmap <= MAX_PIECE_STATE_BITMAP_BYTES /\ blen runs <= MAX_PIECE_STATE_COVERED_PIECES
    /\ Forall (fun r => blen (er_digest_values r) <= MAX_RECORD_PAYLOAD) runs
  | JournalPayload.HttpStrongValidator _ _ _ etag => blen etag <= MAX_HTTP_STRONG_ETAG_BYTES
  | JournalPayload.VerificationManifest _ _ _ part
  | JournalPayload.VerificationManifestChunk _ _ _ part =>
    blen part <= VERIFICATION_MANIFEST_PART_BYTES
  | JournalPayload.WholeFileVerified _ digests => blen digests <= 2
  | JournalPayload.MetadataComplete expansion _ => MetadataExpansion_validate expansion = true
  | _ => True
  end.

Lemma tag_valid {A} `{JournalTag A} (x : A) : codec_valid dec_tag x.
Proof. split; [|done]. apply u8_valid, tag_byte. Qed.
Lemma error_kind_valid k : codec_valid dec_error_kind k.
Proof. split; [|done]. by destruct k. Qed.

End exact.

Create HintDb payload discriminated.
#[export] Hint Resolve writes_fixed writes_u8 writes_u16 writes_u32 writes_u64 writes_hash
  writes_boolean writes_span writes_optional_id writes_optional_u64 writes_digest
  writes_optional_digest writes_option_map writes_platform_path platform_path_len writes_path
  writes_file_entries writes_evidence_runs : payload.

Ltac limits := change MAX_PIECE_STATE_BITMAP_BYTES with 16384 in *;
  unfold MAX_IDENTITY_BYTES, MAX_LAYOUT_ENTRIES, MAX_PIECE_STATE_COVERED_PIECES, MAX_RECORD_PAYLOAD, MAX_HTTP_STRONG_ETAG_BYTES,
  VERIFICATION_MANIFEST_PART_BYTES, U32_MAX in *; lia.
Ltac write_field :=
  first [ solve [eauto with payload] | apply writes_bytes; limits | apply writes_count; limits ].
Ltac write_fields := repeat (eapply writes_seq; [write_field|]); write_field.
Ltac valid_field :=
  first [ done | by apply u64_valid | by apply u32_valid | by apply u16_valid | apply tag_valid
        | apply error_kind_valid | by apply opt_u64_valid | apply u32_valid; limits
        | cbn [codec_valid plain_bytes_codec bytes_codec]; limits ].
Ltac read_fields := repeat (read_field; [valid_field|]).

Section payloads.
Context `{Unicode, DigestLaws}.

(** A writable payload is read back. *)
Definition readable (p : JournalPayload) : Prop :=
  exists b, writes (enc_payload p) b
    /\ forall rest, dec_payload (record_type p) (b ++ rest) = Ok (p, rest).

Lemma metadata_readable e at_ :
  expansion_typed e -> at_ <= U64_MAX -> MetadataExpansion_validate e = true ->
  readable (JournalPayload.MetadataComplete e at_).
Proof.
  intros He Ha Hv. destruct (validate_facts e Hv) as [_ Hn].
  pose proof (canonical_length e He Hn) as Hl.
  eexists. split.
  - cbn [enc_payload]. rewrite Hv. eapply writes_seq; [apply writes_done|].
    eapply writes_seq; [apply writes_bytes; unfold U32_MAX; lia|apply writes_u64].
  - intros rest. cbn [app record_type dec_payload]. rewrite <- app_assoc. unfold dec_metadata_complete.
    read_field; [cbn [codec_valid plain_bytes_codec bytes_codec]; unfold U32_MAX; lia|].
    read_field.
    + apply ok_or_Ok. unfold from_utf8. rewrite canonical_utf8 by done. cbn. by apply parse_canonical.
    + by read_fields.
Qed.

Lemma whole_file_readable h ds :
  hash_typed h -> Forall digest_typed ds -> blen ds <= 2 ->
  readable (JournalPayload.WholeFileVerified h ds).
Proof.
  intros Hh HF Hl. eexists. split.
  - eapply writes_seq; [done|]. eapply writes_seq; [done|]. apply (writes_each _ (codec_enc dec_digest)).
    eapply Forall_impl; [exact HF|]. apply writes_digest.
  - intros rest. cbn [record_type dec_payload]. rewrite <- !app_assoc. unfold dec_whole_file_verified.
    read_field; [done|]. refine (eq_trans (dec_run dec_u8 _ (blen ds) _ _) _); [change (blen ds < 256); lia|].
    cbv beta. rewrite (proj2 (N.ltb_ge _ _)) by done.
    refine (eq_trans (dec_run (dec_repeat (N.to_nat (blen ds)) dec_digest) _ ds rest _) _); [|done].
    cbn [codec_valid repeat_codec]. split; [unfold blen; lia|done].
Qed.

Lemma piece_state_readable lh bh i c f n bitmap runs :
  let p := JournalPayload.PieceStateChunk lh bh i c f n bitmap runs in
  payload_typed p -> payload_limits p -> readable p.
Proof.
  intros p (? & ? & ? & ? & ? & ? & Hr) (? & ? & Hd). unfold u64_typed, u32_typed in *.
  assert (Forall (codec_valid dec_evidence_run) runs) as HF by by apply Forall_and.
  subst p. eexists. split; [cbn [enc_payload]; write_fields|]. intros rest.
  cbn [record_type dec_payload].
  rewrite <- ?app_assoc. by read_fields.
Qed.

Lemma payload_readable p : payload_typed p -> payload_limits p -> readable p.
Proof.
  intros Ht Hl. pose proof (conj Ht Hl) as Htl.
  destruct p; cbn [payload_typed payload_limits] in Ht, Hl; destruct_and?;
    unfold u64_typed, u32_typed in *.
  all: try (eexists; split; [cbn [enc_payload]; write_fields|intros rest; cbn [record_type dec_payload];
    rewrite <- ?app_assoc; by read_fields]).
  - by apply piece_state_readable.
  - eexists. split; [apply writes_validator|]. intros rest. cbn [record_type dec_payload]. by read_fields.
  - by apply whole_file_readable.
  - eexists. split; [by apply writes_host_key|]. intros rest. cbn [record_type dec_payload].
    by read_fields.
  - by apply metadata_readable.
Qed.

(** Fields of a decoded payload have their types and limits. *)
Ltac unread H := repeat (split_field H); apply mret_Ok in H as [<- <-].
Ltac typed_field :=
  lazymatch goal with
  | H : codec_valid dec_u64 ?x |- u64_typed ?x => exact (proj2 (u64_valid x) H)
  | H : codec_valid dec_u32 ?x |- u32_typed ?x => exact (proj2 (u32_valid x) H)
  | H : codec_valid dec_u16 ?x |- ?x <= U16_MAX => exact (proj2 (u16_valid x) H)
  | H : codec_valid dec_optional_u64 ?x |- opt u64_typed ?x => exact (proj2 (opt_u64_valid x) H)
  | H : codec_valid (dec_file_entries _) ?x |- Forall _ ?x => exact (proj2 (proj2 H))
  | H : codec_valid (dec_file_entries _) ?x |- blen ?x <= _ => destruct H as (-> & ? & _); assumption
  | H : codec_valid (dec_bytes _) ?x |- blen ?x <= _ => exact (N.min_glb_l _ _ _ H)
  | H : codec_valid dec_platform_path ?x |- _ = Ok ?x => exact H
  | H : codec_valid _ ?x |- _ ?x => exact H
  | |- True => exact I
  end.

Lemma whole_file_decoded input p rest :
  dec_whole_file_verified input = Ok (p, rest) ->
  exists h ds, p = JournalPayload.WholeFileVerified h ds /\ hash_typed h /\ Forall digest_typed ds
    /\ blen ds <= 2 /\ input = h ++ le_bytes 1 (blen ds) ++ concat (codec_enc dec_digest <$> ds) ++ rest.
Proof.
  unfold dec_whole_file_verified. intros E. do 2 split_field E.
  destruct (N.ltb_spec 2 x0); [done|]. split_field E. apply mret_Ok in E as [<- <-].
  destruct Hv1 as [Hl HF]. assert (blen x1 = x0) as <- by (unfold blen; lia). by exists x, x1.
Qed.

Lemma metadata_decoded input p rest :
  dec_metadata_complete input = Ok (p, rest) ->
  exists e at_, p = JournalPayload.MetadataComplete e at_ /\ expansion_typed e /\ u64_typed at_
    /\ MetadataExpansion_validate e = true.
Proof.
  unfold dec_metadata_complete. intros E. do 3 split_field E. apply mret_Ok in E as [<- <-].
  apply ok_or_Ok, bind_Some in Hr as (s & _ & [Ht Hval]%parse_typed). apply u64_valid in Hv0.
  by exists x0, x1.
Qed.

Lemma payload_decoded type input p rest :
  dec_payload type input = Ok (p, rest) ->
  record_type p = type /\ payload_typed p /\ payload_limits p.
Proof.
  destruct type; cbn [dec_payload]; intros E.
  all: try (unread E; cbn [record_type payload_typed payload_limits]; split; [done|];
            repeat match goal with |- _ /\ _ => split end; typed_field).
  - unread E. destruct Hv7 as (<- & Hm & HF). apply Forall_and in HF as [HF HF'].
    cbn [record_type payload_typed payload_limits].
    split; [done|]. repeat match goal with |- _ /\ _ => split end; (done || typed_field).
  - apply whole_file_decoded in E as (h & ds & -> & ? & ? & ? & _). done.
  - apply metadata_decoded in E as (e & at_ & -> & ? & ? & ?). done.
Qed.

(** The input is determined by what it decodes to. *)
Lemma dec_payload_inj type i j p rest :
  type <> RecordType.MetadataComplete ->
  dec_payload type i = Ok (p, rest) -> dec_payload type j = Ok (p, rest) -> i = j.
Proof.
  intros Hm. destruct type; cbn [dec_payload]; intros E1 E2; try done.
  all: try (repeat (split_field E1); repeat (split_field E2); apply mret_Ok in E1 as [<- <-];
            apply mret_Ok in E2 as [Ep <-];
            repeat match goal with H : codec_valid (_ _) _ |- _ => destruct H as (<- & _ & _) end;
            injection Ep; intros; subst; reflexivity).
  apply whole_file_decoded in E1 as (h & ds & -> & _ & _ & _ & ->).
  by apply whole_file_decoded in E2 as (h' & ds' & [= <- <-] & _ & _ & _ & ->).
Qed.

(** ** Validation implies the limits *)

Lemma account_runs_counts runs : forall covered bitmap acc prev_end prev acc',
  account_runs runs covered bitmap acc prev_end prev = Ok acc' ->
  Forall (fun r => er_piece_count r <= covered) runs.
Proof.
  induction runs as [|r runs IH]; intros covered bitmap acc prev_end prev acc'; cbn [account_runs];
    [constructor|]. cbv zeta.
  destruct (_ <? prev_end); [done|].
  destruct (N.ltb_spec covered (er_first_piece_delta r + er_piece_count r)); [done|]. cbn [orb].
  destruct (_ && _); [done|]. intros (acc1 & _ & E)%bind_Ok. constructor; [lia|]. by eapply IH.
Qed.

Lemma piece_state_limits lh bh i c f n bitmap runs :
  let p := JournalPayload.PieceStateChunk lh bh i c f n bitmap runs in
  payload_typed p -> validate_payload p = Ok tt -> payload_limits p.
Proof.
  intros p (_ & _ & _ & _ & _ & _ & HF). subst p. cbn [validate_payload payload_limits].
  unfold validate_piece_state_chunk. destruct (_ || _); [done|].
  destruct (n =? 0); [done|]. cbn [orb].
  destruct (N.ltb_spec MAX_PIECE_STATE_COVERED_PIECES n) as [|Hn]; [done|].
  destruct (is_none _); [done|]. cbv zeta. case_bool_decide as Hb; [|done]. cbn [negb orb].
  destruct (negb (bitmap_get bitmap 0)); [done|]. destruct (_ && _); [done|].
  destruct (N.ltb_spec n (blen runs)); [done|]. intros (acc & Ea%account_runs_counts & _)%bind_Ok.
  unfold MAX_PIECE_STATE_COVERED_PIECES in *. split; [|split; [lia|]].
  - rewrite Hb. unfold div_ceil. apply N.Div0.div_le_mono. unfold MAX_PIECE_STATE_COVERED_PIECES. lia.
  - eapply Forall_impl; [apply Forall_and; split; [exact HF|exact Ea]|].
    intros r [[_ _ _ (_ & _ & ->)%DurableEvidenceRun_new_Ok] Hc]. unfold MAX_RECORD_PAYLOAD.
    assert (default 0 (digest_value_len <$> er_digest_algorithm r) <= 64) as Hd
      by (destruct (er_digest_algorithm r) as [[]|]; vm_compute; congruence). nia.
Qed.

Lemma layout_entries_len files o : validate_layout_entries files o = Ok tt -> blen files <= MAX_LAYOUT_ENTRIES.
Proof.
  unfold validate_layout_entries. by destruct (N.ltb_spec MAX_LAYOUT_ENTRIES (blen files)).
Qed.

Lemma layout_committed_limits root identity total piece count chunks files :
  validate_layout_committed root identity total piece count chunks files = Ok tt ->
  blen identity <= MAX_IDENTITY_BYTES /\ blen files <= MAX_LAYOUT_ENTRIES.
Proof.
  unfold validate_layout_committed. destruct (blen identity =? 0); [done|]. cbn [orb].
  destruct (N.ltb_spec MAX_IDENTITY_BYTES (blen identity)); [done|].
  destruct (piece =? 0); [done|]. destruct (_ || _); [done|]. destruct (_ || _); [done|].
  intros ([] & ?%layout_entries_len & _)%bind_Ok. done.
Qed.

Lemma etag_limit etag total h :
  calculate_http_strong_validator_fingerprint etag total = Ok h ->
  blen etag <= MAX_HTTP_STRONG_ETAG_BYTES.
Proof.
  unfold calculate_http_strong_validator_fingerprint, validate_http_strong_etag.
  intros (? & E & _)%bind_Ok. destruct (blen etag <? 2); [done|]. cbn [orb] in E.
  by destruct (N.ltb_spec MAX_HTTP_STRONG_ETAG_BYTES (blen etag)).
Qed.

Lemma validate_limits p b :
  payload_typed p -> JournalPayload_encode p = Ok b -> payload_limits p.
Proof.
  unfold JournalPayload_encode. intros Ht ([] & Hv & (out & Ho & _)%bind_Ok)%bind_Ok.
  destruct p; try exact I; try by apply piece_state_limits.
  - by apply layout_committed_limits in Hv.
  - cbn [validate_payload payload_limits] in *. unfold validate_layout_chunk in Hv.
    destruct (_ || _); [done|]. by apply bind_Ok in Hv as ([] & ?%layout_entries_len & _).
  - cbn [validate_payload payload_limits] in *. destruct (_ || _) eqn:E; [done|].
    apply orb_false_iff in E as [_ E%N.ltb_ge]. done.
  - cbn [validate_payload payload_limits] in *. by apply bind_Ok in Hv as (? & ?%etag_limit & _).
  - cbn [validate_payload payload_limits] in *. destruct (_ || _) eqn:E; [done|].
    apply orb_false_iff in E as [_ E%negb_false_iff%N.eqb_eq]. lia.
  - cbn [validate_payload payload_limits] in *. destruct (_ || _) eqn:E; [done|].
    apply orb_false_iff in E as [_ E%N.ltb_ge]. done.
  - cbn [validate_payload payload_limits] in *. by destruct (N.ltb_spec 2 (blen digests)).
  - cbn [enc_payload payload_limits] in *. unfold enc_seq in Ho.
    by destruct (MetadataExpansion_validate expansion).
Qed.

(** ** Round trips *)

Lemma decode_encode p b :
  payload_typed p -> JournalPayload_encode p = Ok b -> JournalPayload_decode (record_type p) b = Ok p.
Proof.
  intros Ht E. pose proof (validate_limits _ _ Ht E) as Hl.
  destruct (payload_readable p Ht Hl) as (b' & Hw & Hr).
  unfold JournalPayload_encode in E. apply bind_Ok in E as ([] & Hv & E). rewrite Hw in E.
  cbn [mbind result_bind app] in E. destruct (N.ltb_spec MAX_RECORD_PAYLOAD (blen b')) as [|Hm]; [done|].
  injection E as <-. unfold JournalPayload_decode. rewrite (proj2 (N.ltb_ge _ _)) by done.
  specialize (Hr []). rewrite app_nil_r in Hr. rewrite Hr. cbn [mbind result_bind].
  rewrite Hv. done.
Qed.

Lemma encode_decode type b p :
  JournalPayload_decode type b = Ok p ->
  record_type p = type /\ payload_typed p
  /\ (type <> RecordType.MetadataComplete -> JournalPayload_encode p = Ok b).
Proof.
  unfold JournalPayload_decode. destruct (N.ltb_spec MAX_RECORD_PAYLOAD (blen b)) as [|Hm]; [done|].
  intros ([p' rest] & Hd & E)%bind_Ok. destruct (N.eqb_spec (blen rest) 0) as [Hz|]; [|done].
  rewrite blen_0 in Hz. subst rest. cbn [negb] in E. apply bind_Ok in E as ([] & Hv & [= ->]).
  destruct (payload_decoded _ _ _ _ Hd) as (<- & Ht & Hl). split_and!; [done..|]. intros Hne.
  destruct (payload_readable p Ht Hl) as (b' & Hw & Hr). specialize (Hr []). rewrite app_nil_r in Hr.
  assert (b' = b) as -> by by eapply dec_payload_inj.
  unfold JournalPayload_encode. rewrite Hv, Hw. cbn [mbind result_bind app].
  by rewrite (proj2 (N.ltb_ge _ _)).
Qed.
End payloads.
