(* ===== verification/PayloadProperties.v ===== *)
(** * Properties of the payload codec *)

From S2P Require Import Prelude Bytes Ids Utf8 ConcreteDigests Paths Journal JournalTags PayloadTypes MetadataExpansion Payload PayloadExact OptionMaps.
From Stdlib Require Import Init.Byte Strings.Byte.
Open Scope list_scope.

Section properties.
Context `{Unicode, DigestLaws}.

(** C22: Whatever is written to the journal is read back: every payload of the
    thirty-two types that encodes decodes, under its record type, to itself. *)
Theorem payload_roundtrip p b :
  payload_typed p -> JournalPayload_encode p = Ok b -> JournalPayload_decode (record_type p) b = Ok p.
Proof. apply decode_encode. Qed.

(** C23: The decoder accepts exactly the canonical encodings: for every record type
    but the text of a metadata expansion, bytes decode to a payload if and only
    if the payload has that type and its fields' Rust types, and encodes to
    exactly these bytes. *)
Theorem payload_codec_exact type b p :
  type <> RecordType.MetadataComplete ->
  JournalPayload_decode type b = Ok p
  <-> record_type p = type /\ payload_typed p /\ JournalPayload_encode p = Ok b.
Proof.
  intros Hm. split.
  - intros (Ht & Hp & He)%encode_decode. auto.
  - intros (<- & Hp & He). by apply decode_encode.
Qed.

(** Decoding establishes the invariants of the types: whatever the bytes, a
    decoded payload has the requested record type and every field satisfies its
    type's invariant: identifiers and hashes nonzero, spans nonempty and without
    overflow, digests of the length of their algorithm, option maps sorted and
    bounded, paths canonical. *)
Theorem decoded_payload_typed type b p :
  JournalPayload_decode type b = Ok p -> record_type p = type /\ payload_typed p.
Proof. intros (Ht & Hp & _)%encode_decode. auto. Qed.

(** An option map is a function of its entries: whatever the order the entries
    come in, the map holds exactly them, with strictly increasing keys and within
    the limits of count, key, value and total size. *)
Theorem option_map_new_sorted es m :
  Forall entry_utf8 es -> SanitizedOptionMap_new es = Ok m ->
  option_map_typed m /\ om_entries m ≡ₚ es
  /\ forall es' m', es' ≡ₚ es -> SanitizedOptionMap_new es' = Ok m' -> m' = m.
Proof.
  intros Hu Hm. destruct (option_map_new_typed _ _ Hu Hm) as [Ht Hp]. split_and!; [done..|].
  intros es' m' He Hm'. rewrite <- He in Hu. destruct (option_map_new_typed _ _ Hu Hm') as [Ht' Hp'].
  assert (om_entries m' = om_entries m) as E
    by (apply sorted_unique; [apply Ht'|apply Ht|by rewrite Hp', Hp, He]).
  destruct m as [l n], m' as [l' n'], Ht as [_ _ _ _ Hn _], Ht' as [_ _ _ _ Hn' _].
  cbn [om_entries om_canonical_bytes] in *. congruence.
Qed.

(** A metadata expansion reads back from its canonical text, which stays
    within the 64 KiB the decoder takes. *)
Theorem metadata_expansion_roundtrip e :
  expansion_typed e -> MetadataExpansion_validate e = true ->
  MetadataExpansion_parse (MetadataExpansion_canonical e) = Some e
  /\ blen (MetadataExpansion_canonical e) <= 64 * 1024.
Proof.
  intros He Hv. split; [by apply parse_canonical|]. apply canonical_length; [done|].
  by destruct (validate_facts e Hv).
Qed.
End properties.

(** Concrete digests and text for which normalization does nothing. *)
#[local] Existing Instance concrete_digests.
#[local] Existing Instance concrete_digest_laws.
#[local] Existing Instance plain_unicode.

Definition example_lease : JournalPayload :=
  JournalPayload.LeaseStarted 3 4 (mkPersistedSpan 10 20) (repeat x07 32).
Definition example_lease_bytes : bytes :=
  u64_le 3 ++ u64_le 4 ++ u64_le 10 ++ u64_le 20 ++ repeat x07 32.

Lemma example_lease_typed : payload_typed example_lease.
Proof.
  unfold example_lease, payload_typed, id_typed, hash_typed, PayloadCodec.span_typed.
  cbn [sp_offset sp_len]. split_and!; first [reflexivity | vm_compute; congruence].
Qed.

Lemma payload_roundtrip_witness :
  JournalPayload_decode RecordType.LeaseStarted example_lease_bytes = Ok example_lease.
Proof.
  apply (payload_roundtrip example_lease example_lease_bytes); [apply example_lease_typed|].
  vm_compute. reflexivity.
Defined.

Lemma payload_codec_exact_witness :
  JournalPayload_decode RecordType.LeaseStarted example_lease_bytes = Ok example_lease
  /\ JournalPayload_encode example_lease = Ok example_lease_bytes.
Proof.
  assert (JournalPayload_decode RecordType.LeaseStarted example_lease_bytes = Ok example_lease) as E
    by (vm_compute; reflexivity).
  split; [exact E|]. apply (proj1 (payload_codec_exact RecordType.LeaseStarted example_lease_bytes
    example_lease ltac:(discriminate)) E).
Defined.

Lemma decoded_payload_typed_witness : payload_typed example_lease.
Proof.
  apply (decoded_payload_typed RecordType.LeaseStarted example_lease_bytes example_lease).
  vm_compute. reflexivity.
Defined.

Definition example_entries : list (str * str) :=
  [(ascii_bytes "out", ascii_bytes "b.iso"); (ascii_bytes "dir", ascii_bytes "/srv")].
Definition example_map : SanitizedOptionMap :=
  mkSanitizedOptionMap (rev example_entries) (4 + 16 + 6 + 9).

Lemma option_map_new_sorted_witness : option_map_typed example_map /\ om_entries example_map ≡ₚ example_entries.
Proof.
  destruct (option_map_new_sorted example_entries example_map) as (Ht & Hp & _);
    [repeat constructor|vm_compute; reflexivity|by split].
Defined.

Definition example_expansion : MetadataExpansion :=
  mkMetadataExpansion (mkMetadataParent 1 0 (repeat x01 32) (repeat x02 32) 30 false) [2; 3].

Lemma metadata_expansion_roundtrip_witness :
  MetadataExpansion_parse (MetadataExpansion_canonical example_expansion) = Some example_expansion.
Proof.
  apply (metadata_expansion_roundtrip example_expansion); [|vm_compute; reflexivity].
  split; repeat constructor; vm_compute; congruence.
Defined.

(** The text of a metadata expansion is not canonical: a number with a plus
    sign decodes to the same payload as the text the encoder writes, so different
    journal bytes hold the same record. *)
Theorem metadata_complete_not_canonical :
  exists b c, b <> c
    /\ JournalPayload_decode RecordType.MetadataComplete b
       = Ok (JournalPayload.MetadataComplete example_expansion 7)
    /\ JournalPayload_decode RecordType.MetadataComplete c
       = Ok (JournalPayload.MetadataComplete example_expansion 7).
Proof.
  pose (text s := RootBinding.sized (ascii_bytes "1|0000000000000001|0|" ++ hash_to_string (repeat x01 32)
    ++ ascii_bytes "|" ++ hash_to_string (repeat x02 32) ++ ascii_bytes "|" ++ ascii_bytes s
    ++ ascii_bytes "|0|0000000000000002,0000000000000003") ++ u64_le 7).
  exists (text "30"%string), (text "+30"%string).
  split_and!; [by intros E%(f_equal blen)|vm_compute; reflexivity..].
Qed.
