(* ===== verification/Verification.v ===== *)
(** * Verification manifests

    Model of [crates/ariax-storage/src/verification.rs]: the immutable checksum
    requirement of an output, its canonical bytes and fingerprint, and the
    journal payloads that carry it in parts. *)

From S2P Require Import Prelude Bytes Utf8 ConcreteDigests Paths RootBinding Journal PayloadTypes MetadataExpansion Payload PayloadCodec PayloadExact.
From Stdlib Require Import Init.Byte Strings.Byte.
Open Scope list_scope.

Definition MAX_VERIFICATION_CHUNKS : N := 1048576.
Definition VERIFICATION_MANIFEST_DOMAIN : bytes := ascii_bytes "ariax/verification-manifest/v1" ++ [x00].

Record VerificationManifest : Set := mkVerificationManifest {
  vm_total_length : N;
  vm_chunk_length : N;
  vm_chunks : list JournalDigest;
  vm_whole : list JournalDigest;
  vm_fingerprint : JournalHash;
}.

Module VerificationManifestError.
Inductive VerificationManifestError : Set := InvalidGeometry | InvalidDigestSet | Limit | Malformed.
End VerificationManifestError.
Notation VerificationManifestError := VerificationManifestError.VerificationManifestError.

Definition algorithm_tag (algorithm : JournalDigestAlgorithm) : N :=
  match algorithm with
  | JournalDigestAlgorithm.Md5 => 1
  | JournalDigestAlgorithm.Sha1 => 2
  | JournalDigestAlgorithm.Sha256 => 3
  | JournalDigestAlgorithm.Sha512 => 4
  end.

(** The sum of the retained sizes of digests. *)
Definition retained (digests : list JournalDigest) : N :=
  foldr (fun digest n => blen (jd_value digest) + 48 + n) 0 digests.

Definition retained_bytes (self : VerificationManifest) : N :=
  128 + retained (vm_chunks self ++ vm_whole self).

Definition is_strong (digest : JournalDigest) : bool :=
  match jd_algorithm digest with
  | JournalDigestAlgorithm.Sha256 | JournalDigestAlgorithm.Sha512 => true
  | _ => false
  end.
Definition proves_strict_identity (self : VerificationManifest) : bool :=
  existsb is_strong (vm_whole self)
  || (negb (blen (vm_chunks self) =? 0) && forallb is_strong (vm_chunks self)).

Definition u64_checked_mul (a b : N) : option N := if a * b <=? U64_MAX then Some (a * b) else None.
Definition u64_checked_sub (a b : N) : option N := if b <=? a then Some (a - b) else None.

Definition chunk_span (self : VerificationManifest) (index : N) : option PersistedSpan :=
  start ← u64_checked_mul index (vm_chunk_length self);
  left ← u64_checked_sub (vm_total_length self) start;
  let len := N.min (vm_chunk_length self) left in
  match PersistedSpan_new start len with Ok span => Some span | Err _ => None end.

Definition encode_digest (digest : JournalDigest) : bytes :=
  byte_of (algorithm_tag (jd_algorithm digest)) :: jd_value digest.

(** The bytes of the four fields; the fingerprint is not among them. *)
Definition manifest_bytes (total_length chunk_length : N) (chunks whole : list JournalDigest) : bytes :=
  [x01] ++ u64_le total_length ++ u64_le chunk_length ++ u32_le (blen chunks)
  ++ [byte_of (blen whole)] ++ concat (encode_digest <$> chunks ++ whole).
Definition VerificationManifest_encode (self : VerificationManifest) : bytes :=
  manifest_bytes (vm_total_length self) (vm_chunk_length self) (vm_chunks self) (vm_whole self).

(** [windows(2)] with different algorithms. *)
Fixpoint mixed_algorithms (chunks : list JournalDigest) : bool :=
  match chunks with
  | a :: ((b :: _) as rest) => (jd_algorithm a != jd_algorithm b) || mixed_algorithms rest
  | _ => false
  end.

(** [n as u32]. *)
Definition as_u32 (n : N) : N := n mod 2 ^ 32.

(** [slice::chunks]; the length of the slice is enough fuel for a positive size. *)
Fixpoint chunks_of (fuel : nat) (size : N) (b : bytes) : list bytes :=
  match fuel with
  | O => []
  | S fuel => if blen b =? 0 then [] else upto size b :: chunks_of fuel size (skip size b)
  end.
Definition slice_chunks (size : N) (b : bytes) : list bytes := chunks_of (length b) size b.

Section manifest.
Context `{Digests}.

(** [JournalHash::new] on the SHA-256 output is followed by [expect]. *)
Definition hash_bytes (b : bytes) : JournalHash := sha256 (VERIFICATION_MANIFEST_DOMAIN ++ b).

Definition VerificationManifest_new (total_length chunk_length : N) (chunks whole : list JournalDigest)
    : result VerificationManifestError VerificationManifest :=
  if (chunk_length =? 0)
     || (negb (blen chunks =? 0) && negb (div_ceil total_length chunk_length =? blen chunks))
  then Err VerificationManifestError.InvalidGeometry
  else if (MAX_VERIFICATION_CHUNKS <? blen chunks) || (2 <? blen whole)
          || (MAX_VERIFICATION_MANIFEST_BYTES <? retained (chunks ++ whole))
  then Err VerificationManifestError.Limit
  else if mixed_algorithms chunks
          || match whole with
             | [a; b] => (jd_algorithm a == jd_algorithm b) && (a != b)
             | _ => false
             end
  then Err VerificationManifestError.InvalidDigestSet
  else Ok {|
    vm_total_length := total_length; vm_chunk_length := chunk_length; vm_chunks := chunks;
    vm_whole := whole;
    vm_fingerprint := hash_bytes (manifest_bytes total_length chunk_length chunks whole);
  |}.

(** [take]: the front of the remaining bytes. *)
Definition manifest_take (n : N) (b : bytes) : result VerificationManifestError (bytes * bytes) :=
  if blen b <? n then Err VerificationManifestError.Malformed else Ok (upto n b, skip n b).

Definition algorithm_of_tag (tag : bytes) : option JournalDigestAlgorithm :=
  let tag := le_val tag in
  if tag =? 1 then Some JournalDigestAlgorithm.Md5
  else if tag =? 2 then Some JournalDigestAlgorithm.Sha1
  else if tag =? 3 then Some JournalDigestAlgorithm.Sha256
  else if tag =? 4 then Some JournalDigestAlgorithm.Sha512
  else None.

(** [for index in 0..count + whole_count]; the caller splits the list. *)
Fixpoint decode_digests (n : nat) (b : bytes)
    : result VerificationManifestError (list JournalDigest * bytes) :=
  match n with
  | O => Ok ([], b)
  | S n =>
    '(tag, b) ← manifest_take 1 b;
    algorithm ← ok_or (algorithm_of_tag tag) VerificationManifestError.Malformed;
    '(value, b) ← manifest_take (digest_value_len algorithm) b;
    digest ← map_err (fun _ => VerificationManifestError.Malformed) (JournalDigest_new algorithm value);
    '(digests, b) ← decode_digests n b;
    Ok (digest :: digests, b)
  end.

Definition VerificationManifest_decode (b : bytes)
    : result VerificationManifestError VerificationManifest :=
  if MAX_VERIFICATION_MANIFEST_BYTES <? blen b then Err VerificationManifestError.Limit
  else
    '(version, b) ← manifest_take 1 b;
    if version != [x01] then Err VerificationManifestError.Malformed
    else
      '(total, b) ← manifest_take 8 b;
      '(length, b) ← manifest_take 8 b;
      '(count, b) ← manifest_take 4 b;
      '(whole_count, b) ← manifest_take 1 b;
      let count := le_val count in
      let whole_count := le_val whole_count in
      if (MAX_VERIFICATION_CHUNKS <? count) || (2 <? whole_count)
      then Err VerificationManifestError.Limit
      else if blen b <? (count + whole_count) * 17 then Err VerificationManifestError.Malformed
      else
        '(digests, b) ← decode_digests (N.to_nat (count + whole_count)) b;
        if negb (blen b =? 0) then Err VerificationManifestError.Malformed
        else VerificationManifest_new (le_val total) (le_val length) (upto count digests)
               (skip count digests).

Definition journal_payloads (self : VerificationManifest) : list JournalPayload :=
  let b := VerificationManifest_encode self in
  let count := as_u32 (div_ceil (blen b) VERIFICATION_MANIFEST_PART_BYTES) in
  imap (fun index part =>
    if N.of_nat index =? 0
    then JournalPayload.VerificationManifest (vm_fingerprint self) (as_u32 (blen b)) count part
    else JournalPayload.VerificationManifestChunk (vm_fingerprint self) (as_u32 (N.of_nat index)) count part)
    (slice_chunks VERIFICATION_MANIFEST_PART_BYTES b).
End manifest.

(** ** The manifest codec *)

Lemma manifest_take_Ok n b v r : manifest_take n b = Ok (v, r) <-> b = v ++ r /\ blen v = n.
Proof.
  unfold manifest_take. destruct (N.ltb_spec (blen b) n) as [Hlt|Hge]; split.
  - done.
  - intros [-> Hn]. len.
  - intros [= <- <-]. rewrite upto_skip. split; [done|len].
  - intros [-> Hn]. by rewrite upto_app, skip_app.
Qed.

Lemma algorithm_of_tag_Some tag a :
  blen tag = 1 -> algorithm_of_tag tag = Some a <-> tag = [byte_of (algorithm_tag a)].
Proof.
  intros Hl. destruct tag as [|t [|? ?]]; [done| |rewrite !blen_cons in Hl; lia]. split.
  - unfold algorithm_of_tag. cbn [le_val]. cbv zeta. rewrite N.mul_0_r, N.add_0_r. intros E.
    assert (byte_val t = algorithm_tag a) as <-.
    { repeat (case_match; [simplify_eq; by apply N.eqb_eq|]). done. }
    by rewrite byte_of_val.
  - intros [= ->]. by destruct a.
Qed.

Lemma decode_digests_Ok n : forall b ds r,
  decode_digests n b = Ok (ds, r)
  <-> b = concat (encode_digest <$> ds) ++ r /\ length ds = n /\ Forall digest_typed ds.
Proof.
  induction n as [|n IH]; intros b ds r; cbn [decode_digests].
  - split; [by intros [= <- <-]|]. intros (-> & ->%nil_length_inv & _). done.
  - split.
    + intros ([tag b1] & [-> Ht]%manifest_take_Ok & H)%bind_Ok.
      apply bind_Ok in H as (a & Ha%ok_or_Ok & H). apply (algorithm_of_tag_Some _ _ Ht) in Ha as ->.
      apply bind_Ok in H as ([v b2] & [-> Hv]%manifest_take_Ok & H).
      apply bind_Ok in H as (d & [-> Hd]%map_err_Ok%JournalDigest_new_Ok & H).
      apply bind_Ok in H as ([ds' b3] & (-> & <- & HF)%IH & [= <- <-]).
      split_and!; [|done|by constructor]. cbn. by rewrite <- app_assoc.
    + destruct ds as [|[a v] ds]; [by intros (_ & ? & _)|].
      intros (-> & [= Hn] & [Hd HF]%Forall_cons). unfold digest_typed in Hd. cbn in Hd.
      cbn [fmap list_fmap concat]. unfold encode_digest at 1. cbn [jd_algorithm jd_value app].
      rewrite <- app_assoc. apply bind_Ok. eexists ([_], _). split; [by apply manifest_take_Ok|].
      apply bind_Ok. exists a. split; [by apply ok_or_Ok, algorithm_of_tag_Some|].
      apply bind_Ok. eexists (v, _). split; [by apply manifest_take_Ok|].
      apply bind_Ok. eexists. split; [by apply map_err_Ok, JournalDigest_new_Ok|].
      apply bind_Ok. eexists (ds, r). split; [by apply IH|done].
Qed.

Lemma encoded_digests_len ds :
  Forall digest_typed ds ->
  17 * blen ds <= blen (concat (encode_digest <$> ds))
  /\ blen (concat (encode_digest <$> ds)) + 47 * blen ds = retained ds.
Proof.
  induction 1 as [|[a v] ds Hd HF IH]; [done|]. unfold digest_typed in Hd. cbn [jd_value jd_algorithm] in Hd.
  cbn [fmap list_fmap concat retained foldr]. unfold encode_digest at 1 3. cbn [jd_value jd_algorithm].
  fold (retained ds). change (list_fmap _ _ encode_digest ds) with (encode_digest <$> ds).
  assert (16 <= digest_value_len a) by (by destruct a). autorewrite with len. lia.
Qed.

Section manifest_codec.
Context `{Digests}.

(** What the fields of a constructed manifest satisfy. *)
Record manifest_valid (m : VerificationManifest) : Prop := {
  mv_total : vm_total_length m <= U64_MAX;
  mv_chunk : vm_chunk_length m <= U64_MAX;
  mv_digests : Forall digest_typed (vm_chunks m ++ vm_whole m);
  mv_new : VerificationManifest_new (vm_total_length m) (vm_chunk_length m) (vm_chunks m)
             (vm_whole m) = Ok m;
}.

Lemma VerificationManifest_new_Ok t c cs ws m :
  VerificationManifest_new t c cs ws = Ok m ->
  m = mkVerificationManifest t c cs ws (hash_bytes (manifest_bytes t c cs ws))
  /\ c <> 0 /\ (cs = [] \/ div_ceil t c = blen cs)
  /\ blen cs <= MAX_VERIFICATION_CHUNKS /\ blen ws <= 2
  /\ retained (cs ++ ws) <= MAX_VERIFICATION_MANIFEST_BYTES.
Proof.
  unfold VerificationManifest_new.
  destruct ((c =? 0) || _) eqn:E1; [done|]. destruct ((_ <? _) || _ || _) eqn:E2; [done|].
  destruct (mixed_algorithms cs || _); [done|]. intros [= <-].
  apply orb_false_iff in E1 as [Hc Hg]. rewrite !orb_false_iff, !N.ltb_ge in E2.
  destruct E2 as [[Hcs Hws] Hr]. apply N.eqb_neq in Hc. split_and!; [done..| |done|done|done].
  apply andb_false_iff in Hg as [Hz|Hd].
  - left. apply negb_false_iff, N.eqb_eq in Hz. by apply blen_0.
  - right. by apply negb_false_iff, N.eqb_eq in Hd.
Qed.

Lemma manifest_bytes_len t c cs ws :
  blen (manifest_bytes t c cs ws) = 22 + blen (concat (encode_digest <$> cs ++ ws)).
Proof. unfold manifest_bytes. len. Qed.

(** The canonical bytes of a valid manifest are within the decoder's bound. *)
Lemma encode_bound m :
  manifest_valid m -> 22 <= blen (VerificationManifest_encode m) <= MAX_VERIFICATION_MANIFEST_BYTES.
Proof.
  intros [_ _ Hd (_ & _ & _ & _ & _ & Hr)%VerificationManifest_new_Ok].
  unfold VerificationManifest_encode. rewrite manifest_bytes_len.
  destruct (encoded_digests_len _ Hd) as [_ Hl]. unfold MAX_VERIFICATION_MANIFEST_BYTES in *.
  destruct (N.eq_dec (blen (vm_chunks m ++ vm_whole m)) 0) as [Hz|]; [|lia].
  rewrite blen_0 in Hz. rewrite Hz. by vm_compute.
Qed.

Lemma decode_Ok b m :
  VerificationManifest_decode b = Ok m -> b = VerificationManifest_encode m /\ manifest_valid m.
Proof.
  unfold VerificationManifest_decode. destruct (MAX_VERIFICATION_MANIFEST_BYTES <? blen b); [done|].
  intros ([v b1] & [-> Hv]%manifest_take_Ok & E)%bind_Ok. case_bool_decide as Hver; [|done]. subst v.
  cbn [negb] in E.
  apply bind_Ok in E as ([t b2] & [-> Ht]%manifest_take_Ok & E).
  apply bind_Ok in E as ([c b3] & [-> Hc]%manifest_take_Ok & E).
  apply bind_Ok in E as ([n b4] & [-> Hn]%manifest_take_Ok & E).
  apply bind_Ok in E as ([w b5] & [-> Hw]%manifest_take_Ok & E). cbv zeta in E.
  destruct (_ || _) eqn:El; [done|]. apply orb_false_iff in El as [Hln%N.ltb_ge Hlw%N.ltb_ge].
  destruct (_ <? _); [done|].
  apply bind_Ok in E as ([ds b6] & (-> & Hds & HF)%decode_digests_Ok & E).
  destruct (N.eqb_spec (blen b6) 0) as [Hz|]; [|done]. rewrite blen_0 in Hz. subst b6. cbn [negb] in E.
  pose proof E as (-> & _)%VerificationManifest_new_Ok.
  assert (blen (upto (le_val n) ds) = le_val n) as Hcs by (autorewrite with len; unfold blen; lia).
  assert (blen (skip (le_val n) ds) = le_val w) as Hws by (autorewrite with len; unfold blen; lia).
  split.
  - unfold VerificationManifest_encode, manifest_bytes. cbn [vm_total_length vm_chunk_length vm_chunks vm_whole].
    rewrite Hcs, Hws, upto_skip, app_nil_r, !u64_le_val, u32_le_val by done.
    change [byte_of (le_val w)] with (le_bytes 1 (le_val w)).
    by rewrite le_bytes_le_val by (unfold blen in Hw; lia).
  - split; cbn [vm_total_length vm_chunk_length vm_chunks vm_whole]; [| |by rewrite upto_skip|done].
    + apply le_val_u64_bound. lia.
    + apply le_val_u64_bound. lia.
Qed.

Lemma decode_encode_manifest m :
  manifest_valid m -> VerificationManifest_decode (VerificationManifest_encode m) = Ok m.
Proof.
  intros Hm. pose proof (encode_bound m Hm) as [_ Hb]. destruct Hm as [Ht Hc Hd Hnew].
  pose proof Hnew as (_ & _ & _ & Hcs & Hws & _)%VerificationManifest_new_Ok.
  unfold VerificationManifest_decode. rewrite (proj2 (N.ltb_ge _ _)) by done.
  unfold VerificationManifest_encode, manifest_bytes.
  assert (le_val [byte_of (blen (vm_whole m))] = blen (vm_whole m)) as Ew.
  { cbn [le_val]. rewrite byte_val_of, N.mul_0_r, N.add_0_r. apply N.mod_small. lia. }
  assert (le_val (u32_le (blen (vm_chunks m))) = blen (vm_chunks m)) as Ec.
  { apply le_val_u32. unfold MAX_VERIFICATION_CHUNKS, U32_MAX in *. lia. }
  do 5 (apply bind_Ok; eexists (_, _); split; [apply manifest_take_Ok; split; [reflexivity|piece_len]|];
        cbv beta iota; try rewrite bool_decide_eq_true_2 by done; cbn [negb]).
  cbv zeta. rewrite Ew, Ec, !le_val_u64 by done.
  rewrite (proj2 (N.ltb_ge _ _)), (proj2 (N.ltb_ge _ _)) by done. cbn [orb].
  destruct (encoded_digests_len _ Hd) as [Hl _].
  rewrite (proj2 (N.ltb_ge _ _)) by (rewrite blen_app in Hl; lia).
  apply bind_Ok. eexists (_, []). split.
  - apply decode_digests_Ok. rewrite app_nil_r. split; [reflexivity|].
    rewrite length_app. unfold blen. split; [lia|done].
  - cbv beta iota. rewrite blen_nil, upto_app, skip_app by done. apply Hnew.
Qed.
End manifest_codec.

(** ** The journal parts of a manifest *)

Lemma chunks_of_concat fuel size b : 0 < size -> (length b <= fuel)%nat -> concat (chunks_of fuel size b) = b.
Proof.
  intros Hs. revert b. induction fuel as [|fuel IH]; intros b Hf; cbn [chunks_of].
  - by destruct b; simpl in *; [|lia].
  - destruct (N.eqb_spec (blen b) 0) as [Hz|Hz]; [by apply blen_0 in Hz as ->|].
    cbn [concat]. rewrite IH; [apply upto_skip|]. unfold skip, blen in *. rewrite length_drop. lia.
Qed.

Lemma chunks_of_lookup fuel size b i part :
  chunks_of fuel size b !! i = Some part ->
  part = upto size (skip (N.of_nat i * size) b) /\ N.of_nat i * size < blen b.
Proof.
  revert b i. induction fuel as [|fuel IH]; intros b i; cbn [chunks_of]; [done|].
  destruct (N.eqb_spec (blen b) 0); [done|]. destruct i as [|i].
  - intros [= <-]. split; [done|]. lia.
  - intros [-> Hi]%IH. rewrite skip_skip, blen_skip in *. split; [do 2 f_equal; lia|lia].
Qed.

Lemma div_ceil_lt a b i : 0 < b -> i < div_ceil a b <-> i * b < a.
Proof.
  intros Hb. unfold div_ceil.
  pose proof (N.div_mod' (a + b - 1) b). pose proof (N.mod_lt (a + b - 1) b ltac:(lia)).
  set (q := (a + b - 1) / b) in *. set (r := (a + b - 1) mod b) in *. clearbody q r. nia.
Qed.

(** The bytes a part carries. *)
Definition manifest_part (p : JournalPayload) : bytes :=
  match p with
  | JournalPayload.VerificationManifest _ _ _ part
  | JournalPayload.VerificationManifestChunk _ _ _ part => part
  | _ => []
  end.

Section parts.
Context `{Unicode, DigestLaws}.

Lemma manifest_parts m :
  manifest_part <$> journal_payloads m
  = slice_chunks VERIFICATION_MANIFEST_PART_BYTES (VerificationManifest_encode m).
Proof.
  unfold journal_payloads. cbv zeta. apply list_eq. intros i.
  rewrite list_lookup_fmap, list_lookup_imap. destruct (_ !! i); [|done]. simpl.
  by destruct (N.of_nat i =? 0).
Qed.

Lemma part_bounds n : 22 <= n <= MAX_VERIFICATION_MANIFEST_BYTES ->
  as_u32 n = n
  /\ as_u32 (div_ceil n VERIFICATION_MANIFEST_PART_BYTES) = div_ceil n VERIFICATION_MANIFEST_PART_BYTES
  /\ div_ceil n VERIFICATION_MANIFEST_PART_BYTES <= 1024.
Proof.
  intros [Hl Hn]. pose proof (div_ceil_lt n VERIFICATION_MANIFEST_PART_BYTES 1024 ltac:(done)) as Hc.
  unfold VERIFICATION_MANIFEST_PART_BYTES, MAX_VERIFICATION_MANIFEST_BYTES in *.
  set (c := div_ceil n _) in *. clearbody c. unfold as_u32. change (2 ^ 32) with 4294967296.
  rewrite !N.mod_small; lia.
Qed.

(** Each part is a payload the journal accepts. *)
Lemma manifest_part_accepted m p :
  manifest_valid m -> all_zero (vm_fingerprint m) = false -> p ∈ journal_payloads m ->
  payload_typed p /\ validate_payload p = Ok tt /\ payload_limits p.
Proof.
  intros Hm Hz (i & Hi)%list_elem_of_lookup. pose proof (encode_bound m Hm) as Hb.
  destruct Hm as [_ _ _ (Hf & _)%VerificationManifest_new_Ok].
  unfold journal_payloads in Hi. cbv zeta in Hi. rewrite list_lookup_imap in Hi.
  apply fmap_Some in Hi as (part & [-> Hi]%chunks_of_lookup & ->).
  set (b := VerificationManifest_encode m) in *. clearbody b.
  destruct (part_bounds _ Hb) as (En & Ec & Hc). rewrite En, Ec.
  apply div_ceil_lt in Hi; [|done]. set (c := div_ceil _ _) in *.
  assert (as_u32 (N.of_nat i) = N.of_nat i) as Ei by (apply N.mod_small; change (2 ^ 32) with 4294967296; lia).
  assert (hash_typed (vm_fingerprint m)) as Hh.
  { split; [|done]. rewrite Hf. cbn [vm_fingerprint]. unfold hash_bytes, blen. by rewrite sha256_len. }
  pose proof (div_ceil_lt (blen b) VERIFICATION_MANIFEST_PART_BYTES (N.of_nat i) ltac:(done)) as Hlt.
  fold c in Hlt. rewrite Ei. destruct (N.eqb_spec (N.of_nat i) 0) as [E0|E0].
  - rewrite E0, N.mul_0_l, skip_0. cbn [payload_typed validate_payload payload_limits].
    unfold u32_typed, MAX_VERIFICATION_MANIFEST_BYTES, VERIFICATION_MANIFEST_PART_BYTES, U32_MAX in *.
    rewrite blen_upto, N.eqb_refl, (N.min_comm (blen b)), N.eqb_refl.
    rewrite (proj2 (N.eqb_neq _ _)), (proj2 (N.ltb_ge _ _)) by lia.
    refine (conj (conj Hh (conj _ _)) (conj eq_refl _)); lia.
  - cbn [payload_typed validate_payload payload_limits]. unfold u32_typed.
    change (MAX_VERIFICATION_MANIFEST_BYTES / VERIFICATION_MANIFEST_PART_BYTES) with 1024.
    rewrite blen_upto, blen_skip. apply Hlt in Hi as Hs.
    unfold VERIFICATION_MANIFEST_PART_BYTES, U32_MAX in *.
    rewrite (proj2 (N.eqb_neq _ _)), (proj2 (N.leb_gt _ _)), (proj2 (N.ltb_ge _ _)),
      (proj2 (N.eqb_neq _ _)), (proj2 (N.ltb_ge _ _)) by lia.
    refine (conj (conj Hh (conj _ _)) (conj eq_refl _)); lia.
Qed.

Lemma part_written p :
  payload_typed p -> validate_payload p = Ok tt -> payload_limits p -> manifest_part p <> [] ->
  exists b, JournalPayload_encode p = Ok b.
Proof.
  intros Ht Hv Hl Hp. destruct p; try done; destruct Ht as ([Hh _] & _ & _).
  all: unfold JournalPayload_encode; rewrite Hv; cbn [payload_limits mbind result_bind] in *.
  all: eexists; cbn [enc_payload].
  all: match goal with |- context [?e []] => eassert (writes e _) as Hw by write_fields end.
  all: rewrite Hw; cbn [mbind result_bind app]; rewrite (proj2 (N.ltb_ge _ _)); [reflexivity|].
  all: unfold sized; autorewrite with len; rewrite Hh.
  all: unfold MAX_RECORD_PAYLOAD, VERIFICATION_MANIFEST_PART_BYTES in *; lia.
Qed.

Lemma part_nonempty m p : p ∈ journal_payloads m -> manifest_part p <> [].
Proof.
  intros Hp%(list_elem_of_fmap_2 manifest_part). rewrite manifest_parts in Hp.
  apply list_elem_of_lookup in Hp as (i & [-> Hi]%chunks_of_lookup).
  intros E%blen_0. rewrite blen_upto, blen_skip in E. unfold VERIFICATION_MANIFEST_PART_BYTES in *. lia.
Qed.

(** C33: A manifest has one encoding: bytes decode to a manifest if and only if
    they are its canonical bytes and the manifest is one the constructor accepts,
    with its fingerprint; so truncated, extended or altered bytes are rejected or
    are another manifest. *)
Theorem manifest_codec_exact b m :
  VerificationManifest_decode b = Ok m <-> b = VerificationManifest_encode m /\ manifest_valid m.
Proof.
  split; [apply decode_Ok|]. intros [-> Hm]. by apply decode_encode_manifest.
Qed.

(** C34: A manifest survives the journal: each payload it is split into encodes
    within the record bound and decodes to itself, and the parts in order decode
    to the manifest. *)
Theorem manifest_journal_roundtrip m :
  manifest_valid m -> all_zero (vm_fingerprint m) = false ->
  Forall (fun p => exists b, JournalPayload_encode p = Ok b
                    /\ JournalPayload_decode (record_type p) b = Ok p) (journal_payloads m)
  /\ VerificationManifest_decode (concat (manifest_part <$> journal_payloads m)) = Ok m.
Proof.
  intros Hm Hz. split.
  - apply Forall_forall. intros p Hp. destruct (manifest_part_accepted m p Hm Hz Hp) as (Ht & Hv & Hl).
    destruct (part_written p Ht Hv Hl (part_nonempty m p Hp)) as [b Hb].
    exists b. split; [done|]. by apply decode_encode.
  - rewrite manifest_parts. unfold slice_chunks. rewrite chunks_of_concat by done.
    by apply decode_encode_manifest.
Qed.

(** The chunks of a manifest with chunk digests are exactly the spans
    [[i * chunk_length, min ((i + 1) * chunk_length) total_length)]. *)
Lemma chunk_span_exact m i :
  manifest_valid m -> vm_chunks m <> [] ->
  chunk_span m i =
    if i <? blen (vm_chunks m)
    then Some (mkPersistedSpan (i * vm_chunk_length m)
                 (N.min (vm_chunk_length m) (vm_total_length m - i * vm_chunk_length m)))
    else None.
Proof.
  intros [Ht _ _ (_ & Hc & Hd & _)%VerificationManifest_new_Ok] Hne.
  destruct Hd as [Hd|Hd]; [done|]. pose proof (div_ceil_lt (vm_total_length m) (vm_chunk_length m) i) as Hi.
  rewrite Hd in Hi. specialize (Hi ltac:(lia)). unfold chunk_span, u64_checked_mul, u64_checked_sub.
  set (start := i * vm_chunk_length m) in *. clearbody start.
  destruct (N.ltb_spec i (blen (vm_chunks m))) as [Hlt|Hge].
  - apply Hi in Hlt. rewrite (proj2 (N.leb_le _ _)) by lia. cbn [mbind option_bind].
    rewrite (proj2 (N.leb_le _ _)) by lia. cbn [mbind option_bind].
    destruct (PersistedSpan_new start _) as [s|] eqn:E; [by apply PersistedSpan_new_Ok in E as [-> _]|].
    unfold PersistedSpan_new in E. rewrite (proj2 (N.eqb_neq _ _)) in E by lia.
    by rewrite u64_checked_add_fits in E by lia.
  - destruct (start <=? U64_MAX); [|done]. cbn [mbind option_bind].
    destruct (N.leb_spec start (vm_total_length m)) as [Hs|]; [|done]. cbn [mbind option_bind].
    assert (vm_total_length m - start = 0) as -> by lia. by rewrite N.min_0_r.
Qed.
End parts.

(** ** Witness *)

#[local] Existing Instance plain_unicode.
#[local] Existing Instance concrete_digests.
#[local] Existing Instance concrete_digest_laws.

(** Five bytes in chunks of three. *)
Definition example_digest (b : byte) : JournalDigest :=
  mkJournalDigest JournalDigestAlgorithm.Sha256 (repeat b 32).
Definition example_manifest : VerificationManifest :=
  let chunks := [example_digest x07; example_digest x08] in
  mkVerificationManifest 5 3 chunks [example_digest x09]
    (hash_bytes (manifest_bytes 5 3 chunks [example_digest x09])).

Lemma example_manifest_valid : manifest_valid example_manifest.
Proof. split; [by vm_compute..| |by vm_compute]. by repeat constructor. Qed.

Lemma manifest_journal_roundtrip_witness :
  VerificationManifest_decode (concat (manifest_part <$> journal_payloads example_manifest))
  = Ok example_manifest
  /\ blen (journal_payloads example_manifest) = 1.
Proof.
  split; [|by vm_compute].
  apply (manifest_journal_roundtrip example_manifest example_manifest_valid). by vm_compute.
Defined.
