(* ===== verification/JournalAppender.v ===== *)
(** * The control-journal appender

    Model of [crates/ariax-storage/src/journal_appender.rs]: the single owner of
    a task's journal, which appends, flushes, rotates, closes and reopens the
    active segment, and the recovery that validates an installed segment set and
    reopens it at its valid boundary.

    The journal directory is [JournalDisk]: the installed segment files in index
    order.  Directory capabilities, file names and publication candidates are
    left to the operating system; no other process writes these files, as the
    session owner guarantees.  Every system call may fail: an operation takes an
    oracle [Io] that gives the error of each kind of call, and a failed write
    leaves any prefix of its bytes behind. *)

From S2P Require Import Prelude Bytes Ids Paths Journal PayloadTypes Payload.
From Stdlib Require Import Init.Byte Strings.Byte.
Open Scope list_scope.

Definition TAIL_RECORD_HASH_DOMAIN : bytes :=
  ascii_bytes "ariax/journal-tail-record/v1" ++ [x00].

(** ** Vocabularies *)

Module JournalIoOperation.
Inductive JournalIoOperation : Set :=
| CreateDirectory
| InspectSegmentPath
| CreateTemporarySegment
| WriteSegmentHeader
| SyncSegment
| InstallSegment
| SyncDirectory
| OpenActiveSegment
| InspectActiveSegment
| ReadActiveSegment
| InspectRecoverySegment
| OpenRecoverySegment
| ReadRecoverySegment
| RepairRecoverySegment
| WriteRecord.
End JournalIoOperation.
Notation JournalIoOperation := JournalIoOperation.JournalIoOperation.

Definition JournalIoOperation_code (self : JournalIoOperation) : string :=
  match self with
  | JournalIoOperation.CreateDirectory => "create_directory"
  | JournalIoOperation.InspectSegmentPath => "inspect_segment_path"
  | JournalIoOperation.CreateTemporarySegment => "create_temporary_segment"
  | JournalIoOperation.WriteSegmentHeader => "write_segment_header"
  | JournalIoOperation.SyncSegment => "sync_segment"
  | JournalIoOperation.InstallSegment => "install_segment"
  | JournalIoOperation.SyncDirectory => "sync_directory"
  | JournalIoOperation.OpenActiveSegment => "open_active_segment"
  | JournalIoOperation.InspectActiveSegment => "inspect_active_segment"
  | JournalIoOperation.ReadActiveSegment => "read_active_segment"
  | JournalIoOperation.InspectRecoverySegment => "inspect_recovery_segment"
  | JournalIoOperation.OpenRecoverySegment => "open_recovery_segment"
  | JournalIoOperation.ReadRecoverySegment => "read_recovery_segment"
  | JournalIoOperation.RepairRecoverySegment => "repair_recovery_segment"
  | JournalIoOperation.WriteRecord => "write_record"
  end.

Definition ALL_JOURNAL_IO_OPERATIONS : list JournalIoOperation :=
  [ JournalIoOperation.CreateDirectory;
    JournalIoOperation.InspectSegmentPath;
    JournalIoOperation.CreateTemporarySegment;
    JournalIoOperation.WriteSegmentHeader;
    JournalIoOperation.SyncSegment;
    JournalIoOperation.InstallSegment;
    JournalIoOperation.SyncDirectory;
    JournalIoOperation.OpenActiveSegment;
    JournalIoOperation.InspectActiveSegment;
    JournalIoOperation.ReadActiveSegment;
    JournalIoOperation.InspectRecoverySegment;
    JournalIoOperation.OpenRecoverySegment;
    JournalIoOperation.ReadRecoverySegment;
    JournalIoOperation.RepairRecoverySegment;
    JournalIoOperation.WriteRecord ].

#[global] Instance JournalIoOperation_coded : Coded JournalIoOperation.
Proof. refine {| code_of := JournalIoOperation_code; all_of := ALL_JOURNAL_IO_OPERATIONS |}. by intros []. Defined.
#[global] Instance JournalIoOperation_eq_dec : EqDecision JournalIoOperation := coded_eq_dec.

Module JournalAppenderFault.
Inductive JournalAppenderFault : Set :=
| WriteRecord
| Flush
| Rotation
| Reopen.
End JournalAppenderFault.
Notation JournalAppenderFault := JournalAppenderFault.JournalAppenderFault.

Definition JournalAppenderFault_code (self : JournalAppenderFault) : string :=
  match self with
  | JournalAppenderFault.WriteRecord => "write_record"
  | JournalAppenderFault.Flush => "flush"
  | JournalAppenderFault.Rotation => "rotation"
  | JournalAppenderFault.Reopen => "reopen"
  end.

Definition ALL_JOURNAL_APPENDER_FAULTS : list JournalAppenderFault :=
  [ JournalAppenderFault.WriteRecord;
    JournalAppenderFault.Flush;
    JournalAppenderFault.Rotation;
    JournalAppenderFault.Reopen ].

#[global] Instance JournalAppenderFault_coded : Coded JournalAppenderFault.
Proof. refine {| code_of := JournalAppenderFault_code; all_of := ALL_JOURNAL_APPENDER_FAULTS |}. by intros []. Defined.
#[global] Instance JournalAppenderFault_eq_dec : EqDecision JournalAppenderFault := coded_eq_dec.

Module JournalTailMismatch.
Inductive JournalTailMismatch : Set :=
| Length
| Header
| InvalidTailRecord
| TailFingerprint.
End JournalTailMismatch.
Notation JournalTailMismatch := JournalTailMismatch.JournalTailMismatch.

Definition JournalTailMismatch_code (self : JournalTailMismatch) : string :=
  match self with
  | JournalTailMismatch.Length => "length"
  | JournalTailMismatch.Header => "header"
  | JournalTailMismatch.InvalidTailRecord => "invalid_tail_record"
  | JournalTailMismatch.TailFingerprint => "tail_fingerprint"
  end.

Definition ALL_JOURNAL_TAIL_MISMATCHES : list JournalTailMismatch :=
  [ JournalTailMismatch.Length;
    JournalTailMismatch.Header;
    JournalTailMismatch.InvalidTailRecord;
    JournalTailMismatch.TailFingerprint ].

#[global] Instance JournalTailMismatch_coded : Coded JournalTailMismatch.
Proof. refine {| code_of := JournalTailMismatch_code; all_of := ALL_JOURNAL_TAIL_MISMATCHES |}. by intros []. Defined.
#[global] Instance JournalTailMismatch_eq_dec : EqDecision JournalTailMismatch := coded_eq_dec.


(** The error of a system call; [read_exact] reports a short file itself. *)
Inductive IoError : Set :=
| Os (kind : N) (raw_os_error : option N)
| UnexpectedEof.
#[global] Instance IoError_eq_dec : EqDecision IoError.
Proof. solve_decision. Defined.

Module JournalAppenderError.
Inductive JournalAppenderError : Set :=
| Payload (error : PayloadCodecError)
| Journal (error : JournalEncodeError)
| Io (operation : JournalIoOperation) (error : IoError)
| Faulted (fault : JournalAppenderFault)
| FlushBeyondAppended (requested appended : N)
| UnflushedRecords (appended flushed : N)
| SegmentPathExists (temporary : bool)
| TailMismatch (mismatch : JournalTailMismatch)
| RecoverySegmentPath (input_index : N)
| RecoveryInputBytesExceeded (limit : N)
| RecoveryTaskMismatch (expected actual : Gid)
| RecoveryJournalMismatch (expected actual : JournalId)
| RecoveryStopped (stop : ReplayStop).
End JournalAppenderError.
Notation JournalAppenderError := JournalAppenderError.JournalAppenderError.
#[global] Instance JournalAppenderError_eq_dec : EqDecision JournalAppenderError.
Proof. solve_decision. Defined.

(** ** State *)

Record TailRecord : Set := mkTailRecord {
  tr_offset : N;
  tr_length : N;
  tr_fingerprint : bytes;
}.

Record ControlJournalAppender : Set := mkControlJournalAppender {
  ap_open : bool;
  ap_header : SegmentHeader;
  ap_valid_length : N;
  ap_next_sequence : N;
  ap_appended_sequence : N;
  ap_flushed_sequence : N;
  ap_tail_record : option TailRecord;
  ap_fault : option JournalAppenderFault;
}.
#[global] Instance ControlJournalAppender_eta : Settable ControlJournalAppender :=
  fun r => mkControlJournalAppender (ap_open r) (ap_header r) (ap_valid_length r)
    (ap_next_sequence r) (ap_appended_sequence r) (ap_flushed_sequence r) (ap_tail_record r)
    (ap_fault r).
#[global] Instance ap_open_set : Setter ap_open. Proof. derive_setter. Defined.
#[global] Instance ap_flushed_sequence_set : Setter ap_flushed_sequence.
Proof. derive_setter. Defined.
#[global] Instance ap_fault_set : Setter ap_fault. Proof. derive_setter. Defined.

(** The segment files: the sealed ones, the active one, and how many bytes of
    the active one are on stable storage. *)
Record JournalDisk : Set := mkJournalDisk {
  jd_sealed : list bytes;
  jd_active : bytes;
  jd_synced : N;
}.
#[global] Instance JournalDisk_eta : Settable JournalDisk :=
  fun r => mkJournalDisk (jd_sealed r) (jd_active r) (jd_synced r).
#[global] Instance jd_active_set : Setter jd_active. Proof. derive_setter. Defined.
#[global] Instance jd_synced_set : Setter jd_synced. Proof. derive_setter. Defined.

Definition segment_files (d : JournalDisk) : list bytes := jd_sealed d ++ [jd_active d].

Definition Io : Type := JournalIoOperation -> option IoError.

Definition io_call (io : Io) (operation : JournalIoOperation)
    : result JournalAppenderError unit :=
  match io operation with
  | Some error => Err (JournalAppenderError.Io operation error)
  | None => Ok tt
  end.

(** [seek(offset)] and [read_exact(len)]. *)
Definition read_at (io : Io) (operation : JournalIoOperation) (offset len : N) (file : bytes)
    : result JournalAppenderError bytes :=
  _ ← io_call io operation;
  if offset + len <=? blen file then Ok (slice offset len file)
  else Err (JournalAppenderError.Io operation UnexpectedEof).

(** [seek(offset)] and a write of [data]. *)
Definition write_at (offset : N) (data file : bytes) : bytes :=
  upto offset file ++ repeat x00 (N.to_nat (offset - blen file)) ++ data
  ++ skip (offset + blen data) file.

Definition sync_all (d : JournalDisk) : JournalDisk := d <| jd_synced := blen (jd_active d) |>.

Definition tail_mismatch {A} (m : JournalTailMismatch) : result JournalAppenderError A :=
  Err (JournalAppenderError.TailMismatch m).
Definition encode_error {A} (e : JournalEncodeError) : result JournalAppenderError A :=
  Err (JournalAppenderError.Journal e).

Section appender.
Context `{Digests}.

Definition tail_record_fingerprint (record : bytes) : bytes :=
  sha256 (TAIL_RECORD_HASH_DOMAIN ++ u64_le (blen record) ++ record).

Definition hash_open_segment (io : Io) (file : bytes) (valid_length : N)
    : result JournalAppenderError SegmentHash :=
  b ← read_at io JournalIoOperation.ReadActiveSegment 0 valid_length file;
  Ok (sha256 (SEGMENT_HASH_DOMAIN ++ u64_le valid_length ++ b)).

Definition validate_tail_record (io : Io) (file : bytes) (expected_header : SegmentHeader)
    (expected_length appended_sequence : N) (tail : TailRecord)
    : result JournalAppenderError unit :=
  if u64_checked_add (tr_offset tail) (tr_length tail) != Some expected_length
  then tail_mismatch JournalTailMismatch.Length
  else
    b ← read_at io JournalIoOperation.ReadActiveSegment (tr_offset tail) (tr_length tail) file;
    if validate_record b appended_sequence (sh_starting_generation expected_header)
       != Ok (tr_length tail)
    then tail_mismatch JournalTailMismatch.InvalidTailRecord
    else if tail_record_fingerprint b != tr_fingerprint tail
    then tail_mismatch JournalTailMismatch.TailFingerprint
    else Ok tt.

Definition validate_active_file (io : Io) (file : bytes) (expected_header : SegmentHeader)
    (expected_length appended_sequence : N) (tail_record : option TailRecord)
    : result JournalAppenderError unit :=
  _ ← io_call io JournalIoOperation.InspectActiveSegment;
  if blen file != expected_length then tail_mismatch JournalTailMismatch.Length
  else
    header_bytes ← read_at io JournalIoOperation.ReadActiveSegment 0 SEGMENT_HEADER_LEN file;
    if SegmentHeader_decode header_bytes != Ok expected_header
    then tail_mismatch JournalTailMismatch.Header
    else
      match tail_record with
      | Some tail =>
        validate_tail_record io file expected_header expected_length appended_sequence tail
      | None =>
        if (expected_length != SEGMENT_HEADER_LEN)
           || (u64_checked_add appended_sequence 1 != Some (sh_first_sequence expected_header))
        then tail_mismatch JournalTailMismatch.Length
        else Ok tt
      end.

(** ** Creating and installing segments

    [io] gives the calls up to publication and [io'] those after it; a failure
    after publication leaves the segment installed. *)

(** The calls that write and publish the temporary segment. *)
Definition publish_segment (io : Io) : result JournalAppenderError unit :=
  _ ← io_call io JournalIoOperation.InspectSegmentPath;
  _ ← io_call io JournalIoOperation.CreateTemporarySegment;
  _ ← io_call io JournalIoOperation.WriteSegmentHeader;
  _ ← io_call io JournalIoOperation.SyncSegment;
  io_call io JournalIoOperation.InstallSegment.

(** The barriers and the removal of a linked temporary name that follow. *)
Definition settle_segment (io' : Io) : result JournalAppenderError unit :=
  _ ← io_call io' JournalIoOperation.SyncSegment;
  _ ← io_call io' JournalIoOperation.SyncDirectory;
  _ ← io_call io' JournalIoOperation.InstallSegment;
  io_call io' JournalIoOperation.SyncDirectory.

Definition install_segment (io io' : Io) (d : JournalDisk) (header : SegmentHeader)
    : result JournalAppenderError unit * JournalDisk :=
  match publish_segment io with
  | Err e => (Err e, d)
  | Ok _ =>
    (settle_segment io', {|
      jd_sealed := segment_files d;
      jd_active := SegmentHeader_encode header;
      jd_synced := SEGMENT_HEADER_LEN;
    |})
  end.

Definition create (io io' : Io) (task_gid : Gid) (journal_id : JournalId)
    (starting_generation : Generation) (created_at_unix_ms : N)
    : result JournalAppenderError (ControlJournalAppender * JournalDisk) :=
  _ ← io_call io JournalIoOperation.CreateDirectory;
  let header :=
    SegmentHeader_first task_gid journal_id starting_generation created_at_unix_ms in
  _ ← publish_segment io;
  _ ← settle_segment io';
  _ ← io_call io' JournalIoOperation.OpenActiveSegment;
  Ok ({|
    ap_open := true;
    ap_header := header;
    ap_valid_length := SEGMENT_HEADER_LEN;
    ap_next_sequence := sh_first_sequence header;
    ap_appended_sequence := sh_first_sequence header - 1;
    ap_flushed_sequence := sh_first_sequence header - 1;
    ap_tail_record := None;
    ap_fault := None;
  |}, {| jd_sealed := [];
         jd_active := SegmentHeader_encode header;
         jd_synced := SEGMENT_HEADER_LEN |}).

(** ** Appending, flushing, closing, rotating

    An operation returns its result with the appender and the disk it leaves. *)

Definition ensure_healthy (self : ControlJournalAppender) : result JournalAppenderError unit :=
  match ap_fault self with
  | Some fault => Err (JournalAppenderError.Faulted fault)
  | None => Ok tt
  end.

Definition ensure_open (io : Io) (self : ControlJournalAppender) (d : JournalDisk)
    : result JournalAppenderError unit * ControlJournalAppender :=
  if ap_open self then (Ok tt, self)
  else
    match (_ ← io_call io JournalIoOperation.OpenActiveSegment;
           validate_active_file io (jd_active d) (ap_header self) (ap_valid_length self)
             (ap_appended_sequence self) (ap_tail_record self)) with
    | Err error => (Err error, self <| ap_fault := Some JournalAppenderFault.Reopen |>)
    | Ok _ => (Ok tt, self <| ap_open := true |>)
    end.

(** The record and the counters an append writes. *)
Definition plan_append (self : ControlJournalAppender) (record_type : RecordType)
    (generation : Generation) (payload : bytes)
    : result JournalAppenderError (bytes * N * N) :=
  _ ← ensure_healthy self;
  if generation <? sh_starting_generation (ap_header self)
  then encode_error JournalEncodeError.GenerationBeforeSegment
  else
    let sequence := ap_next_sequence self in
    next_sequence ← ok_or (u64_checked_add sequence 1)
      (JournalAppenderError.Journal JournalEncodeError.SequenceExhausted);
    record ← map_err JournalAppenderError.Journal
      (encode_record record_type generation sequence payload);
    next_length ← ok_or (u64_checked_add (ap_valid_length self) (blen record))
      (JournalAppenderError.Journal JournalEncodeError.AllocationFailed);
    Ok (record, next_sequence, next_length).

(** [written] is how much of the record a failing write leaves in the file. *)
Definition appender_append (io : Io) (written : N) (self : ControlJournalAppender)
    (d : JournalDisk) (record_type : RecordType) (generation : Generation) (payload : bytes)
    : result JournalAppenderError N * ControlJournalAppender * JournalDisk :=
  match plan_append self record_type generation payload with
  | Err e => (Err e, self, d)
  | Ok (record, next_sequence, next_length) =>
    match ensure_open io self d with
    | (Err e, self) => (Err e, self, d)
    | (Ok _, self) =>
      match io JournalIoOperation.WriteRecord with
      | Some error =>
        (Err (JournalAppenderError.Io JournalIoOperation.WriteRecord error),
         self <| ap_fault := Some JournalAppenderFault.WriteRecord |>,
         d <| jd_active := write_at (ap_valid_length self) (upto written record) (jd_active d) |>)
      | None =>
        (Ok (ap_next_sequence self),
         {| ap_open := ap_open self;
            ap_header := ap_header self;
            ap_valid_length := next_length;
            ap_next_sequence := next_sequence;
            ap_appended_sequence := ap_next_sequence self;
            ap_flushed_sequence := ap_flushed_sequence self;
            ap_tail_record := Some {|
              tr_offset := ap_valid_length self;
              tr_length := blen record;
              tr_fingerprint := tail_record_fingerprint record |};
            ap_fault := ap_fault self |},
         d <| jd_active := write_at (ap_valid_length self) record (jd_active d) |>)
      end
    end
  end.

Definition flush (io : Io) (self : ControlJournalAppender) (d : JournalDisk)
    (up_to_sequence : N)
    : result JournalAppenderError N * ControlJournalAppender * JournalDisk :=
  match ensure_healthy self with
  | Err e => (Err e, self, d)
  | Ok _ =>
    if ap_appended_sequence self <? up_to_sequence
    then (Err (JournalAppenderError.FlushBeyondAppended up_to_sequence
                 (ap_appended_sequence self)), self, d)
    else if up_to_sequence <=? ap_flushed_sequence self
    then (Ok (ap_flushed_sequence self), self, d)
    else
      match ensure_open io self d with
      | (Err e, self) => (Err e, self, d)
      | (Ok _, self) =>
        match io JournalIoOperation.SyncSegment with
        | Some error =>
          (Err (JournalAppenderError.Io JournalIoOperation.SyncSegment error),
           self <| ap_fault := Some JournalAppenderFault.Flush |>, d)
        | None =>
          (Ok (ap_appended_sequence self),
           self <| ap_flushed_sequence := ap_appended_sequence self |>, sync_all d)
        end
      end
  end.

Definition close_flushed (self : ControlJournalAppender)
    : result JournalAppenderError unit * ControlJournalAppender :=
  match ensure_healthy self with
  | Err e => (Err e, self)
  | Ok _ =>
    if ap_appended_sequence self != ap_flushed_sequence self
    then (Err (JournalAppenderError.UnflushedRecords (ap_appended_sequence self)
                 (ap_flushed_sequence self)), self)
    else (Ok tt, self <| ap_open := false |>)
  end.

Definition rotation_fault (self : ControlJournalAppender) : ControlJournalAppender :=
  self <| ap_fault := Some JournalAppenderFault.Rotation |>.

(** The part of [rotate] after its guards, on an open file.  [io_install] and
    [io_publish] are the oracles of [install_segment]. *)
Definition rotate_open (io io_install io_publish : Io) (self : ControlJournalAppender)
    (d : JournalDisk) (starting_generation : Generation) (created_at_unix_ms : N)
    : result JournalAppenderError SegmentHeader * ControlJournalAppender * JournalDisk :=
  match validate_active_file io (jd_active d) (ap_header self) (ap_valid_length self)
          (ap_appended_sequence self) (ap_tail_record self) with
  | Err e => (Err e, rotation_fault self, d)
  | Ok _ =>
    match io_call io JournalIoOperation.SyncSegment with
    | Err e => (Err e, rotation_fault self, d)
    | Ok _ =>
      let d := sync_all d in
      match hash_open_segment io (jd_active d) (ap_valid_length self) with
      | Err e => (Err e, rotation_fault self, d)
      | Ok previous_segment_hash =>
        match successor (ap_header self) (ap_appended_sequence self) previous_segment_hash
                starting_generation created_at_unix_ms with
        | Err e => (encode_error e, self, d)
        | Ok next_header =>
          let self := self <| ap_open := false |> in
          match install_segment io_install io_publish d next_header with
          | (Err e, d) => (Err e, rotation_fault self, d)
          | (Ok _, d) =>
            match io_call io_publish JournalIoOperation.OpenActiveSegment with
            | Err e => (Err e, rotation_fault self, d)
            | Ok _ =>
              (Ok next_header,
               {| ap_open := true;
                  ap_header := next_header;
                  ap_valid_length := SEGMENT_HEADER_LEN;
                  ap_next_sequence := sh_first_sequence next_header;
                  ap_appended_sequence := ap_appended_sequence self;
                  ap_flushed_sequence := ap_flushed_sequence self;
                  ap_tail_record := None;
                  ap_fault := ap_fault self |}, d)
            end
          end
        end
      end
    end
  end.

Definition appender_rotate (io io_install io_publish : Io) (self : ControlJournalAppender)
    (d : JournalDisk) (starting_generation : Generation) (created_at_unix_ms : N)
    : result JournalAppenderError SegmentHeader * ControlJournalAppender * JournalDisk :=
  match ensure_healthy self with
  | Err e => (Err e, self, d)
  | Ok _ =>
    if ap_appended_sequence self <? sh_first_sequence (ap_header self)
    then (encode_error JournalEncodeError.CannotRotateEmptySegment, self, d)
    else if ap_appended_sequence self != ap_flushed_sequence self
    then (Err (JournalAppenderError.UnflushedRecords (ap_appended_sequence self)
                 (ap_flushed_sequence self)), self, d)
    else
      match ensure_open io self d with
      | (Err e, self) => (Err e, self, d)
      | (Ok _, self) =>
        rotate_open io io_install io_publish self d starting_generation created_at_unix_ms
      end
  end.

(** ** Recovery *)

Definition usize_checked_mul (a b : N) : option N :=
  if a * b <=? USIZE_MAX then Some (a * b) else None.

Definition recovery_encoded_byte_budget (limits : ReplayLimits)
    : result JournalAppenderError N :=
  ok_or (headers ← usize_checked_mul (rl_max_segments limits) SEGMENT_HEADER_LEN;
         records ← usize_checked_mul (rl_max_records limits) RECORD_OVERHEAD;
         framing ← u64_checked_add headers records;
         u64_checked_add framing (rl_max_payload_bytes limits))
    (JournalAppenderError.Journal JournalEncodeError.AllocationFailed).

(** [read_recovery_segment] over the installed files, with what is left of the
    byte budget. *)
Fixpoint read_recovery_segments (io : Io) (encoded_byte_budget remaining_byte_budget : N)
    (files : list bytes) : result JournalAppenderError unit :=
  match files with
  | [] => Ok tt
  | file :: files =>
    _ ← io_call io JournalIoOperation.InspectRecoverySegment;
    if remaining_byte_budget <? blen file
    then Err (JournalAppenderError.RecoveryInputBytesExceeded encoded_byte_budget)
    else
      _ ← io_call io JournalIoOperation.ReadRecoverySegment;
      read_recovery_segments io encoded_byte_budget (remaining_byte_budget - blen file) files
  end.

Definition repairable_recovery_tail (reason : RecordStopReason) : bool :=
  match reason with
  | RecordStopReason.TruncatedFraming
  | RecordStopReason.InvalidMagic
  | RecordStopReason.PayloadTooLarge
  | RecordStopReason.UnknownRecordType
  | RecordStopReason.UnknownFlags
  | RecordStopReason.LengthOverflow
  | RecordStopReason.TruncatedRecord
  | RecordStopReason.BadCrc
  | RecordStopReason.MissingCommit => true
  | RecordStopReason.SequenceGap _ _
  | RecordStopReason.GenerationBeforeSegment => false
  end.

Definition recovery_stopped {A} (stop : ReplayStop) : result JournalAppenderError A :=
  Err (JournalAppenderError.RecoveryStopped stop).

(** Which replays recovery may open, of [segments] installed files. *)
Definition recoverable (segments : N) (replay : JournalReplay) : bool :=
  match rp_stop replay with
  | ReplayStop.CleanEnd => true
  | ReplayStop.Record segment_index _ reason =>
    (segment_index + 1 == segments)
    && (blen (rp_valid_segment_prefixes replay) == segments)
    && repairable_recovery_tail reason
  | _ => false
  end.

(** The installed files of a directory with at least one segment. *)
Definition prepare_recovered (io : Io) (d : JournalDisk) (expected_task_gid : Gid)
    (expected_journal_id : JournalId) (limits : ReplayLimits)
    : result JournalAppenderError JournalReplay :=
  let files := segment_files d in
  if rl_max_segments limits <? blen files
  then recovery_stopped (ReplayStop.ResourceLimit ReplayResource.Segments)
  else
    encoded_byte_budget ← recovery_encoded_byte_budget limits;
    if U32_MAX <? blen files - 1
    then recovery_stopped (ReplayStop.ResourceLimit ReplayResource.Segments)
    else
      _ ← io_call io JournalIoOperation.OpenRecoverySegment;
      _ ← read_recovery_segments io encoded_byte_budget encoded_byte_budget files;
      first_header ← map_err (fun error =>
          JournalAppenderError.RecoveryStopped (ReplayStop.Header 0 error))
        (SegmentHeader_decode (default [] (head files)));
      if sh_task_gid first_header != expected_task_gid
      then Err (JournalAppenderError.RecoveryTaskMismatch expected_task_gid
                  (sh_task_gid first_header))
      else if sh_journal_id first_header != expected_journal_id
      then Err (JournalAppenderError.RecoveryJournalMismatch expected_journal_id
                  (sh_journal_id first_header))
      else
        let replay := replay_ordered_segments files limits in
        if recoverable (blen files) replay then Ok replay
        else recovery_stopped (rp_stop replay).

Definition recovered_tail_record (active_bytes : bytes) (header : SegmentHeader)
    (replay : JournalReplay) : result JournalAppenderError (option TailRecord) :=
  if rp_last_sequence replay <? sh_first_sequence header then Ok None
  else
    record ← ok_or (last (rp_records replay))
      (JournalAppenderError.TailMismatch JournalTailMismatch.InvalidTailRecord);
    if jr_sequence record != rp_last_sequence replay
    then tail_mismatch JournalTailMismatch.InvalidTailRecord
    else
      length ← ok_or (u64_checked_add RECORD_OVERHEAD (blen (jr_payload record)))
        (JournalAppenderError.Journal JournalEncodeError.AllocationFailed);
      if blen active_bytes <? length then tail_mismatch JournalTailMismatch.Length
      else
        let offset := blen active_bytes - length in
        if (offset <? SEGMENT_HEADER_LEN)
           || (validate_record (skip offset active_bytes) (rp_last_sequence replay)
                 (sh_starting_generation header) != Ok length)
        then tail_mismatch JournalTailMismatch.InvalidTailRecord
        else Ok (Some {|
          tr_offset := offset;
          tr_length := length;
          tr_fingerprint := tail_record_fingerprint (skip offset active_bytes);
        |}).

(** An opening returns its result with the disk it leaves. *)
Definition open_clean_recovered_appender (io : Io) (d : JournalDisk) (replay : JournalReplay)
    : result JournalAppenderError ControlJournalAppender * JournalDisk :=
  let active_bytes := jd_active d in
  let opened :=
    header ← map_err (fun error =>
        JournalAppenderError.RecoveryStopped (ReplayStop.Header (blen (jd_sealed d)) error))
      (SegmentHeader_decode active_bytes);
    tail_record ← recovered_tail_record active_bytes header replay;
    let last_sequence := rp_last_sequence replay in
    next_sequence ← ok_or (u64_checked_add last_sequence 1)
      (JournalAppenderError.Journal JournalEncodeError.SequenceExhausted);
    _ ← io_call io JournalIoOperation.InspectRecoverySegment;
    _ ← io_call io JournalIoOperation.ReadRecoverySegment;
    _ ← validate_active_file io active_bytes header (blen active_bytes) last_sequence tail_record;
    _ ← io_call io JournalIoOperation.SyncSegment;
    Ok {|
      ap_open := true;
      ap_header := header;
      ap_valid_length := blen active_bytes;
      ap_next_sequence := next_sequence;
      ap_appended_sequence := last_sequence;
      ap_flushed_sequence := last_sequence;
      ap_tail_record := tail_record;
      ap_fault := None;
    |} in
  (opened, if is_ok opened then sync_all d else d).

(** Truncation of the active file to its valid prefix, then [sync_all]. *)
Definition repair_recovery_segment (io : Io) (d : JournalDisk) (valid_prefix : N)
    : result JournalAppenderError unit * JournalDisk :=
  match (_ ← io_call io JournalIoOperation.InspectRecoverySegment;
         _ ← io_call io JournalIoOperation.ReadRecoverySegment;
         io_call io JournalIoOperation.RepairRecoverySegment) with
  | Err e => (Err e, d)
  | Ok _ =>
    let d := d <| jd_active := upto valid_prefix (jd_active d) |>
               <| jd_synced := N.min valid_prefix (jd_synced d) |> in
    match io_call io JournalIoOperation.SyncSegment with
    | Err e => (Err e, d)
    | Ok _ => (Ok tt, sync_all d)
    end
  end.

(** The successor a repaired segment needs; [None] when the repaired segment is
    an empty first one, which is reopened. *)
Definition repair_header (io : Io) (d : JournalDisk) (replay : JournalReplay) (valid_prefix : N)
    (recovery_starting_generation : Generation) (recovery_created_at_unix_ms : N)
    : result JournalAppenderError (option SegmentHeader) :=
  let active_bytes := jd_active d in
  if (last (rp_valid_segment_prefixes replay) != Some valid_prefix)
     || (valid_prefix <? SEGMENT_HEADER_LEN) || (blen active_bytes <=? valid_prefix)
  then recovery_stopped (rp_stop replay)
  else
    header ← map_err (fun error =>
        JournalAppenderError.RecoveryStopped (ReplayStop.Header (blen (jd_sealed d)) error))
      (SegmentHeader_decode active_bytes);
    let last_sequence := rp_last_sequence replay in
    if (sh_segment_index header == 0) && (last_sequence == 0) then Ok None
    else
      next_header ← map_err JournalAppenderError.Journal
        (recovery_successor header last_sequence (hash_segment (upto valid_prefix active_bytes))
           recovery_starting_generation recovery_created_at_unix_ms);
      _ ← io_call io JournalIoOperation.InspectSegmentPath;
      Ok (Some next_header).

Definition open_repaired_recovered_appender (io io_install io_publish : Io) (d : JournalDisk)
    (replay : JournalReplay) (valid_prefix : N) (recovery_starting_generation : Generation)
    (recovery_created_at_unix_ms : N)
    : result JournalAppenderError ControlJournalAppender * JournalDisk :=
  match repair_header io d replay valid_prefix recovery_starting_generation
          recovery_created_at_unix_ms with
  | Err e => (Err e, d)
  | Ok next_header =>
    match repair_recovery_segment io d valid_prefix with
    | (Err e, d) => (Err e, d)
    | (Ok _, d) =>
      match next_header with
      | None => open_clean_recovered_appender io d replay
      | Some next_header =>
        match install_segment io_install io_publish d next_header with
        | (Err e, d) => (Err e, d)
        | (Ok _, d) =>
          let last_sequence := rp_last_sequence replay in
          let opened :=
            _ ← io_call io_publish JournalIoOperation.OpenActiveSegment;
            _ ← validate_active_file io_publish (jd_active d) next_header SEGMENT_HEADER_LEN
                  last_sequence None;
            Ok {|
              ap_open := true;
              ap_header := next_header;
              ap_valid_length := SEGMENT_HEADER_LEN;
              ap_next_sequence := sh_first_sequence next_header;
              ap_appended_sequence := last_sequence;
              ap_flushed_sequence := last_sequence;
              ap_tail_record := None;
              ap_fault := None;
            |} in
          (opened, d)
        end
      end
    end
  end.

Definition open_prepared (io io_install io_publish : Io) (d : JournalDisk)
    (replay : JournalReplay) (recovery_starting_generation : Generation)
    (recovery_created_at_unix_ms : N)
    : result JournalAppenderError ControlJournalAppender * JournalDisk :=
  match rp_stop replay with
  | ReplayStop.CleanEnd => open_clean_recovered_appender io d replay
  | ReplayStop.Record _ offset _ =>
    open_repaired_recovered_appender io io_install io_publish d replay offset
      recovery_starting_generation recovery_created_at_unix_ms
  | stop => (recovery_stopped stop, d)
  end.

Definition open_recovered (io io_install io_publish : Io) (d : JournalDisk)
    (expected_task_gid : Gid) (expected_journal_id : JournalId) (limits : ReplayLimits)
    (recovery_starting_generation : Generation) (recovery_created_at_unix_ms : N)
    : result JournalAppenderError (ControlJournalAppender * JournalReplay) * JournalDisk :=
  match prepare_recovered io d expected_task_gid expected_journal_id limits with
  | Err e => (Err e, d)
  | Ok replay =>
    let (opened, d) := open_prepared io io_install io_publish d replay
      recovery_starting_generation recovery_created_at_unix_ms in
    ((fun a => (a, replay)) <$> opened, d)
  end.

(** [snapshot]: a flush, then a replay of the segment set it left. *)
Definition snapshot (io : Io) (self : ControlJournalAppender) (d : JournalDisk)
    (limits : ReplayLimits)
    : result JournalAppenderError JournalReplay * ControlJournalAppender * JournalDisk :=
  match flush io self d (ap_appended_sequence self) with
  | (Err e, self, d) => (Err e, self, d)
  | (Ok _, self, d) =>
    match prepare_recovered io d (sh_task_gid (ap_header self)) (sh_journal_id (ap_header self))
            limits with
    | Err e => (Err e, self, d)
    | Ok replay =>
      if (rp_stop replay != ReplayStop.CleanEnd)
         || (rp_last_sequence replay != ap_appended_sequence self)
      then (recovery_stopped (rp_stop replay), self, d)
      else (Ok replay, self, d)
    end
  end.
End appender.

(** [append_payload]: the only way records are appended. *)
Definition append_payload `{Unicode, Digests} (io : Io) (written : N)
    (self : ControlJournalAppender) (d : JournalDisk) (generation : Generation)
    (payload : JournalPayload)
    : result JournalAppenderError N * ControlJournalAppender * JournalDisk :=
  match ensure_healthy self with
  | Err e => (Err e, self, d)
  | Ok _ =>
    match JournalPayload_encode payload with
    | Err e => (Err (JournalAppenderError.Payload e), self, d)
    | Ok encoded => appender_append io written self d (record_type payload) generation encoded
    end
  end.
