(* ===== verification/JournalDurable.v ===== *)
(** * Durability of the control journal

    The invariant that ties [JournalAppender]'s state to the segment files, its
    preservation by every operation under every I/O failure, and recovery after
    a crash at any byte past the synced prefix. *)

From S2P Require Import Prelude Bytes Ids Journal JournalCodec Replay JournalAppender.
From Stdlib Require Import Init.Byte Strings.Byte.
Open Scope list_scope.

Notation segment := (SegmentHeader * list JournalRecord)%type.

Section durable.
Context `{DigestLaws}.
(** The task and the journal set the files belong to. *)
Context (gid : Gid) (jid : JournalId).

Definition owned (h : SegmentHeader) : Prop :=
  sh_task_gid h = gid /\ sh_journal_id h = jid.

(** ** Cutting a segment at a byte *)

(** The records of [rs] that end within the first [k] bytes. *)
Fixpoint whole (k : N) (rs : list JournalRecord) : list JournalRecord :=
  match rs with
  | [] => []
  | r :: rs =>
    if blen (record_bytes r) <=? k then r :: whole (k - blen (record_bytes r)) rs else []
  end.

Lemma whole_prefix k rs : whole k rs `prefix_of` rs.
Proof.
  revert k. induction rs as [|r rs IH]; intros k; simpl; [done|].
  destruct (_ <=? _); [by apply prefix_cons|apply prefix_nil].
Qed.

(** The cut falls on a record boundary or inside the next record. *)
Lemma whole_cut k rs :
  upto k (records_bytes rs) = records_bytes (whole k rs)
  \/ exists r rest j, rs = whole k rs ++ r :: rest /\ 0 < j < blen (record_bytes r)
     /\ upto k (records_bytes rs) = records_bytes (whole k rs) ++ upto j (record_bytes r).
Proof.
  revert k. induction rs as [|r rs IH]; intros k; cbn [whole].
  { left. unfold records_bytes, upto. simpl. by rewrite take_nil. }
  rewrite records_bytes_cons. destruct (N.leb_spec (blen (record_bytes r)) k) as [Hle|Hlt].
  - rewrite upto_app_ge by done. rewrite records_bytes_cons.
    destruct (IH (k - blen (record_bytes r))) as [->|(r' & rest & j & E & Hj & ->)]; [by left|].
    right. exists r', rest, j. rewrite <- app_assoc. split; [|done].
    rewrite E at 1. done.
  - rewrite upto_app_le by lia. destruct (N.eq_dec k 0) as [->|Hk]; [by left|].
    right. exists r, rs, k. split; [done|]. split; [lia|done].
Qed.

Lemma whole_ge k rs : blen (records_bytes rs) <= k -> whole k rs = rs.
Proof.
  revert k. induction rs as [|r rs IH]; intros k Hk; [done|]. cbn [whole].
  rewrite records_bytes_cons, blen_app in Hk.
  rewrite (proj2 (N.leb_le _ _)) by lia. f_equal. apply IH. lia.
Qed.

(** Records that end within [k] are kept by the cut. *)
Lemma whole_keeps k rs m :
  blen (records_bytes (take m rs)) <= k -> take m rs `prefix_of` whole k rs.
Proof.
  revert k m. induction rs as [|r rs IH]; intros k m Hk.
  { rewrite take_nil. apply prefix_nil. }
  destruct m as [|m]; [apply prefix_nil|]. cbn [take whole] in *.
  rewrite records_bytes_cons, blen_app in Hk. rewrite (proj2 (N.leb_le _ _)) by lia.
  apply prefix_cons, IH. lia.
Qed.

(** ** The invariant *)

(** The tail fingerprint the appender keeps of a segment. *)
Definition tail_of (s : segment) : option TailRecord :=
  r ← last s.2;
  Some {| tr_offset := blen (segment_bytes s) - blen (record_bytes r);
          tr_length := blen (record_bytes r);
          tr_fingerprint := tail_record_fingerprint (record_bytes r) |}.

(** The files hold the sealed segments [l] and a prefix of the active segment
    [s] that contains its flushed records. *)
Record disk_inv (d : JournalDisk) (l : list segment) (s : segment) (flushed : N) : Prop := {
  di_chain : chain cursor_new (l ++ [s]);
  di_sealed : jd_sealed d = segment_bytes <$> l;
  di_active : jd_active d = upto (blen (jd_active d)) (segment_bytes s);
  di_flushed : blen (log_of l) <= flushed <= blen (log_of l) + blen s.2;
  di_durable : blen (segment_bytes (s.1, take (N.to_nat (flushed - blen (log_of l))) s.2))
               <= jd_synced d;
  di_synced : jd_synced d <= blen (jd_active d);
  di_owned : Forall owned (l ++ [s]).*1;
}.

(** A healthy appender knows the active file byte for byte. *)
Record healthy (a : ControlJournalAppender) (d : JournalDisk) (l : list segment)
    (rs : list JournalRecord) : Prop := {
  he_disk : disk_inv d l (ap_header a, rs) (ap_flushed_sequence a);
  he_active : jd_active d = segment_bytes (ap_header a, rs);
  he_length : ap_valid_length a = blen (jd_active d);
  he_appended : ap_appended_sequence a = blen (log_of l) + blen rs;
  he_next : ap_next_sequence a = ap_appended_sequence a + 1;
  he_tail : ap_tail_record a = tail_of (ap_header a, rs);
}.

(** The journal a crashed or running appender leaves: [log] is every record that
    was handed to the file, acknowledged or not. *)
Definition journal_inv (a : ControlJournalAppender) (d : JournalDisk)
    (log : list JournalRecord) : Prop :=
  exists l rs, log = log_of l ++ rs
  /\ match ap_fault a with
     | None => healthy a d l rs
     | Some _ => exists h, disk_inv d l (h, rs) (ap_flushed_sequence a)
     end.

Lemma chain_last_sequence l s :
  chain cursor_new (l ++ [s]) -> sh_first_sequence s.1 = blen (log_of l) + 1.
Proof.
  intros (Hl & _ & (_ & _ & _ & Hf & _) & _)%chain_app.
  rewrite Hf, cursor_after_sequence by done. simpl. lia.
Qed.

Lemma disk_inv_owned d l s flushed : disk_inv d l s flushed -> owned s.1.
Proof.
  intros Ho%di_owned. rewrite fmap_app in Ho. apply Forall_app in Ho as [_ Ho].
  by apply Forall_cons in Ho as [Ho _].
Qed.

Lemma chain_last_wf l s : chain cursor_new (l ++ [s]) -> segment_wf s.
Proof. by intros (_ & Hs & _)%chain_app. Qed.

(** The records of the active segment can be cut or extended. *)
Lemma chain_last_take l h rs m :
  chain cursor_new (l ++ [(h, rs)]) -> chain cursor_new (l ++ [(h, take m rs)]).
Proof.
  rewrite !chain_app. intros (Hl & [Hh Hr Hn Hb] & Hf & _). split; [done|].
  split; [|done]. simpl in *. split; simpl; [done|by apply Forall_take| |].
  - rewrite <- (take_drop m rs) in Hn. by apply numbered_app in Hn as [Hn _].
  - unfold blen in *. rewrite length_take. lia.
Qed.

Lemma chain_last_snoc l h rs r :
  chain cursor_new (l ++ [(h, rs)]) -> record_wf (sh_starting_generation h) r ->
  jr_sequence r = sh_first_sequence h + blen rs -> jr_sequence r + 1 <= U64_MAX ->
  chain cursor_new (l ++ [(h, rs ++ [r])]).
Proof.
  rewrite !chain_app. intros (Hl & [Hh Hr Hn Hb] & Hf & _) Hwf Hq Hmax. split; [done|].
  split; [|done]. simpl in *.
  split; simpl; [done|by apply Forall_app; split; [|apply Forall_singleton]| |].
  - apply numbered_app. split; [done|]. by split.
  - rewrite blen_app, blen_cons, blen_nil. lia.
Qed.

(** ** Crashes *)

(** A crash keeps the first [k] bytes of the active file, the synced ones
    included. *)
Definition crash (k : N) (d : JournalDisk) : JournalDisk :=
  let active := upto (N.max k (jd_synced d)) (jd_active d) in
  {| jd_sealed := jd_sealed d; jd_active := active; jd_synced := blen active |}.

Lemma upto_blen_upto {A} n (l : list A) : upto (blen (upto n l)) l = upto n l.
Proof.
  rewrite blen_upto. destruct (N.le_gt_cases n (blen l)); [by rewrite N.min_l|].
  rewrite N.min_r by lia. rewrite !upto_all by lia. done.
Qed.

Lemma crash_inv k d l s flushed : disk_inv d l s flushed -> disk_inv (crash k d) l s flushed.
Proof.
  intros [Hc Hs Ha Hf Hd Hy Ho]. split; simpl; [done|done| |done| |done|done].
  - rewrite blen_upto, Ha at 1. rewrite upto_upto. f_equal.
  - rewrite blen_upto. lia.
Qed.

(** ** Operations *)

Lemma write_at_end data file : write_at (blen file) data file = file ++ data.
Proof.
  unfold write_at. rewrite upto_all by lia. rewrite N.sub_diag. simpl.
  rewrite skip_all by lia. by rewrite app_nil_r.
Qed.

Lemma segment_bytes_snoc h rs r :
  segment_bytes (h, rs ++ [r]) = segment_bytes (h, rs) ++ record_bytes r.
Proof.
  unfold segment_bytes. cbn [fst snd]. rewrite records_bytes_app, <- app_assoc.
  by rewrite records_bytes_cons, app_nil_r.
Qed.

(** Appending any prefix of a record to the active file. *)
Lemma disk_inv_append d l h rs flushed r k :
  disk_inv d l (h, rs) flushed -> jd_active d = segment_bytes (h, rs) ->
  record_wf (sh_starting_generation h) r ->
  jr_sequence r = sh_first_sequence h + blen rs -> jr_sequence r + 1 <= U64_MAX ->
  disk_inv (d <| jd_active := jd_active d ++ upto k (record_bytes r) |>) l (h, rs ++ [r]) flushed.
Proof.
  intros [Hc Hs Ha [Hf1 Hf2] Hd Hy Ho] Hact Hr Hq Hmax. simpl in *.
  split; simpl; [by apply chain_last_snoc|done| | | | |by rewrite fmap_app in *].
  - rewrite segment_bytes_snoc, Hact.
    rewrite blen_app, upto_app_ge by lia. f_equal.
    replace (blen _ + blen _ - blen _) with (blen (upto k (record_bytes r))) by lia.
    by rewrite upto_blen_upto.
  - rewrite blen_app. lia.
  - rewrite take_app_le; [done|]. unfold blen in *. lia.
  - rewrite blen_app. lia.
Qed.

Lemma disk_inv_sync d l s flushed :
  disk_inv d l s flushed -> jd_active d = segment_bytes s ->
  disk_inv (sync_all d) l s (blen (log_of l) + blen s.2).
Proof.
  intros [Hc Hs Ha _ _ _ Ho] Hact. split; simpl; [done|done|done|lia| |lia|done].
  replace (blen (log_of l) + blen s.2 - blen (log_of l)) with (blen s.2) by lia.
  rewrite take_ge by (unfold blen; lia). rewrite Hact. by destruct s.
Qed.

Lemma take_prefix_le {A} m n (l : list A) : (m <= n)%nat -> take m l `prefix_of` take n l.
Proof.
  intros. exists (drop m (take n l)). rewrite <- (take_drop m (take n l)) at 1.
  by rewrite take_take, Nat.min_l.
Qed.

Lemma blen_records_prefix rs rs' :
  rs `prefix_of` rs' -> blen (records_bytes rs) <= blen (records_bytes rs').
Proof. intros [k ->]. rewrite records_bytes_app, blen_app. lia. Qed.

Lemma disk_inv_weaken d l s flushed flushed' :
  disk_inv d l s flushed -> blen (log_of l) <= flushed' <= flushed -> disk_inv d l s flushed'.
Proof.
  intros [Hc Hs Ha [Hf1 Hf2] Hd Hy Ho] [Hle1 Hle2]. split; [done|done|done|lia| |done|done].
  etransitivity; [|done]. unfold segment_bytes. cbn [fst snd]. rewrite !blen_app.
  apply N.add_le_mono_l.
  apply blen_records_prefix, take_prefix_le. lia.
Qed.

(** Any fault keeps the files. *)
Lemma journal_inv_fault a d l rs f :
  healthy a d l rs -> journal_inv (a <| ap_fault := Some f |>) d (log_of l ++ rs).
Proof. intros [Hd _ _ _ _ _]. exists l, rs. split; [done|]. simpl. eauto. Qed.

Lemma ensure_open_inv io a d l rs res a' :
  ap_fault a = None -> healthy a d l rs -> ensure_open io a d = (res, a') ->
  match res with
  | Ok _ => ap_fault a' = None /\ healthy a' d l rs /\ ap_header a' = ap_header a
            /\ ap_next_sequence a' = ap_next_sequence a
            /\ ap_valid_length a' = ap_valid_length a
            /\ ap_flushed_sequence a' = ap_flushed_sequence a
            /\ ap_appended_sequence a' = ap_appended_sequence a
            /\ ap_tail_record a' = ap_tail_record a
  | Err _ => journal_inv a' d (log_of l ++ rs) /\ ap_fault a' = Some JournalAppenderFault.Reopen
  end.
Proof.
  intros Hf Hh E. unfold ensure_open in E. destruct (ap_open a); [by simplify_eq|].
  destruct (_ ≫= _) in E; simplify_eq.
  - split_and!; try done. by destruct Hh; split.
  - split; [by apply journal_inv_fault|done].
Qed.

Lemma ensure_healthy_Ok a : ensure_healthy a = Ok tt <-> ap_fault a = None.
Proof. unfold ensure_healthy. destruct (ap_fault a); naive_solver. Qed.

Lemma plan_append_Ok a ty g p record nq nl :
  blen p <= MAX_RECORD_PAYLOAD -> plan_append a ty g p = Ok (record, nq, nl) ->
  ap_fault a = None /\ sh_starting_generation (ap_header a) <= g
  /\ record = record_bytes (mkJournalRecord ty g (ap_next_sequence a) p)
  /\ nq = ap_next_sequence a + 1 /\ nq <= U64_MAX /\ nl = ap_valid_length a + blen record.
Proof.
  intros Hp E. unfold plan_append in E.
  apply bind_Ok in E as ([] & Hf%ensure_healthy_Ok & E).
  destruct (N.ltb_spec g (sh_starting_generation (ap_header a))); [done|].
  apply bind_Ok in E as (q & Hq%ok_or_Ok & E). apply u64_checked_add_Some in Hq as [-> Hq].
  apply bind_Ok in E as (b & Hb%map_err_Ok & E). rewrite encode_record_Ok in Hb by done.
  injection Hb as <-.
  apply bind_Ok in E as (n & Hn%ok_or_Ok & E). apply u64_checked_add_Some in Hn as [-> _].
  injection E as <- <- <-. by split_and!.
Qed.

Lemma tail_of_snoc h rs r :
  tail_of (h, rs ++ [r]) = Some {|
    tr_offset := blen (segment_bytes (h, rs));
    tr_length := blen (record_bytes r);
    tr_fingerprint := tail_record_fingerprint (record_bytes r) |}.
Proof.
  unfold tail_of. cbn [snd]. rewrite last_snoc. cbn [mbind option_bind].
  rewrite segment_bytes_snoc, blen_app. do 2 f_equal. lia.
Qed.

(** [append] writes exactly one record after the log, or fails and leaves the
    log or the log with a torn record. *)
Lemma append_inv io w a d ty g p res a' d' log :
  journal_inv a d log -> g <= U64_MAX -> blen p <= MAX_RECORD_PAYLOAD ->
  appender_append io w a d ty g p = (res, a', d') ->
  match res with
  | Ok q => q = ap_next_sequence a /\ q = blen log + 1 /\ journal_inv a' d' (log ++ [mkJournalRecord ty g q p])
            /\ ap_appended_sequence a' = q
  | Err _ =>
      let torn := ap_fault a = None /\ ap_fault a' = Some JournalAppenderFault.WriteRecord in
      (journal_inv a' d' log /\ ~ torn)
      \/ (journal_inv a' d' (log ++ [mkJournalRecord ty g (ap_next_sequence a) p]) /\ torn)
  end.
Proof.
  intros Hinv Hg Hp E. unfold appender_append in E.
  destruct (plan_append a ty g p) as [[[record nq] nl]|e] eqn:Hplan.
  2: { simplify_eq. left. split; [done|]. intros [? ?]. congruence. }
  apply plan_append_Ok in Hplan as (Hfault & Hstart & -> & -> & Hmax & ->); [|done].
  destruct Hinv as (l & rs & -> & Hh). rewrite Hfault in Hh.
  destruct (ensure_open io a d) as [ro a1] eqn:Hopen.
  pose proof (ensure_open_inv _ _ _ _ _ _ _ Hfault Hh Hopen) as Ho.
  destruct ro as [u|e].
  2: { simplify_eq. destruct Ho as [Ho Hre]. left. split; [done|]. intros [_ ?]. congruence. }
  destruct Ho as (Hf1 & Hh1 & Hhd & Hnx & Hvl & Hfl & Hap & Htl).
  set (r := mkJournalRecord ty g (ap_next_sequence a) p) in *.
  pose proof Hh1 as [Hd Hact Hlen Happ Hnext Htail].
  pose proof (chain_last_sequence _ _ (di_chain _ _ _ _ Hd)) as Hfirst. simpl in Hfirst.
  assert (record_wf (sh_starting_generation (ap_header a1)) r) as Hr
    by (rewrite Hhd; split; simpl; [done..|lia]).
  assert (jr_sequence r = sh_first_sequence (ap_header a1) + blen rs) as Hq by (simpl; lia).
  rewrite Hlen, !write_at_end in E. destruct (io JournalIoOperation.WriteRecord) as [err|].
  - simplify_eq. right. split; [|done].
    exists l, (rs ++ [r]). split; [by rewrite app_assoc|]. simpl.
    exists (ap_header a1). by apply disk_inv_append.
  - simplify_eq. split; [done|]. split; [simpl; rewrite blen_app; lia|]. split; [|simpl; lia].
    exists l, (rs ++ [r]). rewrite <- app_assoc. split; [by rewrite Hnx|]. simpl. rewrite Hf1.
    pose proof (disk_inv_append d l (ap_header a1) rs _ r (blen (record_bytes r)) Hd Hact Hr Hq)
      as Hd'. rewrite upto_all in Hd' by done.
    split; simpl; [by apply Hd'|by rewrite Hact, segment_bytes_snoc| | |lia|].
    + rewrite blen_app. lia.
    + rewrite blen_app, blen_cons, blen_nil. lia.
    + by rewrite tail_of_snoc, Hact.
Qed.

(** [flush] makes every appended record durable or leaves the log as it is. *)
Lemma flush_inv io a d n res a' d' log :
  journal_inv a d log -> flush io a d n = (res, a', d') ->
  journal_inv a' d' log /\ ap_appended_sequence a' = ap_appended_sequence a
  /\ ap_flushed_sequence a <= ap_flushed_sequence a'
  /\ (res = Ok (ap_flushed_sequence a') \/ exists e, res = Err e)
  /\ (is_ok res = true -> n <= ap_flushed_sequence a').
Proof.
  intros Hinv E. unfold flush in E.
  assert (forall e, res = Err e -> a' = a -> d' = d ->
    journal_inv a' d' log /\ ap_appended_sequence a' = ap_appended_sequence a
    /\ ap_flushed_sequence a <= ap_flushed_sequence a'
    /\ (res = Ok (ap_flushed_sequence a') \/ exists e, res = Err e)
    /\ (is_ok res = true -> n <= ap_flushed_sequence a')) as Hsame
    by (intros e -> -> ->; split_and!; [done|done|lia|eauto|done]).
  destruct (ensure_healthy a) as [[]|e] eqn:Hf; [|simplify_eq; by eapply Hsame].
  apply ensure_healthy_Ok in Hf.
  destruct (N.ltb_spec (ap_appended_sequence a) n); [simplify_eq; by eapply Hsame|].
  destruct (N.leb_spec n (ap_flushed_sequence a)).
  { simplify_eq. split_and!; [done|done|lia|by left|lia]. }
  destruct Hinv as (l & rs & -> & Hh). rewrite Hf in Hh.
  destruct (ensure_open io a d) as [ro a1] eqn:Hopen.
  pose proof (ensure_open_inv _ _ _ _ _ _ _ Hf Hh Hopen) as Ho.
  destruct ro as [u|e].
  - destruct Ho as (Hf1 & Hh1 & Hhd & Hnx & Hvl & Hfl & Hap & Htl).
    destruct (io JournalIoOperation.SyncSegment) as [err|]; simplify_eq; simpl.
    + split_and!; [by apply journal_inv_fault|done|lia|eauto|done].
    + pose proof (di_flushed _ _ _ _ (he_disk _ _ _ _ Hh)) as Hfb.
      destruct Hh1 as [Hd Hact Hlen Happ Hnext Htail]. simpl in *.
      split_and!; [|done|lia|by left|lia].
      exists l, rs. split; [done|]. simpl. rewrite Hf1. split; simpl; try done.
      rewrite Happ. by apply (disk_inv_sync d l (ap_header a1, rs) (ap_flushed_sequence a1)).
  - simplify_eq. destruct Ho as [Ho _].
    unfold ensure_open in Hopen. destruct (ap_open a); [done|].
    destruct (_ ≫= _) in Hopen; simplify_eq.
    split_and!; [done|done|simpl; lia|eauto|done].
Qed.

Lemma close_inv a d res a' log :
  journal_inv a d log -> close_flushed a = (res, a') -> journal_inv a' d log.
Proof.
  intros Hinv E. unfold close_flushed in E. destruct (ensure_healthy a) eqn:Hf; [|by simplify_eq].
  destruct (_ != _); simplify_eq; [done|]. destruct Hinv as (l & rs & -> & Hh).
  exists l, rs. split; [done|]. simpl. destruct (ap_fault a); [done|]. by destruct Hh; split.
Qed.

(** A new empty segment after the ones of [l], which are all flushed. *)
Lemma disk_inv_install d l s h flushed :
  disk_inv d l s flushed -> jd_active d = segment_bytes s ->
  flushed = blen (log_of l) + blen s.2 ->
  header_wf h -> follows (cursor_after cursor_new (l ++ [s])) h -> owned h ->
  disk_inv {| jd_sealed := segment_files d; jd_active := SegmentHeader_encode h;
              jd_synced := SEGMENT_HEADER_LEN |} (l ++ [s]) (h, []) flushed.
Proof.
  intros [Hc Hs Ha Hf Hd Hy Ho] Hact -> Hwf Hfol Hown.
  assert (blen (SegmentHeader_encode h) = SEGMENT_HEADER_LEN) as Hhl by by apply blen_header_encode.
  assert (blen (log_of (l ++ [s])) = blen (log_of l) + blen s.2) as Hlog.
  { rewrite log_of_app, blen_app. unfold log_of at 2. simpl. by rewrite app_nil_r. }
  assert (segment_bytes (h, []) = SegmentHeader_encode h) as Hseg
    by (unfold segment_bytes; apply app_nil_r).
  pose proof (chain_last_wf _ _ Hc) as Hswf.
  pose proof (chain_last_sequence _ _ Hc) as Hfirst.
  split; simpl.
  - apply chain_app. split; [done|]. split; [|done].
    split; simpl; [done|constructor|done|].
    rewrite blen_nil, N.add_0_r. by apply Hwf.
  - unfold segment_files. by rewrite fmap_app, Hs, Hact.
  - rewrite Hseg. by rewrite upto_all.
  - rewrite Hlog, blen_nil. lia.
  - rewrite take_nil, Hseg. lia.
  - lia.
  - rewrite fmap_app. apply Forall_app. split; [done|]. by apply Forall_cons.
Qed.

(** The header after a sealed segment continues the chain. *)
Lemma next_header_follows l h rs g t h' :
  let s := (h, rs) in
  chain cursor_new (l ++ [s]) -> 0 < blen (log_of l) + blen rs ->
  hash_segment (segment_bytes s) <> SegmentHash_ZERO -> g <= U64_MAX -> t <= U64_MAX ->
  next_header h (blen (log_of l) + blen rs) (hash_segment (segment_bytes s)) g t = Ok h' ->
  header_wf h' /\ follows (cursor_after cursor_new (l ++ [s])) h' /\ (owned h -> owned h').
Proof.
  intros s Hc Hpos Hz Hg Ht E. pose proof (chain_last_wf _ _ Hc) as [Hh _ _ _].
  pose proof Hc as (Hl & _ & (Hidx & Hgid & Hjid & Hfirst & _) & _)%chain_app.
  unfold next_header in E. apply bind_Ok in E as (i & Hi%ok_or_Ok & E).
  apply bind_Ok in E as (q & Hq%ok_or_Ok & E). apply u64_checked_add_Some in Hq as [-> Hq].
  unfold u32_checked_add in Hi. destruct (N.leb_spec (sh_segment_index h + 1) U32_MAX); [|done].
  injection Hi as <-. injection E as <-. pose proof Hh as [Hwg Hwj _ _ _ _ _ _ _].
  split; [|split; [|done]].
  - split; simpl; try done; [lia|apply N2Nat.inj; unfold blen, hash_segment;
      by rewrite Nat2N.id, sha256_len|].
    unfold linked. simpl. rewrite (proj2 (N.eqb_neq _ 0)) by lia. split_and!; [lia|done|done].
  - unfold cursor_after. rewrite foldl_app. fold (cursor_after cursor_new l). simpl in *.
    unfold follows, after, cursor_next. simpl. rewrite Hfirst, cursor_after_sequence by done.
    simpl. rewrite Hidx. split_and!; [done|done|done|lia|]. intros _. split; [lia|done].
Qed.

(** An appender on a freshly installed segment. *)
Lemma healthy_fresh a d l h :
  disk_inv d l (h, []) (ap_flushed_sequence a) -> header_wf h -> ap_header a = h ->
  jd_active d = SegmentHeader_encode h -> ap_valid_length a = SEGMENT_HEADER_LEN ->
  ap_appended_sequence a = blen (log_of l) -> ap_next_sequence a = sh_first_sequence h ->
  ap_tail_record a = None -> healthy a d l [].
Proof.
  intros Hd Hwf <- Hact Hlen Happ Hnext Htail.
  pose proof (blen_header_encode _ Hwf) as Hhl.
  pose proof (chain_last_sequence _ _ (di_chain _ _ _ _ Hd)) as Hfirst. simpl in Hfirst.
  split; [done| |by rewrite Hact, Hhl| |lia|done].
  - rewrite Hact. unfold segment_bytes. by rewrite app_nil_r.
  - rewrite blen_nil. lia.
Qed.

Lemma hash_open_segment_Ok io file n h :
  blen file = n -> hash_open_segment io file n = Ok h -> h = hash_segment file.
Proof.
  intros <- E. unfold hash_open_segment in E. apply bind_Ok in E as (b & Hb & E).
  unfold read_at in Hb. apply bind_Ok in Hb as (_ & _ & Hb).
  rewrite (proj2 (N.leb_le _ _)) in Hb by lia. injection Hb as <-. injection E as <-.
  unfold hash_segment. by rewrite slice_all.
Qed.

Lemma rotate_open_inv io io1 io2 a d l rs g t res a' d' :
  ap_fault a = None -> healthy a d l rs -> ap_flushed_sequence a = ap_appended_sequence a ->
  0 < ap_appended_sequence a ->
  hash_segment (jd_active d) <> SegmentHash_ZERO -> g <= U64_MAX -> t <= U64_MAX ->
  rotate_open io io1 io2 a d g t = (res, a', d') ->
  journal_inv a' d' (log_of l ++ rs).
Proof.
  intros Hf Hh Hfl Hpos Hz Hg Ht E. unfold rotate_open in E.
  destruct (validate_active_file _ _ _ _ _ _); [|simplify_eq; by apply journal_inv_fault].
  destruct (io_call io _); [|simplify_eq; by apply journal_inv_fault].
  assert (healthy a (sync_all d) l rs) as Hs.
  { destruct Hh as [Hd Hact Hlen Happ Hnext Htail]. split; try done.
    rewrite Hfl, Happ. by apply (disk_inv_sync d l (ap_header a, rs) (ap_flushed_sequence a)). }
  destruct (hash_open_segment _ _ _) as [hash|] eqn:Hhash;
    [|simplify_eq; by apply journal_inv_fault].
  apply hash_open_segment_Ok in Hhash; [|symmetry; apply Hs]. subst hash.
  destruct (successor _ _ _ _ _) as [h'|e] eqn:Hsucc.
  2: { simplify_eq. exists l, rs. split; [done|]. by rewrite Hf. }
  unfold successor in Hsucc. destruct (_ <? _); [done|].
  pose proof Hs as [Hd Hact Hlen Happ Hnext Htail].
  rewrite Happ in Hsucc, Hpos. simpl in Hact, Hsucc. rewrite Hact in Hsucc, Hz.
  apply next_header_follows in Hsucc as (Hwf & Hfol & Hown); [|apply Hd|done..].
  pose proof (disk_inv_owned _ _ _ _ Hd) as Howned. apply Hown in Howned.
  unfold install_segment in E.
  destruct (publish_segment io1); [|simplify_eq; by apply journal_inv_fault; destruct Hs; split].
  assert (disk_inv {| jd_sealed := segment_files (sync_all d);
      jd_active := SegmentHeader_encode h'; jd_synced := SEGMENT_HEADER_LEN |}
      (l ++ [(ap_header a, rs)]) (h', []) (ap_flushed_sequence a)) as Hd'.
  { eapply disk_inv_install; [done|done|simpl; lia|done..]. }
  assert (log_of (l ++ [(ap_header a, rs)]) = log_of l ++ rs) as Hlog.
  { rewrite log_of_app. unfold log_of at 2. simpl. by rewrite app_nil_r. }
  exists (l ++ [(ap_header a, rs)]), []. rewrite app_nil_r, Hlog. split; [done|].
  destruct (settle_segment io2); [|simplify_eq; simpl; eauto].
  destruct (io_call io2 _); simplify_eq; simpl; [|by eauto]. rewrite Hf.
  apply (healthy_fresh _ _ _ h'); simpl; try done. rewrite Hlog, blen_app. lia.
Qed.

Lemma rotate_inv io io1 io2 a d g t res a' d' log :
  journal_inv a d log -> hash_segment (jd_active d) <> SegmentHash_ZERO ->
  g <= U64_MAX -> t <= U64_MAX ->
  appender_rotate io io1 io2 a d g t = (res, a', d') -> journal_inv a' d' log.
Proof.
  intros Hinv Hz Hg Ht E. unfold appender_rotate in E.
  destruct (ensure_healthy a) as [[]|e] eqn:Hf; [|by simplify_eq].
  apply ensure_healthy_Ok in Hf.
  destruct (N.ltb_spec (ap_appended_sequence a) (sh_first_sequence (ap_header a)));
    [by simplify_eq|].
  destruct (bool_decide_reflect (ap_appended_sequence a = ap_flushed_sequence a)) as [Heq|];
    cbn [negb] in E; [|by simplify_eq].
  destruct Hinv as (l & rs & -> & Hh). rewrite Hf in Hh.
  destruct (ensure_open io a d) as [ro a1] eqn:Hopen.
  pose proof (ensure_open_inv _ _ _ _ _ _ _ Hf Hh Hopen) as Ho.
  destruct ro as [u|e]; [|simplify_eq; apply Ho].
  destruct Ho as (Hf1 & Hh1 & Hhd & Hnx & Hvl & Hfl & Hap & Htl).
  pose proof (chain_last_sequence _ _ (di_chain _ _ _ _ (he_disk _ _ _ _ Hh))) as Hfirst.
  simpl in Hfirst. apply (rotate_open_inv io io1 io2 a1 d l rs g t res); try done; lia.
Qed.
End durable.
