(* ===== verification/JournalRecovery.v ===== *)
(** * Recovery of the control journal

    [JournalAppender.open_recovered] on the files a crash left: it succeeds when
    no system call fails and the replay budgets admit the journal, returns the
    flushed records, and leaves a healthy appender. *)

From S2P Require Import Prelude Bytes Ids Journal JournalCodec Replay JournalAppender JournalDurable.
From Stdlib Require Import Init.Byte Strings.Byte.
Open Scope list_scope.

(** The oracle of calls that all succeed. *)
Definition no_failure : Io := fun _ => None.

Section recovery.
Context `{DigestLaws}.

(** ** The checks on the active file *)

Lemma read_at_Ok op off n file :
  off + n <= blen file -> read_at no_failure op off n file = Ok (slice off n file).
Proof. intros. unfold read_at. simpl. by rewrite (proj2 (N.leb_le _ _)). Qed.

Lemma validate_record_Ok start r rest :
  record_wf start r ->
  validate_record (record_bytes r ++ rest) (jr_sequence r) start = Ok (blen (record_bytes r)).
Proof. intros. unfold validate_record. by rewrite record_decode_encode. Qed.

Lemma segment_header_decode s :
  header_wf s.1 -> SegmentHeader_decode (segment_bytes s) = Ok s.1.
Proof. intros. unfold segment_bytes. by apply header_decode_encode. Qed.

(** The last record of a segment, at the end of its bytes. *)
Lemma segment_last s r :
  segment_wf s -> last s.2 = Some r ->
  record_wf (sh_starting_generation s.1) r /\ jr_sequence r + 1 = sh_first_sequence s.1 + blen s.2
  /\ exists rs, s.2 = rs ++ [r] /\ segment_bytes s = segment_bytes (s.1, rs) ++ record_bytes r.
Proof.
  intros [Hh Hr Hn Hb] E. destruct s as [h rs]. simpl in *.
  pose proof (numbered_last _ _ _ Hn E) as Hq.
  apply last_Some in E as [rs' ->]. split_and!; [|done|].
  - apply Forall_app in Hr as [_ Hr]. by apply Forall_cons in Hr as [Hr _].
  - exists rs'. split; [done|]. apply segment_bytes_snoc.
Qed.

Lemma validate_active_file_Ok s n :
  segment_wf s -> blen (segment_bytes s) <= U64_MAX -> n + 1 = sh_first_sequence s.1 + blen s.2 ->
  validate_active_file no_failure (segment_bytes s) s.1 (blen (segment_bytes s)) n (tail_of s)
  = Ok tt.
Proof.
  intros Hs Hlen Hn. pose proof (sw_header _ Hs) as Hh.
  pose proof (blen_segment_bytes s Hh) as Hsl.
  unfold validate_active_file. cbn [io_call no_failure mbind result_bind].
  rewrite bool_decide_eq_true_2 by done. cbn [negb].
  rewrite read_at_Ok by lia. cbn [mbind result_bind].
  assert (slice 0 SEGMENT_HEADER_LEN (segment_bytes s) = SegmentHeader_encode s.1) as ->.
  { unfold segment_bytes. apply slice_app_here. by apply blen_header_encode. }
  pose proof (header_decode_encode s.1 [] Hh) as Hdec. rewrite app_nil_r in Hdec. rewrite Hdec.
  rewrite bool_decide_eq_true_2 by done. cbn [negb].
  unfold tail_of. destruct (last s.2) as [r|] eqn:Hlast; cbn [mbind option_bind].
  - destruct (segment_last s r Hs Hlast) as (Hr & Hq & rs & _ & E).
    unfold validate_tail_record. cbn [tr_offset tr_length tr_fingerprint].
    assert (blen (segment_bytes s) = blen (segment_bytes (s.1, rs)) + blen (record_bytes r)) as Hb
      by (by rewrite E, blen_app).
    rewrite u64_checked_add_fits, bool_decide_eq_true_2 by (lia || f_equal; lia). cbn [negb].
    rewrite read_at_Ok by lia. cbn [mbind result_bind].
    assert (slice (blen (segment_bytes s) - blen (record_bytes r)) (blen (record_bytes r))
              (segment_bytes s) = record_bytes r) as ->.
    { rewrite Hb, N.add_sub, E, slice_app_skip, N.sub_diag by lia. by apply slice_all. }
    replace n with (jr_sequence r) by lia.
    pose proof (validate_record_Ok _ r [] Hr) as Hv. rewrite app_nil_r in Hv. rewrite Hv.
    by rewrite !bool_decide_eq_true_2 by done.
  - apply last_None in Hlast. rewrite Hlast in *. rewrite blen_nil in Hn.
    unfold records_bytes in Hsl. simpl in Hsl. rewrite blen_nil in Hsl.
    pose proof (sw_bound _ Hs) as Hbd. rewrite Hlast, blen_nil in Hbd.
    rewrite u64_checked_add_fits by lia.
    rewrite !bool_decide_eq_true_2 by (f_equal; lia). done.
Qed.

(** ** The byte budget *)

Definition total_bytes (files : list bytes) : N := foldr (fun f n => blen f + n) 0 files.

Lemma total_bytes_app x y : total_bytes (x ++ y) = total_bytes x + total_bytes y.
Proof. induction x as [|f x IH]; simpl; [done|]. rewrite IH. lia. Qed.

Lemma read_recovery_segments_Ok budget files : forall remaining,
  total_bytes files <= remaining ->
  read_recovery_segments no_failure budget remaining files = Ok tt.
Proof.
  induction files as [|f files IH]; intros remaining Hle; [done|]. simpl in *.
  rewrite (proj2 (N.ltb_ge _ _)) by lia. apply IH. lia.
Qed.

Lemma blen_records_bytes rs :
  blen (records_bytes rs) = RECORD_OVERHEAD * blen rs + payload_total rs.
Proof.
  induction rs as [|r rs IH]; [done|].
  rewrite records_bytes_cons, blen_app, blen_record_bytes, IH, blen_cons.
  cbn [payload_total foldr]. fold (payload_total rs). lia.
Qed.

Lemma total_bytes_chain c l :
  chain c l -> total_bytes (segment_bytes <$> l)
  = SEGMENT_HEADER_LEN * blen l + RECORD_OVERHEAD * blen (log_of l) + payload_total (log_of l).
Proof.
  revert c. induction l as [|s l IH]; intros c Hc; [done|]. destruct Hc as (Hs & _ & Hc).
  rewrite fmap_cons, log_of_cons, blen_cons, blen_app, payload_total_app.
  cbn [total_bytes foldr]. fold (total_bytes (segment_bytes <$> l)).
  rewrite (IH _ Hc), blen_segment_bytes, blen_records_bytes by apply Hs. lia.
Qed.

(** The replay budgets admit the segments [l]. *)
Record admits (limits : ReplayLimits) (l : list segment) : Prop := {
  ad_segments : blen l <= rl_max_segments limits;
  ad_index : blen l <= U32_MAX;
  ad_records : blen (log_of l) <= rl_max_records limits;
  ad_payload : payload_total (log_of l) <= rl_max_payload_bytes limits;
  ad_budget : rl_max_segments limits * SEGMENT_HEADER_LEN + rl_max_records limits * RECORD_OVERHEAD
              + rl_max_payload_bytes limits <= USIZE_MAX;
}.

Lemma admits_fits limits l : admits limits l -> fits limits (log_of l) replay_new.
Proof.
  intros [? ? Hr Hp Hb]. split; simpl; [by rewrite blen_nil|done|]. lia.
Qed.

Lemma recovery_budget_Ok limits l :
  admits limits l -> recovery_encoded_byte_budget limits
  = Ok (rl_max_segments limits * SEGMENT_HEADER_LEN + rl_max_records limits * RECORD_OVERHEAD
        + rl_max_payload_bytes limits).
Proof.
  intros [_ _ _ _ Hb]. unfold recovery_encoded_byte_budget, usize_checked_mul.
  rewrite (proj2 (N.leb_le _ _)) by lia. cbn [mbind option_bind].
  rewrite (proj2 (N.leb_le _ _)) by lia. cbn [mbind option_bind].
  rewrite u64_checked_add_fits by (unfold USIZE_MAX in *; lia). cbn [mbind option_bind].
  by rewrite u64_checked_add_fits by done.
Qed.

(** ** Replay of the files *)

Context (gid : Gid) (jid : JournalId).
Notation disk_inv := (disk_inv gid jid).

(** The records of the active file that are wholly there. *)
Definition survivors (d : JournalDisk) (att : list JournalRecord) : list JournalRecord :=
  whole (blen (jd_active d) - SEGMENT_HEADER_LEN) att.

(** How the active file ends: on a record boundary, or inside the next record. *)
Inductive file_end (d : JournalDisk) (h : SegmentHeader) (att : list JournalRecord)
    : ReplayStop -> Prop :=
| end_clean :
    jd_active d = segment_bytes (h, survivors d att) ->
    file_end d h att ReplayStop.CleanEnd
| end_torn r rest j :
    att = survivors d att ++ r :: rest -> 0 < j < blen (record_bytes r) ->
    jd_active d = segment_bytes (h, survivors d att) ++ upto j (record_bytes r) ->
    file_end d h att (ReplayStop.Record (sh_segment_index h)
      (blen (segment_bytes (h, survivors d att))) (torn_reason r j)).

Lemma disk_file_end d l h att flushed :
  disk_inv d l (h, att) flushed -> exists stop, file_end d h att stop.
Proof.
  intros Hd. pose proof (chain_last_wf _ _ (di_chain _ _ _ _ _ _ Hd)) as [Hh _ _ _]. cbn [fst snd] in Hh.
  pose proof (blen_header_encode h Hh) as Hhl. destruct Hd as [_ _ Ha _ Hdur Hsync _].
  unfold segment_bytes in Hdur. cbn [fst snd] in Hdur. rewrite blen_app, Hhl in Hdur.
  unfold segment_bytes in Ha. cbn [fst snd] in Ha.
  rewrite upto_app_ge, Hhl in Ha by lia.
  destruct (whole_cut (blen (jd_active d) - SEGMENT_HEADER_LEN) att)
    as [E|(r & rest & j & E & Hj & Ecut)].
  - eexists. apply end_clean. rewrite Ha at 1. by rewrite E.
  - eexists. eapply (end_torn _ _ _ r rest j); [done|done|]. rewrite Ha at 1. rewrite Ecut.
    unfold segment_bytes. by rewrite app_assoc.
Qed.

Lemma survivors_prefix d att : survivors d att `prefix_of` att.
Proof. apply whole_prefix. Qed.

Lemma prefix_take {A} (l l' : list A) : l `prefix_of` l' -> l = take (length l) l'.
Proof. intros [k ->]. by rewrite take_app_length. Qed.

Lemma chain_survivors d l h att :
  chain cursor_new (l ++ [(h, att)]) -> chain cursor_new (l ++ [(h, survivors d att)]).
Proof.
  intros Hc. rewrite (prefix_take _ _ (survivors_prefix d att)). by apply chain_last_take.
Qed.

(** The flushed records survive. *)
Lemma survivors_flushed d l h att flushed :
  disk_inv d l (h, att) flushed -> flushed <= blen (log_of l) + blen (survivors d att).
Proof.
  intros Hd. pose proof (chain_last_wf _ _ (di_chain _ _ _ _ _ _ Hd)) as [Hh _ _ _]. cbn [fst snd] in Hh.
  destruct Hd as [_ _ _ Hf Hdur Hsync _]. simpl in *.
  rewrite (blen_segment_bytes (h, _)) in Hdur by done. cbn [fst snd] in Hdur.
  destruct (whole_keeps (blen (jd_active d) - SEGMENT_HEADER_LEN) att
    (N.to_nat (flushed - blen (log_of l)))) as [rest E]; [lia|].
  unfold survivors. rewrite E, blen_app. unfold blen at 2. rewrite length_take.
  unfold blen in *. lia.
Qed.

Lemma log_of_snoc l h rs : log_of (l ++ [(h, rs)]) = log_of l ++ rs.
Proof. rewrite log_of_app. unfold log_of at 2. simpl. by rewrite app_nil_r. Qed.

Lemma replay_files d l h att flushed stop limits :
  disk_inv d l (h, att) flushed -> admits limits (l ++ [(h, att)]) ->
  file_end d h att stop ->
  replay_ordered_segments (segment_files d) limits
  = replay_segs (l ++ [(h, survivors d att)]) replay_new <| rp_stop := stop |>.
Proof.
  intros Hd Had Hend. pose proof (di_chain _ _ _ _ _ _ Hd) as Hc.
  pose proof (chain_survivors d _ _ _ Hc) as Hcs.
  pose proof Hcs as (Hl & Hswf & Hfol & _)%chain_app.
  destruct Had as [Hseg Hidx Hrec Hpay Hbud]. rewrite blen_app, blen_cons, blen_nil in Hseg, Hidx.
  rewrite log_of_snoc in Hrec, Hpay. rewrite blen_app in Hrec. rewrite payload_total_app in Hpay.
  destruct (survivors_prefix d att) as [rest Hatt].
  assert (blen att = blen (survivors d att) + blen rest) as Hab by (rewrite Hatt at 1; apply blen_app).
  assert (payload_total att = payload_total (survivors d att) + payload_total rest) as Hpb
    by (rewrite Hatt at 1; apply payload_total_app).
  assert (replay_ordered_segments (segment_files d) limits
          = replay_loop limits cursor_new replay_new ((segment_bytes <$> l) ++ [jd_active d])) as ->.
  { unfold segment_files. rewrite (di_sealed _ _ _ _ _ _ Hd). by destruct l. }
  destruct (replay_loop_chain limits l [jd_active d] cursor_new replay_new) as [-> Hlast];
    [done|done|done|simpl; lia|simpl; lia
     |split; cbn [replay_new rp_records rp_payload_bytes]; rewrite ?blen_nil; lia|].
  set (rs := survivors d att) in *.
  assert (accepts limits (cursor_after cursor_new l) (replay_segs l replay_new) h) as Hacc.
  { split_and!; [rewrite cursor_after_input; simpl; lia|by symmetry; apply Hfol|].
    by apply header_stop_None. }
  assert (fits limits rs (replay_segs l replay_new)) as Hfit.
  { split; rewrite ?replay_segs_records, ?replay_segs_payload;
      cbn [replay_new rp_records rp_payload_bytes app]; lia. }
  unfold replay_segs at 2. rewrite foldl_app. fold (replay_segs l replay_new). cbn [foldl].
  cbn [replay_loop]. destruct Hend as [Hact|r rest' j Ha Hj Hact]; rewrite Hact.
  - fold rs. rewrite replay_step_segment; [done|done|done|done|].
    rewrite cursor_after_index. simpl. lia.
  - fold rs in Ha, Hact |- *. rewrite replay_step_torn; [done|done|done|done| | | |done].
    + rewrite replay_segs_records. cbn [replay_new rp_records app snd]. rewrite Ha, blen_app, blen_cons in Hrec. lia.
    + pose proof (chain_last_wf _ _ Hc) as [_ Hr _ _]. simpl in Hr. rewrite Ha in Hr.
      apply Forall_app in Hr as [_ Hr]. by apply Forall_cons in Hr as [Hr _].
    + pose proof (chain_last_wf _ _ Hc) as [_ _ Hn _]. simpl in Hn. rewrite Ha in Hn.
      apply numbered_app in Hn as [_ [Hn _]]. done.
Qed.

(** What the replay of the files holds. *)
Lemma replay_files_facts d l h att flushed :
  disk_inv d l (h, att) flushed ->
  let rs := survivors d att in
  let rp := replay_segs (l ++ [(h, rs)]) replay_new in
  rp_records rp = log_of l ++ rs /\ rp_last_sequence rp = blen (log_of l) + blen rs
  /\ rp_valid_segment_prefixes rp = (blen ∘ segment_bytes <$> l) ++ [blen (segment_bytes (h, rs))]
  /\ sh_first_sequence h = blen (log_of l) + 1 /\ sh_segment_index h = blen l.
Proof.
  intros Hd rs rp. pose proof (chain_survivors d _ _ _ (di_chain _ _ _ _ _ _ Hd)) as Hc.
  pose proof Hc as (Hl & Hs & (Hidx & _ & _ & Hf & _) & _)%chain_app.
  pose proof (chain_last_sequence _ _ Hc) as Hfirst. simpl in Hfirst, Hf, Hidx.
  rewrite cursor_after_index in Hidx.
  subst rp. rewrite replay_segs_records, log_of_snoc, replay_segs_prefixes, fmap_app.
  rewrite replay_segs_last, log_of_snoc, blen_app by done.
  split_and!; [done|done|done|done|simpl in Hidx; lia].
Qed.

Lemma torn_reason_repairable r j : repairable_recovery_tail (torn_reason r j) = true.
Proof. unfold torn_reason. by repeat case_match. Qed.

Lemma file_end_recoverable d l h att flushed stop :
  disk_inv d l (h, att) flushed -> file_end d h att stop ->
  recoverable (blen (segment_files d))
    (replay_segs (l ++ [(h, survivors d att)]) replay_new <| rp_stop := stop |>) = true.
Proof.
  intros Hd Hend. destruct (replay_files_facts _ _ _ _ _ Hd) as (_ & _ & Hpre & _ & Hidx).
  assert (blen (segment_files d) = blen l + 1) as Hn.
  { unfold segment_files. by rewrite (di_sealed _ _ _ _ _ _ Hd), blen_app, blen_fmap. }
  unfold recoverable. destruct Hend as [|r rest j _ _ _]; [done|]. simpl in *.
  rewrite Hpre, Hidx, Hn, torn_reason_repairable, blen_app, blen_fmap, blen_cons, blen_nil.
  by rewrite !bool_decide_eq_true_2 by lia.
Qed.

(** The first file starts with the owner's header. *)
Lemma first_header d l h att flushed :
  disk_inv d l (h, att) flushed ->
  exists h0, SegmentHeader_decode (default [] (head (segment_files d))) = Ok h0 /\ owned gid jid h0.
Proof.
  intros Hd. destruct (disk_file_end _ _ _ _ _ Hd) as [stop Hend].
  pose proof (di_chain _ _ _ _ _ _ Hd) as Hc. pose proof (di_owned _ _ _ _ _ _ Hd) as Ho.
  unfold segment_files. rewrite (di_sealed _ _ _ _ _ _ Hd). destruct l as [|s l].
  - exists h. split; [|by apply (disk_inv_owned _ _ _ _ _ _ Hd)]. simpl.
    pose proof (chain_last_wf _ _ Hc) as Hs.
    destruct Hend as [->|r rest j _ _ ->]; unfold segment_bytes; rewrite <- ?app_assoc;
      by apply header_decode_encode, Hs.
  - exists s.1. split; [|by apply Forall_cons in Ho as [Ho _]].
    destruct Hc as (Hs & _). simpl. unfold segment_bytes. by apply header_decode_encode, Hs.
Qed.

Lemma prepare_recovered_Ok d l h att flushed stop limits :
  disk_inv d l (h, att) flushed -> admits limits (l ++ [(h, att)]) ->
  file_end d h att stop ->
  prepare_recovered no_failure d gid jid limits
  = Ok (replay_segs (l ++ [(h, survivors d att)]) replay_new <| rp_stop := stop |>).
Proof.
  intros Hd Had Hend. unfold prepare_recovered.
  assert (blen (segment_files d) = blen l + 1) as Hn.
  { unfold segment_files. by rewrite (di_sealed _ _ _ _ _ _ Hd), blen_app, blen_fmap. }
  pose proof Had as [Hseg Hidx Hrec Hpay Hbud]. rewrite blen_app, blen_cons, blen_nil in Hseg, Hidx.
  rewrite Hn. rewrite (proj2 (N.ltb_ge _ _)) by lia.
  rewrite (recovery_budget_Ok _ _ Had). cbn [mbind result_bind].
  rewrite (proj2 (N.ltb_ge _ _)) by lia. cbn [io_call no_failure mbind result_bind].
  rewrite read_recovery_segments_Ok.
  2: { pose proof (total_bytes_chain _ _ (di_chain _ _ _ _ _ _ Hd)) as Ht.
    rewrite fmap_app, total_bytes_app, (blen_app l), blen_cons, blen_nil in Ht.
    unfold segment_files. rewrite (di_sealed _ _ _ _ _ _ Hd), total_bytes_app.
    assert (total_bytes (segment_bytes <$> [(h, att)]) = blen (segment_bytes (h, att))) as Hs
      by apply N.add_0_r.
    assert (total_bytes [jd_active d] = blen (jd_active d)) as Ha by apply N.add_0_r.
    pose proof (f_equal blen (di_active _ _ _ _ _ _ Hd)) as Hb. rewrite blen_upto in Hb.
    rewrite Hs in Ht. rewrite Ha. unfold SEGMENT_HEADER_LEN, RECORD_OVERHEAD in *. lia. }
  cbn [mbind result_bind].
  destruct (first_header _ _ _ _ _ Hd) as (h0 & -> & Hg & Hj). cbn [map_err mbind result_bind].
  rewrite Hg, Hj, !bool_decide_eq_true_2 by done. cbn [negb].
  rewrite (replay_files _ _ _ _ _ _ _ Hd Had Hend), <- Hn.
  by rewrite (file_end_recoverable _ _ _ _ _ _ Hd Hend).
Qed.

(** ** Reopening *)

(** The files cut at the last whole record. *)
Definition repaired (d : JournalDisk) (s : segment) : JournalDisk :=
  sync_all (d <| jd_active := segment_bytes s |>).

Lemma repaired_inv d l h att flushed :
  disk_inv d l (h, att) flushed ->
  let s := (h, survivors d att) in
  disk_inv (repaired d s) l s (blen (log_of l) + blen s.2).
Proof.
  intros Hd s. pose proof (chain_survivors d _ _ _ (di_chain _ _ _ _ _ _ Hd)) as Hc.
  destruct Hd as [_ Hs _ _ _ _ Ho].
  split; simpl; [done|done| |lia| |done|by rewrite fmap_app in *].
  - by rewrite upto_all.
  - rewrite N.add_comm, N.add_sub. rewrite take_ge by (unfold blen; lia). done.
Qed.

Lemma recovered_tail_Ok l h rs rp :
  chain cursor_new (l ++ [(h, rs)]) -> rp_records rp = log_of l ++ rs ->
  rp_last_sequence rp = blen (log_of l) + blen rs ->
  recovered_tail_record (segment_bytes (h, rs)) h rp = Ok (tail_of (h, rs)).
Proof.
  intros Hc Hr Hl. pose proof (chain_last_sequence _ _ Hc) as Hfirst. simpl in Hfirst.
  pose proof (chain_last_wf _ _ Hc) as Hs.
  unfold recovered_tail_record, tail_of. rewrite Hl, Hfirst, Hr. cbn [snd].
  destruct (last rs) as [r|] eqn:Hlast.
  - destruct (segment_last (h, rs) r Hs Hlast) as (Hwf & Hq & rs' & E & Hb). cbn [fst snd] in *.
    assert (blen rs = blen rs' + 1) as Hlen by (rewrite E, blen_app; done).
    rewrite (proj2 (N.ltb_ge _ _)) by lia.
    rewrite last_app, Hlast. cbn [ok_or mbind result_bind].
    rewrite bool_decide_eq_true_2 by lia. cbn [negb].
    pose proof (rw_payload _ _ Hwf) as Hp. unfold MAX_RECORD_PAYLOAD in Hp.
    rewrite u64_checked_add_fits by (unfold RECORD_OVERHEAD, U64_MAX; lia).
    cbn [ok_or mbind result_bind option_bind]. rewrite <- blen_record_bytes, Hb, blen_app.
    rewrite (proj2 (N.ltb_ge _ _)) by lia. rewrite N.add_sub, skip_app by done.
    rewrite (blen_segment_bytes (h, rs')) by apply Hs.
    rewrite (proj2 (N.ltb_ge _ _)) by lia.
    pose proof (validate_record_Ok _ r [] Hwf) as Hv. rewrite app_nil_r in Hv.
    replace (blen (log_of l) + blen rs) with (jr_sequence r) by lia. rewrite Hv.
    by rewrite bool_decide_eq_true_2.
  - apply last_None in Hlast. subst rs. by rewrite (proj2 (N.ltb_lt _ _)) by (rewrite blen_nil; lia).
Qed.

(** A clean set reopens at its end, or stays as it is. *)
Lemma open_clean_spec io d l h rs f rp opened d' :
  disk_inv d l (h, rs) f -> jd_active d = segment_bytes (h, rs) ->
  blen (jd_active d) <= U64_MAX ->
  rp_records rp = log_of l ++ rs -> rp_last_sequence rp = blen (log_of l) + blen rs ->
  open_clean_recovered_appender io d rp = (opened, d') ->
  match opened with
  | Ok a => d' = sync_all d /\ ap_fault a = None /\ healthy gid jid a (sync_all d) l rs
            /\ ap_flushed_sequence a = blen (log_of l) + blen rs
  | Err _ => d' = d /\ io <> no_failure
  end.
Proof.
  intros Hd Hact Hmax Hr Hl. pose proof (di_chain _ _ _ _ _ _ Hd) as Hc.
  pose proof (chain_last_wf _ _ Hc) as Hs. pose proof (chain_last_sequence _ _ Hc) as Hfirst.
  pose proof (sw_bound _ Hs) as Hbound. simpl in Hfirst, Hbound.
  pose proof (validate_active_file_Ok (h, rs) (blen (log_of l) + blen rs) Hs) as Hv.
  cbn [fst snd] in Hv. rewrite <- Hact in Hv.
  pose proof (segment_header_decode (h, rs) (sw_header _ Hs)) as Hdec.
  pose proof (recovered_tail_Ok l h rs rp Hc Hr Hl) as Htail. rewrite <- Hact in Hdec, Htail.
  unfold open_clean_recovered_appender. rewrite Hdec. cbn [map_err mbind result_bind fst].
  rewrite Htail. cbn [mbind result_bind]. rewrite Hl.
  rewrite u64_checked_add_fits by lia. cbn [ok_or mbind result_bind].
  intros E. injection E as <- <-. destruct (_ ≫= _) as [a|e] eqn:E.
  - apply bind_Ok in E as (_ & _ & E). apply bind_Ok in E as (_ & _ & E).
    apply bind_Ok in E as (_ & _ & E). apply bind_Ok in E as (_ & _ & E).
    injection E as <-. split; [done|]. split; [done|]. split; [|done].
    split; simpl; [|done|done|lia|lia|done].
    apply (disk_inv_sync _ _ _ _ (h, rs) _ Hd Hact).
  - split; [done|]. intros ->. cbn [io_call no_failure mbind result_bind] in E.
    rewrite Hv in E by (done || lia). done.
Qed.

(** Recovery may always add a successor, except after an empty first segment. *)
Lemma recovery_successor_next l h rs hash g t :
  chain cursor_new (l ++ [(h, rs)]) -> 0 < blen (log_of l) + blen rs ->
  recovery_successor h (blen (log_of l) + blen rs) hash g t
  = next_header h (blen (log_of l) + blen rs) hash g t.
Proof.
  intros Hc Hpos. pose proof (chain_last_wf _ _ Hc) as Hs.
  pose proof (chain_last_sequence _ _ Hc) as Hfirst. cbn [fst] in Hfirst.
  unfold recovery_successor. destruct (N.ltb_spec (blen (log_of l) + blen rs)
    (sh_first_sequence h)) as [Hlt|]; [|done].
  assert (u64_checked_add (blen (log_of l) + blen rs) 1 = Some (sh_first_sequence h)) as ->.
  { apply u64_checked_add_Some. pose proof (sw_bound _ Hs) as Hb. simpl in Hb. lia. }
  rewrite (bool_decide_eq_true_2 (Some _ = Some _)) by done. cbn [negb].
  rewrite orb_false_r, (proj2 (N.eqb_neq _ 0)); [done|]. intros E0.
  pose proof (hw_linked _ (sw_header _ Hs)) as Hlk. unfold linked in Hlk. cbn [fst] in Hlk.
  rewrite E0 in Hlk. simpl in Hlk. lia.
Qed.

(** The journal a failed recovery leaves: the records before the crash, or only
    the surviving ones. *)
Definition still_there (d' : JournalDisk) (log survived : list JournalRecord) (flushed : N) : Prop :=
  exists l s flushed', disk_inv d' l s flushed' /\ flushed <= flushed'
    /\ (log_of l ++ s.2 = log \/ log_of l ++ s.2 = survived).

(** A file cut anywhere between its last survivor and its end. *)
Lemma disk_inv_cut d l h att flushed sy :
  let s := (h, survivors d att) in
  disk_inv d l (h, att) flushed -> jd_active d = segment_bytes s ++ sy ->
  disk_inv (d <| jd_active := segment_bytes s |>
              <| jd_synced := N.min (blen (segment_bytes s)) (jd_synced d) |>) l (h, att) flushed.
Proof.
  intros s Hd Hact. pose proof (survivors_flushed _ _ _ _ _ Hd) as Hsf.
  assert (upto (blen (segment_bytes s)) (jd_active d) = segment_bytes s) as Hup
    by (rewrite Hact; by apply upto_app).
  assert (blen (segment_bytes s) <= blen (jd_active d)) as Hle
    by (rewrite Hact, blen_app; lia).
  destruct Hd as [Hc Hs Ha Hf Hdur Hy Ho]. split; simpl in *; try done.
  - pose proof (f_equal (upto (blen (segment_bytes s))) Ha) as E.
    rewrite upto_upto, Hup, N.min_l in E by done. done.
  - apply N.min_glb; [|done]. unfold s. unfold segment_bytes. cbn [fst snd]. rewrite !blen_app.
    apply N.add_le_mono_l. rewrite (prefix_take _ _ (survivors_prefix d att)).
    apply blen_records_prefix, take_prefix_le. unfold blen in *. lia.
  - lia.
Qed.

Lemma repair_spec io d l h att flushed sy res d' :
  let s := (h, survivors d att) in
  disk_inv d l (h, att) flushed -> jd_active d = segment_bytes s ++ sy ->
  repair_recovery_segment io d (blen (segment_bytes s)) = (res, d') ->
  match res with
  | Ok _ => d' = repaired d s
  | Err _ => disk_inv d' l (h, att) flushed /\ io <> no_failure
  end.
Proof.
  intros s Hd Hact. unfold repair_recovery_segment.
  assert (upto (blen (segment_bytes s)) (jd_active d) = segment_bytes s) as ->
    by (rewrite Hact; by apply upto_app).
  destruct (_ ≫= _) eqn:E.
  - destruct (io_call io JournalIoOperation.SyncSegment) eqn:E2; intros; simplify_eq; [done|].
    split; [by eapply disk_inv_cut|]. by intros ->.
  - intros; simplify_eq. split; [done|]. by intros ->.
Qed.

(** The segments of a successful installation, and what a failed one leaves. *)
Lemma install_spec io io' d l s h' flushed res d' :
  disk_inv d l s flushed -> jd_active d = segment_bytes s ->
  flushed = blen (log_of l) + blen s.2 ->
  header_wf h' -> follows (cursor_after cursor_new (l ++ [s])) h' -> owned gid jid h' ->
  install_segment io io' d h' = (res, d') ->
  match res with
  | Ok _ => disk_inv d' (l ++ [s]) (h', []) flushed /\ jd_active d' = SegmentHeader_encode h'
  | Err _ => (d' = d \/ disk_inv d' (l ++ [s]) (h', []) flushed)
             /\ (io <> no_failure \/ io' <> no_failure)
  end.
Proof.
  intros Hd Hact Hf Hwf Hfol Hown. unfold install_segment.
  pose proof (disk_inv_install gid jid d l s h' flushed Hd Hact Hf Hwf Hfol Hown) as Hd'.
  destruct (publish_segment io) eqn:E.
  - intros; simplify_eq. destruct (settle_segment io') eqn:E2; [by split|].
    split; [by right|]. right. by intros ->.
  - intros; simplify_eq. split; [by left|]. left. by intros ->.
Qed.

Lemma next_header_Ok l h rs hash g t :
  chain cursor_new (l ++ [(h, rs)]) -> sh_segment_index h + 1 <= U32_MAX ->
  exists h', next_header h (blen (log_of l) + blen rs) hash g t = Ok h'.
Proof.
  intros Hc Hi. pose proof (sw_bound _ (chain_last_wf _ _ Hc)) as Hb.
  pose proof (chain_last_sequence _ _ Hc) as Hfirst. simpl in Hb, Hfirst.
  unfold next_header, u32_checked_add. rewrite (proj2 (N.leb_le _ _)) by done.
  cbn [ok_or mbind result_bind]. rewrite u64_checked_add_fits by lia. eexists. done.
Qed.

(** The header a torn set needs. *)
Lemma repair_header_spec io d l h att flushed rp g t res sy :
  let rs := survivors d att in
  disk_inv d l (h, att) flushed -> jd_active d = segment_bytes (h, rs) ++ sy -> sy <> [] ->
  blen l + 1 <= U32_MAX -> g <= U64_MAX -> t <= U64_MAX ->
  hash_segment (segment_bytes (h, rs)) <> SegmentHash_ZERO ->
  rp_last_sequence rp = blen (log_of l) + blen rs ->
  last (rp_valid_segment_prefixes rp) = Some (blen (segment_bytes (h, rs))) ->
  repair_header io d rp (blen (segment_bytes (h, rs))) g t = res ->
  match res with
  | Ok None => True
  | Ok (Some h') => header_wf h' /\ follows (cursor_after cursor_new (l ++ [(h, rs)])) h'
                    /\ owned gid jid h'
  | Err _ => io <> no_failure
  end.
Proof.
  intros rs Hd Hact Hsy Hidx Hg Ht Hz Hl Hpre <-.
  destruct (replay_files_facts _ _ _ _ _ Hd) as (_ & _ & _ & Hfirst & Hi).
  pose proof (chain_survivors d _ _ _ (di_chain _ _ _ _ _ _ Hd)) as Hc. fold rs in Hc.
  pose proof (chain_last_wf _ _ Hc) as Hs.
  pose proof (blen_segment_bytes (h, rs) (sw_header _ Hs)) as Hsl.
  assert (blen (segment_bytes (h, rs)) < blen (jd_active d)) as Hal.
  { rewrite Hact, blen_app. destruct sy; [done|]. rewrite blen_cons. lia. }
  unfold repair_header. rewrite Hpre, bool_decide_eq_true_2 by done.
  rewrite (proj2 (N.ltb_ge _ _)), (proj2 (N.leb_gt _ _)) by lia. cbn [negb orb].
  assert (SegmentHeader_decode (jd_active d) = Ok h) as ->.
  { rewrite Hact. unfold segment_bytes. rewrite <- app_assoc. apply header_decode_encode, Hs. }
  cbn [map_err mbind result_bind]. rewrite Hl.
  destruct (_ && _) eqn:Hempty; [done|].
  assert (0 < blen (log_of l) + blen rs) as Hpos.
  { apply andb_false_iff in Hempty as [E|E]; bool_to_prop; [|lia].
    pose proof (hw_linked _ (sw_header _ Hs)) as Hlk. unfold linked in Hlk. cbn [fst] in Hlk.
    rewrite (proj2 (N.eqb_neq _ 0)) in Hlk by done. lia. }
  assert (upto (blen (segment_bytes (h, rs))) (jd_active d) = segment_bytes (h, rs)) as ->
    by (rewrite Hact; by apply upto_app).
  rewrite (recovery_successor_next l h rs) by done.
  destruct (next_header_Ok l h rs (hash_segment (segment_bytes (h, rs))) g t) as [h' E];
    [done|by rewrite Hi|]. rewrite E. cbn [map_err mbind result_bind].
  destruct (next_header_follows gid jid _ _ _ _ _ _ Hc Hpos Hz Hg Ht E) as (Hwf & Hfol & Hown).
  destruct (io_call io _) eqn:Eio; cbn [mbind result_bind]; [|by intros ->].
  split; [done|]. split; [done|]. by apply Hown, (disk_inv_owned _ _ _ _ _ _ Hd).
Qed.

(** The appender on the successor of a repaired segment. *)
Lemma open_successor_spec io l h rs h' d opened d' :
  let n := blen (log_of l) + blen rs in
  disk_inv d (l ++ [(h, rs)]) (h', []) n -> jd_active d = SegmentHeader_encode h' ->
  header_wf h' ->
  ((_ ← io_call io JournalIoOperation.OpenActiveSegment;
    _ ← validate_active_file io (SegmentHeader_encode h') h' SEGMENT_HEADER_LEN n None;
    Ok {| ap_open := true; ap_header := h'; ap_valid_length := SEGMENT_HEADER_LEN;
          ap_next_sequence := sh_first_sequence h'; ap_appended_sequence := n;
          ap_flushed_sequence := n; ap_tail_record := None; ap_fault := None |}), d)
  = (opened, d') ->
  match opened with
  | Ok a => ap_fault a = None /\ journal_inv gid jid a d' (log_of l ++ rs)
            /\ ap_flushed_sequence a = n
  | Err _ => d' = d /\ io <> no_failure
  end.
Proof.
  intros n Hd Ha Hwf E. injection E as <- <-.
  pose proof (chain_last_sequence _ _ (di_chain _ _ _ _ _ _ Hd)) as Hfirst.
  rewrite log_of_snoc, blen_app in Hfirst. cbn [fst] in Hfirst.
  pose proof (chain_last_wf _ _ (di_chain _ _ _ _ _ _ Hd)) as Hs.
  destruct (_ ≫= _) as [a|e] eqn:E.
  - apply bind_Ok in E as (_ & _ & E). apply bind_Ok in E as (_ & _ & E). injection E as <-.
    split; [done|]. split; [|done]. exists (l ++ [(h, rs)]), [].
    rewrite log_of_snoc, app_nil_r. split; [done|]. simpl.
    apply (healthy_fresh _ _ _ _ _ h'); try done. by rewrite log_of_snoc, blen_app.
  - split; [done|]. intros ->. cbn [io_call no_failure mbind result_bind] in E.
    pose proof (blen_header_encode _ Hwf) as Hhl.
    pose proof (validate_active_file_Ok (h', []) n Hs) as Hv. unfold segment_bytes in Hv.
    cbn [fst snd] in Hv. change (records_bytes []) with (@nil byte) in Hv.
    change (tail_of (h', [])) with (@None TailRecord) in Hv. rewrite app_nil_r, Hhl in Hv.
    rewrite Hv in E by (rewrite ?blen_nil; subst n; done || lia). done.
Qed.

(** A torn set is cut at its last whole record; unless it is an empty first
    segment it is sealed, and a successor installed. *)
Lemma open_torn_spec io io1 io2 d l h att flushed rp sy g t opened d' :
  let rs := survivors d att in
  disk_inv d l (h, att) flushed -> jd_active d = segment_bytes (h, rs) ++ sy -> sy <> [] ->
  blen (jd_active d) <= U64_MAX -> blen l + 1 <= U32_MAX -> g <= U64_MAX -> t <= U64_MAX ->
  hash_segment (segment_bytes (h, rs)) <> SegmentHash_ZERO ->
  rp_records rp = log_of l ++ rs -> rp_last_sequence rp = blen (log_of l) + blen rs ->
  last (rp_valid_segment_prefixes rp) = Some (blen (segment_bytes (h, rs))) ->
  open_repaired_recovered_appender io io1 io2 d rp (blen (segment_bytes (h, rs))) g t
  = (opened, d') ->
  match opened with
  | Ok a => ap_fault a = None /\ journal_inv gid jid a d' (log_of l ++ rs)
            /\ ap_flushed_sequence a = blen (log_of l) + blen rs
  | Err _ => still_there d' (log_of l ++ att) (log_of l ++ rs) flushed
             /\ (io <> no_failure \/ io1 <> no_failure \/ io2 <> no_failure)
  end.
Proof.
  intros rs Hd Hact Hsy Hmax Hidx Hg Ht Hz Hr Hl Hpre.
  pose proof (survivors_flushed _ _ _ _ _ Hd) as Hsf. fold rs in Hsf.
  pose proof (di_flushed _ _ _ _ _ _ Hd) as [Hfl _].
  unfold open_repaired_recovered_appender.
  pose proof (repair_header_spec io _ _ _ _ _ rp g t _ sy Hd Hact Hsy Hidx Hg Ht Hz Hl Hpre eq_refl)
    as Hhd. fold rs in Hhd.
  destruct (repair_header _ _ _ _ _ _) as [next|e].
  2: { intros; simplify_eq. split; [exists l, (h, att), flushed; eauto using N.le_refl|eauto]. }
  destruct (repair_recovery_segment _ _ _) as [[u|e] d1] eqn:Hrep;
    pose proof (repair_spec io _ _ _ _ _ sy _ _ Hd Hact Hrep) as Hrs; cbv beta iota zeta in Hrs;
    fold rs in Hrs.
  2: { intros; simplify_eq. destruct Hrs as [Hrs ?]. split; [exists l, (h, att), flushed; eauto using N.le_refl|eauto]. }
  subst d1. pose proof (repaired_inv _ _ _ _ _ Hd) as Hri. fold rs in Hri. cbn [snd] in Hri.
  destruct next as [h'|].
  - destruct Hhd as (Hwf & Hfol & Hown).
    destruct (install_segment io1 io2 (repaired d (h, rs)) h') as [[v|e] d2] eqn:Hinst;
      pose proof (install_spec io1 io2 _ _ (h, rs) h' _ _ _ Hri eq_refl eq_refl Hwf Hfol Hown Hinst)
      as Hd2; cbv beta iota in Hd2.
    + destruct Hd2 as [Hd2 Ha2]. intros E. rewrite Ha2, Hl in E.
      apply (open_successor_spec io2 l h rs h' d2 _ _ Hd2 Ha2 Hwf) in E.
      destruct opened as [a|e]; [done|]. destruct E as [-> Hio].
      split; [|tauto]. exists (l ++ [(h, rs)]), (h', []), (blen (log_of l) + blen rs).
      split; [done|]. split; [done|]. right. by rewrite log_of_snoc, app_nil_r.
    + intros; simplify_eq. destruct Hd2 as [[->|Hd2] Hio].
      * split; [exists l, (h, rs), (blen (log_of l) + blen rs); eauto|tauto].
      * split; [|tauto]. exists (l ++ [(h, rs)]), (h', []), (blen (log_of l) + blen rs).
        split; [done|]. split; [done|]. right. by rewrite log_of_snoc, app_nil_r.
  - intros E. apply (open_clean_spec _ _ l h rs (blen (log_of l) + blen rs)) in E; [|done|done| |done..].
    2: { simpl. rewrite Hact, blen_app in Hmax. lia. }
    destruct opened as [a|e].
    + destruct E as (-> & Hf & Hh & Hfl'). split; [done|]. split; [|done].
      exists l, rs. split; [done|]. by rewrite Hf.
    + destruct E as [-> Hio].
      split; [exists l, (h, rs), (blen (log_of l) + blen rs); eauto|tauto].
Qed.

Lemma prepare_recovered_replay io d g j limits rp :
  prepare_recovered io d g j limits = Ok rp ->
  rp = replay_ordered_segments (segment_files d) limits.
Proof.
  unfold prepare_recovered. destruct (_ <? _); [done|]. intros E.
  apply bind_Ok in E as (b & _ & E). destruct (_ <? _); [done|].
  apply bind_Ok in E as (_ & _ & E). apply bind_Ok in E as (_ & _ & E).
  apply bind_Ok in E as (h & _ & E). repeat step_in E; by injection E as <-.
Qed.

Lemma disk_inv_clean d l h att flushed :
  let s := (h, survivors d att) in
  disk_inv d l (h, att) flushed -> jd_active d = segment_bytes s -> disk_inv d l s flushed.
Proof.
  intros s Hd Hact. pose proof (chain_survivors d _ _ _ (di_chain _ _ _ _ _ _ Hd)) as Hc.
  pose proof (survivors_flushed _ _ _ _ _ Hd) as Hsf.
  destruct (survivors_prefix d att) as [rest Hatt].
  destruct Hd as [_ Hs _ Hf Hdur Hy Ho].
  split; [done|done| |subst s; cbn [snd]; lia| |done|by rewrite fmap_app in *].
  - rewrite <- Hact. by rewrite upto_all.
  - cbn [fst snd] in *. subst s. cbn [fst snd].
    rewrite Hatt, take_app_le in Hdur; [done|]. unfold blen in *. lia.
Qed.

Lemma active_fits d l h att flushed limits :
  disk_inv d l (h, att) flushed -> admits limits (l ++ [(h, att)]) ->
  blen (jd_active d) <= U64_MAX.
Proof.
  intros Hd [Hseg _ Hrec Hpay Hbud].
  pose proof (total_bytes_chain _ _ (di_chain _ _ _ _ _ _ Hd)) as Ht.
  rewrite fmap_app, total_bytes_app in Ht.
  pose proof (f_equal blen (di_active _ _ _ _ _ _ Hd)) as Hb. rewrite blen_upto in Hb.
  assert (total_bytes (segment_bytes <$> [(h, att)]) = blen (segment_bytes (h, att))) as Hs
    by apply N.add_0_r.
  unfold SEGMENT_HEADER_LEN, RECORD_OVERHEAD, USIZE_MAX in *. lia.
Qed.

(** ** Recovery as a whole

    Whatever system calls fail, recovery either opens a healthy appender on the
    surviving records or leaves a journal from which it can be tried again; when
    none fails, it opens. *)
Lemma open_recovered_spec io io1 io2 d l h att flushed limits g t res d' :
  let rs := survivors d att in
  disk_inv d l (h, att) flushed -> admits limits (l ++ [(h, att)]) ->
  g <= U64_MAX -> t <= U64_MAX ->
  hash_segment (segment_bytes (h, rs)) <> SegmentHash_ZERO ->
  open_recovered io io1 io2 d gid jid limits g t = (res, d') ->
  match res with
  | Ok (a, rp) => rp_records rp = log_of l ++ rs /\ ap_fault a = None
      /\ journal_inv gid jid a d' (log_of l ++ rs)
      /\ ap_flushed_sequence a = blen (log_of l ++ rs)
  | Err _ => still_there d' (log_of l ++ att) (log_of l ++ rs) flushed
             /\ (io <> no_failure \/ io1 <> no_failure \/ io2 <> no_failure)
  end.
Proof.
  intros rs Hd Had Hg Ht Hz E. unfold open_recovered in E.
  destruct (disk_file_end _ _ _ _ _ Hd) as [stop Hend].
  destruct (prepare_recovered io d gid jid limits) as [rp|e] eqn:Hprep.
  2: { simplify_eq. split; [exists l, (h, att), flushed; eauto using N.le_refl|].
    left. intros ->. by rewrite (prepare_recovered_Ok _ _ _ _ _ _ _ Hd Had Hend) in Hprep. }
  apply prepare_recovered_replay in Hprep.
  rewrite (replay_files _ _ _ _ _ _ _ Hd Had Hend) in Hprep.
  destruct (replay_files_facts _ _ _ _ _ Hd) as (Hr & Hl & Hpre & _ & _). fold rs in Hr, Hl, Hpre.
  assert (rp_records rp = log_of l ++ rs) as Hrp by by subst rp.
  assert (rp_last_sequence rp = blen (log_of l) + blen rs) as Hlp by by subst rp.
  assert (last (rp_valid_segment_prefixes rp) = Some (blen (segment_bytes (h, rs)))) as Hpp
    by (rewrite Hprep; etransitivity; [apply (f_equal last Hpre)|apply last_snoc]).
  assert (rp_stop rp = stop) as Hstop by by subst rp.
  pose proof (active_fits _ _ _ _ _ _ Hd Had) as Hmax.
  destruct (open_prepared io io1 io2 d rp g t) as [opened d1] eqn:Hop. injection E as <- <-.
  unfold open_prepared in Hop. rewrite Hstop in Hop. rewrite blen_app.
  destruct Hend as [Hact|r rest j Hatt Hj Hact]; fold rs in Hact.
  - apply (open_clean_spec _ _ l h rs flushed) in Hop; [|by apply disk_inv_clean|done..].
    destruct opened as [a|e]; cbn [fmap result_fmap].
    + destruct Hop as (-> & Hf & Hh & Hfl). split; [done|]. split; [done|]. split; [|done].
      exists l, rs. split; [done|]. by rewrite Hf.
    + destruct Hop as [-> Hio]. split; [exists l, (h, att), flushed; eauto using N.le_refl|tauto].
  - destruct (upto j (record_bytes r)) as [|b sy] eqn:Hsy.
    { apply (f_equal blen) in Hsy. rewrite blen_upto, blen_nil in Hsy. lia. }
    apply (open_torn_spec _ _ _ _ _ _ _ _ _ (b :: sy) _ _ _ _ Hd Hact) in Hop; try done.
    + by destruct opened.
    + destruct Had as [_ Hi _ _ _]. rewrite blen_app in Hi. done.
Qed.
End recovery.
