(* ===== verification/JournalRun.v ===== *)
(** * Histories of a control journal

    The life of one journal: created, appended to, flushed, closed, rotated,
    crashed at any byte past its synced prefix, recovered, each under any I/O
    failure.  [run] collects the records handed to the file so far. *)

From S2P Require Import Prelude Bytes Ids Paths Journal JournalCodec Replay PayloadTypes Payload PayloadExact JournalAppender JournalDurable JournalRecovery.
From Stdlib Require Import Init.Byte Strings.Byte.
Open Scope list_scope.

(** A journal is open in a process, or only on disk after a crash, when [flushed]
    is the last sequence a flush had acknowledged. *)
Inductive world : Type :=
| Up (a : ControlJournalAppender) (d : JournalDisk)
| Down (d : JournalDisk) (flushed : N).

Section run.
Context `{Unicode, Digests}.
Context (gid : Gid) (jid : JournalId).

(** The log after an append: extended when the record was handed to the file,
    also if the write failed and latched the fault. *)
Definition attempted (a a' : ControlJournalAppender) (res : result JournalAppenderError N)
    (r : JournalRecord) (log : list JournalRecord) : list JournalRecord :=
  if is_ok res || ((ap_fault a == None)
                   && (ap_fault a' == Some JournalAppenderFault.WriteRecord))
  then log ++ [r] else log.

(** The record of a payload. *)
Definition payload_record (g : Generation) (sequence : N) (p : JournalPayload) : JournalRecord :=
  mkJournalRecord (record_type p) g sequence
    (match JournalPayload_encode p with Ok encoded => encoded | Err _ => [] end).

(** The replay budgets admit the files and the log. *)
Record ample (limits : ReplayLimits) (d : JournalDisk) (log : list JournalRecord) : Prop := {
  am_segments : blen (segment_files d) <= rl_max_segments limits;
  am_index : blen (segment_files d) <= U32_MAX;
  am_records : blen log <= rl_max_records limits;
  am_payload : payload_total log <= rl_max_payload_bytes limits;
  am_budget : rl_max_segments limits * SEGMENT_HEADER_LEN + rl_max_records limits * RECORD_OVERHEAD
              + rl_max_payload_bytes limits <= USIZE_MAX;
}.

(** No prefix of the file hashes to the value that stands for "no segment". *)
Definition hashes_nonzero (file : bytes) : Prop :=
  forall n, hash_segment (upto n file) <> SegmentHash_ZERO.

Inductive run : world -> list JournalRecord -> Prop :=
| run_create io io' g t a d :
    gid <> 0 -> gid <= U64_MAX -> blen jid = 16 -> all_zero jid = false ->
    g <= U64_MAX -> t <= U64_MAX ->
    create io io' gid jid g t = Ok (a, d) -> run (Up a d) []
| run_append a d log io w g p res a' d' :
    run (Up a d) log -> g <= U64_MAX -> payload_typed p ->
    append_payload io w a d g p = (res, a', d') ->
    run (Up a' d') (attempted a a' res (payload_record g (ap_next_sequence a) p) log)
| run_flush a d log io n res a' d' :
    run (Up a d) log -> flush io a d n = (res, a', d') -> run (Up a' d') log
| run_close a d log res a' :
    run (Up a d) log -> close_flushed a = (res, a') -> run (Up a' d) log
| run_rotate a d log io io1 io2 g t res a' d' :
    run (Up a d) log -> g <= U64_MAX -> t <= U64_MAX -> hashes_nonzero (jd_active d) ->
    appender_rotate io io1 io2 a d g t = (res, a', d') -> run (Up a' d') log
| run_crash a d log k :
    run (Up a d) log -> run (Down (crash k d) (ap_flushed_sequence a)) log
| run_crash_down d f log k :
    run (Down d f) log -> run (Down (crash k d) f) log
| run_recover d f log io io1 io2 limits g t a rp d' :
    run (Down d f) log -> ample limits d log -> g <= U64_MAX -> t <= U64_MAX ->
    hashes_nonzero (jd_active d) ->
    open_recovered io io1 io2 d gid jid limits g t = (Ok (a, rp), d') ->
    run (Up a d') (rp_records rp)
| run_recover_failed d f log io io1 io2 limits g t e d' :
    run (Down d f) log -> ample limits d log -> g <= U64_MAX -> t <= U64_MAX ->
    hashes_nonzero (jd_active d) ->
    open_recovered io io1 io2 d gid jid limits g t = (Err e, d') ->
    run (Down d' f) log.
End run.

Section run_inv.
Context `{Unicode, DigestLaws}.
Context (gid : Gid) (jid : JournalId).

Definition world_inv (w : world) (log : list JournalRecord) : Prop :=
  match w with
  | Up a d => journal_inv gid jid a d log
  | Down d f => exists l s f', disk_inv gid jid d l s f' /\ f <= f' /\ log_of l ++ s.2 `prefix_of` log
  end.

Lemma first_header_wf g t :
  gid <> 0 -> gid <= U64_MAX -> blen jid = 16 -> all_zero jid = false ->
  g <= U64_MAX -> t <= U64_MAX -> header_wf (SegmentHeader_first gid jid g t).
Proof. intros. split; simpl; try done. Qed.

Lemma create_inv io io' g t a d :
  gid <> 0 -> gid <= U64_MAX -> blen jid = 16 -> all_zero jid = false ->
  g <= U64_MAX -> t <= U64_MAX ->
  create io io' gid jid g t = Ok (a, d) -> journal_inv gid jid a d [].
Proof.
  intros G1 G2 G3 G4 G5 G6 E. unfold create in E.
  apply bind_Ok in E as (_ & _ & E). apply bind_Ok in E as (_ & _ & E).
  apply bind_Ok in E as (_ & _ & E). apply bind_Ok in E as (_ & _ & E). injection E as <- <-.
  pose proof (first_header_wf g t G1 G2 G3 G4 G5 G6) as Hwf.
  pose proof (blen_header_encode _ Hwf) as Hhl.
  exists [], []. split; [done|]. simpl.
  apply (healthy_fresh _ _ _ _ _ (SegmentHeader_first gid jid g t)); try done. simpl.
  split; cbn [jd_sealed jd_active jd_synced fst snd]; try done.
  - rewrite Hhl. unfold segment_bytes. cbn [fst snd].
    change (records_bytes []) with (@nil byte). rewrite app_nil_r, upto_all; [done|by rewrite Hhl].
  - rewrite take_nil. unfold segment_bytes. cbn [fst snd].
    change (records_bytes []) with (@nil byte). by rewrite app_nil_r, Hhl.
  - by rewrite Hhl.
  - by apply Forall_cons.
Qed.

Lemma attempted_inv io w a d ty g p res a' d' log :
  journal_inv gid jid a d log -> g <= U64_MAX -> blen p <= MAX_RECORD_PAYLOAD ->
  appender_append io w a d ty g p = (res, a', d') ->
  journal_inv gid jid a' d'
    (attempted a a' res (mkJournalRecord ty g (ap_next_sequence a) p) log).
Proof.
  intros Hinv Hg Hp E. pose proof (append_inv _ _ _ _ _ _ _ _ _ _ _ _ _ Hinv Hg Hp E) as Ha.
  unfold attempted. destruct res as [q|e]; simpl.
  - by destruct Ha as (<- & _ & Ha & _).
  - destruct Ha as [[Ha Hn]|[Ha [G1 G2]]].
    + destruct (bool_decide_reflect (ap_fault a = None)), (bool_decide_reflect (ap_fault a' =
        Some JournalAppenderFault.WriteRecord)); simpl; tauto.
    + by rewrite G1, G2, !bool_decide_eq_true_2.
Qed.

Lemma attempted_same a res r log :
  is_ok res = false -> attempted a a res r log = log.
Proof.
  intros Hr. unfold attempted. rewrite Hr. cbn [orb]. destruct (ap_fault a) as [f|].
  - by rewrite (bool_decide_eq_false_2 (Some f = None)).
  - by rewrite (bool_decide_eq_false_2 (None = Some _)), andb_false_r.
Qed.

Lemma encode_len p b : JournalPayload_encode p = Ok b -> blen b <= MAX_RECORD_PAYLOAD.
Proof.
  unfold JournalPayload_encode. intros (? & _ & (out & _ & E)%bind_Ok)%bind_Ok.
  destruct (N.ltb_spec MAX_RECORD_PAYLOAD (blen out)); [done|]. by injection E as <-.
Qed.

Lemma append_payload_inv io w a d g p res a' d' log :
  journal_inv gid jid a d log -> g <= U64_MAX ->
  append_payload io w a d g p = (res, a', d') ->
  journal_inv gid jid a' d' (attempted a a' res (payload_record g (ap_next_sequence a) p) log).
Proof.
  intros Hinv Hg E. unfold append_payload in E. destruct (ensure_healthy a) as [u|e].
  2: { simplify_eq. by rewrite attempted_same. }
  unfold payload_record. destruct (JournalPayload_encode p) as [b|e] eqn:Hb.
  - apply (attempted_inv io w a d); [done..|by apply encode_len in Hb|done].
  - simplify_eq. by rewrite attempted_same.
Qed.

(** A record that holds a payload of its type. *)
Definition decodes (r : JournalRecord) : Prop :=
  exists p, payload_typed p /\ decode_payload r = Ok p.

Lemma payload_record_decodes g n p b :
  payload_typed p -> JournalPayload_encode p = Ok b -> decodes (payload_record g n p).
Proof.
  intros Ht Hb. exists p. split; [done|]. unfold decode_payload, payload_record. rewrite Hb.
  by apply decode_encode.
Qed.

Lemma append_payload_decodes io w a d g p res a' d' log :
  payload_typed p -> append_payload io w a d g p = (res, a', d') -> Forall decodes log ->
  Forall decodes (attempted a a' res (payload_record g (ap_next_sequence a) p) log).
Proof.
  intros Ht E HF. unfold append_payload in E. destruct (ensure_healthy a) as [u|e].
  2: { simplify_eq. by rewrite attempted_same. }
  destruct (JournalPayload_encode p) as [b|e] eqn:Hb.
  - unfold attempted. destruct (_ || _); [|done]. apply Forall_app. split; [done|].
    constructor; [|constructor]. by eapply payload_record_decodes.
  - simplify_eq. by rewrite attempted_same.
Qed.

Lemma payload_prefix rs rs' : rs `prefix_of` rs' -> payload_total rs <= payload_total rs'.
Proof. intros [k ->]. rewrite payload_total_app. lia. Qed.

Lemma blen_prefix {A} (l l' : list A) : l `prefix_of` l' -> blen l <= blen l'.
Proof. intros [k ->]. rewrite blen_app. lia. Qed.

Lemma ample_admits limits d log l s f :
  disk_inv gid jid d l s f -> log_of l ++ s.2 `prefix_of` log -> ample limits d log ->
  admits limits (l ++ [s]).
Proof.
  intros Hd Hp [G1 G2 G3 G4 G5]. destruct s as [h rs]. simpl in Hp.
  unfold segment_files in G1, G2. rewrite (di_sealed _ _ _ _ _ _ Hd) in G1, G2.
  rewrite blen_app, blen_fmap in G1, G2.
  pose proof (blen_prefix _ _ Hp). pose proof (payload_prefix _ _ Hp).
  split; rewrite ?log_of_snoc, ?blen_app; [done|done| |lia|done].
  rewrite blen_app in *. lia.
Qed.

Lemma survivors_hash d l h att f :
  disk_inv gid jid d l (h, att) f -> hashes_nonzero (jd_active d) ->
  hash_segment (segment_bytes (h, survivors d att)) <> SegmentHash_ZERO.
Proof.
  intros Hd Hz. destruct (disk_file_end _ _ _ _ _ _ _ Hd) as [stop Hend].
  specialize (Hz (blen (segment_bytes (h, survivors d att)))).
  destruct Hend as [Hact|r rest j _ _ Hact]; rewrite Hact in Hz.
  - by rewrite upto_all in Hz.
  - by rewrite upto_app in Hz.
Qed.

Lemma survivors_in_log d l att log :
  log_of l ++ att `prefix_of` log -> log_of l ++ survivors d att `prefix_of` log.
Proof. intros Hp. etransitivity; [|done]. apply prefix_app, survivors_prefix. Qed.

(** What recovery does on a crashed journal. *)
Lemma recover_inv io io1 io2 d f log limits g t res d' :
  world_inv (Down d f) log -> ample limits d log -> g <= U64_MAX -> t <= U64_MAX ->
  hashes_nonzero (jd_active d) ->
  open_recovered io io1 io2 d gid jid limits g t = (res, d') ->
  match res with
  | Ok (a, rp) => journal_inv gid jid a d' (rp_records rp) /\ ap_fault a = None
      /\ rp_records rp `prefix_of` log /\ f <= blen (rp_records rp)
      /\ ap_flushed_sequence a = blen (rp_records rp)
  | Err _ => world_inv (Down d' f) log
      /\ (io <> no_failure \/ io1 <> no_failure \/ io2 <> no_failure)
  end.
Proof.
  intros (l & [h att] & f' & Hd & Hf & Hp) Ham Hg Ht Hz E. cbn [snd] in Hp.
  pose proof (ample_admits _ _ _ _ _ _ Hd Hp Ham) as Had.
  pose proof (open_recovered_spec _ _ _ _ _ _ _ _ _ _ _ _ _ _ _ Hd Had Hg Ht
    (survivors_hash _ _ _ _ _ Hd Hz) E) as Hr.
  pose proof (survivors_flushed _ _ _ _ _ _ _ Hd) as Hsf.
  pose proof (survivors_in_log d l att log Hp) as Hsp.
  destruct res as [[a rp]|e].
  - destruct Hr as (-> & Hfa & Hinv & Hfl). split_and!; try done. rewrite blen_app. lia.
  - destruct Hr as [(l' & s & f2 & Hd' & Hf2 & Hlog) Hio]. split; [|done].
    exists l', s, f2. split; [done|]. split; [lia|]. by destruct Hlog as [->| ->].
Qed.

Lemma run_world_inv w log : run gid jid w log -> world_inv w log.
Proof.
  induction 1 as [io io' g t a d ? ? ? ? ? ? E|a d log io w g p res a' d' _ IH Hg Hp E
    |a d log io n res a' d' _ IH E|a d log res a' _ IH E
    |a d log io io1 io2 g t res a' d' _ IH Hg Ht Hz E|a d log k _ IH|d f log k _ IH
    |d f log io io1 io2 limits g t a rp d' _ IH Ham Hg Ht Hz E
    |d f log io io1 io2 limits g t e d' _ IH Ham Hg Ht Hz E].
  - by apply (create_inv io io' g t).
  - by apply (append_payload_inv io w a d g p res a' d' log).
  - by apply (flush_inv _ _ _ _ _ _ _ _ _ _ IH E).
  - by apply (close_inv _ _ _ _ _ _ _ IH E).
  - specialize (Hz (blen (jd_active d))). rewrite upto_all in Hz by done.
    by apply (rotate_inv _ _ _ _ _ _ _ _ _ _ _ _ _ IH Hz Hg Ht E).
  - destruct IH as (l & rs & -> & Hh). simpl.
    assert (exists h, disk_inv gid jid d l (h, rs) (ap_flushed_sequence a)) as [h Hd]
      by (destruct (ap_fault a); [done|exists (ap_header a); apply Hh]).
    exists l, (h, rs), (ap_flushed_sequence a). split; [by apply crash_inv|]. by split.
  - destruct IH as (l & s & f' & Hd & Hf & Hp). exists l, s, f'.
    split; [by apply crash_inv|]. by split.
  - apply (recover_inv _ _ _ _ _ _ _ _ _ _ _ IH Ham Hg Ht Hz E).
  - apply (recover_inv _ _ _ _ _ _ _ _ _ _ _ IH Ham Hg Ht Hz E).
Qed.

Lemma run_decodes w log : run gid jid w log -> Forall decodes log.
Proof.
  induction 1 as [| | | | | | |d f log io io1 io2 limits g t a rp d' Hrun IH Ham Hg Ht Hz E|];
    try done; [by eapply append_payload_decodes|].
  pose proof (recover_inv _ _ _ _ _ _ _ _ _ _ _ (run_world_inv _ _ Hrun) Ham Hg Ht Hz E)
    as (_ & _ & [k ->] & _). by apply Forall_app in IH as [IH _].
Qed.
End run_inv.
