(* ===== verification/JournalProperties.v ===== *)
(** * Properties of the control journal

    The codecs of headers and records, replay of arbitrary bytes, and the
    durability of the appender over every history of operations, I/O failures
    and crashes. *)

From S2P Require Import Prelude Bytes Ids Utf8 ConcreteDigests Paths Journal JournalCodec Replay JournalTags PayloadTypes Payload PayloadExact JournalAppender JournalDurable JournalRecovery JournalRun.
From Stdlib Require Import Init.Byte Strings.Byte.
Open Scope list_scope.

(** ** Lemmas on runs *)

Section runs.
Context `{DigestLaws}.
Context (gid : Gid) (jid : JournalId).

Lemma chain_numbered l : forall c,
  chain c l -> numbered (rc_expected_sequence c) (log_of l).
Proof.
  induction l as [|s l IH]; intros c Hc; [done|]. destruct Hc as (Hs & Hf & Hc).
  pose proof Hf as (_ & _ & _ & Hfirst & _). rewrite log_of_cons. apply numbered_app.
  rewrite <- Hfirst. split; [apply Hs|]. apply (IH _ Hc).
Qed.

Lemma healthy_survivors a d l rs :
  healthy gid jid a d l rs -> survivors d rs = rs.
Proof.
  intros [Hd Hact _ _ _ _]. pose proof (chain_last_wf _ _ (di_chain _ _ _ _ _ _ Hd)) as Hs.
  unfold survivors. apply whole_ge. rewrite Hact, blen_segment_bytes by apply Hs.
  cbn [snd]. lia.
Qed.

(** With no failing call a healthy appender flushes, open or closed. *)
Lemma flush_live a d l rs :
  ap_fault a = None -> healthy gid jid a d l rs -> blen (jd_active d) <= U64_MAX ->
  exists q a' d', flush no_failure a d (ap_appended_sequence a) = (Ok q, a', d')
    /\ ap_fault a' = None /\ healthy gid jid a' d' l rs /\ ap_header a' = ap_header a
    /\ ap_appended_sequence a' = ap_appended_sequence a /\ segment_files d' = segment_files d.
Proof.
  intros Hf Hh Hmax. unfold flush. rewrite (proj2 (ensure_healthy_Ok a) Hf).
  rewrite (proj2 (N.ltb_ge _ _)) by lia. destruct (_ <=? _); [by eexists _, a, d|].
  pose proof Hh as [Hd Hact Hlen Happ _ Htail].
  pose proof (chain_last_wf _ _ (di_chain _ _ _ _ _ _ Hd)) as Hs.
  pose proof (chain_last_sequence _ _ (di_chain _ _ _ _ _ _ Hd)) as Hfirst. cbn [fst] in Hfirst.
  assert (exists a1, ensure_open no_failure a d = (Ok tt, a1)) as [a1 Hopen].
  { unfold ensure_open. destruct (ap_open a); [by eexists|].
    cbn [io_call no_failure mbind result_bind]. rewrite Hlen, Htail, Hact.
    pose proof (validate_active_file_Ok (ap_header a, rs) (ap_appended_sequence a) Hs) as Hv.
    cbn [fst snd] in Hv. rewrite Hv; [by eexists|by rewrite <- Hact|lia]. }
  rewrite Hopen. pose proof (ensure_open_inv _ _ _ _ _ _ _ _ _ Hf Hh Hopen)
    as (Hf1 & [Hd1 Hact1 Hlen1 Happ1 Hnext1 Htail1] & Hhd & _ & _ & _ & Hap & _).
  cbn [no_failure]. eexists _, _, _. split; [done|]. split; [done|].
  split; [|by rewrite <- Hhd, <- Hap]. split; try done. simpl. rewrite Happ1.
  by apply (disk_inv_sync _ _ _ _ (ap_header a1, rs) (ap_flushed_sequence a1)).
Qed.

Lemma healthy_snapshot a d l rs limits :
  ap_fault a = None -> healthy gid jid a d l rs -> ample limits d (log_of l ++ rs) ->
  exists rp a' d', snapshot no_failure a d limits = (Ok rp, a', d')
    /\ rp_records rp = log_of l ++ rs /\ rp_stop rp = ReplayStop.CleanEnd.
Proof.
  intros Hf Hh Ham.
  pose proof (ample_admits gid jid limits d _ l (ap_header a, rs) _ (he_disk _ _ _ _ _ _ Hh)
    (reflexivity _) Ham) as Had.
  pose proof (active_fits _ _ _ _ _ _ _ _ (he_disk _ _ _ _ _ _ Hh) Had) as Hmax.
  destruct (flush_live a d l rs Hf Hh Hmax) as (q & a' & d' & E & Hf' & Hh' & Hhd & Hap & Hfiles).
  unfold snapshot. rewrite E. pose proof (he_disk _ _ _ _ _ _ Hh') as Hd'.
  pose proof (disk_inv_owned _ _ _ _ _ _ Hd') as [Hg Hj]. cbn [fst] in Hg, Hj. rewrite Hg, Hj.
  rewrite Hhd in Hd'.
  pose proof (healthy_survivors _ _ _ _ Hh') as Hsv.
  assert (file_end d' (ap_header a) rs ReplayStop.CleanEnd) as Hend.
  { apply end_clean. rewrite Hsv, <- Hhd. apply Hh'. }
  rewrite (prepare_recovered_Ok _ _ _ _ _ _ _ _ _ Hd' Had Hend). rewrite Hsv.
  destruct (replay_files_facts _ _ _ _ _ _ _ Hd') as (Hr & Hl & _). rewrite Hsv in Hr, Hl.
  cbv zeta in Hr, Hl. pose proof (he_appended _ _ _ _ _ _ Hh') as Happ.
  set (rp := replay_segs (l ++ [(ap_header a, rs)]) replay_new) in *.
  change (rp_stop (rp <| rp_stop := ReplayStop.CleanEnd |>)) with ReplayStop.CleanEnd.
  change (rp_last_sequence (rp <| rp_stop := ReplayStop.CleanEnd |>)) with (rp_last_sequence rp).
  rewrite Hl, Happ, !bool_decide_eq_true_2 by done. cbn [negb orb].
  by eexists _, _, _.
Qed.
End runs.

(** ** Properties *)


(** C20: A live journal reads back exactly: over the same histories, an appender
    that latched no fault flushes and replays its own files to the whole log,
    every record in order and nothing else, with a clean end. *)
Theorem journal_snapshot_exact `{Unicode, DigestLaws} gid jid a d log limits :
  run gid jid (Up a d) log -> ap_fault a = None -> ample limits d log ->
  exists rp a' d', snapshot no_failure a d limits = (Ok rp, a', d')
    /\ rp_records rp = log /\ rp_stop rp = ReplayStop.CleanEnd /\ numbered 1 log.
Proof.
  intros Hrun Hf Ham. destruct (run_world_inv _ _ _ _ Hrun) as (l & rs & -> & Hh).
  rewrite Hf in Hh. destruct (healthy_snapshot gid jid a d l rs limits Hf Hh Ham)
    as (rp & a' & d' & E & Hr & Hs). exists rp, a', d'. split_and!; try done.
  pose proof (di_chain _ _ _ _ _ _ (he_disk _ _ _ _ _ _ Hh)) as Hc%chain_numbered.
  by rewrite log_of_snoc in Hc.
Qed.

(** C21: Replay of arbitrary bytes accepts only journals.  Whatever the files hold,
    the records it returns are those of a chain of well-formed segments, linked by
    index, sequence and hash, numbered from 1, whose encodings the files begin
    with; the budgets hold, and a clean end means that the files hold nothing
    else. *)
Theorem replay_accepts_only_journals `{DigestLaws} limits segs :
  rl_max_records limits < U64_MAX ->
  let rp := replay_ordered_segments segs limits in
  exists l, rp_records rp = log_of l /\ chain cursor_new l /\ begins l segs
    /\ numbered 1 (rp_records rp) /\ rp_last_sequence rp = blen (rp_records rp)
    /\ blen (rp_records rp) <= rl_max_records limits
    /\ payload_total (rp_records rp) <= rl_max_payload_bytes limits
    /\ (rp_stop rp = ReplayStop.CleanEnd -> segs = segment_bytes <$> l).
Proof.
  intros Hmax rp. subst rp. destruct segs as [|b segs].
  { exists []. split_and!; first [done|apply N.le_0_l]. }
  unfold replay_ordered_segments.
  destruct (replay_loop_sound limits Hmax (b :: segs) cursor_new replay_new)
    as (l & stop & -> & Hc & [Hr Hp Hb] & Hbegin & _ & Hend);
    [done|split; first [done|apply N.le_0_l]|apply N.le_0_l|].
  pose proof (replay_segs_last l Hc) as Hlast. pose proof (chain_numbered l _ Hc) as Hn.
  rewrite replay_segs_records in Hr, Hp. cbn [replay_new rp_records app] in Hr, Hp.
  exists l. cbn [rp_records rp_last_sequence rp_stop].
  change (rp_records (_ <| rp_stop := stop |>)) with (rp_records (replay_segs l replay_new)).
  change (rp_last_sequence (_ <| rp_stop := stop |>)) with (rp_last_sequence (replay_segs l replay_new)).
  rewrite Hlast, replay_segs_records. cbn [replay_new rp_records app]. rewrite <- Hp.
  by split_and!.
Qed.

(** C35: Replay ends cleanly exactly on the journals within its budgets: the files
    are the encodings of a linked chain of well-formed segments, and the records
    returned are theirs in order. *)
Theorem replay_clean_end_iff `{DigestLaws} limits segs rs :
  rl_max_records limits < U64_MAX -> rl_max_payload_bytes limits <= USIZE_MAX ->
  blen segs <= U32_MAX ->
  (rp_stop (replay_ordered_segments segs limits) = ReplayStop.CleanEnd
   /\ rp_records (replay_ordered_segments segs limits) = rs)
  <-> segs <> [] /\ exists l, segs = segment_bytes <$> l /\ chain cursor_new l /\ rs = log_of l
      /\ blen l <= rl_max_segments limits /\ blen rs <= rl_max_records limits
      /\ payload_total rs <= rl_max_payload_bytes limits.
Proof.
  intros Hmax Hu Hi. destruct segs as [|b segs]; [by split; [intros [? _]|intros [? _]]|].
  unfold replay_ordered_segments. split.
  - intros [Hs <-]. split; [done|].
    destruct (replay_loop_sound limits Hmax (b :: segs) cursor_new replay_new)
      as (l & stop & E & Hc & [Hr Hp Hb] & _ & Hseg & Hend);
      [done|split; first [done|apply N.le_0_l]|apply N.le_0_l|].
    rewrite E in Hs |- *. exists l. rewrite replay_segs_records in Hr, Hp.
    change (rp_records (_ <| rp_stop := stop |>)) with (rp_records (replay_segs l replay_new)).
    rewrite replay_segs_records. cbn [replay_new rp_records app] in Hr, Hp |- *.
    rewrite <- Hp. split_and!; auto.
  - intros [_ (l & El & Hc & -> & Hl & Hr & Hp)]. rewrite El in Hi |- *.
    unfold blen in Hi. rewrite length_fmap in Hi. fold (blen l) in Hi.
    destruct (replay_loop_chain limits l [] cursor_new replay_new) as [E _];
      [done..|simpl; lia|simpl; lia|by split; simpl|].
    rewrite app_nil_r in E. rewrite E. simpl. split; [done|]. by rewrite replay_segs_records.
Qed.

(** The header codec is exact: decoding accepts exactly the inputs that begin
    with the encoding of a header whose identities, widths and links are valid,
    and returns that header. *)
Theorem segment_header_codec_exact `{DigestLaws} input h :
  SegmentHeader_decode input = Ok h
  <-> header_wf h /\ exists rest, input = SegmentHeader_encode h ++ rest.
Proof.
  split.
  - intros [Hw E]%header_encode_decode. eauto.
  - intros [Hw [rest ->]]. by apply header_decode_encode.
Qed.

(** The record codec is exact and detects torn writes: decoding accepts
    exactly the inputs that begin with the encoding of a valid record with the
    expected sequence, and answers every proper prefix of that encoding by the
    reason that tells where it was cut. *)
Theorem record_codec_exact `{DigestLaws} input start r :
  (decode_record input (jr_sequence r) start
   = Ok (mkDecodedRecord (jr_record_type r) (jr_generation r) (jr_sequence r) (jr_payload r)
           (blen (record_bytes r)))
   <-> record_wf start r /\ exists rest, input = record_bytes r ++ rest)
  /\ (record_wf start r -> input `prefix_of` record_bytes r -> input <> record_bytes r ->
      decode_record input (jr_sequence r) start = Err (torn_reason r (blen input))).
Proof.
  split; [split|].
  - intros (Hw & _ & _ & E)%record_encode_decode. destruct r. eauto.
  - intros [Hw [rest ->]]. by apply record_decode_encode.
  - intros Hw [rest E] Hne. assert (input = upto (blen input) (record_bytes r)) as Hin
      by (rewrite E; symmetry; by apply upto_app).
    rewrite Hin at 1. apply record_decode_torn; [done|].
    rewrite E, blen_app. destruct rest; [by rewrite app_nil_r in E|]. rewrite blen_cons. lia.
Qed.

(** A journal of one flushed record and one cut in the middle of its payload. *)
#[local] Existing Instance concrete_digests.
#[local] Existing Instance concrete_digest_laws.
#[local] Existing Instance plain_unicode.

Definition example_gid : Gid := 7.
Definition example_jid : JournalId := repeat x2a 16.

Definition state_of {A} (step : result JournalAppenderError A * ControlJournalAppender * JournalDisk)
    : ControlJournalAppender * JournalDisk := (step.1.2, step.2).

Definition example_0 : ControlJournalAppender * JournalDisk :=
  Eval vm_compute in
  match create no_failure no_failure example_gid example_jid 0 100 with
  | Ok ad => ad
  | Err _ => (mkControlJournalAppender false (SegmentHeader_first 0 [] 0 0) 0 0 0 0 None None,
              mkJournalDisk [] [] 0)
  end.
Definition example_payload_1 : JournalPayload := JournalPayload.TaskPaused TaskPauseReason.SlowSlot.
Definition example_payload_2 : JournalPayload := JournalPayload.CleanShutdown 1 200.
Definition example_1 := Eval vm_compute in
  state_of (append_payload no_failure 0 example_0.1 example_0.2 0 example_payload_1).
Definition example_2 := Eval vm_compute in state_of (flush no_failure example_1.1 example_1.2 1).
Definition example_3 := Eval vm_compute in
  state_of (append_payload no_failure 0 example_2.1 example_2.2 0 example_payload_2).
Definition example_log : list JournalRecord := Eval vm_compute in
  [payload_record 0 1 example_payload_1; payload_record 0 2 example_payload_2].

Lemma example_up_run : run example_gid example_jid (Up example_3.1 example_3.2) example_log.
Proof.
  apply (run_append _ _ example_2.1 example_2.2 [payload_record 0 1 example_payload_1]
    no_failure 0 0 example_payload_2 (Ok 2)); [|done|vm_compute; split; congruence|vm_compute; reflexivity].
  apply (run_flush _ _ example_1.1 example_1.2 _ no_failure 1 (Ok 1)); [|vm_compute; reflexivity].
  apply (run_append _ _ example_0.1 example_0.2 [] no_failure 0 0 example_payload_1 (Ok 1));
    [|done|exact I|vm_compute; reflexivity].
  apply (run_create _ _ no_failure no_failure 0 100); vm_compute; congruence.
Qed.



Lemma journal_snapshot_exact_witness :
  exists rp a' d', snapshot no_failure example_3.1 example_3.2 ReplayLimits_default = (Ok rp, a', d')
    /\ rp_records rp = example_log.
Proof.
  destruct (journal_snapshot_exact example_gid example_jid example_3.1 example_3.2 example_log
    ReplayLimits_default example_up_run) as (rp & a' & d' & E & Hr & _);
    [vm_compute; reflexivity|split; vm_compute; congruence|exists rp, a', d'; auto].
Defined.

Lemma replay_accepts_only_journals_witness :
  exists l, rp_records (replay_ordered_segments (segment_files (crash 150 example_3.2))
                          ReplayLimits_default) = log_of l /\ chain cursor_new l.
Proof.
  destruct (replay_accepts_only_journals ReplayLimits_default
    (segment_files (crash 150 example_3.2))) as (l & E & Hc & _);
    [vm_compute; congruence|exists l; auto].
Defined.

Lemma replay_clean_end_iff_witness :
  exists l, segment_files example_3.2 = segment_bytes <$> l /\ example_log = log_of l.
Proof.
  destruct (proj1 (replay_clean_end_iff ReplayLimits_default (segment_files example_3.2) example_log
    ltac:(vm_compute; congruence) ltac:(vm_compute; congruence) ltac:(vm_compute; congruence)))
    as [_ (l & E & _ & Hl & _)]; [split; vm_compute; reflexivity|exists l; auto].
Defined.

Lemma segment_header_codec_exact_witness :
  SegmentHeader_decode (upto 104 (jd_active example_3.2)) = Ok (ap_header example_3.1)
  /\ header_wf (ap_header example_3.1).
Proof.
  assert (SegmentHeader_decode (upto 104 (jd_active example_3.2)) = Ok (ap_header example_3.1)) as E
    by (vm_compute; reflexivity).
  split; [exact E|]. apply (proj1 (segment_header_codec_exact _ _) E).
Defined.

Lemma record_codec_exact_witness :
  let r := mkJournalRecord RecordType.TaskPaused 0 1 [x03] in
  record_wf 0 r /\ exists rest, skip 104 (jd_active example_3.2) = record_bytes r ++ rest.
Proof.
  intros r. apply (proj1 (record_codec_exact _ 0 r)). vm_compute; reflexivity.
Defined.
