(* ===== verification/JournalStateTypes.v ===== *)
(** * Semantic journal state: data

    The types of [crates/ariax-storage/src/journal_state.rs]: what replayed
    records are reduced to ([RecoveredJournalState]), the working state of the
    reduction ([SemanticMachine]), its errors and limits, and the canonical hashes
    of contributors, validator sets, rebinds and checkpoint states.

    A [BTreeMap] is a [gmap]; where the source iterates one, the model iterates
    its entries in key order. *)

From S2P Require Import Prelude Bytes Ids Errors Utf8 Snapshot Paths RootBinding Layout JournalTags Journal PayloadTypes MetadataExpansion Payload Verification.
From Stdlib Require Import Init.Byte Strings.Byte.
Open Scope list_scope.

Definition CHECKPOINT_STATE_HASH_DOMAIN : bytes := ascii_bytes "ariax/checkpoint-state/v1" ++ [x00].
Definition CONTRIBUTORS_HASH_DOMAIN : bytes := ascii_bytes "ariax/contributors/v1" ++ [x00].
Definition VALIDATOR_SET_HASH_DOMAIN : bytes := ascii_bytes "ariax/validator-set/v1" ++ [x00].
Definition REBIND_VALIDATOR_SET_HASH_DOMAIN : bytes :=
  ascii_bytes "ariax/rebind-validator-set/v1" ++ [x00].
Definition SESSION_HOST_KEY_PIN_OPTION : str := ascii_bytes "sftp-host-key-sha256".
Definition VERIFICATION_MANIFEST_OPTION : str := ascii_bytes "verification-manifest".

(** The caller's policy: which option names may be persisted. *)
Class PersistedOptionPolicy := permits : str -> bool.

Record JournalStateLimits : Set := mkJournalStateLimits {
  jl_max_records : N;
  jl_max_leases : N;
  jl_max_durable_pieces : N;
  jl_max_retry_states : N;
  jl_max_finalizations : N;
}.
Definition JournalStateLimits_default : JournalStateLimits := {|
  jl_max_records := 262144;
  jl_max_leases := 65536;
  jl_max_durable_pieces := 262144;
  jl_max_retry_states := 65536;
  jl_max_finalizations := MAX_LAYOUT_ENTRIES;
|}.

(** ** Errors *)

Module JournalStateResource.
Inductive JournalStateResource : Set :=
| Records | Leases | DurablePieces | RetryStates | Finalizations.
End JournalStateResource.
Notation JournalStateResource := JournalStateResource.JournalStateResource.
#[global] Instance JournalStateResource_eq_dec : EqDecision JournalStateResource.
Proof. solve_decision. Defined.

Module JournalStateError.
Inductive JournalStateError : Set :=
| ResourceLimit (resource : JournalStateResource)
| AllocationFailed
| SequenceMismatch (expected actual : N)
| Payload (error : PayloadCodecError)
| CheckpointNotFirst
| CheckpointIncomplete
| CheckpointCountMismatch
| CheckpointIdMismatch
| CheckpointHashMismatch
| CheckpointRecordForbidden
| NonCanonicalCheckpointOrder
| TaskCreatedMissing
| DuplicateTaskCreated
| InvalidInitialGeneration
| RecordAfterTerminal
| GenerationMismatch (expected actual : Generation)
| GenerationAdvanceMismatch
| CurrentSnapshotMissing
| DuplicateCurrentSnapshot
| SnapshotHashMismatch
| ForbiddenPersistedOption (name : str)
| InvalidStagedSnapshotReplacement
| StagedSnapshotMissing
| StagedSnapshotMismatch
| PatchReasonMismatch
| GenerationNotDrained
| LayoutMissing
| DuplicateLayout
| UnexpectedLayoutChunk
| IncompleteLayoutSequence
| LayoutChunkMismatch
| LayoutCountMismatch
| Layout (error : LayoutError)
| LayoutPath (error : PathValidationError)
| RootBinding (error : RootBindingError)
| LayoutHashMismatch
| RootBindingHashMismatch
| InvalidHttpStrongValidator
| InvalidHttpRangeIdentity
| InvalidVerificationManifest
| InvalidProtocolValidator
| InvalidHostKeyState
| SpanOutsideLayout
| PieceSpanMismatch
| DuplicateLease
| UnknownLease
| LeaseMismatch
| PieceLeaseMismatch
| NonCanonicalContributors
| VerificationMismatch
| DurabilityBarrierMismatch
| DuplicateDurablePiece
| PieceStateOutsideCheckpoint
| DuplicatePieceState
| IncompletePieceStateSequence
| PieceStateChunkMismatch
| FinalizationMismatch
| DuplicateTerminal
| InvalidCleanShutdown.
End JournalStateError.
Notation JournalStateError := JournalStateError.JournalStateError.

Definition JournalStateError_code (self : JournalStateError) : string :=
  (match self with
  | JournalStateError.ResourceLimit _ => "resource_limit"
  | JournalStateError.AllocationFailed => "allocation_failed"
  | JournalStateError.SequenceMismatch _ _ => "sequence_mismatch"
  | JournalStateError.Payload _ => "payload_codec"
  | JournalStateError.CheckpointNotFirst => "checkpoint_not_first"
  | JournalStateError.CheckpointIncomplete => "checkpoint_incomplete"
  | JournalStateError.CheckpointCountMismatch => "checkpoint_count_mismatch"
  | JournalStateError.CheckpointIdMismatch => "checkpoint_id_mismatch"
  | JournalStateError.CheckpointHashMismatch => "checkpoint_hash_mismatch"
  | JournalStateError.CheckpointRecordForbidden => "checkpoint_record_forbidden"
  | JournalStateError.NonCanonicalCheckpointOrder => "noncanonical_checkpoint_order"
  | JournalStateError.TaskCreatedMissing => "task_created_missing"
  | JournalStateError.DuplicateTaskCreated => "duplicate_task_created"
  | JournalStateError.InvalidInitialGeneration => "invalid_initial_generation"
  | JournalStateError.RecordAfterTerminal => "record_after_terminal"
  | JournalStateError.GenerationMismatch _ _ => "generation_mismatch"
  | JournalStateError.GenerationAdvanceMismatch => "generation_advance_mismatch"
  | JournalStateError.CurrentSnapshotMissing => "current_snapshot_missing"
  | JournalStateError.DuplicateCurrentSnapshot => "duplicate_current_snapshot"
  | JournalStateError.SnapshotHashMismatch => "snapshot_hash_mismatch"
  | JournalStateError.ForbiddenPersistedOption _ => "forbidden_persisted_option"
  | JournalStateError.InvalidStagedSnapshotReplacement => "invalid_staged_snapshot_replacement"
  | JournalStateError.StagedSnapshotMissing => "staged_snapshot_missing"
  | JournalStateError.StagedSnapshotMismatch => "staged_snapshot_mismatch"
  | JournalStateError.PatchReasonMismatch => "patch_reason_mismatch"
  | JournalStateError.GenerationNotDrained => "generation_not_drained"
  | JournalStateError.LayoutMissing => "layout_missing"
  | JournalStateError.DuplicateLayout => "duplicate_layout"
  | JournalStateError.UnexpectedLayoutChunk => "unexpected_layout_chunk"
  | JournalStateError.IncompleteLayoutSequence => "incomplete_layout_sequence"
  | JournalStateError.LayoutChunkMismatch => "layout_chunk_mismatch"
  | JournalStateError.LayoutCountMismatch => "layout_count_mismatch"
  | JournalStateError.Layout _ => "invalid_layout"
  | JournalStateError.LayoutPath _ => "invalid_layout_path"
  | JournalStateError.RootBinding _ => "invalid_root_binding"
  | JournalStateError.LayoutHashMismatch => "layout_hash_mismatch"
  | JournalStateError.RootBindingHashMismatch => "root_binding_hash_mismatch"
  | JournalStateError.InvalidHttpStrongValidator => "invalid_http_strong_validator"
  | JournalStateError.InvalidHttpRangeIdentity => "invalid_http_range_identity"
  | JournalStateError.InvalidVerificationManifest => "invalid_verification_manifest"
  | JournalStateError.InvalidProtocolValidator => "invalid_protocol_validator"
  | JournalStateError.InvalidHostKeyState => "invalid_host_key_state"
  | JournalStateError.SpanOutsideLayout => "span_outside_layout"
  | JournalStateError.PieceSpanMismatch => "piece_span_mismatch"
  | JournalStateError.DuplicateLease => "duplicate_lease"
  | JournalStateError.UnknownLease => "unknown_lease"
  | JournalStateError.LeaseMismatch => "lease_mismatch"
  | JournalStateError.PieceLeaseMismatch => "piece_lease_mismatch"
  | JournalStateError.NonCanonicalContributors => "noncanonical_contributors"
  | JournalStateError.VerificationMismatch => "verification_mismatch"
  | JournalStateError.DurabilityBarrierMismatch => "durability_barrier_mismatch"
  | JournalStateError.DuplicateDurablePiece => "duplicate_durable_piece"
  | JournalStateError.PieceStateOutsideCheckpoint => "piece_state_outside_checkpoint"
  | JournalStateError.DuplicatePieceState => "duplicate_piece_state"
  | JournalStateError.IncompletePieceStateSequence => "incomplete_piece_state_sequence"
  | JournalStateError.PieceStateChunkMismatch => "piece_state_chunk_mismatch"
  | JournalStateError.FinalizationMismatch => "finalization_mismatch"
  | JournalStateError.DuplicateTerminal => "duplicate_terminal"
  | JournalStateError.InvalidCleanShutdown => "invalid_clean_shutdown"
  end)%string.

Definition ALL_JOURNAL_STATE_ERROR_CODES : list string :=
  ["resource_limit"; "allocation_failed"; "sequence_mismatch"; "payload_codec";
   "checkpoint_not_first"; "checkpoint_incomplete"; "checkpoint_count_mismatch";
   "checkpoint_id_mismatch"; "checkpoint_hash_mismatch"; "checkpoint_record_forbidden";
   "noncanonical_checkpoint_order"; "task_created_missing"; "duplicate_task_created";
   "invalid_initial_generation"; "record_after_terminal"; "generation_mismatch";
   "generation_advance_mismatch"; "current_snapshot_missing"; "duplicate_current_snapshot";
   "snapshot_hash_mismatch"; "forbidden_persisted_option"; "invalid_staged_snapshot_replacement";
   "staged_snapshot_missing"; "staged_snapshot_mismatch"; "patch_reason_mismatch";
   "generation_not_drained"; "layout_missing"; "duplicate_layout"; "unexpected_layout_chunk";
   "incomplete_layout_sequence"; "layout_chunk_mismatch"; "layout_count_mismatch";
   "invalid_layout"; "invalid_layout_path"; "invalid_root_binding"; "layout_hash_mismatch";
   "root_binding_hash_mismatch"; "invalid_http_strong_validator"; "invalid_http_range_identity";
   "invalid_verification_manifest"; "invalid_protocol_validator"; "span_outside_layout";
   "piece_span_mismatch"; "duplicate_lease"; "unknown_lease"; "lease_mismatch";
   "piece_lease_mismatch"; "noncanonical_contributors"; "verification_mismatch";
   "durability_barrier_mismatch"; "duplicate_durable_piece"; "piece_state_outside_checkpoint";
   "duplicate_piece_state"; "incomplete_piece_state_sequence"; "piece_state_chunk_mismatch";
   "finalization_mismatch"; "duplicate_terminal"; "invalid_clean_shutdown"]%string.

(** ** Recovered values *)

Record RecoveredOptionSnapshot : Set := mkRecoveredOptionSnapshot {
  ro_patch_id : option OptionPatchId;
  ro_snapshot_hash : JournalHash;
  ro_options : SanitizedOptionMap;
}.

Record JournalContributor : Set := mkJournalContributor {
  jc_lease_id : LeaseId;
  jc_span : PersistedSpan;
  jc_validator_fingerprint : JournalHash;
}.

Record RecoveredLayout : Set := mkRecoveredLayout {
  ly_layout : FileLayout;
  ly_layout_hash : JournalHash;
  ly_root_binding_hash : JournalHash;
}.

Definition has_same_identity_evidence (self other : RecoveredLayout) : bool :=
  let l := ly_layout self in
  let r := ly_layout other in
  (ly_layout_hash self == ly_layout_hash other)
  && (pp_platform (rb_path (fl_root_binding l)) == pp_platform (rb_path (fl_root_binding r)))
  && (rb_root_identity (fl_root_binding l) == rb_root_identity (fl_root_binding r))
  && (blen (fl_files l) =? blen (fl_files r))
  && forallb (fun '(a, b) =>
       (fe_id a =? fe_id b) && (fe_identity a == fe_identity b))
       (zip (fl_files l) (fl_files r)).

Module DurablePieceOrigin.
Inductive DurablePieceOrigin : Set :=
| Live (contributors_hash : JournalHash) (data_barrier : DataBarrierKind)
| Checkpoint.
End DurablePieceOrigin.
Notation DurablePieceOrigin := DurablePieceOrigin.DurablePieceOrigin.

Record RecoveredDurablePiece : Set := mkRecoveredDurablePiece {
  dp_piece_id : PieceId;
  dp_piece_span : PersistedSpan;
  dp_validator_set_fingerprint : JournalHash;
  dp_digest : option JournalDigest;
  dp_origin : DurablePieceOrigin;
}.

Record RecoveredRetryState : Set := mkRecoveredRetryState {
  rs_scope : RetryScope;
  rs_scope_id : PersistedId;
  rs_attempt : N;
  rs_elapsed_before_wait_ms : N;
  rs_scheduled_at_unix_ms : N;
  rs_delay_ms : N;
  rs_error_class : ErrorKind;
  rs_retry_reason : RetryReason;
}.

Record RecoveredHttpStrongValidator : Set := mkRecoveredHttpStrongValidator {
  hv_resource_fingerprint : JournalHash;
  hv_validator_fingerprint : JournalHash;
  hv_total_length : N;
  hv_etag : bytes;
}.

Record RecoveredHttpRangeIdentity : Set := mkRecoveredHttpRangeIdentity {
  hi_identity_fingerprint : JournalHash;
  hi_total_length : N;
  hi_representation_digest : JournalDigest;
}.

Record RecoveredFinalization : Set := mkRecoveredFinalization {
  fz_layout_hash : JournalHash;
  fz_root_binding_hash : JournalHash;
  fz_file_id : FileId;
  fz_temp_relative_path : JournalRelativePath;
  fz_final_relative_path : JournalRelativePath;
  fz_final_length : N;
  fz_file_identity : bytes;
  fz_done : bool;
}.
#[global] Instance RecoveredFinalization_eta : Settable RecoveredFinalization :=
  fun r => mkRecoveredFinalization (fz_layout_hash r) (fz_root_binding_hash r) (fz_file_id r)
    (fz_temp_relative_path r) (fz_final_relative_path r) (fz_final_length r) (fz_file_identity r)
    (fz_done r).
#[global] Instance fz_done_set : Setter fz_done. Proof. derive_setter. Defined.

Module RecoveredTerminal.
Inductive RecoveredTerminal : Set :=
| Complete (layout_hash : JournalHash) (final_length : N) (final_digest : option JournalDigest)
    (completed_at_unix_ms : N)
| Error (error_class : ErrorKind) (retriable : bool) (diagnostic_id : N)
| Removed (reason : TaskRemoveReason).
End RecoveredTerminal.
Notation RecoveredTerminal := RecoveredTerminal.RecoveredTerminal.

Record RecoveredCheckpoint : Set := mkRecoveredCheckpoint {
  ck_checkpoint_id : CheckpointId;
  ck_source_last_sequence : N;
  ck_source_segment_hash : JournalHash;
  ck_state_record_count : N;
  ck_state_hash : JournalHash;
  ck_end_sequence : N;
}.

Record RecoveredCleanShutdown : Set := mkRecoveredCleanShutdown {
  cs_checkpoint_sequence : N;
  cs_shutdown_at_unix_ms : N;
  cs_record_sequence : N;
}.

Record RecoveredJournalState : Set := mkRecoveredJournalState {
  js_task : TaskId;
  js_durability : DurabilityMode;
  js_creator_version : N;
  js_generation : Generation;
  js_current_options : option RecoveredOptionSnapshot;
  js_pending_options : option RecoveredOptionSnapshot;
  js_layout : option RecoveredLayout;
  js_http_strong_validator : option RecoveredHttpStrongValidator;
  js_http_range_identity : option RecoveredHttpRangeIdentity;
  js_verification_manifest : option VerificationManifest;
  js_protocol_validators : gmap JournalHash ProtocolValidator;
  js_whole_file_verified : bool;
  js_committed_spans : gmap LeaseId JournalContributor;
  js_durable_pieces : gmap PieceId RecoveredDurablePiece;
  js_retry_states : gmap (N * N) RecoveredRetryState;
  js_paused : option TaskPauseReason;
  js_host_key_state : option JournalHostKeyState;
  js_finalizations : gmap FileId RecoveredFinalization;
  js_terminal : option RecoveredTerminal;
  js_checkpoint : option RecoveredCheckpoint;
  js_rebind_source_root_binding_hash : option JournalHash;
  js_clean_shutdown : option RecoveredCleanShutdown;
  js_last_sequence : N;
}.
#[global] Instance RecoveredJournalState_eta : Settable RecoveredJournalState :=
  fun r => mkRecoveredJournalState (js_task r) (js_durability r) (js_creator_version r)
    (js_generation r) (js_current_options r) (js_pending_options r) (js_layout r)
    (js_http_strong_validator r) (js_http_range_identity r) (js_verification_manifest r)
    (js_protocol_validators r) (js_whole_file_verified r) (js_committed_spans r)
    (js_durable_pieces r) (js_retry_states r) (js_paused r) (js_host_key_state r)
    (js_finalizations r) (js_terminal r) (js_checkpoint r) (js_rebind_source_root_binding_hash r)
    (js_clean_shutdown r) (js_last_sequence r).
#[global] Instance js_task_set : Setter js_task. Proof. derive_setter. Defined.
#[global] Instance js_durability_set : Setter js_durability. Proof. derive_setter. Defined.
#[global] Instance js_creator_version_set : Setter js_creator_version. Proof. derive_setter. Defined.
#[global] Instance js_generation_set : Setter js_generation. Proof. derive_setter. Defined.
#[global] Instance js_current_options_set : Setter js_current_options. Proof. derive_setter. Defined.
#[global] Instance js_pending_options_set : Setter js_pending_options. Proof. derive_setter. Defined.
#[global] Instance js_layout_set : Setter js_layout. Proof. derive_setter. Defined.
#[global] Instance js_http_strong_validator_set : Setter js_http_strong_validator. Proof. derive_setter. Defined.
#[global] Instance js_http_range_identity_set : Setter js_http_range_identity. Proof. derive_setter. Defined.
#[global] Instance js_verification_manifest_set : Setter js_verification_manifest. Proof. derive_setter. Defined.
#[global] Instance js_protocol_validators_set : Setter js_protocol_validators. Proof. derive_setter. Defined.
#[global] Instance js_whole_file_verified_set : Setter js_whole_file_verified. Proof. derive_setter. Defined.
#[global] Instance js_committed_spans_set : Setter js_committed_spans. Proof. derive_setter. Defined.
#[global] Instance js_durable_pieces_set : Setter js_durable_pieces. Proof. derive_setter. Defined.
#[global] Instance js_retry_states_set : Setter js_retry_states. Proof. derive_setter. Defined.
#[global] Instance js_paused_set : Setter js_paused. Proof. derive_setter. Defined.
#[global] Instance js_host_key_state_set : Setter js_host_key_state. Proof. derive_setter. Defined.
#[global] Instance js_finalizations_set : Setter js_finalizations. Proof. derive_setter. Defined.
#[global] Instance js_terminal_set : Setter js_terminal. Proof. derive_setter. Defined.
#[global] Instance js_checkpoint_set : Setter js_checkpoint. Proof. derive_setter. Defined.
#[global] Instance js_rebind_source_root_binding_hash_set : Setter js_rebind_source_root_binding_hash. Proof. derive_setter. Defined.
#[global] Instance js_clean_shutdown_set : Setter js_clean_shutdown. Proof. derive_setter. Defined.
#[global] Instance js_last_sequence_set : Setter js_last_sequence. Proof. derive_setter. Defined.

(** ** The machine *)

Record PendingManifest : Set := mkPendingManifest {
  pm_fingerprint : JournalHash;
  pm_total : N;
  pm_count : N;
  pm_next : N;
  pm_bytes : bytes;
}.

Record PendingLayout : Set := mkPendingLayout {
  pl_generation : Generation;
  pl_layout_hash : JournalHash;
  pl_root_binding_hash : JournalHash;
  pl_root_display : PlatformPath;
  pl_root_identity : bytes;
  pl_total_length : option N;
  pl_piece_length : N;
  pl_total_file_count : N;
  pl_chunk_count : N;
  pl_next_chunk : N;
  pl_files : list JournalFileLayoutEntry;
  pl_previous_layout : option RecoveredLayout;
  pl_previous_durable_pieces : gmap PieceId RecoveredDurablePiece;
}.

Record PendingPieceState : Set := mkPendingPieceState {
  ps_layout_hash : JournalHash;
  ps_root_binding_hash : JournalHash;
  ps_chunk_count : N;
  ps_next_chunk : N;
  ps_previous_covered_end : N;
}.

Record LeaseState : Set := mkLeaseState {
  lz_span : PersistedSpan;
  lz_validator_fingerprint : JournalHash;
}.

Record VerifiedPiece : Set := mkVerifiedPiece {
  vp_span : PersistedSpan;
  vp_contributors_hash : JournalHash;
  vp_validator_set_fingerprint : JournalHash;
  vp_digest : JournalDigest;
}.

Record SemanticMachine : Set := mkSemanticMachine {
  sm_task : TaskId;
  sm_limits : JournalStateLimits;
  sm_checkpoint_state : bool;
  sm_expected_checkpoint_generation : option Generation;
  sm_checkpoint_rank : N;
  sm_checkpoint_retry_key : option (N * N);
  sm_state : option RecoveredJournalState;
  sm_pending_manifest : option PendingManifest;
  sm_pending_layout : option PendingLayout;
  sm_pending_piece_state : option PendingPieceState;
  sm_seen_piece_state : bool;
  sm_layout_record_generation : option Generation;
  sm_active_leases : gmap LeaseId LeaseState;
  sm_committed_leases : gmap LeaseId LeaseState;
  sm_seen_leases : gset LeaseId;
  sm_piece_leases : gset (LeaseId * PieceId);
  sm_verified_pieces : gmap PieceId VerifiedPiece;
  sm_network_started : bool;
}.
#[global] Instance PendingManifest_eta : Settable PendingManifest :=
  fun r => mkPendingManifest (pm_fingerprint r) (pm_total r) (pm_count r) (pm_next r) (pm_bytes r).
#[global] Instance pm_next_set : Setter pm_next. Proof. derive_setter. Defined.
#[global] Instance pm_bytes_set : Setter pm_bytes. Proof. derive_setter. Defined.
#[global] Instance PendingLayout_eta : Settable PendingLayout :=
  fun r => mkPendingLayout (pl_generation r) (pl_layout_hash r) (pl_root_binding_hash r)
    (pl_root_display r) (pl_root_identity r) (pl_total_length r) (pl_piece_length r)
    (pl_total_file_count r) (pl_chunk_count r) (pl_next_chunk r) (pl_files r)
    (pl_previous_layout r) (pl_previous_durable_pieces r).
#[global] Instance pl_next_chunk_set : Setter pl_next_chunk. Proof. derive_setter. Defined.
#[global] Instance pl_files_set : Setter pl_files. Proof. derive_setter. Defined.
#[global] Instance pl_previous_layout_set : Setter pl_previous_layout. Proof. derive_setter. Defined.
#[global] Instance pl_previous_durable_pieces_set : Setter pl_previous_durable_pieces. Proof. derive_setter. Defined.
#[global] Instance SemanticMachine_eta : Settable SemanticMachine :=
  fun r => mkSemanticMachine (sm_task r) (sm_limits r) (sm_checkpoint_state r)
    (sm_expected_checkpoint_generation r) (sm_checkpoint_rank r) (sm_checkpoint_retry_key r)
    (sm_state r) (sm_pending_manifest r) (sm_pending_layout r) (sm_pending_piece_state r)
    (sm_seen_piece_state r) (sm_layout_record_generation r) (sm_active_leases r)
    (sm_committed_leases r) (sm_seen_leases r) (sm_piece_leases r) (sm_verified_pieces r)
    (sm_network_started r).
#[global] Instance sm_checkpoint_state_set : Setter sm_checkpoint_state. Proof. derive_setter. Defined.
#[global] Instance sm_expected_checkpoint_generation_set : Setter sm_expected_checkpoint_generation. Proof. derive_setter. Defined.
#[global] Instance sm_checkpoint_rank_set : Setter sm_checkpoint_rank. Proof. derive_setter. Defined.
#[global] Instance sm_checkpoint_retry_key_set : Setter sm_checkpoint_retry_key. Proof. derive_setter. Defined.
#[global] Instance sm_state_set : Setter sm_state. Proof. derive_setter. Defined.
#[global] Instance sm_pending_manifest_set : Setter sm_pending_manifest. Proof. derive_setter. Defined.
#[global] Instance sm_pending_layout_set : Setter sm_pending_layout. Proof. derive_setter. Defined.
#[global] Instance sm_pending_piece_state_set : Setter sm_pending_piece_state. Proof. derive_setter. Defined.
#[global] Instance sm_seen_piece_state_set : Setter sm_seen_piece_state. Proof. derive_setter. Defined.
#[global] Instance sm_layout_record_generation_set : Setter sm_layout_record_generation. Proof. derive_setter. Defined.
#[global] Instance sm_active_leases_set : Setter sm_active_leases. Proof. derive_setter. Defined.
#[global] Instance sm_committed_leases_set : Setter sm_committed_leases. Proof. derive_setter. Defined.
#[global] Instance sm_seen_leases_set : Setter sm_seen_leases. Proof. derive_setter. Defined.
#[global] Instance sm_piece_leases_set : Setter sm_piece_leases. Proof. derive_setter. Defined.
#[global] Instance sm_verified_pieces_set : Setter sm_verified_pieces. Proof. derive_setter. Defined.
#[global] Instance sm_network_started_set : Setter sm_network_started. Proof. derive_setter. Defined.

Definition SemanticMachine_new (task : TaskId) (limits : JournalStateLimits) (checkpoint_state : bool)
    (expected_checkpoint_generation : option Generation) : SemanticMachine := {|
  sm_task := task;
  sm_limits := limits;
  sm_checkpoint_state := checkpoint_state;
  sm_expected_checkpoint_generation := expected_checkpoint_generation;
  sm_checkpoint_rank := 0;
  sm_checkpoint_retry_key := None;
  sm_state := None;
  sm_pending_manifest := None;
  sm_pending_layout := None;
  sm_pending_piece_state := None;
  sm_seen_piece_state := false;
  sm_layout_record_generation := None;
  sm_active_leases := ∅;
  sm_committed_leases := ∅;
  sm_seen_leases := ∅;
  sm_piece_leases := ∅;
  sm_verified_pieces := ∅;
  sm_network_started := false;
|}.

(** ** The result of a replay *)

Module JournalStateStop.
Inductive JournalStateStop : Set :=
| NoRecords
| CleanEnd
| IncompleteVerificationManifest (expected_chunk chunk_count : N)
| IncompleteLayout (expected_chunk chunk_count : N)
| InvalidRecord (record_index sequence : N) (error : JournalStateError).
End JournalStateStop.
Notation JournalStateStop := JournalStateStop.JournalStateStop.

Record JournalStateReplay : Set := mkJournalStateReplay {
  sr_state : option RecoveredJournalState;
  sr_accepted_records : N;
  sr_last_sequence : N;
  sr_stop : JournalStateStop;
}.

(** ** Canonical hashes *)

(** [BTreeSet<JournalHash>]: distinct hashes in byte order. *)
Fixpoint hash_set_insert (h : JournalHash) (l : list JournalHash) : list JournalHash :=
  match l with
  | [] => [h]
  | x :: l' =>
    match str_compare h x with
    | Lt => h :: l
    | Eq => l
    | Gt => x :: hash_set_insert h l'
    end
  end.
Definition hash_set (l : list JournalHash) : list JournalHash := foldr hash_set_insert [] l.

(** [windows(2)] out of lease order. *)
Fixpoint contributors_unordered (contributors : list JournalContributor) : bool :=
  match contributors with
  | a :: ((b :: _) as rest) => (jc_lease_id b <=? jc_lease_id a) || contributors_unordered rest
  | _ => false
  end.

Section hashes.
Context `{Digests}.

(** What each record adds to the checkpoint hash; [u32::try_from] of its length
    may fail. *)
Fixpoint checkpoint_record_bytes (records : list JournalRecord) : result JournalStateError bytes :=
  match records with
  | [] => Ok []
  | record :: records =>
    if U32_MAX <? blen (jr_payload record)
    then Err (JournalStateError.Payload PayloadCodecError.PayloadTooLarge)
    else
      rest ← checkpoint_record_bytes records;
      Ok (u16_le (RecordType_as_u16 (jr_record_type record)) ++ u64_le (jr_generation record)
          ++ sized (jr_payload record) ++ rest)
  end.

Definition calculate_checkpoint_state_hash (records : list JournalRecord)
    : result JournalStateError JournalHash :=
  if U32_MAX <? blen records
  then Err (JournalStateError.ResourceLimit JournalStateResource.Records)
  else
    b ← checkpoint_record_bytes records;
    Ok (sha256 (CHECKPOINT_STATE_HASH_DOMAIN ++ u32_le (blen records) ++ b)).

Definition contributor_bytes (contributor : JournalContributor) : bytes :=
  u64_le (jc_lease_id contributor) ++ u64_le (sp_offset (jc_span contributor))
  ++ u64_le (sp_len (jc_span contributor)) ++ jc_validator_fingerprint contributor.

Definition calculate_contributors_hash (contributors : list JournalContributor)
    : result JournalStateError JournalHash :=
  if contributors_unordered contributors then Err JournalStateError.NonCanonicalContributors
  else if U32_MAX <? blen contributors
  then Err (JournalStateError.ResourceLimit JournalStateResource.Leases)
  else Ok (sha256 (CONTRIBUTORS_HASH_DOMAIN ++ u32_le (blen contributors)
                   ++ concat (contributor_bytes <$> contributors))).

Definition calculate_validator_set_fingerprint (contributors : list JournalContributor)
    : result JournalStateError JournalHash :=
  let validators := hash_set (jc_validator_fingerprint <$> contributors) in
  if U32_MAX <? blen validators
  then Err (JournalStateError.ResourceLimit JournalStateResource.Leases)
  else Ok (sha256 (VALIDATOR_SET_HASH_DOMAIN ++ u32_le (blen validators) ++ concat validators)).

Definition calculate_rebind_validator_set_fingerprint
    (previous_root_binding_hash new_root_binding_hash : JournalHash) (digest_value : JournalDigest)
    : JournalHash :=
  sha256 (REBIND_VALIDATOR_SET_HASH_DOMAIN ++ previous_root_binding_hash ++ new_root_binding_hash
          ++ sized (digest_code (jd_algorithm digest_value)) ++ sized (jd_value digest_value)).
End hashes.

Definition session_host_key_pin_value (fingerprint : HostKeyFingerprint) : str :=
  concat ((fun b => [digit_byte (b / 16); digit_byte (b mod 16)]) <$> fingerprint).

(** ** Spans *)

Definition expected_piece_span (layout : FileLayout) (piece_id : PieceId)
    : result JournalStateError PersistedSpan :=
  total ← ok_or (fl_total_length layout) JournalStateError.SpanOutsideLayout;
  start ← ok_or (u64_checked_mul piece_id (fl_piece_length layout)) JournalStateError.PieceSpanMismatch;
  if total <=? start then Err JournalStateError.PieceSpanMismatch
  else map_err JournalStateError.Payload
         (PersistedSpan_new start (N.min (fl_piece_length layout) (total - start))).

Definition span_end (s : PersistedSpan) : N := sp_offset s + sp_len s.
Definition span_contains (outer inner : PersistedSpan) : bool :=
  (sp_offset outer <=? sp_offset inner) && (span_end inner <=? span_end outer).
Definition spans_intersect (left right : PersistedSpan) : bool :=
  (sp_offset left <? span_end right) && (sp_offset right <? span_end left).
