(* ===== verification/JournalState.v ===== *)
(** * Semantic journal state: the reduction

    Model of [crates/ariax-storage/src/journal_state.rs] and
    [journal_state/verification_state.rs]: the machine that applies decoded
    records to a recovered state, and the replay of live histories and compact
    checkpoints.

    A handler [fn apply_..(&mut self, ..) -> Result<..>] is a [Sem]: it returns its
    result together with the machine it leaves, also when it fails. *)

From S2P Require Import Prelude Bytes Ids Errors Utf8 Snapshot Paths RootBinding Layout JournalTags Journal PayloadTypes MetadataExpansion Payload Verification JournalStateTypes.
From Stdlib Require Import Init.Byte Strings.Byte.
Open Scope list_scope.

(** ** The state and error monad of the handlers *)

Definition Sem (A : Type) : Type := SemanticMachine -> result JournalStateError A * SemanticMachine.
#[global] Instance Sem_ret : MRet Sem := fun A a self => (Ok a, self).
#[global] Instance Sem_bind : MBind Sem := fun A B f m self =>
  match m self with
  | (Ok a, self) => f a self
  | (Err e, self) => (Err e, self)
  end.
Definition reads {A} (f : SemanticMachine -> A) : Sem A := fun self => (Ok (f self), self).
Definition updates (f : SemanticMachine -> SemanticMachine) : Sem unit := fun self => (Ok tt, f self).
Definition returns {A} (r : result JournalStateError A) : Sem A := fun self => (r, self).
Definition raise {A} (e : JournalStateError) : Sem A := returns (Err e).
Definition reject_if (b : bool) (e : JournalStateError) : Sem unit :=
  returns (if b then Err e else Ok tt).

(** [self.state.as_mut().ok_or(TaskCreatedMissing)?], and a write through it. *)
Definition require_state : Sem RecoveredJournalState :=
  fun self => (ok_or (sm_state self) JournalStateError.TaskCreatedMissing, self).
Definition update_state (f : RecoveredJournalState -> RecoveredJournalState) : Sem unit :=
  updates (fun self => self <| sm_state := f <$> sm_state self |>).

(** ** Requirements shared by the handlers *)

Definition require_current_generation (record : JournalRecord) : Sem unit :=
  state ← require_state;
  reject_if (negb (jr_generation record =? js_generation state))
    (JournalStateError.GenerationMismatch (js_generation state) (jr_generation record)).

Definition require_ready_nonterminal (record : JournalRecord) : Sem unit :=
  _ ← require_current_generation record;
  state ← require_state;
  _ ← reject_if (negb (is_some (js_current_options state))) JournalStateError.CurrentSnapshotMissing;
  reject_if (is_some (js_terminal state)) JournalStateError.RecordAfterTerminal.

Definition require_layout : Sem RecoveredLayout :=
  fun self => (ok_or (sm_state self ≫= js_layout) JournalStateError.LayoutMissing, self).

Definition require_span_in_layout (span : PersistedSpan) : Sem unit :=
  layout ← require_layout;
  total ← returns (ok_or (fl_total_length (ly_layout layout)) JournalStateError.SpanOutsideLayout);
  reject_if (default true ((fun e => total <? e) <$> u64_checked_add (sp_offset span) (sp_len span)))
    JournalStateError.SpanOutsideLayout.

Definition machine_piece_span (piece_id : PieceId) : Sem PersistedSpan :=
  layout ← require_layout;
  returns (expected_piece_span (ly_layout layout) piece_id).

Definition leases_drained : Sem bool := reads (fun self => bool_decide (sm_active_leases self = ∅)).

(** The value of an option in a snapshot. *)
Definition option_value (key : str) (options : SanitizedOptionMap) : option str :=
  snd <$> head (filter (fun e => e.1 = key) (om_entries options)).
Definition required_manifest (state : RecoveredJournalState) : option str :=
  snapshot ← js_current_options state;
  option_value VERIFICATION_MANIFEST_OPTION (ro_options snapshot).

Definition matches_layout (manifest : VerificationManifest) (layout : RecoveredLayout) : bool :=
  (fl_total_length (ly_layout layout) == Some (vm_total_length manifest))
  && (fl_piece_length (ly_layout layout) =? vm_chunk_length manifest).

Definition require_manifest_ready : Sem unit :=
  state ← require_state;
  pending ← reads sm_pending_manifest;
  _ ← reject_if (is_some pending
        || default false ((fun expected => default true ((fun manifest =>
             expected != hash_to_string (vm_fingerprint manifest)) <$> js_verification_manifest state))
             <$> required_manifest state))
      JournalStateError.InvalidVerificationManifest;
  match js_verification_manifest state with
  | None => mret tt
  | Some manifest =>
    layout ← require_layout;
    reject_if (negb (matches_layout manifest layout)) JournalStateError.InvalidVerificationManifest
  end.

(** ** Task creation and options *)

Definition apply_task_created (record : JournalRecord) (durability : DurabilityMode)
    (creator_version : N) : Sem unit :=
  state ← reads sm_state;
  _ ← reject_if (is_some state) JournalStateError.DuplicateTaskCreated;
  expected ← reads sm_expected_checkpoint_generation;
  _ ← match expected with
      | Some expected =>
        reject_if (negb (jr_generation record =? expected))
          (JournalStateError.GenerationMismatch expected (jr_generation record))
      | None =>
        reject_if (negb (jr_generation record =? Generation_INITIAL))
          JournalStateError.InvalidInitialGeneration
      end;
  updates (fun self => self <| sm_state := Some {|
    js_task := sm_task self;
    js_durability := durability;
    js_creator_version := creator_version;
    js_generation := jr_generation record;
    js_current_options := None;
    js_pending_options := None;
    js_layout := None;
    js_http_strong_validator := None;
    js_http_range_identity := None;
    js_verification_manifest := None;
    js_protocol_validators := ∅;
    js_whole_file_verified := false;
    js_committed_spans := ∅;
    js_durable_pieces := ∅;
    js_retry_states := ∅;
    js_paused := None;
    js_host_key_state := None;
    js_finalizations := ∅;
    js_terminal := None;
    js_checkpoint := None;
    js_rebind_source_root_binding_hash := None;
    js_clean_shutdown := None;
    js_last_sequence := jr_sequence record;
  |} |>).

Section reduction.
Context `{Unicode, Digests, PersistedOptionPolicy}.

(** The first entry the policy forbids. *)
Definition forbidden_option (options : SanitizedOptionMap) : option str :=
  head (filter (fun name => permits name = false) (om_entries options).*1).

Definition apply_options (record : JournalRecord) (scope : OptionsSnapshotScope)
    (patch_id : option OptionPatchId) (hash : JournalHash) (options : SanitizedOptionMap)
    : Sem unit :=
  _ ← require_current_generation record;
  _ ← reject_if (snapshot_hash options != hash) JournalStateError.SnapshotHashMismatch;
  _ ← match forbidden_option options with
      | Some name => raise (JournalStateError.ForbiddenPersistedOption name)
      | None => mret tt
      end;
  let snapshot := {| ro_patch_id := patch_id; ro_snapshot_hash := hash; ro_options := options |} in
  state ← require_state;
  checkpoint_state ← reads sm_checkpoint_state;
  match scope with
  | OptionsSnapshotScope.CurrentGeneration =>
    _ ← reject_if (is_some (js_current_options state)) JournalStateError.DuplicateCurrentSnapshot;
    _ ← reject_if (negb checkpoint_state && negb (js_generation state =? Generation_INITIAL))
          JournalStateError.DuplicateCurrentSnapshot;
    update_state (fun state => state <| js_current_options := Some snapshot |>)
  | OptionsSnapshotScope.NextAdmission =>
    _ ← reject_if checkpoint_state JournalStateError.CheckpointRecordForbidden;
    _ ← reject_if (negb (is_some (js_current_options state))) JournalStateError.CurrentSnapshotMissing;
    _ ← reject_if (default false ((fun previous =>
            negb (is_some patch_id) || (patch_id == ro_patch_id previous)) <$> js_pending_options state))
          JournalStateError.InvalidStagedSnapshotReplacement;
    update_state (fun state => state <| js_pending_options := Some snapshot |>)
  end.

(** ** Generations *)

(** What a new generation resets in the state; [pending] is its snapshot. *)
Definition start_generation (generation : Generation) (reason : GenerationStartReason)
    (pending : RecoveredOptionSnapshot) (state : RecoveredJournalState) : RecoveredJournalState :=
  let retain_range_retries :=
    ((reason == GenerationStartReason.RetryReadmission) || (reason == GenerationStartReason.RecoveryRepair))
    && default false ((fun current => ro_options current == ro_options pending)
         <$> js_current_options state) in
  let state := state
    <| js_generation := generation |>
    <| js_current_options := Some pending |>
    <| js_retry_states :=
         if retain_range_retries
         then filter (fun '(_, retry) => rs_scope retry = RetryScope.Piece \/ rs_scope retry = RetryScope.Span)
                (js_retry_states state)
         else ∅ |>
    <| js_paused := None |>
    <| js_host_key_state := None |>
    <| js_http_strong_validator := None |>
    <| js_http_range_identity := None |>
    <| js_protocol_validators := ∅ |>
    <| js_committed_spans := ∅ |>
    <| js_whole_file_verified := false |> in
  let state :=
    if default false ((fun manifest =>
         required_manifest state != Some (hash_to_string (vm_fingerprint manifest)))
         <$> js_verification_manifest state)
    then state <| js_verification_manifest := None |> <| js_durable_pieces := ∅ |>
    else state in
  let state :=
    if reason == GenerationStartReason.RepresentationRestart
    then state <| js_durable_pieces := ∅ |> <| js_finalizations := ∅ |>
    else state in
  state <| js_rebind_source_root_binding_hash := None |> <| js_clean_shutdown := None |>.

Definition apply_generation_started (record : JournalRecord) (previous_generation : Generation)
    (reason : GenerationStartReason) (next_snapshot_hash : JournalHash)
    (patch_id : option OptionPatchId) : Sem unit :=
  checkpoint_state ← reads sm_checkpoint_state;
  _ ← reject_if checkpoint_state JournalStateError.CheckpointRecordForbidden;
  drained ← leases_drained;
  _ ← reject_if (negb drained) JournalStateError.GenerationNotDrained;
  state ← require_state;
  _ ← reject_if (negb (previous_generation =? js_generation state)
        || (Generation_checked_next (js_generation state) != Some (jr_generation record)))
      JournalStateError.GenerationAdvanceMismatch;
  _ ← reject_if ((reason == GenerationStartReason.OptionPatch) != is_some patch_id)
        JournalStateError.PatchReasonMismatch;
  _ ← update_state (fun state => state <| js_pending_options := None |>);
  pending ← returns (ok_or (js_pending_options state) JournalStateError.StagedSnapshotMissing);
  if (ro_snapshot_hash pending != next_snapshot_hash) || (ro_patch_id pending != patch_id)
  then
    _ ← update_state (fun state => state <| js_pending_options := Some pending |>);
    raise JournalStateError.StagedSnapshotMismatch
  else
    _ ← update_state (start_generation (jr_generation record) reason pending);
    updates (fun self => self
      <| sm_committed_leases := ∅ |> <| sm_seen_leases := ∅ |> <| sm_piece_leases := ∅ |>
      <| sm_verified_pieces := ∅ |> <| sm_network_started := false |>
      <| sm_layout_record_generation := None |>).

(** ** Layouts *)

(** The entries of a layout with their identities. *)
Fixpoint assemble_files (platform : PathPlatform) (entries : list JournalFileLayoutEntry)
    : result JournalStateError (list FileEntry) :=
  match entries with
  | [] => Ok []
  | entry :: entries =>
    safe_path ← map_err JournalStateError.LayoutPath
      (from_user_path (le_safe_relative_path entry) platform);
    identity ← (if le_selected entry
                then map_err JournalStateError.RootBinding
                       (Some <$> FileIdentity_new (le_file_identity entry))
                else Ok None);
    files ← assemble_files platform entries;
    Ok ({| fe_id := le_file_id entry; fe_safe_path := safe_path; fe_identity := identity;
           fe_length := le_length entry; fe_global_start := le_global_start entry;
           fe_global_end := le_global_end entry; fe_selected := le_selected entry |} :: files)
  end.
Definition file_identities (files : list FileEntry) : list (FileId * bytes) :=
  omap (fun f => (fun identity => (fe_id f, identity)) <$> fe_identity f) files.

Definition assemble_layout (task : TaskId) (pending : PendingLayout)
    : result JournalStateError RecoveredLayout :=
  root_identity ← map_err JournalStateError.RootBinding (RootIdentity_new (pl_root_identity pending));
  files ← assemble_files (pp_platform (pl_root_display pending)) (pl_files pending);
  root_binding ← map_err JournalStateError.RootBinding
    (RootBinding_new (pl_root_display pending) root_identity (file_identities files));
  layout ← map_err JournalStateError.Layout
    (FileLayout_new task (pl_generation pending) root_binding files (pl_total_length pending)
       (pl_piece_length pending));
  if fl_layout_hash layout != pl_layout_hash pending then Err JournalStateError.LayoutHashMismatch
  else if rb_hash (fl_root_binding layout) != pl_root_binding_hash pending
  then Err JournalStateError.RootBindingHashMismatch
  else Ok {| ly_layout := layout; ly_layout_hash := pl_layout_hash pending;
             ly_root_binding_hash := pl_root_binding_hash pending |}.

Definition install_layout (layout : RecoveredLayout) (previous_layout : option RecoveredLayout)
    (previous_durable_pieces : gmap PieceId RecoveredDurablePiece) : Sem unit :=
  let retain_durable :=
    default false ((fun previous => has_same_identity_evidence previous layout) <$> previous_layout) in
  let rebind := if retain_durable then None else ly_root_binding_hash <$> previous_layout in
  state ← require_state;
  _ ← update_state (fun state => state
        <| js_durable_pieces := if retain_durable then previous_durable_pieces else ∅ |>
        <| js_finalizations := ∅ |>
        <| js_http_strong_validator := None |>
        <| js_http_range_identity := None |>
        <| js_rebind_source_root_binding_hash := rebind |>
        <| js_layout := Some layout |>);
  updates (fun self => self <| sm_layout_record_generation := Some (js_generation state) |>).

(** [state.layout.take()] and [mem::take(&mut state.durable_pieces)]. *)
Definition take_layout : Sem (option RecoveredLayout * gmap PieceId RecoveredDurablePiece) :=
  state ← require_state;
  _ ← update_state (fun state => state <| js_layout := None |> <| js_durable_pieces := ∅ |>);
  mret (js_layout state, js_durable_pieces state).

Definition apply_layout_committed (record : JournalRecord) (layout_hash root_binding_hash : JournalHash)
    (root_display : PlatformPath) (root_identity : bytes) (total_length : option N)
    (piece_length total_file_count chunk_count : N) (inline_files : list JournalFileLayoutEntry)
    : Sem unit :=
  _ ← require_ready_nonterminal record;
  drained ← leases_drained;
  network_started ← reads sm_network_started;
  _ ← reject_if (negb drained || network_started) JournalStateError.GenerationNotDrained;
  layout_generation ← reads sm_layout_record_generation;
  _ ← reject_if (layout_generation == Some (jr_generation record)) JournalStateError.DuplicateLayout;
  let pending := {|
    pl_generation := jr_generation record;
    pl_layout_hash := layout_hash;
    pl_root_binding_hash := root_binding_hash;
    pl_root_display := root_display;
    pl_root_identity := root_identity;
    pl_total_length := total_length;
    pl_piece_length := piece_length;
    pl_total_file_count := total_file_count;
    pl_chunk_count := chunk_count;
    pl_next_chunk := 1;
    pl_files := inline_files;
    pl_previous_layout := None;
    pl_previous_durable_pieces := ∅;
  |} in
  if chunk_count =? 1
  then
    task ← reads sm_task;
    layout ← returns (assemble_layout task pending);
    '(previous_layout, previous_durable_pieces) ← take_layout;
    install_layout layout previous_layout previous_durable_pieces
  else
    '(previous_layout, previous_durable_pieces) ← take_layout;
    _ ← update_state (fun state => state <| js_finalizations := ∅ |>);
    updates (fun self => self <| sm_pending_layout := Some
      (pending <| pl_previous_layout := previous_layout |>
               <| pl_previous_durable_pieces := previous_durable_pieces |>) |>).

Definition finish_layout (pending : PendingLayout) : Sem unit :=
  _ ← reject_if (negb (blen (pl_files pending) =? pl_total_file_count pending))
        JournalStateError.LayoutCountMismatch;
  task ← reads sm_task;
  layout ← returns (assemble_layout task pending);
  install_layout layout (pl_previous_layout pending) (pl_previous_durable_pieces pending).

Definition apply_layout_chunk (record : JournalRecord) (layout_hash root_binding_hash : JournalHash)
    (chunk_index chunk_count : N) (files : list JournalFileLayoutEntry) : Sem unit :=
  _ ← require_current_generation record;
  taken ← reads sm_pending_layout;
  _ ← updates (fun self => self <| sm_pending_layout := None |>);
  pending ← returns (ok_or taken JournalStateError.UnexpectedLayoutChunk);
  _ ← reject_if (negb (pl_generation pending =? jr_generation record)
        || (pl_layout_hash pending != layout_hash)
        || (pl_root_binding_hash pending != root_binding_hash)
        || negb (pl_chunk_count pending =? chunk_count)
        || negb (pl_next_chunk pending =? chunk_index))
      JournalStateError.LayoutChunkMismatch;
  _ ← reject_if (default true ((fun count =>
          (pl_total_file_count pending <? count) || (MAX_LAYOUT_ENTRIES <? count))
          <$> u64_checked_add (blen (pl_files pending)) (blen files)))
      JournalStateError.LayoutCountMismatch;
  _ ← reject_if (default true ((fun previous => default true ((fun next =>
          (u32_checked_add (le_file_id previous) 1 != Some (le_file_id next))
          || negb (le_global_end previous =? le_global_start next)) <$> head files))
          <$> last (pl_files pending)))
      JournalStateError.LayoutChunkMismatch;
  let pending := pending <| pl_files := pl_files pending ++ files |>
                         <| pl_next_chunk := pl_next_chunk pending + 1 |> in
  if pl_next_chunk pending =? pl_chunk_count pending
  then
    _ ← reject_if (negb (blen (pl_files pending) =? pl_total_file_count pending))
          JournalStateError.LayoutCountMismatch;
    finish_layout pending
  else updates (fun self => self <| sm_pending_layout := Some pending |>).

(** ** HTTP identities *)

Definition layout_total_length (state : RecoveredJournalState) : option N :=
  layout ← js_layout state; fl_total_length (ly_layout layout).

Definition apply_http_strong_validator (record : JournalRecord)
    (validator : RecoveredHttpStrongValidator) : Sem unit :=
  _ ← require_ready_nonterminal record;
  network_started ← reads sm_network_started;
  _ ← reject_if network_started JournalStateError.InvalidHttpStrongValidator;
  state ← require_state;
  total_length ← returns (ok_or (layout_total_length state) JournalStateError.InvalidHttpStrongValidator);
  _ ← reject_if (is_some (js_http_strong_validator state) || is_some (js_http_range_identity state)
        || negb (total_length =? hv_total_length validator))
      JournalStateError.InvalidHttpStrongValidator;
  update_state (fun state => state <| js_http_strong_validator := Some validator |>).

Definition apply_http_range_identity (record : JournalRecord) (identity : RecoveredHttpRangeIdentity)
    : Sem unit :=
  _ ← require_ready_nonterminal record;
  network_started ← reads sm_network_started;
  _ ← reject_if network_started JournalStateError.InvalidHttpRangeIdentity;
  state ← require_state;
  total_length ← returns (ok_or (layout_total_length state) JournalStateError.InvalidHttpRangeIdentity);
  _ ← reject_if (is_some (js_http_range_identity state) || is_some (js_http_strong_validator state)
        || negb (total_length =? hi_total_length identity))
      JournalStateError.InvalidHttpRangeIdentity;
  calculated ← returns (map_err (fun _ => JournalStateError.InvalidHttpRangeIdentity)
    (calculate_http_range_identity_fingerprint (hi_representation_digest identity)
       (hi_total_length identity)));
  _ ← reject_if (calculated != hi_identity_fingerprint identity)
        JournalStateError.InvalidHttpRangeIdentity;
  update_state (fun state => state <| js_http_range_identity := Some identity |>).

(** ** Leases *)

Definition apply_lease_started (record : JournalRecord) (lease_id : LeaseId) (span : PersistedSpan)
    (validator_fingerprint : JournalHash) : Sem unit :=
  _ ← require_ready_nonterminal record;
  _ ← require_manifest_ready;
  _ ← require_span_in_layout span;
  state ← require_state;
  _ ← reject_if (default false ((fun validator =>
          hv_validator_fingerprint validator != validator_fingerprint) <$> js_http_strong_validator state))
      JournalStateError.InvalidHttpStrongValidator;
  _ ← reject_if (default false ((fun identity =>
          hi_identity_fingerprint identity != validator_fingerprint) <$> js_http_range_identity state))
      JournalStateError.InvalidHttpRangeIdentity;
  seen ← reads sm_seen_leases;
  limits ← reads sm_limits;
  _ ← reject_if (bool_decide (lease_id ∈ seen)) JournalStateError.DuplicateLease;
  _ ← reject_if (jl_max_leases limits <=? N.of_nat (size seen))
        (JournalStateError.ResourceLimit JournalStateResource.Leases);
  updates (fun self => self
    <| sm_seen_leases := {[lease_id]} ∪ sm_seen_leases self |>
    <| sm_active_leases := <[lease_id := mkLeaseState span validator_fingerprint]> (sm_active_leases self) |>
    <| sm_network_started := true |>).

Definition require_active_lease (lease_id : LeaseId) : Sem LeaseState :=
  leases ← reads sm_active_leases;
  returns (ok_or (leases !! lease_id) JournalStateError.UnknownLease).

Definition apply_piece_started (record : JournalRecord) (lease_id : LeaseId) (piece_id : PieceId)
    (piece_span : PersistedSpan) : Sem unit :=
  _ ← require_ready_nonterminal record;
  expected ← machine_piece_span piece_id;
  _ ← reject_if (expected != piece_span) JournalStateError.PieceSpanMismatch;
  lease ← require_active_lease lease_id;
  piece_leases ← reads sm_piece_leases;
  _ ← reject_if (negb (spans_intersect (lz_span lease) piece_span)
        || bool_decide ((lease_id, piece_id) ∈ piece_leases)) JournalStateError.PieceLeaseMismatch;
  updates (fun self => self <| sm_piece_leases := {[(lease_id, piece_id)]} ∪ sm_piece_leases self |>).

Definition apply_piece_written (record : JournalRecord) (lease_id : LeaseId) (piece_id : PieceId)
    (written_span : PersistedSpan) : Sem unit :=
  _ ← require_ready_nonterminal record;
  lease ← require_active_lease lease_id;
  piece_span ← machine_piece_span piece_id;
  piece_leases ← reads sm_piece_leases;
  reject_if (negb (bool_decide ((lease_id, piece_id) ∈ piece_leases))
    || negb (span_contains (lz_span lease) written_span)
    || negb (span_contains piece_span written_span)) JournalStateError.PieceLeaseMismatch.

Definition remove_active_lease (lease_id : LeaseId) : Sem LeaseState :=
  lease ← require_active_lease lease_id;
  _ ← updates (fun self => self <| sm_active_leases := delete lease_id (sm_active_leases self) |>);
  mret lease.

Definition apply_lease_committed (record : JournalRecord) (lease_id : LeaseId) (span : PersistedSpan)
    (validator_fingerprint : JournalHash) : Sem unit :=
  _ ← require_ready_nonterminal record;
  lease ← remove_active_lease lease_id;
  _ ← reject_if ((lz_span lease != span) || (lz_validator_fingerprint lease != validator_fingerprint))
        JournalStateError.LeaseMismatch;
  _ ← updates (fun self =>
        self <| sm_committed_leases := <[lease_id := lease]> (sm_committed_leases self) |>);
  _ ← require_state;
  update_state (fun state => state <| js_committed_spans :=
    <[lease_id := mkJournalContributor lease_id span validator_fingerprint]> (js_committed_spans state) |>).

Definition apply_lease_aborted (record : JournalRecord) (lease_id : LeaseId) : Sem unit :=
  _ ← require_ready_nonterminal record;
  _ ← remove_active_lease lease_id;
  updates (fun self => self <| sm_piece_leases :=
    filter (fun lp => lp.1 <> lease_id) (sm_piece_leases self) |>).

(** ** Pieces *)

(** The part of a contributor's span inside the piece. *)
Definition clip (piece_span : PersistedSpan) (contributor : JournalContributor) : N * N :=
  (N.max (sp_offset (jc_span contributor)) (sp_offset piece_span),
   N.min (span_end (jc_span contributor)) (span_end piece_span)).

Definition pair_le (p q : N * N) : Prop := p.1 < q.1 \/ (p.1 = q.1 /\ p.2 <= q.2).
#[global] Instance pair_le_dec : RelDecision pair_le.
Proof. intros p q. unfold pair_le. apply _. Defined.

(** The tiling loop over the sorted spans; [None] on a gap, overlap or empty span. *)
Fixpoint tile (next : N) (spans : list (N * N)) : option N :=
  match spans with
  | [] => Some next
  | (start, stop) :: spans =>
    if negb (start =? next) || (stop <=? start) then None else tile stop spans
  end.

Definition contributors_of (self : SemanticMachine) (piece_id : PieceId) (piece_span : PersistedSpan)
    : list JournalContributor :=
  omap (fun '(lease_id, lease) =>
    if bool_decide ((lease_id, piece_id) ∈ sm_piece_leases self)
       && spans_intersect (lz_span lease) piece_span
    then Some (mkJournalContributor lease_id (lz_span lease) (lz_validator_fingerprint lease))
    else None) (btree_entries (sm_committed_leases self)).

Definition contributors_for_piece (piece_id : PieceId) (piece_span : PersistedSpan)
    : Sem (list JournalContributor) :=
  contributors ← reads (fun self => contributors_of self piece_id piece_span);
  _ ← reject_if (blen contributors =? 0) JournalStateError.VerificationMismatch;
  let spans := merge_sort pair_le (clip piece_span <$> contributors) in
  _ ← reject_if (tile (sp_offset piece_span) spans != Some (span_end piece_span))
        JournalStateError.VerificationMismatch;
  mret contributors.

Definition apply_piece_verified (record : JournalRecord) (piece_id : PieceId)
    (piece_span : PersistedSpan) (contributors_hash : JournalHash) (digest : JournalDigest) : Sem unit :=
  _ ← require_ready_nonterminal record;
  expected ← machine_piece_span piece_id;
  _ ← reject_if (expected != piece_span) JournalStateError.VerificationMismatch;
  _ ← require_manifest_ready;
  state ← require_state;
  _ ← reject_if (default false ((fun manifest =>
          negb (blen (vm_chunks manifest) =? 0)
          && (vm_chunks manifest !! N.to_nat piece_id != Some digest)) <$> js_verification_manifest state))
      JournalStateError.VerificationMismatch;
  contributors ← contributors_for_piece piece_id piece_span;
  calculated ← returns (calculate_contributors_hash contributors);
  _ ← reject_if (calculated != contributors_hash) JournalStateError.VerificationMismatch;
  validator_set_fingerprint ← returns (calculate_validator_set_fingerprint contributors);
  updates (fun self => self <| sm_verified_pieces :=
    <[piece_id := mkVerifiedPiece piece_span contributors_hash validator_set_fingerprint digest]>
      (sm_verified_pieces self) |>).

Definition apply_piece_failed (record : JournalRecord) (lease_id : option LeaseId) (piece_id : PieceId)
    (piece_span : PersistedSpan) : Sem unit :=
  _ ← require_ready_nonterminal record;
  expected ← machine_piece_span piece_id;
  seen ← reads sm_seen_leases;
  _ ← reject_if ((expected != piece_span)
        || default false ((fun lease => negb (bool_decide (lease ∈ seen))) <$> lease_id))
      JournalStateError.VerificationMismatch;
  _ ← updates (fun self => self
        <| sm_verified_pieces := delete piece_id (sm_verified_pieces self) |>
        <| sm_piece_leases := filter (fun lp => lp.2 <> piece_id) (sm_piece_leases self) |>);
  update_state (fun state => state
    <| js_durable_pieces := delete piece_id (js_durable_pieces state) |>
    <| js_committed_spans :=
         filter (fun '(_, c) => spans_intersect (jc_span c) piece_span = false) (js_committed_spans state) |>
    <| js_whole_file_verified := false |>).

(** The evidence of a piece rebound to another root without new network data. *)
Definition check_readback (contributors_hash validator_set_fingerprint : JournalHash)
    (digest : option JournalDigest) : Sem unit :=
  state ← require_state;
  digest_value ← returns (ok_or digest JournalStateError.DurabilityBarrierMismatch);
  previous ← returns (ok_or (js_rebind_source_root_binding_hash state)
               JournalStateError.DurabilityBarrierMismatch);
  layout ← returns (ok_or (js_layout state) JournalStateError.LayoutMissing);
  network_started ← reads sm_network_started;
  _ ← reject_if network_started JournalStateError.DurabilityBarrierMismatch;
  empty ← returns (calculate_contributors_hash []);
  reject_if ((contributors_hash != empty)
    || (validator_set_fingerprint
        != calculate_rebind_validator_set_fingerprint previous (ly_root_binding_hash layout) digest_value))
    JournalStateError.DurabilityBarrierMismatch.

(** The evidence of a piece verified in this generation. *)
Definition check_verified (piece_id : PieceId) (piece_span : PersistedSpan)
    (contributors_hash validator_set_fingerprint : JournalHash) (digest : option JournalDigest)
    : Sem unit :=
  pieces ← reads sm_verified_pieces;
  verified ← returns (ok_or (pieces !! piece_id) JournalStateError.VerificationMismatch);
  reject_if ((vp_span verified != piece_span)
    || (vp_contributors_hash verified != contributors_hash)
    || (vp_validator_set_fingerprint verified != validator_set_fingerprint)
    || default false ((fun value => value != vp_digest verified) <$> digest))
    JournalStateError.VerificationMismatch.

Definition barrier_matches (data_barrier : DataBarrierKind) (durability : DurabilityMode) : bool :=
  match data_barrier, durability with
  | DataBarrierKind.BalancedGroup, DurabilityMode.Balanced
  | DataBarrierKind.StrictPiece, DurabilityMode.Strict
  | DataBarrierKind.FastFinalization, DurabilityMode.Fast => true
  | _, _ => false
  end.

Definition apply_piece_durable (record : JournalRecord) (piece_id : PieceId)
    (piece_span : PersistedSpan) (contributors_hash validator_set_fingerprint : JournalHash)
    (digest : option JournalDigest) (data_barrier : DataBarrierKind) : Sem unit :=
  _ ← require_ready_nonterminal record;
  expected ← machine_piece_span piece_id;
  _ ← reject_if (expected != piece_span) JournalStateError.PieceSpanMismatch;
  state ← require_state;
  _ ← (if data_barrier == DataBarrierKind.RecoveryReadback
       then check_readback contributors_hash validator_set_fingerprint digest
       else
         _ ← reject_if (negb (barrier_matches data_barrier (js_durability state)))
               JournalStateError.DurabilityBarrierMismatch;
         check_verified piece_id piece_span contributors_hash validator_set_fingerprint digest);
  limits ← reads sm_limits;
  _ ← reject_if (is_some (js_durable_pieces state !! piece_id)) JournalStateError.DuplicateDurablePiece;
  _ ← reject_if (jl_max_durable_pieces limits <=? N.of_nat (size (js_durable_pieces state)))
        (JournalStateError.ResourceLimit JournalStateResource.DurablePieces);
  update_state (fun state => state <| js_durable_pieces :=
    <[piece_id := {|
        dp_piece_id := piece_id;
        dp_piece_span := piece_span;
        dp_validator_set_fingerprint := validator_set_fingerprint;
        dp_digest := digest;
        dp_origin := DurablePieceOrigin.Live contributors_hash data_barrier;
      |}]> (js_durable_pieces state) |>).

(** ** Retries, pauses, host keys *)

Definition apply_retry (record : JournalRecord) (retry : RecoveredRetryState) : Sem unit :=
  _ ← require_ready_nonterminal record;
  let key := (RetryScope_number (rs_scope retry), rs_scope_id retry) in
  state ← require_state;
  limits ← reads sm_limits;
  _ ← reject_if (negb (is_some (js_retry_states state !! key))
        && (jl_max_retry_states limits <=? N.of_nat (size (js_retry_states state))))
      (JournalStateError.ResourceLimit JournalStateResource.RetryStates);
  update_state (fun state => state <| js_retry_states := <[key := retry]> (js_retry_states state) |>).

Definition apply_paused (record : JournalRecord) (reason : TaskPauseReason) : Sem unit :=
  _ ← require_ready_nonterminal record;
  drained ← leases_drained;
  _ ← reject_if (negb drained) JournalStateError.GenerationNotDrained;
  _ ← require_state;
  update_state (fun state => state <| js_paused := Some reason |>).

(** The transitions of a host-key decision outside a checkpoint. *)
Definition host_key_step_ok (state : RecoveredJournalState) (trust : JournalHostKeyState) : bool :=
  match hs_decision trust with
  | HostKeyDecision.Pending => negb (is_some (js_host_key_state state))
  | HostKeyDecision.Approved | HostKeyDecision.Rejected =>
    (js_paused state == Some TaskPauseReason.HostKeyApproval)
    && default false ((fun previous =>
         (hs_decision previous == HostKeyDecision.Pending)
         && (hs_challenge previous == hs_challenge trust)) <$> js_host_key_state state)
  end.

(** The current options with the approved pin. *)
Definition pin_options (options : SanitizedOptionMap) (trust : JournalHostKeyState)
    : result JournalStateError SanitizedOptionMap :=
  map_err JournalStateError.Payload (SanitizedOptionMap_new
    (filter (fun e => e.1 <> SESSION_HOST_KEY_PIN_OPTION) (om_entries options)
     ++ [(SESSION_HOST_KEY_PIN_OPTION,
          session_host_key_pin_value (hk_fingerprint_sha256 (ph_summary (hs_challenge trust))))])).

Definition apply_host_key_state (record : JournalRecord) (trust : JournalHostKeyState) : Sem unit :=
  _ ← require_ready_nonterminal record;
  drained ← leases_drained;
  _ ← reject_if (negb drained) JournalStateError.GenerationNotDrained;
  state ← require_state;
  checkpoint_state ← reads sm_checkpoint_state;
  _ ← reject_if (if (checkpoint_state : bool) then is_some (js_host_key_state state)
                 else negb (host_key_step_ok state trust))
        JournalStateError.InvalidHostKeyState;
  _ ← match hs_decision trust with
      | HostKeyDecision.Pending =>
        update_state (fun state => state <| js_paused := Some TaskPauseReason.HostKeyApproval |>)
      | HostKeyDecision.Approved =>
        current ← returns (ok_or (js_current_options state) JournalStateError.CurrentSnapshotMissing);
        options ← returns (pin_options (ro_options current) trust);
        update_state (fun state => state
          <| js_current_options := Some {| ro_patch_id := ro_patch_id current;
               ro_snapshot_hash := snapshot_hash options; ro_options := options |} |>
          <| js_paused := None |>)
      | HostKeyDecision.Rejected =>
        update_state (fun state => state <| js_paused := Some TaskPauseReason.RecoveryHold |>)
      end;
  update_state (fun state => state <| js_host_key_state := Some trust |>).

(** ** Terminal records *)

Definition apply_terminal (record : JournalRecord) (terminal : RecoveredTerminal) : Sem unit :=
  _ ← require_current_generation record;
  state ← require_state;
  _ ← reject_if (is_some (js_terminal state)) JournalStateError.DuplicateTerminal;
  update_state (fun state => state <| js_terminal := Some terminal |>).

Definition unfinished (finalizations : gmap FileId RecoveredFinalization) : bool :=
  existsb (fun value => negb (fz_done value)) (btree_values finalizations).

(** The digests a manifest asks for and the state lacks. *)
Definition manifest_unmet (state : RecoveredJournalState) : bool :=
  default false ((fun manifest =>
    (negb (blen (vm_whole manifest) =? 0) && negb (js_whole_file_verified state))
    || (negb (blen (vm_chunks manifest) =? 0)
        && negb (N.of_nat (size (js_durable_pieces state)) =? blen (vm_chunks manifest))))
    <$> js_verification_manifest state).

Definition apply_complete (record : JournalRecord) (layout_hash : JournalHash) (final_length : N)
    (final_digest : option JournalDigest) (completed_at_unix_ms : N) : Sem unit :=
  _ ← require_ready_nonterminal record;
  drained ← leases_drained;
  state ← require_state;
  _ ← reject_if (negb drained || unfinished (js_finalizations state))
        JournalStateError.FinalizationMismatch;
  _ ← require_manifest_ready;
  _ ← reject_if (manifest_unmet state) JournalStateError.VerificationMismatch;
  layout ← require_layout;
  _ ← reject_if ((ly_layout_hash layout != layout_hash)
        || default false ((fun length => negb (length =? final_length))
             <$> fl_total_length (ly_layout layout)))
      JournalStateError.FinalizationMismatch;
  apply_terminal record
    (RecoveredTerminal.Complete layout_hash final_length final_digest completed_at_unix_ms).

(** The document a metadata task completed with. *)
Definition metadata_document (state : RecoveredJournalState) (parent : MetadataParent)
    : result JournalStateError (JournalHash * N) :=
  if mp_retained parent
  then
    layout ← ok_or (js_layout state) JournalStateError.LayoutMissing;
    if fl_total_length (ly_layout layout) != Some (mp_document_bytes parent)
    then Err JournalStateError.VerificationMismatch
    else Ok (ly_layout_hash layout, mp_document_bytes parent)
  else if is_some (js_layout state) then Err JournalStateError.VerificationMismatch
  else Ok (mp_document_hash parent, 0).

Definition apply_metadata_complete (record : JournalRecord) (expansion : MetadataExpansion)
    (completed_at_unix_ms : N) : Sem unit :=
  _ ← require_ready_nonterminal record;
  drained ← leases_drained;
  _ ← reject_if (negb drained) JournalStateError.GenerationNotDrained;
  state ← require_state;
  current ← returns (ok_or (js_current_options state) JournalStateError.CurrentSnapshotMissing);
  base ← returns (map_err JournalStateError.Payload (SanitizedOptionMap_new
    (filter (fun e => e.1 <> METADATA_EXPANSION_OPTION) (om_entries (ro_options current)))));
  _ ← reject_if (negb (MetadataExpansion_validate expansion)
        || (jr_generation record <? mp_generation (me_parent expansion))
        || (mp_snapshot_hash (me_parent expansion) != snapshot_hash base)
        || is_some (js_verification_manifest state))
      JournalStateError.VerificationMismatch;
  '(layout_hash, final_length) ← returns (metadata_document state (me_parent expansion));
  options ← returns (map_err JournalStateError.Payload (with_options expansion (ro_options current)));
  update_state (fun state => state
    <| js_current_options := Some {| ro_patch_id := ro_patch_id current;
         ro_snapshot_hash := snapshot_hash options; ro_options := options |} |>
    <| js_terminal := Some (RecoveredTerminal.Complete layout_hash final_length None
                              completed_at_unix_ms) |>
    <| js_paused := None |>).

Definition apply_clean_shutdown (record : JournalRecord) (checkpoint_sequence shutdown_at_unix_ms : N)
    : Sem unit :=
  checkpoint_state ← reads sm_checkpoint_state;
  _ ← reject_if checkpoint_state JournalStateError.CheckpointRecordForbidden;
  _ ← require_current_generation record;
  _ ← reject_if (jr_sequence record <=? checkpoint_sequence) JournalStateError.InvalidCleanShutdown;
  _ ← require_state;
  update_state (fun state => state <| js_clean_shutdown := Some
    (mkRecoveredCleanShutdown checkpoint_sequence shutdown_at_unix_ms (jr_sequence record)) |>).

(** ** Finalizations *)

Definition entry_matches (entry : FileEntry) (finalization : RecoveredFinalization) : bool :=
  fe_selected entry && (fe_length entry =? fz_final_length finalization)
  && (canonical_string (fe_safe_path entry) == fz_final_relative_path finalization)
  && (fe_identity entry == Some (fz_file_identity finalization)).

Definition apply_finalize_intent (record : JournalRecord) (finalization : RecoveredFinalization)
    : Sem unit :=
  _ ← require_ready_nonterminal record;
  layout ← require_layout;
  _ ← reject_if ((ly_layout_hash layout != fz_layout_hash finalization)
        || (ly_root_binding_hash layout != fz_root_binding_hash finalization))
      JournalStateError.FinalizationMismatch;
  entry ← returns (ok_or (fl_files (ly_layout layout) !! N.to_nat (fz_file_id finalization))
            JournalStateError.FinalizationMismatch);
  _ ← reject_if (negb (entry_matches entry finalization)) JournalStateError.FinalizationMismatch;
  state ← require_state;
  limits ← reads sm_limits;
  _ ← reject_if (unfinished (js_finalizations state)
        || is_some (js_finalizations state !! fz_file_id finalization)
        || default false ((fun file => fz_file_id finalization <=? file)
             <$> last (btree_keys (js_finalizations state))))
      JournalStateError.FinalizationMismatch;
  _ ← reject_if (jl_max_finalizations limits <=? N.of_nat (size (js_finalizations state)))
        (JournalStateError.ResourceLimit JournalStateResource.Finalizations);
  update_state (fun state => state <| js_finalizations :=
    <[fz_file_id finalization := finalization]> (js_finalizations state) |>).

Definition apply_finalize_done (record : JournalRecord) (layout_hash root_binding_hash : JournalHash)
    (file_id : FileId) (final_relative_path : JournalRelativePath) : Sem unit :=
  _ ← require_ready_nonterminal record;
  state ← require_state;
  finalization ← returns (ok_or (js_finalizations state !! file_id)
                   JournalStateError.FinalizationMismatch);
  _ ← reject_if (fz_done finalization
        || (fz_layout_hash finalization != layout_hash)
        || (fz_root_binding_hash finalization != root_binding_hash)
        || (fz_final_relative_path finalization != final_relative_path))
      JournalStateError.FinalizationMismatch;
  update_state (fun state => state <| js_finalizations :=
    <[file_id := finalization <| fz_done := true |>]> (js_finalizations state) |>).

(** ** Checkpointed piece state *)

Definition count_ones (b : byte) : N :=
  blen (filter (fun i => N.testbit (byte_val b) i = true) [0; 1; 2; 3; 4; 5; 6; 7]).
Definition bitmap_ones (bitmap : bytes) : N := foldr (fun b n => count_ones b + n) 0 bitmap.

(** The pieces of a run from its [index]-th on. *)
Fixpoint run_pieces (layout : FileLayout) (first_piece_id : PieceId) (run : DurableEvidenceRun)
    (n : nat) (index : N) : result JournalStateError (list RecoveredDurablePiece) :=
  match n with
  | O => Ok []
  | S n =>
    piece_id ← ok_or (u64_checked_add first_piece_id (er_first_piece_delta run + index))
      JournalStateError.PieceStateChunkMismatch;
    piece_span ← expected_piece_span layout piece_id;
    digest ←
      match er_digest_algorithm run with
      | Some algorithm =>
        let digest_len := er_digest_value_len run in
        let start := index * digest_len in
        if blen (er_digest_values run) <? start + digest_len
        then Err JournalStateError.PieceStateChunkMismatch
        else map_err JournalStateError.Payload
               (Some <$> JournalDigest_new algorithm (slice start digest_len (er_digest_values run)))
      | None => Ok None
      end;
    pieces ← run_pieces layout first_piece_id run n (index + 1);
    Ok ({| dp_piece_id := piece_id; dp_piece_span := piece_span;
           dp_validator_set_fingerprint := er_validator_set_fingerprint run;
           dp_digest := digest; dp_origin := DurablePieceOrigin.Checkpoint |} :: pieces)
  end.

Fixpoint runs_pieces (layout : FileLayout) (first_piece_id : PieceId) (runs : list DurableEvidenceRun)
    : result JournalStateError (list RecoveredDurablePiece) :=
  match runs with
  | [] => Ok []
  | run :: runs =>
    pieces ← run_pieces layout first_piece_id run (N.to_nat (er_piece_count run)) 0;
    rest ← runs_pieces layout first_piece_id runs;
    Ok (pieces ++ rest)
  end.

Fixpoint insert_pieces (pieces : list RecoveredDurablePiece) : Sem unit :=
  match pieces with
  | [] => mret tt
  | piece :: pieces =>
    state ← require_state;
    _ ← update_state (fun state => state <| js_durable_pieces :=
          <[dp_piece_id piece := piece]> (js_durable_pieces state) |>);
    _ ← reject_if (is_some (js_durable_pieces state !! dp_piece_id piece))
          JournalStateError.DuplicateDurablePiece;
    insert_pieces pieces
  end.

(** The place of a chunk in the sequence; the first one clears the pieces. *)
Definition order_piece_state (layout_hash root_binding_hash : JournalHash)
    (chunk_index chunk_count first_piece_id : N) : Sem unit :=
  seen ← reads sm_seen_piece_state;
  pending ← reads sm_pending_piece_state;
  if chunk_index =? 0
  then
    _ ← reject_if (seen || is_some pending) JournalStateError.DuplicatePieceState;
    _ ← updates (fun self => self <| sm_seen_piece_state := true |>);
    _ ← require_state;
    update_state (fun state => state <| js_durable_pieces := ∅ |>)
  else
    pending ← returns (ok_or pending JournalStateError.PieceStateChunkMismatch);
    reject_if ((ps_layout_hash pending != layout_hash)
      || (ps_root_binding_hash pending != root_binding_hash)
      || negb (ps_chunk_count pending =? chunk_count)
      || negb (ps_next_chunk pending =? chunk_index)
      || (first_piece_id <? ps_previous_covered_end pending))
      JournalStateError.PieceStateChunkMismatch.

Definition apply_piece_state_chunk (record : JournalRecord) (layout_hash root_binding_hash : JournalHash)
    (chunk_index chunk_count : N) (first_piece_id : PieceId) (covered_piece_count : N)
    (durable_bitmap : bytes) (evidence_runs : list DurableEvidenceRun) : Sem unit :=
  checkpoint_state ← reads sm_checkpoint_state;
  _ ← reject_if (negb checkpoint_state) JournalStateError.PieceStateOutsideCheckpoint;
  _ ← require_ready_nonterminal record;
  layout ← require_layout;
  _ ← reject_if ((ly_layout_hash layout != layout_hash)
        || (ly_root_binding_hash layout != root_binding_hash))
      JournalStateError.PieceStateChunkMismatch;
  _ ← order_piece_state layout_hash root_binding_hash chunk_index chunk_count first_piece_id;
  state ← require_state;
  limits ← reads sm_limits;
  _ ← reject_if (default true ((fun count => jl_max_durable_pieces limits <? count)
        <$> u64_checked_add (N.of_nat (size (js_durable_pieces state))) (bitmap_ones durable_bitmap)))
      (JournalStateError.ResourceLimit JournalStateResource.DurablePieces);
  decoded ← returns (runs_pieces (ly_layout layout) first_piece_id evidence_runs);
  _ ← insert_pieces decoded;
  previous_covered_end ← returns (ok_or (u64_checked_add first_piece_id covered_piece_count)
                           JournalStateError.PieceStateChunkMismatch);
  updates (fun self => self <| sm_pending_piece_state :=
    if chunk_index + 1 =? chunk_count then None
    else Some (mkPendingPieceState layout_hash root_binding_hash chunk_count (chunk_index + 1)
                 previous_covered_end) |>).

(** ** Verification manifests and protocol validators *)

Definition finish_manifest : Sem unit :=
  pending ← reads sm_pending_manifest;
  pending ← returns (ok_or pending JournalStateError.InvalidVerificationManifest);
  if negb (pm_next pending =? pm_count pending) then mret tt
  else
    _ ← reject_if (negb (blen (pm_bytes pending) =? pm_total pending)
          || (hash_bytes (pm_bytes pending) != pm_fingerprint pending))
        JournalStateError.InvalidVerificationManifest;
    manifest ← returns (map_err (fun _ => JournalStateError.InvalidVerificationManifest)
                 (VerificationManifest_decode (pm_bytes pending)));
    limits ← reads sm_limits;
    _ ← reject_if (jl_max_durable_pieces limits <? blen (vm_chunks manifest))
          (JournalStateError.ResourceLimit JournalStateResource.DurablePieces);
    state ← require_state;
    _ ← reject_if (default false ((fun expected =>
            expected != hash_to_string (vm_fingerprint manifest)) <$> required_manifest state))
        JournalStateError.InvalidVerificationManifest;
    _ ← reject_if (default false ((fun layout => negb (matches_layout manifest layout))
            <$> js_layout state))
        JournalStateError.InvalidVerificationManifest;
    _ ← update_state (fun state => state <| js_verification_manifest := Some manifest |>);
    updates (fun self => self <| sm_pending_manifest := None |>).

Definition apply_manifest (record : JournalRecord) (fingerprint : JournalHash) (total count : N)
    (part : bytes) : Sem unit :=
  _ ← require_current_generation record;
  state ← require_state;
  network_started ← reads sm_network_started;
  _ ← reject_if (network_started || is_some (js_verification_manifest state))
        JournalStateError.InvalidVerificationManifest;
  _ ← reject_if ((MAX_VERIFICATION_MANIFEST_BYTES <? total) || (total <? blen part)
        || negb (count =? div_ceil total VERIFICATION_MANIFEST_PART_BYTES))
      JournalStateError.InvalidVerificationManifest;
  _ ← updates (fun self => self <| sm_pending_manifest := Some {|
        pm_fingerprint := fingerprint; pm_total := total; pm_count := count; pm_next := 1;
        pm_bytes := part |} |>);
  finish_manifest.

Definition apply_manifest_chunk (record : JournalRecord) (fingerprint : JournalHash) (index count : N)
    (part : bytes) : Sem unit :=
  _ ← require_current_generation record;
  pending ← reads sm_pending_manifest;
  pending ← returns (ok_or pending JournalStateError.InvalidVerificationManifest);
  _ ← reject_if ((pm_fingerprint pending != fingerprint)
        || negb (pm_next pending =? index)
        || negb (pm_count pending =? count)
        || negb (blen part =? N.min (pm_total pending - blen (pm_bytes pending))
                                VERIFICATION_MANIFEST_PART_BYTES))
      JournalStateError.InvalidVerificationManifest;
  _ ← updates (fun self => self <| sm_pending_manifest := Some
        (pending <| pm_bytes := pm_bytes pending ++ part |> <| pm_next := pm_next pending + 1 |>) |>);
  finish_manifest.

Definition apply_protocol_validator (record : JournalRecord) (validator : ProtocolValidator) : Sem unit :=
  _ ← require_ready_nonterminal record;
  state ← require_state;
  let old := js_protocol_validators state !! pv_source validator in
  _ ← reject_if (negb (ProtocolValidator_validate validator)
        || (layout_total_length state != Some (pv_total_length validator))
        || default false ((fun old => old != validator) <$> old)
        || ((1024 <=? N.of_nat (size (js_protocol_validators state))) && negb (is_some old)))
      JournalStateError.InvalidProtocolValidator;
  update_state (fun state => state <| js_protocol_validators :=
    <[pv_source validator := validator]> (js_protocol_validators state) |>).

Definition apply_whole_verified (record : JournalRecord) (fingerprint : JournalHash)
    (digests : list JournalDigest) : Sem unit :=
  _ ← require_ready_nonterminal record;
  _ ← require_manifest_ready;
  state ← require_state;
  manifest ← returns (ok_or (js_verification_manifest state)
               JournalStateError.InvalidVerificationManifest);
  let pieces := div_ceil (vm_total_length manifest) (vm_chunk_length manifest) in
  drained ← leases_drained;
  _ ← reject_if ((fingerprint != vm_fingerprint manifest) || (digests != vm_whole manifest)
        || negb (N.of_nat (size (js_durable_pieces state)) =? pieces) || negb drained)
      JournalStateError.VerificationMismatch;
  update_state (fun state => state <| js_whole_file_verified := true |>).

(** ** One record *)

Definition set_rank (rank : N) : Sem unit :=
  previous ← reads sm_checkpoint_rank;
  _ ← reject_if ((rank <? previous) || ((rank =? 1) && negb (previous =? 0))
        || ((rank =? 2) && (previous =? 2))) JournalStateError.NonCanonicalCheckpointOrder;
  updates (fun self => self <| sm_checkpoint_rank := rank |>).

(** [previous >= key] on retry keys, in lexicographic order. *)
Definition key_le_pair (key previous : N * N) : bool := bool_decide (pair_le key previous).

Definition validate_checkpoint_order (payload : JournalPayload) : Sem unit :=
  match payload with
  | JournalPayload.TaskCreated _ _ => set_rank 1
  | JournalPayload.OptionsSnapshot OptionsSnapshotScope.CurrentGeneration _ _ _ => set_rank 2
  | JournalPayload.LayoutCommitted _ _ _ _ _ _ _ _ _ | JournalPayload.LayoutChunk _ _ _ _ _ => set_rank 3
  | JournalPayload.HttpStrongValidator _ _ _ _
  | JournalPayload.HttpRangeIdentity _ _ _
  | JournalPayload.ProtocolValidator _
  | JournalPayload.VerificationManifest _ _ _ _
  | JournalPayload.VerificationManifestChunk _ _ _ _ => set_rank 4
  | JournalPayload.WholeFileVerified _ _ => set_rank 6
  | JournalPayload.RetryState scope scope_id _ _ _ _ _ _ =>
    let key := (RetryScope_number scope, scope_id) in
    previous ← reads sm_checkpoint_retry_key;
    _ ← reject_if (default false (key_le_pair key <$> previous))
          JournalStateError.NonCanonicalCheckpointOrder;
    _ ← updates (fun self => self <| sm_checkpoint_retry_key := Some key |>);
    set_rank 5
  | JournalPayload.PieceStateChunk _ _ _ _ _ _ _ _ => set_rank 6
  | JournalPayload.TaskPaused _ | JournalPayload.HostKeyState _ => set_rank 7
  | JournalPayload.FinalizeIntent _ _ _ _ _ _ _ | JournalPayload.FinalizeDone _ _ _ _ => set_rank 8
  | JournalPayload.TaskComplete _ _ _ _
  | JournalPayload.MetadataComplete _ _
  | JournalPayload.TaskError _ _ _
  | JournalPayload.TaskRemoved _ => set_rank 9
  | _ => raise JournalStateError.CheckpointRecordForbidden
  end.

Definition apply_payload (record : JournalRecord) (payload : JournalPayload) : Sem unit :=
  match payload with
  | JournalPayload.TaskCreated durability creator_version =>
    apply_task_created record durability creator_version
  | JournalPayload.OptionsSnapshot scope patch_id hash options =>
    apply_options record scope patch_id hash options
  | JournalPayload.LayoutCommitted layout_hash root_binding_hash root_display root_identity total_length
      piece_length total_file_count chunk_count inline_files =>
    apply_layout_committed record layout_hash root_binding_hash root_display root_identity total_length
      piece_length total_file_count chunk_count inline_files
  | JournalPayload.LayoutChunk layout_hash root_binding_hash chunk_index chunk_count files =>
    apply_layout_chunk record layout_hash root_binding_hash chunk_index chunk_count files
  | JournalPayload.GenerationStarted previous_generation reason next_snapshot_hash patch_id =>
    apply_generation_started record previous_generation reason next_snapshot_hash patch_id
  | JournalPayload.LeaseStarted _ lease_id span validator_fingerprint =>
    apply_lease_started record lease_id span validator_fingerprint
  | JournalPayload.PieceStarted lease_id piece_id piece_span =>
    apply_piece_started record lease_id piece_id piece_span
  | JournalPayload.PieceWritten lease_id piece_id written_span =>
    apply_piece_written record lease_id piece_id written_span
  | JournalPayload.LeaseCommitted lease_id span validator_fingerprint _ =>
    apply_lease_committed record lease_id span validator_fingerprint
  | JournalPayload.LeaseAborted lease_id _ => apply_lease_aborted record lease_id
  | JournalPayload.PieceVerified piece_id piece_span contributors_hash digest =>
    apply_piece_verified record piece_id piece_span contributors_hash digest
  | JournalPayload.PieceFailed lease_id piece_id piece_span _ _ =>
    apply_piece_failed record lease_id piece_id piece_span
  | JournalPayload.PieceDurable piece_id piece_span contributors_hash validator_set_fingerprint digest
      data_barrier =>
    apply_piece_durable record piece_id piece_span contributors_hash validator_set_fingerprint digest
      data_barrier
  | JournalPayload.RetryState scope scope_id attempt elapsed scheduled delay error_class retry_reason =>
    apply_retry record (mkRecoveredRetryState scope scope_id attempt elapsed scheduled delay error_class
                          retry_reason)
  | JournalPayload.TaskPaused reason => apply_paused record reason
  | JournalPayload.HostKeyState state => apply_host_key_state record state
  | JournalPayload.MetadataComplete expansion completed_at_unix_ms =>
    apply_metadata_complete record expansion completed_at_unix_ms
  | JournalPayload.TaskComplete layout_hash final_length final_digest completed_at_unix_ms =>
    apply_complete record layout_hash final_length final_digest completed_at_unix_ms
  | JournalPayload.TaskError error_class retriable diagnostic_id =>
    apply_terminal record (RecoveredTerminal.Error error_class retriable diagnostic_id)
  | JournalPayload.TaskRemoved reason => apply_terminal record (RecoveredTerminal.Removed reason)
  | JournalPayload.CleanShutdown checkpoint_sequence shutdown_at_unix_ms =>
    apply_clean_shutdown record checkpoint_sequence shutdown_at_unix_ms
  | JournalPayload.FinalizeIntent layout_hash root_binding_hash file_id temp final final_length
      file_identity =>
    apply_finalize_intent record (mkRecoveredFinalization layout_hash root_binding_hash file_id temp final
                                    final_length file_identity false)
  | JournalPayload.FinalizeDone layout_hash root_binding_hash file_id final_relative_path =>
    apply_finalize_done record layout_hash root_binding_hash file_id final_relative_path
  | JournalPayload.PieceStateChunk layout_hash root_binding_hash chunk_index chunk_count first_piece_id
      covered_piece_count durable_bitmap evidence_runs =>
    apply_piece_state_chunk record layout_hash root_binding_hash chunk_index chunk_count first_piece_id
      covered_piece_count durable_bitmap evidence_runs
  | JournalPayload.HttpStrongValidator resource validator total_length etag =>
    apply_http_strong_validator record
      (mkRecoveredHttpStrongValidator resource validator total_length etag)
  | JournalPayload.HttpRangeIdentity identity total_length digest =>
    apply_http_range_identity record (mkRecoveredHttpRangeIdentity identity total_length digest)
  | JournalPayload.VerificationManifest fingerprint total_bytes chunk_count part =>
    apply_manifest record fingerprint total_bytes chunk_count part
  | JournalPayload.VerificationManifestChunk fingerprint chunk_index chunk_count part =>
    apply_manifest_chunk record fingerprint chunk_index chunk_count part
  | JournalPayload.ProtocolValidator validator => apply_protocol_validator record validator
  | JournalPayload.WholeFileVerified fingerprint digests =>
    apply_whole_verified record fingerprint digests
  | JournalPayload.CheckpointStart _ _ _ _ _ | JournalPayload.CheckpointEnd _ _ _ =>
    raise JournalStateError.CheckpointRecordForbidden
  end.

Definition has_type (type : RecordType) (payload : JournalPayload) : bool := record_type payload == type.

Definition apply (record : JournalRecord) (payload : JournalPayload) : Sem unit :=
  self ← reads (fun self => self);
  _ ← reject_if (is_some (sm_pending_manifest self)
        && negb (has_type RecordType.VerificationManifestChunk payload))
      JournalStateError.InvalidVerificationManifest;
  _ ← reject_if (is_some (sm_pending_layout self) && negb (has_type RecordType.LayoutChunk payload))
        JournalStateError.IncompleteLayoutSequence;
  _ ← reject_if (is_some (sm_pending_piece_state self)
        && negb (has_type RecordType.PieceStateChunk payload))
      JournalStateError.IncompletePieceStateSequence;
  _ ← (if sm_checkpoint_state self then validate_checkpoint_order payload
       else reject_if (has_type RecordType.CheckpointStart payload) JournalStateError.CheckpointNotFirst);
  _ ← reject_if (is_some (sm_state self ≫= js_terminal)
        && negb (has_type RecordType.CleanShutdown payload)) JournalStateError.RecordAfterTerminal;
  _ ← apply_payload record payload;
  if has_type RecordType.CleanShutdown payload then mret tt
  else update_state (fun state => state <| js_clean_shutdown := None |>).

(** ** Replay *)

(** The error carries the index of the record in the list. *)
Fixpoint process_records (machine : SemanticMachine) (records : list JournalRecord)
    (absolute relative expected_sequence : N)
    : result (N * JournalStateError) unit * SemanticMachine :=
  match records with
  | [] => (Ok tt, machine)
  | record :: records =>
    if negb (jr_sequence record =? expected_sequence)
    then (Err (relative, JournalStateError.SequenceMismatch expected_sequence (jr_sequence record)), machine)
    else if jl_max_records (sm_limits machine) <=? absolute
    then (Err (relative, JournalStateError.ResourceLimit JournalStateResource.Records), machine)
    else
      match decode_payload record with
      | Err error => (Err (relative, JournalStateError.Payload error), machine)
      | Ok payload =>
        match apply record payload machine with
        | (Err error, machine) => (Err (relative, error), machine)
        | (Ok _, machine) =>
          let machine := machine <| sm_state :=
            (fun state => state <| js_last_sequence := jr_sequence record |>) <$> sm_state machine |> in
          process_records machine records (absolute + 1) (relative + 1)
            (u64_saturating_add expected_sequence 1)
        end
      end
  end.

Definition finish_replay (machine : SemanticMachine) (accepted : N) : JournalStateReplay := {|
  sr_state := sm_state machine;
  sr_accepted_records := accepted;
  sr_last_sequence := default 0 (js_last_sequence <$> sm_state machine);
  sr_stop :=
    match sm_pending_manifest machine, sm_pending_layout machine with
    | Some pending, _ => JournalStateStop.IncompleteVerificationManifest (pm_next pending) (pm_count pending)
    | None, Some pending => JournalStateStop.IncompleteLayout (pl_next_chunk pending) (pl_chunk_count pending)
    | None, None => JournalStateStop.CleanEnd
    end;
|}.

Definition invalid_replay (state : option RecoveredJournalState)
    (accepted_records last_sequence record_index sequence : N) (error : JournalStateError)
    : JournalStateReplay := {|
  sr_state := state;
  sr_accepted_records := accepted_records;
  sr_last_sequence := last_sequence;
  sr_stop := JournalStateStop.InvalidRecord record_index sequence error;
|}.

Definition checkpoint_invalid (record_index sequence : N) (error : JournalStateError)
    : JournalStateReplay := invalid_replay None 0 0 record_index sequence error.

(** The sequence of the record at an index. *)
Definition sequence_at (records : list JournalRecord) (index : N) : N :=
  default 0 (jr_sequence <$> records !! N.to_nat index).

Definition recover_live (records : list JournalRecord) (task : TaskId) (limits : JournalStateLimits)
    : JournalStateReplay :=
  match process_records (SemanticMachine_new task limits false None) records 0 0 1 with
  | (Ok _, machine) => finish_replay machine (blen records)
  | (Err (index, error), machine) =>
    invalid_replay (sm_state machine) index
      (if index =? 0 then 0 else sequence_at records (index - 1)) index (sequence_at records index) error
  end.

(** The first record out of sequence; the [i]-th of the whole list has sequence [i + 1]. *)
Fixpoint sequence_break (index : N) (records : list JournalRecord) : option (N * JournalStateError) :=
  match records with
  | [] => None
  | record :: records =>
    if negb (jr_sequence record =? index + 1)
    then Some (index, JournalStateError.SequenceMismatch (index + 1) (jr_sequence record))
    else sequence_break (index + 1) records
  end.

(** The envelope of a checkpoint: the index of its end and what it attests. *)
Definition checkpoint_envelope (records : list JournalRecord) (first : JournalRecord)
    (limits : JournalStateLimits) : result JournalStateReplay (N * RecoveredCheckpoint) :=
  let reject index error := Err (checkpoint_invalid index (sequence_at records index) error) in
  if negb (jr_sequence first =? 1)
  then reject 0 (JournalStateError.SequenceMismatch 1 (jr_sequence first))
  else
    match decode_payload first with
    | Err error => reject 0 (JournalStateError.Payload error)
    | Ok (JournalPayload.CheckpointStart checkpoint_id source_last_sequence source_segment_hash count _) =>
      let end_index := 1 + count in
      if blen records <=? end_index then reject (blen records - 1) JournalStateError.CheckpointIncomplete
      else if jl_max_records limits <=? end_index
      then reject (N.min (jl_max_records limits) (blen records - 1))
             (JournalStateError.ResourceLimit JournalStateResource.Records)
      else
        match sequence_break 1 (slice 1 end_index records) with
        | Some (index, error) => reject index error
        | None =>
          match calculate_checkpoint_state_hash (slice 1 count records) with
          | Err error => reject 0 error
          | Ok calculated_hash =>
            match records !! N.to_nat end_index with
            | None => reject end_index JournalStateError.CheckpointIncomplete
            | Some last =>
              match decode_payload last with
              | Err error => reject end_index (JournalStateError.Payload error)
              | Ok (JournalPayload.CheckpointEnd end_id end_count state_hash) =>
                if negb (jr_generation last =? jr_generation first)
                then reject end_index
                       (JournalStateError.GenerationMismatch (jr_generation first) (jr_generation last))
                else if end_id != checkpoint_id then reject end_index JournalStateError.CheckpointIdMismatch
                else if negb (end_count =? count)
                then reject end_index JournalStateError.CheckpointCountMismatch
                else if state_hash != calculated_hash
                then reject end_index JournalStateError.CheckpointHashMismatch
                else Ok (end_index, {|
                  ck_checkpoint_id := checkpoint_id;
                  ck_source_last_sequence := source_last_sequence;
                  ck_source_segment_hash := source_segment_hash;
                  ck_state_record_count := count;
                  ck_state_hash := state_hash;
                  ck_end_sequence := jr_sequence last;
                |})
              | Ok _ => reject end_index JournalStateError.CheckpointIncomplete
              end
            end
          end
        end
    (* [unreachable!]: the decoder returns the variant of the record type. *)
    | Ok _ => reject 0 JournalStateError.CheckpointIncomplete
    end.

(** The machine after the state records of a checkpoint. *)
Definition checkpoint_machine (records : list JournalRecord) (first : JournalRecord) (task : TaskId)
    (limits : JournalStateLimits) (end_index : N) (checkpoint : RecoveredCheckpoint)
    : result JournalStateReplay SemanticMachine :=
  let reject index error := Err (checkpoint_invalid index (sequence_at records index) error) in
  let machine := SemanticMachine_new task limits true (Some (jr_generation first)) in
  match process_records machine (slice 1 (end_index - 1) records) 1 0 2 with
  | (Err (relative, error), _) => reject (relative + 1) error
  | (Ok _, machine) =>
    match sm_state machine with
    | None => reject end_index JournalStateError.TaskCreatedMissing
    | Some state =>
      if is_some (sm_pending_manifest machine) || is_some (sm_pending_layout machine)
         || is_some (sm_pending_piece_state machine)
      then reject end_index JournalStateError.CheckpointIncomplete
      else if negb (is_some (js_current_options state))
      then reject end_index JournalStateError.CurrentSnapshotMissing
      else Ok (machine
        <| sm_state := Some (state <| js_checkpoint := Some checkpoint |>
                                   <| js_last_sequence := ck_end_sequence checkpoint |>) |>
        <| sm_checkpoint_state := false |>
        <| sm_expected_checkpoint_generation := None |>)
    end
  end.

Definition recover_checkpoint (records : list JournalRecord) (first : JournalRecord) (task : TaskId)
    (limits : JournalStateLimits) : JournalStateReplay :=
  match (envelope ← checkpoint_envelope records first limits;
         machine ← checkpoint_machine records first task limits envelope.1 envelope.2;
         Ok (envelope.1, machine)) with
  | Err replay => replay
  | Ok (end_index, machine) =>
    let tail_start := end_index + 1 in
    match process_records machine (skip tail_start records) tail_start 0
            (u64_saturating_add (sequence_at records end_index) 1) with
    | (Ok _, machine) => finish_replay machine (blen records)
    | (Err (relative, error), machine) =>
      let index := tail_start + relative in
      invalid_replay (sm_state machine) index (sequence_at records (index - 1)) index
        (sequence_at records index) error
    end
  end.

Definition recover_journal_state (records : list JournalRecord) (task : TaskId)
    (limits : JournalStateLimits) : JournalStateReplay :=
  match records with
  | [] => mkJournalStateReplay None 0 0 JournalStateStop.NoRecords
  | first :: _ =>
    if jr_record_type first == RecordType.CheckpointStart
    then recover_checkpoint records first task limits
    else recover_live records task limits
  end.
End reduction.
