(* ===== verification/JournalStateLogic.v ===== *)
(** * Reasoning about the handlers of the semantic machine

    A weakest precondition for [Sem] with a postcondition for success and one for
    failure, the rules of its primitives and of the shared requirements, and the
    tactic [steps] that runs a handler symbolically. *)

From S2P Require Import Prelude Bytes Ids Paths Layout Journal PayloadTypes MetadataExpansion Payload Verification JournalStateTypes JournalState.
Open Scope list_scope.

Definition wp {A} (h : Sem A) (Q : A -> SemanticMachine -> Prop) (E : SemanticMachine -> Prop)
    (m : SemanticMachine) : Prop :=
  match h m with
  | (Ok a, m') => Q a m'
  | (Err _, m') => E m'
  end.

Lemma wp_Ok {A} (h : Sem A) Q E m a m' : wp h Q E m -> h m = (Ok a, m') -> Q a m'.
Proof. unfold wp. intros Hw Eh. by rewrite Eh in Hw. Qed.
Lemma wp_Err {A} (h : Sem A) Q E m e m' : wp h Q E m -> h m = (Err e, m') -> E m'.
Proof. unfold wp. intros Hw Eh. by rewrite Eh in Hw. Qed.

Section rules.
Context {A : Type}.
Implicit Types (Q : A -> SemanticMachine -> Prop) (E : SemanticMachine -> Prop).

Lemma wp_bind {B} (h : Sem B) (k : B -> Sem A) Q E m :
  wp h (fun b m => wp (k b) Q E m) E m -> wp (h ≫= k) Q E m.
Proof. unfold wp, mbind, Sem_bind. by destruct (h m) as [[b|e] m']. Qed.

Lemma wp_mret a Q E m : Q a m -> wp (mret a) Q E m.
Proof. done. Qed.
Lemma wp_reads f Q E m : Q (f m) m -> wp (reads f) Q E m.
Proof. done. Qed.
Lemma wp_raise e Q E m : E m -> wp (raise e) Q E m.
Proof. done. Qed.
Lemma wp_returns r Q E m :
  (forall a, r = Ok a -> Q a m) -> (forall e, r = Err e -> E m) -> wp (returns r) Q E m.
Proof. unfold wp, returns. destruct r; eauto. Qed.
Lemma wp_mono (h : Sem A) (Q Q' : A -> SemanticMachine -> Prop) (E E' : SemanticMachine -> Prop) m :
  wp h Q E m -> (forall a m, Q a m -> Q' a m) -> (forall m, E m -> E' m) -> wp h Q' E' m.
Proof. unfold wp. destruct (h m) as [[a|e] m']; auto. Qed.
End rules.

Section unit_rules.
Implicit Types (Q : unit -> SemanticMachine -> Prop) (E : SemanticMachine -> Prop).

Lemma wp_updates f Q E m : Q tt (f m) -> wp (updates f) Q E m.
Proof. done. Qed.
Lemma wp_reject_if b e Q E m : (b = false -> Q tt m) -> E m -> wp (reject_if b e) Q E m.
Proof. unfold wp, reject_if, returns. destruct b; auto. Qed.
Lemma wp_update_state f Q E m :
  Q tt (m <| sm_state := f <$> sm_state m |>) -> wp (update_state f) Q E m.
Proof. done. Qed.
End unit_rules.

Lemma wp_require_state Q E m :
  (forall s, sm_state m = Some s -> Q s m) -> E m -> wp require_state Q E m.
Proof. unfold wp, require_state. destruct (sm_state m); simpl; auto. Qed.

Lemma wp_require_layout Q E m :
  (forall s l, sm_state m = Some s -> js_layout s = Some l -> Q l m) -> E m -> wp require_layout Q E m.
Proof.
  unfold wp, require_layout. destruct (sm_state m) as [s|]; simpl; [|auto].
  destruct (js_layout s) eqn:El; simpl; eauto.
Qed.

Lemma wp_require_current_generation r Q E m :
  (forall s, sm_state m = Some s -> jr_generation r = js_generation s -> Q tt m) -> E m ->
  wp (require_current_generation r) Q E m.
Proof.
  intros HQ HE. apply wp_bind, wp_require_state; [|done]. intros s Hs.
  apply wp_reject_if; [|done]. intros Hg%negb_false_iff%N.eqb_eq. by eapply HQ.
Qed.

(** What [require_ready_nonterminal] establishes. *)
Record ready (r : JournalRecord) (s : RecoveredJournalState) : Prop := {
  rd_generation : jr_generation r = js_generation s;
  rd_options : is_Some (js_current_options s);
  rd_terminal : js_terminal s = None;
}.

Lemma wp_require_ready r Q E m :
  (forall s, sm_state m = Some s -> ready r s -> Q tt m) -> E m ->
  wp (require_ready_nonterminal r) Q E m.
Proof.
  intros HQ HE. apply wp_bind, wp_require_current_generation; [|done]. intros s Hs Hg.
  apply wp_bind, wp_require_state; [|done]. intros s' Hs'. assert (s' = s) as -> by congruence.
  apply wp_bind, wp_reject_if; [|done]. intros Ho%negb_false_iff%is_some_true.
  apply wp_reject_if; [|done]. intros Ht%is_some_false. by eapply HQ.
Qed.

Lemma wp_machine_piece_span p Q E m :
  (forall s l sp, sm_state m = Some s -> js_layout s = Some l ->
     expected_piece_span (ly_layout l) p = Ok sp -> Q sp m) -> E m -> wp (machine_piece_span p) Q E m.
Proof.
  intros HQ HE. apply wp_bind, wp_require_layout; [|done]. intros s l Hs Hl.
  apply wp_returns; eauto.
Qed.

Lemma wp_leases_drained Q E m :
  Q (bool_decide (sm_active_leases m = ∅)) m -> wp leases_drained Q E m.
Proof. done. Qed.

(** A handler that only reads. *)
Lemma wp_require_span_in_layout sp Q E m : Q tt m -> E m -> wp (require_span_in_layout sp) Q E m.
Proof.
  intros HQ HE. apply wp_bind, wp_require_layout; [|done]. intros.
  apply wp_bind, wp_returns; [|done]. intros. by apply wp_reject_if.
Qed.

Lemma wp_require_manifest_ready Q E m :
  (sm_pending_manifest m = None ->
   (forall s v, sm_state m = Some s -> js_verification_manifest s = Some v ->
      exists l, js_layout s = Some l /\ matches_layout v l = true) -> Q tt m) ->
  E m -> wp require_manifest_ready Q E m.
Proof.
  intros HQ HE. apply wp_bind, wp_require_state; [|done]. intros s Hs.
  apply wp_bind, wp_reads, wp_bind, wp_reject_if; [|done].
  intros [Hp%is_some_false _]%orb_false_iff.
  destruct (js_verification_manifest s) as [v|] eqn:Ev; [|apply HQ; [done|congruence]].
  apply wp_bind, wp_require_layout; [|done]. intros s' l Hs' Hl. assert (s' = s) as -> by congruence.
  apply wp_reject_if; [|done]. intros Hm%negb_false_iff. apply HQ; [done|].
  intros s0 v0 Hs0 Hv0. exists l. split; congruence.
Qed.

Lemma wp_require_active_lease i Q E m :
  (forall l, sm_active_leases m !! i = Some l -> Q l m) -> E m -> wp (require_active_lease i) Q E m.
Proof.
  intros HQ HE. apply wp_bind, wp_reads, wp_returns; [|done]. intros l Hl%ok_or_Ok. auto.
Qed.

(** Runs one step of a handler; failures that leave the machine as it is close
    by [assumption]. *)
Ltac step :=
  lazymatch goal with
  | |- wp (_ ≫= _) _ _ _ => apply wp_bind
  | |- wp (mret _) _ _ _ => apply wp_mret
  | |- wp (reads _) _ _ _ => apply wp_reads
  | |- wp (raise _) _ _ _ => apply wp_raise; try assumption
  | |- wp (returns _) _ _ _ =>
      apply wp_returns; [let a := fresh "a" in let H := fresh "Hr" in intros a H
                        |let e := fresh "e" in let H := fresh "Hr" in intros e H; try assumption]
  | |- wp (updates _) _ _ _ => apply wp_updates
  | |- wp (update_state _) _ _ _ => apply wp_update_state
  | |- wp (reject_if _ _) _ _ _ =>
      apply wp_reject_if; [let H := fresh "Hb" in intros H|try assumption]
  | |- wp require_state _ _ _ =>
      apply wp_require_state; [let s := fresh "s" in let H := fresh "Hs" in intros s H|try assumption]
  | |- wp require_layout _ _ _ =>
      apply wp_require_layout;
        [let s := fresh "s" in let l := fresh "l" in let H := fresh "Hs" in let H' := fresh "Hl" in
         intros s l H H'|try assumption]
  | |- wp (require_current_generation _) _ _ _ =>
      apply wp_require_current_generation;
        [let s := fresh "s" in let H := fresh "Hs" in let H' := fresh "Hg" in intros s H H'|try assumption]
  | |- wp (require_ready_nonterminal _) _ _ _ =>
      apply wp_require_ready;
        [let s := fresh "s" in let H := fresh "Hs" in let H' := fresh "Hd" in intros s H H'|try assumption]
  | |- wp (machine_piece_span _) _ _ _ =>
      apply wp_machine_piece_span;
        [let s := fresh "s" in let l := fresh "l" in let sp := fresh "sp" in let H := fresh "Hs" in
         let H' := fresh "Hl" in let H'' := fresh "Hsp" in intros s l sp H H' H''|try assumption]
  | |- wp leases_drained _ _ _ => apply wp_leases_drained
  | |- wp (require_span_in_layout _) _ _ _ => apply wp_require_span_in_layout; [|try assumption]
  | |- wp require_manifest_ready _ _ _ =>
      apply wp_require_manifest_ready; [let H := fresh "Hm" in let H' := fresh "Hready" in intros H H'|try assumption]
  | |- wp (require_active_lease _) _ _ _ =>
      apply wp_require_active_lease;
        [let l := fresh "l" in let H := fresh "Hl" in intros l H|try assumption]
  end; cbv beta.

(** Two reads of the state agree. *)
Ltac same_state :=
  repeat match goal with
  | H : sm_state ?m = Some ?s, H' : sm_state ?m = Some ?s' |- _ =>
      assert (s' = s) as -> by congruence; clear H'
  end.

Ltac steps := repeat step; same_state.

(** Splits the handler at its next conditional. *)
Ltac branch :=
  match goal with
  | |- wp (if ?b then _ else _) _ _ _ => let H := fresh "Hc" in destruct b eqn:H
  end.
