(* ===== verification/JournalStateAtomic.v ===== *)
(** * Rejected records leave the recovered state

    Outside a checkpoint every handler that fails leaves the recovered state as
    it was, so the state of a replay that stopped is the state of its accepted
    prefix. *)

From S2P Require Import Prelude Bytes Ids Paths Layout JournalTags Journal PayloadTypes MetadataExpansion Payload Verification JournalStateTypes JournalState JournalStateLogic.
Open Scope list_scope.

(** What no handler changes. *)
Record framed (m m' : SemanticMachine) : Prop := {
  fr_task : sm_task m' = sm_task m;
  fr_limits : sm_limits m' = sm_limits m;
  fr_checkpoint : sm_checkpoint_state m' = sm_checkpoint_state m;
}.
Lemma framed_refl m : framed m m.
Proof. done. Qed.

(** The machine of a live history, and what a handler may do to it. *)
Definition atomic (h : Sem unit) : Prop :=
  forall m, sm_checkpoint_state m = false ->
    wp h (fun _ m' => framed m m') (fun m' => sm_state m' = sm_state m) m.

Ltac run := steps; try reflexivity; try (by split).
Ltac atomic := intros m Hlive; run.

Section atomic.
Context `{Unicode, Digests, PersistedOptionPolicy}.

Lemma atomic_task_created r d v : atomic (apply_task_created r d v).
Proof. unfold apply_task_created. atomic. destruct (sm_expected_checkpoint_generation m); run. Qed.

Lemma atomic_options r sc p hash o : atomic (apply_options r sc p hash o).
Proof.
  unfold apply_options. atomic. destruct (forbidden_option o); run; destruct sc; run.
Qed.

Lemma atomic_generation_started r g reason hash p : atomic (apply_generation_started r g reason hash p).
Proof.
  unfold apply_generation_started. atomic.
  - apply ok_or_Ok in Hr. branch; run. cbn. rewrite Hs. cbn. f_equal.
    destruct s. cbn in *. by subst.
  - apply ok_or_Err in Hr as [Hn _]. cbn. rewrite Hs. cbn. f_equal. destruct s. cbn in *. by subst.
Qed.

Lemma wp_take_layout Q E m s :
  sm_state m = Some s ->
  Q (js_layout s, js_durable_pieces s)
    (m <| sm_state := Some (s <| js_layout := None |> <| js_durable_pieces := ∅ |>) |>) ->
  wp take_layout Q E m.
Proof. intros Hs HQ. unfold take_layout, wp, mbind, Sem_bind, require_state. rewrite Hs. cbn. by rewrite Hs. Qed.

Lemma wp_install_layout l pl pd Q E m s :
  sm_state m = Some s ->
  (let retain := default false ((fun previous => has_same_identity_evidence previous l) <$> pl) in
   Q tt (m <| sm_state := Some (s
        <| js_durable_pieces := if retain then pd else ∅ |>
        <| js_finalizations := ∅ |>
        <| js_http_strong_validator := None |>
        <| js_http_range_identity := None |>
        <| js_rebind_source_root_binding_hash := if retain then None else ly_root_binding_hash <$> pl |>
        <| js_layout := Some l |>) |>
     <| sm_layout_record_generation := Some (js_generation s) |>)) ->
  wp (install_layout l pl pd) Q E m.
Proof. intros Hs HQ. unfold install_layout, wp, mbind, Sem_bind, require_state. rewrite Hs. cbn. by rewrite Hs. Qed.

Lemma atomic_layout_committed r lh bh d i t p f c fs :
  atomic (apply_layout_committed r lh bh d i t p f c fs).
Proof.
  unfold apply_layout_committed. atomic. branch; run.
  - eapply wp_take_layout; [done|]. eapply wp_install_layout; [reflexivity|]. by split.
  - eapply wp_take_layout; [done|]. run.
Qed.

Lemma atomic_layout_chunk r lh bh i c fs : atomic (apply_layout_chunk r lh bh i c fs).
Proof.
  unfold apply_layout_chunk. atomic. branch; run. unfold finish_layout. run.
  eapply wp_install_layout; [done|]. by split.
Qed.

Lemma atomic_http_strong_validator r v : atomic (apply_http_strong_validator r v).
Proof. unfold apply_http_strong_validator. atomic. Qed.
Lemma atomic_http_range_identity r v : atomic (apply_http_range_identity r v).
Proof. unfold apply_http_range_identity. atomic. Qed.
Lemma atomic_lease_started r i sp v : atomic (apply_lease_started r i sp v).
Proof. unfold apply_lease_started. atomic. Qed.
Lemma atomic_piece_started r i p sp : atomic (apply_piece_started r i p sp).
Proof. unfold apply_piece_started. atomic. Qed.
Lemma atomic_piece_written r i p sp : atomic (apply_piece_written r i p sp).
Proof. unfold apply_piece_written. atomic. Qed.
Lemma atomic_lease_committed r i sp v : atomic (apply_lease_committed r i sp v).
Proof. unfold apply_lease_committed, remove_active_lease. atomic. Qed.
Lemma atomic_lease_aborted r i : atomic (apply_lease_aborted r i).
Proof. unfold apply_lease_aborted, remove_active_lease. atomic. Qed.
Lemma atomic_piece_verified r p sp c d : atomic (apply_piece_verified r p sp c d).
Proof. unfold apply_piece_verified, contributors_for_piece. atomic. Qed.
Lemma atomic_piece_failed r i p sp : atomic (apply_piece_failed r i p sp).
Proof. unfold apply_piece_failed. atomic. Qed.
Lemma atomic_piece_durable r p sp c v d b : atomic (apply_piece_durable r p sp c v d b).
Proof. unfold apply_piece_durable, check_readback, check_verified. atomic. branch; run. Qed.
Lemma atomic_retry r t : atomic (apply_retry r t).
Proof. unfold apply_retry. atomic. Qed.
Lemma atomic_paused r t : atomic (apply_paused r t).
Proof. unfold apply_paused. atomic. Qed.
Lemma atomic_host_key_state r t : atomic (apply_host_key_state r t).
Proof. unfold apply_host_key_state. atomic. destruct (hs_decision t); run. Qed.
Lemma atomic_terminal r t : atomic (apply_terminal r t).
Proof. unfold apply_terminal. atomic. Qed.
Lemma atomic_complete r h l d t : atomic (apply_complete r h l d t).
Proof. unfold apply_complete, apply_terminal. atomic. Qed.
Lemma atomic_metadata_complete r e t : atomic (apply_metadata_complete r e t).
Proof. unfold apply_metadata_complete. atomic. destruct a1. run. Qed.
Lemma atomic_clean_shutdown r c t : atomic (apply_clean_shutdown r c t).
Proof. unfold apply_clean_shutdown. atomic. Qed.
Lemma atomic_finalize_intent r f : atomic (apply_finalize_intent r f).
Proof. unfold apply_finalize_intent. atomic. Qed.
Lemma atomic_finalize_done r lh bh f p : atomic (apply_finalize_done r lh bh f p).
Proof. unfold apply_finalize_done. atomic. Qed.
Lemma atomic_piece_state_chunk r lh bh i c f n b runs :
  atomic (apply_piece_state_chunk r lh bh i c f n b runs).
Proof.
  intros m Hlive. apply wp_bind, wp_reads, wp_bind, wp_reject_if; [|done]. by rewrite Hlive.
Qed.
Lemma atomic_finish_manifest : atomic finish_manifest.
Proof. unfold finish_manifest. atomic. branch; run. Qed.
Lemma atomic_manifest r f t c b : atomic (apply_manifest r f t c b).
Proof.
  unfold apply_manifest. atomic. eapply wp_mono; [by apply atomic_finish_manifest|by intros ? m' [? ? ?]|done].
Qed.
Lemma atomic_manifest_chunk r f i c b : atomic (apply_manifest_chunk r f i c b).
Proof.
  unfold apply_manifest_chunk. atomic.
  eapply wp_mono; [by apply atomic_finish_manifest|by intros ? m' [? ? ?]|done].
Qed.
Lemma atomic_protocol_validator r v : atomic (apply_protocol_validator r v).
Proof. unfold apply_protocol_validator. atomic. Qed.
Lemma atomic_whole_verified r f ds : atomic (apply_whole_verified r f ds).
Proof. unfold apply_whole_verified. atomic. Qed.

#[local] Hint Resolve atomic_task_created atomic_options atomic_generation_started
  atomic_layout_committed atomic_layout_chunk atomic_http_strong_validator atomic_http_range_identity
  atomic_lease_started atomic_piece_started atomic_piece_written atomic_lease_committed
  atomic_lease_aborted atomic_piece_verified atomic_piece_failed atomic_piece_durable atomic_retry
  atomic_paused atomic_host_key_state atomic_terminal atomic_complete atomic_metadata_complete
  atomic_clean_shutdown atomic_finalize_intent atomic_finalize_done atomic_piece_state_chunk
  atomic_manifest atomic_manifest_chunk atomic_protocol_validator atomic_whole_verified : core.

Lemma atomic_payload r p : atomic (apply_payload r p).
Proof. destruct p; cbn [apply_payload]; auto; by intros m Hlive. Qed.

(** A live record is applied or leaves the state. *)
Lemma atomic_apply r p : atomic (apply r p).
Proof.
  unfold apply. intros m Hlive. steps; try done. rewrite Hlive. run.
  eapply wp_mono; [by apply atomic_payload| |done]. cbv beta. intros _ m' [Ht Hm Hc].
  branch; run.
Qed.
End atomic.
