(* ===== verification/JournalStatePrefix.v ===== *)
(** * A stopped replay has the state of its accepted prefix *)

From S2P Require Import Prelude Bytes Ids Paths Layout JournalTags Journal PayloadTypes Payload JournalStateTypes JournalState JournalStateLogic JournalStateAtomic.
Open Scope list_scope.

Lemma upto_cons {A} n (x : A) l : 0 < n -> upto n (x :: l) = x :: upto (n - 1) l.
Proof.
  intros Hn. unfold upto. replace (N.to_nat n) with (S (N.to_nat (n - 1))) by lia. done.
Qed.

Lemma skip_upto {A} a n (l : list A) : skip a (upto (a + n) l) = upto n (skip a l).
Proof. unfold skip, upto. rewrite skipn_firstn_comm. f_equal. lia. Qed.

Lemma lookup_upto {A} n i (l : list A) : i < n -> upto n l !! N.to_nat i = l !! N.to_nat i.
Proof. intros Hi. unfold upto. apply lookup_take_lt. lia. Qed.

Section prefix.
Context `{Unicode, Digests, PersistedOptionPolicy}.

(** A stop at the [k]-th record leaves the state that the records before it
    build without a stop. *)
Lemma process_stop rs : forall m a rel e i err m',
  sm_checkpoint_state m = false ->
  process_records m rs a rel e = (Err (i, err), m') ->
  exists k m'', i = rel + k /\ k < blen rs
    /\ process_records m (upto k rs) a rel e = (Ok tt, m'') /\ sm_state m' = sm_state m''.
Proof.
  induction rs as [|r rs IH]; intros m a rel e i err m' Hlive; [done|].
  assert (forall er, (Err (A := unit) (rel, er), m) = (Err (i, err), m') ->
    exists k m'', i = rel + k /\ k < blen (r :: rs)
    /\ process_records m (upto k (r :: rs)) a rel e = (Ok tt, m'') /\ sm_state m' = sm_state m'') as Hhere.
  { intros er [= <- <- <-]. exists 0, m. rewrite blen_cons. split_and!; [lia..|done|done]. }
  cbn [process_records]. destruct (negb (jr_sequence r =? e)) eqn:Es; [by apply Hhere|].
  destruct (_ <=? a) eqn:El; [by apply Hhere|].
  destruct (decode_payload r) as [p|] eqn:Ed; [|by apply Hhere].
  pose proof (atomic_apply r p m Hlive) as Hw. unfold wp in Hw.
  destruct (apply r p m) as [[[]|er] m1] eqn:Ea.
  - intros Hp. apply IH in Hp as (k & m'' & -> & Hk & Hp & Hst); [|cbn; by rewrite (fr_checkpoint _ _ Hw)].
    exists (k + 1), m''. rewrite blen_cons, upto_cons, N.add_sub by lia.
    split_and!; [lia..| |done]. cbn [process_records]. by rewrite Es, El, Ed, Ea.
  - intros [= <- <- <-]. exists 0, m. rewrite blen_cons. split_and!; [lia..|done|done].
Qed.

Lemma live_prefix records task limits :
  let rp := recover_live records task limits in
  match sr_stop rp with
  | JournalStateStop.InvalidRecord i _ _ =>
    sr_accepted_records rp = i /\ i < blen records
    /\ exists m, process_records (SemanticMachine_new task limits false None) (upto i records) 0 0 1 = (Ok tt, m)
         /\ sr_state rp = sm_state m
  | _ => sr_accepted_records rp = blen records
  end.
Proof.
  intros rp. unfold rp, recover_live. clear rp.
  destruct (process_records _ records 0 0 1) as [[[]|[i err]] m'] eqn:E.
  - cbn. destruct (sm_pending_manifest m'); [done|]. by destruct (sm_pending_layout m').
  - apply process_stop in E as (k & m'' & -> & Hk & Hp & Hst); [|done]. rewrite N.add_0_l in *.
    cbn. split_and!; [done|done|]. by exists m''.
Qed.

(** The envelope depends on the records up to its end. *)
Lemma envelope_prefix records first limits n ei ck :
  checkpoint_envelope records first limits = Ok (ei, ck) -> ei < n ->
  ei < blen records /\ checkpoint_envelope (upto n records) first limits = Ok (ei, ck).
Proof.
  unfold checkpoint_envelope. intros E Hn.
  destruct (negb (jr_sequence first =? 1)); [done|].
  destruct (decode_payload first) as [[]|]; try done.
  destruct (N.leb_spec (blen records) (1 + state_record_count)) as [|Hlen]; [done|].
  destruct (jl_max_records limits <=? 1 + state_record_count); [done|].
  destruct (sequence_break 1 (slice 1 (1 + state_record_count) records)) as [[]|] eqn:Eb; [done|].
  destruct (calculate_checkpoint_state_hash _) as [h|] eqn:Eh; [|done].
  destruct (records !! N.to_nat (1 + state_record_count)) as [la|] eqn:El; [|done].
  assert (ei = 1 + state_record_count) as ->.
  { destruct (decode_payload la) as [[]|]; try done. by repeat (case_match; try done); simplify_eq. }
  split; [done|]. rewrite (proj2 (N.leb_gt _ _)) by (rewrite blen_upto; lia).
  rewrite !slice_upto by lia. rewrite Eb, Eh, lookup_upto, El by done.
  destruct (decode_payload la) as [[]|]; try done. by repeat (case_match; try done).
Qed.

(** More records after the envelope do not change it. *)
Lemma envelope_extend records suffix first limits ei ck :
  checkpoint_envelope records first limits = Ok (ei, ck) ->
  checkpoint_envelope (records ++ suffix) first limits = Ok (ei, ck) /\ ei < blen records.
Proof.
  unfold checkpoint_envelope. intros E.
  destruct (negb (jr_sequence first =? 1)); [done|].
  destruct (decode_payload first) as [[]|]; try done.
  destruct (N.leb_spec (blen records) (1 + state_record_count)) as [|Hlen]; [done|].
  rewrite (proj2 (N.leb_gt _ _)) by (rewrite blen_app; lia).
  destruct (jl_max_records limits <=? 1 + state_record_count); [done|].
  rewrite !slice_app_l by lia. rewrite lookup_app_l by (unfold blen in Hlen; lia).
  assert (forall i, i < blen records -> sequence_at (records ++ suffix) i = sequence_at records i) as Hs.
  { intros i Hi. unfold sequence_at. rewrite lookup_app_l by (unfold blen in Hi; lia). done. }
  destruct (sequence_break _ _) as [[]|]; [done|]. destruct (calculate_checkpoint_state_hash _); [|done].
  destruct (records !! _) as [la|]; [|done]. destruct (decode_payload la) as [[]|]; try done.
  repeat (case_match; try done); simplify_eq. done.
Qed.

Lemma machine_prefix records first task limits n ei ck m :
  checkpoint_machine records first task limits ei ck = Ok m -> ei < n -> 0 < ei ->
  checkpoint_machine (upto n records) first task limits ei ck = Ok m
  /\ sm_checkpoint_state m = false.
Proof.
  unfold checkpoint_machine. intros E Hn He. rewrite slice_upto by lia.
  destruct (process_records _ _ 1 0 2) as [[[]|[]] m']; [|done].
  destruct (sm_state m') as [s|]; [|done]. destruct (_ || _); [done|]. destruct (negb _); [done|].
  split; [done|]. by injection E as <-.
Qed.

Lemma envelope_rejected records first limits rp :
  checkpoint_envelope records first limits = Err rp -> sr_accepted_records rp = 0 /\ sr_state rp = None.
Proof.
  unfold checkpoint_envelope. intros E. by repeat (case_match; simplify_eq/=; try done).
Qed.

Lemma envelope_positive records first limits ei ck :
  checkpoint_envelope records first limits = Ok (ei, ck) -> 0 < ei.
Proof.
  unfold checkpoint_envelope. intros E. repeat (case_match; simplify_eq/=; try done); lia.
Qed.

Lemma machine_rejected records first task limits ei ck rp :
  checkpoint_machine records first task limits ei ck = Err rp ->
  sr_accepted_records rp = 0 /\ sr_state rp = None.
Proof.
  unfold checkpoint_machine. intros E. by repeat (case_match; simplify_eq/=; try done).
Qed.

(** What a replay leaves: everything accepted, nothing of a bad checkpoint, or
    the state of the records before the one that stopped it. *)
Definition prefix_state (records : list JournalRecord) (task : TaskId) (limits : JournalStateLimits)
    (rp : JournalStateReplay) : Prop :=
  exists m, sr_state (recover_journal_state (upto (sr_accepted_records rp) records) task limits)
            = sm_state m
    /\ sr_state rp = sm_state m
    /\ (forall i s e, sr_stop (recover_journal_state (upto (sr_accepted_records rp) records) task limits)
                      <> JournalStateStop.InvalidRecord i s e).

Lemma finish_not_invalid m n i s e : sr_stop (finish_replay m n) <> JournalStateStop.InvalidRecord i s e.
Proof. cbn. destruct (sm_pending_manifest m); [done|]. by destruct (sm_pending_layout m). Qed.

Lemma recover_live_prefix first rest task limits i s e :
  jr_record_type first <> RecordType.CheckpointStart ->
  sr_stop (recover_live (first :: rest) task limits) = JournalStateStop.InvalidRecord i s e ->
  prefix_state (first :: rest) task limits (recover_live (first :: rest) task limits).
Proof.
  intros Ht Es. pose proof (live_prefix (first :: rest) task limits) as Hp. cbv zeta in Hp.
  rewrite Es in Hp. destruct Hp as (Ea & Hi & m & Hm & Hst). unfold prefix_state. rewrite Ea, Hst.
  destruct (N.eq_dec i 0) as [->|Hne].
  - injection Hm as <-. by exists (SemanticMachine_new task limits false None).
  - exists m. rewrite upto_cons in * by lia. cbn [recover_journal_state].
    rewrite bool_decide_eq_false_2 by done. unfold recover_live. rewrite Hm.
    split_and!; [done..|]. apply finish_not_invalid.
Qed.

Lemma recover_checkpoint_prefix first rest task limits i s e :
  jr_record_type first = RecordType.CheckpointStart ->
  sr_stop (recover_checkpoint (first :: rest) first task limits) = JournalStateStop.InvalidRecord i s e ->
  prefix_state (first :: rest) task limits (recover_checkpoint (first :: rest) first task limits).
Proof.
  intros Ht. unfold recover_checkpoint at 1 2. set (records := first :: rest).
  destruct (checkpoint_envelope records first limits) as [[ei ck]|rp] eqn:Ee; cbn [mbind result_bind fst snd].
  2: { intros _. unfold prefix_state.
       assert (sr_accepted_records rp = 0 /\ sr_state rp = None) as [-> ->] by (by eapply envelope_rejected).
       by exists (SemanticMachine_new task limits false None). }
  destruct (checkpoint_machine records first task limits ei ck) as [m|rp] eqn:Em; cbn [mbind result_bind].
  2: { intros _. unfold prefix_state.
       assert (sr_accepted_records rp = 0 /\ sr_state rp = None) as [-> ->] by (by eapply machine_rejected).
       by exists (SemanticMachine_new task limits false None). }
  destruct (process_records m (skip (ei + 1) records) (ei + 1) 0 _) as [[[]|[rel er]] m'] eqn:Ep.
  { intros Es. by apply finish_not_invalid in Es. }
  intros _. destruct (envelope_prefix records first limits (ei + 1 + rel) ei ck Ee ltac:(lia)) as [Hei Ee'].
  assert (0 < ei) as Hpos by (by eapply envelope_positive).
  destruct (machine_prefix _ _ _ _ (ei + 1 + rel) _ _ _ Em ltac:(lia) Hpos) as [Em' Hlive].
  apply process_stop in Ep as (k & m'' & Ek & Hk & Hp & Hst); [|done]. rewrite N.add_0_l in Ek. subst k.
  unfold prefix_state. cbn [invalid_replay sr_accepted_records sr_state]. exists m''.
  set (rs := upto (ei + 1 + rel) records) in *.
  assert (recover_journal_state rs task limits = finish_replay m'' (blen rs)) as ->.
  { unfold rs at 1, records. rewrite upto_cons by lia. cbn [recover_journal_state].
    rewrite bool_decide_eq_true_2 by done. rewrite <- (upto_cons _ first rest) by lia.
    fold records. fold rs. unfold recover_checkpoint. rewrite Ee'. cbn [mbind result_bind fst snd].
    rewrite Em'. cbn [mbind result_bind]. unfold rs at 1. rewrite skip_upto.
    replace (sequence_at rs ei) with (sequence_at records ei); [by rewrite Hp|].
    unfold sequence_at, rs. by rewrite lookup_upto by lia. }
  split_and!; [done..|]. apply finish_not_invalid.
Qed.
End prefix.
