(* ===== verification/PieceEvidence.v ===== *)
(** * What the evidence of a piece proves

    The tiling check of [contributors_for_piece] accepts exactly covers in which
    every byte of the piece comes from one lease, and the bitmap of a checkpoint
    chunk counts the pieces of its evidence runs. *)

From S2P Require Import Prelude Bytes Ids Journal PayloadTypes Payload JournalStateTypes JournalState JournalStateLogic.
From Stdlib Require Import Init.Byte Strings.Byte.
Open Scope list_scope.

(** ** Covers *)

Definition in_span (x : N) (s : PersistedSpan) : Prop := sp_offset s <= x < span_end s.
#[global] Instance in_span_dec x s : Decision (in_span x s).
Proof. unfold in_span. apply _. Defined.

(** Every byte of the span is in exactly one contributor's span. *)
Definition covers (contributors : list JournalContributor) (span : PersistedSpan) : Prop :=
  forall x, in_span x span -> length (filter (fun c => in_span x (jc_span c)) contributors) = 1%nat.

Lemma filter_none {A} (P : A -> Prop) `{forall x, Decision (P x)} l :
  Forall (fun x => ~ P x) l -> filter P l = [].
Proof. induction 1 as [|x l Hx Hl IH]; [done|]. by rewrite filter_cons_False. Qed.

Lemma tile_bounds spans : forall next stop,
  tile next spans = Some stop -> next <= stop /\ Forall (fun p => next <= p.1) spans.
Proof.
  induction spans as [|[a b] spans IH]; intros next stop; cbn [tile].
  - intros [= <-]. by split.
  - destruct (N.eqb_spec a next) as [->|]; [|done]. destruct (N.leb_spec b next) as [|Hb]; [done|].
    cbn [negb orb]. intros [Hn HF]%IH. split; [lia|]. constructor; [done|].
    eapply Forall_impl; [exact HF|]. cbv beta. lia.
Qed.

Lemma tile_exact spans : forall next stop x,
  tile next spans = Some stop -> next <= x < stop ->
  length (filter (fun p : N * N => p.1 <= x < p.2) spans) = 1%nat.
Proof.
  induction spans as [|[a b] spans IH]; intros next stop x; cbn [tile].
  - intros [= <-]. lia.
  - destruct (N.eqb_spec a next) as [->|]; [|done]. destruct (N.leb_spec b next) as [|Hb]; [done|].
    cbn [negb orb]. intros Ht Hx. destruct (N.lt_ge_cases x b) as [Hxb|Hxb].
    + rewrite filter_cons_True by (cbn; lia). cbn [length]. rewrite filter_none; [done|].
      apply tile_bounds in Ht as [_ HF]. eapply Forall_impl; [exact HF|]. cbv beta. lia.
    + rewrite filter_cons_False by (cbn; lia). apply (IH b stop x Ht). lia.
Qed.

Lemma length_filter_fmap {A B} (P : B -> Prop) `{forall x, Decision (P x)} (f : A -> B) l :
  length (filter P (f <$> l)) = length (filter (fun a => P (f a)) l).
Proof.
  induction l as [|a l IH]; [done|]. rewrite fmap_cons, !filter_cons.
  by destruct (decide (P (f a))); simpl; rewrite ?IH.
Qed.

Lemma tile_covers piece contributors :
  tile (sp_offset piece) (merge_sort pair_le (clip piece <$> contributors)) = Some (span_end piece) ->
  covers contributors piece.
Proof.
  intros Ht x Hx. pose proof (tile_exact _ _ _ x Ht Hx) as Hl.
  rewrite merge_sort_Permutation, length_filter_fmap in Hl. rewrite <- Hl.
  f_equal. apply list_filter_iff. intros c. unfold in_span, clip in *. cbn. lia.
Qed.

Lemma contributors_of_committed m p sp c :
  c ∈ contributors_of m p sp ->
  sm_committed_leases m !! jc_lease_id c = Some (mkLeaseState (jc_span c) (jc_validator_fingerprint c)).
Proof.
  unfold contributors_of. intros ([i l] & Hin & Hc)%list_elem_of_omap. destruct (_ && _); [|done].
  injection Hc as <-. apply elem_of_btree_entries in Hin. cbn. rewrite Hin. by destruct l.
Qed.

Lemma wp_contributors_for_piece p sp Q E m :
  (covers (contributors_of m p sp) sp -> contributors_of m p sp <> [] -> Q (contributors_of m p sp) m) ->
  E m -> wp (contributors_for_piece p sp) Q E m.
Proof.
  intros HQ HE. unfold contributors_for_piece. steps. apply HQ.
  - apply tile_covers. by apply negb_false_iff, bool_decide_eq_true in Hb0.
  - intros En. rewrite En in Hb. done.
Qed.

(** ** Bitmaps *)

Definition all_bytes : list byte := byte_of <$> (N.of_nat <$> seq 0 256).

Lemma all_bytes_complete b : b ∈ all_bytes.
Proof.
  unfold all_bytes. apply list_elem_of_fmap. exists (byte_val b). split; [by rewrite byte_of_val|].
  apply list_elem_of_fmap. exists (N.to_nat (byte_val b)). pose proof (byte_val_lt b).
  split; [lia|]. apply elem_of_seq. lia.
Qed.

Definition bit_adds_one (b : byte) (k : N) : bool :=
  negb (N.land (byte_val b) (N.shiftl 1 k) =? 0)
  || (count_ones (byte_of (N.lor (byte_val b) (N.shiftl 1 k))) =? count_ones b + 1).

Lemma bits_add_one : forallb (fun b => forallb (bit_adds_one b) [0; 1; 2; 3; 4; 5; 6; 7]) all_bytes = true.
Proof. vm_compute. reflexivity. Qed.

Lemma count_ones_set b k :
  k < 8 -> N.land (byte_val b) (N.shiftl 1 k) = 0 ->
  count_ones (byte_of (N.lor (byte_val b) (N.shiftl 1 k))) = count_ones b + 1.
Proof.
  intros Hk Hz. pose proof bits_add_one as Hall. rewrite forallb_forall in Hall.
  pose proof (Hall b (proj1 (list_elem_of_In _ _) (all_bytes_complete b))) as Hb. rewrite forallb_forall in Hb.
  assert (bit_adds_one b k = true) as Hone.
  { apply Hb. assert (k = 0 \/ k = 1 \/ k = 2 \/ k = 3 \/ k = 4 \/ k = 5 \/ k = 6 \/ k = 7) by lia.
    simpl. naive_solver. }
  unfold bit_adds_one in Hone. rewrite Hz in Hone. by apply N.eqb_eq in Hone.
Qed.

Lemma bitmap_ones_cons b bitmap : bitmap_ones (b :: bitmap) = count_ones b + bitmap_ones bitmap.
Proof. done. Qed.

Lemma bitmap_ones_insert bitmap i b x :
  bitmap !! i = Some b -> bitmap_ones (<[i := x]> bitmap) + count_ones b = bitmap_ones bitmap + count_ones x.
Proof.
  revert i. induction bitmap as [|c bitmap IH]; intros [|i]; [done..| |].
  - intros [= ->]. change (<[0%nat := x]> (b :: bitmap)) with (x :: bitmap). rewrite !bitmap_ones_cons. lia.
  - intros Hi%IH. change (<[S i := x]> (c :: bitmap)) with (c :: <[i := x]> bitmap).
    rewrite !bitmap_ones_cons. lia.
Qed.

Lemma bitmap_get_range bitmap i :
  bitmap_get bitmap i = true -> (N.to_nat (i / 8) < length bitmap)%nat.
Proof.
  unfold bitmap_get, bitmap_byte. destruct (bitmap !! N.to_nat (i / 8)) eqn:E; [|done].
  intros _. by eapply lookup_lt_Some.
Qed.

Lemma bitmap_set_ones bitmap i :
  (N.to_nat (i / 8) < length bitmap)%nat -> bitmap_get bitmap i = false ->
  bitmap_ones (bitmap_set bitmap i) = bitmap_ones bitmap + 1.
Proof.
  intros [b Hb]%lookup_lt_is_Some_2. unfold bitmap_get, bitmap_set, bitmap_byte. rewrite Hb. cbn [default id].
  intros Hz%negb_false_iff%N.eqb_eq.
  pose proof (bitmap_ones_insert bitmap _ b
    (byte_of (N.lor (byte_val b) (N.shiftl 1 (i mod 8)))) Hb) as Hi.
  rewrite count_ones_set in Hi; [lia|by apply N.mod_lt|done].
Qed.

Lemma account_pieces_ones n : forall durable acc piece acc',
  length acc = length durable -> account_pieces n durable acc piece = Ok acc' ->
  bitmap_ones acc' = bitmap_ones acc + N.of_nat n /\ length acc' = length durable.
Proof.
  induction n as [|n IH]; intros durable acc piece acc' Hl; cbn [account_pieces].
  - intros [= <-]. split; [lia|done].
  - destruct (bitmap_get durable piece) eqn:Ed; [|done]. destruct (bitmap_get acc piece) eqn:Ea; [done|].
    cbn [negb orb]. intros [H1 H2]%IH; [|unfold bitmap_set; by rewrite length_insert].
    apply bitmap_get_range in Ed. rewrite bitmap_set_ones in H1 by (done || lia). split; [lia|done].
Qed.

Definition run_total (runs : list DurableEvidenceRun) : N :=
  foldr (fun r n => er_piece_count r + n) 0 runs.

Lemma account_runs_ones runs : forall covered durable acc prev_end prev acc',
  length acc = length durable -> account_runs runs covered durable acc prev_end prev = Ok acc' ->
  bitmap_ones acc' = bitmap_ones acc + run_total runs.
Proof.
  induction runs as [|r runs IH]; intros covered durable acc prev_end prev acc' Hl; cbn [account_runs].
  - intros [= <-]. cbn. lia.
  - cbv zeta. destruct (_ || _); [done|]. destruct (_ && _); [done|].
    intros (acc1 & [H1 Hl1]%account_pieces_ones & H2%IH)%bind_Ok; [|done..].
    unfold run_total in *. cbn. lia.
Qed.

Lemma bitmap_ones_zero n : bitmap_ones (repeat x00 n) = 0.
Proof. induction n as [|n IH]; [done|]. cbn [repeat]. by rewrite bitmap_ones_cons, IH. Qed.

(** A valid chunk's bitmap has one bit for each piece of its runs. *)
Lemma chunk_ones i c f n bitmap runs :
  validate_piece_state_chunk i c f n bitmap runs = Ok tt -> run_total runs = bitmap_ones bitmap.
Proof.
  unfold validate_piece_state_chunk. destruct (_ || _); [done|]. destruct (_ || _); [done|].
  destruct (is_none _); [done|]. cbv zeta. case_bool_decide as Hb; [|done]. cbn [negb orb].
  destruct (negb (bitmap_get bitmap 0)); [done|]. destruct (_ && _); [done|]. destruct (_ <? _); [done|].
  intros (acc & Ha & E)%bind_Ok. case_bool_decide; [subst acc|done].
  apply account_runs_ones in Ha; [|rewrite repeat_length, <- Hb; unfold blen; lia].
  rewrite bitmap_ones_zero in Ha. lia.
Qed.
