(* ===== verification/JournalStateInv.v ===== *)
(** * The invariant of the semantic machine

    What a machine that accepted the records [hist] satisfies: its durable pieces
    are proved by those records and lie on the layout, its collections are within
    the limits, its finalizations match the layout, and its option snapshots have
    their hashes.  The invariant is stated on the parts it depends on, so a write
    to another field keeps it by computation. *)

From S2P Require Import Prelude Bytes Ids Utf8 Paths RootBinding Layout JournalTags Journal PayloadTypes MetadataExpansion Payload PayloadExact Verification JournalStateTypes JournalState JournalStateLogic JournalStateAtomic PieceEvidence.
Open Scope list_scope.

(** The size of a map after an insertion. *)
Lemma size_insert_le `{Countable K} {A} (m : gmap K A) k x n :
  N.of_nat (size m) < n -> N.of_nat (size (<[k := x]> m)) <= n.
Proof. rewrite map_size_insert. destruct (m !! k); cbn; lia. Qed.
Lemma size_insert_present `{Countable K} {A} (m : gmap K A) k x n :
  is_Some (m !! k) -> N.of_nat (size m) <= n -> N.of_nat (size (<[k := x]> m)) <= n.
Proof. intros [y Hy]. by rewrite map_size_insert, Hy. Qed.

Section invariant.
Context `{Unicode, Digests, PersistedOptionPolicy}.

(** A payload the history holds, in a generation. *)
Definition attests (hist : list JournalRecord) (g : Generation) (p : JournalPayload) : Prop :=
  exists r, r ∈ hist /\ jr_generation r = g /\ decode_payload r = Ok p.

(** The history verified the piece, and the leases it committed in that
    generation cover it byte by byte, with the recorded hashes. *)
Definition proven (hist : list JournalRecord) (p : PieceId) (sp : PersistedSpan)
    (contributors validators : JournalHash) (digest : JournalDigest) : Prop :=
  exists g cs,
    attests hist g (JournalPayload.PieceVerified p sp contributors digest)
    /\ Forall (fun c => exists d, attests hist g (JournalPayload.LeaseCommitted (jc_lease_id c)
                                                   (jc_span c) (jc_validator_fingerprint c) d)) cs
    /\ covers cs sp
    /\ calculate_contributors_hash cs = Ok contributors
    /\ calculate_validator_set_fingerprint cs = Ok validators.

(** Where a durable piece may come from. *)
Definition origin_ok (hist : list JournalRecord) (durability : DurabilityMode)
    (d : RecoveredDurablePiece) : Prop :=
  match dp_origin d with
  | DurablePieceOrigin.Live _ DataBarrierKind.RecoveryReadback =>
    exists previous new digest, dp_digest d = Some digest
      /\ dp_validator_set_fingerprint d = calculate_rebind_validator_set_fingerprint previous new digest
  | DurablePieceOrigin.Live contributors barrier =>
    barrier_matches barrier durability = true
    /\ exists digest, (dp_digest d = None \/ dp_digest d = Some digest)
         /\ proven hist (dp_piece_id d) (dp_piece_span d) contributors
              (dp_validator_set_fingerprint d) digest
  | DurablePieceOrigin.Checkpoint =>
    exists g lh bh i c first n bitmap runs r,
      attests hist g (JournalPayload.PieceStateChunk lh bh i c first n bitmap runs)
      /\ r ∈ runs /\ dp_validator_set_fingerprint d = er_validator_set_fingerprint r
  end.

(** The history commits a layout of these lengths under the hash. *)
Definition announced (hist : list JournalRecord) (layout_hash : JournalHash) (total_length : option N)
    (piece_length : N) : Prop :=
  exists g bh display identity count chunks files, attests hist g
    (JournalPayload.LayoutCommitted layout_hash bh display identity total_length piece_length count chunks
       files).

(** A layout of the history, checked against its hashes. *)
Record admitted (hist : list JournalRecord) (l : RecoveredLayout) : Prop := {
  ad_new : exists task g rb files, FileLayout_new task g rb files (fl_total_length (ly_layout l))
             (fl_piece_length (ly_layout l)) = Ok (ly_layout l);
  ad_layout_hash : fl_layout_hash (ly_layout l) = ly_layout_hash l;
  ad_binding_hash : rb_hash (fl_root_binding (ly_layout l)) = ly_root_binding_hash l;
  ad_announced : announced hist (ly_layout_hash l) (fl_total_length (ly_layout l))
                   (fl_piece_length (ly_layout l));
}.

(** A piece lies on a layout: it is a piece of one with the same hash. *)
Definition on_layout (hist : list JournalRecord) (layout : option RecoveredLayout)
    (d : RecoveredDurablePiece) : Prop :=
  exists l l0, layout = Some l /\ admitted hist l0 /\ ly_layout_hash l0 = ly_layout_hash l
    /\ expected_piece_span (ly_layout l0) (dp_piece_id d) = Ok (dp_piece_span d).

Definition pieces_ok (hist : list JournalRecord) (durability : DurabilityMode)
    (layout : option RecoveredLayout) (pieces : gmap PieceId RecoveredDurablePiece) : Prop :=
  forall p d, pieces !! p = Some d -> 
    dp_piece_id d = p /\ on_layout hist layout d /\ origin_ok hist durability d.

(** Finalizations are of selected files of the layout; only the last may be open. *)
Definition finalizations_ok (layout : option RecoveredLayout)
    (finalizations : gmap FileId RecoveredFinalization) : Prop :=
  forall f z, finalizations !! f = Some z ->
    fz_file_id z = f
    /\ (exists l entry, layout = Some l /\ fz_layout_hash z = ly_layout_hash l
          /\ fz_root_binding_hash z = ly_root_binding_hash l
          /\ fl_files (ly_layout l) !! N.to_nat f = Some entry /\ entry_matches entry z = true)
    /\ (fz_done z = false -> forall f' z', finalizations !! f' = Some z' -> f' <= f).

Definition snapshot_ok (o : option RecoveredOptionSnapshot) : Prop :=
  forall s, o = Some s -> ro_snapshot_hash s = snapshot_hash (ro_options s).

Record state_ok (hist : list JournalRecord) (limits : JournalStateLimits)
    (s : RecoveredJournalState) : Prop := {
  so_pieces : pieces_ok hist (js_durability s) (js_layout s) (js_durable_pieces s);
  so_layout : forall l, js_layout s = Some l -> admitted hist l;
  so_finalizations : finalizations_ok (js_layout s) (js_finalizations s);
  so_current : snapshot_ok (js_current_options s);
  so_pending : snapshot_ok (js_pending_options s);
  so_retries : forall k t, js_retry_states s !! k = Some t -> k = (RetryScope_number (rs_scope t), rs_scope_id t);
  so_validators : forall k v, js_protocol_validators s !! k = Some v ->
    k = pv_source v /\ ProtocolValidator_validate v = true;
  so_identity : js_http_strong_validator s = None \/ js_http_range_identity s = None;
  so_manifest : forall v, js_verification_manifest s = Some v -> manifest_valid v;
  so_piece_limit : N.of_nat (size (js_durable_pieces s)) <= jl_max_durable_pieces limits;
  so_retry_limit : N.of_nat (size (js_retry_states s)) <= jl_max_retry_states limits;
  so_final_limit : N.of_nat (size (js_finalizations s)) <= jl_max_finalizations limits;
  so_validator_limit : N.of_nat (size (js_protocol_validators s)) <= 1024;
}.

Definition committed_ok (hist : list JournalRecord) (g : Generation) (leases : gmap LeaseId LeaseState)
    : Prop :=
  forall i l, leases !! i = Some l -> exists d,
    attests hist g (JournalPayload.LeaseCommitted i (lz_span l) (lz_validator_fingerprint l) d).

Definition verified_ok (hist : list JournalRecord) (pieces : gmap PieceId VerifiedPiece) : Prop :=
  forall p v, pieces !! p = Some v ->
    proven hist p (vp_span v) (vp_contributors_hash v) (vp_validator_set_fingerprint v) (vp_digest v).

Definition pending_ok (hist : list JournalRecord) (limits : JournalStateLimits)
    (durability : DurabilityMode) (pl : PendingLayout) : Prop :=
  pieces_ok hist durability (pl_previous_layout pl) (pl_previous_durable_pieces pl)
  /\ (forall l, pl_previous_layout pl = Some l -> admitted hist l)
  /\ announced hist (pl_layout_hash pl) (pl_total_length pl) (pl_piece_length pl)
  /\ N.of_nat (size (pl_previous_durable_pieces pl)) <= jl_max_durable_pieces limits.

(** The machine: nothing before the task exists, then its parts agree. *)
Definition machine_ok (limits : JournalStateLimits) (hist : list JournalRecord) (m : SemanticMachine)
    : Prop :=
  sm_limits m = limits /\
  match sm_state m with
  | None => sm_committed_leases m = ∅ /\ sm_verified_pieces m = ∅ /\ sm_pending_layout m = None
  | Some s =>
    state_ok hist limits s
    /\ committed_ok hist (js_generation s) (sm_committed_leases m)
    /\ verified_ok hist (sm_verified_pieces m)
    /\ (forall pl, sm_pending_layout m = Some pl -> pending_ok hist limits (js_durability s) pl)
  end.

(** ** More history keeps the invariant *)

Lemma attests_mono hist hist' g p : hist ⊆ hist' -> attests hist g p -> attests hist' g p.
Proof. intros Hs (r & Hin & Hg & Hd). exists r. split_and!; [by apply Hs|done..]. Qed.

Lemma attests_last hist r p : decode_payload r = Ok p -> attests (hist ++ [r]) (jr_generation r) p.
Proof. intros Hd. exists r. split_and!; [|done..]. apply elem_of_app. right. by apply list_elem_of_singleton. Qed.

Lemma proven_mono hist hist' p sp c v d :
  hist ⊆ hist' -> proven hist p sp c v d -> proven hist' p sp c v d.
Proof.
  intros Hs (g & cs & Ha & HF & Hrest). exists g, cs. split_and!; [by eapply attests_mono| |apply Hrest..].
  eapply Forall_impl; [exact HF|]. intros x [dg Hx]. exists dg. by eapply attests_mono.
Qed.

Lemma origin_mono hist hist' du d : hist ⊆ hist' -> origin_ok hist du d -> origin_ok hist' du d.
Proof.
  unfold origin_ok. intros Hs. destruct (dp_origin d) as [c b|].
  - destruct b; try done; intros (Hb & dg & Hd & Hp); (split; [done|]); exists dg;
      (split; [done|]); by eapply proven_mono.
  - intros (g & lh & bh & i & c & f & n & bm & runs & rn & Ha & Hr).
    exists g, lh, bh, i, c, f, n, bm, runs, rn. split; [by eapply attests_mono|done].
Qed.

Lemma announced_mono hist hist' lh t p : hist ⊆ hist' -> announced hist lh t p -> announced hist' lh t p.
Proof. intros Hs (g & bh & d & i & n & c & fs & Ha). exists g, bh, d, i, n, c, fs. by eapply attests_mono. Qed.

Lemma admitted_mono hist hist' l : hist ⊆ hist' -> admitted hist l -> admitted hist' l.
Proof. intros Hs []. split; try done. by eapply announced_mono. Qed.

Lemma pieces_mono hist hist' du l ps : hist ⊆ hist' -> pieces_ok hist du l ps -> pieces_ok hist' du l ps.
Proof.
  intros Hs Hp p d Hd. destruct (Hp p d Hd) as (Hk & (l1 & l0 & E1 & Ha & E2 & E3) & Ho).
  split_and!; [done| |by eapply origin_mono]. exists l1, l0. split_and!; try done. by eapply admitted_mono.
Qed.

Lemma state_mono hist hist' limits s : hist ⊆ hist' -> state_ok hist limits s -> state_ok hist' limits s.
Proof. intros Hs []. split; try done; eauto using pieces_mono, admitted_mono. Qed.

Lemma machine_mono limits hist hist' m :
  hist ⊆ hist' -> machine_ok limits hist m -> machine_ok limits hist' m.
Proof.
  unfold machine_ok. intros Hh [Hlim Hm]. split; [done|]. destruct (sm_state m) as [s|]; [|done].
  destruct Hm as (Hs & Hc & Hv & Hpl). split_and!.
  - by eapply state_mono.
  - intros i l Hi. destruct (Hc i l Hi) as [d Hd]. exists d. by eapply attests_mono.
  - intros p v Hp. by eapply proven_mono, Hv.
  - intros pl Hp. destruct (Hpl pl Hp) as (H2 & H3 & H4 & H5).
    split_and!; [by eapply pieces_mono|intros; eapply admitted_mono; eauto|by eapply announced_mono|done].
Qed.

(** ** Handlers keep the invariant *)

Definition keeps (limits : JournalStateLimits) (hist : list JournalRecord) (h : Sem unit) : Prop :=
  forall m, machine_ok limits hist m -> wp h (fun _ m' => machine_ok limits hist m') (fun _ => True) m.

Record parts_ok (limits : JournalStateLimits) (hist : list JournalRecord) (m : SemanticMachine)
    (s : RecoveredJournalState) : Prop := {
  po_limits : sm_limits m = limits;
  po_state : state_ok hist limits s;
  po_committed : committed_ok hist (js_generation s) (sm_committed_leases m);
  po_verified : verified_ok hist (sm_verified_pieces m);
  po_pending : forall pl, sm_pending_layout m = Some pl ->
    pending_ok hist limits (js_durability s) pl;
}.

Lemma machine_parts limits hist m s :
  machine_ok limits hist m -> sm_state m = Some s -> parts_ok limits hist m s.
Proof. unfold machine_ok. intros Hm Hs. rewrite Hs in Hm. by destruct Hm as (? & ? & ? & ? & ?). Qed.

Lemma parts_machine limits hist m s :
  sm_state m = Some s -> parts_ok limits hist m s -> machine_ok limits hist m.
Proof. unfold machine_ok. intros Hs [? ? ? ? ?]. by rewrite Hs. Qed.
End invariant.

(** Runs a handler whose failures need nothing. *)
Ltac inv_steps := repeat (step; try exact I); same_state.

(** The state part after a write, with the parts that did not change. *)
Ltac state_kept :=
  lazymatch goal with
  | Hm : machine_ok ?limits ?hist ?m, Hs : sm_state ?m = Some ?s |- _ =>
    eapply parts_machine; [cbn; rewrite Hs; reflexivity|];
    destruct (machine_parts _ _ _ _ Hm Hs) as [<- Hso Hco Hve Hpe]; split; cbn; try done;
    lazymatch goal with
    | |- state_ok _ _ _ => destruct Hso; split; cbn; try done
    | _ => idtac
    end
  end.

Section handlers.
Context `{Unicode, Digests, PersistedOptionPolicy}.

Lemma keeps_task_created limits hist r d v : keeps limits hist (apply_task_created r d v).
Proof.
  intros m Hm. unfold apply_task_created. inv_steps. apply is_some_false in Hb.
  unfold machine_ok in Hm. rewrite Hb in Hm. destruct Hm as (Hlim & Hc & Hv & Hp).
  destruct (sm_expected_checkpoint_generation m); inv_steps; (eapply parts_machine; [reflexivity|]);
    (split; cbn; rewrite ?Hc, ?Hv, ?Hp; try done); split; cbn; try done; auto; apply N.le_0_l.
Qed.

Lemma keeps_options limits hist r sc p hash o : keeps limits hist (apply_options r sc p hash o).
Proof.
  intros m Hm. unfold apply_options. inv_steps.
  assert (snapshot_ok (Some (mkRecoveredOptionSnapshot p hash o))) as Hsn.
  { intros x [= <-]. cbn. by apply negb_false_iff, bool_decide_eq_true in Hb. }
  destruct (forbidden_option o); inv_steps. destruct sc; inv_steps; state_kept.
Qed.

Lemma state_ok_no_pieces hist limits s :
  state_ok hist limits s -> state_ok hist limits (s <| js_durable_pieces := ∅ |>).
Proof. intros []. split; try done. apply N.le_0_l. Qed.
Lemma state_ok_no_manifest hist limits s :
  state_ok hist limits s -> state_ok hist limits (s <| js_verification_manifest := None |>).
Proof. intros []. by split. Qed.
Lemma state_ok_no_finalizations hist limits s :
  state_ok hist limits s -> state_ok hist limits (s <| js_finalizations := ∅ |>).
Proof. intros []. split; try done. apply N.le_0_l. Qed.
Lemma state_ok_if hist limits (b : bool) s s' :
  state_ok hist limits s -> state_ok hist limits s' -> state_ok hist limits (if b then s else s').
Proof. by destruct b. Qed.

Lemma retained_retries s (b : bool) :
  (if b then filter (fun '(_, retry) => rs_scope retry = RetryScope.Piece
                       \/ rs_scope retry = RetryScope.Span) (js_retry_states s) else ∅)
  ⊆ js_retry_states s.
Proof. destruct b; [apply map_filter_subseteq|apply map_empty_subseteq]. Qed.

Lemma state_ok_start hist limits s g reason pending :
  state_ok hist limits s -> snapshot_ok (Some pending) ->
  state_ok hist limits (start_generation g reason pending s).
Proof.
  intros Hs Hp. unfold start_generation. cbv zeta.
  set (kept := if (_ && _ : bool) then _ else _). set (s1 := s <| js_generation := _ |>
    <| js_current_options := _ |> <| js_retry_states := kept |> <| js_paused := _ |>
    <| js_host_key_state := _ |> <| js_http_strong_validator := _ |> <| js_http_range_identity := _ |>
    <| js_protocol_validators := _ |> <| js_committed_spans := _ |> <| js_whole_file_verified := _ |>).
  assert (state_ok hist limits s1) as Hs1.
  { pose proof (retained_retries s _ : kept ⊆ js_retry_states s) as Hk. destruct Hs.
    split; cbn; try done; auto.
    - intros k t Ht. eapply so_retries0, lookup_weaken; [exact Ht|exact Hk].
    - pose proof (map_subseteq_size _ _ Hk). lia. }
  clearbody s1. assert (state_ok hist limits (s1 <| js_verification_manifest := None |> <| js_durable_pieces := ∅ |>))
    by (by apply state_ok_no_pieces, state_ok_no_manifest).
  set (s2 := if default false _ then _ else s1). assert (state_ok hist limits s2) as Hs2 by (by apply state_ok_if).
  clearbody s2. assert (state_ok hist limits (s2 <| js_durable_pieces := ∅ |> <| js_finalizations := ∅ |>))
    by (by apply state_ok_no_finalizations, state_ok_no_pieces).
  set (s3 := if reason == _ then _ else s2). assert (state_ok hist limits s3) as [] by (by apply state_ok_if).
  by split.
Qed.

Lemma start_generation_durability g reason pending s :
  js_durability (start_generation g reason pending s) = js_durability s.
Proof.
  unfold start_generation. cbv zeta. set (s1 := s <| js_generation := _ |>).
  change (js_durability s) with (js_durability s1). clearbody s1.
  cbn [js_durability]. repeat (case_match; try reflexivity).
Qed.

Lemma keeps_generation_started limits hist r g reason hash p :
  keeps limits hist (apply_generation_started r g reason hash p).
Proof.
  intros m Hm. unfold apply_generation_started. inv_steps. apply ok_or_Ok in Hr. branch; inv_steps.
  destruct (machine_parts _ _ _ _ Hm Hs) as [Hlim Hso Hco Hve Hpe].
  eapply parts_machine; [cbn; rewrite Hs; reflexivity|].
  assert (state_ok hist limits (s <| js_pending_options := None |>)) as Hso' by (by destruct Hso; split).
  split; [done| |done..|].
  - apply state_ok_start; [done|]. rewrite <- Hr. apply Hso.
  - intros pl Hpl. rewrite start_generation_durability. by apply Hpe.
Qed.

(** ** Layouts *)

Lemma assemble_admitted hist task pl l :
  announced hist (pl_layout_hash pl) (pl_total_length pl) (pl_piece_length pl) ->
  assemble_layout task pl = Ok l -> admitted hist l.
Proof.
  intros Han. unfold assemble_layout. intros (ri & _ & E)%bind_Ok. apply bind_Ok in E as (fs & _ & E).
  apply bind_Ok in E as (rb & _ & E). apply bind_Ok in E as (lay & Hl%map_err_Ok & E).
  case_bool_decide as Eh; [|done]. case_bool_decide as Eb; [|done]. injection E as <-.
  pose proof Hl as (_ & Et & Ep & _)%FileLayout_new_Ok. split; cbn; rewrite ?Et, ?Ep; try done.
  by repeat eexists.
Qed.

Lemma same_evidence_hash l l' :
  has_same_identity_evidence l l' = true -> ly_layout_hash l = ly_layout_hash l'.
Proof.
  unfold has_same_identity_evidence. cbv zeta. rewrite !andb_true_iff.
  intros ((((Hh%bool_decide_eq_true & _) & _) & _) & _). done.
Qed.

(** Pieces of the previous layout stay pieces of one with the same hash. *)
Lemma pieces_ok_retained hist du l previous pieces :
  has_same_identity_evidence previous l = true ->
  pieces_ok hist du (Some previous) pieces -> pieces_ok hist du (Some l) pieces.
Proof.
  intros Hh%same_evidence_hash Hp p d Hd. destruct (Hp p d Hd) as (Hi & (l1 & l0 & [= <-] & H2 & H3 & H4) & Ho).
  split_and!; [done| |done]. exists l, l0. split_and!; [done..| |done]. congruence.
Qed.

Lemma keeps_install limits hist m s l pl pd :
  sm_state m = Some s -> parts_ok limits hist m (s <| js_finalizations := ∅ |>) -> admitted hist l ->
  pieces_ok hist (js_durability s) pl pd -> N.of_nat (size pd) <= jl_max_durable_pieces limits ->
  wp (install_layout l pl pd) (fun _ m' => machine_ok limits hist m') (fun _ => True) m.
Proof.
  intros Hs [Hlim Hso Hco Hve Hpe] Hl Hpd Hsz. eapply wp_install_layout; [done|]. cbv zeta.
  eapply parts_machine; [reflexivity|]. split; cbn; [done| |done..]. destruct Hso. split; cbn; try done; auto.
  - destruct pl as [previous|]; cbn [default fmap option_fmap option_map id]; [|done].
    destruct (has_same_identity_evidence previous l) eqn:Eh; [|done]. by eapply pieces_ok_retained.
  - by intros ? [= <-].
  - destruct (default _ _); [done|]. apply N.le_0_l.
Qed.

(** The state without its layout, before the new one is in place. *)
Lemma parts_no_layout limits hist m s o :
  parts_ok limits hist m s ->
  parts_ok limits hist (m <| sm_state := o |>)
    (s <| js_layout := None |> <| js_durable_pieces := ∅ |> <| js_finalizations := ∅ |>).
Proof. intros [? [] ? ? ?]. split; [done| |done..]. split; cbn; try done; apply N.le_0_l. Qed.

Lemma keeps_layout_committed limits hist r lh bh d i t p f c fs :
  attests hist (jr_generation r) (JournalPayload.LayoutCommitted lh bh d i t p f c fs) ->
  keeps limits hist (apply_layout_committed r lh bh d i t p f c fs).
Proof.
  intros Ha m Hm. unfold apply_layout_committed. inv_steps.
  assert (announced hist lh t p) as Han by (by exists (jr_generation r), bh, d, i, f, c, fs).
  pose proof (machine_parts _ _ _ _ Hm Hs) as Hp. pose proof (po_state _ _ _ _ Hp) as Hso.
  branch; inv_steps.
  - apply (assemble_admitted hist) in Hr; [|done]. eapply wp_take_layout; [done|].
    eapply keeps_install; [reflexivity|by apply parts_no_layout|done|by destruct Hso..].
  - eapply wp_take_layout; [done|]. inv_steps. eapply parts_machine; [reflexivity|].
    destruct (parts_no_layout limits hist m s None Hp) as [Hlim Ha' Hb2 Hc2 Hd2]. split; [done..|].
    intros pl [= <-]. split_and!; [apply Hso..|done|apply Hso].
Qed.

Lemma keeps_layout_chunk limits hist r lh bh i c fs : keeps limits hist (apply_layout_chunk r lh bh i c fs).
Proof.
  intros m Hm. unfold apply_layout_chunk. inv_steps. apply ok_or_Ok in Hr.
  pose proof (machine_parts _ _ _ _ Hm Hs) as Hp. pose proof (po_pending _ _ _ _ Hp _ Hr) as (Hpp & Hpl & Han & Hps).
  destruct Hp as [Hlim Hso Hco Hve Hpe]. branch; inv_steps.
  - unfold finish_layout. inv_steps. apply (assemble_admitted hist) in Hr0; [|done].
    eapply keeps_install; [done| |done..]. split; [done|by apply state_ok_no_finalizations|done..].
  - eapply parts_machine; [done|]. split; [done..|]. by intros pl [= <-].
Qed.

(** ** HTTP identities and leases *)

Lemma keeps_http_strong_validator limits hist r v : keeps limits hist (apply_http_strong_validator r v).
Proof.
  intros m Hm. unfold apply_http_strong_validator. inv_steps. state_kept.
  rewrite !orb_false_iff in Hb0. destruct Hb0 as ((_ & Hn%is_some_false) & _). by right.
Qed.

Lemma keeps_http_range_identity limits hist r v : keeps limits hist (apply_http_range_identity r v).
Proof.
  intros m Hm. unfold apply_http_range_identity. inv_steps. state_kept.
  rewrite !orb_false_iff in Hb0. destruct Hb0 as ((_ & Hn%is_some_false) & _). by left.
Qed.

Lemma keeps_lease_started limits hist r i sp v : keeps limits hist (apply_lease_started r i sp v).
Proof. intros m Hm. unfold apply_lease_started. by inv_steps. Qed.
Lemma keeps_piece_started limits hist r i p sp : keeps limits hist (apply_piece_started r i p sp).
Proof. intros m Hm. unfold apply_piece_started. by inv_steps. Qed.
Lemma keeps_piece_written limits hist r i p sp : keeps limits hist (apply_piece_written r i p sp).
Proof. intros m Hm. unfold apply_piece_written. by inv_steps. Qed.
Lemma keeps_lease_aborted limits hist r i : keeps limits hist (apply_lease_aborted r i).
Proof. intros m Hm. unfold apply_lease_aborted, remove_active_lease. by inv_steps. Qed.

Lemma keeps_lease_committed limits hist r i sp v d :
  attests hist (jr_generation r) (JournalPayload.LeaseCommitted i sp v d) ->
  keeps limits hist (apply_lease_committed r i sp v).
Proof.
  intros Ha m Hm. unfold apply_lease_committed, remove_active_lease. inv_steps.
  apply orb_false_iff in Hb as [Es%negb_false_iff%bool_decide_eq_true Ev%negb_false_iff%bool_decide_eq_true].
  subst sp v. cbn in Hs0. same_state. state_kept.
  intros j lj. destruct (decide (j = i)) as [->|Hne].
  - rewrite lookup_insert_eq. intros Hlj. exists d. destruct Hd as [Hg _ _]. rewrite <- Hg.
    by injection Hlj as <-.
  - rewrite lookup_insert_ne by done. apply Hco.
Qed.

(** ** Pieces *)

Lemma keeps_piece_verified limits hist r p sp c d :
  attests hist (jr_generation r) (JournalPayload.PieceVerified p sp c d) ->
  keeps limits hist (apply_piece_verified r p sp c d).
Proof.
  intros Ha m Hm. unfold apply_piece_verified. inv_steps.
  apply wp_contributors_for_piece; [|done]. intros Hcov _. inv_steps.
  pose proof (machine_parts _ _ _ _ Hm Hs) as [Hlim Hso Hco Hve Hpe].
  eapply parts_machine; [done|]. split; [done..| |done]. cbn.
  intros q v. rewrite lookup_insert_Some. intros [[<- <-]|[_ Hq]]; [|by apply Hve]. cbn.
  exists (jr_generation r), (contributors_of m p sp). split_and!; [done| |done| |done].
  - apply Forall_forall. intros x Hx%contributors_of_committed. rewrite (rd_generation _ _ Hd).
    by apply Hco in Hx.
  - apply negb_false_iff, bool_decide_eq_true in Hb1. congruence.
Qed.

Lemma pieces_ok_delete hist du l ps p : pieces_ok hist du l ps -> pieces_ok hist du l (delete p ps).
Proof. intros Hp q d [_ Hq]%lookup_delete_Some. by apply Hp. Qed.

Lemma keeps_piece_failed limits hist r i p sp : keeps limits hist (apply_piece_failed r i p sp).
Proof.
  intros m Hm. unfold apply_piece_failed. inv_steps. state_kept.
  - by apply pieces_ok_delete.
  - pose proof (map_subseteq_size _ _ (delete_subseteq (js_durable_pieces s) p)). lia.
  - intros q v [_ Hq]%lookup_delete_Some. by apply Hve.
Qed.

Lemma wp_check_readback c v dg (Q : unit -> SemanticMachine -> Prop) m :
  (forall previous new digest, dg = Some digest ->
     v = calculate_rebind_validator_set_fingerprint previous new digest -> Q tt m) ->
  wp (check_readback c v dg) Q (fun _ => True) m.
Proof.
  intros HQ. unfold check_readback. inv_steps. apply ok_or_Ok in Hr, Hr0, Hr1.
  apply orb_false_iff in Hb0 as [_ Hv%negb_false_iff%bool_decide_eq_true]. eauto.
Qed.

Lemma wp_check_verified p sp c v dg (Q : unit -> SemanticMachine -> Prop) m :
  (forall vp, sm_verified_pieces m !! p = Some vp -> vp_span vp = sp -> vp_contributors_hash vp = c ->
     vp_validator_set_fingerprint vp = v -> dg = None \/ dg = Some (vp_digest vp) -> Q tt m) ->
  wp (check_verified p sp c v dg) Q (fun _ => True) m.
Proof.
  intros HQ. unfold check_verified. inv_steps. apply ok_or_Ok in Hr. rewrite !orb_false_iff in Hb.
  destruct Hb as (((H2%negb_false_iff%bool_decide_eq_true & H3%negb_false_iff%bool_decide_eq_true)
    & H4%negb_false_iff%bool_decide_eq_true) & H5). eapply HQ; eauto.
  destruct dg; [|by left]. right. f_equal. by apply negb_false_iff, bool_decide_eq_true in H5.
Qed.

Lemma origin_readback hist du p sp c v dg previous new digest :
  dg = Some digest -> v = calculate_rebind_validator_set_fingerprint previous new digest ->
  origin_ok hist du {| dp_piece_id := p; dp_piece_span := sp; dp_validator_set_fingerprint := v;
    dp_digest := dg; dp_origin := DurablePieceOrigin.Live c DataBarrierKind.RecoveryReadback |}.
Proof. intros. cbn. by exists previous, new, digest. Qed.

Lemma origin_verified hist du p sp c v dg digest b :
  barrier_matches b du = true -> dg = None \/ dg = Some digest -> proven hist p sp c v digest ->
  origin_ok hist du {| dp_piece_id := p; dp_piece_span := sp; dp_validator_set_fingerprint := v;
    dp_digest := dg; dp_origin := DurablePieceOrigin.Live c b |}.
Proof. intros Hb Hdg Hp. cbn. destruct b; try done; (split; [done|]; by exists digest). Qed.

(** One more piece within the limit. *)
Lemma state_ok_insert hist limits s d :
  state_ok hist limits s -> on_layout hist (js_layout s) d -> origin_ok hist (js_durability s) d ->
  N.of_nat (size (js_durable_pieces s)) < jl_max_durable_pieces limits ->
  state_ok hist limits (s <| js_durable_pieces := <[dp_piece_id d := d]> (js_durable_pieces s) |>).
Proof.
  intros [] Hl Ho Hsz. split; cbn; try done.
  - intros q d'. rewrite lookup_insert_Some. intros [[<- <-]|[_ Hq]]; [done|]. by apply so_pieces0.
  - by apply size_insert_le.
Qed.

Lemma keeps_piece_durable limits hist r p sp c v dg b : keeps limits hist (apply_piece_durable r p sp c v dg b).
Proof.
  intros m Hm. unfold apply_piece_durable. inv_steps.
  pose proof (machine_parts _ _ _ _ Hm Hs) as [<- Hso Hco Hve Hpe].
  apply negb_false_iff, bool_decide_eq_true in Hb. subst sp0.
  assert (forall (o : origin_ok hist (js_durability s) {| dp_piece_id := p; dp_piece_span := sp;
    dp_validator_set_fingerprint := v; dp_digest := dg; dp_origin := DurablePieceOrigin.Live c b |}),
    N.of_nat (size (js_durable_pieces s)) < jl_max_durable_pieces (sm_limits m) ->
    machine_ok (sm_limits m) hist (m <| sm_state := (fun state => state <| js_durable_pieces := <[p := {| dp_piece_id := p;
      dp_piece_span := sp; dp_validator_set_fingerprint := v; dp_digest := dg;
      dp_origin := DurablePieceOrigin.Live c b |}]> (js_durable_pieces state) |>) <$> sm_state m |>)) as Hput.
  { intros Ho Hsz. eapply parts_machine; [cbn; rewrite Hs; reflexivity|]. split; [done| |done..].
    apply (state_ok_insert hist (sm_limits m) s {| dp_piece_id := p; dp_piece_span := sp;
      dp_validator_set_fingerprint := v; dp_digest := dg; dp_origin := DurablePieceOrigin.Live c b |}); try done.
    exists l, l. split_and!; try done. by apply Hso. }
  branch; inv_steps.
  - apply bool_decide_eq_true in Hc. subst b. apply wp_check_readback. intros. inv_steps.
    apply Hput; [by eapply origin_readback|]. by apply N.leb_gt in Hb0.
  - apply wp_check_verified. intros vp Hvp <- <- <- Hdg. inv_steps. apply Hput; [|by apply N.leb_gt in Hb1].
    apply origin_verified with (vp_digest vp); [by apply negb_false_iff in Hb|done|by apply Hve].
Qed.
End handlers.
