(* ===== verification/JournalStateKeeps.v ===== *)
(** * Every accepted record keeps the invariant of the semantic machine

    The remaining handlers, one record, and the replay of a list of records. *)

From S2P Require Import Prelude Bytes Ids Utf8 Paths RootBinding Layout JournalTags Journal PayloadTypes MetadataExpansion Payload PayloadExact Verification JournalStateTypes JournalState JournalStateLogic JournalStateAtomic PieceEvidence JournalStateInv.
Open Scope list_scope.

Section handlers.
Context `{Unicode, Digests, PersistedOptionPolicy}.

(** ** Retries, pauses, host keys *)

Lemma keeps_retry limits hist r t : keeps limits hist (apply_retry r t).
Proof.
  intros m Hm. unfold apply_retry. inv_steps. state_kept.
  - intros k t'. rewrite lookup_insert_Some. intros [[<- <-]|[_ Hk]]; [done|]. by apply so_retries.
  - apply andb_false_iff in Hb as [Hb%negb_false_iff%is_some_true|Hb%N.leb_gt].
    + by apply size_insert_present.
    + by apply size_insert_le.
Qed.

Lemma keeps_paused limits hist r t : keeps limits hist (apply_paused r t).
Proof. intros m Hm. unfold apply_paused. inv_steps. state_kept. Qed.

Lemma keeps_host_key_state limits hist r t : keeps limits hist (apply_host_key_state r t).
Proof.
  intros m Hm. unfold apply_host_key_state. inv_steps. destruct (hs_decision t); inv_steps; state_kept.
  by intros x [= <-].
Qed.

(** ** Terminal records *)

Lemma keeps_terminal limits hist r t : keeps limits hist (apply_terminal r t).
Proof. intros m Hm. unfold apply_terminal. inv_steps. state_kept. Qed.
Lemma keeps_complete limits hist r h l d t : keeps limits hist (apply_complete r h l d t).
Proof. intros m Hm. unfold apply_complete. inv_steps. by apply keeps_terminal. Qed.
Lemma keeps_metadata_complete limits hist r e t : keeps limits hist (apply_metadata_complete r e t).
Proof.
  intros m Hm. unfold apply_metadata_complete. inv_steps. destruct a1 as [lh fl]. inv_steps. state_kept.
  by intros x [= <-].
Qed.
Lemma keeps_clean_shutdown limits hist r c t : keeps limits hist (apply_clean_shutdown r c t).
Proof. intros m Hm. unfold apply_clean_shutdown. inv_steps. state_kept. Qed.

(** ** Finalizations *)

Lemma sorted_last {A} (R : A -> A -> Prop) `{!Reflexive R} l x y :
  StronglySorted R l -> last l = Some x -> y ∈ l -> R y x.
Proof.
  intros Hs. revert x y. induction Hs as [|a l Hs IH HF]; intros x y; [done|].
  destruct l as [|b l]; cbn [last].
  - intros [= <-] ->%list_elem_of_singleton. done.
  - intros Hl [->|Hy]%elem_of_cons; [|by apply IH]. rewrite Forall_forall in HF. apply HF.
    apply last_Some in Hl as [l' ->]. apply elem_of_app. right. by apply list_elem_of_singleton.
Qed.

Lemma btree_last_max {V} (m : gmap N V) k k' v :
  last (btree_keys m) = Some k -> m !! k' = Some v -> k' <= k.
Proof.
  unfold btree_keys. rewrite fmap_last, fmap_Some. intros ([k0 v0] & Hl & ->) Hv%elem_of_btree_entries.
  assert (Reflexive (@key_le V)) by (intros ?; unfold key_le; lia).
  by apply (sorted_last _ _ _ _ (btree_entries_sorted m) Hl) in Hv.
Qed.

Lemma unfinished_spec fs : unfinished fs = false -> forall f z, fs !! f = Some z -> fz_done z = true.
Proof.
  unfold unfinished. intros Hu f z Hz. destruct (fz_done z) eqn:Ed; [done|].
  assert (existsb (fun value => negb (fz_done value)) (btree_values fs) = true); [|congruence].
  apply existsb_exists. exists z. rewrite Ed. split; [|done]. apply list_elem_of_In, elem_of_btree_values. eauto.
Qed.

(** Every finalization of the state is before the new one. *)
Lemma finalize_order (fs : gmap FileId RecoveredFinalization) f g z :
  default false ((fun file => f <=? file) <$> last (btree_keys fs)) = false ->
  fs !! g = Some z -> g < f.
Proof.
  intros Hd Hg. destruct (last (btree_keys fs)) as [k|] eqn:El; cbn in Hd.
  - apply N.leb_gt in Hd. pose proof (btree_last_max _ _ _ _ El Hg). lia.
  - apply last_None in El. assert (g ∈ btree_keys fs) as Hin by (apply elem_of_btree_keys; eauto).
    rewrite El in Hin. by apply elem_of_nil in Hin.
Qed.

Lemma keeps_finalize_intent limits hist r z : keeps limits hist (apply_finalize_intent r z).
Proof.
  intros m Hm. unfold apply_finalize_intent. inv_steps. apply ok_or_Ok in Hr.
  rewrite orb_false_iff in Hb. rewrite !orb_false_iff in Hb1.
  destruct Hb as [Hlh%negb_false_iff%bool_decide_eq_true Hbh%negb_false_iff%bool_decide_eq_true].
  destruct Hb1 as ((Hu & Hn) & Ho). state_kept.
  - intros f z0. rewrite lookup_insert_Some. intros [[<- <-]|[Hne Hf]].
    + split_and!; [done| |].
      * exists l, a. by split_and!; [..|apply negb_false_iff in Hb0].
      * intros _ f' z'. rewrite lookup_insert_Some. intros [[<- _]|[_ Hf']]; [done|].
        pose proof (finalize_order _ _ _ _ Ho Hf'). lia.
    + destruct (so_finalizations f z0 Hf) as (? & ? & _). split_and!; [done..|].
      intros Hd0. by rewrite (unfinished_spec _ Hu _ _ Hf) in Hd0.
  - by apply size_insert_le, N.leb_gt.
Qed.

Lemma keeps_finalize_done limits hist r lh bh f p : keeps limits hist (apply_finalize_done r lh bh f p).
Proof.
  intros m Hm. unfold apply_finalize_done. inv_steps. apply ok_or_Ok in Hr. state_kept.
  - intros g z. rewrite lookup_insert_Some. intros [[<- <-]|[Hne Hg]].
    + destruct (so_finalizations f a Hr) as (? & ? & _). by split_and!.
    + destruct (so_finalizations g z Hg) as (? & ? & Hmax). split_and!; [done..|].
      intros Hz f' z'. rewrite lookup_insert_Some. intros [[<- _]|[_ Hf']]; by eapply Hmax.
  - apply size_insert_present; [by eexists|done].
Qed.

(** ** Checkpointed piece state *)

Definition chunk_piece (l : RecoveredLayout) (runs : list DurableEvidenceRun)
    (d : RecoveredDurablePiece) : Prop :=
  expected_piece_span (ly_layout l) (dp_piece_id d) = Ok (dp_piece_span d)
  /\ dp_origin d = DurablePieceOrigin.Checkpoint
  /\ exists r, r ∈ runs /\ dp_validator_set_fingerprint d = er_validator_set_fingerprint r.

Lemma run_pieces_spec l first run n : forall i ps,
  run_pieces (ly_layout l) first run n i = Ok ps ->
  length ps = n /\ Forall (chunk_piece l [run]) ps.
Proof.
  induction n as [|n IH]; intros i ps; cbn [run_pieces].
  - intros [= <-]. by split.
  - intros (p & _ & E)%bind_Ok. apply bind_Ok in E as (sp & Hsp & E).
    apply bind_Ok in E as (dg & _ & E). apply bind_Ok in E as (ps' & [Hl HF]%IH & [= <-]).
    split; [by cbn; rewrite Hl|]. constructor; [|done]. split_and!; [done..|].
    exists run. split; [by apply list_elem_of_singleton|done].
Qed.

Lemma chunk_piece_mono l runs runs' d : runs ⊆ runs' -> chunk_piece l runs d -> chunk_piece l runs' d.
Proof. intros Hs (? & ? & r & Hr & ?). split_and!; [done..|]. exists r. split; [by apply Hs|done]. Qed.

Lemma runs_pieces_spec l first runs : forall ps,
  runs_pieces (ly_layout l) first runs = Ok ps ->
  N.of_nat (length ps) = run_total runs /\ Forall (chunk_piece l runs) ps.
Proof.
  induction runs as [|run runs IH]; intros ps; cbn [runs_pieces].
  - intros [= <-]. by split.
  - intros (ps1 & [Hl1 HF1]%run_pieces_spec & E)%bind_Ok. apply bind_Ok in E as (ps2 & [Hl2 HF2]%IH & [= <-]).
    split; [unfold run_total in *; cbn; rewrite length_app; lia|]. apply Forall_app. split.
    + eapply Forall_impl; [exact HF1|]. intros d. apply chunk_piece_mono. set_solver.
    + eapply Forall_impl; [exact HF2|]. intros d. apply chunk_piece_mono. set_solver.
Qed.

Lemma decode_validates r p : decode_payload r = Ok p -> validate_payload p = Ok tt.
Proof.
  unfold decode_payload, JournalPayload_decode. destruct (_ <? _); [done|].
  intros ([p' rest] & _ & E)%bind_Ok. destruct (negb _); [done|].
  by apply bind_Ok in E as ([] & Hv & [= <-]).
Qed.

Lemma keeps_insert_pieces limits hist l g lh bh i c f n bitmap runs pieces : forall m s,
  attests hist g (JournalPayload.PieceStateChunk lh bh i c f n bitmap runs) ->
  Forall (chunk_piece l runs) pieces ->
  machine_ok limits hist m -> sm_state m = Some s -> js_layout s = Some l ->
  N.of_nat (size (js_durable_pieces s)) + N.of_nat (length pieces) <= jl_max_durable_pieces limits ->
  wp (insert_pieces pieces) (fun _ m' => machine_ok limits hist m') (fun _ => True) m.
Proof.
  induction pieces as [|d pieces IH]; intros m s Ha HF Hm Hs Hl Hsz; cbn [insert_pieces]; inv_steps; [done|].
  apply Forall_cons in HF as [(Hsp & Ho & r & Hr & Hv) HF]. rewrite length_cons, Nat2N.inj_succ in Hsz.
  pose proof (machine_parts _ _ _ _ Hm Hs) as [Hlim Hso Hco Hve Hpe].
  eapply (IH _ (s <| js_durable_pieces := <[dp_piece_id d := d]> (js_durable_pieces s) |>)); [done|done| | | |].
  - eapply parts_machine; [cbn; rewrite Hs; reflexivity|]. split; [done| |done..].
    apply (state_ok_insert hist limits); [done| | |lia].
    + exists l, l. split_and!; try done. by apply Hso.
    + unfold origin_ok. rewrite Ho. by exists g, lh, bh, i, c, f, n, bitmap, runs, r.
  - cbn. by rewrite Hs.
  - done.
  - cbn. apply is_some_false in Hb. rewrite map_size_insert_None by done. lia.
Qed.

Lemma wp_order_piece_state limits hist lh bh i c f (Q : unit -> SemanticMachine -> Prop) m s :
  machine_ok limits hist m -> sm_state m = Some s ->
  (forall m' s', machine_ok limits hist m' -> sm_state m' = Some s' -> js_layout s' = js_layout s -> Q tt m') ->
  wp (order_piece_state lh bh i c f) Q (fun _ => True) m.
Proof.
  intros Hm Hs HQ. unfold order_piece_state. inv_steps. branch; inv_steps; [|by eapply HQ].
  eapply HQ; [|cbn; by rewrite Hs|done]. destruct (machine_parts _ _ _ _ Hm Hs) as [Hlim Hso ? ? ?].
  eapply parts_machine; [cbn; rewrite Hs; reflexivity|]. split; [done|by apply state_ok_no_pieces|done..].
Qed.

Lemma keeps_piece_state_chunk limits hist r lh bh i c f n b runs :
  attests hist (jr_generation r) (JournalPayload.PieceStateChunk lh bh i c f n b runs) ->
  keeps limits hist (apply_piece_state_chunk r lh bh i c f n b runs).
Proof.
  intros Ha m Hm. unfold apply_piece_state_chunk. inv_steps.
  assert (run_total runs = bitmap_ones b) as Hones.
  { destruct Ha as (r' & _ & _ & Hdec%decode_validates). by eapply chunk_ones. }
  eapply wp_order_piece_state; [done..|]. intros m' s' Hm' Hs' Hl'. rewrite Hl in Hl'. inv_steps.
  apply runs_pieces_spec in Hr as [Hlen HF]. eapply wp_mono; [eapply keeps_insert_pieces; try done| |done].
  - destruct (u64_checked_add _ _) as [t|] eqn:Et; [|done]. apply u64_checked_add_Some in Et as [-> _].
    cbn in Hb1. apply N.ltb_ge in Hb1. destruct Hm' as [<- _]. lia.
  - cbv beta. intros _ m'' Hm''. by inv_steps.
Qed.

(** ** Verification manifests and protocol validators *)

Lemma keeps_finish_manifest limits hist : keeps limits hist finish_manifest.
Proof.
  intros m Hm. unfold finish_manifest. inv_steps. branch; inv_steps; [done|].
  apply map_err_Ok, decode_Ok in Hr0 as [_ Hv]. state_kept. by intros v [= <-].
Qed.
Lemma keeps_manifest limits hist r f t c b : keeps limits hist (apply_manifest r f t c b).
Proof. intros m Hm. unfold apply_manifest. inv_steps. by apply keeps_finish_manifest. Qed.
Lemma keeps_manifest_chunk limits hist r f i c b : keeps limits hist (apply_manifest_chunk r f i c b).
Proof. intros m Hm. unfold apply_manifest_chunk. inv_steps. by apply keeps_finish_manifest. Qed.

Lemma keeps_protocol_validator limits hist r v : keeps limits hist (apply_protocol_validator r v).
Proof.
  intros m Hm. unfold apply_protocol_validator. inv_steps. rewrite !orb_false_iff in Hb.
  destruct Hb as (((Hv%negb_false_iff & _) & _) & Hn). state_kept.
  - intros k w. rewrite lookup_insert_Some. intros [[<- <-]|[_ Hk]]; [done|]. by apply so_validators.
  - apply andb_false_iff in Hn as [Hn%N.leb_gt|Hn%negb_false_iff%is_some_true].
    + by apply size_insert_le.
    + by apply size_insert_present.
Qed.

Lemma keeps_whole_verified limits hist r f ds : keeps limits hist (apply_whole_verified r f ds).
Proof. intros m Hm. unfold apply_whole_verified. inv_steps. state_kept. Qed.

#[local] Hint Resolve keeps_task_created keeps_options keeps_generation_started
  keeps_layout_committed keeps_layout_chunk keeps_http_strong_validator keeps_http_range_identity
  keeps_lease_started keeps_piece_started keeps_piece_written keeps_lease_committed
  keeps_lease_aborted keeps_piece_verified keeps_piece_failed keeps_piece_durable keeps_retry
  keeps_paused keeps_host_key_state keeps_terminal keeps_complete keeps_metadata_complete
  keeps_clean_shutdown keeps_finalize_intent keeps_finalize_done keeps_piece_state_chunk
  keeps_manifest keeps_manifest_chunk keeps_protocol_validator keeps_whole_verified : core.

Lemma keeps_payload limits hist r p : attests hist (jr_generation r) p -> keeps limits hist (apply_payload r p).
Proof. destruct p; cbn [apply_payload]; eauto; by intros ? m Hm. Qed.

(** ** One record *)

Lemma wp_set_rank limits hist n (Q : unit -> SemanticMachine -> Prop) m :
  machine_ok limits hist m -> (forall m', machine_ok limits hist m' -> Q tt m') -> wp (set_rank n) Q (fun _ => True) m.
Proof. intros Hm HQ. unfold set_rank. inv_steps. by apply HQ. Qed.

Lemma wp_checkpoint_order limits hist p (Q : unit -> SemanticMachine -> Prop) m :
  machine_ok limits hist m -> (forall m', machine_ok limits hist m' -> Q tt m') ->
  wp (validate_checkpoint_order p) Q (fun _ => True) m.
Proof.
  intros Hm HQ. destruct p; cbn [validate_checkpoint_order]; try (by eapply wp_set_rank); try (by inv_steps).
  - case_match; [by eapply wp_set_rank|by inv_steps].
  - inv_steps. by eapply wp_set_rank.
Qed.

(** A write to fields the invariant does not mention. *)
Lemma keeps_update limits hist f m :
  (forall limits s, state_ok hist limits s -> state_ok hist limits (f s)) ->
  (forall s, js_generation (f s) = js_generation s) -> (forall s, js_durability (f s) = js_durability s) ->
  machine_ok limits hist m -> machine_ok limits hist (m <| sm_state := f <$> sm_state m |>).
Proof.
  intros Hf Hg Hd Hm. destruct (sm_state m) as [s|] eqn:Hs; [|by unfold machine_ok in *; cbn; rewrite Hs in Hm].
  destruct (machine_parts _ _ _ _ Hm Hs) as [Hlim Hso ? ? ?]. eapply parts_machine; [reflexivity|].
  split; cbn; rewrite ?Hg, ?Hd; auto.
Qed.

Lemma keeps_apply limits hist r p : attests hist (jr_generation r) p -> keeps limits hist (apply r p).
Proof.
  intros Ha m Hm. unfold apply. inv_steps.
  assert (forall m', machine_ok limits hist m' ->
    wp (_ ← reject_if (is_some (sm_state m ≫= js_terminal)
              && negb (has_type RecordType.CleanShutdown p)) JournalStateError.RecordAfterTerminal;
        _ ← apply_payload r p;
        if has_type RecordType.CleanShutdown p then mret tt
        else update_state (fun state => state <| js_clean_shutdown := None |>))
      (fun _ m'' => machine_ok limits hist m'') (fun _ => True) m') as Hrest.
  { intros m' Hm'. inv_steps. eapply wp_mono; [by apply keeps_payload|cbv beta|done].
    intros _ m'' Hm''. branch; inv_steps; [done|]. apply keeps_update; [by intros ? ? []; split|done..]. }
  branch; [eapply wp_checkpoint_order; [done|]; apply Hrest|]. step; [|done]. by apply Hrest.
Qed.

(** ** Lists of records *)

(** The records a machine accepted extend its history. *)
Lemma keeps_process rs : forall limits hist m a rel e m',
  machine_ok limits hist m -> process_records m rs a rel e = (Ok tt, m') -> machine_ok limits (hist ++ rs) m'.
Proof.
  induction rs as [|r rs IH]; intros limits hist m a rel e m' Hm; cbn [process_records].
  - intros [= <-]. by rewrite app_nil_r.
  - destruct (negb _); [done|]. destruct (_ <=? a); [done|]. destruct (decode_payload r) as [p|] eqn:Ed; [|done].
    destruct (apply r p m) as [[[]|] m1] eqn:Ea; [|done]. intros Hp.
    change (r :: rs) with ([r] ++ rs). rewrite app_assoc. eapply IH; [|exact Hp].
    apply keeps_update; [by intros ? ? []; split|done..|].
    refine (wp_Ok _ (fun _ m'' => machine_ok limits (hist ++ [r]) m'') (fun _ => True) _ _ _ _ Ea).
    apply keeps_apply; [by apply attests_last|]. by eapply machine_mono; [apply list_subseteq_app_l|].
Qed.

Lemma machine_ok_new task limits checkpoint g : machine_ok limits [] (SemanticMachine_new task limits checkpoint g).
Proof. done. Qed.
End handlers.
