(* ===== verification/JournalStateTerminal.v ===== *)
(** * Terminal states and checkpoints in a replay

    Which records set the terminal and the checkpoint of a state, that nothing but
    a shutdown follows a terminal record, and what a completed task had in place. *)

From S2P Require Import Prelude Bytes Ids Utf8 Paths RootBinding Layout JournalTags Journal PayloadTypes MetadataExpansion Payload PayloadExact Verification JournalStateTypes JournalState JournalStateLogic JournalStateAtomic JournalStatePrefix JournalStateInv.
Open Scope list_scope.

Definition terminal_of (m : SemanticMachine) : option RecoveredTerminal := sm_state m ≫= js_terminal.
Definition checkpoint_of (m : SemanticMachine) : option RecoveredCheckpoint := sm_state m ≫= js_checkpoint.

Record still (m m' : SemanticMachine) : Prop := {
  st_terminal : terminal_of m' = terminal_of m;
  st_checkpoint : checkpoint_of m' = checkpoint_of m;
}.
#[global] Instance still_preorder : PreOrder still.
Proof. split; [by split|]. intros a b c [? ?] [? ?]. split; congruence. Qed.

(** A write that keeps both. *)
Lemma still_update f m :
  (forall s, js_terminal (f s) = js_terminal s) -> (forall s, js_checkpoint (f s) = js_checkpoint s) ->
  still m (m <| sm_state := f <$> sm_state m |>).
Proof. intros Ht Hc. split; unfold terminal_of, checkpoint_of; cbn; destruct (sm_state m); cbn; auto. Qed.

Definition quiet (h : Sem unit) : Prop := forall m, wp h (fun _ m' => still m m') (fun _ => True) m.

Ltac still_now :=
  try solve [done | by apply still_update
            | split; unfold terminal_of, checkpoint_of; cbn;
              repeat match goal with H : sm_state _ = Some _ |- _ => cbn in H; rewrite H; clear H end;
              reflexivity].
Ltac quiet := intros m; inv_steps; still_now.

Section quiet.
Context `{Unicode, Digests, PersistedOptionPolicy}.

Lemma quiet_task_created r d v : quiet (apply_task_created r d v).
Proof.
  unfold apply_task_created. quiet. apply is_some_false in Hb.
  destruct (sm_expected_checkpoint_generation m); inv_steps;
    split; unfold terminal_of, checkpoint_of; cbn; by rewrite Hb.
Qed.
Lemma quiet_options r sc p hash o : quiet (apply_options r sc p hash o).
Proof. unfold apply_options. quiet. destruct (forbidden_option o); inv_steps. destruct sc; inv_steps; still_now. Qed.

Lemma start_generation_still g reason pending s :
  js_terminal (start_generation g reason pending s) = js_terminal s
  /\ js_checkpoint (start_generation g reason pending s) = js_checkpoint s.
Proof.
  unfold start_generation. cbv zeta. set (s1 := s <| js_generation := _ |>).
  change (js_terminal s) with (js_terminal s1). change (js_checkpoint s) with (js_checkpoint s1).
  clearbody s1. cbn [js_terminal js_checkpoint].
  destruct (default false _) in |- *; destruct (reason == GenerationStartReason.RepresentationRestart);
    repeat (case_match; try done).
Qed.

Lemma quiet_generation_started r g reason hash p : quiet (apply_generation_started r g reason hash p).
Proof.
  unfold apply_generation_started. quiet. branch; inv_steps.
  pose proof (start_generation_still (jr_generation r) reason a (s <| js_pending_options := None |>)) as [Ht Hc'].
  split; unfold terminal_of, checkpoint_of; cbn [sm_state]; rewrite Hs; [exact Ht|exact Hc'].
Qed.

Lemma quiet_layout_committed r lh bh d i t p f c fs : quiet (apply_layout_committed r lh bh d i t p f c fs).
Proof.
  unfold apply_layout_committed. quiet. branch; inv_steps.
  - eapply wp_take_layout; [done|]. eapply wp_install_layout; [reflexivity|]. still_now.
  - eapply wp_take_layout; [done|]. inv_steps. still_now.
Qed.
Lemma quiet_layout_chunk r lh bh i c fs : quiet (apply_layout_chunk r lh bh i c fs).
Proof.
  unfold apply_layout_chunk. quiet. branch; inv_steps; still_now. unfold finish_layout. inv_steps.
  eapply wp_install_layout; [done|]. still_now.
Qed.
Lemma quiet_http_strong_validator r v : quiet (apply_http_strong_validator r v).
Proof. unfold apply_http_strong_validator. quiet. Qed.
Lemma quiet_http_range_identity r v : quiet (apply_http_range_identity r v).
Proof. unfold apply_http_range_identity. quiet. Qed.
Lemma quiet_lease_started r i sp v : quiet (apply_lease_started r i sp v).
Proof. unfold apply_lease_started. quiet. Qed.
Lemma quiet_piece_started r i p sp : quiet (apply_piece_started r i p sp).
Proof. unfold apply_piece_started. quiet. Qed.
Lemma quiet_piece_written r i p sp : quiet (apply_piece_written r i p sp).
Proof. unfold apply_piece_written. quiet. Qed.
Lemma quiet_lease_committed r i sp v : quiet (apply_lease_committed r i sp v).
Proof. unfold apply_lease_committed, remove_active_lease. quiet. Qed.
Lemma quiet_lease_aborted r i : quiet (apply_lease_aborted r i).
Proof. unfold apply_lease_aborted, remove_active_lease. quiet. Qed.
Lemma quiet_piece_verified r p sp c d : quiet (apply_piece_verified r p sp c d).
Proof. unfold apply_piece_verified, contributors_for_piece. quiet. Qed.
Lemma quiet_piece_failed r i p sp : quiet (apply_piece_failed r i p sp).
Proof. unfold apply_piece_failed. quiet. Qed.
Lemma quiet_piece_durable r p sp c v d b : quiet (apply_piece_durable r p sp c v d b).
Proof. unfold apply_piece_durable, check_readback, check_verified. quiet. branch; inv_steps; still_now. Qed.
Lemma quiet_retry r t : quiet (apply_retry r t).
Proof. unfold apply_retry. quiet. Qed.
Lemma quiet_paused r t : quiet (apply_paused r t).
Proof. unfold apply_paused. quiet. Qed.
Lemma quiet_host_key_state r t : quiet (apply_host_key_state r t).
Proof. unfold apply_host_key_state. quiet. destruct (hs_decision t); inv_steps; still_now. Qed.
Lemma quiet_clean_shutdown r c t : quiet (apply_clean_shutdown r c t).
Proof. unfold apply_clean_shutdown. quiet. Qed.
Lemma quiet_finalize_intent r f : quiet (apply_finalize_intent r f).
Proof. unfold apply_finalize_intent. quiet. Qed.
Lemma quiet_finalize_done r lh bh f p : quiet (apply_finalize_done r lh bh f p).
Proof. unfold apply_finalize_done. quiet. Qed.
Lemma quiet_finish_manifest : quiet finish_manifest.
Proof. unfold finish_manifest. quiet. branch; inv_steps; still_now. Qed.
Lemma quiet_manifest r f t c b : quiet (apply_manifest r f t c b).
Proof.
  unfold apply_manifest. quiet. eapply wp_mono; [apply quiet_finish_manifest|by intros ? ? [? ?]|done].
Qed.
Lemma quiet_manifest_chunk r f i c b : quiet (apply_manifest_chunk r f i c b).
Proof.
  unfold apply_manifest_chunk. quiet. eapply wp_mono; [apply quiet_finish_manifest|by intros ? ? [? ?]|done].
Qed.
Lemma quiet_protocol_validator r v : quiet (apply_protocol_validator r v).
Proof. unfold apply_protocol_validator. quiet. Qed.
Lemma quiet_whole_verified r f ds : quiet (apply_whole_verified r f ds).
Proof. unfold apply_whole_verified. quiet. Qed.

Lemma quiet_insert_pieces ps : quiet (insert_pieces ps).
Proof.
  induction ps as [|d ps IH]; cbn [insert_pieces]; quiet. eapply wp_mono; [apply IH| |done].
  cbv beta. intros _ m' Hm'. etrans; [|exact Hm']. by apply still_update.
Qed.
Lemma quiet_order_piece_state lh bh i c f : quiet (order_piece_state lh bh i c f).
Proof. unfold order_piece_state. quiet. branch; inv_steps; still_now. Qed.
Lemma quiet_piece_state_chunk r lh bh i c f n b runs :
  quiet (apply_piece_state_chunk r lh bh i c f n b runs).
Proof.
  unfold apply_piece_state_chunk. quiet. eapply wp_mono; [apply quiet_order_piece_state| |done].
  cbv beta. intros _ m1 H1'. inv_steps. eapply wp_mono; [apply quiet_insert_pieces| |done].
  cbv beta. intros _ m2 H2'. inv_steps. etrans; [exact H1'|]. etrans; [exact H2'|]. by split.
Qed.

#[local] Hint Resolve quiet_task_created quiet_options quiet_generation_started
  quiet_layout_committed quiet_layout_chunk quiet_http_strong_validator quiet_http_range_identity
  quiet_lease_started quiet_piece_started quiet_piece_written quiet_lease_committed
  quiet_lease_aborted quiet_piece_verified quiet_piece_failed quiet_piece_durable quiet_retry
  quiet_paused quiet_host_key_state quiet_clean_shutdown quiet_finalize_intent quiet_finalize_done
  quiet_piece_state_chunk quiet_manifest quiet_manifest_chunk quiet_protocol_validator
  quiet_whole_verified : core.

(** The records that end a task. *)
Definition ends_task (p : JournalPayload) : bool :=
  match p with
  | JournalPayload.TaskComplete _ _ _ _ | JournalPayload.MetadataComplete _ _
  | JournalPayload.TaskError _ _ _ | JournalPayload.TaskRemoved _ => true
  | _ => false
  end.

Lemma quiet_payload r p : ends_task p = false -> quiet (apply_payload r p).
Proof. destruct p; cbn [apply_payload ends_task]; intros He; try done; auto. Qed.

(** ** The completion of a task *)

(** A completed task with a manifest had everything the manifest asks for. *)
Definition complete_ok (s : RecoveredJournalState) : Prop :=
  forall lh len dg t v, js_terminal s = Some (RecoveredTerminal.Complete lh len dg t) ->
    js_verification_manifest s = Some v ->
    (exists l, js_layout s = Some l /\ ly_layout_hash l = lh /\ matches_layout v l = true
       /\ fl_total_length (ly_layout l) = Some len)
    /\ unfinished (js_finalizations s) = false /\ manifest_unmet s = false.
Definition completion (m : SemanticMachine) : Prop := forall s, sm_state m = Some s -> complete_ok s.

Lemma completion_vacuous m : terminal_of m = None -> completion m.
Proof. unfold terminal_of. intros Ht s Hs lh len dg t v He. rewrite Hs in Ht. cbn in Ht. congruence. Qed.

Lemma ends_complete r lh len dg t m :
  wp (apply_complete r lh len dg t) (fun _ m' => completion m' /\ checkpoint_of m' = checkpoint_of m)
    (fun _ => True) m.
Proof.
  unfold apply_complete, apply_terminal. inv_steps. apply orb_false_iff in Hb as [_ Hu].
  apply orb_false_iff in Hb1 as [Hh Hlen]. apply negb_false_iff, bool_decide_eq_true in Hh.
  cbn. rewrite Hs. split; [|unfold checkpoint_of; cbn; by rewrite Hs].
  intros s' [= <-] lh' len' dg' t' v [= <- <- <- <-] Hv. cbn in *. split_and!; [|done|exact Hb0].
  destruct (Hready s v Hs Hv) as (l' & Hl' & Hml). assert (l' = l) as -> by congruence.
  exists l. split_and!; try done. pose proof Hml as [Ht%bool_decide_eq_true _]%andb_true_iff.
  rewrite Ht in *. cbn in Hlen. apply negb_false_iff, N.eqb_eq in Hlen. by subst.
Qed.

Lemma ends_metadata r e t m :
  wp (apply_metadata_complete r e t) (fun _ m' => completion m' /\ checkpoint_of m' = checkpoint_of m)
    (fun _ => True) m.
Proof.
  unfold apply_metadata_complete. inv_steps. destruct a1 as [lh fl]. inv_steps.
  rewrite !orb_false_iff in Hb0. destruct Hb0 as (_ & Hn%is_some_false). cbn. rewrite Hs. split.
  - intros s' [= <-] lh' len' dg' t' v _ Hv. cbn in Hv. congruence.
  - unfold checkpoint_of. cbn. by rewrite Hs.
Qed.

Lemma ends_terminal r tm m :
  (forall lh len dg t, tm <> RecoveredTerminal.Complete lh len dg t) ->
  wp (apply_terminal r tm) (fun _ m' => completion m' /\ checkpoint_of m' = checkpoint_of m)
    (fun _ => True) m.
Proof.
  intros Htm. unfold apply_terminal. inv_steps. cbn. rewrite Hs. split.
  - intros s' [= <-] lh' len' dg' t' v [= Ht] _. by apply Htm in Ht.
  - unfold checkpoint_of. cbn. by rewrite Hs.
Qed.

(** From a state that is not terminal. *)
Lemma completion_payload r p m :
  terminal_of m = None ->
  wp (apply_payload r p) (fun _ m' => completion m' /\ checkpoint_of m' = checkpoint_of m) (fun _ => True) m.
Proof.
  intros Ht. destruct (ends_task p) eqn:Ee.
  - destruct p; try done; cbn [apply_payload];
      [apply ends_complete|apply ends_terminal|apply ends_terminal|apply ends_metadata]; done.
  - eapply wp_mono; [by apply quiet_payload| |done]. cbv beta. intros _ m' [Ht' Hc']. split; [|done].
    apply completion_vacuous. congruence.
Qed.

(** The steps of [apply] before the handler only touch the order of the checkpoint. *)
Lemma wp_checkpoint_order_state p (Q : unit -> SemanticMachine -> Prop) m :
  (forall m', sm_state m' = sm_state m -> Q tt m') -> wp (validate_checkpoint_order p) Q (fun _ => True) m.
Proof.
  intros HQ. destruct p; cbn [validate_checkpoint_order]; unfold set_rank; try case_match; inv_steps; by apply HQ.
Qed.

Lemma wp_apply r p Q m :
  (forall m', sm_state m' = sm_state m -> (is_Some (terminal_of m) -> exists c t, p = JournalPayload.CleanShutdown c t) ->
     wp (apply_payload r p)
       (fun _ m'' => if has_type RecordType.CleanShutdown p then Q tt m''
          else Q tt (m'' <| sm_state := (fun s => s <| js_clean_shutdown := None |>) <$> sm_state m'' |>))
       (fun _ => True) m') ->
  wp (apply r p) Q (fun _ => True) m.
Proof.
  intros HQ. unfold apply. inv_steps.
  assert (forall m', sm_state m' = sm_state m ->
    wp (_ ← reject_if (is_some (sm_state m ≫= js_terminal)
              && negb (has_type RecordType.CleanShutdown p)) JournalStateError.RecordAfterTerminal;
        _ ← apply_payload r p;
        if has_type RecordType.CleanShutdown p then mret tt
        else update_state (fun state => state <| js_clean_shutdown := None |>)) Q (fun _ => True) m') as Hrest.
  { intros m' Hm'. inv_steps. eapply wp_mono; [apply HQ; [done|]| |done].
    - intros [t Ht]. fold (terminal_of m) in Hb2. rewrite Ht in Hb2. cbn in Hb2.
      apply negb_false_iff in Hb2. unfold has_type in Hb2. apply bool_decide_eq_true in Hb2.
      destruct p; try done. eauto.
    - cbv beta. intros _ m'' Hq. destruct (has_type _ p); by inv_steps. }
  branch; [apply wp_checkpoint_order_state, Hrest|]. step; [|done]. by apply Hrest.
Qed.

(** Writes that the completion of a state does not depend on. *)
Lemma completion_update f m :
  (forall s, complete_ok s -> complete_ok (f s)) -> (forall s, js_checkpoint (f s) = js_checkpoint s) ->
  completion m ->
  completion (m <| sm_state := f <$> sm_state m |>)
  /\ checkpoint_of (m <| sm_state := f <$> sm_state m |>) = checkpoint_of m.
Proof.
  intros Hf Hc Hm. unfold completion, checkpoint_of in *. cbn. destruct (sm_state m) as [s|]; cbn; [|done].
  split; [|done]. intros s' [= <-]. auto.
Qed.

Lemma completion_apply r p m :
  completion m ->
  wp (apply r p) (fun _ m' => completion m' /\ checkpoint_of m' = checkpoint_of m) (fun _ => True) m.
Proof.
  intros Hm. apply wp_apply. intros m' Hs Hsome. destruct (terminal_of m) eqn:Ht.
  - destruct Hsome as (c & t & ->); [done|]. cbn [apply_payload]. unfold apply_clean_shutdown. inv_steps.
    change (has_type _ _) with true. cbv iota.
    replace (checkpoint_of m) with (checkpoint_of m') by (unfold checkpoint_of; by rewrite Hs).
    apply completion_update; [done..|]. intros s' Hs'. apply Hm. congruence.
  - eapply wp_mono; [apply completion_payload; unfold terminal_of in *; by rewrite Hs| |done].
    cbv beta. intros _ m'' [Hco Hck].
    replace (checkpoint_of m) with (checkpoint_of m') by (unfold checkpoint_of; by rewrite Hs).
    destruct (has_type _ p); [done|]. rewrite <- Hck. by apply completion_update.
Qed.

(** After a terminal record only the shutdown changes. *)
Lemma terminal_apply r p m s :
  sm_state m = Some s -> is_Some (js_terminal s) ->
  wp (apply r p) (fun _ m' => exists c, sm_state m' = Some (s <| js_clean_shutdown := c |>)) (fun _ => True) m.
Proof.
  intros Hs Ht. apply wp_apply. intros m' Hs' Hsome. unfold terminal_of in Hsome. rewrite Hs in Hsome.
  destruct (Hsome Ht) as (c & t & ->). cbn [apply_payload]. unfold apply_clean_shutdown. inv_steps.
  change (has_type _ _) with true. cbn. rewrite Hs', Hs. cbn. eauto.
Qed.

Lemma completion_process rs : forall m a rel e m',
  completion m -> process_records m rs a rel e = (Ok tt, m') ->
  completion m' /\ checkpoint_of m' = checkpoint_of m.
Proof.
  induction rs as [|r rs IH]; intros m a rel e m' Hm; cbn [process_records].
  - by intros [= <-].
  - destruct (negb _); [done|]. destruct (_ <=? a); [done|]. destruct (decode_payload r) as [p|]; [|done].
    pose proof (completion_apply r p m Hm) as Hw. unfold wp in Hw.
    destruct (apply r p m) as [[[]|] m1]; [|done]. destruct Hw as [Hm1 Hc1].
    destruct (completion_update (fun s => s <| js_last_sequence := jr_sequence r |>) m1) as [Hu Hcu]; [done..|].
    intros [H2' H3']%IH; [|done]. split; [done|]. congruence.
Qed.

(** A state that a list of records left as it was, but for its end. *)
Definition ended_as (s s' : RecoveredJournalState) : Prop :=
  exists c n, s' = s <| js_clean_shutdown := c |> <| js_last_sequence := n |>.

Lemma ended_refl s : ended_as s s.
Proof. exists (js_clean_shutdown s), (js_last_sequence s). by destruct s. Qed.

Lemma ended_terminal s s' : ended_as s s' -> js_terminal s' = js_terminal s.
Proof. by intros (c & n & ->). Qed.

Lemma terminal_process rs : forall m a rel e m' s,
  sm_state m = Some s -> is_Some (js_terminal s) -> process_records m rs a rel e = (Ok tt, m') ->
  exists s', sm_state m' = Some s' /\ ended_as s s'.
Proof.
  induction rs as [|r rs IH]; intros m a rel e m' s Hs Ht; cbn [process_records].
  - intros [= <-]. exists s. split; [done|apply ended_refl].
  - destruct (negb _); [done|]. destruct (_ <=? a); [done|]. destruct (decode_payload r) as [p|]; [|done].
    pose proof (terminal_apply r p m s Hs Ht) as Hw. unfold wp in Hw.
    destruct (apply r p m) as [[[]|] m1]; [|done]. destruct Hw as [c Hc].
    intros (s' & Hs' & c' & n' & ->)%(IH _ _ _ _ _ (s <| js_clean_shutdown := c |> <| js_last_sequence := jr_sequence r |>)); [| |done].
    + eexists. split; [done|]. by exists c', n'.
    + cbn. by rewrite Hc.
Qed.

Lemma terminal_tail rs m a rel e x m' s :
  sm_checkpoint_state m = false -> sm_state m = Some s -> is_Some (js_terminal s) ->
  process_records m rs a rel e = (x, m') -> exists s', sm_state m' = Some s' /\ ended_as s s'.
Proof.
  intros Hlive Hs Ht Hp. destruct x as [[]|[i err]]; [by eapply terminal_process|].
  apply process_stop in Hp as (k & m'' & _ & _ & Hp & ->); [|done]. by eapply terminal_process.
Qed.

(** ** Longer lists *)

Lemma process_app_Err rs rs' : forall m a rel e x m',
  process_records m rs a rel e = (Err x, m') -> process_records m (rs ++ rs') a rel e = (Err x, m').
Proof.
  induction rs as [|r rs IH]; intros m a rel e x m'; [done|]. cbn [app process_records].
  destruct (negb _); [done|]. destruct (_ <=? a); [done|]. destruct (decode_payload r); [|done].
  destruct (apply r a0 m) as [[[]|] m1]; [|done]. apply IH.
Qed.

Lemma process_app_Ok rs rs' : forall m a rel e m',
  process_records m rs a rel e = (Ok tt, m') ->
  exists a' rel' e', process_records m (rs ++ rs') a rel e = process_records m' rs' a' rel' e'.
Proof.
  induction rs as [|r rs IH]; intros m a rel e m'; cbn [app process_records]; [intros [= <-]; eauto|].
  destruct (negb _); [done|]. destruct (_ <=? a); [done|]. destruct (decode_payload r); [|done].
  destruct (apply r a0 m) as [[[]|] m1]; [|done]. apply IH.
Qed.

Lemma process_live rs : forall m a rel e m',
  sm_checkpoint_state m = false -> process_records m rs a rel e = (Ok tt, m') ->
  sm_checkpoint_state m' = false.
Proof.
  induction rs as [|r rs IH]; intros m a rel e m' Hlive; cbn [process_records]; [by intros [= <-]|].
  destruct (negb _); [done|]. destruct (_ <=? a); [done|]. destruct (decode_payload r) as [p|]; [|done].
  pose proof (atomic_apply r p m Hlive) as Hw. unfold wp in Hw.
  destruct (apply r p m) as [[[]|] m1]; [|done]. apply IH. cbn. by rewrite (fr_checkpoint _ _ Hw).
Qed.

(** More records after a terminal state. *)
Lemma terminal_app rs rs' m a rel e x m' s x' m'' :
  sm_checkpoint_state m = false -> process_records m rs a rel e = (x, m') ->
  sm_state m' = Some s -> is_Some (js_terminal s) ->
  process_records m (rs ++ rs') a rel e = (x', m'') -> exists s', sm_state m'' = Some s' /\ ended_as s s'.
Proof.
  intros Hlive Hp Hs Ht Hp'. destruct x as [[]|y].
  - destruct (process_app_Ok rs rs' _ _ _ _ _ Hp) as (a' & rel' & e' & E). rewrite E in Hp'.
    eapply terminal_tail; [by eapply process_live|done..].
  - apply (process_app_Err _ rs') in Hp. rewrite Hp in Hp'. injection Hp' as <- <-.
    exists s. split; [done|apply ended_refl].
Qed.
End quiet.
