(* ===== verification/JournalStateExample.v ===== *)
(** * A history to evaluate the recovery theorems on

    A task of one file of ten bytes in pieces of eight, with a verification
    manifest: created, laid out, fetched by one lease, verified, made durable,
    finalized and completed. *)

From S2P Require Import Prelude Bytes ConcreteDigests Ids Utf8 Paths RootBinding Layout JournalTags Journal PayloadTypes MetadataExpansion Payload Verification JournalRun JournalStateTypes JournalState.
From Stdlib Require Import Init.Byte Strings.Byte.
Open Scope list_scope.

#[local] Existing Instance concrete_digests.
#[local] Existing Instance plain_unicode.
Definition any_option : PersistedOptionPolicy := fun _ => true.
#[local] Existing Instance any_option.

(** The value of a call that succeeds. *)
Definition unwrap {E A} (d : A) (r : result E A) : A := match r with Ok a => a | Err _ => d end.

Definition story_layout : RecoveredLayout :=
  unwrap (mkRecoveredLayout example_layout [] [])
    (rb ← map_err (fun _ => tt) (RootBinding_new example_path (ascii_bytes "root") [(0, ascii_bytes "file")]);
     l ← map_err (fun _ => tt) (FileLayout_new 1 0 rb
           [example_file 0 10 0 "a" (Some (ascii_bytes "file"))] (Some 10) 8);
     Ok (mkRecoveredLayout l (fl_layout_hash l) (rb_hash rb))).

Definition story_digest (b : byte) : JournalDigest := mkJournalDigest JournalDigestAlgorithm.Sha256 (repeat b 32).
Definition story_manifest : VerificationManifest :=
  unwrap (mkVerificationManifest 0 0 [] [] [])
    (VerificationManifest_new 10 8 [story_digest x61; story_digest x62] []).
Definition story_options : SanitizedOptionMap := unwrap (mkSanitizedOptionMap [] 0) (SanitizedOptionMap_new []).
Definition story_validator : JournalHash := repeat x76 32.
Definition story_lease : JournalContributor := mkJournalContributor 1 (mkPersistedSpan 0 10) story_validator.
Definition story_contributors : JournalHash := unwrap [] (calculate_contributors_hash [story_lease]).
Definition story_validators : JournalHash := unwrap [] (calculate_validator_set_fingerprint [story_lease]).

Definition story_payloads : list JournalPayload :=
  let lh := ly_layout_hash story_layout in
  let bh := ly_root_binding_hash story_layout in
  let first := mkPersistedSpan 0 8 in
  let second := mkPersistedSpan 8 2 in
  [JournalPayload.TaskCreated DurabilityMode.Balanced 1;
   JournalPayload.OptionsSnapshot OptionsSnapshotScope.CurrentGeneration None
     (snapshot_hash story_options) story_options;
   JournalPayload.LayoutCommitted lh bh example_path (ascii_bytes "root") (Some 10) 8 1 1
     [mkJournalFileLayoutEntry 0 0 10 10 true (ascii_bytes "a") (ascii_bytes "file")]]
  ++ journal_payloads story_manifest
  ++ [JournalPayload.LeaseStarted 1 1 (mkPersistedSpan 0 10) story_validator;
      JournalPayload.PieceStarted 1 0 first;
      JournalPayload.PieceStarted 1 1 second;
      JournalPayload.PieceWritten 1 0 first;
      JournalPayload.LeaseCommitted 1 (mkPersistedSpan 0 10) story_validator None;
      JournalPayload.PieceVerified 0 first story_contributors (story_digest x61);
      JournalPayload.PieceVerified 1 second story_contributors (story_digest x62);
      JournalPayload.PieceDurable 0 first story_contributors story_validators (Some (story_digest x61))
        DataBarrierKind.BalancedGroup;
      JournalPayload.PieceDurable 1 second story_contributors story_validators None
        DataBarrierKind.BalancedGroup;
      JournalPayload.FinalizeIntent lh bh 0 (ascii_bytes "a.part") (ascii_bytes "a") 10 (ascii_bytes "file");
      JournalPayload.FinalizeDone lh bh 0 (ascii_bytes "a");
      JournalPayload.TaskComplete lh 10 None 99;
      JournalPayload.CleanShutdown 3 100].

Definition story : list JournalRecord := Eval vm_compute in
  imap (fun i p => payload_record 0 (N.of_nat i + 1) p) story_payloads.

(** The same task compacted: its checkpoint holds the creation and the options. *)
Definition compact_state : list JournalRecord :=
  [payload_record 0 2 (JournalPayload.TaskCreated DurabilityMode.Balanced 1);
   payload_record 0 3 (JournalPayload.OptionsSnapshot OptionsSnapshotScope.CurrentGeneration None
     (snapshot_hash story_options) story_options)].
Definition compact_story : list JournalRecord := Eval vm_compute in
  [payload_record 0 1 (JournalPayload.CheckpointStart (repeat x05 16) 9 (repeat x73 32) 2 50)]
  ++ compact_state
  ++ [payload_record 0 4 (JournalPayload.CheckpointEnd (repeat x05 16) 2
        (unwrap [] (calculate_checkpoint_state_hash compact_state)));
      payload_record 0 5 (JournalPayload.CleanShutdown 3 100)].
