(* ===== verification/JournalStateProperties.v ===== *)
(** * Properties of semantic journal recovery

    What the state [recover_journal_state] returns satisfies: it is the state of the
    accepted records, its invariant holds of them, its checkpoint was verified, a
    terminal record is final, and a completed task had what its manifest asks for. *)

From S2P Require Import Prelude Bytes ConcreteDigests Ids Utf8 Paths RootBinding Layout JournalTags Journal PayloadTypes MetadataExpansion Payload PayloadExact Verification JournalStateTypes JournalState JournalStateLogic JournalStateAtomic JournalStatePrefix PieceEvidence JournalStateInv JournalStateKeeps JournalStateTerminal JournalStateExample.
From Stdlib Require Import Init.Byte Strings.Byte.
Open Scope list_scope.

Section recovery.
Context `{Unicode, Digests, PersistedOptionPolicy}.

(** What the checkpoint of a state was checked against. *)
Definition attested (records : list JournalRecord) (ck : RecoveredCheckpoint) : Prop :=
  exists first last at_ms,
    records !! 0%nat = Some first
    /\ decode_payload first = Ok (JournalPayload.CheckpointStart (ck_checkpoint_id ck)
         (ck_source_last_sequence ck) (ck_source_segment_hash ck) (ck_state_record_count ck) at_ms)
    /\ records !! N.to_nat (1 + ck_state_record_count ck) = Some last
    /\ decode_payload last = Ok (JournalPayload.CheckpointEnd (ck_checkpoint_id ck)
         (ck_state_record_count ck) (ck_state_hash ck))
    /\ calculate_checkpoint_state_hash (slice 1 (ck_state_record_count ck) records) = Ok (ck_state_hash ck)
    /\ jr_generation last = jr_generation first.

Lemma envelope_attested first rest limits ei ck :
  checkpoint_envelope (first :: rest) first limits = Ok (ei, ck) ->
  ei = 1 + ck_state_record_count ck /\ ei < blen (first :: rest) /\ attested (first :: rest) ck.
Proof.
  unfold checkpoint_envelope. set (records := first :: rest). intros E.
  destruct (negb (jr_sequence first =? 1)); [done|].
  destruct (decode_payload first) as [[]|] eqn:Ef; try done.
  destruct (N.leb_spec (blen records) (1 + state_record_count)) as [|Hlen]; [done|].
  destruct (jl_max_records limits <=? 1 + state_record_count); [done|].
  destruct (sequence_break _ _) as [[]|]; [done|].
  destruct (calculate_checkpoint_state_hash _) as [h|] eqn:Eh; [|done].
  destruct (records !! N.to_nat (1 + state_record_count)) as [la|] eqn:El; [|done].
  destruct (decode_payload la) as [[]|] eqn:Ed; try done.
  destruct (N.eqb_spec (jr_generation la) (jr_generation first)); [|done]. cbn [negb] in E.
  case_bool_decide; [|done]. cbn [negb] in E.
  destruct (N.eqb_spec state_record_count0 state_record_count); [|done]. cbn [negb] in E.
  case_bool_decide; [|done]. injection E as <- <-. subst. cbn.
  split_and!; [done..|]. by exists first, la, created_at_unix_ms.
Qed.

(** What a recovered machine satisfies. *)
Record recovered (records : list JournalRecord) (limits : JournalStateLimits) (accepted : N)
    (m : SemanticMachine) : Prop := {
  rc_machine : machine_ok limits (upto accepted records) m;
  rc_completion : completion m;
  rc_checkpoint : forall ck, checkpoint_of m = Some ck ->
    attested records ck /\ 1 + ck_state_record_count ck < accepted;
}.

Lemma upto_blen {A} (l : list A) : upto (blen l) l = l.
Proof. unfold upto, blen. rewrite Nat2N.id. apply take_ge. lia. Qed.

Lemma process_prefix m rs a rel e x m' :
  sm_checkpoint_state m = false -> process_records m rs a rel e = (x, m') ->
  exists k m'', process_records m (upto k rs) a rel e = (Ok tt, m'') /\ sm_state m' = sm_state m''
    /\ k <= blen rs /\ match x with Ok _ => k = blen rs | Err (i, _) => i = rel + k end.
Proof.
  intros Hlive Hp. destruct x as [[]|[i err]].
  - exists (blen rs), m'. rewrite upto_blen. by split_and!.
  - apply process_stop in Hp as (k & m'' & -> & Hk & Hp & Hst); [|done]. exists k, m''. split_and!; try done. lia.
Qed.

Lemma live_recovered records task limits :
  let rp := recover_live records task limits in
  exists m, sr_state rp = sm_state m /\ recovered records limits (sr_accepted_records rp) m.
Proof.
  cbv zeta. unfold recover_live. destruct (process_records _ records 0 0 1) as [x m'] eqn:E.
  apply process_prefix in E as (k & m'' & Hp & Hst & Hk & Hx); [|done].
  assert (recovered records limits k m'') as Hrec.
  { destruct (completion_process _ _ _ _ _ _ (completion_vacuous (SemanticMachine_new task limits false None)
      eq_refl) Hp) as [Hc Hck]. split; [|done|by rewrite Hck].
    by apply (keeps_process _ limits [] _ _ _ _ _ (machine_ok_new task limits false None)) in Hp. }
  destruct x as [[]|[i err]]; cbn; exists m''; (split; [done|]); by subst.
Qed.

Lemma checkpoint_recovered first rest task limits ei ck m :
  let records := first :: rest in
  checkpoint_envelope records first limits = Ok (ei, ck) ->
  checkpoint_machine records first task limits ei ck = Ok m ->
  sm_checkpoint_state m = false /\ completion m /\ checkpoint_of m = Some ck
  /\ machine_ok limits (slice 1 (ei - 1) records) m.
Proof.
  cbv zeta. intros Ee Em. unfold checkpoint_machine in Em.
  destruct (process_records _ _ 1 0 2) as [[[]|[]] m1] eqn:Ep; [|done].
  destruct (sm_state m1) as [s|] eqn:Es; [|done]. destruct (_ || _); [done|]. destruct (negb _); [done|].
  injection Em as <-. split; [done|].
  destruct (completion_process _ _ _ _ _ _
    (completion_vacuous (SemanticMachine_new task limits true (Some (jr_generation first))) eq_refl) Ep) as [Hc _].
  split_and!; [| done |].
  - intros s' [= <-]. by apply (Hc s Es).
  - apply (keeps_process _ limits [] _ _ _ _ _ (machine_ok_new task limits true _)) in Ep. cbn [app] in Ep.
    destruct (machine_parts _ _ _ _ Ep Es) as [Hlim [] ? ? ?]. eapply parts_machine; [reflexivity|]. by split.
Qed.

Lemma checkpoint_tail_hist {A} ei k (records : list A) :
  0 < ei -> slice 1 (ei - 1) records ++ upto k (skip (ei + 1) records) ⊆ upto (ei + 1 + k) records.
Proof.
  intros He. rewrite <- skip_upto. apply list_subseteq_app_iff_l. split; [|apply subseteq_drop].
  rewrite <- (slice_upto 1 (ei - 1) (ei + 1 + k)) by lia. unfold slice.
  etrans; [apply subseteq_take|apply subseteq_drop].
Qed.

Lemma replay_recovered first rest task limits :
  let rp := recover_checkpoint (first :: rest) first task limits in
  sr_state rp = None
  \/ exists m, sr_state rp = sm_state m /\ recovered (first :: rest) limits (sr_accepted_records rp) m.
Proof.
  cbv zeta. unfold recover_checkpoint. set (records := first :: rest).
  destruct (checkpoint_envelope records first limits) as [[ei ck]|rp] eqn:Ee; cbn [mbind result_bind fst snd].
  2: { left. by eapply envelope_rejected. }
  destruct (checkpoint_machine records first task limits ei ck) as [m|rp] eqn:Em; cbn [mbind result_bind].
  2: { left. by eapply machine_rejected. }
  right. destruct (checkpoint_recovered _ _ _ _ _ _ _ Ee Em) as (Hlive & Hc & Hck & Hok).
  destruct (envelope_attested _ _ _ _ _ Ee) as (Hei & Hlen & Hat).
  destruct (process_records m _ _ 0 _) as [x m'] eqn:E.
  apply process_prefix in E as (k & m'' & Hp & Hst & Hk & Hx); [|done].
  assert (recovered records limits (ei + 1 + k) m'') as Hrec.
  { destruct (completion_process _ _ _ _ _ _ Hc Hp) as [Hc' Hck']. split; [|done|].
    - apply (keeps_process _ limits _ _ _ _ _ _ Hok) in Hp. eapply machine_mono; [|exact Hp].
      apply checkpoint_tail_hist. lia.
    - rewrite Hck', Hck. intros ? [= <-]. split; [done|lia]. }
  exists m''. destruct x as [[]|[i err]]; cbn; (split; [done|]).
  - subst k. replace (blen records) with (ei + 1 + blen (skip (ei + 1) records)); [done|].
    rewrite blen_skip. fold records in Hlen. lia.
  - subst i. by rewrite N.add_0_l.
Qed.

(** The state of every replay is that of a machine that accepted its records. *)
Lemma recover_recovered records task limits :
  let rp := recover_journal_state records task limits in
  sr_state rp = None
  \/ exists m, sr_state rp = sm_state m /\ recovered records limits (sr_accepted_records rp) m.
Proof.
  cbv zeta. destruct records as [|first rest]; [by left|]. cbn [recover_journal_state].
  case_bool_decide; [apply replay_recovered|]. right. apply live_recovered.
Qed.

End recovery.

(** ** Spans and layouts *)

Section layouts.
Context `{Unicode, DigestLaws, !PersistedOptionPolicy}.

Definition layout_input (l : RecoveredLayout) : bytes :=
  layout_preimage (fl_files (ly_layout l)) (fl_total_length (ly_layout l)) (fl_piece_length (ly_layout l)).

Lemma announced_bound hist lh t p : announced hist lh t p -> p <= U64_MAX.
Proof.
  intros (g & bh & d & i & n & c & fs & r & _ & _ & Hd).
  unfold decode_payload in Hd. apply encode_decode in Hd as (_ & Ht & _). cbn [payload_typed] in Ht. tauto.
Qed.

(** Two layouts of a history with the same hash have the same lengths. *)
Lemma admitted_lengths hist l l' :
  admitted hist l -> admitted hist l' -> ly_layout_hash l = ly_layout_hash l' ->
  (fl_total_length (ly_layout l) = fl_total_length (ly_layout l')
   /\ fl_piece_length (ly_layout l) = fl_piece_length (ly_layout l'))
  \/ collide (layout_input l) (layout_input l').
Proof.
  intros [(t & g & rb & fs & Hn) Hh _ Ha] [(t' & g' & rb' & fs' & Hn') Hh' _ Ha'] Heq. unfold layout_input.
  pose proof Hn as (-> & _)%FileLayout_new_Ok. pose proof Hn' as (-> & _)%FileLayout_new_Ok.
  eapply layout_hash_lengths; eauto using announced_bound. congruence.
Qed.

Lemma expected_span_lengths l l' p :
  fl_total_length l = fl_total_length l' -> fl_piece_length l = fl_piece_length l' ->
  expected_piece_span l p = expected_piece_span l' p.
Proof. unfold expected_piece_span. by intros -> ->. Qed.

Lemma expected_span_bound l p sp n :
  expected_piece_span l p = Ok sp -> fl_total_length l = Some n -> p * fl_piece_length l < n.
Proof.
  unfold expected_piece_span. intros (t & Ht%ok_or_Ok & E)%bind_Ok Hn. assert (t = n) as -> by congruence.
  apply bind_Ok in E as (st & Hst%ok_or_Ok & E). destruct (N.leb_spec n st); [done|].
  unfold u64_checked_mul in Hst. destruct (_ <=? _); [|done]. injection Hst as <-. lia.
Qed.

(** A piece that lies on the layout, up to a collision with the layout it was recorded for. *)
Lemma piece_span_current hist limits s l p d :
  state_ok hist limits s -> js_layout s = Some l -> js_durable_pieces s !! p = Some d ->
  expected_piece_span (ly_layout l) p = Ok (dp_piece_span d)
  \/ exists l0, admitted hist l0 /\ collide (layout_input l0) (layout_input l).
Proof.
  intros Hs Hl Hd. destruct (so_pieces _ _ _ Hs p d Hd) as (<- & (l1 & l0 & Hl1 & Ha & Hh & He) & _).
  assert (l1 = l) as -> by congruence.
  destruct (admitted_lengths hist l0 l Ha (so_layout _ _ _ Hs _ Hl) Hh) as [[Et Ep]|Hc]; [left|right; eauto].
  rewrite <- He. symmetry. by apply expected_span_lengths.
Qed.

(** A map with as many keys as there are numbers below its bound has them all. *)
Lemma full_keys {V} (m : gmap N V) n :
  (forall k, is_Some (m !! k) -> k < n) -> N.of_nat (size m) = n -> forall k, k < n -> is_Some (m !! k).
Proof.
  intros Hb Hs k Hk. apply elem_of_dom. pose (X := list_to_set (N.of_nat <$> seq 0 (N.to_nat n)) : gset N).
  assert (dom m ≡ X) as ->.
  { apply set_subseteq_size_equiv.
    - intros x [v Hv]%elem_of_dom. apply elem_of_list_to_set, list_elem_of_fmap. exists (N.to_nat x).
      split; [lia|]. apply elem_of_seq. specialize (Hb x ltac:(eauto)). lia.
    - rewrite size_dom. unfold X. rewrite size_list_to_set, length_fmap, length_seq; [lia|].
      apply NoDup_fmap; [intros ???; lia|apply NoDup_seq]. }
  apply elem_of_list_to_set, list_elem_of_fmap. exists (N.to_nat k). split; [lia|]. apply elem_of_seq. lia.
Qed.

Lemma Forall_or {A} (P : A -> Prop) (Q : Prop) l :
  Forall (fun x => P x \/ Q) l -> Forall P l \/ Q.
Proof. induction 1 as [|x l [Hx|Hq] _ [HF|HQ]]; auto. Qed.

(** As many pieces as the manifest lists chunks are all of them. *)
Lemma chunks_durable hist limits s l v len :
  state_ok hist limits s -> js_layout s = Some l -> fl_total_length (ly_layout l) = Some len ->
  js_verification_manifest s = Some v -> vm_chunks v <> [] -> matches_layout v l = true ->
  N.of_nat (size (js_durable_pieces s)) = blen (vm_chunks v) ->
  (forall p, p * fl_piece_length (ly_layout l) < len -> is_Some (js_durable_pieces s !! p))
  \/ exists l0, admitted hist l0 /\ collide (layout_input l0) (layout_input l).
Proof.
  intros Hok Hl Hlen Hv Hne [Ht%bool_decide_eq_true Hp%N.eqb_eq]%andb_true_iff Hsz.
  pose proof (mv_new _ (so_manifest _ _ _ Hok _ Hv)) as (_ & Hc & [?|Hn] & _)%VerificationManifest_new_Ok; [done|].
  assert (vm_total_length v = len) as Hvl by congruence.
  assert (Forall (fun kd : PieceId * RecoveredDurablePiece => kd.1 < blen (vm_chunks v)
    \/ exists l0, admitted hist l0 /\ collide (layout_input l0) (layout_input l))
    (map_to_list (js_durable_pieces s))) as HF.
  { apply Forall_forall. intros [k d] Hd%elem_of_map_to_list.
    destruct (piece_span_current hist limits s l k d Hok Hl Hd) as [He|]; [left|by right].
    apply expected_span_bound with (n := len) in He; [|done]. rewrite <- Hn, div_ceil_lt, Hvl by lia.
    cbn. by rewrite <- Hp. }
  apply Forall_or in HF as [HF|]; [left|by right]. intros p Hlt.
  apply (full_keys _ (blen (vm_chunks v))); [|done|].
  - intros k [d Hd%elem_of_map_to_list]. rewrite Forall_forall in HF. apply (HF _ Hd).
  - rewrite <- Hn, div_ceil_lt, Hvl by lia. by rewrite <- Hp.
Qed.

(** ** Longer journals *)

Lemma live_terminal records suffix task limits s :
  sr_state (recover_live records task limits) = Some s -> is_Some (js_terminal s) ->
  exists s', sr_state (recover_live (records ++ suffix) task limits) = Some s' /\ ended_as s s'.
Proof.
  unfold recover_live. destruct (process_records _ records 0 0 1) as [x m] eqn:E.
  destruct (process_records _ (records ++ suffix) 0 0 1) as [x' m'] eqn:E'. intros Hs Ht.
  assert (sm_state m = Some s) as Hm by (by destruct x as [[]|[]]).
  destruct (terminal_app _ _ _ _ _ _ _ _ _ _ _ (eq_refl : sm_checkpoint_state (SemanticMachine_new _ _ _ _) = false)
    E Hm Ht E') as (s' & Hs' & He). exists s'. split; [|done]. by destruct x' as [[]|[]].
Qed.

Lemma checkpoint_terminal first rest suffix task limits s :
  let records := first :: rest in
  sr_state (recover_checkpoint records first task limits) = Some s -> is_Some (js_terminal s) ->
  exists s', sr_state (recover_checkpoint (records ++ suffix) first task limits) = Some s' /\ ended_as s s'.
Proof.
  cbv zeta. unfold recover_checkpoint. set (records := first :: rest).
  destruct (checkpoint_envelope records first limits) as [[ei ck]|rp] eqn:Ee; cbn [mbind result_bind fst snd].
  2: { apply envelope_rejected in Ee as [_ ->]. done. }
  destruct (envelope_extend _ suffix _ _ _ _ Ee) as [Ee' Hei]. rewrite Ee'. cbn [mbind result_bind fst snd].
  destruct (checkpoint_machine records first task limits ei ck) as [m|rp] eqn:Em; cbn [mbind result_bind].
  2: { apply machine_rejected in Em as [_ ->]. done. }
  pose proof (envelope_positive _ _ _ _ _ Ee) as Hpos.
  assert (checkpoint_machine (records ++ suffix) first task limits ei ck = Ok m) as ->.
  { unfold checkpoint_machine in *. rewrite slice_app_l by lia. by repeat (case_match; try done). }
  destruct (checkpoint_recovered _ _ _ _ _ _ _ Ee Em) as (Hlive & _). cbn [mbind result_bind fst snd].
  assert (sequence_at (records ++ suffix) ei = sequence_at records ei) as ->.
  { unfold sequence_at. rewrite lookup_app_l by (unfold blen in Hei; lia). done. }
  assert (skip (ei + 1) (records ++ suffix) = skip (ei + 1) records ++ suffix) as ->.
  { unfold skip. rewrite skipn_app. replace (_ - _)%nat with 0%nat by (unfold blen in Hei; lia). done. }
  destruct (process_records m (skip (ei + 1) records) _ 0 _) as [x m1] eqn:E.
  destruct (process_records m (skip (ei + 1) records ++ suffix) _ 0 _) as [x' m2] eqn:E'. intros Hs Ht.
  assert (sm_state m1 = Some s) as Hm1 by (by destruct x as [[]|[]]).
  destruct (terminal_app _ _ _ _ _ _ _ _ _ _ _ Hlive E Hm1 Ht E') as (s' & Hs' & He).
  exists s'. split; [|done]. by destruct x' as [[]|[]].
Qed.

(** ** The properties *)



(** C13: A task recovered as complete with a verification manifest has what the
    manifest asks for: the layout has the recorded hash and length, no finalization
    is open, the whole-file digests were verified, and when the manifest lists
    chunks every piece of the file is durable (unless the inputs of two layout
    hashes of the journal collide). *)
Theorem complete_meets_manifest records task limits s lh len dg at_ms v :
  let rp := recover_journal_state records task limits in
  let hist := upto (sr_accepted_records rp) records in
  sr_state rp = Some s -> js_terminal s = Some (RecoveredTerminal.Complete lh len dg at_ms) ->
  js_verification_manifest s = Some v ->
  exists l, js_layout s = Some l /\ ly_layout_hash l = lh /\ fl_total_length (ly_layout l) = Some len
    /\ (forall f z, js_finalizations s !! f = Some z -> fz_done z = true)
    /\ (vm_whole v <> [] -> js_whole_file_verified s = true)
    /\ (vm_chunks v <> [] ->
        (forall p, p * fl_piece_length (ly_layout l) < len -> is_Some (js_durable_pieces s !! p))
        \/ exists l0, admitted hist l0 /\ collide (layout_input l0) (layout_input l)).
Proof.
  cbv zeta. intros Hs Ht Hv. destruct (recover_recovered records task limits) as [Hn|(m & Hm & Hr)]; [congruence|].
  rewrite Hs in Hm. symmetry in Hm. pose proof (po_state _ _ _ _ (machine_parts _ _ _ _ (rc_machine _ _ _ _ Hr) Hm)) as Hok.
  destruct (rc_completion _ _ _ _ Hr s Hm _ _ _ _ _ Ht Hv) as ((l & Hl & Hh & Hml & Hlen) & Hu & Hun).
  unfold manifest_unmet in Hun. rewrite Hv in Hun. cbn [default fmap option_fmap option_map id] in Hun.
  apply orb_false_iff in Hun as [Hw Hcs]. exists l. split_and!; [done..|by apply unfinished_spec| |].
  - intros Hne. apply andb_false_iff in Hw as [Hw%negb_false_iff%N.eqb_eq|Hw%negb_false_iff]; [|done].
    by rewrite blen_0 in Hw.
  - intros Hne. eapply chunks_durable; try done.
    apply andb_false_iff in Hcs as [Hw'%negb_false_iff%N.eqb_eq|Hw'%negb_false_iff%N.eqb_eq]; [|done].
    by rewrite blen_0 in Hw'.
Qed.

(** C14: A checkpoint a recovered state carries was verified: the first record opens
    it, the record after its state records closes it with the same identifier and
    count in the same generation, and the recorded state hash is the hash of
    exactly the state records between them. *)
Theorem recovered_checkpoint_attested records task limits s ck :
  let rp := recover_journal_state records task limits in
  sr_state rp = Some s -> js_checkpoint s = Some ck ->
  attested records ck /\ 1 + ck_state_record_count ck < sr_accepted_records rp.
Proof.
  cbv zeta. intros Hs Hck. destruct (recover_recovered records task limits) as [Hn|(m & Hm & Hr)]; [congruence|].
  apply (rc_checkpoint _ _ _ _ Hr). unfold checkpoint_of. rewrite <- Hm, Hs. done.
Qed.

(** C15: A terminal state is final: whatever records follow it in the journal, the
    recovered state is the same but for its clean-shutdown mark and its last
    sequence. *)
Theorem terminal_is_final records suffix task limits s :
  sr_state (recover_journal_state records task limits) = Some s -> is_Some (js_terminal s) ->
  exists s', sr_state (recover_journal_state (records ++ suffix) task limits) = Some s' /\ ended_as s s'.
Proof.
  destruct records as [|first rest]; [done|]. cbn [recover_journal_state app].
  case_bool_decide; [apply checkpoint_terminal|apply (live_terminal (first :: rest))].
Qed.

(** C12: A replay that stops at a record it rejects returns the state of the records
    before it: replaying just the accepted records gives the same state, and none of
    them is rejected.  A rejected record leaves no trace. *)
Theorem rejected_record_leaves_no_trace records task limits i seq e :
  let rp := recover_journal_state records task limits in
  let accepted := recover_journal_state (upto (sr_accepted_records rp) records) task limits in
  sr_stop rp = JournalStateStop.InvalidRecord i seq e ->
  sr_state rp = sr_state accepted
  /\ forall i' seq' e', sr_stop accepted <> JournalStateStop.InvalidRecord i' seq' e'.
Proof.
  cbv zeta. destruct records as [|first rest]; [done|]. intros Hst. cbn [recover_journal_state] in Hst.
  assert (prefix_state (first :: rest) task limits (recover_journal_state (first :: rest) task limits))
    as (m & H2' & H3' & H4'); [|split; [congruence|done]].
  cbn [recover_journal_state]. revert Hst. case_bool_decide.
  - by apply recover_checkpoint_prefix.
  - by apply recover_live_prefix.
Qed.
End layouts.

(** The list of error codes has the code of every error but one. *)
Lemma error_codes_listed e :
  JournalStateError_code e ∈ ALL_JOURNAL_STATE_ERROR_CODES <-> e <> JournalStateError.InvalidHostKeyState.
Proof.
  split; [intros Hin ->; revert Hin; apply (bool_decide_eq_false _); vm_compute; reflexivity|].
  intros He. apply (bool_decide_eq_true _). destruct e; try done; vm_compute; reflexivity.
Qed.

(** ** The properties at the example history *)

#[local] Existing Instance concrete_digests.
#[local] Existing Instance concrete_digest_laws.
#[local] Existing Instance plain_unicode.
#[local] Existing Instance any_option.

#[local] Instance DurablePieceOrigin_eq_dec : EqDecision DurablePieceOrigin.
Proof. solve_decision. Defined.
#[local] Instance RecoveredDurablePiece_eq_dec : EqDecision RecoveredDurablePiece.
Proof. solve_decision. Defined.
#[local] Instance RecoveredTerminal_eq_dec : EqDecision RecoveredTerminal.
Proof. solve_decision. Defined.
#[local] Instance VerificationManifest_eq_dec : EqDecision VerificationManifest.
Proof. solve_decision. Defined.

Notation replay_story := (recover_journal_state story 1 JournalStateLimits_default).

Lemma replayed {A} (o : option A) (P : A -> bool) :
  (match o with Some a => P a | None => false end) = true -> exists a, o = Some a /\ P a = true.
Proof. destruct o as [a|]; [|done]. intros Ha. by exists a. Qed.

Lemma story_accepted : upto (sr_accepted_records replay_story) story = story.
Proof. vm_compute. reflexivity. Qed.



Lemma complete_meets_manifest_witness :
  exists s l, sr_state replay_story = Some s /\ js_layout s = Some l
    /\ ((forall p, p * fl_piece_length (ly_layout l) < 10 -> is_Some (js_durable_pieces s !! p))
        \/ exists l0, admitted story l0 /\ collide (layout_input l0) (layout_input l)).
Proof.
  destruct (replayed (sr_state replay_story) (fun s => bool_decide (js_terminal s
    = Some (RecoveredTerminal.Complete (ly_layout_hash story_layout) 10 None 99)
    /\ js_verification_manifest s = Some story_manifest)))
    as (s & Hs & [Ht Hv]%bool_decide_eq_true); [vm_compute; reflexivity|].
  destruct (complete_meets_manifest story 1 JournalStateLimits_default s _ _ _ _ _ Hs Ht Hv)
    as (l & Hl & _ & _ & _ & _ & Hp). exists s, l. split_and!; [done..|].
  rewrite <- story_accepted. apply Hp. discriminate.
Defined.

Lemma recovered_checkpoint_attested_witness :
  exists s ck, sr_state (recover_journal_state compact_story 1 JournalStateLimits_default) = Some s
    /\ js_checkpoint s = Some ck /\ attested compact_story ck.
Proof.
  destruct (replayed (sr_state (recover_journal_state compact_story 1 JournalStateLimits_default))
    (fun s => is_some (js_checkpoint s))) as (s & Hs & Hc); [vm_compute; reflexivity|].
  destruct (js_checkpoint s) as [ck|] eqn:Hck; [|done]. exists s, ck. split_and!; [done..|].
  apply (recovered_checkpoint_attested compact_story 1 JournalStateLimits_default s ck Hs Hck).
Defined.

Lemma terminal_is_final_witness :
  exists s s', sr_state (recover_journal_state (upto 16 story) 1 JournalStateLimits_default) = Some s
    /\ sr_state (recover_journal_state (upto 16 story ++ skip 16 story) 1 JournalStateLimits_default) = Some s'
    /\ ended_as s s'.
Proof.
  destruct (replayed (sr_state (recover_journal_state (upto 16 story) 1 JournalStateLimits_default))
    (fun s => is_some (js_terminal s))) as (s & Hs & Ht%is_some_true); [vm_compute; reflexivity|].
  destruct (terminal_is_final (upto 16 story) (skip 16 story) 1 JournalStateLimits_default s Hs Ht)
    as (s' & Hs' & He). exists s, s'. split_and!; [exact Hs|exact Hs'|exact He].
Defined.

Lemma rejected_record_leaves_no_trace_witness :
  let records := upto 15 story ++ upto 1 story in
  let rp := recover_journal_state records 1 JournalStateLimits_default in
  sr_state rp
  = sr_state (recover_journal_state (upto (sr_accepted_records rp) records) 1 JournalStateLimits_default).
Proof.
  refine (proj1 (rejected_record_leaves_no_trace (upto 15 story ++ upto 1 story) 1 JournalStateLimits_default
    15 1 (JournalStateError.SequenceMismatch 16 1) _)). vm_compute. reflexivity.
Defined.
