(* ===== verification/Rate.v ===== *)
(** * Rate admission

    Model of [crates/ariax-runtime/src/rate.rs]: token buckets for the whole
    process, a host, a task and a stream, atomic reservations along a path, the
    queue of waiting streams, and permits that are settled or dropped.

    Instants and durations are nanoseconds.  The mutex serializes the operations,
    so each is a function of the state under the lock and of the [now] it read;
    [acquire] is the loop of its turns, and dropping its future removes the waiter. *)

From S2P Require Import Prelude.
Open Scope list_scope.

(** ** Integers of the buckets *)

Definition U128_MAX : N := 2 ^ 128 - 1.
Definition I128_MAX : Z := 2 ^ 127 - 1.
Definition I128_MIN : Z := - 2 ^ 127.
Definition i128_clamp (z : Z) : Z := Z.max I128_MIN (Z.min I128_MAX z).
Definition i128_saturating_add (a b : Z) : Z := i128_clamp (a + b).
Definition i128_saturating_sub (a b : Z) : Z := i128_clamp (a - b).
Definition i128_saturating_neg (a : Z) : Z := i128_clamp (- a).
Definition u128_saturating_add (a b : N) : N := N.min (a + b) U128_MAX.
Definition u128_saturating_mul (a b : N) : N := N.min (a * b) U128_MAX.

(** [i128::try_from(u128).unwrap_or(i128::MAX)] and the conversions to unsigned types. *)
Definition i128_of (n : N) : Z := Z.min (Z.of_N n) I128_MAX.
Definition u64_of (z : Z) : N := N.min (Z.to_N z) U64_MAX.

(** ** Limits and configuration *)

Definition DEFAULT_RATE_QUANTUM_BYTES : N := 64 * 1024.
Definition MAX_RATE_QUANTUM_BYTES : N := 1024 * 1024.
Definition DEFAULT_RATE_MAX_WAITERS : N := 100000.
Definition MAX_RATE_WAITERS : N := 100000.
Definition MAX_RATE_TRACKED_SCOPES : N := 300000.
Definition MAX_RATE_BURST_BYTES : N := 4 * 1024 * 1024.
Definition NANOS_PER_SEC : N := 1000000000.

Module RateDirection.
Inductive RateDirection : Set := Download | Upload.
End RateDirection.
Notation RateDirection := RateDirection.RateDirection.

Definition RateDirection_code (self : RateDirection) : string :=
  match self with
  | RateDirection.Download => "download"
  | RateDirection.Upload => "upload"
  end.

Record RateLimit : Set := mkRateLimit { rl_bytes_per_second : N; rl_burst_bytes : N }.
#[global] Instance RateLimit_eq_dec : EqDecision RateLimit.
Proof. solve_decision. Defined.

Definition RateLimit_unlimited : RateLimit := {| rl_bytes_per_second := 0; rl_burst_bytes := 0 |}.

Definition RateLimit_per_second (bytes_per_second : N) : RateLimit :=
  if bytes_per_second =? 0 then RateLimit_unlimited
  else {| rl_bytes_per_second := bytes_per_second;
          rl_burst_bytes := if MAX_RATE_BURST_BYTES <? bytes_per_second then MAX_RATE_BURST_BYTES
                            else bytes_per_second |}.

Definition RateLimit_is_unlimited (self : RateLimit) : bool := rl_bytes_per_second self =? 0.

Definition RateLimit_validate (self : RateLimit) : bool :=
  ((rl_bytes_per_second self =? 0) && (rl_burst_bytes self =? 0))
  || (negb (rl_bytes_per_second self =? 0) && negb (rl_burst_bytes self =? 0)
      && (rl_burst_bytes self <=? MAX_RATE_BURST_BYTES)).

Record RatePath : Set := mkRatePath { rp_host : N; rp_task : N; rp_stream : N }.
#[global] Instance RatePath_eq_dec : EqDecision RatePath.
Proof. solve_decision. Defined.

Record RateArbiterConfig : Set := mkRateArbiterConfig {
  rc_global : RateLimit;
  rc_default_host : RateLimit;
  rc_default_task : RateLimit;
  rc_default_stream : RateLimit;
  rc_quantum_bytes : N;
  rc_max_waiters : N;
}.
#[global] Instance RateArbiterConfig_eta : Settable RateArbiterConfig := fun c =>
  mkRateArbiterConfig (rc_global c) (rc_default_host c) (rc_default_task c) (rc_default_stream c)
    (rc_quantum_bytes c) (rc_max_waiters c).
#[global] Instance rc_global_set : Setter rc_global. Proof. derive_setter. Defined.

Definition RateArbiterConfig_default : RateArbiterConfig := {|
  rc_global := RateLimit_unlimited;
  rc_default_host := RateLimit_unlimited;
  rc_default_task := RateLimit_unlimited;
  rc_default_stream := RateLimit_unlimited;
  rc_quantum_bytes := DEFAULT_RATE_QUANTUM_BYTES;
  rc_max_waiters := DEFAULT_RATE_MAX_WAITERS;
|}.

Module RateArbiterError.
Inductive RateArbiterError : Set :=
| InvalidConfig | ZeroReservation | WaiterLimit | TrackedScopeLimit.
End RateArbiterError.
Notation RateArbiterError := RateArbiterError.RateArbiterError.

Definition RateArbiterError_code (self : RateArbiterError) : string :=
  match self with
  | RateArbiterError.InvalidConfig => "invalid_rate_arbiter_config"
  | RateArbiterError.ZeroReservation => "zero_rate_reservation"
  | RateArbiterError.WaiterLimit => "rate_waiter_limit"
  | RateArbiterError.TrackedScopeLimit => "rate_tracked_scope_limit"
  end.

Definition RateArbiterConfig_validate (self : RateArbiterConfig) : result RateArbiterError RateArbiterConfig :=
  if negb (RateLimit_validate (rc_global self))
     || negb (RateLimit_validate (rc_default_host self))
     || negb (RateLimit_validate (rc_default_task self))
     || negb (RateLimit_validate (rc_default_stream self))
     || (MAX_RATE_QUANTUM_BYTES <? rc_quantum_bytes self)
     || (MAX_RATE_WAITERS <? rc_max_waiters self)
  then Err RateArbiterError.InvalidConfig
  else Ok self.

(** ** Buckets *)

Record Bucket : Set := mkBucket {
  bk_limit : RateLimit;
  bk_tokens : Z;
  bk_remainder : N;
  bk_updated_at : N;
}.
#[global] Instance Bucket_eta : Settable Bucket := fun b =>
  mkBucket (bk_limit b) (bk_tokens b) (bk_remainder b) (bk_updated_at b).
#[global] Instance bk_limit_set : Setter bk_limit. Proof. derive_setter. Defined.
#[global] Instance bk_tokens_set : Setter bk_tokens. Proof. derive_setter. Defined.
#[global] Instance bk_remainder_set : Setter bk_remainder. Proof. derive_setter. Defined.
#[global] Instance bk_updated_at_set : Setter bk_updated_at. Proof. derive_setter. Defined.

Definition Bucket_new (limit : RateLimit) (now : N) : Bucket := {|
  bk_limit := limit;
  bk_tokens := Z.of_N (rl_burst_bytes limit);
  bk_remainder := 0;
  bk_updated_at := now;
|}.

Definition Bucket_refill (now : N) (self : Bucket) : Bucket :=
  if RateLimit_is_unlimited (bk_limit self) then self <| bk_updated_at := now |>
  else
    let elapsed := now - bk_updated_at self in
    let numerator := u128_saturating_add
      (u128_saturating_mul (rl_bytes_per_second (bk_limit self)) elapsed) (bk_remainder self) in
    let added := i128_of (numerator / NANOS_PER_SEC) in
    {| bk_limit := bk_limit self;
       bk_tokens := Z.min (i128_saturating_add (bk_tokens self) added)
                      (Z.of_N (rl_burst_bytes (bk_limit self)));
       bk_remainder := numerator mod NANOS_PER_SEC;
       bk_updated_at := now |}.

Definition Bucket_reconfigure (limit : RateLimit) (now : N) (self : Bucket) : Bucket :=
  let self := Bucket_refill now self in
  {| bk_limit := limit;
     bk_tokens := if RateLimit_is_unlimited limit then 0%Z
                  else Z.min (bk_tokens self) (Z.of_N (rl_burst_bytes limit));
     bk_remainder := 0;
     bk_updated_at := now |}.

Definition Bucket_available (self : Bucket) : N :=
  if RateLimit_is_unlimited (bk_limit self) then U64_MAX else u64_of (Z.max (bk_tokens self) 0).

Definition Bucket_reserve (bytes : N) (self : Bucket) : Bucket :=
  if RateLimit_is_unlimited (bk_limit self) then self
  else self <| bk_tokens := i128_saturating_sub (bk_tokens self) (i128_of bytes) |>.

Definition Bucket_refund (bytes : N) (self : Bucket) : Bucket :=
  if RateLimit_is_unlimited (bk_limit self) then self
  else self <| bk_tokens := Z.min (i128_saturating_add (bk_tokens self) (i128_of bytes))
                              (Z.of_N (rl_burst_bytes (bk_limit self))) |>.

Definition Bucket_debt (self : Bucket) : N :=
  if (0 <=? bk_tokens self)%Z then 0 else u64_of (i128_saturating_neg (bk_tokens self)).

Definition Bucket_delay_until_one (self : Bucket) : N :=
  if RateLimit_is_unlimited (bk_limit self) || (1 <=? bk_tokens self)%Z then 0
  else
    let needed := Z.to_N (i128_saturating_add (i128_saturating_neg (bk_tokens self)) 1) in
    let rate := rl_bytes_per_second (bk_limit self) in
    let nanos := u128_saturating_add (u128_saturating_mul needed NANOS_PER_SEC) (rate - 1) / rate in
    N.min nanos U64_MAX.

(** ** The state of an arbiter *)

Record BucketEntry : Set := mkBucketEntry { be_bucket : Bucket; be_explicit : bool }.
Record Waiter : Set := mkWaiter { w_id : N; w_path : RatePath; w_requested : N }.
Record Grant : Set := mkGrant { g_path : RatePath; g_bytes : N }.

Record RateArbiterState : Type := mkRateArbiterState {
  ra_global_suspended : bool;
  ra_config : RateArbiterConfig;
  ra_global : Bucket;
  ra_hosts : gmap N BucketEntry;
  ra_tasks : gmap N BucketEntry;
  ra_streams : gmap (N * N) BucketEntry;
  ra_waiters : list Waiter;
  ra_grants : gmap N Grant;
  ra_next_waiter_id : N;
}.
#[global] Instance RateArbiterState_eta : Settable RateArbiterState := fun s =>
  mkRateArbiterState (ra_global_suspended s) (ra_config s) (ra_global s) (ra_hosts s) (ra_tasks s)
    (ra_streams s) (ra_waiters s) (ra_grants s) (ra_next_waiter_id s).
#[global] Instance ra_global_suspended_set : Setter ra_global_suspended. Proof. derive_setter. Defined.
#[global] Instance ra_config_set : Setter ra_config. Proof. derive_setter. Defined.
#[global] Instance ra_global_set : Setter ra_global. Proof. derive_setter. Defined.
#[global] Instance ra_hosts_set : Setter ra_hosts. Proof. derive_setter. Defined.
#[global] Instance ra_tasks_set : Setter ra_tasks. Proof. derive_setter. Defined.
#[global] Instance ra_streams_set : Setter ra_streams. Proof. derive_setter. Defined.
#[global] Instance ra_waiters_set : Setter ra_waiters. Proof. derive_setter. Defined.
#[global] Instance ra_grants_set : Setter ra_grants. Proof. derive_setter. Defined.
#[global] Instance ra_next_waiter_id_set : Setter ra_next_waiter_id. Proof. derive_setter. Defined.

Definition RateArbiterState_new (config : RateArbiterConfig) (now : N) : RateArbiterState := {|
  ra_global_suspended := false;
  ra_config := config;
  ra_global := Bucket_new (rc_global config) now;
  ra_hosts := ∅;
  ra_tasks := ∅;
  ra_streams := ∅;
  ra_waiters := [];
  ra_grants := ∅;
  ra_next_waiter_id := 1;
|}.

Definition tracked_scopes (self : RateArbiterState) : N :=
  N.of_nat (size (ra_hosts self)) + N.of_nat (size (ra_tasks self)) + N.of_nat (size (ra_streams self)).

(** [map.entry(key).or_insert_with(..)]. *)
Definition or_insert `{Countable K} {A} (key : K) (x : A) (m : gmap K A) : gmap K A :=
  match m !! key with Some _ => m | None => <[key := x]> m end.

Definition missing `{Countable K} {A} (key : K) (m : gmap K A) : N :=
  if is_some (m !! key) then 0 else 1.

Definition ensure_path (path : RatePath) (now : N) (self : RateArbiterState)
    : result RateArbiterError RateArbiterState :=
  let stream := (rp_task path, rp_stream path) in
  let missing := missing (rp_host path) (ra_hosts self) + missing (rp_task path) (ra_tasks self)
                 + missing stream (ra_streams self) in
  if MAX_RATE_TRACKED_SCOPES <? N.min (tracked_scopes self + missing) USIZE_MAX
  then Err RateArbiterError.TrackedScopeLimit
  else
    let entry limit := mkBucketEntry (Bucket_new limit now) false in
    Ok (self
      <| ra_hosts := or_insert (rp_host path) (entry (rc_default_host (ra_config self))) (ra_hosts self) |>
      <| ra_tasks := or_insert (rp_task path) (entry (rc_default_task (ra_config self))) (ra_tasks self) |>
      <| ra_streams := or_insert stream (entry (rc_default_stream (ra_config self))) (ra_streams self) |>).

(** The same change to every bucket of a path; [if let Some(entry) = map.get_mut(..)]. *)
Definition on_bucket (f : Bucket -> Bucket) (entry : BucketEntry) : BucketEntry :=
  mkBucketEntry (f (be_bucket entry)) (be_explicit entry).
Definition on_path (f : Bucket -> Bucket) (path : RatePath) (self : RateArbiterState) : RateArbiterState :=
  self
    <| ra_global := f (ra_global self) |>
    <| ra_hosts := alter (on_bucket f) (rp_host path) (ra_hosts self) |>
    <| ra_tasks := alter (on_bucket f) (rp_task path) (ra_tasks self) |>
    <| ra_streams := alter (on_bucket f) (rp_task path, rp_stream path) (ra_streams self) |>.

(** [map.get(..).map_or(default, |entry| f(entry.bucket))] along a path. *)
Definition along_path (f : Bucket -> N) (d : N) (path : RatePath) (self : RateArbiterState) : list N :=
  let value (entry : option BucketEntry) := default d ((fun e => f (be_bucket e)) <$> entry) in
  [f (ra_global self); value (ra_hosts self !! rp_host path); value (ra_tasks self !! rp_task path);
   value (ra_streams self !! (rp_task path, rp_stream path))].

Definition refill_path (path : RatePath) (now : N) (self : RateArbiterState) : RateArbiterState :=
  on_path (Bucket_refill now) path self.

Definition available_for (path : RatePath) (now : N) (self : RateArbiterState) : N * RateArbiterState :=
  if ra_global_suspended self then (0, self)
  else
    let self := refill_path path now self in
    (foldr N.min U64_MAX (along_path Bucket_available U64_MAX path self), self).

Definition RateArbiterState_reserve (path : RatePath) (bytes now : N) (self : RateArbiterState)
    : RateArbiterState :=
  on_path (Bucket_reserve bytes) path (refill_path path now self).

Definition RateArbiterState_refund (path : RatePath) (bytes now : N) (self : RateArbiterState)
    : RateArbiterState :=
  on_path (Bucket_refund bytes) path (refill_path path now self).

Definition charge_extra (path : RatePath) (bytes now : N) (self : RateArbiterState) : RateArbiterState :=
  RateArbiterState_reserve path bytes now self.

Definition debt_for (path : RatePath) (now : N) (self : RateArbiterState) : N * RateArbiterState :=
  let self := refill_path path now self in
  (foldr N.max 0 (along_path Bucket_debt 0 path self), self).

Definition next_delay_for (path : RatePath) (now : N) (self : RateArbiterState) : N * RateArbiterState :=
  if ra_global_suspended self then (3600 * NANOS_PER_SEC, self)
  else
    let self := refill_path path now self in
    (foldr N.max 0 (along_path Bucket_delay_until_one 0 path self), self).

(** ** Waiting streams *)

Definition enqueue (path : RatePath) (requested : N) (self : RateArbiterState)
    : result RateArbiterError (N * RateArbiterState) :=
  if rc_max_waiters (ra_config self) <=? N.of_nat (length (ra_waiters self))
  then Err RateArbiterError.WaiterLimit
  else
    let id := ra_next_waiter_id self in
    Ok (id, self
      <| ra_next_waiter_id := default 1 (u64_checked_add id 1) |>
      <| ra_waiters := ra_waiters self ++ [mkWaiter id path requested] |>).

(** One turn of the queue: the first waiter gets its quantum or goes to the back. *)
Definition dispatch_turn (now : N) (st : option N * bool * RateArbiterState)
    : option N * bool * RateArbiterState :=
  let '(next_delay, granted_any, self) := st in
  match ra_waiters self with
  | [] => st
  | waiter :: waiters =>
    let self := self <| ra_waiters := waiters |> in
    let '(available, self) := available_for (w_path waiter) now self in
    let requested := N.min (w_requested waiter) (rc_quantum_bytes (ra_config self)) in
    let grant := N.min requested (N.min available USIZE_MAX) in
    if negb (grant =? 0)
    then
      let self := RateArbiterState_reserve (w_path waiter) grant now self in
      (next_delay, true,
       self <| ra_grants := <[w_id waiter := mkGrant (w_path waiter) grant]> (ra_grants self) |>)
    else
      let '(delay, self) := next_delay_for (w_path waiter) now self in
      (Some (match next_delay with Some existing => N.min existing delay | None => delay end), granted_any,
       self <| ra_waiters := ra_waiters self ++ [waiter] |>)
  end.

Definition dispatch (now : N) (self : RateArbiterState) : option N * bool * RateArbiterState :=
  Nat.iter (length (ra_waiters self)) (dispatch_turn now) (None, false, self).

(** [waiters.iter().position(..)] and [remove(index)]. *)
Fixpoint remove_first (id : N) (waiters : list Waiter) : list Waiter :=
  match waiters with
  | [] => []
  | waiter :: waiters =>
    if w_id waiter =? id then waiters else waiter :: remove_first id waiters
  end.

Definition remove_waiter (id now : N) (self : RateArbiterState) : RateArbiterState :=
  let self := self <| ra_waiters := remove_first id (ra_waiters self) |> in
  match ra_grants self !! id with
  | Some grant =>
    RateArbiterState_refund (g_path grant) (g_bytes grant) now
      (self <| ra_grants := delete id (ra_grants self) |>)
  | None => self
  end.

(** ** Limits of a running arbiter *)

Definition reconfigure_default (limit : RateLimit) (now : N) (entry : BucketEntry) : BucketEntry :=
  if be_explicit entry then entry else on_bucket (Bucket_reconfigure limit now) entry.

Definition RateArbiterState_reconfigure (config : RateArbiterConfig) (now : N) (self : RateArbiterState)
    : RateArbiterState :=
  self
    <| ra_global_suspended := false |>
    <| ra_global := Bucket_reconfigure (rc_global config) now (ra_global self) |>
    <| ra_hosts := reconfigure_default (rc_default_host config) now <$> ra_hosts self |>
    <| ra_tasks := reconfigure_default (rc_default_task config) now <$> ra_tasks self |>
    <| ra_streams := reconfigure_default (rc_default_stream config) now <$> ra_streams self |>
    <| ra_config := config |>.

Module RateScope.
Inductive RateScope : Set :=
| Host (key : N)
| Task (key : N)
| Stream (task stream : N).
End RateScope.
Notation RateScope := RateScope.RateScope.

Definition set_limit_entry `{Countable K} (map : gmap K BucketEntry) (key : K) (tracked : N)
    (limit : RateLimit) (now : N) : result RateArbiterError (gmap K BucketEntry) :=
  if negb (is_some (map !! key)) && (MAX_RATE_TRACKED_SCOPES <=? tracked)
  then Err RateArbiterError.TrackedScopeLimit
  else Ok (match map !! key with
    | Some entry => <[key := mkBucketEntry (Bucket_reconfigure limit now (be_bucket entry)) true]> map
    | None => <[key := mkBucketEntry (Bucket_new limit now) true]> map
    end).

Definition RateArbiterState_set_scoped_limit (scope : RateScope) (limit : RateLimit) (now : N)
    (self : RateArbiterState) : result RateArbiterError RateArbiterState :=
  if negb (RateLimit_validate limit) then Err RateArbiterError.InvalidConfig
  else
    let tracked := tracked_scopes self in
    match scope with
    | RateScope.Host key =>
      map ← set_limit_entry (ra_hosts self) key tracked limit now; Ok (self <| ra_hosts := map |>)
    | RateScope.Task key =>
      map ← set_limit_entry (ra_tasks self) key tracked limit now; Ok (self <| ra_tasks := map |>)
    | RateScope.Stream task stream =>
      map ← set_limit_entry (ra_streams self) (task, stream) tracked limit now;
      Ok (self <| ra_streams := map |>)
    end.

Definition contains_scope (scope : RateScope) (self : RateArbiterState) : bool :=
  match scope with
  | RateScope.Host key => is_some (ra_hosts self !! key)
  | RateScope.Task key => is_some (ra_tasks self !! key)
  | RateScope.Stream task stream => is_some (ra_streams self !! (task, stream))
  end.

(** [entry.expect(..)] is the [None] of the result. *)
Definition PreparedRateLimit_apply (scope : RateScope) (limit : RateLimit) (now : N)
    (self : RateArbiterState) : option RateArbiterState :=
  let put (entry : BucketEntry) := mkBucketEntry (Bucket_reconfigure limit now (be_bucket entry)) true in
  if contains_scope scope self
  then Some (match scope with
    | RateScope.Host key => self <| ra_hosts := alter put key (ra_hosts self) |>
    | RateScope.Task key => self <| ra_tasks := alter put key (ra_tasks self) |>
    | RateScope.Stream task stream => self <| ra_streams := alter put (task, stream) (ra_streams self) |>
    end)
  else None.

(** ** The operations of an arbiter, each under its lock *)

Definition RateArbiter_new (config : RateArbiterConfig) (now : N) : result RateArbiterError RateArbiterState :=
  config ← RateArbiterConfig_validate config;
  Ok (RateArbiterState_new config now).

Definition RateArbiter_reconfigure (config : RateArbiterConfig) (now : N) (self : RateArbiterState)
    : result RateArbiterError RateArbiterState :=
  config ← RateArbiterConfig_validate config;
  Ok (RateArbiterState_reconfigure config now self).

Definition set_global_allocation (bytes_per_second : option N) (now : N) (self : RateArbiterState)
    : RateArbiterState :=
  let limit := RateLimit_per_second (default 0 bytes_per_second) in
  self
    <| ra_global_suspended := bytes_per_second == Some 0 |>
    <| ra_global := Bucket_reconfigure limit now (ra_global self) |>
    <| ra_config := ra_config self <| rc_global := limit |> |>.

Definition set_global_limit (limit : RateLimit) (now : N) (self : RateArbiterState)
    : result RateArbiterError RateArbiterState :=
  if negb (RateLimit_validate limit) then Err RateArbiterError.InvalidConfig
  else Ok (self
    <| ra_global_suspended := false |>
    <| ra_global := Bucket_reconfigure limit now (ra_global self) |>
    <| ra_config := ra_config self <| rc_global := limit |> |>).

Definition prepare_scoped_limit (scope : RateScope) (limit : RateLimit) (self : RateArbiterState)
    : result RateArbiterError (option (RateScope * RateLimit)) :=
  if negb (RateLimit_validate limit) then Err RateArbiterError.InvalidConfig
  else Ok (if contains_scope scope self then Some (scope, limit) else None).

(** A move-only reservation. *)
Record RatePermit : Set := mkRatePermit { pt_path : RatePath; pt_reserved : N }.

Definition RateArbiter_try_acquire (path : RatePath) (requested now : N) (self : RateArbiterState)
    : result RateArbiterError (option RatePermit * RateArbiterState) :=
  self ← ensure_path path now self;
  if negb (N.of_nat (length (ra_waiters self)) =? 0) then Ok (None, self)
  else
    let '(available, self) := available_for path now self in
    let bytes := N.min (N.min requested (rc_quantum_bytes (ra_config self))) (N.min available USIZE_MAX) in
    if bytes =? 0 then Ok (None, self)
    else Ok (Some (mkRatePermit path bytes), RateArbiterState_reserve path bytes now self).

(** What a turn of [acquire] leaves: the permit, or the registration and the wait. *)
Inductive AcquireTurn : Set :=
| Acquired (permit : RatePermit)
| Waiting (id wait : N) (notify : bool).

Definition acquire_turn (path : RatePath) (requested : N) (registration : option N) (now : N)
    (self : RateArbiterState) : result RateArbiterError AcquireTurn * RateArbiterState :=
  match ensure_path path now self with
  | Err error => (Err error, self)
  | Ok self =>
    match (match registration with
           | Some id => Ok (id, self)
           | None => enqueue path requested self
           end) with
    | Err error => (Err error, self)
    | Ok (id, self) =>
      let '(wait, granted_any, self) := dispatch now self in
      match ra_grants self !! id with
      | Some grant =>
        (Ok (Acquired (mkRatePermit (g_path grant) (g_bytes grant))),
         self <| ra_grants := delete id (ra_grants self) |>)
      | None => (Ok (Waiting id (N.max (default 1000000 wait) 1000000) granted_any), self)
      end
    end
  end.

Record RateCharge : Set := mkRateCharge {
  ch_accepted_bytes : N;
  ch_reserved_bytes : N;
  ch_debt_bytes : N;
}.

Definition RatePermit_settle (permit : RatePermit) (accepted_bytes now : N) (self : RateArbiterState)
    : RateCharge * RateArbiterState :=
  let reserved := pt_reserved permit in
  let self :=
    if accepted_bytes <? reserved
    then RateArbiterState_refund (pt_path permit) (reserved - accepted_bytes) now self
    else if reserved <? accepted_bytes
    then charge_extra (pt_path permit) (accepted_bytes - reserved) now self
    else self in
  let '(debt, self) := debt_for (pt_path permit) now self in
  (mkRateCharge accepted_bytes reserved debt, self).

(** [Drop] of a permit that was not settled, and of a registration. *)
Definition RatePermit_drop (permit : RatePermit) (now : N) (self : RateArbiterState) : RateArbiterState :=
  RateArbiterState_refund (pt_path permit) (pt_reserved permit) now self.
Definition RateWaiterRegistration_drop (id : option N) (now : N) (self : RateArbiterState)
    : RateArbiterState :=
  match id with Some id => remove_waiter id now self | None => self end.

Record RateArbiterStats : Set := mkRateArbiterStats {
  rs_queued_waiters : N;
  rs_pending_grants : N;
  rs_tracked_scopes : N;
  rs_global_available_bytes : N;
  rs_global_debt_bytes : N;
}.
Definition stats (now : N) (self : RateArbiterState) : RateArbiterStats * RateArbiterState :=
  let self := self <| ra_global := Bucket_refill now (ra_global self) |> in
  ({| rs_queued_waiters := N.of_nat (length (ra_waiters self));
      rs_pending_grants := N.of_nat (size (ra_grants self));
      rs_tracked_scopes := tracked_scopes self;
      rs_global_available_bytes := Bucket_available (ra_global self);
      rs_global_debt_bytes := Bucket_debt (ra_global self) |}, self).
