(* ===== verification/RateRun.v ===== *)
(** * Runs of a rate arbiter

    The arbiter with the permits it handed out and the history of settlements, one
    executable step per operation, and the accounting of a bucket along a run. *)

From S2P Require Import Prelude Rate.
From Stdlib Require Import ZArith.
Open Scope list_scope.

(** ** Systems and operations *)

Record RateSystem : Type := mkRateSystem {
  sy_state : RateArbiterState;
  sy_permits : list RatePermit;
  sy_settled : list (RatePermit * N);
}.

Inductive RateOp : Type :=
| OpTryAcquire (path : RatePath) (requested : N)
| OpAcquireTurn (path : RatePath) (requested : N) (registration : option N)
| OpCancelWait (registration : option N)
| OpSettle (index : nat) (accepted : N)
| OpDrop (index : nat)
| OpStats
| OpReconfigure (config : RateArbiterConfig)
| OpGlobalAllocation (bytes_per_second : option N)
| OpGlobalLimit (limit : RateLimit)
| OpScopedLimit (scope : RateScope) (limit : RateLimit)
| OpApplyPrepared (scope : RateScope) (limit : RateLimit).

(** An operation that fails leaves the arbiter; one on a permit that does not
    exist, or on a scope that was never prepared, is no operation of the program. *)
Definition rate_step (op : RateOp) (now : N) (sys : RateSystem) : option RateSystem :=
  let 'mkRateSystem s permits settled := sys in
  let keep s := Some (mkRateSystem s permits settled) in
  let done {E} (r : result E RateArbiterState) := keep (match r with Ok s' => s' | Err _ => s end) in
  match op with
  | OpTryAcquire path requested =>
    Some (match RateArbiter_try_acquire path requested now s with
          | Ok (Some permit, s) => mkRateSystem s (permit :: permits) settled
          | Ok (None, s) => mkRateSystem s permits settled
          | Err _ => sys
          end)
  | OpAcquireTurn path requested registration =>
    Some (match acquire_turn path requested registration now s with
          | (Ok (Acquired permit), s) => mkRateSystem s (permit :: permits) settled
          | (_, s) => mkRateSystem s permits settled
          end)
  | OpCancelWait registration => keep (RateWaiterRegistration_drop registration now s)
  | OpSettle index accepted =>
    permit ← permits !! index;
    Some (mkRateSystem (RatePermit_settle permit accepted now s).2 (delete index permits)
            ((permit, accepted) :: settled))
  | OpDrop index =>
    permit ← permits !! index;
    Some (mkRateSystem (RatePermit_drop permit now s) (delete index permits) settled)
  | OpStats => keep (stats now s).2
  | OpReconfigure config => done (RateArbiter_reconfigure config now s)
  | OpGlobalAllocation bytes_per_second => keep (set_global_allocation bytes_per_second now s)
  | OpGlobalLimit limit => done (set_global_limit limit now s)
  | OpScopedLimit scope limit => done (RateArbiterState_set_scoped_limit scope limit now s)
  | OpApplyPrepared scope limit =>
    s ← PreparedRateLimit_apply scope limit now s; keep s
  end.

Fixpoint rate_run (ops : list (RateOp * N)) (sys : RateSystem) : option RateSystem :=
  match ops with
  | [] => Some sys
  | (op, now) :: ops => sys ← rate_step op now sys; rate_run ops sys
  end.

(** ** The account of a bucket *)

(** A bucket of the hierarchy; [None] is the global one. *)
Definition bucket_of (scope : option RateScope) (s : RateArbiterState) : option Bucket :=
  match scope with
  | None => Some (ra_global s)
  | Some (RateScope.Host key) => be_bucket <$> ra_hosts s !! key
  | Some (RateScope.Task key) => be_bucket <$> ra_tasks s !! key
  | Some (RateScope.Stream task stream) => be_bucket <$> ra_streams s !! (task, stream)
  end.

Definition through (scope : option RateScope) (path : RatePath) : bool :=
  match scope with
  | None => true
  | Some (RateScope.Host key) => rp_host path =? key
  | Some (RateScope.Task key) => rp_task path =? key
  | Some (RateScope.Stream task stream) => (rp_task path =? task) && (rp_stream path =? stream)
  end.

Definition if_through (scope : option RateScope) (path : RatePath) (n : N) : N :=
  if through scope path then n else 0.

(** Bytes charged to the bucket: accepted, reserved by a permit, or granted to a waiter. *)
Definition charged (scope : option RateScope) (sys : RateSystem) : N :=
  sum_of (fun '(permit, accepted) => if_through scope (pt_path permit) accepted) (sy_settled sys)
  + sum_of (fun permit => if_through scope (pt_path permit) (pt_reserved permit)) (sy_permits sys)
  + sum_of (fun '(_, g) => if_through scope (g_path g) (g_bytes g)) (map_to_list (ra_grants (sy_state sys))).

(** Bytes accepted beyond their reservation. *)
Definition overshoot (scope : option RateScope) (sys : RateSystem) : N :=
  sum_of (fun '(permit, accepted) => if_through scope (pt_path permit) (accepted - pt_reserved permit))
    (sy_settled sys).

(** An operation that sets the limit of the bucket. *)
Definition sets_limit (scope : option RateScope) (op : RateOp) : bool :=
  match op with
  | OpReconfigure _ => true
  | OpGlobalAllocation _ | OpGlobalLimit _ => negb (is_some scope)
  | OpScopedLimit scope' _ | OpApplyPrepared scope' _ =>
    match scope, scope' with
    | Some (RateScope.Host key), RateScope.Host key' => key =? key'
    | Some (RateScope.Task key), RateScope.Task key' => key =? key'
    | Some (RateScope.Stream task stream), RateScope.Stream task' stream' =>
      (task =? task') && (stream =? stream')
    | _, _ => false
    end
  | _ => false
  end.

(** Every operation reads a time that is not before the previous one. *)
Fixpoint in_order (clock : N) (ops : list (RateOp * N)) : Prop :=
  match ops with
  | [] => True
  | (_, now) :: ops => clock <= now /\ in_order now ops
  end.
Fixpoint last_time (clock : N) (ops : list (RateOp * N)) : N :=
  match ops with
  | [] => clock
  | (_, now) :: ops => last_time now ops
  end.
