(* ===== verification/RateConformance.v ===== *)
(** * Conformance of the rate arbiter

    Along a run that reads its clock in order, the bytes charged to a bucket with
    a finite limit stay within its tokens, the refill of the elapsed time and the
    bytes accepted beyond their reservations.  With a clock read before the lock
    is taken, as the code does, they need not: the last section has a run. *)

From S2P Require Import Prelude Rate RateRun.
From Stdlib Require Import ZArith.
Open Scope list_scope.

(** ** One bucket *)

Notation nanos := (Z.of_N NANOS_PER_SEC).
Notation tokens b := (bk_tokens b).
Notation rate b := (Z.of_N (rl_bytes_per_second (bk_limit b))).

Definition bucket_wf (b : Bucket) : Prop :=
  RateLimit_validate (bk_limit b) = true /\ RateLimit_is_unlimited (bk_limit b) = false /\
  (bk_remainder b < NANOS_PER_SEC)%N /\
  (- 2 ^ 126 <= tokens b <= Z.of_N (rl_burst_bytes (bk_limit b)))%Z.

(** [account limit low total b c o]: with [c] bytes charged to the bucket, of which
    [o] beyond their reservations. *)
Record account (limit : RateLimit) (low total : Z) (b : Bucket) (c o : N) : Prop := mkAccount {
  ac_wf : bucket_wf b;
  ac_limit : bk_limit b = limit;
  ac_total : (nanos * (tokens b + Z.of_N c) + Z.of_N (bk_remainder b)
              <= total + rate b * Z.of_N (bk_updated_at b))%Z;
  ac_low : (low <= tokens b + Z.of_N o)%Z;
  ac_over : (low <= Z.of_N o)%Z;
}.

Lemma valid_burst (l : RateLimit) :
  RateLimit_validate l = true -> (rl_burst_bytes l <= MAX_RATE_BURST_BYTES)%N.
Proof.
  unfold RateLimit_validate. intros Hv. apply orb_prop in Hv as [Hv|Hv].
  - apply andb_prop in Hv as [_ Hb%N.eqb_eq]. rewrite Hb. lia.
  - apply andb_prop in Hv as [_ Hb%N.leb_le]. done.
Qed.

Ltac bucket_range b :=
  match goal with
  | H : bucket_wf b |- _ =>
    pose proof (valid_burst _ (proj1 H)); destruct H as (? & ? & ? & ?);
    unfold MAX_RATE_BURST_BYTES in *
  end.

Lemma clamp_small (z : Z) : (- 2 ^ 127 <= z <= 2 ^ 127 - 1)%Z -> i128_clamp z = z.
Proof. unfold i128_clamp, I128_MIN, I128_MAX. lia. Qed.

Lemma refill_charge (rate elapsed rem : N) :
  let n := u128_saturating_add (u128_saturating_mul rate elapsed) rem in
  (nanos * i128_of (n / NANOS_PER_SEC) + Z.of_N (n mod NANOS_PER_SEC)
   <= Z.of_N rate * Z.of_N elapsed + Z.of_N rem)%Z /\ (0 <= i128_of (n / NANOS_PER_SEC) <= I128_MAX)%Z.
Proof.
  intros n.
  assert (n <= rate * elapsed + rem)%N by (unfold n, u128_saturating_add, u128_saturating_mul; lia).
  assert (Hn := N.div_mod n NANOS_PER_SEC ltac:(done)).
  unfold i128_of, I128_MAX. set (q := (n / NANOS_PER_SEC)%N) in *. set (r := (n mod NANOS_PER_SEC)%N) in *.
  unfold NANOS_PER_SEC in *. split; [|lia]. nia.
Qed.

Lemma account_refill limit low total b c o now :
  (bk_updated_at b <= now)%N -> account limit low total b c o ->
  account limit low total (Bucket_refill now b) c o /\
  (tokens b <= tokens (Bucket_refill now b))%Z /\ bk_updated_at (Bucket_refill now b) = now.
Proof.
  intros Hnow [Hwf Hl Ht Hlow Hover]. pose proof Hwf as (_ & Hu & _). unfold Bucket_refill. rewrite Hu. cbv zeta.
  pose proof (refill_charge (rl_bytes_per_second (bk_limit b)) (now - bk_updated_at b) (bk_remainder b))
    as [Hc Hr]. cbv zeta in Hc, Hr.
  set (n := u128_saturating_add _ _) in *. bucket_range b.
  set (added := i128_of _) in *. unfold I128_MAX in Hr.
  assert (Hs : (tokens b <= i128_saturating_add (tokens b) added <= tokens b + added)%Z).
  { unfold i128_saturating_add, i128_clamp, I128_MIN, I128_MAX. lia. }
  assert (Hm : (n mod NANOS_PER_SEC < NANOS_PER_SEC)%N) by (apply N.mod_lt; done).
  set (tok := i128_saturating_add _ _) in *. clearbody tok added.
  set (rm := (n mod NANOS_PER_SEC)%N) in *. clearbody rm. clear n.
  split; [split|]; cbn [bk_limit bk_tokens bk_remainder bk_updated_at].
  - split_and!; cbn [bk_limit bk_tokens bk_remainder bk_updated_at]; auto; lia.
  - done.
  - rewrite N2Z.inj_sub in Hc by done. unfold NANOS_PER_SEC in *. nia.
  - lia.
  - done.
  - split; [lia|done].
Qed.

(** Charging [bytes]: by the tokens there are, or as an overshoot. *)
Lemma account_reserve limit low total b c o bytes extra :
  account limit low total b c o -> (- 2 ^ 126 <= low - Z.of_N (o + extra))%Z ->
  (Z.of_N bytes <= Z.of_N extra \/ Z.of_N bytes <= Z.max (tokens b) 0)%Z ->
  account limit low total (Bucket_reserve bytes b) (c + bytes) (o + extra).
Proof.
  intros [Hwf Hl Ht Hlow Hover] Hmin Hb. pose proof Hwf as (_ & Hu & _). unfold Bucket_reserve. rewrite Hu.
  assert (Hw := Hwf). bucket_range b.
  assert (Hi : i128_saturating_sub (tokens b) (i128_of bytes) = (tokens b - Z.of_N bytes)%Z).
  { unfold i128_saturating_sub, i128_of, I128_MAX.
    rewrite Z.min_l by lia. apply clamp_small. lia. }
  rewrite Hi. split; cbn; [split_and!; cbn; auto; try lia| |unfold NANOS_PER_SEC in *; lia|lia|lia].
  all: done.
Qed.

Lemma account_refund limit low total b c o bytes :
  account limit low total b (c + bytes) o -> account limit low total (Bucket_refund bytes b) c o.
Proof.
  intros [Hwf Hl Ht Hlow Hover]. pose proof Hwf as (_ & Hu & _). unfold Bucket_refund. rewrite Hu.
  bucket_range b.
  assert (Hi : (tokens b <= i128_saturating_add (tokens b) (i128_of bytes) <= tokens b + Z.of_N bytes)%Z).
  { unfold i128_saturating_add, i128_of, i128_clamp, I128_MIN, I128_MAX. lia. }
  set (tok := i128_saturating_add _ _) in *. clearbody tok.
  split; cbn; [split_and!; cbn; auto; lia|done|unfold NANOS_PER_SEC in *; lia|lia|done].
Qed.

Lemma account_less limit low total b c c' o :
  (c' <= c)%N -> account limit low total b c o -> account limit low total b c' o.
Proof. intros Hc [? ? Ht ? ?]. split; auto. unfold NANOS_PER_SEC in *. lia. Qed.

(** ** The buckets of a path *)

Lemma bucket_on_path scope f path s :
  bucket_of scope (on_path f path s) = (if through scope path then f else id) <$> bucket_of scope s.
Proof.
  destruct scope as [[key|key|task stream]|]; cbn; [| | |done].
  - destruct (N.eqb_spec (rp_host path) key) as [->|Hne].
    + rewrite lookup_alter. case_decide; [|done]. by destruct (ra_hosts s !! key).
    + rewrite lookup_alter_ne by done. by destruct (ra_hosts s !! key).
  - destruct (N.eqb_spec (rp_task path) key) as [->|Hne].
    + rewrite lookup_alter. case_decide; [|done]. by destruct (ra_tasks s !! key).
    + rewrite lookup_alter_ne by done. by destruct (ra_tasks s !! key).
  - destruct ((rp_task path =? task)%N && (rp_stream path =? stream)%N) eqn:Hc.
    + apply andb_prop in Hc as [H1%N.eqb_eq H2%N.eqb_eq]. subst task stream. rewrite lookup_alter.
      case_decide; [|done]. by destruct (ra_streams s !! _).
    + rewrite lookup_alter_ne by (intros [= H1 H2]; subst task stream; by rewrite !N.eqb_refl in Hc).
      by destruct (ra_streams s !! (task, stream)).
Qed.

(** A value along a path is one of those the minimum is taken of. *)
Lemma available_bound scope path s b :
  through scope path = true -> bucket_of scope s = Some b ->
  (foldr N.min U64_MAX (along_path Bucket_available U64_MAX path s) <= Bucket_available b)%N.
Proof.
  destruct scope as [[key|key|task stream]|]; cbn; [| | |intros _ [= ->]; lia].
  - intros <-%N.eqb_eq. destruct (ra_hosts s !! _); [intros [= <-]; cbn; lia|done].
  - intros <-%N.eqb_eq. destruct (ra_tasks s !! _); [intros [= <-]; cbn; lia|done].
  - intros [H1%N.eqb_eq H2%N.eqb_eq]%andb_prop. subst task stream.
    destruct (ra_streams s !! _); [intros [= <-]; cbn; lia|done].
Qed.

Lemma ensure_keeps scope path now s s' b :
  ensure_path path now s = Ok s' -> bucket_of scope s = Some b -> bucket_of scope s' = Some b.
Proof.
  unfold ensure_path. intros He. case_match; [done|]. injection He as <-.
  destruct scope as [[key|key|task stream]|]; cbn; unfold or_insert; [| | |done].
  all: intros Hb; case_match; [done|]; rewrite lookup_insert; case_decide as Hk; [|done].
  all: apply fmap_Some in Hb as (e & He & _); congruence.
Qed.

Section accounts.
Context (scope : option RateScope) (limit : RateLimit) (low total : Z).

Definition accounts (now : N) (s : RateArbiterState) (c o : N) : Prop :=
  exists b, bucket_of scope s = Some b /\ account limit low total b c o /\ (bk_updated_at b <= now)%N.

Lemma accounts_map f path now s c c' o o' :
  accounts now s c o ->
  (forall b, through scope path = true -> bucket_of scope s = Some b -> account limit low total b c o ->
     (bk_updated_at b <= now)%N ->
     account limit low total (f b) c' o' /\ (bk_updated_at (f b) <= now)%N) ->
  (through scope path = false -> c' = c /\ o' = o) ->
  accounts now (on_path f path s) c' o'.
Proof.
  intros (b & Hb & Ha & Hu) Hin Hout. unfold accounts. rewrite bucket_on_path, Hb.
  destruct (through scope path) eqn:Ht; cbn.
  - exists (f b). split; [done|]. by apply Hin.
  - destruct (Hout eq_refl) as [-> ->]. by exists b.
Qed.

Lemma accounts_refill path now s c o : accounts now s c o -> accounts now (refill_path path now s) c o.
Proof.
  intros H. apply (accounts_map _ _ _ _ c c o o H); [|done].
  intros b _ _ Ha Hu. destruct (account_refill _ _ _ _ _ _ _ Hu Ha) as (? & _ & ->). done.
Qed.

Lemma reserve_updated bytes b : bk_updated_at (Bucket_reserve bytes b) = bk_updated_at b.
Proof. unfold Bucket_reserve. by destruct (RateLimit_is_unlimited _). Qed.
Lemma refund_updated bytes b : bk_updated_at (Bucket_refund bytes b) = bk_updated_at b.
Proof. unfold Bucket_refund. by destruct (RateLimit_is_unlimited _). Qed.

Lemma accounts_refund path bytes now s c o :
  accounts now s (c + if_through scope path bytes) o ->
  accounts now (RateArbiterState_refund path bytes now s) c o.
Proof.
  intros H%(accounts_refill path). refine (accounts_map _ _ _ _ _ _ _ _ H _ _); unfold if_through.
  - intros b -> _ Ha Hu. rewrite refund_updated. split; [by apply account_refund|done].
  - intros ->. lia.
Qed.

(** What is reserved is there: of the tokens available, or counted as an overshoot. *)
Lemma accounts_extra path bytes now s c o :
  (- 2 ^ 126 <= low - Z.of_N (o + if_through scope path bytes))%Z -> accounts now s c o ->
  accounts now (charge_extra path bytes now s) (c + if_through scope path bytes)
    (o + if_through scope path bytes).
Proof.
  intros Hmin H%(accounts_refill path). refine (accounts_map _ _ _ _ _ _ _ _ H _ _); unfold if_through in *.
  - intros b Ht _ Ha Hu. rewrite Ht in *. rewrite reserve_updated. split; [|done].
    apply account_reserve; [done|done|]. left. lia.
  - intros ->. lia.
Qed.

Lemma account_enough b c o bytes :
  account limit low total b c o -> (bytes <= Bucket_available b)%N -> (Z.of_N bytes <= Z.max (tokens b) 0)%Z.
Proof.
  intros [(_ & Hu & _) _ _ _ _]. unfold Bucket_available, u64_of. rewrite Hu. lia.
Qed.

Lemma accounts_reserve path bytes now s c o :
  (- 2 ^ 126 <= low - Z.of_N o)%Z -> accounts now s c o ->
  (forall b, through scope path = true -> bucket_of scope s = Some b -> (bytes <= Bucket_available b)%N) ->
  accounts now (RateArbiterState_reserve path bytes now s) (c + if_through scope path bytes) o.
Proof.
  intros Hmin H Hav. pose proof (accounts_refill path _ _ _ _ H) as Hr.
  refine (accounts_map _ _ _ _ _ _ _ _ Hr _ _); unfold if_through.
  - intros b' Ht Hb' Ha' Hu'. rewrite Ht, reserve_updated. split; [|done].
    rewrite <- (N.add_0_r o). apply account_reserve; [done|by rewrite N.add_0_r|]. right.
    destruct H as (b & Hb & Ha & Hu). unfold refill_path in Hb'. rewrite bucket_on_path, Hb, Ht in Hb'.
    injection Hb' as <-. destruct (account_refill _ _ _ _ _ _ _ Hu Ha) as (_ & Hle & _).
    pose proof (account_enough _ _ _ _ Ha (Hav _ Ht Hb)). lia.
  - intros ->. lia.
Qed.

Lemma accounts_available path now s c o :
  accounts now s c o -> accounts now (available_for path now s).2 c o.
Proof. unfold available_for. case_match; [done|]. apply accounts_refill. Qed.

Lemma available_below path now s b :
  through scope path = true -> bucket_of scope (available_for path now s).2 = Some b ->
  ((available_for path now s).1 <= Bucket_available b)%N.
Proof.
  unfold available_for. case_match; cbn; [intros _ _; lia|]. apply available_bound.
Qed.

Lemma accounts_take path bytes now s c o :
  (- 2 ^ 126 <= low - Z.of_N o)%Z -> accounts now s c o -> (bytes <= (available_for path now s).1)%N ->
  accounts now (RateArbiterState_reserve path bytes now (available_for path now s).2)
    (c + if_through scope path bytes) o.
Proof.
  intros Hmin H Hb. apply accounts_reserve; [done|by apply accounts_available|].
  intros b Ht Hs. pose proof (available_below _ _ _ _ Ht Hs). lia.
Qed.

Lemma accounts_same now s s' c c' o :
  accounts now s c o -> bucket_of scope s' = bucket_of scope s -> (c' <= c)%N -> accounts now s' c' o.
Proof.
  intros (b & Hb & Ha & Hu) Hs Hc. exists b. rewrite Hs. split_and!; [done|by eapply account_less|done].
Qed.

Lemma accounts_eq now s c c' o o' : accounts now s c o -> c' = c -> o' = o -> accounts now s c' o'.
Proof. by intros H -> ->. Qed.

(** ** Grants *)

Definition granted (s : RateArbiterState) : N :=
  sum_of (fun '(_, g) => if_through scope (g_path g) (g_bytes g)) (map_to_list (ra_grants s)).

Lemma granted_delete s (id : N) (g : Grant) :
  ra_grants s !! id = Some g ->
  granted s = (granted (s <| ra_grants := delete id (ra_grants s) |>)
               + if_through scope (g_path g) (g_bytes g))%N.
Proof.
  intros Hg. unfold granted. cbn.
  rewrite <- (sum_of_perm _ _ _ (map_to_list_delete _ _ _ Hg)), sum_of_cons. lia.
Qed.

Lemma granted_insert (m : gmap N Grant) (id : N) (g : Grant) (f : N * Grant -> N) :
  (sum_of f (map_to_list (<[id := g]> m)) <= sum_of f (map_to_list m) + f (id, g))%N.
Proof.
  destruct (m !! id) as [g'|] eqn:Hg.
  - rewrite <- insert_delete_eq, <- (sum_of_perm f _ _ (map_to_list_delete _ _ _ Hg)).
    rewrite (sum_of_perm f _ _ (map_to_list_insert (delete id m) id g ltac:(apply lookup_delete_eq))).
    rewrite !sum_of_cons. lia.
  - rewrite (sum_of_perm f _ _ (map_to_list_insert m id g Hg)), sum_of_cons. lia.
Qed.

Lemma accounts_turn now k o d any s :
  (- 2 ^ 126 <= low - Z.of_N o)%Z -> accounts now s (k + granted s) o ->
  let s' := (dispatch_turn now (d, any, s)).2 in accounts now s' (k + granted s') o.
Proof.
  intros Hmin H. unfold dispatch_turn. destruct (ra_waiters s) as [|w ws]; [done|].
  set (s0 := s <| ra_waiters := ws |>).
  assert (H0 : accounts now s0 (k + granted s) o) by (eapply accounts_same; [done|by destruct scope|lia]).
  pose proof (accounts_take (w_path w)) as Htake.
  assert (Hg : granted (available_for (w_path w) now s0).2 = granted s).
  { unfold available_for. by case_match. }
  pose proof (accounts_available (w_path w) _ _ _ _ H0) as Hav.
  specialize (fun bytes => Htake bytes now s0 _ o Hmin H0).
  destruct (available_for (w_path w) now s0) as [av s1]. cbn in Htake, Hg, Hav.
  set (grant := N.min (N.min (w_requested w) _) _). case_match.
  - specialize (Htake grant ltac:(lia)). cbn. eapply accounts_same; [exact Htake|by destruct scope as [[]|]|].
    unfold granted at 1. cbn. etransitivity; [apply N.add_le_mono_l, granted_insert|]. cbn.
    unfold granted in Hg. rewrite Hg. unfold granted. lia.
  - unfold next_delay_for. destruct (ra_global_suspended s1); cbn.
    + eapply accounts_same; [exact Hav|by destruct scope as [[]|]|]. unfold granted in *. cbn. lia.
    + apply (accounts_refill (w_path w)) in Hav.
      eapply accounts_same; [exact Hav|by destruct scope as [[]|]|]. unfold granted in *. cbn. lia.
Qed.

Lemma accounts_dispatch now k o s :
  (- 2 ^ 126 <= low - Z.of_N o)%Z -> accounts now s (k + granted s) o ->
  let s' := (dispatch now s).2 in accounts now s' (k + granted s') o.
Proof.
  intros Hmin H. unfold dispatch. generalize (length (ra_waiters s)) as n. intros n.
  induction n as [|n IH]; [done|]. rewrite Nat.iter_succ.
  destruct (Nat.iter n _ _) as [[d any] s1]. by apply accounts_turn.
Qed.

(** ** Steps *)

Definition sys_accounts (now : N) (sys : RateSystem) : Prop :=
  accounts now (sy_state sys) (charged scope sys) (overshoot scope sys).

Lemma accounts_ensure path now s s' c o :
  ensure_path path now s = Ok s' -> accounts now s c o -> accounts now s' c o /\ ra_grants s' = ra_grants s.
Proof.
  intros He (b & Hb & Ha). split; [exists b; split; [by eapply ensure_keeps|done]|].
  unfold ensure_path in He. case_match; [done|]. by injection He as <-.
Qed.

Lemma accounts_try_acquire path requested now s c o permit s' :
  (- 2 ^ 126 <= low - Z.of_N o)%Z -> accounts now s c o ->
  RateArbiter_try_acquire path requested now s = Ok (permit, s') ->
  accounts now s' (c + from_option (fun p => if_through scope (pt_path p) (pt_reserved p)) 0%N permit) o /\
  ra_grants s' = ra_grants s.
Proof.
  intros Hmin H. unfold RateArbiter_try_acquire.
  destruct (ensure_path path now s) as [s1|] eqn:He; [cbn|done].
  destruct (accounts_ensure _ _ _ _ _ _ He H) as [H1 <-]. clear H He.
  case_match; [intros [= <- <-]; cbn; by rewrite N.add_0_r|].
  pose proof (accounts_take path) as Htake. pose proof (accounts_available path _ _ _ _ H1) as Hav.
  specialize (fun bytes => Htake bytes now s1 c o Hmin H1).
  assert (Hg : ra_grants (available_for path now s1).2 = ra_grants s1).
  { unfold available_for. by case_match. }
  destruct (available_for path now s1) as [av s2]. cbn in Htake, Hav, Hg.
  case_match; intros [= <- <-]; cbn; [by rewrite N.add_0_r|]. split; [apply Htake; lia|done].
Qed.

(** What a turn of [acquire] leaves in the grants and in the permit. *)
Lemma accounts_acquire path requested registration now k o s r s' :
  (- 2 ^ 126 <= low - Z.of_N o)%Z -> accounts now s (k + granted s) o ->
  acquire_turn path requested registration now s = (r, s') ->
  accounts now s' (k + granted s'
    + match r with Ok (Acquired p) => if_through scope (pt_path p) (pt_reserved p) | _ => 0 end)%N o.
Proof.
  intros Hmin H. unfold acquire_turn.
  destruct (ensure_path path now s) as [s1|] eqn:He; [|intros [= <- <-]; by rewrite N.add_0_r].
  destruct (accounts_ensure _ _ _ _ _ _ He H) as [H1 Hg]. clear He.
  assert (Hgr : granted s1 = granted s) by (unfold granted; by rewrite Hg). rewrite <- Hgr in H1. clear H Hgr Hg.
  destruct (match registration with Some id => _ | None => _ end) as [[id s2]|e] eqn:Hr;
    [|intros [= <- <-]; by rewrite N.add_0_r].
  assert (H2 : accounts now s2 (k + granted s2) o).
  { destruct registration; [by injection Hr as _ <-|]. unfold enqueue in Hr. case_match; [done|].
    injection Hr as _ <-. eapply accounts_same; [exact H1|by destruct scope as [[]|]|done]. }
  pose proof (accounts_dispatch _ _ _ _ Hmin H2) as H3.
  destruct (dispatch now s2) as [[wait any] s3]. cbn in H3.
  destruct (ra_grants s3 !! id) as [g|] eqn:Hg; intros [= <- <-]; [|by rewrite N.add_0_r].
  eapply accounts_same; [exact H3|by destruct scope as [[]|]|]. rewrite (granted_delete _ _ _ Hg). cbn. lia.
Qed.

Lemma accounts_remove id now k o s :
  accounts now s (k + granted s) o ->
  let s' := remove_waiter id now s in accounts now s' (k + granted s') o.
Proof.
  intros H. unfold remove_waiter. cbv zeta.
  set (s0 := s <| ra_waiters := remove_first id (ra_waiters s) |>).
  assert (H0 : accounts now s0 (k + granted s0) o).
  { eapply accounts_same; [exact H|by destruct scope as [[]|]|done]. }
  clearbody s0. clear H s. destruct (ra_grants s0 !! id) as [g|] eqn:Hg; [|done].
  apply accounts_refund. eapply accounts_same; [exact H0|by destruct scope as [[]|]|].
  rewrite (granted_delete _ _ _ Hg). unfold granted. cbn. lia.
Qed.

Lemma accounts_settle p a now k o s :
  let over := if_through scope (pt_path p) (a - pt_reserved p) in
  (- 2 ^ 126 <= low - Z.of_N (o + over))%Z ->
  accounts now s (k + if_through scope (pt_path p) (pt_reserved p)) o ->
  let s' := (RatePermit_settle p a now s).2 in
  accounts now s' (k + if_through scope (pt_path p) a) (o + over) /\ granted s' = granted s.
Proof.
  intros over Hmin H. unfold RatePermit_settle, debt_for. cbn. subst over.
  destruct (N.ltb_spec a (pt_reserved p)) as [Hlt|Hge];
    [|destruct (N.ltb_spec (pt_reserved p) a) as [Hgt|Hle]]; (split; [apply accounts_refill|done]).
  - apply accounts_refund. apply (accounts_eq _ _ _ _ _ _ H); unfold if_through; case_match; lia.
  - pose proof (accounts_extra _ _ _ _ _ _ Hmin H) as Hx.
    apply (accounts_eq _ _ _ _ _ _ Hx); unfold if_through; case_match; lia.
  - apply (accounts_eq _ _ _ _ _ _ H); unfold if_through; case_match; lia.
Qed.

(** A change of another bucket's limit. *)
Lemma set_limit_entry_other `{Countable K} (m m' : gmap K BucketEntry) key tracked limit' now k :
  set_limit_entry m key tracked limit' now = Ok m' -> k <> key -> m' !! k = m !! k.
Proof.
  unfold set_limit_entry. case_match; [done|]. intros [= <-] Hne.
  case_match; by rewrite lookup_insert_ne.
Qed.

Definition same_scope (scope' : RateScope) : bool := sets_limit scope (OpScopedLimit scope' limit).

Lemma other_limit scope' limit' now s s' :
  same_scope scope' = false -> RateArbiterState_set_scoped_limit scope' limit' now s = Ok s' ->
  bucket_of scope s' = bucket_of scope s /\ ra_grants s' = ra_grants s.
Proof.
  unfold same_scope, RateArbiterState_set_scoped_limit. intros Hs Hok. case_match; [done|].
  destruct scope'; apply bind_Ok in Hok as (m & Hm & Hok); injection Hok as <-; (split; [|done]);
    destruct scope as [[]|]; cbn in Hs |- *; try done;
    rewrite (set_limit_entry_other _ _ _ _ _ _ _ Hm); try done.
  all: try by apply N.eqb_neq.
  intros [= -> ->]. by rewrite !N.eqb_refl in Hs.
Qed.

Lemma other_prepared scope' limit' now s s' :
  same_scope scope' = false -> PreparedRateLimit_apply scope' limit' now s = Some s' ->
  bucket_of scope s' = bucket_of scope s /\ ra_grants s' = ra_grants s.
Proof.
  unfold same_scope, PreparedRateLimit_apply. intros Hs Hok. case_match; [|done]. injection Hok as <-.
  destruct scope'; (split; [|done]); destruct scope as [[]|]; cbn in Hs |- *; try done;
    rewrite lookup_alter_ne; try done.
  all: try (apply N.eqb_neq in Hs; congruence).
  intros [= -> ->]. by rewrite !N.eqb_refl in Hs.
Qed.

Lemma sys_eq now sys s c o :
  accounts now s c o -> sy_state sys = s -> overshoot scope sys = o -> charged scope sys = c ->
  sys_accounts now sys.
Proof. unfold sys_accounts. by intros H -> -> ->. Qed.

Lemma overshoot_step op now sys sys' :
  rate_step op now sys = Some sys' -> (overshoot scope sys <= overshoot scope sys')%N.
Proof.
  destruct sys as [s permits settled], op; cbn -[sum_of]; intros Hs; unfold overshoot;
    repeat case_match; simplify_option_eq; try done; lia.
Qed.

Lemma accounts_stats now s c o : accounts now s c o -> accounts now (stats now s).2 c o.
Proof.
  intros (b & Hb & Ha & Hu). unfold stats, accounts. destruct scope as [[]|]; cbn in *; [by exists b..|].
  injection Hb as <-. destruct (account_refill _ _ _ _ _ _ _ Hu Ha) as (? & _ & Hu'). eexists. split_and!; [done..|lia].
Qed.

Lemma sys_try_acquire path requested now s permits settled permit s' :
  let sys := mkRateSystem s permits settled in
  (- 2 ^ 126 <= low - Z.of_N (overshoot scope sys))%Z -> sys_accounts now sys ->
  RateArbiter_try_acquire path requested now s = Ok (permit, s') ->
  sys_accounts now (mkRateSystem s' (option_list permit ++ permits) settled).
Proof.
  intros sys Hmin H Ht. destruct (accounts_try_acquire _ _ _ _ _ _ _ _ Hmin H Ht) as [H' Hg].
  apply (sys_eq _ _ _ _ _ H'); [done..|]. unfold charged. cbn. rewrite Hg. destruct permit; cbn; lia.
Qed.

Lemma sys_acquire path requested registration now s permits settled r s' :
  let sys := mkRateSystem s permits settled in
  (- 2 ^ 126 <= low - Z.of_N (overshoot scope sys))%Z -> sys_accounts now sys ->
  acquire_turn path requested registration now s = (r, s') ->
  sys_accounts now
    (mkRateSystem s' (match r with Ok (Acquired permit) => permit :: permits | _ => permits end) settled).
Proof.
  intros sys Hmin H Ha. pose proof (accounts_acquire _ _ _ _ _ _ _ _ _ Hmin H Ha) as H'.
  apply (sys_eq _ _ _ _ _ H'); [done..|]. unfold charged. destruct r as [[permit|]|]; cbn; unfold granted; lia.
Qed.

Lemma sys_settle i permit a now s permits settled :
  let sys' := mkRateSystem (RatePermit_settle permit a now s).2 (delete i permits) ((permit, a) :: settled) in
  permits !! i = Some permit -> (- 2 ^ 126 <= low - Z.of_N (overshoot scope sys'))%Z ->
  sys_accounts now (mkRateSystem s permits settled) -> sys_accounts now sys'.
Proof.
  intros sys' Hi Hmin H. subst sys'. unfold sys_accounts, charged, overshoot in *.
  cbn [sy_settled sy_permits sy_state] in *.
  rewrite (sum_of_delete _ _ _ _ Hi) in H. rewrite sum_of_cons in *.
  rewrite (N.add_comm (if_through _ _ _)) in Hmin.
  set (A := sum_of _ settled) in H. set (B := sum_of _ (delete i permits)) in H.
  destruct (accounts_settle permit a now (A + B + granted s) _ s Hmin) as [H' Hg].
  { apply (accounts_eq _ _ _ _ _ _ H); unfold granted; [lia|done]. }
  apply (accounts_eq _ _ _ _ _ _ H'); [|rewrite sum_of_cons; lia].
  unfold granted in *. rewrite Hg. fold A B. lia.
Qed.

Lemma charged_delete i permit s permits settled :
  permits !! i = Some permit ->
  charged scope (mkRateSystem s permits settled)
  = (charged scope (mkRateSystem s (delete i permits) settled)
     + if_through scope (pt_path permit) (pt_reserved permit))%N.
Proof.
  intros Hi. unfold charged. cbn [sy_settled sy_permits sy_state]. rewrite (sum_of_delete _ _ _ _ Hi). lia.
Qed.

Lemma accounts_step op now sys sys' :
  rate_step op now sys = Some sys' -> sets_limit scope op = false ->
  (- 2 ^ 126 <= low - Z.of_N (overshoot scope sys'))%Z -> sys_accounts now sys -> sys_accounts now sys'.
Proof.
  intros Hs Hl Hmin H. pose proof (overshoot_step _ _ _ _ Hs) as Hmono.
  destruct sys as [s permits settled]. unfold rate_step in Hs.
  assert (Hk : forall s', sys' = mkRateSystem s' permits settled ->
    bucket_of scope s' = bucket_of scope s /\ ra_grants s' = ra_grants s -> sys_accounts now sys').
  { intros s' -> [Hb Hg]. eapply accounts_same; [exact H|exact Hb|]. unfold charged. cbn. by rewrite Hg. }
  destruct op; cbn [sets_limit] in Hl; try done.
  - injection Hs as <-. destruct (RateArbiter_try_acquire _ _ _ _) as [[p s']|] eqn:Ht; [|done].
    eapply sys_try_acquire in Ht; [|shelve|exact H]. by destruct p. 
    Unshelve. lia.
  - injection Hs as <-. destruct (acquire_turn _ _ _ _ _) as [r s'] eqn:Ht.
    eapply sys_acquire in Ht; [|shelve|exact H]. by destruct r as [[]|].
    Unshelve. destruct r as [[]|]; unfold overshoot in *; cbn [sy_settled] in *; lia.
  - injection Hs as <-. destruct registration as [id|]; [|done]. cbn.
    eapply sys_eq; [by apply accounts_remove, H|done..].
  - destruct (permits !! index) as [p|] eqn:Hi; [|done]. injection Hs as <-. by apply sys_settle.
  - destruct (permits !! index) as [p|] eqn:Hi; [|done]. injection Hs as <-.
    unfold sys_accounts in H. rewrite (charged_delete _ _ _ _ _ Hi) in H.
    by eapply sys_eq; [apply accounts_refund, H|..].
  - injection Hs as <-. by apply (sys_eq _ _ _ _ _ (accounts_stats _ _ _ _ H)).
  - injection Hs as <-. apply (Hk _ eq_refl). by destruct scope as [[]|].
  - injection Hs as <-. apply (Hk _ eq_refl). unfold set_global_limit.
    destruct (RateLimit_validate limit0); [|done]. by destruct scope as [[]|].
  - injection Hs as <-. apply (Hk _ eq_refl).
    destruct (RateArbiterState_set_scoped_limit _ _ _ _) eqn:He; [|done]. by eapply other_limit.
  - destruct (PreparedRateLimit_apply _ _ _ _) as [s'|] eqn:He; [|done]. injection Hs as <-.
    apply (Hk _ eq_refl). by eapply other_prepared.
Qed.
End accounts.

(** ** Runs *)

Lemma accounts_later scope limit low total now now' s c o :
  (now <= now')%N -> accounts scope limit low total now s c o -> accounts scope limit low total now' s c o.
Proof. intros Hle (b & Hb & Ha & Hu). exists b. split_and!; [done..|lia]. Qed.

Lemma overshoot_run scope ops sys sys' :
  rate_run ops sys = Some sys' -> (overshoot scope sys <= overshoot scope sys')%N.
Proof.
  revert sys. induction ops as [|[op now] ops IH]; cbn; intros sys Hr; [injection Hr as <-; lia|].
  apply bind_Some in Hr as (sys1 & Hs & Hr). specialize (IH _ Hr). apply (overshoot_step scope) in Hs. lia.
Qed.

Lemma accounts_run scope limit low total ops clock sys sys' :
  rate_run ops sys = Some sys' -> in_order clock ops ->
  Forall (fun '(op, _) => sets_limit scope op = false) ops ->
  (- 2 ^ 126 <= low - Z.of_N (overshoot scope sys'))%Z ->
  sys_accounts scope limit low total clock sys ->
  sys_accounts scope limit low total (last_time clock ops) sys'.
Proof.
  revert clock sys. induction ops as [|[op now] ops IH]; cbn; intros clock sys Hr Ho Hl Hmin H.
  { by injection Hr as <-. }
  apply bind_Some in Hr as (sys1 & Hs & Hr). destruct Ho as [Hle Ho]. apply Forall_cons in Hl as [Hl Hls].
  eapply (IH now sys1); [done..|]. pose proof (overshoot_run scope _ _ _ Hr).
  eapply accounts_step; [exact Hs|done|lia|]. by eapply accounts_later.
Qed.

(** Nothing is charged for a bucket before the run starts. *)
Lemma accounts_start scope sys b clock :
  bucket_of scope (sy_state sys) = Some b -> bucket_wf b -> (bk_updated_at b <= clock)%N ->
  sys_accounts scope (bk_limit b) (Z.min (tokens b) 0 + Z.of_N (overshoot scope sys))
    (nanos * (tokens b + Z.of_N (charged scope sys)) + Z.of_N (bk_remainder b)
     - rate b * Z.of_N (bk_updated_at b)) clock sys.
Proof. intros Hb Hwf Hu. exists b. split_and!; [done|split; [done|done|lia..]|done]. Qed.

(** C16: over a run that reads its clock in order and does not change the limit of
    a bucket - global, host, task or stream - the bytes charged through it are at
    most the tokens it had, the refill of the elapsed time and the bytes accepted
    beyond their reservations, whatever the paths, cancellations and refunds. *)
Theorem rate_conforms scope clock ops sys sys' b :
  bucket_of scope (sy_state sys) = Some b -> bucket_wf b -> (bk_updated_at b <= clock)%N ->
  in_order clock ops -> Forall (fun '(op, _) => sets_limit scope op = false) ops ->
  rate_run ops sys = Some sys' ->
  (Z.max (- tokens b) 0 + Z.of_N (overshoot scope sys' - overshoot scope sys) <= 2 ^ 126)%Z ->
  (nanos * (Z.of_N (charged scope sys') - Z.of_N (charged scope sys))
   <= nanos * (Z.max (tokens b) 0 + Z.of_N (overshoot scope sys' - overshoot scope sys))
      + Z.of_N (bk_remainder b) + rate b * (Z.of_N (last_time clock ops) - Z.of_N (bk_updated_at b)))%Z.
Proof.
  intros Hb Hwf Hu Ho Hl Hr Hov. pose proof (overshoot_run scope _ _ _ Hr) as Hmono.
  pose proof (accounts_start _ _ _ _ Hb Hwf Hu) as H0.
  eapply accounts_run in H0 as (b' & Hb' & Ha & Hu'); [|exact Hr|exact Ho|exact Hl|lia].
  destruct Ha as [Hwf' Hlim Ht Hlow Hover]. rewrite Hlim in Ht.
  assert (rate b * Z.of_N (bk_updated_at b') <= rate b * Z.of_N (last_time clock ops))%Z by nia.
  rewrite N2Z.inj_sub, Z.mul_sub_distr_l by done. unfold NANOS_PER_SEC in *. lia.
Qed.

(** The same from the creation of an arbiter, for its global limit. *)
Lemma new_global_wf config now s :
  RateArbiter_new config now = Ok s -> RateLimit_is_unlimited (rc_global config) = false ->
  bucket_wf (ra_global s).
Proof.
  unfold RateArbiter_new, RateArbiterConfig_validate. case_match eqn:Hv; [done|]. intros [= <-] Hu. cbn.
  repeat apply orb_false_iff in Hv as [Hv _]. apply negb_false_iff in Hv.
  pose proof (valid_burst _ Hv). unfold MAX_RATE_BURST_BYTES in *. split_and!; cbn; [done..|lia|lia].
Qed.

(** ** A run with a stale clock *)

Definition ten_per_second : RateArbiterConfig :=
  RateArbiterConfig_default <| rc_global := mkRateLimit 10 100 |>.
Definition ten_start : RateSystem := mkRateSystem (RateArbiterState_new ten_per_second 0) [] [].
Definition one_path : RatePath := mkRatePath 1 2 3.
Definition seconds (n : N) : N := n * NANOS_PER_SEC.

(** The third operation read its clock before the second but locked after it. *)
Definition stale_run : list (RateOp * N) := [
  (OpTryAcquire one_path 100, 0); (OpTryAcquire one_path 70, seconds 7);
  (OpStats, seconds 5); (OpTryAcquire one_path 30, seconds 8)].

(** With the clock out of order the interval between the two readings is credited
    twice: 200 bytes in 8 seconds, where the burst and the rate allow 180. *)
Lemma stale_clock_credits_twice :
  charged None <$> rate_run stale_run ten_start = Some 200%N /\
  (rl_burst_bytes (rc_global ten_per_second) + rl_bytes_per_second (rc_global ten_per_second) * 8 = 180)%N.
Proof. by vm_compute. Qed.

(** A run in order: a waiter, an overshoot, a refund, a dropped permit. *)
Definition ordered_run : list (RateOp * N) := [
  (OpTryAcquire one_path 60, 0); (OpTryAcquire (mkRatePath 1 2 4) 60, seconds 1);
  (OpAcquireTurn one_path 40 None, seconds 1); (OpSettle 0 55, seconds 2); (OpSettle 0 10, seconds 3);
  (OpAcquireTurn one_path 40 (Some 1), seconds 4); (OpDrop 0, seconds 5);
  (OpTryAcquire one_path 500, seconds 6)].

Lemma rate_conforms_witness :
  charged None <$> rate_run ordered_run ten_start = Some 160%N /\
  exists sys', rate_run ordered_run ten_start = Some sys' /\
  (nanos * (Z.of_N (charged None sys') - 0)
   <= nanos * (100 + Z.of_N (overshoot None sys' - 0)) + 0 + 10 * (Z.of_N (seconds 6) - 0))%Z.
Proof.
  split; [by vm_compute|]. eexists. split; [vm_compute; reflexivity|].
  apply (rate_conforms None 0 ordered_run ten_start _ (ra_global (sy_state ten_start))).
  - reflexivity.
  - vm_compute. repeat split; discriminate.
  - vm_compute. discriminate.
  - vm_compute. repeat split; discriminate.
  - repeat constructor.
  - vm_compute. reflexivity.
  - vm_compute. discriminate.
Defined.
