(* ===== verification/RateFair.v ===== *)
(** * Waiting for the rate arbiter

    The delay a waiting stream is told suffices, and a dispatch serves the queue in
    order and leaves nobody waiting who could be served. *)

From S2P Require Import Prelude Rate RateRun RateConformance.
From Stdlib Require Import ZArith.
Open Scope list_scope.

(** ** The delay *)








(** ** Along a path *)

Definition path_scopes (path : RatePath) : list (option RateScope) :=
  [None; Some (RateScope.Host (rp_host path)); Some (RateScope.Task (rp_task path));
   Some (RateScope.Stream (rp_task path) (rp_stream path))].





(** ** Starved paths *)

(** A bucket refilled at [now] that has no byte to give. *)
Definition drained (now : N) (b : Bucket) : Prop :=
  RateLimit_is_unlimited (bk_limit b) = false /\ (tokens b <= 0)%Z /\
  (bk_remainder b < NANOS_PER_SEC)%N /\ bk_updated_at b = now.





Definition starved (now : N) (path : RatePath) (s : RateArbiterState) : Prop :=
  ra_global_suspended s = true \/
  exists scope b, scope ∈ path_scopes path /\ bucket_of scope s = Some b /\ drained now b.





(** ** Dispatch *)

Notation waits s := (fun w => ra_grants s !! w_id w = None).



Section dispatch.
Context (now : N) (s0 : RateArbiterState).
Notation ws := (ra_waiters s0).
Notation quantum := (rc_quantum_bytes (ra_config s0)).
Hypothesis distinct : NoDup (w_id <$> ws).
Hypothesis asking : Forall (fun w => 0 < w_requested w)%N ws.
Hypothesis some_quantum : (0 < quantum)%N.


Lemma starved_queue path s queue :
  starved now path s -> starved now path (s <| ra_waiters := queue |>).
Proof. intros [Hs|(scope & b & ? & Hb & ?)]; [by left|right]. exists scope, b. by destruct scope as [[]|]. Qed.












End dispatch.


(** ** Witnesses *)




