(* ===== verification/Budget.v ===== *)
(** * Byte budgets

    Model of [crates/ariax-runtime/src/budget.rs]: a hard byte budget in one atomic
    counter, taken by a compare-and-swap loop and given back when a permit shrinks
    or is dropped.

    The sequential operations come first.  The concurrent program is then a step
    relation in which every access of the counter is one step, so that any number
    of calls interleave, and it refines the sequential operations taken as atomic. *)

From S2P Require Import Prelude.
Open Scope list_scope.

Module BudgetError.
Inductive BudgetError : Set :=
| ZeroReservation
| Exhausted (requested available : N).
End BudgetError.
Notation BudgetError := BudgetError.BudgetError.
#[global] Instance BudgetError_eq_dec : EqDecision BudgetError.
Proof. solve_decision. Defined.

(** ** The operations in isolation *)

Record ByteBudget : Set := mkByteBudget { bb_limit : N; bb_used : N }.
#[global] Instance ByteBudget_eta : Settable ByteBudget := fun b => mkByteBudget (bb_limit b) (bb_used b).
#[global] Instance bb_used_set : Setter bb_used. Proof. derive_setter. Defined.

Definition ByteBudget_new (limit : N) : ByteBudget := mkByteBudget limit 0.
Definition ByteBudget_available (self : ByteBudget) : N := usize_saturating_sub (bb_limit self) (bb_used self).

(** The body of the loop before the exchange: the next value, or the error. *)
Definition acquire_next (limit bytes used : N) : result BudgetError N :=
  let exhausted := BudgetError.Exhausted bytes (usize_saturating_sub limit used) in
  next ← ok_or (u64_checked_add used bytes) exhausted;
  if limit <? next then Err exhausted else Ok next.

(** [try_acquire] with nobody between the load and the exchange. *)
Definition ByteBudget_try_acquire (bytes : N) (self : ByteBudget) : result BudgetError ByteBudget :=
  if bytes =? 0 then Err BudgetError.ZeroReservation
  else next ← acquire_next (bb_limit self) bytes (bb_used self); Ok (self <| bb_used := next |>).

(** [shrink_to] of a live permit of [held] bytes, and [Drop]. *)
Definition BytePermit_shrink_to (held bytes : N) (self : ByteBudget) : result BudgetError ByteBudget :=
  if held <? bytes then Err (BudgetError.Exhausted bytes held)
  else Ok (self <| bb_used := u64_wrapping_sub (bb_used self) (held - bytes) |>).
Definition BytePermit_drop (held : N) (self : ByteBudget) : ByteBudget :=
  self <| bb_used := u64_wrapping_sub (bb_used self) held |>.

(** ** Interleaved calls *)

(** Where a call of [try_acquire] is, and then its permit. *)
Inductive Call : Set :=
| Loading (bytes : N)
| Looping (bytes used : N)
| Holding (bytes : N)
| Failed (error : BudgetError)
| Released.

Record Shared : Set := mkShared { sh_budget : ByteBudget; sh_calls : list Call }.

Inductive Access : Set :=
| Begin (bytes : N)                     (* enters [try_acquire] *)
| Load (call : nat)
| Exchange (call : nat) (spurious : bool)   (* one turn of the loop *)
| Shrink (call : nat) (bytes : N)
| Drop (call : nat).

(** [compare_exchange_weak] may fail although the value is the expected one. *)
Definition exchange_turn (bytes used : N) (spurious : bool) (b : ByteBudget) : Call * ByteBudget :=
  match acquire_next (bb_limit b) bytes used with
  | Err error => (Failed error, b)
  | Ok next =>
    if negb spurious && (bb_used b =? used) then (Holding bytes, b <| bb_used := next |>)
    else (Looping bytes (bb_used b), b)
  end.

Definition access (a : Access) (sh : Shared) : option Shared :=
  let 'mkShared b calls := sh in
  match a with
  | Begin bytes =>
    Some (mkShared b (calls ++ [if bytes =? 0 then Failed BudgetError.ZeroReservation else Loading bytes]))
  | Load i =>
    match calls !! i with
    | Some (Loading bytes) => Some (mkShared b (<[i := Looping bytes (bb_used b)]> calls))
    | _ => None
    end
  | Exchange i spurious =>
    match calls !! i with
    | Some (Looping bytes used) =>
      let '(call, b) := exchange_turn bytes used spurious b in Some (mkShared b (<[i := call]> calls))
    | _ => None
    end
  | Shrink i bytes =>
    match calls !! i with
    | Some (Holding held) =>
      match BytePermit_shrink_to held bytes b with
      | Ok b => Some (mkShared b (<[i := Holding bytes]> calls))
      | Err _ => Some sh
      end
    | _ => None
    end
  | Drop i =>
    match calls !! i with
    | Some (Holding held) => Some (mkShared (BytePermit_drop held b) (<[i := Released]> calls))
    | _ => None
    end
  end.

Fixpoint accesses (l : list Access) (sh : Shared) : option Shared :=
  match l with
  | [] => Some sh
  | a :: l => sh ← access a sh; accesses l sh
  end.

(** ** The budget is never exceeded *)

Definition held_by (c : Call) : N := match c with Holding bytes => bytes | _ => 0 end.

Record shared_ok (sh : Shared) : Prop := mkSharedOk {
  so_limit : bb_limit (sh_budget sh) <= USIZE_MAX;
  so_used : bb_used (sh_budget sh) = sum_of held_by (sh_calls sh);
  so_bound : bb_used (sh_budget sh) <= bb_limit (sh_budget sh);
}.

Lemma acquire_next_Ok limit bytes used next :
  acquire_next limit bytes used = Ok next -> next = used + bytes /\ next <= limit.
Proof.
  unfold acquire_next. rewrite bind_Ok. intros (n & Hn & Hle). apply ok_or_Ok, u64_checked_add_Some in Hn as [-> _].
  destruct (N.ltb_spec limit (used + bytes)); [done|]. by injection Hle as <-.
Qed.

#[local] Arguments sum_of : simpl never.
#[local] Arguments u64_wrapping_sub : simpl never.

(** The total of the permits when one call changes. *)
Lemma sum_calls_set calls i c c' :
  calls !! i = Some c -> sum_of held_by (<[i := c']> calls) = sum_of held_by calls + held_by c' - held_by c.
Proof. intros Hi. pose proof (sum_of_insert held_by _ _ _ c' Hi). lia. Qed.

Lemma held_le calls i c : calls !! i = Some c -> held_by c <= sum_of held_by calls.
Proof. intros Hi. pose proof (sum_of_delete held_by _ _ _ Hi). lia. Qed.

Lemma access_ok a sh sh' : access a sh = Some sh' -> shared_ok sh -> shared_ok sh'.
Proof.
  destruct sh as [[limit used] calls]. intros Ha [Hl Hu Hb]. cbn in *. destruct a; cbn in Ha.
  - injection Ha as <-. split; cbn; [done| |done]. rewrite sum_of_app, sum_of_cons. destruct (bytes =? 0); cbn; change (sum_of held_by []) with 0; lia.
  - destruct (calls !! call) as [[]|] eqn:Hi; try done. injection Ha as <-. split; cbn; [done| |done].
    rewrite (sum_calls_set _ _ _ _ Hi). cbn. lia.
  - destruct (calls !! call) as [[]|] eqn:Hi; try done. unfold exchange_turn in Ha. cbn in Ha.
    destruct (acquire_next limit bytes used0) as [next|e] eqn:Hn.
    + apply acquire_next_Ok in Hn as [-> Hle].
      destruct (negb spurious && (used =? used0)) eqn:Hx; injection Ha as <-;
        (split; cbn; rewrite ?(sum_calls_set _ _ _ _ Hi); cbn; try lia).
      apply andb_prop in Hx as [_ Hx%N.eqb_eq]. subst. lia.
    + injection Ha as <-. split; cbn; rewrite ?(sum_calls_set _ _ _ _ Hi); cbn; lia.
  - destruct (calls !! call) as [[]|] eqn:Hi; try done. pose proof (held_le _ _ _ Hi) as Hh. cbn in Hh.
    unfold BytePermit_shrink_to in Ha. destruct (N.ltb_spec bytes0 bytes); injection Ha as <-; [done|].
    cbn. rewrite u64_wrapping_sub_small by (unfold USIZE_MAX in *; lia).
    split; cbn; rewrite ?(sum_calls_set _ _ _ _ Hi); cbn; lia.
  - destruct (calls !! call) as [[]|] eqn:Hi; try done. pose proof (held_le _ _ _ Hi) as Hh. cbn in Hh.
    injection Ha as <-. unfold BytePermit_drop. cbn. rewrite u64_wrapping_sub_small by (unfold USIZE_MAX in *; lia).
    split; cbn; rewrite ?(sum_calls_set _ _ _ _ Hi); cbn; lia.
Qed.

Lemma accesses_ok l sh sh' : accesses l sh = Some sh' -> shared_ok sh -> shared_ok sh'.
Proof.
  revert sh. induction l as [|a l IH]; cbn; intros sh Hr Hok; [by injection Hr as <-|].
  apply bind_Some in Hr as (sh1 & Ha & Hr). eauto using access_ok.
Qed.

(** C27: whatever the interleaving of loads, exchanges (failing spuriously or not),
    shrinks and drops, the counter is the sum of the live permits and never
    exceeds the limit; no subtraction underflows. *)
Theorem budget_never_exceeded limit l sh :
  limit <= USIZE_MAX -> accesses l (mkShared (ByteBudget_new limit) []) = Some sh ->
  bb_used (sh_budget sh) = sum_of held_by (sh_calls sh) /\ sum_of held_by (sh_calls sh) <= limit.
Proof.
  intros Hl Hr. assert (Hlim : bb_limit (sh_budget sh) = limit).
  { enough (H : forall sh0, accesses l sh0 = Some sh -> bb_limit (sh_budget sh) = bb_limit (sh_budget sh0))
      by apply (H _ Hr).
    clear Hr. induction l as [|a l IH]; cbn; intros sh0 Hr; [by injection Hr as <-|].
    apply bind_Some in Hr as (sh1 & Ha & Hr). rewrite (IH _ Hr). clear -Ha.
    destruct sh0 as [b calls]. destruct a; cbn in Ha; unfold exchange_turn, BytePermit_shrink_to in Ha;
      repeat case_match; simplify_eq; done. }
  apply accesses_ok in Hr as [_ Hu Hb]; [rewrite <- Hu, <- Hlim; done|]. by split; cbn; [| |lia].
Qed.

(** ** Every call takes effect at once *)

Module Spec.
Inductive Status : Set :=
| Pending (bytes : N)
| Holding (bytes : N)
| Failed (error : BudgetError)
| Released.
End Spec.

(** The sequential operations as atomic steps. *)
Inductive spec_step : relation (ByteBudget * list Spec.Status) :=
| spec_begin b calls bytes :
    spec_step (b, calls) (b, calls ++ [Spec.Pending bytes])
| spec_acquire b calls i bytes b' :
    calls !! i = Some (Spec.Pending bytes) -> ByteBudget_try_acquire bytes b = Ok b' ->
    spec_step (b, calls) (b', <[i := Spec.Holding bytes]> calls)
| spec_refuse b calls i bytes error :
    calls !! i = Some (Spec.Pending bytes) -> ByteBudget_try_acquire bytes b = Err error ->
    spec_step (b, calls) (b, <[i := Spec.Failed error]> calls)
| spec_shrink b calls i held bytes b' :
    calls !! i = Some (Spec.Holding held) -> BytePermit_shrink_to held bytes b = Ok b' ->
    spec_step (b, calls) (b', <[i := Spec.Holding bytes]> calls)
| spec_drop b calls i held :
    calls !! i = Some (Spec.Holding held) ->
    spec_step (b, calls) (BytePermit_drop held b, <[i := Spec.Released]> calls).

(** A call that observed too little has already failed. *)
Definition view_call (limit : N) (c : Call) : Spec.Status :=
  match c with
  | Loading bytes => Spec.Pending bytes
  | Looping bytes used =>
    match acquire_next limit bytes used with Ok _ => Spec.Pending bytes | Err error => Spec.Failed error end
  | Holding bytes => Spec.Holding bytes
  | Failed error => Spec.Failed error
  | Released => Spec.Released
  end.
Definition view (sh : Shared) : ByteBudget * list Spec.Status :=
  (sh_budget sh, view_call (bb_limit (sh_budget sh)) <$> sh_calls sh).

Definition asks_some (c : Call) : Prop :=
  match c with Loading bytes | Looping bytes _ => bytes <> 0 | _ => True end.

Lemma view_set b calls i c :
  view (mkShared b (<[i := c]> calls))
  = (b, <[i := view_call (bb_limit b) c]> (view_call (bb_limit b) <$> calls)).
Proof. unfold view. cbn. by rewrite list_fmap_insert. Qed.

Lemma set_same {A} (l : list A) i x : l !! i = Some x -> <[i := x]> l = l.
Proof. apply list_insert_id. Qed.

(** A pending call that observes the counter: it fails here or stays pending. *)
Lemma observe_simulates b calls i c bytes :
  calls !! i = Some c -> view_call (bb_limit b) c = Spec.Pending bytes -> bytes <> 0 ->
  rtc spec_step (view (mkShared b calls)) (view (mkShared b (<[i := Looping bytes (bb_used b)]> calls))).
Proof.
  intros Hi Hc Hb. rewrite view_set. unfold view. cbn [sh_budget sh_calls view_call].
  assert (Hv : (view_call (bb_limit b) <$> calls) !! i = Some (Spec.Pending bytes))
    by (by rewrite list_lookup_fmap, Hi, <- Hc).
  destruct (acquire_next (bb_limit b) bytes (bb_used b)) as [next|e] eqn:Hn.
  - by rewrite (set_same _ _ _ Hv).
  - apply rtc_once, (spec_refuse _ _ _ bytes); [done|].
    unfold ByteBudget_try_acquire. rewrite (proj2 (N.eqb_neq _ _) Hb), Hn. done.
Qed.

Lemma exchange_simulates b calls i bytes used spurious c b' :
  calls !! i = Some (Looping bytes used) -> bytes <> 0 -> exchange_turn bytes used spurious b = (c, b') ->
  rtc spec_step (view (mkShared b calls)) (view (mkShared b' (<[i := c]> calls))).
Proof.
  intros Hi Hb. unfold exchange_turn.
  assert (Hv : (view_call (bb_limit b) <$> calls) !! i = Some (view_call (bb_limit b) (Looping bytes used)))
    by (by rewrite list_lookup_fmap, Hi).
  cbn [view_call] in Hv. destruct (acquire_next (bb_limit b) bytes used) as [next|e] eqn:Hn.
  - destruct (negb spurious && (bb_used b =? used)) eqn:Hx; intros [= <- <-].
    + apply andb_prop in Hx as [_ Hx%N.eqb_eq]. subst used. rewrite view_set.
      apply rtc_once, (spec_acquire _ _ _ bytes); [done|].
      unfold ByteBudget_try_acquire. cbn [sh_budget]. by rewrite (proj2 (N.eqb_neq _ _) Hb), Hn.
    + eapply observe_simulates; [exact Hi| |done]. cbn. by rewrite Hn.
  - intros [= <- <-]. rewrite view_set. cbn [view_call]. by rewrite (set_same _ _ _ Hv).
Qed.

Lemma access_simulates a sh sh' :
  access a sh = Some sh' -> Forall asks_some (sh_calls sh) ->
  rtc spec_step (view sh) (view sh') /\ Forall asks_some (sh_calls sh').
Proof.
  destruct sh as [b calls]. intros Ha Hn. cbn in Hn.
  assert (Hat : forall i c, calls !! i = Some c -> asks_some c) by (by apply Forall_lookup).
  destruct a; cbn [access] in Ha.
  - injection Ha as <-. split; cbn.
    + unfold view. cbn. rewrite fmap_app. cbn.
      eapply rtc_l; [apply (spec_begin _ _ bytes)|]. destruct (N.eqb_spec bytes 0) as [->|]; [|done].
      apply rtc_once. set (l := view_call (bb_limit b) <$> calls).
      assert (Hi : (l ++ [Spec.Pending 0]) !! length l = Some (Spec.Pending 0))
        by (by rewrite lookup_app_r, Nat.sub_diag by lia).
      pose proof (spec_refuse b _ _ _ BudgetError.ZeroReservation Hi eq_refl) as Hs.
      by rewrite insert_app_r_alt, Nat.sub_diag in Hs by lia.
    + apply Forall_app_2; [done|]. constructor; [|constructor]. by destruct (N.eqb_spec bytes 0).
  - destruct (calls !! call) as [[]|] eqn:Hi; try done. injection Ha as <-. specialize (Hat _ _ Hi).
    split; [by eapply observe_simulates|]. by apply Forall_insert.
  - destruct (calls !! call) as [[]|] eqn:Hi; try done. specialize (Hat _ _ Hi).
    destruct (exchange_turn bytes used spurious b) as [c b'] eqn:Hx. injection Ha as <-.
    split; [by eapply exchange_simulates|]. apply Forall_insert; [done|].
    unfold exchange_turn in Hx. repeat case_match; by simplify_eq.
  - destruct (calls !! call) as [[]|] eqn:Hi; try done.
    destruct (BytePermit_shrink_to bytes0 bytes b) as [b'|] eqn:Hs; injection Ha as <-; [|done].
    split; [|by apply Forall_insert]. rewrite view_set.
    assert (Hl : bb_limit b' = bb_limit b) by (unfold BytePermit_shrink_to in Hs; case_match; by simplify_eq).
    rewrite Hl. apply rtc_once, (spec_shrink _ _ _ bytes0); [cbn; by rewrite list_lookup_fmap, Hi|done].
  - destruct (calls !! call) as [[]|] eqn:Hi; try done. injection Ha as <-.
    split; [|by apply Forall_insert]. rewrite view_set.
    apply rtc_once, (spec_drop _ _ _ bytes). cbn. by rewrite list_lookup_fmap, Hi.
Qed.

(** C18: the compare-and-swap loop is atomic to its callers: every interleaving is a
    sequence of the sequential operations, in which each call succeeds, or fails
    with the error it reports, at one instant between its start and its return. *)
Theorem budget_refines_atomic limit l sh :
  accesses l (mkShared (ByteBudget_new limit) []) = Some sh ->
  rtc spec_step (ByteBudget_new limit, []) (view sh).
Proof.
  change (ByteBudget_new limit, []) with (view (mkShared (ByteBudget_new limit) [])).
  assert (Hn : Forall asks_some (sh_calls (mkShared (ByteBudget_new limit) []))) by constructor.
  revert Hn. generalize (mkShared (ByteBudget_new limit) []) as sh0.
  induction l as [|a l IH]; cbn; intros sh0 Hn Hr; [by injection Hr as <-|].
  apply bind_Some in Hr as (sh1 & Ha & Hr). destruct (access_simulates _ _ _ Ha Hn) as [Hs Hn'].
  etransitivity; [exact Hs|]. by apply IH.
Qed.

(** ** Two calls that race for the last bytes *)

Definition race : list Access := [
  Begin 6; Begin 6; Load 0; Load 1; Exchange 0 true; Exchange 0 false; Exchange 1 false; Exchange 1 false;
  Shrink 0 4; Begin 6; Load 2; Exchange 2 false; Drop 0].

Lemma race_result : sh_calls <$> accesses race (mkShared (ByteBudget_new 10) [])
  = Some [Released; Failed (BudgetError.Exhausted 6 4); Holding 6].
Proof. reflexivity. Qed.

Lemma budget_never_exceeded_witness :
  exists sh, accesses race (mkShared (ByteBudget_new 10) []) = Some sh /\
  bb_used (sh_budget sh) = sum_of held_by (sh_calls sh) /\ sum_of held_by (sh_calls sh) <= 10.
Proof.
  eexists. split; [reflexivity|]. apply (budget_never_exceeded 10 race); [discriminate|reflexivity].
Defined.

Lemma budget_refines_atomic_witness :
  exists sh, accesses race (mkShared (ByteBudget_new 10) []) = Some sh /\
  rtc spec_step (ByteBudget_new 10, []) (view sh).
Proof. eexists. split; [reflexivity|]. apply (budget_refines_atomic 10 race). reflexivity. Defined.
