(* ===== verification/Queue.v ===== *)
(** * Bounded queues

    Model of [crates/ariax-runtime/src/queue.rs]: the bounded queue that counts items
    and bytes, with capacity that can be reserved before a message exists, and the
    completion drain whose slots are reserved before a backend accepts an operation.

    Every method is one critical section of the queue's mutex, so a history is a
    sequence of operations.  Counters wrap as [usize] and [u64] do. *)

From S2P Require Import Prelude.
Open Scope list_scope.

Module CloseReason.
Inductive CloseReason : Set := Shutdown | Cancelled | Faulted.
End CloseReason.
Notation CloseReason := CloseReason.CloseReason.
#[global] Instance CloseReason_eq_dec : EqDecision CloseReason.
Proof. solve_decision. Defined.

Record QueueMetrics : Set := mkQueueMetrics {
  qm_len : N;
  qm_capacity : N;
  qm_used_bytes : N;
  qm_byte_capacity : N;
  qm_reserved_items : N;
  qm_reserved_bytes : N;
  qm_enqueued : N;
  qm_dequeued : N;
  qm_full : N;
  qm_closed_rejections : N;
  qm_peak_len : N;
}.
#[global] Instance QueueMetrics_eta : Settable QueueMetrics := fun m =>
  mkQueueMetrics (qm_len m) (qm_capacity m) (qm_used_bytes m) (qm_byte_capacity m) (qm_reserved_items m)
    (qm_reserved_bytes m) (qm_enqueued m) (qm_dequeued m) (qm_full m) (qm_closed_rejections m) (qm_peak_len m).
#[global] Instance qm_len_set : Setter qm_len. Proof. derive_setter. Defined.
#[global] Instance qm_used_bytes_set : Setter qm_used_bytes. Proof. derive_setter. Defined.
#[global] Instance qm_reserved_items_set : Setter qm_reserved_items. Proof. derive_setter. Defined.
#[global] Instance qm_reserved_bytes_set : Setter qm_reserved_bytes. Proof. derive_setter. Defined.
#[global] Instance qm_enqueued_set : Setter qm_enqueued. Proof. derive_setter. Defined.
#[global] Instance qm_dequeued_set : Setter qm_dequeued. Proof. derive_setter. Defined.
#[global] Instance qm_full_set : Setter qm_full. Proof. derive_setter. Defined.
#[global] Instance qm_closed_rejections_set : Setter qm_closed_rejections. Proof. derive_setter. Defined.
#[global] Instance qm_peak_len_set : Setter qm_peak_len. Proof. derive_setter. Defined.

Section queue.
Context {T : Type}.

(** ** The bounded queue *)

Record QueueState : Type := mkQueueState {
  q_queue : list (T * N);
  q_used_bytes : N;
  q_reserved_items : N;
  q_reserved_bytes : N;
  q_close_reason : option CloseReason;
  q_metrics : QueueMetrics;
}.
#[export] Instance QueueState_eta : Settable QueueState := fun s =>
  mkQueueState (q_queue s) (q_used_bytes s) (q_reserved_items s) (q_reserved_bytes s) (q_close_reason s)
    (q_metrics s).
#[export] Instance q_queue_set : Setter q_queue. Proof. derive_setter. Defined.
#[export] Instance q_used_bytes_set : Setter q_used_bytes. Proof. derive_setter. Defined.
#[export] Instance q_reserved_items_set : Setter q_reserved_items. Proof. derive_setter. Defined.
#[export] Instance q_reserved_bytes_set : Setter q_reserved_bytes. Proof. derive_setter. Defined.
#[export] Instance q_close_reason_set : Setter q_close_reason. Proof. derive_setter. Defined.
#[export] Instance q_metrics_set : Setter q_metrics. Proof. derive_setter. Defined.

Inductive QueueSendError : Type :=
| SendFull (value : T)
| SendClosed (reason : CloseReason) (value : T)
| SendItemTooLarge (value : T).
Inductive QueueReserveError : Set :=
| ReserveFull
| ReserveClosed (reason : CloseReason)
| ReserveItemTooLarge.

(** The assertions of the constructor are the [None]. *)
Definition BoundedQueue_new (capacity byte_capacity : N) : option QueueState :=
  if (0 <? capacity) && (0 <? byte_capacity)
  then Some {|
    q_queue := [];
    q_used_bytes := 0;
    q_reserved_items := 0;
    q_reserved_bytes := 0;
    q_close_reason := None;
    q_metrics := mkQueueMetrics 0 capacity 0 byte_capacity 0 0 0 0 0 0 0;
  |}
  else None.

Definition q_len (self : QueueState) : N := N.of_nat (length (q_queue self)).
Definition q_byte_capacity (self : QueueState) : N := qm_byte_capacity (q_metrics self).

Definition has_capacity (bytes : N) (self : QueueState) : bool :=
  (u64_wrapping_add (q_len self) (q_reserved_items self) <? qm_capacity (q_metrics self))
  && match u64_checked_add (q_used_bytes self) (q_reserved_bytes self) ≫= (fun used => u64_checked_add used bytes) with
     | Some used => used <=? qm_byte_capacity (q_metrics self)
     | None => false
     end.

Definition sync_metrics (self : QueueState) : QueueState :=
  self <| q_metrics := q_metrics self
    <| qm_len := q_len self |>
    <| qm_used_bytes := q_used_bytes self |>
    <| qm_reserved_items := q_reserved_items self |>
    <| qm_reserved_bytes := q_reserved_bytes self |> |>.

Definition enqueue_value (value : T) (bytes : N) (self : QueueState) : QueueState :=
  let self := self
    <| q_queue := q_queue self ++ [(value, bytes)] |>
    <| q_used_bytes := u64_wrapping_add (q_used_bytes self) bytes |> in
  sync_metrics (self <| q_metrics := q_metrics self
    <| qm_enqueued := u64_wrapping_add (qm_enqueued (q_metrics self)) 1 |>
    <| qm_peak_len := N.max (qm_peak_len (q_metrics self)) (q_len self) |> |>).

Definition release_reservation (bytes : N) (self : QueueState) : QueueState :=
  sync_metrics (self
    <| q_reserved_items := u64_wrapping_sub (q_reserved_items self) 1 |>
    <| q_reserved_bytes := u64_wrapping_sub (q_reserved_bytes self) bytes |>).

Definition count_closed (self : QueueState) : QueueState :=
  self <| q_metrics := q_metrics self
    <| qm_closed_rejections := u64_wrapping_add (qm_closed_rejections (q_metrics self)) 1 |> |>.
Definition count_full (self : QueueState) : QueueState :=
  self <| q_metrics := q_metrics self <| qm_full := u64_wrapping_add (qm_full (q_metrics self)) 1 |> |>.

Definition try_send (value : T) (bytes : N) (self : QueueState) : result QueueSendError () * QueueState :=
  if q_byte_capacity self <? bytes then (Err (SendItemTooLarge value), self)
  else match q_close_reason self with
  | Some reason => (Err (SendClosed reason value), count_closed self)
  | None =>
    if negb (has_capacity bytes self) then (Err (SendFull value), count_full self)
    else (Ok (), enqueue_value value bytes self)
  end.

(** A permit is the bytes it reserved. *)
Definition try_reserve (bytes : N) (self : QueueState) : result QueueReserveError N * QueueState :=
  if q_byte_capacity self <? bytes then (Err ReserveItemTooLarge, self)
  else match q_close_reason self with
  | Some reason => (Err (ReserveClosed reason), count_closed self)
  | None =>
    if negb (has_capacity bytes self) then (Err ReserveFull, count_full self)
    else (Ok bytes, sync_metrics (self
      <| q_reserved_items := u64_wrapping_add (q_reserved_items self) 1 |>
      <| q_reserved_bytes := u64_wrapping_add (q_reserved_bytes self) bytes |>))
  end.

Definition try_recv (self : QueueState) : option T * QueueState :=
  match q_queue self with
  | [] => (None, self)
  | (value, bytes) :: queue =>
    let self := self
      <| q_queue := queue |>
      <| q_used_bytes := u64_wrapping_sub (q_used_bytes self) bytes |> in
    (Some value, sync_metrics (self <| q_metrics := q_metrics self
      <| qm_dequeued := u64_wrapping_add (qm_dequeued (q_metrics self)) 1 |> |>))
  end.

Definition close (reason : CloseReason) (self : QueueState) : list T * QueueState :=
  let self := self
    <| q_close_reason := Some (default reason (q_close_reason self)) |> in
  ((q_queue self).*1, sync_metrics (self <| q_queue := [] |> <| q_used_bytes := 0 |>)).

Definition QueuePermit_send (permit : N) (value : T) (self : QueueState)
    : result QueueSendError () * QueueState :=
  let self := release_reservation permit self in
  match q_close_reason self with
  | Some reason => (Err (SendClosed reason value), count_closed self)
  | None => (Ok (), enqueue_value value permit self)
  end.

(** [cancel] and [Drop]. *)
Definition QueuePermit_cancel (permit : N) (self : QueueState) : QueueState :=
  release_reservation permit self.

(** ** Histories of a bounded queue *)

(** The queue, its live permits, what it accepted and what it handed out. *)
Record QueueRun : Type := mkQueueRun {
  qr_state : QueueState;
  qr_permits : list N;
  qr_accepted : list T;
  qr_delivered : list T;
}.

Inductive QueueOp : Type :=
| Send (value : T) (bytes : N)
| Reserve (bytes : N)
| SendReserved (permit : nat) (value : T)
| CancelReserved (permit : nat)
| Receive
| Close (reason : CloseReason).

Definition queue_step (op : QueueOp) (run : QueueRun) : option QueueRun :=
  let 'mkQueueRun s permits accepted delivered := run in
  match op with
  | Send value bytes =>
    let '(r, s) := try_send value bytes s in
    Some (mkQueueRun s permits (match r with Ok _ => accepted ++ [value] | Err _ => accepted end) delivered)
  | Reserve bytes =>
    let '(r, s) := try_reserve bytes s in
    Some (mkQueueRun s (match r with Ok permit => permit :: permits | Err _ => permits end) accepted delivered)
  | SendReserved i value =>
    permit ← permits !! i;
    let '(r, s) := QueuePermit_send permit value s in
    Some (mkQueueRun s (delete i permits)
      (match r with Ok _ => accepted ++ [value] | Err _ => accepted end) delivered)
  | CancelReserved i =>
    permit ← permits !! i;
    Some (mkQueueRun (QueuePermit_cancel permit s) (delete i permits) accepted delivered)
  | Receive =>
    let '(value, s) := try_recv s in
    Some (mkQueueRun s permits accepted (delivered ++ option_list value))
  | Close reason =>
    let '(values, s) := close reason s in
    Some (mkQueueRun s permits accepted (delivered ++ values))
  end.

Fixpoint queue_steps (ops : list QueueOp) (run : QueueRun) : option QueueRun :=
  match ops with
  | [] => Some run
  | op :: ops => run ← queue_step op run; queue_steps ops run
  end.

Section bounds.
Context (capacity byte_capacity : N).
Hypothesis machine : capacity <= USIZE_MAX /\ byte_capacity <= USIZE_MAX.

(** The metrics are those of the queue. *)
Definition metrics_synced (s : QueueState) : Prop :=
  qm_capacity (q_metrics s) = capacity /\ qm_byte_capacity (q_metrics s) = byte_capacity /\
  qm_len (q_metrics s) = q_len s /\ qm_used_bytes (q_metrics s) = q_used_bytes s /\
  qm_reserved_items (q_metrics s) = q_reserved_items s /\ qm_reserved_bytes (q_metrics s) = q_reserved_bytes s.

Record queue_ok (run : QueueRun) : Prop := mkQueueOk {
  qo_metrics : metrics_synced (qr_state run);
  qo_items : q_len (qr_state run) + q_reserved_items (qr_state run) <= capacity;
  qo_reserved : q_reserved_items (qr_state run) = N.of_nat (length (qr_permits run));
  qo_reserved_bytes : q_reserved_bytes (qr_state run) = sum_of id (qr_permits run);
  qo_used : q_used_bytes (qr_state run) = sum_of snd (q_queue (qr_state run));
  qo_bytes : q_used_bytes (qr_state run) + q_reserved_bytes (qr_state run) <= byte_capacity;
  qo_closed : is_some (q_close_reason (qr_state run)) = true -> q_queue (qr_state run) = [];
  qo_order : qr_accepted run = qr_delivered run ++ (q_queue (qr_state run)).*1;
}.

#[local] Arguments sum_of : simpl never.
#[local] Arguments u64_wrapping_sub : simpl never.
#[local] Arguments u64_wrapping_add : simpl never.

Lemma has_capacity_spec bytes run :
  queue_ok run -> has_capacity bytes (qr_state run) = true ->
  q_len (qr_state run) + q_reserved_items (qr_state run) < capacity /\
  q_used_bytes (qr_state run) + q_reserved_bytes (qr_state run) + bytes <= byte_capacity.
Proof.
  intros [(Hc & Hb & _) Hi _ _ _ _ _ _] Hh. unfold has_capacity in Hh. rewrite Hc, Hb in Hh.
  apply andb_prop in Hh as [Hn Hm]. destruct machine.
  rewrite u64_wrapping_add_small in Hn by (unfold USIZE_MAX in *; lia). apply N.ltb_lt in Hn.
  destruct (_ ≫= _) as [used|] eqn:Hu; [|done]. apply bind_Some in Hu as (u & Hu & Hv).
  apply u64_checked_add_Some in Hu as [-> _]. apply u64_checked_add_Some in Hv as [-> _].
  apply N.leb_le in Hm. done.
Qed.

Lemma sum_of_nil {A} (f : A -> N) : sum_of f [] = 0.
Proof. done. Qed.

(** An accepted message: there is room for it, and the queue is open. *)
Lemma enqueue_ok s permits accepted delivered value bytes :
  let run := mkQueueRun s permits accepted delivered in
  queue_ok run -> q_close_reason s = None -> q_len s + q_reserved_items s < capacity ->
  q_used_bytes s + q_reserved_bytes s + bytes <= byte_capacity ->
  queue_ok (mkQueueRun (enqueue_value value bytes s) permits (accepted ++ [value]) delivered).
Proof.
  intros run [Hm Hi Hr Hrb Hu Hb Hc Ho] Hopen Hroom Hbytes. cbn in *. destruct machine.
  destruct Hm as (Hm1 & Hm2 & _). unfold enqueue_value.
  split; cbn; rewrite ?Hopen; try done.
  - unfold q_len in *. cbn. rewrite length_app. cbn. lia.
  - rewrite u64_wrapping_add_small by (unfold USIZE_MAX in *; lia).
    rewrite sum_of_app, sum_of_cons, sum_of_nil, Hu. cbn [snd]. lia.
  - rewrite u64_wrapping_add_small by (unfold USIZE_MAX in *; lia). lia.
  - by rewrite fmap_app, Ho, app_assoc.
Qed.

(** Giving a reservation back. *)
Lemma release_ok s permits accepted delivered i permit :
  let run := mkQueueRun s permits accepted delivered in
  queue_ok run -> permits !! i = Some permit ->
  let s' := release_reservation permit s in
  queue_ok (mkQueueRun s' (delete i permits) accepted delivered) /\
  q_len s' + q_reserved_items s' < capacity /\
  q_used_bytes s' + q_reserved_bytes s' + permit <= byte_capacity /\ q_close_reason s' = q_close_reason s.
Proof.
  intros run [Hm Hi Hr Hrb Hu Hb Hc Ho] Hp. cbn in *. destruct machine.
  destruct Hm as (Hm1 & Hm2 & _). pose proof (sum_of_delete id _ _ _ Hp) as Hd. cbn in Hd.
  pose proof (length_delete permits i ltac:(by exists permit)) as Hl.
  assert (Hs1 : u64_wrapping_sub (q_reserved_items s) 1 = q_reserved_items s - 1)
    by (apply u64_wrapping_sub_small; unfold USIZE_MAX in *; [|lia]; apply lookup_lt_Some in Hp; lia).
  assert (Hs2 : u64_wrapping_sub (q_reserved_bytes s) permit = q_reserved_bytes s - permit)
    by (apply u64_wrapping_sub_small; unfold USIZE_MAX in *; lia).
  apply lookup_lt_Some in Hp. unfold release_reservation. rewrite Hs1, Hs2.
  split; [split; cbn; try done; unfold q_len in *; cbn; lia|]. cbn. unfold q_len in *. cbn. split_and!; [lia..|done].
Qed.

(** A refused operation changes counters of the metrics only. *)
Lemma refused_ok s s' permits accepted delivered :
  queue_ok (mkQueueRun s permits accepted delivered) ->
  s' = count_closed s \/ s' = count_full s -> queue_ok (mkQueueRun s' permits accepted delivered).
Proof. intros [] [->| ->]; by split. Qed.

Lemma send_ok s permits accepted delivered value bytes r s' :
  queue_ok (mkQueueRun s permits accepted delivered) -> try_send value bytes s = (r, s') ->
  queue_ok (mkQueueRun s' permits (match r with Ok _ => accepted ++ [value] | Err _ => accepted end) delivered).
Proof.
  intros Hok. unfold try_send. case_match; [by intros [= <- <-]|].
  destruct (q_close_reason s) eqn:Hc; [intros [= <- <-]; eapply refused_ok; eauto|].
  destruct (has_capacity bytes s) eqn:Hh; intros [= <- <-]; cbn; [|eapply refused_ok; eauto].
  destruct (has_capacity_spec _ _ Hok Hh). by apply enqueue_ok.
Qed.

Lemma reserve_ok s permits accepted delivered bytes r s' :
  queue_ok (mkQueueRun s permits accepted delivered) -> try_reserve bytes s = (r, s') ->
  queue_ok (mkQueueRun s' (match r with Ok permit => permit :: permits | Err _ => permits end) accepted delivered).
Proof.
  intros Hok. unfold try_reserve. case_match; [by intros [= <- <-]|].
  destruct (q_close_reason s) eqn:Hcl; [intros [= <- <-]; eapply refused_ok; eauto|].
  destruct (has_capacity bytes s) eqn:Hh; intros [= <- <-]; cbn; [|eapply refused_ok; eauto].
  destruct (has_capacity_spec _ _ Hok Hh) as [Hroom Hbytes].
  destruct Hok as [(Hm1 & Hm2 & _) Hi Hr Hrb Hu Hb Hc Ho]. cbn in *. destruct machine.
  rewrite !u64_wrapping_add_small by (unfold USIZE_MAX in *; lia).
  split; cbn; rewrite ?Hcl; try done; unfold q_len in *; cbn; rewrite ?sum_of_cons; cbn; try lia.
Qed.

Lemma recv_ok s permits accepted delivered value s' :
  queue_ok (mkQueueRun s permits accepted delivered) -> try_recv s = (value, s') ->
  queue_ok (mkQueueRun s' permits accepted (delivered ++ option_list value)).
Proof.
  intros Hok. unfold try_recv. destruct (q_queue s) as [|[v bytes] queue] eqn:Hq; intros [= <- <-].
  { cbn. by rewrite app_nil_r. }
  destruct Hok as [(Hm1 & Hm2 & _) Hi Hr Hrb Hu Hb Hc Ho]. cbn in *. destruct machine.
  unfold q_len in *. rewrite Hq in *. rewrite sum_of_cons in Hu. cbn in *.
  rewrite u64_wrapping_sub_small by (unfold USIZE_MAX in *; lia).
  split; cbn; try done; unfold q_len; cbn; try lia.
  - intros Hcl. by specialize (Hc Hcl).
  - by rewrite <- app_assoc.
Qed.

Lemma close_ok s permits accepted delivered reason values s' :
  queue_ok (mkQueueRun s permits accepted delivered) -> close reason s = (values, s') ->
  queue_ok (mkQueueRun s' permits accepted (delivered ++ values)).
Proof.
  intros Hok [= <- <-]. destruct Hok as [(Hm1 & Hm2 & _) Hi Hr Hrb Hu Hb Hc Ho]. cbn in *.
  split; cbn; try done; unfold q_len; cbn; try lia. by rewrite app_nil_r.
Qed.

Lemma queue_step_ok op run run' : queue_step op run = Some run' -> queue_ok run -> queue_ok run'.
Proof.
  destruct run as [s permits accepted delivered]. intros Hs Hok. destruct op; cbn [queue_step] in Hs.
  - destruct (try_send value bytes s) eqn:He. injection Hs as <-. by eapply send_ok.
  - destruct (try_reserve bytes s) eqn:He. injection Hs as <-. by eapply reserve_ok.
  - destruct (permits !! permit) as [p|] eqn:Hp; [|done]. cbn in Hs.
    destruct (release_ok _ _ _ _ _ _ Hok Hp) as (Hr & Hroom & Hbytes & Hcl).
    unfold QueuePermit_send in Hs. destruct (q_close_reason (release_reservation p s)) eqn:Hc; injection Hs as <-.
    + eapply refused_ok; eauto.
    + by apply enqueue_ok.
  - destruct (permits !! permit) as [p|] eqn:Hp; [|done]. injection Hs as <-.
    apply (release_ok _ _ _ _ _ _ Hok Hp).
  - destruct (try_recv s) eqn:He. injection Hs as <-. by eapply recv_ok.
  - destruct (close reason s) eqn:He. injection Hs as <-. by eapply close_ok.
Qed.

Lemma queue_steps_ok ops run run' : queue_steps ops run = Some run' -> queue_ok run -> queue_ok run'.
Proof.
  revert run. induction ops as [|op ops IH]; cbn; intros run Hr Hok; [by injection Hr as <-|].
  apply bind_Some in Hr as (run1 & Hs & Hr). eauto using queue_step_ok.
Qed.

Lemma new_ok s : BoundedQueue_new capacity byte_capacity = Some s -> queue_ok (mkQueueRun s [] [] []).
Proof.
  unfold BoundedQueue_new. case_match; [|done]. intros [= <-]. split; cbn; try done; unfold q_len; cbn; lia.
Qed.
End bounds.
End queue.
#[global] Arguments QueueState : clear implicits.
#[global] Arguments QueueSendError : clear implicits.
#[global] Arguments QueueRun : clear implicits.
#[global] Arguments QueueOp : clear implicits.

(** C30: in every history of a bounded queue the messages and the reservations stay
    within the item and the byte capacity, the byte counters are the sums they stand
    for, the metrics agree with the queue, and a closed queue is empty; the messages
    come out in the order they were accepted, none lost and none twice. *)
Theorem queue_bounded_fifo {T} capacity byte_capacity (s : QueueState T) ops run :
  capacity <= USIZE_MAX -> byte_capacity <= USIZE_MAX ->
  BoundedQueue_new capacity byte_capacity = Some s -> queue_steps ops (mkQueueRun s [] [] []) = Some run ->
  q_len (qr_state run) + N.of_nat (length (qr_permits run)) <= capacity /\
  sum_of snd (q_queue (qr_state run)) + sum_of id (qr_permits run) <= byte_capacity /\
  metrics_synced capacity byte_capacity (qr_state run) /\
  q_used_bytes (qr_state run) = sum_of snd (q_queue (qr_state run)) /\
  (is_some (q_close_reason (qr_state run)) = true -> q_queue (qr_state run) = []) /\
  qr_accepted run = qr_delivered run ++ (q_queue (qr_state run)).*1.
Proof.
  intros Hc Hb Hn Hr. apply (new_ok _ _ (conj Hc Hb)) in Hn. pose proof (queue_steps_ok _ _ (conj Hc Hb) _ _ _ Hr Hn) as [].
  split_and!; auto; lia.
Qed.

(** a reservation is a promise: whatever happened since, a live permit of an open
    queue sends its message, and of a closed one hands it back. *)
Theorem reserved_send_succeeds {T} capacity byte_capacity (s : QueueState T) ops run i permit value :
  capacity <= USIZE_MAX -> byte_capacity <= USIZE_MAX ->
  BoundedQueue_new capacity byte_capacity = Some s -> queue_steps ops (mkQueueRun s [] [] []) = Some run ->
  qr_permits run !! i = Some permit ->
  exists run', queue_step (SendReserved i value) run = Some run' /\
    q_len (qr_state run') + N.of_nat (length (qr_permits run')) <= capacity /\
    match q_close_reason (qr_state run) with
    | None => q_queue (qr_state run') = q_queue (qr_state run) ++ [(value, permit)]
    | Some reason => (QueuePermit_send permit value (qr_state run)).1 = Err (SendClosed reason value) /\
        q_queue (qr_state run') = []
    end.
Proof.
  intros Hc Hb Hn Hr Hp. apply (new_ok _ _ (conj Hc Hb)) in Hn. pose proof (queue_steps_ok _ _ (conj Hc Hb) _ _ _ Hr Hn) as Hok.
  destruct (queue_step (SendReserved i value) run) as [run'|] eqn:Hs.
  2:{ destruct run. cbn in Hs, Hp. rewrite Hp in Hs. cbn in Hs.
      by destruct (QueuePermit_send _ _ _). }
  exists run'. split; [done|]. pose proof (queue_step_ok _ _ (conj Hc Hb) _ _ _ Hs Hok) as [].
  split; [lia|]. pose proof (qo_closed _ _ _ Hok) as Hcl. destruct run as [q permits acc del]. cbn in *.
  rewrite Hp in Hs. cbn in Hs. unfold QueuePermit_send in *. cbn in Hs |- *.
  destruct (q_close_reason q) as [reason|]; injection Hs as <-; cbn in *; [|done]. split; [done|by apply Hcl].
Qed.

(** ** The completion drain *)

Section drain.
Context {T : Type}.

Record CompletionState : Type := mkCompletionState {
  cs_queue : list T;
  cs_capacity : N;
  cs_reserved : N;
  cs_sent : N;
  cs_received : N;
  cs_rejected_before_acceptance : N;
  cs_leaked_permits : N;
  cs_admission_closed : bool;
  cs_receiver_closed : bool;
}.
#[export] Instance CompletionState_eta : Settable CompletionState := fun s =>
  mkCompletionState (cs_queue s) (cs_capacity s) (cs_reserved s) (cs_sent s) (cs_received s)
    (cs_rejected_before_acceptance s) (cs_leaked_permits s) (cs_admission_closed s) (cs_receiver_closed s).
#[export] Instance cs_queue_set : Setter cs_queue. Proof. derive_setter. Defined.
#[export] Instance cs_reserved_set : Setter cs_reserved. Proof. derive_setter. Defined.
#[export] Instance cs_sent_set : Setter cs_sent. Proof. derive_setter. Defined.
#[export] Instance cs_received_set : Setter cs_received. Proof. derive_setter. Defined.
#[export] Instance cs_rejected_before_acceptance_set : Setter cs_rejected_before_acceptance.
Proof. derive_setter. Defined.
#[export] Instance cs_leaked_permits_set : Setter cs_leaked_permits. Proof. derive_setter. Defined.
#[export] Instance cs_admission_closed_set : Setter cs_admission_closed. Proof. derive_setter. Defined.
#[export] Instance cs_receiver_closed_set : Setter cs_receiver_closed. Proof. derive_setter. Defined.

Definition cs_len (self : CompletionState) : N := N.of_nat (length (cs_queue self)).

Definition CompletionDrain_new (capacity : N) : option CompletionState :=
  if 0 <? capacity then Some (mkCompletionState [] capacity 0 0 0 0 0 false false) else None.

Definition drain_try_reserve (self : CompletionState) : option CompletionState :=
  if cs_admission_closed self || cs_receiver_closed self
     || (cs_capacity self <=? u64_wrapping_add (cs_len self) (cs_reserved self))
  then None
  else Some (self <| cs_reserved := u64_wrapping_add (cs_reserved self) 1 |>).

Definition drain_try_recv (self : CompletionState) : option T * CompletionState :=
  match cs_queue self with
  | [] => (None, self)
  | value :: queue =>
    (Some value, self <| cs_queue := queue |> <| cs_received := u64_wrapping_add (cs_received self) 1 |>)
  end.

Definition close_admission (self : CompletionState) : CompletionState :=
  self <| cs_admission_closed := true |>.

Definition finish_close (self : CompletionState) : bool * CompletionState :=
  if negb (cs_admission_closed self) || negb (cs_reserved self =? 0)
     || negb (N.of_nat (length (cs_queue self)) =? 0)
  then (false, self)
  else (true, self <| cs_receiver_closed := true |>).

Definition CompletionPermit_send (value : T) (self : CompletionState) : CompletionState :=
  self
    <| cs_reserved := u64_wrapping_sub (cs_reserved self) 1 |>
    <| cs_queue := cs_queue self ++ [value] |>
    <| cs_sent := u64_wrapping_add (cs_sent self) 1 |>.
Definition CompletionPermit_reject (self : CompletionState) : CompletionState :=
  self
    <| cs_reserved := u64_wrapping_sub (cs_reserved self) 1 |>
    <| cs_rejected_before_acceptance := u64_wrapping_add (cs_rejected_before_acceptance self) 1 |>.
Definition CompletionPermit_drop (self : CompletionState) : CompletionState :=
  self
    <| cs_reserved := u64_wrapping_sub (cs_reserved self) 1 |>
    <| cs_leaked_permits := u64_wrapping_add (cs_leaked_permits self) 1 |>.

(** The drain, how many permits are live, and the outcomes sent and received. *)
Record DrainRun : Type := mkDrainRun {
  dr_state : CompletionState;
  dr_permits : N;
  dr_sent : list T;
  dr_received : list T;
}.

Inductive DrainOp : Type :=
| DrainReserve
| DrainSend (value : T)
| DrainReject
| DrainDrop
| DrainReceive
| DrainCloseAdmission
| DrainFinishClose.

(** The last three operations of a permit need a live one. *)
Definition drain_step (op : DrainOp) (run : DrainRun) : option DrainRun :=
  let 'mkDrainRun s permits sent received := run in
  let live (k : DrainRun) := if permits =? 0 then None else Some k in
  match op with
  | DrainReserve =>
    Some (match drain_try_reserve s with
          | Some s => mkDrainRun s (permits + 1) sent received
          | None => run
          end)
  | DrainSend value => live (mkDrainRun (CompletionPermit_send value s) (permits - 1) (sent ++ [value]) received)
  | DrainReject => live (mkDrainRun (CompletionPermit_reject s) (permits - 1) sent received)
  | DrainDrop => live (mkDrainRun (CompletionPermit_drop s) (permits - 1) sent received)
  | DrainReceive =>
    let '(value, s) := drain_try_recv s in Some (mkDrainRun s permits sent (received ++ option_list value))
  | DrainCloseAdmission => Some (mkDrainRun (close_admission s) permits sent received)
  | DrainFinishClose => Some (mkDrainRun (finish_close s).2 permits sent received)
  end.

Fixpoint drain_steps (ops : list DrainOp) (run : DrainRun) : option DrainRun :=
  match ops with
  | [] => Some run
  | op :: ops => run ← drain_step op run; drain_steps ops run
  end.

Record drain_ok (capacity : N) (run : DrainRun) : Prop := mkDrainOk {
  do_capacity : cs_capacity (dr_state run) = capacity;
  do_reserved : cs_reserved (dr_state run) = dr_permits run;
  do_bound : cs_len (dr_state run) + dr_permits run <= capacity;
  do_order : dr_sent run = dr_received run ++ cs_queue (dr_state run);
  do_closed : cs_receiver_closed (dr_state run) = true ->
    cs_admission_closed (dr_state run) = true /\ dr_permits run = 0 /\ cs_queue (dr_state run) = [];
}.

#[local] Arguments u64_wrapping_sub : simpl never.
#[local] Arguments u64_wrapping_add : simpl never.

Lemma drain_step_ok capacity op run run' :
  capacity <= USIZE_MAX -> drain_step op run = Some run' -> drain_ok capacity run -> drain_ok capacity run'.
Proof.
  unfold USIZE_MAX. intros Hcap Hs Hok. pose proof Hok as [Hc Hr Hb Ho Hcl].
  destruct run as [s permits sent received].
  assert (Hsub : permits <> 0 -> u64_wrapping_sub (cs_reserved s) 1 = permits - 1).
  { intros Hp. cbn in *. rewrite Hr. apply u64_wrapping_sub_small; lia. }
  destruct op; cbn in Hs, Hc, Hr, Hb, Ho, Hcl.
  - injection Hs as <-. unfold drain_try_reserve. rewrite Hr, Hc, u64_wrapping_add_small by lia.
    destruct (cs_admission_closed s) eqn:Ha, (cs_receiver_closed s) eqn:Hrc; cbn; try done.
    destruct (N.leb_spec capacity (cs_len s + permits)); cbn; [done|].
    rewrite u64_wrapping_add_small by lia. split; cbn; try done; [unfold cs_len in *; cbn; lia|congruence].
  - destruct (N.eqb_spec permits 0); [done|]. injection Hs as <-. unfold CompletionPermit_send. rewrite Hsub by done.
    split; cbn; try done; unfold cs_len in *; cbn; rewrite ?length_app; cbn; [lia|by rewrite Ho, app_assoc|].
    intros H. destruct (Hcl H) as (_ & ? & _). done.
  - destruct (N.eqb_spec permits 0); [done|]. injection Hs as <-. unfold CompletionPermit_reject. rewrite Hsub by done.
    split; cbn; try done; unfold cs_len in *; cbn; [lia|]. intros H. destruct (Hcl H) as (_ & ? & _). done.
  - destruct (N.eqb_spec permits 0); [done|]. injection Hs as <-. unfold CompletionPermit_drop. rewrite Hsub by done.
    split; cbn; try done; unfold cs_len in *; cbn; [lia|]. intros H. destruct (Hcl H) as (_ & ? & _). done.
  - unfold drain_try_recv in Hs. destruct (cs_queue s) as [|v queue] eqn:Hq; injection Hs as <-.
    { cbn. by rewrite app_nil_r. }
    split; cbn; try done; unfold cs_len in *; rewrite ?Hq in *; cbn in *; [lia|by rewrite <- app_assoc|].
    intros H. by destruct (Hcl H) as (_ & _ & ?).
  - injection Hs as <-. split; cbn; try done. intros H. by destruct (Hcl H).
  - injection Hs as <-. unfold finish_close. case_match eqn:Hf; [done|].
    apply orb_false_iff in Hf as [[Ha%negb_false_iff Hz%negb_false_iff%N.eqb_eq]%orb_false_iff Hl%negb_false_iff%N.eqb_eq].
    split; cbn; try done. intros _. split_and!; [done|congruence|]. apply length_zero_iff_nil. lia.
Qed.

Lemma drain_steps_ok capacity ops run run' :
  capacity <= USIZE_MAX -> drain_steps ops run = Some run' -> drain_ok capacity run -> drain_ok capacity run'.
Proof.
  intros Hcap. revert run. induction ops as [|op ops IH]; cbn; intros run Hr Hok; [by injection Hr as <-|].
  apply bind_Some in Hr as (run1 & Hs & Hr). eauto using drain_step_ok.
Qed.
End drain.
#[global] Arguments CompletionState : clear implicits.
#[global] Arguments DrainRun : clear implicits.
#[global] Arguments DrainOp : clear implicits.

(** C31: a completion slot taken before acceptance is always there for the outcome:
    outcomes waiting and slots reserved stay within the capacity, the outcomes come
    out as they were sent, and once the receiver is closed no permit is live and no
    outcome waits, so that nothing can be sent to it any more. *)
Theorem drain_delivers_every_outcome {T} capacity (s : CompletionState T) ops run :
  capacity <= USIZE_MAX -> CompletionDrain_new capacity = Some s ->
  drain_steps ops (mkDrainRun s 0 [] []) = Some run ->
  cs_len (dr_state run) + dr_permits run <= capacity /\ cs_reserved (dr_state run) = dr_permits run /\
  dr_sent run = dr_received run ++ cs_queue (dr_state run) /\
  (cs_receiver_closed (dr_state run) = true ->
   dr_permits run = 0 /\ dr_received run = dr_sent run /\ drain_try_reserve (dr_state run) = None).
Proof.
  intros Hcap Hn Hr. unfold CompletionDrain_new in Hn. destruct (0 <? capacity); [|done]. injection Hn as <-.
  eapply drain_steps_ok in Hr as [Hc Hres Hb Ho Hcl]; [|done|by split; cbn; try done; unfold cs_len; cbn; lia].
  split_and!; [done..|]. intros H. destruct (Hcl H) as (Ha & Hp & Hq). split_and!; [done| |].
  - by rewrite Ho, Hq, app_nil_r.
  - unfold drain_try_reserve. by rewrite Ha.
Qed.

(** ** Example histories *)

Definition queue_story : list (QueueOp N) :=
  [Send 1 40; Reserve 50; Send 2 20; Send 3 10; Receive; SendReserved 0 4; Reserve 30; Receive;
   Close CloseReason.Cancelled; Close CloseReason.Shutdown; Send 5 1].
Definition queue_start : QueueState N := default (mkQueueState [] 0 0 0 None (mkQueueMetrics 0 0 0 0 0 0 0 0 0 0 0))
  (BoundedQueue_new 3 100).

Lemma queue_bounded_fifo_witness :
  exists run, queue_steps queue_story (mkQueueRun queue_start [] [] []) = Some run /\
  qr_delivered run = [1; 3; 4] /\ qr_permits run = [30] /\
  q_len (qr_state run) + N.of_nat (length (qr_permits run)) <= 3.
Proof.
  eexists. split; [vm_compute; reflexivity|]. split; [reflexivity|]. split; [reflexivity|].
  refine (proj1 (queue_bounded_fifo 3 100 queue_start queue_story _ _ _ _ _)); [discriminate..|reflexivity|].
  vm_compute. reflexivity.
Defined.

Definition reserve_story : list (QueueOp N) := [Reserve 50; Send 2 20; Send 3 30].
Definition reserved_run : QueueRun N := default (mkQueueRun queue_start [] [] [])
  (queue_steps reserve_story (mkQueueRun queue_start [] [] [])).

Lemma reserved_send_succeeds_witness :
  exists run', queue_step (SendReserved 0 4) reserved_run = Some run' /\
    q_len (qr_state run') + N.of_nat (length (qr_permits run')) <= 3 /\
    q_queue (qr_state run') = q_queue (qr_state reserved_run) ++ [(4, 50)].
Proof.
  refine (reserved_send_succeeds 3 100 queue_start reserve_story reserved_run 0 50 4 _ _ _ _ _);
    [discriminate..|reflexivity|vm_compute; reflexivity|vm_compute; reflexivity].
Defined.

Definition drain_story : list (DrainOp N) :=
  [DrainReserve; DrainReserve; DrainReserve; DrainSend 7; DrainCloseAdmission; DrainFinishClose; DrainReserve;
   DrainSend 8; DrainReceive; DrainReceive; DrainFinishClose].

Lemma drain_delivers_every_outcome_witness :
  exists run, drain_steps drain_story (mkDrainRun (mkCompletionState [] 2 0 0 0 0 0 false false) 0 [] []) = Some run /\
  cs_receiver_closed (dr_state run) = true /\ dr_received run = [7; 8] /\
  cs_len (dr_state run) + dr_permits run <= 2.
Proof.
  eexists. split; [vm_compute; reflexivity|]. split; [reflexivity|]. split; [reflexivity|].
  refine (proj1 (drain_delivers_every_outcome 2 (mkCompletionState [] 2 0 0 0 0 0 false false) drain_story _ _ _ _));
    [discriminate|reflexivity|vm_compute; reflexivity].
Defined.
