(* ===== verification/Buffer.v ===== *)
(** * Transfer buffers

    Model of [crates/ariax-runtime/src/buffer.rs]: the size classes, the states a
    leased buffer goes through, and the bounded pool with reuse and quarantine.

    A permit of a byte budget is kept as the capacity of the storage that owns it;
    the three budgets are the atomic counters of [Budget].  [alloc] says whether the
    allocator had the memory.  Buffers are move-only, so an operation takes the
    lease it consumes; [expect] on a size class is the [None] of a result. *)

From S2P Require Import Prelude Budget.
From Stdlib Require Import Strings.Byte.
Open Scope list_scope.

Module SizeClass.
Inductive SizeClass : Set := KiB16 | KiB64 | KiB256 | MiB1.
End SizeClass.
Notation SizeClass := SizeClass.SizeClass.
#[global] Instance SizeClass_eq_dec : EqDecision SizeClass.
Proof. solve_decision. Defined.

Definition SizeClass_capacity (self : SizeClass) : N :=
  match self with
  | SizeClass.KiB16 => 16 * 1024
  | SizeClass.KiB64 => 64 * 1024
  | SizeClass.KiB256 => 256 * 1024
  | SizeClass.MiB1 => 1024 * 1024
  end.
Definition SizeClass_code (self : SizeClass) : string :=
  match self with
  | SizeClass.KiB16 => "16_kib"
  | SizeClass.KiB64 => "64_kib"
  | SizeClass.KiB256 => "256_kib"
  | SizeClass.MiB1 => "1_mib"
  end.
Definition SizeClass_ALL : list SizeClass :=
  [SizeClass.KiB16; SizeClass.KiB64; SizeClass.KiB256; SizeClass.MiB1].
Definition SizeClass_choose (minimum : N) : option SizeClass :=
  snd <$> list_find (fun class => minimum <= SizeClass_capacity class) SizeClass_ALL.

(** ** States and owners *)

Module BufferState.
Inductive BufferState : Set :=
| Free | Reserved | NetworkFill | TransformOwned | Filled | Validating | DiskQueued | DiskInFlight | DiskDone
| HashBorrowed | JournalPending | Releasable.
End BufferState.
Notation BufferState := BufferState.BufferState.
#[global] Instance BufferState_eq_dec : EqDecision BufferState.
Proof. solve_decision. Defined.

Definition BufferState_code (self : BufferState) : string :=
  match self with
  | BufferState.Free => "free"
  | BufferState.Reserved => "reserved"
  | BufferState.NetworkFill => "network_fill"
  | BufferState.TransformOwned => "transform_owned"
  | BufferState.Filled => "filled"
  | BufferState.Validating => "validating"
  | BufferState.DiskQueued => "disk_queued"
  | BufferState.DiskInFlight => "disk_in_flight"
  | BufferState.DiskDone => "disk_done"
  | BufferState.HashBorrowed => "hash_borrowed"
  | BufferState.JournalPending => "journal_pending"
  | BufferState.Releasable => "releasable"
  end.
Definition is_mutable (self : BufferState) : bool :=
  match self with
  | BufferState.Reserved | BufferState.NetworkFill | BufferState.TransformOwned => true
  | _ => false
  end.
Definition is_readable (self : BufferState) : bool :=
  match self with
  | BufferState.Free | BufferState.Reserved | BufferState.NetworkFill | BufferState.TransformOwned => false
  | _ => true
  end.

Definition allowed_transition (from to : BufferState) : bool :=
  match from, to with
  | BufferState.Reserved, (BufferState.NetworkFill | BufferState.TransformOwned | BufferState.Releasable)
  | BufferState.NetworkFill, (BufferState.TransformOwned | BufferState.Filled | BufferState.Releasable)
  | BufferState.TransformOwned, (BufferState.Filled | BufferState.Releasable)
  | BufferState.Filled, (BufferState.Validating | BufferState.DiskQueued | BufferState.HashBorrowed
                         | BufferState.JournalPending | BufferState.Releasable)
  | BufferState.Validating, (BufferState.DiskQueued | BufferState.HashBorrowed | BufferState.JournalPending
                             | BufferState.Releasable)
  | BufferState.DiskQueued, (BufferState.DiskInFlight | BufferState.Releasable)
  | BufferState.DiskInFlight, BufferState.DiskDone
  | BufferState.DiskDone, (BufferState.HashBorrowed | BufferState.JournalPending | BufferState.Releasable)
  | BufferState.HashBorrowed, (BufferState.DiskQueued | BufferState.DiskDone | BufferState.JournalPending
                               | BufferState.Releasable)
  | BufferState.JournalPending, BufferState.Releasable => true
  | _, _ => false
  end.

Module OwnerTag.
Inductive OwnerTag : Set := Pool | Network | Transform | Storage | Disk | Cpu | Journal | Quarantine.
End OwnerTag.
Notation OwnerTag := OwnerTag.OwnerTag.
Definition OwnerTag_code (self : OwnerTag) : string :=
  match self with
  | OwnerTag.Pool => "pool"
  | OwnerTag.Network => "network"
  | OwnerTag.Transform => "transform"
  | OwnerTag.Storage => "storage"
  | OwnerTag.Disk => "disk"
  | OwnerTag.Cpu => "cpu"
  | OwnerTag.Journal => "journal"
  | OwnerTag.Quarantine => "quarantine"
  end.

(** ** Leases *)

Record PooledStorage : Set := mkPooledStorage {
  st_id : N;
  st_class : SizeClass;
  st_bytes : list byte;
}.
#[global] Instance PooledStorage_eta : Settable PooledStorage := fun s =>
  mkPooledStorage (st_id s) (st_class s) (st_bytes s).
#[global] Instance st_bytes_set : Setter st_bytes. Proof. derive_setter. Defined.

(** [bl_pool] stands for the pool the weak reference points to. *)
Record BufferLease : Set := mkBufferLease {
  bl_storage : PooledStorage;
  bl_pool : N;
  bl_len : N;
  bl_state : BufferState;
  bl_owner : OwnerTag;
  bl_task : option N;
  bl_generation : option N;
}.
#[global] Instance BufferLease_eta : Settable BufferLease := fun l =>
  mkBufferLease (bl_storage l) (bl_pool l) (bl_len l) (bl_state l) (bl_owner l) (bl_task l) (bl_generation l).
#[global] Instance bl_storage_set : Setter bl_storage. Proof. derive_setter. Defined.
#[global] Instance bl_len_set : Setter bl_len. Proof. derive_setter. Defined.
#[global] Instance bl_state_set : Setter bl_state. Proof. derive_setter. Defined.
#[global] Instance bl_owner_set : Setter bl_owner. Proof. derive_setter. Defined.

Module BufferTransitionError.
Inductive BufferTransitionError : Set :=
| InvalidTransition (from to : BufferState)
| NotMutable (state : BufferState)
| NotReadable (state : BufferState)
| LengthExceedsCapacity (len capacity : N).
End BufferTransitionError.
Notation BufferTransitionError := BufferTransitionError.BufferTransitionError.

Definition lease_capacity (self : BufferLease) : N := N.of_nat (length (st_bytes (bl_storage self))).

Definition lease_transition (next : BufferState) (owner : OwnerTag) (self : BufferLease)
    : result BufferTransitionError () * BufferLease :=
  if negb (allowed_transition (bl_state self) next)
  then (Err (BufferTransitionError.InvalidTransition (bl_state self) next), self)
  else (Ok (), self <| bl_state := next |> <| bl_owner := owner |>).

(** The slice [writable] lends, overwritten by its borrower. *)
Definition lease_write (bytes : list byte) (self : BufferLease) : result BufferTransitionError BufferLease :=
  if negb (is_mutable (bl_state self)) then Err (BufferTransitionError.NotMutable (bl_state self))
  else Ok (self <| bl_storage := bl_storage self <| st_bytes := bytes |> |>).

Definition mark_filled (len : N) (owner : OwnerTag) (self : BufferLease)
    : result BufferTransitionError () * BufferLease :=
  if negb (is_mutable (bl_state self)) then (Err (BufferTransitionError.NotMutable (bl_state self)), self)
  else if lease_capacity self <? len
  then (Err (BufferTransitionError.LengthExceedsCapacity len (lease_capacity self)), self)
  else lease_transition BufferState.Filled owner (self <| bl_len := len |>).

Definition lease_bytes (self : BufferLease) : result BufferTransitionError (list byte) :=
  if negb (is_readable (bl_state self)) then Err (BufferTransitionError.NotReadable (bl_state self))
  else Ok (take (N.to_nat (bl_len self)) (st_bytes (bl_storage self))).

(** ** The pool *)

Record SizeClassConfig : Set := mkSizeClassConfig { sc_class : SizeClass; sc_max_buffers : N }.

Record BufferPoolMetrics : Set := mkBufferPoolMetrics {
  bm_allocated_bytes : N;
  bm_peak_allocated_bytes : N;
  bm_free_bytes : N;
  bm_leased_bytes : N;
  bm_quarantined_bytes : N;
  bm_retired_bytes : N;
  bm_allocation_count : N;
  bm_release_count : N;
  bm_exhaustion_count : N;
  bm_quarantine_count : N;
  bm_quarantine_resolved_count : N;
  bm_quarantine_timeout_count : N;
  bm_leaked_lease_count : N;
  bm_faulted : bool;
}.
#[global] Instance BufferPoolMetrics_eta : Settable BufferPoolMetrics := fun m =>
  mkBufferPoolMetrics (bm_allocated_bytes m) (bm_peak_allocated_bytes m) (bm_free_bytes m) (bm_leased_bytes m)
    (bm_quarantined_bytes m) (bm_retired_bytes m) (bm_allocation_count m) (bm_release_count m)
    (bm_exhaustion_count m) (bm_quarantine_count m) (bm_quarantine_resolved_count m)
    (bm_quarantine_timeout_count m) (bm_leaked_lease_count m) (bm_faulted m).
#[global] Instance bm_allocated_bytes_set : Setter bm_allocated_bytes. Proof. derive_setter. Defined.
#[global] Instance bm_peak_allocated_bytes_set : Setter bm_peak_allocated_bytes. Proof. derive_setter. Defined.
#[global] Instance bm_free_bytes_set : Setter bm_free_bytes. Proof. derive_setter. Defined.
#[global] Instance bm_leased_bytes_set : Setter bm_leased_bytes. Proof. derive_setter. Defined.
#[global] Instance bm_quarantined_bytes_set : Setter bm_quarantined_bytes. Proof. derive_setter. Defined.
#[global] Instance bm_retired_bytes_set : Setter bm_retired_bytes. Proof. derive_setter. Defined.
#[global] Instance bm_allocation_count_set : Setter bm_allocation_count. Proof. derive_setter. Defined.
#[global] Instance bm_release_count_set : Setter bm_release_count. Proof. derive_setter. Defined.
#[global] Instance bm_exhaustion_count_set : Setter bm_exhaustion_count. Proof. derive_setter. Defined.
#[global] Instance bm_quarantine_count_set : Setter bm_quarantine_count. Proof. derive_setter. Defined.
#[global] Instance bm_quarantine_resolved_count_set : Setter bm_quarantine_resolved_count.
Proof. derive_setter. Defined.
#[global] Instance bm_quarantine_timeout_count_set : Setter bm_quarantine_timeout_count.
Proof. derive_setter. Defined.
#[global] Instance bm_leaked_lease_count_set : Setter bm_leaked_lease_count. Proof. derive_setter. Defined.
#[global] Instance bm_faulted_set : Setter bm_faulted. Proof. derive_setter. Defined.

Record ClassPool : Set := mkClassPool {
  cp_class : SizeClass;
  cp_max_buffers : N;
  cp_allocated_buffers : N;
  cp_free : list PooledStorage;
}.
#[global] Instance ClassPool_eta : Settable ClassPool := fun c =>
  mkClassPool (cp_class c) (cp_max_buffers c) (cp_allocated_buffers c) (cp_free c).
#[global] Instance cp_allocated_buffers_set : Setter cp_allocated_buffers. Proof. derive_setter. Defined.
#[global] Instance cp_free_set : Setter cp_free. Proof. derive_setter. Defined.

Record QuarantineEntry : Set := mkQuarantineEntry { qe_storage : PooledStorage; qe_deadline : N }.

(** The state under the lock and the budgets beside it. *)
Record PoolState : Set := mkPoolState {
  po_id : N;
  po_classes : list ClassPool;
  po_next_id : N;
  po_metrics : BufferPoolMetrics;
  po_quarantine : list QuarantineEntry;
  po_buffer_budget : ByteBudget;
  po_resident_budget : ByteBudget;
  po_quarantine_budget : ByteBudget;
  po_quarantine_timeout : N;
}.
#[global] Instance PoolState_eta : Settable PoolState := fun s =>
  mkPoolState (po_id s) (po_classes s) (po_next_id s) (po_metrics s) (po_quarantine s) (po_buffer_budget s)
    (po_resident_budget s) (po_quarantine_budget s) (po_quarantine_timeout s).
#[global] Instance po_classes_set : Setter po_classes. Proof. derive_setter. Defined.
#[global] Instance po_next_id_set : Setter po_next_id. Proof. derive_setter. Defined.
#[global] Instance po_metrics_set : Setter po_metrics. Proof. derive_setter. Defined.
#[global] Instance po_quarantine_set : Setter po_quarantine. Proof. derive_setter. Defined.
#[global] Instance po_buffer_budget_set : Setter po_buffer_budget. Proof. derive_setter. Defined.
#[global] Instance po_resident_budget_set : Setter po_resident_budget. Proof. derive_setter. Defined.
#[global] Instance po_quarantine_budget_set : Setter po_quarantine_budget. Proof. derive_setter. Defined.

Module PoolError.
Inductive PoolError : Set :=
| InvalidClassConfiguration
| RequestTooLarge (requested : N)
| ClassExhausted (class : SizeClass)
| BufferBudget (error : BudgetError)
| ResidentBudget (error : BudgetError)
| QuarantineBudget (error : BudgetError)
| AllocationFailed (class : SizeClass)
| IdentifierExhausted
| ForeignLease
| NotReleasable (state : BufferState)
| NotInFlight (state : BufferState)
| Faulted.
End PoolError.
Notation PoolError := PoolError.PoolError.

Fixpoint repeats_class (seen : list SizeClass) (classes : list SizeClassConfig) : bool :=
  match classes with
  | [] => false
  | c :: classes => bool_decide (sc_class c ∈ seen) || repeats_class (seen ++ [sc_class c]) classes
  end.

Definition zero_metrics : BufferPoolMetrics := mkBufferPoolMetrics 0 0 0 0 0 0 0 0 0 0 0 0 0 false.

Definition BufferPool_new (id : N) (classes : list SizeClassConfig)
    (buffer_budget resident_budget quarantine_budget : ByteBudget) (quarantine_timeout : N)
    : result PoolError PoolState :=
  if repeats_class [] classes then Err PoolError.InvalidClassConfiguration
  else if negb (forallb (fun expected => bool_decide (expected ∈ sc_class <$> classes)) SizeClass_ALL)
  then Err PoolError.InvalidClassConfiguration
  else Ok {|
    po_id := id;
    po_classes := (fun c => mkClassPool (sc_class c) (sc_max_buffers c) 0 []) <$> classes;
    po_next_id := 1;
    po_metrics := zero_metrics;
    po_quarantine := [];
    po_buffer_budget := buffer_budget;
    po_resident_budget := resident_budget;
    po_quarantine_budget := quarantine_budget;
    po_quarantine_timeout := quarantine_timeout;
  |}.

(** [iter().position(|pool| pool.class == class)]. *)
Definition class_index (class : SizeClass) (self : PoolState) : option nat :=
  fst <$> list_find (fun pool => cp_class pool = class) (po_classes self).

Definition set_class (index : nat) (pool : ClassPool) (self : PoolState) : PoolState :=
  self <| po_classes := <[index := pool]> (po_classes self) |>.

(** [Vec::pop] of the free list, whose last element is its top. *)
Definition pop_last {A} (l : list A) : option (A * list A) :=
  match rev l with [] => None | x :: l => Some (x, rev l) end.

(** A new storage of a class: two permits, the memory, an identifier.  The permits of
    a failed attempt are dropped. *)
Definition allocate (index : nat) (pool : ClassPool) (alloc : bool) (self : PoolState)
    : result PoolError PooledStorage * PoolState :=
  let class := cp_class pool in
  let capacity := SizeClass_capacity class in
  if cp_max_buffers pool <=? cp_allocated_buffers pool
  then (Err (PoolError.ClassExhausted class),
        self <| po_metrics := po_metrics self
          <| bm_exhaustion_count := u64_wrapping_add (bm_exhaustion_count (po_metrics self)) 1 |> |>)
  else match ByteBudget_try_acquire capacity (po_buffer_budget self) with
  | Err error => (Err (PoolError.BufferBudget error), self)
  | Ok buffer_budget =>
    match ByteBudget_try_acquire capacity (po_resident_budget self) with
    | Err error =>
      (Err (PoolError.ResidentBudget error),
       self <| po_buffer_budget := BytePermit_drop capacity buffer_budget |>)
    | Ok resident_budget =>
      let dropped := self
        <| po_resident_budget := BytePermit_drop capacity resident_budget |>
        <| po_buffer_budget := BytePermit_drop capacity buffer_budget |> in
      if negb alloc then (Err (PoolError.AllocationFailed class), dropped)
      else if po_next_id self =? 0 then (Err PoolError.IdentifierExhausted, dropped)
      else match u64_checked_add (po_next_id self) 1 with
      | None => (Err PoolError.IdentifierExhausted, dropped)
      | Some next_id =>
        let m := po_metrics self in
        let allocated := u64_wrapping_add (bm_allocated_bytes m) capacity in
        (Ok (mkPooledStorage (po_next_id self) class (replicate (N.to_nat capacity) x00)),
         set_class index (pool <| cp_allocated_buffers := u64_wrapping_add (cp_allocated_buffers pool) 1 |>) self
           <| po_next_id := next_id |>
           <| po_buffer_budget := buffer_budget |>
           <| po_resident_budget := resident_budget |>
           <| po_metrics := m
             <| bm_allocated_bytes := allocated |>
             <| bm_allocation_count := u64_wrapping_add (bm_allocation_count m) 1 |>
             <| bm_peak_allocated_bytes := N.max (bm_peak_allocated_bytes m) allocated |> |>)
      end
    end
  end.

Definition pool_try_reserve (minimum_capacity : N) (owner : OwnerTag) (task generation : option N) (alloc : bool)
    (self : PoolState) : result PoolError BufferLease * PoolState :=
  match SizeClass_choose minimum_capacity with
  | None => (Err (PoolError.RequestTooLarge minimum_capacity), self)
  | Some class =>
    if bm_faulted (po_metrics self) then (Err PoolError.Faulted, self)
    else match class_index class self ≫= (fun index => pair index <$> po_classes self !! index) with
    | None => (Err PoolError.InvalidClassConfiguration, self)
    | Some (index, pool) =>
      let '(storage, self) :=
        match pop_last (cp_free pool) with
        | Some (storage, free) =>
          (Ok storage, set_class index (pool <| cp_free := free |>) self
             <| po_metrics := po_metrics self
               <| bm_free_bytes := u64_wrapping_sub (bm_free_bytes (po_metrics self)) (SizeClass_capacity class) |> |>)
        | None => allocate index pool alloc self
        end in
      match storage with
      | Err error => (Err error, self)
      | Ok storage =>
        (Ok (mkBufferLease storage (po_id self) 0 BufferState.Reserved owner task generation),
         self <| po_metrics := po_metrics self
           <| bm_leased_bytes := u64_wrapping_add (bm_leased_bytes (po_metrics self)) (SizeClass_capacity class) |> |>)
      end
    end
  end.

(** Back to the free list of its class. *)
Definition push_free (storage : PooledStorage) (self : PoolState) : option PoolState :=
  index ← class_index (st_class storage) self;
  pool ← po_classes self !! index;
  Some (set_class index (pool <| cp_free := cp_free pool ++ [storage] |>) self).

(** What [release] did with the lease: its error hands the lease back. *)
Definition pool_release (lease : BufferLease) (self : PoolState) : option (result PoolError () * PoolState) :=
  if negb (bl_pool lease =? po_id self) then Some (Err PoolError.ForeignLease, self)
  else if bool_decide (bl_state lease <> BufferState.Releasable)
  then Some (Err (PoolError.NotReleasable (bl_state lease)), self)
  else
    let capacity := SizeClass_capacity (st_class (bl_storage lease)) in
    self ← push_free (bl_storage lease) self;
    let m := po_metrics self in
    Some (Ok (), self <| po_metrics := m
      <| bm_leased_bytes := u64_wrapping_sub (bm_leased_bytes m) capacity |>
      <| bm_free_bytes := u64_wrapping_add (bm_free_bytes m) capacity |>
      <| bm_release_count := u64_wrapping_add (bm_release_count m) 1 |> |>).

(** With no room in the quarantine the storage is leaked. *)
Definition quarantine_storage (storage : PooledStorage) (now : N) (self : PoolState)
    : result PoolError () * PoolState :=
  let capacity := SizeClass_capacity (st_class storage) in
  let m := po_metrics self in
  match ByteBudget_try_acquire capacity (po_quarantine_budget self) with
  | Err error =>
    (Err (PoolError.QuarantineBudget error), self <| po_metrics := m
      <| bm_leased_bytes := u64_wrapping_sub (bm_leased_bytes m) capacity |>
      <| bm_retired_bytes := u64_wrapping_add (bm_retired_bytes m) capacity |>
      <| bm_faulted := true |> |>)
  | Ok budget =>
    (Ok (), self
      <| po_quarantine_budget := budget |>
      <| po_metrics := m
        <| bm_leased_bytes := u64_wrapping_sub (bm_leased_bytes m) capacity |>
        <| bm_quarantined_bytes := u64_wrapping_add (bm_quarantined_bytes m) capacity |>
        <| bm_quarantine_count := u64_wrapping_add (bm_quarantine_count m) 1 |> |>
      <| po_quarantine := po_quarantine self ++ [mkQuarantineEntry storage (now + po_quarantine_timeout self)] |>)
  end.

Definition quarantine_dropped (storage : PooledStorage) (now : N) (self : PoolState)
    : result PoolError () * PoolState :=
  let '(r, self) := quarantine_storage storage now self in
  (r, self <| po_metrics := po_metrics self
    <| bm_leaked_lease_count := u64_wrapping_add (bm_leaked_lease_count (po_metrics self)) 1 |> |>).

(** Where the storage of a consumed lease went. *)
Inductive Fate : Set := InQuarantine | Leaked | ElsewhereDropped.
Definition fate_of (r : result PoolError ()) : Fate := match r with Ok _ => InQuarantine | Err _ => Leaked end.

(** [Drop] of a live lease of this pool. *)
Definition lease_drop (lease : BufferLease) (now : N) (self : PoolState) : Fate * PoolState :=
  let '(r, self) := quarantine_dropped (bl_storage lease) now self in (fate_of r, self).

(** A lease in the wrong state is dropped on the way out, a foreign one into its own pool. *)
Definition pool_quarantine (lease : BufferLease) (now drop_now : N) (self : PoolState)
    : result PoolError () * (Fate * PoolState) :=
  if negb (bl_pool lease =? po_id self) then (Err PoolError.ForeignLease, (ElsewhereDropped, self))
  else if bool_decide (bl_state lease <> BufferState.DiskInFlight)
  then (Err (PoolError.NotInFlight (bl_state lease)), lease_drop lease drop_now self)
  else let '(r, self) := quarantine_storage (bl_storage lease) now self in (r, (fate_of r, self)).

(** [Vec::swap_remove]. *)
Definition swap_remove {A} (index : nat) (l : list A) : option (A * list A) :=
  x ← l !! index;
  '(y, rest) ← pop_last l;
  Some (x, <[index := y]> rest).

Definition resolve_quarantine (id : N) (self : PoolState) : option (bool * PoolState) :=
  match fst <$> list_find (fun entry => st_id (qe_storage entry) = id) (po_quarantine self) with
  | None => Some (false, self)
  | Some index =>
    '(entry, quarantine) ← swap_remove index (po_quarantine self);
    let capacity := SizeClass_capacity (st_class (qe_storage entry)) in
    let self := self
      <| po_quarantine := quarantine |>
      <| po_quarantine_budget := BytePermit_drop capacity (po_quarantine_budget self) |> in
    self ← push_free (qe_storage entry) self;
    let m := po_metrics self in
    Some (true, self <| po_metrics := m
      <| bm_quarantined_bytes := u64_wrapping_sub (bm_quarantined_bytes m) capacity |>
      <| bm_free_bytes := u64_wrapping_add (bm_free_bytes m) capacity |>
      <| bm_quarantine_resolved_count := u64_wrapping_add (bm_quarantine_resolved_count m) 1 |> |>)
  end.

(** One removal of the reaping loop. *)
Definition reap_entry (entry : QuarantineEntry) (quarantine : list QuarantineEntry) (self : PoolState) : PoolState :=
  let capacity := SizeClass_capacity (st_class (qe_storage entry)) in
  let m := po_metrics self in
  self
    <| po_quarantine := quarantine |>
    <| po_quarantine_budget := BytePermit_drop capacity (po_quarantine_budget self) |>
    <| po_metrics := m
      <| bm_quarantined_bytes := u64_wrapping_sub (bm_quarantined_bytes m) capacity |>
      <| bm_retired_bytes := u64_wrapping_add (bm_retired_bytes m) capacity |>
      <| bm_quarantine_timeout_count := u64_wrapping_add (bm_quarantine_timeout_count m) 1 |> |>.

(** The loop of [reap_quarantine] from [index] on; the storages it leaked. *)
Fixpoint reap_loop (fuel : nat) (index : nat) (now : N) (retired : list PooledStorage) (self : PoolState)
    : option (list PooledStorage * PoolState) :=
  match fuel with
  | O => None
  | S fuel =>
    match po_quarantine self !! index with
    | None => Some (retired, self)
    | Some entry =>
      if now <? qe_deadline entry then reap_loop fuel (S index) now retired self
      else
        '(entry, quarantine) ← swap_remove index (po_quarantine self);
        reap_loop fuel index now (retired ++ [qe_storage entry]) (reap_entry entry quarantine self)
    end
  end.

(** Each turn advances or removes an entry: one turn per entry and the last test. *)
Definition reap_quarantine (now : N) (self : PoolState) : option (list PooledStorage * PoolState) :=
  reap_loop (S (length (po_quarantine self))) 0 now [] self.

(** [BufferPoolConfig::new]: the classes, the three budgets and the timeout. *)
Definition BufferPoolConfig_new (total_bytes quarantine_bytes : N)
    : list SizeClassConfig * (ByteBudget * ByteBudget * ByteBudget) * N :=
  ((fun class => mkSizeClassConfig class (total_bytes / SizeClass_capacity class)) <$> SizeClass_ALL,
   (ByteBudget_new total_bytes, ByteBudget_new total_bytes, ByteBudget_new quarantine_bytes),
   30 * 1000000000).

(** Dropping the pool leaks the quarantined storages and frees the others with their permits. *)
Definition PoolInner_drop (self : PoolState) : list PooledStorage * PoolState :=
  let give st := BytePermit_drop (SizeClass_capacity (st_class st)) in
  let leaked := qe_storage <$> po_quarantine self in
  let free := concat (cp_free <$> po_classes self) in
  (leaked, self
    <| po_quarantine := [] |>
    <| po_classes := [] |>
    <| po_quarantine_budget := foldr give (po_quarantine_budget self) leaked |>
    <| po_buffer_budget := foldr give (po_buffer_budget self) free |>
    <| po_resident_budget := foldr give (po_resident_budget self) free |>).
