(* ===== verification/BufferPool.v ===== *)
(** * Histories of a buffer pool

    The pool with its leases and the storages it retired, one executable step per
    operation, and the account of every byte: a storage is free, leased, in
    quarantine or retired, and only one of these. *)

From S2P Require Import Prelude Budget Buffer.
From Stdlib Require Import Strings.Byte.
Open Scope list_scope.

(** ** Histories *)

(** Other holders of a budget, besides this pool. *)
Record PoolRun : Set := mkPoolRun {
  pr_pool : PoolState;
  pr_leases : list BufferLease;
  pr_retired : list PooledStorage;
  pr_other_buffer : N;
  pr_other_resident : N;
  pr_other_quarantine : N;
}.







(** ** The account *)

Definition bytes_of (st : PooledStorage) : N := SizeClass_capacity (st_class st).
Definition free_storages (s : PoolState) : list PooledStorage := concat (cp_free <$> po_classes s).
Definition in_class (class : SizeClass) (st : PooledStorage) : N :=
  if bool_decide (st_class st = class) then 1 else 0.

Definition storages (run : PoolRun) : list PooledStorage :=
  free_storages (pr_pool run) ++ (bl_storage <$> pr_leases run) ++ (qe_storage <$> po_quarantine (pr_pool run))
  ++ pr_retired run.

(** A budget of which this pool holds [held] bytes. *)
Definition budget_holds (b : ByteBudget) (held other : N) : Prop :=
  bb_used b = held + other /\ bb_used b <= bb_limit b /\ bb_limit b <= USIZE_MAX.

(** The metrics, the budgets and the identifiers of the four kinds of storage. *)
Record ledger (s : PoolState) (F L Q R : list PooledStorage) (ob or oq : N) : Prop := mkLedger {
  lg_allocated : bm_allocated_bytes (po_metrics s) = sum_of bytes_of (F ++ L ++ Q ++ R);
  lg_free : bm_free_bytes (po_metrics s) = sum_of bytes_of F;
  lg_leased : bm_leased_bytes (po_metrics s) = sum_of bytes_of L;
  lg_quarantined : bm_quarantined_bytes (po_metrics s) = sum_of bytes_of Q;
  lg_retired : bm_retired_bytes (po_metrics s) = sum_of bytes_of R;
  lg_buffer : budget_holds (po_buffer_budget s) (sum_of bytes_of (F ++ L ++ Q ++ R)) ob;
  lg_resident : budget_holds (po_resident_budget s) (sum_of bytes_of (F ++ L ++ Q ++ R)) or;
  lg_quarantine : budget_holds (po_quarantine_budget s) (sum_of bytes_of Q) oq;
  lg_distinct : NoDup (st_id <$> F ++ L ++ Q ++ R);
  lg_issued : Forall (fun st => st_id st < po_next_id s) (F ++ L ++ Q ++ R);
  lg_sized : Forall (fun st => N.of_nat (length (st_bytes st)) = bytes_of st) (F ++ L ++ Q ++ R);
}.

(** The classes: each once, its free storages its own, its allocations counted. *)
Record classes_ok (s : PoolState) (all : list PooledStorage) : Prop := mkClassesOk {
  co_distinct : NoDup (cp_class <$> po_classes s);
  co_all : forall class, class ∈ cp_class <$> po_classes s;
  co_free : forall pool st, pool ∈ po_classes s -> st ∈ cp_free pool -> st_class st = cp_class pool;
  co_count : forall pool, pool ∈ po_classes s ->
    cp_allocated_buffers pool = sum_of (in_class (cp_class pool)) all /\
    cp_allocated_buffers pool <= cp_max_buffers pool /\ cp_max_buffers pool <= USIZE_MAX;
}.

Record pool_ok (run : PoolRun) : Prop := mkPoolOk {
  pk_ledger : ledger (pr_pool run) (free_storages (pr_pool run)) (bl_storage <$> pr_leases run)
    (qe_storage <$> po_quarantine (pr_pool run)) (pr_retired run)
    (pr_other_buffer run) (pr_other_resident run) (pr_other_quarantine run);
  pk_classes : classes_ok (pr_pool run) (storages run);
  pk_leases : Forall (fun l => bl_pool l = po_id (pr_pool run) /\ bl_len l <= lease_capacity l) (pr_leases run);
}.

#[local] Arguments sum_of : simpl never.
#[local] Arguments u64_wrapping_sub : simpl never.
#[local] Arguments u64_wrapping_add : simpl never.
#[local] Arguments SizeClass_capacity : simpl never.
#[local] Arguments free_storages : simpl never.
#[local] Arguments storages : simpl never.
#[local] Arguments bytes_of : simpl never.


(** ** Ledgers *)

(** Storages that change kind, with the metrics that follow them. *)
Lemma ledger_move s s' F L Q R F' L' Q' R' ob or oq :
  ledger s F L Q R ob or oq -> F' ++ L' ++ Q' ++ R' ≡ₚ F ++ L ++ Q ++ R ->
  po_next_id s' = po_next_id s -> po_buffer_budget s' = po_buffer_budget s ->
  po_resident_budget s' = po_resident_budget s ->
  bm_allocated_bytes (po_metrics s') = bm_allocated_bytes (po_metrics s) ->
  bm_free_bytes (po_metrics s') = sum_of bytes_of F' -> bm_leased_bytes (po_metrics s') = sum_of bytes_of L' ->
  bm_quarantined_bytes (po_metrics s') = sum_of bytes_of Q' ->
  bm_retired_bytes (po_metrics s') = sum_of bytes_of R' ->
  budget_holds (po_quarantine_budget s') (sum_of bytes_of Q') oq -> ledger s' F' L' Q' R' ob or oq.
Proof.
  intros [] Hp Hn Hb Hr Ha Hf Hl Hq Hre Hqb. split; rewrite ?Hp, ?Hn, ?Hb, ?Hr, ?(sum_of_perm _ _ _ Hp); auto.
  by rewrite Ha.
Qed.

Lemma ledger_perm s F L Q R F' L' Q' R' ob or oq :
  ledger s F L Q R ob or oq -> F' ≡ₚ F -> L' ≡ₚ L -> Q' ≡ₚ Q -> R' ≡ₚ R -> ledger s F' L' Q' R' ob or oq.
Proof.
  intros Hl HF HL HQ HR. apply (ledger_move s s F L Q R); rewrite ?HF, ?HL, ?HQ, ?HR; try done.
  all: rewrite ?(sum_of_perm _ _ _ HF), ?(sum_of_perm _ _ _ HL), ?(sum_of_perm _ _ _ HQ), ?(sum_of_perm _ _ _ HR).
  all: apply Hl.
Qed.

Lemma ledger_bound s F L Q R ob or oq :
  ledger s F L Q R ob or oq ->
  sum_of bytes_of F + sum_of bytes_of L + sum_of bytes_of Q + sum_of bytes_of R <= U64_MAX.
Proof.
  intros []. destruct lg_buffer0 as (Hu & Hle & Hlim). rewrite !sum_of_app in Hu. unfold USIZE_MAX in Hlim. lia.
Qed.


Lemma drop_holds b bytes held other :
  budget_holds b (held + bytes) other -> budget_holds (BytePermit_drop bytes b) held other.
Proof.
  intros (Hu & Hle & Hlim). unfold BytePermit_drop, budget_holds, USIZE_MAX in *. cbn.
  rewrite u64_wrapping_sub_small by lia. lia.
Qed.



(** ** Classes *)




Lemma classes_ok_same s s' all all' :
  po_classes s' = po_classes s -> all' ≡ₚ all -> classes_ok s all -> classes_ok s' all'.
Proof.
  intros Hc Hp []. split; rewrite ?Hc; auto. intros pool Hin. rewrite (sum_of_perm _ _ _ Hp). auto.
Qed.


(** ** Taking from and giving back to lists *)

Lemma pop_last_Some {A} (l r : list A) x : pop_last l = Some (x, r) -> l = r ++ [x].
Proof.
  unfold pop_last. destruct (rev l) as [|y k] eqn:Hr; [done|]. intros [= <- <-].
  rewrite <- (rev_involutive l), Hr. done.
Qed.

Lemma pop_last_None {A} (l : list A) : pop_last l = None -> l = [].
Proof. unfold pop_last. destruct (rev l) as [|y k] eqn:Hr; [|done]. intros _. by rewrite <- (rev_involutive l), Hr. Qed.

Lemma delete_of_insert {A} (i : nat) (z : A) (l : list A) : delete i (<[i := z]> l) = delete i l.
Proof. revert i. induction l as [|x l IH]; intros [|i]; cbn; [done..|]. by rewrite IH. Qed.

Lemma swap_remove_perm {A} i (l r : list A) x : swap_remove i l = Some (x, r) -> l !! i = Some x /\ l ≡ₚ x :: r.
Proof.
  unfold swap_remove. intros (y & Hy & Hr)%bind_Some. apply bind_Some in Hr as ([z k] & Hk & [= <- <-]).
  apply pop_last_Some in Hk as ->. split; [done|].
  destruct (decide (i < length k)%nat) as [Hlt|Hge].
  - rewrite lookup_app_l in Hy by done.
    rewrite (delete_Permutation _ _ _ Hy) at 1. 
    assert (Hz : <[i := z]> k ≡ₚ z :: delete i k).
    { rewrite (delete_Permutation (<[i := z]> k) i z) by (by apply list_lookup_insert_eq).
      by rewrite delete_of_insert. }
    rewrite Hz. solve_Permutation.
  - rewrite list_insert_ge by lia. rewrite lookup_app_r in Hy by lia.
    destruct (i - length k)%nat eqn:E; [|done]. injection Hy as ->. solve_Permutation.
Qed.

Lemma swap_remove_Some {A} i (l : list A) x : l !! i = Some x -> exists r, swap_remove i l = Some (x, r).
Proof.
  intros Hi. unfold swap_remove. rewrite Hi. cbn. destruct (pop_last l) as [[y r]|] eqn:Hp; [by eexists|].
  apply pop_last_None in Hp as ->. done.
Qed.




(** ** Reserving *)







(** ** Giving back *)





(** ** Quarantine *)





Lemma swap_remove_before {A} (P : A -> Prop) i (l r : list A) x :
  swap_remove i l = Some (x, r) -> Forall P (take i l) -> Forall P (take i r).
Proof.
  unfold swap_remove. intros (y & Hy & Hr)%bind_Some. apply bind_Some in Hr as ([z k] & Hk & [= _ <-]).
  apply pop_last_Some in Hk as ->. pose proof (lookup_lt_Some _ _ _ Hy) as Hlt. rewrite length_app in Hlt. cbn in Hlt.
  rewrite take_app_le by lia. by rewrite take_insert_ge by lia.
Qed.

(** An entry that leaves the quarantine: its permit is given back. *)
Lemma entry_leaves s F L Q R ob or oq st :
  ledger s F L (st :: Q) R ob or oq ->
  u64_wrapping_sub (bm_quarantined_bytes (po_metrics s)) (bytes_of st) = sum_of bytes_of Q /\
  budget_holds (BytePermit_drop (bytes_of st) (po_quarantine_budget s)) (sum_of bytes_of Q) oq.
Proof.
  intros Hl. pose proof (ledger_bound _ _ _ _ _ _ _ _ Hl) as Hb. rewrite sum_of_cons in Hb. split.
  - rewrite (lg_quarantined _ _ _ _ _ _ _ _ Hl), sum_of_cons, u64_wrapping_sub_small; lia.
  - apply drop_holds. pose proof (lg_quarantine _ _ _ _ _ _ _ _ Hl) as Hq. rewrite sum_of_cons in Hq.
    by rewrite N.add_comm.
Qed.


Lemma reap_entry_ok s leases retired ob or oq entry quarantine :
  pool_ok (mkPoolRun s leases retired ob or oq) -> po_quarantine s ≡ₚ entry :: quarantine ->
  pool_ok (mkPoolRun (reap_entry entry quarantine s) leases (qe_storage entry :: retired) ob or oq).
Proof.
  intros [Hl Hc Hls] Hqp. unfold storages in Hc. cbn in Hl, Hc, Hls. unfold reap_entry.
  set (st := qe_storage entry). fold (bytes_of st).
  assert (Hqp' : qe_storage <$> po_quarantine s ≡ₚ st :: (qe_storage <$> quarantine)) by (by rewrite Hqp).
  pose proof (ledger_perm _ _ _ _ _ _ _ _ _ _ _ _ Hl (reflexivity _) (reflexivity _) (symmetry Hqp') (reflexivity _))
    as Hl'.
  pose proof (ledger_bound _ _ _ _ _ _ _ _ Hl') as Hb. rewrite sum_of_cons in Hb.
  destruct (entry_leaves _ _ _ _ _ _ _ _ _ Hl') as [Hsub Hdrop].
  assert (Hall : free_storages s ++ (bl_storage <$> leases) ++ (qe_storage <$> quarantine) ++ st :: retired
    ≡ₚ free_storages s ++ (bl_storage <$> leases) ++ (st :: (qe_storage <$> quarantine)) ++ retired)
    by solve_Permutation.
  split; cbn; try match goal with |- context [free_storages ?x] => change (free_storages x) with (free_storages s) end.
  - eapply ledger_move; [exact Hl'|exact Hall|done..| | | | |]; cbn; [apply Hl'..|exact Hsub| |exact Hdrop].
    rewrite (lg_retired _ _ _ _ _ _ _ _ Hl'), sum_of_cons, u64_wrapping_add_small; lia.
  - eapply classes_ok_same; [| |exact Hc]; [done|]. etransitivity; [exact Hall|]. by rewrite Hqp'.
  - done.
Qed.

Lemma pool_ok_retired s leases retired retired' ob or oq :
  retired' ≡ₚ retired -> pool_ok (mkPoolRun s leases retired ob or oq) ->
  pool_ok (mkPoolRun s leases retired' ob or oq).
Proof.
  intros Hp [Hl Hc Hls]. split; cbn in *; [by eapply ledger_perm| |done].
  eapply classes_ok_same; [done| |exact Hc]. unfold storages. cbn. by rewrite Hp.
Qed.

Definition expired (now : N) (entry : QuarantineEntry) : Prop := qe_deadline entry <= now.

Lemma reap_loop_spec fuel index now ret s :
  (length (po_quarantine s) - index < fuel)%nat -> Forall (fun e => ~ expired now e) (take index (po_quarantine s)) ->
  exists gone s', reap_loop fuel index now ret s = Some (ret ++ (qe_storage <$> gone), s') /\
    po_quarantine s ≡ₚ gone ++ po_quarantine s' /\
    Forall (expired now) gone /\ Forall (fun e => ~ expired now e) (po_quarantine s') /\
    (forall leases retired ob or oq, pool_ok (mkPoolRun s leases retired ob or oq) ->
       pool_ok (mkPoolRun s' leases ((qe_storage <$> gone) ++ retired) ob or oq)).
Proof.
  revert index ret s. induction fuel as [|fuel IH]; intros index ret s Hfuel Hbefore; [lia|].
  cbn [reap_loop]. destruct (po_quarantine s !! index) as [entry|] eqn:He.
  - pose proof (lookup_lt_Some _ _ _ He) as Hlt. destruct (N.ltb_spec now (qe_deadline entry)) as [Hl|Hg].
    + apply IH; [lia|]. rewrite (take_S_r _ _ _ He). apply Forall_app_2; [done|].
      constructor; [unfold expired; lia|constructor].
    + destruct (swap_remove_Some _ _ _ He) as [rest Hsw]. rewrite Hsw. cbn [mbind option_bind].
      pose proof (swap_remove_perm _ _ _ _ Hsw) as [_ Hperm].
      destruct (IH index (ret ++ [qe_storage entry]) (reap_entry entry rest s)) as (gone & s' & Hr & Hp & Hx & Hn & Hok).
      { cbn. apply Permutation_length in Hperm. cbn in Hperm. lia. }
      { cbn. by eapply swap_remove_before. }
      exists (entry :: gone), s'. split_and!; [|by rewrite Hperm, Hp|by constructor|done|].
      * fold (reap_entry entry rest s). rewrite Hr. cbn. by rewrite <- app_assoc.
      * intros leases retired ob or oq H. eapply (reap_entry_ok _ _ _ _ _ _ _ _) in H; [|exact Hperm].
        eapply pool_ok_retired; [|by apply Hok]. cbn. solve_Permutation.
  - exists [], s. cbn. rewrite app_nil_r. split_and!; [done..| |done].
    apply lookup_ge_None in He. by rewrite take_ge in Hbefore.
Qed.

(** ** Leases in use *)









(** ** Other holders of the budgets *)




(** ** Every operation *)






(** reaping ends, and retires exactly the storages whose deadline has passed. *)
Theorem reap_retires_expired now s :
  exists gone s', reap_quarantine now s = Some (qe_storage <$> gone, s') /\
    Forall (expired now) gone /\ Forall (fun e => ~ expired now e) (po_quarantine s') /\
    po_quarantine s ≡ₚ gone ++ po_quarantine s'.
Proof.
  destruct (reap_loop_spec (S (length (po_quarantine s))) 0 now [] s) as (gone & s' & Hr & Hp & Hx & Hn & _);
    [lia|constructor|]. by exists gone, s'.
Qed.

(** ** Filled buffers *)

(** The operations a lease offers its owner. *)
Inductive lease_step : relation BufferLease :=
| step_write l l' bytes : lease_write bytes l = Ok l' -> lease_step l l'
| step_transition l next owner : lease_step l (lease_transition next owner l).2
| step_filled l len owner : lease_step l (mark_filled len owner l).2.

Lemma readable_kept from to : allowed_transition from to = true -> is_readable from = true -> is_readable to = true.
Proof. by destruct from, to. Qed.
Lemma readable_not_mutable st : is_readable st = true -> is_mutable st = false.
Proof. by destruct st. Qed.

Lemma readable_step l l' :
  lease_step l l' -> is_readable (bl_state l) = true ->
  is_readable (bl_state l') = true /\ lease_bytes l' = lease_bytes l.
Proof.
  intros Hs Hr. pose proof (readable_not_mutable _ Hr) as Hm. destruct Hs as [l l' bytes Hw|l next owner|l len owner].
  - unfold lease_write in Hw. by rewrite Hm in Hw.
  - unfold lease_transition. destruct (allowed_transition (bl_state l) next) eqn:Ht; cbn; [|done].
    pose proof (readable_kept _ _ Ht Hr) as Hr'. split; [done|]. unfold lease_bytes. cbn. by rewrite Hr, Hr'.
  - unfold mark_filled. by rewrite Hm.
Qed.

(** C32: once a buffer is readable its contents are frozen until the pool has it back:
    no sequence of operations on the lease writes to it or changes the bytes that the
    disk, the hasher and the journal read. *)
Theorem filled_buffer_frozen l l' :
  rtc lease_step l l' -> is_readable (bl_state l) = true ->
  is_readable (bl_state l') = true /\ lease_bytes l' = lease_bytes l.
Proof.
  induction 1 as [|l l1 l' Hs _ IH]; [done|]. intros Hr. destruct (readable_step _ _ Hs Hr) as [Hr1 Hb].
  destruct (IH Hr1) as [Hr' Hb']. split; [done|]. by rewrite Hb'.
Qed.

(** ** An example history *)





Definition filled_lease : BufferLease :=
  mkBufferLease (mkPooledStorage 1 SizeClass.KiB16 (replicate 16384 x61)) 7 3 BufferState.Filled OwnerTag.Storage None None.

Lemma filled_buffer_frozen_witness :
  rtc lease_step filled_lease (lease_transition BufferState.DiskQueued OwnerTag.Disk filled_lease).2 /\
  lease_bytes (lease_transition BufferState.DiskQueued OwnerTag.Disk filled_lease).2 = lease_bytes filled_lease.
Proof.
  assert (H : rtc lease_step filled_lease (lease_transition BufferState.DiskQueued OwnerTag.Disk filled_lease).2)
    by (apply rtc_once; constructor).
  split; [exact H|]. exact (proj2 (filled_buffer_frozen _ _ H eq_refl)).
Defined.
