(* ===== verification/Bencode.v ===== *)
(** * Bencode

    Model of [crates/ariax-bt-metadata/src/bencode.rs], with the errors of [lib.rs]
    and the limits of [metadata.rs]: the bounded parser that accepts canonical
    bencode only and keeps the byte range of every value.

    The parser's position is the rest of the input with its offset.  The nesting of
    [node] is bounded by the depth limit, which is the structure of the recursion;
    a list or dictionary loop takes one turn per element, and each turn consumes a
    byte, so as many turns as there are bytes left suffice. *)

From S2P Require Import Prelude Bytes Utf8 Journal PayloadTypes MetadataExpansion.
From Stdlib Require Import Init.Byte Strings.Byte ZArith.
Open Scope list_scope.

Module BtError.
Inductive BtError : Set :=
| InvalidMetadata | MetadataLimit | InvalidMagnet | UnsafePath | Symlink | Collision | Selection
| IdentityMismatch | Credentials | Destination | UnprotectedRoot | Overloaded | Closed | Native
| StaleCompletion | CheckpointFailed | CheckpointTimeout | UnsupportedOption | RequiresRestart.
End BtError.
Notation BtError := BtError.BtError.
#[global] Instance BtError_eq_dec : EqDecision BtError.
Proof. solve_decision. Defined.

Record MetadataLimits : Set := mkMetadataLimits {
  ml_bytes : N;
  ml_depth : N;
  ml_tokens : N;
  ml_files : N;
  ml_pieces : N;
}.

Definition MetadataLimits_default : MetadataLimits := {|
  ml_bytes := 16 * 1024 * 1024;
  ml_depth := 32;
  ml_tokens := 200000;
  ml_files := 10000;
  ml_pieces := 1000000;
|}.

Definition MetadataLimits_validate (self : MetadataLimits) : result BtError () :=
  if (ml_bytes self =? 0) || (64 * 1024 * 1024 <? ml_bytes self)
     || (ml_depth self =? 0) || (100 <? ml_depth self)
     || (ml_tokens self =? 0) || (1000000 <? ml_tokens self)
     || (ml_files self =? 0) || (100000 <? ml_files self)
     || (ml_pieces self =? 0) || (2 * 1024 * 1024 <? ml_pieces self)
  then Err BtError.MetadataLimit
  else Ok ().

(** ** Values *)

Inductive Node : Set :=
| mkNode (nd_start nd_end : N) (nd_value : Value)
with Value : Set :=
| Integer (value : Z)
| Bytes (value : bytes)
| List (values : list Node)
| Dictionary (values : list (bytes * Node)).

Definition nd_start (n : Node) : N := match n with mkNode start _ _ => start end.
Definition nd_end (n : Node) : N := match n with mkNode _ stop _ => stop end.
Definition nd_value (n : Node) : Value := match n with mkNode _ _ value => value end.

(** The keys of a parsed dictionary increase strictly, so the binary search finds
    the entry if there is one. *)
Definition Node_get (key : bytes) (self : Node) : option Node :=
  match nd_value self with
  | Dictionary values => (fun x => x.2.2) <$> list_find (fun entry => entry.1 = key) values
  | _ => None
  end.
Definition Node_required (key : bytes) (self : Node) : result BtError Node :=
  ok_or (Node_get key self) BtError.InvalidMetadata.
Definition Node_bytes (self : Node) : result BtError bytes :=
  match nd_value self with Bytes value => Ok value | _ => Err BtError.InvalidMetadata end.
Definition Node_text (self : Node) : result BtError str :=
  value ← Node_bytes self; ok_or (from_utf8 value) BtError.InvalidMetadata.
Definition Node_integer (self : Node) : result BtError N :=
  match nd_value self with
  | Integer value => if (value <? 0)%Z then Err BtError.InvalidMetadata else Ok (Z.to_N value)
  | _ => Err BtError.InvalidMetadata
  end.
Definition Node_list (self : Node) : result BtError (list Node) :=
  match nd_value self with List values => Ok values | _ => Err BtError.InvalidMetadata end.
Definition Node_dictionary (self : Node) : result BtError (list (bytes * Node)) :=
  match nd_value self with Dictionary values => Ok values | _ => Err BtError.InvalidMetadata end.

(** ** The parser *)

Record Parser : Set := mkParser { pa_rest : bytes; pa_offset : N; pa_tokens : N }.

Definition colon : byte := x3a.
Definition zero : byte := x30.
Definition minus : byte := x2d.
Definition letter_d : byte := x64.
Definition letter_e : byte := x65.
Definition letter_i : byte := x69.
Definition letter_l : byte := x6c.

Definition parser_token (limits : MetadataLimits) (p : Parser) : result BtError Parser :=
  tokens ← ok_or (u64_checked_add (pa_tokens p) 1) BtError.MetadataLimit;
  if ml_tokens limits <? tokens then Err BtError.MetadataLimit
  else Ok (mkParser (pa_rest p) (pa_offset p) tokens).

(** [self.offset += 1] past a byte that was read. *)
Definition advance (p : Parser) : Parser := mkParser (drop 1 (pa_rest p)) (pa_offset p + 1) (pa_tokens p).

(** The digits of a length; [first] is [self.bytes[start]] once a digit was read. *)
Fixpoint length_loop (limits : MetadataLimits) (first : option byte) (length : N) (rest : bytes) (offset : N)
    : result BtError (N * bytes * N) :=
  match rest with
  | [] => Err BtError.InvalidMetadata
  | b :: rest' =>
    if is_ascii_digit b
    then
      if bool_decide (first = Some zero) then Err BtError.InvalidMetadata
      else
        let next := length * 10 + (byte_val b - 48) in
        if USIZE_MAX <? next then Err BtError.MetadataLimit
        else if ml_bytes limits <? next then Err BtError.MetadataLimit
        else length_loop limits (Some (default b first)) next rest' (offset + 1)
    else if is_none first || (b != colon) then Err BtError.InvalidMetadata
    else Ok (length, rest', offset + 1)
  end.

Definition parser_string (limits : MetadataLimits) (p : Parser) : result BtError (bytes * Parser) :=
  p ← parser_token limits p;
  '(length, rest, offset) ← length_loop limits None 0 (pa_rest p) (pa_offset p);
  stop ← ok_or (u64_checked_add offset length) BtError.MetadataLimit;
  if blen rest <? length then Err BtError.InvalidMetadata
  else Ok (upto length rest, mkParser (skip length rest) stop (pa_tokens p)).

(** [while self.byte()?.is_ascii_digit()]. *)
Fixpoint span_digits (rest : bytes) : bytes * bytes :=
  match rest with
  | [] => ([], [])
  | b :: rest' =>
    if is_ascii_digit b then let '(digits, rest) := span_digits rest' in (b :: digits, rest) else ([], rest)
  end.

(** [str::parse::<i64>] of an optional minus sign and digits. *)
Definition digits_number (digits : bytes) : N := foldl (fun acc b => acc * 10 + (byte_val b - 48)) 0 digits.
Definition i64_parse (negative : bool) (digits : bytes) : option Z :=
  let n := digits_number digits in
  if negative then (if n <=? 2 ^ 63 then Some (- Z.of_N n)%Z else None)
  else (if n <=? I64_MAX then Some (Z.of_N n) else None).

(** What follows the [i] of an integer. *)
Definition parser_integer (p : Parser) : result BtError (Z * Parser) :=
  match pa_rest p with
  | [] => Err BtError.InvalidMetadata
  | b :: _ =>
    let negative := b == minus in
    let p := if negative then advance p else p in
    let '(digits, rest) := span_digits (pa_rest p) in
    match rest with
    | [] => Err BtError.InvalidMetadata
    | e :: rest =>
      if (blen digits =? 0) || (e != letter_e)
         || ((1 <? blen digits) && bool_decide (head digits = Some zero))
         || (negative && bool_decide (head digits = Some zero))
      then Err BtError.InvalidMetadata
      else
        value ← ok_or (i64_parse negative digits) BtError.InvalidMetadata;
        Ok (value, mkParser rest (pa_offset p + blen digits + 1) (pa_tokens p))
    end
  end.

(** The elements up to the closing [e]. *)
Fixpoint list_loop (parse : Parser -> result BtError (Node * Parser)) (fuel : nat) (values : list Node) (p : Parser)
    : result BtError (list Node * Parser) :=
  match fuel, pa_rest p with
  | S fuel, b :: _ =>
    if b == letter_e then Ok (values, advance p)
    else '(value, p) ← parse p; list_loop parse fuel (values ++ [value]) p
  | _, _ => Err BtError.InvalidMetadata
  end.

Fixpoint dictionary_loop (limits : MetadataLimits) (parse : Parser -> result BtError (Node * Parser)) (fuel : nat)
    (values : list (bytes * Node)) (p : Parser) : result BtError (list (bytes * Node) * Parser) :=
  match fuel, pa_rest p with
  | S fuel, b :: _ =>
    if b == letter_e then Ok (values, advance p)
    else
      '(key, p) ← parser_string limits p;
      if match last values with Some (previous, _) => negb (bool_decide (str_lt previous key)) | None => false end
      then Err BtError.InvalidMetadata
      else '(value, p) ← parse p; dictionary_loop limits parse fuel (values ++ [(key, value)]) p
  | _, _ => Err BtError.InvalidMetadata
  end.

(** [node(depth)] with [levels] nesting levels left, [limits.depth + 1 - depth]. *)
Fixpoint parser_node (limits : MetadataLimits) (levels : nat) (p : Parser) : result BtError (Node * Parser) :=
  match levels with
  | O => Err BtError.MetadataLimit
  | S levels =>
    match pa_rest p with
    | [] => Err BtError.InvalidMetadata
    | b :: _ =>
      let done value p' := Ok (mkNode (pa_offset p) (pa_offset p') value, p') in
      if is_ascii_digit b then '(value, p') ← parser_string limits p; done (Bytes value) p'
      else if b == letter_i then
        p1 ← parser_token limits p;
        '(value, p') ← parser_integer (advance p1); done (Integer value) p'
      else if b == letter_l then
        p1 ← parser_token limits p;
        '(values, p') ← list_loop (parser_node limits levels) (length (pa_rest p)) [] (advance p1);
        done (List values) p'
      else if b == letter_d then
        p1 ← parser_token limits p;
        '(values, p') ← dictionary_loop limits (parser_node limits levels) (length (pa_rest p)) [] (advance p1);
        done (Dictionary values) p'
      else Err BtError.InvalidMetadata
    end
  end.

Definition decode (data : bytes) (limits : MetadataLimits) : result BtError Node :=
  _ ← MetadataLimits_validate limits;
  if ml_bytes limits <? blen data then Err BtError.MetadataLimit
  else
    '(node, p) ← parser_node limits (S (N.to_nat (ml_depth limits))) (mkParser data 0 0);
    if negb (pa_offset p =? blen data) then Err BtError.InvalidMetadata
    else Ok node.
