(* ===== verification/BencodeExact.v ===== *)
(** * The bencode parser is exact

    Bytes decode within the limits if and only if they are the canonical encoding
    of a value within the limits, and the node that comes out is that value with the
    byte range of each of its parts. *)

From S2P Require Import Prelude Bytes Utf8 Journal PayloadTypes MetadataExpansion Bencode.
From Stdlib Require Import Init.Byte Strings.Byte ZArith.
Open Scope list_scope.

(** ** Values and their encoding *)

Inductive bvalue : Set :=
| BInteger (value : Z)
| BBytes (value : bytes)
| BList (values : list bvalue)
| BDictionary (values : list (bytes * bvalue)).

Section bvalue_ind.
Variable P : bvalue -> Prop.
Hypothesis HInteger : forall z, P (BInteger z).
Hypothesis HBytes : forall b, P (BBytes b).
Hypothesis HList : forall l, Forall P l -> P (BList l).
Hypothesis HDictionary : forall l, Forall (fun kv => P kv.2) l -> P (BDictionary l).
Fixpoint bvalue_induction (v : bvalue) : P v :=
  match v with
  | BInteger z => HInteger z
  | BBytes b => HBytes b
  | BList l => HList l ((fix go l : Forall P l :=
      match l with [] => List.Forall_nil _ | v :: l => List.Forall_cons _ v l (bvalue_induction v) (go l) end) l)
  | BDictionary l => HDictionary l ((fix go l : Forall (fun kv => P kv.2) l :=
      match l with
      | [] => List.Forall_nil _
      | kv :: l => List.Forall_cons _ kv l (bvalue_induction kv.2) (go l)
      end) l)
  end.
End bvalue_ind.

Definition encode_bytes (b : bytes) : bytes := u64_to_string (blen b) ++ colon :: b.
Definition i64_to_string (z : Z) : bytes :=
  if (z <? 0)%Z then minus :: u64_to_string (Z.to_N (- z)) else u64_to_string (Z.to_N z).

Fixpoint encode (v : bvalue) : bytes :=
  match v with
  | BInteger z => letter_i :: i64_to_string z ++ [letter_e]
  | BBytes b => encode_bytes b
  | BList l => letter_l :: flat_map encode l ++ [letter_e]
  | BDictionary l => letter_d :: flat_map (fun kv => encode_bytes kv.1 ++ encode kv.2) l ++ [letter_e]
  end.

(** A value at an offset. *)
Fixpoint place (o : N) (v : bvalue) : Node :=
  mkNode o (o + blen (encode v))
    match v with
    | BInteger z => Integer z
    | BBytes b => Bytes b
    | BList l => List ((fix go o l :=
        match l with [] => [] | v :: l => place o v :: go (o + blen (encode v)) l end) (o + 1) l)
    | BDictionary l => Dictionary ((fix go o l :=
        match l with
        | [] => []
        | (k, v) :: l =>
          let o := o + blen (encode_bytes k) in (k, place o v) :: go (o + blen (encode v)) l
        end) (o + 1) l)
    end.

Fixpoint place_list (o : N) (l : list bvalue) : list Node :=
  match l with [] => [] | v :: l => place o v :: place_list (o + blen (encode v)) l end.
Fixpoint place_dictionary (o : N) (l : list (bytes * bvalue)) : list (bytes * Node) :=
  match l with
  | [] => []
  | (k, v) :: l =>
    let o := o + blen (encode_bytes k) in (k, place o v) :: place_dictionary (o + blen (encode v)) l
  end.

Fixpoint count_tokens (v : bvalue) : N :=
  match v with
  | BInteger _ | BBytes _ => 1
  | BList l => 1 + sum_of id (map count_tokens l)
  | BDictionary l => 1 + sum_of id (map (fun kv => 1 + count_tokens kv.2) l)
  end.
Fixpoint height (v : bvalue) : nat :=
  match v with
  | BInteger _ | BBytes _ => 1
  | BList l => S (foldr Nat.max 0%nat (map height l))
  | BDictionary l => S (foldr Nat.max 0%nat (map (fun kv => height kv.2) l))
  end.

(** Integers of 64 bits, keys that increase strictly. *)
Fixpoint canonical (v : bvalue) : Prop :=
  match v with
  | BInteger z => (- 2 ^ 63 <= z <= 2 ^ 63 - 1)%Z
  | BBytes _ => True
  | BList l => foldr (fun v acc => canonical v /\ acc) True l
  | BDictionary l => Sorted str_lt l.*1 /\ foldr (fun kv acc => canonical kv.2 /\ acc) True l
  end.

Lemma place_BList o l : place o (BList l) = mkNode o (o + blen (encode (BList l))) (List (place_list (o + 1) l)).
Proof. reflexivity. Qed.
Lemma place_BDictionary o l :
  place o (BDictionary l) = mkNode o (o + blen (encode (BDictionary l))) (Dictionary (place_dictionary (o + 1) l)).
Proof. reflexivity. Qed.
Lemma place_start o v : nd_start (place o v) = o.
Proof. by destruct v. Qed.
Lemma place_end o v : nd_end (place o v) = o + blen (encode v).
Proof. by destruct v. Qed.

(** ** Decimal text *)

Notation digit_step := (fun acc b => acc * 10 + (byte_val b - 48)).

(** The digits of a number: no leading zero but for zero itself. *)
Definition plain_digits (ds : bytes) : Prop :=
  ds <> [] /\ Forall (fun b => is_ascii_digit b = true) ds /\ (head ds = Some zero -> length ds = 1%nat).

Lemma is_digit_val b : is_ascii_digit b = true <-> 48 <= byte_val b <= 57.
Proof. unfold is_ascii_digit, Utf8.between. rewrite andb_true_iff, !N.leb_le. done. Qed.

Lemma digit_byte_of b : is_ascii_digit b = true -> digit_byte (byte_val b - 48) = b.
Proof.
  intros Hb%is_digit_val. apply byte_val_inj. rewrite digit_byte_val by lia.
  destruct (N.ltb_spec (byte_val b - 48) 10); lia.
Qed.

Lemma head_app {A} (x y : list A) : x <> [] -> head (x ++ y) = head x.
Proof. by destruct x. Qed.

(** Digits after a nonzero one give a number of at least ten. *)
Lemma digits_number_pos ds : plain_digits ds -> head ds <> Some zero -> 1 <= digits_number ds.
Proof.
  intros (Hne & Hd & _) Hz. destruct ds as [|b ds]; [done|]. unfold digits_number. cbn [foldl].
  assert (Hb : 1 <= 0 * 10 + (byte_val b - 48)).
  { apply Forall_cons in Hd as [Hb%is_digit_val _]. destruct (decide (byte_val b = 48)) as [He|]; [|lia].
    exfalso. apply Hz. cbn. f_equal. by apply byte_val_inj. }
  clear -Hb. revert Hb. generalize (0 * 10 + (byte_val b - 48)).
  induction ds as [|c ds IH]; intros n Hn; cbn [foldl]; [done|]. apply IH. lia.
Qed.

Lemma plain_digits_snoc ds b : plain_digits (ds ++ [b]) -> ds <> [] -> plain_digits ds /\ head ds <> Some zero.
Proof.
  intros (_ & Hd & Hz) Hne. rewrite head_app, length_app in Hz by done. cbn in Hz.
  assert (Hh : head ds <> Some zero) by (intros H; specialize (Hz H); destruct ds; [done|cbn in Hz; lia]).
  apply Forall_app in Hd as [Hd _]. split; [|done]. split_and!; done.
Qed.

Lemma digits_number_snoc ds b : digits_number (ds ++ [b]) = digits_number ds * 10 + (byte_val b - 48).
Proof. unfold digits_number. by rewrite foldl_app. Qed.

Lemma decimal_digits_of fuel ds :
  plain_digits ds -> digits_number ds < 10 ^ N.of_nat (S fuel) ->
  digit_byte <$> decimal_digits (S fuel) (digits_number ds) = ds.
Proof.
  revert ds. induction fuel as [|fuel IH]; intros ds Hp Hlt;
    (destruct ds as [|b ds _] using rev_ind; [by destruct Hp|]);
    pose proof Hp as (_ & Hd & _); apply Forall_app in Hd as [_ Hb]; apply Forall_cons in Hb as [Hb _];
    pose proof (proj1 (is_digit_val b) Hb) as Hv; rewrite digits_number_snoc in *;
    (destruct (decide (ds = [])) as [->|Hne];
      [cbn [decimal_digits]; destruct (N.ltb_spec (digits_number [] * 10 + (byte_val b - 48)) 10) as [_|Hge];
       [change ([digit_byte (byte_val b - 48)] = [b]); by rewrite digit_byte_of|unfold digits_number in Hge; cbn [foldl] in Hge; lia]|]);
    destruct (plain_digits_snoc _ _ Hp Hne) as [Hp' Hz]; pose proof (digits_number_pos _ Hp' Hz) as Hpos.
  - change (10 ^ N.of_nat 1) with 10 in Hlt. lia.
  - remember (S fuel) as k. cbn [decimal_digits].
    destruct (N.ltb_spec (digits_number ds * 10 + (byte_val b - 48)) 10) as [|_]; [lia|].
    assert (Hdiv : (digits_number ds * 10 + (byte_val b - 48)) / 10 = digits_number ds)
      by (symmetry; apply (N.div_unique _ _ _ (byte_val b - 48)); lia).
    assert (Hmod : (digits_number ds * 10 + (byte_val b - 48)) mod 10 = byte_val b - 48)
      by (symmetry; apply (N.mod_unique _ _ (digits_number ds)); lia).
    rewrite Hdiv, Hmod, fmap_app. cbn [fmap list_fmap]. rewrite digit_byte_of by done. f_equal. subst k.
    apply IH; [done|]. rewrite (Nat2N.inj_succ (S fuel)), N.pow_succ_r' in Hlt. lia.
Qed.

Lemma u64_to_string_number ds : plain_digits ds -> digits_number ds < 10 ^ 20 -> u64_to_string (digits_number ds) = ds.
Proof. intros Hp Hlt. unfold u64_to_string. by apply (decimal_digits_of 19). Qed.

Lemma digits_number_bytes ds : Forall (fun d => d < 10) ds ->
  digits_number (digit_byte <$> ds) = foldl (fun acc d => acc * 10 + d) 0 ds.
Proof.
  unfold digits_number. generalize 0. induction ds as [|d ds IH]; intros n Hd; [done|].
  apply Forall_cons in Hd as [Hd Hds]. cbn. rewrite IH by done. f_equal. f_equal. by apply digit_byte_decimal.
Qed.

Lemma decimal_digits_head fuel n : 0 < n -> n < 10 ^ N.of_nat fuel -> exists d ds, decimal_digits fuel n = d :: ds /\ d <> 0.
Proof.
  revert n. induction fuel as [|fuel IH]; intros n Hpos Hlt; [cbn in Hlt; lia|]. cbn [decimal_digits].
  destruct (N.ltb_spec n 10) as [|Hge]; [exists n, []; split; [done|lia]|].
  destruct (IH (n / 10)) as (d & ds & -> & Hd).
  - apply N.div_str_pos. lia.
  - rewrite Nat2N.inj_succ, N.pow_succ_r' in Hlt. apply N.Div0.div_lt_upper_bound. lia.
  - by exists d, (ds ++ [n mod 10]).
Qed.

Lemma u64_to_string_plain n : n < 10 ^ 20 -> plain_digits (u64_to_string n) /\ digits_number (u64_to_string n) = n.
Proof.
  intros Hn. unfold u64_to_string. pose proof (decimal_digits_bound 20 n) as Hb. split.
  - split_and!.
    + intros H. apply fmap_nil_inv in H. by apply decimal_digits_nonempty in H.
    + apply Forall_fmap. eapply Forall_impl; [exact Hb|]. intros d Hd. by apply digit_byte_decimal.
    + intros Hz. destruct (decide (n = 0)) as [->|Hnz]; [done|].
      destruct (decimal_digits_head 20 n) as (d & ds & He & Hd); [lia|done|]. rewrite He in Hz, Hb. cbn in Hz.
      injection Hz as Hz. apply Forall_cons in Hb as [Hb _]. apply (f_equal byte_val) in Hz.
      rewrite digit_byte_val in Hz by lia. destruct (N.ltb_spec d 10); [|lia]. change (byte_val zero) with 48 in Hz. lia.
  - rewrite digits_number_bytes by done. by apply decimal_digits_value.
Qed.

(** ** Strings *)

#[local] Arguments u64_to_string : simpl never.
#[local] Arguments upto : simpl never.
#[local] Arguments skip : simpl never.
#[local] Arguments blen : simpl never.
#[local] Arguments encode_bytes : simpl never.
#[local] Arguments digits_number : simpl never.
#[local] Arguments u64_checked_add : simpl never.

(** Limits that keep the parser's sums within 64 bits. *)
Definition bounded (limits : MetadataLimits) : Prop := ml_bytes limits <= 2 ^ 62 /\ ml_tokens limits <= 2 ^ 62.

Lemma valid_limits limits :
  MetadataLimits_validate limits = Ok () -> ml_bytes limits <= 64 * 1024 * 1024 /\ ml_tokens limits <= 1000000.
Proof.
  unfold MetadataLimits_validate. destruct (_ || _) eqn:H; [done|].
  repeat (apply orb_false_iff in H as [H ?]).
  repeat match goal with H : (_ <? _) = false |- _ => apply N.ltb_ge in H end. lia.
Qed.
Lemma valid_bounded limits : MetadataLimits_validate limits = Ok () -> bounded limits.
Proof. intros H%valid_limits. unfold bounded. lia. Qed.

Section parser.
Context (limits : MetadataLimits).
Hypothesis valid : bounded limits.

(** The digits still to come when [first] was the first one. *)
Definition digits_left (first : option byte) (ds : bytes) : Prop :=
  Forall (fun b => is_ascii_digit b = true) ds /\
  match first with
  | None => ds <> [] /\ (head ds = Some zero -> length ds = 1%nat)
  | Some b => b = zero -> ds = []
  end.

Lemma foldl_digits_ge ds n : n <= foldl digit_step n ds.
Proof. revert n. induction ds as [|b ds IH]; intros n; cbn; [lia|]. etransitivity; [|apply IH]. lia. Qed.

Lemma length_loop_sound first n rest o n' rest' o' :
  length_loop limits first n rest o = Ok (n', rest', o') ->
  exists ds, digits_left first ds /\ rest = ds ++ colon :: rest' /\ n' = foldl digit_step n ds /\
    o' = o + blen ds + 1 /\ (ds = [] \/ n' <= ml_bytes limits).
Proof.
  revert first n o. induction rest as [|b rest IH]; intros first n o; cbn [length_loop]; [done|].
  destruct (is_ascii_digit b) eqn:Hb.
  - case_bool_decide as Hz; [done|]. set (next := n * 10 + (byte_val b - 48)).
    destruct (USIZE_MAX <? next); [done|]. destruct (N.ltb_spec (ml_bytes limits) next) as [|Hle]; [done|].
    intros (ds & [Hd Hf] & -> & -> & -> & Hm)%IH. exists (b :: ds). unfold digits_left.
    split_and!; [by constructor| |done|done|rewrite blen_cons; lia|].
    + destruct first as [c|]; cbn in Hf; [by intros ->|]. split; [done|]. cbn. intros [= ->]. by rewrite Hf.
    + right. destruct Hm as [->|Hm]; [done|done].
  - destruct (is_none first || (b != colon)) eqn:Hc; [done|]. intros [= <- <- <-].
    apply orb_false_iff in Hc as [Hn Hc%negb_false_iff%bool_decide_eq_true]. subst b.
    exists []. split_and!; [|done|done|rewrite blen_nil; lia|by left]. split; [constructor|]. by destruct first.
Qed.

Lemma length_loop_complete first n ds rest o :
  digits_left first ds -> foldl digit_step n ds <= ml_bytes limits ->
  length_loop limits first n (ds ++ colon :: rest) o = Ok (foldl digit_step n ds, rest, o + blen ds + 1).
Proof.
  destruct valid as [Hbytes _].
  revert first n o. induction ds as [|b ds IH]; intros first n o [Hd Hf] Hle; cbn [app length_loop].
  - destruct first; [|by destruct Hf]. cbn. rewrite N.add_0_r. done.
  - apply Forall_cons in Hd as [Hb Hd]. rewrite Hb. rewrite bool_decide_false by (destruct first; [|done];
      intros [= ->]; by specialize (Hf eq_refl)).
    cbn [foldl] in Hle. pose proof (foldl_digits_ge ds (n * 10 + (byte_val b - 48))).
    rewrite (proj2 (N.ltb_ge _ _)) by (unfold USIZE_MAX, U64_MAX in *; lia). rewrite (proj2 (N.ltb_ge _ _)) by lia.
    rewrite IH; [cbn [foldl]; rewrite blen_cons; do 2 f_equal; lia| |done].
    split; [done|]. cbn. destruct first as [c|]; cbn.
    + intros ->. by specialize (Hf eq_refl).
    + destruct Hf as [_ Hf]. intros ->. specialize (Hf eq_refl). by destruct ds.
Qed.

Lemma token_sound p p' :
  parser_token limits p = Ok p' ->
  p' = mkParser (pa_rest p) (pa_offset p) (pa_tokens p + 1) /\ pa_tokens p + 1 <= ml_tokens limits.
Proof.
  unfold parser_token. intros (t & Ht & H)%bind_Ok. apply ok_or_Ok, u64_checked_add_Some in Ht as [-> _].
  destruct (N.ltb_spec (ml_tokens limits) (pa_tokens p + 1)); [done|]. by injection H as <-.
Qed.
Lemma token_complete rest o t :
  t + 1 <= ml_tokens limits -> parser_token limits (mkParser rest o t) = Ok (mkParser rest o (t + 1)).
Proof.
  intros Ht. destruct valid as [_ Hb]. unfold parser_token, u64_checked_add. cbn.
  destruct (N.leb_spec (t + 1) U64_MAX); [|unfold U64_MAX in *; lia]. cbn.
  by rewrite (proj2 (N.ltb_ge _ _) Ht).
Qed.

Lemma string_sound p b p' :
  parser_string limits p = Ok (b, p') ->
  pa_rest p = encode_bytes b ++ pa_rest p' /\ pa_offset p' = pa_offset p + blen (encode_bytes b) /\
  pa_tokens p' = pa_tokens p + 1 /\ pa_tokens p' <= ml_tokens limits.
Proof.
  destruct valid as [Hbytes _].
  unfold parser_string. intros (p1 & Ht & H)%bind_Ok. apply token_sound in Ht as [-> Ht]. cbn in H.
  apply bind_Ok in H as ([[n rest] o] & Hl & H). apply length_loop_sound in Hl as (ds & [Hd Hne] & Hr & Hn & -> & Hm).
  apply bind_Ok in H as (stop & Hs & H). apply ok_or_Ok, u64_checked_add_Some in Hs as [-> _].
  destruct (N.ltb_spec (blen rest) n) as [|Hlen]; [done|]. injection H as <- <-. cbn.
  destruct Hne as [Hne Hz]. assert (Hp : plain_digits ds) by (split_and!; done).
  destruct Hm as [|Hm]; [done|]. change (foldl _ 0 ds) with (digits_number ds) in Hn. subst n.
  assert (Hu : u64_to_string (digits_number ds) = ds) by (apply u64_to_string_number; [done|lia]).
  assert (Hul : blen (upto (digits_number ds) rest) = digits_number ds) by (rewrite blen_upto; lia).
  unfold encode_bytes. rewrite Hul, Hu. split_and!; [|rewrite blen_app, blen_cons, Hul; lia|done|done].
  rewrite Hr, <- app_assoc. cbn. by rewrite upto_skip.
Qed.

Lemma string_complete b rest o t :
  t + 1 <= ml_tokens limits -> o + blen (encode_bytes b) <= ml_bytes limits ->
  parser_string limits (mkParser (encode_bytes b ++ rest) o t)
  = Ok (b, mkParser rest (o + blen (encode_bytes b)) (t + 1)).
Proof.
  intros Ht Ho. destruct valid as [Hbytes _]. unfold parser_string. rewrite token_complete by done. cbn.
  unfold encode_bytes in *. rewrite blen_app, blen_cons in Ho.
  destruct (u64_to_string_plain (blen b)) as [(Hne & Hd & Hz) Hn]; [lia|].
  rewrite <- app_assoc. cbn [app]. rewrite length_loop_complete.
  - change (foldl _ 0 _) with (digits_number (u64_to_string (blen b))). rewrite Hn. cbn [mbind result_bind].
    unfold u64_checked_add. rewrite (proj2 (N.leb_le _ _)) by (unfold U64_MAX; lia). cbn.
    rewrite blen_app, (proj2 (N.ltb_ge _ _)), upto_app, skip_app, blen_app, blen_cons by lia. do 3 f_equal. lia.
  - by split.
  - change (foldl _ 0 _) with (digits_number (u64_to_string (blen b))). rewrite Hn. lia.
Qed.
End parser.

(** ** Integers *)

Lemma span_digits_sound rest ds rest' :
  span_digits rest = (ds, rest') -> rest = ds ++ rest' /\ Forall (fun b => is_ascii_digit b = true) ds.
Proof.
  revert ds rest'. induction rest as [|b rest IH]; intros ds rest'; cbn; [by intros [= <- <-]|].
  destruct (is_ascii_digit b) eqn:Hb; [|by intros [= <- <-]].
  destruct (span_digits rest) as [ds1 rest1]. intros [= <- <-]. destruct (IH _ _ eq_refl) as [-> Hd].
  split; [done|by constructor].
Qed.

Lemma span_digits_complete ds b rest :
  Forall (fun b => is_ascii_digit b = true) ds -> is_ascii_digit b = false ->
  span_digits (ds ++ b :: rest) = (ds, b :: rest).
Proof. intros Hd Hb. induction Hd as [|c ds Hc Hd IH]; cbn; [by rewrite Hb|]. by rewrite Hc, IH. Qed.

Lemma i64_to_string_sound negative ds z :
  plain_digits ds -> (negative = true -> head ds <> Some zero) -> i64_parse negative ds = Some z ->
  i64_to_string z = (if negative then [minus] else []) ++ ds /\ (- 2 ^ 63 <= z <= 2 ^ 63 - 1)%Z.
Proof.
  intros Hp Hz. unfold i64_parse, i64_to_string. destruct negative.
  - pose proof (digits_number_pos _ Hp (Hz eq_refl)). destruct (N.leb_spec (digits_number ds) (2 ^ 63)); [|done].
    intros [= <-]. destruct (Z.ltb_spec (- Z.of_N (digits_number ds)) 0); [|lia].
    rewrite Z.opp_involutive, N2Z.id, u64_to_string_number by (done || lia). split; [done|lia].
  - destruct (N.leb_spec (digits_number ds) I64_MAX) as [Hle|]; [|done]. unfold I64_MAX in Hle.
    intros [= <-]. destruct (Z.ltb_spec (Z.of_N (digits_number ds)) 0); [lia|].
    rewrite N2Z.id, u64_to_string_number by (done || lia). split; [done|lia].
Qed.

Lemma integer_sound p z p' :
  parser_integer p = Ok (z, p') ->
  pa_rest p = i64_to_string z ++ letter_e :: pa_rest p' /\
  pa_offset p' = pa_offset p + blen (i64_to_string z) + 1 /\ pa_tokens p' = pa_tokens p /\
  (- 2 ^ 63 <= z <= 2 ^ 63 - 1)%Z.
Proof.
  unfold parser_integer. destruct p as [[|b rest] o t]; cbn [pa_rest]; [done|]. set (negative := b == minus).
  set (p1 := if negative then _ else _).
  assert (Hp1 : b :: rest = (if negative then [minus] else []) ++ pa_rest p1 /\
    pa_offset p1 = o + blen (if negative then [minus] else []) /\ pa_tokens p1 = t).
  { unfold p1, negative. case_bool_decide as Hb; [subst b|]; cbn; rewrite ?drop_0; split_and!; try done.
    rewrite blen_nil. lia. }
  destruct Hp1 as (Hr1 & Ho1 & Ht1). clearbody negative p1.
  destruct (span_digits (pa_rest p1)) as [ds [|e rest1]] eqn:Hs; [done|]. apply span_digits_sound in Hs as [Hr Hd].
  destruct (_ || _) eqn:Hc; [done|]. repeat (apply orb_false_iff in Hc as [Hc ?]).
  apply negb_false_iff, bool_decide_eq_true in H1. subst e. apply N.eqb_neq in Hc.
  assert (Hp : plain_digits ds).
  { split_and!; [intros ->; by rewrite blen_nil in Hc|done|]. intros Hz. apply andb_false_iff in H0 as [H0|H0].
    - apply N.ltb_ge in H0. unfold blen in *. lia.
    - by apply bool_decide_eq_false in H0. }
  assert (Hz : negative = true -> head ds <> Some zero) by (intros ->; by apply bool_decide_eq_false in H).
  intros (z' & Hz' & [= <- <-])%bind_Ok. apply ok_or_Ok in Hz'.
  destruct (i64_to_string_sound _ _ _ Hp Hz Hz') as [Htxt Hrange]. cbn [pa_rest pa_offset pa_tokens].
  rewrite Htxt, Hr1, Hr, Ho1, blen_app, <- app_assoc. split_and!; [done|lia|done|lia..].
Qed.

Lemma digit_not_minus ds : plain_digits ds -> exists b ds', ds = b :: ds' /\ (b == minus) = false.
Proof.
  intros (Hne & Hd & _). destruct ds as [|b ds]; [done|]. exists b, ds. split; [done|].
  apply Forall_cons in Hd as [Hb _]. apply bool_decide_false. by intros ->.
Qed.

Lemma integer_body negative ds z rest o t :
  plain_digits ds -> (negative = true -> head ds <> Some zero) -> i64_parse negative ds = Some z ->
  let sign := if negative then [minus] else [] in
  parser_integer (mkParser (sign ++ ds ++ letter_e :: rest) o t)
  = Ok (z, mkParser rest (o + blen (sign ++ ds) + 1) t).
Proof.
  intros Hp Hz Hparse. pose proof Hp as (Hne & Hd & Hone).
  assert (Hguard : (blen ds =? 0) || (letter_e != letter_e) || ((1 <? blen ds) && bool_decide (head ds = Some zero))
    || (negative && bool_decide (head ds = Some zero)) = false).
  { rewrite (bool_decide_true (letter_e = letter_e)) by done. rewrite (proj2 (N.eqb_neq _ _)) by (by rewrite blen_0).
    case_bool_decide as Hh; [|by rewrite !andb_false_r].
    destruct negative; [by specialize (Hz eq_refl)|]. cbn. rewrite (proj2 (N.ltb_ge _ _)); [done|].
    specialize (Hone Hh). unfold blen. lia. }
  destruct (digit_not_minus _ Hp) as (b & ds' & Heq & Hb).
  assert (Hspan : span_digits (ds ++ letter_e :: rest) = (ds, letter_e :: rest)) by (by apply span_digits_complete).
  unfold parser_integer. destruct negative; cbn [app pa_rest].
  - rewrite bool_decide_true by done. cbn [advance pa_rest drop pa_offset pa_tokens]. rewrite drop_0, Hspan, Hguard, Hparse.
    cbn. rewrite !blen_cons. do 3 f_equal. lia.
  - rewrite Heq in Hspan |- *. cbn [app]. rewrite Hb. cbn [pa_rest pa_offset pa_tokens app] in *. rewrite Hspan, <- Heq.
    rewrite Hguard, Hparse. done.
Qed.

Lemma integer_complete z rest o t :
  (- 2 ^ 63 <= z <= 2 ^ 63 - 1)%Z ->
  parser_integer (mkParser (i64_to_string z ++ letter_e :: rest) o t)
  = Ok (z, mkParser rest (o + blen (i64_to_string z) + 1) t).
Proof.
  intros Hz. unfold i64_to_string. destruct (Z.ltb_spec z 0) as [Hneg|Hpos].
  - destruct (u64_to_string_plain (Z.to_N (- z))) as [Hp Hn]; [lia|].
    apply (integer_body true _ z rest o t Hp).
    + intros _ Hh. pose proof Hp as (_ & _ & Hone). specialize (Hone Hh).
      destruct (u64_to_string (Z.to_N (- z))) as [|b [|]]; [done| |done]. injection Hh as ->.
      change (digits_number [zero]) with 0 in Hn. lia.
    + unfold i64_parse. rewrite Hn. destruct (N.leb_spec (Z.to_N (- z)) (2 ^ 63)); [f_equal; lia|lia].
  - destruct (u64_to_string_plain (Z.to_N z)) as [Hp Hn]; [lia|].
    apply (integer_body false _ z rest o t Hp); [done|].
    unfold i64_parse, I64_MAX. rewrite Hn. destruct (N.leb_spec (Z.to_N z) (2 ^ 63 - 1)); [f_equal; lia|lia].
Qed.

(** ** Lists and dictionaries *)

Lemma canonical_BList l : canonical (BList l) <-> Forall canonical l.
Proof. cbn. induction l as [|v l IH]; cbn; [by split|]. rewrite Forall_cons, IH. done. Qed.
Lemma canonical_BDictionary l :
  canonical (BDictionary l) <-> Sorted str_lt l.*1 /\ Forall (fun kv => canonical kv.2) l.
Proof.
  cbn. split; intros [Hs Hf]; (split; [done|]); clear Hs; induction l as [|v l IH]; cbn in *; try done.
  - destruct Hf. constructor; auto.
  - apply Forall_cons in Hf as [? ?]. auto.
Qed.

Lemma foldr_max_le {A} (f : A -> nat) l k : (foldr Nat.max 0%nat (map f l) <= k)%nat <-> Forall (fun x => f x <= k)%nat l.
Proof. induction l as [|x l IH]; cbn; [split; [constructor|lia]|]. rewrite Forall_cons, <- IH. lia. Qed.
Lemma height_BList l k : (height (BList l) <= S k)%nat <-> Forall (fun v => height v <= k)%nat l.
Proof. cbn. rewrite <- foldr_max_le. lia. Qed.
Lemma height_BDictionary l k : (height (BDictionary l) <= S k)%nat <-> Forall (fun kv => height kv.2 <= k)%nat l.
Proof. cbn. rewrite <- (foldr_max_le (fun kv => height kv.2)). lia. Qed.

Lemma Sorted_snoc_last (l : list bytes) k :
  Sorted str_lt l -> (forall x, last l = Some x -> str_lt x k) -> Sorted str_lt (l ++ [k]).
Proof.
  intros Hs. induction Hs as [|x l Hs IH Hx]; intros Hl; cbn; [by repeat constructor|].
  destruct l as [|y l]; cbn.
  - repeat constructor. by apply Hl.
  - constructor; [apply IH; intros z Hz; by apply Hl|]. constructor. by inversion Hx.
Qed.

Lemma Sorted_middle_inv (l : list bytes) k r x : Sorted str_lt (l ++ k :: r) -> last l = Some x -> str_lt x k.
Proof.
  induction l as [|y l IH]; [done|]. intros Hs Hl. cbn in Hs. inversion_clear Hs as [|? ? Hs' Hd].
  destruct l as [|z l]; [|by apply IH]. cbn in Hl. injection Hl as <-. by inversion Hd.
Qed.

Lemma place_dictionary_keys o l : (place_dictionary o l).*1 = l.*1.
Proof. revert o. induction l as [|[k v] l IH]; intros o; cbn; [done|]. by rewrite IH. Qed.

Section parser.
Context (limits : MetadataLimits).
Hypothesis valid : bounded limits.

(** What a parser of values at most [k] high returns. *)
Definition reads (k : nat) (parse : Parser -> result BtError (Node * Parser)) : Prop :=
  forall p n p', parse p = Ok (n, p') ->
  exists v, canonical v /\ (height v <= k)%nat /\ n = place (pa_offset p) v /\ pa_rest p = encode v ++ pa_rest p' /\
    pa_offset p' = pa_offset p + blen (encode v) /\ pa_tokens p' = pa_tokens p + count_tokens v /\
    pa_tokens p' <= ml_tokens limits.

Lemma list_loop_sound k parse fuel acc p vals p' :
  reads k parse -> list_loop parse fuel acc p = Ok (vals, p') -> pa_tokens p <= ml_tokens limits ->
  exists l, Forall canonical l /\ Forall (fun v => height v <= k)%nat l /\
    vals = acc ++ place_list (pa_offset p) l /\ pa_rest p = flat_map encode l ++ letter_e :: pa_rest p' /\
    pa_offset p' = pa_offset p + blen (flat_map encode l) + 1 /\
    pa_tokens p' = pa_tokens p + sum_of id (map count_tokens l) /\ pa_tokens p' <= ml_tokens limits.
Proof.
  intros Hparse. revert acc p. induction fuel as [|fuel IH]; intros acc p; cbn [list_loop]; [done|].
  destruct (pa_rest p) as [|b rest] eqn:Hrest; [done|]. case_bool_decide as Hb.
  - subst b. intros [= <- <-] Ht. exists []. cbn. rewrite Hrest, app_nil_r, ?blen_nil.
    split_and!; [apply Forall_nil_2|apply Forall_nil_2|done|done|lia|unfold sum_of; cbn; lia|done].
  - intros ([n p1] & Hn & Hl)%bind_Ok Ht. rewrite <- Hrest.
    destruct (Hparse _ _ _ Hn) as (v & Hc & Hh & -> & Hr1 & Ho1 & Ht1 & Hle).
    destruct (IH _ _ Hl Hle) as (l & Hcl & Hhl & -> & Hr & Ho & Htk & Hlt).
    exists (v :: l). cbn [flat_map place_list map]. rewrite sum_of_cons, blen_app, <- Ho1, Hr1, Hr, <- !app_assoc.
    split_and!; [by constructor|by constructor|done|done|lia|cbn [id]; unfold id in *; lia|done].
Qed.

Lemma dictionary_loop_sound k parse fuel acc p vals p' :
  reads k parse -> dictionary_loop limits parse fuel acc p = Ok (vals, p') -> Sorted str_lt acc.*1 ->
  pa_tokens p <= ml_tokens limits ->
  exists l, Sorted str_lt (acc.*1 ++ l.*1) /\ Forall (fun kv => canonical kv.2) l /\
    Forall (fun kv => height kv.2 <= k)%nat l /\ vals = acc ++ place_dictionary (pa_offset p) l /\
    pa_rest p = flat_map (fun kv => encode_bytes kv.1 ++ encode kv.2) l ++ letter_e :: pa_rest p' /\
    pa_offset p' = pa_offset p + blen (flat_map (fun kv => encode_bytes kv.1 ++ encode kv.2) l) + 1 /\
    pa_tokens p' = pa_tokens p + sum_of id (map (fun kv => 1 + count_tokens kv.2) l) /\
    pa_tokens p' <= ml_tokens limits.
Proof.
  intros Hparse. revert acc p. induction fuel as [|fuel IH]; intros acc p; cbn [dictionary_loop]; [done|].
  destruct (pa_rest p) as [|b rest] eqn:Hrest; [done|]. case_bool_decide as Hb.
  - subst b. intros [= <- <-] Hs Ht. exists []. cbn. rewrite Hrest, !app_nil_r, blen_nil.
    split_and!; [done|apply Forall_nil_2|apply Forall_nil_2|done|done|lia|unfold sum_of; cbn; lia|done].
  - intros ([key p1] & Hk & Hl)%bind_Ok Hs Ht. rewrite <- Hrest. apply string_sound in Hk as (Hr1 & Ho1 & Ht1 & Hle1); [|done].
    cbn beta iota in Hl. match type of Hl with (if ?b then _ else _) = _ => destruct b eqn:Hord end; [done|].
    apply bind_Ok in Hl as ([n p2] & Hn & Hl).
    destruct (Hparse _ _ _ Hn) as (v & Hc & Hh & -> & Hr2 & Ho2 & Ht2 & Hle2).
    destruct (IH _ _ Hl) as (l & Hsl & Hcl & Hhl & -> & Hr & Ho & Htk & Hlt); [|done|].
    { rewrite fmap_app. cbn. apply Sorted_snoc_last; [done|]. intros x Hx. rewrite fmap_last in Hx.
      destruct (last acc) as [[y ny]|]; [|done]. injection Hx as <-.
      by apply negb_false_iff, bool_decide_eq_true in Hord. }
    exists ((key, v) :: l). rewrite fmap_app, <- app_assoc in Hsl. cbn [flat_map map fst snd place_dictionary].
    rewrite sum_of_cons, blen_app, blen_app, <- Ho1, <- Ho2, Hr1, Hr2, Hr, <- !app_assoc.
    split_and!; [done|by constructor|by constructor|done|done|lia|unfold id in *; lia|done].
Qed.

Lemma node_sound levels : reads levels (parser_node limits levels).
Proof.
  induction levels as [|k IH]; intros p n p'; cbn [parser_node]; [done|].
  destruct (pa_rest p) as [|b rest] eqn:Hrest; [done|]. destruct (is_ascii_digit b).
  { intros ([s p1] & Hs & [= <- <-])%bind_Ok. apply string_sound in Hs as (Hr & Ho & Ht & Hle); [|done].
    exists (BBytes s). rewrite <- Hrest, Hr. cbn [place encode count_tokens canonical height].
    split_and!; [done|lia|by rewrite Ho|done..]. }
  case_bool_decide as Hi; [subst b|].
  { intros (p1 & Ht & H)%bind_Ok. apply token_sound in Ht as [-> Ht]. apply bind_Ok in H as ([z p2] & Hz & [= <- <-]).
    apply integer_sound in Hz as (Hr & Ho & Htk & Hrange). cbn in Hr, Ho, Htk. rewrite Hrest in Hr. cbn in Hr.
    exists (BInteger z). cbn [place encode count_tokens canonical height].
    rewrite ?drop_0 in Hr. rewrite Hr, blen_cons, blen_app, blen_cons, blen_nil. cbn [app]. rewrite <- app_assoc.
    split_and!; [lia..| |done|lia|lia|lia]. f_equal. lia. }
  case_bool_decide as Hlist; [subst b|].
  { intros (p1 & Ht & H)%bind_Ok. apply token_sound in Ht as [-> Ht]. apply bind_Ok in H as ([vals p2] & Hl & [= <- <-]).
    apply (list_loop_sound k) in Hl as (l & Hc & Hh & -> & Hr & Ho & Htk & Hle); [|done|done].
    cbn in Hr, Ho, Htk. rewrite Hrest in Hr. cbn in Hr. rewrite ?drop_0 in Hr.
    exists (BList l). rewrite canonical_BList, height_BList, place_BList. cbn [encode count_tokens app].
    rewrite Hr, blen_cons, blen_app, blen_cons, blen_nil, <- app_assoc. split_and!; [done..| |done|lia|lia|lia].
    f_equal. lia. }
  case_bool_decide as Hdict; [subst b|done].
  intros (p1 & Ht & H)%bind_Ok. apply token_sound in Ht as [-> Ht]. apply bind_Ok in H as ([vals p2] & Hl & [= <- <-]).
  apply (dictionary_loop_sound k) in Hl as (l & Hs & Hc & Hh & -> & Hr & Ho & Htk & Hle); [|done|constructor|done].
  cbn in Hr, Ho, Htk, Hs. rewrite Hrest in Hr. cbn in Hr. rewrite ?drop_0 in Hr.
  exists (BDictionary l). rewrite canonical_BDictionary, height_BDictionary, place_BDictionary. cbn [encode count_tokens app].
  rewrite Hr, blen_cons, blen_app, blen_cons, blen_nil, <- app_assoc. split_and!; [done..| |done|lia|lia|lia].
  f_equal. lia.
Qed.

(** The converse: a parser that accepts every value at most [k] high. *)
Definition accepts (k : nat) (parse : Parser -> result BtError (Node * Parser)) : Prop :=
  forall v rest o t, canonical v -> (height v <= k)%nat -> t + count_tokens v <= ml_tokens limits ->
  o + blen (encode v) <= ml_bytes limits ->
  parse (mkParser (encode v ++ rest) o t)
  = Ok (place o v, mkParser rest (o + blen (encode v)) (t + count_tokens v)).

Lemma encode_bytes_head s :
  blen (encode_bytes s) <= ml_bytes limits -> exists d w, encode_bytes s = d :: w /\ is_ascii_digit d = true.
Proof.
  intros Hs. destruct valid as [Hbytes _]. unfold encode_bytes in *. rewrite blen_app, blen_cons in Hs.
  destruct (u64_to_string_plain (blen s)) as [(Hne & Hd & _) _]; [lia|].
  destruct (u64_to_string (blen s)) as [|d ds]; [done|]. exists d, (ds ++ colon :: s).
  split; [done|]. by apply Forall_cons in Hd as [? _].
Qed.

Lemma digit_not_end d : is_ascii_digit d = true -> d <> letter_e.
Proof. by intros H ->. Qed.

Lemma encode_head v : blen (encode v) <= ml_bytes limits -> exists d w, encode v = d :: w /\ d <> letter_e.
Proof.
  destruct v as [z|s|l|l]; intros Hv; try by eexists _, _.
  destruct (encode_bytes_head _ Hv) as (d & w & Hw & Hd). exists d, w. split; [done|]. by apply digit_not_end.
Qed.

Lemma list_loop_complete k parse l fuel acc rest o t :
  accepts k parse -> Forall canonical l -> Forall (fun v => height v <= k)%nat l ->
  t + sum_of id (map count_tokens l) <= ml_tokens limits -> o + blen (flat_map encode l) <= ml_bytes limits ->
  (length (flat_map encode l) < fuel)%nat ->
  list_loop parse fuel acc (mkParser (flat_map encode l ++ letter_e :: rest) o t)
  = Ok (acc ++ place_list o l, mkParser rest (o + blen (flat_map encode l) + 1) (t + sum_of id (map count_tokens l))).
Proof.
  intros Hparse Hc. revert fuel acc o t. induction Hc as [|v l Hv Hc IH]; intros fuel acc o t Hh Ht Ho Hf.
  - destruct fuel as [|fuel]; [cbn in Hf; lia|]. cbn. unfold advance. cbn. rewrite app_nil_r, blen_nil.
    unfold sum_of; cbn. by rewrite !N.add_0_r.
  - apply Forall_cons in Hh as [Hhv Hh]. cbn [flat_map map] in *. rewrite sum_of_cons in *. unfold id in * |-.
    rewrite blen_app in *. rewrite length_app in Hf. destruct (encode_head v) as (d & w & Hw & Hd); [lia|].
    destruct fuel as [|fuel]; [lia|]. rewrite Hw in Hf. cbn in Hf.
    rewrite <- app_assoc. cbn [list_loop pa_rest]. rewrite Hw at 1. cbn [app].
    rewrite bool_decide_eq_false_2 by done. rewrite Hparse by (done || lia). cbn [mbind result_bind].
    rewrite IH by (done || lia). cbn [place_list]. rewrite <- app_assoc. cbn [app].
    do 3 f_equal; unfold id; lia.
Qed.

Lemma dictionary_loop_complete k parse l fuel acc rest o t :
  accepts k parse -> Sorted str_lt (acc.*1 ++ l.*1) -> Forall (fun kv => canonical kv.2) l ->
  Forall (fun kv => height kv.2 <= k)%nat l ->
  let body := flat_map (fun kv => encode_bytes kv.1 ++ encode kv.2) l in
  let tokens := sum_of id (map (fun kv => 1 + count_tokens kv.2) l) in
  t + tokens <= ml_tokens limits -> o + blen body <= ml_bytes limits -> (length body < fuel)%nat ->
  dictionary_loop limits parse fuel acc (mkParser (body ++ letter_e :: rest) o t)
  = Ok (acc ++ place_dictionary o l, mkParser rest (o + blen body + 1) (t + tokens)).
Proof.
  intros Hparse Hs Hc. revert fuel acc o t Hs.
  induction Hc as [|[key v] l Hv Hc IH]; intros fuel acc o t Hs Hh body tokens Ht Ho Hf; subst body tokens.
  - destruct fuel as [|fuel]; [cbn in Hf; lia|]. cbn. unfold advance. cbn. rewrite app_nil_r, blen_nil.
    unfold sum_of; cbn. by rewrite !N.add_0_r.
  - apply Forall_cons in Hh as [Hhv Hh]. cbn [flat_map map fst snd] in *. rewrite sum_of_cons in *. unfold id in * |-.
    rewrite !blen_app in Ho. rewrite !length_app in Hf. destruct (encode_bytes_head key) as (d & w & Hw & Hd); [lia|].
    destruct fuel as [|fuel]; [lia|]. rewrite Hw in Hf. cbn in Hf.
    rewrite <- !app_assoc. cbn [dictionary_loop pa_rest]. rewrite Hw at 1. cbn [app].
    rewrite bool_decide_eq_false_2 by by apply digit_not_end.
    rewrite string_complete by (done || lia). cbn [mbind result_bind].
    match goal with |- (if ?b then _ else _) = _ => assert (Hord : b = false) end.
    { destruct (last acc) as [[y ny]|] eqn:Hlast; [|done]. apply negb_false_iff, bool_decide_eq_true.
      apply (Sorted_middle_inv acc.*1 key l.*1); [done|]. by rewrite fmap_last, Hlast. }
    rewrite Hord, Hparse by (done || lia). cbn [mbind result_bind].
    rewrite IH; [|by rewrite fmap_app, <- app_assoc|done|lia..].
    cbn [place_dictionary]. rewrite <- app_assoc, !blen_app. cbn [app]. do 3 f_equal; unfold id; lia.
Qed.

Lemma node_complete levels : accepts levels (parser_node limits levels).
Proof.
  induction levels as [|k IH]; intros v rest o t Hc Hh Ht Ho; [destruct v; cbn in Hh; lia|].
  destruct v as [z|s|l|l]; cbn [parser_node pa_rest].
  - cbn [encode count_tokens canonical] in *. cbn. rewrite token_complete by done. cbn.
    rewrite <- app_assoc. unfold advance. cbn. rewrite drop_0, integer_complete by done. cbn.
    rewrite blen_cons, blen_app, blen_cons, blen_nil. unfold blen. do 3 f_equal; lia.
  - cbn [encode count_tokens] in *. destruct (encode_bytes_head s) as (d & w & Hw & Hd); [lia|].
    rewrite Hw at 1. cbn [app]. rewrite Hd, string_complete by done. done.
  - rewrite canonical_BList in Hc. rewrite height_BList in Hh. rewrite place_BList. cbn [encode count_tokens] in *.
    rewrite blen_cons, blen_app, blen_cons, blen_nil in *. cbn [app]. cbn -[length list_loop].
    rewrite token_complete by (done || lia). cbn -[length list_loop]. unfold advance. cbn -[length list_loop].
    rewrite drop_0, <- app_assoc. cbn [app]. erewrite list_loop_complete; [|done..|lia|lia|].
    + cbn. do 3 f_equal; lia.
    + cbn. rewrite length_app. lia.
  - rewrite canonical_BDictionary in Hc. rewrite height_BDictionary in Hh. rewrite place_BDictionary.
    destruct Hc as [Hs Hc]. cbn [encode count_tokens] in *.
    rewrite blen_cons, blen_app, blen_cons, blen_nil in *. cbn [app]. cbn -[length dictionary_loop].
    rewrite token_complete by (done || lia). cbn -[length dictionary_loop]. unfold advance. cbn -[length dictionary_loop].
    rewrite drop_0, <- app_assoc. cbn [app]. erewrite dictionary_loop_complete; [|done..|lia|lia|].
    + cbn. do 3 f_equal; lia.
    + cbn. rewrite length_app. lia.
Qed.
End parser.

Lemma decode_sound data limits n :
  decode data limits = Ok n ->
  MetadataLimits_validate limits = Ok () /\ blen data <= ml_bytes limits /\
  exists v, canonical v /\ (height v <= S (N.to_nat (ml_depth limits)))%nat /\ count_tokens v <= ml_tokens limits /\
    data = encode v /\ n = place 0 v.
Proof.
  unfold decode. intros ([] & Hvalid & H)%bind_Ok. destruct (N.ltb_spec (ml_bytes limits) (blen data)); [done|].
  apply bind_Ok in H as ([node p] & Hn & H). destruct (negb _) eqn:Hend; [done|]. injection H as <-.
  apply negb_false_iff, N.eqb_eq in Hend.
  apply (node_sound limits (valid_bounded _ Hvalid)) in Hn as (v & Hc & Hh & -> & Hr & Ho & Ht & Hle). cbn in *.
  assert (Hnil : pa_rest p = []).
  { apply (f_equal blen) in Hr. rewrite blen_app in Hr. apply nil_length_inv. unfold blen in *. lia. }
  rewrite Hnil, app_nil_r in Hr. split_and!; [done..|]. exists v. split_and!; [done|done|lia|done|done].
Qed.

Lemma decode_complete v limits :
  MetadataLimits_validate limits = Ok () -> blen (encode v) <= ml_bytes limits -> canonical v ->
  (height v <= S (N.to_nat (ml_depth limits)))%nat -> count_tokens v <= ml_tokens limits ->
  decode (encode v) limits = Ok (place 0 v).
Proof.
  intros Hvalid Hlen Hc Hh Ht. unfold decode. rewrite Hvalid. cbn [mbind result_bind].
  rewrite (proj2 (N.ltb_ge _ _) Hlen). rewrite <- (app_nil_r (encode v)) at 1.
  rewrite (node_complete limits (valid_bounded _ Hvalid)) by (done || lia). cbn. by rewrite N.eqb_refl.
Qed.

(** ** Unique reading *)

(** The value without its byte ranges. *)
Fixpoint value_of (n : Node) : bvalue :=
  match nd_value n with
  | Integer z => BInteger z
  | Bytes b => BBytes b
  | List l => BList (map value_of l)
  | Dictionary l => BDictionary (map (fun kv => (kv.1, value_of kv.2)) l)
  end.

Lemma value_of_place o v : value_of (place o v) = v.
Proof.
  revert o. induction v as [z|b|l IH|l IH] using bvalue_induction; intros o; [done|done|..].
  - rewrite place_BList. cbn. f_equal. generalize (o + 1). induction IH as [|v l Hv _ IH]; intros p; cbn; [done|].
    by rewrite Hv, IH.
  - rewrite place_BDictionary. cbn. f_equal. generalize (o + 1).
    induction IH as [|[k v] l Hv _ IH]; intros p; cbn in *; [done|]. by rewrite Hv, IH.
Qed.

Lemma count_tokens_le v : count_tokens v <= blen (encode v).
Proof.
  induction v as [z|b|l IH|l IH] using bvalue_induction.
  - cbn. unfold blen. cbn. lia.
  - cbn. unfold encode_bytes. rewrite blen_app, blen_cons. lia.
  - cbn. rewrite blen_cons, blen_app. enough (sum_of id (map count_tokens l) <= blen (flat_map encode l)) by lia.
    induction IH as [|v l Hv _ IH]; cbn [map flat_map]; [done|]. rewrite sum_of_cons, blen_app. unfold id at 1. lia.
  - cbn. rewrite blen_cons, blen_app. match goal with |- 1 + ?x <= 1 + (?y + _) => enough (x <= y) by lia end.
    induction IH as [|[k v] l Hv _ IH]; cbn [map flat_map fst snd] in *; [done|].
    rewrite sum_of_cons, !blen_app. unfold id at 1, encode_bytes at 1. rewrite blen_app, blen_cons. lia.
Qed.

(** Two values with the same encoding are one. *)
Lemma encode_injective v1 v2 :
  canonical v1 -> canonical v2 -> blen (encode v1) <= 2 ^ 62 -> encode v1 = encode v2 -> v1 = v2.
Proof.
  intros H1 H2 Hl He. set (limits := mkMetadataLimits (2 ^ 62) 0 (2 ^ 62) 0 0).
  assert (Hb : bounded limits) by (split; apply N.le_refl).
  set (k := Nat.max (height v1) (height v2)).
  pose proof (count_tokens_le v1). pose proof (count_tokens_le v2).
  pose proof (node_complete limits Hb k v1 [] 0 0 H1) as E1. pose proof (node_complete limits Hb k v2 [] 0 0 H2) as E2.
  rewrite <- He in *. rewrite E1 in E2 by (cbn [ml_tokens ml_bytes limits]; lia).
  specialize (E2 ltac:(lia) ltac:(cbn [ml_tokens limits]; lia) ltac:(cbn [ml_bytes limits]; lia)).
  injection E2 as Hp _. by rewrite <- (value_of_place 0 v1), Hp, value_of_place.
Qed.

(** C0: the decoder accepts exactly the canonical encodings within the limits: it returns [n] for [data] if and only if
    the limits are valid, [data] is no longer than they allow, and [data] is the encoding of a value whose integers
    have 64 bits, whose keys increase strictly, whose nesting and number of tokens stay within the limits, and [n] is
    that value with the byte range of every node in [data]. *)
Theorem decode_exact data limits n :
  decode data limits = Ok n <->
  MetadataLimits_validate limits = Ok () /\ blen data <= ml_bytes limits /\
  exists v, canonical v /\ (height v <= S (N.to_nat (ml_depth limits)))%nat /\ count_tokens v <= ml_tokens limits /\
    data = encode v /\ n = place 0 v.
Proof.
  split; [apply decode_sound|]. intros (Hvalid & Hlen & v & Hc & Hh & Ht & -> & ->). by apply decode_complete.
Qed.
