(* ===== verification/Torrent.v ===== *)
(** * Torrents

    Model of the metainfo part of [crates/ariax-bt-metadata/src/metadata.rs]: the
    identities, the files of version 1 and version 2 torrents, the endpoints, and the
    operations that read a torrent or write a changed one.

    The [url] and [sha1] crates are parameters: [Urls] with the documented behaviour
    of its serialization in [UrlLaws], and [Sha1].  A [Vec] that a function extends
    through a mutable reference is passed and returned; an error drops it, as every
    caller of the source does. *)

From stdpp Require Import sorting.
From S2P Require Import Prelude Bytes Utf8 Paths Journal PayloadTypes MetadataExpansion Bencode.
From Stdlib Require Import Init.Byte Strings.Byte ZArith.
Open Scope list_scope.

(** The parts of [url::Url] the module reads and writes. *)
Class Urls := {
  Url : Set;
  url_parse : str -> option Url;
  url_to_string : Url -> str;
  url_scheme : Url -> str;
  url_username : Url -> str;
  url_password : Url -> option str;
  url_host_str : Url -> option str;
  url_path : Url -> str;
  url_query_pairs : Url -> list (str * str);
  url_fragment : Url -> option str;
  url_with_pairs : list (str * str) -> Url -> Url;
}.

(** The serialization of a parsed URL is printable ASCII and parses to the URL it came from; a URL whose query was
    replaced by pairs serializes to text that parses to it and has those pairs. *)
Class UrlLaws `{Urls} : Prop := {
  url_printable : forall s u, url_parse s = Some u -> Forall (fun b => 0x20 <= byte_val b <= 0x7E) (url_to_string u);
  url_reparse : forall s u, url_parse s = Some u -> url_parse (url_to_string u) = Some u;
  url_pairs : forall s u pairs, url_parse s = Some u ->
    url_parse (url_to_string (url_with_pairs pairs u)) = Some (url_with_pairs pairs u) /\
    url_query_pairs (url_with_pairs pairs u) = pairs;
}.

Class Sha1 := sha1 : bytes -> bytes.

Definition u64_saturating_mul (a b : N) : N := N.min (a * b) U64_MAX.

(** ** Identities *)

Record BtIdentity : Set := mkBtIdentity { bi_v1 : option str; bi_v2 : option str }.
#[global] Instance BtIdentity_eq_dec : EqDecision BtIdentity.
Proof. solve_decision. Defined.

Definition BtIdentity_default : BtIdentity := mkBtIdentity None None.

(** [hash.is_none_or(|hash| other == Some(hash))] *)
Definition agrees (hash other : option str) : bool :=
  match hash with None => true | Some hash => bool_decide (other = Some hash) end.
(** [hash.is_some_and(|hash| other == Some(hash))] *)
Definition shares (hash other : option str) : bool :=
  match hash with None => false | Some hash => bool_decide (other = Some hash) end.

Definition BtIdentity_matches (self discovered : BtIdentity) : bool :=
  (is_some (bi_v1 self) || is_some (bi_v2 self))
  && agrees (bi_v1 self) (bi_v1 discovered) && agrees (bi_v2 self) (bi_v2 discovered).
Definition BtIdentity_overlaps (self other : BtIdentity) : bool :=
  shares (bi_v1 self) (bi_v1 other) || shares (bi_v2 self) (bi_v2 other).

(** ** Files *)

Record MetadataFile : Set := mkMetadataFile {
  mf_index : N;
  mf_components : list str;
  mf_length : N;
  mf_offset : N;
  mf_padding : bool;
}.

Record TorrentMetadata : Set := mkTorrentMetadata {
  tm_identity : BtIdentity;
  tm_name : str;
  tm_files : list MetadataFile;
  tm_piece_length : N;
  tm_pieces : N;
  tm_total_length : N;
  tm_private : bool;
  tm_trackers : list str;
  tm_web_seeds : list str;
}.
#[global] Instance TorrentMetadata_eta : Settable TorrentMetadata := fun r =>
  mkTorrentMetadata (tm_identity r) (tm_name r) (tm_files r) (tm_piece_length r) (tm_pieces r)
    (tm_total_length r) (tm_private r) (tm_trackers r) (tm_web_seeds r).
#[global] Instance tm_trackers_setter : Setter tm_trackers.
Proof. derive_setter. Defined.
#[global] Instance tm_web_seeds_setter : Setter tm_web_seeds.
Proof. derive_setter. Defined.

Definition component (value : bytes) : result BtError str :=
  value ← ok_or (from_utf8 value) BtError.UnsafePath;
  if (blen value =? 0) || (255 <? blen value)
     || bool_decide (value = ascii_bytes ".") || bool_decide (value = ascii_bytes "..")
     || existsb is_separator value || existsb is_control (chars value)
  then Err BtError.UnsafePath
  else Ok value.

(** [option.map(f).transpose()] *)
Definition transpose {A B} (f : A -> result BtError B) (o : option A) : result BtError (option B) :=
  match o with None => Ok None | Some a => b ← f a; Ok (Some b) end.

Definition letter_p : byte := x70.

Definition attributes (node : Node) : result BtError bool :=
  attrs ← transpose Node_bytes (Node_get (ascii_bytes "attr") node);
  let attrs := default [] attrs in
  if bool_decide (letter_l ∈ attrs) || is_some (Node_get (ascii_bytes "symlink path") node)
  then Err BtError.Symlink
  else Ok (bool_decide (letter_p ∈ attrs)).

(** The files listed so far and the offset of the next. *)
Notation listing := (list MetadataFile * N)%type.

Definition push_file (components : list str) (length : N) (padding : bool) (limits : MetadataLimits)
    (st : listing) : result BtError listing :=
  let '(files, total) := st in
  if ml_files limits <=? blen files then Err BtError.MetadataLimit
  else if U32_MAX <? blen files then Err BtError.MetadataLimit
  else
    let files := files ++ [mkMetadataFile (blen files) components length total padding] in
    total ← ok_or (total ← u64_checked_add total length; if total <=? I64_MAX then Some total else None)
              BtError.MetadataLimit;
    Ok (files, total).

(** The padding up to the next piece. *)
Definition push_gap (piece_length : N) (limits : MetadataLimits) (st : listing) : result BtError listing :=
  let '(files, total) := st in
  if total mod piece_length =? 0 then Ok st
  else
    let gap := piece_length - total mod piece_length in
    push_file [ascii_bytes ".ariax-padding"; u64_to_string (blen files)] gap true limits st.

(** The leaf of a file tree. *)
Definition v2_leaf (leaf : Node) (entries : N) (path : list str) (piece_length : N) (limits : MetadataLimits)
    (st : listing) : result BtError listing :=
  if negb (entries =? 1) || (blen path <? 2) then Err BtError.InvalidMetadata
  else
    padding ← attributes leaf;
    length_node ← Node_required (ascii_bytes "length") leaf;
    length ← Node_integer length_node;
    short ← (if 0 <? length
             then root ← Node_required (ascii_bytes "pieces root") leaf;
                  root ← Node_bytes root;
                  Ok (negb (blen root =? 32))
             else Ok false);
    if (short : bool) then Err BtError.InvalidMetadata
    else
      st ← push_gap piece_length limits st;
      push_file path length padding limits st.

(** The children of a directory at [path], each visited with its name pushed. *)
Definition v2_children (visit : Node -> list str -> listing -> result BtError listing) (path : list str) :=
  fix children (entries : list (bytes * Node)) (st : listing) : result BtError listing :=
    match entries with
    | [] => Ok st
    | (name, child) :: entries =>
      part ← component name;
      st ← visit child (path ++ [part]) st;
      children entries st
    end.

Fixpoint v2_files (piece_length : N) (limits : MetadataLimits) (node : Node) (path : list str) (st : listing)
    {struct node} : result BtError listing :=
  if ml_depth limits <? blen path then Err BtError.MetadataLimit
  else
    match node with
    | mkNode _ _ (Dictionary entries) =>
      match Node_get [] node with
      | Some leaf => v2_leaf leaf (blen entries) path piece_length limits st
      | None =>
        if blen entries =? 0 then Err BtError.InvalidMetadata
        else v2_children (v2_files piece_length limits) path entries st
      end
    | _ => Err BtError.InvalidMetadata
    end.

(** A loop that threads its state through every element. *)
Fixpoint for_each {A S} (f : A -> S -> result BtError S) (l : list A) (s : S) : result BtError S :=
  match l with
  | [] => Ok s
  | a :: l => s ← f a s; for_each f l s
  end.

(** ** Endpoints *)

Definition ascii_lowercase (b : byte) : byte := if is_ascii_uppercase b then byte_of (byte_val b + 32) else b.
Definition to_ascii_lowercase (s : str) : str := ascii_lowercase <$> s.

Definition SECRET_KEYS : list str :=
  ascii_bytes <$> ["token"; "key"; "passkey"; "auth"; "password"; "secret"; "signature"; "access_token"]%string.

Section metadata.
Context {urls : Urls} {digests : Digests} {sha : Sha1}.

Definition endpoint (value : str) (tracker : bool) : result BtError str :=
  if (4096 <? blen value) || existsb is_control (chars value) then Err BtError.Destination
  else
    url ← ok_or (url_parse value) BtError.Destination;
    if negb (blen (url_username url) =? 0) || is_some (url_password url) then Err BtError.Credentials
    else if existsb (fun pair => bool_decide (to_ascii_lowercase pair.1 ∈ SECRET_KEYS)) (url_query_pairs url)
    then Err BtError.Credentials
    else if negb (bool_decide (url_scheme url = ascii_bytes "http") || bool_decide (url_scheme url = ascii_bytes "https")
                  || tracker && bool_decide (url_scheme url = ascii_bytes "udp"))
            || negb (is_some (url_host_str url)) || is_some (url_fragment url)
    then Err BtError.Destination
    else Ok (url_to_string url).

Definition validate_tracker (value : str) : result BtError str := endpoint value true.

(** ** The info dictionary *)

Definition power_of_two (n : N) : bool := (0 <? n) && (N.land n (n - 1) =? 0).

(** [info.get(first).or_else(|| info.get(second)).ok_or(InvalidMetadata)] *)
Definition get_either (first second : string) (node : Node) : result BtError Node :=
  ok_or (match Node_get (ascii_bytes first) node with
         | Some found => Some found
         | None => Node_get (ascii_bytes second) node
         end) BtError.InvalidMetadata.

(** An entry of [files]. *)
Definition v1_entry (name : str) (limits : MetadataLimits) (entry : Node) (st : listing) : result BtError listing :=
  padding ← attributes entry;
  components ← get_either "path.utf-8" "path" entry;
  components ← Node_list components;
  if (blen components =? 0) || (ml_depth limits <=? blen components) then Err BtError.InvalidMetadata
  else
    path ← for_each (fun part path => part ← Node_bytes part; part ← component part; Ok (path ++ [part]))
             components [name];
    length ← Node_required (ascii_bytes "length") entry;
    length ← Node_integer length;
    push_file path length padding limits st.

Definition v1_files (info : Node) (name : str) (limits : MetadataLimits) : result BtError listing :=
  match Node_get (ascii_bytes "files") info with
  | Some entries =>
    if is_some (Node_get (ascii_bytes "length") info) then Err BtError.InvalidMetadata
    else
      entries ← Node_list entries;
      for_each (v1_entry name limits) entries ([], 0)
  | None =>
    length ← Node_required (ascii_bytes "length") info;
    length ← Node_integer length;
    push_file [name] length false limits ([], 0)
  end.

(** A single file takes the name of the torrent. *)
Definition single_file (name : str) (files : list MetadataFile) : list MetadataFile :=
  match files with
  | [file] =>
    if bool_decide (mf_components file = [name; name])
    then [mkMetadataFile (mf_index file) [name] (mf_length file) (mf_offset file) (mf_padding file)]
    else files
  | _ => files
  end.

Definition tree_files (info : Node) (name : str) (piece_length : N) (limits : MetadataLimits) : result BtError listing :=
  tree ← Node_required (ascii_bytes "file tree") info;
  '(files, total) ← v2_files piece_length limits tree [name] ([], 0);
  push_gap piece_length limits (single_file name files, total).

(** The files that are no padding. *)
Definition real (files : list MetadataFile) : list (list str * N * N) :=
  (fun file => (mf_components file, mf_length file, mf_offset file)) <$> filter (fun file => mf_padding file = false) files.

(** [meta version] is 2 or absent. *)
Definition meta_version (info : Node) : result BtError bool :=
  version ← transpose Node_integer (Node_get (ascii_bytes "meta version") info);
  match version with
  | None => Ok false
  | Some version => if version =? 2 then Ok true else Err BtError.InvalidMetadata
  end.

(** The files of the versions the dictionary has. *)
Definition metadata_files (info : Node) (name : str) (piece_length : N) (v1 v2 : bool) (limits : MetadataLimits)
    : result BtError listing :=
  st ← (if v1 then v1_files info name limits else Ok ([], 0));
  if v2 then
    tree ← tree_files info name piece_length limits;
    if v1 then
      if bool_decide (real st.1 = real tree.1) then Ok st else Err BtError.IdentityMismatch
    else Ok tree
  else Ok st.

Definition info_bytes (info : Node) (data : bytes) : bytes := slice (nd_start info) (nd_end info - nd_start info) data.

Definition parse_metadata (info : Node) (data : bytes) (limits : MetadataLimits) : result BtError TorrentMetadata :=
  _ ← Node_dictionary info;
  _ ← attributes info;
  name ← get_either "name.utf-8" "name" info;
  name ← Node_bytes name;
  name ← component name;
  piece_length ← Node_required (ascii_bytes "piece length") info;
  piece_length ← Node_integer piece_length;
  if (piece_length =? 0) || (16 * 1024 * 1024 <? piece_length) then Err BtError.InvalidMetadata
  else
  v2 ← meta_version info;
  if v2 && ((piece_length <? 16384) || negb (power_of_two piece_length)) then Err BtError.InvalidMetadata
  else
  v1_hashes ← transpose Node_bytes (Node_get (ascii_bytes "pieces") info);
  if negb v2 && negb (is_some v1_hashes) then Err BtError.InvalidMetadata
  else
  '(files, total) ← metadata_files info name piece_length (is_some v1_hashes) v2 limits;
  if (blen files =? 0) || (total =? 0) then Err BtError.InvalidMetadata
  else
  let pieces := (total + piece_length - 1) / piece_length in
  if ml_pieces limits <? pieces then Err BtError.MetadataLimit
  else if match v1_hashes with
          | Some hashes => negb (blen hashes =? u64_saturating_mul pieces 20)
          | None => false
          end then Err BtError.InvalidMetadata
  else
  let raw := info_bytes info data in
  let identity := mkBtIdentity (if is_some v1_hashes then Some (hash_to_string (sha1 raw)) else None)
                    (if v2 then Some (hash_to_string (sha256 raw)) else None) in
  private ← transpose Node_integer (Node_get (ascii_bytes "private") info);
  let private := default 0 private in
  if 1 <? private then Err BtError.InvalidMetadata
  else Ok (mkTorrentMetadata identity name files piece_length pieces total (negb (private =? 0)) [] []).

Definition parse_info (data : bytes) (limits : MetadataLimits) : result BtError TorrentMetadata :=
  info ← decode data limits;
  parse_metadata info data limits.

(** ** The metainfo file *)

(** A tracker of [announce-list]. *)
Definition listed_tracker (value : Node) (trackers : list str) : result BtError (list str) :=
  if 64 <=? blen trackers then Err BtError.MetadataLimit
  else
    text ← Node_text value;
    url ← endpoint text true;
    Ok (if bool_decide (url ∈ trackers) then trackers else trackers ++ [url]).

Definition torrent_trackers (root : Node) : result BtError (list str) :=
  trackers ← match Node_get (ascii_bytes "announce") root with
             | Some value => text ← Node_text value; url ← endpoint text true; Ok [url]
             | None => Ok []
             end;
  match Node_get (ascii_bytes "announce-list") root with
  | Some tiers =>
    tiers ← Node_list tiers;
    for_each (fun tier trackers => values ← Node_list tier; for_each listed_tracker values trackers) tiers trackers
  | None => Ok trackers
  end.

(** A seed of a [url-list] that is a list. *)
Definition listed_seed (value : Node) (seeds : list str) : result BtError (list str) :=
  if 64 <=? blen seeds then Err BtError.MetadataLimit
  else text ← Node_text value; url ← endpoint text false; Ok (seeds ++ [url]).

Definition torrent_web_seeds (root : Node) : result BtError (list str) :=
  match Node_get (ascii_bytes "url-list") root with
  | None => Ok []
  | Some values =>
    match Node_text values with
    | Ok value => url ← endpoint value false; Ok [url]
    | Err _ => values ← Node_list values; for_each listed_seed values []
    end
  end.

Definition parse_torrent (data : bytes) (limits : MetadataLimits) : result BtError TorrentMetadata :=
  root ← decode data limits;
  if is_some (Node_get (ascii_bytes "httpseeds") root) then Err BtError.UnsupportedOption
  else
    info ← Node_required (ascii_bytes "info") root;
    metadata ← parse_metadata info data limits;
    trackers ← torrent_trackers root;
    web_seeds ← torrent_web_seeds root;
    Ok (metadata <| tm_trackers := trackers |> <| tm_web_seeds := web_seeds |>).

Definition info_section (data : bytes) (limits : MetadataLimits) : result BtError bytes :=
  root ← decode data limits;
  info ← Node_required (ascii_bytes "info") root;
  Ok (info_bytes info data).

(** ** Changed metainfo files *)

(** A byte string with its length. *)
Definition prefixed (s : bytes) : bytes := u64_to_string (blen s) ++ colon :: s.

Definition key_order (x y : bytes * bytes) : Prop := str_compare x.1 y.1 <> Gt.
#[global] Instance key_order_dec x y : Decision (key_order x y).
Proof. unfold key_order. solve_decision. Defined.
Definition sort_by_key (entries : list (bytes * bytes)) : list (bytes * bytes) := merge_sort key_order entries.

Definition write_dictionary (entries : list (bytes * bytes)) : bytes :=
  letter_d :: flat_map (fun entry => prefixed entry.1 ++ entry.2) (sort_by_key entries) ++ [letter_e].

(** The entries of the root but those of [dropped], each with its bytes. *)
Definition kept_entries (dropped : list string) (data : bytes) (entries : list (bytes * Node)) : list (bytes * bytes) :=
  (fun entry => (entry.1, info_bytes entry.2 data))
  <$> filter (fun entry => entry.1 ∉ ascii_bytes <$> dropped) entries.

Definition with_web_seeds (data : bytes) (seeds : list str) (limits : MetadataLimits) : result BtError bytes :=
  metadata ← parse_torrent data limits;
  if 64 <? u64_saturating_add (blen seeds) (blen (tm_web_seeds metadata)) then Err BtError.MetadataLimit
  else
    urls ← for_each (fun seed urls => url ← endpoint seed false; Ok (urls ++ [url])) seeds (tm_web_seeds metadata);
    let maximum := u64_saturating_add (u64_saturating_add (blen data) (sum_of (fun url => blen url + 16) urls)) 32 in
    if ml_bytes limits <? maximum then Err BtError.MetadataLimit
    else
      root ← decode data limits;
      entries ← Node_dictionary root;
      let list := letter_l :: flat_map prefixed urls ++ [letter_e] in
      Ok (write_dictionary (kept_entries ["url-list"%string] data entries ++ [(ascii_bytes "url-list", list)])).

Definition torrent_from_info (info : bytes) (limits : MetadataLimits) : result BtError bytes :=
  _ ← parse_info info limits;
  if ml_bytes limits <? u64_saturating_add (blen info) 8 then Err BtError.MetadataLimit
  else Ok (ascii_bytes "d4:info" ++ info ++ [letter_e]).

(** [retain], then the additions that are not there yet. *)
Definition excluded (exclude : list str) (url : str) : bool :=
  existsb (fun pattern => bool_decide (pattern = ascii_bytes "*") || bool_decide (pattern = url)) exclude.
Definition change_trackers (trackers add exclude : list str) : result BtError (list str) :=
  trackers ← for_each (fun url trackers =>
                         url ← endpoint url true;
                         Ok (if bool_decide (url ∈ trackers) then trackers else trackers ++ [url]))
               add (filter (fun url => excluded exclude url = false) trackers);
  if 64 <? blen trackers then Err BtError.MetadataLimit else Ok trackers.

Definition with_trackers (data : bytes) (add exclude : list str) (limits : MetadataLimits) : result BtError bytes :=
  metadata ← parse_torrent data limits;
  trackers ← change_trackers (tm_trackers metadata) add exclude;
  let maximum := u64_saturating_add (u64_saturating_add (blen data) (sum_of (fun url => blen url + 32) trackers)) 64 in
  if ml_bytes limits <? maximum then Err BtError.MetadataLimit
  else
    root ← decode data limits;
    entries ← Node_dictionary root;
    let list := letter_l :: flat_map (fun url => letter_l :: prefixed url ++ [letter_e]) trackers ++ [letter_e] in
    Ok (write_dictionary
          (kept_entries ["announce"; "announce-list"]%string data entries
           ++ (if blen trackers =? 0 then [] else [(ascii_bytes "announce-list", list)]))).
End metadata.
