(* ===== verification/TorrentExample.v ===== *)
(** * Example torrents

    Instances of the parameters of [Torrent] that compute, and a torrent of each
    kind. *)

From S2P Require Import Prelude Ids Bytes ConcreteDigests Utf8 Paths Journal PayloadTypes MetadataExpansion Bencode BencodeExact Torrent.
From Stdlib Require Import Init.Byte Strings.Byte ZArith.
Open Scope list_scope.

(** ** URLs that are their own serialization *)

Fixpoint before (sep : byte) (s : str) : str :=
  match s with [] => [] | b :: s => if b == sep then [] else b :: before sep s end.
Fixpoint after (sep : byte) (s : str) : str :=
  match s with [] => [] | b :: s => if b == sep then s else after sep s end.

Definition question : byte := x3f.
Definition equals : byte := x3d.
Definition ampersand : byte := x26.

Definition percent : byte := x25.

(** Percent-encoding of everything but letters and digits. *)
Definition form_byte (b : byte) : str := if is_ascii_alphanumeric b then [b] else percent :: hex_byte b.
Definition form_encode (s : str) : str := flat_map form_byte s.
Fixpoint form_decode (s : str) : str :=
  match s with
  | [] => []
  | c :: rest =>
    match rest with
    | a :: b :: rest' =>
      if c == percent
      then match u8_from_hex a b with Some n => byte_of n :: form_decode rest' | None => c :: form_decode rest end
      else c :: form_decode rest
    | _ => c :: form_decode rest
    end
  end.

(** Printable text with a scheme, no credentials and no fragment. *)
Definition plain_url (s : str) : bool :=
  forallb (fun b => Utf8.between 0x20 0x7E (byte_val b) && (b != x40) && (b != x23)) s
  && bool_decide (colon ∈ before question s).

Definition plain_pairs (s : str) : list (str * str) :=
  match after question s with
  | [] => []
  | query => (fun pair => (form_decode (before equals pair), form_decode (after equals pair)))
               <$> split (fun b => b == ampersand) query
  end.

Definition form_pair (pair : str * str) : str := form_encode pair.1 ++ equals :: form_encode pair.2.

Definition plain_urls : Urls := {|
  Url := str;
  url_parse s := if plain_url s then Some s else None;
  url_to_string s := s;
  url_scheme := before colon;
  url_username _ := [];
  url_password _ := None;
  url_host_str s :=
    let rest := after colon s in
    if bool_decide (take 2 rest = ascii_bytes "//") then Some (before slash (drop 2 rest)) else None;
  url_path s :=
    let rest := before question (after colon s) in
    if bool_decide (take 2 rest = ascii_bytes "//") then slash :: after slash (drop 2 rest) else rest;
  url_query_pairs := plain_pairs;
  url_fragment _ := None;
  url_with_pairs pairs s := before question s ++ question :: join [ampersand] (form_pair <$> pairs);
|}.

(** *** They satisfy the laws *)

Definition form_char (b : byte) : bool := is_ascii_alphanumeric b || (b == percent).

Lemma form_encode_chars s : Forall (fun b => form_char b = true) (form_encode s).
Proof.
  induction s as [|b s IH]; cbn [form_encode flat_map]; [apply Forall_nil_2|]. apply Forall_app. split; [|exact IH].
  unfold form_byte. destruct (is_ascii_alphanumeric b) eqn:Hb; [by rewrite Forall_singleton; unfold form_char; rewrite Hb|].
  pose proof (byte_val_lt b). unfold hex_byte. rewrite !Forall_cons. split_and!; [done| | |apply Forall_nil_2];
    unfold form_char; rewrite word_digit; try done.
  - apply N.Div0.div_lt_upper_bound. lia.
  - by apply N.mod_lt.
Qed.

Lemma form_decode_plain c rest : c <> percent -> form_decode (c :: rest) = c :: form_decode rest.
Proof. intros Hc. destruct rest as [|a [|b rest]]; try done. cbn [form_decode]. by rewrite bool_decide_eq_false_2. Qed.

Lemma form_decode_escape b rest : form_decode (percent :: hex_byte b ++ rest) = b :: form_decode rest.
Proof. cbn [form_decode hex_byte app]. by rewrite bool_decide_eq_true_2, hex_byte_parse, byte_of_val. Qed.

Lemma form_roundtrip s : form_decode (form_encode s) = s.
Proof.
  induction s as [|b s IH]; [done|]. change (form_encode (b :: s)) with (form_byte b ++ form_encode s). unfold form_byte.
  destruct (is_ascii_alphanumeric b) eqn:Hb.
  - cbn [app]. rewrite form_decode_plain, IH; [done|]. by intros ->.
  - cbn [app]. by rewrite form_decode_escape, IH.
Qed.

Lemma before_here sep x y : Forall (fun b => b <> sep) x -> before sep (x ++ sep :: y) = x.
Proof.
  induction 1 as [|b x Hb _ IH]; cbn; [by rewrite bool_decide_eq_true_2|]. by rewrite bool_decide_eq_false_2, IH.
Qed.
Lemma after_here sep x y : Forall (fun b => b <> sep) x -> after sep (x ++ sep :: y) = y.
Proof.
  induction 1 as [|b x Hb _ IH]; cbn; [by rewrite bool_decide_eq_true_2|]. by rewrite bool_decide_eq_false_2, IH.
Qed.
Lemma before_clean sep s : Forall (fun b => b <> sep) (before sep s).
Proof. induction s as [|b s IH]; cbn; [apply Forall_nil_2|]. case_bool_decide; [apply Forall_nil_2|by constructor]. Qed.

Lemma form_encode_without c s : form_char c = false -> Forall (fun b => b <> c) (form_encode s).
Proof. intros Hc. eapply Forall_impl; [apply form_encode_chars|]. intros b Hb ->. cbv beta in Hb. congruence. Qed.

Lemma form_pair_reads pair : (form_decode (before equals (form_pair pair)), form_decode (after equals (form_pair pair))) = pair.
Proof.
  unfold form_pair. rewrite before_here, after_here by by apply form_encode_without. rewrite !form_roundtrip. by destruct pair.
Qed.

Lemma plain_pairs_query base pairs :
  plain_pairs (before question base ++ question :: join [ampersand] (form_pair <$> pairs)) = pairs.
Proof.
  unfold plain_pairs. rewrite after_here by apply before_clean. destruct pairs as [|pair pairs]; [done|].
  assert (Hne : join [ampersand] (form_pair <$> (pair :: pairs)) <> []).
  { rewrite fmap_cons. destruct (form_pair <$> pairs); unfold form_pair; cbn [join]; by destruct (form_encode pair.1). }
  destruct (join _ _) as [|b q] eqn:Hq; [done|]. rewrite <- Hq. clear Hne Hq. rewrite split_join; [|by vm_compute|done|].
  - rewrite <- list_fmap_compose. rewrite <- (list_fmap_id (pair :: pairs)) at 2. apply list_fmap_ext. intros i x _.
    apply form_pair_reads.
  - apply Forall_fmap, Forall_forall. intros x _. unfold compose, form_pair. rewrite Forall_app, Forall_cons.
    split_and!; [|done|]; (eapply Forall_impl; [by apply (form_encode_without ampersand)|]; intros c Hc; by apply bool_decide_eq_false_2).
Qed.

(** A character of a plain URL. *)
Definition plain_char (b : byte) : bool := Utf8.between 0x20 0x7E (byte_val b) && (b != x40) && (b != x23).

Lemma form_char_plain b : form_char b = true -> plain_char b = true.
Proof.
  intros H. pose proof (forall_below 256 (fun n => negb (form_char (byte_of n)) || plain_char (byte_of n)) ltac:(by vm_compute)
    (byte_val b) (byte_val_lt b)) as Hall. cbv beta in Hall. rewrite byte_of_val, H in Hall. exact Hall.
Qed.

Lemma form_pair_plain pair : Forall (fun b => plain_char b = true) (form_pair pair).
Proof.
  unfold form_pair. rewrite Forall_app, Forall_cons.
  split_and!; [|by vm_compute|]; (eapply Forall_impl; [apply form_encode_chars|]; apply form_char_plain).
Qed.

Lemma join_plain l : Forall (Forall (fun b => plain_char b = true)) l -> Forall (fun b => plain_char b = true) (join [ampersand] l).
Proof.
  induction 1 as [|s l Hs Hl IH]; [apply Forall_nil_2|]. destruct l as [|s' l]; [done|].
  change (join [ampersand] (s :: s' :: l)) with (s ++ ampersand :: join [ampersand] (s' :: l)).
  rewrite Forall_app, Forall_cons. by split_and!.
Qed.

Lemma before_plain s : Forall (fun b => plain_char b = true) s -> Forall (fun b => plain_char b = true) (before question s).
Proof. induction 1; cbn; [apply Forall_nil_2|]. case_bool_decide; [apply Forall_nil_2|by constructor]. Qed.

Lemma plain_url_iff s :
  plain_url s = true <-> Forall (fun b => plain_char b = true) s /\ colon ∈ before question s.
Proof.
  unfold plain_url. rewrite andb_true_iff, bool_decide_eq_true, forallb_forall, Forall_forall.
  split; intros [Hs Hc]; (split; [|done]); intros b Hb; apply Hs; by apply list_elem_of_In.
Qed.

Lemma plain_url_laws : @UrlLaws plain_urls.
Proof.
  split; cbn; intros s u; [| |intros pairs]; destruct (plain_url s) eqn:Hs; try done; intros [= <-];
    pose proof Hs as [Hp Hc]%plain_url_iff.
  - eapply Forall_impl; [exact Hp|]. intros b Hb. cbv beta in Hb. unfold plain_char, Utf8.between in Hb.
    rewrite !andb_true_iff, !N.leb_le in Hb. lia.
  - by rewrite Hs.
  - split; [|apply plain_pairs_query].
    rewrite (proj2 (plain_url_iff _)); [done|]. rewrite before_here by apply before_clean. split; [|done].
    rewrite Forall_app, Forall_cons. split_and!; [by apply before_plain|done|]. apply join_plain, Forall_fmap, Forall_forall.
    intros pair _. apply form_pair_plain.
Qed.

(** Twenty bytes of the other digest. *)
Definition short_sha1 : Sha1 := fun b => take 20 (@sha256 concrete_digests b).

(** ** Torrents *)

Definition text (s : string) : bvalue := BBytes (ascii_bytes s).
Definition dictionary (entries : list (string * bvalue)) : bvalue :=
  BDictionary ((fun entry => (ascii_bytes entry.1, entry.2)) <$> entries).
Definition hashes (n : nat) : bvalue := BBytes (replicate n x2a).

(** Two files of version 1. *)
Definition v1_info : bvalue := dictionary [
  ("files", BList [
     dictionary [("length", BInteger 20000); ("path", BList [text "a"; text "b.bin"])];
     dictionary [("length", BInteger 5); ("path", BList [text "c.txt"])]]);
  ("name", text "album");
  ("piece length", BInteger 16384);
  ("pieces", hashes 40)]%string.

(** A file tree of version 2: the first file ends within a piece. *)
Definition v2_info : bvalue := dictionary [
  ("file tree", dictionary [
     ("a.bin", dictionary [("", dictionary [("length", BInteger 20000); ("pieces root", hashes 32)])]);
     ("b", dictionary [("c.txt", dictionary [("", dictionary [("length", BInteger 5); ("pieces root", hashes 32)])])])]);
  ("meta version", BInteger 2);
  ("name", text "album");
  ("piece length", BInteger 16384);
  ("private", BInteger 1)]%string.

Definition torrent_of (info : bvalue) : bytes := encode (dictionary [
  ("announce", text "http://tracker.example/a");
  ("announce-list", BList [BList [text "http://tracker.example/a"; text "udp://other.example:80"]]);
  ("info", info);
  ("url-list", text "https://seed.example/")]%string).

Definition parse_example (data : bytes) : result BtError TorrentMetadata :=
  @parse_torrent plain_urls concrete_digests short_sha1 data MetadataLimits_default.
