(* ===== verification/TorrentFiles.v ===== *)
(** * The files of a torrent

    What [parse_metadata] guarantees of the files it returns: they tile the payload
    without gap or overlap, their paths name nothing outside the torrent's root, the
    piece count covers the payload, and the files of a version 2 or hybrid torrent
    start at piece boundaries. *)

From S2P Require Import Prelude Bytes ConcreteDigests Utf8 Paths Journal PayloadTypes MetadataExpansion Bencode BencodeExact Torrent TorrentExample.
From Stdlib Require Import Init.Byte Strings.Byte ZArith.
Open Scope list_scope.

(** ** Statements *)

(** A name that is one level of a path on every platform's separators. *)
Record part_safe (c : str) : Prop := {
  ps_utf8 : is_utf8 c = true;
  ps_len : 0 < blen c <= 255;
  ps_dot : c <> ascii_bytes ".";
  ps_dotdot : c <> ascii_bytes "..";
  ps_separators : Forall (fun b => is_separator b = false) c;
  ps_control : Forall (fun ch => is_control ch = false) (chars c);
}.

(** Files numbered from [index] that follow each other from [start]. *)
Fixpoint laid_out (index start : N) (files : list MetadataFile) : Prop :=
  match files with
  | [] => True
  | file :: files =>
    mf_index file = index /\ mf_offset file = start /\ laid_out (index + 1) (start + mf_length file) files
  end.

Definition path_safe (file : MetadataFile) : Prop := mf_components file <> [] /\ Forall part_safe (mf_components file).

(** The files that are no padding start at a piece boundary. *)
Definition aligned (piece_length : N) (files : list MetadataFile) : Prop :=
  Forall (fun entry => entry.2 mod piece_length = 0) (real files).

Record listing_wf (limits : MetadataLimits) (st : listing) : Prop := {
  lw_laid_out : laid_out 0 0 st.1;
  lw_total : st.2 = sum_of mf_length st.1;
  lw_max : st.2 <= I64_MAX;
  lw_files : blen st.1 <= ml_files limits;
  lw_paths : Forall path_safe st.1;
}.

Record metadata_wf (limits : MetadataLimits) (m : TorrentMetadata) : Prop := {
  mw_name : part_safe (tm_name m);
  mw_listing : listing_wf limits (tm_files m, tm_total_length m);
  mw_total : 0 < tm_total_length m;
  mw_piece_length : 0 < tm_piece_length m <= 16 * 1024 * 1024;
  mw_pieces : tm_pieces m <= ml_pieces limits;
  mw_covered : (tm_pieces m - 1) * tm_piece_length m < tm_total_length m <= tm_pieces m * tm_piece_length m;
  mw_identity : is_some (bi_v1 (tm_identity m)) || is_some (bi_v2 (tm_identity m)) = true;
  mw_aligned : is_some (bi_v2 (tm_identity m)) = true -> aligned (tm_piece_length m) (tm_files m);
}.

(** ** Names *)

Lemma existsb_false {A} (f : A -> bool) l : existsb f l = false <-> Forall (fun x => f x = false) l.
Proof. induction l as [|x l IH]; cbn; [by split|]. by rewrite Forall_cons, orb_false_iff, IH. Qed.

Lemma component_safe_part v c : component v = Ok c -> c = v /\ part_safe c.
Proof.
  unfold component. intros (w & Hw & H)%bind_Ok. apply ok_or_Ok, from_utf8_Some in Hw as [-> Hu].
  destruct (_ || _) eqn:Hg; [done|]. injection H as <-. split; [done|].
  repeat (apply orb_false_iff in Hg as [Hg ?]).
  repeat match goal with
  | H : bool_decide _ = false |- _ => apply bool_decide_eq_false in H
  | H : existsb _ _ = false |- _ => apply existsb_false in H
  | H : (_ =? _) = false |- _ => apply N.eqb_neq in H
  | H : (_ <? _) = false |- _ => apply N.ltb_ge in H
  end.
  constructor; [done|lia|done..].
Qed.

(** ASCII text is its own code points. *)
Lemma ascii_chars s : Forall (fun b => byte_val b < 128) s -> utf8_chars s = Some (byte_val <$> s).
Proof.
  induction 1 as [|b s Hb _ IH]; [done|]. cbn. rewrite IH. rewrite (proj2 (N.ltb_lt _ _) Hb). done.
Qed.

Lemma word_part_safe s : word s -> 0 < blen s <= 255 -> part_safe s.
Proof.
  intros Hw Hl.
  assert (Hb : Forall (fun b => Utf8.between 48 122 (byte_val b) = true) s).
  { eapply Forall_impl; [exact Hw|]. intros b Hb. cbv beta in *.
    unfold is_ascii_alphanumeric, is_ascii_alphabetic, is_ascii_lowercase, is_ascii_uppercase, is_ascii_digit, Utf8.between in *.
    rewrite !orb_true_iff, !andb_true_iff, !N.leb_le in *. lia. }
  assert (Hc : utf8_chars s = Some (byte_val <$> s)).
  { apply ascii_chars. eapply Forall_impl; [exact Hb|]. unfold Utf8.between. intros b. rewrite andb_true_iff, !N.leb_le. lia. }
  constructor; [unfold is_utf8; by rewrite Hc|done| | | |].
  - intros ->. apply Forall_cons in Hb as [Hb _]. by vm_compute in Hb.
  - intros ->. apply Forall_cons in Hb as [Hb _]. by vm_compute in Hb.
  - eapply Forall_impl; [exact Hw|]. intros b Hb'. unfold is_separator. cbv beta in Hb'.
    apply orb_false_iff; split; apply bool_decide_eq_false; intros ->; by vm_compute in Hb'.
  - unfold chars. rewrite Hc. cbn. apply Forall_fmap. eapply Forall_impl; [exact Hb|].
    intros b Hb'. unfold compose, is_control, Utf8.between in *.
    rewrite andb_true_iff, !N.leb_le in Hb'. rewrite orb_false_iff, andb_false_iff, !N.leb_gt. lia.
Qed.

Lemma number_safe n : part_safe (u64_to_string n).
Proof.
  apply word_part_safe; [apply word_decimal|]. unfold u64_to_string, blen. rewrite length_fmap.
  pose proof (decimal_digits_length 20 n). pose proof (decimal_digits_nonempty 19 n).
  destruct (decimal_digits 20 n); cbn in *; [done|lia].
Qed.

Lemma padding_safe : part_safe (ascii_bytes ".ariax-padding").
Proof.
  constructor; [by vm_compute|by vm_compute|done|done|by repeat constructor|].
  by repeat (constructor; [by vm_compute|]).
Qed.

(** ** The listing *)

Lemma laid_out_snoc i s files file :
  laid_out i s files -> mf_index file = i + blen files -> mf_offset file = s + sum_of mf_length files ->
  laid_out i s (files ++ [file]).
Proof.
  revert i s. induction files as [|f files IH]; intros i s Hl Hi Ho.
  - rewrite blen_nil in Hi. change (sum_of mf_length []) with 0 in Ho. cbn [app laid_out]. split_and!; [lia|lia|done].
  - destruct Hl as (? & ? & Hl). rewrite blen_cons in Hi. rewrite sum_of_cons in Ho. cbn.
    split_and!; [done|done|]. apply IH; [done|lia|lia].
Qed.

Lemma listing_wf_nil limits : listing_wf limits ([], 0).
Proof. constructor; [done|done|by vm_compute|apply N.le_0_l|apply Forall_nil_2]. Qed.

Lemma push_file_spec limits components length padding files total st' :
  push_file components length padding limits (files, total) = Ok st' ->
  st' = (files ++ [mkMetadataFile (blen files) components length total padding], total + length) /\
  blen files < ml_files limits /\ total + length <= I64_MAX.
Proof.
  unfold push_file. destruct (N.leb_spec (ml_files limits) (blen files)); [done|]. destruct (_ <? _); [done|].
  intros (t & Ht & [= <-])%bind_Ok. apply ok_or_Ok in Ht.
  destruct (u64_checked_add total length) as [u|] eqn:Hu; [|done]. apply u64_checked_add_Some in Hu as [-> _].
  cbn in Ht. destruct (N.leb_spec (total + length) I64_MAX); [|done]. by injection Ht as <-.
Qed.

Lemma push_file_wf limits components length padding st st' :
  components <> [] -> Forall part_safe components -> listing_wf limits st ->
  push_file components length padding limits st = Ok st' -> listing_wf limits st'.
Proof.
  destruct st as [files total]. intros Hne Hs [Hl Ht Hm Hf Hp] H. cbn [fst snd] in *.
  apply push_file_spec in H as (-> & Hlt & Hle). constructor; cbn [fst snd].
  - apply laid_out_snoc; [done|done|by rewrite <- Ht].
  - rewrite sum_of_app, sum_of_cons. change (sum_of mf_length []) with 0. cbn [mf_length]. lia.
  - done.
  - rewrite blen_app, blen_cons, blen_nil. lia.
  - apply Forall_app. by repeat constructor.
Qed.

Lemma real_app files files' : real (files ++ files') = real files ++ real files'.
Proof. unfold real. by rewrite filter_app, fmap_app. Qed.

Lemma gap_fills total piece_length :
  0 < piece_length -> total mod piece_length <> 0 -> (total + (piece_length - total mod piece_length)) mod piece_length = 0.
Proof.
  intros Hp Hm. pose proof (N.mod_lt total piece_length ltac:(lia)).
  replace (total + _) with (piece_length * (total / piece_length + 1)).
  - rewrite N.mul_comm. apply N.Div0.mod_mul.
  - rewrite N.mul_add_distr_l, N.mul_1_r. pose proof (N.Div0.div_mod total piece_length). lia.
Qed.

Lemma push_gap_wf limits piece_length st st' :
  0 < piece_length -> listing_wf limits st -> push_gap piece_length limits st = Ok st' ->
  listing_wf limits st' /\ st'.2 mod piece_length = 0 /\ real st'.1 = real st.1.
Proof.
  destruct st as [files total]. intros Hp Hwf. unfold push_gap. destruct (N.eqb_spec (total mod piece_length) 0) as [He|Hne].
  - intros [= <-]. done.
  - intros H. split.
    + eapply push_file_wf; [..|exact H]; [done| |done].
      rewrite Forall_cons, Forall_singleton. split; [apply padding_safe|apply number_safe].
    + apply push_file_spec in H as (-> & _). cbn [fst snd]. split; [by apply gap_fills|].
      rewrite real_app. apply app_nil_r.
Qed.

(** ** The file tree *)

(** The induction over a node and everything below it. *)
Section node_ind.
Context (P : Node -> Prop).
Hypothesis HInteger : forall s e z, P (mkNode s e (Integer z)).
Hypothesis HBytes : forall s e b, P (mkNode s e (Bytes b)).
Hypothesis HList : forall s e l, Forall P l -> P (mkNode s e (List l)).
Hypothesis HDictionary : forall s e l, Forall (fun kv => P kv.2) l -> P (mkNode s e (Dictionary l)).
Fixpoint node_induction (n : Node) : P n :=
  match n with
  | mkNode s e (Integer z) => HInteger s e z
  | mkNode s e (Bytes b) => HBytes s e b
  | mkNode s e (List l) => HList s e l ((fix go l : Forall P l :=
      match l with [] => List.Forall_nil _ | v :: l => List.Forall_cons _ v l (node_induction v) (go l) end) l)
  | mkNode s e (Dictionary l) => HDictionary s e l ((fix go l : Forall (fun kv => P kv.2) l :=
      match l with
      | [] => List.Forall_nil _
      | kv :: l => List.Forall_cons _ kv l (node_induction kv.2) (go l)
      end) l)
  end.
End node_ind.

Section tree.
Context (limits : MetadataLimits) (piece_length : N).
Hypothesis piece_pos : 0 < piece_length.

Definition tree_wf (st : listing) : Prop := listing_wf limits st /\ aligned piece_length st.1.

Lemma push_real_aligned path length padding st st' :
  path <> [] -> Forall part_safe path -> tree_wf st -> st.2 mod piece_length = 0 ->
  push_file path length padding limits st = Ok st' -> tree_wf st'.
Proof.
  intros Hne Hs [Hwf Ha] Hm H. split; [by eapply push_file_wf|]. destruct st as [files total].
  apply push_file_spec in H as (-> & _). unfold aligned in *. cbn [fst snd] in *. rewrite real_app, Forall_app.
  split; [done|]. unfold real. rewrite filter_cons. case_decide; cbn; repeat constructor; done.
Qed.

Lemma v2_leaf_wf leaf n path st st' :
  Forall part_safe path -> tree_wf st -> v2_leaf leaf n path piece_length limits st = Ok st' -> tree_wf st'.
Proof.
  intros Hs [Hwf Ha]. unfold v2_leaf. destruct (_ || _) eqn:Hg; [done|].
  apply orb_false_iff in Hg as [_ Hp%N.ltb_ge].
  intros (pad & _ & H)%bind_Ok. apply bind_Ok in H as (ln & _ & H). apply bind_Ok in H as (len & _ & H).
  apply bind_Ok in H as (short & _ & H). destruct short; [done|]. apply bind_Ok in H as (st1 & Hg & H).
  apply push_gap_wf in Hg as (Hwf1 & Hm & Hr); [|done|done].
  eapply push_real_aligned; [..|exact H]; [|done| |done].
  - intros ->. rewrite blen_nil in Hp. lia.
  - split; [done|]. unfold aligned. by rewrite Hr.
Qed.

Lemma v2_files_wf node path st st' :
  Forall part_safe path -> tree_wf st -> v2_files piece_length limits node path st = Ok st' -> tree_wf st'.
Proof.
  revert path st st'. induction node as [s e z|s e b|s e l IH|s e l IH] using node_induction; intros path st st' Hs Hst;
    [cbn [v2_files]; by destruct (_ <? _)..|].
  cbn [v2_files]. destruct (_ <? _); [done|]. destruct (Node_get _ _); [by apply v2_leaf_wf|].
  destruct (_ =? _); [done|].
  revert st Hst. induction IH as [|[name child] entries Hchild _ IH]; intros st Hst; cbn [v2_children]; [by intros [= <-]|].
  intros (part & Hpart & H)%bind_Ok. apply bind_Ok in H as (st1 & H1 & H). apply component_safe_part in Hpart as [_ Hpart].
  apply (IH st1); [|done]. eapply Hchild; [|exact Hst|exact H1]. by rewrite Forall_app, Forall_singleton.
Qed.
End tree.

(** ** The files of a dictionary *)

Lemma for_each_inv {A S} (P : S -> Prop) (f : A -> S -> result BtError S) l s s' :
  (forall a s s', P s -> f a s = Ok s' -> P s') -> P s -> for_each f l s = Ok s' -> P s'.
Proof.
  intros Hf. revert s. induction l as [|a l IH]; intros s Hs; cbn [for_each]; [by intros [= <-]|].
  intros (s1 & H1 & H)%bind_Ok. by eapply IH, H; eapply Hf.
Qed.

Section metadata.
Context {urls : Urls} {digests : Digests} {sha : Sha1} (limits : MetadataLimits).

Lemma v1_entry_wf name entry st st' :
  part_safe name -> listing_wf limits st -> v1_entry name limits entry st = Ok st' -> listing_wf limits st'.
Proof.
  intros Hname Hwf. unfold v1_entry. intros (pad & _ & H)%bind_Ok. apply bind_Ok in H as (parts & _ & H).
  apply bind_Ok in H as (list & _ & H). destruct (_ || _); [done|]. apply bind_Ok in H as (path & Hpath & H).
  apply bind_Ok in H as (ln & _ & H). apply bind_Ok in H as (len & _ & H).
  apply (for_each_inv (fun path => path <> [] /\ Forall part_safe path)) in Hpath as [Hne Hs].
  - by eapply push_file_wf.
  - intros part p p' [_ Hp] Hpart. apply bind_Ok in Hpart as (b & _ & Hpart). apply bind_Ok in Hpart as (c & Hc & [= <-]).
    apply component_safe_part in Hc as [_ Hc]. rewrite Forall_app, Forall_singleton. split; [by destruct p|done].
  - by rewrite Forall_singleton.
Qed.

Lemma v1_files_wf info name st : part_safe name -> v1_files info name limits = Ok st -> listing_wf limits st.
Proof.
  intros Hname. unfold v1_files. destruct (Node_get _ _) as [entries|].
  - destruct (is_some _); [done|]. intros (l & _ & H)%bind_Ok. eapply for_each_inv, H; [|apply listing_wf_nil].
    intros entry s s' Hs. by apply v1_entry_wf.
  - intros (ln & _ & H)%bind_Ok. apply bind_Ok in H as (len & _ & H).
    eapply push_file_wf, H; [done| |apply listing_wf_nil]. by rewrite Forall_singleton.
Qed.

Lemma single_file_wf piece_length name st :
  part_safe name -> tree_wf limits piece_length st -> tree_wf limits piece_length (single_file name st.1, st.2).
Proof.
  intros Hname [[Hl Ht Hm Hf Hp] Ha]. destruct st as [[|f [|g files]] total]; try done. cbn [fst snd single_file] in *.
  case_bool_decide; [|done]. split.
  - constructor; cbn [fst snd]; [done|done|done|done|]. rewrite Forall_singleton. split; [done|].
    cbn [mf_components]. by rewrite Forall_singleton.
  - unfold aligned, real in *. cbn [fst] in *. rewrite filter_cons in *.
    cbn [mf_padding] in *. case_decide; [|done]. cbn in *. by rewrite Forall_singleton in *.
Qed.

Lemma tree_files_wf info name piece_length st :
  0 < piece_length -> part_safe name -> tree_files info name piece_length limits = Ok st -> tree_wf limits piece_length st.
Proof.
  intros Hp Hname. unfold tree_files. intros (tree & _ & H)%bind_Ok. apply bind_Ok in H as ([files total] & Ht & H).
  apply v2_files_wf in Ht; [|done|by rewrite Forall_singleton|].
  - apply (single_file_wf piece_length name) in Ht as [Hwf Ha]; [|done].
    apply push_gap_wf in H as (Hwf' & _ & Hr); [|done|done]. split; [done|]. unfold aligned. by rewrite Hr.
  - split; [apply listing_wf_nil|]. apply Forall_nil_2.
Qed.

Lemma metadata_files_wf info name piece_length v1 v2 st :
  0 < piece_length -> part_safe name -> metadata_files info name piece_length v1 v2 limits = Ok st ->
  listing_wf limits st /\ (v2 = true -> aligned piece_length st.1).
Proof.
  intros Hp Hname. unfold metadata_files. intros (st1 & H1 & H)%bind_Ok.
  assert (Hwf : listing_wf limits st1).
  { destruct v1; [by eapply v1_files_wf|]. injection H1 as <-. apply listing_wf_nil. }
  destruct v2; [|by injection H as <-]. apply bind_Ok in H as (tree & Htree & H).
  apply tree_files_wf in Htree as [Htwf Hta]; [|done|done]. destruct v1; [|by injection H as <-].
  case_bool_decide as Hr; [|done]. injection H as <-. split; [done|]. intros _. unfold aligned. by rewrite Hr.
Qed.

Lemma div_ceil_covers total piece_length :
  0 < total -> 0 < piece_length ->
  let pieces := (total + piece_length - 1) / piece_length in (pieces - 1) * piece_length < total <= pieces * piece_length.
Proof.
  intros Ht Hp pieces. pose proof (N.Div0.div_mod (total + piece_length - 1) piece_length) as Hd.
  pose proof (N.mod_lt (total + piece_length - 1) piece_length ltac:(lia)) as Hm. fold pieces in Hd.
  rewrite N.mul_sub_distr_r, N.mul_1_l, (N.mul_comm pieces).
  revert Hd Hm. generalize ((total + piece_length - 1) mod piece_length), (piece_length * pieces). lia.
Qed.

Lemma parse_metadata_wf info data m : parse_metadata info data limits = Ok m -> metadata_wf limits m.
Proof.
  unfold parse_metadata. intros (d & _ & H)%bind_Ok. apply bind_Ok in H as (a & _ & H).
  apply bind_Ok in H as (nn & _ & H). apply bind_Ok in H as (nb & _ & H). apply bind_Ok in H as (name & Hname & H).
  apply component_safe_part in Hname as [_ Hname].
  apply bind_Ok in H as (pn & _ & H). apply bind_Ok in H as (pl & _ & H).
  destruct (_ || _) eqn:Hpl; [done|]. apply orb_false_iff in Hpl as [Hpl1%N.eqb_neq Hpl2%N.ltb_ge].
  apply bind_Ok in H as (v2 & _ & H). destruct (v2 && _); [done|]. apply bind_Ok in H as (v1 & _ & H).
  destruct (negb v2 && _) eqn:Hv; [done|]. apply bind_Ok in H as ([files total] & Hfiles & H).
  apply metadata_files_wf in Hfiles as [Hwf Ha]; [|lia|done].
  destruct (_ || _) eqn:Hne; [done|]. apply orb_false_iff in Hne as [_ Htotal%N.eqb_neq].
  destruct (N.ltb_spec (ml_pieces limits) ((total + pl - 1) / pl)); [done|]. match type of H with (if ?b then _ else _) = _ => destruct b; [done|] end.
  apply bind_Ok in H as (private & _ & H). destruct (1 <? _); [done|]. injection H as <-.
  constructor; cbn [tm_name tm_files tm_total_length tm_piece_length tm_pieces tm_identity bi_v1 bi_v2]; try done.
  - lia.
  - lia.
  - apply div_ceil_covers; lia.
  - by destruct v1, v2.
  - intros Hv2. apply Ha. by destruct v2.
Qed.

Lemma metadata_wf_endpoints m trackers seeds :
  metadata_wf limits m -> metadata_wf limits (m <| tm_trackers := trackers |> <| tm_web_seeds := seeds |>).
Proof. by destruct m; intros []; constructor. Qed.

(** C0: a torrent the parser accepts has files that are numbered from 0 and follow each other from offset 0 up to its
    total length, which is positive and at most [i64::MAX]; every path is a non-empty list of names that are valid
    UTF-8, 1 to 255 bytes long, neither "." nor "..", without separators and control characters; the number of pieces
    is the least that covers the total length; file and piece counts are within the limits; and in a version 2 or
    hybrid torrent every file that is no padding starts at a piece boundary. *)
Theorem torrent_files_tile data m : parse_torrent data limits = Ok m -> metadata_wf limits m.
Proof.
  unfold parse_torrent. intros (root & _ & H)%bind_Ok. destruct (is_some _); [done|].
  apply bind_Ok in H as (info & _ & H). apply bind_Ok in H as (m0 & Hm & H).
  apply bind_Ok in H as (trackers & _ & H). apply bind_Ok in H as (seeds & _ & H). injection H as <-.
  by eapply metadata_wf_endpoints, parse_metadata_wf.
Qed.
End metadata.

Definition parsed (data : bytes) : TorrentMetadata :=
  match parse_example data with
  | Ok m => m
  | Err _ => mkTorrentMetadata BtIdentity_default [] [] 0 0 0 false [] []
  end.

Lemma torrent_files_tile_witness :
  aligned 16384 (tm_files (parsed (torrent_of v2_info))) /\ length (tm_files (parsed (torrent_of v2_info))) = 4%nat /\
  metadata_wf MetadataLimits_default (parsed (torrent_of v1_info)).
Proof.
  split; [|split; [by vm_compute|]].
  - refine (mw_aligned _ _ (@torrent_files_tile plain_urls concrete_digests short_sha1 MetadataLimits_default (torrent_of v2_info) (parsed (torrent_of v2_info)) _) _);
      vm_compute; reflexivity.
  - refine (@torrent_files_tile plain_urls concrete_digests short_sha1 MetadataLimits_default (torrent_of v1_info) _ _). vm_compute. reflexivity.
Defined.
