(* ===== verification/TorrentIdentity.v ===== *)
(** * The identity of a torrent

    Everything the parsers read of a node but its byte range is its value, so nodes
    of one value are interchangeable wherever they lie.  The metadata and the identity
    of a torrent are therefore functions of the bytes of its info dictionary. *)

From S2P Require Import Prelude Bytes ConcreteDigests Utf8 Paths Journal PayloadTypes MetadataExpansion Bencode BencodeExact Torrent TorrentExample TorrentFiles.
From Stdlib Require Import Init.Byte Strings.Byte ZArith.
Open Scope list_scope.

(** ** Nodes of one value *)

Definition same (x y : Node) : Prop := value_of x = value_of y.
#[global] Instance same_equivalence : Equivalence same.
Proof. unfold same. split; [done|by intros ??|intros ???; congruence]. Qed.

Lemma same_place o1 o2 v : same (place o1 v) (place o2 v).
Proof. unfold same. by rewrite !value_of_place. Qed.

#[global] Instance Node_bytes_proper : Proper (same ==> eq) Node_bytes.
Proof. intros [?? []] [?? []] H; cbn in *; by inversion H. Qed.
#[global] Instance Node_text_proper : Proper (same ==> eq) Node_text.
Proof. intros x y H. unfold Node_text. by rewrite H. Qed.
#[global] Instance Node_integer_proper : Proper (same ==> eq) Node_integer.
Proof. intros [?? []] [?? []] H; cbn in *; by inversion H. Qed.

Lemma map_value_of l1 l2 : map value_of l1 = map value_of l2 <-> Forall2 same l1 l2.
Proof.
  split.
  - revert l2. induction l1 as [|x l1 IH]; intros [|y l2] H; try done. injection H as ??. constructor; auto.
  - induction 1 as [|x y l1 l2 Hxy _ IH]; cbn; [done|]. by rewrite Hxy, IH.
Qed.

Lemma same_list {A} (f g : list Node -> result BtError A) x y :
  same x y -> (forall l1 l2, Forall2 same l1 l2 -> f l1 = g l2) -> (Node_list x ≫= f) = (Node_list y ≫= g).
Proof.
  destruct x as [?? []], y as [?? []]; intros H Hf; cbn in *; try by inversion H.
  injection H as H%map_value_of. by apply Hf.
Qed.

(** The value under a key. *)
Definition value_at (key : bytes) (v : bvalue) : option bvalue :=
  match v with
  | BDictionary l => (fun x => x.2.2) <$> list_find (fun entry => entry.1 = key) l
  | _ => None
  end.

Lemma list_find_values key l :
  (fun x => x.2.2) <$> list_find (fun entry : bytes * bvalue => entry.1 = key) (map (fun kv => (kv.1, value_of kv.2)) l)
  = value_of <$> ((fun x => x.2.2) <$> list_find (fun entry : bytes * Node => entry.1 = key) l).
Proof.
  induction l as [|[k n] l IH]; [done|]. cbn. case_decide; [done|]. rewrite <- !option_fmap_compose.
  destruct (list_find _ l) as [[i x]|], (list_find _ (map _ l)) as [[j y]|]; cbn in *; done.
Qed.

Lemma Node_get_value key n : value_of <$> Node_get key n = value_at key (value_of n).
Proof. destruct n as [?? []]; cbn; try done. by rewrite list_find_values. Qed.

Lemma same_get key x y : same x y -> option_Forall2 same (Node_get key x) (Node_get key y).
Proof.
  intros H. pose proof (Node_get_value key x) as Hx. rewrite H, <- Node_get_value in Hx.
  destruct (Node_get key x), (Node_get key y); cbn in Hx; try done; constructor. by injection Hx.
Qed.

Lemma same_is_some key x y : same x y -> is_some (Node_get key x) = is_some (Node_get key y).
Proof. intros H. by destruct (same_get key x y H). Qed.

Lemma same_required {A} key (f g : Node -> result BtError A) x y :
  same x y -> (forall n1 n2, same n1 n2 -> f n1 = g n2) -> (Node_required key x ≫= f) = (Node_required key y ≫= g).
Proof. intros H Hf. unfold Node_required. destruct (same_get key x y H); cbn; [by apply Hf|done]. Qed.

Lemma same_either {A} first second (f g : Node -> result BtError A) x y :
  same x y -> (forall n1 n2, same n1 n2 -> f n1 = g n2) ->
  (get_either first second x ≫= f) = (get_either first second y ≫= g).
Proof.
  intros H Hf. unfold get_either. destruct (same_get (ascii_bytes first) x y H); cbn; [by apply Hf|].
  destruct (same_get (ascii_bytes second) x y H); cbn; [by apply Hf|done].
Qed.

Lemma same_transpose {A} (f : Node -> result BtError A) key x y :
  Proper (same ==> eq) f -> same x y -> transpose f (Node_get key x) = transpose f (Node_get key y).
Proof. intros Hf H. destruct (same_get key x y H) as [? ? Hxy|]; cbn; [by rewrite (Hf _ _ Hxy)|done]. Qed.

Lemma same_for_each {S} (f g : Node -> S -> result BtError S) l1 l2 s :
  (forall n1 n2 s, same n1 n2 -> f n1 s = g n2 s) -> Forall2 same l1 l2 -> for_each f l1 s = for_each g l2 s.
Proof.
  intros Hf Hl. revert s. induction Hl as [|x y l1 l2 Hxy _ IH]; intros s; cbn; [done|].
  rewrite (Hf _ _ s Hxy). destruct (g y s); cbn; [apply IH|done].
Qed.

(** ** The parsers of a node *)

Lemma bind_eq {E A B} (m : result E A) (f g : A -> result E B) : (forall a, f a = g a) -> (m ≫= f) = (m ≫= g).
Proof. intros H. destruct m; cbn; [apply H|done]. Qed.

#[global] Instance attributes_proper : Proper (same ==> eq) attributes.
Proof.
  intros x y H. unfold attributes. rewrite (same_transpose _ _ _ _ _ H). by rewrite (same_is_some _ _ _ H).
Qed.

Lemma v2_leaf_same x y n path piece_length limits st :
  same x y -> v2_leaf x n path piece_length limits st = v2_leaf y n path piece_length limits st.
Proof.
  intros H. unfold v2_leaf. destruct (_ || _); [done|]. rewrite H. apply bind_eq. intros pad.
  apply same_required; [done|]. intros n1 n2 Hn. rewrite Hn. apply bind_eq. intros len.
  replace (if 0 <? len then Node_required (ascii_bytes "pieces root") x ≫= _ else _)
    with (if 0 <? len then Node_required (ascii_bytes "pieces root") y ≫=
            (fun root => Node_bytes root ≫= (fun root => Ok (negb (blen root =? 32)))) else Ok false); [done|].
  destruct (0 <? len); [|done]. symmetry. apply same_required; [done|]. intros m1 m2 Hm. by rewrite Hm.
Qed.

(** The entries of dictionaries of one value. *)
Lemma map_entries l1 l2 :
  map (fun kv : bytes * Node => (kv.1, value_of kv.2)) l1 = map (fun kv => (kv.1, value_of kv.2)) l2 ->
  Forall2 (fun kv1 kv2 => kv1.1 = kv2.1 /\ same kv1.2 kv2.2) l1 l2.
Proof.
  revert l2. induction l1 as [|[k x] l1 IH]; intros [|[k' y] l2] H; try done. injection H as -> Hv Hl.
  constructor; [by split|]. by apply IH.
Qed.

Lemma v2_files_same piece_length limits x y path st :
  same x y -> v2_files piece_length limits x path st = v2_files piece_length limits y path st.
Proof.
  revert y path st. induction x as [s e z|s e b|s e l IH|s e l IH] using node_induction;
    intros [s' e' [z'|b'|l'|l']] path st H; try done; cbn [v2_files]; destruct (_ <? _); try done.
  pose proof (same_get [] _ _ H) as Hget.
  assert (Hl : Forall2 (fun kv1 kv2 => kv1.1 = kv2.1 /\ same kv1.2 kv2.2) l l') by (by apply map_entries; injection H).
  clear H. assert (Hlen : blen l = blen l') by (unfold blen; by rewrite (Forall2_length _ _ _ Hl)).
  destruct Hget as [n1 n2 Hn|]; [rewrite Hlen; by apply v2_leaf_same|]. rewrite Hlen. destruct (_ =? _); [done|].
  clear Hlen. revert st IH. induction Hl as [|[k a] [k' b] l l' [Hk Hab] _ IHl]; intros st IH; [done|].
  apply Forall_cons in IH as [Ha IH]. cbn in Hk, Hab, Ha. subst k'. cbn [v2_children]. apply bind_eq. intros part.
  rewrite (Ha b) by done. apply bind_eq. intros st'. by apply IHl.
Qed.

Section metadata.
Context {urls : Urls} {digests : Digests} {sha : Sha1} (limits : MetadataLimits).

Lemma v1_entry_same name x y st : same x y -> v1_entry name limits x st = v1_entry name limits y st.
Proof.
  intros H. unfold v1_entry. rewrite H. apply bind_eq. intros pad. apply same_either; [done|]. intros n1 n2 Hn.
  apply same_list; [done|]. intros l1 l2 Hl.
  assert (Hlen : blen l1 = blen l2) by (unfold blen; by rewrite (Forall2_length _ _ _ Hl)). rewrite Hlen.
  destruct (_ || _); [done|]. erewrite same_for_each; [|intros m1 m2 path Hm; by rewrite Hm|exact Hl].
  apply bind_eq. intros path. apply same_required; [done|]. intros m1 m2 Hm. by rewrite Hm.
Qed.

Lemma v1_files_same name x y : same x y -> v1_files x name limits = v1_files y name limits.
Proof.
  intros H. unfold v1_files. rewrite (same_is_some _ _ _ H).
  destruct (same_get (ascii_bytes "files") x y H) as [n1 n2 Hn|].
  - destruct (is_some _); [done|]. apply same_list; [done|]. intros l1 l2 Hl.
    apply same_for_each; [|done]. intros. by apply v1_entry_same.
  - apply same_required; [done|]. intros n1 n2 Hn. by rewrite Hn.
Qed.

Lemma tree_files_same name piece_length x y :
  same x y -> tree_files x name piece_length limits = tree_files y name piece_length limits.
Proof.
  intros H. unfold tree_files. apply same_required; [done|]. intros n1 n2 Hn. by rewrite (v2_files_same _ _ _ _ _ _ Hn).
Qed.

Lemma metadata_files_same name piece_length v1 v2 x y :
  same x y -> metadata_files x name piece_length v1 v2 limits = metadata_files y name piece_length v1 v2 limits.
Proof. intros H. unfold metadata_files. by rewrite (v1_files_same _ _ _ H), (tree_files_same _ _ _ _ H). Qed.

Lemma parse_metadata_same x y data data' :
  same x y -> info_bytes x data = info_bytes y data' -> parse_metadata x data limits = parse_metadata y data' limits.
Proof.
  intros H Hraw. unfold parse_metadata.
  assert (Hd : forall A (k : result BtError A), (Node_dictionary x ≫= fun _ => k) = (Node_dictionary y ≫= fun _ => k)).
  { intros A k. destruct x as [?? []], y as [?? []]; by inversion H. }
  rewrite Hd. apply bind_eq. intros _. rewrite H. apply bind_eq. intros _. apply same_either; [done|]. intros n1 n2 Hn.
  rewrite Hn. apply bind_eq. intros nb. apply bind_eq. intros name. apply same_required; [done|]. intros p1 p2 Hp.
  rewrite Hp. apply bind_eq. intros pl. destruct (_ || _); [done|].
  unfold meta_version. rewrite !(same_transpose _ _ _ _ _ H), Hraw. apply bind_eq. intros v2. destruct (_ && _); [done|].
  apply bind_eq. intros v1. destruct (_ && _); [done|]. by rewrite (metadata_files_same _ _ _ _ _ _ H).
Qed.
End metadata.

(** ** The bytes of an entry *)

Lemma info_bytes_place pre v post : info_bytes (place (blen pre) v) (pre ++ encode v ++ post) = encode v.
Proof.
  unfold info_bytes. rewrite place_start, place_end. unfold slice, upto, skip.
  rewrite N.add_comm, N.add_sub. unfold blen. rewrite !Nat2N.id, drop_app_length, take_app_length. done.
Qed.

(** An entry of a dictionary at its place. *)
Definition entry_at (data : bytes) (e : bytes * Node) (kv : bytes * bvalue) : Prop :=
  e.1 = kv.1 /\ same e.2 (place 0 kv.2) /\ info_bytes e.2 data = encode kv.2.

Lemma place_dictionary_entries pre l post :
  Forall2 (entry_at (pre ++ flat_map (fun kv => encode_bytes kv.1 ++ encode kv.2) l ++ post))
    (place_dictionary (blen pre) l) l.
Proof.
  revert pre. induction l as [|[k v] l IH]; intros pre; cbn [place_dictionary flat_map fst snd]; [constructor|].
  rewrite <- !app_assoc. constructor.
  - split_and!; [done|apply same_place|]. cbn [snd]. rewrite <- blen_app, app_assoc. apply info_bytes_place.
  - specialize (IH (pre ++ encode_bytes k ++ encode v)). rewrite !blen_app, <- !app_assoc, N.add_assoc in IH. exact IH.
Qed.

(** A node that lies in [data] and has the value [w]. *)
Definition lies (data : bytes) (n : Node) (w : bvalue) : Prop := same n (place 0 w) /\ info_bytes n data = encode w.

Lemma find_entry data key es l :
  Forall2 (entry_at data) es l ->
  option_Forall2 (lies data) ((fun x => x.2.2) <$> list_find (fun entry => entry.1 = key) es)
    ((fun x => x.2.2) <$> list_find (fun entry => entry.1 = key) l).
Proof.
  induction 1 as [|[k n] [k' v] es l (Hk & Hs & Hb) _ IH]; cbn in *; [constructor|]. subst k'.
  case_decide; [by constructor|].
  destruct (list_find _ es) as [[i x]|], (list_find _ l) as [[j y]|]; cbn in *; inversion IH; by constructor.
Qed.

(** The entries of a decoded dictionary are those of its value, at their bytes. *)
Lemma root_entries l :
  Forall2 (entry_at (encode (BDictionary l))) (place_dictionary 1 l) l.
Proof. apply (place_dictionary_entries [letter_d] l [letter_e]). Qed.

Lemma get_lies key v : option_Forall2 (lies (encode v)) (Node_get key (place 0 v)) (value_at key v).
Proof.
  destruct v as [z|b|l|l]; try constructor. rewrite place_BDictionary. cbn [Node_get nd_value value_at].
  apply find_entry, root_entries.
Qed.

Lemma get_same key v v' :
  value_at key v = value_at key v' -> option_Forall2 same (Node_get key (place 0 v)) (Node_get key (place 0 v')).
Proof.
  intros H. pose proof (get_lies key v) as H1. pose proof (get_lies key v') as H2. rewrite H in H1.
  destruct H2 as [n' w [Hs' _]|]; inversion H1 as [n ? [Hs _]|]; subst; constructor. by rewrite Hs, Hs'.
Qed.

Lemma get_Some key v w :
  value_at key v = Some w -> exists n, Node_get key (place 0 v) = Some n /\ lies (encode v) n w.
Proof.
  intros H. pose proof (get_lies key v) as Hl. rewrite H in Hl. destruct (Node_get key (place 0 v)) as [n|].
  - exists n. split; [done|]. by inversion Hl.
  - inversion Hl.
Qed.
Lemma get_None key v : value_at key v = None -> Node_get key (place 0 v) = None.
Proof. intros H. pose proof (get_lies key v) as Hl. rewrite H in Hl. by inversion Hl. Qed.

Lemma list_find_entry key (l : list (bytes * bvalue)) w :
  (fun x => x.2.2) <$> list_find (fun entry => entry.1 = key) l = Some w -> (key, w) ∈ l.
Proof.
  intros ([i [k v]] & Hf & ->)%fmap_Some. apply list_find_Some in Hf as (Hl & Hk & _). cbn in *. subst k.
  by eapply list_elem_of_lookup_2.
Qed.

(** What is smaller in an entry. *)
Lemma value_at_smaller key v w :
  value_at key v = Some w -> canonical v ->
  canonical w /\ (height w <= height v)%nat /\ count_tokens w <= count_tokens v /\ blen (encode w) <= blen (encode v).
Proof.
  destruct v as [z|b|l|l]; try done. cbn [value_at]. intros Hin%list_find_entry [_ Hc]%canonical_BDictionary.
  split; [exact (proj1 (Forall_forall _ l) Hc _ Hin)|]. cbn. clear Hc.
  rewrite blen_cons, blen_app. induction l as [|[k v] l IH]; [by apply elem_of_nil in Hin|].
  cbn [map foldr flat_map snd fst]. rewrite sum_of_cons, !blen_app. apply elem_of_cons in Hin as [[= -> ->]|Hin].
  - unfold id. lia.
  - specialize (IH Hin). unfold id at 1. lia.
Qed.

Section torrents.
Context {urls : Urls} {digests : Digests} {sha : Sha1} (limits : MetadataLimits).

(** The trackers and the web seeds are the root's. *)
Lemma parse_metadata_endpoints info data m :
  parse_metadata info data limits = Ok m -> tm_trackers m = [] /\ tm_web_seeds m = [].
Proof.
  unfold parse_metadata. intros H.
  repeat match type of H with
  | (_ ≫= _) = Ok _ => apply bind_Ok in H as (? & _ & H)
  | (if ?b then Err _ else _) = Ok _ => destruct b; [done|]
  | (let '(_, _) := ?p in _) = Ok _ => destruct p
  | Ok _ = Ok _ => injection H as <-
  end. done.
Qed.

(** The info dictionary of a torrent decodes by itself to the value it has in the torrent. *)
Lemma info_decodes data root info :
  decode data limits = Ok root -> Node_get (ascii_bytes "info") root = Some info ->
  exists w, lies data info w /\ decode (info_bytes info data) limits = Ok (place 0 w).
Proof.
  intros (Hvalid & Hlen & v & Hc & Hh & Ht & -> & ->)%decode_sound Hget.
  pose proof (get_lies (ascii_bytes "info") v) as Hl. rewrite Hget in Hl.
  inversion Hl as [? w Hw Hn Hv|]; subst. symmetry in Hv. exists w. split; [done|]. destruct Hw as [_ ->].
  apply value_at_smaller in Hv as (Hcw & Hhw & Htw & Hbw); [|done]. apply decode_complete; [done|lia|done|lia|lia].
Qed.

(** C0: the metadata of a torrent are a function of its info section: the section is a contiguous part of the file,
    it parses by itself under the same limits, and the torrent's identity, name, files, pieces and private flag are
    those of the section parsed alone; only the trackers and the web seeds come from the rest of the file. *)
Theorem torrent_info_stands_alone data m :
  parse_torrent data limits = Ok m ->
  exists raw, info_section data limits = Ok raw /\ (exists pre post, data = pre ++ raw ++ post) /\
    parse_info raw limits = Ok (m <| tm_trackers := [] |> <| tm_web_seeds := [] |>).
Proof.
  unfold parse_torrent, info_section, parse_info. intros (root & Hroot & H)%bind_Ok.
  destruct (is_some _); [done|]. apply bind_Ok in H as (info & Hinfo & H). apply bind_Ok in H as (m0 & Hm & H).
  apply bind_Ok in H as (trackers & _ & H). apply bind_Ok in H as (seeds & _ & [= <-]).
  rewrite Hroot. cbn [mbind result_bind]. rewrite Hinfo. cbn [mbind result_bind]. exists (info_bytes info data).
  apply ok_or_Ok in Hinfo. destruct (info_decodes _ _ _ Hroot Hinfo) as (w & [Hs Hb] & Hd). split_and!; [done| |].
  - set (start := nd_start info). set (len := nd_end info - start). exists (upto start data), (skip len (skip start data)).
    change (data = upto start data ++ upto len (skip start data) ++ skip len (skip start data)). by rewrite !upto_skip.
  - rewrite Hd. cbn [mbind result_bind]. rewrite <- (parse_metadata_same limits info (place 0 w) data _ Hs), Hm.
    + f_equal. apply parse_metadata_endpoints in Hm as [Ht Hw]. destruct m0. cbn in Ht, Hw. by subst.
    + rewrite Hb. symmetry. rewrite <- (app_nil_r (encode w)) at 1. apply (info_bytes_place [] w []).
Qed.
End torrents.

Lemma torrent_info_stands_alone_witness :
  exists raw, @info_section (torrent_of v2_info) MetadataLimits_default = Ok raw /\
    (exists pre post, torrent_of v2_info = pre ++ raw ++ post) /\
    @parse_info concrete_digests short_sha1 raw MetadataLimits_default
    = Ok (parsed (torrent_of v2_info) <| tm_trackers := [] |> <| tm_web_seeds := [] |>).
Proof.
  refine (@torrent_info_stands_alone plain_urls concrete_digests short_sha1 MetadataLimits_default (torrent_of v2_info)
    (parsed (torrent_of v2_info)) _). vm_compute. reflexivity.
Defined.
