(* ===== verification/TorrentRewrite.v ===== *)
(** * Changed torrents

    [with_trackers], [with_web_seeds] and [torrent_from_info] write a torrent file
    around an info section.  What they write is canonical bencode within the byte
    limit; it has the same info section, and parsing it gives the same metadata with
    the trackers or web seeds that were asked for. *)

From stdpp Require Import sorting.
From S2P Require Import Prelude Bytes ConcreteDigests Utf8 Paths Journal PayloadTypes MetadataExpansion Bencode BencodeExact Torrent TorrentExample TorrentFiles TorrentIdentity.
From Stdlib Require Import Init.Byte Strings.Byte ZArith.
Open Scope list_scope.

Ltac decide_by_computation := apply (bool_decide_unpack _); by vm_compute.

(** ** Writing a dictionary *)

Definition encoded (kv : bytes * bvalue) : bytes * bytes := (kv.1, encode kv.2).

#[local] Instance key_order_total : Total key_order.
Proof.
  intros x y. unfold key_order. rewrite (str_compare_antisym x.1 y.1).
  destruct (str_compare x.1 y.1); cbn; [by left|by left|by right].
Qed.

Lemma Sorted_keys_strict (l : list (bytes * bytes)) : Sorted key_order l -> NoDup l.*1 -> Sorted str_lt l.*1.
Proof.
  induction 1 as [|x l Hs IH Hx]; cbn; [constructor|]. intros [Hnx Hnd]%NoDup_cons. constructor; [by apply IH|].
  destruct l as [|y l]; constructor. inversion Hx as [|? ? Hxy]; subst. unfold key_order, str_lt in *.
  destruct (str_compare x.1 y.1) eqn:E; [|done|done]. apply str_compare_eq in E. destruct Hnx. rewrite E. by left.
Qed.

Lemma flat_map_encoded l :
  flat_map (fun entry => prefixed entry.1 ++ entry.2) (encoded <$> l)
  = flat_map (fun kv => encode_bytes kv.1 ++ encode kv.2) l.
Proof. induction l as [|kv l IH]; [done|]. rewrite fmap_cons. cbn [flat_map]. by rewrite IH. Qed.

(** A dictionary of distinct keys is written in canonical order. *)
Lemma write_dictionary_encodes l :
  NoDup l.*1 -> exists l', l' ≡ₚ l /\ Sorted str_lt l'.*1 /\ write_dictionary (encoded <$> l) = encode (BDictionary l').
Proof.
  intros Hnd. pose proof (Sorted_merge_sort key_order (encoded <$> l)) as Hs.
  pose proof (merge_sort_Permutation key_order (encoded <$> l)) as Hp.
  apply Permutation_map_inv in Hp as (l' & Heq & Hl'). exists l'.
  assert (Hkeys : (encoded <$> l').*1 = l'.*1) by (rewrite <- list_fmap_compose; by apply list_fmap_ext).
  split_and!; [done| |].
  - rewrite <- Hkeys. apply Sorted_keys_strict; [by rewrite Heq in Hs|]. by rewrite Hkeys, <- Hl'.
  - unfold write_dictionary, sort_by_key. rewrite Heq. cbn [encode]. by rewrite <- flat_map_encoded.
Qed.

Lemma Sorted_keys_NoDup (l : list bytes) : Sorted str_lt l -> NoDup l.
Proof.
  intros Hs%Sorted_StronglySorted; [|apply _]. induction Hs as [|x l _ IH Hx]; constructor; [|done].
  intros Hin. rewrite Forall_forall in Hx. by destruct (irreflexivity str_lt x (Hx _ Hin)).
Qed.

(** ** Looking up in a changed dictionary *)

Lemma value_at_elem key l w : NoDup l.*1 -> value_at key (BDictionary l) = Some w <-> (key, w) ∈ l.
Proof.
  intros Hnd. split; [apply list_find_entry|]. cbn [value_at].
  induction l as [|[k v] l IH]; [by intros ?%elem_of_nil|]. apply NoDup_cons in Hnd as [Hk Hnd].
  intros [[= -> ->]|Hin]%elem_of_cons; cbn.
  - by rewrite decide_True.
  - rewrite decide_False.
    + specialize (IH Hnd Hin). by destruct (list_find _ l) as [[i x]|].
    + intros ->. destruct Hk. apply list_elem_of_fmap. by exists (key, w).
Qed.

Lemma value_at_perm key l l' : NoDup l.*1 -> l' ≡ₚ l -> value_at key (BDictionary l') = value_at key (BDictionary l).
Proof.
  intros Hnd Hp. assert (Hnd' : NoDup l'.*1) by by rewrite Hp.
  apply option_eq. intros w. rewrite !value_at_elem by done. by rewrite Hp.
Qed.

(** The entries but those of [dropped]. *)
Definition kept (dropped : list string) (l : list (bytes * bvalue)) : list (bytes * bvalue) :=
  filter (fun kv => kv.1 ∉ ascii_bytes <$> dropped) l.

Lemma kept_entries_encoded dropped data es l :
  Forall2 (entry_at data) es l -> kept_entries dropped data es = encoded <$> kept dropped l.
Proof.
  unfold kept_entries, kept. induction 1 as [|[k n] [k' v] es l (Hk & _ & Hb) _ IH]; [done|]. cbn in Hk, Hb. subst k'.
  rewrite !filter_cons. cbn [fst]. case_decide; [|done]. cbn. unfold encoded at 1. cbn. by rewrite Hb, IH.
Qed.

(** A dictionary with the entries of [dropped] replaced by [extra]. *)
Record replaces (dropped : list string) (extra l l' : list (bytes * bvalue)) : Prop := {
  rp_canonical : canonical (BDictionary l');
  rp_perm : l' ≡ₚ kept dropped l ++ extra;
  rp_kept : forall key, key ∉ ascii_bytes <$> dropped -> value_at key (BDictionary l') = value_at key (BDictionary l);
  rp_extra : forall key v, (key, v) ∈ extra -> value_at key (BDictionary l') = Some v;
  rp_dropped : forall key, key ∈ ascii_bytes <$> dropped -> key ∉ extra.*1 -> value_at key (BDictionary l') = None;
}.

Lemma kept_keys_NoDup dropped l : NoDup l.*1 -> NoDup (kept dropped l).*1.
Proof.
  unfold kept. induction l as [|[k v] l IH]; [done|]. intros [Hk Hnd]%NoDup_cons. rewrite filter_cons.
  case_decide; [|by apply IH]. constructor; [|by apply IH].
  intros (kv & Hkv & [_ Hin]%list_elem_of_filter)%list_elem_of_fmap. destruct Hk. apply list_elem_of_fmap. by exists kv.
Qed.

Lemma replaced_keys_NoDup dropped extra l :
  NoDup l.*1 -> NoDup extra.*1 -> (forall key, key ∈ extra.*1 -> key ∈ ascii_bytes <$> dropped) ->
  NoDup (kept dropped l ++ extra).*1.
Proof.
  intros Hl He Hsub. rewrite fmap_app. apply NoDup_app. split_and!; [by apply kept_keys_NoDup| |done].
  intros key (kv & -> & [Hn _]%list_elem_of_filter)%list_elem_of_fmap Hin. by apply Hn, Hsub.
Qed.

Lemma write_replaces dropped extra l :
  canonical (BDictionary l) -> NoDup extra.*1 -> Forall (fun kv => canonical kv.2) extra ->
  (forall key, key ∈ extra.*1 -> key ∈ ascii_bytes <$> dropped) ->
  exists l', replaces dropped extra l l' /\
    write_dictionary (encoded <$> (kept dropped l ++ extra)) = encode (BDictionary l').
Proof.
  intros [Hs Hc]%canonical_BDictionary He Hce Hsub. pose proof (Sorted_keys_NoDup _ Hs) as Hl.
  pose proof (replaced_keys_NoDup dropped extra l Hl He Hsub) as Hnd.
  destruct (write_dictionary_encodes _ Hnd) as (l' & Hp & Hs' & Hw). exists l'. split; [|done].
  constructor.
  - rewrite canonical_BDictionary. split; [done|]. rewrite Hp, Forall_app. split; [|done].
    apply Forall_forall. intros kv [_ Hin]%list_elem_of_filter. by apply (proj1 (Forall_forall _ l) Hc).
  - done.
  - intros key Hk. rewrite (value_at_perm key _ _ Hnd Hp). apply option_eq. intros w. rewrite !value_at_elem by done.
    rewrite elem_of_app. unfold kept. rewrite list_elem_of_filter. cbn. split; [|by left].
    intros [[_ ?]|Hin]; [done|]. destruct Hk. apply Hsub, list_elem_of_fmap. by exists (key, w).
  - intros key v Hin. rewrite (value_at_perm key _ _ Hnd Hp). apply value_at_elem; [done|]. apply elem_of_app. by right.
  - intros key Hd Hne. rewrite (value_at_perm key _ _ Hnd Hp). destruct (value_at _ _) as [w|] eqn:Hv; [|done].
    apply value_at_elem in Hv; [|done]. apply elem_of_app in Hv as [[Hn _]%list_elem_of_filter|Hin]; [done|].
    destruct Hne. apply list_elem_of_fmap. by exists (key, w).
Qed.

(** The tree a written dictionary decodes to. *)
Lemma decode_written v limits root : canonical v -> decode (encode v) limits = Ok root -> root = place 0 v.
Proof.
  intros Hc (Hvalid & Hlen & v' & Hc' & _ & _ & He & ->)%decode_sound. apply valid_bounded in Hvalid as [Hb _].
  by rewrite (encode_injective v v' Hc Hc' ltac:(lia) He).
Qed.

(** ** Parsing a changed torrent *)

Section torrents.
Context {url_crate : Urls} {digests : Digests} {sha : Sha1} (limits : MetadataLimits).

Lemma torrent_web_seeds_agree v v' :
  value_at (ascii_bytes "url-list") v = value_at (ascii_bytes "url-list") v' ->
  torrent_web_seeds (place 0 v) = torrent_web_seeds (place 0 v').
Proof.
  intros H%get_same. unfold torrent_web_seeds. destruct H as [x y Hxy|]; [|done]. rewrite Hxy.
  destruct (Node_text y); [done|]. apply same_list; [done|]. intros l1 l2 Hl. apply same_for_each; [|done].
  intros n1 n2 s Hn. unfold listed_seed. by rewrite Hn.
Qed.

Lemma torrent_trackers_agree v v' :
  value_at (ascii_bytes "announce") v = value_at (ascii_bytes "announce") v' ->
  value_at (ascii_bytes "announce-list") v = value_at (ascii_bytes "announce-list") v' ->
  torrent_trackers (place 0 v) = torrent_trackers (place 0 v').
Proof.
  intros Ha%get_same Hl%get_same. unfold torrent_trackers.
  assert (He : forall x y, same x y -> Node_text x = Node_text y) by (intros x y Hxy; by rewrite Hxy).
  destruct Ha as [x y Hxy|]; [rewrite (He _ _ Hxy)|]; (apply bind_eq; intros trackers); destruct Hl as [x' y' Hxy'|]; try done;
    (apply same_list; [done|]; intros l1 l2 Hl; apply same_for_each; [|done]; intros n1 n2 s Hn;
     apply same_list; [done|]; intros k1 k2 Hk; apply same_for_each; [|done]; intros m1 m2 t Hm;
     unfold listed_tracker; by rewrite Hm).
Qed.

(** The root of a parsed torrent. *)
Lemma parse_torrent_root data m :
  parse_torrent data limits = Ok m ->
  exists l info w m0,
    canonical (BDictionary l) /\ data = encode (BDictionary l) /\ blen data <= ml_bytes limits /\
    MetadataLimits_validate limits = Ok () /\
    decode data limits = Ok (place 0 (BDictionary l)) /\ value_at (ascii_bytes "httpseeds") (BDictionary l) = None /\
    Node_get (ascii_bytes "info") (place 0 (BDictionary l)) = Some info /\
    value_at (ascii_bytes "info") (BDictionary l) = Some w /\ lies data info w /\
    parse_metadata info data limits = Ok m0 /\
    torrent_trackers (place 0 (BDictionary l)) = Ok (tm_trackers m) /\
    torrent_web_seeds (place 0 (BDictionary l)) = Ok (tm_web_seeds m) /\
    m = m0 <| tm_trackers := tm_trackers m |> <| tm_web_seeds := tm_web_seeds m |>.
Proof.
  unfold parse_torrent. intros (root & Hroot & H)%bind_Ok. destruct (is_some _) eqn:Hh; [done|].
  apply bind_Ok in H as (info & Hinfo%ok_or_Ok & H). apply bind_Ok in H as (m0 & Hm & H).
  apply bind_Ok in H as (trackers & Ht & H). apply bind_Ok in H as (seeds & Hw & [= <-]).
  pose proof Hroot as (Hvalid & Hlen & v & Hc & _ & _ & -> & ->)%decode_sound.
  pose proof (get_lies (ascii_bytes "info") v) as Hi. rewrite Hinfo in Hi.
  destruct v as [z|b|l|l]; try done. inversion Hi as [? w Hlies|]; subst. exists l, info, w, m0.
  pose proof (get_lies (ascii_bytes "httpseeds") (BDictionary l)) as Hs.
  split_and!; try done. by destruct Hs.
Qed.

Lemma required_get key n info : Node_get key n = Some info -> Node_required key n = Ok info.
Proof. intros H. unfold Node_required. by rewrite H. Qed.

Lemma parse_replaced dropped extra l l' m root :
  parse_torrent (encode (BDictionary l)) limits = Ok m -> canonical (BDictionary l) -> replaces dropped extra l l' ->
  ascii_bytes "info" ∉ ascii_bytes <$> dropped -> ascii_bytes "httpseeds" ∉ ascii_bytes <$> dropped ->
  let out := encode (BDictionary l') in
  decode out limits = Ok root ->
  root = place 0 (BDictionary l') /\ info_section out limits = info_section (encode (BDictionary l)) limits /\
  forall trackers seeds, torrent_trackers root = Ok trackers -> torrent_web_seeds root = Ok seeds ->
    parse_torrent out limits = Ok (m <| tm_trackers := trackers |> <| tm_web_seeds := seeds |>).
Proof.
  intros Hm Hc Hr Hki Hkh out Hout. subst out. pose proof (decode_written _ _ _ (rp_canonical _ _ _ _ Hr) Hout) as ->.
  destruct (parse_torrent_root _ _ Hm) as (l0 & info & w & m0 & _ & _ & _ & _ & Hd & Hh & Hi & Hv & [Hs Hb] & Hm0 & _ & _ & Heq).
  pose proof (decode_written _ _ _ Hc Hd) as Hl. apply (f_equal value_of) in Hl. rewrite !value_of_place in Hl.
  injection Hl as ->.
  rewrite <- (rp_kept _ _ _ _ Hr) in Hv, Hh by done. apply get_Some in Hv as (info' & Hget & Hs' & Hb'). apply get_None in Hh.
  split_and!; [done| |].
  - unfold info_section. rewrite Hout, Hd. cbn [mbind result_bind].
    rewrite (required_get _ _ _ Hget), (required_get _ _ _ Hi). cbn [mbind result_bind]. by rewrite Hb, Hb'.
  - intros trackers seeds Ht Hw. unfold parse_torrent. rewrite Hout. cbn [mbind result_bind].
    rewrite Hh. cbn [is_some]. rewrite (required_get _ _ _ Hget). cbn [mbind result_bind].
    rewrite (parse_metadata_same limits info' info _ (encode (BDictionary l))); [|by rewrite Hs, Hs'|by rewrite Hb, Hb'].
    rewrite Hm0. cbn [mbind result_bind]. rewrite Ht, Hw. cbn [mbind result_bind]. rewrite Heq. by destruct m0.
Qed.

(** ** Endpoints *)

Definition normalized (tracker : bool) (url : str) : Prop := exists value, endpoint value tracker = Ok url.

(** The endpoints of a list of trackers: each once. *)
Definition tracker_list (urls : list str) : Prop := NoDup urls /\ Forall (normalized true) urls.

Lemma push_once urls url value :
  tracker_list urls -> endpoint value true = Ok url ->
  tracker_list (if bool_decide (url ∈ urls) then urls else urls ++ [url]).
Proof.
  intros [Hnd Hn] He. case_bool_decide as Hin; [done|]. split.
  - apply NoDup_app. split_and!; [done| |apply NoDup_singleton]. intros x Hx ->%list_elem_of_singleton. done.
  - rewrite Forall_app, Forall_singleton. split; [done|]. by exists value.
Qed.

Lemma torrent_trackers_list root urls : torrent_trackers root = Ok urls -> tracker_list urls.
Proof.
  unfold torrent_trackers. intros (first & Hfirst & H)%bind_Ok.
  assert (Hf : tracker_list first).
  { destruct (Node_get (ascii_bytes "announce") root) as [n|].
    - apply bind_Ok in Hfirst as (text & _ & Hfirst). apply bind_Ok in Hfirst as (url & Hurl & [= <-]).
      split; [apply NoDup_singleton|]. rewrite Forall_singleton. by exists text.
    - injection Hfirst as <-. split; [constructor|apply Forall_nil_2]. }
  destruct (Node_get (ascii_bytes "announce-list") root) as [tiers|]; [|by injection H as <-]. apply bind_Ok in H as (tl & _ & H).
  eapply for_each_inv, H; [|done]. intros tier s s' Hs Htier. apply bind_Ok in Htier as (vl & _ & Hv).
  eapply for_each_inv, Hv; [|done]. clear. intros value s s' Hs. unfold listed_tracker. destruct (_ <=? _); [done|].
  intros (text & _ & H)%bind_Ok. apply bind_Ok in H as (url & Hurl & [= <-]). by eapply push_once.
Qed.

Lemma change_trackers_list urls add exclude urls' :
  tracker_list urls -> change_trackers urls add exclude = Ok urls' -> tracker_list urls' /\ blen urls' <= 64.
Proof.
  intros [Hnd Hn]. unfold change_trackers. intros (us & Hus & H)%bind_Ok.
  destruct (N.ltb_spec 64 (blen us)); [done|]. injection H as <-. split; [|done].
  eapply for_each_inv, Hus.
  - intros value s s' Hs Hv. apply bind_Ok in Hv as (url & Hurl & [= <-]). by eapply push_once.
  - split; [by apply NoDup_filter|]. apply Forall_forall. intros u [_ Hu]%list_elem_of_filter.
    by apply (proj1 (Forall_forall _ _) Hn).
Qed.
End torrents.

(** ** Sizes *)

Definition entry_size (kv : bytes * bvalue) : N := blen (encode_bytes kv.1) + blen (encode kv.2).

Lemma blen_entries l :
  blen (flat_map (fun kv => encode_bytes kv.1 ++ encode kv.2) l) = sum_of entry_size l.
Proof.
  induction l as [|kv l IH]; [done|]. cbn [flat_map]. rewrite sum_of_cons, !blen_app, IH. unfold entry_size. lia.
Qed.

Lemma sum_of_kept dropped l : sum_of entry_size (kept dropped l) <= sum_of entry_size l.
Proof.
  unfold kept. induction l as [|kv l IH]; [done|]. rewrite filter_cons. case_decide; rewrite ?sum_of_cons; lia.
Qed.

Lemma replaced_size dropped extra l l' :
  replaces dropped extra l l' -> blen (encode (BDictionary l')) <= blen (encode (BDictionary l)) + sum_of entry_size extra.
Proof.
  intros Hr. cbn [encode]. rewrite !blen_cons, !blen_app, !blen_entries, (sum_of_perm _ _ _ (rp_perm _ _ _ _ Hr)), sum_of_app.
  pose proof (sum_of_kept dropped l). lia.
Qed.

Lemma encode_bytes_size b : blen (encode_bytes b) <= blen b + 21.
Proof.
  unfold encode_bytes, u64_to_string. rewrite blen_app, blen_cons. unfold blen at 1. rewrite length_fmap.
  pose proof (decimal_digits_length 20 (blen b)). lia.
Qed.

(** A length below a hundred million has eight digits at most. *)
Lemma decimal_digits_short fuel n k : (1 <= k)%nat -> n < 10 ^ N.of_nat k -> (length (decimal_digits fuel n) <= k)%nat.
Proof.
  revert n k. induction fuel as [|fuel IH]; intros n k Hk Hn; cbn [decimal_digits]; [cbn; lia|].
  destruct (N.ltb_spec n 10); [cbn; lia|]. destruct k as [|[|k]]; [lia|cbn in Hn; lia|].
  rewrite length_app. cbn [length]. specialize (IH (n / 10) (S k) ltac:(lia)). rewrite Nat2N.inj_succ, N.pow_succ_r' in Hn.
  specialize (IH ltac:(apply N.Div0.div_lt_upper_bound; lia)). lia.
Qed.

Lemma encode_bytes_short b : blen b < 10 ^ 8 -> blen (encode_bytes b) <= blen b + 9.
Proof.
  intros Hb. unfold encode_bytes, u64_to_string. rewrite blen_app, blen_cons. unfold blen at 1. rewrite length_fmap.
  pose proof (decimal_digits_short 20 (blen b) 8 ltac:(lia) Hb). lia.
Qed.

Definition tracker_tiers (urls : list str) : bvalue := BList ((fun url => BList [BBytes url]) <$> urls).
Definition seed_list (urls : list str) : bvalue := BList (BBytes <$> urls).

Lemma flat_map_fmap {A B} (f : B -> bytes) (g : A -> B) l : flat_map f (g <$> l) = flat_map (fun x => f (g x)) l.
Proof. induction l as [|x l IH]; [done|]. rewrite fmap_cons. cbn [flat_map]. by rewrite IH. Qed.

Lemma sum_flat_map {A} (f : A -> bytes) l : blen (flat_map f l) = sum_of (fun x => blen (f x)) l.
Proof. induction l as [|x l IH]; [done|]. cbn [flat_map]. by rewrite blen_app, sum_of_cons, IH. Qed.

Lemma sum_of_le {A} (f g : A -> N) l : (forall x, f x <= g x) -> sum_of f l <= sum_of g l.
Proof. intros H. induction l as [|x l IH]; [done|]. rewrite !sum_of_cons. specialize (H x). lia. Qed.

Lemma tracker_tiers_bytes urls :
  encode (tracker_tiers urls) = letter_l :: flat_map (fun url => letter_l :: prefixed url ++ [letter_e]) urls ++ [letter_e].
Proof.
  unfold tracker_tiers. cbn [encode]. rewrite flat_map_fmap. do 2 f_equal. apply flat_map_ext. intros url.
  cbn [encode flat_map]. by rewrite app_nil_r.
Qed.
Lemma seed_list_bytes urls : encode (seed_list urls) = letter_l :: flat_map prefixed urls ++ [letter_e].
Proof. unfold seed_list. cbn [encode]. by rewrite flat_map_fmap. Qed.

Lemma tracker_tiers_size urls : blen (encode (tracker_tiers urls)) <= sum_of (fun url => blen url + 32) urls + 2.
Proof.
  rewrite tracker_tiers_bytes, blen_cons, blen_app, sum_flat_map, blen_cons, blen_nil.
  match goal with |- 1 + (?x + _) <= ?y + 2 => enough (x <= y) by lia end. apply sum_of_le. intros url. rewrite blen_cons, blen_app, blen_cons, blen_nil.
  pose proof (encode_bytes_size url) as He. change (prefixed url) with (encode_bytes url). lia.
Qed.

Lemma seed_list_size urls :
  Forall (fun url => blen url < 10 ^ 8) urls -> blen (encode (seed_list urls)) <= sum_of (fun url => blen url + 16) urls + 2.
Proof.
  intros Hu. rewrite seed_list_bytes, blen_cons, blen_app, sum_flat_map, blen_cons, blen_nil.
  match goal with |- 1 + (?x + _) <= ?y + 2 => enough (x <= y) by lia end.
  induction Hu as [|url urls Hlen _ IH]; [done|]. rewrite !sum_of_cons. pose proof (encode_bytes_short url Hlen).
  change (prefixed url) with (encode_bytes url). lia.
Qed.

Lemma saturated_add limits a b :
  MetadataLimits_validate limits = Ok () -> u64_saturating_add a b <= ml_bytes limits -> a + b <= ml_bytes limits.
Proof. intros [Hb _]%valid_bounded. unfold u64_saturating_add, U64_MAX. lia. Qed.
Lemma saturated_bound limits a b c :
  MetadataLimits_validate limits = Ok () -> u64_saturating_add (u64_saturating_add a b) c <= ml_bytes limits ->
  a + b + c <= ml_bytes limits.
Proof. intros [Hb _]%valid_bounded. unfold u64_saturating_add, U64_MAX. lia. Qed.

Section laws.
Context {url_crate : Urls} {url_laws : UrlLaws} {digests : Digests} {sha : Sha1} (limits : MetadataLimits).

(** The serialization of an accepted endpoint is accepted as it is, unless it has become too long. *)
Lemma endpoint_again value tracker url :
  endpoint value tracker = Ok url -> blen url <= 4096 -> endpoint url tracker = Ok url /\ from_utf8 url = Some url.
Proof.
  intros H Hlen. unfold endpoint in H |- *. destruct (_ || _) in H; [done|].
  apply bind_Ok in H as (u & Hu%ok_or_Ok & H).
  assert (Hurl : url = url_to_string u) by (repeat (destruct (_ || _) in H; try done; destruct (existsb _ _) in H; try done);
    destruct (_ || _) in H; [done|]; by injection H).
  pose proof (url_printable _ _ Hu) as Hp. rewrite <- Hurl in Hp.
  assert (Hc : utf8_chars url = Some (byte_val <$> url)).
  { apply ascii_chars. eapply Forall_impl; [exact Hp|]. intros b ?. cbv beta in *. lia. }
  split; [|unfold from_utf8, is_utf8; by rewrite Hc].
  rewrite (proj2 (N.ltb_ge _ _) Hlen). replace (chars url) with (byte_val <$> url) by (unfold chars; by rewrite Hc).
  rewrite (proj2 (existsb_false is_control (byte_val <$> url))).
  - cbn [orb]. rewrite Hurl at 1. rewrite (url_reparse _ _ Hu). exact H.
  - apply Forall_fmap. eapply Forall_impl; [exact Hp|]. intros b Hb. unfold compose, is_control, Utf8.between.
    cbv beta in Hb. rewrite orb_false_iff, andb_false_iff, !N.leb_gt. lia.
Qed.

(** ** Reading back what was written *)

Lemma text_endpoint url tracker o :
  normalized tracker url -> blen url <= 4096 ->
  Node_text (place o (BBytes url)) = Ok url /\ endpoint url tracker = Ok url.
Proof.
  intros [value Hv] Hlen. destruct (endpoint_again _ _ _ Hv Hlen) as [He Hu]. split; [|done].
  unfold Node_text. cbn. by rewrite Hu.
Qed.

Lemma listed_tracker_new url acc o :
  normalized true url -> blen url <= 4096 -> blen acc < 64 -> url ∉ acc ->
  listed_tracker (place o (BBytes url)) acc = Ok (acc ++ [url]).
Proof.
  intros Hu Hlen Hc Hin. destruct (text_endpoint url true o Hu Hlen) as [Ht He]. unfold listed_tracker.
  rewrite (proj2 (N.leb_gt _ _)), Ht by done. cbn [mbind result_bind]. rewrite He. cbn [mbind result_bind].
  by rewrite bool_decide_eq_false_2.
Qed.

Lemma read_tiers urls acc o :
  tracker_list (acc ++ urls) -> Forall (fun url => blen url <= 4096) urls -> blen (acc ++ urls) <= 64 ->
  for_each (fun tier trackers => values ← Node_list tier; for_each listed_tracker values trackers)
    (place_list o ((fun url => BList [BBytes url]) <$> urls)) acc = Ok (acc ++ urls).
Proof.
  revert acc o. induction urls as [|url urls IH]; intros acc o [Hnd Hn] Hl Hc; [by rewrite app_nil_r|].
  apply Forall_cons in Hl as [Hlen Hl]. pose proof Hn as [_ [Hu _]%Forall_cons]%Forall_app.
  pose proof Hc as Hc'. rewrite blen_app, blen_cons in Hc'. rewrite fmap_cons. cbn [place_list for_each].
  rewrite place_BList. cbn [Node_list nd_value mbind result_bind place_list for_each].
  rewrite listed_tracker_new; [|done|done|lia|].
  - cbn [mbind result_bind]. rewrite IH; rewrite <- ?app_assoc; [done|by split|done|done].
  - intros Hin. apply NoDup_app in Hnd as (_ & Hd & _). apply (Hd url Hin). by left.
Qed.

Lemma listed_seed_new url acc o :
  normalized false url -> blen url <= 4096 -> blen acc < 64 ->
  listed_seed (place o (BBytes url)) acc = Ok (acc ++ [url]).
Proof.
  intros Hu Hlen Hc. destruct (text_endpoint url false o Hu Hlen) as [Ht He]. unfold listed_seed.
  rewrite (proj2 (N.leb_gt _ _)), Ht by done. cbn [mbind result_bind]. by rewrite He.
Qed.

Lemma read_seeds urls acc o :
  Forall (normalized false) urls -> Forall (fun url => blen url <= 4096) urls -> blen (acc ++ urls) <= 64 ->
  for_each listed_seed (place_list o (BBytes <$> urls)) acc = Ok (acc ++ urls).
Proof.
  revert acc o. induction urls as [|url urls IH]; intros acc o Hn Hl Hc; [by rewrite app_nil_r|].
  apply Forall_cons in Hn as [Hu Hn]. apply Forall_cons in Hl as [Hlen Hl].
  pose proof Hc as Hc'. rewrite blen_app, blen_cons in Hc'. rewrite fmap_cons. cbn [place_list for_each].
  rewrite listed_seed_new by (done || lia). cbn [mbind result_bind]. rewrite IH; rewrite <- ?app_assoc; done.
Qed.

(** The roots with these lists. *)
Lemma trackers_of_root v urls :
  value_at (ascii_bytes "announce") v = None ->
  value_at (ascii_bytes "announce-list") v = (if blen urls =? 0 then None else Some (tracker_tiers urls)) ->
  tracker_list urls -> Forall (fun url => blen url <= 4096) urls -> blen urls <= 64 ->
  torrent_trackers (place 0 v) = Ok urls.
Proof.
  intros Ha Hl Ht Hlen Hc. unfold torrent_trackers. rewrite (get_None _ _ Ha). cbn [mbind result_bind].
  destruct (N.eqb_spec (blen urls) 0) as [H0|_].
  - rewrite (get_None _ _ Hl). destruct urls; [done|]. rewrite blen_cons in H0. lia.
  - apply get_Some in Hl as (n & -> & Hs & _). etransitivity; [|by apply (read_tiers urls [] 1)].
    assert (Hlist : Node_list (place 0 (tracker_tiers urls)) = Ok (place_list 1 ((fun url => BList [BBytes url]) <$> urls))).
    { unfold tracker_tiers. by rewrite place_BList. }
    transitivity (Node_list (place 0 (tracker_tiers urls)) ≫= fun tiers =>
      for_each (fun tier trackers => values ← Node_list tier; for_each listed_tracker values trackers) tiers []).
    + apply same_list; [done|]. intros l1 l2 Hl. apply same_for_each; [|done]. intros n1 n2 s Hn.
      apply same_list; [done|]. intros k1 k2 Hk. apply same_for_each; [|done]. intros m1 m2 t Hm.
      unfold listed_tracker. by rewrite Hm.
    + by rewrite Hlist.
Qed.

Lemma seeds_of_root v urls :
  value_at (ascii_bytes "url-list") v = Some (seed_list urls) ->
  Forall (normalized false) urls -> Forall (fun url => blen url <= 4096) urls -> blen urls <= 64 ->
  torrent_web_seeds (place 0 v) = Ok urls.
Proof.
  intros Hl Hn Hlen Hc. unfold torrent_web_seeds. apply get_Some in Hl as (n & -> & Hs & _). rewrite Hs.
  unfold seed_list at 1. rewrite place_BList. cbn [Node_text Node_bytes nd_value mbind result_bind].
  etransitivity; [|by apply (read_seeds urls [] 1)].
  assert (Hlist : Node_list (place 0 (seed_list urls)) = Ok (place_list 1 (BBytes <$> urls))).
  { unfold seed_list. by rewrite place_BList. }
  transitivity (Node_list (place 0 (seed_list urls)) ≫= fun values => for_each listed_seed values []).
  - apply same_list; [done|]. intros l1 l2 Hl. apply same_for_each; [|done]. intros n1 n2 s Hm.
    unfold listed_seed. by rewrite Hm.
  - by rewrite Hlist.
Qed.

(** ** The changed torrents *)

(** What is written instead of the entries of [dropped]. *)
Lemma kept_entries_root dropped l extra :
  kept_entries dropped (encode (BDictionary l)) (place_dictionary 1 l) ++ (encoded <$> extra)
  = encoded <$> (kept dropped l ++ extra).
Proof. rewrite (kept_entries_encoded dropped _ _ _ (root_entries l)). by rewrite fmap_app. Qed.

(** The entries for a list of trackers. *)
Definition tracker_entries (urls : list str) : list (bytes * bvalue) :=
  if blen urls =? 0 then [] else [(ascii_bytes "announce-list", tracker_tiers urls)].

Lemma canonical_texts urls : canonical (seed_list urls) /\ canonical (tracker_tiers urls).
Proof.
  unfold seed_list, tracker_tiers. rewrite !canonical_BList. split; apply Forall_fmap, Forall_forall; intros url _; done.
Qed.

Lemma tracker_entries_ok urls :
  NoDup (tracker_entries urls).*1 /\ Forall (fun kv => canonical kv.2) (tracker_entries urls) /\
  (forall key, key ∈ (tracker_entries urls).*1 -> key ∈ ascii_bytes <$> ["announce"; "announce-list"]%string) /\
  sum_of entry_size (tracker_entries urls) <= sum_of (fun url => blen url + 32) urls + 64.
Proof.
  unfold tracker_entries. destruct (_ =? _).
  - split_and!; [constructor|apply Forall_nil_2|by intros ? ?%elem_of_nil|apply N.le_0_l].
  - pose proof (tracker_tiers_size urls). rewrite Forall_singleton, sum_of_cons. cbn [fmap list_fmap fst].
    split_and!; [apply NoDup_singleton|apply canonical_texts| |].
    + intros key ->%list_elem_of_singleton. right. left.
    + change (sum_of entry_size []) with 0. unfold entry_size. cbn [fst snd].
      change (blen (encode_bytes (ascii_bytes "announce-list"))) with 16. lia.
Qed.

Lemma with_trackers_replaces data add exclude out :
  with_trackers data add exclude limits = Ok out ->
  exists l l' m trackers, parse_torrent data limits = Ok m /\ change_trackers (tm_trackers m) add exclude = Ok trackers /\
    canonical (BDictionary l) /\ data = encode (BDictionary l) /\ out = encode (BDictionary l') /\
    replaces ["announce"; "announce-list"]%string (tracker_entries trackers) l l' /\ blen out <= ml_bytes limits.
Proof.
  unfold with_trackers. intros (m & Hm & H)%bind_Ok. apply bind_Ok in H as (ts & Hts & H).
  destruct (N.ltb_spec (ml_bytes limits) (u64_saturating_add (u64_saturating_add (blen data) (sum_of (fun url => blen url + 32) ts)) 64)) as [|Hmax]; [done|].
  apply bind_Ok in H as (root & Hroot & H). apply bind_Ok in H as (entries & Hent & [= <-]).
  destruct (parse_torrent_root _ _ _ Hm) as (l & info & w & m0 & Hc & -> & _ & Hvalid & Hd & _).
  assert (root = place 0 (BDictionary l)) as -> by congruence. rewrite place_BDictionary in Hent.
  assert (entries = place_dictionary 1 l) as -> by (unfold Node_dictionary in Hent; cbn [nd_value] in Hent; change (0 + 1) with 1 in Hent; congruence).
  destruct (tracker_entries_ok ts) as (Hnd & Hce & Hsub & Hsize).
  destruct (write_replaces ["announce"; "announce-list"]%string (tracker_entries ts) l Hc Hnd Hce Hsub) as (l' & Hr & Hw).
  exists l, l', m, ts. rewrite <- kept_entries_root in Hw.
  assert (Hout : encoded <$> tracker_entries ts = if blen ts =? 0 then [] else [(ascii_bytes "announce-list",
    letter_l :: flat_map (fun url => letter_l :: prefixed url ++ [letter_e]) ts ++ [letter_e])]).
  { unfold tracker_entries. destruct (_ =? _); [done|]. cbn [fmap list_fmap]. unfold encoded. cbn [fst snd].
    by rewrite tracker_tiers_bytes. }
  rewrite Hout in Hw. change (0 + 1) with 1. rewrite Hw. split_and!; [done..|].
  apply saturated_bound in Hmax; [|done]. pose proof (replaced_size _ _ _ _ Hr). lia.
Qed.

(** C0: a torrent whose trackers were changed is canonical bencode within the byte limit; when it decodes under the
    limits of the call, its info section is that of the original, byte for byte, and, unless the serialization of a
    tracker is longer than the parser admits, parsing it gives the original's metadata with exactly the trackers asked
    for: those that were not excluded and the additions, each once and in order. *)
Theorem with_trackers_exact data add exclude out :
  with_trackers data add exclude limits = Ok out ->
  exists m trackers, parse_torrent data limits = Ok m /\ change_trackers (tm_trackers m) add exclude = Ok trackers /\
    blen out <= ml_bytes limits /\ (exists v, canonical v /\ out = encode v) /\
    forall root, decode out limits = Ok root ->
      info_section out limits = info_section data limits /\
      (Forall (fun url => blen url <= 4096) trackers -> parse_torrent out limits = Ok (m <| tm_trackers := trackers |>)).
Proof.
  intros (l & l' & m & ts & Hm & Hts & Hc & -> & -> & Hr & Hlen)%with_trackers_replaces. exists m, ts.
  pose proof (rp_canonical _ _ _ _ Hr) as Hc'. split_and!; [done|done|done|by eexists|]. intros root Hroot.
  destruct (parse_replaced limits _ _ _ _ _ _ Hm Hc Hr ltac:(decide_by_computation) ltac:(decide_by_computation) Hroot) as (-> & Hinfo & Hparse).
  split; [done|]. intros Hlong. destruct (parse_torrent_root _ _ _ Hm) as (l0 & ? & ? & ? & _ & _ & _ & _ & Hd & _ & _ & _ & _ & _ & Ht & Hw & _).
  apply (decode_written _ _ _ Hc), (f_equal value_of) in Hd. rewrite !value_of_place in Hd. injection Hd as ->.
  destruct (change_trackers_list _ _ _ _ (torrent_trackers_list _ _ Ht) Hts) as [Hlist H64].
  rewrite (Hparse ts (tm_web_seeds m)); [by destruct m| |].
  - apply trackers_of_root; [..|done|done|done].
    + apply (rp_dropped _ _ _ _ Hr); [left|]. unfold tracker_entries. destruct (_ =? _); [by intros ?%elem_of_nil|].
      by intros ?%list_elem_of_singleton.
    + unfold tracker_entries in Hr. destruct (_ =? _).
      * apply (rp_dropped _ _ _ _ Hr); [right; left|by intros ?%elem_of_nil].
      * apply (rp_extra _ _ _ _ Hr). left.
  - rewrite <- Hw. apply torrent_web_seeds_agree, (rp_kept _ _ _ _ Hr). decide_by_computation.
Qed.

Lemma torrent_web_seeds_list root urls : torrent_web_seeds root = Ok urls -> Forall (normalized false) urls.
Proof.
  unfold torrent_web_seeds. destruct (Node_get _ _) as [n|]; [|intros [= <-]; apply Forall_nil_2].
  destruct (Node_text n) as [text|].
  - intros (url & Hurl & [= <-])%bind_Ok. rewrite Forall_singleton. by exists text.
  - intros (l & _ & H)%bind_Ok. eapply for_each_inv, H; [|apply Forall_nil_2]. intros value s s' Hs. unfold listed_seed.
    destruct (_ <=? _); [done|]. intros (text & _ & Hv)%bind_Ok. apply bind_Ok in Hv as (url & Hurl & [= <-]).
    rewrite Forall_app, Forall_singleton. split; [done|]. by exists text.
Qed.

Lemma pushed_seeds seeds acc urls :
  for_each (fun seed urls => url ← endpoint seed false; Ok (urls ++ [url])) seeds acc = Ok urls ->
  exists new, urls = acc ++ new /\ Forall2 (fun seed url => endpoint seed false = Ok url) seeds new.
Proof.
  revert acc. induction seeds as [|seed seeds IH]; intros acc; cbn [for_each].
  - intros [= <-]. exists []. rewrite app_nil_r. split; [done|constructor].
  - intros (s1 & H1 & H)%bind_Ok. apply bind_Ok in H1 as (url & Hurl & [= <-]). apply IH in H as (new & -> & Hnew).
    exists (url :: new). rewrite <- app_assoc. split; [done|by constructor].
Qed.

Lemma short_urls urls n : sum_of (fun url : str => blen url + 16) urls <= n -> Forall (fun url => blen url <= n) urls.
Proof.
  induction urls as [|url urls IH]; intros H; constructor; rewrite sum_of_cons in H; [lia|]. apply IH. lia.
Qed.

Lemma seed_entry_size urls n :
  sum_of (fun url => blen url + 16) urls <= n -> n <= 64 * 1024 * 1024 ->
  sum_of entry_size [(ascii_bytes "url-list", seed_list urls)] <= sum_of (fun url => blen url + 16) urls + 32.
Proof.
  intros Hn Hb. rewrite sum_of_cons. unfold entry_size at 1. cbn [fst snd].
  change (blen (encode_bytes (ascii_bytes "url-list"))) with 10. change (sum_of entry_size []) with 0.
  pose proof (seed_list_size urls) as Hs. enough (Forall (fun url : str => blen url < 10 ^ 8) urls) by (specialize (Hs H); lia).
  eapply Forall_impl; [by apply short_urls|]. intros url Hl. cbv beta in *. change (10 ^ 8) with 100000000. lia.
Qed.

Lemma saturating_count a b : u64_saturating_add a b <= 64 -> a + b <= 64.
Proof. unfold u64_saturating_add, U64_MAX. lia. Qed.

Lemma with_web_seeds_replaces data seeds out :
  with_web_seeds data seeds limits = Ok out ->
  exists l l' m urls, parse_torrent data limits = Ok m /\ Forall2 (fun seed url => endpoint seed false = Ok url) seeds urls /\
    blen (tm_web_seeds m ++ urls) <= 64 /\
    canonical (BDictionary l) /\ data = encode (BDictionary l) /\ out = encode (BDictionary l') /\
    replaces ["url-list"%string] [(ascii_bytes "url-list", seed_list (tm_web_seeds m ++ urls))] l l' /\
    blen out <= ml_bytes limits.
Proof.
  unfold with_web_seeds. intros (m & Hm & H)%bind_Ok. destruct (N.ltb_spec 64 (u64_saturating_add (blen seeds) (blen (tm_web_seeds m)))) as [|H64]; [done|].
  apply bind_Ok in H as (all & (urls & -> & Hurls)%pushed_seeds & H). set (all := tm_web_seeds m ++ urls) in *.
  destruct (N.ltb_spec (ml_bytes limits) (u64_saturating_add (u64_saturating_add (blen data) (sum_of (fun url => blen url + 16) all)) 32)) as [|Hmax]; [done|].
  apply bind_Ok in H as (root & Hroot & H). apply bind_Ok in H as (entries & Hent & [= <-]).
  destruct (parse_torrent_root _ _ _ Hm) as (l & info & w & m0 & Hc & -> & _ & Hvalid & Hd & _).
  assert (root = place 0 (BDictionary l)) as -> by congruence. rewrite place_BDictionary in Hent.
  assert (entries = place_dictionary 1 l) as -> by (unfold Node_dictionary in Hent; cbn [nd_value] in Hent; change (0 + 1) with 1 in Hent; congruence).
  destruct (write_replaces ["url-list"%string] [(ascii_bytes "url-list", seed_list all)] l Hc) as (l' & Hr & Hw).
  { apply NoDup_singleton. }
  { rewrite Forall_singleton. apply canonical_texts. }
  { intros key ->%list_elem_of_singleton. left. }
  apply saturated_bound in Hmax; [|done]. apply valid_limits in Hvalid as [Hb _].
  pose proof (seed_entry_size all (ml_bytes limits) ltac:(lia) Hb) as Hsize. apply saturating_count in H64.
  exists l, l', m, urls. rewrite <- kept_entries_root in Hw.
  change (encoded <$> [(ascii_bytes "url-list", seed_list all)]) with [(ascii_bytes "url-list", encode (seed_list all))] in Hw.
  rewrite seed_list_bytes in Hw. rewrite Hw. split_and!; [done|done| |done..|].
  - apply Forall2_length in Hurls. rewrite blen_app. unfold blen at 2. rewrite <- Hurls. fold (blen seeds). lia.
  - pose proof (replaced_size _ _ _ _ Hr). lia.
Qed.

(** C0: a torrent with added web seeds is canonical bencode within the byte limit; when it decodes under the limits of
    the call, its info section is that of the original, byte for byte, and, unless the serialization of a seed is longer
    than the parser admits, parsing it gives the original's metadata with its web seeds followed by the added ones. *)
Theorem with_web_seeds_exact data seeds out :
  with_web_seeds data seeds limits = Ok out ->
  exists m urls, parse_torrent data limits = Ok m /\ Forall2 (fun seed url => endpoint seed false = Ok url) seeds urls /\
    blen out <= ml_bytes limits /\ (exists v, canonical v /\ out = encode v) /\
    forall root, decode out limits = Ok root ->
      info_section out limits = info_section data limits /\
      (Forall (fun url => blen url <= 4096) (tm_web_seeds m ++ urls) ->
       parse_torrent out limits = Ok (m <| tm_web_seeds := tm_web_seeds m ++ urls |>)).
Proof.
  intros (l & l' & m & urls & Hm & Hurls & H64 & Hc & -> & -> & Hr & Hlen)%with_web_seeds_replaces. exists m, urls.
  pose proof (rp_canonical _ _ _ _ Hr) as Hc'. split_and!; [done|done|done|by eexists|]. intros root Hroot.
  destruct (parse_replaced limits _ _ _ _ _ _ Hm Hc Hr ltac:(decide_by_computation) ltac:(decide_by_computation) Hroot)
    as (-> & Hinfo & Hparse).
  split; [done|]. intros Hlong. destruct (parse_torrent_root _ _ _ Hm) as (l0 & ? & ? & ? & _ & _ & _ & _ & Hd & _ & _ & _ & _ & _ & Ht & Hw & _).
  apply (decode_written _ _ _ Hc), (f_equal value_of) in Hd. rewrite !value_of_place in Hd. injection Hd as ->.
  rewrite (Hparse (tm_trackers m) (tm_web_seeds m ++ urls)); [by destruct m| |].
  - rewrite <- Ht. apply torrent_trackers_agree; apply (rp_kept _ _ _ _ Hr); decide_by_computation.
  - apply seeds_of_root; [|apply Forall_app; split; [by eapply torrent_web_seeds_list|]|done|done].
    + apply (rp_extra _ _ _ _ Hr). left.
    + clear -Hurls. induction Hurls as [|seed url seeds urls Hurl _ IH]; constructor; [by exists seed|done].
Qed.

(** C0: a torrent made from an info section is within the byte limit; when it decodes under the limits of the call, its
    info section is the given one and parsing it gives the section's own metadata, without trackers and web seeds. *)
Theorem torrent_from_info_exact info out :
  torrent_from_info info limits = Ok out ->
  exists m, parse_info info limits = Ok m /\ tm_trackers m = [] /\ tm_web_seeds m = [] /\ blen out <= ml_bytes limits /\
    forall root, decode out limits = Ok root -> info_section out limits = Ok info /\ parse_torrent out limits = Ok m.
Proof.
  unfold torrent_from_info. intros (m & Hm & H)%bind_Ok. exists m.
  destruct (N.ltb_spec (ml_bytes limits) (u64_saturating_add (blen info) 8)) as [|Hmax]; [done|].
  pose proof Hm as (n & Hn & Hparse)%bind_Ok. apply decode_sound in Hn as (Hvalid & _ & w & Hc & _ & _ & -> & ->).
  destruct (parse_metadata_endpoints _ _ _ _ Hparse) as [Ht Hs]. set (v := BDictionary [(ascii_bytes "info", w)]).
  assert (out = encode v) as ->.
  { injection H as <-. unfold v. cbn [encode flat_map fst snd]. by rewrite app_nil_r. }
  assert (Hcd : canonical v).
  { unfold v. rewrite canonical_BDictionary, Forall_singleton. split; [repeat constructor|done]. }
  split_and!; [done..| |].
  - unfold v. cbn [encode flat_map fst snd].
    assert (Hk : blen (encode_bytes (ascii_bytes "info")) = 6) by by vm_compute.
    rewrite blen_cons, !blen_app, Hk, blen_cons, !blen_nil. apply saturated_add in Hmax; [lia|done].
  - intros root Hroot. pose proof (decode_written _ _ _ Hcd Hroot) as ->.
    destruct (get_Some (ascii_bytes "info") v w eq_refl) as (n & Hget & Hsame & Hbytes).
    unfold info_section, parse_torrent. rewrite Hroot. cbn [mbind result_bind].
    rewrite (get_None (ascii_bytes "httpseeds") v eq_refl). cbn [is_some].
    rewrite (required_get _ _ _ Hget). cbn [mbind result_bind]. split; [by rewrite Hbytes|].
    rewrite (parse_metadata_same limits n (place 0 w) _ (encode w)), Hparse; [|done|].
    + cbn [mbind result_bind]. unfold torrent_trackers, torrent_web_seeds.
      rewrite (get_None (ascii_bytes "announce") v eq_refl), (get_None (ascii_bytes "announce-list") v eq_refl).
      rewrite (get_None (ascii_bytes "url-list") v eq_refl). cbn. destruct m. cbn in Ht, Hs. by subst.
    + rewrite Hbytes. symmetry. rewrite <- (app_nil_r (encode w)) at 1. apply (info_bytes_place [] w []).
Qed.
End laws.

(** ** Examples *)

Definition with_trackers_example : result BtError bytes :=
  @with_trackers plain_urls concrete_digests short_sha1 (torrent_of v1_info)
    (ascii_bytes <$> ["https://new.example/announce"]%string) (ascii_bytes <$> ["udp://other.example:80"]%string)
    MetadataLimits_default.
Definition with_web_seeds_example : result BtError bytes :=
  @with_web_seeds plain_urls concrete_digests short_sha1 (torrent_of v1_info)
    (ascii_bytes <$> ["http://mirror.example/"]%string) MetadataLimits_default.
Definition written (r : result BtError bytes) : bytes := match r with Ok out => out | Err _ => [] end.

Lemma Ok_unique {A} (r : result BtError A) a b : r = Ok a -> r = Ok b -> a = b.
Proof. congruence. Qed.

Definition root_of (data : bytes) : Node :=
  match decode data MetadataLimits_default with Ok root => root | Err _ => mkNode 0 0 (Integer 0) end.

Lemma with_trackers_exact_witness :
  exists m trackers, parse_example (torrent_of v1_info) = Ok m /\ length trackers = 2%nat /\
    parse_example (written with_trackers_example) = Ok (m <| tm_trackers := trackers |>).
Proof.
  exists (parsed (torrent_of v1_info)), (tm_trackers (parsed (written with_trackers_example))).
  split; [vm_compute; reflexivity|]. split; [vm_compute; reflexivity|].
  assert (Hw : with_trackers_example = Ok (written with_trackers_example)) by (vm_compute; reflexivity). unfold with_trackers_example at 1 in Hw.
  destruct (@with_trackers_exact plain_urls plain_url_laws concrete_digests short_sha1 MetadataLimits_default
    (torrent_of v1_info) (ascii_bytes <$> ["https://new.example/announce"]%string)
    (ascii_bytes <$> ["udp://other.example:80"]%string) (written with_trackers_example) Hw)
    as (m & trackers & Hm & Ht & _ & _ & Hout).
  assert (m = parsed (torrent_of v1_info)) as ->.
  { apply (Ok_unique _ _ _ Hm). vm_compute. reflexivity. }
  assert (trackers = tm_trackers (parsed (written with_trackers_example))) as ->.
  { apply (Ok_unique _ _ _ Ht). vm_compute. reflexivity. }
  refine (proj2 (Hout (root_of (written with_trackers_example)) _) _); [vm_compute; reflexivity|].
  apply (bool_decide_unpack _). vm_compute. exact I.
Defined.

Lemma with_web_seeds_exact_witness :
  exists m urls, parse_example (torrent_of v1_info) = Ok m /\
    Forall2 (fun seed url => @endpoint plain_urls seed false = Ok url) (ascii_bytes <$> ["http://mirror.example/"]%string) urls /\
    exists v, canonical v /\ written with_web_seeds_example = encode v.
Proof.
  assert (Hw : with_web_seeds_example = Ok (written with_web_seeds_example)) by (vm_compute; reflexivity). unfold with_web_seeds_example at 1 in Hw.
  destruct (@with_web_seeds_exact plain_urls plain_url_laws concrete_digests short_sha1 MetadataLimits_default
    (torrent_of v1_info) (ascii_bytes <$> ["http://mirror.example/"]%string) (written with_web_seeds_example)
    Hw) as (m & urls & Hm & Hu & _ & Hv & _).
  exists m, urls. split; [exact Hm|]. split; [exact Hu|exact Hv].
Defined.

Definition single_info : bvalue := dictionary [
  ("length", BInteger 5); ("name", text "a"); ("piece length", BInteger 16384); ("pieces", hashes 20)]%string.

(** Room for the info section and not for the dictionary around it. *)
Definition tight_limits : MetadataLimits := mkMetadataLimits 4096 1 100 10 10.

Definition from_info_example (limits : MetadataLimits) : result BtError bytes :=
  @torrent_from_info concrete_digests short_sha1 (encode single_info) limits.

Lemma torrent_from_info_exact_witness :
  @info_section (written (from_info_example MetadataLimits_default)) MetadataLimits_default = Ok (encode single_info).
Proof.
  assert (Hw : from_info_example MetadataLimits_default = Ok (written (from_info_example MetadataLimits_default)))
    by (vm_compute; reflexivity).
  unfold from_info_example at 1 in Hw.
  destruct (@torrent_from_info_exact plain_urls concrete_digests short_sha1 MetadataLimits_default (encode single_info)
    (written (from_info_example MetadataLimits_default)) Hw) as (m & _ & _ & _ & _ & Hout).
  refine (proj1 (Hout (root_of (written (from_info_example MetadataLimits_default))) _)). vm_compute. reflexivity.
Defined.

(** The limits are checked on the info section alone: the torrent written around it nests one level deeper and has two
    tokens more, so under the same limits it may not parse. *)
Lemma torrent_from_info_exceeds_limits :
  exists out, from_info_example tight_limits = Ok out /\
    @parse_torrent plain_urls concrete_digests short_sha1 out tight_limits = Err BtError.MetadataLimit.
Proof. exists (written (from_info_example tight_limits)). split; vm_compute; reflexivity. Qed.
