(* ===== verification/Resume.v ===== *)
(** * Resume files

    Model of [validate_resume] of [crates/ariax-bt-metadata/src/metadata.rs], the check
    of the native resume format, and what an accepted resume file guarantees. *)

From S2P Require Import Prelude Bytes ConcreteDigests Utf8 Paths Journal PayloadTypes MetadataExpansion Bencode BencodeExact Torrent TorrentExample TorrentFiles TorrentIdentity.
From Stdlib Require Import Init.Byte Strings.Byte ZArith.
Open Scope list_scope.

Definition RESUME_LIMITS : MetadataLimits := mkMetadataLimits (64 * 1024 * 1024) (ml_depth MetadataLimits_default)
  1000000 (ml_files MetadataLimits_default) (ml_pieces MetadataLimits_default).

(** [empty] *)
Fixpoint empty_value (value : Node) : bool :=
  match nd_value value with
  | Bytes value => blen value =? 0
  | List values => forallb empty_value values
  | Dictionary values => blen values =? 0
  | Integer _ => false
  end.

(** The keys that may name a path, an endpoint or free text. *)
Definition BLANK_KEYS : list bytes := ascii_bytes <$>
  ["save_path"; "part_file_dir"; "root_certificate"; "mapped_files"; "trackers"; "url-list"; "httpseeds"; "peers"; "peers6";
   "banned_peers"; "banned_peers6"; "url"; "comment"; "created by"]%string.
Definition STATE_KEYS : list bytes := ascii_bytes <$>
  ["file-format"; "file-version"; "info-hash"; "info-hash2"; "info"; "pieces"; "verified"; "trees"; "unfinished";
   "file_priority"; "piece_priority"]%string.
Definition INTEGER_KEYS : list bytes := ascii_bytes <$>
  ["total_uploaded"; "total_downloaded"; "active_time"; "finished_time"; "seeding_time"; "last_seen_complete";
   "last_download"; "last_upload"; "num_complete"; "num_incomplete"; "num_downloaded"; "seed_mode"; "upload_mode";
   "share_mode"; "apply_ip_filter"; "paused"; "auto_managed"; "super_seeding"; "sequential_download"; "stop_when_ready";
   "disable_dht"; "disable_lsd"; "disable_pex"; "disable_v1_hashes"; "added_time"; "completed_time"; "creation date";
   "upload_rate_limit"; "download_rate_limit"; "max_connections"; "max_uploads"]%string.

Definition is_integer (value : Node) : bool := match nd_value value with Integer _ => true | _ => false end.

(** A turn of the loop over the entries. *)
Definition resume_entry (entry : bytes * Node) (done : ()) : result BtError () :=
  let '(name, value) := entry in
  if bool_decide (name ∈ BLANK_KEYS) then
    if negb (empty_value value) then Err BtError.Credentials else Ok ()
  else if bool_decide (name ∈ STATE_KEYS) then Ok ()
  else if bool_decide (name = ascii_bytes "libtorrent-version") then
    raw ← Node_bytes value;
    if 32 <? blen raw then Err BtError.InvalidMetadata
    else
      text ← Node_text value;
      if negb (bool_decide (take 5 text = ascii_bytes "2.1.1")) then Err BtError.InvalidMetadata else Ok ()
  else if bool_decide (name = ascii_bytes "allocation") then
    raw ← Node_bytes value;
    if negb (bool_decide (raw = ascii_bytes "full") || bool_decide (raw = ascii_bytes "sparse"))
    then Err BtError.InvalidMetadata else Ok ()
  else if bool_decide (name = ascii_bytes "name") then
    raw ← Node_bytes value;
    _ ← component raw;
    Ok ()
  else if bool_decide (name ∈ INTEGER_KEYS) then
    if negb (is_integer value) then Err BtError.InvalidMetadata else Ok ()
  else Err BtError.InvalidMetadata.

(** [read_hash] *)
Definition read_hash (root : Node) (name : bytes) (length : N) : result BtError (option str) :=
  match Node_get name root with
  | None => Ok None
  | Some value =>
    raw ← Node_bytes value;
    if negb (blen raw =? length) then Err BtError.IdentityMismatch
    else Ok (if existsb (fun byte => byte != x00) raw then Some (hash_to_string raw) else None)
  end.

Definition resume_format (root : Node) : result BtError bool :=
  format ← Node_required (ascii_bytes "file-format") root;
  format ← Node_bytes format;
  if negb (bool_decide (format = ascii_bytes "libtorrent resume file")) then Ok false
  else
    version ← Node_required (ascii_bytes "file-version") root;
    version ← Node_integer version;
    Ok (version =? 2).

Definition resume_identity (root : Node) : result BtError BtIdentity :=
  v1 ← read_hash root (ascii_bytes "info-hash") 20;
  v2 ← read_hash root (ascii_bytes "info-hash2") 32;
  Ok (mkBtIdentity v1 v2).

Section resume.
Context {digests : Digests} {sha : Sha1}.

Definition validate_resume (data : bytes) (expected : BtIdentity) : result BtError () :=
  root ← decode data RESUME_LIMITS;
  format ← resume_format root;
  if negb (format : bool) then Err BtError.InvalidMetadata
  else
    entries ← Node_dictionary root;
    _ ← for_each resume_entry entries ();
    identity ← resume_identity root;
    if negb (BtIdentity_matches expected identity) then Err BtError.IdentityMismatch
    else
      match Node_get (ascii_bytes "info") root with
      | None => Ok ()
      | Some info =>
        metadata ← parse_info (info_bytes info data) MetadataLimits_default;
        if negb (bool_decide (tm_identity metadata = identity)) then Err BtError.IdentityMismatch else Ok ()
      end.
End resume.

(** ** What an accepted resume file guarantees *)

(** A value without content: no bytes, a list of such values, or an empty dictionary. *)
Fixpoint blank (v : bvalue) : Prop :=
  match v with
  | BInteger _ => False
  | BBytes b => b = []
  | BList l => foldr (fun v acc => blank v /\ acc) True l
  | BDictionary l => l = []
  end.

Lemma blen_zero {A} (l : list A) : (blen l =? 0) = true -> l = [].
Proof. intros H%N.eqb_eq. destruct l; [done|]. rewrite blen_cons in H. lia. Qed.

Lemma empty_value_blank n : empty_value n = true -> blank (value_of n).
Proof.
  induction n as [s e z|s e b|s e l IH|s e l IH] using node_induction; cbn [empty_value nd_value]; intros H.
  - done.
  - by apply blen_zero in H.
  - cbn. induction IH as [|n l Hn _ IH]; [done|]. cbn in H. apply andb_true_iff in H as [H1 H2]. cbn. auto.
  - apply blen_zero in H. by subst.
Qed.

Lemma for_each_unit {A} (f : A -> () -> result BtError ()) l :
  for_each f l () = Ok () -> Forall (fun a => f a () = Ok ()) l.
Proof.
  induction l as [|a l IH]; cbn; [constructor|]. intros ([] & Ha & Hl)%bind_Ok. constructor; auto.
Qed.

(** Every key a resume file may have. *)
Definition KNOWN_KEYS : list bytes :=
  BLANK_KEYS ++ STATE_KEYS ++ INTEGER_KEYS ++ (ascii_bytes <$> ["libtorrent-version"; "allocation"; "name"]%string).

Definition entry_neutral (kv : bytes * bvalue) : Prop :=
  kv.1 ∈ KNOWN_KEYS /\ (kv.1 ∈ BLANK_KEYS -> blank kv.2).

Lemma resume_entry_neutral data e kv : entry_at data e kv -> resume_entry e () = Ok () -> entry_neutral kv.
Proof.
  destruct e as [name n], kv as [k v]. intros (Hk & Hs & _). cbn in Hk, Hs. subst k. unfold resume_entry, entry_neutral, KNOWN_KEYS.
  cbn [fst snd]. rewrite !elem_of_app.
  case_bool_decide as H1.
  { destruct (empty_value n) eqn:He; [|done]. intros _. split; [by left|]. intros _. apply empty_value_blank in He.
    by rewrite Hs, value_of_place in He. }
  case_bool_decide as H2; [intros _; split; [right; by left|done]|].
  assert (Hx : forall s, s ∈ ["libtorrent-version"; "allocation"; "name"]%string ->
    ascii_bytes s ∈ ascii_bytes <$> ["libtorrent-version"; "allocation"; "name"]%string).
  { intros s Hin. by apply list_elem_of_fmap_2. }
  do 3 (case_bool_decide; [subst name; intros _; split; [do 3 right; apply Hx; set_solver|done]|]).
  case_bool_decide as H6; [|done]. intros _. split; [do 2 right; by left|done].
Qed.

(** A hash of the identity is the field's bytes in hexadecimal. *)
Definition field_hash (l : list (bytes * bvalue)) (name : string) (length : N) (hash : option str) : Prop :=
  forall h, hash = Some h ->
  exists raw, value_at (ascii_bytes name) (BDictionary l) = Some (BBytes raw) /\ blen raw = length /\ h = hash_to_string raw.

Lemma read_hash_field l name length hash :
  read_hash (place 0 (BDictionary l)) (ascii_bytes name) length = Ok hash -> field_hash l name length hash.
Proof.
  unfold read_hash, field_hash. intros H h ->. destruct (value_at (ascii_bytes name) (BDictionary l)) as [w|] eqn:Hw.
  2:{ by rewrite (get_None _ _ Hw) in H. }
  destruct (get_Some _ _ _ Hw) as (n & Hn & Hs & _). rewrite Hn in H. apply bind_Ok in H as (raw & Hraw & H). rewrite Hs in Hraw. destruct w as [z|b|k|k]; try done. injection Hraw as ->.
  destruct (N.eqb_spec (blen raw) length); [|done]. cbn in H. destruct (existsb _ raw); [|done]. injection H as <-. by eauto.
Qed.

Section guarantees.
Context {digests : Digests} {sha : Sha1}.

(** C0: a resume file that is accepted for an identity has only known keys; every field that could name a path, a
    certificate, a tracker, a web seed or a peer is empty; the hashes it carries are those expected; and if it embeds
    an info dictionary, the dictionary parses by itself and has exactly the identity the resume file states. *)
Theorem resume_neutral_and_bound data expected :
  validate_resume data expected = Ok () ->
  exists l identity, canonical (BDictionary l) /\ data = encode (BDictionary l) /\ Forall entry_neutral l /\
    field_hash l "info-hash" 20 (bi_v1 identity) /\ field_hash l "info-hash2" 32 (bi_v2 identity) /\
    BtIdentity_matches expected identity = true /\
    forall w, value_at (ascii_bytes "info") (BDictionary l) = Some w ->
      exists m, parse_info (encode w) MetadataLimits_default = Ok m /\ tm_identity m = identity.
Proof.
  unfold validate_resume. intros (root & Hroot & H)%bind_Ok. apply bind_Ok in H as (format & _ & H).
  destruct format; [|done]. cbn [negb] in H. apply bind_Ok in H as (entries & Hent & H). apply bind_Ok in H as ([] & Hall & H).
  apply bind_Ok in H as (identity & Hid & H). destruct (BtIdentity_matches expected identity) eqn:Hm; [|done]. cbn [negb] in H.
  apply decode_sound in Hroot as (_ & _ & v & Hc & _ & _ & -> & ->). destruct v as [z|b|k|l]; try done.
  exists l, identity. unfold resume_identity in Hid. apply bind_Ok in Hid as (v1 & H1 & Hid).
  apply bind_Ok in Hid as (v2 & H2 & [= <-]). split_and!; [done|done| | | |done|].
  - apply for_each_unit in Hall. pose proof (root_entries l) as Hes. rewrite place_BDictionary in Hent.
    assert (entries = place_dictionary 1 l) as -> by (unfold Node_dictionary in Hent; cbn [nd_value] in Hent; by injection Hent).
    clear -Hall Hes. revert Hall. induction Hes as [|e kv es kvs He _ IH]; [constructor|].
    intros [Hn Hall]%Forall_cons. constructor; [by eapply resume_entry_neutral|by apply IH].
  - by apply read_hash_field.
  - by apply read_hash_field.
  - intros w (n & Hn & _ & Hb)%get_Some. rewrite Hn, Hb in H.
    apply bind_Ok in H as (m & Hm' & H). case_bool_decide; [|done]. by eauto.
Qed.
End guarantees.

Definition resume_example : bytes := encode (dictionary [
  ("file-format", text "libtorrent resume file");
  ("file-version", BInteger 2);
  ("info", v1_info);
  ("info-hash", BBytes (short_sha1 (encode v1_info)));
  ("save_path", text "");
  ("total_uploaded", BInteger 0);
  ("trackers", BList [BList []])]%string).
Definition resume_expected : BtIdentity := mkBtIdentity (Some (hash_to_string (short_sha1 (encode v1_info)))) None.

Lemma resume_neutral_and_bound_witness :
  exists l identity, resume_example = encode (BDictionary l) /\ Forall entry_neutral l /\
    BtIdentity_matches resume_expected identity = true.
Proof.
  assert (Hv : @validate_resume concrete_digests short_sha1 resume_example resume_expected = Ok ()) by (vm_compute; reflexivity).
  destruct (@resume_neutral_and_bound concrete_digests short_sha1 resume_example resume_expected Hv)
    as (l & identity & _ & Hl & Hn & _ & _ & Hm & _).
  exists l, identity. split; [exact Hl|]. split; [exact Hn|exact Hm].
Defined.
