(* ===== verification/SocketAddr.v ===== *)
(** * Socket addresses

    The part of the standard library's [std::net] parser that [value.parse()] reaches
    when a magnet names a peer: [SocketAddr::from_str].  Each reader takes the text
    that is left and returns what it read with the rest, or [None] with the text
    untouched, which is what [read_atomically] does. *)

From S2P Require Import Prelude Bytes Utf8 Journal PayloadTypes MetadataExpansion.
From Stdlib Require Import Init.Byte Strings.Byte.
Open Scope list_scope.

Inductive SocketAddr : Set :=
| V4 (octets : list N) (port : N)
| V6 (segments : list N) (port scope_id : N).

Definition to_digit (radix : N) (b : byte) : option N :=
  d ← hex_digit b; if d <? radix then Some d else None.

(** The digits of [read_number]; [None] where the number or the digit count is too large. *)
Fixpoint number_loop (radix : N) (max_digits : option N) (max : N) (count result : N) (s : str) : option (N * N * str) :=
  match s with
  | [] => Some (count, result, s)
  | b :: rest =>
    match to_digit radix b with
    | None => Some (count, result, s)
    | Some digit =>
      let result := result * radix + digit in
      let count := count + 1 in
      if max <? result then None
      else if match max_digits with Some limit => limit <? count | None => false end then None
      else number_loop radix max_digits max count result rest
    end
  end.

Definition zero_digit : byte := x30.

Definition read_number (radix : N) (max_digits : option N) (allow_zero_prefix : bool) (max : N) (s : str)
    : option (N * str) :=
  '(count, result, rest) ← number_loop radix max_digits max 0 0 s;
  if count =? 0 then None
  else if negb allow_zero_prefix && bool_decide (head s = Some zero_digit) && (1 <? count) then None
  else Some (result, rest).

Definition read_given_char (c : byte) (s : str) : option str :=
  match s with b :: rest => if b == c then Some rest else None | [] => None end.

(** [read_separator]: the separator comes before every item but the first. *)
Definition read_separator {A} (sep : byte) (index : N) (inner : str -> option (A * str)) (s : str) : option (A * str) :=
  if index =? 0 then inner s else s ← read_given_char sep s; inner s.

Definition dot : byte := x2e.
Definition colon_char : byte := x3a.

Definition read_octet (index : N) : str -> option (N * str) :=
  read_separator dot index (read_number 10 (Some 3) false 255).

Definition read_ipv4_addr (s : str) : option (list N * str) :=
  '(a, s) ← read_octet 0 s;
  '(b, s) ← read_octet 1 s;
  '(c, s) ← read_octet 2 s;
  '(d, s) ← read_octet 3 s;
  Some ([a; b; c; d], s).

(** An IPv4 address as two groups. *)
Definition ipv4_groups (octets : list N) : list N :=
  match octets with [a; b; c; d] => [a * 256 + b; c * 256 + d] | _ => [] end.

(** [read_groups] with [remaining] groups of [limit] still to fill: the groups and whether they end in an IPv4 address. *)
Fixpoint read_groups (limit : N) (remaining : nat) (index : N) (groups : list N) (s : str) : list N * bool * str :=
  match remaining with
  | O => (groups, false, s)
  | S remaining =>
    match (if index + 1 <? limit then read_separator colon_char index read_ipv4_addr s else None) with
    | Some (octets, s) => (groups ++ ipv4_groups octets, true, s)
    | None =>
      match read_separator colon_char index (read_number 16 (Some 4) true U16_MAX) s with
      | Some (group, s) => read_groups limit remaining (index + 1) (groups ++ [group]) s
      | None => (groups, false, s)
      end
    end
  end.

Definition read_ipv6_addr (s : str) : option (list N * str) :=
  let '(head, head_ipv4, s) := read_groups 8 8 0 [] s in
  if Nat.eqb (length head) 8 then Some (head, s)
  else if (head_ipv4 : bool) then None
  else
    s ← read_given_char colon_char s;
    s ← read_given_char colon_char s;
    let limit := (7 - length head)%nat in
    let '(tail, _, s) := read_groups (N.of_nat limit) limit 0 [] s in
    Some (head ++ replicate (8 - length head - length tail) 0 ++ tail, s).

Definition read_port (s : str) : option (N * str) :=
  s ← read_given_char colon_char s; read_number 10 None true U16_MAX s.

Definition read_scope_id (s : str) : option (N * str) :=
  s ← read_given_char x25 s; read_number 10 None true U32_MAX s.

Definition read_socket_addr_v4 (s : str) : option (SocketAddr * str) :=
  '(ip, s) ← read_ipv4_addr s;
  '(port, s) ← read_port s;
  Some (V4 ip port, s).

Definition read_socket_addr_v6 (s : str) : option (SocketAddr * str) :=
  s ← read_given_char x5b s;
  '(ip, s) ← read_ipv6_addr s;
  let '(scope_id, s) := default (0, s) (read_scope_id s) in
  s ← read_given_char x5d s;
  '(port, s) ← read_port s;
  Some (V6 ip port scope_id, s).

Definition SocketAddr_from_str (s : str) : option SocketAddr :=
  match (match read_socket_addr_v4 s with Some r => Some r | None => read_socket_addr_v6 s end) with
  | Some (addr, []) => Some addr
  | _ => None
  end.

(** ** Ranges *)

Definition addr_typed (addr : SocketAddr) : Prop :=
  match addr with
  | V4 octets port => length octets = 4%nat /\ Forall (fun o => o <= 255) octets /\ port <= U16_MAX
  | V6 segments port scope_id =>
    length segments = 8%nat /\ Forall (fun g => g <= U16_MAX) segments /\ port <= U16_MAX /\ scope_id <= U32_MAX
  end.

Lemma number_loop_le radix max_digits max count result s c r rest :
  result <= max -> number_loop radix max_digits max count result s = Some (c, r, rest) -> r <= max.
Proof.
  revert count result. induction s as [|b s IH]; intros count result Hr; cbn [number_loop]; [by intros [= <- <- <-]|].
  destruct (to_digit radix b) as [d|]; [|by intros [= <- <- <-]].
  destruct (N.ltb_spec max (result * radix + d)); [done|]. 
  match goal with |- (if ?b then None else _) = _ -> _ => destruct b; [done|] end. by apply IH.
Qed.

Lemma read_number_le radix max_digits zero max s n rest : read_number radix max_digits zero max s = Some (n, rest) -> n <= max.
Proof.
  unfold read_number. destruct (number_loop _ _ _ _ _ _) as [[[c r] rest']|] eqn:Hl; [|done]. cbn.
  destruct (c =? 0); [done|]. destruct (_ && _); [done|]. intros [= <- <-]. eapply number_loop_le, Hl. apply N.le_0_l.
Qed.

Lemma read_separator_inner {A} sep index (inner : str -> option (A * str)) s r :
  read_separator sep index inner s = Some r -> exists s', inner s' = Some r.
Proof.
  unfold read_separator. destruct (index =? 0); [by eauto|]. destruct (read_given_char sep s) as [s'|]; [|done]. cbn. by eauto.
Qed.

Lemma read_octet_le index s n rest : read_octet index s = Some (n, rest) -> n <= 255.
Proof. intros (s' & H)%read_separator_inner. by eapply read_number_le. Qed.

Lemma read_ipv4_typed s octets rest :
  read_ipv4_addr s = Some (octets, rest) -> length octets = 4%nat /\ Forall (fun o => o <= 255) octets.
Proof.
  unfold read_ipv4_addr. intros ([a s1] & Ha & H)%bind_Some. apply bind_Some in H as ([b s2] & Hb & H).
  apply bind_Some in H as ([c s3] & Hc & H). apply bind_Some in H as ([d s4] & Hd & [= <- <-]).
  split; [done|]. apply read_octet_le in Ha, Hb, Hc, Hd. by repeat constructor.
Qed.

Lemma ipv4_groups_typed octets :
  length octets = 4%nat -> Forall (fun o => o <= 255) octets ->
  length (ipv4_groups octets) = 2%nat /\ Forall (fun g => g <= U16_MAX) (ipv4_groups octets).
Proof.
  destruct octets as [|a [|b [|c [|d [|]]]]]; try done. intros _ H. rewrite !Forall_cons in H. cbn.
  split; [done|]. unfold U16_MAX. repeat constructor; lia.
Qed.

Lemma read_groups_typed limit remaining index groups s gs ipv4 rest :
  blen groups = index -> index + N.of_nat remaining = limit -> Forall (fun g => g <= U16_MAX) groups ->
  read_groups limit remaining index groups s = (gs, ipv4, rest) -> blen gs <= limit /\ Forall (fun g => g <= U16_MAX) gs.
Proof.
  revert index groups s. induction remaining as [|remaining IH]; intros index groups s Hg Hl Ht; cbn [read_groups].
  - intros [= <- <- <-]. split; [lia|done].
  - destruct (if index + 1 <? limit then _ else None) as [[octets s']|] eqn:Hip.
    + destruct (N.ltb_spec (index + 1) limit); [|done]. intros [= <- <- <-].
      apply read_separator_inner in Hip as (s0 & [Hlen Ho]%read_ipv4_typed).
      destruct (ipv4_groups_typed octets Hlen Ho) as [H2 Hgs]. rewrite blen_app, Forall_app. unfold blen at 2. rewrite H2.
      split; [lia|done].
    + destruct (read_separator _ _ (read_number _ _ _ _) s) as [[g s']|] eqn:Hn; [|intros [= <- <- <-]; split; [lia|done]].
      apply read_separator_inner in Hn as (s0 & Hn%read_number_le). apply IH; [rewrite blen_app, blen_cons, blen_nil; lia|lia|].
      by rewrite Forall_app, Forall_singleton.
Qed.

Lemma read_ipv6_typed s segments rest :
  read_ipv6_addr s = Some (segments, rest) -> length segments = 8%nat /\ Forall (fun g => g <= U16_MAX) segments.
Proof.
  unfold read_ipv6_addr. destruct (read_groups 8 8 0 [] s) as [[head ipv4] s1] eqn:Hh.
  apply read_groups_typed in Hh as [Hlen Ht]; [|done|done|apply Forall_nil_2].
  destruct (Nat.eqb_spec (length head) 8) as [H8|_]; [by intros [= <- <-]|]. destruct ipv4; [done|].
  intros (s2 & _ & H)%bind_Some. apply bind_Some in H as (s3 & _ & H).
  destruct (read_groups _ _ 0 [] s3) as [[tail ipv4'] s4] eqn:Htail.
  apply read_groups_typed in Htail as [Hlen' Ht']; [|done|done|apply Forall_nil_2]. injection H as <- <-.
  unfold blen in *. rewrite !length_app, length_replicate, !Forall_app. split; [lia|]. split_and!; [done| |done].
  apply Forall_replicate. by vm_compute.
Qed.

(** A parsed address has its groups and port in range. *)
Lemma SocketAddr_from_str_typed s addr : SocketAddr_from_str s = Some addr -> addr_typed addr.
Proof.
  unfold SocketAddr_from_str. destruct (read_socket_addr_v4 s) as [[a [|]]|] eqn:H4; [|done|].
  - intros [= <-]. apply bind_Some in H4 as ([ip s1] & Hip & H). apply bind_Some in H as ([port s2] & Hport & [= <- ->]).
    apply bind_Some in Hport as (s3 & _ & Hport%read_number_le). apply read_ipv4_typed in Hip as [? ?]. done.
  - destruct (read_socket_addr_v6 s) as [[a [|]]|] eqn:H6; [|done|done]. intros [= <-].
    apply bind_Some in H6 as (s1 & _ & H). apply bind_Some in H as ([ip s2] & Hip%read_ipv6_typed & H).
    destruct (default (0, s2) (read_scope_id s2)) as [scope s3] eqn:Hscope.
    apply bind_Some in H as (s4 & _ & H). apply bind_Some in H as ([port s5] & Hport & [= <- ->]).
    apply bind_Some in Hport as (s6 & _ & Hport%read_number_le). destruct Hip as [? ?]. split_and!; [done..|].
    destruct (read_scope_id s2) as [[n s7]|] eqn:Hs; cbn in Hscope; [|by injection Hscope as <- _].
    injection Hscope as <- _. apply bind_Some in Hs as (s8 & _ & Hs). by apply read_number_le in Hs.
Qed.

(** ** Examples *)

Lemma socket_addr_examples :
  SocketAddr_from_str (ascii_bytes "192.0.2.1:6881") = Some (V4 [192; 0; 2; 1] 6881) /\
  SocketAddr_from_str (ascii_bytes "192.0.2.01:80") = None /\
  SocketAddr_from_str (ascii_bytes "192.0.2.256:80") = None /\
  SocketAddr_from_str (ascii_bytes "[::1]:80") = Some (V6 [0; 0; 0; 0; 0; 0; 0; 1] 80 0) /\
  SocketAddr_from_str (ascii_bytes "[fe80::a%3]:65535") = Some (V6 [0xfe80; 0; 0; 0; 0; 0; 0; 10] 65535 3) /\
  SocketAddr_from_str (ascii_bytes "[::ffff:192.0.2.1]:1") = Some (V6 [0; 0; 0; 0; 0; 0xffff; 0xc000; 0x201] 1 0) /\
  SocketAddr_from_str (ascii_bytes "::1:80") = None /\
  SocketAddr_from_str (ascii_bytes "192.0.2.1:65536") = None.
Proof. vm_compute. repeat split. Qed.
