(* ===== verification/Magnet.v ===== *)
(** * Magnets

    Model of the magnet part of [crates/ariax-bt-metadata/src/metadata.rs]: the
    hexadecimal and base32 hashes, [parse_magnet] and [magnet_with_trackers], and what
    an accepted magnet guarantees.  The [url] crate is the parameter of [Torrent]. *)

From S2P Require Import Prelude Ids Bytes ConcreteDigests Utf8 Paths Journal PayloadTypes MetadataExpansion Bencode BencodeExact Torrent TorrentExample TorrentFiles TorrentIdentity TorrentRewrite SocketAddr.
From Stdlib Require Import Init.Byte Strings.Byte ZArith.
Open Scope list_scope.

Record Magnet : Set := mkMagnet {
  mg_identity : BtIdentity;
  mg_name : option str;
  mg_trackers : list str;
  mg_web_seeds : list str;
  mg_peers : list SocketAddr;
}.
#[global] Instance Magnet_eta : Settable Magnet := fun r =>
  mkMagnet (mg_identity r) (mg_name r) (mg_trackers r) (mg_web_seeds r) (mg_peers r).
#[global] Instance mg_identity_set : Setter mg_identity. Proof. derive_setter. Defined.
#[global] Instance mg_name_set : Setter mg_name. Proof. derive_setter. Defined.
#[global] Instance mg_trackers_set : Setter mg_trackers. Proof. derive_setter. Defined.
#[global] Instance mg_web_seeds_set : Setter mg_web_seeds. Proof. derive_setter. Defined.
#[global] Instance mg_peers_set : Setter mg_peers. Proof. derive_setter. Defined.

(** ** Hashes *)

Definition is_ascii_hexdigit (b : byte) : bool := is_some (hex_digit b).

Definition hash (value : str) (length : N) : result BtError str :=
  if negb (blen value =? length) || negb (forallb is_ascii_hexdigit value) then Err BtError.InvalidMagnet
  else Ok (to_ascii_lowercase value).

Definition base32_digit (b : byte) : option N :=
  let upper := ascii_uppercase b in
  if is_ascii_uppercase upper then Some (byte_val upper - 65)
  else if Utf8.between 50 55 (byte_val upper) then Some (byte_val b - 50 + 26)
  else None.

(** The bytes so far, the [u32] buffer and the number of its bits still to be written. *)
Fixpoint base32_loop (value : str) (data : bytes) (buffer bits : N) : result BtError bytes :=
  match value with
  | [] => Ok data
  | byte :: value =>
    digit ← ok_or (base32_digit byte) BtError.InvalidMagnet;
    let buffer := N.lor (N.land (N.shiftl buffer 5) U32_MAX) digit in
    let bits := bits + 5 in
    if 8 <=? bits
    then base32_loop value (data ++ [byte_of (N.shiftr buffer (bits - 8))]) buffer (bits - 8)
    else base32_loop value data buffer bits
  end.

Definition btih (value : str) : result BtError str :=
  if negb (blen value =? 32) then hash value 40
  else data ← base32_loop value [] 0 0; Ok (hash_to_string data).

(** [strip_prefix] *)
Definition strip_prefix (prefix : string) (value : str) : option str :=
  let prefix := ascii_bytes prefix in
  if bool_decide (take (length prefix) value = prefix) then Some (drop (length prefix) value) else None.

(** ** Parsing *)

Section magnet.
Context {urls : Urls}.

(** [*slot = Some(value)] unless the slot has another hash. *)
Definition set_slot (slot : option str) (value : str) : result BtError (option str) :=
  if match slot with Some previous => negb (bool_decide (previous = value)) | None => false end
  then Err BtError.IdentityMismatch
  else Ok (Some value).

Definition magnet_xt (value : str) (magnet : Magnet) : result BtError Magnet :=
  let identity := mg_identity magnet in
  match strip_prefix "urn:btih:" value with
  | Some value =>
    value ← btih value;
    v1 ← set_slot (bi_v1 identity) value;
    Ok (magnet <| mg_identity := mkBtIdentity v1 (bi_v2 identity) |>)
  | None =>
    match strip_prefix "urn:btmh:1220" value with
    | Some value =>
      value ← hash value 64;
      v2 ← set_slot (bi_v2 identity) value;
      Ok (magnet <| mg_identity := mkBtIdentity (bi_v1 identity) v2 |>)
    | None => Err BtError.InvalidMagnet
    end
  end.

(** A turn of the loop over the query pairs. *)
Definition magnet_pair (key value : str) (magnet : Magnet) : result BtError Magnet :=
  if bool_decide (key = ascii_bytes "xt") then magnet_xt value magnet
  else if bool_decide (key = ascii_bytes "dn") then
    if is_some (mg_name magnet) then Err BtError.InvalidMagnet
    else name ← component value; Ok (magnet <| mg_name := Some name |>)
  else if bool_decide (key = ascii_bytes "tr") then
    if 64 <=? blen (mg_trackers magnet) then Err BtError.MetadataLimit
    else url ← endpoint value true; Ok (magnet <| mg_trackers := mg_trackers magnet ++ [url] |>)
  else if bool_decide (key = ascii_bytes "ws") then
    if 64 <=? blen (mg_web_seeds magnet) then Err BtError.MetadataLimit
    else url ← endpoint value false; Ok (magnet <| mg_web_seeds := mg_web_seeds magnet ++ [url] |>)
  else if bool_decide (key = ascii_bytes "x.pe") then
    if 32 <=? blen (mg_peers magnet) then Err BtError.MetadataLimit
    else
      peer ← ok_or (SocketAddr_from_str value) BtError.Destination;
      Ok (magnet <| mg_peers := mg_peers magnet ++ [peer] |>)
  else Err BtError.InvalidMagnet.

Fixpoint magnet_pairs (index : N) (pairs : list (str * str)) (magnet : Magnet) : result BtError Magnet :=
  match pairs with
  | [] => Ok magnet
  | (key, value) :: pairs =>
    if 128 <=? index then Err BtError.MetadataLimit
    else magnet ← magnet_pair key value magnet; magnet_pairs (index + 1) pairs magnet
  end.

Definition parse_magnet (value : str) : result BtError Magnet :=
  if (65536 <? blen value) || existsb is_control (chars value) then Err BtError.InvalidMagnet
  else
    url ← ok_or (url_parse value) BtError.InvalidMagnet;
    if negb (bool_decide (url_scheme url = ascii_bytes "magnet")) || is_some (url_host_str url)
       || negb (blen (url_path url) =? 0) || is_some (url_fragment url)
    then Err BtError.InvalidMagnet
    else
      magnet ← magnet_pairs 0 (url_query_pairs url) (mkMagnet BtIdentity_default None [] [] []);
      if negb (is_some (bi_v1 (mg_identity magnet))) && negb (is_some (bi_v2 (mg_identity magnet)))
      then Err BtError.InvalidMagnet
      else Ok magnet.

Definition tr_pair (url : str) : str * str := (ascii_bytes "tr", url).

Definition magnet_with_trackers (value : str) (add exclude : list str) : result BtError str :=
  magnet ← parse_magnet value;
  trackers ← change_trackers (mg_trackers magnet) add exclude;
  url ← ok_or (url_parse value) BtError.InvalidMagnet;
  let pairs := filter (fun pair => pair.1 <> ascii_bytes "tr") (url_query_pairs url) in
  let url := url_with_pairs (pairs ++ (tr_pair <$> trackers)) url in
  let output := url_to_string url in
  _ ← parse_magnet output;
  Ok output.
End magnet.

(** ** Base32 *)

(** The number a list of digits writes in a base. *)
Definition number (base : N) (digits : list N) : N := foldl (fun acc d => acc * base + d) 0 digits.

Lemma number_snoc base digits d : number base (digits ++ [d]) = number base digits * base + d.
Proof. unfold number. by rewrite foldl_app. Qed.

Lemma base32_digit_lt b d : base32_digit b = Some d -> d < 32.
Proof.
  intros H. pose proof (forall_below 256 (fun n => match base32_digit (byte_of n) with Some d => d <? 32 | None => true end)
    ltac:(by vm_compute) (byte_val b) (byte_val_lt b)) as Hall. cbv beta in Hall. rewrite byte_of_val, H in Hall.
  by apply N.ltb_lt in Hall.
Qed.

(** The buffer after a digit. *)
Definition shift_in (buffer digit : N) : N := N.lor (N.land (N.shiftl buffer 5) U32_MAX) digit.

Lemma shiftl_or_digit buffer digit : digit < 32 -> N.lor (N.shiftl buffer 5) digit = buffer * 32 + digit.
Proof.
  intros Hd. set (x := N.lor _ _).
  assert (Hdiv : x / 32 = buffer).
  { change 32 with (2 ^ 5). unfold x. rewrite <- N.shiftr_div_pow2, N.shiftr_lor, N.shiftr_shiftl_l, N.sub_diag by done.
    rewrite N.shiftl_0_r, (N.shiftr_div_pow2 digit). change (2 ^ 5) with 32. rewrite (N.div_small _ _ Hd). apply N.lor_0_r. }
  assert (Hmod : x mod 32 = digit).
  { change 32 with (2 ^ 5). unfold x. rewrite <- N.land_ones, N.land_lor_distr_l, !N.land_ones, N.shiftl_mul_pow2.
    rewrite N.Div0.mod_mul, N.lor_0_l. by apply N.mod_small. }
  rewrite (N.div_mod x 32), Hdiv, Hmod by done. lia.
Qed.

Lemma shift_in_mod buffer digit k :
  digit < 32 -> k <= 12 -> shift_in buffer digit mod 2 ^ k = (buffer * 32 + digit) mod 2 ^ k.
Proof.
  intros Hd Hk. unfold shift_in. change U32_MAX with (N.ones 32). rewrite <- (shiftl_or_digit buffer digit Hd), <- !N.land_ones.
  apply N.bits_inj. intros i. rewrite !N.land_spec, !N.lor_spec, !N.land_spec. destruct (N.lt_ge_cases i k) as [Hi|Hi].
  - rewrite (N.ones_spec_low 32 i) by lia. by rewrite andb_true_r.
  - rewrite (N.ones_spec_high k i) by lia. by rewrite !andb_false_r.
Qed.

(** The bytes as a number. *)
Definition bytes_number (data : bytes) : N := number 256 (byte_val <$> data).

(** The bytes written and the pending bits of the buffer write [n]. *)
Definition base32_holds (data : bytes) (buffer bits n : N) : Prop :=
  bits < 8 /\ bytes_number data * 2 ^ bits + buffer mod 2 ^ bits = n.

Lemma mod_pow2_split x a c : x mod 2 ^ (a + c) = (x / 2 ^ a) mod 2 ^ c * 2 ^ a + x mod 2 ^ a.
Proof.
  pose proof (N.pow_nonzero 2 a ltac:(done)). rewrite N.pow_add_r, N.Div0.mod_mul_r. lia.
Qed.

Lemma base32_turn data buffer bits n digit :
  digit < 32 -> base32_holds data buffer bits n ->
  let buffer' := shift_in buffer digit in let bits' := bits + 5 in
  bytes_number data * 2 ^ bits' + buffer' mod 2 ^ bits' = n * 32 + digit.
Proof.
  intros Hd [Hb Hn] buffer' bits'. unfold buffer', bits'. rewrite shift_in_mod by lia.
  rewrite (N.add_comm bits 5), (mod_pow2_split _ 5 bits), N.pow_add_r. change (2 ^ 5) with 32.
  rewrite (N.add_comm (buffer * 32)), N.div_add, N.Div0.mod_add by done.
  rewrite (N.div_small digit 32), N.add_0_l, (N.mod_small digit 32) by done. lia.
Qed.

Lemma base32_push data buffer bits :
  8 <= bits ->
  bytes_number (data ++ [byte_of (N.shiftr buffer (bits - 8))]) * 2 ^ (bits - 8) + buffer mod 2 ^ (bits - 8)
  = bytes_number data * 2 ^ bits + buffer mod 2 ^ bits.
Proof.
  intros Hb. unfold bytes_number. rewrite fmap_app. cbn [fmap list_fmap]. rewrite number_snoc, byte_val_of, N.shiftr_div_pow2.
  replace bits with (bits - 8 + 8) at 4 5 by lia. rewrite mod_pow2_split, N.pow_add_r. change (2 ^ 8) with 256. lia.
Qed.

Lemma base32_loop_number value ds data buffer bits n :
  mapM base32_digit value = Some ds -> base32_holds data buffer bits n ->
  exists data' buffer' bits', base32_loop value data buffer bits = Ok data' /\
    base32_holds data' buffer' bits' (foldl (fun acc d => acc * 32 + d) n ds) /\
    8 * blen data' + bits' = 8 * blen data + bits + 5 * blen value.
Proof.
  revert ds data buffer bits n. induction value as [|b value IH]; intros ds data buffer bits n Hds Hh.
  - injection Hds as <-. exists data, buffer, bits. split_and!; [done|done|]. change (blen []) with 0. lia.
  - cbn [mapM] in Hds. apply bind_Some in Hds as (d & Hd & Hds). apply bind_Some in Hds as (ds' & Hds & [= <-]).
    pose proof (base32_digit_lt _ _ Hd) as Hlt. pose proof (base32_turn _ _ _ _ _ Hlt Hh) as Hturn. cbv zeta in Hturn.
    destruct Hh as [Hb _]. cbn [base32_loop]. rewrite Hd. cbn [ok_or mbind result_bind foldl].
    fold (shift_in buffer d). rewrite blen_cons. destruct (N.leb_spec 8 (bits + 5)) as [H8|H8].
    + edestruct (IH ds') as (data' & buffer' & bits' & -> & Hh' & Hl); [done| |].
      { split; [|etransitivity; [by apply base32_push|exact Hturn]]. lia. }
      exists data', buffer', bits'. split_and!; [done|done|]. rewrite blen_app, blen_cons, blen_nil in Hl. lia.
    + edestruct (IH ds') as (data' & buffer' & bits' & -> & Hh' & Hl); [done|by split; [|exact Hturn]|].
      exists data', buffer', bits'. split_and!; [done|done|lia].
Qed.

Lemma base32_loop_invalid value data buffer bits :
  mapM base32_digit value = None -> base32_loop value data buffer bits = Err BtError.InvalidMagnet.
Proof.
  revert data buffer bits. induction value as [|b value IH]; intros data buffer bits; [done|]. cbn [mapM base32_loop].
  destruct (base32_digit b) as [d|]; [|done]. cbn [ok_or mbind result_bind option_bind].
  destruct (mapM base32_digit value) as [ds|]; [done|]. intros _. destruct (8 <=? bits + 5); by apply IH.
Qed.

(** C0: a 32-character info hash is read as base32, letters of either case: it is accepted exactly when every character
    is a base32 digit, and the result is the hexadecimal text of the twenty bytes that write the same 160-bit number. *)
Theorem btih_base32_exact value :
  blen value = 32 ->
  match mapM base32_digit value with
  | None => btih value = Err BtError.InvalidMagnet
  | Some ds => exists data, length data = 20%nat /\ bytes_number data = number 32 ds /\ btih value = Ok (hash_to_string data)
  end.
Proof.
  intros Hlen. unfold btih. rewrite Hlen. cbn [negb N.eqb Pos.eqb]. destruct (mapM base32_digit value) as [ds|] eqn:Hds.
  - destruct (base32_loop_number value ds [] 0 0 0 Hds) as (data & buffer & bits & Hok & [Hb Hn] & Hl); [by split|].
    rewrite Hlen in Hl. change (blen []) with 0 in Hl. assert (bits = 0) as -> by lia. exists data. split_and!.
    + unfold blen in Hl. lia.
    + rewrite N.mod_1_r, N.mul_1_r, N.add_0_r in Hn. exact Hn.
    + by rewrite Hok.
  - by rewrite base32_loop_invalid.
Qed.

Definition base32_example : str := ascii_bytes "MFRGGZDFMZTWQ2LKnnwg23tpobyxe43u".

Lemma btih_base32_exact_witness :
  exists data, length data = 20%nat /\ bytes_number data = number 32 (default [] (mapM base32_digit base32_example)) /\
    btih base32_example = Ok (hash_to_string data).
Proof. exact (btih_base32_exact base32_example eq_refl). Defined.

Lemma base32_example_bytes : btih base32_example = Ok (hash_to_string (ascii_bytes "abcdefghijklmnopqrst")).
Proof. vm_compute. reflexivity. Qed.

(** ** Accepted magnets *)

(** Hexadecimal text in lower case. *)
Definition hash_text (length : N) (h : str) : Prop :=
  blen h = length /\ Forall (fun b => is_ascii_digit b || Utf8.between 97 102 (byte_val b) = true) h.

Definition optional (P : str -> Prop) (o : option str) : Prop := match o with Some s => P s | None => True end.

Lemma lowercase_hex b :
  is_ascii_hexdigit b = true ->
  is_ascii_digit (ascii_lowercase b) || Utf8.between 97 102 (byte_val (ascii_lowercase b)) = true.
Proof.
  intros H. pose proof (forall_below 256 (fun n => negb (is_ascii_hexdigit (byte_of n))
    || (is_ascii_digit (ascii_lowercase (byte_of n)) || Utf8.between 97 102 (byte_val (ascii_lowercase (byte_of n)))))
    ltac:(by vm_compute) (byte_val b) (byte_val_lt b)) as Hall. cbv beta in Hall. rewrite byte_of_val, H in Hall. exact Hall.
Qed.

Lemma hash_hash_text value n h : hash value n = Ok h -> hash_text n h.
Proof.
  unfold hash. destruct (_ || _) eqn:Hg; [done|]. intros [= <-]. apply orb_false_iff in Hg as [Hl Hh].
  apply negb_false_iff, N.eqb_eq in Hl. apply negb_false_iff in Hh. rewrite forallb_forall in Hh.
  split; [unfold blen, to_ascii_lowercase in *; by rewrite length_fmap|].
  apply Forall_fmap, Forall_forall. intros b Hb%list_elem_of_In%Hh. by apply lowercase_hex.
Qed.

Lemma hash_to_string_text data : hash_text (2 * blen data) (hash_to_string data).
Proof.
  unfold hash_to_string. induction data as [|b data [IHl IH]]; [split; [done|apply Forall_nil_2]|].
  rewrite fmap_cons. cbn [concat]. split.
  - rewrite blen_app, IHl, blen_cons. change (blen (hex_byte b)) with 2. lia.
  - apply Forall_app. split; [|exact IH]. pose proof (forall_below 256 (fun n => forallb (fun b => is_ascii_digit b
      || Utf8.between 97 102 (byte_val b)) (hex_byte (byte_of n))) ltac:(by vm_compute) (byte_val b) (byte_val_lt b)) as Hall.
    cbv beta in Hall. rewrite byte_of_val, forallb_forall in Hall. apply Forall_forall. intros c Hc%list_elem_of_In.
    by apply Hall.
Qed.

Lemma btih_hash_text value h : btih value = Ok h -> hash_text 40 h.
Proof.
  unfold btih. destruct (N.eqb_spec (blen value) 32) as [Hlen|]; cbn [negb]; [|by apply hash_hash_text].
  intros (data & Hdata & [= <-])%bind_Ok. destruct (mapM base32_digit value) as [ds|] eqn:Hds.
  - destruct (base32_loop_number value ds [] 0 0 0 Hds) as (data' & buffer & bits & Hok & [Hb _] & Hl); [by split|].
    assert (data' = data) as -> by congruence. rewrite Hlen in Hl. change (blen []) with 0 in Hl.
    replace 40 with (2 * blen data) by lia. apply hash_to_string_text.
  - by rewrite base32_loop_invalid in Hdata.
Qed.

Section guarantees.
Context {urls : Urls}.

Record magnet_wf (m : Magnet) : Prop := {
  mgw_v1 : optional (hash_text 40) (bi_v1 (mg_identity m));
  mgw_v2 : optional (hash_text 64) (bi_v2 (mg_identity m));
  mgw_name : optional part_safe (mg_name m);
  mgw_trackers : Forall (normalized true) (mg_trackers m) /\ blen (mg_trackers m) <= 64;
  mgw_web_seeds : Forall (normalized false) (mg_web_seeds m) /\ blen (mg_web_seeds m) <= 64;
  mgw_peers : Forall addr_typed (mg_peers m) /\ blen (mg_peers m) <= 32;
}.

Lemma set_slot_Ok slot value slot' : set_slot slot value = Ok slot' -> slot' = Some value.
Proof.
  unfold set_slot. match goal with |- (if ?b then _ else _) = _ -> _ => destruct b; [done|] end. by intros [= <-].
Qed.

Lemma push_bounded {A} (P : A -> Prop) l x n :
  Forall P l /\ blen l <= n -> blen l < n -> P x -> Forall P (l ++ [x]) /\ blen (l ++ [x]) <= n.
Proof. intros [Hl _] Hn Hx. rewrite Forall_app, Forall_singleton, blen_app, blen_cons, blen_nil. split; [done|lia]. Qed.

Lemma magnet_xt_wf value m m' : magnet_wf m -> magnet_xt value m = Ok m' -> magnet_wf m'.
Proof.
  destruct m as [[v1 v2] name ts ws ps]. intros []. unfold magnet_xt. cbn [mg_identity bi_v1 bi_v2].
  destruct (strip_prefix "urn:btih:" value) as [rest|].
  - intros (h & Hh%btih_hash_text & H)%bind_Ok. apply bind_Ok in H as (s & ->%set_slot_Ok & [= <-]). by constructor.
  - destruct (strip_prefix _ value) as [rest|]; [|done].
    intros (h & Hh%hash_hash_text & H)%bind_Ok. apply bind_Ok in H as (s & ->%set_slot_Ok & [= <-]). by constructor.
Qed.

Lemma magnet_pair_wf key value m m' : magnet_wf m -> magnet_pair key value m = Ok m' -> magnet_wf m'.
Proof.
  intros Hwf. unfold magnet_pair. case_bool_decide; [by apply magnet_xt_wf|].
  destruct m as [identity name ts ws ps]. destruct Hwf as [H1 H2 Hn Ht Hw Hp]. cbn in *.
  case_bool_decide.
  { destruct (is_some name); [done|]. intros (c & [_ Hc]%component_safe_part & [= <-])%bind_Ok. by constructor. }
  case_bool_decide.
  { destruct (N.leb_spec 64 (blen ts)); [done|]. intros (u & Hu & [= <-])%bind_Ok. constructor; try done.
    apply push_bounded; [done|done|]. by exists value. }
  case_bool_decide.
  { destruct (N.leb_spec 64 (blen ws)); [done|]. intros (u & Hu & [= <-])%bind_Ok. constructor; try done.
    apply push_bounded; [done|done|]. by exists value. }
  case_bool_decide; [|done]. destruct (N.leb_spec 32 (blen ps)); [done|].
  intros (peer & Hpeer%ok_or_Ok & [= <-])%bind_Ok. constructor; try done.
  apply push_bounded; [done|done|]. by eapply SocketAddr_from_str_typed.
Qed.

Lemma magnet_pairs_wf index pairs m m' : magnet_wf m -> magnet_pairs index pairs m = Ok m' -> magnet_wf m'.
Proof.
  revert index m. induction pairs as [|[key value] pairs IH]; intros index m Hm; cbn [magnet_pairs]; [by intros [= <-]|].
  destruct (128 <=? index); [done|]. intros (m1 & H1 & H)%bind_Ok. by eapply IH, H; eapply magnet_pair_wf.
Qed.

Definition blank_magnet : Magnet := mkMagnet BtIdentity_default None [] [] [].

(** The steps of a successful parse. *)
Lemma parse_magnet_pairs value m :
  parse_magnet value = Ok m ->
  exists u, url_parse value = Some u /\ magnet_pairs 0 (url_query_pairs u) blank_magnet = Ok m /\
    is_some (bi_v1 (mg_identity m)) || is_some (bi_v2 (mg_identity m)) = true.
Proof.
  unfold parse_magnet. destruct (_ || _); [done|]. intros (u & Hu%ok_or_Ok & H)%bind_Ok. destruct (_ || _); [done|].
  apply bind_Ok in H as (m1 & Hm & H). exists u. destruct (_ && _) eqn:Hid; [done|]. injection H as <-.
  split_and!; [done|done|]. by destruct (is_some _), (is_some _).
Qed.

Lemma parse_magnet_wf value m : parse_magnet value = Ok m -> magnet_wf m.
Proof.
  intros (u & _ & H & _)%parse_magnet_pairs. eapply magnet_pairs_wf, H.
  constructor; try done; split; done || apply Forall_nil_2.
Qed.

(** C0: an accepted magnet has at least one hash; a version 1 hash is 40 and a version 2 hash 64 lower-case hexadecimal
    digits, whatever form the magnet wrote it in; its name is a safe path component; it has at most 64 trackers and 64
    web seeds, each a serialized endpoint without credentials, and at most 32 peers with addresses and ports in range. *)
Theorem magnet_sound value m :
  parse_magnet value = Ok m ->
  magnet_wf m /\ is_some (bi_v1 (mg_identity m)) || is_some (bi_v2 (mg_identity m)) = true.
Proof. intros H. split; [by eapply parse_magnet_wf|]. by apply parse_magnet_pairs in H as (? & _ & _ & ?). Qed.
End guarantees.

(** ** Changed magnets *)

Section laws.
Context {urls : Urls} {laws : UrlLaws}.

(** A turn for another key does not look at the trackers. *)
Lemma magnet_pair_other key value m m' trackers :
  key <> ascii_bytes "tr" -> magnet_pair key value m = Ok m' ->
  magnet_pair key value (m <| mg_trackers := trackers |>) = Ok (m' <| mg_trackers := trackers |>).
Proof.
  intros Hk. destruct m as [[v1 v2] name ts ws ps]. unfold magnet_pair, magnet_xt.
  case_bool_decide as Hxt.
  { cbn. destruct (strip_prefix "urn:btih:" value) as [rest|]; [|destruct (strip_prefix _ value) as [rest|]; [|done]];
      intros (h & Hh & H)%bind_Ok; apply bind_Ok in H as (s & Hs & [= <-]); rewrite Hh; cbn; by rewrite Hs. }
  case_bool_decide; [cbn; destruct (is_some name); [done|]; intros (c & Hc & [= <-])%bind_Ok; by rewrite Hc|].
  case_bool_decide; [done|].
  case_bool_decide; [cbn; destruct (64 <=? _); [done|]; intros (u & Hu & [= <-])%bind_Ok; by rewrite Hu|].
  case_bool_decide; [|done]. cbn. destruct (32 <=? _); [done|]. intros (p & Hp & [= <-])%bind_Ok. by rewrite Hp.
Qed.

Lemma magnet_pair_tr value m m' :
  magnet_pair (ascii_bytes "tr") value m = Ok m' ->
  exists url, endpoint value true = Ok url /\ m' = m <| mg_trackers := mg_trackers m ++ [url] |>.
Proof.
  unfold magnet_pair. rewrite !bool_decide_eq_false_2, bool_decide_eq_true_2 by done. destruct (_ <=? _); [done|].
  intros (url & Hurl & [= <-])%bind_Ok. by exists url.
Qed.

Lemma set_trackers_twice (m : Magnet) a b : m <| mg_trackers := a |> <| mg_trackers := b |> = m <| mg_trackers := b |>.
Proof. by destruct m. Qed.

(** The run over the pairs without the trackers. *)
Lemma magnet_pairs_without_tr i j pairs m m' trackers r :
  magnet_pairs i pairs m = Ok m' ->
  magnet_pairs j (filter (fun pair => pair.1 <> ascii_bytes "tr") pairs) (m <| mg_trackers := trackers |>) = Ok r ->
  r = m' <| mg_trackers := trackers |>.
Proof.
  revert i j m. induction pairs as [|[key value] pairs IH]; intros i j m; cbn [magnet_pairs].
  - intros [= <-] [= <-]. done.
  - destruct (128 <=? i); [done|]. intros (m1 & H1 & H)%bind_Ok. rewrite filter_cons. cbn [fst].
    case_decide as Hk.
    + cbn [magnet_pairs]. destruct (128 <=? j); [done|]. rewrite (magnet_pair_other _ _ _ _ _ Hk H1). cbn [mbind result_bind].
      by apply (IH (i + 1)).
    + subst key. apply magnet_pair_tr in H1 as (url & _ & ->). intros Hr.
      apply (IH _ j _ H). by rewrite set_trackers_twice.
Qed.

Lemma magnet_pairs_app i pairs pairs' m r :
  magnet_pairs i (pairs ++ pairs') m = Ok r ->
  exists m1, magnet_pairs i pairs m = Ok m1 /\ magnet_pairs (i + blen pairs) pairs' m1 = Ok r.
Proof.
  revert i m. induction pairs as [|[key value] pairs IH]; intros i m; cbn [app magnet_pairs].
  - intros H. exists m. change (blen []) with 0. by rewrite N.add_0_r.
  - destruct (128 <=? i); [done|]. intros (m1 & H1 & H)%bind_Ok. apply IH in H as (m2 & H2 & H). exists m2.
    rewrite H1. cbn [mbind result_bind]. rewrite blen_cons, N.add_assoc. done.
Qed.

(** A serialized endpoint that is accepted is accepted as it is. *)
Lemma endpoint_fixed url url' tracker : normalized tracker url -> endpoint url tracker = Ok url' -> url' = url.
Proof.
  intros [value Hv] He. assert (Hlen : blen url <= 4096).
  { unfold endpoint in He. destruct (_ || _) eqn:Hg; [done|]. by apply orb_false_iff in Hg as [?%N.ltb_ge _]. }
  destruct (endpoint_again _ _ _ Hv Hlen) as [Hagain _]. congruence.
Qed.

Lemma magnet_pairs_tr i trackers m r :
  Forall (normalized true) trackers -> magnet_pairs i (tr_pair <$> trackers) m = Ok r ->
  r = m <| mg_trackers := mg_trackers m ++ trackers |>.
Proof.
  intros Hn. revert i m. induction Hn as [|url trackers Hu _ IH]; intros i m.
  - intros [= <-]. rewrite app_nil_r. by destruct m.
  - rewrite fmap_cons. cbn [magnet_pairs tr_pair]. destruct (128 <=? i); [done|]. intros (m1 & H1 & H)%bind_Ok.
    apply magnet_pair_tr in H1 as (url' & He & ->). apply (endpoint_fixed _ _ _ Hu) in He as ->.
    apply IH in H as ->. destruct m. cbn. by rewrite <- app_assoc.
Qed.

Lemma change_trackers_normalized old add exclude trackers :
  Forall (normalized true) old -> change_trackers old add exclude = Ok trackers -> Forall (normalized true) trackers.
Proof.
  intros Ho. unfold change_trackers. intros (ts & Hts & H)%bind_Ok. destruct (64 <? _); [done|]. injection H as <-.
  eapply for_each_inv, Hts.
  - intros value s s' Hs Hv. apply bind_Ok in Hv as (url & Hurl & [= <-]). case_bool_decide; [done|].
    rewrite Forall_app, Forall_singleton. split; [done|]. by exists value.
  - apply Forall_forall. intros u [_ Hu]%list_elem_of_filter. by apply (proj1 (Forall_forall _ _) Ho).
Qed.

(** C0: a magnet whose trackers were changed parses, and has the original's hashes, name, web seeds and peers with
    exactly the trackers asked for: those that were not excluded, then the additions that were not there yet. *)
Theorem magnet_with_trackers_exact value add exclude out :
  magnet_with_trackers value add exclude = Ok out ->
  exists m trackers, parse_magnet value = Ok m /\ change_trackers (mg_trackers m) add exclude = Ok trackers /\
    parse_magnet out = Ok (m <| mg_trackers := trackers |>).
Proof.
  unfold magnet_with_trackers. intros (m & Hm & H)%bind_Ok. apply bind_Ok in H as (trackers & Ht & H).
  apply bind_Ok in H as (u & Hu%ok_or_Ok & H). apply bind_Ok in H as (m' & Hm' & [= <-]). exists m, trackers.
  split_and!; [done|done|]. rewrite Hm'. f_equal.
  destruct (parse_magnet_pairs _ _ Hm) as (u0 & Hu0 & Hpairs & _). assert (u0 = u) as -> by congruence.
  destruct (parse_magnet_pairs _ _ Hm') as (u1 & Hu1 & Hpairs' & _).
  destruct (url_pairs value u (filter (fun pair => pair.1 <> ascii_bytes "tr") (url_query_pairs u) ++ (tr_pair <$> trackers)) Hu)
    as [Hre Hq]. assert (u1 = url_with_pairs (filter (fun pair => pair.1 <> ascii_bytes "tr") (url_query_pairs u)
      ++ (tr_pair <$> trackers)) u) as -> by congruence.
  rewrite Hq in Hpairs'. apply magnet_pairs_app in Hpairs' as (m1 & H1 & H2).
  apply (magnet_pairs_without_tr 0 0 _ _ _ [] m1 Hpairs) in H1 as ->. apply magnet_pairs_tr in H2 as ->; [by destruct m|].
  eapply change_trackers_normalized, Ht. apply (parse_magnet_wf _ _ Hm).
Qed.
End laws.

Definition magnet_example : str :=
  ascii_bytes "magnet:?xt=urn:btih:MFRGGZDFMZTWQ2LKnnwg23tpobyxe43u&dn=album&tr=http://tracker.example/a&x.pe=192.0.2.1:6881".
Definition magnet_parsed : Magnet :=
  match @parse_magnet plain_urls magnet_example with Ok m => m | Err _ => blank_magnet end.
Definition magnet_changed : result BtError str :=
  @magnet_with_trackers plain_urls magnet_example (ascii_bytes <$> ["udp://new.example:80"]%string)
    (ascii_bytes <$> ["*"]%string).

Lemma magnet_sound_witness :
  @magnet_wf plain_urls magnet_parsed /\ length (mg_peers magnet_parsed) = 1%nat.
Proof.
  split; [|vm_compute; reflexivity].
  refine (proj1 (@magnet_sound plain_urls magnet_example magnet_parsed _)). vm_compute. reflexivity.
Defined.

Lemma magnet_with_trackers_exact_witness :
  exists m trackers, @parse_magnet plain_urls magnet_example = Ok m /\
    @change_trackers plain_urls (mg_trackers m) (ascii_bytes <$> ["udp://new.example:80"]%string) (ascii_bytes <$> ["*"]%string)
    = Ok trackers /\
    @parse_magnet plain_urls (written magnet_changed) = Ok (m <| mg_trackers := trackers |>).
Proof.
  assert (Hw : magnet_changed = Ok (written magnet_changed)) by (vm_compute; reflexivity). unfold magnet_changed at 1 in Hw.
  exact (@magnet_with_trackers_exact plain_urls plain_url_laws magnet_example (ascii_bytes <$> ["udp://new.example:80"]%string)
    (ascii_bytes <$> ["*"]%string) (written magnet_changed) Hw).
Defined.
